(* ===== verification/_CoqProject ===== *)
-Q . S2P
Prelude.v
Byteorder.v
Structs.v
Checksum.v
Packet.v
Helper.v
Arp.v
Ipv4.v
Sha1.v
LanClient.v
Dispatch.v
LanPlay.v
Main.v
RpcText.v
RpcServer.v
RpcWs.v
Proxy.v
Socks5.v
PcapLoop.v
Nx.v
NxClient.v
NxTap.v
NxSession.v
LdnBridge.v
NxGate.v
NxConfig.v
NxHosts.v
NxMain.v
HbApp.v
LanProtocol.v
LanDiscovery.v
LdnComm.v
LdnPlay.v
UvTcp.v
UvTcpTypes.v
UvLwip.v
TcpProxy.v
Gateway.v
