(* ===== verification/Prelude.v ===== *)
(** * switch-lan-play, verified

    switch-lan-play connects game consoles on different local networks.  A client
    captures the frames of the local segment, answers for the consoles that are
    elsewhere, and relays IPv4 packets to a server, which forwards them to the other
    clients.  The client exists twice: as a desktop program, with a gateway to the
    internet and a control server, and as a module that runs on the console itself, next
    to [ldn_mitm], which turns the console's wireless play into network packets.  An
    application on the console sets it up.  This development models these programs and
    proves what makes them correct.

    ** The program and the files

    A frame captured on the local segment enters at [lan_play_pcap_handler] and goes
    through [get_packet], [process_ether] and then [process_arp] or [process_ipv4];
    it is answered (ARP, ICMP), delivered to a local console, handed to the gateway, or
    relayed by [lan_client_send_ipv4].  A datagram from the server enters at
    [lan_client_on_recv]: a packet or the last fragment of one is put on the segment
    as a frame.  Timers send keep-alives.  [main] parses the command line, sets the
    client up and runs the event loop.  The gateway side talks to lwIP through
    [uv_lwip], which gives libuv-like sockets for the connections lwIP accepts.

    On the console, [main] waits until a game uses local play, which it learns from
    [ldn_mitm] through the gate, and then runs the client.  The packets of the game reach the
    client through the bridge, which [ldn_mitm] sends a copy of them.

    - [Prelude] (this file): machine integers, memory objects, the effect monad,
      Hoare-style predicates, automation and generic lemmas.
    - [Byteorder]: [base/byteorder.h] and the load, store, copy and compare macros of
      [src/helper.h].
    - [Structs]: the structures of [src/packet.h], [src/arp.h], [src/lan-play.h] and
      [src/config.h]; the state ([world]), the environment ([Env]) and the events.
    - [Checksum], [Packet], [Arp], [Ipv4], [Sha1]: [src/ipv4/ipv4.c] (checksums),
      [src/packet.c], [src/arp.c], [src/ipv4/*.c], [src/sha1.c].
    - [LanClient]: [src/lan-client.c], the relay client.
    - [Dispatch]: the capture path, [process_ether], [process_ipv4], [get_packet] and
      the handlers of [src/lan-play.c].
    - [Helper], [LanPlay], [Main]: [src/helper.c]; set-up, tear-down and the event loop
      of [src/lan-play.c]; [src/main.c].
    - [PcapLoop]: [src/pcaploop.cpp], the capture and sending of frames on the interfaces.
    - [RpcText], [RpcServer], [RpcWs]: [src/rpc/*], the control server: text and base64,
      commands and authorisation, WebSocket and files.
    - [UvTcp], [UvTcpTypes], [UvLwip]: [uv_lwip/uv_lwip.c], its connections (write
      pump, receive buffer, close), the types of their fields, and the network
      interface (accepting, input, output, timers).
    - [Proxy], [Socks5], [TcpProxy], [Gateway]: [src/gateway.cpp], [src/proxy_*] and
      [uv_lwip/uv_lwip.hpp]: the table of UDP associations, the SOCKS5 client, a TCP
      connection joined to a server, and the owner of all connections.
    - [Nx]: the console copies of the packet layer, [sysmodule/source/packet.c],
      [arp.c] and [ipv4/*.c], against the desktop definitions.
    - [NxClient]: the console's relay client, [sysmodule/source/lan_client_nx.cpp], and the
      turns of its threads.
    - [NxTap]: the console's network interface, [sysmodule/source/tap_iface.cpp]: what
      becomes of a frame for the console, and the turns of the capture thread.
    - [NxSession]: the client on its interface, [console_port], an instance of [NxPort] with
      the laws [PortLaws]; sessions of turns of all the threads.
    - [LdnBridge]: [sysmodule/source/ldn_bridge.cpp], between [ldn_mitm] and the relay.
    - [NxGate], [NxConfig], [NxHosts], [NxMain]: [ldn_gate.cpp], [config.cpp], the names of
      relays in [main.cpp], and [main.cpp] itself with [foreground_detector.cpp].
    - [HbApp]: [hbapp/source/main.cpp], the set-up application.
    - [LanProtocol], [LanDiscovery], [LdnComm]: [ldn_mitm/source/lan_protocol.cpp],
      [lan_discovery.cpp], [ldn_icommunication.cpp] and [ldn_gate_client.cpp]: packets,
      lobbies, and the service games call.
    - [LdnPlay]: a lobby of [LanDiscovery] on its way through [LdnBridge].

    ** How the code is modelled

    A function of the source is a definition of the same name; the console copies
    have the prefix [nx_].  A [w]-bit integer is a [Z] and every store that can wrap
    wraps explicitly ([u8], [u16], [u32], [u64]).  A memory object is the list of its
    bytes; an access is checked, and one outside the object stops the run with [Oob].
    Functions with effects are in the state monad [M]: they return with a new state or
    stop, with [Oob], [NullDeref], [AssertFail] or [Exited].  So a theorem that a
    function returns [Ok] is a proof of memory safety and of termination as well.  The
    state of the client is [world]: the [lan_play] structure, the number of external
    calls made, and the trace of what left the program (frames, datagrams, dumps,
    gateway packets).  The requests of a TCP connection are a heap, since they are
    linked through pointers and freed by their owner; reading a freed one stops.

    What is not code of the repository is a parameter: [Env] has the results of the
    clock, libpcap, libuv, the resolver and the contents of uninitialised memory, by
    number of calls made, and nothing is assumed about them; [Host] is the byte order,
    either one.  lwIP is the class [Lwip] with the laws [LwipLaws] (what [tcp_write],
    [tcp_sndbuf] and [tcp_output] document), discharged by a simulated control block in
    the witnesses.  The two C++ functions the console port calls are [NxPort], an
    interface with the desktop's and the console's functions as instances.  The other
    systems are classes too: [NxSys] (once in [NxClient], once in [NxMain]) and
    [NxTapSys] for the console, [MitmSys] and [TickClock] for [ldn_mitm], [Pcap] for
    libpcap.  Interfaces of the source are classes with the implementations as instances:
    [UdpItem], [ConsoleTcp], [IProxyTcp], [Callbacks].  Threads run by turns: a turn is one
    round of a thread's loop, and theorems quantify over the order of the turns.

    Loops with an index or over a list are structural.  The others have fuel, and the
    fuel is shown to be enough where a result is claimed: [word_loop] one round per two
    bytes, [fold_loop] one per subtraction, [pad_loop] of SHA-1 at most 64, [update_loop]
    one per block, [send_frags] and [nx_send_frags] one per fragment (at most the length of
    the packet), [nx_keepalive_loop] one per turn of a thread that may run for ever,
    [queue_fuel] one per live request, [write_fuel] one per buffer of a live request plus
    one, [write_buf_loop] one per byte of the buffer.  A loop that reads a file has one round per
    byte of the file plus one.  A loop that waits for the world (the program of the console
    in [NxMain], the screens of [HbApp]) takes a number of turns and gives [None] when they are
    used up; theorems about it hold for every number, and say what is true while it waits.

    ** What is proved

    - Relay: parts of a packet arriving in any order, duplicated and mixed with others,
      are reassembled to the packet that was fragmented; what is sent has the documented
      form; the receive handler never leaves its buffers except on a one-byte login
      request, which does; a full table of young entries drops new packets for ever.
    - Routing: which frames and datagrams leave for each captured packet; the handler
      is safe on every completely captured frame but two kinds.  All outcomes are stated:
      refused sends, frames that do not fit, an entry that expires between two look-ups.
    - The whole client: from set-up on, over any sequence of frames, datagrams, timer
      ticks and gateway packets, the invariant holds and the next input is handled.
    - ARP: the cache is a finite map with expiry; which requests are answered.
    - Formats: checksums equal RFC 1071, SHA-1 equals FIPS 180-1 and streams, headers
      built are valid and parse back.
    - Command line: the parser inverts printing; the program leaves none of its objects up to
      the event loop, and stops early only through [exit] or, started without a program name,
      by printing a null string; addresses are parsed as documented.
    - TCP: over any run, the bytes handed to lwIP followed by those queued are exactly
      what was written, in order; requests complete once and in order, also on close;
      received data is taken whole or refused, and reaches the reader unchanged; every field
      stays within its type and the counters are exact; a connection offered is accepted or
      reset; packet buffers are neither leaked nor freed twice.  The operations return and the
      pump terminates, but for one case that is stated and proved: after [tcp_write] failed
      with another error than lack of memory, the pump uses the null control block.
    - The console port: it agrees with the desktop code on frames that pass the
      desktop's checks, two kinds of frame excepted which it refuses, and never looks at the
      received length otherwise.
    - The console's relay client: it sends the fragments the desktop sends and
      reassembles them; in every order of its threads' turns, the capture's and the
      injection's included, it is safe on any input but a captured packet whose header claims
      more than the capture buffer holds;
      it differs from the desktop only once the table is full, and then never recovers
      by itself; it stops the runtime at the sixth failed keep-alive in a row.
    - The console's interface: it parses as the packet layer does, gives a game the
      data a peer sent, and captures everything but the console's own traffic.
    - The console's program: services, threads and objects are used in order and given back
      on every path, but for the power-state service, which stays open; the client runs as
      long as the specification of the gate wants it at the time the clock shows, with
      the settings of the configuration file; a name once resolved is found again.
    - The set-up application: an address entered there reaches the client; the list of
      relays survives its file; no input leaves a buffer or a row of the list but one: an
      address too long for its row is read on into the rows behind it.
    - Local play: packets survive compression and any cut of the stream; the node table a
      host announces says which stations joined; a scan finds what answered it; the record
      published for the gate follows the lobby; a packet crosses two bridges unchanged but for the addresses; which
      address a guest dials.
    - The gateway: a reply reaches the console that asked, or nobody; when a SOCKS5 server has granted a
      request, and what was sent until then; neither direction of a TCP connection is ever
      stuck; when the gateway is freed.
    - The control server: without the token nothing happens; the client is closed with the
      options it was started with; frames are decoded completely, on conditions that are named
      (the code reads an emptied vector and shifts too far); files stay below the root.
    - Capture: where a frame leaves and with which source address.

    Defects the proofs met are stated as theorems too, and listed with the findings.

    ** Not modelled

    Logging and the text of messages (they have no effect on the state).  Drawing in the
    set-up application: pixels that nothing reads.  The registration of [ldn_mitm] with the
    console's service framework, its heap and its switches.  lwIP itself, a third-party
    stack with the interface above.  The relay server (TypeScript), against which the client
    is verified for arbitrary behaviour.  The console's [sha1.c] is the desktop's file but for
    the wipe of a local copy.  Threads interleave by whole turns: that two threads share a
    buffer without a lock inside a turn is outside the model.  Memory is per object: two
    pointers into the same object that the source keeps apart (a frame and its payload) are
    views of it, and allocation does not fail where the source does not test for it. *)

From stdpp Require Export base tactics list list_numbers numbers option sets.
From Stdlib Require Export ZArith Lia.

#[global] Open Scope Z_scope.

(** ** Machine integers

    A [w]-bit unsigned value is a [Z] in [0, 2^w); conversions and overflowing
    operations wrap explicitly. *)

Definition u8 (x : Z) : Z := x mod 2 ^ 8.
Definition u16 (x : Z) : Z := x mod 2 ^ 16.
Definition u32 (x : Z) : Z := x mod 2 ^ 32.
Definition u64 (x : Z) : Z := x mod 2 ^ 64.

(** Conversion to a two's-complement [int]. *)
Definition s32 (x : Z) : Z := (x + 2 ^ 31) mod 2 ^ 32 - 2 ^ 31.

Definition is_u8 (x : Z) : Prop := 0 <= x < 2 ^ 8.
Definition is_u16 (x : Z) : Prop := 0 <= x < 2 ^ 16.
Definition is_u32 (x : Z) : Prop := 0 <= x < 2 ^ 32.

(** A byte string: every element is an unsigned octet. *)
Abbreviation bytes := (list Z).
Definition is_bytes (l : bytes) : Prop := Forall is_u8 l.

(** Length as an integer, the way C code measures buffers. *)
Definition zlen {A} (l : list A) : Z := Z.of_nat (length l).

#[global] Arguments zlen : simpl never.
#[global] Arguments u8 : simpl never.
#[global] Arguments u16 : simpl never.
#[global] Arguments u32 : simpl never.
#[global] Arguments u64 : simpl never.
#[global] Arguments s32 : simpl never.

(** ** Memory objects

    A memory object is the list of its bytes.  An access outside the object is
    [None]: the accesses the C source performs without a check are exactly those
    whose [None] case has to be excluded by a theorem. *)

Definition mem_get (m : bytes) (off n : Z) : option bytes :=
  if (0 <=? off) && (0 <=? n) && (off + n <=? zlen m)
  then Some (take (Z.to_nat n) (drop (Z.to_nat off) m))
  else None.

Definition mem_put (m : bytes) (off : Z) (bs : bytes) : option bytes :=
  if (0 <=? off) && (off + zlen bs <=? zlen m)
  then Some (take (Z.to_nat off) m ++ bs ++ drop (Z.to_nat off + length bs) m)
  else None.

(** The object a pointer [p + off] denotes, up to the end of [p]'s object.
    One past the end is a valid pointer. *)
Definition mem_from (m : bytes) (off : Z) : option bytes :=
  if (0 <=? off) && (off <=? zlen m) then Some (drop (Z.to_nat off) m) else None.

(** ** Effects

    A computation runs on an explicit state and either returns a value and the
    next state or stops: it touched memory outside an object, dereferenced a null
    pointer, failed an assertion, or called [exit]. *)

Inductive stop :=
| Oob
| NullDeref
| AssertFail
| Exited (code : Z).

Inductive outcome (S A : Type) :=
| Ok (a : A) (s : S)
| Stop (e : stop).
Arguments Ok {S A} a s.
Arguments Stop {S A} e.

Definition M (S A : Type) : Type := S -> outcome S A.

Definition ret {S A} (a : A) : M S A := fun s => Ok a s.
Definition bind {S A B} (m : M S A) (k : A -> M S B) : M S B :=
  fun s => match m s with Ok a s' => k a s' | Stop e => Stop e end.
Definition gets {S A} (f : S -> A) : M S A := fun s => Ok (f s) s.
Definition modify {S} (f : S -> S) : M S unit := fun s => Ok tt (f s).
Definition halt {S A} (e : stop) : M S A := fun _ => Stop e.

(** An access to a memory object inside an effectful computation. *)
Definition mem {S A} (o : option A) : M S A :=
  match o with Some a => ret a | None => halt Oob end.

Declare Scope eff_scope.
Delimit Scope eff_scope with eff.
Notation "'let*' x ':=' c 'in' k" := (bind c (fun x => k))
  (at level 10, x pattern, c at level 150, k at level 200) : eff_scope.
Notation "c ';;;' k" := (bind c (fun _ => k))
  (at level 100, k at level 200, right associativity) : eff_scope.
#[global] Open Scope eff_scope.

(** Iteration over a list of steps; a C [for] over an index range. *)
Fixpoint for_each {S A} (l : list A) (body : A -> M S unit) : M S unit :=
  match l with
  | [] => ret tt
  | x :: l' => body x ;;; for_each l' body
  end.

(** [post m Q s]: from [s], [m] does not stop and its result satisfies [Q]. *)
Definition post {S A} (m : M S A) (Q : A -> S -> Prop) (s : S) : Prop :=
  match m s with Ok a s' => Q a s' | Stop _ => False end.

(** [wlp m Q s]: from [s], if [m] does not stop, its result satisfies [Q]. *)
Definition wlp {S A} (m : M S A) (Q : A -> S -> Prop) (s : S) : Prop :=
  match m s with Ok a s' => Q a s' | Stop _ => True end.

(** ** Automation *)

Create HintDb lanplay.
Create HintDb wlp.
Create HintDb wrap.
Create Rewrite HintDb zlen.

(** ** Generic lemmas *)

Section zlen.
Context {A : Type}.
Implicit Types l : list A.

Lemma zlen_nonneg l : 0 <= zlen l.
Proof. unfold zlen; lia. Qed.

Lemma zlen_nil : zlen (@nil A) = 0.
Proof. done. Qed.

Lemma zlen_cons (x : A) l : zlen (x :: l) = zlen l + 1.
Proof. unfold zlen; simpl length; lia. Qed.

Lemma zlen_app l k : zlen (l ++ k) = zlen l + zlen k.
Proof. unfold zlen; rewrite length_app; lia. Qed.

Lemma zlen_take n l : 0 <= n <= zlen l -> zlen (take (Z.to_nat n) l) = n.
Proof. unfold zlen; rewrite length_take; lia. Qed.

Lemma zlen_drop n l : 0 <= n <= zlen l -> zlen (drop (Z.to_nat n) l) = zlen l - n.
Proof. unfold zlen; rewrite length_drop; lia. Qed.

Lemma zlen_replicate n (x : A) : 0 <= n -> zlen (replicate (Z.to_nat n) x) = n.
Proof. unfold zlen; rewrite length_replicate; lia. Qed.

Lemma zlen_insert i (x : A) l : zlen (<[i:=x]> l) = zlen l.
Proof. unfold zlen; by rewrite length_insert. Qed.

Lemma zlen_0_inv l : zlen l = 0 -> l = [].
Proof. destruct l; [done|]; rewrite zlen_cons; pose proof (zlen_nonneg l); lia. Qed.

Lemma to_nat_zlen l : Z.to_nat (zlen l) = length l.
Proof. unfold zlen; lia. Qed.
End zlen.

#[export] Hint Rewrite @zlen_nil @zlen_cons @zlen_app @zlen_insert : zlen.

Section wrap.
Lemma u8_range x : is_u8 (u8 x).
Proof. apply Z.mod_pos_bound; lia. Qed.
Lemma u16_range x : is_u16 (u16 x).
Proof. apply Z.mod_pos_bound; lia. Qed.
Lemma u32_range x : is_u32 (u32 x).
Proof. apply Z.mod_pos_bound; lia. Qed.
Lemma u8_id x : is_u8 x -> u8 x = x.
Proof. apply Z.mod_small. Qed.
Lemma u16_id x : is_u16 x -> u16 x = x.
Proof. apply Z.mod_small. Qed.
Lemma u32_id x : is_u32 x -> u32 x = x.
Proof. apply Z.mod_small. Qed.
Lemma s32_id x : - 2 ^ 31 <= x < 2 ^ 31 -> s32 x = x.
Proof. intros ?. unfold s32. rewrite Z.mod_small; lia. Qed.
End wrap.

#[export] Hint Resolve u8_range u16_range u32_range : lanplay.
#[export] Hint Resolve zlen_nonneg : lanplay.

Section memory.
Implicit Types m bs : bytes.

Lemma mem_get_Some m off n :
  0 <= off -> 0 <= n -> off + n <= zlen m ->
  mem_get m off n = Some (take (Z.to_nat n) (drop (Z.to_nat off) m)).
Proof.
  intros. unfold mem_get.
  destruct (Z.leb_spec 0 off), (Z.leb_spec 0 n), (Z.leb_spec (off + n) (zlen m)); naive_solver lia.
Qed.

Lemma mem_get_None m off n :
  0 <= off -> 0 <= n -> zlen m < off + n -> mem_get m off n = None.
Proof.
  intros. unfold mem_get. destruct (Z.leb_spec (off + n) (zlen m)); [lia|].
  by rewrite andb_false_r.
Qed.

Lemma mem_get_inv m off n bs :
  mem_get m off n = Some bs ->
  0 <= off /\ 0 <= n /\ off + n <= zlen m /\
  bs = take (Z.to_nat n) (drop (Z.to_nat off) m).
Proof.
  unfold mem_get. intros H.
  destruct (Z.leb_spec 0 off), (Z.leb_spec 0 n), (Z.leb_spec (off + n) (zlen m));
    simplify_eq/=; done.
Qed.

Lemma mem_get_zlen m off n bs : mem_get m off n = Some bs -> zlen bs = n.
Proof.
  intros (?&?&?&->)%mem_get_inv. rewrite zlen_take; [done|].
  rewrite zlen_drop; lia.
Qed.

Lemma mem_get_is_bytes m off n bs :
  is_bytes m -> mem_get m off n = Some bs -> is_bytes bs.
Proof. intros Hm (_&_&_&->)%mem_get_inv. apply Forall_take, Forall_drop, Hm. Qed.

Lemma mem_put_Some m off bs :
  0 <= off -> off + zlen bs <= zlen m ->
  mem_put m off bs =
    Some (take (Z.to_nat off) m ++ bs ++ drop (Z.to_nat off + length bs) m).
Proof.
  intros. unfold mem_put.
  destruct (Z.leb_spec 0 off), (Z.leb_spec (off + zlen bs) (zlen m)); naive_solver lia.
Qed.

Lemma mem_put_None m off bs : zlen m < off + zlen bs -> mem_put m off bs = None.
Proof.
  intros. unfold mem_put. destruct (Z.leb_spec (off + zlen bs) (zlen m)); [lia|].
  by rewrite andb_false_r.
Qed.

Lemma mem_put_inv m off bs m' :
  mem_put m off bs = Some m' ->
  0 <= off /\ off + zlen bs <= zlen m /\
  m' = take (Z.to_nat off) m ++ bs ++ drop (Z.to_nat off + length bs) m.
Proof.
  unfold mem_put. intros H.
  destruct (Z.leb_spec 0 off), (Z.leb_spec (off + zlen bs) (zlen m)); by simplify_eq/=.
Qed.

Lemma mem_put_zlen m off bs m' : mem_put m off bs = Some m' -> zlen m' = zlen m.
Proof.
  intros (?&?&->)%mem_put_inv. unfold zlen in *.
  rewrite !length_app, length_take, length_drop. lia.
Qed.

Lemma mem_put_is_bytes m off bs m' :
  is_bytes m -> is_bytes bs -> mem_put m off bs = Some m' -> is_bytes m'.
Proof.
  intros Hm Hb (_&_&->)%mem_put_inv.
  repeat apply Forall_app_2; auto using Forall_take, Forall_drop.
Qed.

(** What a store of [bs] at [off] leaves at every index. *)
Lemma mem_put_lookup m off bs m' (i : nat) :
  mem_put m off bs = Some m' ->
  m' !! i = if decide (off <= Z.of_nat i < off + zlen bs)
            then bs !! (i - Z.to_nat off)%nat else m !! i.
Proof.
  intros (?&Hle&->)%mem_put_inv. unfold zlen in *.
  assert (Hlt : length (take (Z.to_nat off) m) = Z.to_nat off)
    by (rewrite length_take; lia).
  case_decide.
  - rewrite lookup_app_r, Hlt by lia. rewrite lookup_app_l by lia. done.
  - destruct (decide (Z.of_nat i < off)).
    + rewrite lookup_app_l, lookup_take_lt by lia. done.
    + rewrite lookup_app_r, Hlt by lia. rewrite lookup_app_r by lia.
      rewrite lookup_drop. f_equal. lia.
Qed.

Lemma mem_from_Some m off :
  0 <= off <= zlen m -> mem_from m off = Some (drop (Z.to_nat off) m).
Proof.
  intros. unfold mem_from.
  by rewrite (proj2 (Z.leb_le 0 off)), (proj2 (Z.leb_le off (zlen m))) by lia.
Qed.
End memory.

(** What is before and after the first [c] of a string. *)
Fixpoint split_char (s : bytes) (c : Z) : option (bytes * bytes) :=
  match s with
  | [] => None
  | x :: s => if x =? c then Some ([], s) else
                match split_char s c with Some (a, b) => Some (x :: a, b) | None => None end
  end.

Section split_char.
Implicit Types s a b : bytes.

Lemma split_char_app s c a b : split_char s c = Some (a, b) -> s = a ++ c :: b.
Proof.
  revert a b. induction s as [|x s IH]; intros a b; cbn; [done|]. destruct (Z.eqb_spec x c) as [->|].
  - by intros [= <- <-].
  - destruct (split_char s c) as [[a' b']|]; [|done]. intros [= <- <-]. by rewrite (IH a' b' eq_refl) at 1.
Qed.
Lemma split_char_skip a b c : c ∉ a -> split_char (a ++ c :: b) c = Some (a, b).
Proof.
  induction a as [|x a IH]; intros Hc; cbn; [by rewrite Z.eqb_refl|].
  rewrite (proj2 (Z.eqb_neq x c)) by set_solver. by rewrite IH by set_solver.
Qed.
Lemma split_char_none s c : c ∉ s -> split_char s c = None.
Proof.
  induction s as [|x s IH]; intros Hc; cbn; [done|]. rewrite (proj2 (Z.eqb_neq x c)) by set_solver.
  by rewrite IH by set_solver.
Qed.
Lemma split_char_before s c a b : split_char s c = Some (a, b) -> c ∉ a.
Proof.
  revert a b. induction s as [|x s IH]; intros a b; cbn; [done|]. destruct (Z.eqb_spec x c) as [->|].
  - intros [= <- <-]. apply not_elem_of_nil.
  - destruct (split_char s c) as [[a' b']|]; [|done]. intros [= <- <-]. specialize (IH a' b' eq_refl). set_solver.
Qed.
End split_char.

Section effects.
Context {S : Type}.

Lemma bind_ok {A B} (m : M S A) (k : A -> M S B) s a s' :
  m s = Ok a s' -> bind m k s = k a s'.
Proof. unfold bind. by intros ->. Qed.

Lemma bind_stop {A B} (m : M S A) (k : A -> M S B) s e :
  m s = Stop e -> bind m k s = Stop e.
Proof. unfold bind. by intros ->. Qed.

Lemma bind_ok_inv {A B} (m : M S A) (k : A -> M S B) s b s'' :
  bind m k s = Ok b s'' -> exists a s', m s = Ok a s' /\ k a s' = Ok b s''.
Proof. unfold bind. destruct (m s); naive_solver. Qed.

Lemma bind_assoc {A B C} (m : M S A) (f : A -> M S B) (g : B -> M S C) s :
  bind (bind m f) g s = bind m (fun x => bind (f x) g) s.
Proof. unfold bind. by destruct (m s). Qed.

Lemma post_ret {A} (a : A) (Q : A -> S -> Prop) s : Q a s -> post (ret a) Q s.
Proof. done. Qed.

Lemma post_bind {A B} (m : M S A) (k : A -> M S B) Q s :
  post m (fun a => post (k a) Q) s -> post (bind m k) Q s.
Proof. unfold post, bind. destruct (m s); done. Qed.

Lemma post_mono {A} (m : M S A) (Q Q' : A -> S -> Prop) s :
  post m Q s -> (forall a s', Q a s' -> Q' a s') -> post m Q' s.
Proof. unfold post. destruct (m s); auto. Qed.

Lemma post_gets {A} (f : S -> A) Q s : Q (f s) s -> post (gets f) Q s.
Proof. done. Qed.

Lemma post_modify (f : S -> S) Q s : Q tt (f s) -> post (modify f) Q s.
Proof. done. Qed.

Lemma post_mem {A} (o : option A) a Q (s : S) : o = Some a -> Q a s -> post (mem o) Q s.
Proof. by intros ->. Qed.

Lemma post_ok {A} (m : M S A) a s s' (Q : A -> S -> Prop) :
  m s = Ok a s' -> Q a s' -> post m Q s.
Proof. unfold post. by intros ->. Qed.

Lemma post_inv {A} (m : M S A) Q s :
  post m Q s -> exists a s', m s = Ok a s' /\ Q a s'.
Proof. unfold post. destruct (m s); naive_solver. Qed.

Lemma wlp_bind {A B} (m : M S A) (k : A -> M S B) Q s :
  wlp m (fun a => wlp (k a) Q) s -> wlp (bind m k) Q s.
Proof. unfold wlp, bind. destruct (m s); done. Qed.

Lemma wlp_mono {A} (m : M S A) (Q Q' : A -> S -> Prop) s :
  wlp m Q s -> (forall a s', Q a s' -> Q' a s') -> wlp m Q' s.
Proof. unfold wlp. destruct (m s); auto. Qed.

Lemma wlp_mem {A} (o : option A) Q (s : S) : (forall a, o = Some a -> Q a s) -> wlp (mem o) Q s.
Proof. destruct o; [|done]. intros Ho. by apply Ho. Qed.

Lemma wlp_ok {A} (m : M S A) Q s a s' : wlp m Q s -> m s = Ok a s' -> Q a s'.
Proof. unfold wlp. intros Hm E. by rewrite E in Hm. Qed.

(** An invariant of every iteration is an invariant of the loop. *)
Lemma post_for_each {A} (l : list A) (body : A -> M S unit) (I : S -> Prop) s :
  I s -> (forall x s, x ∈ l -> I s -> post (body x) (fun _ => I) s) ->
  post (for_each l body) (fun _ => I) s.
Proof.
  revert s. induction l as [|x l IH]; intros s Hs Hbody; [done|]. simpl.
  apply post_bind. eapply post_mono; [apply Hbody; [set_solver|done]|].
  intros [] s' Hs'. apply IH; [done|]. intros; apply Hbody; [set_solver|done].
Qed.
End effects.

(** Case analysis on the tests of the source: one case per truth value, with the
    arithmetic fact of the branch as a hypothesis. *)
Ltac case_test :=
  match goal with
  | |- context [if ?a <? ?b then _ else _] => destruct (Z.ltb_spec a b)
  | |- context [if ?a <=? ?b then _ else _] => destruct (Z.leb_spec a b)
  | |- context [if ?a =? ?b then _ else _] => destruct (Z.eqb_spec a b)
  | |- context [if negb (?a =? ?b) then _ else _] => destruct (Z.eqb_spec a b); simpl negb; cbv iota
  | |- context [if bool_decide ?P then _ else _] => case_bool_decide
  end.

(** Lengths of concrete list expressions. *)
Ltac zlens := autorewrite with zlen in *.

(** Linear arithmetic over lengths: normalise [zlen] and use that it is
    non-negative. *)
Ltac zlen_facts :=
  repeat match goal with
  | _ : context [@zlen ?A ?l] |- _ =>
      lazymatch goal with _ : 0 <= @zlen A l |- _ => fail | _ => pose proof (@zlen_nonneg A l) end
  | |- context [@zlen ?A ?l] =>
      lazymatch goal with _ : 0 <= @zlen A l |- _ => fail | _ => pose proof (@zlen_nonneg A l) end
  end.
Ltac zlia := zlens; zlen_facts; lia.

(** Running an option computation one access at a time. *)
Lemma obind_Some {A B} (m : option A) (f : A -> option B) a : m = Some a -> m ≫= f = f a.
Proof. by intros ->. Qed.

(** Evaluate the accesses to objects of known size. *)
Ltac omem := repeat (erewrite obind_Some by reflexivity; cbv beta).

(** Updating an element in place is storing its new value. *)
Lemma list_alter_at {A} (f : A -> A) (l : list A) (i : nat) x :
  l !! i = Some x -> alter f i l = <[i := f x]> l.
Proof.
  revert i. induction l as [|y l IH]; intros [|i] Hi; simplify_eq/=; [done|].
  change (y :: alter f i l = y :: <[i := f x]> l). by rewrite IH.
Qed.

(** Split an address of known length into its bytes. *)
Lemma length_4_inv {A} (l : list A) : length l = 4%nat -> exists a b c d, l = [a; b; c; d].
Proof. destruct l as [|a [|b [|c [|d [|]]]]]; intros; simplify_eq/=; eauto. Qed.
Lemma length_6_inv {A} (l : list A) :
  length l = 6%nat -> exists a b c d e f, l = [a; b; c; d; e; f].
Proof. destruct l as [|a [|b [|c [|d [|e [|f [|]]]]]]]; intros; simplify_eq/=; eauto 10. Qed.

(** The two digits of a 16-bit value are bytes. *)
Lemma hi_lo_bytes v : is_u16 v -> is_bytes [v / 256; v mod 256].
Proof.
  unfold is_u16. intros Hv. constructor; [|constructor; [|constructor]]; unfold is_u8.
  - split; [apply Z.div_pos|apply Z.div_lt_upper_bound]; lia.
  - apply Z.mod_pos_bound; lia.
Qed.
Lemma hi_u8 v : is_u16 v -> is_u8 (v / 256).
Proof. intros [H _]%hi_lo_bytes%Forall_cons. done. Qed.
Lemma lo_u8 v : is_u8 (v mod 256).
Proof. apply Z.mod_pos_bound; lia. Qed.
Lemma hi_lo_val v : v / 256 * 256 + v mod 256 = v.
Proof. pose proof (Z.div_mod v 256). lia. Qed.
#[export] Hint Resolve hi_lo_bytes hi_u8 lo_u8 : lanplay.

(** A character is not one of a literal's. *)
Ltac literal_free :=
  let H := fresh in
  intros H; vm_compute in H; repeat (apply elem_of_cons in H as [H|H]; [discriminate|]); by apply not_elem_of_nil in H.

(** Symbolic execution of a computation against [wlp]: the basic operations step,
    calls are left for the lemmas of the database [wlp]. *)
Ltac wlp_step :=
  match goal with
  | |- wlp (bind _ _) _ _ => apply wlp_bind
  | |- wlp (ret _) _ _ => unfold wlp at 1, ret at 1
  | |- wlp (gets _) _ _ => unfold wlp at 1, gets at 1; cbn beta delta [id]
  | |- wlp (let '(_, _) := ?p in _) _ _ => destruct p eqn:?
  | |- wlp (modify _) _ _ => unfold wlp at 1, modify at 1
  | |- wlp (halt _) _ _ => exact I
  | |- wlp (mem _) _ _ => apply wlp_mem; intros ? ?
  | |- wlp (if ?b then _ else _) _ _ => destruct b eqn:?
  | |- wlp (match ?o with Some _ => _ | None => _ end) _ _ => destruct o eqn:?
  end.
