(* ===== verification/Byteorder.v ===== *)
(** Byte order: [base/include/base/byteorder.h] and the load/store and address
    macros of [src/helper.h].

    The host's byte order is a parameter ([Host]): the build defines either
    [LANPLAY_LITTLE_ENDIAN] or [LANPLAY_BIG_ENDIAN].  The theorems show that what
    goes on the wire does not depend on it. *)

From S2P Require Import Prelude.

(** ** Object representation of integers *)

Inductive endian := LittleEndian | BigEndian.

Class Host := host_endian : endian.

(** The usual host, for concrete runs. *)
Definition le_host : Host := LittleEndian.

(** Little-endian digits of [x] in base 256, least significant first. *)
Fixpoint le_bytes (n : nat) (x : Z) : bytes :=
  match n with O => [] | S n => x mod 256 :: le_bytes n (x / 256) end.
Fixpoint le_val (l : bytes) : Z :=
  match l with [] => 0 | b :: l => b + 256 * le_val l end.

(** The bytes of an [n]-byte unsigned object of the host, lowest address first. *)
Definition store `{Host} (n : nat) (x : Z) : bytes :=
  match host_endian with
  | LittleEndian => le_bytes n x
  | BigEndian => reverse (le_bytes n x)
  end.
Definition load `{Host} (l : bytes) : Z :=
  match host_endian with
  | LittleEndian => le_val l
  | BigEndian => le_val (reverse l)
  end.

(** ** base/byteorder.h *)

Section byteorder.
Context `{Host}.

Definition badvpn_reverse16 (x : Z) : Z :=
  let b := store 2 x in load [nth 1 b 0; nth 0 b 0].

Definition badvpn_reverse32 (x : Z) : Z :=
  let b := store 4 x in load [nth 3 b 0; nth 2 b 0; nth 1 b 0; nth 0 b 0].

Definition badvpn_reverse64 (x : Z) : Z :=
  let b := store 8 x in
  load [nth 7 b 0; nth 6 b 0; nth 5 b 0; nth 4 b 0;
        nth 3 b 0; nth 2 b 0; nth 1 b 0; nth 0 b 0].

Definition hton8 (x : Z) : Z := x.
Definition htol8 (x : Z) : Z := x.

Definition hton16 (x : Z) : Z :=
  match host_endian with LittleEndian => badvpn_reverse16 x | BigEndian => x end.
Definition hton32 (x : Z) : Z :=
  match host_endian with LittleEndian => badvpn_reverse32 x | BigEndian => x end.
Definition hton64 (x : Z) : Z :=
  match host_endian with LittleEndian => badvpn_reverse64 x | BigEndian => x end.
Definition htol16 (x : Z) : Z :=
  match host_endian with LittleEndian => x | BigEndian => badvpn_reverse16 x end.
Definition htol32 (x : Z) : Z :=
  match host_endian with LittleEndian => x | BigEndian => badvpn_reverse32 x end.
Definition htol64 (x : Z) : Z :=
  match host_endian with LittleEndian => x | BigEndian => badvpn_reverse64 x end.

Definition ntoh8 (x : Z) : Z := hton8 x.
Definition ntoh16 (x : Z) : Z := hton16 x.
Definition ntoh32 (x : Z) : Z := hton32 x.
Definition ntoh64 (x : Z) : Z := hton64 x.
Definition ltoh8 (x : Z) : Z := htol8 x.
Definition ltoh16 (x : Z) : Z := htol16 x.
Definition ltoh32 (x : Z) : Z := htol32 x.
Definition ltoh64 (x : Z) : Z := htol64 x.

(** libc's [htons]/[ntohs]/[htonl]/[ntohl] are the same conversions. *)
Definition htons (x : Z) : Z := hton16 x.
Definition ntohs (x : Z) : Z := hton16 x.
Definition htonl (x : Z) : Z := hton32 x.
Definition ntohl (x : Z) : Z := hton32 x.
End byteorder.

(** ** helper.h: loads, stores, copies and address tests *)

Section net.
Context `{Host}.

Definition READ_NET8 (p : bytes) (o : Z) : option Z :=
  b ← mem_get p o 1; Some (load b).
Definition READ_NET16 (p : bytes) (o : Z) : option Z :=
  b ← mem_get p o 2; Some (htons (load b)).
Definition READ_NET32 (p : bytes) (o : Z) : option Z :=
  b ← mem_get p o 4; Some (ntohl (load b)).
Definition WRITE_NET8 (p : bytes) (o v : Z) : option bytes :=
  mem_put p o (store 1 (u8 v)).
Definition WRITE_NET16 (p : bytes) (o v : Z) : option bytes :=
  mem_put p o (store 2 (htons (u16 v))).
Definition WRITE_NET32 (p : bytes) (o v : Z) : option bytes :=
  mem_put p o (store 4 (htonl (u32 v))).

(** [memcpy] between objects: [n] bytes of [src] from [so] to [dst] at [off]. *)
Definition memcpy (dst : bytes) (off : Z) (src : bytes) (so n : Z) : option bytes :=
  b ← mem_get src so n; mem_put dst off b.
Definition CPY_IPV4 (dst : bytes) (off : Z) (src : bytes) (so : Z) : option bytes :=
  memcpy dst off src so 4.
Definition CPY_MAC (dst : bytes) (off : Z) (src : bytes) (so : Z) : option bytes :=
  memcpy dst off src so 6.

(** [memcmp(a, b, n) == 0] on whole address objects. *)
Definition CMP_IPV4 (ip1 ip2 : bytes) : bool := bool_decide (take 4 ip1 = take 4 ip2).
Definition CMP_MAC (mac1 mac2 : bytes) : bool := bool_decide (take 6 mac1 = take 6 mac2).

Definition IS_SUBNET (ip net mask : bytes) : bool :=
  Z.land (load ip) (load mask) =? load net.
Definition IS_BROADCAST (ip net mask : bytes) : bool :=
  Z.lor (load net) (u32 (Z.lnot (load mask))) =? load ip.
End net.

Definition LMIN (a b : Z) : Z := if a <? b then a else b.
Definition LABS (x : Z) : Z := if x <? 0 then - x else x.

(** A copy between objects given by their parts. *)
Lemma memcpy_app tail rest p d q :
  zlen d <= zlen rest ->
  memcpy (tail ++ rest) (zlen tail) (p ++ d ++ q) (zlen p) (zlen d) =
    Some (tail ++ d ++ drop (length d) rest).
Proof.
  intros Hd. unfold memcpy. rewrite mem_get_Some by zlia.
  rewrite !to_nat_zlen, drop_app_length, take_app_length. cbn [mbind option_bind].
  rewrite mem_put_Some by zlia.
  by rewrite to_nat_zlen, take_app_length, <- drop_drop, drop_app_length.
Qed.

(** ** Digits *)

Lemma length_le_bytes n x : length (le_bytes n x) = n.
Proof. revert x; induction n; intros; simpl; auto. Qed.

Lemma le_bytes_is_bytes n x : is_bytes (le_bytes n x).
Proof.
  revert x; induction n as [|n IH]; intros x; constructor; [|apply IH].
  apply Z.mod_pos_bound; lia.
Qed.

Lemma le_val_bytes n x : le_val (le_bytes n x) = x mod 256 ^ Z.of_nat n.
Proof.
  revert x; induction n as [|n IH]; intros x; simpl.
  - by rewrite Z.mod_1_r.
  - rewrite IH. rewrite Nat2Z.inj_succ, Z.pow_succ_r by lia.
    rewrite Z.rem_mul_r by lia. lia.
Qed.

Lemma le_val_range l : is_bytes l -> 0 <= le_val l < 256 ^ zlen l.
Proof.
  induction 1 as [|b l Hb Hl IH]; simpl; [done|]. unfold is_u8 in Hb.
  rewrite zlen_cons, Z.pow_add_r by (pose proof (zlen_nonneg l); lia). lia.
Qed.

Lemma le_bytes_val l : is_bytes l -> le_bytes (length l) (le_val l) = l.
Proof.
  induction 1 as [|b l Hb Hl IH]; simpl; [done|]. unfold is_u8 in Hb.
  rewrite (Z.mul_comm 256), Z.mod_add, Z.mod_small by lia.
  rewrite Z.div_add, Z.div_small by lia. by rewrite Z.add_0_l, IH.
Qed.

Lemma le_val_inj l k :
  is_bytes l -> is_bytes k -> length l = length k -> le_val l = le_val k -> l = k.
Proof. intros Hl Hk E Hv. by rewrite <- (le_bytes_val l), <- (le_bytes_val k), E, Hv. Qed.

(** Bytewise reading of the bitwise connectives on little-endian numbers. *)
Lemma le_val_bitop (f : Z -> Z -> Z) l k :
  f 0 0 = 0 ->
  (forall a b x y, is_u8 a -> is_u8 b -> 0 <= x -> 0 <= y ->
     f (a + 256 * x) (b + 256 * y) = f a b + 256 * f x y) ->
  is_bytes l -> is_bytes k -> length l = length k ->
  f (le_val l) (le_val k) = le_val (zip_with f l k).
Proof.
  intros H0 Hf Hl. revert k. induction Hl as [|a l Ha Hl IH]; intros [|b k] Hk E; simplify_eq/=;
    [done|]. apply Forall_cons in Hk as [Hb Hk].
  rewrite Hf; [by rewrite IH|done|done| |]; apply le_val_range; done.
Qed.

(** ** Network order does not depend on the host *)

Section network_order.
Context `{Host}.

Lemma load_store n x : load (store n x) = x mod 256 ^ Z.of_nat n.
Proof.
  unfold load, store. destruct host_endian; [apply le_val_bytes|].
  rewrite reverse_involutive. apply le_val_bytes.
Qed.

Lemma store_load l : is_bytes l -> store (length l) (load l) = l.
Proof.
  intros Hl. unfold load, store. destruct host_endian; [by apply le_bytes_val|].
  rewrite <- length_reverse, le_bytes_val; [apply reverse_involutive|].
  unfold is_bytes. by rewrite Forall_reverse.
Qed.

Lemma length_store n x : length (store n x) = n.
Proof.
  unfold store; destruct host_endian; rewrite ?length_reverse; apply length_le_bytes.
Qed.

Lemma store_is_bytes n x : is_bytes (store n x).
Proof.
  unfold store; destruct host_endian; [|unfold is_bytes; rewrite Forall_reverse];
    apply le_bytes_is_bytes.
Qed.

(** Each [badvpn_reverseN] reverses the object representation. *)
Lemma badvpn_reverse16_spec x : badvpn_reverse16 x = load (reverse (store 2 x)).
Proof. unfold badvpn_reverse16, store; destruct host_endian; reflexivity. Qed.
Lemma badvpn_reverse32_spec x : badvpn_reverse32 x = load (reverse (store 4 x)).
Proof. unfold badvpn_reverse32, store; destruct host_endian; reflexivity. Qed.
Lemma badvpn_reverse64_spec x : badvpn_reverse64 x = load (reverse (store 8 x)).
Proof. unfold badvpn_reverse64, store; destruct host_endian; reflexivity. Qed.

(** The conversion an [hton] of width [n] makes, on either host. *)
Definition hton_of (n : nat) (x : Z) : Z :=
  match host_endian with LittleEndian => load (reverse (store n x)) | BigEndian => x end.

Lemma store_hton_of n x : store n (hton_of n x) = reverse (le_bytes n x).
Proof.
  unfold hton_of. destruct host_endian eqn:E.
  - replace n with (length (reverse (store n x))) at 1 by
      by rewrite length_reverse, length_store.
    rewrite store_load; [|unfold is_bytes; rewrite Forall_reverse; apply store_is_bytes].
    unfold store. by rewrite E.
  - unfold store. by rewrite E.
Qed.

Lemma hton_of_load l : is_bytes l -> hton_of (length l) (load l) = le_val (reverse l).
Proof.
  intros Hl. unfold hton_of. destruct host_endian eqn:E; unfold load, store; rewrite !E; [|done].
  by rewrite le_bytes_val.
Qed.

Lemma hton16_of x : hton16 x = hton_of 2 x.
Proof. unfold hton16, hton_of. by rewrite badvpn_reverse16_spec. Qed.
Lemma hton32_of x : hton32 x = hton_of 4 x.
Proof. unfold hton32, hton_of. by rewrite badvpn_reverse32_spec. Qed.
Lemma hton64_of x : hton64 x = hton_of 8 x.
Proof. unfold hton64, hton_of. by rewrite badvpn_reverse64_spec. Qed.

Lemma hton_of_involutive n x : 0 <= x < 256 ^ Z.of_nat n -> hton_of n (hton_of n x) = x.
Proof.
  intros Hx. pose proof (store_is_bytes n (hton_of n x)) as Hb.
  assert (Hl : length (store n (hton_of n x)) = n) by apply length_store.
  assert (Hr : 0 <= hton_of n x < 256 ^ Z.of_nat n).
  { unfold hton_of. destruct host_endian eqn:E; [|done].
    unfold load. rewrite E.
    pose proof (le_val_range (reverse (store n x))) as Hv.
    unfold zlen in Hv. rewrite length_reverse, length_store in Hv. apply Hv.
    unfold is_bytes. rewrite Forall_reverse. apply store_is_bytes. }
  transitivity (hton_of n (load (store n (hton_of n x)))).
  { by rewrite load_store, Z.mod_small. }
  rewrite <- Hl at 1. rewrite hton_of_load by done.
  rewrite store_hton_of, reverse_involutive, le_val_bytes. by rewrite Z.mod_small.
Qed.

Lemma store_htons v : is_u16 v -> store 2 (htons v) = [v / 256; v mod 256].
Proof.
  intros Hv. unfold htons, is_u16 in *. rewrite hton16_of, store_hton_of. simpl.
  rewrite reverse_cons, reverse_singleton; simpl. f_equal. apply Z.mod_small.
  split; [apply Z.div_pos; lia|apply Z.div_lt_upper_bound; lia].
Qed.

Lemma htons_load a b : is_u8 a -> is_u8 b -> htons (load [a; b]) = a * 256 + b.
Proof.
  intros Ha Hb. unfold htons. rewrite hton16_of. change 2%nat with (length [a; b]).
  rewrite hton_of_load by (repeat constructor; apply Ha || apply Hb).
  rewrite reverse_cons, reverse_singleton; simpl. lia.
Qed.

Lemma load_single a : load [a] = a.
Proof. unfold load; destruct host_endian; simpl; rewrite ?reverse_singleton; simpl; lia. Qed.

Lemma store_single v : is_u8 v -> store 1 v = [v].
Proof.
  intros Hv. unfold store; destruct host_endian; simpl; rewrite ?reverse_singleton;
    by rewrite Z.mod_small.
Qed.
End network_order.

(** ** The access macros, in wire terms *)

Section net_facts.
Context `{Host}.

Lemma READ_NET8_eq p o : READ_NET8 p o = b ← mem_get p o 1; head b.
Proof.
  unfold READ_NET8. destruct (mem_get p o 1) as [l|] eqn:E; [|done]. simpl.
  apply mem_get_zlen in E. destruct l as [|a [|? ?]]; zlens; try lia.
  - simpl. by rewrite load_single.
  - pose proof (zlen_nonneg l). lia.
Qed.

(** A 16-bit load is big-endian on either host. *)
Lemma READ_NET16_get p o a b :
  is_u8 a -> is_u8 b -> mem_get p o 2 = Some [a; b] -> READ_NET16 p o = Some (a * 256 + b).
Proof. intros Ha Hb E. unfold READ_NET16. rewrite E. simpl. by rewrite htons_load. Qed.

Lemma WRITE_NET16_put p o v :
  WRITE_NET16 p o v = mem_put p o [u16 v / 256; u16 v mod 256].
Proof. unfold WRITE_NET16. rewrite store_htons; [done|apply u16_range]. Qed.

Lemma WRITE_NET8_put p o v : WRITE_NET8 p o v = mem_put p o [u8 v].
Proof. unfold WRITE_NET8. rewrite store_single; [done|apply u8_range]. Qed.

(** Loads inside an object succeed and have the width they should. *)
Lemma mem_get_total p o n :
  is_bytes p -> 0 <= o -> 0 <= n -> o + n <= zlen p ->
  exists l, mem_get p o n = Some l /\ length l = Z.to_nat n /\ is_bytes l.
Proof.
  intros Hb Ho Hn Hon. rewrite mem_get_Some by lia. eexists. split; [done|]. split.
  - rewrite length_take, length_drop. unfold zlen in Hon. lia.
  - by apply Forall_take, Forall_drop.
Qed.
Lemma READ_NET16_total p o :
  is_bytes p -> 0 <= o -> o + 2 <= zlen p -> exists v, READ_NET16 p o = Some v /\ is_u16 v.
Proof.
  intros Hb Ho Ho2. destruct (mem_get_total p o 2) as (l & E & El & Bl); [done|lia..|].
  destruct l as [|a [|b [|]]]; try discriminate El.
  apply Forall_cons in Bl as [Ha [Hb' _]%Forall_cons].
  exists (a * 256 + b). split; [by apply READ_NET16_get|]. unfold is_u8, is_u16 in *. lia.
Qed.
Lemma READ_NET8_total p o :
  is_bytes p -> 0 <= o -> o + 1 <= zlen p -> exists v, READ_NET8 p o = Some v /\ is_u8 v.
Proof.
  intros Hb Ho Ho2. destruct (mem_get_total p o 1) as (l & E & El & Bl); [done|lia..|].
  destruct l as [|a [|]]; try discriminate El. apply Forall_cons in Bl as [Ha _].
  exists a. rewrite READ_NET8_eq, E. done.
Qed.

Lemma land_digits a b x y :
  is_u8 a -> is_u8 b -> 0 <= x -> 0 <= y ->
  Z.land (a + 256 * x) (b + 256 * y) = Z.land a b + 256 * Z.land x y.
Proof.
  unfold is_u8. intros.
  rewrite (Z.div_mod (Z.land (a + 256 * x) (b + 256 * y)) 256), Z.add_comm by lia. f_equal.
  - change 256 with (2 ^ 8). rewrite <- Z.land_ones by lia.
    replace (Z.ones 8) with (Z.land (Z.ones 8) (Z.ones 8)) by apply Z.land_diag.
    rewrite Z.land_assoc, <- (Z.land_assoc _ (b + _)), (Z.land_comm (b + _)), Z.land_assoc,
      <- (Z.land_assoc _ (b + _)), !Z.land_ones by lia.
    rewrite !(Z.mul_comm (2 ^ 8)), !Z.mod_add, !Z.mod_small by lia. done.
  - f_equal. change 256 with (2 ^ 8). rewrite <- Z.shiftr_div_pow2, Z.shiftr_land,
      !Z.shiftr_div_pow2, !(Z.mul_comm (2 ^ 8)), !Z.div_add, !Z.div_small by lia. done.
Qed.

Lemma lor_digits a b x y :
  is_u8 a -> is_u8 b -> 0 <= x -> 0 <= y ->
  Z.lor (a + 256 * x) (b + 256 * y) = Z.lor a b + 256 * Z.lor x y.
Proof.
  unfold is_u8. intros.
  rewrite (Z.div_mod (Z.lor (a + 256 * x) (b + 256 * y)) 256), Z.add_comm by lia. f_equal.
  - change 256 with (2 ^ 8). rewrite <- Z.land_ones, Z.land_lor_distr_l, !Z.land_ones by lia.
    rewrite !(Z.mul_comm (2 ^ 8)), !Z.mod_add, !Z.mod_small by lia. done.
  - f_equal. change 256 with (2 ^ 8). rewrite <- Z.shiftr_div_pow2, Z.shiftr_lor,
      !Z.shiftr_div_pow2, !(Z.mul_comm (2 ^ 8)), !Z.div_add, !Z.div_small by lia. done.
Qed.

Lemma reverse_zip_with {A B C} (f : A -> B -> C) l k :
  length l = length k -> reverse (zip_with f l k) = zip_with f (reverse l) (reverse k).
Proof.
  revert k. induction l as [|a l IH]; intros [|b k] E; simplify_eq/=; [done|].
  rewrite !reverse_cons, IH by done. rewrite zip_with_app; [done|].
  by rewrite !length_reverse.
Qed.

Lemma load_bitop (f : Z -> Z -> Z) l k :
  f 0 0 = 0 ->
  (forall a b x y, is_u8 a -> is_u8 b -> 0 <= x -> 0 <= y ->
     f (a + 256 * x) (b + 256 * y) = f a b + 256 * f x y) ->
  is_bytes l -> is_bytes k -> length l = length k ->
  f (load l) (load k) = load (zip_with f l k).
Proof.
  intros H0 Hf Hl Hk E. unfold load. destruct host_endian; [by apply le_val_bitop|].
  rewrite reverse_zip_with by done. apply le_val_bitop; try done.
  all: unfold is_bytes; rewrite ?Forall_reverse, ?length_reverse; done.
Qed.

Lemma load_inj l k :
  is_bytes l -> is_bytes k -> length l = length k -> load l = load k -> l = k.
Proof. intros Hl Hk E Hv. by rewrite <- (store_load l), <- (store_load k), E, Hv. Qed.

Lemma land_u8 a b : is_u8 a -> is_u8 b -> is_u8 (Z.land a b).
Proof.
  unfold is_u8. intros [Ha1 Ha2] [Hb1 Hb2]. split; [by apply Z.land_nonneg; left|].
  destruct (Z.eq_dec (Z.land a b) 0) as [->|Hne]; [lia|].
  assert (0 <= Z.land a b) by (apply Z.land_nonneg; by left).
  apply Z.log2_lt_pow2; [lia|].
  eapply Z.le_lt_trans; [by apply Z.log2_land|].
  apply Z.min_lt_iff. left. destruct (Z.eq_dec a 0) as [->|]; [done|].
  apply Z.log2_lt_pow2; lia.
Qed.

Lemma lor_u8 a b : is_u8 a -> is_u8 b -> is_u8 (Z.lor a b).
Proof.
  unfold is_u8. intros [Ha1 Ha2] [Hb1 Hb2].
  assert (H0 : 0 <= Z.lor a b) by (apply Z.lor_nonneg; done). split; [done|].
  destruct (Z.eq_dec (Z.lor a b) 0) as [->|Hne]; [lia|].
  apply Z.log2_lt_pow2; [lia|]. rewrite Z.log2_lor by done.
  apply Z.max_lub_lt.
  - destruct (Z.eq_dec a 0) as [->|]; [done|]. apply Z.log2_lt_pow2; lia.
  - destruct (Z.eq_dec b 0) as [->|]; [done|]. apply Z.log2_lt_pow2; lia.
Qed.

Lemma zip_with_is_bytes (f : Z -> Z -> Z) l k :
  (forall a b, is_u8 a -> is_u8 b -> is_u8 (f a b)) ->
  is_bytes l -> is_bytes k -> is_bytes (zip_with f l k).
Proof.
  intros Hf Hl. revert k. induction Hl as [|a l Ha Hl IH]; intros [|b k] Hk; simpl;
    try constructor; apply Forall_cons in Hk as [??]; auto. by apply IH.
Qed.

(** The subnet test masks the address byte by byte. *)
Lemma IS_SUBNET_bytes ip net mask :
  is_bytes ip -> is_bytes net -> is_bytes mask ->
  length ip = 4%nat -> length net = 4%nat -> length mask = 4%nat ->
  IS_SUBNET ip net mask = bool_decide (zip_with Z.land ip mask = net).
Proof.
  intros Hi Hn Hm Li Ln Lm. unfold IS_SUBNET.
  rewrite (load_bitop Z.land ip mask); auto using land_digits; [|congruence].
  apply eq_bool_prop_intro. rewrite Is_true_true, Z.eqb_eq, bool_decide_spec.
  split; [|by intros ->]. apply load_inj; auto using zip_with_is_bytes, land_u8.
  rewrite length_zip_with. lia.
Qed.

Lemma load_complement m :
  is_bytes m -> load ((fun b => 255 - b) <$> m) = 256 ^ zlen m - 1 - load m.
Proof.
  assert (Hle : forall l, le_val ((fun b => 255 - b) <$> l) = 256 ^ zlen l - 1 - le_val l).
  { induction l as [|b l IH]; [done|]. rewrite fmap_cons. simpl le_val. rewrite IH, zlen_cons.
    rewrite Z.pow_add_r by (pose proof (zlen_nonneg l); lia). lia. }
  intros Hm. unfold load. destruct host_endian; [apply Hle|].
  rewrite <- fmap_reverse, Hle. unfold zlen. by rewrite length_reverse.
Qed.

(** The broadcast test compares with the network number or-ed with the inverted
    mask, byte by byte. *)
Lemma IS_BROADCAST_bytes ip net mask :
  is_bytes ip -> is_bytes net -> is_bytes mask ->
  length ip = 4%nat -> length net = 4%nat -> length mask = 4%nat ->
  IS_BROADCAST ip net mask =
    bool_decide (zip_with Z.lor net ((fun b => 255 - b) <$> mask) = ip).
Proof.
  intros Hi Hn Hm Li Ln Lm. unfold IS_BROADCAST.
  assert (Hc : is_bytes ((fun b => 255 - b) <$> mask)).
  { apply Forall_fmap. eapply Forall_impl; [exact Hm|]. unfold is_u8. simpl. lia. }
  assert (Hr : is_u32 (load mask)).
  { unfold load, is_u32. destruct host_endian.
    - pose proof (le_val_range mask Hm) as Hv. unfold zlen in Hv. rewrite Lm in Hv. exact Hv.
    - pose proof (le_val_range (reverse mask)) as Hv. unfold zlen in Hv.
      rewrite length_reverse, Lm in Hv. apply Hv. unfold is_bytes. by rewrite Forall_reverse. }
  replace (u32 (Z.lnot (load mask))) with (load ((fun b => 255 - b) <$> mask)).
  2: { rewrite load_complement by done. unfold zlen. rewrite Lm. unfold u32, Z.lnot, is_u32 in *.
       apply (Z.mod_unique_pos _ _ (-1)); lia. }
  rewrite (load_bitop Z.lor); auto using lor_digits; [|by rewrite length_fmap; congruence].
  apply eq_bool_prop_intro. rewrite Is_true_true, Z.eqb_eq, bool_decide_spec.
  split; [|by intros ->]. apply load_inj; auto using zip_with_is_bytes, lor_u8.
  rewrite length_zip_with, length_fmap. lia.
Qed.
End net_facts.

(** ** Conversions between host and network order *)

(** On a little-endian and on a big-endian host alike, the bytes of
    [hton16 x], [hton32 x] and [hton64 x] in memory are the digits of [x] most
    significant first. *)
Theorem hton_network_order `{Host} x :
  store 2 (hton16 x) = reverse (le_bytes 2 x) /\
  store 4 (hton32 x) = reverse (le_bytes 4 x) /\
  store 8 (hton64 x) = reverse (le_bytes 8 x).
Proof. rewrite hton16_of, hton32_of, hton64_of, !store_hton_of. done. Qed.

(** [ntohN] undoes [htonN] on every [N]-bit value, on either host. *)
Theorem ntoh_hton_roundtrip `{Host} x y z :
  is_u16 x -> is_u32 y -> 0 <= z < 2 ^ 64 ->
  ntoh16 (hton16 x) = x /\ ntoh32 (hton32 y) = y /\ ntoh64 (hton64 z) = z.
Proof.
  intros Hx Hy Hz. unfold ntoh16, ntoh32, ntoh64.
  rewrite !hton16_of, !hton32_of, !hton64_of.
  split_and!; by apply hton_of_involutive.
Qed.

Lemma ntoh_hton_roundtrip_witness :
  ntoh16 (H := le_host) (hton16 (H := le_host) 0xabcd) = 0xabcd /\
  ntoh32 (H := le_host) (hton32 (H := le_host) 0xdeadbeef) = 0xdeadbeef /\
  ntoh64 (H := le_host) (hton64 (H := le_host) 0x0102030405060708) = 0x0102030405060708.
Proof. apply (ntoh_hton_roundtrip (H := le_host)); unfold is_u16, is_u32; lia. Defined.
