(* ===== verification/Structs.v ===== *)
(** Constants, structures and the global state of the client:
    [src/packet.h], [src/config.h], [src/arp.h], [src/lan-play.h] and the
    fragment header offsets of [src/lan-client.c].

    A C pointer into a buffer is the list of the bytes from that address to the
    end of the object.  A back pointer ([packet_ctx.arg], [ipv4.ether]) is the
    structure it points to. *)

From S2P Require Import Prelude Byteorder.

(** ** Constants *)

(** src/packet.h *)
Definition ETHER_OFF_DST : Z := 0.
Definition ETHER_OFF_SRC : Z := 6.
Definition ETHER_OFF_TYPE : Z := 12.
Definition ETHER_OFF_END : Z := 14.
Definition ETHER_OFF_ARP : Z := 14.
Definition ETHER_OFF_IPV4 : Z := 14.
Definition ETHER_TYPE_ARP : Z := 0x0806.
Definition ETHER_TYPE_IPV4 : Z := 0x0800.
Definition ETHER_HEADER_LEN : Z := 14.
Definition IPV4_PROTOCOL_ICMP : Z := 1.
Definition IPV4_PROTOCOL_TCP : Z := 6.
Definition IPV4_PROTOCOL_UDP : Z := 17.
Definition IPV4_HEADER_LEN : Z := 20.
Definition IPV4_OFF_VER_LEN : Z := 0.
Definition IPV4_OFF_DSCP_ECN : Z := 1.
Definition IPV4_OFF_TOTAL_LEN : Z := 2.
Definition IPV4_OFF_ID : Z := 4.
Definition IPV4_OFF_FLAGS_FRAG_OFFSET : Z := 6.
Definition IPV4_OFF_TTL : Z := 8.
Definition IPV4_OFF_PROTOCOL : Z := 9.
Definition IPV4_OFF_CHECKSUM : Z := 10.
Definition IPV4_OFF_SRC : Z := 12.
Definition IPV4_OFF_DST : Z := 16.
Definition IPV4_OFF_END : Z := 20.
Definition IPV4P_OFF_SRC : Z := 0.
Definition IPV4P_OFF_DST : Z := 4.
Definition IPV4P_OFF_ZERO : Z := 8.
Definition IPV4P_OFF_PROTOCOL : Z := 9.
Definition IPV4P_OFF_LENGTH : Z := 10.
Definition IPV4P_OFF_END : Z := 12.
Definition UDP_OFF_SRCPORT : Z := 0.
Definition UDP_OFF_DSTPORT : Z := 2.
Definition UDP_OFF_LENGTH : Z := 4.
Definition UDP_OFF_CHECKSUM : Z := 6.
Definition UDP_OFF_END : Z := 8.
Definition ARP_OFF_HARDWARE : Z := 0.
Definition ARP_OFF_PROTOCOL : Z := 2.
Definition ARP_OFF_HARDWARE_SIZE : Z := 4.
Definition ARP_OFF_PROTOCOL_SIZE : Z := 5.
Definition ARP_OFF_OPCODE : Z := 6.
Definition ARP_OFF_SENDER_MAC : Z := 8.
Definition ARP_OFF_SENDER_IP : Z := 14.
Definition ARP_OFF_TARGET_MAC : Z := 18.
Definition ARP_OFF_TARGET_IP : Z := 24.
Definition ARP_OFF_END : Z := 28.
Definition ARP_LEN : Z := 28.
Definition ARP_HARDTYPE_ETHER : Z := 1.
Definition ARP_OPCODE_REQUEST : Z := 1.
Definition ARP_OPCODE_REPLY : Z := 2.
(** src/config.h *)
Definition BUFFER_SIZE : Z := 2048.
Definition IP_STR_LEN : Z := 16.
Definition IP6_STR_LEN : Z := 64.
Definition SERVER_PORT : Z := 11451.
Definition ETHER_MTU : Z := 1500.
Definition MIN_FRAG_PAYLOAD_LEN : Z := 500.
Definition LC_FRAG_COUNT : Z := 100.
(** src/arp.h *)
Definition ARP_CACHE_LEN : Z := 100.
(** src/lan-client.c *)
Definition LC_FRAG_SRC : Z := 0.
Definition LC_FRAG_DST : Z := 4.
Definition LC_FRAG_ID : Z := 8.
Definition LC_FRAG_PART : Z := 10.
Definition LC_FRAG_TOTAL_PART : Z := 11.
Definition LC_FRAG_LEN : Z := 12.
Definition LC_FRAG_PMTU : Z := 14.
Definition LC_FRAG_HEADER_LEN : Z := 16.
(** src/lan-play.h *)
Definition CLIENT_RECV_BUF_LEN : Z := 4096.
Definition LP_KEY_LEN : Z := 20.

(** The constants are numerals to the arithmetic solver. *)
Create HintDb consts.
#[export] Hint Unfold
  ETHER_OFF_DST ETHER_OFF_SRC ETHER_OFF_TYPE ETHER_OFF_END ETHER_OFF_ARP ETHER_OFF_IPV4
  ETHER_TYPE_ARP ETHER_TYPE_IPV4 ETHER_HEADER_LEN IPV4_PROTOCOL_ICMP IPV4_PROTOCOL_TCP
  IPV4_PROTOCOL_UDP IPV4_HEADER_LEN IPV4_OFF_VER_LEN IPV4_OFF_DSCP_ECN IPV4_OFF_TOTAL_LEN
  IPV4_OFF_ID IPV4_OFF_FLAGS_FRAG_OFFSET IPV4_OFF_TTL IPV4_OFF_PROTOCOL IPV4_OFF_CHECKSUM
  IPV4_OFF_SRC IPV4_OFF_DST IPV4_OFF_END IPV4P_OFF_SRC IPV4P_OFF_DST IPV4P_OFF_ZERO
  IPV4P_OFF_PROTOCOL IPV4P_OFF_LENGTH IPV4P_OFF_END UDP_OFF_SRCPORT UDP_OFF_DSTPORT
  UDP_OFF_LENGTH UDP_OFF_CHECKSUM UDP_OFF_END ARP_OFF_HARDWARE ARP_OFF_PROTOCOL
  ARP_OFF_HARDWARE_SIZE ARP_OFF_PROTOCOL_SIZE ARP_OFF_OPCODE ARP_OFF_SENDER_MAC
  ARP_OFF_SENDER_IP ARP_OFF_TARGET_MAC ARP_OFF_TARGET_IP ARP_OFF_END ARP_LEN
  ARP_HARDTYPE_ETHER ARP_OPCODE_REQUEST ARP_OPCODE_REPLY BUFFER_SIZE IP_STR_LEN
  IP6_STR_LEN SERVER_PORT ETHER_MTU MIN_FRAG_PAYLOAD_LEN LC_FRAG_COUNT ARP_CACHE_LEN
  LC_FRAG_SRC LC_FRAG_DST LC_FRAG_ID LC_FRAG_PART LC_FRAG_TOTAL_PART LC_FRAG_LEN
  LC_FRAG_PMTU LC_FRAG_HEADER_LEN CLIENT_RECV_BUF_LEN LP_KEY_LEN : consts.
Ltac consts := autounfold with consts in *.

(** ** packet.h *)

Record ether_frame := {
  ef_raw : bytes;          (* const u_char *raw *)
  ef_raw_len : Z;          (* uint16_t *)
  ef_dst : bytes;
  ef_src : bytes;
  ef_type : Z;             (* uint16_t *)
  ef_payload : bytes;      (* const u_char *payload *)
}.

Record ipv4 := {
  ip_ether : ether_frame;
  ip_version : Z;
  ip_header_len : Z;       (* unit: byte *)
  ip_dscp : Z;
  ip_ecn : Z;
  ip_total_len : Z;
  ip_identification : Z;
  ip_flags : Z;
  ip_fragment_offset : Z;
  ip_ttl : Z;
  ip_protocol : Z;
  ip_checksum : Z;
  ip_src : bytes;
  ip_dst : bytes;
  ip_payload : bytes;
}.

Record udp := {
  udp_ipv4 : ipv4;
  udp_srcport : Z;
  udp_dstport : Z;
  udp_length : Z;
  udp_checksum : Z;
  udp_payload : bytes;
}.

Record arp := {
  arp_hardware_type : Z;
  arp_protocol_type : Z;
  arp_hardware_size : Z;
  arp_protocol_size : Z;
  arp_opcode : Z;
  arp_sender_mac : bytes;
  arp_sender_ip : bytes;
  arp_target_mac : bytes;
  arp_target_ip : bytes;
}.

(** One link of a [struct payload] chain: the object [ptr] points into and [len]. *)
Record part := { p_ptr : bytes; p_len : Z }.

(** A chain of parts, [next] being the tail. *)
Definition payload : Type := list part.

(** A part that covers exactly its object. *)
Definition whole (b : bytes) : part := {| p_ptr := b; p_len := zlen b |}.

(** The bytes a part contributes, and those of a chain. *)
Definition part_data (p : part) : bytes := take (Z.to_nat (p_len p)) (p_ptr p).
Definition chain_data (c : payload) : bytes := concat (part_data <$> c).

(** A part does not reach past its object. *)
Definition wf_part (p : part) : Prop := 0 <= p_len p <= zlen (p_ptr p) /\ is_bytes (p_ptr p).
Definition wf_payload (c : payload) : Prop := Forall wf_part c.

(** ** arp.h *)

Record arp_item := { ai_ip : bytes; ai_mac : bytes; ai_expire_at : Z }.

(** The packet layer: the send buffer, the addresses, the ARP cache and counters. *)
Record packet_ctx := {
  pc_buffer : bytes;  (* void *buffer, buffer_len bytes *)
  pc_buffer_len : Z;  (* size_t *)
  pc_ip : bytes;
  pc_subnet_net : bytes;
  pc_subnet_mask : bytes;
  pc_mac : bytes;  (* const uint8_t *mac *)
  pc_identification : Z;  (* uint16_t *)
  pc_arp_list : list arp_item;  (* ARP_CACHE_LEN items *)
  pc_arp_ttl : Z;  (* time_t *)
  pc_upload_byte : Z;  (* uint64_t *)
  pc_download_byte : Z;
  pc_upload_packet : Z;
  pc_download_packet : Z;
}.

Definition set_pc_buffer (v : bytes) (r : packet_ctx) : packet_ctx :=
  {| pc_buffer := v; pc_buffer_len := pc_buffer_len r; pc_ip := pc_ip r; pc_subnet_net :=
     pc_subnet_net r; pc_subnet_mask := pc_subnet_mask r; pc_mac := pc_mac r; pc_identification
     := pc_identification r; pc_arp_list := pc_arp_list r; pc_arp_ttl := pc_arp_ttl r;
     pc_upload_byte := pc_upload_byte r; pc_download_byte := pc_download_byte r;
     pc_upload_packet := pc_upload_packet r; pc_download_packet := pc_download_packet r |}.
Definition set_pc_buffer_len (v : Z) (r : packet_ctx) : packet_ctx :=
  {| pc_buffer := pc_buffer r; pc_buffer_len := v; pc_ip := pc_ip r; pc_subnet_net :=
     pc_subnet_net r; pc_subnet_mask := pc_subnet_mask r; pc_mac := pc_mac r; pc_identification
     := pc_identification r; pc_arp_list := pc_arp_list r; pc_arp_ttl := pc_arp_ttl r;
     pc_upload_byte := pc_upload_byte r; pc_download_byte := pc_download_byte r;
     pc_upload_packet := pc_upload_packet r; pc_download_packet := pc_download_packet r |}.
Definition set_pc_ip (v : bytes) (r : packet_ctx) : packet_ctx :=
  {| pc_buffer := pc_buffer r; pc_buffer_len := pc_buffer_len r; pc_ip := v; pc_subnet_net :=
     pc_subnet_net r; pc_subnet_mask := pc_subnet_mask r; pc_mac := pc_mac r; pc_identification
     := pc_identification r; pc_arp_list := pc_arp_list r; pc_arp_ttl := pc_arp_ttl r;
     pc_upload_byte := pc_upload_byte r; pc_download_byte := pc_download_byte r;
     pc_upload_packet := pc_upload_packet r; pc_download_packet := pc_download_packet r |}.
Definition set_pc_subnet_net (v : bytes) (r : packet_ctx) : packet_ctx :=
  {| pc_buffer := pc_buffer r; pc_buffer_len := pc_buffer_len r; pc_ip := pc_ip r;
     pc_subnet_net := v; pc_subnet_mask := pc_subnet_mask r; pc_mac := pc_mac r;
     pc_identification := pc_identification r; pc_arp_list := pc_arp_list r; pc_arp_ttl :=
     pc_arp_ttl r; pc_upload_byte := pc_upload_byte r; pc_download_byte := pc_download_byte r;
     pc_upload_packet := pc_upload_packet r; pc_download_packet := pc_download_packet r |}.
Definition set_pc_subnet_mask (v : bytes) (r : packet_ctx) : packet_ctx :=
  {| pc_buffer := pc_buffer r; pc_buffer_len := pc_buffer_len r; pc_ip := pc_ip r;
     pc_subnet_net := pc_subnet_net r; pc_subnet_mask := v; pc_mac := pc_mac r;
     pc_identification := pc_identification r; pc_arp_list := pc_arp_list r; pc_arp_ttl :=
     pc_arp_ttl r; pc_upload_byte := pc_upload_byte r; pc_download_byte := pc_download_byte r;
     pc_upload_packet := pc_upload_packet r; pc_download_packet := pc_download_packet r |}.
Definition set_pc_mac (v : bytes) (r : packet_ctx) : packet_ctx :=
  {| pc_buffer := pc_buffer r; pc_buffer_len := pc_buffer_len r; pc_ip := pc_ip r;
     pc_subnet_net := pc_subnet_net r; pc_subnet_mask := pc_subnet_mask r; pc_mac := v;
     pc_identification := pc_identification r; pc_arp_list := pc_arp_list r; pc_arp_ttl :=
     pc_arp_ttl r; pc_upload_byte := pc_upload_byte r; pc_download_byte := pc_download_byte r;
     pc_upload_packet := pc_upload_packet r; pc_download_packet := pc_download_packet r |}.
Definition set_pc_identification (v : Z) (r : packet_ctx) : packet_ctx :=
  {| pc_buffer := pc_buffer r; pc_buffer_len := pc_buffer_len r; pc_ip := pc_ip r;
     pc_subnet_net := pc_subnet_net r; pc_subnet_mask := pc_subnet_mask r; pc_mac := pc_mac r;
     pc_identification := v; pc_arp_list := pc_arp_list r; pc_arp_ttl := pc_arp_ttl r;
     pc_upload_byte := pc_upload_byte r; pc_download_byte := pc_download_byte r;
     pc_upload_packet := pc_upload_packet r; pc_download_packet := pc_download_packet r |}.
Definition set_pc_arp_list (v : list arp_item) (r : packet_ctx) : packet_ctx :=
  {| pc_buffer := pc_buffer r; pc_buffer_len := pc_buffer_len r; pc_ip := pc_ip r;
     pc_subnet_net := pc_subnet_net r; pc_subnet_mask := pc_subnet_mask r; pc_mac := pc_mac r;
     pc_identification := pc_identification r; pc_arp_list := v; pc_arp_ttl := pc_arp_ttl r;
     pc_upload_byte := pc_upload_byte r; pc_download_byte := pc_download_byte r;
     pc_upload_packet := pc_upload_packet r; pc_download_packet := pc_download_packet r |}.
Definition set_pc_arp_ttl (v : Z) (r : packet_ctx) : packet_ctx :=
  {| pc_buffer := pc_buffer r; pc_buffer_len := pc_buffer_len r; pc_ip := pc_ip r;
     pc_subnet_net := pc_subnet_net r; pc_subnet_mask := pc_subnet_mask r; pc_mac := pc_mac r;
     pc_identification := pc_identification r; pc_arp_list := pc_arp_list r; pc_arp_ttl := v;
     pc_upload_byte := pc_upload_byte r; pc_download_byte := pc_download_byte r;
     pc_upload_packet := pc_upload_packet r; pc_download_packet := pc_download_packet r |}.
Definition set_pc_upload_byte (v : Z) (r : packet_ctx) : packet_ctx :=
  {| pc_buffer := pc_buffer r; pc_buffer_len := pc_buffer_len r; pc_ip := pc_ip r;
     pc_subnet_net := pc_subnet_net r; pc_subnet_mask := pc_subnet_mask r; pc_mac := pc_mac r;
     pc_identification := pc_identification r; pc_arp_list := pc_arp_list r; pc_arp_ttl :=
     pc_arp_ttl r; pc_upload_byte := v; pc_download_byte := pc_download_byte r;
     pc_upload_packet := pc_upload_packet r; pc_download_packet := pc_download_packet r |}.
Definition set_pc_download_byte (v : Z) (r : packet_ctx) : packet_ctx :=
  {| pc_buffer := pc_buffer r; pc_buffer_len := pc_buffer_len r; pc_ip := pc_ip r;
     pc_subnet_net := pc_subnet_net r; pc_subnet_mask := pc_subnet_mask r; pc_mac := pc_mac r;
     pc_identification := pc_identification r; pc_arp_list := pc_arp_list r; pc_arp_ttl :=
     pc_arp_ttl r; pc_upload_byte := pc_upload_byte r; pc_download_byte := v; pc_upload_packet
     := pc_upload_packet r; pc_download_packet := pc_download_packet r |}.
Definition set_pc_upload_packet (v : Z) (r : packet_ctx) : packet_ctx :=
  {| pc_buffer := pc_buffer r; pc_buffer_len := pc_buffer_len r; pc_ip := pc_ip r;
     pc_subnet_net := pc_subnet_net r; pc_subnet_mask := pc_subnet_mask r; pc_mac := pc_mac r;
     pc_identification := pc_identification r; pc_arp_list := pc_arp_list r; pc_arp_ttl :=
     pc_arp_ttl r; pc_upload_byte := pc_upload_byte r; pc_download_byte := pc_download_byte r;
     pc_upload_packet := v; pc_download_packet := pc_download_packet r |}.
Definition set_pc_download_packet (v : Z) (r : packet_ctx) : packet_ctx :=
  {| pc_buffer := pc_buffer r; pc_buffer_len := pc_buffer_len r; pc_ip := pc_ip r;
     pc_subnet_net := pc_subnet_net r; pc_subnet_mask := pc_subnet_mask r; pc_mac := pc_mac r;
     pc_identification := pc_identification r; pc_arp_list := pc_arp_list r; pc_arp_ttl :=
     pc_arp_ttl r; pc_upload_byte := pc_upload_byte r; pc_download_byte := pc_download_byte r;
     pc_upload_packet := pc_upload_packet r; pc_download_packet := v |}.

(** A reassembly slot. *)
Record lan_client_fragment := {
  fr_local_id : Z;  (* uint16_t *)
  fr_src : bytes;
  fr_id : Z;  (* uint16_t *)
  fr_part : Z;  (* uint8_t *)
  fr_used : Z;  (* uint8_t *)
  fr_total_len : Z;  (* uint16_t *)
  fr_buffer : bytes;  (* ETHER_MTU bytes *)
}.

Definition set_fr_local_id (v : Z) (r : lan_client_fragment) : lan_client_fragment :=
  {| fr_local_id := v; fr_src := fr_src r; fr_id := fr_id r; fr_part := fr_part r; fr_used :=
     fr_used r; fr_total_len := fr_total_len r; fr_buffer := fr_buffer r |}.
Definition set_fr_src (v : bytes) (r : lan_client_fragment) : lan_client_fragment :=
  {| fr_local_id := fr_local_id r; fr_src := v; fr_id := fr_id r; fr_part := fr_part r; fr_used
     := fr_used r; fr_total_len := fr_total_len r; fr_buffer := fr_buffer r |}.
Definition set_fr_id (v : Z) (r : lan_client_fragment) : lan_client_fragment :=
  {| fr_local_id := fr_local_id r; fr_src := fr_src r; fr_id := v; fr_part := fr_part r;
     fr_used := fr_used r; fr_total_len := fr_total_len r; fr_buffer := fr_buffer r |}.
Definition set_fr_part (v : Z) (r : lan_client_fragment) : lan_client_fragment :=
  {| fr_local_id := fr_local_id r; fr_src := fr_src r; fr_id := fr_id r; fr_part := v; fr_used
     := fr_used r; fr_total_len := fr_total_len r; fr_buffer := fr_buffer r |}.
Definition set_fr_used (v : Z) (r : lan_client_fragment) : lan_client_fragment :=
  {| fr_local_id := fr_local_id r; fr_src := fr_src r; fr_id := fr_id r; fr_part := fr_part r;
     fr_used := v; fr_total_len := fr_total_len r; fr_buffer := fr_buffer r |}.
Definition set_fr_total_len (v : Z) (r : lan_client_fragment) : lan_client_fragment :=
  {| fr_local_id := fr_local_id r; fr_src := fr_src r; fr_id := fr_id r; fr_part := fr_part r;
     fr_used := fr_used r; fr_total_len := v; fr_buffer := fr_buffer r |}.
Definition set_fr_buffer (v : bytes) (r : lan_client_fragment) : lan_client_fragment :=
  {| fr_local_id := fr_local_id r; fr_src := fr_src r; fr_id := fr_id r; fr_part := fr_part r;
     fr_used := fr_used r; fr_total_len := fr_total_len r; fr_buffer := v |}.

(** [struct slp_addr_in]: an address of either family.  The union of
    [sockaddr], [sockaddr_in] and [sockaddr_in6] is its 28 bytes: the family in
    host order, the port in network order, the address. *)
Record slp_addr_in := {
  sin_len : Z;  (* int8_t *)
  sin_family : Z;  (* uint16_t *)
  sin_u : bytes;
}.
Definition AF_INET : Z := 2.
Definition AF_INET6 : Z := 10.

(** What only the console's [struct lan_play] has ([nx_common.h]). *)
Record console := {
  cs_relay_fd : Z;  (* int, the relay socket; negative when closed *)
  cs_send_err_count : Z;  (* uint32_t *)
  cs_recv_err_count : Z;  (* uint32_t *)
  cs_running : bool;
}.

(** The client: the packet layer plus the relay connection. *)
Record lan_play := {
  lp_packet_ctx : packet_ctx;
  lp_pmtu : Z;  (* int *)
  lp_broadcast : bool;
  lp_next_real_broadcast : bool;
  lp_frag_id : Z;  (* int *)
  lp_local_id : Z;  (* int *)
  lp_frags : list lan_client_fragment;  (* LC_FRAG_COUNT slots *)
  lp_server_addr : slp_addr_in;  (* relay server *)
  lp_username : option bytes;  (* char *username *)
  lp_key : bytes;  (* LP_KEY_LEN bytes *)
  lp_upload_byte : Z;  (* uint64_t *)
  lp_download_byte : Z;
  lp_upload_packet : Z;
  lp_download_packet : Z;
  lp_console : console;  (* the console's structure only *)
}.

Definition set_lp_packet_ctx (v : packet_ctx) (r : lan_play) : lan_play :=
  {| lp_packet_ctx := v; lp_pmtu := lp_pmtu r; lp_broadcast := lp_broadcast r;
     lp_next_real_broadcast := lp_next_real_broadcast r; lp_frag_id := lp_frag_id r; lp_local_id :=
     lp_local_id r; lp_frags := lp_frags r; lp_server_addr := lp_server_addr r; lp_username :=
     lp_username r; lp_key := lp_key r; lp_upload_byte := lp_upload_byte r; lp_download_byte :=
     lp_download_byte r; lp_upload_packet := lp_upload_packet r; lp_download_packet :=
     lp_download_packet r; lp_console := lp_console r |}.
Definition set_lp_pmtu (v : Z) (r : lan_play) : lan_play :=
  {| lp_packet_ctx := lp_packet_ctx r; lp_pmtu := v; lp_broadcast := lp_broadcast r;
     lp_next_real_broadcast := lp_next_real_broadcast r; lp_frag_id := lp_frag_id r; lp_local_id :=
     lp_local_id r; lp_frags := lp_frags r; lp_server_addr := lp_server_addr r; lp_username :=
     lp_username r; lp_key := lp_key r; lp_upload_byte := lp_upload_byte r; lp_download_byte :=
     lp_download_byte r; lp_upload_packet := lp_upload_packet r; lp_download_packet :=
     lp_download_packet r; lp_console := lp_console r |}.
Definition set_lp_broadcast (v : bool) (r : lan_play) : lan_play :=
  {| lp_packet_ctx := lp_packet_ctx r; lp_pmtu := lp_pmtu r; lp_broadcast := v;
     lp_next_real_broadcast := lp_next_real_broadcast r; lp_frag_id := lp_frag_id r; lp_local_id :=
     lp_local_id r; lp_frags := lp_frags r; lp_server_addr := lp_server_addr r; lp_username :=
     lp_username r; lp_key := lp_key r; lp_upload_byte := lp_upload_byte r; lp_download_byte :=
     lp_download_byte r; lp_upload_packet := lp_upload_packet r; lp_download_packet :=
     lp_download_packet r; lp_console := lp_console r |}.
Definition set_lp_next_real_broadcast (v : bool) (r : lan_play) : lan_play :=
  {| lp_packet_ctx := lp_packet_ctx r; lp_pmtu := lp_pmtu r; lp_broadcast := lp_broadcast r;
     lp_next_real_broadcast := v; lp_frag_id := lp_frag_id r; lp_local_id := lp_local_id r;
     lp_frags := lp_frags r; lp_server_addr := lp_server_addr r; lp_username := lp_username r;
     lp_key := lp_key r; lp_upload_byte := lp_upload_byte r; lp_download_byte := lp_download_byte
     r; lp_upload_packet := lp_upload_packet r; lp_download_packet := lp_download_packet r;
     lp_console := lp_console r |}.
Definition set_lp_frag_id (v : Z) (r : lan_play) : lan_play :=
  {| lp_packet_ctx := lp_packet_ctx r; lp_pmtu := lp_pmtu r; lp_broadcast := lp_broadcast r;
     lp_next_real_broadcast := lp_next_real_broadcast r; lp_frag_id := v; lp_local_id :=
     lp_local_id r; lp_frags := lp_frags r; lp_server_addr := lp_server_addr r; lp_username :=
     lp_username r; lp_key := lp_key r; lp_upload_byte := lp_upload_byte r; lp_download_byte :=
     lp_download_byte r; lp_upload_packet := lp_upload_packet r; lp_download_packet :=
     lp_download_packet r; lp_console := lp_console r |}.
Definition set_lp_local_id (v : Z) (r : lan_play) : lan_play :=
  {| lp_packet_ctx := lp_packet_ctx r; lp_pmtu := lp_pmtu r; lp_broadcast := lp_broadcast r;
     lp_next_real_broadcast := lp_next_real_broadcast r; lp_frag_id := lp_frag_id r; lp_local_id :=
     v; lp_frags := lp_frags r; lp_server_addr := lp_server_addr r; lp_username := lp_username r;
     lp_key := lp_key r; lp_upload_byte := lp_upload_byte r; lp_download_byte := lp_download_byte
     r; lp_upload_packet := lp_upload_packet r; lp_download_packet := lp_download_packet r;
     lp_console := lp_console r |}.
Definition set_lp_frags (v : list lan_client_fragment) (r : lan_play) : lan_play :=
  {| lp_packet_ctx := lp_packet_ctx r; lp_pmtu := lp_pmtu r; lp_broadcast := lp_broadcast r;
     lp_next_real_broadcast := lp_next_real_broadcast r; lp_frag_id := lp_frag_id r; lp_local_id :=
     lp_local_id r; lp_frags := v; lp_server_addr := lp_server_addr r; lp_username := lp_username
     r; lp_key := lp_key r; lp_upload_byte := lp_upload_byte r; lp_download_byte :=
     lp_download_byte r; lp_upload_packet := lp_upload_packet r; lp_download_packet :=
     lp_download_packet r; lp_console := lp_console r |}.
Definition set_lp_server_addr (v : slp_addr_in) (r : lan_play) : lan_play :=
  {| lp_packet_ctx := lp_packet_ctx r; lp_pmtu := lp_pmtu r; lp_broadcast := lp_broadcast r;
     lp_next_real_broadcast := lp_next_real_broadcast r; lp_frag_id := lp_frag_id r; lp_local_id :=
     lp_local_id r; lp_frags := lp_frags r; lp_server_addr := v; lp_username := lp_username r;
     lp_key := lp_key r; lp_upload_byte := lp_upload_byte r; lp_download_byte := lp_download_byte
     r; lp_upload_packet := lp_upload_packet r; lp_download_packet := lp_download_packet r;
     lp_console := lp_console r |}.
Definition set_lp_username (v : option bytes) (r : lan_play) : lan_play :=
  {| lp_packet_ctx := lp_packet_ctx r; lp_pmtu := lp_pmtu r; lp_broadcast := lp_broadcast r;
     lp_next_real_broadcast := lp_next_real_broadcast r; lp_frag_id := lp_frag_id r; lp_local_id :=
     lp_local_id r; lp_frags := lp_frags r; lp_server_addr := lp_server_addr r; lp_username := v;
     lp_key := lp_key r; lp_upload_byte := lp_upload_byte r; lp_download_byte := lp_download_byte
     r; lp_upload_packet := lp_upload_packet r; lp_download_packet := lp_download_packet r;
     lp_console := lp_console r |}.
Definition set_lp_key (v : bytes) (r : lan_play) : lan_play :=
  {| lp_packet_ctx := lp_packet_ctx r; lp_pmtu := lp_pmtu r; lp_broadcast := lp_broadcast r;
     lp_next_real_broadcast := lp_next_real_broadcast r; lp_frag_id := lp_frag_id r; lp_local_id :=
     lp_local_id r; lp_frags := lp_frags r; lp_server_addr := lp_server_addr r; lp_username :=
     lp_username r; lp_key := v; lp_upload_byte := lp_upload_byte r; lp_download_byte :=
     lp_download_byte r; lp_upload_packet := lp_upload_packet r; lp_download_packet :=
     lp_download_packet r; lp_console := lp_console r |}.
Definition set_lp_upload_byte (v : Z) (r : lan_play) : lan_play :=
  {| lp_packet_ctx := lp_packet_ctx r; lp_pmtu := lp_pmtu r; lp_broadcast := lp_broadcast r;
     lp_next_real_broadcast := lp_next_real_broadcast r; lp_frag_id := lp_frag_id r; lp_local_id :=
     lp_local_id r; lp_frags := lp_frags r; lp_server_addr := lp_server_addr r; lp_username :=
     lp_username r; lp_key := lp_key r; lp_upload_byte := v; lp_download_byte := lp_download_byte
     r; lp_upload_packet := lp_upload_packet r; lp_download_packet := lp_download_packet r;
     lp_console := lp_console r |}.
Definition set_lp_download_byte (v : Z) (r : lan_play) : lan_play :=
  {| lp_packet_ctx := lp_packet_ctx r; lp_pmtu := lp_pmtu r; lp_broadcast := lp_broadcast r;
     lp_next_real_broadcast := lp_next_real_broadcast r; lp_frag_id := lp_frag_id r; lp_local_id :=
     lp_local_id r; lp_frags := lp_frags r; lp_server_addr := lp_server_addr r; lp_username :=
     lp_username r; lp_key := lp_key r; lp_upload_byte := lp_upload_byte r; lp_download_byte := v;
     lp_upload_packet := lp_upload_packet r; lp_download_packet := lp_download_packet r; lp_console
     := lp_console r |}.
Definition set_lp_upload_packet (v : Z) (r : lan_play) : lan_play :=
  {| lp_packet_ctx := lp_packet_ctx r; lp_pmtu := lp_pmtu r; lp_broadcast := lp_broadcast r;
     lp_next_real_broadcast := lp_next_real_broadcast r; lp_frag_id := lp_frag_id r; lp_local_id :=
     lp_local_id r; lp_frags := lp_frags r; lp_server_addr := lp_server_addr r; lp_username :=
     lp_username r; lp_key := lp_key r; lp_upload_byte := lp_upload_byte r; lp_download_byte :=
     lp_download_byte r; lp_upload_packet := v; lp_download_packet := lp_download_packet r;
     lp_console := lp_console r |}.
Definition set_lp_download_packet (v : Z) (r : lan_play) : lan_play :=
  {| lp_packet_ctx := lp_packet_ctx r; lp_pmtu := lp_pmtu r; lp_broadcast := lp_broadcast r;
     lp_next_real_broadcast := lp_next_real_broadcast r; lp_frag_id := lp_frag_id r; lp_local_id :=
     lp_local_id r; lp_frags := lp_frags r; lp_server_addr := lp_server_addr r; lp_username :=
     lp_username r; lp_key := lp_key r; lp_upload_byte := lp_upload_byte r; lp_download_byte :=
     lp_download_byte r; lp_upload_packet := lp_upload_packet r; lp_download_packet := v;
     lp_console := lp_console r |}.
Definition set_lp_console (v : console) (r : lan_play) : lan_play :=
  {| lp_packet_ctx := lp_packet_ctx r; lp_pmtu := lp_pmtu r; lp_broadcast := lp_broadcast r;
     lp_next_real_broadcast := lp_next_real_broadcast r; lp_frag_id := lp_frag_id r; lp_local_id :=
     lp_local_id r; lp_frags := lp_frags r; lp_server_addr := lp_server_addr r; lp_username :=
     lp_username r; lp_key := lp_key r; lp_upload_byte := lp_upload_byte r; lp_download_byte :=
     lp_download_byte r; lp_upload_packet := lp_upload_packet r; lp_download_packet :=
     lp_download_packet r; lp_console := v |}.

(** ** The world

    What the client does to the outside is a trace of events, in order. *)

Inductive timer := KeepaliveTimer | RealBroadcastTimer.

(** Calls that only set handles up or take them down. *)
Inductive ext :=
| UvUdpInit
| UvUdpBind (family port : Z)           (* to the any address *)
| UvUdpRecvStart
| UvUdpRecvStop
| UvTimerInit (t : timer)
| UvTimerStart (t : timer) (timeout repeat : Z)
| UvTimerStop (t : timer)
| UvCloseClient
| UvCloseTimer (t : timer)
| UvPcapInit (netif : option bytes)
| UvPcapClose
| GatewayInit (fake_internet : bool) (proxy : option slp_addr_in)
              (username password : option bytes)
| GatewayClose
| UvSignalInit
| UvSignalStart
| UvSignalStop
| UvCloseSignal
| UvCloseAll                            (* uv_walk with walk_cb *)
| UvRun.

Inductive event :=
| EvFrame (data : bytes)                (* uv_pcap_sendpacket *)
| EvRelay (data : bytes)                (* uv_udp_send to server_addr *)
| EvGateway (raw : bytes) (len : Z)     (* gateway_on_packet *)
| EvDump (data : bytes)                 (* hex dump on stderr *)
| EvInfo (text : bytes)                 (* text on stdout or stderr *)
| EvError (text : bytes)                (* snprintf to last_err *)
| EvCall (c : ext)                      (* set-up and tear-down of handles *)
(* the console's side of a frame: *)
| EvInject (port addr data : bytes)     (* sendto on the injection socket; sin_port, sin_addr *)
| EvLdn (data : bytes) (src_port : Z)   (* ldn_bridge_inject *)
| EvLdnTcp (src_ip : Z) (data : bytes). (* ldn_bridge_tcp_inject_from_relay *)

(** State of the process as the handlers see it. *)
Record world := {
  w_lp : lan_play;
  w_ticks : nat;  (* external calls made so far *)
  w_out : list event;
}.

Definition set_w_lp (v : lan_play) (r : world) : world :=
  {| w_lp := v; w_ticks := w_ticks r; w_out := w_out r |}.
Definition set_w_ticks (v : nat) (r : world) : world :=
  {| w_lp := w_lp r; w_ticks := v; w_out := w_out r |}.
Definition set_w_out (v : list event) (r : world) : world :=
  {| w_lp := w_lp r; w_ticks := w_ticks r; w_out := v |}.

(** ** The environment

    libc, libuv and libpcap, as the source uses them: the [k]-th external call
    answers as the environment decides. *)

Class Env := {
  env_host :: Host;
  env_time : nat -> Z;                   (* time(NULL) *)
  env_pcap_sendpacket : nat -> bytes -> Z;
  env_udp_send : nat -> bytes -> Z;
  env_call : nat -> ext -> Z;            (* result of a set-up call *)
  env_stack : Z -> Z;                    (* bytes of an uninitialised local array *)
  (* getaddrinfo(name, NULL, family): its result, the list if not null, and the
     first entry's ai_addr if not null *)
  env_getaddrinfo : nat -> bytes -> Z -> Z * option (option bytes);
  env_ip_name : bytes -> bytes;          (* uv_ip4_name, uv_ip6_name *)
}.

Section externals.
Context `{Env}.

Definition tick (w : world) : world := set_w_ticks (S (w_ticks w)) w.
Definition emit (e : event) (w : world) : world := set_w_out (w_out w ++ [e]) w.

Definition time_now : M world Z :=
  fun w => Ok (env_time (w_ticks w)) (tick w).
Definition uv_pcap_sendpacket (data : bytes) : M world Z :=
  fun w => Ok (env_pcap_sendpacket (w_ticks w) data) (emit (EvFrame data) (tick w)).
Definition uv_udp_send (data : bytes) : M world Z :=
  fun w => Ok (env_udp_send (w_ticks w) data) (emit (EvRelay data) (tick w)).

Definition call (c : ext) : M world Z :=
  fun w => Ok (env_call (w_ticks w) c) (emit (EvCall c) (tick w)).

Definition getaddrinfo (name : bytes) (family : Z) : M world (Z * option (option bytes)) :=
  fun w => Ok (env_getaddrinfo (w_ticks w) name family) (tick w).

(** [uint8_t buffer[n];] on the stack: contents indeterminate. *)
Definition uninit (n : Z) : bytes := (fun i => u8 (env_stack i)) <$> seqZ 0 n.
End externals.

(** Access to the packet layer of the state. *)
Definition pctx (w : world) : packet_ctx := lp_packet_ctx (w_lp w).
Definition upd_lp (f : lan_play -> lan_play) : M world unit :=
  modify (fun w => set_w_lp (f (w_lp w)) w).
Definition upd_pctx (f : packet_ctx -> packet_ctx) : M world unit :=
  upd_lp (fun lp => set_lp_packet_ctx (f (lp_packet_ctx lp)) lp).

Lemma part_data_whole b : part_data (whole b) = b.
Proof. unfold part_data, whole. simpl. rewrite to_nat_zlen. apply firstn_all. Qed.

Lemma whole_eq b n : n = zlen b -> {| p_ptr := b; p_len := n |} = whole b.
Proof. by intros ->. Qed.

Lemma chain_data_whole b c : chain_data (whole b :: c) = b ++ chain_data c.
Proof. unfold chain_data. rewrite fmap_cons. simpl. by rewrite part_data_whole. Qed.

Lemma chain_data_cons p c : chain_data (p :: c) = part_data p ++ chain_data c.
Proof. done. Qed.

Lemma zlen_part_data p : wf_part p -> zlen (part_data p) = p_len p.
Proof. intros [? _]. unfold part_data. by rewrite zlen_take. Qed.

Lemma wf_whole b : is_bytes b -> wf_part (whole b).
Proof. intros. split; [simpl; zlia|done]. Qed.

Lemma part_data_is_bytes p : wf_part p -> is_bytes (part_data p).
Proof. intros [_ H]. by apply Forall_take. Qed.

Lemma chain_data_is_bytes c : wf_payload c -> is_bytes (chain_data c).
Proof.
  induction 1 as [|p c Hp Hc IH]; [constructor|]. rewrite chain_data_cons.
  apply Forall_app_2; [by apply part_data_is_bytes|done].
Qed.

(** A well-formed part's object is its data followed by the rest. *)
Lemma part_split p : wf_part p -> exists rest, p_ptr p = part_data p ++ rest.
Proof. intros _. exists (drop (Z.to_nat (p_len p)) (p_ptr p)). unfold part_data. by rewrite take_drop. Qed.

Lemma zlen_uninit `{Env} n : 0 <= n -> zlen (uninit n) = n.
Proof. intros. unfold uninit, zlen. rewrite length_fmap, length_seqZ. lia. Qed.

Lemma uninit_is_bytes `{Env} n : is_bytes (uninit n).
Proof. apply Forall_fmap, Forall_true. intros. apply u8_range. Qed.
