(* ===== verification/Checksum.v ===== *)
(** The Internet checksum: [calc_checksum] and [calc_payload_checksum] of
    [src/ipv4/ipv4.c], against the ones'-complement sum of RFC 1071. *)

From S2P Require Import Prelude Byteorder Structs.

(** ** The code *)

Section code.
Context `{Host}.

(** [while (len > 1) { sum += ntohs( *buf++ ); len -= 2; }] at byte offset [o]
    of [p]; [sum] is a [uint32_t].  Each round consumes two bytes of [len], so
    [len] rounds of fuel are enough. *)
Fixpoint word_loop (fuel : nat) (p : bytes) (o len sum : Z) : option (Z * Z * Z) :=
  match fuel with
  | O => None
  | S fuel =>
      if 1 <? len then
        w ← mem_get p o 2;
        word_loop fuel p (o + 2) (len - 2) (u32 (sum + ntohs (load w)))
      else Some (o, len, sum)
  end.
Definition sum_words (p : bytes) (o len sum : Z) : option (Z * Z * Z) :=
  word_loop (S (Z.to_nat len)) p o len sum.

(** [while (sum > 0xffff) sum -= 0xffff;] *)
Fixpoint fold_loop (fuel : nat) (sum : Z) : option Z :=
  match fuel with
  | O => None
  | S fuel => if 0xffff <? sum then fold_loop fuel (sum - 0xffff) else Some sum
  end.
Definition fold_sum (sum : Z) : option Z := fold_loop (S (Z.to_nat (sum / 0xffff))) sum.

(** [return ~sum;] as a [uint16_t]. *)
Definition finish (sum : Z) : option Z := s ← fold_sum sum; Some (u16 (Z.lnot s)).

Definition calc_checksum (buffer : bytes) (len : Z) : option Z :=
  '(o, len, sum) ← sum_words buffer 0 len 0;
  sum ← (if negb (len =? 0)
         then b ← READ_NET8 buffer o; Some (u32 (sum + b))
         else Some sum);
  finish sum.

(** The chain walk.  [(uint16_t * )part->ptr + offset] advances by [2 * offset]
    bytes: the pointer is cast before [offset] is added. *)
Fixpoint payload_loop (parts : payload) (offset sum : Z) : option Z :=
  match parts with
  | [] => Some sum
  | p :: next =>
      '(o, len, sum) ← sum_words (p_ptr p) (2 * offset) (p_len p - offset) sum;
      if negb (len =? 0) then
        hi ← READ_NET8 (p_ptr p) o;
        sum ← match next with
              | q :: _ =>
                  lo ← READ_NET8 (p_ptr q) 0;
                  Some (u32 (sum + Z.lor (Z.shiftl hi 8) lo))
              | [] => Some (u32 (sum + Z.shiftl hi 8))
              end;
        payload_loop next 1 sum
      else payload_loop next 0 sum
  end.

Definition calc_payload_checksum (parts : payload) : option Z :=
  sum ← payload_loop parts 0 0; finish sum.
End code.

(** ** The specification: RFC 1071 *)

(** Big-endian 16-bit words of a byte string, the last one padded with zero. *)
Fixpoint be_words (l : bytes) : list Z :=
  match l with
  | [] => []
  | [a] => [a * 256]
  | a :: b :: l => a * 256 + b :: be_words l
  end.

(** Addition with end-around carry. *)
Definition oc_add (a b : Z) : Z := let s := a + b in if 0xffff <? s then s - 0xffff else s.

Definition oc_sum (ws : list Z) : Z := foldl oc_add 0 ws.

(** The checksum of a message is the complement of the sum of its words. *)
Definition rfc1071 (l : bytes) : Z := 0xffff - oc_sum (be_words l).

(** A message that carries its own checksum is intact when its words sum to
    [0xffff]. *)
Definition rfc1071_valid (l : bytes) : Prop := oc_sum (be_words l) = 0xffff.

(** ** The sum in closed form *)

(** Residue of [s] in [0, 0xffff] as the end-around carry computes it: [0] only
    for [0], and [0xffff] for its other multiples. *)
Definition oc_norm (s : Z) : Z := if s =? 0 then 0 else (s - 1) mod 0xffff + 1.

Definition words_total (l : bytes) : Z := foldr Z.add 0 (be_words l).

Lemma oc_norm_range s : 0 <= s -> 0 <= oc_norm s <= 0xffff.
Proof. intros. unfold oc_norm. case_test; [lia|]. pose proof (Z.mod_pos_bound (s - 1) 0xffff). lia. Qed.

Lemma oc_norm_small s : 0 <= s <= 0xffff -> oc_norm s = s.
Proof. intros. unfold oc_norm. case_test; [lia|]. rewrite Z.mod_small; lia. Qed.

Lemma oc_norm_sub s : 0xffff < s -> oc_norm (s - 0xffff) = oc_norm s.
Proof.
  intros. unfold oc_norm. do 2 case_test; [lia..|].
  replace (s - 0xffff - 1) with (s - 1 + (-1) * 0xffff) by lia. by rewrite Z.mod_add.
Qed.

Lemma oc_add_norm s w : 0 <= s -> 0 <= w <= 0xffff -> oc_add (oc_norm s) w = oc_norm (s + w).
Proof.
  intros. unfold oc_add. destruct (Z.eq_dec s 0) as [->|Hs].
  - rewrite (oc_norm_small 0), !Z.add_0_l, oc_norm_small by lia. case_test; lia.
  - assert (E : exists q, s = oc_norm s + q * 0xffff /\ 0 <= q /\ 1 <= oc_norm s).
    { unfold oc_norm. case_test; [done|]. exists ((s - 1) / 0xffff).
      pose proof (Z.div_mod (s - 1) 0xffff). pose proof (Z.mod_pos_bound (s - 1) 0xffff).
      pose proof (Z.div_pos (s - 1) 0xffff). lia. }
    destruct E as (q & E & Hq & H1). pose proof (oc_norm_range s).
    assert (Hk : forall k t, 0 <= k -> 1 <= t -> oc_norm (t + k * 0xffff) = oc_norm t).
    { intros k t Hk Ht. unfold oc_norm. do 2 case_test; [lia..|].
      replace (t + k * 65535 - 1) with (t - 1 + k * 65535) by lia. by rewrite Z.mod_add. }
    assert (Hsw : oc_norm (s + w) = oc_norm (oc_norm s + w))
      by (transitivity (oc_norm (oc_norm s + w + q * 0xffff)); [f_equal; lia|apply Hk; lia]).
    rewrite Hsw. case_test.
    + rewrite <- (oc_norm_sub (oc_norm s + w)), (oc_norm_small (oc_norm s + w - 0xffff)); lia.
    + rewrite (oc_norm_small (oc_norm s + w)); lia.
Qed.

Lemma oc_sum_norm ws s :
  0 <= s -> Forall (fun w => 0 <= w <= 0xffff) ws ->
  foldl oc_add (oc_norm s) ws = oc_norm (s + foldr Z.add 0 ws).
Proof.
  intros Hs Hw. revert s Hs. induction Hw as [|w ws Hw Hws IH]; intros s Hs; simpl.
  - by rewrite Z.add_0_r.
  - rewrite oc_add_norm by lia. rewrite IH by lia. f_equal. lia.
Qed.

(** Induction two bytes at a time. *)
Lemma bytes_ind2 (P : bytes -> Prop) :
  P [] -> (forall a, P [a]) -> (forall a b l, P l -> P (a :: b :: l)) -> forall l, P l.
Proof.
  intros H0 H1 H2.
  fix IH 1. intros [|a [|b l]]; [apply H0|apply H1|apply H2, IH].
Qed.

Lemma be_words_range l : is_bytes l -> Forall (fun w => 0 <= w <= 0xffff) (be_words l).
Proof.
  induction l as [|a|a b l IH] using bytes_ind2; intros Hl; simpl; [constructor|..].
  - apply Forall_cons in Hl as [Ha _]. unfold is_u8 in Ha. constructor; [lia|constructor].
  - apply Forall_cons in Hl as [Ha Hl]. apply Forall_cons in Hl as [Hb Hl].
    unfold is_u8 in *. constructor; [lia|by apply IH].
Qed.

Lemma oc_sum_words l : is_bytes l -> oc_sum (be_words l) = oc_norm (words_total l).
Proof. intros Hl. apply (oc_sum_norm (be_words l) 0); [lia|by apply be_words_range]. Qed.

Lemma words_total_range l : is_bytes l -> 0 <= words_total l <= 0xffff * (zlen l + 1).
Proof.
  unfold words_total.
  induction l as [|a|a b l IH] using bytes_ind2; intros Hl; simpl; [zlens; lia|..].
  - apply Forall_cons in Hl as [Ha _]. unfold is_u8 in Ha. zlens. lia.
  - apply Forall_cons in Hl as [Ha Hl]. apply Forall_cons in Hl as [Hb Hl].
    specialize (IH Hl). unfold is_u8 in *. zlens. pose proof (zlen_nonneg l). lia.
Qed.

Lemma be_words_app l k :
  Z.even (zlen l) = true -> be_words (l ++ k) = be_words l ++ be_words k.
Proof.
  induction l as [|a|a b l IH] using bytes_ind2; intros E; simpl; [done|..].
  - by rewrite zlen_cons, zlen_nil in E.
  - rewrite IH; [done|]. rewrite !zlen_cons in E. rewrite <- E.
    replace (zlen l + 1 + 1) with (zlen l + 2 * 1) by lia. by rewrite Z.even_add_mul_2.
Qed.

Lemma words_total_app l k :
  Z.even (zlen l) = true -> words_total (l ++ k) = words_total l + words_total k.
Proof.
  intros E. unfold words_total. rewrite be_words_app by done.
  generalize (be_words l), (be_words k). intros ws vs. induction ws; simpl; lia.
Qed.

(** ** The loops *)

Section loops.
Context `{Host}.

Lemma fold_loop_spec fuel s :
  0 <= s < 0xffff * Z.of_nat fuel -> fold_loop fuel s = Some (oc_norm s).
Proof.
  revert s. induction fuel as [|fuel IH]; intros s Hs; [lia|]. simpl. case_test.
  - rewrite IH by lia. by rewrite oc_norm_sub.
  - by rewrite oc_norm_small by lia.
Qed.

(** The reduction loop terminates and leaves the ones'-complement residue. *)
Lemma fold_sum_spec s : 0 <= s -> fold_sum s = Some (oc_norm s).
Proof.
  intros Hs. apply fold_loop_spec.
  pose proof (Z.div_mod s 0xffff). pose proof (Z.mod_pos_bound s 0xffff).
  pose proof (Z.div_pos s 0xffff). rewrite Nat2Z.inj_succ, Z2Nat.id by lia. lia.
Qed.

Lemma finish_spec s : 0 <= s -> finish s = Some (0xffff - oc_norm s).
Proof.
  intros Hs. unfold finish. rewrite fold_sum_spec by done. simpl. f_equal.
  unfold u16, Z.lnot. pose proof (oc_norm_range s Hs).
  symmetry. apply (Z.mod_unique_pos _ _ (-1)); lia.
Qed.

(** The word loop over [2 * n] bytes [l] at offset [length pre]: it reads
    exactly [l] and adds its words, as long as the 32-bit sum has room. *)
Lemma word_loop_spec (n fuel : nat) pre l post s r :
  is_bytes l -> zlen l = 2 * Z.of_nat n -> (n < fuel)%nat -> 0 <= r <= 1 ->
  0 <= s -> s + words_total l < 2 ^ 32 ->
  word_loop fuel (pre ++ l ++ post) (zlen pre) (zlen l + r) s =
    Some (zlen pre + zlen l, r, s + words_total l).
Proof.
  revert fuel pre l s. induction n as [|n IH]; intros fuel pre l s Hl El Hf Hr Hs Hb.
  - apply zlen_0_inv in El as ->. destruct fuel; [lia|]. simpl. zlens.
    case_test; [lia|]. unfold words_total; simpl. do 2 f_equal; [f_equal|]; lia.
  - destruct l as [|a [|b l]]; zlens; [lia|lia|].
    apply Forall_cons in Hl as [Ha Hl]. apply Forall_cons in Hl as [Hb' Hl].
    destruct fuel as [|fuel]; [lia|]. simpl word_loop. case_test; [|lia].
    pose proof (words_total_range l Hl) as Hw.
    rewrite mem_get_Some by zlia.
    rewrite to_nat_zlen, drop_app_length. simpl take. cbn [mbind option_bind].
    unfold ntohs. change (hton16 (load [a; b])) with (htons (load [a; b])).
    rewrite htons_load by done.
    assert (Ew : words_total (a :: b :: l) = a * 256 + b + words_total l) by done.
    rewrite Ew in *. unfold is_u8 in Ha, Hb'.
    rewrite u32_id by (unfold is_u32; lia).
    replace (pre ++ a :: b :: l ++ post) with ((pre ++ [a; b]) ++ l ++ post)
      by by rewrite <- app_assoc.
    replace (zlen pre + 2) with (zlen (pre ++ [a; b])) by (zlens; lia).
    replace (zlen l + 1 + 1 + r - 2) with (zlen l + r) by lia.
    rewrite IH by (try done; zlens; lia). zlens. do 2 f_equal; [f_equal|]; lia.
Qed.

Lemma sum_words_spec pre l post s r :
  is_bytes l -> Z.even (zlen l) = true -> 0 <= r <= 1 ->
  0 <= s -> s + words_total l < 2 ^ 32 ->
  sum_words (pre ++ l ++ post) (zlen pre) (zlen l + r) s =
    Some (zlen pre + zlen l, r, s + words_total l).
Proof.
  intros Hl He Hr Hs Hb. pose proof (zlen_nonneg l).
  apply Z.even_spec in He as [n Hn]. unfold sum_words.
  apply (word_loop_spec (Z.to_nat n)); try done; lia.
Qed.
End loops.

(** ** What the functions compute *)

Section results.
Context `{Host}.

(** A length for which the 32-bit accumulator cannot wrap. *)
Definition sum_fits (n : Z) : Prop := 0xffff * (n + 1) < 2 ^ 32.

Lemma calc_checksum_even l post :
  is_bytes l -> Z.even (zlen l) = true -> sum_fits (zlen l) ->
  calc_checksum (l ++ post) (zlen l) = Some (rfc1071 l).
Proof.
  intros Hl He Hf. unfold calc_checksum, sum_fits in *.
  pose proof (words_total_range l Hl) as Hw.
  pose proof (sum_words_spec [] l post 0 0) as E. zlens. simpl app in E.
  rewrite Z.add_0_r, !Z.add_0_l in E. rewrite E by (try done; lia).
  cbn -[finish]. rewrite finish_spec by lia. unfold rfc1071.
  by rewrite oc_sum_words.
Qed.

(** On an even number of bytes, [calc_checksum] is the RFC 1071 checksum of
    those bytes, whatever follows them in the buffer and whatever the host's
    byte order; both loops terminate. *)
Theorem calc_checksum_rfc1071 l post :
  is_bytes l -> Z.even (zlen l) = true -> sum_fits (zlen l) ->
  calc_checksum (l ++ post) (zlen l) = Some (rfc1071 l).
Proof. apply calc_checksum_even. Qed.

(** What it computes on an odd number of bytes: the last byte is added as the
    low half of a word. *)
Lemma calc_checksum_odd l a post :
  is_bytes (l ++ [a]) -> Z.even (zlen l) = true -> sum_fits (zlen l + 1) ->
  calc_checksum ((l ++ [a]) ++ post) (zlen l + 1) = Some (0xffff - oc_norm (words_total l + a)).
Proof.
  intros [Hl Ha]%Forall_app He Hf. apply Forall_cons in Ha as [Ha _].
  unfold calc_checksum, sum_fits, is_u8 in *.
  pose proof (words_total_range l Hl) as Hw. rewrite <- app_assoc.
  pose proof (sum_words_spec [] l ([a] ++ post) 0 1) as E. zlens. simpl app in E.
  rewrite !Z.add_0_l in E. simpl app. rewrite E by (try done; lia).
  cbn -[finish READ_NET8].
  rewrite READ_NET8_eq, mem_get_Some by zlia.
  rewrite to_nat_zlen, drop_app_length.
  change (take (Z.to_nat 1) (a :: post)) with [a]. cbn [mbind option_bind head].
  rewrite u32_id by (unfold is_u32; lia). rewrite finish_spec by lia. done.
Qed.

Lemma rfc1071_valid_norm l : is_bytes l -> rfc1071_valid l <-> oc_norm (words_total l) = 0xffff.
Proof. intros Hl. unfold rfc1071_valid. by rewrite oc_sum_words. Qed.

Lemma rfc1071_range l : is_bytes l -> is_u16 (rfc1071 l).
Proof.
  intros Hl. unfold rfc1071, is_u16. rewrite oc_sum_words by done.
  pose proof (oc_norm_range (words_total l)). pose proof (words_total_range l Hl). lia.
Qed.

(** Storing the checksum of a message in a zeroed, aligned field of it makes the
    message valid: the receiver's check succeeds. *)
Lemma rfc1071_store l k c :
  is_bytes l -> is_bytes k -> Z.even (zlen l) = true ->
  c = rfc1071 (l ++ [0; 0] ++ k) ->
  rfc1071_valid (l ++ [c / 256; c mod 256] ++ k).
Proof.
  intros Hl Hk He Hc.
  assert (Hz : is_bytes (l ++ [0; 0] ++ k)).
  { repeat apply Forall_app_2; try done. repeat constructor; unfold is_u8; lia. }
  unfold rfc1071 in Hc. rewrite oc_sum_words in Hc by done.
  pose proof (words_total_range _ Hz) as Hr.
  pose proof (oc_norm_range (words_total (l ++ [0; 0] ++ k))) as Hn.
  apply rfc1071_valid_norm.
  { repeat apply Forall_app_2; try done. apply hi_lo_bytes. unfold is_u16. lia. }
  rewrite words_total_app in * by done.
  change (words_total ([0; 0] ++ k)) with (0 * 256 + 0 + words_total k) in *.
  change (words_total ([c / 256; c mod 256] ++ k))
    with (c / 256 * 256 + c mod 256 + words_total k).
  replace (words_total l + (c / 256 * 256 + c mod 256 + words_total k))
    with (words_total l + (0 * 256 + 0 + words_total k) + c)
    by (rewrite hi_lo_val; lia).
  rewrite <- oc_add_norm by lia. unfold oc_add. rewrite Hc.
  case_test; lia.
Qed.

Lemma oc_norm_full s : 0 < s -> oc_norm s = 0xffff <-> s mod 0xffff = 0.
Proof.
  intros Hs. unfold oc_norm. case_test; [lia|].
  pose proof (Z.div_mod (s - 1) 65535). pose proof (Z.mod_pos_bound (s - 1) 65535).
  split; intros Hm.
  - apply Z.mod_divide; [lia|]. exists ((s - 1) / 65535 + 1). lia.
  - apply Z.mod_divide in Hm as [k Hk]; [|lia].
    rewrite <- (Z.mod_unique_pos (s - 1) 65535 (k - 1) 65534); lia.
Qed.

(** A last byte counted in the low half when the checksum is computed and in the
    high half when it is checked. *)
Lemma low_half_invalid s a :
  0 <= s -> 0 <= a < 2 ^ 8 ->
  oc_norm (s + (0xffff - oc_norm (s + a)) + 256 * a) = 0xffff <-> a = 0.
Proof.
  intros Hs Ha. destruct (Z.eqb_spec (s + a) 0) as [E|E].
  { assert (a = 0 /\ s = 0) as [-> ->] by lia. done. }
  pose proof (oc_norm_range (s + a)). unfold oc_norm in * at 2.
  destruct (Z.eqb_spec (s + a) 0); [done|].
  pose proof (Z.div_mod (s + a - 1) 65535). pose proof (Z.mod_pos_bound (s + a - 1) 65535).
  rewrite oc_norm_full by lia.
  replace (s + (65535 - ((s + a - 1) mod 65535 + 1)) + 256 * a)
    with (255 * a + ((s + a - 1) / 65535 + 1) * 65535) by lia.
  rewrite Z.mod_add, Z.mod_small by lia. lia.
Qed.

Lemma payload_loop_last p s :
  wf_part p -> 0 <= s -> s + words_total (part_data p) < 2 ^ 32 ->
  payload_loop [p] 0 s = Some (s + words_total (part_data p)).
Proof.
  intros Hp Hs Hb. destruct (part_split p Hp) as [rest Ep].
  pose proof (zlen_part_data p Hp) as El. pose proof (part_data_is_bytes p Hp) as Hd.
  cbn [payload_loop]. rewrite Ep, <- El. rewrite Z.mul_0_r, Z.sub_0_r.
  destruct (Z.even (zlen (part_data p))) eqn:He.
  - pose proof (sum_words_spec [] (part_data p) rest s 0) as E. simpl app in E. zlens.
    rewrite Z.add_0_r, Z.add_0_l in E. rewrite E by (done || lia).
    cbn [mbind option_bind negb Z.eqb]. cbn. done.
  - destruct (part_data p) as [|a d _] eqn:Ed using rev_ind; [done|].
    apply Forall_app in Hd as [Hd Ha]. apply Forall_cons in Ha as [Ha _].
    assert (Hev : Z.even (zlen d) = true).
    { rewrite zlen_app in He. change (zlen [a]) with 1 in He.
      rewrite Z.even_add in He. by destruct (Z.even (zlen d)). }
    pose proof (words_total_range d Hd).
    rewrite words_total_app in * by done. change (words_total [a]) with (a * 256 + 0) in *.
    pose proof (sum_words_spec [] d ([a] ++ rest) s 1) as E. simpl app in E. zlens.
    rewrite ?Z.add_0_l in *. rewrite <- app_assoc. simpl app. unfold is_u8 in Ha.
    rewrite E by (done || lia). cbn [mbind option_bind negb Z.eqb].
    rewrite READ_NET8_eq, mem_get_Some by zlia. rewrite to_nat_zlen, drop_app_length.
    change (take (Z.to_nat 1) (a :: rest)) with [a]. cbn [mbind option_bind head].
    rewrite Z.shiftl_mul_pow2 by lia. rewrite u32_id by (unfold is_u32; lia).
    f_equal. lia.
Qed.

Lemma payload_loop_even c p s :
  wf_payload c -> Forall (fun q => Z.even (p_len q) = true) c -> wf_part p ->
  0 <= s -> s + words_total (chain_data (c ++ [p])) < 2 ^ 32 ->
  payload_loop (c ++ [p]) 0 s = Some (s + words_total (chain_data (c ++ [p]))).
Proof.
  intros Hc He Hp. revert s. induction Hc as [|q c Hq Hc IH]; intros s Hs Hb.
  - simpl app in *. rewrite chain_data_cons, app_nil_r in *. by apply payload_loop_last.
  - apply Forall_cons in He as [Eq He].
    simpl app in *. rewrite chain_data_cons in *.
    pose proof (zlen_part_data q Hq) as El. pose proof (part_data_is_bytes q Hq) as Hd.
    rewrite words_total_app in * by congruence.
    assert (Hwf : wf_payload (c ++ [p])) by (apply Forall_app_2; [done|by constructor]).
    pose proof (words_total_range _ (chain_data_is_bytes _ Hwf)).
    pose proof (words_total_range _ Hd).
    destruct (part_split q Hq) as [rest Ep].
    cbn [payload_loop]. rewrite Ep, <- El, Z.mul_0_r, Z.sub_0_r.
    pose proof (sum_words_spec [] (part_data q) rest s 0) as E. simpl app in E. zlens.
    rewrite Z.add_0_r, Z.add_0_l in E. rewrite E by (congruence || done || lia).
    cbn [mbind option_bind negb Z.eqb]. cbn iota. rewrite IH by (done || lia).
    f_equal. lia.
Qed.

Lemma calc_payload_checksum_even c p :
  wf_payload (c ++ [p]) -> Forall (fun q => Z.even (p_len q) = true) c ->
  sum_fits (zlen (chain_data (c ++ [p]))) ->
  calc_payload_checksum (c ++ [p]) = Some (rfc1071 (chain_data (c ++ [p]))).
Proof.
  intros Hwf He Hf. pose proof (chain_data_is_bytes _ Hwf) as Hb.
  pose proof (words_total_range _ Hb). unfold sum_fits in Hf.
  apply Forall_app in Hwf as [Hc Hp]. apply Forall_cons in Hp as [Hp _].
  unfold calc_payload_checksum. rewrite payload_loop_even by (done || lia).
  cbn [mbind option_bind]. rewrite Z.add_0_l, finish_spec by lia.
  unfold rfc1071. by rewrite oc_sum_words.
Qed.

(** On a chain whose parts all have even length, except possibly the last,
    [calc_payload_checksum] is the RFC 1071 checksum of the concatenation, the
    last odd byte being padded on the right as the RFC asks. *)
Theorem calc_payload_checksum_rfc1071 c p :
  wf_payload (c ++ [p]) -> Forall (fun q => Z.even (p_len q) = true) c ->
  sum_fits (zlen (chain_data (c ++ [p]))) ->
  calc_payload_checksum (c ++ [p]) = Some (rfc1071 (chain_data (c ++ [p]))).
Proof. apply calc_payload_checksum_even. Qed.

(** on an odd number of bytes [calc_checksum] treats the last byte as the low
    half of a word: the result is the checksum of the message with a zero byte
    inserted before its last byte, not of the message padded with a zero byte. *)
Theorem calc_checksum_odd_low_half l a post :
  is_bytes (l ++ [a]) -> Z.even (zlen l) = true -> sum_fits (zlen l + 1) ->
  calc_checksum ((l ++ [a]) ++ post) (zlen l + 1) = Some (rfc1071 (l ++ [0; a])).
Proof.
  intros Hb He Hf. rewrite calc_checksum_odd by done.
  apply Forall_app in Hb as [Hl Ha]. unfold rfc1071.
  rewrite oc_sum_words; [|apply Forall_app_2; [done|by constructor; [unfold is_u8; lia|]]].
  rewrite words_total_app by done. change (words_total [0; a]) with (0 * 256 + a + 0).
  do 2 f_equal. f_equal. lia.
Qed.

(** A part of odd length followed by a part of three bytes makes the chain walk
    read past the second part's object: the odd byte is carried over, but the
    cursor then skips two bytes instead of one. *)
Theorem calc_payload_checksum_odd_overrun a b c d :
  calc_payload_checksum [whole [a]; whole [b; c; d]] = None.
Proof.
  unfold calc_payload_checksum. cbn [payload_loop whole p_ptr p_len].
  change (zlen [a]) with 1. change (zlen [b; c; d]) with 3.
  change (2 * 0) with 0. change (1 - 0) with 1.
  unfold sum_words at 1. cbn [word_loop Z.to_nat Pos.to_nat].
  change (sum_words [a] 0 1 0) with (Some (0, 1, 0)).
  cbn [mbind option_bind negb Z.eqb]. rewrite !READ_NET8_eq.
  change (mem_get [a] 0 1) with (Some [a]). change (mem_get [b; c; d] 0 1) with (Some [b]).
  cbn [mbind option_bind head]. reflexivity.
Qed.
End results.

Lemma calc_checksum_rfc1071_witness :
  calc_checksum (H := le_host) ([0x45; 0; 0; 0x14] ++ [1; 2; 3]) 4 = Some (rfc1071 [0x45; 0; 0; 0x14]).
Proof.
  apply (calc_checksum_rfc1071 (H := le_host) [0x45; 0; 0; 0x14] [1; 2; 3]);
    [repeat constructor; unfold is_u8; lia|done|done].
Defined.

Lemma calc_payload_checksum_rfc1071_witness :
  calc_payload_checksum (H := le_host) ([whole [1; 2]] ++ [whole [3; 4; 5]]) =
    Some (rfc1071 [1; 2; 3; 4; 5]).
Proof.
  apply (calc_payload_checksum_rfc1071 (H := le_host) [whole [1; 2]] (whole [3; 4; 5]));
    [|repeat constructor|done].
  repeat constructor; simpl; unfold is_u8; try done; lia.
Defined.

Lemma calc_checksum_odd_low_half_witness :
  calc_checksum (H := le_host) (([8; 0] ++ [0x61]) ++ []) 3 = Some (rfc1071 [8; 0; 0; 0x61]) /\
  rfc1071 [8; 0; 0; 0x61] <> rfc1071 [8; 0; 0x61].
Proof.
  split; [|done].
  apply (calc_checksum_odd_low_half (H := le_host) [8; 0] 0x61 []);
    [repeat constructor; unfold is_u8; lia|done|done].
Defined.
