(* ===== verification/Packet.v ===== *)
(** The packet layer: [src/packet.c] below the protocol handlers, and
    [lan_play_send_packet] of [src/lan-play.c]. *)

From S2P Require Import Prelude Byteorder Structs.

(** ** The code *)

Section code.
Context `{Env}.

Definition lan_play_send_packet (data : bytes) : M world Z :=
  let* r := uv_pcap_sendpacket data in
  ret r.

(** [while (part) ...]: [pos] is [buf - self->buffer]. *)
Fixpoint send_loop (parts : payload) (pos total_len : Z) : M world Z :=
  match parts with
  | [] =>
      upd_pctx (fun c => set_pc_upload_packet (u64 (pc_upload_packet c + 1)) c) ;;;
      upd_pctx (fun c => set_pc_upload_byte (u64 (pc_upload_byte c + total_len)) c) ;;;
      let* b := gets (fun w => pc_buffer (pctx w)) in
      let* data := mem (mem_get b 0 total_len) in
      lan_play_send_packet data
  | p :: next =>
      let* buffer_len := gets (fun w => pc_buffer_len (pctx w)) in
      if buffer_len <=? pos + p_len p then ret (-1)
      else
        let* b := gets (fun w => pc_buffer (pctx w)) in
        let* b := mem (memcpy b pos (p_ptr p) 0 (p_len p)) in
        upd_pctx (set_pc_buffer b) ;;;
        send_loop next (pos + p_len p) (u16 (total_len + p_len p))
  end.
Definition send_payloads (c : payload) : M world Z := send_loop c 0 0.

Definition ether_header (dst src : bytes) (type : Z) : option bytes :=
  b ← CPY_MAC (uninit ETHER_HEADER_LEN) ETHER_OFF_DST dst 0;
  b ← CPY_MAC b ETHER_OFF_SRC src 0;
  WRITE_NET16 b ETHER_OFF_TYPE type.

Definition send_ether_ex (dst src : bytes) (type : Z) (c : payload) : M world Z :=
  let* buffer := mem (ether_header dst src type) in
  send_payloads ({| p_ptr := buffer; p_len := ETHER_HEADER_LEN |} :: c).

Definition send_ether (dst : bytes) (type : Z) (c : payload) : M world Z :=
  let* mac := gets (fun w => pc_mac (pctx w)) in
  send_ether_ex dst mac type c.

(** [struct pcap_pkthdr], the two lengths. *)
Record pcap_pkthdr := { pk_caplen : Z; pk_len : Z }.

Definition print_packet (h : pcap_pkthdr) (packet : bytes) : M world unit :=
  let* b := mem (mem_get packet 0 (pk_len h)) in
  modify (emit (EvDump b)).

Definition AnyMac : bytes := [0xff; 0xff; 0xff; 0xff; 0xff; 0xff].

Definition arp_list_init : list arp_item :=
  replicate (Z.to_nat ARP_CACHE_LEN)
    {| ai_ip := [0; 0; 0; 0]; ai_mac := [0; 0; 0; 0; 0; 0]; ai_expire_at := 0 |}.

Definition packet_init (buffer : bytes) (buffer_len : Z) (ip subnet_net subnet_mask : bytes)
    (arp_ttl : Z) : M world Z :=
  let* ip := mem (mem_get ip 0 4) in
  let* net := mem (mem_get subnet_net 0 4) in
  let* mask := mem (mem_get subnet_mask 0 4) in
  upd_pctx (fun _ =>
    {| pc_buffer := buffer; pc_buffer_len := buffer_len; pc_ip := ip;
       pc_subnet_net := net; pc_subnet_mask := mask; pc_mac := AnyMac;
       pc_identification := 0; pc_arp_list := arp_list_init; pc_arp_ttl := arp_ttl;
       pc_upload_byte := 0; pc_download_byte := 0;
       pc_upload_packet := 0; pc_download_packet := 0 |}) ;;;
  ret 0.

Definition packet_close : M world Z := ret 0.

Definition parse_ether (packet : bytes) (len : Z) : option ether_frame :=
  dst ← mem_get packet ETHER_OFF_DST 6;
  src ← mem_get packet ETHER_OFF_SRC 6;
  type ← READ_NET16 packet ETHER_OFF_TYPE;
  pl ← mem_from packet ETHER_OFF_END;
  Some {| ef_raw := packet; ef_raw_len := len; ef_dst := dst; ef_src := src;
          ef_type := type; ef_payload := pl |}.

Definition packet_set_mac (mac : bytes) : M world unit := upd_pctx (set_pc_mac mac).

Fixpoint payload_total_len_loop (c : payload) (total_len : Z) : Z :=
  match c with
  | [] => total_len
  | p :: next => payload_total_len_loop next (u16 (total_len + p_len p))
  end.
Definition payload_total_len (c : payload) : Z := payload_total_len_loop c 0.

Fixpoint payload_print_hex (c : payload) : M world unit :=
  match c with
  | [] => ret tt
  | p :: next =>
      let* b := mem (mem_get (p_ptr p) 0 (p_len p)) in
      modify (emit (EvDump b)) ;;; payload_print_hex next
  end.
End code.

(** ** What one transmission does to the world *)

Section spec.
Context `{Env}.

(** The buffer after [data] has been gathered at its start. *)
Definition filled (data buf : bytes) : bytes := data ++ drop (length data) buf.

Definition count_up (n : Z) (c : packet_ctx) : packet_ctx :=
  set_pc_upload_byte (u64 (pc_upload_byte c + n))
    (set_pc_upload_packet (u64 (pc_upload_packet c + 1)) c).

(** One frame handed to the capture layer: buffer, counters, clock and trace. *)
Definition transmitted (data : bytes) (w : world) : world :=
  let c := pctx w in
  let c' := count_up (zlen data) (set_pc_buffer (filled data (pc_buffer c)) c) in
  emit (EvFrame data) (tick (set_w_lp (set_lp_packet_ctx c' (w_lp w)) w)).

(** The send buffer has the size the context says, and fits 16-bit lengths. *)
Definition buffer_ok (c : packet_ctx) : Prop :=
  zlen (pc_buffer c) = pc_buffer_len c /\ pc_buffer_len c <= 2 ^ 16.
End spec.

(** ** Sending *)

Section send.
Context `{Env}.

Lemma payload_total_len_spec c :
  wf_payload c -> payload_total_len c = u16 (zlen (chain_data c)).
Proof.
  intros Hc. unfold payload_total_len.
  cut (forall t, payload_total_len_loop c (u16 t) = u16 (t + zlen (chain_data c))).
  { intros E. apply (E 0). }
  induction Hc as [|p c Hp Hc IH]; intros t.
  - simpl. unfold chain_data. simpl. by rewrite zlen_nil, Z.add_0_r.
  - rewrite chain_data_cons, zlen_app, zlen_part_data by done. simpl.
    replace (u16 (u16 t + p_len p)) with (u16 (t + p_len p))
      by (unfold u16; by rewrite Zplus_mod_idemp_l).
    rewrite IH. f_equal. lia.
Qed.

Lemma memcpy_filled data buf p :
  wf_part p -> zlen data + p_len p <= zlen buf ->
  memcpy (filled data buf) (zlen data) (p_ptr p) 0 (p_len p) =
    Some (filled (data ++ part_data p) buf).
Proof.
  intros Hp Hl. destruct Hp as [Hl' Hb]. unfold memcpy.
  rewrite mem_get_Some by lia. rewrite drop_0. cbn [mbind option_bind].
  fold (part_data p). pose proof (zlen_part_data p (conj Hl' Hb)) as Ed.
  assert (Hf : zlen (filled data buf) = zlen buf).
  { unfold filled, zlen in *. rewrite length_app, length_drop. lia. }
  rewrite mem_put_Some by zlia. f_equal. unfold filled.
  rewrite to_nat_zlen, take_app_length, length_app, <- drop_drop, drop_app_length.
  by rewrite drop_drop, app_assoc.
Qed.

(** The gathering loop, part way through: [data] already copied. *)
Lemma send_loop_ok c data w :
  wf_payload c -> zlen (pc_buffer (pctx w)) = pc_buffer_len (pctx w) ->
  pc_buffer_len (pctx w) <= 2 ^ 16 ->
  zlen (data ++ chain_data c) < pc_buffer_len (pctx w) ->
  send_loop c (zlen data) (zlen data)
    (set_w_lp (set_lp_packet_ctx (set_pc_buffer (filled data (pc_buffer (pctx w))) (pctx w))
                 (w_lp w)) w) =
  Ok (env_pcap_sendpacket (w_ticks w) (data ++ chain_data c))
     (transmitted (data ++ chain_data c) w).
Proof.
  intros Hc Hb Hl. revert data. induction Hc as [|p c Hp Hc IH]; intros data Hd.
  - unfold chain_data in *. simpl concat in *. rewrite app_nil_r in *. simpl.
    unfold bind, upd_pctx, upd_lp, modify, gets, mem. simpl.
    assert (E : mem_get (filled data (pc_buffer (pctx w))) 0 (zlen data) = Some data).
    { rewrite mem_get_Some; [|zlia|zlia|].
      - unfold filled. by rewrite drop_0, to_nat_zlen, take_app_length.
      - unfold filled, zlen in *. rewrite length_app. lia. }
    rewrite E. done.
  - rewrite chain_data_cons, app_assoc in *. pose proof (zlen_part_data p Hp) as Ep.
    rewrite zlen_app, (zlen_app data) in Hd. zlen_facts.
    simpl. unfold bind at 1. unfold gets at 1. simpl. case_test; [lia|].
    unfold bind at 1. unfold gets at 1. simpl. rewrite memcpy_filled by (done || lia).
    simpl. unfold bind at 1. simpl. rewrite <- Ep, <- zlen_app, u16_id by (unfold is_u16; zlia).
    rewrite <- IH by zlia. done.
Qed.

Lemma send_payloads_run c w :
  wf_payload c -> buffer_ok (pctx w) ->
  zlen (chain_data c) < pc_buffer_len (pctx w) ->
  send_payloads c w =
    Ok (env_pcap_sendpacket (w_ticks w) (chain_data c)) (transmitted (chain_data c) w).
Proof.
  intros Hc [Hb Hl] Hd. pose proof (send_loop_ok c [] w Hc Hb Hl Hd) as E.
  simpl app in E. rewrite <- E. unfold send_payloads. change (zlen (@nil Z)) with 0. f_equal.
  unfold filled, pctx. simpl. destruct w as [[[] ] ]; done.
Qed.

(** If the parts together are shorter than the send buffer, [send_payloads]
    hands exactly one frame to the capture layer, the concatenation of the parts,
    counts it, and returns the capture layer's code. *)
Theorem send_payloads_ok c w :
  wf_payload c -> buffer_ok (pctx w) ->
  zlen (chain_data c) < pc_buffer_len (pctx w) ->
  send_payloads c w =
    Ok (env_pcap_sendpacket (w_ticks w) (chain_data c)) (transmitted (chain_data c) w).
Proof. apply send_payloads_run. Qed.

Lemma send_loop_too_large c data w :
  wf_payload c -> zlen (pc_buffer (pctx w)) = pc_buffer_len (pctx w) ->
  pc_buffer_len (pctx w) <= 2 ^ 16 -> zlen data < pc_buffer_len (pctx w) ->
  pc_buffer_len (pctx w) <= zlen (data ++ chain_data c) ->
  exists data', zlen data' < pc_buffer_len (pctx w) /\
  send_loop c (zlen data) (zlen data)
    (set_w_lp (set_lp_packet_ctx (set_pc_buffer (filled data (pc_buffer (pctx w))) (pctx w))
                 (w_lp w)) w) =
  Ok (-1) (set_w_lp (set_lp_packet_ctx
             (set_pc_buffer (filled data' (pc_buffer (pctx w))) (pctx w)) (w_lp w)) w).
Proof.
  intros Hc Hb Hl. revert data. induction Hc as [|p c Hp Hc IH]; intros data Hlt Hd.
  - unfold chain_data in *. simpl concat in *. rewrite app_nil_r in *. lia.
  - rewrite chain_data_cons, app_assoc in *. pose proof (zlen_part_data p Hp) as Ep.
    simpl. unfold bind at 1. unfold gets at 1. simpl. case_test; [by exists data|].
    unfold bind at 1. unfold gets at 1. simpl. rewrite memcpy_filled by (done || lia).
    simpl. unfold bind at 1. simpl. rewrite <- Ep, <- zlen_app, u16_id by (unfold is_u16; zlia).
    destruct (IH (data ++ part_data p)) as (data' & Hd' & E); [zlia|done|].
    exists data'. split; [done|]. by rewrite <- E.
Qed.

Lemma zlen_filled data buf : zlen data <= zlen buf -> zlen (filled data buf) = zlen buf.
Proof. intros. unfold filled, zlen in *. rewrite length_app, length_drop. lia. Qed.

Lemma send_payloads_refused c w :
  wf_payload c -> buffer_ok (pctx w) -> 0 < pc_buffer_len (pctx w) ->
  pc_buffer_len (pctx w) <= zlen (chain_data c) ->
  exists buf, zlen buf = zlen (pc_buffer (pctx w)) /\ send_payloads c w =
    Ok (-1) (set_w_lp (set_lp_packet_ctx (set_pc_buffer buf (pctx w)) (w_lp w)) w).
Proof.
  intros Hc [Hb Hl] H0 Hd.
  destruct (send_loop_too_large c [] w) as (data' & Hd' & E); [done..|].
  exists (filled data' (pc_buffer (pctx w))). split; [apply zlen_filled; lia|]. rewrite <- E.
  unfold send_payloads. change (zlen (@nil Z)) with 0. f_equal.
  unfold filled, pctx. simpl. destruct w as [[[] ] ]; done.
Qed.

(** If the parts together reach the size of the send buffer (equality included),
    [send_payloads] returns [-1], no frame leaves the client and no counter moves;
    only the contents of the scratch buffer may have changed. *)
Theorem send_payloads_too_large c w :
  wf_payload c -> buffer_ok (pctx w) -> 0 < pc_buffer_len (pctx w) ->
  pc_buffer_len (pctx w) <= zlen (chain_data c) ->
  exists buf, zlen buf = zlen (pc_buffer (pctx w)) /\ send_payloads c w =
    Ok (-1) (set_w_lp (set_lp_packet_ctx (set_pc_buffer buf (pctx w)) (w_lp w)) w).
Proof. apply send_payloads_refused. Qed.
End send.

(** ** Ethernet framing *)

Section ether.
Context `{Env}.

(** The 14 bytes of an Ethernet header. *)
Definition eth_hdr (dst src : bytes) (type : Z) : bytes :=
  dst ++ src ++ [u16 type / 256; u16 type mod 256].

Lemma ether_header_eq dst src type :
  length dst = 6%nat -> length src = 6%nat ->
  ether_header dst src type = Some (eth_hdr dst src type).
Proof.
  intros (d1 & d2 & d3 & d4 & d5 & d6 & ->)%length_6_inv
         (s1 & s2 & s3 & s4 & s5 & s6 & ->)%length_6_inv.
  unfold ether_header. omem. rewrite WRITE_NET16_put. reflexivity.
Qed.

Lemma eth_hdr_is_bytes dst src type :
  is_bytes dst -> is_bytes src -> is_bytes (eth_hdr dst src type).
Proof.
  intros Hd Hs. repeat apply Forall_app_2; try done. apply hi_lo_bytes, u16_range.
Qed.

Lemma zlen_eth_hdr dst src type :
  length dst = 6%nat -> length src = 6%nat -> zlen (eth_hdr dst src type) = 14.
Proof. intros Hd Hs. unfold eth_hdr, zlen. rewrite !length_app, Hd, Hs. done. Qed.

(** One frame with our MAC as the source. *)
Definition framed (dst : bytes) (type : Z) (data : bytes) (w : world) : bytes :=
  eth_hdr dst (pc_mac (pctx w)) type ++ data.

(** [send_ether] on a payload that fits: one frame, header then data. *)
Lemma send_ether_ok dst type c w :
  length dst = 6%nat -> is_bytes dst ->
  length (pc_mac (pctx w)) = 6%nat -> is_bytes (pc_mac (pctx w)) ->
  wf_payload c -> buffer_ok (pctx w) ->
  14 + zlen (chain_data c) < pc_buffer_len (pctx w) ->
  send_ether dst type c w =
    Ok (env_pcap_sendpacket (w_ticks w) (framed dst type (chain_data c) w))
       (transmitted (framed dst type (chain_data c) w) w).
Proof.
  intros Hd Hdb Hm Hmb Hc Hb Hl. unfold send_ether, send_ether_ex.
  unfold bind at 1. unfold gets at 1. unfold bind at 1. rewrite ether_header_eq by done.
  unfold mem, ret. set (h := eth_hdr _ _ _).
  assert (Hz : zlen h = 14) by by apply zlen_eth_hdr.
  rewrite (whole_eq h) by done.
  rewrite send_payloads_run; rewrite ?chain_data_whole; try done; [|rewrite zlen_app; lia].
  constructor; [|done]. by apply wf_whole, eth_hdr_is_bytes.
Qed.

(** A frame built by [send_ether_ex] parses back: [parse_ether] recovers both
    addresses, the type and the payload from the bytes on the wire. *)
Theorem parse_ether_roundtrip dst src type data len h :
  length dst = 6%nat -> length src = 6%nat -> is_u16 type ->
  ether_header dst src type = Some h ->
  parse_ether (h ++ data) len =
    Some {| ef_raw := h ++ data; ef_raw_len := len; ef_dst := dst; ef_src := src;
            ef_type := type; ef_payload := data |}.
Proof.
  intros Hd Hs Ht Hh. rewrite ether_header_eq in Hh by done. simplify_eq.
  apply length_6_inv in Hd as (d1 & d2 & d3 & d4 & d5 & d6 & ->).
  apply length_6_inv in Hs as (s1 & s2 & s3 & s4 & s5 & s6 & ->).
  unfold parse_ether, eth_hdr. simpl app.
  rewrite !mem_get_Some by (consts; zlia).
  rewrite mem_from_Some by (consts; zlia).
  rewrite (READ_NET16_get _ _ (u16 type / 256) (u16 type mod 256)).
  - cbn. do 2 f_equal. by rewrite u16_id, hi_lo_val.
  - apply hi_u8, u16_range.
  - apply lo_u8.
  - rewrite mem_get_Some by (consts; zlia). reflexivity.
Qed.
End ether.

(** ** A concrete client *)

(** The environment of a run: little-endian host, one clock reading per call
    starting at 1000, every send succeeding, a zeroed stack. *)
Definition demo_env : Env :=
  {| env_host := le_host; env_time := fun n => 1000 + Z.of_nat n;
     env_pcap_sendpacket := fun _ _ => 0; env_udp_send := fun _ _ => 0;
     env_call := fun _ _ => 0; env_stack := fun _ => 0;
     env_getaddrinfo := fun _ _ _ => (0, Some (Some ([2; 0; 0; 0; 127; 0; 0; 1] ++ replicate 8 0)));
     env_ip_name := fun _ => [] |}.

Definition demo_mac : bytes := [2; 0; 0; 0; 0; 1].

Definition demo_ctx : packet_ctx :=
  {| pc_buffer := replicate 2048 0; pc_buffer_len := 2048; pc_ip := [10; 13; 37; 1];
     pc_subnet_net := [10; 13; 0; 0]; pc_subnet_mask := [255; 255; 0; 0];
     pc_mac := demo_mac; pc_identification := 0; pc_arp_list := arp_list_init;
     pc_arp_ttl := 30; pc_upload_byte := 0; pc_download_byte := 0;
     pc_upload_packet := 0; pc_download_packet := 0 |}.

Definition demo_lp : lan_play :=
  {| lp_packet_ctx := demo_ctx; lp_pmtu := 0; lp_broadcast := false;
     lp_next_real_broadcast := true; lp_frag_id := 0; lp_local_id := 0;
     lp_frags := replicate 100 {| fr_local_id := 0; fr_src := [0; 0; 0; 0]; fr_id := 0;
       fr_part := 0; fr_used := 0; fr_total_len := 0; fr_buffer := replicate 1500 0 |};
     lp_server_addr := {| sin_len := 16; sin_family := AF_INET;
                        sin_u := [2; 0; 44; 187; 127; 0; 0; 1] ++ replicate 20 0 |};
     lp_username := None; lp_key := replicate 20 0;
     lp_upload_byte := 0; lp_download_byte := 0; lp_upload_packet := 0; lp_download_packet := 0;
     lp_console := {| cs_relay_fd := 0; cs_send_err_count := 0; cs_recv_err_count := 0;
                      cs_running := false |} |}.

Definition demo_world : world := {| w_lp := demo_lp; w_ticks := 0; w_out := [] |}.

Lemma demo_buffer_ok : buffer_ok (pctx demo_world).
Proof. vm_compute. split; [reflexivity|discriminate]. Qed.

Ltac bytes_tac := repeat constructor; unfold is_u8; simpl; lia.

Lemma send_payloads_ok_witness :
  exists w', send_payloads (H := demo_env) [whole [1; 2]; whole [3]] demo_world = Ok 0 w' /\
             w_out w' = [EvFrame [1; 2; 3]].
Proof.
  exists (transmitted [1; 2; 3] demo_world). split; [|reflexivity].
  apply (send_payloads_ok (H := demo_env) [whole [1; 2]; whole [3]] demo_world);
    [repeat constructor; unfold is_u8; simpl; zlia|apply demo_buffer_ok|reflexivity].
Defined.

Lemma send_payloads_too_large_witness :
  exists buf, zlen buf = 2048 /\ send_payloads (H := demo_env) [whole (replicate 2048 7)] demo_world =
    Ok (-1) (set_w_lp (set_lp_packet_ctx (set_pc_buffer buf (pctx demo_world))
      (w_lp demo_world)) demo_world).
Proof.
  apply (send_payloads_too_large (H := demo_env) [whole (replicate 2048 7)] demo_world);
    [|apply demo_buffer_ok|reflexivity|vm_compute; discriminate].
  constructor; [|constructor]. apply wf_whole. apply Forall_replicate. unfold is_u8; lia.
Defined.

Lemma parse_ether_roundtrip_witness :
  parse_ether (H := demo_env)
    ([1; 1; 1; 1; 1; 1; 2; 2; 2; 2; 2; 2; 8; 0] ++ [9]) 15 =
  Some {| ef_raw := [1; 1; 1; 1; 1; 1; 2; 2; 2; 2; 2; 2; 8; 0; 9]; ef_raw_len := 15;
          ef_dst := [1; 1; 1; 1; 1; 1]; ef_src := [2; 2; 2; 2; 2; 2];
          ef_type := ETHER_TYPE_IPV4; ef_payload := [9] |}.
Proof.
  apply (parse_ether_roundtrip (H := demo_env) [1; 1; 1; 1; 1; 1] [2; 2; 2; 2; 2; 2]
           ETHER_TYPE_IPV4 [9] 15); [done|done|unfold is_u16; consts; lia|reflexivity].
Defined.
