(* ===== verification/Helper.v ===== *)
(** Addresses and text: [src/helper.c].

    C strings are the bytes before the terminator.  The libc routines the file
    uses ([sscanf] with ["%d"], [strtol], [strchr]) are written out;
    [getaddrinfo] and libuv's printers are the environment's.  The system
    interfaces behind [get_mac_address] are its arguments: one definition per
    platform the source has a branch for.

    Shown here: [str2ip] inverts dotted-decimal notation and yields 0.0.0.0 on
    everything else, [parse_ip_port] stays within its buffers on every input and
    accepts exactly the documented syntax, the resolved address carries the port
    that was asked for, and the GUID comparison of the Windows build decides
    equality of well-formed names and runs off the end of unterminated ones. *)

From stdpp Require Import strings.
From S2P Require Import Prelude Byteorder Structs Packet.

(** ** C strings *)

(** The bytes of a string constant. *)
Definition cstr (s : string) : bytes :=
  (fun a => Z.of_N (Ascii.N_of_ascii a)) <$> String.list_ascii_of_string s.

(** The string a buffer holds: the bytes before the first NUL. *)
Fixpoint cstring (buf : bytes) : bytes :=
  match buf with
  | [] => []
  | c :: buf => if c =? 0 then [] else c :: cstring buf
  end.

Definition isspace (c : Z) : bool := (c =? 32) || ((9 <=? c) && (c <=? 13)).
Definition isdigit (c : Z) : bool := (48 <=? c) && (c <=? 57).

Fixpoint skip_space (s : bytes) : bytes :=
  match s with
  | c :: s' => if isspace c then skip_space s' else s
  | [] => []
  end.

Fixpoint scan_digits (acc : Z) (s : bytes) : Z * bytes :=
  match s with
  | c :: s' => if isdigit c then scan_digits (acc * 10 + (c - 48)) s' else (acc, s)
  | [] => (acc, [])
  end.

(** The subject sequence of [strtol] in base 10 and of ["%d"]: spaces, a sign,
    at least one digit.  Its value and what follows it. *)
Definition scan_int (s : bytes) : option (Z * bytes) :=
  let s := skip_space s in
  let '(neg, s) := match s with
                   | c :: s' => if c =? 45 then (true, s') else if c =? 43 then (false, s')
                                else (false, s)
                   | [] => (false, [])
                   end in
  match s with
  | c :: _ => if isdigit c then
                let '(v, r) := scan_digits 0 s in Some (if neg : bool then - v else v, r)
              else None
  | [] => None
  end.

(** [long] is 64 bits wide; conversions saturate. *)
Definition clamp_long (v : Z) : Z := Z.max (- 2 ^ 63) (Z.min (2 ^ 63 - 1) v).

(** [strtol(s, &end, 10)]: the value and the string at [end]. *)
Definition strtol (s : bytes) : Z * bytes :=
  match scan_int s with
  | Some (v, r) => (clamp_long v, r)
  | None => (0, s)
  end.

(** [atoi]: the conversion of [strtol] as an [int]. *)
Definition atoi (s : bytes) : Z := s32 (strtol s).1.

(** One ["%d"] of [sscanf]: an [int], converted as [strtol] does. *)
Definition scan_d (s : bytes) : option (Z * bytes) :=
  '(v, r) ← scan_int s; Some (s32 (clamp_long v), r).

(** A literal character of a [sscanf] format. *)
Definition scan_char (c : Z) (s : bytes) : option bytes :=
  match s with
  | d :: s => if d =? c then Some s else None
  | [] => None
  end.

(** [sscanf(s, "%d.%d.%d.%d", ...) == 4]. *)
Definition scan_ipv4 (s : bytes) : option (list Z) :=
  '(a, s) ← scan_d s; s ← scan_char 46 s;
  '(b, s) ← scan_d s; s ← scan_char 46 s;
  '(c, s) ← scan_d s; s ← scan_char 46 s;
  '(d, _) ← scan_d s;
  Some [a; b; c; d].

(** ** The operations *)

Definition str2ip (ip : option bytes) : bytes :=
  match (s ← ip; scan_ipv4 s) with
  | None => replicate 4 0
  | Some p =>
      if existsb (fun v => (v <? 0) || (255 <? v)) p then replicate 4 0
      else u8 <$> p
  end.

Definition hex_digit (d : Z) : Z := if d <? 10 then 48 + d else 87 + d.

(** What [print_hex] writes to stderr. *)
Fixpoint hex_loop (i : Z) (packet : bytes) : bytes :=
  match packet with
  | [] => []
  | b :: packet =>
      [32; hex_digit (b / 16); hex_digit (b mod 16)] ++
      (if (i + 1) mod 16 =? 0 then [10] else []) ++ hex_loop (i + 1) packet
  end.
Definition print_hex (buf : bytes) (len : Z) : option bytes :=
  packet ← mem_get buf 0 (Z.max 0 len); Some (hex_loop 0 packet ++ [10; 10]).

(** The objects [parse_ip_port] writes through its pointers. *)
Record ip_port_out := {
  o_addr : bytes;  (* out_addr, out_addr_len bytes *)
  o_port : Z;  (* uint16_t *)
  o_is_ipv6 : Z;  (* uint8_t *)
}.

(** [while (i < len && str[i] != c) i++] from the start of [s]. *)
Fixpoint find_char (c : Z) (s : bytes) : Z :=
  match s with
  | [] => 0
  | d :: s => if d =? c then 0 else 1 + find_char c s
  end.

(** The positions of the parts of [str]: [addr_start], [addr_len], [port_start],
    [port_len].  First the bracketed form. *)
Definition locate_ipv6 (str : bytes) : option (Z * Z * Z * Z) :=
  let len := zlen str in
  let i := 1 + find_char 93 (drop 1 str) in
  if len <=? i then None
  else if (len <=? i + 1) || negb (nth (Z.to_nat (i + 1)) str 0 =? 58) then None
  else Some (1, i - 1, i + 2, len - (i + 2)).

Definition locate_ipv4 (str : bytes) : option (Z * Z * Z * Z) :=
  let len := zlen str in
  let i := find_char 58 str in
  if len <=? i then Some (0, len, len, 0)
  else if find_char 58 (drop (Z.to_nat (i + 1)) str) <? len - (i + 1) then None
  else Some (0, i, i + 1, len - (i + 1)).

(** From the port text to the result. *)
Definition convert_port (port_str : bytes) : option Z :=
  let '(conv_res, err) := strtol port_str in
  if bool_decide (port_str = []) || negb (bool_decide (err = [])) then None
  else if (conv_res <=? 0) || (65535 <? conv_res) then None
  else Some conv_res.

Section code.
Context `{Env}.

Definition ip2str (addr : slp_addr_in) : option bytes :=
  fam ← mem_get (sin_u addr) 0 2;
  Some (if negb (sin_family addr =? load fam) then cstr "Error: family mismatch"
        else if sin_family addr =? AF_INET then env_ip_name (sin_u addr)
        else if sin_family addr =? AF_INET6 then env_ip_name (sin_u addr)
        else cstr "Error: unsupported sin_family").

(** [None] is an access outside a buffer; the first component is the result. *)
Definition parse_ip_port (str : option bytes) (out : ip_port_out) : option (Z * ip_port_out) :=
  match str with
  | None => Some (-1, out)
  | Some str =>
      let out_addr_len := zlen (o_addr out) in
      if out_addr_len =? 0 then Some (-1, out)
      else if (zlen str <? 1) || (1000 <? zlen str) then Some (-1, out)
      else
        let bracket := nth 0 str 0 =? 91 in
        let out := {| o_addr := o_addr out; o_port := o_port out;
                      o_is_ipv6 := if bracket then 1 else 0 |} in
        match (if bracket then locate_ipv6 str else locate_ipv4 str) with
        | None => Some (-1, out)
        | Some (addr_start, addr_len, port_start, port_len) =>
            if addr_len =? 0 then Some (-1, out)
            else if out_addr_len <=? addr_len then Some (-1, out)
            else
              a ← memcpy (o_addr out) 0 str addr_start addr_len;
              a ← mem_put a addr_len [0];
              let out := {| o_addr := a; o_port := o_port out; o_is_ipv6 := o_is_ipv6 out |} in
              let set_port p := {| o_addr := a; o_port := p; o_is_ipv6 := o_is_ipv6 out |} in
              if port_len =? 0 then Some (0, set_port SERVER_PORT)
              else if 6 <=? port_len then Some (-1, out)
              else
                port_str ← memcpy (uninit 6) 0 str port_start port_len;
                port_str ← mem_put port_str port_len [0];
                match convert_port (cstring port_str) with
                | None => Some (-1, out)
                | Some p => Some (0, set_port (u16 p))
                end
        end
  end.

Definition sockaddr_in_size : Z := 16.
Definition sockaddr_in6_size : Z := 28.

(** The address a resolver entry [sa] and a port make, and the result. *)
Definition fill_addr (sa : bytes) (port : Z) : option (Z * slp_addr_in) :=
  fam ← mem_get sa 0 2;
  let family := load fam in
  let size := if family =? AF_INET then sockaddr_in_size else sockaddr_in6_size in
  if (family =? AF_INET) || (family =? AF_INET6) then
    u ← memcpy (replicate 28 0) 0 sa 0 size;
    u ← WRITE_NET16 u 2 port;
    Some (0, {| sin_len := size; sin_family := family; sin_u := u |})
  else Some (-1, {| sin_len := 0; sin_family := family; sin_u := replicate 28 0 |}).

Definition parse_addr (str : option bytes) (addr : slp_addr_in) : M world (Z * slp_addr_in) :=
  match str with
  | None => ret (-1, addr)
  | Some _ =>
      let* r := mem (parse_ip_port str
                       {| o_addr := uninit 128; o_port := 0; o_is_ipv6 := 0 |}) in
      let '(rc, out) := r in
      if negb (rc =? 0) then ret (-1, addr)
      else
        let family := if negb (o_is_ipv6 out =? 0) then AF_INET6 else AF_INET in
        let* res := getaddrinfo (cstring (o_addr out)) family in
        let '(rc, addrs) := res in
        if negb (rc =? 0) then ret (-1, addr)
        else match addrs with
             | Some (Some sa) => mem (fill_addr sa (o_port out))
             | _ => ret (-1, addr)
             end
  end.
End code.

(** ** MAC discovery *)

(** Wide strings of the Windows build: the objects with their terminators.  The
    rest of the name after its first brace; [Some None] when there is none,
    [None] when the loop leaves the object. *)
Fixpoint after_brace (s : list Z) : option (option (list Z)) :=
  match s with
  | [] => None
  | c :: s => if c =? 0 then Some None else if c =? 123 then Some (Some s) else after_brace s
  end.

(** The last loop: it tests the pointers, not the characters, for zero. *)
Fixpoint guid_loop (pc ic : list Z) : option Z :=
  match pc, ic with
  | p :: pc, i :: ic =>
      if (p =? 125) && (i =? 125) then Some 0
      else if negb (p =? i) then Some (i - p)
      else guid_loop pc ic
  | _, _ => None
  end.

Definition compare_guid (wszPcapName wszIfName : list Z) : option Z :=
  pc ← after_brace wszPcapName;
  match pc with
  | None => Some (-1)
  | Some pc =>
      ic ← after_brace wszIfName;
      match ic with
      | None => Some 1
      | Some ic => guid_loop pc ic
      end
  end.

(** A row of the interface table. *)
Record MIB_IFROW := { if_wszName : list Z; if_dwPhysAddrLen : Z; if_bPhysAddr : bytes }.

Fixpoint find_if_row (name : list Z) (rows : list MIB_IFROW) : option (option bytes) :=
  match rows with
  | [] => Some None
  | row :: rows =>
      r ← compare_guid name (if_wszName row);
      if r =? 0 then
        if negb (if_dwPhysAddrLen row =? 6) then find_if_row name rows
        else mac ← mem_get (if_bPhysAddr row) 0 6; Some (Some mac)
      else find_if_row name rows
  end.

(** The Windows branch, given what [GetIfTable] finally returned and the device
    name as a wide string. *)
Definition get_mac_address_win32 (table : option (list MIB_IFROW)) (name : list Z)
    (mac_addr : bytes) : option (Z * bytes) :=
  match table with
  | None => Some (-1, mac_addr)
  | Some rows =>
      r ← find_if_row name rows;
      Some (match r with Some mac => (0, mac) | None => (-1, mac_addr) end)
  end.

(** The Linux branch: the name goes into the 16 bytes of [ifr_name], whatever its length; the
    result of the [ioctl] and [ifr_hwaddr.sa_data] are given. *)
Definition get_mac_address_linux {S} (name : bytes) (ioctl : bytes -> Z * bytes) : M S (Z * bytes) :=
  let* ifr_name := mem (mem_put (replicate 16 0) 0 (name ++ [0])) in
  let '(result, sa_data) := ioctl ifr_name in
  if result <? 0 then halt (Exited 1)
  else let* mac := mem (mem_get sa_data 0 6) in ret (result, mac).

(** The macOS branch: the link-level addresses among the device's addresses, as
    [sdl_alen] and the bytes at [LLADDR]. *)
Fixpoint get_mac_address_apple (links : list (option (Z * bytes))) (mac_addr : bytes)
    : option (Z * bytes) :=
  match links with
  | [] => Some (-1, mac_addr)
  | None :: links => get_mac_address_apple links mac_addr
  | Some (alen, lladdr) :: links =>
      if alen =? 6 then mac ← mem_get lladdr 0 6; Some (0, mac)
      else if 6 <? alen then mac ← mem_get lladdr 1 6; Some (0, mac)
      else get_mac_address_apple links mac_addr
  end.

(** A name of up to 15 characters, the most an interface of Linux can have, is copied whole; a
    longer one overruns [ifr_name]. *)
Lemma get_mac_address_linux_name {S} name ioctl (s : S) :
  match get_mac_address_linux name ioctl s with
  | Ok (r, mac) _ => zlen name <= 15 /\ length mac = 6%nat
  | Stop e => (16 <= zlen name /\ e = Oob) \/ (zlen name <= 15 /\ (e = Exited 1 \/ (e = Oob /\ exists n r d, ioctl n = (r, d) /\ zlen d < 6)))
  end.
Proof.
  unfold get_mac_address_linux, bind, mem. destruct (decide (zlen name <= 15)) as [Hl|Hl].
  - rewrite mem_put_Some; [|done|]. 2: { unfold zlen in *. rewrite length_app, length_replicate. cbn [length]. lia. }
    set (ifr_name := take _ _ ++ _). clearbody ifr_name. unfold ret at 1. destruct (ioctl ifr_name) as [r d] eqn:Ei. destruct (r <? 0); [right; split; [done|by left]|].
    destruct (mem_get d 0 6) as [mac|] eqn:Em.
    + split; [done|]. apply mem_get_zlen in Em. unfold zlen in Em. lia.
    + right. split; [done|]. right. split; [done|]. exists ifr_name, r, d. split; [done|]. destruct (Z.lt_ge_cases (zlen d) 6) as [|Hd]; [done|]. by rewrite mem_get_Some in Em by lia.
  - unfold mem_put. rewrite (proj2 (Z.leb_gt (0 + zlen (name ++ [0])) (zlen (replicate 16 0)))); [left; split; [lia|done]|].
    unfold zlen in *. rewrite length_app, length_replicate. cbn [length]. lia.
Qed.

(** ** Decimal notation *)

Fixpoint dec (fuel : nat) (n : Z) : bytes :=
  match fuel with
  | O => []
  | S fuel => if n <? 10 then [48 + n] else dec fuel (n / 10) ++ [48 + n mod 10]
  end.

Definition dotted (ip : bytes) : bytes :=
  match ip with
  | [a; b; c; d] => dec 3 a ++ 46 :: dec 3 b ++ 46 :: dec 3 c ++ 46 :: dec 3 d
  | _ => []
  end.

Definition no_digit (s : bytes) : Prop := forall c s', s = c :: s' -> isdigit c = false.

Section decimal.

Lemma isdigit_48 d : 0 <= d < 10 -> isdigit (48 + d) = true.
Proof. intros. unfold isdigit. apply andb_true_iff. split; lia. Qed.

Lemma scan_digits_stop acc s : no_digit s -> scan_digits acc s = (acc, s).
Proof. destruct s as [|c s]; [done|]. simpl. by intros ->. Qed.

Lemma scan_digits_dec fuel n acc r :
  0 <= n < 10 ^ Z.of_nat fuel ->
  exists m, scan_digits acc (dec fuel n ++ r) = scan_digits (acc * 10 ^ m + n) r.
Proof.
  revert n acc r. induction fuel as [|fuel IH]; intros n acc r Hn.
  { exists 0. change (10 ^ Z.of_nat 0) with 1 in Hn. simpl. f_equal. lia. }
  cbn [dec]. case_test.
  - exists 1. simpl. rewrite isdigit_48 by lia. f_equal. lia.
  - rewrite <-app_assoc. simpl.
    assert (Hd : 0 <= n / 10 < 10 ^ Z.of_nat fuel).
    { rewrite Nat2Z.inj_succ, Z.pow_succ_r in Hn by lia.
      split; [apply Z.div_pos; lia|apply Z.div_lt_upper_bound; lia]. }
    destruct (IH (n / 10) acc (48 + n mod 10 :: r) Hd) as [m ->]. simpl.
    pose proof (Z.mod_pos_bound n 10). rewrite isdigit_48 by lia.
    pose proof (Z.div_mod n 10).
    destruct (decide (0 <= m)) as [Hm|Hm].
    + exists (m + 1). f_equal. rewrite Z.pow_add_r by lia. change (10 ^ 1) with 10. lia.
    + exists (-1). f_equal. rewrite (Z.pow_neg_r 10 m), (Z.pow_neg_r 10 (-1)) by lia. lia.
Qed.

Lemma dec_head fuel n : 0 <= n -> fuel <> O -> exists d s, dec fuel n = (48 + d) :: s /\ 0 <= d < 10.
Proof.
  revert n. induction fuel as [|fuel IH]; intros n Hn Hf; [done|]. cbn [dec]. case_test; [eauto|].
  destruct fuel as [|fuel].
  { exists (n mod 10), []. split; [done|apply Z.mod_pos_bound; lia]. }
  destruct (IH (n / 10)) as (d & s & -> & Hd); [apply Z.div_pos; lia|done|].
  exists d, (s ++ [48 + n mod 10]). done.
Qed.

(** Scanning inverts printing. *)
Lemma scan_int_dec fuel n r :
  0 <= n < 10 ^ Z.of_nat fuel -> fuel <> O -> no_digit r ->
  scan_int (dec fuel n ++ r) = Some (n, r).
Proof.
  intros Hn Hf Hr. destruct (dec_head fuel n) as (d & s & Ed & Hd); [lia|done|].
  assert (Hs : skip_space (dec fuel n ++ r) = dec fuel n ++ r).
  { rewrite Ed. simpl. unfold isspace.
    rewrite (proj2 (Z.eqb_neq _ 32)), (proj2 (Z.leb_gt _ 13)), andb_false_r by lia. done. }
  unfold scan_int. rewrite Hs.
  destruct (scan_digits_dec fuel n 0 r Hn) as [m Em].
  revert Em. rewrite Ed. simpl app. cbv beta iota.
  rewrite (proj2 (Z.eqb_neq _ 45)), (proj2 (Z.eqb_neq _ 43)) by lia. cbv beta iota.
  rewrite isdigit_48 by lia. intros ->. rewrite scan_digits_stop by done.
  cbv beta iota. by rewrite Z.mul_0_l, Z.add_0_l.
Qed.

Lemma scan_d_byte n r : is_u8 n -> no_digit r -> scan_d (dec 3 n ++ r) = Some (n, r).
Proof.
  unfold is_u8. intros Hn Hr. unfold scan_d. rewrite scan_int_dec by (done || lia). simpl.
  unfold clamp_long. rewrite Z.min_r, Z.max_r, s32_id by lia. done.
Qed.

Lemma no_digit_dot s : no_digit (46 :: s).
Proof. by intros c s' [= <- <-]. Qed.
Lemma no_digit_nil : no_digit [].
Proof. by intros c s' ?. Qed.
#[local] Hint Resolve no_digit_dot no_digit_nil : core.

Lemma scan_ipv4_dotted a b c d :
  is_u8 a -> is_u8 b -> is_u8 c -> is_u8 d ->
  scan_ipv4 (dotted [a; b; c; d]) = Some [a; b; c; d].
Proof.
  intros Ha Hb Hc Hd. unfold scan_ipv4, dotted.
  rewrite <-(app_nil_r (dec 3 d)).
  by repeat (rewrite scan_d_byte by auto; cbn [mbind option_bind scan_char Z.eqb Pos.eqb]).
Qed.

Lemma str2ip_shape s : length (str2ip s) = 4%nat /\ is_bytes (str2ip s).
Proof.
  assert (Hz : length (replicate 4 0) = 4%nat /\ is_bytes (replicate 4 0)) by
    (split; [done|apply Forall_replicate; done]).
  unfold str2ip. destruct (s ≫= scan_ipv4) as [p|] eqn:E; [|done].
  case_match; [done|]. split.
  - rewrite length_fmap. destruct s as [s|]; [|done]. simpl in E. unfold scan_ipv4 in E.
    repeat (case_match || simplify_option_eq); done.
  - apply Forall_fmap, Forall_true. intros. apply u8_range.
Qed.

Lemma str2ip_dotted ip :
  length ip = 4%nat -> is_bytes ip -> str2ip (Some (dotted ip)) = ip.
Proof.
  intros (a & b & c & d & ->)%length_4_inv Hip.
  inversion_clear Hip as [|? ? Ha H1]. inversion_clear H1 as [|? ? Hb H2].
  inversion_clear H2 as [|? ? Hc H3]. inversion_clear H3 as [|? ? Hd _].
  unfold str2ip. cbn [mbind option_bind]. rewrite scan_ipv4_dotted by done.
  assert (Hr : forall v, is_u8 v -> (v <? 0) || (255 <? v) = false).
  { unfold is_u8. intros v Hv. apply orb_false_iff. split; lia. }
  simpl existsb. rewrite !Hr by done. simpl. by rewrite !u8_id.
Qed.
End decimal.

(** ** The address syntax *)

Definition is_cstr (s : bytes) : Prop := Forall (fun c => c <> 0) s.

(** The two fields of an address argument, and whether it is bracketed. *)
Inductive located : bytes -> bytes -> bytes -> Z -> Prop :=
| located_host a :
    58 ∉ a -> head a <> Some 91 -> located a a [] 0
| located_port a p :
    58 ∉ a -> 58 ∉ p -> head (a ++ [58]) <> Some 91 -> located (a ++ 58 :: p) a p 0
| located_bracket a p :
    93 ∉ a -> located (91 :: a ++ 93 :: 58 :: p) a p 1.

(** The port: absent, or one to five characters [strtol] reads entirely. *)
Definition port_syntax (p : bytes) (port : Z) : Prop :=
  (p = [] /\ port = SERVER_PORT) \/
  (p <> [] /\ zlen p <= 5 /\ exists r, scan_int p = Some (r, []) /\ r = port /\ 0 < r <= 65535).

Section syntax.

Lemma find_char_split c s :
  ((c ∉ s) /\ find_char c s = zlen s) \/
  (exists a b, s = a ++ c :: b /\ (c ∉ a) /\ find_char c s = zlen a).
Proof.
  induction s as [|d s IH]; [left; split; [set_solver|done]|]. simpl. case_test.
  - subst. right. exists [], s. split; [done|]. split; [set_solver|done].
  - destruct IH as [[Hn ->]|(a & b & -> & Ha & ->)].
    + left. split; [set_solver|zlia].
    + right. exists (d :: a), b. split; [done|]. split; [set_solver|zlia].
Qed.

Lemma split_at_inj (c : Z) a b a' b' :
  c ∉ a -> c ∉ a' -> a ++ c :: b = a' ++ c :: b' -> a = a' /\ b = b'.
Proof.
  revert a'. induction a as [|x a IH]; intros [|x' a'] Ha Ha' E; simplify_eq/=;
    [done|set_solver..|].
  destruct (IH a') as [-> ->]; set_solver.
Qed.

Lemma mem_get_middle (a b c : bytes) :
  mem_get (a ++ b ++ c) (zlen a) (zlen b) = Some b.
Proof.
  rewrite mem_get_Some by zlia. rewrite !to_nat_zlen, drop_app_length, take_app_length. done.
Qed.

Definition locate (str : bytes) : option (Z * Z * Z * Z) :=
  if nth 0 str 0 =? 91 then locate_ipv6 str else locate_ipv4 str.

(** A successful split finds the two fields. *)
Lemma locate_Some str s0 al ps pl :
  locate str = Some (s0, al, ps, pl) ->
  exists a p, located str a p (if nth 0 str 0 =? 91 then 1 else 0) /\
    al = zlen a /\ pl = zlen p /\ mem_get str s0 al = Some a /\ mem_get str ps pl = Some p.
Proof.
  unfold locate. case_test.
  - destruct str as [|c str]; [done|]. simpl in *. subst c. unfold locate_ipv6.
    change (drop 1 (91 :: str)) with str. destruct (find_char_split 93 str) as [[Hn ->]|(a & b & -> & Ha & ->)].
    { rewrite (proj2 (Z.leb_le _ _)) by zlia. done. }
    rewrite (proj2 (Z.leb_gt _ (1 + zlen a))) by zlia.
    replace (Z.to_nat (1 + zlen a + 1)) with (S (length a) + 1)%nat by (unfold zlen; lia).
    rewrite (app_nth2_plus (91 :: a) (93 :: b)). destruct b as [|d b].
    { rewrite (proj2 (Z.leb_le _ _)) by zlia. done. }
    simpl nth. destruct (Z.eqb_spec d 58) as [->|]; [|by rewrite orb_true_r].
    rewrite (proj2 (Z.leb_gt _ _)) by zlia. simpl. intros [= <- <- <- <-].
    exists a, b. split; [by constructor|]. split; [zlia|]. split; [zlia|]. split.
    + replace (1 + zlen a - 1) with (zlen a) by lia. apply (mem_get_middle [91]).
    + replace (1 + zlen a + 2) with (zlen (91 :: a ++ [93; 58])) by zlia.
      replace (_ - _) with (zlen b) by zlia.
      replace (91 :: a ++ 93 :: 58 :: b) with ((91 :: a ++ [93; 58]) ++ b ++ [])
        by (rewrite app_nil_r; simpl; by rewrite <-app_assoc).
      apply mem_get_middle.
  - unfold locate_ipv4.
    destruct (find_char_split 58 str) as [[Hn ->]|(a & b & -> & Ha & ->)].
    + rewrite Z.leb_refl. intros [= <- <- <- <-]. exists str, []. split.
      { constructor; [done|]. destruct str; simpl in *; naive_solver. }
      split; [done|]. split; [done|]. split.
      * pose proof (mem_get_middle [] str []) as E. by rewrite app_nil_r in E.
      * pose proof (mem_get_middle str [] []) as E. by rewrite app_nil_r in E.
    + rewrite (proj2 (Z.leb_gt _ (zlen a))) by zlia.
      replace (Z.to_nat (zlen a + 1)) with (length (a ++ [58])) by (rewrite length_app; unfold zlen; simpl; lia).
      replace (a ++ 58 :: b) with ((a ++ [58]) ++ b) by (by rewrite <-app_assoc).
      rewrite drop_app_length.
      destruct (find_char_split 58 b) as [[Hb ->]|(x & y & -> & _ & ->)];
        [|by rewrite (proj2 (Z.ltb_lt _ _)) by zlia].
      rewrite (proj2 (Z.ltb_ge _ _)) by zlia. intros [= <- <- <- <-]. exists a, b. split.
      { rewrite <-app_assoc. constructor; [done..|]. destruct a; simpl in *; naive_solver. }
      split; [done|]. split; [zlia|]. split.
      * rewrite <-app_assoc. apply (mem_get_middle []).
      * replace (zlen a + 1) with (zlen (a ++ [58])) by zlia.
        replace (zlen ((a ++ [58]) ++ b) - _) with (zlen b) by zlia.
        pose proof (mem_get_middle (a ++ [58]) b []) as E. by rewrite app_nil_r in E.
Qed.

Lemma located_flag str a p v6 : located str a p v6 -> str <> [] -> v6 = if nth 0 str 0 =? 91 then 1 else 0.
Proof.
  intros Hl Hs. destruct Hl as [a _ Hh|a p _ _ Hh|a p _]; [| |done].
  - destruct a as [|c a]; [done|]. simpl in *. case_test; naive_solver.
  - destruct a as [|c a]; simpl in *; [done|]. case_test; naive_solver.
Qed.

(** The fields are determined by the string. *)
Lemma located_fun str a p v6 a' p' v6' :
  located str a p v6 -> located str a' p' v6' -> a = a' /\ p = p' /\ v6 = v6'.
Proof.
  intros H1 H2. assert (Hv : v6 = v6').
  { destruct (decide (str = [])) as [->|Hs].
    - inversion H1; inversion H2; subst; try done; by destruct a || destruct a'.
    - by rewrite (located_flag _ _ _ _ H1 Hs), (located_flag _ _ _ _ H2 Hs). }
  subst v6'. inversion H1; inversion H2; subst; try done;
    try match goal with Hn : 58 ∉ _ ++ 58 :: _ |- _ => destruct Hn; set_solver end.
  - destruct (split_at_inj 58 a' p' a p) as [-> ->]; set_solver.
  - simplify_eq. destruct (split_at_inj 93 a' (58 :: p') a (58 :: p)) as [-> [= ->]]; done.
Qed.

Lemma find_char_notin c s : c ∉ s -> find_char c s = zlen s.
Proof. destruct (find_char_split c s) as [[_ ->]|(a & b & -> & _)]; set_solver. Qed.
Lemma find_char_app c a b : c ∉ a -> find_char c (a ++ c :: b) = zlen a.
Proof.
  intros Ha. destruct (find_char_split c (a ++ c :: b)) as [[? _]|(a' & b' & E & Ha' & ->)]; [set_solver|].
  by apply split_at_inj in E as [-> _].
Qed.

(** Every string with the two fields is split. *)
Lemma locate_complete str a p v6 : located str a p v6 -> str <> [] -> locate str <> None.
Proof.
  intros Hl Hs. pose proof (located_flag _ _ _ _ Hl Hs) as Hf. unfold locate.
  destruct (Z.eqb_spec (nth 0 str 0) 91);
    destruct Hl as [a Ha Hh|a p Ha Hp Hh|a p Ha]; simplify_eq.
  - unfold locate_ipv6. change (drop 1 (91 :: a ++ 93 :: 58 :: p)) with (a ++ 93 :: 58 :: p). rewrite find_char_app by done.
    rewrite (proj2 (Z.leb_gt _ (1 + zlen a))) by zlia.
    rewrite (proj2 (Z.leb_gt _ (1 + zlen a + 1))) by zlia.
    replace (Z.to_nat (1 + zlen a + 1)) with (S (length a) + 1)%nat by (unfold zlen; lia).
    by rewrite (app_nth2_plus (91 :: a) (93 :: 58 :: p)).
  - unfold locate_ipv4. by rewrite find_char_notin, Z.leb_refl.
  - unfold locate_ipv4. rewrite find_char_app by done.
    rewrite (proj2 (Z.leb_gt _ (zlen a))) by zlia.
    replace (Z.to_nat (zlen a + 1)) with (length (a ++ [58]))
      by (rewrite length_app; unfold zlen; simpl; lia).
    replace (a ++ 58 :: p) with ((a ++ [58]) ++ p) by (by rewrite <-app_assoc).
    rewrite drop_app_length, find_char_notin by done.
    by rewrite (proj2 (Z.ltb_ge _ _)) by zlia.
Qed.

(** The conversion of the port is its syntax. *)
Lemma convert_port_spec p port :
  convert_port p = Some port <->
  (p <> [] /\ exists r, scan_int p = Some (r, []) /\ r = port /\ 0 < r <= 65535).
Proof.
  unfold convert_port, strtol. destruct (scan_int p) as [[v r]|] eqn:E.
  - destruct (decide (p = [])) as [->|Hp]; [done|].
    rewrite (bool_decide_eq_false_2 _ Hp). cbn [orb].
    destruct (decide (r = [])) as [->|Hr].
    + rewrite bool_decide_eq_true_2 by done. cbn [negb].
      destruct (Z.leb_spec (clamp_long v) 0), (Z.ltb_spec 65535 (clamp_long v)); cbn [orb];
        unfold clamp_long in *; (split; [intros [= <-]|intros (_ & v' & [= <-] & <- & Hb)]); try lia.
      * split; [done|]. exists v. split_and!; [done|lia..].
      * f_equal. lia.
    + rewrite bool_decide_eq_false_2 by done. split; [done|]. naive_solver.
  - split; [|naive_solver]. destruct (decide (p = [])) as [->|Hp]; [done|].
    rewrite (bool_decide_eq_false_2 _ Hp). done.
Qed.

Lemma cstring_whole l : is_cstr l -> cstring l = l.
Proof. induction 1 as [|c l Hc _ IH]; cbn; [done|]. by rewrite (proj2 (Z.eqb_neq c 0)), IH. Qed.

(** A number in decimal: at most [fuel] characters, none of them zero. *)
Lemma dec_cstr fuel n : 0 <= n -> is_cstr (dec fuel n) /\ (length (dec fuel n) <= fuel)%nat.
Proof.
  revert n. induction fuel as [|fuel IH]; intros n Hn; cbn; [by split; [constructor|]|].
  destruct (Z.ltb_spec n 10); [split; [repeat constructor; lia|cbn; lia]|].
  pose proof (Z.mod_pos_bound n 10). destruct (IH (n / 10)) as [H1 H2]; [by apply Z.div_pos|].
  split; [apply Forall_app_2; [done|repeat constructor; lia]|]. rewrite length_app. cbn. lia.
Qed.

Lemma cstring_terminated a rest : is_cstr a -> cstring (a ++ 0 :: rest) = a.
Proof.
  induction 1 as [|c a Hc Ha IH]; [done|]. simpl. by rewrite (proj2 (Z.eqb_neq c 0)), IH.
Qed.

(** Copying a string into a buffer that is longer and terminating it. *)
Lemma copy_string buf str s0 a :
  is_cstr a -> mem_get str s0 (zlen a) = Some a -> zlen a < zlen buf ->
  exists b1 b2, memcpy buf 0 str s0 (zlen a) = Some b1 /\
    mem_put b1 (zlen a) [0] = Some b2 /\ cstring b2 = a /\ zlen b2 = zlen buf.
Proof.
  intros Ha Hg Hl. unfold memcpy. rewrite Hg. cbn [mbind option_bind].
  rewrite mem_put_Some by zlia. change (take (Z.to_nat 0) buf) with (@nil Z).
  change (Z.to_nat 0 + length a)%nat with (length a). cbn [app].
  eexists _, _. split; [done|].
  rewrite mem_put_Some.
  2-3: pose proof (zlen_drop (zlen a) buf) as Hd; rewrite to_nat_zlen in Hd; simpl; zlia.
  split; [done|]. rewrite to_nat_zlen, take_app_length. split; [by apply cstring_terminated|].
  pose proof (zlen_drop (zlen a) buf) as Hd. rewrite to_nat_zlen in Hd.
  unfold zlen in *. simpl. rewrite length_app. simpl. rewrite !length_drop, length_app, length_drop. lia.
Qed.
End syntax.

(** ** parse_ip_port and parse_addr *)

Section addresses.
Context `{Env}.

Lemma is_cstr_get str s0 n a : is_cstr str -> mem_get str s0 n = Some a -> is_cstr a.
Proof. intros Hs (_ & _ & _ & ->)%mem_get_inv. by apply Forall_take, Forall_drop. Qed.

(** What [parse_ip_port] should answer. *)
Definition accepts (str : bytes) (room : Z) (a : bytes) (port v6 : Z) : Prop :=
  exists p, located str a p v6 /\ port_syntax p port /\
            zlen str <= 1000 /\ a <> [] /\ zlen a < room.

(** One result refines the syntax. *)
Definition answers (str : bytes) (room : Z) (rc : Z) (out : ip_port_out) : Prop :=
  zlen (o_addr out) = room /\
  ((rc = 0 /\ accepts str room (cstring (o_addr out)) (o_port out) (o_is_ipv6 out)) \/
   (rc = -1 /\ forall a port v6, ~ accepts str room a port v6)).

(** The tail of the function, after the fields are found. *)
Lemma parse_port_run str a p v6 ps b room p0 :
  is_cstr str -> located str a p v6 -> mem_get str ps (zlen p) = Some p ->
  cstring b = a -> zlen b = room -> zlen str <= 1000 -> a <> [] -> zlen a < room ->
  exists rc out,
    (if zlen p =? 0 then Some (0, {| o_addr := b; o_port := SERVER_PORT; o_is_ipv6 := v6 |})
     else if 6 <=? zlen p then Some (-1, {| o_addr := b; o_port := p0; o_is_ipv6 := v6 |})
     else
       port_str ← memcpy (uninit 6) 0 str ps (zlen p);
       port_str ← mem_put port_str (zlen p) [0];
       match convert_port (cstring port_str) with
       | None => Some (-1, {| o_addr := b; o_port := p0; o_is_ipv6 := v6 |})
       | Some q => Some (0, {| o_addr := b; o_port := u16 q; o_is_ipv6 := v6 |})
       end) = Some (rc, out) /\ answers str room rc out.
Proof.
  intros Hs Hl Hp Hb Hr H1000 Ha Hroom. unfold answers, accepts.
  assert (Hno : forall P : Prop, (forall port, port_syntax p port -> P) ->
            forall a' port v6', (exists p', located str a' p' v6' /\ port_syntax p' port /\
              zlen str <= 1000 /\ a' <> [] /\ zlen a' < room) -> P).
  { intros P HP a' port v6' (p' & Hl' & Hp' & _).
    destruct (located_fun _ _ _ _ _ _ _ Hl Hl') as (_ & <- & _). eauto. }
  destruct (Z.eqb_spec (zlen p) 0) as [E|E].
  { apply zlen_0_inv in E as ->. eexists _, _. split; [done|]. simpl. split; [done|]. left.
    rewrite Hb. split; [done|]. exists []. split_and!; try done. by left. }
  assert (p <> []) by (intros ->; done).
  destruct (Z.leb_spec 6 (zlen p)) as [E6|E6].
  { eexists _, _. split; [done|]. split; [done|]. right. split; [done|]. 
    refine (Hno False _). intros q [[? _]|(_ & ? & _)]; [done|lia]. }
  destruct (copy_string (uninit 6) str ps p) as (b1 & b2 & -> & E2 & Hc & _);
    [by eapply is_cstr_get|done|rewrite zlen_uninit; lia|]. cbn [mbind option_bind].
  rewrite E2. cbn [mbind option_bind]. rewrite Hc.
  destruct (convert_port p) as [q|] eqn:Eq.
  - apply convert_port_spec in Eq as (_ & r & Er & <- & Hrange).
    eexists _, _. split; [done|]. split; [done|]. left. split; [done|]. simpl. rewrite Hb.
    exists p. split_and!; try done. right. split_and!; [done|lia|]. exists r.
    rewrite u16_id by (unfold is_u16; lia). done.
  - eexists _, _. split; [done|]. split; [done|]. right. split; [done|]. 
    refine (Hno False _). intros q [[? _]|(_ & _ & Hq)]; [done|].
    by rewrite (proj2 (convert_port_spec p q) (conj H0 Hq)) in Eq.
Qed.

Lemma parse_ip_port_run str out :
  is_cstr str -> 0 < zlen (o_addr out) ->
  exists rc out', parse_ip_port (Some str) out = Some (rc, out') /\
                  answers str (zlen (o_addr out)) rc out'.
Proof.
  intros Hs Hroom. unfold parse_ip_port. rewrite (proj2 (Z.eqb_neq _ 0)) by lia.
  assert (Hrej : forall o, zlen (o_addr o) = zlen (o_addr out) ->
            (forall a p v6, located str a p v6 -> a <> [] -> zlen str <= 1000 ->
                            zlen a < zlen (o_addr out) -> False) ->
            exists rc out', Some (-1, o) = Some (rc, out') /\
                            answers str (zlen (o_addr out)) rc out').
  { intros o Ho Hn. eexists _, _. split; [done|]. split; [done|]. right. split; [done|].
    intros a port v6 (p & Hl & _ & ? & ? & ?). eauto. }
  destruct (decide (1 <= zlen str <= 1000)) as [Hlen|Hlen].
  2: { replace ((zlen str <? 1) || (1000 <? zlen str)) with true.
    - apply Hrej; [done|]. intros a p v6 Hl Ha H1000 _. destruct Hlen. split; [|done].
      destruct Hl; zlia || (destruct a; [done|zlia]).
    - symmetry. apply orb_true_iff. rewrite !Z.ltb_lt. lia. }
  replace ((zlen str <? 1) || (1000 <? zlen str)) with false
    by (symmetry; apply orb_false_iff; rewrite !Z.ltb_ge; lia).
  assert (Hne : str <> []) by (intros ->; rewrite zlen_nil in Hlen; lia).
  cbn [o_addr o_port o_is_ipv6].
  change (if nth 0 str 0 =? 91 then locate_ipv6 str else locate_ipv4 str) with (locate str).
  destruct (locate str) as [[[[s0 al] ps] pl]|] eqn:El.
  2: { apply Hrej; [done|]. intros. by eapply locate_complete. }
  apply locate_Some in El as (a & p & Hl & -> & -> & Hga & Hgp).
  destruct (Z.eqb_spec (zlen a) 0) as [E0|E0].
  { apply Hrej; [done|]. intros a' p' v6' Hl' Ha' _ _. apply zlen_0_inv in E0.
    destruct (located_fun _ _ _ _ _ _ _ Hl Hl') as (<- & _). done. }
  destruct (Z.leb_spec (zlen (o_addr out)) (zlen a)) as [Eb|Eb].
  { apply Hrej; [done|]. intros a' p' v6' Hl' _ _ ?.
    destruct (located_fun _ _ _ _ _ _ _ Hl Hl') as (<- & _). lia. }
  destruct (copy_string (o_addr out) str s0 a) as (b1 & b2 & -> & E2 & Hc & Hz);
    [by eapply is_cstr_get|done|done|]. cbn [mbind option_bind]. rewrite E2.
  cbn [mbind option_bind o_addr o_port o_is_ipv6].
  eapply (parse_port_run str a p); eauto; [lia|].
  intros ->. done.
Qed.

(** A resolver entry the code can use: the family it announces and its size. *)
Record sockaddr_ok (sa : bytes) (family : Z) : Prop := {
  sk_family : mem_get sa 0 2 = Some (store 2 family);
  sk_range : family = AF_INET \/ family = AF_INET6;
  sk_bytes : is_bytes sa;
  sk_size : (if family =? AF_INET then sockaddr_in_size else sockaddr_in6_size) <= zlen sa;
}.

(** The address made of a resolver entry: the entry with its port replaced,
    padded to the size of the union. *)
Definition with_port (sa : bytes) (family port : Z) : slp_addr_in :=
  let size := if family =? AF_INET then sockaddr_in_size else sockaddr_in6_size in
  {| sin_len := size; sin_family := family;
     sin_u := take 2 sa ++ [port / 256; port mod 256] ++
              take (Z.to_nat (size - 4)) (drop 4 sa) ++ replicate (Z.to_nat (28 - size)) 0 |}.

Lemma fill_addr_run sa family port :
  sockaddr_ok sa family -> is_u16 port ->
  fill_addr sa port = Some (0, with_port sa family port).
Proof.
  intros [Hf Hr Hb Hs] Hp. unfold fill_addr. rewrite Hf. cbn [mbind option_bind].
  assert (load (store 2 family) = family) as ->
    by (rewrite load_store; destruct Hr as [-> | ->]; done).
  assert ((family =? AF_INET) || (family =? AF_INET6) = true) as -> by (destruct Hr as [-> | ->]; done).
  unfold with_port. set (size := if family =? AF_INET then _ else _) in *.
  assert (Hsz : 16 <= size <= 28) by (subst size; destruct Hr as [-> | ->]; simpl; unfold sockaddr_in_size, sockaddr_in6_size; lia).
  unfold memcpy. rewrite mem_get_Some by lia. cbn [mbind option_bind Z.to_nat].
  change (Z.to_nat 0) with O. rewrite drop_0.
  assert (Hlen : length (take (Z.to_nat size) sa) = Z.to_nat size)
    by (rewrite length_take; unfold zlen in Hs; lia).
  rewrite mem_put_Some by (unfold zlen; rewrite ?Hlen, ?length_replicate; lia).
  rewrite take_0, Hlen, drop_replicate. cbn [mbind option_bind app].
  rewrite WRITE_NET16_put by done.
  rewrite mem_put_Some by (unfold zlen; rewrite ?length_app, ?Hlen, ?length_replicate; simpl; lia).
  cbn [mbind option_bind]. do 3 f_equal. change (Z.to_nat 2) with 2%nat. cbn [length Nat.add].
  rewrite take_app_le, drop_app_le by lia. rewrite take_take, Nat.min_l by lia.
  rewrite skipn_firstn_comm, u16_id by done. cbn [app].
  replace (28 - (Z.to_nat 0 + Z.to_nat size))%nat with (Z.to_nat (28 - size)) by lia.
  by replace (Z.to_nat size - 4)%nat with (Z.to_nat (size - 4)) by lia.
Qed.

Lemma accepts_fun str room a port v6 a' port' v6' :
  accepts str room a port v6 -> accepts str room a' port' v6' ->
  a = a' /\ port = port' /\ v6 = v6'.
Proof.
  intros (p & Hl & Hp & _) (p' & Hl' & Hp' & _).
  destruct (located_fun _ _ _ _ _ _ _ Hl Hl') as (-> & <- & ->). split; [done|]. split; [|done].
  destruct Hp as [[-> ->]|(? & _ & r & Er & <- & _)], Hp' as [[? ->]|(? & _ & r' & Er' & <- & _)];
    naive_solver.
Qed.

Lemma accepts_port str room a port v6 : accepts str room a port v6 -> is_u16 port.
Proof. intros (p & _ & [[_ ->]|(_ & _ & r & _ & <- & ?)] & _); unfold is_u16, SERVER_PORT; lia. Qed.

Lemma parse_addr_run str addr w a port v6 family sa :
  is_cstr str -> accepts str 128 a port v6 ->
  env_getaddrinfo (w_ticks w) a (if v6 =? 0 then AF_INET else AF_INET6) = (0, Some (Some sa)) ->
  sockaddr_ok sa family ->
  parse_addr (Some str) addr w = Ok (0, with_port sa family port) (tick w).
Proof.
  intros Hs Ha Hg Hsa. unfold parse_addr.
  destruct (parse_ip_port_run str {| o_addr := uninit 128; o_port := 0; o_is_ipv6 := 0 |})
    as (rc & out & E & Hz & Hans); [done|cbn; rewrite zlen_uninit; lia|].
  cbn [o_addr] in Hans. rewrite zlen_uninit in Hans by lia. rewrite E. cbn [mem].
  destruct Hans as [[-> Ho]|[_ Hno]]; [|by destruct (Hno _ _ _ Ha)].
  destruct (accepts_fun _ _ _ _ _ _ _ _ Ha Ho) as (-> & -> & ->).
  unfold bind at 1. unfold ret at 1. cbn [Z.eqb negb].
  replace (if negb (o_is_ipv6 out =? 0) then AF_INET6 else AF_INET)
    with (if o_is_ipv6 out =? 0 then AF_INET else AF_INET6) by (by case_match).
  unfold bind, getaddrinfo. rewrite Hg. cbn [Z.eqb negb].
  by rewrite (fill_addr_run _ _ _ Hsa) by (by eapply accepts_port).
Qed.

(** Printed addresses are accepted. *)
Lemma accepts_printed a port room :
  a <> [] -> 58 ∉ a -> head (a ++ [58]) <> Some 91 -> zlen a <= 994 -> zlen a < room -> 0 < port <= 65535 ->
  accepts (a ++ 58 :: dec 5 port) room a port 0.
Proof.
  intros Ha H58 Hh Hl Hr Hp. exists (dec 5 port).
  assert (Hd : forall fuel n, (length (dec fuel n) <= fuel)%nat).
  { induction fuel as [|fuel IH]; intros n; simpl; [lia|]. case_test; simpl; [lia|].
    rewrite length_app. simpl length. specialize (IH (n / 10)). lia. }
  assert (Hc : forall fuel n, 0 <= n -> 58 ∉ dec fuel n).
  { induction fuel as [|fuel IH]; intros n Hn; simpl; [set_solver|]. case_test.
    - rewrite list_elem_of_singleton. lia.
    - rewrite elem_of_app, list_elem_of_singleton. pose proof (Z.mod_pos_bound n 10).
      intros [Hin|?]; [|lia]. by apply (IH (n / 10)) in Hin; [|apply Z.div_pos; lia]. }
  split; [constructor; [done|apply Hc; lia|done]|]. specialize (Hd 5%nat port).
  split_and!; [|unfold zlen in *; rewrite length_app, length_cons; lia|done|done].
  right. split_and!.
  - destruct (dec_head 5 port) as (d & s & -> & _); [lia|done..].
  - unfold zlen. lia.
  - exists port. split_and!; [|done|lia..]. rewrite <-(app_nil_r (dec 5 port)).
    apply scan_int_dec; [simpl; lia|done|]. by intros c s' ?.
Qed.
End addresses.

(** ** GUID comparison *)

Section guid.

Lemma after_brace_run pre s :
  0 ∉ pre -> 123 ∉ pre -> after_brace (pre ++ 123 :: s) = Some (Some s).
Proof.
  induction pre as [|c pre IH]; intros H0 H123; [done|]. simpl.
  rewrite (proj2 (Z.eqb_neq c 0)), (proj2 (Z.eqb_neq c 123)) by set_solver.
  apply IH; set_solver.
Qed.

Lemma guid_loop_run g g' r r' :
  125 ∉ g -> 125 ∉ g' ->
  exists v, guid_loop (g ++ 125 :: r) (g' ++ 125 :: r') = Some v /\ (v = 0 <-> g = g').
Proof.
  revert g'. induction g as [|c g IH]; intros [|c' g'] Hg Hg'; cbn [guid_loop app].
  - by exists 0.
  - rewrite (proj2 (Z.eqb_neq c' 125)) by set_solver.
    rewrite (proj2 (Z.eqb_neq 125 c')) by set_solver. simpl. eexists. split; [done|].
    split; [|done]. intros. assert (c' = 125) by lia. set_solver.
  - rewrite (proj2 (Z.eqb_neq c 125)) by set_solver. simpl. eexists. split; [done|].
    split; [|done]. intros. assert (c = 125) by lia. set_solver.
  - rewrite (proj2 (Z.eqb_neq c 125)) by set_solver. cbn [andb].
    destruct (Z.eqb_spec c c') as [<-|Hc]; cbn [negb].
    + destruct (IH g') as (v & -> & Hv); [set_solver..|]. exists v. split; [done|].
      rewrite Hv. naive_solver.
    + eexists. split; [done|]. split; [lia|congruence].
Qed.

(** The loop does not look for the terminator: equal names without a closing
    brace are compared beyond their ends. *)
Lemma guid_loop_overrun g : 125 ∉ g -> guid_loop g g = None.
Proof.
  induction g as [|c g IH]; intros Hg; [done|]. cbn [guid_loop].
  rewrite (proj2 (Z.eqb_neq c 125)), Z.eqb_refl by set_solver. apply IH. set_solver.
Qed.
End guid.

(** ** Results *)

(** [str2ip] inverts dotted-decimal notation: the four bytes of an address,
    printed in decimal and separated by dots, are read back exactly. *)
Theorem str2ip_roundtrip ip :
  length ip = 4%nat -> is_bytes ip -> str2ip (Some (dotted ip)) = ip.
Proof. apply str2ip_dotted. Qed.

(** [parse_ip_port] on any string and any non-empty result buffer stays within
    its buffers and returns; it answers 0 exactly for the strings of the form
    host, host:port and [[host]:port] of at most 1000 characters whose host fits
    the buffer and whose port, if given, is a number from 1 to 65535 in at most
    five characters; the results are then that host, that port (11451 when none
    is given) and whether it was bracketed. *)
Theorem parse_ip_port_spec `{Env} str out :
  is_cstr str -> 0 < zlen (o_addr out) ->
  exists rc out', parse_ip_port (Some str) out = Some (rc, out') /\
                  answers str (zlen (o_addr out)) rc out'.
Proof. apply parse_ip_port_run. Qed.

(** For an accepted argument that resolves, [parse_addr] succeeds with the
    resolver's address and the port of the argument in network order, and asks
    the resolver once, for the family the brackets select. *)
Theorem parse_addr_spec `{Env} str addr w a port v6 family sa :
  is_cstr str -> accepts str 128 a port v6 ->
  env_getaddrinfo (w_ticks w) a (if v6 =? 0 then AF_INET else AF_INET6) = (0, Some (Some sa)) ->
  sockaddr_ok sa family ->
  parse_addr (Some str) addr w = Ok (0, with_port sa family port) (tick w).
Proof. apply parse_addr_run. Qed.

(** The GUID comparison of the Windows build: on names that contain a braced
    GUID it decides equality of the GUIDs, and two equal names whose brace is
    never closed are read beyond their terminators. *)
Theorem compare_guid_spec pre pre' g g' r r' :
  0 ∉ pre -> 123 ∉ pre -> 0 ∉ pre' -> 123 ∉ pre' -> 125 ∉ g -> 125 ∉ g' ->
  (exists v, compare_guid (pre ++ 123 :: g ++ 125 :: r) (pre' ++ 123 :: g' ++ 125 :: r') = Some v /\
             (v = 0 <-> g = g')) /\
  compare_guid (pre ++ 123 :: g ++ [0]) (pre' ++ 123 :: g ++ [0]) = None.
Proof.
  intros. unfold compare_guid. rewrite !after_brace_run by done. cbn [mbind option_bind]. split; [by apply guid_loop_run|].
  apply guid_loop_overrun. set_solver.
Qed.

Lemma str2ip_roundtrip_witness : str2ip (Some (cstr "10.13.37.1")) = [10; 13; 37; 1].
Proof. apply (str2ip_roundtrip [10; 13; 37; 1]); [reflexivity|bytes_tac]. Defined.

Lemma parse_ip_port_spec_witness :
  exists rc out', parse_ip_port (H := demo_env) (Some (cstr "relay.net:80"))
      {| o_addr := replicate 128 0; o_port := 0; o_is_ipv6 := 0 |} = Some (rc, out') /\
    answers (cstr "relay.net:80") 128 rc out'.
Proof.
  apply (parse_ip_port_spec (H := demo_env) (cstr "relay.net:80")
           {| o_addr := replicate 128 0; o_port := 0; o_is_ipv6 := 0 |}); [|reflexivity].
  unfold is_cstr. cbv. repeat (constructor; [discriminate|]). constructor.
Defined.

Lemma parse_addr_spec_witness :
  parse_addr (H := demo_env) (Some (cstr "relay.net:80")) (lp_server_addr demo_lp) demo_world =
  Ok (0, {| sin_len := 16; sin_family := AF_INET;
            sin_u := [2; 0; 0; 80; 127; 0; 0; 1] ++ replicate 20 0 |}) (tick demo_world).
Proof.
  apply (parse_addr_spec (H := demo_env) (cstr "relay.net:80") (lp_server_addr demo_lp) demo_world
           (cstr "relay.net") 80 0 AF_INET ([2; 0; 0; 0; 127; 0; 0; 1] ++ replicate 8 0)).
  - unfold is_cstr. cbv. repeat (constructor; [discriminate|]). constructor.
  - apply (accepts_printed (cstr "relay.net") 80 128); [discriminate| |discriminate|vm_compute; discriminate|reflexivity|lia].
    apply (bool_decide_unpack _). vm_compute. exact I.
  - reflexivity.
  - split; [reflexivity|by left|bytes_tac|vm_compute; discriminate].
Defined.

Lemma compare_guid_spec_witness :
  (exists v, compare_guid (cstr "NPF_{4A}" ++ [0]) (cstr "x{4B}" ++ [0]) = Some v /\
             (v = 0 <-> cstr "4A" = cstr "4B")) /\
  compare_guid (cstr "NPF_{4A" ++ [0]) (cstr "x{4A" ++ [0]) = None.
Proof.
  apply (compare_guid_spec (cstr "NPF_") (cstr "x") (cstr "4A") (cstr "4B") [0] [0]);
    apply (bool_decide_unpack _); vm_compute; exact I.
Defined.
