(* ===== verification/Arp.v ===== *)
(** The ARP cache and the ARP responder: [src/arp.c].

    The cache is an array of [ARP_CACHE_LEN] slots searched linearly.  The address
    0.0.0.0 marks a free slot; an entry is live while [expire_at > now].  The
    abstract contract is a finite map from addresses to hardware addresses
    ([arp_view]); [arp_set] implements insertion into it. *)

From stdpp Require Import gmap.
From S2P Require Import Prelude Byteorder Structs Packet.

(** ** The code *)

Definition NONE_IP : bytes := [0; 0; 0; 0].
Definition NONE_MAC : bytes := [0; 0; 0; 0; 0; 0].
Definition BROADCASE_MAC : bytes := [0xff; 0xff; 0xff; 0xff; 0xff; 0xff].

(** The lookup loop: the first slot with this address that has not expired. *)
Fixpoint arp_find (l : list arp_item) (ip : bytes) (now : Z) : option arp_item :=
  match l with
  | [] => None
  | item :: l' =>
      if CMP_IPV4 (ai_ip item) ip && (now <? ai_expire_at item) then Some item
      else arp_find l' ip now
  end.

(** The insertion loop: the first slot that is free, has this address, or is past
    its expiry is overwritten; [None] when there is no such slot. *)
Fixpoint arp_set_loop (l : list arp_item) (mac ip : bytes) (now ttl : Z) : option (list arp_item) :=
  match l with
  | [] => None
  | item :: l' =>
      if CMP_IPV4 (ai_ip item) NONE_IP || CMP_IPV4 (ai_ip item) ip || (ai_expire_at item <? now)
      then Some ({| ai_ip := take 4 ip; ai_mac := take 6 mac; ai_expire_at := now + ttl |} :: l')
      else l'' ← arp_set_loop l' mac ip now ttl; Some (item :: l'')
  end.

Section code.
Context `{Env}.

Definition parse_arp (ether : ether_frame) : option arp :=
  let packet := ef_payload ether in
  hardware_type ← READ_NET16 packet ARP_OFF_HARDWARE;
  protocol_type ← READ_NET16 packet ARP_OFF_PROTOCOL;
  hardware_size ← READ_NET8 packet ARP_OFF_HARDWARE_SIZE;
  protocol_size ← READ_NET8 packet ARP_OFF_PROTOCOL_SIZE;
  opcode ← READ_NET16 packet ARP_OFF_OPCODE;
  sender_mac ← mem_get packet ARP_OFF_SENDER_MAC 6;
  sender_ip ← mem_get packet ARP_OFF_SENDER_IP 4;
  target_mac ← mem_get packet ARP_OFF_TARGET_MAC 6;
  target_ip ← mem_get packet ARP_OFF_TARGET_IP 4;
  Some {| arp_hardware_type := hardware_type; arp_protocol_type := protocol_type;
          arp_hardware_size := hardware_size; arp_protocol_size := protocol_size;
          arp_opcode := opcode; arp_sender_mac := sender_mac; arp_sender_ip := sender_ip;
          arp_target_mac := target_mac; arp_target_ip := target_ip |}.

(** The buffer [send_arp_ex] fills. *)
Definition arp_buffer (opcode : Z) (sender_mac sender_ip target_mac target_ip : bytes)
    : option bytes :=
  b ← WRITE_NET16 (uninit ARP_LEN) ARP_OFF_HARDWARE ARP_HARDTYPE_ETHER;
  b ← WRITE_NET16 b ARP_OFF_PROTOCOL ETHER_TYPE_IPV4;
  b ← WRITE_NET8 b ARP_OFF_HARDWARE_SIZE 6;
  b ← WRITE_NET8 b ARP_OFF_PROTOCOL_SIZE 4;
  b ← WRITE_NET16 b ARP_OFF_OPCODE opcode;
  b ← CPY_MAC b ARP_OFF_SENDER_MAC sender_mac 0;
  b ← CPY_IPV4 b ARP_OFF_SENDER_IP sender_ip 0;
  b ← CPY_MAC b ARP_OFF_TARGET_MAC target_mac 0;
  CPY_IPV4 b ARP_OFF_TARGET_IP target_ip 0.

Definition send_arp_ex (dst_mac : bytes) (opcode : Z)
    (sender_mac sender_ip target_mac target_ip : bytes) : M world Z :=
  let* buffer := mem (arp_buffer opcode sender_mac sender_ip target_mac target_ip) in
  send_ether dst_mac ETHER_TYPE_ARP [{| p_ptr := buffer; p_len := ARP_LEN |}].

Definition send_arp (opcode : Z) (sender_mac sender_ip target_mac target_ip : bytes) : M world Z :=
  send_arp_ex target_mac opcode sender_mac sender_ip target_mac target_ip.

Definition send_arp_request (target_ip : bytes) : M world Z :=
  let* mac := gets (fun w => pc_mac (pctx w)) in
  let* ip := gets (fun w => pc_ip (pctx w)) in
  send_arp_ex BROADCASE_MAC ARP_OPCODE_REQUEST mac ip NONE_MAC target_ip.

Definition arp_has_ip (ip : bytes) : M world bool :=
  let* now := time_now in
  let* l := gets (fun w => pc_arp_list (pctx w)) in
  ret (bool_decide (is_Some (arp_find l ip now))).

(** [Some mac]: the function returned true and wrote [mac]; [None]: it asked the
    network and returned false, leaving the caller's array untouched. *)
Definition arp_get_mac_by_ip (ip : bytes) : M world (option bytes) :=
  let* now := time_now in
  let* l := gets (fun w => pc_arp_list (pctx w)) in
  match arp_find l ip now with
  | Some item => ret (Some (ai_mac item))
  | None => let* _ := send_arp_request ip in ret None
  end.

Definition arp_set (mac ip : bytes) : M world bool :=
  let* now := time_now in
  let* ttl := gets (fun w => pc_arp_ttl (pctx w)) in
  let* l := gets (fun w => pc_arp_list (pctx w)) in
  match arp_set_loop l mac ip now ttl with
  | Some l' => upd_pctx (set_pc_arp_list l') ;;; ret true
  | None => ret false
  end.

(** The callback runs on every live item until it returns non-zero; the item is
    read from the array at each iteration. *)
Fixpoint arp_for_each_loop (idx : list nat) (now : Z) (cb : arp_item -> M world Z) : M world unit :=
  match idx with
  | [] => ret tt
  | i :: idx' =>
      let* o := gets (fun w => pc_arp_list (pctx w) !! i) in
      let* item := mem o in
      if now <? ai_expire_at item then
        let* r := cb item in
        if negb (r =? 0) then ret tt else arp_for_each_loop idx' now cb
      else arp_for_each_loop idx' now cb
  end.
Definition arp_for_each (cb : arp_item -> M world Z) : M world unit :=
  let* now := time_now in
  arp_for_each_loop (seq 0 (Z.to_nat ARP_CACHE_LEN)) now cb.

Definition arp_request (a : arp) : M world Z :=
  let* c := gets pctx in
  if IS_SUBNET (arp_target_ip a) (pc_subnet_net c) (pc_subnet_mask c) then
    if CMP_IPV4 (arp_target_ip a) (arp_sender_ip a) then ret 0
    else if CMP_IPV4 (arp_sender_ip a) NONE_IP then ret 0
    else
      let* known := arp_has_ip (arp_target_ip a) in
      if known : bool then ret 0
      else
        let* mac := gets (fun w => pc_mac (pctx w)) in
        send_arp ARP_OPCODE_REPLY mac (arp_target_ip a) (arp_sender_mac a) (arp_sender_ip a)
  else ret 0.

Definition arp_reply (a : arp) : M world Z := ret 0.

Definition process_arp (ether : ether_frame) : M world Z :=
  let* a := mem (parse_arp ether) in
  if negb (arp_hardware_type a =? ARP_HARDTYPE_ETHER)
     || negb (arp_protocol_type a =? ETHER_TYPE_IPV4)
     || negb (arp_hardware_size a =? 6)
     || negb (arp_protocol_size a =? 4)
  then ret (-1)
  else
    let* _ := arp_set (arp_sender_mac a) (arp_sender_ip a) in
    if arp_opcode a =? ARP_OPCODE_REQUEST then arp_request a
    else if arp_opcode a =? ARP_OPCODE_REPLY then arp_reply a
    else ret (-1).
End code.

(** ** The cache as a finite map *)

(** An address and a hardware address. *)
Definition is_ip (ip : bytes) : Prop := length ip = 4%nat /\ is_bytes ip.
Definition is_mac (mac : bytes) : Prop := length mac = 6%nat /\ is_bytes mac.
Definition item_ok (i : arp_item) : Prop := is_ip (ai_ip i) /\ is_mac (ai_mac i).
Definition arp_ok (l : list arp_item) : Prop :=
  zlen l = ARP_CACHE_LEN /\ Forall item_ok l.

(** What the cache answers at time [now]: the first live entry of each address. *)
Definition arp_entry (now : Z) (i : arp_item) : option (bytes * bytes) :=
  if decide (ai_ip i <> NONE_IP /\ now < ai_expire_at i) then Some (ai_ip i, ai_mac i) else None.
Definition arp_view (l : list arp_item) (now : Z) : gmap bytes bytes :=
  list_to_map (omap (arp_entry now) l).

Lemma CMP_IPV4_spec a b : length a = 4%nat -> length b = 4%nat -> CMP_IPV4 a b = bool_decide (a = b).
Proof. intros Ha Hb. unfold CMP_IPV4. by rewrite !firstn_all2 by lia. Qed.
Lemma CMP_MAC_spec a b : length a = 6%nat -> length b = 6%nat -> CMP_MAC a b = bool_decide (a = b).
Proof. intros Ha Hb. unfold CMP_MAC. by rewrite !firstn_all2 by lia. Qed.

Lemma arp_view_cons i l now :
  arp_view (i :: l) now =
    match arp_entry now i with Some (k, v) => <[k := v]> (arp_view l now) | None => arp_view l now end.
Proof. unfold arp_view. simpl. by destruct (arp_entry now i) as [[]|]. Qed.
Lemma arp_entry_live now i :
  ai_ip i <> NONE_IP -> now < ai_expire_at i -> arp_entry now i = Some (ai_ip i, ai_mac i).
Proof. intros. unfold arp_entry. by rewrite decide_True. Qed.
Lemma arp_entry_dead now i :
  ai_ip i = NONE_IP \/ ai_expire_at i <= now -> arp_entry now i = None.
Proof. intros. unfold arp_entry. rewrite decide_False; [done|]. intros [? ?]. naive_solver lia. Qed.

Lemma arp_find_view l ip now :
  Forall item_ok l -> is_ip ip -> ip <> NONE_IP ->
  ai_mac <$> arp_find l ip now = arp_view l now !! ip.
Proof.
  intros Hl [Hip _] Hne. induction Hl as [|i l [[Hi _] _] Hl IH]; [done|].
  cbn [arp_find]. rewrite CMP_IPV4_spec, arp_view_cons by done.
  destruct (Z.ltb_spec now (ai_expire_at i)); case_bool_decide as Heq; simpl andb; cbv iota.
  - rewrite arp_entry_live by congruence. subst ip. simpl. by rewrite lookup_insert_eq.
  - destruct (decide (ai_ip i = NONE_IP)).
    + rewrite arp_entry_dead by auto. done.
    + rewrite arp_entry_live by done. by rewrite lookup_insert_ne.
  - by rewrite arp_entry_dead by auto.
  - by rewrite arp_entry_dead by auto.
Qed.

Lemma arp_find_live l ip now i :
  arp_find l ip now = Some i -> i ∈ l /\ CMP_IPV4 (ai_ip i) ip = true /\ now < ai_expire_at i.
Proof.
  induction l as [|j l IH]; simpl; [done|].
  destruct (CMP_IPV4 (ai_ip j) ip) eqn:E1, (Z.ltb_spec now (ai_expire_at j)); simpl;
    intros Hf; try (destruct (IH Hf) as (?&?&?); set_solver). injection Hf as <-. set_solver.
Qed.

(** Insertion, read through the map. *)
Lemma arp_set_loop_view l mac ip now ttl l' now' :
  Forall item_ok l -> is_ip ip -> is_mac mac ->
  arp_set_loop l mac ip now ttl = Some l' -> now <= now' < now + ttl ->
  arp_view l' now' =
    if decide (ip = NONE_IP) then arp_view l now' else <[ip := mac]> (arp_view l now').
Proof.
  intros Hl [Hip _] [Hmac _] Hset Hnow. revert l' Hset.
  induction Hl as [|i l [[Hi _] _] Hl IH]; intros l' Hset; [done|]. cbn [arp_set_loop] in Hset.
  rewrite !CMP_IPV4_spec in Hset by done. rewrite arp_view_cons.
  destruct (bool_decide (ai_ip i = NONE_IP) || bool_decide (ai_ip i = ip)
            || (ai_expire_at i <? now)) eqn:Hfree.
  - simplify_eq. rewrite !firstn_all2, arp_view_cons by lia.
    assert (Hold : ai_ip i = NONE_IP \/ ai_ip i = ip \/ ai_expire_at i <= now').
    { apply orb_true_iff in Hfree as [[?|?]%orb_true_iff|?];
        rewrite ?bool_decide_eq_true, ?Z.ltb_lt in *; auto. right; right; lia. }
    destruct (decide (ip = NONE_IP)) as [->|Hne].
    + rewrite (arp_entry_dead _ (Build_arp_item _ _ _)) by (by left).
      by rewrite arp_entry_dead by naive_solver.
    + rewrite (arp_entry_live _ (Build_arp_item _ _ _)) by (simpl; done || lia). simpl.
      destruct (decide (ai_ip i = NONE_IP)); [by rewrite arp_entry_dead by auto|].
      destruct (decide (ai_expire_at i <= now')); [by rewrite arp_entry_dead by auto|].
      destruct Hold as [?|[?|?]]; [done| |lia].
      rewrite arp_entry_live by (done || lia). subst ip. by rewrite insert_insert_eq.
  - destruct (arp_set_loop l mac ip now ttl) as [l1|] eqn:E; simplify_eq/=.
    rewrite !orb_false_iff, !bool_decide_eq_false, Z.ltb_ge in Hfree.
    destruct Hfree as [[H1 H2] H3]. rewrite arp_view_cons, (IH l1) by done.
    destruct (arp_entry now' i) as [[k v]|] eqn:Ee; [|done].
    unfold arp_entry in Ee. case_decide; simplify_eq.
    destruct (decide (ip = NONE_IP)); [done|]. by rewrite insert_insert_ne.
Qed.

Lemma arp_set_loop_ok l mac ip now ttl l' :
  is_ip ip -> is_mac mac -> arp_ok l -> arp_set_loop l mac ip now ttl = Some l' -> arp_ok l'.
Proof.
  intros Hip Hmac [Hlen Hl]. unfold arp_ok. rewrite <- Hlen. clear Hlen. revert l'.
  induction Hl as [|i l Hi Hl IH]; intros l' Hs; simpl in Hs; [done|].
  destruct (_ || _).
  - simplify_eq. rewrite !zlen_cons. split; [done|]. constructor; [|done].
    destruct Hip, Hmac. split; simpl; rewrite firstn_all2 by lia; done.
  - destruct (arp_set_loop l mac ip now ttl) as [l1|] eqn:E; simplify_eq/=.
    destruct (IH l1 eq_refl) as [Hz Hf]. rewrite !zlen_cons, Hz. split; [done|by constructor].
Qed.

(** There is no room exactly when every slot holds another address that has not
    yet passed its expiry. *)
Lemma arp_set_loop_full l mac ip now ttl :
  Forall item_ok l -> is_ip ip ->
  arp_set_loop l mac ip now ttl = None <->
  Forall (fun i => ai_ip i <> NONE_IP /\ ai_ip i <> ip /\ now <= ai_expire_at i) l.
Proof.
  intros Hl [Hip _]. induction Hl as [|i l [[Hi _] _] Hl IH]; simpl; [split; [constructor|done]|].
  rewrite !CMP_IPV4_spec, Forall_cons by done.
  destruct (bool_decide (ai_ip i = NONE_IP)) eqn:E1, (bool_decide (ai_ip i = ip)) eqn:E2,
    (Z.ltb_spec (ai_expire_at i) now); simpl;
    rewrite ?bool_decide_eq_true, ?bool_decide_eq_false in *;
    try (split; [done|]; intros [(?&?&?) _]; (done || lia)).
  destruct (arp_set_loop l mac ip now ttl); simpl; (split; [|intros [_ ?%IH]]); try done.
  intros _. split; [done|]. by apply IH.
Qed.

(** ** The cache operations on the client's state *)

(** Well-formedness of the packet layer, kept by every operation. *)
Record ctx_ok (c : packet_ctx) : Prop := {
  ctx_buffer : zlen (pc_buffer c) = BUFFER_SIZE;
  ctx_buffer_len : pc_buffer_len c = BUFFER_SIZE;
  ctx_ip : is_ip (pc_ip c);
  ctx_net : is_ip (pc_subnet_net c);
  ctx_mask : is_ip (pc_subnet_mask c);
  ctx_mac : is_mac (pc_mac c);
  ctx_arp : arp_ok (pc_arp_list c);
  ctx_id : is_u16 (pc_identification c);
}.

Lemma ctx_ok_buffer_ok c : ctx_ok c -> buffer_ok c.
Proof. intros [H1 H2 _ _ _ _ _ _]. split; rewrite H2; [done|]. consts. lia. Qed.
#[export] Hint Resolve ctx_ok_buffer_ok : lanplay.

Definition with_arp (l : list arp_item) (w : world) : world :=
  set_w_lp (set_lp_packet_ctx (set_pc_arp_list l (pctx w)) (w_lp w)) w.

Section cache.
Context `{Env}.

(** The clock reading the next external call will get. *)
Definition now_at (w : world) : Z := env_time (w_ticks w).

(** The state after learning that [ip] is at [mac]. *)
Definition learned (mac ip : bytes) (w : world) : world :=
  match arp_set_loop (pc_arp_list (pctx w)) mac ip (now_at w) (pc_arp_ttl (pctx w)) with
  | Some l' => with_arp l' (tick w)
  | None => tick w
  end.

Lemma arp_set_run mac ip w :
  arp_set mac ip w =
    Ok (bool_decide (is_Some (arp_set_loop (pc_arp_list (pctx w)) mac ip (now_at w)
                                (pc_arp_ttl (pctx w)))))
       (learned mac ip w).
Proof.
  unfold arp_set, learned, now_at. unfold bind at 1. unfold time_now. unfold bind, gets. simpl.
  change (pctx (tick w)) with (pctx w). by destruct (arp_set_loop _ _ _ _ _).
Qed.

Lemma transmitted_ctx_ok data w :
  ctx_ok (pctx w) -> zlen data <= BUFFER_SIZE -> ctx_ok (pctx (transmitted data w)).
Proof.
  intros [] Hd. constructor; try done. simpl. unfold filled, zlen in *.
  rewrite length_app, length_drop. lia.
Qed.

Lemma learned_ctx_ok mac ip w :
  ctx_ok (pctx w) -> is_mac mac -> is_ip ip -> ctx_ok (pctx (learned mac ip w)).
Proof.
  intros Hc Hm Hi. unfold learned. destruct (arp_set_loop _ _ _ _ _) as [l'|] eqn:E; [|done].
  destruct Hc. constructor; try done. simpl. eapply arp_set_loop_ok; eauto.
Qed.

Lemma learned_frame mac ip w :
  w_out (learned mac ip w) = w_out w /\ w_ticks (learned mac ip w) = S (w_ticks w) /\
  pc_mac (pctx (learned mac ip w)) = pc_mac (pctx w) /\
  pc_ip (pctx (learned mac ip w)) = pc_ip (pctx w) /\
  pc_subnet_net (pctx (learned mac ip w)) = pc_subnet_net (pctx w) /\
  pc_subnet_mask (pctx (learned mac ip w)) = pc_subnet_mask (pctx w).
Proof. unfold learned. by destruct (arp_set_loop _ _ _ _ _). Qed.

(** [arp_set] implements insertion into the abstract cache.  When it reports
    success, then until the new entry expires the cache answers as the old map
    with [ip] bound to [mac]: the newest binding wins over stale duplicates and no
    other live address is lost.  Setting 0.0.0.0 changes no answer. *)
Theorem arp_set_refines_insert mac ip w w' now' :
  ctx_ok (pctx w) -> is_mac mac -> is_ip ip -> arp_set mac ip w = Ok true w' ->
  now_at w <= now' < now_at w + pc_arp_ttl (pctx w) ->
  arp_view (pc_arp_list (pctx w')) now' =
    if decide (ip = NONE_IP) then arp_view (pc_arp_list (pctx w)) now'
    else <[ip := mac]> (arp_view (pc_arp_list (pctx w)) now').
Proof.
  intros Hc Hm Hi Hs Hnow. rewrite arp_set_run in Hs. injection Hs as Ht <-.
  apply bool_decide_eq_true in Ht as [l' E]. unfold learned. rewrite E. simpl.
  eapply arp_set_loop_view; eauto. apply Hc.
Qed.

(** [arp_set] reports failure exactly when all the slots hold other addresses
    that have not passed their expiry, and then the cache is unchanged. *)
Theorem arp_set_full mac ip w :
  ctx_ok (pctx w) -> is_mac mac -> is_ip ip ->
  (arp_set mac ip w = Ok false (tick w) <->
   Forall (fun i => ai_ip i <> NONE_IP /\ ai_ip i <> ip /\ now_at w <= ai_expire_at i)
     (pc_arp_list (pctx w))).
Proof.
  intros Hc Hm Hi. rewrite <- (arp_set_loop_full _ mac _ _ (pc_arp_ttl (pctx w)))
    by (done || apply Hc).
  rewrite arp_set_run. unfold learned. destruct (arp_set_loop _ _ _ _ _); simpl; [|done].
  split; [|done]. intros Hs. discriminate Hs.
Qed.

(** The 28 bytes of an ARP packet. *)
Definition arp_pkt (opcode : Z) (smac sip tmac tip : bytes) : bytes :=
  [0; 1; 8; 0; 6; 4; u16 opcode / 256; u16 opcode mod 256] ++ smac ++ sip ++ tmac ++ tip.

Lemma arp_buffer_eq opcode smac sip tmac tip :
  is_mac smac -> is_ip sip -> is_mac tmac -> is_ip tip ->
  arp_buffer opcode smac sip tmac tip = Some (arp_pkt opcode smac sip tmac tip).
Proof.
  intros [(a1 & a2 & a3 & a4 & a5 & a6 & ->)%length_6_inv _]
         [(b1 & b2 & b3 & b4 & ->)%length_4_inv _]
         [(c1 & c2 & c3 & c4 & c5 & c6 & ->)%length_6_inv _]
         [(d1 & d2 & d3 & d4 & ->)%length_4_inv _].
  unfold arp_buffer. rewrite WRITE_NET16_put. omem. rewrite WRITE_NET16_put. omem.
  rewrite WRITE_NET8_put. omem. rewrite WRITE_NET8_put. omem. rewrite WRITE_NET16_put. omem.
  reflexivity.
Qed.

Lemma arp_pkt_ok opcode smac sip tmac tip :
  is_mac smac -> is_ip sip -> is_mac tmac -> is_ip tip ->
  zlen (arp_pkt opcode smac sip tmac tip) = 28 /\ is_bytes (arp_pkt opcode smac sip tmac tip).
Proof.
  intros [? ?] [? ?] [? ?] [? ?]. split.
  - unfold arp_pkt, zlen. rewrite !length_app. simpl. lia.
  - unfold arp_pkt. apply Forall_app_2; [|by repeat apply Forall_app_2].
    change [0; 1; 8; 0; 6; 4; u16 opcode / 256; u16 opcode mod 256]
      with ([0; 1; 8; 0; 6; 4] ++ [u16 opcode / 256; u16 opcode mod 256]).
    apply Forall_app_2; [repeat constructor; unfold is_u8; lia|].
    apply hi_lo_bytes, u16_range.
Qed.

Lemma send_arp_ex_ok dst opcode smac sip tmac tip w :
  ctx_ok (pctx w) -> is_mac dst ->
  is_mac smac -> is_ip sip -> is_mac tmac -> is_ip tip ->
  let frame := framed dst ETHER_TYPE_ARP (arp_pkt opcode smac sip tmac tip) w in
  send_arp_ex dst opcode smac sip tmac tip w =
    Ok (env_pcap_sendpacket (w_ticks w) frame) (transmitted frame w).
Proof.
  intros Hc [Hd Hdb] H1 H2 H3 H4 frame. unfold send_arp_ex, bind.
  rewrite arp_buffer_eq by done. simpl.
  destruct (arp_pkt_ok opcode smac sip tmac tip) as [Hz Hb]; try done.
  rewrite (whole_eq _ ARP_LEN) by done.
  rewrite send_ether_ok; rewrite ?chain_data_whole, ?app_nil_r; auto with lanplay; try apply Hc.
  - constructor; [by apply wf_whole|constructor].
  - rewrite (ctx_buffer_len _ Hc). consts. lia.
Qed.

Definition none_mac_ok : is_mac NONE_MAC.
Proof. split; [done|]. repeat constructor; unfold is_u8; lia. Qed.
Definition broadcase_mac_ok : is_mac BROADCASE_MAC.
Proof. split; [done|]. repeat constructor; unfold is_u8; lia. Qed.

(** The frame that asks who has [ip]. *)
Definition who_has (ip : bytes) (w : world) : bytes :=
  framed BROADCASE_MAC ETHER_TYPE_ARP
    (arp_pkt ARP_OPCODE_REQUEST (pc_mac (pctx w)) (pc_ip (pctx w)) NONE_MAC ip) w.

Lemma zlen_framed dst type data w :
  length dst = 6%nat -> length (pc_mac (pctx w)) = 6%nat ->
  zlen (framed dst type data w) = 14 + zlen data.
Proof. intros. unfold framed. rewrite zlen_app, zlen_eth_hdr; done. Qed.

(** The outcome of a lookup, by what the cache holds. *)
Definition resolved (ip : bytes) (w : world) : outcome world (option bytes) :=
  match arp_find (pc_arp_list (pctx w)) ip (now_at w) with
  | Some i => Ok (Some (ai_mac i)) (tick w)
  | None => Ok None (transmitted (who_has ip w) (tick w))
  end.

Lemma arp_get_mac_by_ip_run ip w :
  ctx_ok (pctx w) -> is_ip ip -> arp_get_mac_by_ip ip w = resolved ip w.
Proof.
  intros Hc Hi. unfold arp_get_mac_by_ip, resolved, now_at.
  unfold bind at 1. unfold time_now, bind, gets. simpl.
  change (pctx (tick w)) with (pctx w).
  destruct (arp_find _ _ _); [done|]. unfold send_arp_request, bind, gets.
  change (pctx (tick w)) with (pctx w).
  rewrite send_arp_ex_ok; [done|by apply Hc|apply broadcase_mac_ok|apply Hc|apply Hc|
    apply none_mac_ok|done].
Qed.

(** A lookup of an address other than 0.0.0.0 answers from the abstract cache:
    a bound address gives its hardware address and nothing is sent; an unbound one
    gives nothing and exactly one ARP request for it is broadcast. *)
Theorem arp_get_mac_by_ip_spec ip w :
  ctx_ok (pctx w) -> is_ip ip -> ip <> NONE_IP ->
  arp_get_mac_by_ip ip w =
    match arp_view (pc_arp_list (pctx w)) (now_at w) !! ip with
    | Some mac => Ok (Some mac) (tick w)
    | None => Ok None (transmitted (who_has ip w) (tick w))
    end.
Proof.
  intros Hc Hi Hne. rewrite arp_get_mac_by_ip_run by done. unfold resolved.
  rewrite <- arp_find_view by (done || apply Hc). by destruct (arp_find _ _ _).
Qed.
End cache.

(** ** The responder *)

Section responder.
Context `{Env}.

Lemma parse_arp_inv e a :
  is_bytes (ef_payload e) -> parse_arp e = Some a ->
  is_mac (arp_sender_mac a) /\ is_ip (arp_sender_ip a) /\
  is_mac (arp_target_mac a) /\ is_ip (arp_target_ip a).
Proof.
  intros Hb Hp. unfold parse_arp in Hp.
  repeat match type of Hp with
  | (?m ≫= _) = Some _ => destruct m eqn:?; [cbn [mbind option_bind] in Hp|discriminate]
  end. simplify_eq. simpl.
  repeat match goal with
  | E : mem_get _ _ ?n = Some ?l |- _ =>
      pose proof (mem_get_zlen _ _ _ _ E); pose proof (mem_get_is_bytes _ _ _ _ Hb E); clear E
  end.
  unfold is_mac, is_ip, zlen in *. split_and!; done || lia.
Qed.

(** An ARP packet as [send_arp_ex] builds it parses back to the opcode and the
    four addresses it was built from. *)
Theorem parse_arp_roundtrip e op smac sip tmac tip b :
  is_mac smac -> is_ip sip -> is_mac tmac -> is_ip tip -> is_u16 op ->
  arp_buffer op smac sip tmac tip = Some b -> ef_payload e = b ->
  parse_arp e =
    Some {| arp_hardware_type := ARP_HARDTYPE_ETHER; arp_protocol_type := ETHER_TYPE_IPV4;
            arp_hardware_size := 6; arp_protocol_size := 4; arp_opcode := op;
            arp_sender_mac := smac; arp_sender_ip := sip;
            arp_target_mac := tmac; arp_target_ip := tip |}.
Proof.
  intros Hsm Hsi Htm Hti Hop Hb He. rewrite arp_buffer_eq in Hb by done. simplify_eq.
  unfold parse_arp. rewrite <- Hb. clear Hb.
  destruct Hsm as [(a1 & a2 & a3 & a4 & a5 & a6 & ->)%length_6_inv _].
  destruct Hsi as [(b1 & b2 & b3 & b4 & ->)%length_4_inv _].
  destruct Htm as [(c1 & c2 & c3 & c4 & c5 & c6 & ->)%length_6_inv _].
  destruct Hti as [(d1 & d2 & d3 & d4 & ->)%length_4_inv _].
  unfold arp_pkt. simpl app. rewrite !READ_NET8_eq.
  rewrite (READ_NET16_get _ ARP_OFF_HARDWARE 0 1) by (reflexivity || (unfold is_u8; lia)).
  rewrite (READ_NET16_get _ ARP_OFF_PROTOCOL 8 0) by (reflexivity || (unfold is_u8; lia)).
  rewrite (READ_NET16_get _ ARP_OFF_OPCODE (u16 op / 256) (u16 op mod 256));
    [|apply hi_u8, u16_range|apply lo_u8|reflexivity].
  omem. rewrite hi_lo_val, u16_id by done. reflexivity.
Qed.

(** The responder reads 28 bytes of every ARP frame without checking that they
    were captured: on a shorter one it reads outside the frame. *)
Theorem process_arp_short_frame e w :
  zlen (ef_payload e) < ARP_LEN -> process_arp e w = Stop Oob.
Proof.
  intros Hs. unfold process_arp. apply bind_stop.
  assert (Hn : parse_arp e = None); [|by rewrite Hn].
  unfold parse_arp.
  repeat match goal with |- (?m ≫= _) = None => destruct m eqn:?; [cbn [mbind option_bind]|done] end.
  exfalso. match goal with E : mem_get _ ARP_OFF_TARGET_IP 4 = Some _ |- _ =>
    apply mem_get_inv in E as (_ & _ & Hle & _) end. consts. lia.
Qed.

(** The reply on behalf of the address asked for. *)
Definition proxy_reply (a : arp) (w : world) : bytes :=
  framed (arp_sender_mac a) ETHER_TYPE_ARP
    (arp_pkt ARP_OPCODE_REPLY (pc_mac (pctx w)) (arp_target_ip a)
       (arp_sender_mac a) (arp_sender_ip a)) w.

(** Requests that are never answered: for an address outside the virtual subnet,
    gratuitous announcements, and probes from 0.0.0.0. *)
Definition arp_quiet (a : arp) (w : world) : bool :=
  negb (IS_SUBNET (arp_target_ip a) (pc_subnet_net (pctx w)) (pc_subnet_mask (pctx w)))
  || bool_decide (arp_target_ip a = arp_sender_ip a)
  || bool_decide (arp_sender_ip a = NONE_IP).

Definition arp_hw_ok (a : arp) : bool :=
  (arp_hardware_type a =? ARP_HARDTYPE_ETHER) && (arp_protocol_type a =? ETHER_TYPE_IPV4)
  && (arp_hardware_size a =? 6) && (arp_protocol_size a =? 4).

Lemma process_arp_run e a w :
  ctx_ok (pctx w) -> is_bytes (ef_payload e) -> parse_arp e = Some a ->
  process_arp e w =
    if negb (arp_hw_ok a) then Ok (-1) w
    else
      let w1 := learned (arp_sender_mac a) (arp_sender_ip a) w in
      if arp_opcode a =? ARP_OPCODE_REQUEST then
        if arp_quiet a w then Ok 0 w1
        else if decide (is_Some (arp_find (pc_arp_list (pctx w1)) (arp_target_ip a) (now_at w1)))
        then Ok 0 (tick w1)
        else Ok (env_pcap_sendpacket (S (w_ticks w1)) (proxy_reply a w))
                (transmitted (proxy_reply a w) (tick w1))
      else Ok (if arp_opcode a =? ARP_OPCODE_REPLY then 0 else -1) w1.
Proof.
  intros Hc Hb Hp. destruct (parse_arp_inv e a Hb Hp) as (Hsm & Hsi & Htm & Hti).
  unfold process_arp. rewrite Hp. rewrite (bind_ok _ _ _ a w) by done. cbv beta.
  replace (negb _ || _ || _ || _) with (negb (arp_hw_ok a))
    by (unfold arp_hw_ok; by rewrite !negb_andb).
  destruct (arp_hw_ok a); [|done]. cbn [negb]. cbv zeta.
  rewrite (bind_ok _ _ _ _ _ (arp_set_run _ _ _)). set (w1 := learned _ _ _). pose proof (learned_frame (arp_sender_mac a) (arp_sender_ip a) w)
    as (Ho & Ht & Hmac & Hip & Hnet & Hmask). fold w1 in Ho, Ht, Hmac, Hip, Hnet, Hmask.
  destruct (arp_opcode a =? ARP_OPCODE_REQUEST);
    [|by destruct (arp_opcode a =? ARP_OPCODE_REPLY)].
  unfold arp_request, arp_quiet. unfold bind at 1. unfold gets at 1. rewrite Hnet, Hmask.
  destruct (IS_SUBNET _ _ _); [|done]. simpl negb.
  rewrite !CMP_IPV4_spec by (apply Hti || apply Hsi || done).
  do 2 (case_bool_decide; [done|]). simpl orb. cbv iota.
  unfold bind at 1. unfold arp_has_ip, time_now. unfold bind at 1. unfold bind at 1.
  unfold gets at 1. unfold ret at 1. change (pctx (tick w1)) with (pctx w1).
  fold (now_at w1). case_bool_decide; [by rewrite decide_True|]. rewrite decide_False by done.
  unfold bind, gets. change (pctx (tick w1)) with (pctx w1). unfold send_arp.
  assert (Hc1 : ctx_ok (pctx w1)) by (by apply learned_ctx_ok).
  rewrite send_arp_ex_ok; [|done|done|apply Hc1|done|done|done].
  unfold proxy_reply, framed. change (pctx (tick w1)) with (pctx w1). by rewrite Hmac.
Qed.

(** The responder on every kind of packet.  Non-Ethernet/IPv4 packets are
    refused without being learned from.  Otherwise the sender is learned; a request
    is answered, in the name of the address asked for and with our MAC, exactly when
    it is for an address of the virtual subnet that no live cache entry holds and is
    neither gratuitous nor a probe; nothing else is ever sent. *)
Theorem process_arp_spec e a w :
  ctx_ok (pctx w) -> is_bytes (ef_payload e) -> parse_arp e = Some a ->
  process_arp e w =
    if negb (arp_hw_ok a) then Ok (-1) w
    else
      let w1 := learned (arp_sender_mac a) (arp_sender_ip a) w in
      if arp_opcode a =? ARP_OPCODE_REQUEST then
        if arp_quiet a w then Ok 0 w1
        else if decide (is_Some (arp_find (pc_arp_list (pctx w1)) (arp_target_ip a) (now_at w1)))
        then Ok 0 (tick w1)
        else Ok (env_pcap_sendpacket (S (w_ticks w1)) (proxy_reply a w))
                (transmitted (proxy_reply a w) (tick w1))
      else Ok (if arp_opcode a =? ARP_OPCODE_REPLY then 0 else -1) w1.
Proof. apply process_arp_run. Qed.
End responder.

(** ** Concrete runs *)

(** The empty cache. *)
Lemma arp_list_init_ok : arp_ok arp_list_init.
Proof. split; [done|]. repeat constructor; unfold is_u8; lia. Qed.

Lemma demo_ctx_ok : ctx_ok (pctx demo_world).
Proof.
  constructor; try done; try apply arp_list_init_ok;
    (split; [done|repeat constructor; unfold is_u8; lia]).
Qed.

Lemma arp_set_refines_insert_witness :
  arp_view (pc_arp_list (pctx (learned (H := demo_env) demo_mac [10; 13; 0; 9] demo_world))) 1020
    = <[ [10; 13; 0; 9] := demo_mac ]> (arp_view (pc_arp_list (pctx demo_world)) 1020).
Proof.
  apply (arp_set_refines_insert (H := demo_env) demo_mac [10; 13; 0; 9] demo_world);
    [apply demo_ctx_ok|split; [done|repeat constructor; unfold is_u8; lia]..|
     reflexivity|vm_compute; split; done].
Defined.

Lemma arp_set_full_witness :
  ~ Forall (fun i => ai_ip i <> NONE_IP /\ ai_ip i <> [10; 13; 0; 9] /\ 1000 <= ai_expire_at i)
      (pc_arp_list (pctx demo_world)).
Proof.
  intros Hf.
  apply (arp_set_full (H := demo_env) demo_mac [10; 13; 0; 9] demo_world) in Hf;
    [discriminate Hf|apply demo_ctx_ok|split; [done|repeat constructor; unfold is_u8; lia]..].
Defined.

Lemma arp_get_mac_by_ip_spec_witness :
  exists w', arp_get_mac_by_ip (H := demo_env) [10; 13; 0; 9] demo_world = Ok None w'.
Proof.
  eexists. etransitivity;
    [apply (arp_get_mac_by_ip_spec (H := demo_env) [10; 13; 0; 9] demo_world);
     [apply demo_ctx_ok|split; [done|repeat constructor; unfold is_u8; lia]|done]|].
  reflexivity.
Defined.

(** A request from 10.13.0.5 for 10.13.0.9. *)
Definition demo_request : bytes :=
  [0; 1; 8; 0; 6; 4; 0; 1; 2; 0; 0; 0; 0; 5; 10; 13; 0; 5; 0; 0; 0; 0; 0; 0; 10; 13; 0; 9].
Definition demo_ether (pl : bytes) : ether_frame :=
  {| ef_raw := []; ef_raw_len := 0; ef_dst := AnyMac; ef_src := [2; 0; 0; 0; 0; 5];
     ef_type := ETHER_TYPE_ARP; ef_payload := pl |}.
Definition demo_arp : arp :=
  {| arp_hardware_type := 1; arp_protocol_type := 0x800; arp_hardware_size := 6;
     arp_protocol_size := 4; arp_opcode := 1; arp_sender_mac := [2; 0; 0; 0; 0; 5];
     arp_sender_ip := [10; 13; 0; 5]; arp_target_mac := [0; 0; 0; 0; 0; 0];
     arp_target_ip := [10; 13; 0; 9] |}.

Lemma parse_arp_roundtrip_witness :
  parse_arp (H := demo_env) (demo_ether demo_request) = Some demo_arp.
Proof.
  apply (parse_arp_roundtrip (H := demo_env) (demo_ether demo_request) 1
           [2; 0; 0; 0; 0; 5] [10; 13; 0; 5] [0; 0; 0; 0; 0; 0] [10; 13; 0; 9] demo_request);
    try (split; [done|repeat constructor; unfold is_u8; lia]); reflexivity.
Defined.

Lemma process_arp_short_frame_witness :
  process_arp (H := demo_env) (demo_ether [0; 1; 8; 0]) demo_world = Stop Oob.
Proof. apply (process_arp_short_frame (H := demo_env)). reflexivity. Defined.

Lemma process_arp_spec_witness :
  exists w', process_arp (H := demo_env) (demo_ether demo_request) demo_world = Ok 0 w' /\
    w_out w' = [EvFrame ([2; 0; 0; 0; 0; 5] ++ demo_mac ++ [8; 6] ++
      [0; 1; 8; 0; 6; 4; 0; 2] ++ demo_mac ++ [10; 13; 0; 9] ++
      [2; 0; 0; 0; 0; 5] ++ [10; 13; 0; 5])].
Proof.
  eexists. split; [etransitivity;
    [apply (process_arp_spec (H := demo_env) (demo_ether demo_request) demo_arp demo_world);
     [apply demo_ctx_ok|repeat constructor; unfold is_u8; lia|reflexivity]|reflexivity]|].
  vm_compute. reflexivity.
Defined.
