(* ===== verification/Ipv4.v ===== *)
(** IPv4, UDP and ICMP: [src/ipv4/ipv4.c] (building and parsing), [src/ipv4/udp.c]
    and [src/ipv4/icmp.c]. *)

From stdpp Require Import gmap.
From S2P Require Import Prelude Byteorder Structs Checksum Packet Arp.

(** ** The code *)

Section code.
Context `{Env}.

(** The header [send_ipv4_ex] builds in its local buffer. *)
Definition ipv4_header (src dst : bytes) (protocol id total_len : Z) : option bytes :=
  b ← WRITE_NET8 (uninit IPV4_HEADER_LEN) IPV4_OFF_VER_LEN 0x45;
  b ← WRITE_NET8 b IPV4_OFF_DSCP_ECN 0x00;
  b ← WRITE_NET16 b IPV4_OFF_TOTAL_LEN total_len;
  b ← WRITE_NET16 b IPV4_OFF_ID id;
  b ← WRITE_NET16 b IPV4_OFF_FLAGS_FRAG_OFFSET 0;
  b ← WRITE_NET8 b IPV4_OFF_TTL 128;
  b ← WRITE_NET8 b IPV4_OFF_PROTOCOL protocol;
  b ← WRITE_NET16 b IPV4_OFF_CHECKSUM 0x0000;
  b ← CPY_IPV4 b IPV4_OFF_SRC src 0;
  b ← CPY_IPV4 b IPV4_OFF_DST dst 0;
  checksum ← calc_checksum b IPV4_HEADER_LEN;
  WRITE_NET16 b IPV4_OFF_CHECKSUM checksum.

Definition send_ipv4_ex (src dst : bytes) (protocol : Z) (c : payload) : M world Z :=
  let* id := gets (fun w => pc_identification (pctx w)) in
  upd_pctx (set_pc_identification (u16 (id + 1))) ;;;
  let* buffer := mem (ipv4_header src dst protocol id (IPV4_HEADER_LEN + payload_total_len c)) in
  let* r := arp_get_mac_by_ip dst in
  match r with
  | None => ret 0                        (* return false; *)
  | Some dst_mac =>
      send_ether dst_mac ETHER_TYPE_IPV4 ({| p_ptr := buffer; p_len := IPV4_HEADER_LEN |} :: c)
  end.

Definition send_ipv4 (dst : bytes) (protocol : Z) (c : payload) : M world Z :=
  let* ip := gets (fun w => pc_ip (pctx w)) in
  send_ipv4_ex ip dst protocol c.

Definition parse_ipv4 (ether : ether_frame) : option ipv4 :=
  let packet := ef_payload ether in
  t ← READ_NET8 packet IPV4_OFF_VER_LEN;
  let version := Z.shiftr t 4 in
  let header_len := Z.land t 0xF * 4 in
  t ← READ_NET8 packet IPV4_OFF_DSCP_ECN;
  let dscp := Z.shiftr t 2 in
  let ecn := Z.land t 3 in
  total_len ← READ_NET16 packet IPV4_OFF_TOTAL_LEN;
  identification ← READ_NET16 packet IPV4_OFF_ID;
  tt ← READ_NET16 packet IPV4_OFF_FLAGS_FRAG_OFFSET;
  let flags := Z.shiftr tt 13 in
  let fragment_offset := Z.land tt 0x1fff in
  ttl ← READ_NET8 packet IPV4_OFF_TTL;
  protocol ← READ_NET8 packet IPV4_OFF_PROTOCOL;
  checksum ← READ_NET16 packet IPV4_OFF_CHECKSUM;
  src ← mem_get packet IPV4_OFF_SRC 4;
  dst ← mem_get packet IPV4_OFF_DST 4;
  (* packet + header_len: a pointer, not yet an access *)
  let pl := drop (Z.to_nat header_len) packet in
  Some {| ip_ether := ether; ip_version := version; ip_header_len := header_len;
          ip_dscp := dscp; ip_ecn := ecn; ip_total_len := total_len;
          ip_identification := identification; ip_flags := flags;
          ip_fragment_offset := fragment_offset; ip_ttl := ttl; ip_protocol := protocol;
          ip_checksum := checksum; ip_src := src; ip_dst := dst; ip_payload := pl |}.

Definition parse_udp (ip : ipv4) : option udp :=
  let packet := ip_payload ip in
  srcport ← READ_NET16 packet UDP_OFF_SRCPORT;
  dstport ← READ_NET16 packet UDP_OFF_DSTPORT;
  length ← READ_NET16 packet UDP_OFF_LENGTH;
  checksum ← READ_NET16 packet UDP_OFF_CHECKSUM;
  pl ← mem_from packet UDP_OFF_END;
  Some {| udp_ipv4 := ip; udp_srcport := srcport; udp_dstport := dstport;
          udp_length := length; udp_checksum := checksum; udp_payload := pl |}.

(** The UDP header, with the checksum over the pseudo header and the chain. *)
Definition udp_header (src : bytes) (srcport : Z) (dst : bytes) (dstport : Z) (c : payload)
    : option bytes :=
  let udp_length := u16 (UDP_OFF_END + payload_total_len c) in
  b ← WRITE_NET16 (uninit UDP_OFF_END) UDP_OFF_SRCPORT srcport;
  b ← WRITE_NET16 b UDP_OFF_DSTPORT dstport;
  b ← WRITE_NET16 b UDP_OFF_LENGTH udp_length;
  b ← WRITE_NET16 b UDP_OFF_CHECKSUM 0;
  p ← CPY_IPV4 (uninit IPV4P_OFF_END) IPV4P_OFF_SRC src 0;
  p ← CPY_IPV4 p IPV4P_OFF_DST dst 0;
  p ← WRITE_NET8 p IPV4P_OFF_ZERO 0;
  p ← WRITE_NET8 p IPV4P_OFF_PROTOCOL IPV4_PROTOCOL_UDP;
  p ← WRITE_NET16 p IPV4P_OFF_LENGTH udp_length;
  checksum ← calc_payload_checksum
    ({| p_ptr := p; p_len := IPV4P_OFF_END |} :: {| p_ptr := b; p_len := UDP_OFF_END |} :: c);
  WRITE_NET16 b UDP_OFF_CHECKSUM checksum.

Definition send_udp_ex (src : bytes) (srcport : Z) (dst : bytes) (dstport : Z) (c : payload)
    : M world Z :=
  let* buffer := mem (udp_header src srcport dst dstport c) in
  send_ipv4_ex src dst IPV4_PROTOCOL_UDP ({| p_ptr := buffer; p_len := UDP_OFF_END |} :: c).

(** The local [payload] array after the reply has been prepared in it. *)
Definition icmp_buffer (ip : ipv4) (icmp_len : Z) : option bytes :=
  b ← memcpy (uninit BUFFER_SIZE) 0 (ip_payload ip) 0 icmp_len;
  b ← WRITE_NET8 b 0 0;
  b ← WRITE_NET16 b 2 0x0000;
  sum ← calc_checksum b icmp_len;
  WRITE_NET16 b 2 sum.

Definition process_icmp (ip : ipv4) : M world Z :=
  let icmp_len := ip_total_len ip - ip_header_len ip in
  let* b := mem (icmp_buffer ip icmp_len) in
  let* _ := send_ipv4 (ip_src ip) IPV4_PROTOCOL_ICMP [{| p_ptr := b; p_len := u16 icmp_len |}] in
  ret 0.
End code.

(** ** The IPv4 header *)

Section header.
Context `{Env}.

(** The fields up to the checksum, and a header with checksum [c]. *)
Definition ip_fields (total_len id protocol : Z) : bytes :=
  [0x45; 0; u16 total_len / 256; u16 total_len mod 256; u16 id / 256; u16 id mod 256;
   0; 0; 128; u8 protocol].
Definition ip_hdr_with (c : Z) (src dst : bytes) (protocol id total_len : Z) : bytes :=
  ip_fields total_len id protocol ++ [c / 256; c mod 256] ++ src ++ dst.
Definition ip_hdr (src dst : bytes) (protocol id total_len : Z) : bytes :=
  ip_hdr_with (rfc1071 (ip_hdr_with 0 src dst protocol id total_len)) src dst protocol id total_len.

Lemma ip_fields_ok total_len id protocol :
  zlen (ip_fields total_len id protocol) = 10 /\ is_bytes (ip_fields total_len id protocol).
Proof.
  split; [done|]. unfold ip_fields.
  change [0x45; 0; u16 total_len / 256; u16 total_len mod 256; u16 id / 256; u16 id mod 256;
          0; 0; 128; u8 protocol]
    with ([0x45; 0] ++ [u16 total_len / 256; u16 total_len mod 256] ++
          [u16 id / 256; u16 id mod 256] ++ [0; 0; 128] ++ [u8 protocol]).
  repeat apply Forall_app_2; try (apply hi_lo_bytes, u16_range);
    try (repeat constructor; unfold is_u8; lia).
  constructor; [apply u8_range|constructor].
Qed.

Lemma ip_hdr_with_ok c src dst protocol id total_len :
  is_u16 c -> is_ip src -> is_ip dst ->
  zlen (ip_hdr_with c src dst protocol id total_len) = 20 /\
  is_bytes (ip_hdr_with c src dst protocol id total_len).
Proof.
  intros Hc [Ls Hs] [Ld Hd]. destruct (ip_fields_ok total_len id protocol) as [Lf Hf]. split.
  - unfold ip_hdr_with. rewrite !zlen_app, Lf. unfold zlen. rewrite Ls, Ld. done.
  - unfold ip_hdr_with. repeat apply Forall_app_2; try done. by apply hi_lo_bytes.
Qed.

Lemma ip_hdr_checksum_range src dst protocol id total_len :
  is_ip src -> is_ip dst -> is_u16 (rfc1071 (ip_hdr_with 0 src dst protocol id total_len)).
Proof. intros. by apply rfc1071_range, ip_hdr_with_ok. Qed.

Lemma ip_hdr_ok src dst protocol id total_len :
  is_ip src -> is_ip dst ->
  zlen (ip_hdr src dst protocol id total_len) = 20 /\
  is_bytes (ip_hdr src dst protocol id total_len).
Proof. intros. apply ip_hdr_with_ok; try done. by apply ip_hdr_checksum_range. Qed.

Lemma ipv4_header_eq src dst protocol id total_len :
  is_ip src -> is_ip dst ->
  ipv4_header src dst protocol id total_len = Some (ip_hdr src dst protocol id total_len).
Proof.
  intros Hs Hd. pose proof (ip_hdr_checksum_range src dst protocol id total_len Hs Hd) as Hr.
  destruct (ip_hdr_with_ok 0 src dst protocol id total_len) as [Hz Hb]; try done.
  pose proof (calc_checksum_even (ip_hdr_with 0 src dst protocol id total_len) []
    Hb) as Hck. rewrite Hz, app_nil_r in Hck.
  specialize (Hck eq_refl ltac:(unfold sum_fits; lia)).
  unfold ip_hdr. revert Hr Hck. generalize (rfc1071 (ip_hdr_with 0 src dst protocol id total_len)).
  intros ck Hr Hck. destruct Hs as [(a & b & c & d & ->)%length_4_inv _].
  destruct Hd as [(a' & b' & c' & d' & ->)%length_4_inv _].
  unfold ipv4_header. rewrite WRITE_NET8_put. omem. rewrite WRITE_NET8_put. omem.
  rewrite WRITE_NET16_put. omem. rewrite WRITE_NET16_put. omem. rewrite WRITE_NET16_put. omem.
  rewrite WRITE_NET8_put. omem. rewrite WRITE_NET8_put. omem. rewrite WRITE_NET16_put. omem.
  etransitivity; [apply obind_Some, Hck|]. cbv beta.
  rewrite WRITE_NET16_put, (u16_id ck) by done. reflexivity.
Qed.

(** The header [send_ipv4_ex] puts on the wire passes the receiver's
    ones'-complement check, for every source, destination, protocol, identification
    and length. *)
Theorem ipv4_header_valid src dst protocol id total_len h :
  is_ip src -> is_ip dst -> ipv4_header src dst protocol id total_len = Some h ->
  rfc1071_valid h.
Proof.
  intros Hs Hd Hh. rewrite ipv4_header_eq in Hh by done. simplify_eq.
  destruct (ip_fields_ok total_len id protocol) as [Lf Hf]. unfold ip_hdr.
  apply rfc1071_store; [done|apply Forall_app_2; [apply Hs|apply Hd]|by rewrite Lf|done].
Qed.

(** Parsing what [send_ipv4_ex] built recovers version 4, a 20-byte header, the
    length, identification, protocol and both addresses, no fragmentation, TTL 128,
    and the payload that follows. *)
Theorem parse_ipv4_roundtrip e src dst protocol id total_len h data :
  is_ip src -> is_ip dst -> is_u8 protocol -> is_u16 id -> is_u16 total_len ->
  ipv4_header src dst protocol id total_len = Some h -> ef_payload e = h ++ data ->
  exists ck, parse_ipv4 e =
    Some {| ip_ether := e; ip_version := 4; ip_header_len := 20; ip_dscp := 0; ip_ecn := 0;
            ip_total_len := total_len; ip_identification := id; ip_flags := 0;
            ip_fragment_offset := 0; ip_ttl := 128; ip_protocol := protocol;
            ip_checksum := ck; ip_src := src; ip_dst := dst; ip_payload := data |}.
Proof.
  intros Hs Hd Hp Hid Htl Hh He. rewrite ipv4_header_eq in Hh by done. simplify_eq.
  pose proof (ip_hdr_checksum_range src dst protocol id total_len Hs Hd) as Hr.
  exists (rfc1071 (ip_hdr_with 0 src dst protocol id total_len)).
  unfold parse_ipv4. rewrite He. unfold ip_hdr. revert Hr.
  generalize (rfc1071 (ip_hdr_with 0 src dst protocol id total_len)). intros ck Hr.
  destruct Hs as [(a & b & c & d & ->)%length_4_inv _].
  destruct Hd as [(a' & b' & c' & d' & ->)%length_4_inv _].
  unfold ip_hdr_with, ip_fields. rewrite !(u16_id total_len), !(u16_id id), u8_id by done.
  simpl app. rewrite !READ_NET8_eq.
  rewrite !mem_get_Some by (consts; zlia).
  rewrite (READ_NET16_get _ IPV4_OFF_TOTAL_LEN (total_len / 256) (total_len mod 256));
    [|by auto with lanplay..|rewrite mem_get_Some by (consts; zlia); reflexivity].
  rewrite (READ_NET16_get _ IPV4_OFF_ID (id / 256) (id mod 256));
    [|by auto with lanplay..|rewrite mem_get_Some by (consts; zlia); reflexivity].
  rewrite (READ_NET16_get _ IPV4_OFF_FLAGS_FRAG_OFFSET 0 0);
    [|unfold is_u8; lia..|rewrite mem_get_Some by (consts; zlia); reflexivity].
  rewrite (READ_NET16_get _ IPV4_OFF_CHECKSUM (ck / 256) (ck mod 256));
    [|by auto with lanplay..|rewrite mem_get_Some by (consts; zlia); reflexivity].
  cbn -[Z.div Z.modulo Z.mul Z.add]. rewrite !hi_lo_val. reflexivity.
Qed.
End header.

(** ** Sending a datagram *)

Section send_ip.
Context `{Env}.

Definition bump_id (w : world) : world :=
  set_w_lp (set_lp_packet_ctx
    (set_pc_identification (u16 (pc_identification (pctx w) + 1)) (pctx w)) (w_lp w)) w.

Lemma bump_id_ctx_ok w : ctx_ok (pctx w) -> ctx_ok (pctx (bump_id w)).
Proof. intros []. constructor; try done. apply u16_range. Qed.

(** The datagram sent for a chain. *)
Definition datagram (src dst : bytes) (protocol : Z) (c : payload) (w : world) : bytes :=
  ip_hdr src dst protocol (pc_identification (pctx w)) (20 + zlen (chain_data c)) ++ chain_data c.

Lemma send_ipv4_ex_run src dst protocol c w :
  ctx_ok (pctx w) -> is_ip src -> is_ip dst -> wf_payload c ->
  34 + zlen (chain_data c) < BUFFER_SIZE ->
  let w1 := bump_id w in
  send_ipv4_ex src dst protocol c w =
    match arp_find (pc_arp_list (pctx w)) dst (now_at w) with
    | Some i =>
        let frame := framed (ai_mac i) ETHER_TYPE_IPV4 (datagram src dst protocol c w) w in
        Ok (env_pcap_sendpacket (S (w_ticks w)) frame) (transmitted frame (tick w1))
    | None => Ok 0 (transmitted (who_has dst w) (tick w1))
    end.
Proof.
  intros Hc Hs Hd Hp Hl w1. pose proof (bump_id_ctx_ok w Hc) as Hc1. fold w1 in Hc1.
  unfold send_ipv4_ex. unfold bind at 1. unfold gets at 1.
  rewrite (bind_ok _ _ _ tt w1) by done.
  rewrite payload_total_len_spec, u16_id by (try done; unfold is_u16; consts; zlia).
  rewrite ipv4_header_eq by done. rewrite (bind_ok _ _ _ _ w1) by done.
  unfold bind. rewrite arp_get_mac_by_ip_run by done. unfold resolved.
  change (now_at w1) with (now_at w).
  change (pc_arp_list (pctx w1)) with (pc_arp_list (pctx w)).
  destruct (arp_find _ _ _) as [i|] eqn:Ef; [|done].
  destruct (ip_hdr_ok src dst protocol (pc_identification (pctx w))
              (20 + zlen (chain_data c))) as [Hz Hb]; try done.
  change (IPV4_HEADER_LEN + zlen (chain_data c)) with (20 + zlen (chain_data c)).
  rewrite (whole_eq _ IPV4_HEADER_LEN) by done.
  apply arp_find_live in Ef as (Hin & _ & _).
  assert (Hm : is_mac (ai_mac i)).
  { destruct (ctx_arp _ Hc) as [_ Hf]. rewrite Forall_forall in Hf.
    by apply Hf. }
  rewrite send_ether_ok; rewrite ?chain_data_whole; try apply Hm; try apply Hc1.
  - done.
  - constructor; [by apply wf_whole|done].
  - apply ctx_ok_buffer_ok, Hc1.
  - change (pctx (tick w1)) with (pctx w1). rewrite (ctx_buffer_len _ Hc1), zlen_app, Hz. lia.
Qed.

(** [send_ipv4_ex] on a payload that fits.  If the destination is in the ARP
    cache, one frame goes to its hardware address: an IPv4 header with the current
    identification, then the payload.  If it is not, the payload is dropped, one ARP
    request is broadcast instead, and the result is still 0.  The identification
    advances modulo 2^16 in both cases. *)
Theorem send_ipv4_ex_spec src dst protocol c w :
  ctx_ok (pctx w) -> is_ip src -> is_ip dst -> wf_payload c ->
  34 + zlen (chain_data c) < BUFFER_SIZE ->
  let w1 := bump_id w in
  send_ipv4_ex src dst protocol c w =
    match arp_find (pc_arp_list (pctx w)) dst (now_at w) with
    | Some i =>
        let frame := framed (ai_mac i) ETHER_TYPE_IPV4 (datagram src dst protocol c w) w in
        Ok (env_pcap_sendpacket (S (w_ticks w)) frame) (transmitted frame (tick w1))
    | None => Ok 0 (transmitted (who_has dst w) (tick w1))
    end.
Proof. apply send_ipv4_ex_run. Qed.
End send_ip.

(** ** UDP *)

Section udp.
Context `{Env}.

(** The pseudo header of RFC 768 and the UDP header with checksum [ck]. *)
Definition pseudo_hdr (src dst : bytes) (len : Z) : bytes :=
  src ++ dst ++ [0; 17; u16 len / 256; u16 len mod 256].
Definition udp_fields (srcport dstport len : Z) : bytes :=
  [u16 srcport / 256; u16 srcport mod 256] ++ [u16 dstport / 256; u16 dstport mod 256] ++
  [u16 len / 256; u16 len mod 256].
Definition udp_hdr (ck srcport dstport len : Z) : bytes :=
  udp_fields srcport dstport len ++ [ck / 256; ck mod 256].

Lemma pseudo_hdr_ok src dst len :
  is_ip src -> is_ip dst -> zlen (pseudo_hdr src dst len) = 12 /\ is_bytes (pseudo_hdr src dst len).
Proof.
  intros [Ls Hs] [Ld Hd]. split.
  - unfold pseudo_hdr, zlen. rewrite !length_app, Ls, Ld. done.
  - unfold pseudo_hdr. repeat apply Forall_app_2; try done.
    change [0; 17; u16 len / 256; u16 len mod 256] with ([0; 17] ++ [u16 len / 256; u16 len mod 256]).
    apply Forall_app_2; [repeat constructor; unfold is_u8; lia|apply hi_lo_bytes, u16_range].
Qed.

Lemma udp_fields_ok sp dp len :
  zlen (udp_fields sp dp len) = 6 /\ is_bytes (udp_fields sp dp len).
Proof.
  split; [done|]. unfold udp_fields. repeat apply Forall_app_2; apply hi_lo_bytes, u16_range.
Qed.

Lemma udp_hdr_ok ck sp dp len :
  is_u16 ck -> zlen (udp_hdr ck sp dp len) = 8 /\ is_bytes (udp_hdr ck sp dp len).
Proof.
  intros Hc. split; [done|]. apply Forall_app_2; [apply udp_fields_ok|by apply hi_lo_bytes].
Qed.

Lemma udp_header_run src sp dst dp c p :
  is_ip src -> is_ip dst -> wf_payload (c ++ [p]) ->
  Forall (fun q => Z.even (p_len q) = true) c ->
  zlen (chain_data (c ++ [p])) <= 0xffff - 28 ->
  let data := chain_data (c ++ [p]) in
  let len := 8 + zlen data in
  exists ck, is_u16 ck /\
    udp_header src sp dst dp (c ++ [p]) = Some (udp_hdr ck sp dp len) /\
    rfc1071_valid (pseudo_hdr src dst len ++ udp_hdr ck sp dp len ++ data).
Proof.
  intros Hs Hd Hwf He Hl data len.
  destruct (pseudo_hdr_ok src dst len) as [Zp Bp]; try done.
  destruct (udp_hdr_ok 0 sp dp len) as [Zu Bu]; [unfold is_u16; lia|].
  destruct (udp_fields_ok sp dp len) as [Zf Bf].
  pose proof (chain_data_is_bytes _ Hwf) as Bd. fold data in Bd.
  set (msg := pseudo_hdr src dst len ++ udp_hdr 0 sp dp len ++ data).
  assert (Bm : is_bytes msg) by (apply Forall_app_2; [done|by apply Forall_app_2]).
  assert (Hck : calc_payload_checksum
    (whole (pseudo_hdr src dst len) :: whole (udp_hdr 0 sp dp len) :: c ++ [p]) =
    Some (rfc1071 msg)).
  { pose proof (calc_payload_checksum_even
      (whole (pseudo_hdr src dst len) :: whole (udp_hdr 0 sp dp len) :: c) p) as Hc.
    cbn [app] in Hc. rewrite !chain_data_whole in Hc. fold data in Hc. apply Hc.
    - do 2 (constructor; [by apply wf_whole|]). done.
    - constructor; [cbn [whole p_len]; by rewrite Zp|].
      constructor; [cbn [whole p_len]; by rewrite Zu|done].
    - unfold sum_fits. rewrite !zlen_app, Zp, Zu. fold data in Hl. lia. }
  exists (rfc1071 msg). pose proof (rfc1071_range msg Bm) as Hr. split; [done|]. split.
  - revert Hck Hr. generalize (rfc1071 msg). intros ck Hck Hr.
    unfold udp_header. rewrite payload_total_len_spec by done. fold data.
    rewrite (u16_id (zlen data)) by (unfold is_u16; fold data in Hl; zlia).
    change (UDP_OFF_END + zlen data) with len.
    destruct Hs as [(a & b & c' & d & ->)%length_4_inv _].
    destruct Hd as [(a' & b' & c'' & d' & ->)%length_4_inv _].
    rewrite !(u16_id len) by (unfold len, is_u16; fold data in Hl; zlia).
    rewrite WRITE_NET16_put. omem. rewrite WRITE_NET16_put. omem.
    rewrite WRITE_NET16_put. omem. rewrite WRITE_NET16_put. omem.
    rewrite WRITE_NET8_put. omem. rewrite WRITE_NET8_put. omem. rewrite WRITE_NET16_put. omem.
    etransitivity; [apply obind_Some, Hck|]. cbv beta.
    rewrite WRITE_NET16_put, (u16_id ck) by done. reflexivity.
  - unfold udp_hdr. rewrite <- !app_assoc, !(app_assoc (pseudo_hdr _ _ _)).
    apply rfc1071_store; [by apply Forall_app_2|done|by rewrite zlen_app, Zp, Zf|].
    unfold msg, udp_hdr. by rewrite <- !app_assoc.
Qed.

(** The UDP datagram [send_udp_ex] builds carries a checksum that the receiver
    accepts over the pseudo header, the header and the data, provided every part of
    the payload but the last has even length, up to the largest payload a datagram
    can carry; the header holds both ports and the length. *)
Theorem udp_header_valid src sp dst dp c p :
  is_ip src -> is_ip dst -> wf_payload (c ++ [p]) ->
  Forall (fun q => Z.even (p_len q) = true) c ->
  zlen (chain_data (c ++ [p])) <= 0xffff - 28 ->
  let data := chain_data (c ++ [p]) in
  let len := 8 + zlen data in
  exists ck, is_u16 ck /\
    udp_header src sp dst dp (c ++ [p]) = Some (udp_hdr ck sp dp len) /\
    rfc1071_valid (pseudo_hdr src dst len ++ udp_hdr ck sp dp len ++ data).
Proof. apply udp_header_run. Qed.

(** The datagram in a frame to the address the cache holds, or a request for it. *)
Lemma send_udp_ex_run src sp dst dp data w :
  ctx_ok (pctx w) -> is_ip src -> is_ip dst -> is_bytes data -> 42 + zlen data < BUFFER_SIZE ->
  exists ck, is_u16 ck /\
    rfc1071_valid (pseudo_hdr src dst (8 + zlen data) ++ udp_hdr ck sp dp (8 + zlen data) ++ data) /\
    send_udp_ex src sp dst dp [whole data] w =
      match arp_find (pc_arp_list (pctx w)) dst (now_at w) with
      | Some i =>
          let pkt := ip_hdr src dst IPV4_PROTOCOL_UDP (pc_identification (pctx w)) (28 + zlen data) ++
                     udp_hdr ck sp dp (8 + zlen data) ++ data in
          let frame := framed (ai_mac i) ETHER_TYPE_IPV4 pkt w in
          Ok (env_pcap_sendpacket (S (w_ticks w)) frame) (transmitted frame (tick (bump_id w)))
      | None => Ok 0 (transmitted (who_has dst w) (tick (bump_id w)))
      end.
Proof.
  intros Hc Hs Hd Hb Hl. change BUFFER_SIZE with 2048 in Hl.
  assert (Ed : chain_data [whole data] = data) by (rewrite chain_data_whole; apply app_nil_r).
  destruct (udp_header_run src sp dst dp [] (whole data)) as (ck & Hck & Eh & Hv); try done;
    [by constructor; [apply wf_whole|]|cbn [app]; rewrite Ed; lia|].
  cbn [app] in Eh, Hv. rewrite Ed in Eh, Hv. exists ck. split; [done|]. split; [done|].
  unfold send_udp_ex. rewrite Eh. rewrite (bind_ok _ _ _ _ w) by done.
  destruct (udp_hdr_ok ck sp dp (8 + zlen data) Hck) as [Lh Bh].
  rewrite (whole_eq _ UDP_OFF_END) by done.
  rewrite send_ipv4_ex_run; try done.
  - unfold datagram. rewrite chain_data_whole, Ed, zlen_app, Lh.
    by replace (20 + (8 + zlen data)) with (28 + zlen data) by lia.
  - constructor; [by apply wf_whole|]. constructor; [by apply wf_whole|done].
  - rewrite chain_data_whole, Ed, zlen_app, Lh. change BUFFER_SIZE with 2048. lia.
Qed.
End udp.

(** ** ICMP echo *)

Section icmp.
Context `{Env}.

(** The echo reply for an ICMP message [type, code, checksum, rest]. *)
Definition echo_reply (ck code : Z) (rest : bytes) : bytes :=
  [0; code] ++ [ck / 256; ck mod 256] ++ rest.

Lemma echo_head_bytes code : is_u8 code -> is_bytes [0; code].
Proof. intros. constructor; [unfold is_u8; lia|by constructor]. Qed.

Lemma echo_reply_bytes ck code rest :
  is_u16 ck -> is_u8 code -> is_bytes rest -> is_bytes (echo_reply ck code rest).
Proof.
  intros. apply Forall_app_2; [by apply echo_head_bytes|].
  apply Forall_app_2; [by apply hi_lo_bytes|done].
Qed.

Lemma echo_reply_even ck code rest :
  Z.even (zlen rest) = true -> Z.even (zlen (echo_reply ck code rest)) = true.
Proof.
  intros. replace (zlen (echo_reply ck code rest)) with (zlen rest + 2 * 2)
    by (unfold echo_reply; zlens; lia).
  by rewrite Z.even_add_mul_2.
Qed.

(** The checksum field and an odd last byte in the sum of the words. *)
Lemma echo_reply_total ck code rest a :
  Z.even (zlen rest) = true ->
  words_total (echo_reply ck code (rest ++ [a])) =
    words_total (echo_reply 0 code rest) + ck + 256 * a.
Proof.
  intros He. replace (echo_reply ck code (rest ++ [a])) with (echo_reply ck code rest ++ [a])
    by (unfold echo_reply; by rewrite <- !app_assoc).
  rewrite words_total_app by (by apply echo_reply_even).
  unfold echo_reply, words_total. simpl. rewrite !hi_lo_val. lia.
Qed.

(** Preparing the reply in the local array: the message with type 0 and a fresh
    checksum, followed by whatever the array held. *)
Lemma icmp_buffer_eq ip ty code c1 c2 rest more ck :
  ip_payload ip = ([ty; code; c1; c2] ++ rest) ++ more ->
  4 + zlen rest <= BUFFER_SIZE -> is_u16 ck ->
  (forall post, calc_checksum (echo_reply 0 code rest ++ post) (4 + zlen rest) = Some ck) ->
  exists post, icmp_buffer ip (4 + zlen rest) = Some (echo_reply ck code rest ++ post) /\
               is_bytes post.
Proof.
  intros Hp Hl Hk Hck. unfold icmp_buffer, memcpy. rewrite Hp.
  assert (Hz : zlen ([ty; code; c1; c2] ++ rest) = 4 + zlen rest) by (zlens; lia).
  rewrite <- Hz, mem_get_Some by zlia.
  change (Z.to_nat 0) with 0%nat. rewrite drop_0, to_nat_zlen, take_app_length.
  cbn [mbind option_bind].
  rewrite mem_put_Some by (rewrite ?Hz, ?zlen_uninit; consts; zlia).
  cbn [mbind option_bind]. change (Z.to_nat 0) with 0%nat. rewrite take_0. simpl app at 1.
  assert (Hpost : is_bytes (drop (0 + length ([ty; code; c1; c2] ++ rest)) (uninit BUFFER_SIZE)))
    by apply Forall_drop, uninit_is_bytes.
  set (post := drop _ (uninit BUFFER_SIZE)) in *. exists post. split; [|done].
  rewrite WRITE_NET8_put.
  assert (W1 : forall x, mem_put (ty :: code :: c1 :: c2 :: rest ++ post) 0 [x] =
               Some (x :: code :: c1 :: c2 :: rest ++ post)).
  { intros. rewrite mem_put_Some by zlia. reflexivity. }
  assert (W2 : forall y a b x z, mem_put (y :: code :: x :: z :: rest ++ post) 2 [a; b] =
               Some (y :: code :: a :: b :: rest ++ post)).
  { intros. rewrite mem_put_Some by zlia. reflexivity. }
  simpl app. rewrite W1. cbn [mbind option_bind]. rewrite WRITE_NET16_put, W2.
  simpl app in Hz. cbn [mbind option_bind]. rewrite Hz. change (u8 0) with 0.
  change (u16 0 / 256) with 0. change (u16 0 mod 256) with 0.
  change (0 :: code :: 0 :: 0 :: rest ++ post) with (echo_reply 0 code rest ++ post).
  rewrite Hck.
  cbn [mbind option_bind]. unfold echo_reply. simpl app.
  by rewrite WRITE_NET16_put, W2, u16_id.
Qed.

Lemma icmp_reply_even ip ty code c1 c2 rest more :
  ip_payload ip = ([ty; code; c1; c2] ++ rest) ++ more ->
  is_bytes ([ty; code; c1; c2] ++ rest) ->
  Z.even (zlen rest) = true -> 4 + zlen rest <= BUFFER_SIZE ->
  exists ck post, icmp_buffer ip (4 + zlen rest) = Some (echo_reply ck code rest ++ post) /\
    is_bytes (echo_reply ck code rest) /\ is_bytes post /\
    rfc1071_valid (echo_reply ck code rest).
Proof.
  intros Hp [Hb Hr]%Forall_app He Hl.
  assert (Hcode : is_u8 code) by (apply Forall_cons in Hb as [_ [? _]%Forall_cons]; done).
  pose proof (echo_reply_bytes 0 code rest ltac:(unfold is_u16; lia) Hcode Hr) as Hm.
  pose proof (rfc1071_range _ Hm) as Hk. exists (rfc1071 (echo_reply 0 code rest)).
  destruct (icmp_buffer_eq ip ty code c1 c2 rest more (rfc1071 (echo_reply 0 code rest)))
    as (post & E & Hpost); try done.
  - intros post. replace (4 + zlen rest) with (zlen (echo_reply 0 code rest))
      by (unfold echo_reply; zlens; lia).
    apply calc_checksum_even; [done|by apply echo_reply_even|].
    unfold echo_reply, sum_fits. zlens. consts. lia.
  - exists post. split_and!; [done|by apply echo_reply_bytes|done|]. unfold echo_reply.
    apply rfc1071_store; [by apply echo_head_bytes|done..].
Qed.

(** An ICMP message of even length addressed to the client, small enough for
    the buffers, is answered with the message with type 0 and a checksum the
    receiver accepts, in one datagram to its sender; if the sender's hardware
    address is not cached, an ARP request is sent in its place. *)
Theorem process_icmp_spec ip ty code c1 c2 rest more w :
  ctx_ok (pctx w) -> is_ip (ip_src ip) ->
  ip_payload ip = ([ty; code; c1; c2] ++ rest) ++ more ->
  is_bytes ([ty; code; c1; c2] ++ rest) ->
  ip_total_len ip - ip_header_len ip = 4 + zlen rest ->
  Z.even (zlen rest) = true -> 38 + zlen rest < BUFFER_SIZE ->
  exists ck, rfc1071_valid (echo_reply ck code rest) /\
    process_icmp ip w =
      let w1 := tick (bump_id w) in
      let reply := [whole (echo_reply ck code rest)] in
      match arp_find (pc_arp_list (pctx w)) (ip_src ip) (now_at w) with
      | Some i =>
          Ok 0 (transmitted (framed (ai_mac i) ETHER_TYPE_IPV4
            (datagram (pc_ip (pctx w)) (ip_src ip) IPV4_PROTOCOL_ICMP reply w) w) w1)
      | None => Ok 0 (transmitted (who_has (ip_src ip) w) w1)
      end.
Proof.
  intros Hc Hs Hp Hb Hlen He Hl.
  destruct (icmp_reply_even ip ty code c1 c2 rest more) as (ck & post & E & Hm & Hpost & Hv);
    [done..|lia|]. exists ck. split; [done|].
  unfold process_icmp. rewrite Hlen, E. rewrite (bind_ok _ _ _ (echo_reply ck code rest ++ post) w)
    by done.
  assert (Hz : zlen (echo_reply ck code rest) = 4 + zlen rest) by (unfold echo_reply; zlens; lia).
  assert (Hd : chain_data [{| p_ptr := echo_reply ck code rest ++ post; p_len := u16 (4 + zlen rest) |}]
    = chain_data [whole (echo_reply ck code rest)]).
  { rewrite chain_data_whole, chain_data_cons. unfold part_data. cbn [p_ptr p_len].
    rewrite u16_id by (unfold is_u16; consts; zlia). f_equal.
    by rewrite <- Hz, to_nat_zlen, take_app_length. }
  unfold send_ipv4, bind, gets. rewrite send_ipv4_ex_run; [|done|apply Hc|done| |].
  - unfold datagram. rewrite Hd. by destruct (arp_find _ _ _).
  - constructor; [|constructor]. split; [|by apply Forall_app_2]. cbn [p_ptr p_len].
    rewrite u16_id by (unfold is_u16; consts; zlia). zlia.
  - rewrite Hd, chain_data_whole. unfold chain_data. simpl concat. zlia.
Qed.

(** For an ICMP message of odd length the reply's checksum is wrong unless the
    last byte is zero: [calc_checksum] adds the last byte to the low half of the sum,
    while the receiver pads it on the right. *)
Theorem icmp_reply_odd ip ty code c1 c2 rest a more :
  ip_payload ip = ([ty; code; c1; c2] ++ (rest ++ [a])) ++ more ->
  is_bytes ([ty; code; c1; c2] ++ (rest ++ [a])) ->
  Z.even (zlen rest) = true -> 4 + zlen (rest ++ [a]) <= BUFFER_SIZE ->
  exists ck post,
    icmp_buffer ip (4 + zlen (rest ++ [a])) = Some (echo_reply ck code (rest ++ [a]) ++ post) /\
    (rfc1071_valid (echo_reply ck code (rest ++ [a])) <-> a = 0).
Proof.
  intros Hp [Hb Hra]%Forall_app He Hl. pose proof Hra as [Hr Ha]%Forall_app.
  apply Forall_cons in Ha as [Ha _].
  assert (Hcode : is_u8 code) by (apply Forall_cons in Hb as [_ [? _]%Forall_cons]; done).
  pose proof (echo_reply_bytes 0 code rest ltac:(unfold is_u16; lia) Hcode Hr) as Hm.
  pose proof (echo_reply_even 0 code rest He) as Hev.
  set (T := words_total (echo_reply 0 code rest)).
  pose proof (words_total_range _ Hm) as HT. fold T in HT. unfold is_u8 in Ha.
  set (ck := 0xffff - oc_norm (T + a)).
  assert (Hk : is_u16 ck)
    by (unfold ck, is_u16; pose proof (oc_norm_range (T + a)); lia).
  exists ck. rewrite zlen_app in Hl. change (zlen [a]) with 1 in Hl.
  destruct (icmp_buffer_eq ip ty code c1 c2 (rest ++ [a]) more ck) as (post & E & Hpost); try done.
  - rewrite zlen_app. change (zlen [a]) with 1. lia.
  - intros post. replace (echo_reply 0 code (rest ++ [a])) with (echo_reply 0 code rest ++ [a])
      by (unfold echo_reply; by rewrite <- !app_assoc).
    replace (4 + zlen (rest ++ [a])) with (zlen (echo_reply 0 code rest) + 1)
      by (unfold echo_reply; zlens; lia).
    apply calc_checksum_odd; [apply Forall_app_2; [done|by constructor]|done|].
    unfold sum_fits, echo_reply. zlens. consts. lia.
  - exists post. split; [done|].
    rewrite rfc1071_valid_norm by (by apply echo_reply_bytes).
    rewrite echo_reply_total by done. fold T. unfold ck. apply low_half_invalid; [lia|done].
Qed.

(** An ICMP message longer than the local array overruns it. *)
Theorem process_icmp_overflow ip w :
  BUFFER_SIZE < ip_total_len ip - ip_header_len ip -> process_icmp ip w = Stop Oob.
Proof.
  intros Hl. unfold process_icmp. apply bind_stop.
  assert (En : icmp_buffer ip (ip_total_len ip - ip_header_len ip) = None); [|by rewrite En].
  unfold icmp_buffer, memcpy. destruct (mem_get _ _ _) as [b|] eqn:E; [|done].
  apply mem_get_zlen in E. cbn [mbind option_bind].
  rewrite mem_put_None; [done|]. rewrite zlen_uninit by (consts; lia). lia.
Qed.
End icmp.

(** ** What the parsers read

    For a header that is there, each field and where it comes from; a packet too short
    for its header is not parsed. *)

Section fields.
Context `{Env}.

Lemma land_nibble b : is_u8 b -> 0 <= Z.land b 15 < 16.
Proof. intros Hb. change 15 with (Z.ones 4). rewrite Z.land_ones by lia. apply Z.mod_pos_bound. lia. Qed.

Lemma parse_ipv4_fields e :
  is_bytes (ef_payload e) -> 20 <= zlen (ef_payload e) ->
  exists b prot ip, parse_ipv4 e = Some ip /\ READ_NET8 (ef_payload e) 0 = Some b /\ READ_NET8 (ef_payload e) 9 = Some prot /\
    mem_get (ef_payload e) 12 4 = Some (ip_src ip) /\ mem_get (ef_payload e) 16 4 = Some (ip_dst ip) /\
    is_u8 b /\ ip_version ip = Z.shiftr b 4 /\
    ip_header_len ip = Z.land b 15 * 4 /\ ip_protocol ip = prot /\
    ip_payload ip = drop (Z.to_nat (Z.land b 15 * 4)) (ef_payload e) /\ is_ip (ip_dst ip).
Proof.
  intros Hb Hl. unfold parse_ipv4. set (p := ef_payload e) in *.
  destruct (READ_NET8_total p IPV4_OFF_VER_LEN) as (b & E0 & B0); [done|consts; lia..|].
  destruct (READ_NET8_total p IPV4_OFF_DSCP_ECN) as (x1 & E1 & _); [done|consts; lia..|].
  destruct (READ_NET16_total p IPV4_OFF_TOTAL_LEN) as (x2 & E2 & _); [done|consts; lia..|].
  destruct (READ_NET16_total p IPV4_OFF_ID) as (x3 & E3 & _); [done|consts; lia..|].
  destruct (READ_NET16_total p IPV4_OFF_FLAGS_FRAG_OFFSET) as (x4 & E4 & _); [done|consts; lia..|].
  destruct (READ_NET8_total p IPV4_OFF_TTL) as (x5 & E5 & _); [done|consts; lia..|].
  destruct (READ_NET8_total p IPV4_OFF_PROTOCOL) as (prot & E6 & _); [done|consts; lia..|].
  destruct (READ_NET16_total p IPV4_OFF_CHECKSUM) as (x7 & E7 & _); [done|consts; lia..|].
  destruct (mem_get_total p IPV4_OFF_SRC 4) as (s & E8 & _); [done|consts; lia..|].
  destruct (mem_get_total p IPV4_OFF_DST 4) as (d & E9 & Ld & Bd); [done|consts; lia..|].
  rewrite E0, E1, E2, E3, E4, E5, E6, E7, E8, E9. cbn [mbind option_bind].
  exists b, prot. eexists. split; [reflexivity|]. split_and!; first [exact E0|exact E6|exact E8|exact E9|exact Ld|done].
Qed.

Lemma parse_udp_fields ip :
  is_bytes (ip_payload ip) -> 8 <= zlen (ip_payload ip) ->
  exists u, parse_udp ip = Some u /\ READ_NET16 (ip_payload ip) 0 = Some (udp_srcport u) /\
    READ_NET16 (ip_payload ip) 2 = Some (udp_dstport u) /\
    READ_NET16 (ip_payload ip) 4 = Some (udp_length u) /\ udp_ipv4 u = ip /\
    udp_payload u = drop 8 (ip_payload ip) /\ is_u16 (udp_dstport u).
Proof.
  intros Hb Hl. unfold parse_udp. set (p := ip_payload ip) in *.
  destruct (READ_NET16_total p UDP_OFF_SRCPORT) as (x1 & E1 & _); [done|consts; lia..|].
  destruct (READ_NET16_total p UDP_OFF_DSTPORT) as (x2 & E2 & B2); [done|consts; lia..|].
  destruct (READ_NET16_total p UDP_OFF_LENGTH) as (x3 & E3 & _); [done|consts; lia..|].
  destruct (READ_NET16_total p UDP_OFF_CHECKSUM) as (x4 & E4 & _); [done|consts; lia..|].
  rewrite E1, E2, E3, E4, mem_from_Some by (consts; lia). cbn [mbind option_bind].
  eexists. split; [reflexivity|]. split_and!; first [exact E1|exact E2|exact E3|exact B2|done].
Qed.

Lemma mem_get_drop (p : bytes) k o n :
  0 <= k <= zlen p -> 0 <= o -> mem_get (drop (Z.to_nat k) p) o n = mem_get p (k + o) n.
Proof.
  intros Hk Ho. unfold mem_get. rewrite zlen_drop by lia.
  rewrite drop_drop, <- Z2Nat.inj_add by lia.
  repeat match goal with |- context [?a <=? ?b] => destruct (Z.leb_spec a b) end; (done || lia).
Qed.

Lemma READ_NET16_drop (p : bytes) k o :
  0 <= k <= zlen p -> 0 <= o -> READ_NET16 (drop (Z.to_nat k) p) o = READ_NET16 p (k + o).
Proof. intros Hk Ho. unfold READ_NET16. by rewrite mem_get_drop. Qed.

Lemma parse_ipv4_short e : zlen (ef_payload e) < 20 -> parse_ipv4 e = None.
Proof.
  intros Hl. unfold parse_ipv4. rewrite (mem_get_None _ IPV4_OFF_DST 4) by (consts; lia).
  repeat match goal with |- context [?m ≫= _] => destruct m; [|done]; cbn [mbind option_bind] end.
  done.
Qed.

Lemma parse_udp_short ip : zlen (ip_payload ip) < 8 -> parse_udp ip = None.
Proof.
  intros Hl. unfold parse_udp, READ_NET16. rewrite (mem_get_None _ UDP_OFF_CHECKSUM 2) by (consts; lia).
  repeat match goal with |- context [mem_get ?p ?o ?n] => destruct (mem_get p o n); [|done] end.
  done.
Qed.
End fields.

(** ** Concrete runs *)

Definition demo_peer : bytes := [10; 13; 0; 5].
Lemma demo_peer_ok : is_ip demo_peer.
Proof. split; [done|bytes_tac]. Qed.
Lemma demo_our_ip_ok : is_ip [10; 13; 37; 1].
Proof. split; [done|bytes_tac]. Qed.

(** The client after hearing from the peer. *)
Definition demo_known : world := learned (H := demo_env) [2; 0; 0; 0; 0; 5] demo_peer demo_world.
Lemma demo_known_ok : ctx_ok (pctx demo_known).
Proof.
  apply learned_ctx_ok; [apply demo_ctx_ok|split; [done|bytes_tac]|apply demo_peer_ok].
Qed.

Definition demo_header : bytes :=
  [0x45; 0; 0; 24; 0; 7; 0; 0; 128; 17; 1; 175; 10; 13; 37; 1; 10; 13; 0; 5].

Lemma ipv4_header_valid_witness :
  ipv4_header (H := demo_env) [10; 13; 37; 1] demo_peer 17 7 24 = Some demo_header /\
  rfc1071_valid demo_header.
Proof.
  split; [reflexivity|].
  apply (ipv4_header_valid (H := demo_env) [10; 13; 37; 1] demo_peer 17 7 24);
    [apply demo_our_ip_ok|apply demo_peer_ok|reflexivity].
Defined.

Lemma parse_ipv4_roundtrip_witness :
  exists i, parse_ipv4 (H := demo_env) (demo_ether (demo_header ++ [1; 2; 3; 4])) = Some i /\
            ip_payload i = [1; 2; 3; 4].
Proof.
  destruct (parse_ipv4_roundtrip (H := demo_env) (demo_ether (demo_header ++ [1; 2; 3; 4]))
              [10; 13; 37; 1] demo_peer 17 7 24 demo_header [1; 2; 3; 4]) as [ck E];
    [apply demo_our_ip_ok|apply demo_peer_ok|unfold is_u8, is_u16; lia..|reflexivity|reflexivity|].
  eexists. split; [exact E|reflexivity].
Defined.

Lemma send_ipv4_ex_spec_witness :
  exists w', send_ipv4_ex (H := demo_env) [10; 13; 37; 1] demo_peer 17 [whole [1; 2; 3; 4]] demo_known
    = Ok 0 w' /\
    w_out w' = [EvFrame ([2; 0; 0; 0; 0; 5] ++ demo_mac ++ [8; 0] ++
      [0x45; 0; 0; 24; 0; 0; 0; 0; 128; 17; 1; 182; 10; 13; 37; 1; 10; 13; 0; 5] ++ [1; 2; 3; 4])].
Proof.
  eexists. split; [etransitivity;
    [apply (send_ipv4_ex_spec (H := demo_env) [10; 13; 37; 1] demo_peer 17 [whole [1; 2; 3; 4]]
              demo_known);
     [apply demo_known_ok|apply demo_our_ip_ok|apply demo_peer_ok|
      constructor; [apply wf_whole; bytes_tac|constructor]|reflexivity]|reflexivity]|].
  vm_compute. reflexivity.
Defined.

Lemma udp_header_valid_witness :
  exists ck, is_u16 ck /\
    udp_header (H := demo_env) [10; 13; 37; 1] 11451 demo_peer 11452 ([whole [1; 2]] ++ [whole [3]])
      = Some (udp_hdr ck 11451 11452 11) /\
    rfc1071_valid (pseudo_hdr [10; 13; 37; 1] demo_peer 11 ++ udp_hdr ck 11451 11452 11 ++ [1; 2; 3]).
Proof.
  apply (udp_header_valid (H := demo_env) [10; 13; 37; 1] 11451 demo_peer 11452
           [whole [1; 2]] (whole [3]));
    [apply demo_our_ip_ok|apply demo_peer_ok| |repeat constructor|vm_compute; discriminate].
  repeat (constructor; [apply wf_whole; bytes_tac|]). constructor.
Defined.

(** An echo request for the client, with [rest] after the checksum. *)
Definition demo_echo (rest : bytes) : ipv4 :=
  {| ip_ether := demo_ether []; ip_version := 4; ip_header_len := 20; ip_dscp := 0; ip_ecn := 0;
     ip_total_len := 24 + zlen rest; ip_identification := 0; ip_flags := 0;
     ip_fragment_offset := 0; ip_ttl := 64; ip_protocol := 1; ip_checksum := 0;
     ip_src := demo_peer; ip_dst := [10; 13; 37; 1]; ip_payload := [8; 0; 0; 0] ++ rest |}.

Lemma process_icmp_spec_witness :
  exists ck w', rfc1071_valid (echo_reply ck 0 [0; 1; 0; 2; 97; 98]) /\
    process_icmp (H := demo_env) (demo_echo [0; 1; 0; 2; 97; 98]) demo_known = Ok 0 w'.
Proof.
  destruct (process_icmp_spec (H := demo_env) (demo_echo [0; 1; 0; 2; 97; 98]) 8 0 0 0
              [0; 1; 0; 2; 97; 98] [] demo_known) as (ck & Hv & E);
    [apply demo_known_ok|apply demo_peer_ok|reflexivity|bytes_tac|reflexivity|reflexivity|
     reflexivity|].
  exists ck. eexists. split; [exact Hv|]. rewrite E. reflexivity.
Defined.

Lemma icmp_reply_odd_witness :
  exists ck post,
    icmp_buffer (H := demo_env) (demo_echo ([0; 1; 0; 2] ++ [97])) 9 =
      Some (echo_reply ck 0 [0; 1; 0; 2; 97] ++ post) /\
    ~ rfc1071_valid (echo_reply ck 0 [0; 1; 0; 2; 97]).
Proof.
  destruct (icmp_reply_odd (H := demo_env) (demo_echo ([0; 1; 0; 2] ++ [97])) 8 0 0 0
              [0; 1; 0; 2] 97 []) as (ck & post & E & Hv);
    [reflexivity|bytes_tac|reflexivity|vm_compute; discriminate|].
  exists ck, post. split; [exact E|]. intros Hx. apply Hv in Hx. discriminate Hx.
Defined.

Lemma process_icmp_overflow_witness :
  process_icmp (H := demo_env) (demo_echo (replicate 2100 0)) demo_known = Stop Oob.
Proof. apply (process_icmp_overflow (H := demo_env)). reflexivity. Defined.
