(* ===== verification/Sha1.v ===== *)
(** SHA-1: [src/sha1.c], [src/sha1.h].

    The code hashes in place: sixteen words reused as a circular message schedule,
    five working variables whose roles rotate from round to round, and a context
    that absorbs its input in pieces.  The reference is FIPS 180-1: the 80-word
    message schedule, the round function and the padded message. *)

From S2P Require Import Prelude Byteorder.

(** ** The code *)

Definition rol (value bits : Z) : Z :=
  Z.lor (u32 (Z.shiftl value bits)) (Z.shiftr value (32 - bits)).

Record SHA1_CTX := {
  sha_state : list Z;   (* uint32_t state[5] *)
  sha_count0 : Z;       (* uint32_t count[2] *)
  sha_count1 : Z;
  sha_buffer : bytes;   (* unsigned char buffer[64] *)
}.

Section code.
Context `{Host}.

(** [block->l]: the 64 bytes read as 16 host integers. *)
Fixpoint block_words (n : nat) (b : bytes) : list Z :=
  match n with O => [] | S n => load (take 4 b) :: block_words n (drop 4 b) end.

(** [blk0(i)] and [blk(i)]: the word of round [i] and the block it leaves. *)
Definition blk0 (block : list Z) (i : nat) : Z * list Z :=
  let x := block !!! i in
  match host_endian with
  | LittleEndian =>
      let x := Z.lor (Z.land (rol x 24) 0xFF00FF00) (Z.land (rol x 8) 0x00FF00FF) in
      (x, <[i := x]> block)
  | BigEndian => (x, block)
  end.
Definition blk (block : list Z) (i : nat) : Z * list Z :=
  let at_ k := block !!! (Nat.land (i + k) 15) in
  let x := rol (Z.lxor (Z.lxor (Z.lxor (at_ 13%nat) (at_ 8%nat)) (at_ 2%nat)) (at_ 0%nat)) 1 in
  (x, <[Nat.land i 15 := x]> block).

(** What [R0] to [R4] add for the variables [w], [x], [y]. *)
Definition mixing (i : nat) (w x y : Z) : Z :=
  if (i <? 20)%nat then Z.lxor (Z.land w (Z.lxor x y)) y
  else if (i <? 40)%nat then Z.lxor (Z.lxor w x) y
  else if (i <? 60)%nat then Z.lor (Z.land (Z.lor w x) y) (Z.land w x)
  else Z.lxor (Z.lxor w x) y.
Definition constant (i : nat) : Z :=
  if (i <? 20)%nat then 0x5A827999
  else if (i <? 40)%nat then 0x6ED9EBA1
  else if (i <? 60)%nat then 0x8F1BBCDC
  else 0xCA62C1D6.

(** Round [i] of the unrolled list: the call is [R(v,w,x,y,z,i)], where the names
    [a,b,c,d,e] (indices 0 to 4 of [vars]) rotate by one from call to call. *)
Definition R (vars block : list Z) (i : nat) : list Z * list Z :=
  let name k := ((k + 5 - i mod 5) mod 5)%nat in
  let v := vars !!! name 0%nat in
  let w := vars !!! name 1%nat in
  let x := vars !!! name 2%nat in
  let y := vars !!! name 3%nat in
  let z := vars !!! name 4%nat in
  let '(word, block) := if (i <? 16)%nat then blk0 block i else blk block i in
  let z := u32 (z + (mixing i w x y + word + constant i + rol v 5)) in
  (<[name 1%nat := rol w 30]> (<[name 4%nat := z]> vars), block).

Definition SHA1Transform (state : list Z) (buffer : bytes) : option (list Z) :=
  b ← mem_get buffer 0 64;
  let '(vars, _) := foldl (fun '(vars, block) i => R vars block i)
                      (state, block_words 16 b) (seq 0 80) in
  Some (zip_with (fun s v => u32 (s + v)) state vars).

Definition SHA1Init (context : SHA1_CTX) : SHA1_CTX :=
  {| sha_state := [0x67452301; 0xEFCDAB89; 0x98BADCFE; 0x10325476; 0xC3D2E1F0];
     sha_count0 := 0; sha_count1 := 0; sha_buffer := sha_buffer context |}.

(** [for ( ; i + 63 < len; i += 64) SHA1Transform(state, &data[i]);] *)
Fixpoint update_loop (fuel : nat) (state : list Z) (data : bytes) (i len : Z)
    : option (list Z * Z) :=
  if u32 (i + 63) <? len then
    match fuel with
    | O => None
    | S fuel =>
        p ← mem_from data i;
        state ← SHA1Transform state p;
        update_loop fuel state data (u32 (i + 64)) len
    end
  else Some (state, i).

(** The data part of [SHA1Update]: [j] bytes are waiting in the buffer. *)
Definition update_data (state : list Z) (buffer : bytes) (j : Z) (data : bytes) (len : Z)
    : option (list Z * bytes) :=
  if 63 <? u32 (j + len) then
    let i := 64 - j in
    buffer ← memcpy buffer j data 0 i;
    state ← SHA1Transform state buffer;
    '(state, i) ← update_loop (Z.to_nat len) state data i len;
    buffer ← memcpy buffer 0 data i (len - i);
    Some (state, buffer)
  else
    buffer ← memcpy buffer j data 0 len;
    Some (state, buffer).

Definition SHA1Update (context : SHA1_CTX) (data : bytes) (len : Z) : option SHA1_CTX :=
  let j := sha_count0 context in
  let count0 := u32 (j + u32 (Z.shiftl len 3)) in
  let count1 := if count0 <? j then u32 (sha_count1 context + 1) else sha_count1 context in
  let count1 := u32 (count1 + Z.shiftr len 29) in
  let j := Z.land (Z.shiftr j 3) 63 in
  '(state, buffer) ← update_data (sha_state context) (sha_buffer context) j data len;
  Some {| sha_state := state; sha_count0 := count0; sha_count1 := count1;
          sha_buffer := buffer |}.

(** Byte [i] of the big-endian image of the words [ws]. *)
Definition byte_of (ws : list Z) (i : nat) : Z :=
  Z.land (Z.shiftr (ws !!! (i / 4)%nat) ((3 - Z.of_nat (Nat.land i 3)) * 8)) 255.

(** [while ((context->count[0] & 504) != 448) SHA1Update(context, "\0", 1);] *)
Fixpoint pad_loop (fuel : nat) (context : SHA1_CTX) : option SHA1_CTX :=
  if negb (Z.land (sha_count0 context) 504 =? 448) then
    match fuel with
    | O => None
    | S fuel => context ← SHA1Update context [0] 1; pad_loop fuel context
    end
  else Some context.

(** The digest; the context is wiped. *)
Definition SHA1Final (context : SHA1_CTX) : option (bytes * SHA1_CTX) :=
  let finalcount := byte_of [sha_count1 context; sha_count0 context] <$> seq 0 8 in
  context ← SHA1Update context [0x80] 1;
  context ← pad_loop 64 context;
  context ← SHA1Update context finalcount 8;
  Some (byte_of (sha_state context) <$> seq 0 20,
        {| sha_state := replicate 5 0; sha_count0 := 0; sha_count1 := 0;
           sha_buffer := replicate 64 0 |}).
End code.

(** ** FIPS 180-1 *)

(** The message schedule: sixteen words of the block, then
    [W t = rol1 (W(t-3) xor W(t-8) xor W(t-14) xor W(t-16))]. *)
Fixpoint schedule (n : nat) (ws : list Z) : list Z :=
  match n with
  | O => ws
  | S n =>
      let w k := ws !!! (length ws - k)%nat in
      schedule n (ws ++ [rol (Z.lxor (Z.lxor (Z.lxor (w 3%nat) (w 8%nat)) (w 14%nat)) (w 16%nat)) 1])
  end.

Definition fips_f (t : nat) (b c d : Z) : Z :=
  if (t <? 20)%nat then Z.lor (Z.land b c) (Z.ldiff d b)
  else if (t <? 40)%nat then Z.lxor b (Z.lxor c d)
  else if (t <? 60)%nat then Z.lor (Z.lor (Z.land b c) (Z.land b d)) (Z.land c d)
  else Z.lxor b (Z.lxor c d).

(** The constants of the standard are the square roots of 2, 3, 5 and 10, times 2^30 and
    rounded down; [rol] is its rotation. *)
Definition fips_K (t : nat) : Z := Z.sqrt (2 ^ 60 * nth (t / 20) [2; 3; 5; 10] 0).
Lemma constant_fips t : (t < 80)%nat -> constant t = fips_K t.
Proof.
  intros Ht. assert (Hc : forallb (fun t => constant t =? fips_K t) (seq 0 80) = true) by (vm_compute; reflexivity).
  rewrite forallb_forall in Hc. apply Z.eqb_eq, Hc, in_seq. lia.
Qed.
Definition fips_round (W : list Z) (s : Z * Z * Z * Z * Z) (t : nat) : Z * Z * Z * Z * Z :=
  let '(a, b, c, d, e) := s in
  (u32 (rol a 5 + fips_f t b c d + e + W !!! t + fips_K t), a, rol b 30, c, d).

(** The big-endian words of a block. *)
Fixpoint be_words32 (n : nat) (b : bytes) : list Z :=
  match n with O => [] | S n => le_val (reverse (take 4 b)) :: be_words32 n (drop 4 b) end.

Definition fips_compress (h : list Z) (block : bytes) : list Z :=
  let W := schedule 64 (be_words32 16 block) in
  match h with
  | [h0; h1; h2; h3; h4] =>
      let '(a, b, c, d, e) := foldl (fips_round W) (h0, h1, h2, h3, h4) (seq 0 80) in
      [u32 (h0 + a); u32 (h1 + b); u32 (h2 + c); u32 (h3 + d); u32 (h4 + e)]
  | _ => h
  end.

(** The blocks of a message whose length is a multiple of 64. *)
Fixpoint chunks (n : nat) (l : bytes) : list bytes :=
  match n with O => [] | S n => take 64 l :: chunks n (drop 64 l) end.
Definition fips_blocks (h : list Z) (l : bytes) : list Z :=
  foldl fips_compress h (chunks (length l / 64) l).

Definition fips_init : list Z := [0x67452301; 0xEFCDAB89; 0x98BADCFE; 0x10325476; 0xC3D2E1F0].

(** Padding: a one bit, zeros, and the length in bits as 64 bits. *)
Definition fips_pad (m : bytes) : bytes :=
  m ++ [0x80] ++ replicate (Z.to_nat ((55 - zlen m) mod 64)) 0 ++
  reverse (le_bytes 8 (8 * zlen m)).

Definition sha1 (m : bytes) : bytes :=
  concat ((fun w => reverse (le_bytes 4 w)) <$> fips_blocks fips_init (fips_pad m)).

(** ** One block *)

Lemma mixing_fips t b c d : mixing t b c d = fips_f t b c d.
Proof.
  unfold mixing, fips_f. repeat case_match; apply Z.bits_inj'; intros k _;
    rewrite ?Z.lor_spec, ?Z.lxor_spec, ?Z.land_spec, ?Z.lor_spec, ?Z.ldiff_spec, ?Z.lxor_spec,
      ?Z.land_spec;
    by destruct (Z.testbit b k), (Z.testbit c k), (Z.testbit d k).
Qed.

Lemma schedule_prefix n ws : exists tail, schedule n ws = ws ++ tail /\ length tail = n.
Proof.
  revert ws. induction n as [|n IH]; intros ws; [exists []; by rewrite app_nil_r|]. simpl.
  edestruct IH as (tail & -> & E). rewrite <- app_assoc. eexists. split; [done|].
  rewrite length_app, E. simpl. lia.
Qed.

Lemma schedule_lookup n ws t :
  (16 <= length ws)%nat -> (length ws <= t < length ws + n)%nat ->
  let W := schedule n ws in
  W !!! t = rol (Z.lxor (Z.lxor (Z.lxor (W !!! (t - 3)%nat) (W !!! (t - 8)%nat))
                   (W !!! (t - 14)%nat)) (W !!! (t - 16)%nat)) 1.
Proof.
  revert ws. induction n as [|n IH]; intros ws Hl Ht; [lia|]. cbn [schedule].
  set (x := rol _ 1). set (ws' := ws ++ [x]).
  assert (El : length ws' = S (length ws)) by (unfold ws'; rewrite length_app; simpl; lia).
  destruct (decide (t = length ws)) as [->|Hne]; [|apply IH; lia].
  destruct (schedule_prefix n ws') as (tail & -> & _).
  assert (Hold : forall k, (0 < k <= 16)%nat ->
    (ws' ++ tail) !!! (length ws - k)%nat = ws !!! (length ws - k)%nat).
  { intros k Hk. unfold ws'. rewrite <- app_assoc, lookup_total_app_l by lia. done. }
  cbv zeta. rewrite !Hold by lia. fold x. unfold ws'.
  rewrite <- app_assoc, lookup_total_app_r, Nat.sub_diag by lia. done.
Qed.

(** The bits of a number written in base 256. *)
Lemma testbit_digit x y k :
  is_u8 x -> 0 <= k ->
  Z.testbit (x + 256 * y) k = if k <? 8 then Z.testbit x k else Z.testbit y (k - 8).
Proof.
  unfold is_u8. intros Hx Hk. change 256 with (2 ^ 8).
  assert (Hd : (x + 2 ^ 8 * y) / 2 ^ 8 = y) by (symmetry; apply (Z.div_unique_pos _ _ _ x); lia).
  assert (Hm : (x + 2 ^ 8 * y) mod 2 ^ 8 = x) by (symmetry; apply (Z.mod_unique_pos _ _ y); lia).
  destruct (Z.ltb_spec k 8).
  - by rewrite <- (Z.mod_pow2_bits_low _ 8), Hm by lia.
  - rewrite <- Hd at 2. rewrite Z.div_pow2_bits by lia. f_equal. lia.
Qed.

Lemma testbit_byte b k : is_u8 b -> 8 <= k -> Z.testbit b k = false.
Proof.
  unfold is_u8. intros Hb Hk. rewrite <- (Z.mod_small b (2 ^ 8)) by lia.
  by apply Z.mod_pow2_bits_high; lia.
Qed.

Lemma testbit_le_val4 a b c d k :
  is_u8 a -> is_u8 b -> is_u8 c -> is_u8 d ->
  Z.testbit (le_val [a; b; c; d]) k =
    if k <? 0 then false else if k <? 8 then Z.testbit a k else if k <? 16 then Z.testbit b (k - 8)
    else if k <? 24 then Z.testbit c (k - 16) else if k <? 32 then Z.testbit d (k - 24)
    else false.
Proof.
  intros. destruct (Z.ltb_spec k 0); [by apply Z.testbit_neg_r|].
  cbn [le_val]. rewrite testbit_digit by done.
  destruct (Z.ltb_spec k 8); [done|]. rewrite testbit_digit by (done || lia).
  destruct (Z.ltb_spec (k - 8) 8), (Z.ltb_spec k 16); try lia; [done|].
  rewrite testbit_digit by (done || lia). replace (k - 8 - 8) with (k - 16) by lia.
  destruct (Z.ltb_spec (k - 16) 8), (Z.ltb_spec k 24); try lia; [done|].
  rewrite Z.mul_0_r, Z.add_0_r. destruct (Z.ltb_spec k 32); [f_equal; lia|].
  by apply testbit_byte; [|lia].
Qed.

Lemma testbit_rol x n k :
  0 <= n <= 32 -> 0 <= k ->
  Z.testbit (rol x n) k = (k <? 32) && (n <=? k) && Z.testbit x (k - n) || Z.testbit x (k + (32 - n)).
Proof.
  intros Hn Hk. unfold rol, u32. rewrite Z.lor_spec, Z.shiftr_spec by lia. f_equal.
  destruct (Z.ltb_spec k 32).
  - rewrite Z.mod_pow2_bits_low, Z.shiftl_spec by lia. destruct (Z.leb_spec n k); [done|].
    by rewrite Z.testbit_neg_r by lia.
  - by rewrite Z.mod_pow2_bits_high by lia.
Qed.

(** The byte swap of [blk0] on a little-endian host. *)
Lemma swap_words a b c d :
  is_bytes [a; b; c; d] ->
  Z.lor (Z.land (rol (le_val [a; b; c; d]) 24) 0xFF00FF00)
        (Z.land (rol (le_val [a; b; c; d]) 8) 0x00FF00FF) = le_val [d; c; b; a].
Proof.
  intros Hl. assert (is_u8 a /\ is_u8 b /\ is_u8 c /\ is_u8 d) as (Ha & Hb & Hc & Hd)
    by (unfold is_bytes in Hl; rewrite !Forall_cons in Hl; naive_solver).
  apply Z.bits_inj'. intros k Hk.
  rewrite Z.lor_spec, !Z.land_spec, !testbit_rol, !testbit_le_val4 by (lia || done).
  destruct (Z.ltb_spec k 32).
  - assert (exists n, (n < 32)%nat /\ k = Z.of_nat n) as (n & Hn & ->)
      by (exists (Z.to_nat k); lia).
    clear Hk H. do 32 (destruct n as [|n]; [simpl;
      by rewrite ?andb_true_r, ?andb_false_r, ?orb_false_r|]). lia.
  - cbn [andb orb]. repeat (case_test; [lia|]). done.
Qed.

#[global] Arguments schedule : simpl never.
#[global] Arguments be_words32 : simpl never.

Lemma land_15 i : Nat.land i 15 = (i mod 16)%nat.
Proof. change 15%nat with (Nat.ones 4). apply Nat.land_ones. Qed.

Section block.
Context `{Host} (b : bytes) (Hb : is_bytes b) (Hlen : length b = 64%nat).

Local Abbreviation W := (schedule 64 (be_words32 16 b)).

(** The four bytes of word [k]. *)
Definition word_bytes (k : nat) : bytes := take 4 (drop (4 * k) b).

Lemma words_lookup n l k :
  (k < n)%nat ->
  block_words n l !!! k = load (take 4 (drop (4 * k) l)) /\
  be_words32 n l !!! k = le_val (reverse (take 4 (drop (4 * k) l))).
Proof.
  revert l k. induction n as [|n IH]; intros l k Hk; [lia|]. destruct k as [|k].
  - by rewrite Nat.mul_0_r, drop_0.
  - replace (4 * S k)%nat with (4 + 4 * k)%nat by lia. rewrite <- drop_drop.
    apply (IH (drop 4 l)). lia.
Qed.

Lemma length_words n l : length (block_words n l) = n /\ length (be_words32 n l) = n.
Proof.
  revert l. induction n as [|n IH]; intros l; [done|]. simpl.
  destruct (IH (drop 4 l)) as [-> ->]. done.
Qed.

Lemma word_bytes_inv k : (k < 16)%nat ->
  exists x y z t, word_bytes k = [x; y; z; t] /\ is_bytes [x; y; z; t].
Proof.
  intros Hk. destruct (length_4_inv (word_bytes k)) as (x & y & z & t & E).
  { unfold word_bytes. rewrite length_take, length_drop. lia. }
  exists x, y, z, t. split; [done|]. rewrite <- E. by apply Forall_take, Forall_drop.
Qed.

Lemma W_low k : (k < 16)%nat -> W !!! k = le_val (reverse (word_bytes k)).
Proof.
  intros Hk. destruct (schedule_prefix 64 (be_words32 16 b)) as (tail & -> & _).
  rewrite lookup_total_app_l by (by rewrite (proj2 (length_words 16 b))).
  by apply words_lookup.
Qed.

(** Before round [t] the block holds the last sixteen words of the schedule that
    have been expanded, and the bytes of the others. *)
Record block_at (t : nat) (block : list Z) : Prop := {
  ba_length : length block = 16%nat;
  ba_done k : (k < t <= k + 16)%nat -> block !!! (k mod 16)%nat = W !!! k;
  ba_raw k : (t <= k < 16)%nat -> block !!! k = load (word_bytes k);
}.

Lemma block_at_0 : block_at 0 (block_words 16 b).
Proof.
  constructor; [apply length_words|lia|]. intros k [_ Hk]. by apply words_lookup.
Qed.

Lemma blk0_word t block :
  (t < 16)%nat -> block_at t block ->
  fst (blk0 block t) = W !!! t /\ snd (blk0 block t) = <[t := W !!! t]> block.
Proof.
  intros Ht [Hl Hd Hr]. unfold blk0. destruct host_endian eqn:Eh.
  - rewrite (Hr t), (W_low t) by lia. unfold load. rewrite Eh.
    destruct (word_bytes_inv t Ht) as (x & y & z & u & -> & Hw). by rewrite swap_words.
  - assert (E : block !!! t = W !!! t).
    { rewrite (Hr t), (W_low t) by lia. unfold load. by rewrite Eh. }
    split; [done|]. symmetry. cbn [snd]. apply list_insert_id.
    by rewrite list_lookup_lookup_total_lt, E by lia.
Qed.

Lemma blk_word t block :
  (16 <= t < 80)%nat -> block_at t block ->
  fst (blk block t) = W !!! t /\ snd (blk block t) = <[(t mod 16)%nat := W !!! t]> block.
Proof.
  intros Ht [Hl Hd Hr].
  assert (E : forall k m, (0 < m <= 16)%nat -> (k + m = 16)%nat ->
    block !!! (Nat.land (t + k) 15) = W !!! (t - m)%nat).
  { intros k m Hm Hk. rewrite land_15, <- (Hd (t - m)%nat) by lia. f_equal.
    replace (t + k)%nat with (t - m + 1 * 16)%nat by lia. apply Nat.Div0.mod_add. }
  unfold blk. rewrite (E 13 3)%nat, (E 8 8)%nat, (E 2 14)%nat, (E 0 16)%nat, land_15 by lia.
  rewrite <- schedule_lookup; [done|..]; rewrite (proj2 (length_words 16 b)); lia.
Qed.

Lemma block_at_step t block :
  (t < 80)%nat -> block_at t block -> block_at (S t) (<[(t mod 16)%nat := W !!! t]> block).
Proof.
  intros Ht [Hl Hd Hr]. pose proof (Nat.mod_upper_bound t 16).
  constructor; [by rewrite length_insert|..].
  - intros k Hk. destruct (decide (k = t)) as [->|Hne].
    + by rewrite list_lookup_total_insert_eq by lia.
    + rewrite list_lookup_total_insert_ne; [apply Hd; lia|].
      intros Em. pose proof (Nat.div_mod_eq t 16). pose proof (Nat.div_mod_eq k 16). nia.
  - intros k Hk. rewrite Nat.mod_small by lia.
    rewrite list_lookup_total_insert_ne by lia. apply Hr. lia.
Qed.

Lemma block_word t block :
  (t < 80)%nat -> block_at t block ->
  exists block', (if (t <? 16)%nat then blk0 block t else blk block t) = (W !!! t, block') /\
                 block_at (S t) block'.
Proof.
  intros Ht Hba. exists (<[(t mod 16)%nat := W !!! t]> block).
  split; [|by apply block_at_step]. destruct (Nat.ltb_spec t 16).
  - destruct (blk0_word t block) as [<- E]; [done..|]. rewrite Nat.mod_small by done.
    rewrite <- E. by destruct (blk0 block t).
  - destruct (blk_word t block) as [<- <-]; [lia|done|]. by destruct (blk block t).
Qed.

(** The five variables, read in the roles they have in round [t]. *)
Definition roles (t : nat) (vars : list Z) : Z * Z * Z * Z * Z :=
  let name k := ((k + 5 - t mod 5) mod 5)%nat in
  (vars !!! name 0%nat, vars !!! name 1%nat, vars !!! name 2%nat, vars !!! name 3%nat,
   vars !!! name 4%nat).

Lemma R_round t vars block :
  (t < 80)%nat -> length vars = 5%nat -> block_at t block ->
  exists vars' block', R vars block t = (vars', block') /\ length vars' = 5%nat /\
    block_at (S t) block' /\ roles (S t) vars' = fips_round W (roles t vars) t.
Proof.
  intros Ht Hv Hba. destruct (block_word t block Ht Hba) as (block' & E & Hba').
  unfold R. rewrite E. do 2 eexists. split; [reflexivity|]. rewrite !length_insert.
  split_and!; [done|done|].
  destruct vars as [|a [|b' [|c [|d [|e [|]]]]]]; try discriminate Hv.
  assert (Hm : (S t mod 5 = if t mod 5 =? 4 then 0 else S (t mod 5))%nat).
  { pose proof (Nat.div_mod_eq t 5). pose proof (Nat.mod_upper_bound t 5).
    destruct (Nat.eqb_spec (t mod 5) 4); symmetry.
    - apply (Nat.mod_unique _ _ (S (t / 5))); lia.
    - apply (Nat.mod_unique _ _ (t / 5)); lia. }
  unfold roles, fips_round. rewrite Hm, mixing_fips, <- constant_fips by done.
  pose proof (Nat.mod_upper_bound t 5) as Hu.
  generalize (W !!! t). intros x.
  assert (Hs : forall z f k r, z + (f + x + k + r) = r + f + z + x + k) by lia. rewrite Hs.
  by destruct (t mod 5)%nat as [|[|[|[|[|]]]]]; [..|lia].
Qed.

(** After [n] rounds the variables hold the registers of the standard. *)
Lemma rounds_fips n t vars block :
  (t + n <= 80)%nat -> length vars = 5%nat -> block_at t block ->
  exists vars' block',
    foldl (fun '(vars, block) i => R vars block i) (vars, block) (seq t n) = (vars', block') /\
    length vars' = 5%nat /\
    roles (t + n) vars' = foldl (fips_round W) (roles t vars) (seq t n).
Proof.
  revert t vars block. induction n as [|n IH]; intros t vars block Ht Hv Hba.
  - exists vars, block. by rewrite Nat.add_0_r.
  - destruct (R_round t vars block) as (v1 & b1 & E & Hv1 & Hb1 & Hr); [lia|done..|].
    destruct (IH (S t) v1 b1) as (v2 & b2 & E2 & Hv2 & Hr2); [lia|done..|].
    exists v2, b2. cbn [seq foldl]. rewrite E, <- Hr. split_and!; [done..|].
    by replace (t + S n)%nat with (S t + n)%nat by lia.
Qed.

Lemma SHA1Transform_eq h post :
  length h = 5%nat -> SHA1Transform h (b ++ post) = Some (fips_compress h b).
Proof.
  intros Hh. unfold SHA1Transform. rewrite mem_get_Some by (unfold zlen; rewrite ?length_app; lia).
  change (Z.to_nat 0) with 0%nat. rewrite drop_0.
  replace (Z.to_nat 64) with (length b) by lia. rewrite take_app_length.
  cbn [mbind option_bind].
  destruct (rounds_fips 80 0 h (block_words 16 b)) as (v & bl & E & Hv & Hr);
    [lia|done|apply block_at_0|]. rewrite E.
  destruct h as [|h0 [|h1 [|h2 [|h3 [|h4 [|]]]]]]; try discriminate Hh.
  destruct v as [|v0 [|v1 [|v2 [|v3 [|v4 [|]]]]]]; try discriminate Hv.
  unfold fips_compress. change (roles 0 [h0; h1; h2; h3; h4]) with (h0, h1, h2, h3, h4) in Hr.
  change (roles (0 + 80) [v0; v1; v2; v3; v4]) with (v0, v1, v2, v3, v4) in Hr.
  rewrite <- Hr. done.
Qed.
End block.

(** ** Absorbing a message *)

Lemma chunks_app n l k : length l = (64 * n)%nat ->
  chunks (length (l ++ k) / 64) (l ++ k) = chunks n l ++ chunks (length k / 64) k.
Proof.
  revert l. induction n as [|n IH]; intros l Hl.
  - by destruct l.
  - rewrite length_app, Hl. replace (64 * S n + length k)%nat with (64 * n + length k + 1 * 64)%nat by lia.
    rewrite Nat.div_add by lia. rewrite Nat.add_1_r. cbn [chunks app].
    rewrite take_app_le, drop_app_le by lia. f_equal.
    rewrite <- IH by (rewrite length_drop; lia). f_equal. rewrite length_app, length_drop. f_equal. lia.
Qed.

Lemma fips_blocks_app h l k n : length l = (64 * n)%nat ->
  fips_blocks h (l ++ k) = fips_blocks (fips_blocks h l) k.
Proof.
  intros Hl. unfold fips_blocks. rewrite (chunks_app n) by done. rewrite foldl_app.
  do 2 f_equal. rewrite Hl, Nat.mul_comm, Nat.div_mul by lia. done.
Qed.

Lemma fips_blocks_one h l : length l = 64%nat -> fips_blocks h l = fips_compress h l.
Proof. intros Hl. unfold fips_blocks. rewrite Hl. simpl. by rewrite firstn_all2 by lia. Qed.

Lemma length_fips_compress h l : length h = 5%nat -> length (fips_compress h l) = 5%nat.
Proof.
  intros Hh. destruct h as [|h0 [|h1 [|h2 [|h3 [|h4 [|]]]]]]; try discriminate Hh.
  unfold fips_compress. destruct (foldl _ _ _) as [[[[? ?] ?] ?] ?]. done.
Qed.

Lemma length_fips_blocks h l : length h = 5%nat -> length (fips_blocks h l) = 5%nat.
Proof.
  unfold fips_blocks. generalize (chunks (length l / 64) l). intros ls. revert h.
  induction ls; intros h Hh; simpl; [done|]. by apply IHls, length_fips_compress.
Qed.

(** The context after the bytes of [m]: the whole blocks are hashed, the rest waits
    in the buffer, the count is the length in bits. *)
Record absorbed (c : SHA1_CTX) (m : bytes) : Prop := {
  ab_split : exists n done tail, m = done ++ tail /\ length done = (64 * n)%nat /\
    (length tail < 64)%nat /\ sha_state c = fips_blocks fips_init done /\
    take (length tail) (sha_buffer c) = tail;
  ab_buffer : length (sha_buffer c) = 64%nat;
  ab_count0 : sha_count0 c = u32 (8 * zlen m);
  ab_count1 : sha_count1 c = u32 (8 * zlen m / 2 ^ 32);
  ab_bytes : is_bytes m;
}.

Lemma absorbed_init c : length (sha_buffer c) = 64%nat -> absorbed (SHA1Init c) [].
Proof.
  intros Hb. constructor; [|done|done|done|constructor].
  exists 0%nat, [], []. split_and!; try done. simpl. lia.
Qed.

(** The offset [(count[0] >> 3) & 63]. *)
Lemma count_offset n : 0 <= n -> Z.land (Z.shiftr (u32 (8 * n)) 3) 63 = n mod 64.
Proof.
  intros Hn. unfold u32. change 63 with (Z.ones 6). rewrite Z.land_ones by lia.
  rewrite Z.shiftr_div_pow2 by lia. change (2 ^ 3) with 8. change (2 ^ 6) with 64.
  replace (2 ^ 32) with (8 * 2 ^ 29) by lia. rewrite Z.mul_mod_distr_l by lia.
  rewrite Z.mul_comm, Z.div_mul by lia. symmetry.
  rewrite <- (Z.mod_mod_divide n (2 ^ 29) 64); [done|]. exists (2 ^ 23). done.
Qed.

(** The 64-bit count, kept in two words with an explicit carry. *)
Lemma count_add n len :
  0 <= n -> 0 <= len < 2 ^ 32 ->
  let j := u32 (8 * n) in
  let c0 := u32 (j + u32 (Z.shiftl len 3)) in
  let c1 := u32 (8 * n / 2 ^ 32) in
  c0 = u32 (8 * (n + len)) /\
  u32 ((if c0 <? j then u32 (c1 + 1) else c1) + Z.shiftr len 29) = u32 (8 * (n + len) / 2 ^ 32).
Proof.
  intros Hn Hl. rewrite Z.shiftl_mul_pow2, Z.shiftr_div_pow2 by lia. unfold u32.
  set (j := (8 * n) mod 2 ^ 32). set (c1 := (8 * n / 2 ^ 32) mod 2 ^ 32).
  set (c0 := (j + (len * 2 ^ 3) mod 2 ^ 32) mod 2 ^ 32). cbv zeta. split.
  - unfold c0, j. rewrite <- Zplus_mod. f_equal. lia.
  - set (P := 2 ^ 32) in *. assert (HP : P = 4294967296) by done.
    pose proof (Z.div_mod (8 * n) P) as D1. pose proof (Z.mod_pos_bound (8 * n) P) as B1.
    fold j in D1, B1. pose proof (Z.div_mod (len * 2 ^ 3) P). pose proof (Z.mod_pos_bound (len * 2 ^ 3) P).
    assert (E29 : len / 2 ^ 29 = len * 2 ^ 3 / P).
    { unfold P. replace (2 ^ 32) with (2 ^ 29 * 2 ^ 3) by lia. by rewrite Z.div_mul_cancel_r by lia. }
    rewrite E29. set (r := len * 2 ^ 3 mod P) in *. set (q := len * 2 ^ 3 / P) in *.
    set (q0 := 8 * n / P) in *.
    destruct (Z.ltb_spec (j + r) P) as [Hc|Hc].
    + assert (c0 = j + r) as -> by (unfold c0; rewrite Z.mod_small; lia).
      case_test; [lia|]. unfold c1. rewrite Zplus_mod_idemp_l. f_equal.
      apply (Z.div_unique_pos _ _ _ (j + r)); lia.
    + assert (c0 = j + r - P) as ->
        by (unfold c0; symmetry; apply (Z.mod_unique_pos _ _ 1); lia).
      case_test; [|lia]. unfold c1. rewrite !Zplus_mod_idemp_l.
      rewrite <- (Z.add_assoc (q0 mod P)), Zplus_mod_idemp_l. f_equal.
      apply (Z.div_unique_pos _ _ _ (j + r - P)); lia.
Qed.

Lemma split_blocks (l : bytes) :
  exists n blocks tail, l = blocks ++ tail /\ length blocks = (64 * n)%nat /\ (length tail < 64)%nat.
Proof.
  exists (length l / 64)%nat, (take (64 * (length l / 64)) l), (drop (64 * (length l / 64)) l).
  pose proof (Nat.div_mod_eq (length l) 64). pose proof (Nat.mod_upper_bound (length l) 64).
  rewrite take_drop, length_take, length_drop. split_and!; [done|lia..].
Qed.

Section stream.
Context `{Host}.

Lemma transform_compress h l post :
  is_bytes l -> length l = 64%nat -> length h = 5%nat ->
  SHA1Transform h (l ++ post) = Some (fips_compress h l).
Proof. intros. by apply SHA1Transform_eq. Qed.

Lemma update_loop_eq n fuel st pre blocks tail post :
  is_bytes blocks -> length blocks = (64 * n)%nat -> (length tail < 64)%nat ->
  (n <= fuel)%nat -> length st = 5%nat ->
  zlen pre + zlen (blocks ++ tail) < 2 ^ 32 - 64 ->
  update_loop fuel st (pre ++ (blocks ++ tail) ++ post) (zlen pre)
    (zlen pre + zlen (blocks ++ tail)) =
  Some (fips_blocks st blocks, zlen pre + zlen blocks).
Proof.
  revert fuel st pre blocks. induction n as [|n IH]; intros fuel st pre blocks Hb Hl Ht Hf Hst Hz;
    zlens; zlen_facts.
  - destruct blocks; [|done]. rewrite zlen_nil in *. unfold zlen in Ht.
    assert (E : (u32 (zlen pre + 63) <? zlen pre + (0 + zlen tail)) = false).
    { apply Z.ltb_ge. rewrite u32_id by (unfold is_u32; lia). unfold zlen in *. lia. }
    destruct fuel; simpl update_loop; rewrite E; by rewrite Z.add_0_r.
  - destruct fuel as [|fuel]; [lia|]. cbn [update_loop].
    assert (Ez : zlen blocks = 64 + 64 * Z.of_nat n) by (unfold zlen; lia).
    rewrite u32_id by (unfold is_u32; lia). case_test; [|lia].
    rewrite mem_from_Some by zlia. rewrite to_nat_zlen, drop_app_length.
    cbn [mbind option_bind].
    rewrite <- (take_drop 64 blocks) in Hb |- *. apply Forall_app in Hb as [Hb1 Hb2].
    set (b1 := take 64 blocks) in *. set (b2 := drop 64 blocks) in *.
    assert (L1 : length b1 = 64%nat) by (unfold b1; rewrite length_take; lia).
    assert (L2 : length b2 = (64 * n)%nat) by (unfold b2; rewrite length_drop; lia).
    rewrite <- !app_assoc, transform_compress by done. cbn [mbind option_bind].
    rewrite u32_id by (unfold is_u32; zlia).
    specialize (IH fuel (fips_compress st b1) (pre ++ b1) b2).
    rewrite <- !app_assoc, !zlen_app in IH.
    assert (Z1 : zlen b1 = 64) by (unfold zlen; lia). rewrite Z1 in IH.
    rewrite !zlen_app, Z1.
    replace (zlen pre + (64 + zlen b2 + zlen tail)) with (zlen pre + 64 + (zlen b2 + zlen tail)) by lia.
    rewrite IH; [|done|done|done|lia|by apply length_fips_compress|unfold zlen in *; lia].
    rewrite (fips_blocks_app _ _ _ 1) by done. rewrite (fips_blocks_one _ b1) by done.
    do 2 f_equal. lia.
Qed.

Lemma update_data_small st tail rest d post :
  zlen tail + zlen d < 64 -> zlen d <= zlen rest ->
  update_data st (tail ++ rest) (zlen tail) (d ++ post) (zlen d) =
    Some (st, tail ++ d ++ drop (length d) rest).
Proof.
  intros Hl Hr. unfold update_data. zlen_facts.
  rewrite (u32_id (zlen tail + zlen d)) by (unfold is_u32; lia). case_test; [lia|].
  pose proof (memcpy_app tail rest [] d post) as M. rewrite zlen_nil in M. simpl app in M.
  by rewrite M.
Qed.

Lemma update_data_full st n tail rest d1 blocks tail2 post :
  length (tail ++ d1) = 64%nat -> length rest = length d1 -> (length tail < 64)%nat ->
  is_bytes (tail ++ d1) -> is_bytes blocks -> length blocks = (64 * n)%nat ->
  (length tail2 < 64)%nat -> length st = 5%nat ->
  zlen (d1 ++ blocks ++ tail2) < 2 ^ 32 - 128 ->
  update_data st (tail ++ rest) (zlen tail) ((d1 ++ blocks ++ tail2) ++ post)
    (zlen (d1 ++ blocks ++ tail2)) =
  Some (fips_blocks st ((tail ++ d1) ++ blocks), tail2 ++ drop (length tail2) (tail ++ d1)).
Proof.
  intros Hf Hr Ht Hb1 Hb2 Hl Ht2 Hst Hz. unfold update_data.
  assert (Z1 : zlen tail + zlen d1 = 64) by (rewrite <- zlen_app; unfold zlen; lia).
  rewrite !zlen_app in *. zlen_facts.
  rewrite u32_id by (unfold is_u32; unfold zlen in *; lia). case_test; [|lia].
  replace (64 - zlen tail) with (zlen d1) by lia. rewrite <- app_assoc.
  pose proof (memcpy_app tail rest [] d1 ((blocks ++ tail2) ++ post)) as M1.
  rewrite zlen_nil in M1. simpl app in M1. rewrite M1 by (unfold zlen; lia). clear M1.
  rewrite drop_ge, app_nil_r by lia. cbn [mbind option_bind].
  pose proof (transform_compress st (tail ++ d1) [] Hb1 Hf Hst) as T. rewrite app_nil_r in T.
  rewrite T. cbn [mbind option_bind]. rewrite <- (zlen_app blocks).
  rewrite (update_loop_eq n); [|done|done|done| |by apply length_fips_compress|
    rewrite zlen_app; lia].
  2: { rewrite zlen_app. unfold zlen in *. lia. }
  cbn [mbind option_bind]. rewrite (fips_blocks_app _ _ _ 1), (fips_blocks_one _ (tail ++ d1)) by done.
  pose proof (memcpy_app [] (tail ++ d1) (d1 ++ blocks) tail2 post) as M.
  rewrite zlen_nil, !zlen_app, <- !app_assoc in M. simpl app in M.
  rewrite <- !app_assoc, zlen_app.
  replace (zlen d1 + (zlen blocks + zlen tail2) - (zlen d1 + zlen blocks)) with (zlen tail2) by lia.
  rewrite M by (unfold zlen in *; lia). done.
Qed.

Lemma SHA1Update_eq c m d post :
  absorbed c m -> is_bytes d -> zlen d < 2 ^ 32 - 128 ->
  exists c', SHA1Update c (d ++ post) (zlen d) = Some c' /\ absorbed c' (m ++ d).
Proof.
  intros [(n & dn & tail & Hm & Hdn & Ht & Hst & Hbuf) Hb64 Hc0 Hc1 Hbm] Hd Hz.
  pose proof (zlen_nonneg d) as Hd0. pose proof (zlen_nonneg m) as Hm0.
  destruct (count_add (zlen m) (zlen d)) as [E0 E1]; [lia..|].
  unfold SHA1Update. rewrite Hc0, Hc1, E0. rewrite E0 in E1. rewrite E1, count_offset by lia.
  rewrite <- zlen_app.
  replace (zlen m mod 64) with (zlen tail).
  2: { apply (Z.mod_unique_pos _ _ (Z.of_nat n)); [unfold zlen; lia|].
       rewrite Hm, zlen_app. unfold zlen. lia. }
  rewrite <- (take_drop (length tail) (sha_buffer c)), Hbuf.
  set (rest := drop (length tail) (sha_buffer c)).
  assert (Hrest : length rest = (64 - length tail)%nat) by (unfold rest; rewrite length_drop; lia).
  assert (Hbmd : is_bytes (m ++ d)) by (by apply Forall_app_2).
  assert (Hst5 : length (sha_state c) = 5%nat) by (rewrite Hst; by apply length_fips_blocks).
  destruct (decide (zlen tail + zlen d < 64)) as [Hs|Hs].
  - rewrite update_data_small by (try done; unfold zlen in *; lia). eexists. split; [done|].
    constructor; simpl; try done.
    + exists n, dn, (tail ++ d). rewrite Hm, <- app_assoc. split_and!; try done.
      * rewrite length_app. unfold zlen in *. lia.
      * by rewrite app_assoc, take_app_length.
    + rewrite !length_app, length_drop. unfold zlen in *. lia.
  - set (k := (64 - length tail)%nat).
    destruct (split_blocks (drop k d)) as (n2 & blocks & tail2 & E2 & Lb & Lt).
    assert (L1 : length (take k d) = k) by (rewrite length_take; unfold k, zlen in *; lia).
    assert (Ed : d = take k d ++ blocks ++ tail2) by (by rewrite <- E2, take_drop).
    set (d1 := take k d) in *. clearbody d1. subst d.
    apply Forall_app in Hd as [Hd1 [Hd2 Hd3]%Forall_app].
    assert (Hbt : is_bytes tail) by (rewrite Hm in Hbm; by apply Forall_app in Hbm as [_ ?]).
    rewrite (update_data_full _ n2);
      [|rewrite length_app; unfold k in *; lia|unfold k in *; lia|done|
       by apply Forall_app_2|done..]. eexists. split; [done|].
    constructor; simpl; try done.
    + exists (n + 1 + n2)%nat, (dn ++ (tail ++ d1) ++ blocks), tail2.
      rewrite Hm, <- !app_assoc. split_and!; try done.
      * rewrite !length_app. unfold k in *. lia.
      * rewrite (fips_blocks_app _ dn _ n) by done. by rewrite <- Hst.
      * by rewrite take_app_length.
    + rewrite length_app, length_drop, length_app. unfold k in *. lia.
Qed.
End stream.

(** ** The digest *)

Section digest.
Context `{Host}.

Lemma land_504 n : 0 <= n -> Z.land (u32 (8 * n)) 504 = 8 * (n mod 64).
Proof.
  intros Hn. change 504 with (Z.shiftl 63 3).
  assert (E : u32 (8 * n) = Z.shiftl (Z.shiftr (u32 (8 * n)) 3) 3).
  { rewrite Z.shiftl_mul_pow2, Z.shiftr_div_pow2 by lia. unfold u32.
    replace (2 ^ 32) with (8 * 2 ^ 29) by lia. rewrite Z.mul_mod_distr_l by lia.
    change (2 ^ 3) with 8. rewrite (Z.mul_comm 8), Z.div_mul by lia. done. }
  rewrite E, <- Z.shiftl_land, count_offset by lia.
  rewrite Z.shiftl_mul_pow2 by lia. lia.
Qed.

(** The padding loop stops after the zeros the standard asks for. *)
Lemma pad_loop_eq fuel c m :
  absorbed c m -> (56 - zlen m) mod 64 <= Z.of_nat fuel ->
  exists c', pad_loop fuel c = Some c' /\
             absorbed c' (m ++ replicate (Z.to_nat ((56 - zlen m) mod 64)) 0).
Proof.
  revert c m. induction fuel as [|fuel IH]; intros c m Hc Hf;
    cbn [pad_loop]; rewrite (ab_count0 _ _ Hc), land_504 by zlia;
    pose proof (Z.mod_pos_bound (56 - zlen m) 64);
    pose proof (Z.div_mod (56 - zlen m) 64); pose proof (Z.div_mod (zlen m) 64);
    pose proof (Z.mod_pos_bound (zlen m) 64).
  - assert (zlen m mod 64 = 56) as -> by lia. simpl.
    exists c. split; [done|]. replace ((56 - zlen m) mod 64) with 0 by lia.
    by rewrite app_nil_r.
  - destruct (Z.eqb_spec (8 * (zlen m mod 64)) 448) as [E|E]; cbn [negb].
    + exists c. split; [done|]. replace ((56 - zlen m) mod 64) with 0 by lia.
      by rewrite app_nil_r.
    + destruct (SHA1Update_eq c m [0] []) as (c1 & E1 & Hc1); [done| |done|].
      { constructor; [unfold is_u8; lia|constructor]. }
      simpl app in E1. change (zlen [0]) with 1 in E1. rewrite E1. cbn [mbind option_bind].
      assert (En : (56 - zlen (m ++ [0])) mod 64 = (56 - zlen m) mod 64 - 1).
      { symmetry. zlens. apply (Z.mod_unique_pos _ _ ((56 - zlen m) / 64)); lia. }
      destruct (IH c1 (m ++ [0]) Hc1) as (c2 & E2 & Hc2); [lia|].
      exists c2. split; [done|]. rewrite En, <- app_assoc in Hc2. 
      replace (Z.to_nat ((56 - zlen m) mod 64))
        with (S (Z.to_nat ((56 - zlen m) mod 64 - 1))) by lia. done.
Qed.

Lemma byte_digit w j : 0 <= j -> Z.land (Z.shiftr w (j * 8)) 255 = w / 256 ^ j mod 256.
Proof.
  intros Hj. change 255 with (Z.ones 8). rewrite Z.land_ones, Z.shiftr_div_pow2 by lia.
  change (2 ^ 8) with 256. by rewrite Z.mul_comm, Z.pow_mul_r by lia.
Qed.

Lemma le_bytes_mod n x : le_bytes n (x mod 256 ^ Z.of_nat n) = le_bytes n x.
Proof.
  rewrite <- le_val_bytes. pose proof (le_bytes_val (le_bytes n x) (le_bytes_is_bytes n x)) as E.
  by rewrite length_le_bytes in E.
Qed.

Lemma le_bytes_8 x : le_bytes 8 x = le_bytes 4 x ++ le_bytes 4 (x / 2 ^ 32).
Proof. cbn [le_bytes app]. rewrite !Z.div_div by lia. reflexivity. Qed.

Lemma reverse_le_bytes_4 w :
  reverse (le_bytes 4 w) =
    [Z.land (Z.shiftr w (3 * 8)) 255; Z.land (Z.shiftr w (2 * 8)) 255;
     Z.land (Z.shiftr w (1 * 8)) 255; Z.land (Z.shiftr w (0 * 8)) 255].
Proof.
  rewrite !byte_digit by lia. cbn [le_bytes]. rewrite !Z.div_div by lia.
  change (256 ^ 0) with 1. rewrite Z.div_1_r. reflexivity.
Qed.

Lemma finalcount_eq n :
  byte_of [u32 (8 * n / 2 ^ 32); u32 (8 * n)] <$> seq 0 8 = reverse (le_bytes 8 (8 * n)).
Proof.
  rewrite le_bytes_8, reverse_app.
  rewrite <- (le_bytes_mod 4 (8 * n)), <- (le_bytes_mod 4 (8 * n / 2 ^ 32)).
  change (256 ^ Z.of_nat 4) with (2 ^ 32). fold (u32 (8 * n)) (u32 (8 * n / 2 ^ 32)).
  rewrite !reverse_le_bytes_4. reflexivity.
Qed.

Lemma digest_eq ws :
  length ws = 5%nat ->
  byte_of ws <$> seq 0 20 = concat ((fun w => reverse (le_bytes 4 w)) <$> ws).
Proof.
  destruct ws as [|a [|b [|c [|d [|e [|]]]]]]; try done. intros _.
  cbn [fmap list_fmap concat]. rewrite !reverse_le_bytes_4. reflexivity.
Qed.

Lemma length_sha1 m : length (sha1 m) = 20%nat.
Proof.
  unfold sha1. rewrite <- digest_eq by (by apply length_fips_blocks).
  by rewrite length_fmap, length_seq.
Qed.

Lemma sha1_is_bytes m : is_bytes (sha1 m).
Proof.
  unfold sha1. apply Forall_concat, Forall_fmap, Forall_true. intros w.
  apply Forall_reverse, le_bytes_is_bytes.
Qed.

Lemma SHA1Final_eq c m :
  absorbed c m -> exists c', SHA1Final c = Some (sha1 m, c').
Proof.
  intros Hc. unfold SHA1Final. rewrite (ab_count0 _ _ Hc), (ab_count1 _ _ Hc), finalcount_eq.
  destruct (SHA1Update_eq c m [0x80] []) as (c1 & E1 & Hc1); [done| |done|].
  { constructor; [unfold is_u8; lia|constructor]. }
  simpl app in E1. change (zlen [0x80]) with 1 in E1. rewrite E1. cbn [mbind option_bind].
  destruct (pad_loop_eq 64 c1 (m ++ [0x80]) Hc1) as (c2 & E2 & Hc2).
  { pose proof (Z.mod_pos_bound (56 - zlen (m ++ [128])) 64). lia. }
  rewrite E2. cbn [mbind option_bind].
  set (fc := reverse (le_bytes 8 (8 * zlen m))).
  assert (Lfc : length fc = 8%nat) by (unfold fc; by rewrite length_reverse, length_le_bytes).
  destruct (SHA1Update_eq c2 _ fc [] Hc2) as (c3 & E3 & Hc3).
  { apply Forall_reverse, le_bytes_is_bytes. }
  { unfold zlen. rewrite Lfc. done. }
  rewrite app_nil_r in E3. replace (zlen fc) with 8 in E3 by (unfold zlen; lia).
  rewrite E3. cbn [mbind option_bind]. eexists. do 2 f_equal.
  zlens. replace (56 - (zlen m + (0 + 1))) with (55 - zlen m) in Hc3 by lia.
  rewrite <- !app_assoc in Hc3. 
  change (m ++ [0x80] ++ replicate _ 0 ++ fc) with (fips_pad m) in Hc3.
  destruct Hc3 as [(n & dn & tail & Em & Ld & Lt & Hst & _) _ _ _ _].
  assert (Lp : exists k, length (fips_pad m) = (64 * k)%nat).
  { exists (Z.to_nat ((zlen m + 9 + (55 - zlen m) mod 64) / 64)).
    pose proof (Z.div_mod (55 - zlen m) 64). pose proof (Z.mod_pos_bound (55 - zlen m) 64).
    assert (Ed : (zlen m + 9 + (55 - zlen m) mod 64) / 64 = 1 - (55 - zlen m) / 64)
      by (symmetry; apply (Z.div_unique_pos _ _ _ 0); lia).
    rewrite Ed. unfold fips_pad. fold fc. rewrite !length_app, length_replicate, Lfc.
    unfold zlen in *. simpl. lia. }
  destruct Lp as [k Lp]. rewrite Em, length_app in Lp.
  destruct tail; [|simpl in Lp, Lt; lia]. rewrite app_nil_r in Em.
  rewrite digest_eq by (rewrite Hst; by apply length_fips_blocks).
  unfold sha1. by rewrite Hst, Em.
Qed.
End digest.

(** ** The properties *)

Section results.
Context `{Host}.

(** One call of [SHA1Transform] computes the compression function of FIPS
    180-1, whatever the host's byte order: the sixteen-word circular block and the
    rotating variables implement the 80-word schedule and the shifting registers. *)
Theorem SHA1Transform_fips h b post :
  length h = 5%nat -> is_bytes b -> length b = 64%nat ->
  SHA1Transform h (b ++ post) = Some (fips_compress h b).
Proof. intros. by apply SHA1Transform_eq. Qed.

(** C39: hashing a message in two pieces, as the login does with the key and the
    challenge, gives the SHA-1 of their concatenation: initialisation, updates that
    end anywhere in a block, padding and length are as the standard asks, and every
    loop terminates.  Each piece has less than 2^32 - 128 bytes. *)
Theorem SHA1_streaming ctx m1 m2 post1 post2 :
  length (sha_buffer ctx) = 64%nat -> is_bytes m1 -> is_bytes m2 ->
  zlen m1 < 2 ^ 32 - 128 -> zlen m2 < 2 ^ 32 - 128 ->
  exists c1 c2 c3,
    SHA1Update (SHA1Init ctx) (m1 ++ post1) (zlen m1) = Some c1 /\
    SHA1Update c1 (m2 ++ post2) (zlen m2) = Some c2 /\
    SHA1Final c2 = Some (sha1 (m1 ++ m2), c3).
Proof.
  intros Hb H1 H2 Hl1 Hl2. pose proof (absorbed_init ctx Hb) as A0.
  destruct (SHA1Update_eq _ _ m1 post1 A0) as (c1 & E1 & A1); [done..|].
  destruct (SHA1Update_eq _ _ m2 post2 A1) as (c2 & E2 & A2); [done..|].
  destruct (SHA1Final_eq _ _ A2) as (c3 & E3). by exists c1, c2, c3.
Qed.
End results.

Lemma SHA1Transform_fips_witness :
  SHA1Transform (H := le_host) fips_init (replicate 64 0x61 ++ [1]) =
    Some (fips_compress fips_init (replicate 64 0x61)).
Proof.
  apply (SHA1Transform_fips (H := le_host) fips_init (replicate 64 0x61) [1]);
    [reflexivity|apply Forall_replicate; unfold is_u8; lia|reflexivity].
Defined.

(** The digest of "abc" from FIPS 180-1, appendix A, fed in two pieces. *)
Lemma SHA1_streaming_witness :
  exists c1 c2 c3,
    SHA1Update (H := le_host) (SHA1Init {| sha_state := []; sha_count0 := 0; sha_count1 := 0;
      sha_buffer := replicate 64 7 |}) ([97] ++ []) 1 = Some c1 /\
    SHA1Update (H := le_host) c1 ([98; 99] ++ []) 2 = Some c2 /\
    SHA1Final (H := le_host) c2 =
      Some ([0xA9; 0x99; 0x3E; 0x36; 0x47; 0x06; 0x81; 0x6A; 0xBA; 0x3E; 0x25; 0x71; 0x78; 0x50;
             0xC2; 0x6C; 0x9C; 0xD0; 0xD8; 0x9D], c3).
Proof.
  destruct (SHA1_streaming (H := le_host) {| sha_state := []; sha_count0 := 0; sha_count1 := 0;
    sha_buffer := replicate 64 7 |} [97] [98; 99] [] []) as (c1 & c2 & c3 & E1 & E2 & E3);
    [reflexivity|repeat constructor; unfold is_u8; lia..|reflexivity|reflexivity|].
  exists c1, c2, c3. split; [exact E1|]. split; [exact E2|]. rewrite E3. vm_compute. reflexivity.
Defined.
