(* ===== verification/LanClient.v ===== *)
(** The relay client: [src/lan-client.c].

    Packets for other players are sent to the relay server in one datagram, or in
    fragments when a path MTU is configured; what the server sends is reassembled if
    fragmented and put on the local network. *)

From stdpp Require Import gmap.
From S2P Require Import Prelude Byteorder Structs Checksum Packet Arp Ipv4 Sha1.

(** ** The code *)

(** [enum lan_client_type] *)
Definition LAN_CLIENT_TYPE_KEEPALIVE : Z := 0x00.
Definition LAN_CLIENT_TYPE_IPV4 : Z := 0x01.
Definition LAN_CLIENT_TYPE_PING : Z := 0x02.
Definition LAN_CLIENT_TYPE_IPV4_FRAG : Z := 0x03.
Definition LAN_CLIENT_TYPE_AUTH_ME : Z := 0x04.
Definition LAN_CLIENT_TYPE_INFO : Z := 0x10.

Definition BROADCAST_MAC : bytes := [0xff; 0xff; 0xff; 0xff; 0xff; 0xff].

Record lan_client_fragment_header := {
  fh_src : bytes;
  fh_dst : bytes;
  fh_id : Z;
  fh_part : Z;
  fh_total_part : Z;
  fh_len : Z;
  fh_pmtu : Z;
}.

(** A zeroed slot, as [memset] leaves it. *)
Definition frag_zero : lan_client_fragment :=
  {| fr_local_id := 0; fr_src := replicate 4 0; fr_id := 0; fr_part := 0; fr_used := 0;
     fr_total_len := 0; fr_buffer := replicate (Z.to_nat ETHER_MTU) 0 |}.

Section send.
Context `{Env}.

(** The second loop of [lan_client_send_raw]: gathering the buffers. *)
Fixpoint raw_copy (bufs : list part) (packet : bytes) (cur_pos : Z) : option bytes :=
  match bufs with
  | [] => Some packet
  | b :: bufs =>
      packet ← memcpy packet cur_pos (p_ptr b) 0 (p_len b);
      raw_copy bufs packet (cur_pos + p_len b)
  end.

Definition lan_client_send_raw (bufs : list part) : M world Z :=
  let total_len := foldl (fun t b => t + p_len b) 0 bufs in
  if total_len =? 0 then ret 0
  else
    let* packet := mem (raw_copy bufs (uninit total_len) 0) in
    let* r := uv_udp_send packet in
    upd_lp (fun lp => set_lp_upload_packet (u64 (lp_upload_packet lp + 1)) lp) ;;;
    upd_lp (fun lp => set_lp_upload_byte (u64 (lp_upload_byte lp + total_len)) lp) ;;;
    ret r.

(** The [while] of [lan_client_send]; [header] keeps its bytes between iterations. *)
Fixpoint send_frags (fuel : nat) (header packet : bytes) (id i pos len pmtu : Z) : M world Z :=
  if pos <? len then
    match fuel with
    | O => halt AssertFail
    | S fuel =>
        let part_len := LMIN pmtu (len - pos) in
        let* header := mem (h ← WRITE_NET16 header LC_FRAG_ID id;
                            h ← WRITE_NET8 h LC_FRAG_PART i;
                            WRITE_NET16 h LC_FRAG_LEN part_len) in
        let* src := mem (mem_from packet pos) in
        let* r := lan_client_send_raw
          [whole [LAN_CLIENT_TYPE_IPV4_FRAG]; {| p_ptr := header; p_len := LC_FRAG_HEADER_LEN |};
           {| p_ptr := src; p_len := part_len |}] in
        if negb (r =? 0) then ret r
        else send_frags fuel header packet id (i + 1) (pos + part_len) len pmtu
    end
  else ret 0.

Definition lan_client_send (type : Z) (packet : bytes) (len : Z) : M world Z :=
  let* pmtu := gets (fun w => lp_pmtu (w_lp w)) in
  let send_whole := lan_client_send_raw [whole [type]; {| p_ptr := packet; p_len := len |}] in
  if (type =? LAN_CLIENT_TYPE_IPV4) && (0 <? pmtu) then
    let total_part := len / pmtu in
    let total_part := if pmtu * total_part <? len then total_part + 1 else total_part in
    if 1 <? total_part then
      let* id := gets (fun w => lp_frag_id (w_lp w)) in
      upd_lp (set_lp_frag_id (s32 (id + 1))) ;;;
      let* header := mem (h ← CPY_IPV4 (uninit LC_FRAG_HEADER_LEN) LC_FRAG_SRC packet IPV4_OFF_SRC;
                          h ← CPY_IPV4 h LC_FRAG_DST packet IPV4_OFF_DST;
                          h ← WRITE_NET8 h LC_FRAG_TOTAL_PART total_part;
                          WRITE_NET16 h LC_FRAG_PMTU pmtu) in
      send_frags (Z.to_nat len) header packet id 0 0 len pmtu
    else send_whole
  else send_whole.

Definition lan_client_send_keepalive : M world Z :=
  lan_client_send LAN_CLIENT_TYPE_KEEPALIVE [] 0.
Definition lan_client_send_ipv4 (dst_ip packet : bytes) (len : Z) : M world Z :=
  lan_client_send LAN_CLIENT_TYPE_IPV4 packet len.
Definition lan_client_send_auth_me (packet : bytes) (len : Z) : M world Z :=
  lan_client_send LAN_CLIENT_TYPE_AUTH_ME packet len.
End send.

Section receive.
Context `{Env}.

Definition lan_client_arp_for_each_cb (packet : bytes) (len : Z) (item : arp_item) : M world Z :=
  let* _ := send_ether (ai_mac item) ETHER_TYPE_IPV4 [{| p_ptr := packet; p_len := len |}] in
  ret 0.

Definition lan_client_on_broadcast (packet : bytes) (len : Z) : M world Z :=
  let* now := gets (fun w => lp_next_real_broadcast (w_lp w)) in
  if now : bool then
    upd_lp (set_lp_next_real_broadcast false) ;;;
    send_ether BROADCAST_MAC ETHER_TYPE_IPV4 [{| p_ptr := packet; p_len := len |}]
  else
    arp_for_each (lan_client_arp_for_each_cb packet len) ;;;
    ret 0.

Definition lan_client_process (packet : bytes) (len : Z) : M world Z :=
  if len =? 0 then ret 0
  else
    let* dst := mem (mem_get packet IPV4_OFF_DST 4) in
    let* c := gets pctx in
    if IS_BROADCAST dst (pc_subnet_net c) (pc_subnet_mask c) then
      lan_client_on_broadcast packet len
    else
      let* r := arp_get_mac_by_ip dst in
      match r with
      | None => ret 0
      | Some dst_mac => send_ether dst_mac ETHER_TYPE_IPV4 [{| p_ptr := packet; p_len := len |}]
      end.

Definition frag_header (packet : bytes) : option lan_client_fragment_header :=
  src ← mem_get packet LC_FRAG_SRC 4;
  dst ← mem_get packet LC_FRAG_DST 4;
  id ← READ_NET16 packet LC_FRAG_ID;
  part ← READ_NET8 packet LC_FRAG_PART;
  total_part ← READ_NET8 packet LC_FRAG_TOTAL_PART;
  len ← READ_NET16 packet LC_FRAG_LEN;
  pmtu ← READ_NET16 packet LC_FRAG_PMTU;
  Some {| fh_src := src; fh_dst := dst; fh_id := id; fh_part := part;
          fh_total_part := total_part; fh_len := len; fh_pmtu := pmtu |}.

(** The checks between the header and the table, in order. *)
Definition frag_refused (h : lan_client_fragment_header) (len : Z) : bool :=
  if (fh_total_part h =? 0) || (8 <? fh_total_part h) then true
  else if fh_total_part h <=? fh_part h then true
  else if (fh_pmtu h =? 0) || (fh_pmtu h <? fh_len h) then true
  else if len <? LC_FRAG_HEADER_LEN + fh_len h then true
  else ETHER_MTU <? fh_pmtu h * fh_part h + fh_len h.

Fixpoint find_frag (l : list lan_client_fragment) (id : Z) (src : bytes) : option nat :=
  match l with
  | [] => None
  | f :: l =>
      if negb (fr_used f =? 0) && (fr_id f =? id) && CMP_IPV4 (fr_src f) src then Some O
      else S <$> find_frag l id src
  end.

Fixpoint find_free (l : list lan_client_fragment) : option nat :=
  match l with
  | [] => None
  | f :: l => if fr_used f =? 0 then Some O else S <$> find_free l
  end.

Fixpoint find_oldest (l : list lan_client_fragment) (i : nat) (local_id max_dif : Z)
    (to_delete : option nat) : Z * option nat :=
  match l with
  | [] => (max_dif, to_delete)
  | f :: l =>
      let dif := LABS (fr_local_id f - local_id) in
      if negb (fr_used f =? 0) && (max_dif <? dif)
      then find_oldest l (S i) local_id dif (Some i)
      else find_oldest l (S i) local_id max_dif to_delete
  end.

(** Starting a datagram in slot [i]. *)
Definition claim (h : lan_client_fragment_header) (local_id : Z) (f : lan_client_fragment)
    : lan_client_fragment :=
  set_fr_part 0 (set_fr_src (take 4 (fh_src h)) (set_fr_local_id (u16 local_id)
    (set_fr_id (fh_id h) (set_fr_used 1 f)))).
Definition claim_slot (h : lan_client_fragment_header) (i : nat) : M world unit :=
  upd_lp (fun lp => set_lp_local_id (s32 (lp_local_id lp + 1))
                      (set_lp_frags (alter (claim h (lp_local_id lp)) i (lp_frags lp)) lp)).

(** Which slot a fragment goes to: its datagram's, a free one, or the oldest. *)
Definition frag_slot (h : lan_client_fragment_header) : M world (option nat) :=
  let* frags := gets (fun w => lp_frags (w_lp w)) in
  match find_frag frags (fh_id h) (fh_src h) with
  | Some i => ret (Some i)
  | None =>
      match find_free frags with
      | Some i => claim_slot h i ;;; ret (Some i)
      | None =>
          let* local_id := gets (fun w => lp_local_id (w_lp w)) in
          let '(max_dif, to_delete) := find_oldest frags 0 local_id 0 None in
          if LC_FRAG_COUNT <? max_dif then
            match to_delete with
            | Some i => claim_slot h i ;;; ret (Some i)
            | None => halt NullDeref
            end
          else ret None
      end
  end.

(** The slot after the fragment's bytes. *)
Definition frag_store (h : lan_client_fragment_header) (packet : bytes) (f : lan_client_fragment)
    : option lan_client_fragment :=
  let f := set_fr_part (Z.lor (fr_part f) (u8 (Z.shiftl 1 (fh_part h)))) f in
  b ← memcpy (fr_buffer f) (fh_pmtu h * fh_part h) packet LC_FRAG_HEADER_LEN (fh_len h);
  let f := set_fr_buffer b f in
  Some (if fh_part h =? fh_total_part h - 1
        then set_fr_total_len (u16 ((fh_total_part h - 1) * fh_pmtu h + fh_len h)) f
        else f).

Definition set_slot (i : nat) (f : lan_client_fragment) : M world unit :=
  upd_lp (fun lp => set_lp_frags (<[i := f]> (lp_frags lp)) lp).

Definition lan_client_process_frag (packet : bytes) (len : Z) : M world Z :=
  if len <? LC_FRAG_HEADER_LEN then ret 0
  else
    let* h := mem (frag_header packet) in
    if frag_refused h len then ret 0
    else
      let* slot := frag_slot h in
      match slot with
      | None => ret 0
      | Some i =>
          let* o := gets (fun w => lp_frags (w_lp w) !! i) in
          let* f := mem (f ← o; frag_store h packet f) in
          if u8 (Z.shiftl 1 (fh_total_part h) - 1) =? fr_part f then
            set_slot i (set_fr_used 0 f) ;;;
            lan_client_process (fr_buffer f) (fr_total_len f)
          else
            set_slot i f ;;;
            ret 0
      end.

Definition lan_client_real_broadcast_timer : M world unit :=
  upd_lp (set_lp_next_real_broadcast true).

Definition lan_client_keepalive_timer : M world unit :=
  let* _ := lan_client_send_keepalive in
  ret tt.

(** The hash of the key and the challenge; [response] has been allocated with room
    for it and the user name. *)
Definition auth_response (key challenge : bytes) (challenge_len : Z) (username : bytes)
    : option bytes :=
  let ctx := {| sha_state := [0; 0; 0; 0; 0]; sha_count0 := 0; sha_count1 := 0;
                sha_buffer := uninit 64 |} in
  ctx ← SHA1Update (SHA1Init ctx) key 20;
  ctx ← SHA1Update ctx challenge challenge_len;
  '(digest, _) ← SHA1Final ctx;
  let username_len := u16 (zlen username) in
  let response_len := u16 (20 + username_len) in
  r ← mem_put (uninit response_len) 0 digest;
  memcpy r 20 username 0 username_len.

Definition lan_client_process_auth_me (packet : bytes) (len : Z) : M world unit :=
  let* lp := gets w_lp in
  match lp_username lp with
  | Some username =>
      let* auth_type := mem (READ_NET8 packet 0) in
      if auth_type =? 0 then
        let* challenge := mem (mem_from packet 1) in
        let challenge_len := u16 (len - 1) in
        let* response := mem (auth_response (lp_key lp) challenge challenge_len username) in
        let* _ := lan_client_send_auth_me response (zlen response) in
        ret tt
      else ret tt
  | None => ret tt
  end.

(** [printf("%.*s", n, p)]: up to [n] characters, stopping at a NUL. *)
Fixpoint c_string (n : nat) (p : bytes) : bytes :=
  match n, p with
  | S n, b :: p => if b =? 0 then [] else b :: c_string n p
  | _, _ => []
  end.

(** [buf] is the receive buffer [client_buf], [nread] the size libuv reports. *)
Definition lan_client_on_recv (nread : Z) (buf : bytes) : M world unit :=
  if nread <=? 0 then ret tt
  else
    let recv_len := u16 nread in
    let* first := mem (READ_NET8 buf 0) in
    let type := Z.land first 0x7f in
    upd_lp (fun lp => set_lp_download_packet (u64 (lp_download_packet lp + 1)) lp) ;;;
    upd_lp (fun lp => set_lp_download_byte (u64 (lp_download_byte lp + recv_len)) lp) ;;;
    let* rest := mem (mem_from buf 1) in
    if type =? LAN_CLIENT_TYPE_KEEPALIVE then ret tt
    else if type =? LAN_CLIENT_TYPE_IPV4 then
      let* _ := lan_client_process rest (u16 (recv_len - 1)) in ret tt
    else if type =? LAN_CLIENT_TYPE_IPV4_FRAG then
      let* _ := lan_client_process_frag rest (u16 (recv_len - 1)) in ret tt
    else if type =? LAN_CLIENT_TYPE_AUTH_ME then
      lan_client_process_auth_me rest (u16 (recv_len - 1))
    else if type =? LAN_CLIENT_TYPE_INFO then
      modify (emit (EvInfo (c_string (Z.to_nat (recv_len - 1)) rest)))
    else ret tt.
End receive.

Section lifecycle.
Context `{Env}.

Definition lan_client_init : M world Z :=
  let* lp := gets w_lp in
  let pmtu := lp_pmtu lp in
  if negb (pmtu =? 0) && (pmtu <? MIN_FRAG_PAYLOAD_LEN) then halt (Exited 1)
  else
    upd_lp (set_lp_frag_id 0) ;;;
    upd_lp (set_lp_local_id 0) ;;;
    upd_lp (set_lp_next_real_broadcast true) ;;;
    upd_lp (set_lp_frags (replicate (Z.to_nat LC_FRAG_COUNT) frag_zero)) ;;;
    let* _ := call UvUdpInit in
    (if lp_broadcast lp then
       let* _ := call (UvUdpBind AF_INET 11451) in ret tt
     else if sin_family (lp_server_addr lp) =? AF_INET6 then
       let* _ := call (UvUdpBind AF_INET6 0) in ret tt
     else ret tt) ;;;
    let* _ := call (UvTimerInit KeepaliveTimer) in
    let* _ := call (UvTimerInit RealBroadcastTimer) in
    let* r := call (UvTimerStart KeepaliveTimer 0 (10 * 1000)) in
    if negb (r =? 0) then ret r
    else
      let* r := call (UvTimerStart RealBroadcastTimer 0 1000) in
      if negb (r =? 0) then ret r
      else
        let* r := call UvUdpRecvStart in
        if negb (r =? 0) then ret r
        else
          upd_lp (set_lp_upload_byte 0) ;;;
          upd_lp (set_lp_download_byte 0) ;;;
          upd_lp (set_lp_upload_packet 0) ;;;
          upd_lp (set_lp_download_packet 0) ;;;
          ret r.

Definition lan_client_close : M world Z :=
  let* r := call UvUdpRecvStop in
  if negb (r =? 0) then ret r
  else
    let* r := call (UvTimerStop KeepaliveTimer) in
    if negb (r =? 0) then ret r
    else
      let* r := call (UvTimerStop RealBroadcastTimer) in
      if negb (r =? 0) then ret r
      else
        let* _ := call UvCloseClient in
        let* _ := call (UvCloseTimer KeepaliveTimer) in
        let* _ := call (UvCloseTimer RealBroadcastTimer) in
        ret 0.
End lifecycle.

(** ** Sending *)

Section sending.
Context `{Env}.

(** The client after handing one datagram to the socket. *)
Definition sent_relay (data : bytes) (w : world) : world :=
  let lp := w_lp w in
  set_w_lp (set_lp_upload_byte (u64 (lp_upload_byte lp + zlen data))
              (set_lp_upload_packet (u64 (lp_upload_packet lp + 1)) lp))
    (emit (EvRelay data) (tick w)).

(** Sending datagrams in order until one is refused. *)
Fixpoint relay_all (msgs : list bytes) (w : world) : outcome world Z :=
  match msgs with
  | [] => Ok 0 w
  | m :: msgs =>
      let r := env_udp_send (w_ticks w) m in
      if r =? 0 then relay_all msgs (sent_relay m w) else Ok r (sent_relay m w)
  end.

Lemma raw_copy_eq bufs pre rest :
  wf_payload bufs -> zlen (chain_data bufs) = zlen rest ->
  raw_copy bufs (pre ++ rest) (zlen pre) = Some (pre ++ chain_data bufs).
Proof.
  intros Hb. revert pre rest. induction Hb as [|p bufs Hp Hb IH]; intros pre rest Hl.
  - symmetry in Hl. apply zlen_0_inv in Hl. by subst.
  - rewrite chain_data_cons in *. pose proof (zlen_part_data p Hp) as Ep.
    rewrite zlen_app in Hl. zlen_facts. destruct (part_split p Hp) as [q Eq].
    cbn [raw_copy]. rewrite Eq, <- Ep.
    pose proof (memcpy_app pre rest [] (part_data p) q) as Mc. rewrite zlen_nil in Mc.
    simpl app in Mc. rewrite Mc by lia. cbn [mbind option_bind].
    rewrite app_assoc, <- zlen_app, IH; [by rewrite app_assoc|].
    rewrite <- to_nat_zlen, zlen_drop by lia. lia.
Qed.

Lemma foldl_total bufs t :
  wf_payload bufs -> foldl (fun t b => t + p_len b) t bufs = t + zlen (chain_data bufs).
Proof.
  intros Hb. revert t. induction Hb as [|p bufs Hp Hb IH]; intros t; simpl.
  - unfold chain_data. simpl. rewrite zlen_nil. lia.
  - rewrite IH, chain_data_cons, zlen_app, zlen_part_data by done. lia.
Qed.

Lemma send_raw_run bufs w :
  wf_payload bufs -> chain_data bufs <> [] ->
  lan_client_send_raw bufs w =
    Ok (env_udp_send (w_ticks w) (chain_data bufs)) (sent_relay (chain_data bufs) w).
Proof.
  intros Hb Hne. unfold lan_client_send_raw. rewrite foldl_total, Z.add_0_l by done.
  destruct (Z.eqb_spec (zlen (chain_data bufs)) 0) as [E|_]; [by apply zlen_0_inv in E|].
  pose proof (raw_copy_eq bufs [] (uninit (zlen (chain_data bufs)))) as E.
  rewrite zlen_nil in E. simpl app in E.
  rewrite E by (try done; rewrite zlen_uninit by apply zlen_nonneg; done). done.
Qed.

Definition be16 (v : Z) : bytes := [u16 v / 256; u16 v mod 256].

(** Fragment [i] of a packet: the 16-byte header and the bytes from [i * pmtu]. *)
Definition chunk (pmtu : Z) (pkt : bytes) (i : nat) : bytes :=
  take (Z.to_nat pmtu) (drop (i * Z.to_nat pmtu) pkt).
Definition frag_hdr (src dst : bytes) (id i total plen pmtu : Z) : bytes :=
  src ++ dst ++ be16 id ++ [u8 i; u8 total] ++ be16 plen ++ be16 pmtu.
Definition ip_src_of (pkt : bytes) : bytes := take 4 (drop 12 pkt).
Definition ip_dst_of (pkt : bytes) : bytes := take 4 (drop 16 pkt).
Definition parts_of (pmtu len : Z) : Z := (len + pmtu - 1) / pmtu.
Definition fragment (pmtu id : Z) (pkt : bytes) (i : nat) : bytes :=
  frag_hdr (ip_src_of pkt) (ip_dst_of pkt) id (Z.of_nat i) (parts_of pmtu (zlen pkt))
    (zlen (chunk pmtu pkt i)) pmtu ++ chunk pmtu pkt i.
Definition fragments (pmtu id : Z) (pkt : bytes) : list bytes :=
  (fun i => LAN_CLIENT_TYPE_IPV4_FRAG :: fragment pmtu id pkt i) <$>
    seq 0 (Z.to_nat (parts_of pmtu (zlen pkt))).

Lemma parts_of_code pmtu len :
  0 < pmtu -> 0 <= len ->
  (if pmtu * (len / pmtu) <? len then len / pmtu + 1 else len / pmtu) = parts_of pmtu len.
Proof.
  intros Hp Hl. unfold parts_of.
  pose proof (Z.div_mod len pmtu). pose proof (Z.mod_pos_bound len pmtu).
  destruct (Z.ltb_spec (pmtu * (len / pmtu)) len).
  - apply (Z.div_unique_pos _ _ _ (len mod pmtu - 1)); lia.
  - apply (Z.div_unique_pos _ _ _ (pmtu - 1)); lia.
Qed.

(** Part [i] starts before the end exactly when [i] is below the number of parts. *)
Lemma parts_of_spec pmtu len i :
  0 < pmtu -> 0 <= len -> 0 <= i -> i < parts_of pmtu len <-> i * pmtu < len.
Proof.
  intros Hp Hl Hi. unfold parts_of.
  pose proof (Z.div_mod (len + pmtu - 1) pmtu). pose proof (Z.mod_pos_bound (len + pmtu - 1) pmtu).
  split; intros; nia.
Qed.

Lemma zlen_chunk pmtu pkt i :
  0 < pmtu -> Z.of_nat i * pmtu <= zlen pkt ->
  zlen (chunk pmtu pkt i) = Z.min pmtu (zlen pkt - Z.of_nat i * pmtu).
Proof.
  intros Hp Hi. unfold chunk, zlen in *. rewrite length_take, length_drop. nia.
Qed.

Lemma drop_chunk pmtu pkt post i :
  0 < pmtu -> Z.of_nat i * pmtu <= zlen pkt ->
  exists q, drop (Z.to_nat (Z.of_nat i * pmtu)) (pkt ++ post) = chunk pmtu pkt i ++ q.
Proof.
  intros Hp Hi. unfold chunk.
  exists (drop (Z.to_nat pmtu) (drop (i * Z.to_nat pmtu) pkt) ++ post).
  rewrite app_assoc, take_drop. rewrite drop_app_le by (unfold zlen in *; lia).
  do 2 f_equal. lia.
Qed.

(** A header whose identification, part and length fields hold anything. *)
Definition frag_shape (src dst : bytes) (total pmtu : Z) (h : bytes) : Prop :=
  exists x y p l m, h = src ++ dst ++ [x; y; p; u8 total; l; m] ++ be16 pmtu.

Lemma frag_hdr_write src dst total pmtu h id i plen :
  is_ip src -> is_ip dst -> frag_shape src dst total pmtu h ->
  (h ← WRITE_NET16 h LC_FRAG_ID id; h ← WRITE_NET8 h LC_FRAG_PART i;
   WRITE_NET16 h LC_FRAG_LEN plen) = Some (frag_hdr src dst id i total plen pmtu).
Proof.
  intros [(a & b & c & d & ->)%length_4_inv _] [(a' & b' & c' & d' & ->)%length_4_inv _]
    (x & y & p & l & m & ->).
  rewrite WRITE_NET16_put. omem. rewrite WRITE_NET8_put. omem. by rewrite WRITE_NET16_put.
Qed.

Lemma frag_hdr_shape src dst id i total plen pmtu :
  frag_shape src dst total pmtu (frag_hdr src dst id i total plen pmtu).
Proof. unfold frag_shape, frag_hdr, be16. simpl. eauto 10. Qed.

Lemma frag_hdr_ok src dst id i total plen pmtu :
  is_ip src -> is_ip dst ->
  zlen (frag_hdr src dst id i total plen pmtu) = 16 /\
  is_bytes (frag_hdr src dst id i total plen pmtu).
Proof.
  intros [Ls Hs] [Ld Hd]. split.
  - unfold frag_hdr, zlen. rewrite !length_app, Ls, Ld. done.
  - unfold frag_hdr. repeat apply Forall_app_2; try done;
      try (apply hi_lo_bytes, u16_range). repeat constructor; apply u8_range.
Qed.

Lemma ip_addrs_ok pkt : is_bytes pkt -> 20 <= zlen pkt -> is_ip (ip_src_of pkt) /\ is_ip (ip_dst_of pkt).
Proof.
  intros Hb Hl. unfold ip_src_of, ip_dst_of, is_ip, zlen in *.
  rewrite !length_take, !length_drop. split_and!; try lia; by apply Forall_take, Forall_drop.
Qed.

Lemma send_frags_run pmtu id pkt post n i fuel h w :
  0 < pmtu -> is_bytes pkt -> 20 <= zlen pkt -> is_bytes post ->
  Z.of_nat i + Z.of_nat n = parts_of pmtu (zlen pkt) -> (n <= fuel)%nat ->
  frag_shape (ip_src_of pkt) (ip_dst_of pkt) (parts_of pmtu (zlen pkt)) pmtu h ->
  send_frags fuel h (pkt ++ post) id (Z.of_nat i) (Z.min (Z.of_nat i * pmtu) (zlen pkt))
    (zlen pkt) pmtu w =
  relay_all ((fun i => LAN_CLIENT_TYPE_IPV4_FRAG :: fragment pmtu id pkt i) <$> seq i n) w.
Proof.
  intros Hp Hb Hl Hpost. destruct (ip_addrs_ok pkt Hb Hl) as [Hs Hd].
  revert i fuel h w. induction n as [|n IH]; intros i fuel h w Hi Hf Hh.
  - assert (E : zlen pkt <= Z.of_nat i * pmtu).
    { destruct (parts_of_spec pmtu (zlen pkt) (Z.of_nat i)) as [_ Hx]; [lia..|].
      destruct (Z.leb_spec (zlen pkt) (Z.of_nat i * pmtu)); [done|]. lia. }
    assert (Et : (Z.min (Z.of_nat i * pmtu) (zlen pkt) <? zlen pkt) = false) by lia.
    destruct fuel; cbn [send_frags]; by rewrite Et.
  - assert (E : Z.of_nat i * pmtu < zlen pkt) by (apply parts_of_spec; lia).
    destruct fuel as [|fuel]; [lia|]. cbn [send_frags].
    rewrite (Z.min_l (Z.of_nat i * pmtu)) by lia. case_test; [|lia].
    rewrite (frag_hdr_write (ip_src_of pkt) (ip_dst_of pkt) (parts_of pmtu (zlen pkt)) pmtu) by done.
    pose proof (zlen_chunk pmtu pkt i Hp ltac:(lia)) as Ec.
    replace (LMIN pmtu (zlen pkt - Z.of_nat i * pmtu)) with (zlen (chunk pmtu pkt i))
      by (rewrite Ec; unfold LMIN; case_test; lia).
    unfold bind at 1. unfold mem at 1. unfold ret at 1. unfold bind at 1.
    rewrite mem_from_Some by (rewrite zlen_app; zlia). unfold mem at 1. unfold ret at 1.
    destruct (drop_chunk pmtu pkt post i Hp ltac:(lia)) as [q Eq]. rewrite Eq.
    set (hd := frag_hdr _ _ _ _ _ _ _).
    destruct (frag_hdr_ok (ip_src_of pkt) (ip_dst_of pkt) id (Z.of_nat i)
      (parts_of pmtu (zlen pkt)) (zlen (chunk pmtu pkt i)) pmtu Hs Hd) as [Zh Bh]. fold hd in Zh, Bh.
    assert (Hcd : chain_data [whole [LAN_CLIENT_TYPE_IPV4_FRAG];
      {| p_ptr := hd; p_len := LC_FRAG_HEADER_LEN |};
      {| p_ptr := chunk pmtu pkt i ++ q; p_len := zlen (chunk pmtu pkt i) |}] =
      LAN_CLIENT_TYPE_IPV4_FRAG :: fragment pmtu id pkt i).
    { rewrite chain_data_whole. rewrite (whole_eq hd) by done. rewrite chain_data_whole.
      unfold chain_data, part_data. simpl. by rewrite to_nat_zlen, take_app_length, app_nil_r. }
    assert (Bpp : is_bytes (chunk pmtu pkt i ++ q)).
    { rewrite <- Eq. by apply Forall_drop, Forall_app_2. }
    unfold bind at 1. rewrite send_raw_run; rewrite ?Hcd; [| |done].
    2: { constructor; [apply wf_whole; repeat constructor; unfold is_u8; done|].
         constructor; [split; cbn [p_ptr p_len]; [rewrite Zh; done|done]|].
         constructor; [split; cbn [p_ptr p_len]; [zlia|done]|constructor]. }
    cbn [seq fmap list_fmap relay_all]. case_test; [|done]. cbn [negb].
    replace (Z.of_nat i + 1) with (Z.of_nat (S i)) by lia.
    replace (Z.of_nat i * pmtu + zlen (chunk pmtu pkt i))
      with (Z.min (Z.of_nat (S i) * pmtu) (zlen pkt)) by lia.
    apply IH; [lia|lia|apply frag_hdr_shape].
Qed.

Definition bump_frag_id (w : world) : world :=
  set_w_lp (set_lp_frag_id (s32 (lp_frag_id (w_lp w) + 1)) (w_lp w)) w.

Lemma frag_first_header total pmtu pkt post :
  is_bytes pkt -> 20 <= zlen pkt ->
  exists h, (h ← CPY_IPV4 (uninit LC_FRAG_HEADER_LEN) LC_FRAG_SRC (pkt ++ post) IPV4_OFF_SRC;
    h ← CPY_IPV4 h LC_FRAG_DST (pkt ++ post) IPV4_OFF_DST;
    h ← WRITE_NET8 h LC_FRAG_TOTAL_PART total;
    WRITE_NET16 h LC_FRAG_PMTU pmtu) = Some h /\
    frag_shape (ip_src_of pkt) (ip_dst_of pkt) total pmtu h.
Proof.
  intros Hb Hl. destruct (ip_addrs_ok pkt Hb Hl) as [Hs Hd]. unfold CPY_IPV4, memcpy.
  assert (E : forall o, (Z.to_nat o <= 16)%nat ->
    take (Z.to_nat 4) (drop (Z.to_nat o) (pkt ++ post)) = take 4 (drop (Z.to_nat o) pkt)).
  { intros o Ho. change (Z.to_nat 4) with 4%nat. unfold zlen in Hl.
    by rewrite drop_app_le, take_app_le by (rewrite ?length_drop; lia). }
  rewrite !(mem_get_Some (pkt ++ post)) by (rewrite ?zlen_app; consts; zlia).
  rewrite !E by (consts; lia).
  change (take 4 (drop (Z.to_nat IPV4_OFF_SRC) pkt)) with (ip_src_of pkt).
  change (take 4 (drop (Z.to_nat IPV4_OFF_DST) pkt)) with (ip_dst_of pkt).
  destruct Hs as [(a & b & c & d & ->)%length_4_inv _].
  destruct Hd as [(a' & b' & c' & d' & ->)%length_4_inv _].
  omem. rewrite WRITE_NET8_put. omem. rewrite WRITE_NET16_put. eexists. split; [reflexivity|].
  unfold frag_shape, be16. simpl. do 5 eexists. reflexivity.
Qed.

Lemma send_whole_run type pkt post w :
  is_u8 type -> is_bytes pkt -> is_bytes post ->
  lan_client_send_raw [whole [type]; {| p_ptr := pkt ++ post; p_len := zlen pkt |}] w =
    Ok (env_udp_send (w_ticks w) (type :: pkt)) (sent_relay (type :: pkt) w).
Proof.
  intros Ht Hb Hpost.
  assert (E : chain_data [whole [type]; {| p_ptr := pkt ++ post; p_len := zlen pkt |}] = type :: pkt).
  { rewrite chain_data_whole. unfold chain_data, part_data. simpl.
    by rewrite to_nat_zlen, take_app_length, app_nil_r. }
  rewrite send_raw_run; rewrite ?E; [done| |done].
  constructor; [apply wf_whole; by repeat constructor; apply Ht|].
  constructor; [|constructor]. split; cbn [p_ptr p_len]; [zlia|by apply Forall_app_2].
Qed.

Lemma relay_all_one m w :
  relay_all [m] w = Ok (env_udp_send (w_ticks w) m) (sent_relay m w).
Proof. cbn [relay_all]. case_test; congruence. Qed.

Lemma send_ipv4_run dst pkt post w :
  is_bytes pkt -> is_bytes post -> 20 <= zlen pkt ->
  let pmtu := lp_pmtu (w_lp w) in
  lan_client_send_ipv4 dst (pkt ++ post) (zlen pkt) w =
    if decide (0 < pmtu < zlen pkt)
    then relay_all (fragments pmtu (lp_frag_id (w_lp w)) pkt) (bump_frag_id w)
    else relay_all [LAN_CLIENT_TYPE_IPV4 :: pkt] w.
Proof.
  intros Hb Hpost Hl pmtu. unfold lan_client_send_ipv4, lan_client_send.
  unfold bind at 1. unfold gets at 1. fold pmtu.
  change (LAN_CLIENT_TYPE_IPV4 =? LAN_CLIENT_TYPE_IPV4) with true. cbn [andb].
  destruct (Z.ltb_spec 0 pmtu) as [Hp|Hp]; cbn [andb].
  - rewrite parts_of_code by lia. pose proof (parts_of_spec pmtu (zlen pkt) 1 Hp) as Hspec.
    destruct (Z.ltb_spec 1 (parts_of pmtu (zlen pkt))) as [Ht|Ht].
    + rewrite decide_True by lia. unfold bind at 1. unfold gets at 1.
      rewrite (bind_ok _ _ _ tt (bump_frag_id w)) by done.
      destruct (frag_first_header (parts_of pmtu (zlen pkt)) pmtu pkt post) as (h & -> & Hh);
        [done..|]. rewrite (bind_ok _ _ _ h (bump_frag_id w)) by done.
      pose proof (send_frags_run pmtu (lp_frag_id (w_lp w)) pkt post
        (Z.to_nat (parts_of pmtu (zlen pkt))) 0 (Z.to_nat (zlen pkt)) h (bump_frag_id w)) as E.
      simpl Z.of_nat in E. rewrite Z.mul_0_l, Z.min_l in E by lia. apply E; try done; [lia|].
      unfold parts_of.
      pose proof (Z.div_lt_upper_bound (zlen pkt + pmtu - 1) pmtu (zlen pkt + 1)). nia.
    + rewrite decide_False by lia. rewrite relay_all_one.
      by apply send_whole_run; [unfold is_u8; done|..].
  - rewrite decide_False by lia. rewrite relay_all_one.
    by apply send_whole_run; [unfold is_u8; done|..].
Qed.

(** Relaying a packet.  Without a path MTU, or when the packet fits in it, one
    datagram goes out: the type byte and the packet.  Otherwise the packet goes out
    in [ceil(len / pmtu)] fragments, in order, each with the packet's addresses, a
    fresh identification, its index, the number of parts, its length and the path
    MTU; sending stops at the first error, whose code is returned. *)
Theorem lan_client_send_ipv4_spec dst pkt post w :
  is_bytes pkt -> is_bytes post -> 20 <= zlen pkt ->
  let pmtu := lp_pmtu (w_lp w) in
  lan_client_send_ipv4 dst (pkt ++ post) (zlen pkt) w =
    if decide (0 < pmtu < zlen pkt)
    then relay_all (fragments pmtu (lp_frag_id (w_lp w)) pkt) (bump_frag_id w)
    else relay_all [LAN_CLIENT_TYPE_IPV4 :: pkt] w.
Proof. apply send_ipv4_run. Qed.
End sending.

(** ** The reassembly table *)

(** A slot that holds a datagram in progress with this key. *)
Definition holds (src : bytes) (id : Z) (f : lan_client_fragment) : Prop :=
  fr_used f <> 0 /\ fr_id f = id /\ fr_src f = src.
#[global] Instance holds_dec src id f : Decision (holds src id f).
Proof. unfold holds. apply _. Defined.

Record slot_ok (f : lan_client_fragment) : Prop := {
  so_src : length (fr_src f) = 4%nat;
  so_buffer : zlen (fr_buffer f) = ETHER_MTU;
  so_bytes : is_bytes (fr_buffer f);
  so_total : 0 <= fr_total_len f <= ETHER_MTU;
  so_part : is_u8 (fr_part f);
}.

(** The table: [LC_FRAG_COUNT] well-formed slots, no two for the same datagram. *)
Record table_ok (l : list lan_client_fragment) : Prop := {
  to_length : zlen l = LC_FRAG_COUNT;
  to_slots : Forall slot_ok l;
  to_unique i j f g :
    l !! i = Some f -> l !! j = Some g -> fr_used f <> 0 ->
    holds (fr_src f) (fr_id f) g -> i = j;
}.

Section table.
Context `{Env}.
Implicit Types l : list lan_client_fragment.

Lemma find_frag_Some l id src i :
  Forall slot_ok l -> length src = 4%nat ->
  find_frag l id src = Some i -> exists f, l !! i = Some f /\ holds src id f.
Proof.
  intros Hl Hs. revert i. induction Hl as [|f l Hf Hl IH]; intros i Hi; [done|].
  simpl in Hi. rewrite CMP_IPV4_spec in Hi by (done || apply Hf).
  destruct (Z.eqb_spec (fr_used f) 0); simpl in Hi;
    [|destruct (Z.eqb_spec (fr_id f) id); simpl in Hi; [case_bool_decide; simplify_eq|]].
  2: by exists f.
  all: destruct (find_frag l _ src) as [j|] eqn:E; simplify_eq/=; by apply IH.
Qed.

Lemma find_frag_None l id src :
  Forall slot_ok l -> length src = 4%nat ->
  find_frag l id src = None <-> Forall (fun f => ~ holds src id f) l.
Proof.
  intros Hl Hs. induction Hl as [|f l Hf Hl IH]; [done|]. simpl.
  rewrite Forall_cons, CMP_IPV4_spec by (done || apply Hf). unfold holds at 1.
  destruct (Z.eqb_spec (fr_used f) 0); simpl;
    [|destruct (Z.eqb_spec (fr_id f) id); simpl; [case_bool_decide|]];
    rewrite ?fmap_None, ?IH; naive_solver.
Qed.

Lemma find_free_Some l i :
  find_free l = Some i -> exists f, l !! i = Some f /\ fr_used f = 0.
Proof.
  revert i. induction l as [|f l IH]; intros i Hi; [done|]. simpl in Hi.
  destruct (Z.eqb_spec (fr_used f) 0); simplify_eq/=; [by exists f|].
  destruct (find_free l) as [j|] eqn:E; simplify_eq/=. by apply IH.
Qed.

Lemma find_free_None l : find_free l = None <-> Forall (fun f => fr_used f <> 0) l.
Proof.
  induction l as [|f l IH]; [done|]. simpl. rewrite Forall_cons, <- IH.
  destruct (Z.eqb_spec (fr_used f) 0); [naive_solver|]. rewrite fmap_None. naive_solver.
Qed.

(** The oldest slot, by distance of its local identifier. *)
Lemma find_oldest_spec l i lid m d :
  let r := find_oldest l i lid m d in
  m <= r.1 /\ (r = (m, d) \/ exists k f, r = (LABS (fr_local_id f - lid), Some (i + k)%nat) /\
    l !! k = Some f /\ fr_used f <> 0) /\
  (forall k f, l !! k = Some f -> fr_used f <> 0 -> LABS (fr_local_id f - lid) <= r.1).
Proof.
  revert i m d. induction l as [|f l IH]; intros i m d; simpl; [split_and!; [lia|by left|done]|].
  destruct (Z.eqb_spec (fr_used f) 0) as [Hu|Hu]; simpl.
  - destruct (IH (S i) m d) as (H1 & H2 & H3). split_and!; [done| |].
    + destruct H2 as [->|(k & g & -> & Hk & Hg)]; [by left|]. right. exists (S k), g.
      split_and!; [do 2 f_equal; lia|done|done].
    + intros [|k] g Hk Hg; simplify_eq/=; eauto.
  - set (dif := LABS _). destruct (Z.ltb_spec m dif).
    + destruct (IH (S i) dif (Some i)) as (H1 & H2 & H3). split_and!; [lia| |].
      * right. destruct H2 as [->|(k & g & -> & Hk & Hg)].
        { exists O, f. split_and!; [do 2 f_equal; lia|done|done]. }
        exists (S k), g. split_and!; [do 2 f_equal; lia|done|done].
      * intros [|k] g Hk Hg; simplify_eq/=; [done|eauto].
    + destruct (IH (S i) m d) as (H1 & H2 & H3). split_and!; [done| |].
      * destruct H2 as [->|(k & g & -> & Hk & Hg)]; [by left|]. right. exists (S k), g.
        split_and!; [do 2 f_equal; lia|done|done].
      * intros [|k] g Hk Hg; simplify_eq/=; [lia|eauto].
Qed.

(** Replacing the contents of slot [i] keeps the table well formed as long as the
    new contents are, and no other slot is in use for the same datagram. *)
Lemma table_insert l i f :
  table_ok l -> slot_ok f ->
  (forall j g, j <> i -> l !! j = Some g -> fr_used f <> 0 -> ~ holds (fr_src f) (fr_id f) g) ->
  table_ok (<[i := f]> l).
Proof.
  intros [Hl Hs Hu] Hf Hne. constructor; [by rewrite zlen_insert|by apply Forall_insert|].
  intros j k g h Hj Hk Hg Hh.
  destruct (decide (j = i)) as [->|Hji], (decide (k = i)) as [->|Hki]; [done|..].
  - rewrite list_lookup_insert_ne in Hk by done.
    apply list_lookup_insert_Some in Hj as [(_ & -> & _)|(? & _)]; [|done].
    destruct (Hne k h); done.
  - rewrite list_lookup_insert_ne in Hj by done.
    apply list_lookup_insert_Some in Hk as [(_ & -> & _)|(? & _)]; [|done].
    destruct Hh as (Hu' & Hid & Hsrc). destruct (Hne j g); [done..|].
    by split_and!; [|symmetry|symmetry].
  - rewrite list_lookup_insert_ne in Hj, Hk by done. eauto.
Qed.
End table.

(** ** Delivering a packet *)

Section deliver.
Context `{Env}.

(** What the packet layer does not touch. *)
Definition client_part (w : world) :=
  let lp := w_lp w in
  (lp_frags lp, lp_local_id lp, lp_frag_id lp, lp_pmtu lp, lp_username lp, lp_key lp).
Definition delivers (w w' : world) : Prop :=
  ctx_ok (pctx w') /\ client_part w' = client_part w.

Lemma delivers_refl w : ctx_ok (pctx w) -> delivers w w.
Proof. done. Qed.
Lemma delivers_trans w1 w2 w3 : delivers w1 w2 -> delivers w2 w3 -> delivers w1 w3.
Proof. intros [_ E1] [H2 E2]. split; [done|congruence]. Qed.

Lemma send_ether_post dst type c w :
  ctx_ok (pctx w) -> is_mac dst -> wf_payload c ->
  post (send_ether dst type c) (fun _ w' => delivers w w') w.
Proof.
  intros Hc [Hd Hdb] Hp. pose proof (ctx_ok_buffer_ok _ Hc) as Hb.
  destruct (ctx_mac _ Hc) as [Lm Bm].
  destruct (decide (14 + zlen (chain_data c) < pc_buffer_len (pctx w))) as [Hl|Hl].
  - eapply post_ok; [by apply send_ether_ok|]. split; [|done].
    apply transmitted_ctx_ok; [done|]. rewrite zlen_framed by done.
    rewrite (ctx_buffer_len _ Hc) in Hl. lia.
  - unfold send_ether, send_ether_ex. apply post_bind, post_gets, post_bind.
    rewrite ether_header_eq by done. apply (post_mem _ (eth_hdr dst (pc_mac (pctx w)) type)); [done|].
    set (h := eth_hdr _ _ _). assert (Hz : zlen h = 14) by by apply zlen_eth_hdr.
    rewrite (whole_eq h) by done.
    destruct (send_payloads_refused (whole h :: c) w) as (buf & Hbl & E);
      rewrite ?chain_data_whole; [|done|rewrite (ctx_buffer_len _ Hc); consts; lia|
        rewrite zlen_app; lia|].
    { constructor; [|done]. by apply wf_whole, eth_hdr_is_bytes. }
    eapply post_ok; [exact E|]. split; [|done]. destruct Hc. constructor; try done.
    simpl. congruence.
Qed.

Lemma arp_item_mac w i item :
  ctx_ok (pctx w) -> pc_arp_list (pctx w) !! i = Some item -> is_mac (ai_mac item).
Proof. intros Hc Hi. destruct (ctx_arp _ Hc) as [_ Hf]. by eapply Forall_lookup_1 in Hf as [_ ?]. Qed.

Lemma arp_for_each_post packet len w :
  ctx_ok (pctx w) -> wf_part {| p_ptr := packet; p_len := len |} ->
  post (arp_for_each (lan_client_arp_for_each_cb packet len)) (fun _ w' => delivers w w') w.
Proof.
  intros Hc Hp. unfold arp_for_each. apply post_bind, (post_ok _ (now_at w) _ (tick w)); [done|].
  assert (Hc0 : delivers w (tick w)) by done. revert Hc0. generalize (tick w).
  assert (Hidx : Forall (fun i => i < Z.to_nat ARP_CACHE_LEN)%nat (seq 0 (Z.to_nat ARP_CACHE_LEN))).
  { apply Forall_forall. intros i Hi%elem_of_seq. lia. }
  induction Hidx as [|i idx Hi Hidx IH]; intros w0 Hw0; cbn [arp_for_each_loop]; [done|].
  apply post_bind, post_gets. destruct Hw0 as [Hc0 E0].
  destruct (pc_arp_list (pctx w0) !! i) as [item|] eqn:Ei.
  2: { apply lookup_ge_None in Ei. destruct (ctx_arp _ Hc0) as [Hl _]. unfold zlen in Hl. lia. }
  apply post_bind, (post_mem _ item); [done|]. case_test; [|by apply IH].
  apply post_bind. unfold lan_client_arp_for_each_cb at 1. apply post_bind.
  eapply post_mono; [apply send_ether_post; [done|by eapply arp_item_mac|by constructor]|].
  intros r w1 Hd. apply post_ret. cbn [negb Z.eqb]. apply IH.
  by apply (delivers_trans w w0 w1).
Qed.

Lemma process_post packet len w :
  ctx_ok (pctx w) -> is_bytes packet -> 20 <= zlen packet -> 0 <= len <= zlen packet ->
  post (lan_client_process packet len) (fun _ w' => delivers w w') w.
Proof.
  intros Hc Hb Hz Hl. unfold lan_client_process. case_test; [done|].
  assert (Hp : wf_part {| p_ptr := packet; p_len := len |}) by done.
  apply post_bind. destruct (mem_get packet IPV4_OFF_DST 4) as [dst|] eqn:Ed.
  2: { rewrite mem_get_Some in Ed by (consts; lia). done. }
  apply (post_mem _ dst); [done|].
  assert (Hdst : is_ip dst).
  { split; [apply mem_get_zlen in Ed; unfold zlen in Ed; lia|by eapply mem_get_is_bytes]. }
  apply post_bind, post_gets. destruct (IS_BROADCAST _ _ _).
  - unfold lan_client_on_broadcast. apply post_bind, post_gets.
    destruct (lp_next_real_broadcast _).
    + apply post_bind, post_modify.
      eapply post_mono; [apply send_ether_post; [done|apply broadcase_mac_ok|by constructor]|].
      by intros r w' [? ?].
    + apply post_bind. eapply post_mono; [by apply arp_for_each_post|]. intros [] w' ?. done.
  - apply post_bind. unfold post at 1. rewrite arp_get_mac_by_ip_run by done. unfold resolved.
    destruct (arp_find _ _ _) as [item|] eqn:Ef.
    + apply arp_find_live in Ef as (Hin & _ & _).
      apply list_elem_of_lookup_1 in Hin as [i Hi].
      eapply post_mono; [apply send_ether_post; [done|by eapply arp_item_mac|by constructor]|].
      by intros r w' [? ?].
    + split; [|done]. apply transmitted_ctx_ok; [done|]. unfold who_has.
      rewrite zlen_framed; [|done|apply Hc].
      destruct (arp_pkt_ok ARP_OPCODE_REQUEST (pc_mac (pctx w)) (pc_ip (pctx w)) NONE_MAC dst)
        as [-> _]; [apply Hc|apply Hc|apply none_mac_ok|done|]. consts. lia.
Qed.
End deliver.

(** ** One fragment *)

(** A header as it can come out of a packet. *)
Record hdr_ok (h : lan_client_fragment_header) : Prop := {
  ho_src : is_ip (fh_src h);
  ho_id : is_u16 (fh_id h);
  ho_part : 0 <= fh_part h;
  ho_total : 0 <= fh_total_part h;
  ho_len : is_u16 (fh_len h);
  ho_pmtu : is_u16 (fh_pmtu h);
}.

(** What the checks leave. *)
Record hdr_accepted (h : lan_client_fragment_header) (len : Z) : Prop := {
  ha_total : 1 <= fh_total_part h <= 8;
  ha_part : 0 <= fh_part h < fh_total_part h;
  ha_pmtu : 0 < fh_pmtu h /\ fh_len h <= fh_pmtu h;
  ha_len : 0 <= fh_len h /\ 16 + fh_len h <= len;
  ha_fits : fh_pmtu h * fh_part h + fh_len h <= ETHER_MTU;
}.

Definition with_frags (l : list lan_client_fragment) (lid : Z) (w : world) : world :=
  set_w_lp (set_lp_local_id lid (set_lp_frags l (w_lp w))) w.

Section fragment.
Context `{Env}.

Lemma with_frags_id w : with_frags (lp_frags (w_lp w)) (lp_local_id (w_lp w)) w = w.
Proof. by destruct w as [[] ]. Qed.

Lemma frag_header_total packet :
  is_bytes packet -> 16 <= zlen packet -> exists h, frag_header packet = Some h /\ hdr_ok h.
Proof.
  intros Hb Hl. unfold frag_header.
  destruct (mem_get_total packet LC_FRAG_SRC 4) as (s & -> & Ls & Bs); [done|consts; lia..|].
  destruct (mem_get_total packet LC_FRAG_DST 4) as (d & -> & Ld & Bd); [done|consts; lia..|].
  destruct (READ_NET16_total packet LC_FRAG_ID) as (id & -> & Hid); [done|consts; lia..|].
  destruct (READ_NET8_total packet LC_FRAG_PART) as (p & -> & Hp); [done|consts; lia..|].
  destruct (READ_NET8_total packet LC_FRAG_TOTAL_PART) as (t & -> & Ht); [done|consts; lia..|].
  destruct (READ_NET16_total packet LC_FRAG_LEN) as (ln & -> & Hln); [done|consts; lia..|].
  destruct (READ_NET16_total packet LC_FRAG_PMTU) as (m & -> & Hm); [done|consts; lia..|].
  eexists. split; [reflexivity|]. unfold is_u8 in *. constructor; simpl; try done; lia.
Qed.

Lemma frag_refused_false h len :
  hdr_ok h -> frag_refused h len = false -> hdr_accepted h len.
Proof.
  intros [] Hr. unfold frag_refused, is_u16 in *.
  repeat match type of Hr with
  | (if ?b then true else _) = false => destruct b eqn:?; [discriminate Hr|]
  end.
  rewrite !orb_false_iff, ?Z.eqb_neq, ?Z.ltb_ge, ?Z.leb_gt in *.
  constructor; consts; lia.
Qed.

Lemma claim_ok h lid f : hdr_ok h -> slot_ok f ->
  slot_ok (claim h lid f) /\ holds (fh_src h) (fh_id h) (claim h lid f).
Proof.
  intros Hh Hf. pose proof (ho_src _ Hh) as [Ls _]. split.
  - destruct Hf. constructor; simpl; rewrite ?length_take; try done. lia.
  - unfold holds. simpl. by rewrite firstn_all2 by lia.
Qed.

(** Where [frag_slot] puts a fragment. *)
Lemma frag_slot_run h w :
  let l := lp_frags (w_lp w) in
  let lid := lp_local_id (w_lp w) in
  table_ok l -> hdr_ok h ->
  exists r l' lid', frag_slot h w = Ok r (with_frags l' lid' w) /\ table_ok l' /\
    match r with
    | Some i => exists f, l' !! i = Some f /\ holds (fh_src h) (fh_id h) f
    | None => l' = l /\ lid' = lid
    end.
Proof.
  intros l lid Ht Hh. unfold frag_slot. unfold bind at 1. unfold gets at 1. fold l.
  pose proof (to_slots _ Ht) as Hs. destruct (ho_src _ Hh) as [Ls _].
  assert (Hclaim : forall i f, find_frag l (fh_id h) (fh_src h) = None -> l !! i = Some f ->
    table_ok (alter (claim h lid) i l) /\
    exists g, alter (claim h lid) i l !! i = Some g /\ holds (fh_src h) (fh_id h) g).
  { intros i f Hn Hi. destruct (claim_ok h lid f Hh) as [Hok Hh2]; [by eapply Forall_lookup_1 in Hs|].
    rewrite (list_alter_at _ _ _ _ Hi). split.
    - apply table_insert; [done|done|]. intros j g Hj Hg _ Hc.
      apply find_frag_None in Hn; [|done..]. eapply Forall_lookup_1 in Hn; [|exact Hg].
      destruct Hh2 as (_ & E1 & E2). rewrite E1, E2 in Hc. done.
    - eexists. split; [|done]. apply list_lookup_insert_eq. by eapply lookup_lt_Some. }
  destruct (find_frag l _ _) as [i|] eqn:Ef.
  { apply find_frag_Some in Ef; [|done..]. exists (Some i), l, lid.
    unfold with_frags. split; [f_equal; symmetry; apply with_frags_id|done]. }
  destruct (find_free l) as [i|] eqn:Efree.
  { apply find_free_Some in Efree as (f & Hi & _). destruct (Hclaim i f) as [Ht' Hg]; [done..|].
    exists (Some i), (alter (claim h lid) i l), (s32 (lid + 1)). done. }
  unfold bind at 1. unfold gets at 1. fold lid.
  destruct (find_oldest_spec l 0 lid 0 None) as (_ & Hm & _).
  destruct (find_oldest l 0 lid 0 None) as [m d]. simpl in Hm.
  case_test; [|by exists None, l, lid; split; [f_equal; symmetry; apply with_frags_id|]].
  destruct Hm as [[= -> ->]|(k & f & [= -> ->] & Hk & _)]; [consts; lia|].
  destruct (Hclaim k f) as [Ht' Hg]; [done..|].
  exists (Some k), (alter (claim h lid) k l), (s32 (lid + 1)). done.
Qed.

(** The slot after an accepted fragment. *)
Definition stored (h : lan_client_fragment_header) (b : bytes) (f : lan_client_fragment)
    : lan_client_fragment :=
  {| fr_local_id := fr_local_id f; fr_src := fr_src f; fr_id := fr_id f;
     fr_part := Z.lor (fr_part f) (Z.shiftl 1 (fh_part h)); fr_used := fr_used f;
     fr_total_len := if fh_part h =? fh_total_part h - 1
                     then fh_pmtu h * fh_part h + fh_len h else fr_total_len f;
     fr_buffer := b |}.

Lemma bit_u8 p : 0 <= p < 8 -> is_u8 (Z.shiftl 1 p).
Proof.
  intros Hp. rewrite Z.shiftl_1_l. unfold is_u8. split; [apply Z.pow_nonneg; lia|].
  apply Z.pow_lt_mono_r; lia.
Qed.

Lemma frag_store_run h packet len f :
  slot_ok f -> hdr_accepted h len -> is_bytes packet -> len <= zlen packet ->
  exists b, memcpy (fr_buffer f) (fh_pmtu h * fh_part h) packet LC_FRAG_HEADER_LEN (fh_len h)
              = Some b /\
    frag_store h packet f = Some (stored h b f) /\ slot_ok (stored h b f).
Proof.
  intros Hf [Ht Hp Hm Hl Hfit] Hb Hz. unfold frag_store, memcpy.
  destruct (mem_get packet LC_FRAG_HEADER_LEN (fh_len h)) as [d|] eqn:Ed.
  2: { rewrite mem_get_Some in Ed by (consts; lia). done. }
  pose proof (mem_get_zlen _ _ _ _ Ed) as Ld. cbn [mbind option_bind set_fr_part fr_buffer].
  destruct (mem_put (fr_buffer f) (fh_pmtu h * fh_part h) d) as [b|] eqn:Eb.
  2: { assert (0 <= fh_pmtu h * fh_part h) by (apply Z.mul_nonneg_nonneg; lia).
       rewrite mem_put_Some in Eb by (rewrite ?(so_buffer _ Hf); lia). done. }
  exists b. split; [done|].
  assert (E : u16 ((fh_total_part h - 1) * fh_pmtu h + fh_len h) =
              (fh_total_part h - 1) * fh_pmtu h + fh_len h \/ fh_part h <> fh_total_part h - 1).
  { destruct (decide (fh_part h = fh_total_part h - 1)) as [Ep|]; [left|by right].
    apply u16_id. unfold is_u16. rewrite Ep in Hfit. consts. nia. }
  split.
  - unfold stored. rewrite u8_id by (apply bit_u8; lia). cbn [mbind option_bind]. f_equal.
    destruct (Z.eqb_spec (fh_part h) (fh_total_part h - 1)) as [Ep|]; [|done].
    destruct E as [->|]; [|done]. rewrite <- Ep, (Z.mul_comm (fh_pmtu h)). done.
  - destruct Hf as [H1 H2 H3 H4 H5]. constructor; simpl; [done|..].
    + by rewrite (mem_put_zlen _ _ _ _ Eb).
    + eapply mem_put_is_bytes; [exact H3| |exact Eb]. by eapply mem_get_is_bytes.
    + case_test; [|done]. nia.
    + apply lor_u8; [done|]. apply bit_u8. lia.
Qed.

(** The effect of one fragment on the client, up to the delivery it may trigger. *)
Lemma process_frag_run packet len w h :
  table_ok (lp_frags (w_lp w)) -> is_bytes packet -> 16 <= len <= zlen packet ->
  frag_header packet = Some h -> hdr_ok h -> frag_refused h len = false ->
  exists r l' lid', frag_slot h w = Ok r (with_frags l' lid' w) /\ table_ok l' /\
    match r with
    | None => lan_client_process_frag packet len w = Ok 0 w
    | Some i => exists f b,
        l' !! i = Some f /\ holds (fh_src h) (fh_id h) f /\
        memcpy (fr_buffer f) (fh_pmtu h * fh_part h) packet LC_FRAG_HEADER_LEN (fh_len h) = Some b /\
        slot_ok (stored h b f) /\
        lan_client_process_frag packet len w =
          if u8 (Z.shiftl 1 (fh_total_part h) - 1) =? fr_part (stored h b f)
          then lan_client_process b (fr_total_len (stored h b f))
                 (with_frags (<[i := set_fr_used 0 (stored h b f)]> l') lid' w)
          else Ok 0 (with_frags (<[i := stored h b f]> l') lid' w)
    end.
Proof.
  intros Ht Hb Hl Hh Hok Hr. destruct (frag_slot_run h w Ht Hok) as (r & l' & lid' & Es & Ht' & Hm).
  exists r, l', lid'. split; [done|]. split; [done|].
  unfold lan_client_process_frag. case_test; [consts; lia|].
  rewrite Hh. rewrite (bind_ok _ _ _ h w) by done. rewrite Hr, (bind_ok _ _ _ _ _ Es).
  destruct r as [i|].
  - destruct Hm as (f & Hi & Hf).
    assert (Hsf : slot_ok f) by (pose proof (to_slots _ Ht') as Hs; by eapply Forall_lookup_1 in Hs).
    destruct (frag_store_run h packet len f) as (b & Eb & Est & Hso);
      [done|by apply frag_refused_false|done|lia|]. exists f, b. split_and!; try done.
    unfold bind at 1. unfold gets at 1. cbn [with_frags w_lp set_w_lp lp_frags set_lp_local_id set_lp_frags].
    rewrite Hi. rewrite (bind_ok _ _ _ (stored h b f) (with_frags l' lid' w))
      by (cbn [mbind option_bind]; by rewrite Est).
    by case_test.
  - destruct Hm as [-> ->]. by rewrite with_frags_id.
Qed.
End fragment.

(** ** Safety of the receive path *)

Record client_ok (w : world) : Prop := {
  co_ctx : ctx_ok (pctx w);
  co_table : table_ok (lp_frags (w_lp w));
  co_key : zlen (lp_key (w_lp w)) = LP_KEY_LEN /\ is_bytes (lp_key (w_lp w));
  co_user u : lp_username (w_lp w) = Some u -> is_bytes u /\ zlen u <= 0xffff - 20;
}.

Section safety.
Context `{Env}.

Lemma delivers_ok w w' : client_ok w -> delivers w w' -> client_ok w'.
Proof.
  intros [Hc Ht Hk Hu] [Hc' E]. unfold client_part in E. injection E as E1 E2 E3 E4 E5 E6.
  constructor; [done|by rewrite E1|by rewrite E6|by rewrite E5].
Qed.

Lemma with_frags_ok l lid w : client_ok w -> table_ok l -> client_ok (with_frags l lid w).
Proof. intros [] Ht. by constructor. Qed.

Lemma slot_release f : slot_ok f -> slot_ok (set_fr_used 0 f).
Proof. intros []. by constructor. Qed.

(** Putting the updated slot back, in use or released, keeps the table. *)
Lemma table_store l i f f' :
  table_ok l -> l !! i = Some f -> fr_used f <> 0 -> fr_src f' = fr_src f -> fr_id f' = fr_id f ->
  slot_ok f' -> table_ok (<[i := f']> l).
Proof.
  intros Ht Hi Hu Es Ei Hf. apply table_insert; [done..|]. intros j g Hj Hg _ Hh.
  rewrite Es, Ei in Hh. apply Hj. symmetry. by apply (to_unique _ Ht i j f g).
Qed.

Lemma process_frag_post packet len w :
  client_ok w -> is_bytes packet -> 0 <= len <= zlen packet ->
  post (lan_client_process_frag packet len) (fun _ w' => client_ok w') w.
Proof.
  intros Hw Hb Hl. destruct (decide (16 <= len)) as [H16|H16].
  2: { unfold lan_client_process_frag. case_test; [by apply post_ret|consts; lia]. }
  destruct (frag_header_total packet Hb) as (h & Hh & Hok); [lia|].
  destruct (frag_refused h len) eqn:Hr.
  { unfold lan_client_process_frag. case_test; [consts; lia|].
    apply post_bind, (post_mem _ h); [done|]. rewrite Hr. by apply post_ret. }
  destruct (process_frag_run packet len w h) as (r & l' & lid' & _ & Ht & Hm);
    [apply Hw|done|lia|done..|].
  unfold post. destruct r as [i|]; [|by rewrite Hm].
  destruct Hm as (f & b & Hi & (Hu & _) & _ & Hso & ->). case_test.
  - assert (Hok' : client_ok (with_frags (<[i := set_fr_used 0 (stored h b f)]> l') lid' w)).
    { apply with_frags_ok; [done|]. by apply (table_store _ _ f); [..|apply slot_release]. }
    destruct Hso as [_ Hsb Hsby Hst _]. cbn [stored fr_buffer] in Hsb.
    edestruct (post_inv _ _ _ (process_post b (fr_total_len (stored h b f)) _ (co_ctx _ Hok') Hsby
      ltac:(rewrite Hsb; consts; lia) ltac:(by rewrite Hsb))) as (a & w' & -> & Hd).
    by eapply delivers_ok.
  - apply with_frags_ok; [done|]. by apply (table_store _ _ f).
Qed.

Lemma send_whole_post type pkt post w :
  client_ok w -> is_u8 type -> is_bytes pkt -> is_bytes post ->
  type <> LAN_CLIENT_TYPE_IPV4 ->
  Prelude.post (lan_client_send type (pkt ++ post) (zlen pkt)) (fun _ w' => client_ok w') w.
Proof.
  intros [] Ht Hb Hp Hne. unfold lan_client_send. apply post_bind, post_gets.
  destruct (Z.eqb_spec type LAN_CLIENT_TYPE_IPV4); [done|]. cbn [andb].
  eapply post_ok; [by apply send_whole_run|]. by constructor.
Qed.

Lemma auth_response_eq key challenge rest user :
  is_bytes key -> zlen key = 20 -> is_bytes challenge -> zlen challenge < 2 ^ 16 ->
  is_bytes user -> zlen user <= 0xffff - 20 ->
  auth_response key (challenge ++ rest) (zlen challenge) user =
    Some (sha1 (key ++ challenge) ++ user).
Proof.
  intros Hk Lk Hc Lc Hu Lu. unfold auth_response.
  set (ctx := {| sha_state := _ |}).
  pose proof (absorbed_init ctx) as A0. rewrite <- to_nat_zlen in A0.
  change (sha_buffer ctx) with (uninit 64) in A0. rewrite zlen_uninit in A0 by lia.
  specialize (A0 eq_refl).
  destruct (SHA1Update_eq _ _ key [] A0) as (c1 & E1 & A1); [done|lia|].
  rewrite app_nil_r, Lk in E1. rewrite E1. cbn [mbind option_bind].
  destruct (SHA1Update_eq _ _ challenge rest A1) as (c2 & E2 & A2); [done|lia|].
  rewrite E2. cbn [mbind option_bind].
  destruct (SHA1Final_eq _ _ A2) as (c3 & E3). rewrite E3. cbn [mbind option_bind].
  simpl app. set (d := sha1 (key ++ challenge)).
  assert (Ld : zlen d = 20) by (unfold zlen, d; by rewrite length_sha1). zlen_facts.
  rewrite (u16_id (zlen user)), u16_id by (unfold is_u16; lia).
  set (room := uninit (20 + zlen user)).
  assert (Lr : zlen room = 20 + zlen user) by (apply zlen_uninit; lia).
  rewrite mem_put_Some by lia. cbn [mbind option_bind].
  change (Z.to_nat 0) with 0%nat. rewrite take_0. simpl app.
  pose proof (memcpy_app d (drop (length d) room) [] user []) as Mc.
  rewrite app_nil_r, zlen_nil, Ld in Mc. simpl app in Mc.
  rewrite <- (to_nat_zlen d), zlen_drop, Ld in Mc by lia.
  rewrite <- (to_nat_zlen d), Ld. rewrite Mc by lia.
  rewrite (drop_ge (drop _ room)), app_nil_r; [done|].
  rewrite length_drop. unfold zlen in *. lia.
Qed.

Lemma auth_me_run w user challenge rest :
  client_ok w -> lp_username (w_lp w) = Some user ->
  is_bytes (challenge ++ rest) -> zlen challenge < 2 ^ 16 - 1 ->
  let answer := LAN_CLIENT_TYPE_AUTH_ME :: sha1 (lp_key (w_lp w) ++ challenge) ++ user in
  lan_client_process_auth_me (0 :: challenge ++ rest) (1 + zlen challenge) w =
    Ok tt (sent_relay answer w).
Proof.
  intros Hw Hu [Hc Hr]%Forall_app Lc answer. destruct (co_user _ Hw _ Hu) as [Bu Lu].
  destruct (co_key _ Hw) as [Lk Bk]. unfold lan_client_process_auth_me.
  unfold bind at 1. unfold gets at 1. rewrite Hu.
  rewrite READ_NET8_eq, mem_get_Some by zlia.
  rewrite (bind_ok _ _ _ 0 w) by done. cbn [Z.eqb].
  rewrite mem_from_Some by zlia. rewrite (bind_ok _ _ _ (challenge ++ rest) w) by done.
  replace (1 + zlen challenge - 1) with (zlen challenge) by lia.
  rewrite u16_id by (unfold is_u16; zlia). rewrite auth_response_eq by (done || lia).
  set (r := sha1 _ ++ user). rewrite (bind_ok _ _ _ r w) by done.
  unfold lan_client_send_auth_me, lan_client_send. unfold bind at 1 2. unfold gets at 1.
  cbn [andb Z.eqb LAN_CLIENT_TYPE_AUTH_ME LAN_CLIENT_TYPE_IPV4 Pos.eqb].
  rewrite <- (app_nil_r r) at 1. rewrite send_whole_run; [done|unfold is_u8; done| |constructor].
  apply Forall_app_2; [apply sha1_is_bytes|done].
Qed.

(** The answer to a login request.  With a user name configured, a request of
    type 0 is answered with one datagram: the SHA-1 of the key followed by the
    challenge, then the user name in clear. *)
Theorem auth_me_response w user challenge rest :
  client_ok w -> lp_username (w_lp w) = Some user ->
  is_bytes (challenge ++ rest) -> zlen challenge < 2 ^ 16 - 1 ->
  let answer := LAN_CLIENT_TYPE_AUTH_ME :: sha1 (lp_key (w_lp w) ++ challenge) ++ user in
  lan_client_process_auth_me (0 :: challenge ++ rest) (1 + zlen challenge) w =
    Ok tt (sent_relay answer w).
Proof. apply auth_me_run. Qed.

Lemma sent_relay_ok data w : client_ok w -> client_ok (sent_relay data w).
Proof. intros []. by constructor. Qed.

Lemma auth_me_post packet len w :
  client_ok w -> is_bytes packet -> 1 <= len <= zlen packet -> len < 2 ^ 16 ->
  post (lan_client_process_auth_me packet len) (fun _ w' => client_ok w') w.
Proof.
  intros Hw Hb Hl Hl16. destruct (lp_username (w_lp w)) as [user|] eqn:Hu.
  2: { unfold lan_client_process_auth_me. apply post_bind, post_gets. rewrite Hu. by apply post_ret. }
  destruct packet as [|ty packet]; [rewrite zlen_nil in Hl; lia|].
  apply Forall_cons in Hb as [Hty Hb]. rewrite zlen_cons in Hl.
  destruct (decide (ty = 0)) as [->|Hne].
  - set (c := take (Z.to_nat (len - 1)) packet).
    assert (Lc : zlen c = len - 1) by (apply zlen_take; lia).
    assert (Ep : packet = c ++ drop (Z.to_nat (len - 1)) packet) by (symmetry; apply take_drop).
    clearbody c. rewrite Ep in Hb |- *.
    pose proof (auth_me_run w user c (drop (Z.to_nat (len - 1)) packet) Hw Hu) as E.
    rewrite Lc in E. replace (1 + (len - 1)) with len in E by lia.
    unfold post. rewrite E; [|done|lia]. by apply sent_relay_ok.
  - unfold lan_client_process_auth_me. apply post_bind, post_gets. rewrite Hu.
    apply post_bind, (post_mem _ ty).
    { rewrite READ_NET8_eq, mem_get_Some by zlia. done. }
    case_test; [done|by apply post_ret].
Qed.

Lemma mem_tail (buf : bytes) n : zlen buf = n -> 1 <= n ->
  exists b rest, buf = b :: rest /\ mem_from buf 1 = Some rest /\ READ_NET8 buf 0 = Some b /\
    zlen rest = n - 1.
Proof.
  intros Hz Hn. destruct buf as [|b rest]; [rewrite zlen_nil in Hz; lia|]. exists b, rest.
  rewrite READ_NET8_eq, mem_get_Some, mem_from_Some by zlia. zlens. split_and!; (done || lia).
Qed.

Lemma on_recv_post nread buf w :
  client_ok w -> is_bytes buf -> zlen buf = CLIENT_RECV_BUF_LEN -> nread <= CLIENT_RECV_BUF_LEN ->
  (nread <> 1 \/ lp_username (w_lp w) = None \/
   forall b, READ_NET8 buf 0 = Some b -> Z.land b 0x7f <> LAN_CLIENT_TYPE_AUTH_ME) ->
  post (lan_client_on_recv nread buf) (fun _ w' => client_ok w') w.
Proof.
  intros Hw Hb Hz Hn Hex. unfold lan_client_on_recv. case_test; [by apply post_ret|].
  destruct (mem_tail buf _ Hz) as (b & rest & -> & Efrom & Eread & Lr); [consts; lia|].
  apply Forall_cons in Hb as [Hb0 Hb]. change CLIENT_RECV_BUF_LEN with 4096 in *.
  rewrite u16_id, u16_id by (unfold is_u16; lia).
  apply post_bind, (post_mem _ b); [done|]. apply post_bind, post_modify, post_bind, post_modify.
  set (w1 := set_w_lp _ _).
  assert (Hw1 : client_ok w1) by (destruct Hw; by constructor).
  assert (Hu1 : lp_username (w_lp w1) = lp_username (w_lp w)) by done. clearbody w1.
  apply post_bind, (post_mem _ rest); [done|].
  repeat case_test; try by apply post_ret.
  - apply post_bind. eapply post_mono; [apply process_post; [apply Hw1|done|lia..]|].
    intros r w' Hd. by apply post_ret, (delivers_ok w1).
  - apply post_bind. eapply post_mono; [apply process_frag_post; [done|done|lia]|].
    intros r w' Hd. by apply post_ret.
  - destruct (decide (nread = 1)) as [->|Hne]; [|by apply auth_me_post; try lia].
    destruct Hex as [?|[Hu|Hx]]; [done| |by destruct (Hx b Eread)].
    unfold lan_client_process_auth_me. apply post_bind, post_gets. rewrite Hu1, Hu. by apply post_ret.
  - apply post_modify. destruct Hw1. by constructor.
Qed.

(** The receive handler is memory safe and keeps the client's invariant on
    every datagram the relay server (or anyone spoofing it) can send, of any length
    up to the receive buffer and with any contents, fragments with forged headers
    included.  The one exception is a bare login request, one byte long, while a
    user name is configured. *)
Theorem lan_client_on_recv_safe nread buf w :
  client_ok w -> is_bytes buf -> zlen buf = CLIENT_RECV_BUF_LEN -> nread <= CLIENT_RECV_BUF_LEN ->
  (nread <> 1 \/ lp_username (w_lp w) = None \/
   forall b, READ_NET8 buf 0 = Some b -> Z.land b 0x7f <> LAN_CLIENT_TYPE_AUTH_ME) ->
  post (lan_client_on_recv nread buf) (fun _ w' => client_ok w') w.
Proof. apply on_recv_post. Qed.

Lemma update_reads c data len c' : SHA1Update c data len = Some c' -> len <= zlen data.
Proof.
  unfold SHA1Update. intros ([st buf] & E & _)%bind_Some. unfold update_data, memcpy in E.
  case_match.
  - apply bind_Some in E as (b1 & _ & E). apply bind_Some in E as (st1 & _ & E).
    apply bind_Some in E as ([st2 i] & _ & E). apply bind_Some in E as (b2 & E & _).
    apply bind_Some in E as (d & (_ & _ & ? & _)%mem_get_inv & _). lia.
  - apply bind_Some in E as (b1 & E & _).
    apply bind_Some in E as (d & (_ & _ & ? & _)%mem_get_inv & _). lia.
Qed.

(** The exception is real.  A login request of one byte makes the length of
    the challenge wrap around to 65535: if the next byte of the receive buffer is
    zero, the hash reads past the end of the buffer. *)
Theorem auth_me_underflow w user rest b :
  lp_username (w_lp w) = Some user -> zlen rest < 65535 ->
  Z.land b 0x7f = LAN_CLIENT_TYPE_AUTH_ME ->
  lan_client_on_recv 1 (b :: 0 :: rest) w = Stop Oob.
Proof.
  intros Hu Hr Hb. unfold lan_client_on_recv. case_test; [lia|].
  destruct (mem_tail (b :: 0 :: rest) (zlen (b :: 0 :: rest)) eq_refl) as
    (b' & rest' & [= <- <-] & -> & -> & _); [zlia|].
  unfold bind, mem, ret, upd_lp, modify. rewrite Hb.
  cbn [Z.eqb Pos.eqb LAN_CLIENT_TYPE_AUTH_ME LAN_CLIENT_TYPE_KEEPALIVE LAN_CLIENT_TYPE_IPV4
       LAN_CLIENT_TYPE_IPV4_FRAG]. set (w1 := set_w_lp _ _).
  unfold lan_client_process_auth_me, bind, gets.
  change (lp_username (w_lp w1)) with (lp_username (w_lp w)). rewrite Hu.
  destruct (mem_tail (0 :: rest) (zlen (0 :: rest)) eq_refl) as
    (b' & rest' & [= <- <-] & -> & -> & _); [zlia|].
  cbn [mem ret Z.eqb]. unfold auth_response. set (ctx := SHA1Init _).
  destruct (SHA1Update ctx _ 20) as [c1|] eqn:E1; [|done].
  cbn [mbind option_bind]. change (u16 (u16 (u16 1 - 1) - 1)) with 65535.
  destruct (SHA1Update c1 rest 65535) as [c2|] eqn:E2; [|done].
  apply update_reads in E2. lia.
Qed.
End safety.

(** ** A table full of unfinished datagrams *)

Section jam.
Context `{Env}.

(** Every slot waits for the rest of one of the last [LC_FRAG_COUNT] datagrams. *)
Definition jammed (w : world) : Prop :=
  table_ok (lp_frags (w_lp w)) /\
  Forall (fun f => fr_used f <> 0 /\ LABS (fr_local_id f - lp_local_id (w_lp w)) <= LC_FRAG_COUNT)
    (lp_frags (w_lp w)).

(** A datagram whose first fragment has not been seen. *)
Definition newcomer (packet : bytes) (w : world) : Prop :=
  is_bytes packet /\
  forall h, frag_header packet = Some h ->
    Forall (fun f => ~ holds (fh_src h) (fh_id h) f) (lp_frags (w_lp w)).

Lemma jammed_drops packet w :
  jammed w -> newcomer packet w -> lan_client_process_frag packet (zlen packet) w = Ok 0 w.
Proof.
  intros [Ht Hf] [Hb Hn]. unfold lan_client_process_frag. case_test; [done|].
  destruct (frag_header_total packet Hb) as (h & Hh & Hok); [consts; lia|].
  rewrite Hh. rewrite (bind_ok _ _ _ h w) by done. destruct (frag_refused h (zlen packet)); [done|].
  assert (E : frag_slot h w = Ok None w); [|by rewrite (bind_ok _ _ _ _ _ E)].
  unfold frag_slot. unfold bind at 1. unfold gets at 1.
  rewrite (proj2 (find_frag_None _ _ _ (to_slots _ Ht) (proj1 (ho_src _ Hok))) (Hn h Hh)).
  rewrite (proj2 (find_free_None _)) by (by eapply Forall_impl; [exact Hf|]; intros f [? _]).
  unfold bind at 1. unfold gets at 1.
  destruct (find_oldest_spec (lp_frags (w_lp w)) 0 (lp_local_id (w_lp w)) 0 None) as (_ & Hm & _).
  destruct (find_oldest _ _ _ _ _) as [m d]. simpl in Hm. case_test; [|done].
  destruct Hm as [[= -> ->]|(k & f & [= -> ->] & Hk & _)]; [consts; lia|].
  eapply Forall_lookup_1 in Hf as [_ Hle]; [|exact Hk]. lia.
Qed.

(** Once every slot waits for one of the last [LC_FRAG_COUNT] datagrams, the
    eviction test never holds and the client drops every fragment of every new
    datagram, for ever: no sequence of new fragments changes its state. *)
Theorem frag_table_jam packets w :
  jammed w -> Forall (fun p => newcomer p w) packets ->
  for_each packets (fun p => lan_client_process_frag p (zlen p) ;;; ret tt) w = Ok tt w.
Proof.
  intros Hj. induction 1 as [|p packets Hp Hps IH]; [done|]. cbn [for_each].
  unfold bind. by rewrite jammed_drops.
Qed.
End jam.

(** ** Slots in use *)

Definition busy (l : list lan_client_fragment) : nat := length (filter (fun f => fr_used f <> 0) l).

Section busy.
Context `{Env}.
Implicit Types l : list lan_client_fragment.

Lemma busy_cons f l : busy (f :: l) = if decide (fr_used f <> 0) then S (busy l) else busy l.
Proof. unfold busy. rewrite filter_cons. by case_decide. Qed.

Lemma busy_insert l i f : (busy (<[i := f]> l) <= S (busy l))%nat.
Proof.
  revert i. induction l as [|g l IH]; intros [|i]; simpl; [lia..| |];
    rewrite !busy_cons; [|specialize (IH i)]; repeat case_decide; lia.
Qed.

Lemma busy_insert_used l i f g :
  l !! i = Some g -> fr_used g <> 0 -> (busy (<[i := f]> l) <= busy l)%nat.
Proof.
  revert i. induction l as [|g' l IH]; intros [|i] Hi Hu; simplify_eq/=;
    rewrite !busy_cons; [|specialize (IH i Hi Hu)]; repeat case_decide; (done || lia).
Qed.

Lemma busy_all l : Forall (fun f => fr_used f <> 0) l -> busy l = length l.
Proof. induction 1; [done|]. rewrite busy_cons, decide_True by done. simpl. lia. Qed.

(** With a slot to spare, a fragment goes to its datagram's slot or to a free one. *)
Lemma frag_slot_room h w :
  let l := lp_frags (w_lp w) in
  table_ok l -> hdr_ok h -> Z.of_nat (busy l) < LC_FRAG_COUNT ->
  exists i l' lid' f, frag_slot h w = Ok (Some i) (with_frags l' lid' w) /\
    l' !! i = Some f /\ (busy l' <= S (busy l))%nat /\
    (l' = l \/ Forall (fun f => ~ holds (fh_src h) (fh_id h) f) l /\
               exists g, l !! i = Some g /\ fr_used g = 0 /\ l' = <[i := f]> l /\ fr_part f = 0).
Proof.
  intros l Ht Hh Hb. unfold frag_slot. unfold bind at 1. unfold gets at 1. fold l.
  pose proof (to_slots _ Ht) as Hs. destruct (ho_src _ Hh) as [Ls _].
  destruct (find_frag l _ _) as [i|] eqn:Ef.
  { apply find_frag_Some in Ef as (f & Hi & Hf); [|done..].
    exists i, l, (lp_local_id (w_lp w)), f. split; [f_equal; symmetry; apply with_frags_id|].
    split_and!; [done|lia|by left]. }
  destruct (find_free l) as [i|] eqn:Efree.
  2: { apply find_free_None, busy_all in Efree. pose proof (to_length _ Ht). unfold zlen in *. lia. }
  apply find_free_Some in Efree as (g & Hi & Hg).
  exists i, (alter (claim h (lp_local_id (w_lp w))) i l), (s32 (lp_local_id (w_lp w) + 1)),
    (claim h (lp_local_id (w_lp w)) g).
  split; [done|]. rewrite (list_alter_at _ _ _ _ Hi).
  split; [apply list_lookup_insert_eq; by eapply lookup_lt_Some|].
  split; [apply busy_insert|]. right. split; [by apply find_frag_None in Ef|]. by exists g.
Qed.

(** One accepted fragment when there is a slot to spare. *)
Lemma process_frag_room packet len w h :
  let l := lp_frags (w_lp w) in
  table_ok l -> is_bytes packet -> 16 <= len <= zlen packet ->
  frag_header packet = Some h -> hdr_ok h -> frag_refused h len = false ->
  Z.of_nat (busy l) < LC_FRAG_COUNT ->
  exists i l' lid' f b,
    table_ok l' /\ l' !! i = Some f /\ holds (fh_src h) (fh_id h) f /\
    (busy l' <= S (busy l))%nat /\
    (l' = l \/ Forall (fun f => ~ holds (fh_src h) (fh_id h) f) l /\
               exists g, l !! i = Some g /\ fr_used g = 0 /\ l' = <[i := f]> l /\ fr_part f = 0) /\
    memcpy (fr_buffer f) (fh_pmtu h * fh_part h) packet LC_FRAG_HEADER_LEN (fh_len h) = Some b /\
    slot_ok (stored h b f) /\
    lan_client_process_frag packet len w =
      if u8 (Z.shiftl 1 (fh_total_part h) - 1) =? fr_part (stored h b f)
      then lan_client_process b (fr_total_len (stored h b f))
             (with_frags (<[i := set_fr_used 0 (stored h b f)]> l') lid' w)
      else Ok 0 (with_frags (<[i := stored h b f]> l') lid' w).
Proof.
  intros l Ht Hb Hl Hh Hok Hr Hbusy.
  destruct (process_frag_run packet len w h Ht Hb Hl Hh Hok Hr) as (r & l1 & lid1 & E1 & Ht1 & Hm).
  destruct (frag_slot_room h w Ht Hok Hbusy) as (i & l' & lid' & f & E2 & Hi & Hbl & Hcase).
  rewrite E1 in E2. injection E2 as -> -> ->.
  destruct Hm as (f' & b & Hi' & Hf & Eb & Hso & Erun).
  assert (f' = f) as -> by congruence. by exists i, l', lid', f, b.
Qed.
End busy.

(** ** Reassembly *)

(** A fragment arriving: a part of the datagram under study, or something else; with
    the stale bytes that follow it in the receive buffer. *)
Record arrival := { ar_msg : nat + bytes; ar_slack : bytes }.

Section reassembly.
Context `{Env} (pkt : bytes) (pmtu id : Z).
Context (Hpkt : is_bytes pkt) (Hlen : 20 <= zlen pkt <= ETHER_MTU).
Context (Hpmtu : 0 < pmtu < 2 ^ 16) (Hparts : parts_of pmtu (zlen pkt) <= 8) (Hid : is_u16 id).

Local Abbreviation total := (parts_of pmtu (zlen pkt)).
Local Abbreviation src := (ip_src_of pkt).

(** The progress of the datagram in its slot: which parts have arrived, their bytes
    in place, and the total length once the last part is there. *)
Record partial (got : gset Z) (f : lan_client_fragment) : Prop := {
  pa_holds : holds src id f;
  pa_part k : 0 <= k -> Z.testbit (fr_part f) k = bool_decide (k ∈ got);
  pa_bytes (j : nat) : (j < length pkt)%nat -> Z.of_nat j / pmtu ∈ got ->
    fr_buffer f !! j = pkt !! j;
  pa_total : total - 1 ∈ got -> fr_total_len f = zlen pkt;
  pa_range k : k ∈ got -> 0 <= k < total;
}.

Definition our_header (i : nat) : lan_client_fragment_header :=
  {| fh_src := src; fh_dst := ip_dst_of pkt; fh_id := id; fh_part := Z.of_nat i;
     fh_total_part := total; fh_len := zlen (chunk pmtu pkt i); fh_pmtu := pmtu |}.

Lemma total_bounds : 1 <= total /\ (total - 1) * pmtu < zlen pkt <= total * pmtu.
Proof.
  unfold parts_of. pose proof (Z.div_mod (zlen pkt + pmtu - 1) pmtu).
  pose proof (Z.mod_pos_bound (zlen pkt + pmtu - 1) pmtu). nia.
Qed.

Lemma our_chunk i : Z.of_nat i < total ->
  zlen (chunk pmtu pkt i) = Z.min pmtu (zlen pkt - Z.of_nat i * pmtu) /\
  0 < zlen (chunk pmtu pkt i) /\ Z.of_nat i * pmtu < zlen pkt.
Proof.
  intros Hi. apply parts_of_spec in Hi; [|lia..]. rewrite zlen_chunk by lia. lia.
Qed.

Lemma frag_header_ours i post :
  Z.of_nat i < total -> frag_header (fragment pmtu id pkt i ++ post) = Some (our_header i).
Proof.
  intros Hi. destruct (our_chunk i Hi) as (Lc & Hpos & _). destruct total_bounds as [Ht _].
  destruct (ip_addrs_ok pkt Hpkt) as [[Ls _] [Ld _]]; [lia|].
  unfold frag_header, fragment, our_header, frag_hdr, be16.
  rewrite !(u16_id pmtu), !(u16_id id), !(u16_id (zlen (chunk pmtu pkt i))), !u8_id
    by (unfold is_u16, is_u8 in *; consts; lia).
  generalize dependent (zlen (chunk pmtu pkt i)). intros n Ln Hn.
  apply length_4_inv in Ls as (s1 & s2 & s3 & s4 & ->).
  apply length_4_inv in Ld as (d1 & d2 & d3 & d4 & ->). simpl app.
  rewrite !READ_NET8_eq. rewrite !mem_get_Some by (consts; zlia).
  rewrite (READ_NET16_get _ LC_FRAG_ID (id / 256) (id mod 256));
    [|by auto with lanplay..|rewrite mem_get_Some by (consts; zlia); reflexivity].
  rewrite (READ_NET16_get _ LC_FRAG_LEN (n / 256) (n mod 256));
    [|apply hi_u8; unfold is_u16; consts; lia|apply lo_u8
     |rewrite mem_get_Some by (consts; zlia); reflexivity].
  rewrite (READ_NET16_get _ LC_FRAG_PMTU (pmtu / 256) (pmtu mod 256));
    [|apply hi_u8; unfold is_u16; lia|apply lo_u8
     |rewrite mem_get_Some by (consts; zlia); reflexivity].
  cbn -[Z.div Z.modulo Z.mul Z.add]. rewrite !hi_lo_val. reflexivity.
Qed.

Lemma our_accepted i post :
  Z.of_nat i < total ->
  hdr_ok (our_header i) /\ frag_refused (our_header i) (zlen (fragment pmtu id pkt i)) = false /\
  16 <= zlen (fragment pmtu id pkt i) /\ (is_bytes post -> is_bytes (fragment pmtu id pkt i ++ post)).
Proof.
  intros Hi. destruct (our_chunk i Hi) as (Lc & Hpos & Hlt). destruct total_bounds as [Ht Hz].
  destruct (ip_addrs_ok pkt Hpkt) as [Hs Hd]; [lia|].
  destruct (frag_hdr_ok src (ip_dst_of pkt) id (Z.of_nat i) total (zlen (chunk pmtu pkt i)) pmtu)
    as [Lh Bh]; [done..|].
  assert (Lf : zlen (fragment pmtu id pkt i) = 16 + zlen (chunk pmtu pkt i))
    by (unfold fragment; rewrite zlen_app, Lh; done).
  split_and!.
  - unfold is_u16 in *. constructor; simpl; unfold is_u16; try done; lia.
  - unfold frag_refused, our_header; cbn [fh_total_part fh_part fh_pmtu fh_len]. rewrite Lf.
    consts. repeat (case_match; [exfalso; rewrite ?orb_true_iff, ?Z.eqb_eq, ?Z.ltb_lt, ?Z.leb_le in *; lia|]).
    apply Z.ltb_ge. lia.
  - lia.
  - intros Hp. unfold fragment. apply Forall_app_2; [apply Forall_app_2|]; try done.
    by apply Forall_take, Forall_drop.
Qed.

(** Receiving part [i] in a slot. *)
Lemma partial_store got f i b post :
  Z.of_nat i < total -> slot_ok f -> partial got f ->
  memcpy (fr_buffer f) (pmtu * Z.of_nat i) (fragment pmtu id pkt i ++ post) LC_FRAG_HEADER_LEN
    (zlen (chunk pmtu pkt i)) = Some b ->
  partial (got ∪ {[Z.of_nat i]}) (stored (our_header i) b f).
Proof.
  intros Hi Hso [Ph Pp Pb Pt Pr] Hb. destruct (our_chunk i Hi) as (Lc & Hpos & Hlt).
  destruct total_bounds as [Ht Hz].
  assert (Hcopy : mem_put (fr_buffer f) (pmtu * Z.of_nat i) (chunk pmtu pkt i) = Some b).
  { unfold memcpy in Hb. destruct (ip_addrs_ok pkt Hpkt) as [Hs Hd]; [lia|].
    destruct (frag_hdr_ok src (ip_dst_of pkt) id (Z.of_nat i) total (zlen (chunk pmtu pkt i)) pmtu)
      as [Lh _]; [done..|].
    unfold fragment in Hb. change LC_FRAG_HEADER_LEN with 16 in Hb. rewrite <- Lh in Hb.
    rewrite mem_get_Some in Hb by (rewrite ?zlen_app; zlia).
    by rewrite <- app_assoc, !to_nat_zlen, drop_app_length, take_app_length in Hb. }
  constructor; simpl.
  - done.
  - intros k Hk. rewrite Z.lor_spec, Pp, Z.shiftl_1_l, Z.pow2_bits_eqb by lia.
    destruct (Z.eqb_spec (Z.of_nat i) k) as [<-|Hne]; rewrite ?orb_true_r, ?orb_false_r.
    + symmetry. apply bool_decide_eq_true. set_solver.
    + apply bool_decide_ext. set_solver.
  - intros j Hj Hin. rewrite (mem_put_lookup _ _ _ _ j Hcopy).
    pose proof (Z.div_mod (Z.of_nat j) pmtu). pose proof (Z.mod_pos_bound (Z.of_nat j) pmtu).
    assert (Hdiv : Z.of_nat j / pmtu = Z.of_nat i <->
      pmtu * Z.of_nat i <= Z.of_nat j < pmtu * Z.of_nat i + zlen (chunk pmtu pkt i)).
    { rewrite Lc. unfold zlen. split; [intros Eq; rewrite Eq in *; lia|].
      intros Hr. symmetry. apply (Z.div_unique_pos _ _ _ (Z.of_nat j - pmtu * Z.of_nat i)); lia. }
    case_decide as Hc.
    + unfold chunk. rewrite lookup_take_lt by (rewrite Lc in Hc; lia). rewrite lookup_drop. f_equal. lia.
    + apply Pb; [done|]. apply elem_of_union in Hin as [?|Hin%elem_of_singleton]; [done|].
      by apply Hdiv in Hin.
  - intros Hin. case_test.
    + rewrite Lc. lia.
    + apply Pt. set_solver.
  - intros k Hk. apply elem_of_union in Hk as [?|Hk%elem_of_singleton]; [by apply Pr|]. lia.
Qed.

(** The completion test holds exactly when every part has arrived. *)
Lemma complete_iff got f :
  partial got f ->
  (u8 (Z.shiftl 1 total - 1) =? fr_part f) = true <-> forall k, 0 <= k < total -> k ∈ got.
Proof.
  intros [_ Pp _ _ Pr]. destruct total_bounds as [Ht _].
  assert (Eo : u8 (Z.shiftl 1 total - 1) = Z.ones total).
  { unfold Z.ones. rewrite <- Z.sub_1_r. apply u8_id. unfold is_u8. rewrite Z.shiftl_1_l.
    pose proof (Z.pow_le_mono_r 2 total 8). pose proof (Z.pow_pos_nonneg 2 total). lia. }
  rewrite Eo, Z.eqb_eq. split.
  - intros E k Hk. apply (bool_decide_eq_true_1 (k ∈ got)). rewrite <- Pp, <- E by lia.
    apply Z.ones_spec_low. lia.
  - intros Hall. apply Z.bits_inj'. intros k Hk. rewrite Pp by done.
    destruct (Z.ltb_spec k total).
    + rewrite Z.ones_spec_low by lia. symmetry. apply bool_decide_eq_true. apply Hall. lia.
    + rewrite Z.ones_spec_high by lia. symmetry. apply bool_decide_eq_false.
      intros Hin%Pr. lia.
Qed.

(** With every part there, the slot's buffer starts with the packet. *)
Lemma partial_full got f :
  partial got f -> slot_ok f -> (forall k, 0 <= k < total -> k ∈ got) ->
  fr_total_len f = zlen pkt /\ exists rest, fr_buffer f = pkt ++ rest.
Proof.
  intros [_ _ Pb Pt _] Hso Hall. destruct total_bounds as [Ht Hz]. split.
  { apply Pt, Hall. lia. }
  exists (drop (length pkt) (fr_buffer f)). rewrite <- (take_drop (length pkt) (fr_buffer f)) at 1.
  f_equal. apply list_eq. intros j. destruct (decide (j < length pkt)%nat) as [Hj|Hj].
  - rewrite lookup_take_lt by done. apply Pb; [done|]. apply Hall.
    split; [apply Z.div_pos; lia|]. apply Z.div_lt_upper_bound; [lia|].
    assert (Z.of_nat j < zlen pkt) by (unfold zlen; lia). lia.
  - rewrite lookup_take_ge by lia. symmetry. apply lookup_ge_None. lia.
Qed.

(** The state between fragments, when the parts in [got] have arrived. *)
Definition progress (got : gset Z) (w : world) : Prop :=
  client_ok w /\
  ((got = ∅ /\ Forall (fun f => ~ holds src id f) (lp_frags (w_lp w))) \/
   exists i f, lp_frags (w_lp w) !! i = Some f /\ partial got f).

Definition packet_of (a : arrival) : bytes :=
  match ar_msg a with inl i => fragment pmtu id pkt i | inr p => p end.
Definition handle (a : arrival) : M world Z :=
  lan_client_process_frag (packet_of a ++ ar_slack a) (zlen (packet_of a)).

(** Parts of this datagram, or fragments of others (or garbage). *)
Definition arrival_ok (a : arrival) : Prop :=
  is_bytes (ar_slack a) /\
  match ar_msg a with
  | inl i => Z.of_nat i < total
  | inr p => is_bytes p /\
      forall h, frag_header (p ++ ar_slack a) = Some h -> ~ (fh_src h = src /\ fh_id h = id)
  end.
Definition part_of (a : arrival) : option Z :=
  match ar_msg a with inl i => Some (Z.of_nat i) | inr _ => None end.
Definition parts_in (l : list arrival) : gset Z := list_to_set (omap part_of l).

Lemma partial_empty f : holds src id f -> fr_part f = 0 -> partial ∅ f.
Proof.
  intros Hh Hp. constructor; try set_solver. intros k Hk. rewrite Hp, Z.bits_0.
  symmetry. apply bool_decide_eq_false. set_solver.
Qed.

(** The slot [frag_slot] hands out holds the progress made so far. *)
Lemma slot_progress got l l' i f :
  table_ok l' -> ((got = ∅ /\ Forall (fun f => ~ holds src id f) l) \/
    exists i f, l !! i = Some f /\ partial got f) ->
  l' !! i = Some f -> holds src id f ->
  (l' = l \/ Forall (fun f => ~ holds src id f) l /\
    exists g, l !! i = Some g /\ fr_used g = 0 /\ l' = <[i := f]> l /\ fr_part f = 0) ->
  partial got f.
Proof.
  intros Ht Hp Hi Hf [->|(Hn & g & _ & _ & _ & Hz)].
  - destruct Hp as [[_ Hn]|(j & f' & Hj & Hp)].
    { by eapply Forall_lookup_1 in Hn; [|exact Hi]. }
    pose proof (pa_holds _ _ Hp) as (Hu & E1 & E2).
    assert (j = i) as -> by (apply (to_unique _ Ht j i f' f); [done..|by rewrite E1, E2]).
    congruence.
  - destruct Hp as [[-> _]|(j & f' & Hj & Hp)]; [by apply partial_empty|].
    eapply Forall_lookup_1 in Hn; [|exact Hj]. by destruct Hn, Hp.
Qed.

Lemma step_ours got w i slack :
  progress got w -> Z.of_nat (busy (lp_frags (w_lp w))) < LC_FRAG_COUNT ->
  Z.of_nat i < total -> is_bytes slack ->
  let got' := got ∪ {[Z.of_nat i]} in
  let run := handle {| ar_msg := inl i; ar_slack := slack |} w in
  ((forall k, 0 <= k < total -> k ∈ got') /\
    exists rest w1, run = lan_client_process (pkt ++ rest) (zlen pkt) w1 /\ client_ok w1 /\
      pctx w1 = pctx w /\ zlen (pkt ++ rest) = ETHER_MTU /\
      Forall (fun f => ~ holds src id f) (lp_frags (w_lp w1))) \/
  (~ (forall k, 0 <= k < total -> k ∈ got') /\
    exists w1, run = Ok 0 w1 /\ progress got' w1 /\
      (busy (lp_frags (w_lp w1)) <= S (busy (lp_frags (w_lp w))))%nat).
Proof.
  intros [Hw Hp] Hbusy Hi Hsl got' run.
  destruct (our_accepted i slack Hi) as (Hok & Hr & H16 & Hby).
  unfold run, handle, packet_of. cbn [ar_msg ar_slack].
  destruct (process_frag_room (fragment pmtu id pkt i ++ slack) (zlen (fragment pmtu id pkt i)) w
    (our_header i)) as (s & l' & lid' & f & b & Ht & Hs & Hf & Hbl & Hcase & Eb & Hso & ->);
    [apply Hw|by apply Hby|rewrite zlen_app; zlia|by apply frag_header_ours|done..|].
  assert (Hsf : slot_ok f) by (pose proof (to_slots _ Ht) as Hx; by eapply Forall_lookup_1 in Hx).
  pose proof (slot_progress got _ l' s f Ht Hp Hs Hf Hcase) as Hpa.
  pose proof (partial_store got f i b slack Hi Hsf Hpa Eb) as Hpa'. fold got' in Hpa'.
  assert (Hus : fr_used f <> 0) by apply Hf.
  assert (Hib : forall x, (busy (<[s := x]> l') <= busy l')%nat)
    by (intros x; by apply (busy_insert_used _ _ _ f)).
  cbn [fh_total_part our_header].
  destruct (u8 (Z.shiftl 1 total - 1) =? fr_part (stored (our_header i) b f)) eqn:Ec.
  - left. pose proof (proj1 (complete_iff got' _ Hpa') Ec) as Hall. split; [done|].
    destruct (partial_full got' _ Hpa' Hso Hall) as [-> [rest Erest]].
    cbn [fr_buffer stored] in Erest. exists rest. eexists. rewrite Erest. split; [done|].
    split; [|split_and!; [done|rewrite <- Erest; apply Hso|]].
    + rewrite <- Erest. apply with_frags_ok; [done|].
      by apply (table_store _ _ f); [..|apply slot_release].
    + apply Forall_lookup_2. intros j g Hj Hh. simpl in Hj.
      apply list_lookup_insert_Some in Hj as [(<- & <- & _)|(Hne & Hj)]; [by destruct Hh as [[] _]|].
      apply Hne. destruct Hf as (_ & E1 & E2).
      apply (to_unique _ Ht s j f g); [done..|]. by rewrite E1, E2.
  - right. split.
    { intros Hall. apply (complete_iff got' _ Hpa') in Hall. congruence. }
    eexists. split; [done|]. split; [split; [|right]|].
    + apply with_frags_ok; [done|]. by apply (table_store _ _ f).
    + exists s, (stored (our_header i) b f). split; [|done].
      simpl. apply list_lookup_insert_eq. by eapply lookup_lt_Some.
    + simpl. specialize (Hib (stored (our_header i) b f)). lia.
Qed.

(** A fragment of another datagram leaves this one's progress alone. *)
Lemma foreign_progress got l l' s f f' :
  ((got = ∅ /\ Forall (fun f => ~ holds src id f) l) \/
    exists i f, l !! i = Some f /\ partial got f) ->
  (l' = l \/ exists g, l !! s = Some g /\ fr_used g = 0 /\ l' = <[s := f]> l) ->
  l' !! s = Some f -> ~ (fr_src f = src /\ fr_id f = id) ->
  fr_src f' = fr_src f -> fr_id f' = fr_id f ->
  ((got = ∅ /\ Forall (fun f => ~ holds src id f) (<[s := f']> l')) \/
    exists i f, <[s := f']> l' !! i = Some f /\ partial got f).
Proof.
  intros Hp Hcase Hs Hf Es Ei.
  assert (E : <[s := f']> l' = <[s := f']> l).
  { destruct Hcase as [->|(g & _ & _ & ->)]; [done|]. by rewrite list_insert_insert_eq. }
  rewrite E. destruct Hp as [[-> Hn]|(i & f0 & Hi & Hp)].
  - left. split; [done|]. apply Forall_insert; [done|]. intros (_ & E1 & E2). apply Hf.
    by rewrite <- Es, <- Ei.
  - right. exists i, f0. split; [|done]. rewrite list_lookup_insert_ne; [done|]. intros ->.
    pose proof (pa_holds _ _ Hp) as (Hu & E1 & E2).
    destruct Hcase as [->|(g & Hg & Hg0 & _)]; [|congruence].
    assert (f0 = f) as -> by congruence. by apply Hf.
Qed.

Lemma step_foreign got w p slack :
  progress got w -> Z.of_nat (busy (lp_frags (w_lp w))) < LC_FRAG_COUNT ->
  arrival_ok {| ar_msg := inr p; ar_slack := slack |} ->
  post (handle {| ar_msg := inr p; ar_slack := slack |})
    (fun _ w' => progress got w' /\ (busy (lp_frags (w_lp w')) <= S (busy (lp_frags (w_lp w))))%nat) w.
Proof.
  intros [Hw Hp] Hbusy [Hsl [Hbp Hkey]]. cbn [ar_msg ar_slack] in *. unfold handle, packet_of.
  cbn [ar_msg ar_slack].
  assert (Hby : is_bytes (p ++ slack)) by (by apply Forall_app_2).
  assert (Hstay : progress got w /\ (busy (lp_frags (w_lp w)) <= S (busy (lp_frags (w_lp w))))%nat)
    by (split; [done|lia]).
  destruct (decide (16 <= zlen p)) as [H16|H16].
  2: { unfold lan_client_process_frag. case_test; [by apply post_ret|consts; lia]. }
  destruct (frag_header_total (p ++ slack) Hby) as (h & Hh & Hok); [rewrite zlen_app; zlia|].
  destruct (frag_refused h (zlen p)) eqn:Hr.
  { unfold lan_client_process_frag. case_test; [consts; lia|].
    apply post_bind, (post_mem _ h); [done|]. rewrite Hr. by apply post_ret. }
  destruct (process_frag_room (p ++ slack) (zlen p) w h)
    as (s & l' & lid' & f & b & Ht & Hs & Hf & Hbl & Hcase & _ & Hso & Erun);
    [apply Hw|done|rewrite zlen_app; zlia|done..|].
  assert (Hne : ~ (fr_src f = src /\ fr_id f = id)).
  { destruct Hf as (_ & -> & ->). by apply Hkey. }
  assert (Hus : fr_used f <> 0) by apply Hf.
  assert (Hstep : forall f', slot_ok f' -> fr_src f' = fr_src f -> fr_id f' = fr_id f ->
    progress got (with_frags (<[s := f']> l') lid' w) /\
    (busy (<[s := f']> l') <= S (busy (lp_frags (w_lp w))))%nat).
  { intros f' Hf' Es Ei. pose proof (busy_insert_used l' s f' f Hs Hus). split; [|lia]. split.
    - apply with_frags_ok; [done|]. by apply (table_store _ _ f).
    - simpl. eapply foreign_progress; [exact Hp| |exact Hs|done|done|done].
      destruct Hcase as [->|(_ & g & ? & ? & ? & _)]; [by left|]. right. by exists g. }
  unfold post. rewrite Erun. case_test; [|by apply Hstep].
  destruct (Hstep (set_fr_used 0 (stored h b f))) as [[Hok' Hp'] Hb']; [by apply slot_release|done..|].
  destruct Hso as [_ Hsb Hsby Hst _]. cbn [stored fr_buffer] in Hsb.
  edestruct (post_inv _ _ _ (process_post b (fr_total_len (stored h b f)) _ (co_ctx _ Hok') Hsby
    ltac:(rewrite Hsb; consts; lia) ltac:(by rewrite Hsb))) as (a & w' & -> & Hd).
  pose proof (delivers_ok _ _ Hok' Hd) as Hok2. destruct Hd as [_ E]. injection E as E1 _ _ _ _ _.
  unfold progress. rewrite E1. done.
Qed.

Lemma run_arrivals arrivals got w :
  progress got w -> Forall arrival_ok arrivals ->
  Z.of_nat (busy (lp_frags (w_lp w))) + zlen arrivals <= LC_FRAG_COUNT ->
  ~ (forall k, 0 <= k < total -> k ∈ got ∪ parts_in arrivals) ->
  exists w1, for_each arrivals (fun a => handle a ;;; ret tt) w = Ok tt w1 /\
    progress (got ∪ parts_in arrivals) w1 /\
    Z.of_nat (busy (lp_frags (w_lp w1))) <= Z.of_nat (busy (lp_frags (w_lp w))) + zlen arrivals.
Proof.
  intros Hp Ha. revert got w Hp. induction Ha as [|[[i|p] slack] l Ha Hl IH]; intros got w Hp Hb Hn.
  - exists w. split; [done|]. change (parts_in []) with (∅ : gset Z).
    rewrite union_empty_r_L, zlen_nil. split; [done|lia].
  - rewrite zlen_cons in *. zlen_facts. destruct Ha as [Hsl Hi]. cbn [ar_msg ar_slack] in *.
    assert (Eg : got ∪ parts_in ({| ar_msg := inl i; ar_slack := slack |} :: l) =
                 (got ∪ {[Z.of_nat i]}) ∪ parts_in l) by (unfold parts_in; simpl; set_solver).
    rewrite Eg in *.
    destruct (step_ours got w i slack Hp ltac:(lia) Hi Hsl) as [[Hall _]|(_ & w1 & E & Hp1 & Hb1)].
    { destruct Hn. intros k Hk. specialize (Hall k Hk). set_solver. }
    destruct (IH _ w1 Hp1) as (w2 & E2 & Hp2 & Hb2); [lia|done|].
    exists w2. split; [|split; [done|lia]]. cbn [for_each]. unfold bind. by rewrite E.
  - rewrite zlen_cons in *. zlen_facts.
    assert (Eg : got ∪ parts_in ({| ar_msg := inr p; ar_slack := slack |} :: l) = got ∪ parts_in l)
      by done. rewrite Eg in *.
    destruct (post_inv _ _ _ (step_foreign got w p slack Hp ltac:(lia) Ha)) as (r & w1 & E & Hp1 & Hb1).
    destruct (IH _ w1 Hp1) as (w2 & E2 & Hp2 & Hb2); [lia|done|].
    exists w2. split; [|split; [done|lia]]. cbn [for_each]. unfold bind. by rewrite E.
Qed.

Lemma reassembly_run before last slack w :
  client_ok w -> Forall (fun f => ~ holds src id f) (lp_frags (w_lp w)) ->
  Forall arrival_ok before -> Z.of_nat last < total -> is_bytes slack ->
  Z.of_nat (busy (lp_frags (w_lp w))) + zlen before < LC_FRAG_COUNT ->
  Z.of_nat last ∉ parts_in before ->
  (forall k, 0 <= k < total -> k ∈ parts_in before ∪ {[Z.of_nat last]}) ->
  exists w1 w2 rest,
    for_each before (fun a => handle a ;;; ret tt) w = Ok tt w1 /\
    handle {| ar_msg := inl last; ar_slack := slack |} w1 =
      lan_client_process (pkt ++ rest) (zlen pkt) w2 /\
    client_ok w2 /\ Forall (fun f => ~ holds src id f) (lp_frags (w_lp w2)).
Proof.
  intros Hw Hfree Hb Hlast Hsl Hroom Hnew Hall.
  destruct (run_arrivals before ∅ w) as (w1 & E1 & Hp1 & Hb1); [by split; [|left]|done|lia| |].
  { intros Hx. apply Hnew. specialize (Hx (Z.of_nat last)). set_solver by lia. }
  rewrite union_empty_l_L in Hp1.
  destruct (step_ours _ w1 last slack Hp1 ltac:(lia) Hlast Hsl)
    as [(_ & rest & w2 & E2 & Hok2 & _ & _ & Hn)|[Hx _]]; [|done].
  by exists w1, w2, rest.
Qed.

(** C1: reassembly.  Whatever the order in which the parts of a datagram arrive,
    with duplicates, and with fragments of other datagrams and malformed ones in
    between, the arrival of the last missing part delivers exactly the packet that
    was fragmented, and releases the slot; as long as the fragments in flight fit
    in the table. *)
Theorem frag_reassembly before last slack w :
  client_ok w -> Forall (fun f => ~ holds src id f) (lp_frags (w_lp w)) ->
  Forall arrival_ok before -> Z.of_nat last < total -> is_bytes slack ->
  Z.of_nat (busy (lp_frags (w_lp w))) + zlen before < LC_FRAG_COUNT ->
  Z.of_nat last ∉ parts_in before ->
  (forall k, 0 <= k < total -> k ∈ parts_in before ∪ {[Z.of_nat last]}) ->
  exists w1 w2 rest,
    for_each before (fun a => handle a ;;; ret tt) w = Ok tt w1 /\
    handle {| ar_msg := inl last; ar_slack := slack |} w1 =
      lan_client_process (pkt ++ rest) (zlen pkt) w2 /\
    client_ok w2 /\ Forall (fun f => ~ holds src id f) (lp_frags (w_lp w2)).
Proof. apply reassembly_run; done. Qed.
End reassembly.

(** ** Concrete runs *)

Lemma zeros_bytes n : is_bytes (replicate n 0).
Proof. apply Forall_replicate. unfold is_u8. lia. Qed.

Lemma frag_zero_ok : slot_ok frag_zero.
Proof.
  constructor; [done|done|apply zeros_bytes|split; [done|discriminate]|unfold is_u8; simpl; lia].
Qed.

(** The table [lan_client_init] sets up. *)
Lemma empty_table_ok : table_ok (replicate (Z.to_nat LC_FRAG_COUNT) frag_zero).
Proof.
  constructor; [done|apply Forall_replicate, frag_zero_ok|].
  intros i j f g [-> _]%lookup_replicate _ Hu _. by destruct Hu.
Qed.

Lemma demo_client_ok : client_ok demo_world.
Proof.
  constructor; [apply demo_ctx_ok|apply empty_table_ok| |done].
  split; [done|apply zeros_bytes].
Qed.

(** The same client with a path MTU, and with a user name. *)
Definition demo_pmtu_world : world := set_w_lp (set_lp_pmtu 16 demo_lp) demo_world.
Definition demo_user_world : world := set_w_lp (set_lp_username (Some [117; 115; 101; 114]) demo_lp) demo_world.

Lemma demo_user_ok : client_ok demo_user_world.
Proof.
  constructor; [apply demo_ctx_ok|apply empty_table_ok| |].
  - split; [done|apply zeros_bytes].
  - intros u [= <-]. split; [bytes_tac|done].
Qed.

(** A 30-byte packet from 10.13.37.1 to the peer, and its two fragments. *)
Definition demo_pkt : bytes :=
  [0x45; 0; 0; 30; 0; 0; 0; 0; 128; 17; 0; 0; 10; 13; 37; 1; 10; 13; 0; 5; 1; 2; 3; 4; 5; 6; 7; 8; 9; 10].

Lemma demo_pkt_bytes : is_bytes demo_pkt.
Proof. bytes_tac. Qed.

Lemma lan_client_send_ipv4_spec_witness :
  lan_client_send_ipv4 (H := demo_env) demo_peer (demo_pkt ++ []) 30 demo_pmtu_world =
    relay_all (H := demo_env)
      [3 :: [10; 13; 37; 1; 10; 13; 0; 5; 0; 0; 0; 2; 0; 16; 0; 16] ++ take 16 demo_pkt;
       3 :: [10; 13; 37; 1; 10; 13; 0; 5; 0; 0; 1; 2; 0; 14; 0; 16] ++ drop 16 demo_pkt]
      (bump_frag_id demo_pmtu_world).
Proof.
  apply (lan_client_send_ipv4_spec (H := demo_env) demo_peer demo_pkt [] demo_pmtu_world);
    [apply demo_pkt_bytes|constructor|vm_compute; discriminate].
Defined.

Lemma auth_me_response_witness :
  lan_client_process_auth_me (H := demo_env) (0 :: [1; 2; 3] ++ [9]) 4 demo_user_world =
    Ok tt (sent_relay (4 :: sha1 (replicate 20 0 ++ [1; 2; 3]) ++ [117; 115; 101; 114]) demo_user_world).
Proof.
  apply (auth_me_response (H := demo_env) demo_user_world [117; 115; 101; 114] [1; 2; 3] [9]);
    [apply demo_user_ok|reflexivity|bytes_tac|reflexivity].
Defined.

(** A forged fragment: part 7 of 8 with a length that does not fit. *)
Definition demo_forged : bytes :=
  3 :: [10; 13; 0; 5; 10; 13; 37; 1; 0; 1; 7; 8; 0xff; 0xff; 0xff; 0xff] ++ replicate 4079 1.

Lemma lan_client_on_recv_safe_witness :
  post (lan_client_on_recv (H := demo_env) 4096 demo_forged) (fun _ w' => client_ok w') demo_user_world.
Proof.
  apply (lan_client_on_recv_safe (H := demo_env) 4096 demo_forged demo_user_world);
    [apply demo_user_ok| |reflexivity|reflexivity|by left].
  unfold demo_forged. constructor; [unfold is_u8; lia|]. apply Forall_app_2; [bytes_tac|].
  apply Forall_replicate. unfold is_u8. lia.
Defined.

Lemma auth_me_underflow_witness :
  lan_client_on_recv (H := demo_env) 1 (4 :: 0 :: replicate 4094 0) demo_user_world = Stop Oob.
Proof.
  apply (auth_me_underflow (H := demo_env) demo_user_world [117; 115; 101; 114]); reflexivity.
Defined.

(** One hundred datagrams of which only the first fragment arrived. *)
Definition demo_first (k : Z) : bytes :=
  [10; 13; 0; 5; 10; 13; 37; 1; 0; k; 0; 2; 0; 1; 0; 16; 7].
Definition demo_jam_slot (k : Z) : lan_client_fragment :=
  {| fr_local_id := k; fr_src := [10; 13; 0; 5]; fr_id := k; fr_part := 1; fr_used := 1;
     fr_total_len := 0; fr_buffer := 7 :: replicate 1499 0 |}.
Definition demo_jam_table : list lan_client_fragment := demo_jam_slot <$> seqZ 0 100.
Definition demo_jam_world : world := with_frags demo_jam_table 100 demo_world.

(** They fill the table. *)
Example demo_jam_reached :
  for_each (demo_first <$> seqZ 0 100)
    (fun p => lan_client_process_frag (H := demo_env) p (zlen p) ;;; ret tt) demo_world
    = Ok tt demo_jam_world.
Proof. vm_compute. reflexivity. Qed.

Lemma demo_jam_lookup i f :
  demo_jam_table !! i = Some f -> f = demo_jam_slot (Z.of_nat i) /\ (i < 100)%nat.
Proof.
  intros Hi. apply list_lookup_fmap_Some in Hi as (k & -> & Hk).
  apply lookup_seqZ in Hk as [-> ?]. rewrite Z.add_0_l. split; [done|lia].
Qed.

Lemma demo_jammed : jammed demo_jam_world.
Proof.
  split; [constructor; [done|..]|];
    change (lp_frags (w_lp demo_jam_world)) with demo_jam_table.
  - apply Forall_lookup_2. intros i f [-> ?]%demo_jam_lookup.
    constructor; [done|done| |split; [done|discriminate]|unfold is_u8; simpl; lia].
    constructor; [unfold is_u8; lia|apply zeros_bytes].
  - intros i j f g [-> ?]%demo_jam_lookup [-> ?]%demo_jam_lookup _ (_ & E & _). simpl in E. lia.
  - apply Forall_lookup_2. intros i f [-> ?]%demo_jam_lookup. split; [done|].
    change (fr_local_id (demo_jam_slot (Z.of_nat i))) with (Z.of_nat i).
    change (lp_local_id (w_lp demo_jam_world)) with 100. unfold LABS. consts. case_test; lia.
Qed.

Lemma demo_newcomer k :
  k = 200 \/ k = 201 \/ k = 202 -> newcomer (H := demo_env) (demo_first k) demo_jam_world.
Proof.
  intros Hk. split; [destruct Hk as [->|[->| ->]]; bytes_tac|]. intros h Hh.
  assert (fh_id h = k)
    by (destruct Hk as [->|[->| ->]]; vm_compute in Hh; injection Hh as <-; reflexivity).
  change (lp_frags (w_lp demo_jam_world)) with demo_jam_table.
  apply Forall_lookup_2. intros i f [-> ?]%demo_jam_lookup (_ & E & _). simpl in E. lia.
Qed.

Lemma frag_table_jam_witness :
  for_each (demo_first <$> [200; 201; 202])
    (fun p => lan_client_process_frag (H := demo_env) p (zlen p) ;;; ret tt) demo_jam_world
    = Ok tt demo_jam_world.
Proof.
  apply (frag_table_jam (H := demo_env)); [apply demo_jammed|].
  repeat (constructor; [apply demo_newcomer; lia|]). constructor.
Defined.

(** The second part first, then noise, a duplicate, and the first part. *)
Lemma frag_reassembly_witness :
  exists w1 w2 rest,
    for_each [{| ar_msg := inl 1%nat; ar_slack := [] |}; {| ar_msg := inr [1; 2; 3]; ar_slack := [] |};
              {| ar_msg := inr (demo_first 9); ar_slack := [4; 4] |};
              {| ar_msg := inl 1%nat; ar_slack := [] |}]
      (fun a => handle (H := demo_env) demo_pkt 16 7 a ;;; ret tt) demo_world = Ok tt w1 /\
    handle (H := demo_env) demo_pkt 16 7 {| ar_msg := inl 0%nat; ar_slack := [5] |} w1 =
      lan_client_process (H := demo_env) (demo_pkt ++ rest) 30 w2 /\
    client_ok w2 /\ Forall (fun f => ~ holds [10; 13; 37; 1] 7 f) (lp_frags (w_lp w2)).
Proof.
  apply (frag_reassembly (H := demo_env) demo_pkt 16 7);
    [apply demo_pkt_bytes|split; vm_compute; discriminate|lia|vm_compute; discriminate|
     unfold is_u16; lia|apply demo_client_ok| | |reflexivity|bytes_tac|reflexivity| |].
  - apply Forall_replicate. by intros [[] _].
  - repeat constructor; try (unfold is_u8; simpl; lia); intros h Hh; vm_compute in Hh;
      try discriminate Hh; injection Hh as <-; intros [E _]; discriminate E.
  - vm_compute. intros E. discriminate E.
  - intros k Hk. change (parts_of 16 (zlen demo_pkt)) with 2 in Hk.
    assert (k = 0 \/ k = 1) as [-> | ->] by lia; set_solver.
Defined.
