(* ===== verification/Dispatch.v ===== *)
(** The capture path: [process_ipv4] of [src/ipv4/ipv4.c], [process_ether] and
    [get_packet] of [src/packet.c], the capture callback and the gateway's send
    function of [src/lan-play.c].

    A captured frame is answered (ARP, ICMP), relayed to the server, delivered to a
    local console, or handed to the gateway. *)

From stdpp Require Import gmap.
From S2P Require Import Prelude Byteorder Structs Checksum Packet Arp Ipv4 Sha1 LanClient.

(** ** The code *)

Section code.
Context `{Env}.

Definition process_ipv4 (ether : ether_frame) : M world Z :=
  if ef_raw_len ether <? ETHER_OFF_END + IPV4_OFF_END then ret (-1)
  else
    let* ip := mem (parse_ipv4 ether) in
    if negb (ip_version ip =? 4) || (ip_header_len ip <? IPV4_OFF_END) then ret (-1)
    else if ef_raw_len ether <? ETHER_OFF_END + ip_header_len ip then ret (-1)
    else if ip_total_len ip <? ip_header_len ip then ret (-1)
    else if ef_raw_len ether <? ETHER_OFF_END + ip_total_len ip then ret (-1)
    else
      let* _ := arp_set (ef_src ether) (ip_src ip) in
      let* c := gets pctx in
      let packet := ef_payload ether in
      let part := {| p_ptr := packet; p_len := ip_total_len ip |} in
      if CMP_IPV4 (ip_dst ip) (pc_ip c) then
        if ip_protocol ip =? IPV4_PROTOCOL_ICMP then process_icmp ip else ret 0
      else if IS_SUBNET (ip_dst ip) (pc_subnet_net c) (pc_subnet_mask c) then
        if IS_BROADCAST (ip_dst ip) (pc_subnet_net c) (pc_subnet_mask c) then
          let* _ := lan_client_send_ipv4 (ip_dst ip) packet (ip_total_len ip) in
          send_ether (ef_src ether) ETHER_TYPE_IPV4 [part]
        else
          let* known := arp_has_ip (ip_dst ip) in
          if known : bool then
            let* r := arp_get_mac_by_ip (ip_dst ip) in
            (* the result is not checked: dst_mac may be left unset *)
            let dst_mac := match r with Some mac => mac | None => uninit 6 end in
            send_ether dst_mac ETHER_TYPE_IPV4 [part]
          else lan_client_send_ipv4 (ip_dst ip) packet (ip_total_len ip)
      else if CMP_MAC (pc_mac c) (ef_dst ether) then
        modify (emit (EvGateway (ef_raw ether) (ef_raw_len ether))) ;;;
        ret 0
      else ret 0.

Definition process_ether (packet : bytes) (len : Z) : M world Z :=
  if len <? ETHER_OFF_END then ret (-1)
  else
    let* ether := mem (parse_ether packet len) in
    let* mac := gets (fun w => pc_mac (pctx w)) in
    if CMP_MAC (ef_src ether) mac then ret 0
    else if ef_type ether =? ETHER_TYPE_ARP then process_arp ether
    else if ef_type ether =? ETHER_TYPE_IPV4 then process_ipv4 ether
    else ret 0.

Definition get_packet (h : pcap_pkthdr) (packet : bytes) : M world unit :=
  if 65536 <=? pk_len h then print_packet h packet
  else
    upd_pctx (fun c => set_pc_download_packet (u64 (pc_download_packet c + 1)) c) ;;;
    upd_pctx (fun c => set_pc_download_byte (u64 (pc_download_byte c + pk_len h)) c) ;;;
    let* r := process_ether packet (u16 (pk_len h)) in
    if negb (r =? 0) then print_packet h packet else ret tt.

Definition lan_play_pcap_handler (h : pcap_pkthdr) (packet mac : bytes) : M world unit :=
  packet_set_mac mac ;;;
  get_packet h packet.

Definition lan_play_gateway_send_packet (data : bytes) (len : Z) : M world Z :=
  let* dst := mem (mem_get data IPV4_OFF_DST 4) in
  let* r := arp_get_mac_by_ip dst in
  match r with
  | None => ret 0                        (* return false; *)
  | Some dst_mac => send_ether dst_mac ETHER_TYPE_IPV4 [{| p_ptr := data; p_len := len |}]
  end.
End code.

(** ** Safety of the capture path *)

Section safety.
Context `{Env}.

(** What the headers of an IPv4 packet can look like. *)
Record ip_ok (e : ether_frame) (ip : ipv4) : Prop := {
  io_src : is_ip (ip_src ip);
  io_dst : is_ip (ip_dst ip);
  io_total : is_u16 (ip_total_len ip);
  io_header : 0 <= ip_header_len ip;
  io_payload : ip_payload ip = drop (Z.to_nat (ip_header_len ip)) (ef_payload e);
}.

Lemma parse_ipv4_total e :
  is_bytes (ef_payload e) -> 20 <= zlen (ef_payload e) ->
  exists ip, parse_ipv4 e = Some ip /\ ip_ok e ip.
Proof.
  intros Hb Hl. unfold parse_ipv4. set (p := ef_payload e) in *.
  destruct (READ_NET8_total p IPV4_OFF_VER_LEN) as (v1 & -> & H1); [done|consts; lia..|].
  destruct (READ_NET8_total p IPV4_OFF_DSCP_ECN) as (v2 & -> & H2); [done|consts; lia..|].
  destruct (READ_NET16_total p IPV4_OFF_TOTAL_LEN) as (v3 & -> & H3); [done|consts; lia..|].
  destruct (READ_NET16_total p IPV4_OFF_ID) as (v4 & -> & H4); [done|consts; lia..|].
  destruct (READ_NET16_total p IPV4_OFF_FLAGS_FRAG_OFFSET) as (v5 & -> & H5); [done|consts; lia..|].
  destruct (READ_NET8_total p IPV4_OFF_TTL) as (v6 & -> & H6); [done|consts; lia..|].
  destruct (READ_NET8_total p IPV4_OFF_PROTOCOL) as (v7 & -> & H7); [done|consts; lia..|].
  destruct (READ_NET16_total p IPV4_OFF_CHECKSUM) as (v8 & -> & H8); [done|consts; lia..|].
  destruct (mem_get_total p IPV4_OFF_SRC 4) as (s & -> & Ls & Bs); [done|consts; lia..|].
  destruct (mem_get_total p IPV4_OFF_DST 4) as (d & -> & Ld & Bd); [done|consts; lia..|].
  eexists. split; [reflexivity|]. constructor; simpl; try done.
  assert (0 <= Z.land v1 15) by (apply Z.land_nonneg; lia). lia.
Qed.

Lemma relay_all_ok msgs w :
  client_ok w -> exists r w', relay_all msgs w = Ok r w' /\ client_ok w'.
Proof.
  revert w. induction msgs as [|m msgs IH]; intros w Hw; cbn [relay_all]; [eauto|].
  pose proof (sent_relay_ok m w Hw) as Hw1. case_test; eauto.
Qed.

Lemma send_ipv4_post dst pkt post w :
  client_ok w -> is_bytes pkt -> is_bytes post -> 20 <= zlen pkt ->
  Prelude.post (lan_client_send_ipv4 dst (pkt ++ post) (zlen pkt)) (fun _ w' => client_ok w') w.
Proof.
  intros Hw Hb Hp Hl. unfold Prelude.post. rewrite send_ipv4_run by done. case_decide.
  - destruct (relay_all_ok (fragments (lp_pmtu (w_lp w)) (lp_frag_id (w_lp w)) pkt) (bump_frag_id w))
      as (r & w' & -> & Hok); [by destruct Hw|done].
  - by destruct (relay_all_ok [LAN_CLIENT_TYPE_IPV4 :: pkt] w Hw) as (r & w' & -> & Hok).
Qed.

Lemma ctx_client_ok w w' :
  client_ok w -> ctx_ok (pctx w') -> client_part w' = client_part w -> client_ok w'.
Proof. intros Hw Hc E. by apply (delivers_ok w). Qed.

Lemma learned_client_ok mac ip w :
  client_ok w -> is_mac mac -> is_ip ip -> client_ok (learned mac ip w).
Proof.
  intros Hw Hm Hi. apply (ctx_client_ok w); [done|by apply learned_ctx_ok; [apply Hw|..]|].
  unfold learned. by destruct (arp_set_loop _ _ _ _ _).
Qed.

Lemma send_ether_client_post dst type c w :
  client_ok w -> is_mac dst -> wf_payload c ->
  post (send_ether dst type c) (fun _ w' => client_ok w') w.
Proof.
  intros Hw Hd Hc. eapply post_mono; [apply send_ether_post; [apply Hw|done..]|].
  intros r w' ?. by apply (delivers_ok w).
Qed.

(** A lookup gives a hardware address or sends a request. *)
Lemma arp_get_mac_post ip w :
  client_ok w -> is_ip ip ->
  post (arp_get_mac_by_ip ip)
    (fun r w' => client_ok w' /\ match r with Some mac => is_mac mac | None => True end) w.
Proof.
  intros Hw Hi. pose proof (co_ctx _ Hw) as Hc. unfold post.
  rewrite arp_get_mac_by_ip_run by done. unfold resolved.
  destruct (arp_find _ _ _) as [item|] eqn:Ef.
  - apply arp_find_live in Ef as (Hin & _ & _). apply list_elem_of_lookup_1 in Hin as [i Hi'].
    split; [by apply (ctx_client_ok w)|by eapply arp_item_mac].
  - split; [|done]. apply (ctx_client_ok w); [done| |done].
    apply transmitted_ctx_ok; [done|]. unfold who_has. rewrite zlen_framed; [|done|apply Hc].
    destruct (arp_pkt_ok ARP_OPCODE_REQUEST (pc_mac (pctx w)) (pc_ip (pctx w)) NONE_MAC ip)
      as [-> _]; [apply Hc|apply Hc|apply none_mac_ok|done|]. consts. lia.
Qed.

Lemma mem_put_total m off bs :
  is_bytes m -> is_bytes bs -> 0 <= off -> off + zlen bs <= zlen m ->
  exists m', mem_put m off bs = Some m' /\ zlen m' = zlen m /\ is_bytes m'.
Proof.
  intros Hm Hb Ho Hl. destruct (mem_put m off bs) as [m'|] eqn:E.
  - exists m'. split_and!; [done|by eapply mem_put_zlen|by apply (mem_put_is_bytes m off bs)].
  - by rewrite mem_put_Some in E.
Qed.

Lemma calc_checksum_total b n :
  is_bytes b -> 0 <= n <= zlen b -> n <= BUFFER_SIZE -> exists c, calc_checksum b n = Some c.
Proof.
  intros Hb Hn Hs. assert (Hf : forall k, k <= n -> sum_fits k)
    by (intros k Hk; unfold sum_fits; change BUFFER_SIZE with 2048 in Hs; lia).
  assert (Lt : zlen (take (Z.to_nat n) b) = n) by (apply zlen_take; lia).
  assert (Hbt : is_bytes (take (Z.to_nat n) b)) by (by apply Forall_take).
  rewrite <- (take_drop (Z.to_nat n) b). set (l := take _ b) in *. clearbody l.
  destruct (Z.even n) eqn:He.
  - exists (rfc1071 l). rewrite <- Lt. apply calc_checksum_even; [done|congruence|apply Hf; lia].
  - destruct l as [|a l _] using rev_ind.
    { rewrite zlen_nil in Lt. by rewrite <- Lt in He. }
    rewrite zlen_app in Lt. change (zlen [a]) with 1 in Lt. rewrite <- Lt.
    assert (Ev : Z.even (zlen l) = true)
      by (replace (zlen l) with (n - 1) by lia; rewrite Z.even_sub, He; done).
    eexists. apply calc_checksum_odd; [done|done|apply Hf; lia].
Qed.

Lemma icmp_buffer_total ip n :
  is_bytes (ip_payload ip) -> 0 <= n <= zlen (ip_payload ip) -> n <= BUFFER_SIZE ->
  exists b, icmp_buffer ip n = Some b /\ zlen b = BUFFER_SIZE /\ is_bytes b.
Proof.
  intros Hb Hn Hs. unfold icmp_buffer, memcpy.
  destruct (mem_get_total (ip_payload ip) 0 n) as (d & -> & Ld & Bd); [done|lia..|].
  cbn [mbind option_bind].
  assert (Lu : zlen (uninit BUFFER_SIZE) = BUFFER_SIZE) by (apply zlen_uninit; consts; lia).
  destruct (mem_put_total (uninit BUFFER_SIZE) 0 d) as (b1 & -> & L1 & B1);
    [apply uninit_is_bytes|done|lia|rewrite Lu; unfold zlen; lia|]. cbn [mbind option_bind].
  rewrite WRITE_NET8_put.
  destruct (mem_put_total b1 0 [u8 0]) as (b2 & -> & L2 & B2);
    [done|repeat constructor; apply u8_range|lia|rewrite L1, Lu; done|]. cbn [mbind option_bind].
  rewrite WRITE_NET16_put.
  destruct (mem_put_total b2 2 [u16 0 / 256; u16 0 mod 256]) as (b3 & -> & L3 & B3);
    [done|apply hi_lo_bytes, u16_range|lia|rewrite L2, L1, Lu; done|]. cbn [mbind option_bind].
  destruct (calc_checksum_total b3 n) as [c ->]; [done|rewrite L3, L2, L1, Lu; lia|done|].
  cbn [mbind option_bind]. rewrite WRITE_NET16_put.
  destruct (mem_put_total b3 2 [u16 c / 256; u16 c mod 256]) as (b4 & -> & L4 & B4);
    [done|apply hi_lo_bytes, u16_range|lia|rewrite L3, L2, L1, Lu; done|].
  exists b4. split_and!; [done|congruence|done].
Qed.

Lemma send_ipv4_ex_post src dst protocol c w :
  client_ok w -> is_ip src -> is_ip dst -> wf_payload c ->
  post (send_ipv4_ex src dst protocol c) (fun _ w' => client_ok w') w.
Proof.
  intros Hw Hs Hd Hc. unfold send_ipv4_ex. apply post_bind, post_gets, post_bind, post_modify.
  assert (Hw1 : client_ok (bump_id w)).
  { apply (ctx_client_ok w); [done|apply bump_id_ctx_ok, Hw|done]. }
  apply post_bind. rewrite ipv4_header_eq by done. eapply post_mem; [done|].
  apply post_bind. eapply post_mono; [by apply arp_get_mac_post|].
  intros [mac|] w' [Hw' Hm]; [|by apply post_ret].
  destruct (ip_hdr_ok src dst protocol (pc_identification (pctx w))
    (IPV4_HEADER_LEN + payload_total_len c)) as [Lh Bh]; [done..|].
  apply send_ether_client_post; [done|done|]. constructor; [|done].
  split; cbn [p_ptr p_len]; [rewrite Lh; consts; lia|done].
Qed.

Lemma process_icmp_post ip w :
  client_ok w -> is_ip (ip_src ip) -> is_bytes (ip_payload ip) ->
  0 <= ip_total_len ip - ip_header_len ip <= zlen (ip_payload ip) ->
  ip_total_len ip - ip_header_len ip <= BUFFER_SIZE ->
  post (process_icmp ip) (fun _ w' => client_ok w') w.
Proof.
  intros Hw Hs Hb Hl Hf. unfold process_icmp. apply post_bind.
  destruct (icmp_buffer_total ip (ip_total_len ip - ip_header_len ip)) as (b & E & Lb & Bb); [done..|].
  apply (post_mem _ b); [done|]. apply post_bind. unfold send_ipv4. apply post_bind, post_gets.
  eapply post_mono; [apply send_ipv4_ex_post; [done|apply Hw|done|]|by intros r w' ?; apply post_ret].
  constructor; [|constructor]. split; cbn [p_ptr p_len]; [|done].
  change BUFFER_SIZE with 2048 in *. rewrite u16_id by (unfold is_u16; lia). lia.
Qed.

Lemma parse_arp_total e :
  is_bytes (ef_payload e) -> ARP_LEN <= zlen (ef_payload e) -> exists a, parse_arp e = Some a.
Proof.
  intros Hb Hl. unfold parse_arp. set (p := ef_payload e) in *.
  destruct (READ_NET16_total p ARP_OFF_HARDWARE) as (v1 & -> & _); [done|consts; lia..|].
  destruct (READ_NET16_total p ARP_OFF_PROTOCOL) as (v2 & -> & _); [done|consts; lia..|].
  destruct (READ_NET8_total p ARP_OFF_HARDWARE_SIZE) as (v3 & -> & _); [done|consts; lia..|].
  destruct (READ_NET8_total p ARP_OFF_PROTOCOL_SIZE) as (v4 & -> & _); [done|consts; lia..|].
  destruct (READ_NET16_total p ARP_OFF_OPCODE) as (v5 & -> & _); [done|consts; lia..|].
  destruct (mem_get_total p ARP_OFF_SENDER_MAC 6) as (m1 & -> & _); [done|consts; lia..|].
  destruct (mem_get_total p ARP_OFF_SENDER_IP 4) as (i1 & -> & _); [done|consts; lia..|].
  destruct (mem_get_total p ARP_OFF_TARGET_MAC 6) as (m2 & -> & _); [done|consts; lia..|].
  destruct (mem_get_total p ARP_OFF_TARGET_IP 4) as (i2 & -> & _); [done|consts; lia..|].
  eexists. reflexivity.
Qed.

Lemma process_arp_post e w :
  client_ok w -> is_bytes (ef_payload e) -> ARP_LEN <= zlen (ef_payload e) ->
  post (process_arp e) (fun _ w' => client_ok w') w.
Proof.
  intros Hw Hb Hl. destruct (parse_arp_total e Hb Hl) as [a Ea].
  destruct (parse_arp_inv e a Hb Ea) as (Hsm & Hsi & Htm & Hti).
  unfold post. rewrite (process_arp_run e a) by (done || apply Hw).
  destruct (arp_hw_ok a); [|done]. cbn [negb]. cbv zeta.
  pose proof (learned_client_ok (arp_sender_mac a) (arp_sender_ip a) w Hw Hsm Hsi) as Hw1.
  destruct (arp_opcode a =? ARP_OPCODE_REQUEST); [|done]. destruct (arp_quiet a w); [done|].
  case_decide; [by apply (ctx_client_ok _ _ Hw1); [apply Hw1|]|].
  apply (ctx_client_ok _ _ Hw1); [|done]. apply transmitted_ctx_ok; [apply Hw1|].
  unfold proxy_reply. rewrite zlen_framed; [|apply Hsm|apply Hw].
  destruct (arp_pkt_ok ARP_OPCODE_REPLY (pc_mac (pctx w)) (arp_target_ip a) (arp_sender_mac a)
    (arp_sender_ip a)) as [-> _]; [apply Hw|done..|]. consts. lia.
Qed.

(** Splitting the captured bytes after the IPv4 packet. *)
Lemma payload_split e n :
  is_bytes (ef_payload e) -> 0 <= n <= zlen (ef_payload e) ->
  exists pkt trailer, ef_payload e = pkt ++ trailer /\ zlen pkt = n /\ is_bytes pkt /\ is_bytes trailer.
Proof.
  intros Hb Hn. exists (take (Z.to_nat n) (ef_payload e)), (drop (Z.to_nat n) (ef_payload e)).
  split_and!; [by rewrite take_drop|by apply zlen_take|by apply Forall_take|by apply Forall_drop].
Qed.

Lemma process_ipv4_post e w :
  client_ok w -> is_bytes (ef_payload e) -> is_mac (ef_src e) ->
  ef_raw_len e <= 14 + zlen (ef_payload e) ->
  (forall ip, parse_ipv4 e = Some ip -> ip_total_len ip - ip_header_len ip <= BUFFER_SIZE) ->
  post (process_ipv4 e) (fun _ w' => client_ok w') w.
Proof.
  intros Hw Hb Hsrc Hlen Hicmp. unfold process_ipv4. case_test; [by apply post_ret|].
  change (ETHER_OFF_END + IPV4_OFF_END) with 34 in *.
  destruct (parse_ipv4_total e Hb) as (ip & Ei & []); [lia|].
  apply post_bind, (post_mem _ ip); [done|]. specialize (Hicmp ip Ei).
  case_match; [by apply post_ret|]. apply orb_false_iff in H1 as [_ Hhl%Z.ltb_ge].
  change IPV4_OFF_END with 20 in *. change ETHER_OFF_END with 14 in *.
  repeat (case_test; [by apply post_ret|]).
  apply post_bind. eapply post_ok; [apply arp_set_run|].
  set (w1 := learned _ _ _).
  assert (Hw1 : client_ok w1) by (by apply learned_client_ok).
  assert (Hpart : wf_part {| p_ptr := ef_payload e; p_len := ip_total_len ip |})
    by (split; cbn [p_ptr p_len]; [lia|done]).
  assert (Hsend : forall w2, client_ok w2 ->
    post (lan_client_send_ipv4 (ip_dst ip) (ef_payload e) (ip_total_len ip)) (fun _ w' => client_ok w') w2).
  { intros w2 Hw2. destruct (payload_split e (ip_total_len ip) Hb) as (pkt & tr & -> & Lp & Bp & Bt);
      [lia|]. rewrite <- Lp. by apply send_ipv4_post; [..|lia]. }
  apply post_bind, post_gets. case_match.
  { case_test; [|by apply post_ret]. apply process_icmp_post; [done|done| | |done].
    - rewrite io_payload0. by apply Forall_drop.
    - rewrite io_payload0, zlen_drop by lia. lia. }
  case_match; [|case_match; [|by apply post_ret]].
  - case_match.
    + apply post_bind. eapply post_mono; [by apply Hsend|]. intros r w2 Hw2.
      apply send_ether_client_post; [done|done|by constructor].
    + apply post_bind. unfold arp_has_ip. apply post_bind, (post_ok _ (now_at w1) _ (tick w1)); [done|].
      apply post_bind, post_gets, post_ret. 
      assert (Hw2 : client_ok (tick w1)) by (by apply (ctx_client_ok w1); [|apply Hw1|]).
      case_match; [|by apply Hsend].
      apply post_bind. eapply post_mono; [by apply arp_get_mac_post|].
      intros [mac|] w3 [Hw3 Hm]; apply send_ether_client_post; try done; try by constructor.
      split; [|apply uninit_is_bytes]. pose proof (zlen_uninit 6). unfold zlen in *. lia.
  - apply post_bind, post_modify, post_ret. by destruct Hw1.
Qed.
End safety.

(** ** Where a packet goes *)

Inductive route :=
| ToUs                      (* our own address *)
| ToAll                     (* the broadcast address of the virtual subnet *)
| ToLocal (mac : bytes)     (* a console on this network *)
| Expired                   (* one whose cache entry expires between the two lookups *)
| ToRelay                   (* a console behind the relay server *)
| ToGateway                 (* outside the subnet, sent to us as its router *)
| Ignored.                  (* outside the subnet, for another machine *)

Section routing.
Context `{Env}.

Definition in_subnet (c : packet_ctx) (ip : bytes) : Prop :=
  zip_with Z.land ip (pc_subnet_mask c) = pc_subnet_net c.
Definition subnet_broadcast (c : packet_ctx) : bytes :=
  zip_with Z.lor (pc_subnet_net c) ((fun b => 255 - b) <$> pc_subnet_mask c).

(** What the cache says of an address: the abstract cache, in which 0.0.0.0 is never bound,
    and the table itself for 0.0.0.0, which marks free slots. *)
Definition known_mac (l : list arp_item) (now : Z) (ip : bytes) : option bytes :=
  if decide (ip = NONE_IP) then ai_mac <$> arp_find l ip now else arp_view l now !! ip.

(** The route of a packet, from the addresses and the cache.  The code asks the cache twice,
    at [now] whether it has the address, then at [later] for the hardware address. *)
Definition route_of (c : packet_ctx) (now later : Z) (dst dst_mac : bytes) : route :=
  if decide (dst = pc_ip c) then ToUs
  else if decide (zip_with Z.land dst (pc_subnet_mask c) = pc_subnet_net c) then
    if decide (subnet_broadcast c = dst) then ToAll
    else match known_mac (pc_arp_list c) now dst, known_mac (pc_arp_list c) later dst with
         | Some _, Some mac => ToLocal mac
         | Some _, None => Expired
         | None, _ => ToRelay
         end
  else if decide (pc_mac c = dst_mac) then ToGateway
  else Ignored.

(** The datagrams that carry a packet to the relay server. *)
Definition relay_msgs (lp : lan_play) (pkt : bytes) : list bytes :=
  if decide (0 < lp_pmtu lp < zlen pkt)
  then fragments (lp_pmtu lp) (lp_frag_id lp) pkt
  else [LAN_CLIENT_TYPE_IPV4 :: pkt].

(** Those that are handed to the socket, from the [k]-th call on: all of them, or up to the
    first one whose send fails. *)
Fixpoint attempted (k : nat) (msgs : list bytes) : list bytes :=
  match msgs with
  | [] => []
  | m :: msgs => m :: if env_udp_send k m =? 0 then attempted (S k) msgs else []
  end.

(** The packet as a frame, if it fits in the send buffer. *)
Definition frame_events (dst pkt : bytes) (w : world) : list event :=
  if decide (14 + zlen pkt < BUFFER_SIZE) then [EvFrame (framed dst ETHER_TYPE_IPV4 pkt w)] else [].

Definition route_events (r : route) (e : ether_frame) (dst pkt : bytes) (w : world) : list event :=
  let relay k := EvRelay <$> attempted k (relay_msgs (w_lp w) pkt) in
  match r with
  | ToUs | Ignored => []
  | ToAll => relay (S (w_ticks w)) ++ frame_events (ef_src e) pkt w
  | ToLocal mac => frame_events mac pkt w
  | Expired => [EvFrame (who_has dst w)] ++ frame_events (uninit 6) pkt w
  | ToRelay => relay (S (S (w_ticks w)))
  | ToGateway => [EvGateway (ef_raw e) (ef_raw_len e)]
  end.

Lemma known_mac_find l now ip :
  Forall item_ok l -> is_ip ip -> known_mac l now ip = ai_mac <$> arp_find l ip now.
Proof. intros. unfold known_mac. case_decide; [done|]. by rewrite arp_find_view. Qed.

Lemma relay_all_out msgs w :
  exists r w', relay_all msgs w = Ok r w' /\
    w_out w' = w_out w ++ (EvRelay <$> attempted (w_ticks w) msgs) /\ pctx w' = pctx w.
Proof.
  revert w. induction msgs as [|m msgs IH]; intros w; cbn [relay_all attempted].
  - exists 0, w. by rewrite app_nil_r.
  - case_test; [|by eexists _, _].
    destruct (IH (sent_relay m w)) as (r & w' & -> & Ho & Hc). exists r, w'.
    split; [done|]. split; [|done]. rewrite Ho. simpl. by rewrite <- app_assoc.
Qed.

Lemma relay_out dst pkt post w :
  is_bytes pkt -> is_bytes post -> 20 <= zlen pkt ->
  exists r w', lan_client_send_ipv4 dst (pkt ++ post) (zlen pkt) w = Ok r w' /\
    w_out w' = w_out w ++ (EvRelay <$> attempted (w_ticks w) (relay_msgs (w_lp w) pkt)) /\ pctx w' = pctx w.
Proof.
  intros Hb Hp Hl. rewrite send_ipv4_run by done. unfold relay_msgs. case_decide; [|apply relay_all_out].
  destruct (relay_all_out (fragments (lp_pmtu (w_lp w)) (lp_frag_id (w_lp w)) pkt) (bump_frag_id w))
    as (r & w' & -> & Ho & Hc). by exists r, w'.
Qed.

(** A packet forwarded as a frame. *)
Lemma forward_out dst e pkt trailer w :
  ctx_ok (pctx w) -> is_mac dst -> is_bytes (pkt ++ trailer) -> ef_payload e = pkt ++ trailer ->
  exists r w', send_ether dst ETHER_TYPE_IPV4 [{| p_ptr := ef_payload e; p_len := zlen pkt |}] w = Ok r w' /\
    w_out w' = w_out w ++ frame_events dst pkt w.
Proof.
  intros Hc [Ld Hd] Hb ->. set (c := [_]).
  assert (E : chain_data c = pkt).
  { unfold c, chain_data, part_data. simpl. by rewrite to_nat_zlen, take_app_length, app_nil_r. }
  assert (Hwf : wf_payload c) by (constructor; [|constructor]; split; cbn [p_ptr p_len]; [zlia|done]).
  destruct (ctx_mac _ Hc) as [Lm Bm]. pose proof (ctx_ok_buffer_ok _ Hc) as Hbuf.
  unfold frame_events. rewrite <- (ctx_buffer_len _ Hc). case_decide as Hl.
  - rewrite send_ether_ok; rewrite ?E; eauto.
  - unfold send_ether, send_ether_ex. unfold bind at 1. unfold gets at 1. unfold bind at 1.
    rewrite ether_header_eq by done. unfold mem, ret. set (h := eth_hdr _ _ _).
    assert (Hz : zlen h = 14) by by apply zlen_eth_hdr. rewrite (whole_eq h) by done.
    destruct (send_payloads_refused (whole h :: c) w) as (buf & Hbl & ->);
      rewrite ?chain_data_whole, ?E; [|done|rewrite (ctx_buffer_len _ Hc); consts; lia|rewrite zlen_app; lia|].
    { constructor; [|done]. by apply wf_whole, eth_hdr_is_bytes. }
    eexists _, _. split; [reflexivity|]. by rewrite app_nil_r.
Qed.

(** An address of the subnet that is neither ours nor the broadcast address. *)
Lemma unicast_out dst e pkt trailer w :
  client_ok w -> is_ip dst -> is_bytes pkt -> is_bytes trailer ->
  ef_payload e = pkt ++ trailer -> 20 <= zlen pkt ->
  exists code w',
    (let* known := arp_has_ip dst in
     if known : bool then
       let* r := arp_get_mac_by_ip dst in
       send_ether (match r with Some mac => mac | None => uninit 6 end) ETHER_TYPE_IPV4
         [{| p_ptr := ef_payload e; p_len := zlen pkt |}]
     else lan_client_send_ipv4 dst (ef_payload e) (zlen pkt)) w = Ok code w' /\
    w_out w' = w_out w ++
      match known_mac (pc_arp_list (pctx w)) (now_at w) dst,
            known_mac (pc_arp_list (pctx w)) (now_at (tick w)) dst with
      | Some _, Some mac => frame_events mac pkt w
      | Some _, None => [EvFrame (who_has dst w)] ++ frame_events (uninit 6) pkt w
      | None, _ => EvRelay <$> attempted (S (w_ticks w)) (relay_msgs (w_lp w) pkt)
      end.
Proof.
  intros Hw Hd Bp Bt He Hl. pose proof (co_ctx _ Hw) as Hc. unfold arp_has_ip.
  rewrite bind_assoc, (bind_ok _ _ _ (now_at w) (tick w)) by done.
  rewrite bind_assoc. unfold bind at 1. unfold gets at 1.
  rewrite !known_mac_find by (done || apply Hc).
  change (pc_arp_list (pctx (tick w))) with (pc_arp_list (pctx w)).
  rewrite (bind_ok _ _ _ _ (tick w)) by done.
  destruct (arp_find (pc_arp_list (pctx w)) dst (now_at w)) as [item|].
  - rewrite bool_decide_eq_true_2 by done. unfold bind at 1.
    rewrite arp_get_mac_by_ip_run by done. unfold resolved.
    change (pc_arp_list (pctx (tick w))) with (pc_arp_list (pctx w)).
    destruct (arp_find (pc_arp_list (pctx w)) dst (now_at (tick w))) as [item'|] eqn:Ef; cbn [fmap option_fmap option_map].
    + apply arp_find_live in Ef as (Hin & _ & _). apply list_elem_of_lookup_1 in Hin as [i Hi].
      destruct (forward_out (ai_mac item') e pkt trailer (tick (tick w))) as (code & w3 & -> & Ho3);
        [done|by eapply arp_item_mac|by apply Forall_app_2|done|]. by exists code, w3.
    + set (w2 := transmitted _ _). assert (Hc2 : ctx_ok (pctx w2)).
      { apply transmitted_ctx_ok; [done|]. unfold who_has. change (pctx (tick w)) with (pctx w).
        rewrite zlen_framed; [|done|apply Hc].
        destruct (arp_pkt_ok ARP_OPCODE_REQUEST (pc_mac (pctx w)) (pc_ip (pctx w)) NONE_MAC dst)
          as [-> _]; [apply Hc|apply Hc|apply none_mac_ok|done|]. consts. lia. }
      destruct (forward_out (uninit 6) e pkt trailer w2) as (code & w3 & -> & Ho3); [done| |by apply Forall_app_2|done|].
      { split; [|apply uninit_is_bytes]. pose proof (zlen_uninit 6). unfold zlen in *. lia. }
      exists code, w3. split; [done|]. rewrite Ho3. unfold w2. simpl. by rewrite <- app_assoc.
  - rewrite bool_decide_eq_false_2 by (by intros [? ?]).
    destruct (relay_out dst pkt trailer (tick w) Bp Bt) as (r & w2 & Er & Ho2 & Hc2); [lia|].
    rewrite He, Er. by exists r, w2.
Qed.

(** The broadcast address: to the relay server and back to the sender. *)
Lemma broadcast_out dst e pkt trailer w :
  client_ok w -> is_mac (ef_src e) -> is_bytes pkt -> is_bytes trailer -> ef_payload e = pkt ++ trailer -> 20 <= zlen pkt ->
  exists code w',
    (let* _ := lan_client_send_ipv4 dst (ef_payload e) (zlen pkt) in
     send_ether (ef_src e) ETHER_TYPE_IPV4 [{| p_ptr := ef_payload e; p_len := zlen pkt |}]) w = Ok code w' /\
    w_out w' = w_out w ++ (EvRelay <$> attempted (w_ticks w) (relay_msgs (w_lp w) pkt)) ++ frame_events (ef_src e) pkt w.
Proof.
  intros Hw Hs Bp Bt He Hl. destruct (relay_out dst pkt trailer w Bp Bt Hl) as (r2 & w2 & Er & Ho2 & Hc2).
  rewrite He. rewrite (bind_ok _ _ _ _ _ Er), <- He.
  destruct (forward_out (ef_src e) e pkt trailer w2) as (code & w3 & -> & Ho3);
    [rewrite Hc2; apply Hw|done|by apply Forall_app_2|done|].
  exists code, w3. split; [done|]. rewrite Ho3, Ho2, <- app_assoc. unfold frame_events, framed. by rewrite Hc2.
Qed.
(** Learning an address changes nothing of what is sent. *)
Lemma learned_events mac src w :
  let w1 := learned mac src w in
  (forall p, relay_msgs (w_lp w1) p = relay_msgs (w_lp w) p) /\ (forall d p, frame_events d p w1 = frame_events d p w) /\
  (forall dst, who_has dst w1 = who_has dst w).
Proof.
  intros w1. destruct (learned_frame mac src w) as (_ & _ & Hmac & Hpip & _). fold w1 in Hmac, Hpip.
  assert (Hfr : forall d t p, framed d t p w1 = framed d t p w) by (intros; unfold framed; by rewrite Hmac). split_and!.
  - intros p. unfold w1, learned. by destruct (arp_set_loop _ _ _ _ _).
  - intros d p. unfold frame_events. by rewrite Hfr.
  - intros dst. unfold who_has. by rewrite Hfr, Hmac, Hpip.
Qed.

(** C2: routing.  For every well-formed packet that reaches [process_ipv4] (version 4, at
    most as long as what was captured, with the length its header says) the sender's hardware
    address is learned.  An ICMP packet to our own address is then handed to [process_icmp].
    For every other packet exactly the following leaves the client, and nothing else: for our
    own address nothing; for the broadcast address of the virtual subnet, the packet to the
    relay server and back to the sender; for an address the cache knows, the packet, unchanged,
    to that console; for any other address of the subnet, the packet to the relay server;
    outside the subnet, the frame to the gateway if we are its router, and nothing otherwise.
    To the relay server means: as one datagram or its fragments, up to the first one the socket
    refuses.  To a console means: as one frame, if the packet and its header are shorter than
    the send buffer of 2048 bytes, and not at all otherwise.  If the cache entry expires between
    the two times the code looks at it, an ARP request leaves, and the packet to the hardware
    address that happens to be in an uninitialised variable. *)
Theorem process_ipv4_routes e ip pkt trailer w :
  client_ok w -> is_mac (ef_src e) -> is_mac (ef_dst e) ->
  is_bytes (ef_payload e) -> ef_payload e = pkt ++ trailer ->
  parse_ipv4 e = Some ip -> ip_version ip = 4 -> 20 <= ip_header_len ip <= zlen pkt ->
  ip_total_len ip = zlen pkt -> 14 + zlen pkt <= ef_raw_len e ->
  let w1 := learned (ef_src e) (ip_src ip) w in
  let r := route_of (pctx w1) (now_at w1) (now_at (tick w1)) (ip_dst ip) (ef_dst e) in
  if decide (ip_dst ip = pc_ip (pctx w) /\ ip_protocol ip = IPV4_PROTOCOL_ICMP)
  then process_ipv4 e w = process_icmp ip w1
  else exists code w', process_ipv4 e w = Ok code w' /\
         w_out w' = w_out w ++ route_events r e (ip_dst ip) pkt w.
Proof.
  intros Hw Hsrc Hdm Hb He Hip Hv Hhl Htl Hraw w1 r.
  destruct (parse_ipv4_total e Hb) as (ip' & Ei & [Ios Iod Iot Ioh Iop]).
  { rewrite He, zlen_app. zlia. }
  assert (ip' = ip) as -> by congruence. clear Ei.
  assert (Hpp : is_bytes pkt /\ is_bytes trailer) by (rewrite He in Hb; by apply Forall_app in Hb).
  destruct Hpp as [Bp Bt].
  destruct (learned_frame (ef_src e) (ip_src ip) w) as (Ho & Ht & Hmac & Hpip & Hnet & Hmask).
  fold w1 in Ho, Ht, Hmac, Hpip, Hnet, Hmask.
  assert (Hw1 : client_ok w1) by (by apply learned_client_ok).
  pose proof (co_ctx _ Hw1) as Hc1. destruct (learned_events (ef_src e) (ip_src ip) w) as (Hlp & Hfe & Hwh). fold w1 in Hlp, Hfe, Hwh.
  unfold process_ipv4. change (ETHER_OFF_END + IPV4_OFF_END) with 34.
  change ETHER_OFF_END with 14. change IPV4_OFF_END with 20.
  case_test; [lia|]. rewrite Hip. rewrite (bind_ok _ _ _ ip w) by done.
  rewrite Hv, Htl. cbn [negb orb Z.eqb Pos.eqb]. repeat (case_test; [lia|]).
  rewrite (bind_ok _ _ _ _ _ (arp_set_run _ _ _)). fold w1.
  rewrite (bind_ok _ _ _ (pctx w1) w1) by done.
  rewrite CMP_IPV4_spec, IS_SUBNET_bytes, IS_BROADCAST_bytes, CMP_MAC_spec
    by (apply Iod || apply Hc1 || apply Hdm).
  unfold r, route_of. rewrite <- Ho, <- Hpip in *.
  case_bool_decide as E1.
  { destruct (Z.eqb_spec (ip_protocol ip) IPV4_PROTOCOL_ICMP).
    - by rewrite decide_True.
    - rewrite decide_False by naive_solver. rewrite decide_True by done.
      exists 0, w1. cbn [route_events]. by rewrite app_nil_r. }
  do 2 (rewrite decide_False by naive_solver). case_bool_decide as E2.
  2: { rewrite decide_False by done. case_bool_decide as E3.
       - rewrite decide_True by done. eexists _, _. split; [reflexivity|]. done.
       - rewrite decide_False by done. exists 0, w1. cbn [route_events]. by rewrite app_nil_r. }
  rewrite decide_True by done. case_bool_decide as E3.
  - rewrite decide_True by done.
    destruct (broadcast_out (ip_dst ip) e pkt trailer w1) as (code & w2 & -> & Ho2); try done; [lia|].
    exists code, w2. split; [done|]. by rewrite Ho2, Hlp, Ht, Hfe.
  - rewrite decide_False by done.
    destruct (unicast_out (ip_dst ip) e pkt trailer w1) as (code & w2 & -> & Ho2); try done; [lia|].
    exists code, w2. split; [done|]. rewrite Ho2, Ht, Hlp.
    by repeat case_match; simpl; rewrite ?Hfe, ?Hwh.
Qed.
End routing.

(** ** The capture handler *)

Section handler.
Context `{Env}.

Lemma process_ether_post packet len w :
  client_ok w -> is_bytes packet -> zlen packet = len ->
  (forall e, parse_ether packet len = Some e -> ef_type e = ETHER_TYPE_ARP ->
     ARP_LEN <= zlen (ef_payload e)) ->
  (forall e ip, parse_ether packet len = Some e -> parse_ipv4 e = Some ip ->
     ip_total_len ip - ip_header_len ip <= BUFFER_SIZE) ->
  post (process_ether packet len) (fun _ w' => client_ok w') w.
Proof.
  intros Hw Hb Hl Harp Hicmp. unfold process_ether. change ETHER_OFF_END with 14.
  case_test; [by apply post_ret|].
  assert (exists e, parse_ether packet len = Some e /\ is_mac (ef_src e) /\
    is_bytes (ef_payload e) /\ ef_raw_len e = 14 + zlen (ef_payload e)) as (e & Ee & Hsrc & Hpl & Hrl).
  { unfold parse_ether.
    destruct (mem_get_total packet ETHER_OFF_DST 6) as (d & -> & Ld & Bd); [done|consts; lia..|].
    destruct (mem_get_total packet ETHER_OFF_SRC 6) as (s & -> & Ls & Bs); [done|consts; lia..|].
    destruct (READ_NET16_total packet ETHER_OFF_TYPE) as (t & -> & Ht); [done|consts; lia..|].
    rewrite mem_from_Some by (consts; lia). eexists. split; [reflexivity|].
    cbn [ef_src ef_payload ef_raw_len]. split_and!; [done|by apply Forall_drop|].
    rewrite zlen_drop by (consts; lia). consts. lia. }
  apply post_bind, (post_mem _ e); [done|]. apply post_bind, post_gets.
  destruct (CMP_MAC _ _); [by apply post_ret|].
  repeat case_test; [apply process_arp_post; eauto|apply process_ipv4_post; eauto; lia|by apply post_ret].
Qed.

Lemma print_packet_post h packet w :
  client_ok w -> 0 <= pk_len h <= zlen packet ->
  post (print_packet h packet) (fun _ w' => client_ok w') w.
Proof.
  intros [] Hl. unfold print_packet. apply post_bind. rewrite mem_get_Some by lia.
  eapply post_mem; [done|]. apply post_modify. by constructor.
Qed.

Lemma pcap_handler_post h packet mac w :
  client_ok w -> is_mac mac -> is_bytes packet -> zlen packet = pk_len h ->
  (forall e, parse_ether packet (pk_len h) = Some e -> ef_type e = ETHER_TYPE_ARP ->
     ARP_LEN <= zlen (ef_payload e)) ->
  (forall e ip, parse_ether packet (pk_len h) = Some e -> parse_ipv4 e = Some ip ->
     ip_total_len ip - ip_header_len ip <= BUFFER_SIZE) ->
  post (lan_play_pcap_handler h packet mac) (fun _ w' => client_ok w') w.
Proof.
  intros Hw Hm Hb Hl Harp Hicmp. unfold lan_play_pcap_handler, packet_set_mac.
  apply post_bind, post_modify. set (w1 := set_w_lp _ _).
  assert (Hw1 : client_ok w1) by (destruct Hw as [[] ? ? ?]; by constructor; [constructor|..]).
  clearbody w1. unfold get_packet. pose proof (zlen_nonneg packet).
  case_test; [apply print_packet_post; [done|lia]|].
  apply post_bind, post_modify, post_bind, post_modify. set (w2 := set_w_lp _ _).
  assert (Hw2 : client_ok w2) by (destruct Hw1 as [[] ? ? ?]; by constructor; [constructor|..]).
  clearbody w2. apply post_bind. rewrite u16_id by (unfold is_u16; lia).
  eapply post_mono; [by apply process_ether_post|]. intros r w3 Hw3.
  case_match; [apply print_packet_post; [done|lia]|by apply post_ret].
Qed.

(** The capture handler is memory safe and keeps the client's invariant on
    every completely captured frame, whatever its contents, provided an ARP frame
    is not cut short and an IPv4 payload is no longer than the ICMP handler's local
    array; the handler always returns. *)
Theorem capture_safe h packet mac w :
  client_ok w -> is_mac mac -> is_bytes packet -> zlen packet = pk_len h ->
  (forall e, parse_ether packet (pk_len h) = Some e -> ef_type e = ETHER_TYPE_ARP ->
     ARP_LEN <= zlen (ef_payload e)) ->
  (forall e ip, parse_ether packet (pk_len h) = Some e -> parse_ipv4 e = Some ip ->
     ip_total_len ip - ip_header_len ip <= BUFFER_SIZE) ->
  post (lan_play_pcap_handler h packet mac) (fun _ w' => client_ok w') w.
Proof. apply pcap_handler_post. Qed.
End handler.

(** ** Concrete runs *)

(** A console at 10.13.0.5 sends to 10.13.0.9, which is not on this network. *)
Definition demo_remote_pkt : bytes :=
  [0x45; 0; 0; 22; 0; 0; 0; 0; 64; 17; 0; 0; 10; 13; 0; 5; 10; 13; 0; 9; 1; 2].
Definition demo_frame (dst : bytes) (pl : bytes) : bytes := dst ++ [2; 0; 0; 0; 0; 5] ++ [8; 0] ++ pl.
Definition demo_ip_ether (dst pl : bytes) : ether_frame :=
  {| ef_raw := demo_frame dst pl; ef_raw_len := 14 + zlen pl; ef_dst := dst;
     ef_src := [2; 0; 0; 0; 0; 5]; ef_type := ETHER_TYPE_IPV4; ef_payload := pl |}.

(** The clock of [demo_env] stands still during a handler here. *)
Definition still_env : Env :=
  {| env_host := le_host; env_time := fun _ => 1000; env_pcap_sendpacket := fun _ _ => 0;
     env_udp_send := fun _ _ => 0; env_call := fun _ _ => 0; env_stack := fun _ => 0;
     env_getaddrinfo := fun _ _ _ => (-2, None); env_ip_name := fun _ => [] |}.

Lemma process_ipv4_routes_witness :
  exists code w', process_ipv4 (H := still_env) (demo_ip_ether demo_mac (demo_remote_pkt ++ [])) demo_world
    = Ok code w' /\ w_out w' = [EvRelay (1 :: demo_remote_pkt)].
Proof.
  apply (process_ipv4_routes (H := still_env)
    (demo_ip_ether demo_mac (demo_remote_pkt ++ []))
    {| ip_ether := demo_ip_ether demo_mac (demo_remote_pkt ++ []); ip_version := 4; ip_header_len := 20;
       ip_dscp := 0; ip_ecn := 0; ip_total_len := 22; ip_identification := 0; ip_flags := 0;
       ip_fragment_offset := 0; ip_ttl := 64; ip_protocol := 17; ip_checksum := 0;
       ip_src := [10; 13; 0; 5]; ip_dst := [10; 13; 0; 9]; ip_payload := [1; 2] |}
    demo_remote_pkt [] demo_world);
    [apply demo_client_ok|split; [done|bytes_tac]|split; [done|bytes_tac]|bytes_tac|reflexivity|
     reflexivity|reflexivity|split; vm_compute; discriminate|reflexivity|vm_compute; discriminate].
Defined.

Lemma capture_safe_witness :
  post (lan_play_pcap_handler (H := demo_env) {| pk_caplen := 36; pk_len := 36 |}
    (demo_frame demo_mac demo_remote_pkt) demo_mac) (fun _ w' => client_ok w') demo_world.
Proof.
  apply (capture_safe (H := demo_env)); [apply demo_client_ok|split; [done|bytes_tac]|bytes_tac|
    reflexivity| |].
  - intros e He. vm_compute in He. injection He as <-. discriminate.
  - intros e ip He Hip. vm_compute in He. injection He as <-. vm_compute in Hip. injection Hip as <-.
    vm_compute. discriminate.
Defined.
