(* ===== verification/LanPlay.v ===== *)
(** Start-up, tear-down and the event loop: [src/lan-play.c].

    [lan_play_init] turns the command-line options into the state the handlers
    run on; libuv then calls one handler at a time.  The main results: set-up
    either fails cleanly or establishes the client's invariant with the values the
    options ask for, and from there no sequence of frames, datagrams, timer ticks
    and gateway packets makes a handler leave its buffers. *)

From stdpp Require Import strings.
From S2P Require Import Prelude Byteorder Structs Packet Helper Arp Ipv4 Sha1 LanClient Dispatch.

(** [struct cli_options]: a [char *] is the string, or [None] for null. *)
Record cli_options := {
  opt_help : Z;
  opt_version : Z;
  opt_broadcast : bool;
  opt_pmtu : Z;
  opt_fake_internet : bool;
  opt_list_if : bool;
  opt_netif : option bytes;
  opt_netif_ipaddr : option bytes;
  opt_netif_netmask : option bytes;
  opt_server_ip : option bytes;
  opt_subnet_net : option bytes;
  opt_subnet_mask : option bytes;
  opt_relay_server_addr : option bytes;
  opt_relay_username : option bytes;
  opt_relay_password : option bytes;
  opt_relay_password_file : option bytes;
  opt_socks5_server_addr : option bytes;
  opt_socks5_username : option bytes;
  opt_socks5_password : option bytes;
  opt_socks5_password_file : option bytes;
  opt_rpc : option bytes;
  opt_rpc_token : option bytes;
  opt_rpc_protocol : option bytes;
}.

(** Stores to the fields. *)
Definition set_opt_help (v : Z) (o : cli_options) : cli_options :=
  {| opt_help := v; opt_version := opt_version o; opt_broadcast := opt_broadcast o; opt_pmtu :=
     opt_pmtu o; opt_fake_internet := opt_fake_internet o; opt_list_if := opt_list_if o;
     opt_netif := opt_netif o; opt_netif_ipaddr := opt_netif_ipaddr o; opt_netif_netmask :=
     opt_netif_netmask o; opt_server_ip := opt_server_ip o; opt_subnet_net := opt_subnet_net o;
     opt_subnet_mask := opt_subnet_mask o; opt_relay_server_addr := opt_relay_server_addr o;
     opt_relay_username := opt_relay_username o; opt_relay_password := opt_relay_password o;
     opt_relay_password_file := opt_relay_password_file o; opt_socks5_server_addr :=
     opt_socks5_server_addr o; opt_socks5_username := opt_socks5_username o; opt_socks5_password
     := opt_socks5_password o; opt_socks5_password_file := opt_socks5_password_file o; opt_rpc :=
     opt_rpc o; opt_rpc_token := opt_rpc_token o; opt_rpc_protocol := opt_rpc_protocol o |}.
Definition set_opt_version (v : Z) (o : cli_options) : cli_options :=
  {| opt_help := opt_help o; opt_version := v; opt_broadcast := opt_broadcast o; opt_pmtu :=
     opt_pmtu o; opt_fake_internet := opt_fake_internet o; opt_list_if := opt_list_if o;
     opt_netif := opt_netif o; opt_netif_ipaddr := opt_netif_ipaddr o; opt_netif_netmask :=
     opt_netif_netmask o; opt_server_ip := opt_server_ip o; opt_subnet_net := opt_subnet_net o;
     opt_subnet_mask := opt_subnet_mask o; opt_relay_server_addr := opt_relay_server_addr o;
     opt_relay_username := opt_relay_username o; opt_relay_password := opt_relay_password o;
     opt_relay_password_file := opt_relay_password_file o; opt_socks5_server_addr :=
     opt_socks5_server_addr o; opt_socks5_username := opt_socks5_username o; opt_socks5_password
     := opt_socks5_password o; opt_socks5_password_file := opt_socks5_password_file o; opt_rpc :=
     opt_rpc o; opt_rpc_token := opt_rpc_token o; opt_rpc_protocol := opt_rpc_protocol o |}.
Definition set_opt_broadcast (v : bool) (o : cli_options) : cli_options :=
  {| opt_help := opt_help o; opt_version := opt_version o; opt_broadcast := v; opt_pmtu :=
     opt_pmtu o; opt_fake_internet := opt_fake_internet o; opt_list_if := opt_list_if o;
     opt_netif := opt_netif o; opt_netif_ipaddr := opt_netif_ipaddr o; opt_netif_netmask :=
     opt_netif_netmask o; opt_server_ip := opt_server_ip o; opt_subnet_net := opt_subnet_net o;
     opt_subnet_mask := opt_subnet_mask o; opt_relay_server_addr := opt_relay_server_addr o;
     opt_relay_username := opt_relay_username o; opt_relay_password := opt_relay_password o;
     opt_relay_password_file := opt_relay_password_file o; opt_socks5_server_addr :=
     opt_socks5_server_addr o; opt_socks5_username := opt_socks5_username o; opt_socks5_password
     := opt_socks5_password o; opt_socks5_password_file := opt_socks5_password_file o; opt_rpc :=
     opt_rpc o; opt_rpc_token := opt_rpc_token o; opt_rpc_protocol := opt_rpc_protocol o |}.
Definition set_opt_pmtu (v : Z) (o : cli_options) : cli_options :=
  {| opt_help := opt_help o; opt_version := opt_version o; opt_broadcast := opt_broadcast o;
     opt_pmtu := v; opt_fake_internet := opt_fake_internet o; opt_list_if := opt_list_if o;
     opt_netif := opt_netif o; opt_netif_ipaddr := opt_netif_ipaddr o; opt_netif_netmask :=
     opt_netif_netmask o; opt_server_ip := opt_server_ip o; opt_subnet_net := opt_subnet_net o;
     opt_subnet_mask := opt_subnet_mask o; opt_relay_server_addr := opt_relay_server_addr o;
     opt_relay_username := opt_relay_username o; opt_relay_password := opt_relay_password o;
     opt_relay_password_file := opt_relay_password_file o; opt_socks5_server_addr :=
     opt_socks5_server_addr o; opt_socks5_username := opt_socks5_username o; opt_socks5_password
     := opt_socks5_password o; opt_socks5_password_file := opt_socks5_password_file o; opt_rpc :=
     opt_rpc o; opt_rpc_token := opt_rpc_token o; opt_rpc_protocol := opt_rpc_protocol o |}.
Definition set_opt_fake_internet (v : bool) (o : cli_options) : cli_options :=
  {| opt_help := opt_help o; opt_version := opt_version o; opt_broadcast := opt_broadcast o;
     opt_pmtu := opt_pmtu o; opt_fake_internet := v; opt_list_if := opt_list_if o; opt_netif :=
     opt_netif o; opt_netif_ipaddr := opt_netif_ipaddr o; opt_netif_netmask := opt_netif_netmask
     o; opt_server_ip := opt_server_ip o; opt_subnet_net := opt_subnet_net o; opt_subnet_mask :=
     opt_subnet_mask o; opt_relay_server_addr := opt_relay_server_addr o; opt_relay_username :=
     opt_relay_username o; opt_relay_password := opt_relay_password o; opt_relay_password_file :=
     opt_relay_password_file o; opt_socks5_server_addr := opt_socks5_server_addr o;
     opt_socks5_username := opt_socks5_username o; opt_socks5_password := opt_socks5_password o;
     opt_socks5_password_file := opt_socks5_password_file o; opt_rpc := opt_rpc o; opt_rpc_token
     := opt_rpc_token o; opt_rpc_protocol := opt_rpc_protocol o |}.
Definition set_opt_list_if (v : bool) (o : cli_options) : cli_options :=
  {| opt_help := opt_help o; opt_version := opt_version o; opt_broadcast := opt_broadcast o;
     opt_pmtu := opt_pmtu o; opt_fake_internet := opt_fake_internet o; opt_list_if := v;
     opt_netif := opt_netif o; opt_netif_ipaddr := opt_netif_ipaddr o; opt_netif_netmask :=
     opt_netif_netmask o; opt_server_ip := opt_server_ip o; opt_subnet_net := opt_subnet_net o;
     opt_subnet_mask := opt_subnet_mask o; opt_relay_server_addr := opt_relay_server_addr o;
     opt_relay_username := opt_relay_username o; opt_relay_password := opt_relay_password o;
     opt_relay_password_file := opt_relay_password_file o; opt_socks5_server_addr :=
     opt_socks5_server_addr o; opt_socks5_username := opt_socks5_username o; opt_socks5_password
     := opt_socks5_password o; opt_socks5_password_file := opt_socks5_password_file o; opt_rpc :=
     opt_rpc o; opt_rpc_token := opt_rpc_token o; opt_rpc_protocol := opt_rpc_protocol o |}.
Definition set_opt_netif (v : option bytes) (o : cli_options) : cli_options :=
  {| opt_help := opt_help o; opt_version := opt_version o; opt_broadcast := opt_broadcast o;
     opt_pmtu := opt_pmtu o; opt_fake_internet := opt_fake_internet o; opt_list_if := opt_list_if
     o; opt_netif := v; opt_netif_ipaddr := opt_netif_ipaddr o; opt_netif_netmask :=
     opt_netif_netmask o; opt_server_ip := opt_server_ip o; opt_subnet_net := opt_subnet_net o;
     opt_subnet_mask := opt_subnet_mask o; opt_relay_server_addr := opt_relay_server_addr o;
     opt_relay_username := opt_relay_username o; opt_relay_password := opt_relay_password o;
     opt_relay_password_file := opt_relay_password_file o; opt_socks5_server_addr :=
     opt_socks5_server_addr o; opt_socks5_username := opt_socks5_username o; opt_socks5_password
     := opt_socks5_password o; opt_socks5_password_file := opt_socks5_password_file o; opt_rpc :=
     opt_rpc o; opt_rpc_token := opt_rpc_token o; opt_rpc_protocol := opt_rpc_protocol o |}.
Definition set_opt_server_ip (v : option bytes) (o : cli_options) : cli_options :=
  {| opt_help := opt_help o; opt_version := opt_version o; opt_broadcast := opt_broadcast o;
     opt_pmtu := opt_pmtu o; opt_fake_internet := opt_fake_internet o; opt_list_if := opt_list_if
     o; opt_netif := opt_netif o; opt_netif_ipaddr := opt_netif_ipaddr o; opt_netif_netmask :=
     opt_netif_netmask o; opt_server_ip := v; opt_subnet_net := opt_subnet_net o; opt_subnet_mask
     := opt_subnet_mask o; opt_relay_server_addr := opt_relay_server_addr o; opt_relay_username
     := opt_relay_username o; opt_relay_password := opt_relay_password o; opt_relay_password_file
     := opt_relay_password_file o; opt_socks5_server_addr := opt_socks5_server_addr o;
     opt_socks5_username := opt_socks5_username o; opt_socks5_password := opt_socks5_password o;
     opt_socks5_password_file := opt_socks5_password_file o; opt_rpc := opt_rpc o; opt_rpc_token
     := opt_rpc_token o; opt_rpc_protocol := opt_rpc_protocol o |}.
Definition set_opt_subnet_net (v : option bytes) (o : cli_options) : cli_options :=
  {| opt_help := opt_help o; opt_version := opt_version o; opt_broadcast := opt_broadcast o;
     opt_pmtu := opt_pmtu o; opt_fake_internet := opt_fake_internet o; opt_list_if := opt_list_if
     o; opt_netif := opt_netif o; opt_netif_ipaddr := opt_netif_ipaddr o; opt_netif_netmask :=
     opt_netif_netmask o; opt_server_ip := opt_server_ip o; opt_subnet_net := v; opt_subnet_mask
     := opt_subnet_mask o; opt_relay_server_addr := opt_relay_server_addr o; opt_relay_username
     := opt_relay_username o; opt_relay_password := opt_relay_password o; opt_relay_password_file
     := opt_relay_password_file o; opt_socks5_server_addr := opt_socks5_server_addr o;
     opt_socks5_username := opt_socks5_username o; opt_socks5_password := opt_socks5_password o;
     opt_socks5_password_file := opt_socks5_password_file o; opt_rpc := opt_rpc o; opt_rpc_token
     := opt_rpc_token o; opt_rpc_protocol := opt_rpc_protocol o |}.
Definition set_opt_subnet_mask (v : option bytes) (o : cli_options) : cli_options :=
  {| opt_help := opt_help o; opt_version := opt_version o; opt_broadcast := opt_broadcast o;
     opt_pmtu := opt_pmtu o; opt_fake_internet := opt_fake_internet o; opt_list_if := opt_list_if
     o; opt_netif := opt_netif o; opt_netif_ipaddr := opt_netif_ipaddr o; opt_netif_netmask :=
     opt_netif_netmask o; opt_server_ip := opt_server_ip o; opt_subnet_net := opt_subnet_net o;
     opt_subnet_mask := v; opt_relay_server_addr := opt_relay_server_addr o; opt_relay_username
     := opt_relay_username o; opt_relay_password := opt_relay_password o; opt_relay_password_file
     := opt_relay_password_file o; opt_socks5_server_addr := opt_socks5_server_addr o;
     opt_socks5_username := opt_socks5_username o; opt_socks5_password := opt_socks5_password o;
     opt_socks5_password_file := opt_socks5_password_file o; opt_rpc := opt_rpc o; opt_rpc_token
     := opt_rpc_token o; opt_rpc_protocol := opt_rpc_protocol o |}.
Definition set_opt_relay_server_addr (v : option bytes) (o : cli_options) : cli_options :=
  {| opt_help := opt_help o; opt_version := opt_version o; opt_broadcast := opt_broadcast o;
     opt_pmtu := opt_pmtu o; opt_fake_internet := opt_fake_internet o; opt_list_if := opt_list_if
     o; opt_netif := opt_netif o; opt_netif_ipaddr := opt_netif_ipaddr o; opt_netif_netmask :=
     opt_netif_netmask o; opt_server_ip := opt_server_ip o; opt_subnet_net := opt_subnet_net o;
     opt_subnet_mask := opt_subnet_mask o; opt_relay_server_addr := v; opt_relay_username :=
     opt_relay_username o; opt_relay_password := opt_relay_password o; opt_relay_password_file :=
     opt_relay_password_file o; opt_socks5_server_addr := opt_socks5_server_addr o;
     opt_socks5_username := opt_socks5_username o; opt_socks5_password := opt_socks5_password o;
     opt_socks5_password_file := opt_socks5_password_file o; opt_rpc := opt_rpc o; opt_rpc_token
     := opt_rpc_token o; opt_rpc_protocol := opt_rpc_protocol o |}.
Definition set_opt_relay_username (v : option bytes) (o : cli_options) : cli_options :=
  {| opt_help := opt_help o; opt_version := opt_version o; opt_broadcast := opt_broadcast o;
     opt_pmtu := opt_pmtu o; opt_fake_internet := opt_fake_internet o; opt_list_if := opt_list_if
     o; opt_netif := opt_netif o; opt_netif_ipaddr := opt_netif_ipaddr o; opt_netif_netmask :=
     opt_netif_netmask o; opt_server_ip := opt_server_ip o; opt_subnet_net := opt_subnet_net o;
     opt_subnet_mask := opt_subnet_mask o; opt_relay_server_addr := opt_relay_server_addr o;
     opt_relay_username := v; opt_relay_password := opt_relay_password o; opt_relay_password_file
     := opt_relay_password_file o; opt_socks5_server_addr := opt_socks5_server_addr o;
     opt_socks5_username := opt_socks5_username o; opt_socks5_password := opt_socks5_password o;
     opt_socks5_password_file := opt_socks5_password_file o; opt_rpc := opt_rpc o; opt_rpc_token
     := opt_rpc_token o; opt_rpc_protocol := opt_rpc_protocol o |}.
Definition set_opt_relay_password (v : option bytes) (o : cli_options) : cli_options :=
  {| opt_help := opt_help o; opt_version := opt_version o; opt_broadcast := opt_broadcast o;
     opt_pmtu := opt_pmtu o; opt_fake_internet := opt_fake_internet o; opt_list_if := opt_list_if
     o; opt_netif := opt_netif o; opt_netif_ipaddr := opt_netif_ipaddr o; opt_netif_netmask :=
     opt_netif_netmask o; opt_server_ip := opt_server_ip o; opt_subnet_net := opt_subnet_net o;
     opt_subnet_mask := opt_subnet_mask o; opt_relay_server_addr := opt_relay_server_addr o;
     opt_relay_username := opt_relay_username o; opt_relay_password := v; opt_relay_password_file
     := opt_relay_password_file o; opt_socks5_server_addr := opt_socks5_server_addr o;
     opt_socks5_username := opt_socks5_username o; opt_socks5_password := opt_socks5_password o;
     opt_socks5_password_file := opt_socks5_password_file o; opt_rpc := opt_rpc o; opt_rpc_token
     := opt_rpc_token o; opt_rpc_protocol := opt_rpc_protocol o |}.
Definition set_opt_relay_password_file (v : option bytes) (o : cli_options) : cli_options :=
  {| opt_help := opt_help o; opt_version := opt_version o; opt_broadcast := opt_broadcast o;
     opt_pmtu := opt_pmtu o; opt_fake_internet := opt_fake_internet o; opt_list_if := opt_list_if
     o; opt_netif := opt_netif o; opt_netif_ipaddr := opt_netif_ipaddr o; opt_netif_netmask :=
     opt_netif_netmask o; opt_server_ip := opt_server_ip o; opt_subnet_net := opt_subnet_net o;
     opt_subnet_mask := opt_subnet_mask o; opt_relay_server_addr := opt_relay_server_addr o;
     opt_relay_username := opt_relay_username o; opt_relay_password := opt_relay_password o;
     opt_relay_password_file := v; opt_socks5_server_addr := opt_socks5_server_addr o;
     opt_socks5_username := opt_socks5_username o; opt_socks5_password := opt_socks5_password o;
     opt_socks5_password_file := opt_socks5_password_file o; opt_rpc := opt_rpc o; opt_rpc_token
     := opt_rpc_token o; opt_rpc_protocol := opt_rpc_protocol o |}.
Definition set_opt_socks5_server_addr (v : option bytes) (o : cli_options) : cli_options :=
  {| opt_help := opt_help o; opt_version := opt_version o; opt_broadcast := opt_broadcast o;
     opt_pmtu := opt_pmtu o; opt_fake_internet := opt_fake_internet o; opt_list_if := opt_list_if
     o; opt_netif := opt_netif o; opt_netif_ipaddr := opt_netif_ipaddr o; opt_netif_netmask :=
     opt_netif_netmask o; opt_server_ip := opt_server_ip o; opt_subnet_net := opt_subnet_net o;
     opt_subnet_mask := opt_subnet_mask o; opt_relay_server_addr := opt_relay_server_addr o;
     opt_relay_username := opt_relay_username o; opt_relay_password := opt_relay_password o;
     opt_relay_password_file := opt_relay_password_file o; opt_socks5_server_addr := v;
     opt_socks5_username := opt_socks5_username o; opt_socks5_password := opt_socks5_password o;
     opt_socks5_password_file := opt_socks5_password_file o; opt_rpc := opt_rpc o; opt_rpc_token
     := opt_rpc_token o; opt_rpc_protocol := opt_rpc_protocol o |}.
Definition set_opt_socks5_username (v : option bytes) (o : cli_options) : cli_options :=
  {| opt_help := opt_help o; opt_version := opt_version o; opt_broadcast := opt_broadcast o;
     opt_pmtu := opt_pmtu o; opt_fake_internet := opt_fake_internet o; opt_list_if := opt_list_if
     o; opt_netif := opt_netif o; opt_netif_ipaddr := opt_netif_ipaddr o; opt_netif_netmask :=
     opt_netif_netmask o; opt_server_ip := opt_server_ip o; opt_subnet_net := opt_subnet_net o;
     opt_subnet_mask := opt_subnet_mask o; opt_relay_server_addr := opt_relay_server_addr o;
     opt_relay_username := opt_relay_username o; opt_relay_password := opt_relay_password o;
     opt_relay_password_file := opt_relay_password_file o; opt_socks5_server_addr :=
     opt_socks5_server_addr o; opt_socks5_username := v; opt_socks5_password :=
     opt_socks5_password o; opt_socks5_password_file := opt_socks5_password_file o; opt_rpc :=
     opt_rpc o; opt_rpc_token := opt_rpc_token o; opt_rpc_protocol := opt_rpc_protocol o |}.
Definition set_opt_socks5_password (v : option bytes) (o : cli_options) : cli_options :=
  {| opt_help := opt_help o; opt_version := opt_version o; opt_broadcast := opt_broadcast o;
     opt_pmtu := opt_pmtu o; opt_fake_internet := opt_fake_internet o; opt_list_if := opt_list_if
     o; opt_netif := opt_netif o; opt_netif_ipaddr := opt_netif_ipaddr o; opt_netif_netmask :=
     opt_netif_netmask o; opt_server_ip := opt_server_ip o; opt_subnet_net := opt_subnet_net o;
     opt_subnet_mask := opt_subnet_mask o; opt_relay_server_addr := opt_relay_server_addr o;
     opt_relay_username := opt_relay_username o; opt_relay_password := opt_relay_password o;
     opt_relay_password_file := opt_relay_password_file o; opt_socks5_server_addr :=
     opt_socks5_server_addr o; opt_socks5_username := opt_socks5_username o; opt_socks5_password
     := v; opt_socks5_password_file := opt_socks5_password_file o; opt_rpc := opt_rpc o;
     opt_rpc_token := opt_rpc_token o; opt_rpc_protocol := opt_rpc_protocol o |}.
Definition set_opt_rpc (v : option bytes) (o : cli_options) : cli_options :=
  {| opt_help := opt_help o; opt_version := opt_version o; opt_broadcast := opt_broadcast o;
     opt_pmtu := opt_pmtu o; opt_fake_internet := opt_fake_internet o; opt_list_if := opt_list_if
     o; opt_netif := opt_netif o; opt_netif_ipaddr := opt_netif_ipaddr o; opt_netif_netmask :=
     opt_netif_netmask o; opt_server_ip := opt_server_ip o; opt_subnet_net := opt_subnet_net o;
     opt_subnet_mask := opt_subnet_mask o; opt_relay_server_addr := opt_relay_server_addr o;
     opt_relay_username := opt_relay_username o; opt_relay_password := opt_relay_password o;
     opt_relay_password_file := opt_relay_password_file o; opt_socks5_server_addr :=
     opt_socks5_server_addr o; opt_socks5_username := opt_socks5_username o; opt_socks5_password
     := opt_socks5_password o; opt_socks5_password_file := opt_socks5_password_file o; opt_rpc :=
     v; opt_rpc_token := opt_rpc_token o; opt_rpc_protocol := opt_rpc_protocol o |}.
Definition set_opt_rpc_token (v : option bytes) (o : cli_options) : cli_options :=
  {| opt_help := opt_help o; opt_version := opt_version o; opt_broadcast := opt_broadcast o;
     opt_pmtu := opt_pmtu o; opt_fake_internet := opt_fake_internet o; opt_list_if := opt_list_if
     o; opt_netif := opt_netif o; opt_netif_ipaddr := opt_netif_ipaddr o; opt_netif_netmask :=
     opt_netif_netmask o; opt_server_ip := opt_server_ip o; opt_subnet_net := opt_subnet_net o;
     opt_subnet_mask := opt_subnet_mask o; opt_relay_server_addr := opt_relay_server_addr o;
     opt_relay_username := opt_relay_username o; opt_relay_password := opt_relay_password o;
     opt_relay_password_file := opt_relay_password_file o; opt_socks5_server_addr :=
     opt_socks5_server_addr o; opt_socks5_username := opt_socks5_username o; opt_socks5_password
     := opt_socks5_password o; opt_socks5_password_file := opt_socks5_password_file o; opt_rpc :=
     opt_rpc o; opt_rpc_token := v; opt_rpc_protocol := opt_rpc_protocol o |}.
Definition set_opt_rpc_protocol (v : option bytes) (o : cli_options) : cli_options :=
  {| opt_help := opt_help o; opt_version := opt_version o; opt_broadcast := opt_broadcast o;
     opt_pmtu := opt_pmtu o; opt_fake_internet := opt_fake_internet o; opt_list_if := opt_list_if
     o; opt_netif := opt_netif o; opt_netif_ipaddr := opt_netif_ipaddr o; opt_netif_netmask :=
     opt_netif_netmask o; opt_server_ip := opt_server_ip o; opt_subnet_net := opt_subnet_net o;
     opt_subnet_mask := opt_subnet_mask o; opt_relay_server_addr := opt_relay_server_addr o;
     opt_relay_username := opt_relay_username o; opt_relay_password := opt_relay_password o;
     opt_relay_password_file := opt_relay_password_file o; opt_socks5_server_addr :=
     opt_socks5_server_addr o; opt_socks5_username := opt_socks5_username o; opt_socks5_password
     := opt_socks5_password o; opt_socks5_password_file := opt_socks5_password_file o; opt_rpc :=
     opt_rpc o; opt_rpc_token := opt_rpc_token o; opt_rpc_protocol := v |}.

Definition SERVER_IP : bytes := cstr "10.13.37.1".
Definition SUBNET_NET : bytes := cstr "10.13.0.0".
Definition SUBNET_MASK : bytes := cstr "255.255.0.0".

(** [a ? a : b] on strings. *)
Definition or_default (a : option bytes) (b : bytes) : option bytes :=
  Some (match a with Some a => a | None => b end).

(** ** The operations *)

Section code.
Context `{Env}.

(** [RETURN_ERR]: the message is left in [last_err]. *)
Definition RETURN_ERR (text : bytes) : M world Z :=
  modify (emit (EvError text)) ;;; ret (-1).

Definition init_pcap (netif : option bytes) : M world Z :=
  let* r := call (UvPcapInit netif) in
  if negb (r =? 0) then RETURN_ERR (cstr "failed at uv_pcap_init") else ret 0.

(** The SHA-1 of the password. *)
Definition password_key (password : bytes) : option bytes :=
  let ctx := {| sha_state := [0; 0; 0; 0; 0]; sha_count0 := 0; sha_count1 := 0;
                sha_buffer := uninit 64 |} in
  ctx ← SHA1Update (SHA1Init ctx) password (u32 (zlen password));
  '(digest, _) ← SHA1Final ctx;
  Some digest.

(** A local [struct slp_addr_in]. *)
Definition uninit_addr : slp_addr_in :=
  {| sin_len := 0; sin_family := 0; sin_u := uninit 28 |}.

Definition lan_play_init (options : cli_options) : M world Z :=
  upd_lp (set_lp_broadcast (opt_broadcast options)) ;;;
  upd_lp (set_lp_pmtu (opt_pmtu options)) ;;;
  let* parsed :=
    match opt_relay_server_addr options with
    | Some str =>
        let* addr := gets (fun w => lp_server_addr (w_lp w)) in
        let* r := parse_addr (Some str) addr in
        upd_lp (set_lp_server_addr r.2) ;;;
        ret r.1
    | None => ret 0
    end in
  if negb (parsed =? 0) then
    RETURN_ERR (cstr "Failed to parse and get ip address. --relay-server-addr: " ++
                default [] (opt_relay_server_addr options))
  else
    upd_lp (set_lp_username (opt_relay_username options)) ;;;
    match opt_relay_password options with
    | Some password =>
        let* key := mem (password_key password) in
        upd_lp (set_lp_key key)
    | None => ret tt
    end ;;;
    let* r := init_pcap (opt_netif options) in
    if negb (r =? 0) then ret r
    else
      let* ip := mem (mem_get (str2ip (or_default (opt_server_ip options) SERVER_IP)) 0 4) in
      let* net := mem (mem_get (str2ip (or_default (opt_subnet_net options) SUBNET_NET)) 0 4) in
      let* mask := mem (mem_get (str2ip (or_default (opt_subnet_mask options) SUBNET_MASK)) 0 4) in
      (* SEND_BUFFER: the object the packet layer gathers frames in *)
      let* SEND_BUFFER := gets (fun w => pc_buffer (pctx w)) in
      let* r := packet_init SEND_BUFFER BUFFER_SIZE ip net mask 30 in
      if negb (r =? 0) then ret r
      else
        let* r := match opt_relay_server_addr options with
                  | Some _ => lan_client_init
                  | None => ret 0
                  end in
        if negb (r =? 0) then ret r
        else
          let* proxy :=
            match opt_socks5_server_addr options with
            | Some str => let* r := parse_addr (Some str) uninit_addr in
                          ret (if r.1 =? 0 then Some (Some r.2) else None)
            | None => ret (Some None)
            end in
          match proxy with
          | None =>
              RETURN_ERR (cstr "Failed to parse and get ip address. --socks5-server-addr: " ++
                          default [] (opt_socks5_server_addr options))
          | Some proxy_server =>
              call (GatewayInit (opt_fake_internet options) proxy_server
                      (opt_socks5_username options) (opt_socks5_password options))
          end.

Definition lan_play_close (options : cli_options) : M world Z :=
  let* _ := call UvPcapClose in
  let* r := packet_close in
  if negb (r =? 0) then ret r
  else
    let* r := match opt_relay_server_addr options with
              | Some _ => lan_client_close
              | None => ret 0
              end in
    if negb (r =? 0) then ret r
    else call GatewayClose.

(** ** The event loop *)

(** What libuv can deliver to the handlers. *)
Inductive input :=
| Captured (h : pcap_pkthdr) (packet mac : bytes)
| Received (nread : Z) (buf : bytes)
| KeepaliveTick
| BroadcastTick
| FromGateway (data : bytes) (len : Z).

Definition handle (i : input) : M world unit :=
  match i with
  | Captured h packet mac => lan_play_pcap_handler h packet mac
  | Received nread buf => lan_client_on_recv nread buf
  | KeepaliveTick => lan_client_keepalive_timer
  | BroadcastTick => lan_client_real_broadcast_timer
  | FromGateway data len => let* _ := lan_play_gateway_send_packet data len in ret tt
  end.
End code.

(** ** Set-up establishes the invariant *)

(** What a program start leaves: the send buffer, an empty table, a key. *)
Record startable (w : world) : Prop := {
  st_buffer : zlen (pc_buffer (pctx w)) = BUFFER_SIZE;
  st_table : table_ok (lp_frags (w_lp w));
  st_key : zlen (lp_key (w_lp w)) = LP_KEY_LEN /\ is_bytes (lp_key (w_lp w));
}.

Definition string_ok (s : option bytes) : Prop := forall str, s = Some str -> is_cstr str /\ is_bytes str.

Record options_ok (o : cli_options) : Prop := {
  oo_relay : string_ok (opt_relay_server_addr o);
  oo_socks5 : string_ok (opt_socks5_server_addr o);
  oo_user u : opt_relay_username o = Some u -> is_bytes u /\ zlen u <= 0xffff - 20;
  oo_password p : opt_relay_password o = Some p -> is_bytes p /\ zlen p < 2 ^ 32 - 128;
}.

(** The state has the values the options ask for. *)
Record configured (o : cli_options) (key : bytes) (w : world) : Prop := {
  cf_ip : pc_ip (pctx w) = str2ip (or_default (opt_server_ip o) SERVER_IP);
  cf_net : pc_subnet_net (pctx w) = str2ip (or_default (opt_subnet_net o) SUBNET_NET);
  cf_mask : pc_subnet_mask (pctx w) = str2ip (or_default (opt_subnet_mask o) SUBNET_MASK);
  cf_pmtu : lp_pmtu (w_lp w) = opt_pmtu o;
  cf_broadcast : lp_broadcast (w_lp w) = opt_broadcast o;
  cf_user : lp_username (w_lp w) = opt_relay_username o;
  cf_key : lp_key (w_lp w) = match opt_relay_password o with Some p => sha1 p | None => key end;
}.

(** A run that returns satisfies [Q], one that stops satisfies [E]. *)
Definition wp {S A} (m : M S A) (Q : A -> S -> Prop) (E : stop -> Prop) (s : S) : Prop :=
  match m s with Ok a s' => Q a s' | Stop e => E e end.

Section wp.
Context {S : Type}.
Lemma wp_bind {A B} (m : M S A) (k : A -> M S B) Q E s :
  wp m (fun a => wp (k a) Q E) E s -> wp (bind m k) Q E s.
Proof. unfold wp, bind. by destruct (m s). Qed.
Lemma wp_post {A} (m : M S A) (Q Q' : A -> S -> Prop) E s :
  post m Q s -> (forall a s', Q a s' -> Q' a s') -> wp m Q' E s.
Proof. unfold wp, post. destruct (m s); [auto|done]. Qed.
End wp.

Section init.
Context `{Env}.

(** [getaddrinfo]'s entries are long enough for the family they announce. *)
Definition resolver_ok : Prop :=
  forall n name family sa, env_getaddrinfo n name family = (0, Some (Some sa)) ->
    2 <= zlen sa /\
    (load (take 2 sa) = AF_INET -> sockaddr_in_size <= zlen sa) /\
    (load (take 2 sa) = AF_INET6 -> sockaddr_in6_size <= zlen sa).

Lemma fill_addr_total sa port :
  2 <= zlen sa -> (load (take 2 sa) = AF_INET -> sockaddr_in_size <= zlen sa) ->
  (load (take 2 sa) = AF_INET6 -> sockaddr_in6_size <= zlen sa) ->
  exists r, fill_addr sa port = Some r.
Proof.
  intros H2 H4 H6. unfold fill_addr. rewrite mem_get_Some by lia. cbn [mbind option_bind].
  change (drop (Z.to_nat 0) sa) with sa. change (Z.to_nat 2) with 2%nat.
  case_match; [|eauto].
  set (size := if _ : bool then _ else _).
  assert (Hs : size <= zlen sa /\ (size = 16 \/ size = 28)).
  { subst size. destruct (Z.eqb_spec (load (take 2 sa)) AF_INET); [split; [auto|by left]|].
    destruct (Z.eqb_spec (load (take 2 sa)) AF_INET6); [split; [auto|by right]|done]. }
  clearbody size. unfold memcpy. rewrite mem_get_Some by lia. cbn [mbind option_bind].
  change (drop (Z.to_nat 0) sa) with sa.
  assert (Ht : zlen (take (Z.to_nat size) sa) = size) by (apply zlen_take; lia).
  destruct (mem_put (replicate 28 0) 0 (take (Z.to_nat size) sa)) as [u|] eqn:Eu.
  2: { rewrite mem_put_Some in Eu; [done|lia|]. rewrite Ht.
       change (zlen (replicate 28 0)) with 28. lia. }
  cbn [mbind option_bind]. apply mem_put_zlen in Eu. change (zlen (replicate 28 0)) with 28 in Eu.
  rewrite WRITE_NET16_put, mem_put_Some by zlia. simpl. eauto.
Qed.

Lemma parse_addr_post str addr w :
  resolver_ok -> is_cstr str ->
  post (parse_addr (Some str) addr) (fun _ w' => w_lp w' = w_lp w) w.
Proof.
  intros Hres Hs. unfold parse_addr.
  destruct (parse_ip_port_run str {| o_addr := uninit 128; o_port := 0; o_is_ipv6 := 0 |})
    as (rc & out & E & _); [done|cbn; rewrite zlen_uninit; lia|].
  apply post_bind, (post_mem _ (rc, out)); [done|]. case_test; [|by apply post_ret].
  apply post_bind. unfold post at 1, getaddrinfo.
  destruct (env_getaddrinfo _ _ _) as [r [[sa|]|]] eqn:Eg; case_test; try by apply post_ret.
  subst r. apply Hres in Eg as (? & ? & ?).
  destruct (fill_addr_total sa (o_port out)) as [r Er]; [done..|]. by apply (post_mem _ r).
Qed.

Lemma password_key_eq p :
  is_bytes p -> zlen p < 2 ^ 32 - 128 -> password_key p = Some (sha1 p).
Proof.
  intros Hb Hl. unfold password_key. rewrite u32_id by (unfold is_u32; zlia).
  set (c := {| sha_state := _; sha_count0 := _; sha_count1 := _; sha_buffer := _ |}).
  assert (A0 : absorbed (SHA1Init c) []).
  { apply absorbed_init. pose proof (zlen_uninit 64). unfold zlen in *. simpl. lia. }
  destruct (SHA1Update_eq _ _ p [] A0) as (c1 & E1 & A1); [done..|].
  rewrite app_nil_r in E1. rewrite E1. cbn [mbind option_bind].
  by destruct (SHA1Final_eq _ _ A1) as (c2 & ->).
Qed.

Lemma str2ip_get s : mem_get (str2ip s) 0 4 = Some (str2ip s).
Proof.
  destruct (str2ip_shape s) as [Hl _]. rewrite mem_get_Some by (unfold zlen; lia).
  change (drop (Z.to_nat 0) (str2ip s)) with (str2ip s). rewrite firstn_all2; [done|lia].
Qed.

(** The states between set-up steps. *)
Record ready (o : cli_options) (key : bytes) (w : world) : Prop := {
  rd_start : startable w;
  rd_pmtu : lp_pmtu (w_lp w) = opt_pmtu o;
  rd_broadcast : lp_broadcast (w_lp w) = opt_broadcast o;
  rd_user : lp_username (w_lp w) = opt_relay_username o;
  rd_key : lp_key (w_lp w) = match opt_relay_password o with Some p => sha1 p | None => key end;
}.
Definition up (o : cli_options) (key : bytes) (w : world) : Prop :=
  client_ok w /\ configured o key w.

(** The state they are about is the client's structure alone. *)
Lemma up_lp o key w w' : w_lp w' = w_lp w -> up o key w -> up o key w'.
Proof.
  intros E [[] []]. split; constructor; unfold pctx in *; rewrite E; done.
Qed.

Lemma wp_call {A} c (k : Z -> M world A) Q E w :
  wp (k (env_call (w_ticks w) c)) Q E (emit (EvCall c) (tick w)) -> wp (bind (call c) k) Q E w.
Proof. done. Qed.

(** Set-up of the relay client keeps the configuration, or exits for a path MTU
    that is too small. *)
Lemma lan_client_init_wp o key w :
  up o key w ->
  wp lan_client_init (fun _ => up o key)
     (fun e => e = Exited 1 /\ opt_pmtu o <> 0 /\ opt_pmtu o < MIN_FRAG_PAYLOAD_LEN) w.
Proof.
  intros Hup. unfold lan_client_init. apply wp_bind. unfold wp at 1, gets.
  assert (Hp : lp_pmtu (w_lp w) = opt_pmtu o) by apply Hup. rewrite Hp.
  destruct (negb (opt_pmtu o =? 0) && (opt_pmtu o <? MIN_FRAG_PAYLOAD_LEN)) eqn:Ec.
  { apply andb_true_iff in Ec as [E1%negb_true_iff%Z.eqb_neq E2%Z.ltb_lt]. done. }
  do 4 (apply wp_bind; unfold wp at 1, upd_lp at 1, modify at 1). set (w4 := set_w_lp _ _).
  assert (H4 : up o key w4).
  { destruct Hup as [[? ? ? ?] []]. subst w4. split; constructor; try done. apply empty_table_ok. }
  clearbody w4. apply wp_call. apply wp_bind. set (w5 := emit _ _).
  assert (H5 : up o key w5) by (by apply (up_lp _ _ w4)). clearbody w5.
  eapply (wp_post _ (fun _ => up o key)).
  { repeat case_match; try (apply post_bind; unfold post at 1, call); apply post_ret;
      by apply (up_lp _ _ w5). }
  clear H4 H5. intros [] w6 H6. do 3 apply wp_call.
  assert (H7 : forall c1 c2 c3, up o key (emit c1 (tick (emit c2 (tick (emit c3 (tick w6)))))))
    by (intros; by apply (up_lp _ _ w6)).
  case_match; [apply H7|]. apply wp_call. case_match; [by apply (up_lp _ _ w6)|].
  apply wp_call. case_match; [by apply (up_lp _ _ w6)|].
  destruct H6 as [[? ? ? ?] []]. split; by constructor.
Qed.

(** From the packet layer on. *)
Lemma packet_init_wp o key w :
  options_ok o -> ready o key w ->
  post (packet_init (pc_buffer (pctx w)) BUFFER_SIZE
          (str2ip (or_default (opt_server_ip o) SERVER_IP))
          (str2ip (or_default (opt_subnet_net o) SUBNET_NET))
          (str2ip (or_default (opt_subnet_mask o) SUBNET_MASK)) 30)
       (fun r w' => r = 0 /\ up o key w') w.
Proof.
  intros [_ _ Hu Hpw] [[Hb Ht Hk] Hp Hbc Hus Hke]. unfold packet_init.
  do 3 (apply post_bind; eapply post_mem; [apply str2ip_get|]).
  apply post_bind, post_modify, post_ret. split; [done|].
  assert (Hip : forall s, is_ip (str2ip s)) by (intros; apply str2ip_shape).
  split; constructor; try done; cbn [w_lp set_w_lp lp_username lp_key set_lp_packet_ctx].
  - constructor; try apply Hip; try done.
    + split; [done|bytes_tac].
    + apply arp_list_init_ok.
  - by rewrite Hus.
Qed.

(** From the relay client on. *)
Definition init_tail (options : cli_options) : M world Z :=
  let* r := match opt_relay_server_addr options with
            | Some _ => lan_client_init
            | None => ret 0
            end in
  if negb (r =? 0) then ret r
  else
    let* proxy :=
      match opt_socks5_server_addr options with
      | Some str => let* r := parse_addr (Some str) uninit_addr in
                    ret (if r.1 =? 0 then Some (Some r.2) else None)
      | None => ret (Some None)
      end in
    match proxy with
    | None =>
        RETURN_ERR (cstr "Failed to parse and get ip address. --socks5-server-addr: " ++
                    default [] (opt_socks5_server_addr options))
    | Some proxy_server =>
        call (GatewayInit (opt_fake_internet options) proxy_server
                (opt_socks5_username options) (opt_socks5_password options))
    end.

Definition too_small (o : cli_options) (e : stop) : Prop :=
  e = Exited 1 /\ opt_relay_server_addr o <> None /\
  opt_pmtu o <> 0 /\ opt_pmtu o < MIN_FRAG_PAYLOAD_LEN.

Lemma init_tail_wp o key w :
  resolver_ok -> options_ok o -> up o key w ->
  wp (init_tail o) (fun _ => up o key) (too_small o) w.
Proof.
  intros Hres Ho Hup. unfold init_tail. apply wp_bind.
  assert (Hfst : wp (match opt_relay_server_addr o with Some _ => lan_client_init | None => ret 0 end)
                    (fun _ => up o key) (too_small o) w).
  { destruct (opt_relay_server_addr o) as [str|] eqn:Es; [|done].
    pose proof (lan_client_init_wp o key w Hup) as Hi. unfold wp in *.
    destruct (lan_client_init w) as [|e]; [done|]. unfold too_small. rewrite Es. naive_solver. }
  unfold wp in Hfst |- *. destruct (match opt_relay_server_addr o with _ => _ end w) as [r w1|e]; [|done].
  case_test; [|done]. apply wp_bind.
  eapply (wp_post _ (fun _ => up o key)).
  - destruct (opt_socks5_server_addr o) as [str|] eqn:Es; [|done]. apply post_bind.
    eapply post_mono; [apply parse_addr_post; [done|by apply (oo_socks5 _ Ho)]|].
    intros a w2 E2. apply post_ret. by apply (up_lp _ _ w1).
  - intros proxy w2 H2. by destruct proxy as [proxy|]; apply (up_lp _ _ w2).
Qed.

Lemma init_head_ready o w :
  options_ok o -> startable w ->
  forall lp addr, 
  lp = set_lp_server_addr addr (set_lp_pmtu (opt_pmtu o) (set_lp_broadcast (opt_broadcast o) (w_lp w))) ->
  forall t out,
  post (match opt_relay_password o with
        | Some password => let* key := mem (password_key password) in upd_lp (set_lp_key key)
        | None => ret tt
        end) (fun _ w' => ready o (lp_key (w_lp w)) w')
    {| w_lp := set_lp_username (opt_relay_username o) lp; w_ticks := t; w_out := out |}.
Proof.
  intros Ho [Hb Ht Hk] lp addr -> t out. destruct (opt_relay_password o) as [p|] eqn:Ep.
  - destruct (oo_password _ Ho _ Ep) as [Hpb Hpl]. apply post_bind.
    eapply post_mem; [by apply password_key_eq|]. apply post_modify.
    constructor; try done; [|by rewrite Ep]. constructor; [done..|]. simpl. split; [|apply sha1_is_bytes].
    unfold zlen. by rewrite length_sha1.
  - apply post_ret. constructor; try done. by rewrite Ep.
Qed.

Lemma lan_play_init_wp o w :
  resolver_ok -> options_ok o -> startable w ->
  wp (lan_play_init o) (fun r w' => r = 0 -> up o (lp_key (w_lp w)) w') (too_small o) w.
Proof.
  intros Hres Ho Hst. unfold lan_play_init.
  do 2 (apply wp_bind; unfold wp at 1, upd_lp at 1, modify at 1). apply wp_bind. set (w2 := set_w_lp _ _).
  eapply (wp_post _ (fun _ w3 => exists addr, w_lp w3 = set_lp_server_addr addr (w_lp w2))).
  { destruct (opt_relay_server_addr o) as [str|] eqn:Es.
    - apply post_bind, post_gets, post_bind.
      eapply post_mono; [apply parse_addr_post; [done|by apply (oo_relay _ Ho)]|].
      intros r w3 E3. apply post_bind, post_modify, post_ret. exists r.2. simpl. by rewrite E3.
    - apply post_ret. exists (lp_server_addr (w_lp w2)). done. }
  intros r [lp3 t3 o3] [addr E3]. simpl in E3. case_test; [|done].
  apply wp_bind. unfold wp at 1, upd_lp at 1, modify at 1. apply wp_bind.
  eapply wp_post; [by eapply init_head_ready|]. intros [] w4 H4.
  apply wp_bind. unfold init_pcap. unfold wp at 1. unfold bind at 1. unfold call at 1.
  set (w5 := emit _ _). assert (H5 : ready o (lp_key (w_lp w)) w5) by (destruct H4 as [[]]; by constructor).
  clearbody w5. case_test; [|done]. unfold ret at 1. cbn [Z.eqb negb].
  do 3 (apply wp_bind; eapply wp_post; [eapply post_mem; [apply str2ip_get|]; by instantiate (1 := fun a s => a = _ /\ s = w5)|];
        intros ? ? [-> ->]).
  apply wp_bind. unfold wp at 1, gets. apply wp_bind.
  eapply wp_post; [by apply packet_init_wp|]. intros ? w6 [-> H6]. cbn [Z.eqb negb].
  pose proof (init_tail_wp o _ w6 Hres Ho H6) as Ht. unfold wp in *.
  destruct (init_tail o w6) as [r' w7|st] eqn:Et; unfold init_tail in Et; rewrite Et; auto.
Qed.
End init.

(** ** The event loop is safe *)

(** Inputs the handlers are prepared for: buffers are as long as libpcap and libuv
    say, an ARP frame is complete, an IPv4 payload fits the ICMP handler's array, a
    login request carries its type. *)
Definition admissible `{Env} (i : input) : Prop :=
  match i with
  | Captured h packet mac =>
      is_mac mac /\ is_bytes packet /\ zlen packet = pk_len h /\
      (forall e, parse_ether packet (pk_len h) = Some e -> ef_type e = ETHER_TYPE_ARP ->
         ARP_LEN <= zlen (ef_payload e)) /\
      (forall e ip, parse_ether packet (pk_len h) = Some e -> parse_ipv4 e = Some ip ->
         ip_total_len ip - ip_header_len ip <= BUFFER_SIZE)
  | Received nread buf =>
      is_bytes buf /\ zlen buf = CLIENT_RECV_BUF_LEN /\ nread <= CLIENT_RECV_BUF_LEN /\
      (nread <> 1 \/ forall b, READ_NET8 buf 0 = Some b -> Z.land b 0x7f <> LAN_CLIENT_TYPE_AUTH_ME)
  | KeepaliveTick | BroadcastTick => True
  | FromGateway data len => is_bytes data /\ 20 <= zlen data /\ 0 <= len <= zlen data
  end.

(** The states of a run: a successful set-up, then one handler at a time. *)
Inductive reachable `{Env} (o : cli_options) (w0 : world) : world -> Prop :=
| reachable_init w :
    lan_play_init o w0 = Ok 0 w -> reachable o w0 w
| reachable_step w i w' :
    reachable o w0 w -> admissible i -> handle i w = Ok tt w' -> reachable o w0 w'.

Section event_loop.
Context `{Env}.

Lemma gateway_send_post data len w :
  client_ok w -> is_bytes data -> 20 <= zlen data -> 0 <= len <= zlen data ->
  post (lan_play_gateway_send_packet data len) (fun _ w' => client_ok w') w.
Proof.
  intros Hw Hb Hz Hl. unfold lan_play_gateway_send_packet.
  destruct (mem_get data IPV4_OFF_DST 4) as [dst|] eqn:Ed.
  2: { rewrite mem_get_Some in Ed by (consts; lia). done. }
  assert (Hdst : is_ip dst).
  { split; [apply mem_get_zlen in Ed; unfold zlen in Ed; lia|by eapply mem_get_is_bytes]. }
  apply post_bind, (post_mem _ dst); [done|]. apply post_bind.
  eapply post_mono; [by apply arp_get_mac_post|]. intros [mac|] w1 [Hw1 Hm]; [|by apply post_ret].
  apply send_ether_client_post; [done..|]. constructor; [by split|constructor].
Qed.

(** One admissible input. *)
Lemma handle_post i w :
  client_ok w -> admissible i -> post (handle i) (fun _ w' => client_ok w') w.
Proof.
  intros Hw Hi. destruct i as [h packet mac|nread buf| | |data len]; cbn [handle admissible] in *.
  - destruct Hi as (? & ? & ? & ? & ?). by apply pcap_handler_post.
  - destruct Hi as (? & ? & ? & Ha). apply on_recv_post; [done..|]. destruct Ha; auto.
  - unfold lan_client_keepalive_timer, lan_client_send_keepalive. apply post_bind.
    eapply post_mono; [apply (send_whole_post _ [] []); try done; constructor|]. done.
  - unfold lan_client_real_broadcast_timer. apply post_modify. destruct Hw as [[] ? ? ?].
    by constructor; [constructor|..].
  - destruct Hi as (? & ? & ?). apply post_bind.
    eapply post_mono; [by apply gateway_send_post|]. done.
Qed.

Lemma reachable_ok o w0 w :
  resolver_ok -> options_ok o -> startable w0 -> reachable o w0 w -> client_ok w.
Proof.
  intros Hres Ho Hst. induction 1 as [w Hi|w i w' _ IH Ha Hh].
  - pose proof (lan_play_init_wp o w0 Hres Ho Hst) as Hw. unfold wp in Hw. rewrite Hi in Hw.
    by destruct (Hw eq_refl).
  - pose proof (handle_post i w IH Ha) as Hp. unfold post in Hp. by rewrite Hh in Hp.
Qed.
End event_loop.

(** ** Program start *)

(** [real_lan_play] and [SEND_BUFFER] before [main]: all zero. *)
Definition boot_lp : lan_play :=
  {| lp_packet_ctx :=
       {| pc_buffer := replicate (Z.to_nat BUFFER_SIZE) 0; pc_buffer_len := 0; pc_ip := replicate 4 0;
          pc_subnet_net := replicate 4 0; pc_subnet_mask := replicate 4 0; pc_mac := replicate 6 0;
          pc_identification := 0; pc_arp_list := arp_list_init; pc_arp_ttl := 0;
          pc_upload_byte := 0; pc_download_byte := 0; pc_upload_packet := 0;
          pc_download_packet := 0 |};
     lp_pmtu := 0; lp_broadcast := false; lp_next_real_broadcast := false; lp_frag_id := 0;
     lp_local_id := 0; lp_frags := replicate (Z.to_nat LC_FRAG_COUNT) frag_zero;
     lp_server_addr := {| sin_len := 0; sin_family := 0; sin_u := replicate 28 0 |};
     lp_username := None; lp_key := replicate (Z.to_nat LP_KEY_LEN) 0;
     lp_upload_byte := 0; lp_download_byte := 0; lp_upload_packet := 0; lp_download_packet := 0;
     lp_console := {| cs_relay_fd := 0; cs_send_err_count := 0; cs_recv_err_count := 0;
                      cs_running := false |} |}.
Definition boot_world : world := {| w_lp := boot_lp; w_ticks := 0; w_out := [] |}.

Lemma boot_startable : startable boot_world.
Proof.
  constructor; [done|apply empty_table_ok|]. split; [done|apply (zeros_bytes 20)].
Qed.

(** ** Results *)

(** [lan_play_init] never leaves its buffers.  If it returns 0 the client's
    invariant holds and the addresses, the path MTU, the broadcast mode and the
    user name are those of the options (or the documented defaults), and the key
    is the SHA-1 of the password; it ends the process only for a path MTU below
    500, and only with a relay server. *)
Theorem lan_play_init_spec `{Env} o w :
  resolver_ok -> options_ok o -> startable w ->
  match lan_play_init o w with
  | Ok r w' => r = 0 -> client_ok w' /\ configured o (lp_key (w_lp w)) w'
  | Stop e => e = Exited 1 /\ opt_relay_server_addr o <> None /\
              opt_pmtu o <> 0 /\ opt_pmtu o < MIN_FRAG_PAYLOAD_LEN
  end.
Proof. apply lan_play_init_wp. Qed.

(** C3: the event loop is memory safe.  In every state reached from program start
    by a successful set-up and any sequence of captured frames, datagrams from the
    relay, timer ticks and packets from the gateway, the client's invariant holds
    and every further admissible input is handled to completion.  Admissible ([admissible]) is
    what libpcap and libuv deliver, with complete ARP frames, ICMP payloads that fit the array
    of the handler, and login requests that carry their type; the options are strings, the user
    name of at most 65515 bytes, and the resolver gives socket addresses of their full length. *)
Theorem event_loop_safe `{Env} o w0 w :
  resolver_ok -> options_ok o -> startable w0 -> reachable o w0 w ->
  client_ok w /\ forall i, admissible i -> exists w', handle i w = Ok tt w'.
Proof.
  intros Hres Ho Hst Hr. pose proof (reachable_ok o w0 w Hres Ho Hst Hr) as Hw. split; [done|].
  intros i Hi. destruct (post_inv _ _ _ (handle_post i w Hw Hi)) as ([] & w' & E & _). by exists w'.
Qed.

(** ** Concrete runs *)

Definition no_options : cli_options :=
  {| opt_help := 0; opt_version := 0; opt_broadcast := false; opt_pmtu := 0;
     opt_fake_internet := false; opt_list_if := false; opt_netif := None;
     opt_netif_ipaddr := None; opt_netif_netmask := None; opt_server_ip := None;
     opt_subnet_net := None; opt_subnet_mask := None; opt_relay_server_addr := None;
     opt_relay_username := None; opt_relay_password := None; opt_relay_password_file := None;
     opt_socks5_server_addr := None; opt_socks5_username := None; opt_socks5_password := None;
     opt_socks5_password_file := None; opt_rpc := None; opt_rpc_token := None;
     opt_rpc_protocol := None |}.

Definition demo_options : cli_options := set_opt_relay_server_addr (Some (cstr "relay.net:11451")) no_options.

Lemma demo_resolver_ok : resolver_ok (H := demo_env).
Proof. intros n name family sa [= <-]. split; [discriminate|]. split; discriminate. Qed.

Lemma demo_options_ok : options_ok demo_options.
Proof.
  constructor; try done. intros str [= <-]. split; [|bytes_tac].
  unfold is_cstr. cbv. repeat (constructor; [discriminate|]). constructor.
Qed.

Lemma demo_init : exists w, lan_play_init (H := demo_env) demo_options boot_world = Ok 0 w.
Proof.
  assert (Hr : match lan_play_init (H := demo_env) demo_options boot_world with
               | Ok r _ => r =? 0 | Stop _ => false end = true) by reflexivity.
  revert Hr. destruct (lan_play_init demo_options boot_world) as [r w|e]; [|done].
  intros ->%Z.eqb_eq. by exists w.
Qed.

Lemma lan_play_init_spec_witness :
  exists w', lan_play_init (H := demo_env) demo_options boot_world = Ok 0 w' /\
             client_ok w' /\ configured demo_options (replicate 20 0) w'.
Proof.
  pose proof (lan_play_init_spec (H := demo_env) demo_options boot_world demo_resolver_ok
                demo_options_ok boot_startable) as Hi.
  destruct demo_init as [w Ew]. rewrite Ew in Hi. exists w. split; [exact Ew|]. by apply Hi.
Defined.

Lemma event_loop_safe_witness :
  exists w, lan_play_init (H := demo_env) demo_options boot_world = Ok 0 w /\ client_ok w /\
            exists w', handle (H := demo_env) KeepaliveTick w = Ok tt w'.
Proof.
  destruct demo_init as [w Ew].
  destruct (event_loop_safe (H := demo_env) demo_options boot_world w demo_resolver_ok
              demo_options_ok boot_startable (reachable_init _ _ _ Ew)) as [Hw Hh].
  exists w. split; [exact Ew|]. split; [exact Hw|]. apply Hh. exact I.
Defined.
