(* ===== verification/Main.v ===== *)
(** The program: [src/main.c].

    [argv] is a list of strings; text on stdout and stderr is an [EvInfo] event
    (diagnostics of the logging macro are not modelled).  The interfaces libpcap
    reports, the word the user types and the RPC server are parameters.

    Shown here: the command line printed from a set of options is parsed back to
    it, the program never leaves its objects ([revIP], [relay_server_addr] and those of the
    set-up) and ends early only through a failed assertion or [exit], or by printing the null
    [argv[0]] of an empty command line, and a password given as a file is never read. *)

From stdpp Require Import strings.
From S2P Require Import Prelude Byteorder Structs Packet Helper Arp Sha1 LanClient Dispatch LanPlay.

(** An interface as libpcap reports it: the four bytes of an IPv4 address, other families
    and null pointers as [None]. *)
Record pcap_if := {
  if_name : bytes;
  if_description : option bytes;
  if_addresses : list (option bytes);
}.

(** ** Command line *)

Definition eprintf (text : bytes) : M world unit := modify (emit (EvInfo text)).
Definition printf (text : bytes) : M world unit := modify (emit (EvInfo text)).

(** [!strcmp(arg, s)]. *)
Definition streq (arg : bytes) (s : string) : bool := bool_decide (arg = cstr s).

(** [CHECK_PARAM] failed. *)
Definition missing (arg : bytes) : M world (option cli_options) :=
  eprintf (arg ++ cstr ": requires an argument" ++ [10]) ;;; ret None.

(** The options before the loop. *)
Definition default_options : cli_options := no_options.

(** The loop over [argv + 1]; [None] is [return -1]. *)
Fixpoint parse_loop (argv : list bytes) (o : cli_options) : M world (option cli_options) :=
  match argv with
  | [] => ret (Some o)
  | arg :: argv =>
      if streq arg "--help" then parse_loop argv (set_opt_help 1 o)
      else if streq arg "--version" then parse_loop argv (set_opt_version 1 o)
      else if streq arg "--netif" then
        match argv with [] => missing arg | v :: argv => parse_loop argv (set_opt_netif (Some v) o) end
      else if streq arg "--server-ip" then
        match argv with [] => missing arg | v :: argv => parse_loop argv (set_opt_server_ip (Some v) o) end
      else if streq arg "--subnet-net" then
        match argv with [] => missing arg | v :: argv => parse_loop argv (set_opt_subnet_net (Some v) o) end
      else if streq arg "--subnet-mask" then
        match argv with [] => missing arg | v :: argv => parse_loop argv (set_opt_subnet_mask (Some v) o) end
      else if streq arg "--relay-server-addr" then
        match argv with [] => missing arg
        | v :: argv => parse_loop argv (set_opt_relay_server_addr (Some v) o) end
      else if streq arg "--username" then
        match argv with [] => missing arg
        | v :: argv => parse_loop argv (set_opt_relay_username (Some v) o) end
      else if streq arg "--password" then
        match argv with [] => missing arg
        | v :: argv => parse_loop argv (set_opt_relay_password (Some v) o) end
      else if streq arg "--password-file" then
        match argv with [] => missing arg
        | v :: argv => parse_loop argv (set_opt_relay_password_file (Some v) o) end
      else if streq arg "--socks5-server-addr" then
        match argv with [] => missing arg
        | v :: argv => parse_loop argv (set_opt_socks5_server_addr (Some v) o) end
      else if streq arg "--socks5-username" then
        match argv with [] => missing arg
        | v :: argv => parse_loop argv (set_opt_socks5_username (Some v) o) end
      else if streq arg "--socks5-password" then
        match argv with [] => missing arg
        | v :: argv => parse_loop argv (set_opt_socks5_password (Some v) o) end
      else if streq arg "--list-if" then parse_loop argv (set_opt_list_if true o)
      else if streq arg "--broadcast" then
        parse_loop argv (set_opt_relay_server_addr (Some (cstr "255.255.255.255:11451"))
                           (set_opt_broadcast true o))
      else if streq arg "--pmtu" then
        match argv with [] => missing arg | v :: argv => parse_loop argv (set_opt_pmtu (atoi v) o) end
      else if streq arg "--fake-internet" then parse_loop argv (set_opt_fake_internet true o)
      else if streq arg "--set-ionbf" then parse_loop argv o
      else if streq arg "--rpc" then
        match argv with [] => missing arg | v :: argv => parse_loop argv (set_opt_rpc (Some v) o) end
      else if streq arg "--rpc-token" then
        match argv with [] => missing arg | v :: argv => parse_loop argv (set_opt_rpc_token (Some v) o) end
      else if streq arg "--rpc-protocol" then
        match argv with [] => missing arg | v :: argv => parse_loop argv (set_opt_rpc_protocol (Some v) o) end
      else parse_loop argv o
  end.

Definition is_some (s : option bytes) : bool := match s with Some _ => true | None => false end.

(** A user name needs exactly one of password and password file. *)
Definition check_password (username password password_file : option bytes) : M world bool :=
  if is_some username then
    if negb (is_some password) && negb (is_some password_file) then
      eprintf (cstr "username given but password not given" ++ [10]) ;;; ret false
    else if is_some password && is_some password_file then
      eprintf (cstr "--password and --password-file cannot both be given" ++ [10]) ;;; ret false
    else ret true
  else ret true.

Definition parse_arguments (argv : list bytes) : M world (option cli_options) :=
  match argv with
  | [] => ret None                       (* argc <= 0 *)
  | _ :: args =>
      let* r := parse_loop args default_options in
      match r with
      | None => ret None
      | Some o =>
          if negb (opt_help o =? 0) || negb (opt_version o =? 0) || opt_list_if o ||
             is_some (opt_rpc o)
          then ret (Some o)
          else
            let* o :=
              if negb (is_some (opt_relay_server_addr o)) then
                if is_some (opt_socks5_server_addr o) then
                  ret (set_opt_relay_server_addr (Some (cstr "127.0.0.1:11451")) o)
                else eprintf (cstr "--relay-server-addr is required" ++ [10]) ;;; ret o
              else ret o in
            let* ok := check_password (opt_socks5_username o) (opt_socks5_password o)
                         (opt_socks5_password_file o) in
            if negb ok then ret None
            else
              let* ok := check_password (opt_relay_username o) (opt_relay_password o)
                           (opt_relay_password_file o) in
              if negb ok then ret None else ret (Some o)
      end
  end.

(** [options_relay_server_addr] and [options_socks5_server_addr]: the setters
    [OPTIONS_DEF] generates. *)
Definition nonempty (str : option bytes) : option bytes :=
  s ← str; if zlen s =? 0 then None else Some s.
Definition options_relay_server_addr (str : option bytes) (o : cli_options) : cli_options :=
  set_opt_relay_server_addr (nonempty str) o.
Definition options_socks5_server_addr (str : option bytes) (o : cli_options) : cli_options :=
  set_opt_socks5_server_addr (nonempty str) o.

(** ** Interfaces and texts *)

(** [strncpy(revIP, inet_ntoa(sin->sin_addr), sizeof(revIP))] and what ["%s"] then prints: the
    bytes before the terminator, which has to be in the array. *)
Definition revIP_text `{Env} (sin_addr : bytes) : option bytes :=
  revIP ← mem_put (uninit 100) 0 (take 100 (dotted sin_addr ++ replicate 100 0));
  if bool_decide (0 ∈ revIP) then Some (cstring revIP) else None.
Fixpoint print_addresses `{Env} (addrs : list (option bytes)) (first : bool) : option (bytes * bool) :=
  match addrs with
  | [] => Some ([], first)
  | Some sin_addr :: addrs =>
      text ← revIP_text sin_addr;
      '(rest, first') ← print_addresses addrs false;
      Some ((if first then [10; 9] ++ cstr "IP: [" else [44]) ++ text ++ rest, first')
  | None :: addrs => print_addresses addrs first
  end.

Definition print_interface `{Env} (i : Z) (d : pcap_if) : option bytes :=
  '(text, first) ← print_addresses (if_addresses d) true;
  Some (dec 10 i ++ cstr ". " ++ if_name d ++
    match if_description d with
    | Some t => cstr " (" ++ t ++ [41]
    | None => cstr " (No description available)"
    end ++ (text ++ if first : bool then [] else [93]) ++ [10]).

(** What is printed and the number of interfaces. *)
Fixpoint list_interfaces `{Env} (i : Z) (alldevs : list pcap_if) : option (bytes * Z) :=
  match alldevs with
  | [] => Some ([], i)
  | d :: alldevs =>
      line ← print_interface (i + 1) d;
      '(text, n) ← list_interfaces (i + 1) alldevs;
      Some (line ++ text, n)
  end.

Definition nl : bytes := [10].
Definition help_line (s : string) : bytes := cstr "        " ++ cstr s ++ nl.

(** [argv[0]] may be null. *)
Definition print_help (name : option bytes) : M world unit :=
  let* name := match name with Some name => ret name | None => halt NullDeref end in
  printf (cstr "Usage:" ++ nl ++ cstr "    " ++ name ++ nl ++
    help_line "[--help]" ++ help_line "[--version]" ++ help_line "[--broadcast]" ++
    help_line "[--fake-internet]" ++
    help_line "[--netif <interface>] default: all" ++
    cstr "        [--server-ip <ip>] default: " ++ SERVER_IP ++ nl ++
    cstr "        [--subnet-net <net>] default: " ++ SUBNET_NET ++ nl ++
    cstr "        [--subnet-mask <mask>] default: " ++ SUBNET_MASK ++ nl ++
    help_line "[--relay-server-addr <addr>]" ++ help_line "[--username <username>]" ++
    help_line "[--password <password>]" ++ help_line "[--password-file <password-file>]" ++
    help_line "[--list-if]" ++ help_line "[--pmtu <pmtu>]" ++
    help_line "[--socks5-server-addr <addr>]" ++ help_line "[--socks5-username <username>]" ++
    help_line "[--socks5-password <password>]" ++ help_line "[--rpc <address>]" ++
    help_line "[--rpc-token <token>]" ++ help_line "[--rpc-protocol <rpc protocol>]" ++
    cstr "Address format is a.b.c.d:port or domain:port (IPv4)." ++ nl ++
    cstr "Port may be omitted and defaults to " ++ dec 10 SERVER_PORT ++ cstr "." ++ nl ++
    cstr "RPC protocol could be tcp, ws. Default to ws." ++ nl).

(** ** The program *)

Section code.
Context `{Env}.

(** What the outside world provides: the build's version, the interfaces
    ([None]: [pcap_findalldevs] failed), the word typed when no relay is given,
    and the RPC server. *)
Variable LANPLAY_VERSION : bytes.
Variable alldevs : option (list pcap_if).
Variable typed : bytes.
Variable rpc_main : option bytes -> option bytes -> option bytes -> M world Z.

Definition print_version : M world unit :=
  printf (cstr "switch-lan-play " ++ LANPLAY_VERSION ++ nl).

Definition rt_assert (val : bool) : M world unit :=
  if negb val then halt (Exited 1) else ret tt.

Definition list_netif : M world unit :=
  match alldevs with
  | None => halt (Exited 1)
  | Some devs => let* r := mem (list_interfaces 0 devs) in printf r.1
  end.

Definition lan_play_signal_cb (options : cli_options) (signum : Z) : M world unit :=
  eprintf (cstr "stopping signum: " ++ dec 10 signum ++ nl) ;;;
  let* _ := lan_play_close options in
  let* _ := call UvSignalStop in
  let* _ := call UvCloseSignal in
  let* _ := call UvCloseAll in
  ret tt.

(** [scanf("%100s", relay_server_addr)]: at most 100 characters of the word and a terminator;
    without a word the array stays as it is. *)
Definition scan_relay (relay_server_addr : bytes) : option bytes :=
  match typed with
  | [] => Some relay_server_addr
  | _ => mem_put relay_server_addr 0 (take 100 typed ++ [0])
  end.
Definition old_main (options : cli_options) : M world Z :=
  let relay_server_addr := replicate 128 0 in
  if negb (opt_version options =? 0) then print_version ;;; ret 0
  else if opt_list_if options then list_netif ;;; ret 0
  else
    let* options :=
      match opt_relay_server_addr options with
      | Some _ => ret options
      | None =>
          printf (cstr "Input the relay server address [ domain/ip:port ]:") ;;;
          let* relay_server_addr := mem (scan_relay relay_server_addr) in
          ret (set_opt_relay_server_addr (Some (cstring relay_server_addr)) options)
      end in
    let* addr := gets (fun w => lp_server_addr (w_lp w)) in
    let* r := parse_addr (opt_relay_server_addr options) addr in
    upd_lp (set_lp_server_addr r.2) ;;;
    if negb (r.1 =? 0) then ret (-1)
    else
      let* r := call UvSignalInit in
      rt_assert (r =? 0) ;;;
      let* r := call UvSignalStart in
      rt_assert (r =? 0) ;;;
      printf (match opt_netif options with
              | None => cstr "Interface not specified, opening all interfaces" ++ nl
              | Some _ => cstr "Opening single interface" ++ nl
              end) ;;;
      let* r := lan_play_init options in
      rt_assert (r =? 0) ;;;
      call UvRun.

Definition main (argv : list bytes) : M world Z :=
  let* r := parse_arguments argv in
  match r with
  | None => print_help (argv !! 0%nat) ;;; ret 1
  | Some options =>
      if negb (opt_help options =? 0) then
        print_version ;;; print_help (argv !! 0%nat) ;;; ret 0
      else match opt_rpc options with
           | Some _ => rpc_main (opt_rpc options) (opt_rpc_token options) (opt_rpc_protocol options)
           | None => old_main options
           end
  end.
End code.

(** ** Printing a command line *)

Definition flag (s : string) (b : bool) : list bytes := if b then [cstr s] else [].
Definition param (s : string) (v : option bytes) : list bytes :=
  match v with Some v => [cstr s; v] | None => [] end.

Definition render (o : cli_options) : list bytes :=
  flag "--help" (negb (opt_help o =? 0)) ++ flag "--version" (negb (opt_version o =? 0)) ++
  flag "--list-if" (opt_list_if o) ++
  flag "--fake-internet" (opt_fake_internet o) ++
  param "--pmtu" (if opt_pmtu o =? 0 then None else Some (dec 10 (opt_pmtu o))) ++
  param "--netif" (opt_netif o) ++ param "--server-ip" (opt_server_ip o) ++
  param "--subnet-net" (opt_subnet_net o) ++ param "--subnet-mask" (opt_subnet_mask o) ++
  param "--username" (opt_relay_username o) ++ param "--password" (opt_relay_password o) ++
  param "--password-file" (opt_relay_password_file o) ++
  param "--socks5-server-addr" (opt_socks5_server_addr o) ++
  param "--socks5-username" (opt_socks5_username o) ++
  param "--socks5-password" (opt_socks5_password o) ++ param "--rpc" (opt_rpc o) ++
  param "--rpc-token" (opt_rpc_token o) ++ param "--rpc-protocol" (opt_rpc_protocol o) ++
  flag "--broadcast" (opt_broadcast o) ++
  param "--relay-server-addr" (opt_relay_server_addr o).

(** Options a command line can express, and that pass the checks. *)
Record expressible (o : cli_options) : Prop := {
  ex_help : opt_help o = 0 \/ opt_help o = 1;
  ex_version : opt_version o = 0 \/ opt_version o = 1;
  ex_pmtu : 0 <= opt_pmtu o < 2 ^ 31;
  ex_broadcast : opt_broadcast o = true -> opt_relay_server_addr o <> None;
  ex_ipaddr : opt_netif_ipaddr o = None;
  ex_netmask : opt_netif_netmask o = None;
  ex_file : opt_socks5_password_file o = None;
}.

Record consistent (o : cli_options) : Prop := {
  cs_relay : opt_relay_server_addr o <> None;
  cs_socks5 : opt_socks5_username o <> None -> opt_socks5_password o <> None;
  cs_password : opt_relay_username o <> None ->
    opt_relay_password o <> None \/ opt_relay_password_file o <> None;
  cs_both : opt_relay_username o <> None ->
    opt_relay_password o = None \/ opt_relay_password_file o = None;
}.

Section roundtrip.

(** An option that stores its argument, on options where it is unset. *)
Lemma parse_param s (set : option bytes -> cli_options -> cli_options)
    (get : cli_options -> option bytes) v o rest :
  (forall v o rest, parse_loop (cstr s :: v :: rest) o = parse_loop rest (set (Some v) o)) ->
  (forall o, get o = None -> set None o = o) -> get o = None ->
  parse_loop (param s v ++ rest) o = parse_loop rest (set v o).
Proof. intros Hs Hn Ho. destruct v; [apply Hs|]. by rewrite Hn. Qed.

Lemma parse_flag {A} s (set : A -> cli_options -> cli_options) (get : cli_options -> A) x0 x b o rest :
  (forall o rest, parse_loop (cstr s :: rest) o = parse_loop rest (set x o)) ->
  (forall o, get o = x0 -> set x0 o = o) -> get o = x0 ->
  parse_loop (flag s b ++ rest) o = parse_loop rest (set (if b then x else x0) o).
Proof. intros Hs Hn Ho. destruct b; [apply Hs|]. by rewrite Hn. Qed.

Ltac unset := (let o := fresh in intros o; destruct o; simpl; intros ->; reflexivity).
Ltac take_param s set get :=
  rewrite (parse_param s set get) by (reflexivity || unset).
Ltac take_flag s set get x0 x :=
  rewrite (parse_flag s set get x0 x) by (reflexivity || unset).

Lemma parse_broadcast b o rest :
  opt_broadcast o = false ->
  parse_loop (flag "--broadcast" b ++ rest) o =
  parse_loop rest (set_opt_broadcast b
    (if b : bool then set_opt_relay_server_addr (Some (cstr "255.255.255.255:11451")) o else o)).
Proof. destruct b; [reflexivity|]. destruct o; simpl. by intros ->. Qed.

Lemma parse_relay v o rest :
  v <> None \/ opt_relay_server_addr o = None ->
  parse_loop (param "--relay-server-addr" v ++ rest) o =
  parse_loop rest (set_opt_relay_server_addr v o).
Proof. destruct v; [reflexivity|]. destruct o; simpl. by intros [? | ->]. Qed.

Lemma parse_pmtu n o rest :
  0 <= n < 2 ^ 31 -> opt_pmtu o = 0 ->
  parse_loop (param "--pmtu" (if n =? 0 then None else Some (dec 10 n)) ++ rest) o =
  parse_loop rest (set_opt_pmtu n o).
Proof.
  intros Hn Ho. case_test; [subst; destruct o; simpl in *; by subst|].
  change (param _ _ ++ rest) with (cstr "--pmtu" :: dec 10 n :: rest).
  transitivity (parse_loop rest (set_opt_pmtu (atoi (dec 10 n)) o)); [reflexivity|].
  unfold atoi, strtol. rewrite <-(app_nil_r (dec 10 n)), scan_int_dec; [|simpl; lia|done|by intros c s ?].
  simpl. unfold clamp_long. rewrite Z.min_r, Z.max_r, s32_id by lia. done.
Qed.

Lemma render_parse o : expressible o -> parse_loop (render o) default_options = ret (Some o).
Proof.
  intros [Hh Hv Hp Hb Hi Hm Hf]. unfold render.
  take_flag "--help" set_opt_help opt_help 0 1.
  take_flag "--version" set_opt_version opt_version 0 1.
  take_flag "--list-if" set_opt_list_if opt_list_if false true.
  take_flag "--fake-internet" set_opt_fake_internet opt_fake_internet false true.
  rewrite parse_pmtu by done.
  take_param "--netif" set_opt_netif opt_netif.
  take_param "--server-ip" set_opt_server_ip opt_server_ip.
  take_param "--subnet-net" set_opt_subnet_net opt_subnet_net.
  take_param "--subnet-mask" set_opt_subnet_mask opt_subnet_mask.
  take_param "--username" set_opt_relay_username opt_relay_username.
  take_param "--password" set_opt_relay_password opt_relay_password.
  take_param "--password-file" set_opt_relay_password_file opt_relay_password_file.
  take_param "--socks5-server-addr" set_opt_socks5_server_addr opt_socks5_server_addr.
  take_param "--socks5-username" set_opt_socks5_username opt_socks5_username.
  take_param "--socks5-password" set_opt_socks5_password opt_socks5_password.
  take_param "--rpc" set_opt_rpc opt_rpc.
  take_param "--rpc-token" set_opt_rpc_token opt_rpc_token.
  take_param "--rpc-protocol" set_opt_rpc_protocol opt_rpc_protocol.
  rewrite parse_broadcast by reflexivity.
  rewrite <-(app_nil_r (param "--relay-server-addr" _)), parse_relay.
  - cbn [parse_loop]. do 2 f_equal. destruct o; simpl in *. subst.
    destruct Hh as [-> | ->], Hv as [-> | ->], opt_broadcast, opt_fake_internet, opt_list_if; reflexivity.
  - destruct (opt_broadcast o); [left; by apply Hb|by right].
Qed.

(** A user name with the passwords the checks ask for. *)
Lemma check_password_ok u p f w :
  (u <> None -> p <> None \/ f <> None) -> (u <> None -> p = None \/ f = None) ->
  check_password u p f w = Ok true w.
Proof.
  intros H1 H2. destruct u as [u|]; [|done]. destruct (H1 ltac:(done)), (H2 ltac:(done)), p, f; done.
Qed.

Lemma parse_arguments_run prog o w :
  expressible o -> consistent o -> parse_arguments (prog :: render o) w = Ok (Some o) w.
Proof.
  intros He [Hr Hs Hp Hb]. unfold parse_arguments, bind. rewrite render_parse by done.
  unfold ret at 1. case_match; [done|].
  destruct (opt_relay_server_addr o) as [a|]; [|done]. cbn [is_some negb]. unfold ret at 1.
  rewrite check_password_ok; [|auto|intros _; right; apply He]. cbn [negb].
  by rewrite check_password_ok.
Qed.
End roundtrip.

(** ** Safety of the program *)

(** An argument: a string of bytes, of less than 4 GiB; a user name goes into a message whose
    length has 16 bits. *)
Definition arg_ok (a : bytes) : Prop := is_cstr a /\ is_bytes a /\ zlen a < 2 ^ 32 - 128.
Definition users_ok (argv : list bytes) : Prop :=
  forall pre u rest, argv = pre ++ cstr "--username" :: u :: rest -> zlen u <= 0xffff - 20.
Lemma users_ok_tail a argv : users_ok (a :: argv) -> users_ok argv.
Proof. intros Hu pre u rest ->. by apply (Hu (a :: pre) u rest). Qed.

Lemma dotted_short ip : (length (dotted ip) <= 15)%nat.
Proof.
  assert (Hd : forall n k, (length (dec n k) <= n)%nat).
  { induction n as [|n IH]; intros k; cbn [dec]; [done|]. case_match; [cbn; lia|]. rewrite length_app. specialize (IH (k / 10)). cbn. lia. }
  destruct ip as [|a [|b [|c [|d [|e ip]]]]]; cbn [dotted]; try (cbn; lia). pose proof (Hd 3%nat a). pose proof (Hd 3%nat b). pose proof (Hd 3%nat c). pose proof (Hd 3%nat d).
  rewrite length_app. cbn [length]. rewrite length_app. cbn [length]. rewrite length_app. cbn [length]. lia.
Qed.
(** The array [revIP] is large enough for every address, and what it holds is terminated. *)
Lemma revIP_filled `{Env} ip : exists rest,
  mem_put (uninit 100) 0 (take 100 (dotted ip ++ replicate 100 0)) = Some (dotted ip ++ 0 :: rest).
Proof.
  pose proof (dotted_short ip) as Hd. destruct (100 - length (dotted ip))%nat as [|n] eqn:En; [lia|].
  assert (Et : take 100 (dotted ip ++ replicate 100 0) = dotted ip ++ 0 :: replicate n 0).
  { rewrite take_app_ge by lia. rewrite En, take_replicate. f_equal. by replace (Nat.min (S n) 100) with (S n) by lia. }
  rewrite Et, mem_put_Some; [|done|]. 2: { pose proof (zlen_uninit 100). unfold zlen in *. rewrite length_app. cbn [length]. rewrite length_replicate. lia. }
  change (take (Z.to_nat 0) (uninit 100)) with (@nil Z). rewrite app_nil_l, <- app_assoc. cbn [app]. by eexists.
Qed.
Lemma revIP_text_total `{Env} ip : is_Some (revIP_text ip).
Proof. unfold revIP_text. destruct (revIP_filled ip) as [rest ->]. cbn [mbind option_bind]. rewrite bool_decide_true by set_solver. by eexists. Qed.
Lemma revIP_text_eq `{Env} ip : is_bytes ip -> revIP_text ip = Some (dotted ip).
Proof.
  intros Hb. unfold revIP_text. destruct (revIP_filled ip) as [rest ->]. cbn [mbind option_bind]. rewrite bool_decide_true by set_solver. rewrite cstring_terminated; [done|].
  assert (Hd : forall n k, 0 <= k -> is_cstr (dec n k)).
  { induction n as [|n IH]; intros k Hk; cbn [dec]; [constructor|]. pose proof (Z.mod_pos_bound k 10). case_match; [repeat constructor; lia|].
    apply Forall_app_2; [apply IH, Z.div_pos; lia|apply Forall_singleton; lia]. }
  destruct ip as [|a [|b [|c [|d [|e ip]]]]]; cbn [dotted]; try constructor. unfold is_bytes in Hb. rewrite !Forall_cons in Hb. destruct Hb as ([Ha _] & [Hb _] & [Hc _] & [Hd' _] & _).
  repeat (apply Forall_app_2; [by apply Hd|]; apply Forall_cons_2; [done|]). by apply Hd.
Qed.
Lemma list_interfaces_total `{Env} i devs : is_Some (list_interfaces i devs).
Proof.
  assert (Ha : forall addrs first, is_Some (print_addresses addrs first)).
  { induction addrs as [|[a|] addrs IH]; intros first; cbn [print_addresses]; [by eexists| |apply IH].
    destruct (revIP_text_total a) as [t ->]. cbn [mbind option_bind]. destruct (IH false) as [[r f] ->]. by eexists. }
  revert i. induction devs as [|d devs IH]; intros i; cbn [list_interfaces]; [by eexists|]. unfold print_interface.
  destruct (Ha (if_addresses d) true) as [[t f] ->]. cbn [mbind option_bind]. destruct (IH (i + 1)) as [[r n] ->]. by eexists.
Qed.

Section safety.
Context `{Env}.

Lemma arg_string a : arg_ok a -> string_ok (Some a).
Proof. intros (? & ? & _) str [= <-]. done. Qed.

(** The options only hold arguments. *)
Lemma parse_loop_ok n argv o w :
  (length argv <= n)%nat -> Forall arg_ok argv -> users_ok argv -> options_ok o ->
  exists r w', parse_loop argv o w = Ok r w' /\ w_lp w' = w_lp w /\
               forall o', r = Some o' -> options_ok o'.
Proof.
  revert argv o. induction n as [|n IH]; intros [|arg argv] o Hn Ha Hu Ho; simpl in Hn; try lia.
  1-2: exists (Some o), w; split_and!; [done..|]; by intros o' [= <-].
  apply Forall_cons in Ha as [_ Ha]. pose proof (users_ok_tail _ _ Hu) as Hu'. cbn [parse_loop].
  assert (Hrest : forall o', options_ok o' -> exists r w', parse_loop argv o' w = Ok r w' /\
            w_lp w' = w_lp w /\ forall o', r = Some o' -> options_ok o') by (intros; apply IH; [lia|done..]).
  assert (Hmiss : exists r w', missing arg w = Ok r w' /\ w_lp w' = w_lp w /\
            forall o', r = Some o' -> options_ok o') by (eexists _, _; split; [done|]; by split).
  assert (Hnext : forall set : bytes -> cli_options, (forall v, arg_ok v -> (arg = cstr "--username" -> zlen v <= 0xffff - 20) -> options_ok (set v)) ->
            exists r w', match argv with [] => missing arg | v :: argv => parse_loop argv (set v) end w
              = Ok r w' /\ w_lp w' = w_lp w /\ forall o', r = Some o' -> options_ok o').
  { intros set Hset. destruct argv as [|v argv]; [done|]. apply Forall_cons in Ha as [Hv Ha].
    apply IH; [simpl in Hn; lia|done|by eapply users_ok_tail|]. apply Hset; [done|]. intros ->. by apply (Hu [] v argv). }
  assert (Hlit : string_ok (Some (cstr "255.255.255.255:11451"))).
  { intros str [= <-]. split; [cbv; repeat (constructor; [discriminate|]); constructor|bytes_tac]. }
  repeat (lazymatch goal with |- context [if streq arg ?s then _ else _] => destruct (streq arg s) eqn:Es end;
    [solve [apply Hrest; destruct Ho; by constructor|apply (Hnext (fun v => _));
    intros v Hv Hname; pose proof (arg_string v Hv); destruct Hv as (? & ? & ?); destruct Ho;
    constructor; simpl; try done; intros ? [= <-]; split; first [done|lia|apply Hname; by apply bool_decide_eq_true in Es]]|clear Es]).
  by apply Hrest.
Qed.

Lemma check_password_run u p f w :
  exists b w', check_password u p f w = Ok b w' /\ w_lp w' = w_lp w.
Proof. unfold check_password. repeat case_match; eexists _, _; done. Qed.

Lemma parse_arguments_ok argv w :
  Forall arg_ok argv -> users_ok argv ->
  post (parse_arguments argv)
    (fun r w' => w_lp w' = w_lp w /\ forall o, r = Some o -> options_ok o) w.
Proof.
  intros Ha Hu. destruct argv as [|prog args]; [done|]. apply Forall_cons in Ha as [_ Ha]. apply users_ok_tail in Hu.
  unfold parse_arguments.
  assert (Hd : options_ok default_options) by (constructor; done).
  destruct (parse_loop_ok (length args) args default_options w) as (r & w1 & E1 & L1 & Hr); [done..|].
  apply post_bind. eapply post_ok; [exact E1|]. destruct r as [o|]; [|done].
  specialize (Hr o eq_refl). case_match; [apply post_ret; split; [done|]; by intros ? [= <-]|].
  apply post_bind.
  eapply (post_mono _ (fun o w' => w_lp w' = w_lp w /\ options_ok o)).
  { repeat case_match; try done. apply post_ret. split; [done|]. destruct Hr. constructor; try done.
    intros str [= <-]. split; [cbv; repeat (constructor; [discriminate|]); constructor|bytes_tac]. }
  clear Hr L1 E1. intros o' w2 [L2 Hr]. apply post_bind.
  destruct (check_password_run (opt_socks5_username o') (opt_socks5_password o')
    (opt_socks5_password_file o') w2) as (b & w3 & E3 & L3).
  eapply post_ok; [exact E3|]. destruct b; [|split; [congruence|done]]. cbn [negb]. apply post_bind.
  destruct (check_password_run (opt_relay_username o') (opt_relay_password o')
    (opt_relay_password_file o') w3) as (b & w4 & E4 & L4).
  eapply post_ok; [exact E4|]. destruct b; split; try congruence; by intros ? [= <-].
Qed.

(** Set-up needs nothing of the state but what program start provides. *)
Lemma startable_lp w w' : w_lp w' = w_lp w -> startable w -> startable w'.
Proof. intros E []. by constructor; unfold pctx; rewrite E. Qed.

Lemma rt_assert_wp b Q w :
  Q tt w -> wp (rt_assert b) Q (fun e => e = Exited 1) w.
Proof. by destruct b. Qed.

(** The word fits the array, and is read back as it was typed, up to 100 characters. *)
Lemma scan_relay_run typed :
  is_cstr typed -> exists b, scan_relay typed (replicate 128 0) = Some b /\ cstring b = take 100 typed.
Proof.
  intros Hc. unfold scan_relay. destruct typed as [|c t]; [by eexists|]. rewrite mem_put_Some; [|done|].
  - eexists. split; [done|]. cbn [Z.to_nat]. rewrite take_0, app_nil_l, <- app_assoc. cbn [app]. apply cstring_terminated. by apply Forall_take.
  - unfold zlen. rewrite length_app, length_take, length_replicate. cbn [length]. lia.
Qed.

Lemma old_main_wp version alldevs typed o w :
  resolver_ok -> options_ok o -> startable w -> is_cstr typed -> is_bytes typed ->
  wp (old_main version alldevs typed o) (fun _ _ => True) (fun e => e = Exited 1) w.
Proof.
  intros Hres Ho Hst Hc Hb. unfold old_main.
  case_match; [done|]. case_match.
  { unfold list_netif. destruct alldevs as [devs|]; [|done]. destruct (list_interfaces_total 0 devs) as [r E]. unfold wp, bind, mem. by rewrite E. }
  apply wp_bind.
  eapply (wp_post _ (fun o' w' => w_lp w' = w_lp w /\ options_ok o' /\ opt_relay_server_addr o' <> None)).
  { case_match eqn:Er; [split_and!; done || by rewrite Er|]. apply post_bind. unfold printf. apply post_modify, post_bind.
    destruct (scan_relay_run typed Hc) as (b & Eb & Es). eapply post_mem; [exact Eb|]. apply post_ret. split; [done|]. split; [|done].
    destruct Ho. constructor; try done. intros str [= <-]. rewrite Es. split; by apply Forall_take. }
  intros o' w1 (E1 & Ho' & Hr). apply wp_bind. unfold wp at 1, gets. apply wp_bind.
  destruct (opt_relay_server_addr o') as [str|] eqn:Es; [|done].
  eapply wp_post; [apply parse_addr_post; [done|by apply (oo_relay _ Ho')]|].
  intros r w2 E2. apply wp_bind. unfold wp at 1, upd_lp, modify. case_test; [|done].
  do 2 (apply wp_call; apply wp_bind; apply rt_assert_wp).
  apply wp_bind. unfold wp at 1, printf, modify. set (w3 := emit (EvInfo _) _).
  assert (Hst3 : startable w3).
  { destruct Hst. assert (E3 : w_lp w3 = set_lp_server_addr r.2 (w_lp w)) by
      (subst w3; simpl; by rewrite E2, E1).
    constructor; unfold pctx in *; rewrite E3; done. }
  clearbody w3. apply wp_bind.
  pose proof (lan_play_init_wp o' w3 Hres Ho' Hst3) as Hi. unfold wp in Hi |- * at 1.
  destruct (lan_play_init o' w3) as [r' w4|st]; [|by destruct Hi]. apply wp_bind.
  by apply rt_assert_wp.
Qed.
End safety.

(** ** Results *)

(** Parsing inverts printing: the command line written from a set of options a
    command line can express, with a relay server and consistent credentials, is
    parsed to exactly those options, without a diagnostic. *)
Theorem parse_arguments_roundtrip prog o w :
  expressible o -> consistent o -> parse_arguments (prog :: render o) w = Ok (Some o) w.
Proof. apply parse_arguments_run. Qed.

(** C40: the program from [main] to the event loop, for every command line of strings of less
    than 2^32 - 128 bytes whose user name, the argument after [--username], has at most 65515,
    for every set of interfaces and every word typed for the relay.  It parses its options,
    lists the interfaces through the 100 bytes of [revIP], reads the word into the 128 bytes
    of [relay_server_addr], resolves and sets up without leaving an object, and stops early
    only through [exit(1)] or inside the RPC server.  Only when it is started without even a
    program name does it print a null string.  What libpcap, libuv and the resolver do is
    outside: the resolver gives socket addresses of their full length ([resolver_ok]); opening
    the capture, starting the gateway and running the loop are calls that return a result
    (the handlers of the loop: [LanPlay.event_loop_safe]; the name of an interface, which the
    Linux branch of [get_mac_address] copies into 16 bytes:
    [Helper.get_mac_address_linux_name]).  The globals of the program are as at its start. *)
Theorem main_safe `{Env} version alldevs typed rpc_main argv w :
  resolver_ok -> Forall arg_ok argv -> users_ok argv -> is_cstr typed -> is_bytes typed -> startable w ->
  match main version alldevs typed rpc_main argv w with
  | Ok _ _ => argv <> []
  | Stop e => (argv = [] /\ e = NullDeref) \/ (argv <> [] /\ (e = Exited 1 \/ exists a b c w', rpc_main a b c w' = Stop e))
  end.
Proof.
  intros Hres Ha Hu Hc Hb Hst.
  destruct (post_inv _ _ _ (parse_arguments_ok argv w Ha Hu)) as (r & w1 & E1 & L1 & Hr).
  unfold main. rewrite (bind_ok _ _ _ _ _ E1). destruct argv as [|prog args]; [injection E1 as <- <-; by left|].
  destruct r as [o|]; [|done].
  destruct (negb (opt_help o =? 0)); [done|]. destruct (opt_rpc o) as [addr|].
  - destruct (rpc_main (Some addr) (opt_rpc_token o) (opt_rpc_protocol o) w1) eqn:E; [done|]. right. split; [done|]. right. eauto.
  - pose proof (old_main_wp version alldevs typed o w1 Hres (Hr _ eq_refl)
      (startable_lp _ _ L1 Hst) Hc Hb) as Hw. unfold wp in Hw.
    destruct (old_main version alldevs typed o w1); [done|]. right. split; [done|by left].
Qed.

(** The password file is never read.  A command line with a user name and
    [--password-file] is accepted, and set-up then leaves the key as it was at
    program start, all zero, whatever the file is. *)
Theorem password_file_ignored `{Env} prog o f w w' :
  resolver_ok -> options_ok o -> expressible o -> opt_relay_server_addr o <> None ->
  opt_socks5_username o = None -> opt_relay_password o = None -> opt_relay_password_file o = Some f ->
  startable w -> lan_play_init o w = Ok 0 w' ->
  parse_arguments (prog :: render o) w = Ok (Some o) w /\ lp_key (w_lp w') = lp_key (w_lp w).
Proof.
  intros Hres Ho He Hr Hs Hp Hf Hst Hi. split.
  - apply parse_arguments_run; [done|]. constructor; rewrite ?Hs, ?Hp, ?Hf; auto.
  - pose proof (lan_play_init_wp o w Hres Ho Hst) as Hw. unfold wp in Hw. rewrite Hi in Hw.
    destruct (Hw eq_refl) as [_ Hcf]. rewrite (cf_key _ _ _ Hcf), Hp. done.
Qed.

(** ** Concrete runs *)

Definition demo_file_options : cli_options :=
  set_opt_relay_username (Some (cstr "user")) (set_opt_relay_password_file (Some (cstr "pw.txt"))
    demo_options).

Lemma demo_file_options_ok : options_ok demo_file_options.
Proof.
  destruct demo_options_ok as [Hr Hs _ _]. constructor; [exact Hr|exact Hs| |done].
  intros u [= <-]. split; [bytes_tac|discriminate].
Qed.

Lemma demo_file_expressible : expressible demo_file_options.
Proof. constructor; try done; by left. Qed.

Lemma demo_file_init : exists w, lan_play_init (H := demo_env) demo_file_options boot_world = Ok 0 w.
Proof.
  assert (Hr : match lan_play_init (H := demo_env) demo_file_options boot_world with
               | Ok r _ => r =? 0 | Stop _ => false end = true) by reflexivity.
  revert Hr. destruct (lan_play_init demo_file_options boot_world) as [r w|e]; [|done].
  intros ->%Z.eqb_eq. by exists w.
Qed.

Lemma parse_arguments_roundtrip_witness :
  parse_arguments [cstr "lan-play"; cstr "--username"; cstr "user"; cstr "--password-file";
                   cstr "pw.txt"; cstr "--relay-server-addr"; cstr "relay.net:11451"] boot_world
  = Ok (Some demo_file_options) boot_world.
Proof.
  apply (parse_arguments_roundtrip (cstr "lan-play") demo_file_options boot_world);
    [apply demo_file_expressible|]. constructor; [discriminate|done|right; discriminate|by left].
Defined.

(** Nothing is given on the command line, and a long word is typed. *)
Lemma main_safe_witness :
  match main (H := demo_env) (cstr "1") None (replicate 300 49) (fun _ _ _ => ret 0) [cstr "lan-play"; cstr "--username"; cstr "user"; cstr "--password"; cstr "pw"] boot_world with
  | Ok _ _ => True
  | Stop e => e = Exited 1
  end.
Proof.
  set (argv := [cstr "lan-play"; cstr "--username"; cstr "user"; cstr "--password"; cstr "pw"]).
  assert (Ha : Forall arg_ok argv).
  { repeat (constructor; [split_and!; [cbv; repeat (constructor; [discriminate|]); constructor|bytes_tac|vm_compute; reflexivity]|]). constructor. }
  assert (Hu : users_ok argv).
  { intros pre u rest E. assert (H1 : argv !! length pre = Some (cstr "--username")) by (rewrite E; by apply list_lookup_middle).
    assert (H2 : argv !! S (length pre) = Some u) by (rewrite E, (cons_middle _ pre), app_assoc; apply list_lookup_middle; rewrite length_app; cbn; lia).
    clear E. revert H1 H2. generalize (length pre). intros n H1 H2. destruct n as [|[|[|[|[|n]]]]]; try (vm_compute in H1; discriminate H1).
    change (Some (cstr "user") = Some u) in H2. injection H2 as <-. vm_compute. discriminate. }
  assert (Hc : is_cstr (replicate 300 49)) by (by apply Forall_replicate).
  assert (Hb : is_bytes (replicate 300 49)) by (apply Forall_replicate; unfold is_u8; lia).
  pose proof (main_safe (H := demo_env) (cstr "1") None (replicate 300 49) (fun _ _ _ => ret 0) argv boot_world demo_resolver_ok Ha Hu Hc Hb boot_startable) as Hm.
  destruct (main _ _ _ _ argv boot_world); [exact I|]. destruct Hm as [[Hm _]|[_ [Hm|(? & ? & ? & ? & Hm)]]]; [discriminate Hm|exact Hm|discriminate Hm].
Defined.

Lemma password_file_ignored_witness :
  exists w', lan_play_init (H := demo_env) demo_file_options boot_world = Ok 0 w' /\
             lp_key (w_lp w') = replicate 20 0.
Proof.
  destruct demo_file_init as [w' Ew]. exists w'. split; [exact Ew|].
  apply (password_file_ignored (H := demo_env) [] demo_file_options (cstr "pw.txt") boot_world w'
    demo_resolver_ok demo_file_options_ok demo_file_expressible);
    [discriminate|reflexivity|reflexivity|reflexivity|apply boot_startable|exact Ew].
Defined.
