(* ===== verification/RpcText.v ===== *)
(** Text on the control connection: [src/rpc/read-line.hpp], [base64.hpp] and the printing
    functions of [rpc-server.cpp].

    Strings are lists of bytes.  The function a [ReadLine] calls for a line is a parameter.

    Shown here: the lines [ReadLine] delivers are those of the stream, however it is cut
    into pieces; [base64_decode] inverts [base64_encode]; a quoted value is read back as
    what was printed unless it holds a backslash. *)

From stdpp Require Import strings.
From S2P Require Import Prelude Byteorder Structs Packet Helper.

(** ** The code *)

(** *** ReadLine *)

(** A line without the carriage return at its end.  For an empty line the source looks at
    [line[len - 1]], before the string; both branches then give the empty line, as
    [chomp_any_byte] shows of the code with the byte that is read there. *)
Definition chomp (line : bytes) : bytes :=
  match last line with
  | Some c => if c =? 13 then take (length line - 1) line else line
  | None => line
  end.

(** The same with the byte [before] an empty string; [substr] of [len - 1] characters, an
    unsigned number, cuts at the end of the string. *)
Definition chomp_reading (before : Z) (line : bytes) : bytes :=
  let len := zlen line in
  let c := default before (last line) in
  if c =? 13 then take (Z.to_nat (u64 (len - 1))) line else line.
Lemma chomp_any_byte before line : zlen line < 2 ^ 64 -> chomp_reading before line = chomp line.
Proof.
  intros Hl. unfold chomp_reading, chomp. destruct line as [|c l]; [rewrite take_nil; by case_match|]. destruct (last (c :: l)) as [d|] eqn:E; [|by apply last_None in E].
  cbn [default from_option id]. destruct (d =? 13); [|done]. f_equal. unfold u64. rewrite zlen_cons in *. pose proof (zlen_nonneg l).
  rewrite Z.mod_small by lia. unfold zlen. cbn [length]. lia.
Qed.

Section read_line.
Context {S : Type} (callback : bytes -> M S unit).

(** The loop of [feed]; a round takes a newline from the buffer. *)
Fixpoint feed_loop (fuel : nat) (buffer : bytes) : M S bytes :=
  match fuel with
  | O => ret buffer
  | Datatypes.S fuel =>
      match split_char buffer 10 with
      | None => ret buffer
      | Some (line, rest) => callback (chomp line) ;;; feed_loop fuel rest
      end
  end.
(** The new buffer. *)
Definition feed (buffer data : bytes) : M S bytes :=
  feed_loop (Datatypes.S (length (buffer ++ data))) (buffer ++ data).

(** A [ReadLine] over the pieces it is given. *)
Fixpoint feed_all (chunks : list bytes) (buffer : bytes) : M S bytes :=
  match chunks with
  | [] => ret buffer
  | data :: chunks => let* buffer := feed buffer data in feed_all chunks buffer
  end.
End read_line.

(** *** base64 *)

Definition base64_chars : bytes := cstr "ABCDEFGHIJKLMNOPQRSTUVWXYZabcdefghijklmnopqrstuvwxyz0123456789+/".

Definition isalnum (c : Z) : bool :=
  isdigit c || ((65 <=? c) && (c <=? 90)) || ((97 <=? c) && (c <=? 122)).
Definition is_base64 (c : Z) : bool := isalnum c || (c =? 43) || (c =? 47).

(** [char_array_4] from [char_array_3]. *)
Definition char_array_4 (a0 a1 a2 : Z) : list Z :=
  [Z.shiftr (Z.land a0 0xfc) 2;
   Z.shiftl (Z.land a0 0x03) 4 + Z.shiftr (Z.land a1 0xf0) 4;
   Z.shiftl (Z.land a1 0x0f) 2 + Z.shiftr (Z.land a2 0xc0) 6;
   Z.land a2 0x3f].
Definition encode_chars (l : list Z) : option bytes := mapM (fun k => base64_chars !! Z.to_nat k) l.

(** The loop; [pend] is [char_array_3] up to [i]. *)
Fixpoint encode_loop (l pend out : bytes) : option (bytes * bytes) :=
  match l with
  | [] => Some (pend, out)
  | x :: l =>
      match pend ++ [x] with
      | [a0; a1; a2] => cs ← encode_chars (char_array_4 a0 a1 a2); encode_loop l [] (out ++ cs)
      | pend => encode_loop l pend out
      end
  end.
Definition base64_encode (l : bytes) : option bytes :=
  '(pend, out) ← encode_loop l [] [];
  match pend with
  | [] => Some out
  | _ =>
      let a j := nth j pend 0 in
      cs ← encode_chars (take (S (length pend)) (char_array_4 (a 0%nat) (a 1%nat) (a 2%nat)));
      Some (out ++ cs ++ replicate (3 - length pend) 61)
  end.

(** [base64_chars.find(c) & 0xff] *)
Fixpoint index_of (l : bytes) (c : Z) (i : Z) : Z :=
  match l with
  | [] => 2 ^ 64 - 1
  | x :: l => if x =? c then i else index_of l c (i + 1)
  end.
Definition value_of (c : Z) : Z := Z.land (index_of base64_chars c 0) 0xff.

(** [char_array_3] from [char_array_4], all of them [unsigned char]. *)
Definition char_array_3 (b0 b1 b2 b3 : Z) : list Z :=
  [u8 (Z.shiftl b0 2 + Z.shiftr (Z.land b1 0x30) 4);
   u8 (Z.shiftl (Z.land b1 0xf) 4 + Z.shiftr (Z.land b2 0x3c) 2);
   u8 (Z.shiftl (Z.land b2 0x3) 6 + b3)].

(** The loop; [pend] is [char_array_4] up to [i], still characters. *)
Fixpoint decode_loop (l pend out : bytes) : bytes * bytes :=
  match l with
  | [] => (pend, out)
  | c :: l =>
      if negb (c =? 61) && is_base64 c then
        match pend ++ [c] with
        | [c0; c1; c2; c3] =>
            decode_loop l [] (out ++ char_array_3 (value_of c0) (value_of c1) (value_of c2) (value_of c3))
        | pend => decode_loop l pend out
        end
      else (pend, out)
  end.
(** Of the last group, what has not been read of [char_array_4] has no influence on what is
    taken of [char_array_3]. *)
Definition base64_decode (l : bytes) : bytes :=
  let '(pend, out) := decode_loop l [] [] in
  match pend with
  | [] => out
  | _ =>
      let b j := nth j (value_of <$> pend) 0 in
      out ++ take (length pend - 1) (char_array_3 (b 0%nat) (b 1%nat) (b 2%nat) 0)
  end.

(** *** Printing *)

(** [str.find(src, pos)] on the rest of the string from [i]. *)
Fixpoint find_rest (s src : bytes) (i : Z) : option Z :=
  if bool_decide (take (length src) s = src) then Some i
  else match s with
       | [] => None
       | _ :: s => find_rest s src (i + 1)
       end.
Definition find (str src : bytes) (pos : Z) : option Z :=
  if zlen str <? pos then None else find_rest (drop (Z.to_nat pos) str) src pos.

Fixpoint replace_loop (fuel : nat) (str src dst : bytes) (pos : option Z) : bytes :=
  match fuel, pos with
  | S fuel, Some pos =>
      let str := take (Z.to_nat pos) str ++ dst ++ drop (Z.to_nat pos + length src) str in
      replace_loop fuel str src dst (find str src (pos + zlen dst))
  | _, _ => str
  end.
(** A round leaves less of the string behind [pos] when [src] is not empty. *)
Definition stringReplace (str src dst : bytes) : bytes :=
  replace_loop (S (length str)) str src dst (find str src 0).

Definition quote : bytes := [34].
Definition escape (value : bytes) : bytes := quote ++ stringReplace value quote [92; 34] ++ quote.

(** [std::to_string]; 20 digits are enough for 64 bits. *)
Definition to_string (n : Z) : bytes := if n <? 0 then 45 :: dec 20 (- n) else dec 20 n.

Definition kv (key value : bytes) : bytes := key ++ [61] ++ escape value ++ [10].
Definition kv_int (key : bytes) (value : Z) : bytes := key ++ [61] ++ to_string value ++ [10].
Definition kv_bool (key : bytes) (value : bool) : bytes :=
  if value then key ++ cstr "=true" ++ [10] else key ++ cstr "=false" ++ [10].
Definition kv_uint64 (key : bytes) (value : Z) : bytes := key ++ [61] ++ to_string value ++ [10].
Definition error (value : bytes) : bytes := kv (cstr "error") value.

(** *** Numbers *)

(** [std::stoi(value, nullptr, 0)]: [strtol] in base 0 and a range check. *)
Inductive stoi_result := StoiValue (n : Z) | InvalidArgument | OutOfRange.

Definition digit_value (c : Z) : Z :=
  if isdigit c then c - 48
  else if (65 <=? c) && (c <=? 90) then c - 55
  else if (97 <=? c) && (c <=? 122) then c - 87
  else 36.
Fixpoint scan_base (base acc : Z) (s : bytes) : Z :=
  match s with
  | c :: s => if digit_value c <? base then scan_base base (acc * base + digit_value c) s else acc
  | [] => acc
  end.
(** The digits with their prefix; [None] if there are none. *)
Definition scan_number (s : bytes) : option Z :=
  match s with
  | [] => None
  | c :: s' =>
      if c =? 48 then
        match s' with
        | x :: d :: _ =>
            if ((x =? 120) || (x =? 88)) && (digit_value d <? 16) then Some (scan_base 16 0 (drop 1 s'))
            else Some (scan_base 8 0 s)
        | _ => Some (scan_base 8 0 s)
        end
      else if digit_value c <? 10 then Some (scan_base 10 0 s)
      else None
  end.
Definition stoi (value : bytes) : stoi_result :=
  let s := skip_space (cstring value) in
  let '(neg, s) := match s with
                   | c :: s' => if c =? 45 then (true, s') else if c =? 43 then (false, s') else (false, s)
                   | [] => (false, [])
                   end in
  match scan_number s with
  | None => InvalidArgument
  | Some v =>
      let v := if neg : bool then - v else v in
      if (- 2 ^ 31 <=? v) && (v <? 2 ^ 31) then StoiValue v else OutOfRange
  end.

(** ** Lines *)

(** The complete lines of a stream and what follows the last of them. *)
Fixpoint lines_of (s : bytes) : list bytes * bytes :=
  match s with
  | [] => ([], [])
  | c :: s =>
      let '(ls, r) := lines_of s in
      if c =? 10 then ([] :: ls, r)
      else match ls with [] => ([], c :: r) | l :: ls => ((c :: l) :: ls, r) end
  end.

Lemma lines_of_none s : split_char s 10 = None -> lines_of s = ([], s).
Proof.
  induction s as [|c s IH]; cbn; [done|]. destruct (c =? 10); [done|].
  destruct (split_char s 10) as [[a b]|]; [done|]. intros _. by rewrite IH.
Qed.
Lemma lines_of_some s a b : split_char s 10 = Some (a, b) -> lines_of s = (a :: (lines_of b).1, (lines_of b).2).
Proof.
  revert a b. induction s as [|c s IH]; intros a b; cbn; [done|]. destruct (c =? 10).
  - intros [= <- <-]. by destruct (lines_of s).
  - destruct (split_char s 10) as [[a' b']|]; [|done]. intros [= <- <-]. by rewrite (IH a' b' eq_refl).
Qed.

(** A stream in two pieces. *)
Lemma lines_of_app x y :
  lines_of (x ++ y) = ((lines_of x).1 ++ (lines_of ((lines_of x).2 ++ y)).1, (lines_of ((lines_of x).2 ++ y)).2).
Proof.
  induction x as [|c x IH]; cbn; [by destruct (lines_of y)|]. rewrite IH. destruct (lines_of x) as [ls r]. cbn [fst snd].
  destruct (Z.eqb_spec c 10) as [->|Hc]; cbn [fst snd]; [done|]. destruct ls as [|l ls]; cbn; [|done].
  destruct (lines_of (r ++ y)) as [ls' r']. rewrite (proj2 (Z.eqb_neq c 10) Hc). by destruct ls'.
Qed.

Section read_line_run.
Context {S : Type} (callback : bytes -> M S unit).

Lemma feed_loop_run fuel buffer s :
  (length buffer < fuel)%nat ->
  feed_loop callback fuel buffer s =
    (for_each (chomp <$> (lines_of buffer).1) callback ;;; ret (lines_of buffer).2) s.
Proof.
  revert buffer s. induction fuel as [|fuel IH]; intros buffer s Hf; [lia|]. cbn [feed_loop].
  destruct (split_char buffer 10) as [[line rest]|] eqn:E; [|by rewrite (lines_of_none _ E)].
  rewrite (lines_of_some _ _ _ E). cbn [fst snd fmap list_fmap for_each]. rewrite bind_assoc.
  destruct (callback (chomp line) s) as [[] s'|e] eqn:Ec; [|by rewrite !(bind_stop _ _ _ _ Ec)].
  rewrite !(bind_ok _ _ _ _ _ Ec). apply IH.
  apply split_char_app in E as ->. rewrite length_app in Hf. cbn in Hf. lia.
Qed.

Lemma feed_run buffer data s :
  feed callback buffer data s =
    (for_each (chomp <$> (lines_of (buffer ++ data)).1) callback ;;; ret (lines_of (buffer ++ data)).2) s.
Proof. apply feed_loop_run. lia. Qed.

(** What is left in the buffer is no line. *)
Lemma lines_of_rest x : lines_of (lines_of x).2 = ([], (lines_of x).2).
Proof.
  induction x as [|c x IH]; cbn; [done|]. destruct (lines_of x) as [ls r]. cbn [snd] in IH.
  destruct (Z.eqb_spec c 10) as [|Hc]; cbn [snd]; [done|]. destruct ls; cbn [snd lines_of]; [|done].
  rewrite IH. by rewrite (proj2 (Z.eqb_neq c 10) Hc).
Qed.

Lemma for_each_app {A} (l1 l2 : list A) (body : A -> M S unit) s :
  for_each (l1 ++ l2) body s = (for_each l1 body ;;; for_each l2 body) s.
Proof.
  revert s. induction l1 as [|x l1 IH]; intros s; [done|]. cbn. rewrite bind_assoc. unfold bind at 1 2.
  by destruct (body x s).
Qed.

Lemma feed_all_run chunks buffer s :
  lines_of buffer = ([], buffer) ->
  feed_all callback chunks buffer s =
    (for_each (chomp <$> (lines_of (buffer ++ concat chunks)).1) callback ;;;
     ret (lines_of (buffer ++ concat chunks)).2) s.
Proof.
  revert buffer s. induction chunks as [|data chunks IH]; intros buffer s Hb; cbn [feed_all concat].
  - by rewrite app_nil_r, Hb.
  - rewrite app_assoc, lines_of_app. cbn [fst snd]. rewrite fmap_app. unfold bind at 1 2.
    rewrite feed_run, for_each_app. unfold bind at 1 2. destruct (for_each _ callback s) as [[] s'|]; [|done]. cbn [ret].
    rewrite IH by apply lines_of_rest. done.
Qed.
End read_line_run.

(** ** base64 *)

(** RFC 4648: a group of three bytes is a 24-bit number, its four digits in base 64 are
    characters; a group that is not complete is filled with zeros, and what it adds is
    replaced by [=]. *)
Definition letter (k : Z) : Z := nth (Z.to_nat k) base64_chars 0.
Definition group (n : Z) : bytes :=
  letter <$> [n / 2 ^ 18; n / 2 ^ 12 mod 64; n / 2 ^ 6 mod 64; n mod 64].
Fixpoint rfc4648 (l : bytes) : bytes :=
  match l with
  | a :: b :: c :: l => group (a * 2 ^ 16 + b * 2 ^ 8 + c) ++ rfc4648 l
  | [a; b] => take 3 (group (a * 2 ^ 16 + b * 2 ^ 8)) ++ [61]
  | [a] => take 2 (group (a * 2 ^ 16)) ++ [61; 61]
  | [] => []
  end.

(** A fact about all values below [n]. *)
Lemma below_check (n : nat) (P : Z -> bool) x :
  forallb P (seqZ 0 (Z.of_nat n)) = true -> 0 <= x < Z.of_nat n -> P x = true.
Proof. rewrite forallb_forall. intros Hall Hx. apply Hall, list_elem_of_In, elem_of_seqZ. lia. Qed.

Lemma array4_digits a b c :
  is_u8 a -> is_u8 b -> is_u8 c ->
  let n := a * 2 ^ 16 + b * 2 ^ 8 + c in
  char_array_4 a b c = [n / 2 ^ 18; n / 2 ^ 12 mod 64; n / 2 ^ 6 mod 64; n mod 64].
Proof.
  intros Ha Hb Hc n. unfold is_u8 in *. unfold char_array_4.
  pose proof (below_check 256 (fun a => (Z.shiftr (Z.land a 0xfc) 2 =? a / 4) && (Z.shiftl (Z.land a 0x03) 4 =? a mod 4 * 16) &&
    (Z.shiftr (Z.land a 0xf0) 4 =? a / 16) && (Z.shiftl (Z.land a 0x0f) 2 =? a mod 16 * 4) &&
    (Z.shiftr (Z.land a 0xc0) 6 =? a / 64) && (Z.land a 0x3f =? a mod 64))) as Hbits.
  assert (Hbits' : forall x, 0 <= x < 256 -> _) by (intros x Hx; exact (Hbits x eq_refl Hx)). clear Hbits.
  cbv beta in Hbits'. setoid_rewrite andb_true_iff in Hbits'. repeat setoid_rewrite andb_true_iff in Hbits'.
  repeat setoid_rewrite Z.eqb_eq in Hbits'.
  destruct (Hbits' a Ha) as (((((E1 & E2) & _) & _) & _) & _). destruct (Hbits' b Hb) as (((((_ & _) & E3) & E4) & _) & _).
  destruct (Hbits' c Hc) as (((((_ & _) & _) & _) & E5) & E6). rewrite E1, E2, E3, E4, E5, E6.
  subst n. change (2 ^ 18) with 262144. change (2 ^ 16) with 65536. change (2 ^ 12) with 4096. change (2 ^ 8) with 256. change (2 ^ 6) with 64.
  assert (Hcons : forall (x y : Z) l l', x = y -> l = l' -> x :: l = y :: l') by congruence.
  repeat (apply Hcons; [Z.div_mod_to_equations; lia|]). done.
Qed.

Lemma letter_lookup k : 0 <= k < 64 -> base64_chars !! Z.to_nat k = Some (letter k).
Proof.
  intros Hk. destruct (lookup_lt_is_Some_2 base64_chars (Z.to_nat k)) as [c Hc].
  { change (length base64_chars) with 64%nat. lia. }
  rewrite Hc. f_equal. symmetry. by apply nth_lookup_Some.
Qed.
Lemma encode_letters l : Forall (fun k => 0 <= k < 64) l -> encode_chars l = Some (letter <$> l).
Proof. induction 1 as [|k l Hk _ IH]; [done|]. unfold encode_chars in *. cbn [mapM]. rewrite letter_lookup by done. cbn [mbind option_bind]. by rewrite IH. Qed.

Lemma digits_range n : 0 <= n < 2 ^ 24 ->
  Forall (fun k => 0 <= k < 64) [n / 2 ^ 18; n / 2 ^ 12 mod 64; n / 2 ^ 6 mod 64; n mod 64].
Proof. intros Hn. repeat constructor; Z.div_mod_to_equations; lia. Qed.

Lemma encode_group a b c :
  is_u8 a -> is_u8 b -> is_u8 c -> encode_chars (char_array_4 a b c) = Some (group (a * 2 ^ 16 + b * 2 ^ 8 + c)).
Proof. unfold is_u8. intros Ha Hb Hc. rewrite array4_digits by done. apply encode_letters, digits_range. lia. Qed.
Lemma encode_part n a b c :
  is_u8 a -> is_u8 b -> is_u8 c ->
  encode_chars (take n (char_array_4 a b c)) = Some (take n (group (a * 2 ^ 16 + b * 2 ^ 8 + c))).
Proof.
  unfold is_u8. intros Ha Hb Hc. rewrite array4_digits by done. unfold group. rewrite <- fmap_take.
  apply encode_letters, Forall_take, digits_range. lia.
Qed.

(** What follows the loop. *)
Definition encode_finish (pend out : bytes) : option bytes :=
  match pend with
  | [] => Some out
  | _ =>
      let a j := nth j pend 0 in
      cs ← encode_chars (take (S (length pend)) (char_array_4 (a 0%nat) (a 1%nat) (a 2%nat)));
      Some (out ++ cs ++ replicate (3 - length pend) 61)
  end.

(** Induction in steps of three. *)
Lemma triple_ind (P : bytes -> Prop) :
  P [] -> (forall a, P [a]) -> (forall a b, P [a; b]) -> (forall a b c l, P l -> P (a :: b :: c :: l)) -> forall l, P l.
Proof.
  intros H0 H1 H2 H3 l. assert (Hall : P l /\ (forall a, P (a :: l)) /\ (forall a b, P (a :: b :: l))).
  { induction l as [|x l (I1 & I2 & I3)]; [by auto|]. auto. }
  apply Hall.
Qed.

Lemma encode_loop_run l out :
  is_bytes l -> encode_loop l [] out ≫= (fun '(pend, out) => encode_finish pend out) = Some (out ++ rfc4648 l).
Proof.
  revert out. induction l as [|a|a b|a b c l IH] using triple_ind; intros out Hl; unfold is_bytes in Hl; rewrite ?Forall_cons in Hl.
  - cbn. by rewrite app_nil_r.
  - destruct Hl as [Ha _]. cbn -[char_array_4 group take]. by rewrite (encode_part 2 a 0 0), Z.mul_0_l, !Z.add_0_r by (done || unfold is_u8; lia).
  - destruct Hl as (Ha & Hb & _). cbn -[char_array_4 group take]. by rewrite (encode_part 3 a b 0), !Z.add_0_r by (done || unfold is_u8; lia).
  - destruct Hl as (Ha & Hb & Hc & Hl). cbn -[char_array_4 group encode_chars]. rewrite encode_group by done. cbn -[group].
    rewrite IH by done. cbn -[group]. by rewrite <- app_assoc.
Qed.
Lemma base64_encode_run l : is_bytes l -> base64_encode l = Some (rfc4648 l).
Proof. apply (encode_loop_run l []). Qed.

Lemma letter_value k :
  0 <= k < 64 -> letter k <> 61 /\ is_base64 (letter k) = true /\ value_of (letter k) = k.
Proof.
  intros Hk. pose proof (below_check 64 (fun k => negb (letter k =? 61) && is_base64 (letter k) && (value_of (letter k) =? k)) k) as H.
  rewrite !andb_true_iff, negb_true_iff, Z.eqb_neq, Z.eqb_eq in H. by destruct H as [[H1 H2] H3].
Qed.

Lemma array3_bytes b0 b1 b2 b3 :
  0 <= b0 < 64 -> 0 <= b1 < 64 -> 0 <= b2 < 64 -> 0 <= b3 < 64 ->
  let n := b0 * 2 ^ 18 + b1 * 2 ^ 12 + b2 * 2 ^ 6 + b3 in
  char_array_3 b0 b1 b2 b3 = [n / 2 ^ 16; n / 2 ^ 8 mod 256; n mod 256].
Proof.
  intros H0 H1 H2 H3 n. unfold char_array_3.
  pose proof (below_check 64 (fun b => (Z.shiftl b 2 =? b * 4) && (Z.shiftr (Z.land b 0x30) 4 =? b / 16) &&
    (Z.shiftl (Z.land b 0xf) 4 =? b mod 16 * 16) && (Z.shiftr (Z.land b 0x3c) 2 =? b / 4) && (Z.shiftl (Z.land b 0x3) 6 =? b mod 4 * 64))) as Hbits.
  assert (Hbits' : forall x, 0 <= x < 64 -> _) by (intros x Hx; exact (Hbits x eq_refl Hx)). clear Hbits.
  cbv beta in Hbits'. repeat setoid_rewrite andb_true_iff in Hbits'. repeat setoid_rewrite Z.eqb_eq in Hbits'.
  destruct (Hbits' b0 H0) as ((((E1 & _) & _) & _) & _). destruct (Hbits' b1 H1) as ((((_ & E2) & E3) & _) & _).
  destruct (Hbits' b2 H2) as ((((_ & _) & _) & E4) & E5). rewrite E1, E2, E3, E4, E5. subst n. unfold u8.
  change (2 ^ 18) with 262144. change (2 ^ 16) with 65536. change (2 ^ 12) with 4096. change (2 ^ 8) with 256. change (2 ^ 6) with 64.
  assert (Hcons : forall (x y : Z) l l', x = y -> l = l' -> x :: l = y :: l') by congruence.
  repeat (apply Hcons; [Z.div_mod_to_equations; lia|]). done.
Qed.

(** A group is read back. *)
Lemma group_bytes a b c :
  is_u8 a -> is_u8 b -> is_u8 c ->
  let n := a * 2 ^ 16 + b * 2 ^ 8 + c in
  char_array_3 (n / 2 ^ 18) (n / 2 ^ 12 mod 64) (n / 2 ^ 6 mod 64) (n mod 64) = [a; b; c].
Proof.
  intros Ha Hb Hc n. unfold is_u8 in *. pose proof (digits_range n) as Hd. rewrite !Forall_cons in Hd. destruct Hd as (H0 & H1 & H2 & H3 & _); [subst n; lia|].
  rewrite array3_bytes by done.
  assert (n / 2 ^ 18 * 2 ^ 18 + n / 2 ^ 12 mod 64 * 2 ^ 12 + n / 2 ^ 6 mod 64 * 2 ^ 6 + n mod 64 = n) as -> by (Z.div_mod_to_equations; lia).
  subst n. change (2 ^ 16) with 65536. change (2 ^ 8) with 256.
  assert (Hcons : forall (x y : Z) l l', x = y -> l = l' -> x :: l = y :: l') by congruence.
  repeat (apply Hcons; [Z.div_mod_to_equations; lia|]). done.
Qed.

Definition decode_finish (pend out : bytes) : bytes :=
  match pend with
  | [] => out
  | _ =>
      let b j := nth j (value_of <$> pend) 0 in
      out ++ take (length pend - 1) (char_array_3 (b 0%nat) (b 1%nat) (b 2%nat) 0)
  end.

(** A character of the alphabet. *)
Lemma decode_letter k l pend out :
  0 <= k < 64 ->
  decode_loop (letter k :: l) pend out =
    match pend ++ [letter k] with
    | [c0; c1; c2; c3] =>
        decode_loop l [] (out ++ char_array_3 (value_of c0) (value_of c1) (value_of c2) (value_of c3))
    | pend => decode_loop l pend out
    end.
Proof.
  intros Hk. destruct (letter_value k Hk) as (H1 & H2 & _). cbn [decode_loop].
  by rewrite (proj2 (Z.eqb_neq _ _) H1), H2.
Qed.

Lemma decode_loop_run l out :
  is_bytes l -> (let '(pend, out) := decode_loop (rfc4648 l) [] out in decode_finish pend out) = out ++ l.
Proof.
  revert out. induction l as [|a|a b|a b c l IH] using triple_ind; intros out Hl; unfold is_bytes in Hl; rewrite ?Forall_cons in Hl.
  - cbn. by rewrite app_nil_r.
  - destruct Hl as [Ha _]. pose proof (group_bytes a 0 0 Ha) as Hg. pose proof (digits_range (a * 2 ^ 16)) as Hd.
    unfold is_u8 in *. rewrite !Forall_cons in Hd. destruct Hd as (H0 & H1 & H2 & H3 & _); [lia|].
    cbn [rfc4648 group fmap list_fmap take app]. rewrite decode_letter by done. cbn [app]. rewrite decode_letter by done. cbn [app].
    cbn [decode_loop Z.eqb Pos.eqb negb andb decode_finish length fmap list_fmap nth].
    destruct (letter_value _ H0) as (_ & _ & ->), (letter_value _ H1) as (_ & _ & ->).
    rewrite Z.mul_0_l, !Z.add_0_r in Hg. specialize (Hg ltac:(lia) ltac:(lia)).
    injection Hg as Hg _ _. cbn [char_array_3 take Nat.sub]. by rewrite Hg.
  - destruct Hl as (Ha & Hb & _). pose proof (group_bytes a b 0 Ha Hb) as Hg. pose proof (digits_range (a * 2 ^ 16 + b * 2 ^ 8)) as Hd.
    unfold is_u8 in *. rewrite !Forall_cons in Hd. destruct Hd as (H0 & H1 & H2 & H3 & _); [lia|].
    cbn [rfc4648 group fmap list_fmap take app]. do 3 (rewrite decode_letter by done; cbn [app]).
    cbn [decode_loop Z.eqb Pos.eqb negb andb decode_finish length fmap list_fmap nth].
    destruct (letter_value _ H0) as (_ & _ & ->), (letter_value _ H1) as (_ & _ & ->), (letter_value _ H2) as (_ & _ & ->).
    rewrite !Z.add_0_r in Hg. specialize (Hg ltac:(lia)).
    injection Hg as Hg1 Hg2 _. cbn [char_array_3 take Nat.sub]. by rewrite Hg1, Hg2.
  - destruct Hl as (Ha & Hb & Hc & Hl). pose proof (digits_range (a * 2 ^ 16 + b * 2 ^ 8 + c)) as Hd.
    unfold is_u8 in Ha, Hb, Hc. rewrite !Forall_cons in Hd. destruct Hd as (H0 & H1 & H2 & H3 & _); [lia|].
    cbn [rfc4648 group fmap list_fmap take app]. do 4 (rewrite decode_letter by done; cbn [app]).
    destruct (letter_value _ H0) as (_ & _ & ->), (letter_value _ H1) as (_ & _ & ->), (letter_value _ H2) as (_ & _ & ->), (letter_value _ H3) as (_ & _ & ->).
    rewrite group_bytes by done. rewrite IH by done. by rewrite <- app_assoc.
Qed.
Lemma base64_decode_run l : is_bytes l -> base64_decode (rfc4648 l) = l.
Proof. apply (decode_loop_run l []). Qed.

(** ** Quoted values *)

Definition escape_char (c : Z) : bytes := if c =? 34 then [92; 34] else [c].

(** The first quote, from [pos]. *)
Lemma find_quote s i :
  find_rest s quote i = match split_char s 34 with Some (a, _) => Some (i + zlen a) | None => None end.
Proof.
  revert i. induction s as [|c s IH]; intros i; cbn; [done|]. destruct (Z.eqb_spec c 34) as [->|Hc].
  - rewrite bool_decide_true by done. by rewrite Z.add_0_r.
  - rewrite bool_decide_false by (by intros [= ?]). rewrite IH. destruct (split_char s 34) as [[a b]|]; [|done].
    rewrite zlen_cons. f_equal. lia.
Qed.

Lemma escape_none s : 34 ∉ s -> s ≫= escape_char = s.
Proof.
  induction s as [|c s IH]; intros Hs; cbn; [done|]. unfold escape_char at 1. rewrite (proj2 (Z.eqb_neq c 34)) by set_solver.
  cbn. by rewrite IH by set_solver.
Qed.
Lemma split_char_absent s c : split_char s c = None -> c ∉ s.
Proof.
  induction s as [|x s IH]; cbn; [by intros _ ?%not_elem_of_nil|]. destruct (Z.eqb_spec x c); [done|].
  destruct (split_char s c) as [[a b]|]; [done|]. intros _. specialize (IH eq_refl). set_solver.
Qed.

(** What is before [pos] is done. *)
Lemma replace_quotes fuel before rest :
  (length rest < fuel)%nat ->
  replace_loop fuel (before ++ rest) quote [92; 34] (find (before ++ rest) quote (zlen before)) =
    before ++ (rest ≫= escape_char).
Proof.
  revert before rest. induction fuel as [|fuel IH]; intros d r Hf; [lia|].
  unfold find at 1. rewrite zlen_app. pose proof (zlen_nonneg r). rewrite (proj2 (Z.ltb_ge _ _)) by lia.
  rewrite to_nat_zlen, drop_app_length, find_quote. destruct (split_char r 34) as [[a b]|] eqn:E.
  - pose proof (split_char_before _ _ _ _ E) as Ha. apply split_char_app in E as ->. cbn [replace_loop].
    rewrite Z2Nat.inj_add, !to_nat_zlen by apply zlen_nonneg. change (length quote) with 1%nat.
    replace (take (length d + length a) (d ++ a ++ 34 :: b)) with (d ++ a) by (by rewrite app_assoc, take_app_length' by (rewrite length_app; lia)).
    replace (drop (length d + length a + 1) (d ++ a ++ 34 :: b)) with b.
    2: { rewrite app_assoc. rewrite drop_app_ge by (rewrite length_app; lia). rewrite length_app.
         replace (length d + length a + 1 - (length d + length a))%nat with 1%nat by lia. done. }
    rewrite app_assoc. replace (zlen d + zlen a + zlen [92; 34]) with (zlen ((d ++ a) ++ [92; 34])) by (by rewrite !zlen_app).
    rewrite IH by (rewrite length_app in Hf; cbn in Hf; lia). rewrite bind_app, (escape_none a Ha). cbn. by rewrite <- !app_assoc.
  - cbn [replace_loop]. by rewrite (escape_none r (split_char_absent _ _ E)).
Qed.

Lemma escape_run v : escape v = quote ++ (v ≫= escape_char) ++ quote.
Proof. unfold escape, stringReplace. by rewrite (replace_quotes _ [] v) by lia. Qed.

(** A reader of what [kv] prints: a backslash stands for the character after it. *)
Fixpoint read_string (s : bytes) : option (bytes * bytes) :=
  match s with
  | [] => None
  | c :: s =>
      if c =? 34 then Some ([], s)
      else if c =? 92 then
        match s with
        | [] => None
        | d :: s => '(v, r) ← read_string s; Some (d :: v, r)
        end
      else '(v, r) ← read_string s; Some (c :: v, r)
  end.
(** The value of a line [key="value"] and what follows the line. *)
Definition read_kv (key s : bytes) : option (bytes * bytes) :=
  '(k, s) ← split_char s 61;
  if bool_decide (k = key) then
    match s with
    | 34 :: s => '(v, r) ← read_string s; match r with 10 :: r => Some (v, r) | _ => None end
    | _ => None
    end
  else None.

Lemma read_escaped v rest : 92 ∉ v -> read_string ((v ≫= escape_char) ++ quote ++ rest) = Some (v, rest).
Proof.
  induction v as [|c v IH]; intros Hv; cbn; [done|]. unfold escape_char at 1. destruct (Z.eqb_spec c 34) as [->|Hc]; cbn.
  - cbn in IH. by rewrite IH by set_solver.
  - rewrite (proj2 (Z.eqb_neq c 34)), (proj2 (Z.eqb_neq c 92)) by set_solver. cbn in IH. by rewrite IH by set_solver.
Qed.

Lemma read_kv_printed key v rest : 61 ∉ key -> 92 ∉ v -> read_kv key (kv key v ++ rest) = Some (v, rest).
Proof.
  intros Hk Hv. unfold read_kv, kv. rewrite escape_run, <- !app_assoc. cbn [app].
  rewrite split_char_skip by done. cbn [mbind option_bind]. rewrite bool_decide_true by done. cbn [quote app].
  change (34 :: 10 :: rest) with (quote ++ 10 :: rest). by rewrite read_escaped.
Qed.

(** ** Results *)

(** However the stream of a connection is cut into pieces, the function is called with
    its complete lines, without the line ends, in order and once each, and the buffer
    holds what follows the last of them. *)
Theorem readline_stream {S : Type} (callback : bytes -> M S unit) (chunks : list bytes) (s : S) :
  feed_all callback chunks [] s =
    (for_each (chomp <$> (lines_of (concat chunks)).1) callback ;;; ret (lines_of (concat chunks)).2) s.
Proof. by apply feed_all_run. Qed.

(** [base64_encode] never leaves its table, gives the encoding of RFC 4648, and
    [base64_decode] gives the bytes back. *)
Theorem base64_roundtrip (l : bytes) :
  is_bytes l -> base64_encode l = Some (rfc4648 l) /\ base64_decode (rfc4648 l) = l.
Proof. intros Hl. split; [by apply base64_encode_run|by apply base64_decode_run]. Qed.

Lemma base64_roundtrip_witness :
  base64_encode (cstr "light work") = Some (rfc4648 (cstr "light work")) /\
  base64_decode (rfc4648 (cstr "light work")) = cstr "light work" /\
  rfc4648 (cstr "light work") = cstr "bGlnaHQgd29yaw==".
Proof.
  assert (is_bytes (cstr "light work")) as Hl by (repeat constructor; vm_compute; congruence).
  destruct (base64_roundtrip (cstr "light work") Hl) as [H1 H2]. split; [exact H1|]. split; [exact H2|]. vm_compute. reflexivity.
Defined.

(** A value that ends in a backslash is not read back. *)
Example backslash_lost : read_kv (cstr "relayServer") (kv (cstr "relayServer") [97; 92]) = None.
Proof. vm_compute. done. Qed.
Example stoi_values :
  stoi (cstr " 1472x") = StoiValue 1472 /\ stoi (cstr "-0x1F") = StoiValue (-31) /\ stoi (cstr "017") = StoiValue 15 /\
  stoi (cstr "abc") = InvalidArgument /\ stoi (cstr "99999999999") = OutOfRange.
Proof. vm_compute. done. Qed.
