(* ===== verification/RpcServer.v ===== *)
(** The control server: [src/rpc/lan-play.cpp], [rpc-server.cpp] and the text protocol of
    [rpc-tcp-server.hpp].

    One client, one set of options and one pending configuration are shared by all
    connections ([rpc_server]); a connection has its own buffer and its own authorisation
    ([TCPConnection]).  The interfaces libpcap reports, the clock, the version and the text of a
    library exception are parameters; a connection that delivers data is alive, so
    the weak pointers to it can be locked.

    Shown here: without the token no connection has any effect; with it the commands of a
    connection are executed in order; the client is only ever closed with the options it
    was started with; every setting is reported back as it was given; a number that does
    not fit ends the program. *)

From stdpp Require Import strings.
From S2P Require Import Prelude Byteorder Structs Packet Helper Arp Sha1 LanClient Dispatch LanPlay Main RpcText.

(** ** The code *)

(** *** LanPlay *)

Record LanPlayConfig := {
  relayServer : bytes;
  socks5Server : bytes;
  fakeInternet : bool;
  broadcast : bool;
  pmtu : Z;
}.
Inductive LanPlayStatus := StatusNone | StatusRunning.
#[export] Instance status_eq_dec : EqDecision LanPlayStatus.
Proof. solve_decision. Defined.

Record NetInterface := { ni_name : bytes; ni_description : bytes; ni_ips : list bytes }.
Record LanPlayStatsItem := { uploadByte : Z; uploadPacket : Z; downloadByte : Z; downloadPacket : Z }.
Record LanPlayStats := { stats_client : LanPlayStatsItem; stats_packet : LanPlayStatsItem; stats_time : Z }.

(** [LanPlay] with the globals it works on. *)
Record rpc_server := {
  rs_world : world;
  rs_options : cli_options;
  rs_config : LanPlayConfig;
  rs_lastConfig : LanPlayConfig;
  rs_status : LanPlayStatus;
  rs_lastError : bytes;
}.

Class RpcSys := {
  rpc_findalldevs : nat -> bytes + list pcap_if;  (* pcap_findalldevs: the error or the list *)
  rpc_clock : nat -> Z;                           (* milliseconds since the epoch *)
  rpc_version : bytes;                            (* LANPLAY_VERSION *)
  stoi_what : bytes;                              (* what() of the exception of stoi *)
}.

Definition set_rs_world (v : world) (r : rpc_server) : rpc_server :=
  {| rs_world := v; rs_options := rs_options r; rs_config := rs_config r; rs_lastConfig := rs_lastConfig r;
     rs_status := rs_status r; rs_lastError := rs_lastError r |}.
Definition set_rs_options (v : cli_options) (r : rpc_server) : rpc_server :=
  {| rs_world := rs_world r; rs_options := v; rs_config := rs_config r; rs_lastConfig := rs_lastConfig r;
     rs_status := rs_status r; rs_lastError := rs_lastError r |}.
Definition set_rs_config (v : LanPlayConfig) (r : rpc_server) : rpc_server :=
  {| rs_world := rs_world r; rs_options := rs_options r; rs_config := v; rs_lastConfig := rs_lastConfig r;
     rs_status := rs_status r; rs_lastError := rs_lastError r |}.
Definition set_rs_lastConfig (v : LanPlayConfig) (r : rpc_server) : rpc_server :=
  {| rs_world := rs_world r; rs_options := rs_options r; rs_config := rs_config r; rs_lastConfig := v;
     rs_status := rs_status r; rs_lastError := rs_lastError r |}.
Definition set_rs_status (v : LanPlayStatus) (r : rpc_server) : rpc_server :=
  {| rs_world := rs_world r; rs_options := rs_options r; rs_config := rs_config r; rs_lastConfig := rs_lastConfig r;
     rs_status := v; rs_lastError := rs_lastError r |}.
Definition set_rs_lastError (v : bytes) (r : rpc_server) : rpc_server :=
  {| rs_world := rs_world r; rs_options := rs_options r; rs_config := rs_config r; rs_lastConfig := rs_lastConfig r;
     rs_status := rs_status r; rs_lastError := v |}.

Definition set_relayServer (v : bytes) (c : LanPlayConfig) : LanPlayConfig :=
  {| relayServer := v; socks5Server := socks5Server c; fakeInternet := fakeInternet c; broadcast := broadcast c; pmtu := pmtu c |}.
Definition set_socks5Server (v : bytes) (c : LanPlayConfig) : LanPlayConfig :=
  {| relayServer := relayServer c; socks5Server := v; fakeInternet := fakeInternet c; broadcast := broadcast c; pmtu := pmtu c |}.
Definition set_fakeInternet (v : bool) (c : LanPlayConfig) : LanPlayConfig :=
  {| relayServer := relayServer c; socks5Server := socks5Server c; fakeInternet := v; broadcast := broadcast c; pmtu := pmtu c |}.
Definition set_broadcast (v : bool) (c : LanPlayConfig) : LanPlayConfig :=
  {| relayServer := relayServer c; socks5Server := socks5Server c; fakeInternet := fakeInternet c; broadcast := v; pmtu := pmtu c |}.
Definition set_pmtu (v : Z) (c : LanPlayConfig) : LanPlayConfig :=
  {| relayServer := relayServer c; socks5Server := socks5Server c; fakeInternet := fakeInternet c; broadcast := broadcast c; pmtu := v |}.

Definition newConfig : LanPlayConfig :=
  {| relayServer := []; socks5Server := []; fakeInternet := false; broadcast := false; pmtu := 0 |}.

(** [lan_play->last_err]: what [RETURN_ERR] wrote last, in an array of [PCAP_ERRBUF_SIZE]. *)
Definition PCAP_ERRBUF_SIZE : Z := 256.
Definition last_err (w : world) : bytes :=
  take (Z.to_nat (PCAP_ERRBUF_SIZE - 1))
    (default [] (last (omap (fun e => match e with EvError t => Some t | _ => None end) (w_out w)))).

Definition on_world {A} (m : M world A) : M rpc_server A :=
  fun r => match m (rs_world r) with Ok a w => Ok a (set_rs_world w r) | Stop e => Stop e end.

(** [applyConfig]: the options that a configuration gives. *)
Definition config_options (c : LanPlayConfig) (o : cli_options) : cli_options :=
  let o := set_opt_broadcast (broadcast c) o in
  let o := set_opt_fake_internet (fakeInternet c) o in
  let o := set_opt_pmtu (pmtu c) o in
  let o := options_relay_server_addr (Some (cstring (relayServer c))) o in
  options_socks5_server_addr (Some (cstring (socks5Server c))) o.
Definition applyConfig : M rpc_server unit :=
  modify (fun r => set_rs_lastConfig (rs_config r) (set_rs_options (config_options (rs_config r) (rs_options r)) r)).

Section code.
Context `{Env} `{RpcSys}.

Definition start : M rpc_server Z :=
  let* status := gets rs_status in
  if decide (status = StatusRunning) then
    modify (set_rs_lastError (cstr "Already running")) ;;; ret (-1)
  else
    applyConfig ;;;
    let* options := gets rs_options in
    let* r := on_world (lan_play_init options) in
    (if r =? 0 then modify (set_rs_status StatusRunning)
     else modify (fun r => set_rs_lastError (last_err (rs_world r)) r)) ;;;
    ret r.

(** [LanPlay::stop] *)
Definition lp_stop : M rpc_server Z :=
  let* status := gets rs_status in
  if decide (status = StatusNone) then
    modify (set_rs_lastError (cstr "Already stopped")) ;;; ret (-1)
  else
    let* options := gets rs_options in
    let* r := on_world (lan_play_close options) in
    (if r =? 0 then modify (set_rs_status StatusNone)
     else modify (fun r => set_rs_lastError (last_err (rs_world r)) r)) ;;;
    ret r.

(** The addresses go through an array of 100 bytes, which holds every one of them
    ([Main.revIP_text_eq]). *)
Definition net_interface (d : pcap_if) : NetInterface :=
  {| ni_name := if_name d; ni_description := default [] (if_description d); ni_ips := dotted <$> omap id (if_addresses d) |}.
(** The result and the list. *)
Definition getNetInterfaces : M rpc_server (Z * list NetInterface) :=
  let* devs := on_world (fun w => Ok (rpc_findalldevs (w_ticks w)) (tick w)) in
  match devs with
  | inl errBuf =>
      on_world (eprintf (cstr "Error pcap_findalldevs: " ++ errBuf ++ [10])) ;;;
      modify (set_rs_lastError errBuf) ;;;
      ret (-1, [])
  | inr allDevs => ret (0, net_interface <$> allDevs)
  end.

Definition lp_getStats : M rpc_server (Z * option LanPlayStats) :=
  let* status := gets rs_status in
  if decide (status = StatusNone) then
    modify (set_rs_lastError (cstr "Not running")) ;;; ret (-1, None)
  else
    let* lp := gets (fun r => w_lp (rs_world r)) in
    let* now := on_world (fun w => Ok (rpc_clock (w_ticks w)) (tick w)) in
    ret (0, Some
      {| stats_client := {| downloadByte := lp_download_byte lp; downloadPacket := lp_download_packet lp;
                            uploadByte := lp_upload_byte lp; uploadPacket := lp_upload_packet lp |};
         stats_packet := {| downloadByte := pc_download_byte (lp_packet_ctx lp); downloadPacket := pc_download_packet (lp_packet_ctx lp);
                            uploadByte := pc_upload_byte (lp_packet_ctx lp); uploadPacket := pc_upload_packet (lp_packet_ctx lp) |};
         stats_time := now |}).

(** *** RPCServerSession *)

Definition section (prefix : bytes) : bytes := [91] ++ prefix ++ [93; 10].
Definition getConfig (prefix : bytes) (c : LanPlayConfig) : bytes :=
  section prefix ++ kv (cstr "relayServer") (relayServer c) ++ kv (cstr "socks5Server") (socks5Server c) ++
  kv_int (cstr "pmtu") (pmtu c) ++ kv_bool (cstr "fakeInternet") (fakeInternet c) ++ kv_bool (cstr "broadcast") (broadcast c).
Definition stats_lines (s : LanPlayStatsItem) : bytes :=
  kv_uint64 (cstr "downloadByte") (downloadByte s) ++ kv_uint64 (cstr "downloadPacket") (downloadPacket s) ++
  kv_uint64 (cstr "uploadByte") (uploadByte s) ++ kv_uint64 (cstr "uploadPacket") (uploadPacket s).
Definition getStats (s : LanPlayStats) : bytes :=
  section (cstr "stats") ++ kv_uint64 (cstr "time") (stats_time s) ++
  section (cstr "stats.client") ++ stats_lines (stats_client s) ++
  section (cstr "stats.packet") ++ stats_lines (stats_packet s).
Definition interface_text (n : NetInterface) : bytes :=
  cstr "[[interfaces]]" ++ [10] ++ kv (cstr "name") (ni_name n) ++ kv (cstr "description") (ni_description n) ++
  cstr "ips=[" ++ [10] ++ concat ((fun ip => cstr "  " ++ escape ip ++ [44; 10]) <$> ni_ips n) ++ [93; 10].

Definition report_error : M rpc_server bytes := gets (fun r => error (rs_lastError r)).
(** Changing the configuration and reporting it. *)
Definition reconfigure (f : LanPlayConfig -> LanPlayConfig) : M rpc_server bytes :=
  modify (fun r => set_rs_config (f (rs_config r)) r) ;;;
  gets (fun r => getConfig (cstr "config") (rs_config r)).

(** The part of [onMessage] after the server was found; [stoi] can throw [out_of_range],
    which nothing catches. *)
Definition on_command (key value : bytes) : M rpc_server bytes :=
  if streq key "status" then
    let* status := gets rs_status in
    ret (kv (cstr "status") (match status with StatusNone => cstr "None" | StatusRunning => cstr "Running" end))
  else if streq key "listIf" then
    let* (r, list) := getNetInterfaces in
    if r =? 0 then ret (concat (interface_text <$> list)) else report_error
  else if streq key "version" then ret (kv (cstr "version") rpc_version)
  else if streq key "start" then
    let* r := start in
    if r =? 0 then ret (kv (cstr "status") (cstr "Running")) else report_error
  else if streq key "stop" then
    let* r := lp_stop in
    if r =? 0 then ret (kv (cstr "status") (cstr "None")) else report_error
  else if streq key "config" then gets (fun r => getConfig (cstr "config") (rs_config r))
  else if streq key "lastConfig" then gets (fun r => getConfig (cstr "lastConfig") (rs_lastConfig r))
  else if streq key "relayServer" then reconfigure (set_relayServer value)
  else if streq key "socks5Server" then reconfigure (set_socks5Server value)
  else if streq key "fakeInternet" then reconfigure (set_fakeInternet (streq value "true"))
  else if streq key "broadcast" then reconfigure (set_broadcast (streq value "true"))
  else if streq key "pmtu" then
    match stoi value with
    | StoiValue n => reconfigure (set_pmtu n)
    | InvalidArgument => ret (error stoi_what)
    | OutOfRange => halt AssertFail             (* std::terminate, abort *)
    end
  else if streq key "stats" then
    let* (r, stats) := lp_getStats in
    match stats with
    | Some s => if r =? 0 then ret (getStats s) else report_error
    | None => report_error
    end
  else ret (error (cstr "command not found: " ++ key)).

(** [alive]: whether the server is still there. *)
Definition onMessage (alive : bool) (message : bytes) : M rpc_server bytes :=
  if alive then
    match split_char message 61 with
    | None => on_command message []
    | Some (key, value) => on_command key value
    end
  else ret (cstr "server lost").

(** *** TCPConnection *)

Record TCPConnection := {
  rc_authed : bool;
  rc_buffer : bytes;                            (* of its ReadLine *)
  rc_sent : list bytes;                         (* what was written to the connection *)
}.
Definition newTCPConnection : TCPConnection := {| rc_authed := false; rc_buffer := []; rc_sent := [] |}.

Definition set_rc_authed (v : bool) (c : TCPConnection) : TCPConnection :=
  {| rc_authed := v; rc_buffer := rc_buffer c; rc_sent := rc_sent c |}.
Definition set_rc_buffer (v : bytes) (c : TCPConnection) : TCPConnection :=
  {| rc_authed := rc_authed c; rc_buffer := v; rc_sent := rc_sent c |}.
Definition set_rc_sent (v : list bytes) (c : TCPConnection) : TCPConnection :=
  {| rc_authed := rc_authed c; rc_buffer := rc_buffer c; rc_sent := v |}.

Definition upd_conn (f : TCPConnection -> TCPConnection) : M (TCPConnection * rpc_server) unit :=
  modify (fun s => (f s.1, s.2)).
Definition on_server {A} (m : M rpc_server A) : M (TCPConnection * rpc_server) A :=
  fun s => match m s.2 with Ok a r => Ok a (s.1, r) | Stop e => Stop e end.

Definition sendStr (str : bytes) : M (TCPConnection * rpc_server) unit :=
  if 0 <? zlen str then upd_conn (fun c => set_rc_sent (rc_sent c ++ [str]) c) else ret tt.

Definition AUTHORIZED : bytes := cstr "success=" ++ [34] ++ cstr "authorized" ++ [34].
Definition AUTH_FAILED : bytes := cstr "error=" ++ [34] ++ cstr "authorized failed: invalid token" ++ [34].
Definition END_MARK : bytes := [10] ++ cstr "# end" ++ [10].

(** A line of a connection. *)
Definition tcp_line (token line : bytes) : M (TCPConnection * rpc_server) unit :=
  let* authed := gets (fun s => rc_authed s.1) in
  let* result :=
    if authed : bool then on_server (onMessage true line)
    else if bool_decide (line = token) then upd_conn (set_rc_authed true) ;;; ret AUTHORIZED
    else ret AUTH_FAILED in
  sendStr (result ++ END_MARK).

(** The [DataEvent] of a connection. *)
Definition tcp_onData (token data : bytes) : M (TCPConnection * rpc_server) unit :=
  let* buffer := gets (fun s => rc_buffer s.1) in
  let* buffer := feed (tcp_line token) buffer data in
  upd_conn (set_rc_buffer buffer).

(** *** The listening server *)

Inductive server_event := Accept | Data (i : nat) (data : bytes).
Definition on_conn (i : nat) (m : M (TCPConnection * rpc_server) unit) : M (list TCPConnection * rpc_server) unit :=
  fun s => match s.1 !! i with
           | None => Ok tt s                    (* no such connection *)
           | Some c => match m (c, s.2) with
                       | Ok _ (c', r') => Ok tt (<[i := c']> s.1, r')
                       | Stop e => Stop e
                       end
           end.
Definition serve_event (token : bytes) (e : server_event) : M (list TCPConnection * rpc_server) unit :=
  match e with
  | Accept => modify (fun s => (s.1 ++ [newTCPConnection], s.2))
  | Data i data => on_conn i (tcp_onData token data)
  end.
(** The events of the loop, in order. *)
Definition serve (token : bytes) (evs : list server_event) : M (list TCPConnection * rpc_server) unit :=
  for_each evs (serve_event token).
End code.

(** ** Authorisation *)

Section auth.
Context `{Env} `{RpcSys}.
Implicit Types (c : TCPConnection) (r : rpc_server).

Definition refusal : bytes := AUTH_FAILED ++ END_MARK.

Lemma sendStr_run str c r : str <> [] -> sendStr str (c, r) = Ok tt (set_rc_sent (rc_sent c ++ [str]) c, r).
Proof. intros Hs. unfold sendStr. destruct str; [done|]. rewrite zlen_cons. pose proof (zlen_nonneg str). by rewrite (proj2 (Z.ltb_lt _ _)) by lia. Qed.

Lemma tcp_line_refused token line c r :
  rc_authed c = false -> line <> token ->
  tcp_line token line (c, r) = Ok tt (set_rc_sent (rc_sent c ++ [refusal]) c, r).
Proof. intros Ha Hl. unfold tcp_line, bind at 1 2, gets. cbn [fst]. rewrite Ha, bool_decide_false by done. by apply sendStr_run. Qed.

Lemma tcp_lines_refused token ls c r :
  rc_authed c = false -> token ∉ ls ->
  for_each ls (tcp_line token) (c, r) = Ok tt (set_rc_sent (rc_sent c ++ replicate (length ls) refusal) c, r).
Proof.
  revert c. induction ls as [|l ls IH]; intros c Ha Hl; cbn [for_each length replicate].
  - rewrite app_nil_r. by destruct c.
  - rewrite (bind_ok _ _ _ _ _ (tcp_line_refused token l c r Ha ltac:(set_solver))). rewrite IH by (done || set_solver).
    unfold set_rc_sent. cbn [rc_sent rc_authed rc_buffer]. by rewrite <- app_assoc.
Qed.

Lemma tcp_onData_refused token data c r :
  rc_authed c = false -> token ∉ chomp <$> (lines_of (rc_buffer c ++ data)).1 ->
  exists n, tcp_onData token data (c, r) =
    Ok tt ({| rc_authed := false; rc_buffer := (lines_of (rc_buffer c ++ data)).2;
              rc_sent := rc_sent c ++ replicate n refusal |}, r).
Proof.
  intros Ha Ht. unfold tcp_onData, bind at 1, gets. cbn [fst]. eexists. unfold bind at 1. rewrite feed_run.
  rewrite (bind_ok _ _ _ _ _ (tcp_lines_refused token _ c r Ha Ht)). unfold upd_conn, modify, ret, set_rc_buffer, set_rc_sent. cbn.
  by rewrite Ha.
Qed.

(** What connection [i] receives, [n] being the number of connections. *)
Fixpoint stream (n i : nat) (evs : list server_event) : bytes :=
  match evs with
  | [] => []
  | Accept :: evs => stream (S n) i evs
  | Data j data :: evs => (if decide (j = i /\ (i < n)%nat) then data else []) ++ stream n i evs
  end.
Definition lines_received (i : nat) (evs : list server_event) : list bytes := chomp <$> (lines_of (stream 0 i evs)).1.

(** A connection that received [past], none of it the token. *)
Definition stranger (c : TCPConnection) (past : bytes) : Prop :=
  rc_authed c = false /\ rc_buffer c = (lines_of past).2 /\ Forall (eq refusal) (rc_sent c).

Lemma default_snoc (l : list bytes) i : default [] ((l ++ [[]]) !! i) = default [] (l !! i).
Proof.
  destruct (decide (i < length l)%nat); [by rewrite lookup_app_l|].
  rewrite lookup_app_r, (lookup_ge_None_2 l) by lia. by destruct (i - length l)%nat as [|[]].
Qed.

Lemma serve_strangers token evs conns pasts r :
  Forall2 stranger conns pasts ->
  (forall i, token ∉ chomp <$> (lines_of (default [] (pasts !! i) ++ stream (length conns) i evs)).1) ->
  exists conns', serve token evs (conns, r) = Ok tt (conns', r) /\
    Forall (fun c => rc_authed c = false /\ Forall (eq refusal) (rc_sent c)) conns'.
Proof.
  revert conns pasts. induction evs as [|e evs IH]; intros conns pasts Hc Ht.
  - exists conns. split; [done|]. eapply Forall2_Forall_l; [exact Hc|]. apply Forall_true. intros p c (? & ? & ?). done.
  - unfold serve. cbn [for_each]. destruct e as [|j data]; cbn [serve_event stream] in *.
    + unfold bind at 1, modify. cbn [fst snd]. apply (IH _ (pasts ++ [[]])).
      * apply Forall2_app; [done|]. by repeat constructor.
      * intros i. specialize (Ht i). rewrite length_app. cbn [length]. rewrite Nat.add_1_r.
        by rewrite default_snoc.
    + assert (Hlen := Forall2_length _ _ _ Hc). unfold on_conn at 1, bind at 1. cbn [fst snd].
      destruct (conns !! j) as [c|] eqn:Ej.
      * destruct (Forall2_lookup_l _ _ _ _ _ Hc Ej) as (p & Ep & Ha & Hb & Hs). pose proof (lookup_lt_Some _ _ _ Ej) as Hj.
        pose proof (Ht j) as Htj. rewrite Ep, decide_True in Htj by done. cbn [default from_option id] in Htj.
        rewrite app_assoc, lines_of_app in Htj. cbn [fst snd] in Htj. rewrite (lines_of_app p data), fmap_app in Htj. cbn [fst snd] in Htj.
        destruct (tcp_onData_refused token data c r Ha) as [n En].
        { rewrite Hb. intros Hin. apply Htj. rewrite fmap_app. set_solver. }
        rewrite En. apply (IH _ (<[j := p ++ data]> pasts)).
        { apply Forall2_insert; [done|]. split_and!; [done| |by apply Forall_app_2; [|apply Forall_replicate]].
          cbn [rc_buffer]. by rewrite Hb, (lines_of_app p data). }
        intros i. specialize (Ht i). rewrite length_insert. destruct (decide (i = j)) as [->|Hij].
        { rewrite list_lookup_insert_eq by lia. cbn [default from_option id]. rewrite Ep, decide_True in Ht by done.
          cbn [default from_option id] in Ht. by rewrite <- app_assoc. }
        rewrite list_lookup_insert_ne by done. rewrite decide_False in Ht by naive_solver. done.
      * apply (IH _ pasts); [done|]. intros i. specialize (Ht i). rewrite decide_False in Ht; [done|].
        intros [-> Hi]. apply lookup_ge_None in Ej. lia.
Qed.
End auth.

(** ** A session *)

Section session.
Context `{Env} `{RpcSys}.
Implicit Types (c : TCPConnection) (r : rpc_server).

(** A line of an authorised connection. *)
Definition command (line : bytes) : M (TCPConnection * rpc_server) unit :=
  let* result := on_server (onMessage true line) in sendStr (result ++ END_MARK).

Lemma tcp_line_command token line c r : rc_authed c = true -> tcp_line token line (c, r) = command line (c, r).
Proof. intros Ha. unfold tcp_line, bind at 1, gets. cbn [fst]. by rewrite Ha. Qed.
Lemma end_mark_app (s : bytes) : s ++ END_MARK <> [].
Proof. by destruct s. Qed.

Lemma command_authed line c r :
  wlp (command line) (fun _ s => rc_authed s.1 = rc_authed c /\ rc_buffer s.1 = rc_buffer c) (c, r).
Proof.
  unfold wlp, command, bind, on_server. cbn [fst snd]. destruct (onMessage true line r); [|done].
  by rewrite sendStr_run by apply end_mark_app.
Qed.

(** Nothing that handles lines looks at the buffer. *)
Definition buffer_free {A} (m : M (TCPConnection * rpc_server) A) : Prop :=
  forall b c r, m (set_rc_buffer b c, r) =
    match m (c, r) with Ok a (c', r') => Ok a (set_rc_buffer b c', r') | Stop e => Stop e end.
Lemma buffer_free_bind {A B} (m : M _ A) (k : A -> M _ B) :
  buffer_free m -> (forall a, buffer_free (k a)) -> buffer_free (bind m k).
Proof. intros Hm Hk b c r. unfold bind. rewrite Hm. destruct (m (c, r)) as [a [c' r']|]; [|done]. apply Hk. Qed.
Lemma buffer_free_ret {A} (a : A) : buffer_free (ret a).
Proof. done. Qed.
Lemma buffer_free_for_each {A} (l : list A) body : (forall x, buffer_free (body x)) -> buffer_free (for_each l body).
Proof. intros Hb. induction l; [apply buffer_free_ret|]. by apply buffer_free_bind. Qed.
Lemma tcp_line_buffer_free token line : buffer_free (tcp_line token line).
Proof.
  apply buffer_free_bind; [by intros b c r|]. intros authed. apply buffer_free_bind.
  - destruct authed; [|by case_bool_decide]. intros b c r. unfold on_server. cbn [fst snd]. by destruct (onMessage true line r).
  - intros result b c r. unfold sendStr. by destruct (0 <? _).
Qed.

Lemma onData_all token chunks c r :
  lines_of (rc_buffer c) = ([], rc_buffer c) ->
  for_each chunks (tcp_onData token) (c, r) =
    (let* b := feed_all (tcp_line token) chunks (rc_buffer c) in upd_conn (set_rc_buffer b)) (c, r).
Proof.
  revert c r. induction chunks as [|data chunks IH]; intros c r Hb; cbn [for_each feed_all].
  - unfold bind, ret, upd_conn, modify. cbn. by destruct c.
  - rewrite bind_assoc.
    assert (Ed : tcp_onData token data (c, r) =
                 match feed (tcp_line token) (rc_buffer c) data (c, r) with
                 | Ok b1 (c1, r1) => Ok tt (set_rc_buffer b1 c1, r1) | Stop e => Stop e end).
    { unfold tcp_onData, bind, gets, upd_conn, modify. cbn [fst]. by destruct (feed _ _ _ _) as [? []|]. }
    destruct (feed (tcp_line token) (rc_buffer c) data (c, r)) as [b1 [c1 r1]|e] eqn:E;
      [rewrite (bind_ok _ _ _ _ _ Ed), (bind_ok _ _ _ _ _ E)|by rewrite (bind_stop _ _ _ _ Ed), (bind_stop _ _ _ _ E)].
    assert (Hb1 : lines_of b1 = ([], b1)).
    { rewrite feed_run in E. unfold bind at 1 in E. destruct (for_each _ _ (c, r)); [|done]. injection E as <- _. apply lines_of_rest. }
    rewrite IH by done. cbn [rc_buffer set_rc_buffer]. unfold bind at 1 2.
    rewrite !feed_all_run by done. rewrite buffer_free_bind; [|apply buffer_free_for_each, tcp_line_buffer_free|intros ?; apply buffer_free_ret].
    destruct ((for_each _ (tcp_line token);;; _) (c1, r1)) as [b2 [c2 r2]|]; [|done]. done.
Qed.

Lemma commands_run token cmds c r :
  rc_authed c = true -> for_each cmds (tcp_line token) (c, r) = for_each cmds command (c, r).
Proof.
  revert c r. induction cmds as [|l cmds IH]; intros c r Ha; [done|]. cbn [for_each]. unfold bind. rewrite tcp_line_command by done.
  pose proof (command_authed l c r) as Hc. unfold wlp in Hc. destruct (command l (c, r)) as [[] [c' r']|]; [|done].
  apply IH. destruct Hc as [E _]. cbn in E. congruence.
Qed.
End session.

(** ** The life of the client *)

Section lifecycle.
Context `{Env} `{RpcSys}.

(** What happened to the client since [w0]; [Some o]: it is running with the options [o].  It
    is started only when it is not running and closed only when it is, with the options it
    was started with; packets and timers reach it at any time. *)
Inductive client_run (w0 : world) : option cli_options -> world -> Prop :=
| RunBoot : client_run w0 None w0
| RunStarted o w w' : client_run w0 None w -> lan_play_init o w = Ok 0 w' -> client_run w0 (Some o) w'
| RunNotStarted o w r w' : client_run w0 None w -> lan_play_init o w = Ok r w' -> r <> 0 -> client_run w0 None w'
| RunClosed o w w' : client_run w0 (Some o) w -> lan_play_close o w = Ok 0 w' -> client_run w0 None w'
| RunNotClosed o w r w' : client_run w0 (Some o) w -> lan_play_close o w = Ok r w' -> r <> 0 -> client_run w0 (Some o) w'
| RunInput st i w w' : client_run w0 st w -> handle i w = Ok tt w' -> client_run w0 st w'
| RunQuery st w : client_run w0 st w -> client_run w0 st (tick w)
| RunPrint st text w : client_run w0 st w -> client_run w0 st (emit (EvInfo text) w).

Inductive rpc_event := Message (message : bytes) | Network (i : input).
Definition run_event (e : rpc_event) : M rpc_server unit :=
  match e with
  | Message message => let* _ := onMessage true message in ret tt
  | Network i => on_world (handle i)
  end.

Record lifecycle (w0 : world) (r : rpc_server) : Prop := {
  lc_none : rs_status r = StatusNone -> client_run w0 None (rs_world r);
  lc_running : rs_status r = StatusRunning -> client_run w0 (Some (rs_options r)) (rs_world r);
  lc_options : rs_status r = StatusRunning -> config_options (rs_lastConfig r) (rs_options r) = rs_options r;
}.

(** Only the pending configuration or the last error changes. *)
Lemma lifecycle_config w0 c r : lifecycle w0 r -> lifecycle w0 (set_rs_config c r).
Proof. intros [H1 H2 H3]. by constructor. Qed.
Lemma lifecycle_error w0 t r : lifecycle w0 r -> lifecycle w0 (set_rs_lastError t r).
Proof. intros [H1 H2 H3]. by constructor. Qed.
Lemma lifecycle_world w0 w r :
  lifecycle w0 r -> (forall st, client_run w0 st (rs_world r) -> client_run w0 st w) -> lifecycle w0 (set_rs_world w r).
Proof. intros [H1 H2 H3] Hw. constructor; cbn; intros E; [by apply Hw, H1|by apply Hw, H2|by apply H3]. Qed.

Lemma start_lifecycle w0 r : lifecycle w0 r -> wlp start (fun _ => lifecycle w0) r.
Proof.
  intros Hl. unfold wlp, start, bind, gets, applyConfig, modify, on_world, ret. destruct (rs_status r) eqn:Es.
  - rewrite decide_False by done. cbn [rs_options set_rs_lastConfig set_rs_options rs_world].
    destruct (lan_play_init _ (rs_world r)) as [n w|] eqn:E; [|done].
    destruct Hl as [H1 _ _]. destruct (Z.eqb_spec n 0) as [->|Hn]; constructor; cbn; rewrite ?Es; try done; intros _.
    + eapply RunStarted; [by apply H1|done].
    + eapply RunNotStarted; [by apply H1|done|done].
  - rewrite decide_True by done. by apply lifecycle_error.
Qed.
Lemma stop_lifecycle w0 r : lifecycle w0 r -> wlp lp_stop (fun _ => lifecycle w0) r.
Proof.
  intros Hl. unfold wlp, lp_stop, bind, gets, modify, on_world, ret. destruct (rs_status r) eqn:Es.
  - rewrite decide_True by done. by apply lifecycle_error.
  - rewrite decide_False by done. destruct (lan_play_close (rs_options r) (rs_world r)) as [n w|] eqn:E; [|done].
    destruct Hl as [_ H2 H3]. destruct (Z.eqb_spec n 0) as [->|Hn]; constructor; cbn; rewrite ?Es; try done; intros _.
    + eapply RunClosed; [by apply H2|done].
    + eapply RunNotClosed; [by apply H2|done|done].
    + by apply H3.
Qed.
Lemma reconfigure_lifecycle w0 f r : lifecycle w0 r -> wlp (reconfigure f) (fun _ => lifecycle w0) r.
Proof. intros Hl. apply wlp_bind. cbn. by apply lifecycle_config. Qed.
Lemma interfaces_lifecycle w0 r : lifecycle w0 r -> wlp getNetInterfaces (fun _ => lifecycle w0) r.
Proof.
  intros Hl. apply wlp_bind. cbn. destruct (rpc_findalldevs _) as [t|l]; cbn.
  - apply lifecycle_error. apply (lifecycle_world _ _ (set_rs_world _ r)); [|intros st; apply RunPrint].
    apply lifecycle_world; [done|intros st; apply RunQuery].
  - apply lifecycle_world; [done|intros st; apply RunQuery].
Qed.
Lemma stats_lifecycle w0 r : lifecycle w0 r -> wlp lp_getStats (fun _ => lifecycle w0) r.
Proof.
  intros Hl. apply wlp_bind. cbn. case_decide; cbn; [by apply lifecycle_error|].
  apply lifecycle_world; [done|intros st; apply RunQuery].
Qed.

Lemma reply_lifecycle {A} w0 (m : M rpc_server A) (k : A -> M rpc_server bytes) r :
  wlp m (fun _ => lifecycle w0) r -> (forall a r, lifecycle w0 r -> wlp (k a) (fun _ => lifecycle w0) r) ->
  wlp (bind m k) (fun _ => lifecycle w0) r.
Proof. intros Hm Hk. apply wlp_bind. eapply wlp_mono; [exact Hm|]. intros a r' Hr. by apply Hk. Qed.

Lemma command_lifecycle w0 key value r : lifecycle w0 r -> wlp (on_command key value) (fun _ => lifecycle w0) r.
Proof.
  intros Hl. unfold on_command.
  destruct (streq key "status"); [done|].
  destruct (streq key "listIf"); [apply reply_lifecycle; [by apply interfaces_lifecycle|by intros [n l] r' Hr; destruct (n =? 0)]|].
  destruct (streq key "version"); [done|].
  destruct (streq key "start"); [apply reply_lifecycle; [by apply start_lifecycle|by intros n r' Hr; destruct (n =? 0)]|].
  destruct (streq key "stop"); [apply reply_lifecycle; [by apply stop_lifecycle|by intros n r' Hr; destruct (n =? 0)]|].
  do 2 (destruct (streq key _); [done|]). do 4 (destruct (streq key _); [by apply reconfigure_lifecycle|]).
  destruct (streq key "pmtu"); [by destruct (stoi value); [apply reconfigure_lifecycle|..]|].
  destruct (streq key "stats"); [apply reply_lifecycle; [by apply stats_lifecycle|]|done].
  intros [n [s|]] r' Hr; [by destruct (n =? 0)|done].
Qed.

Lemma run_event_lifecycle w0 e r : lifecycle w0 r -> wlp (run_event e) (fun _ => lifecycle w0) r.
Proof.
  intros Hl. destruct e as [m|i]; cbn [run_event].
  - apply wlp_bind. unfold onMessage. eapply (wlp_mono _ (fun _ => lifecycle w0)); [|done].
    destruct (split_char m 61) as [[k v]|]; by apply command_lifecycle.
  - unfold wlp, on_world. destruct (handle i (rs_world r)) as [[] w|] eqn:E; [|done].
    apply lifecycle_world; [done|]. intros st Hst. by eapply RunInput.
Qed.
End lifecycle.

(** ** Reports *)

(** Reading a line [key=value] without quotes. *)
Definition read_plain (key s : bytes) : option (bytes * bytes) :=
  '(k, s) ← split_char s 61;
  if bool_decide (k = key) then split_char s 10 else None.
Definition read_bool (v : bytes) : option bool :=
  if streq v "true" then Some true else if streq v "false" then Some false else None.
Definition read_int (v : bytes) : option Z :=
  '(n, r) ← scan_int v; if bool_decide (r = []) then Some n else None.
(** Reading a report of the configuration. *)
Definition read_config (prefix s : bytes) : option LanPlayConfig :=
  let header := section prefix in
  if bool_decide (take (length header) s = header) then
    '(v1, s) ← read_kv (cstr "relayServer") (drop (length header) s);
    '(v2, s) ← read_kv (cstr "socks5Server") s;
    '(v3, s) ← read_plain (cstr "pmtu") s;
    n ← read_int v3;
    '(v4, s) ← read_plain (cstr "fakeInternet") s;
    f ← read_bool v4;
    '(v5, s) ← read_plain (cstr "broadcast") s;
    b ← read_bool v5;
    Some {| relayServer := v1; socks5Server := v2; fakeInternet := f; broadcast := b; pmtu := n |}
  else None.

Record reportable (c : LanPlayConfig) : Prop := {
  rp_relay : 92 ∉ relayServer c;
  rp_socks5 : 92 ∉ socks5Server c;
  rp_pmtu : - 2 ^ 31 <= pmtu c < 2 ^ 31;
}.

Lemma read_plain_printed key v rest :
  61 ∉ key -> 10 ∉ v -> read_plain key (key ++ [61] ++ v ++ [10] ++ rest) = Some (v, rest).
Proof.
  intros Hk Hv. unfold read_plain. cbn [app]. rewrite split_char_skip by done. cbn [mbind option_bind].
  rewrite bool_decide_true by done. by apply split_char_skip.
Qed.

(** Decimal digits only. *)
Lemma dec_digits fuel n : 0 <= n -> Forall (fun c => 48 <= c <= 57) (dec fuel n).
Proof.
  revert n. induction fuel as [|fuel IH]; intros n Hn; cbn; [constructor|].
  destruct (Z.ltb_spec n 10); [repeat constructor; lia|]. pose proof (Z.mod_pos_bound n 10).
  apply Forall_app_2; [by apply IH, Z.div_pos|repeat constructor; lia].
Qed.
Lemma to_string_chars n c : c ∈ to_string n -> c = 45 \/ 48 <= c <= 57.
Proof.
  unfold to_string. destruct (Z.ltb_spec n 0); [rewrite elem_of_cons; intros [?|Hc]; [by left|]|intros Hc]; right.
  - pose proof (dec_digits 20 (- n) ltac:(lia)) as Hd. rewrite Forall_forall in Hd. by apply Hd.
  - pose proof (dec_digits 20 n ltac:(lia)) as Hd. rewrite Forall_forall in Hd. by apply Hd.
Qed.

Lemma scan_int_neg fuel n :
  0 <= n < 10 ^ Z.of_nat fuel -> fuel <> O -> scan_int (45 :: dec fuel n) = Some (- n, []).
Proof.
  intros Hn Hf. destruct (dec_head fuel n) as (d & s & Ed & Hd); [lia|done|].
  destruct (scan_digits_dec fuel n 0 [] Hn) as [m Em]. rewrite app_nil_r in Em.
  unfold scan_int. cbn [skip_space]. change (isspace 45) with false. cbn [Z.eqb Pos.eqb]. rewrite Ed in *.
  rewrite isdigit_48 by lia. rewrite Em. cbn. by rewrite Z.mul_0_l, Z.add_0_l.
Qed.
Lemma read_int_printed n : - 2 ^ 31 <= n < 2 ^ 31 -> read_int (to_string n) = Some n.
Proof.
  intros Hn. unfold read_int, to_string. destruct (Z.ltb_spec n 0).
  - rewrite scan_int_neg by (lia || done). cbn. f_equal. lia.
  - rewrite <- (app_nil_r (dec 20 n)). by rewrite scan_int_dec by (lia || done || by intros c s').
Qed.
Lemma read_bool_printed (b : bool) : read_bool (if b then cstr "true" else cstr "false") = Some b.
Proof. by destruct b. Qed.
Lemma kv_bool_plain key (b : bool) rest :
  kv_bool key b ++ rest = key ++ [61] ++ (if b then cstr "true" else cstr "false") ++ [10] ++ rest.
Proof. unfold kv_bool. destruct b; by rewrite <- !app_assoc. Qed.

Lemma read_config_printed prefix c : reportable c -> read_config prefix (getConfig prefix c) = Some c.
Proof.
  intros [H1 H2 H3]. unfold read_config, getConfig. rewrite take_app_length, drop_app_length, bool_decide_true by done.
  rewrite read_kv_printed by (done || literal_free). cbn [mbind option_bind].
  rewrite read_kv_printed by (done || literal_free). cbn [mbind option_bind].
  unfold kv_int. rewrite <- !app_assoc. rewrite read_plain_printed; [|literal_free|intros [?|?]%to_string_chars; lia].
  cbn [mbind option_bind]. rewrite read_int_printed by done. cbn [mbind option_bind].
  rewrite kv_bool_plain. rewrite read_plain_printed; [|literal_free|destruct (fakeInternet c); literal_free].
  cbn [mbind option_bind]. rewrite read_bool_printed. cbn [mbind option_bind].
  rewrite <- (app_nil_r (kv_bool _ (broadcast c))), kv_bool_plain.
  rewrite read_plain_printed; [|literal_free|destruct (broadcast c); literal_free].
  cbn [mbind option_bind]. rewrite read_bool_printed. by destruct c.
Qed.

(** The settings a user can send, and their effect. *)
Inductive setting :=
| RelayServer (v : bytes)
| Socks5Server (v : bytes)
| FakeInternet (b : bool)
| Broadcast (b : bool)
| Pmtu (n : Z).
Definition bool_text (b : bool) : bytes := if b then cstr "true" else cstr "false".
Definition setting_message (s : setting) : bytes :=
  match s with
  | RelayServer v => cstr "relayServer=" ++ v
  | Socks5Server v => cstr "socks5Server=" ++ v
  | FakeInternet b => cstr "fakeInternet=" ++ bool_text b
  | Broadcast b => cstr "broadcast=" ++ bool_text b
  | Pmtu n => cstr "pmtu=" ++ to_string n
  end.
Definition apply_setting (s : setting) (c : LanPlayConfig) : LanPlayConfig :=
  match s with
  | RelayServer v => set_relayServer v c
  | Socks5Server v => set_socks5Server v c
  | FakeInternet b => set_fakeInternet b c
  | Broadcast b => set_broadcast b c
  | Pmtu n => set_pmtu n c
  end.
Definition setting_ok (s : setting) : Prop :=
  match s with
  | RelayServer v | Socks5Server v => 92 ∉ v
  | Pmtu n => - 2 ^ 31 <= n < 2 ^ 31
  | _ => True
  end.

Lemma apply_reportable s c : setting_ok s -> reportable c -> reportable (apply_setting s c).
Proof. intros Hs [H1 H2 H3]. by destruct s. Qed.

(** A printed number is read in base 10. *)
Lemma digit_value_decimal c : digit_value c <? 10 = isdigit c.
Proof.
  unfold digit_value. destruct (isdigit c) eqn:E.
  - unfold isdigit in E. apply andb_true_iff in E as [? ?]. lia.
  - repeat case_match; lia.
Qed.
Lemma scan_base_digits acc s : scan_base 10 acc s = (scan_digits acc s).1.
Proof.
  revert acc. induction s as [|c s IH]; intros acc; [done|]. cbn [scan_base scan_digits]. rewrite digit_value_decimal.
  destruct (isdigit c) eqn:E; [|done]. rewrite IH. unfold digit_value. by rewrite E.
Qed.
Lemma dec_head_pos fuel n : 0 < n < 10 ^ Z.of_nat fuel -> exists d s, dec fuel n = (48 + d) :: s /\ 1 <= d < 10.
Proof.
  revert n. induction fuel as [|fuel IH]; intros n Hn; [change (10 ^ Z.of_nat 0) with 1 in Hn; lia|]. cbn [dec].
  destruct (Z.ltb_spec n 10); [by exists n, []; split; [|lia]|].
  rewrite Nat2Z.inj_succ, Z.pow_succ_r in Hn by lia.
  destruct (IH (n / 10)) as (d & s & -> & Hd); [|by exists d, (s ++ [48 + n mod 10])].
  split; [apply Z.div_str_pos; lia|apply Z.div_lt_upper_bound; lia].
Qed.
Lemma scan_number_dec n : 0 <= n < 2 ^ 32 -> scan_number (dec 20 n) = Some n.
Proof.
  intros Hn. destruct (decide (n = 0)) as [->|Hz]; [done|].
  destruct (dec_head_pos 20 n) as (d & s & Ed & Hd); [lia|].
  destruct (scan_digits_dec 20 n 0 []) as [m Em]; [lia|]. rewrite app_nil_r in Em.
  unfold scan_number. rewrite Ed in *. rewrite (proj2 (Z.eqb_neq _ 48)) by lia. rewrite digit_value_decimal, isdigit_48 by lia.
  rewrite scan_base_digits, Em. cbn. by rewrite Z.mul_0_l.
Qed.

Lemma stoi_to_string n : - 2 ^ 31 <= n < 2 ^ 31 -> stoi (to_string n) = StoiValue n.
Proof.
  intros Hn. unfold stoi, to_string. destruct (Z.ltb_spec n 0).
  - rewrite cstring_whole by (constructor; [done|apply dec_cstr; lia]). cbn [skip_space]. change (isspace 45) with false. cbn [Z.eqb Pos.eqb].
    rewrite scan_number_dec by lia. rewrite Z.opp_involutive, (proj2 (Z.leb_le _ _)), (proj2 (Z.ltb_lt _ _)) by lia. done.
  - rewrite cstring_whole by (apply dec_cstr; lia). destruct (dec_head 20 n) as (d & s & Ed & Hd); [lia|done|].
    pose proof (scan_number_dec n ltac:(lia)) as En. rewrite Ed in *. cbn [skip_space].
    assert (isspace (48 + d) = false) as ->.
    { unfold isspace. rewrite (proj2 (Z.eqb_neq _ 32)), (proj2 (Z.leb_gt _ 13)) by lia. by rewrite andb_false_r. }
    rewrite (proj2 (Z.eqb_neq _ 45)), (proj2 (Z.eqb_neq _ 43)) by lia. cbv iota. rewrite En.
    rewrite (proj2 (Z.leb_le _ _)), (proj2 (Z.ltb_lt _ _)) by lia. done.
Qed.

Section settings.
Context `{Env} `{RpcSys}.

Lemma message_split key value : 61 ∉ key -> onMessage true (key ++ 61 :: value) = on_command key value.
Proof. intros Hk. unfold onMessage. by rewrite split_char_skip. Qed.

Lemma streq_bool b : streq (bool_text b) "true" = b.
Proof. by destruct b. Qed.

Lemma setting_run s r :
  setting_ok s ->
  onMessage true (setting_message s) r = reconfigure (apply_setting s) r.
Proof.
  intros Hs. destruct s as [v|v|b|b|n]; cbn [setting_message apply_setting setting_ok] in *.
  - change (cstr "relayServer=" ++ v) with (cstr "relayServer" ++ 61 :: v). by rewrite message_split by literal_free.
  - change (cstr "socks5Server=" ++ v) with (cstr "socks5Server" ++ 61 :: v). by rewrite message_split by literal_free.
  - change (cstr "fakeInternet=" ++ bool_text b) with (cstr "fakeInternet" ++ 61 :: bool_text b). rewrite message_split by literal_free.
    transitivity (reconfigure (set_fakeInternet (streq (bool_text b) "true")) r); [done|]. by rewrite streq_bool.
  - change (cstr "broadcast=" ++ bool_text b) with (cstr "broadcast" ++ 61 :: bool_text b). rewrite message_split by literal_free.
    transitivity (reconfigure (set_broadcast (streq (bool_text b) "true")) r); [done|]. by rewrite streq_bool.
  - change (cstr "pmtu=" ++ to_string n) with (cstr "pmtu" ++ 61 :: to_string n). rewrite message_split by literal_free.
    transitivity (match stoi (to_string n) with StoiValue n => reconfigure (set_pmtu n) | InvalidArgument => ret (error stoi_what) | OutOfRange => halt AssertFail end r);
      [done|]. by rewrite stoi_to_string.
Qed.
End settings.

(** ** Results *)

Section results.
Context `{Env} `{RpcSys}.

(** C31: Without the token nothing happens.  For every order in which connections are opened
    and deliver their data, in whatever pieces, as long as none of them has sent the token as
    a line, the server returns with the client, its options and its configuration
    untouched, no connection is authorised, and every answer is the refusal.  This is the
    TCP front end; [RpcWs] has the other one. *)
Theorem auth_required token evs r :
  (forall i, token ∉ lines_received i evs) ->
  exists conns, serve token evs ([], r) = Ok tt (conns, r) /\
    Forall (fun c => rc_authed c = false /\ Forall (eq refusal) (rc_sent c)) conns.
Proof. intros Ht. apply (serve_strangers token evs [] []); [constructor|]. intros i. apply Ht. Qed.

(** A session.  However its data is cut into pieces, a connection whose lines are
    [pre], the token and [cmds] gets a refusal for each of [pre], one for the token, and then
    each of [cmds] is executed and answered, in order; what follows the last line waits
    in the buffer. *)
Theorem tcp_session token chunks pre cmds rest r :
  chomp <$> (lines_of (concat chunks)).1 = pre ++ token :: cmds -> (lines_of (concat chunks)).2 = rest -> token ∉ pre ->
  for_each chunks (tcp_onData token) (newTCPConnection, r) =
    (for_each cmds command ;;; upd_conn (set_rc_buffer rest))
      ({| rc_authed := true; rc_buffer := [];
          rc_sent := replicate (length pre) refusal ++ [AUTHORIZED ++ END_MARK] |}, r).
Proof.
  intros Hl <- Hp. rewrite onData_all by done. cbn [rc_buffer newTCPConnection]. unfold bind at 1.
  rewrite feed_all_run by done. cbn [app]. rewrite Hl. unfold bind at 1. rewrite for_each_app. unfold bind at 1.
  rewrite (tcp_lines_refused token pre newTCPConnection r eq_refl Hp). cbn [for_each]. unfold bind at 1.
  unfold tcp_line at 1, bind at 1 2, gets. cbn [fst rc_authed set_rc_sent newTCPConnection].
  rewrite bool_decide_true by done. unfold bind at 1, upd_conn at 1, modify, ret at 1.
  rewrite sendStr_run by apply end_mark_app. cbn [fst snd]. rewrite commands_run by done. unfold bind at 1. cbn [rc_sent app set_rc_authed].
  by destruct (for_each cmds command _).
Qed.

(** C32: The life of the client.  After any sequence of messages, packets and timers, the
    client has been started only when it was not running and closed only with the options
    it was started with; it runs exactly when the status says so, with the options that
    the configuration reported as the last one gives. *)
Theorem client_lifecycle evs r0 r :
  rs_status r0 = StatusNone -> for_each evs run_event r0 = Ok tt r ->
  match rs_status r with
  | StatusNone => client_run (rs_world r0) None (rs_world r)
  | StatusRunning => client_run (rs_world r0) (Some (rs_options r)) (rs_world r) /\
                     config_options (rs_lastConfig r) (rs_options r) = rs_options r
  end.
Proof.
  intros Hs E. assert (Hl : lifecycle (rs_world r0) r).
  { assert (Hl0 : lifecycle (rs_world r0) r0) by (constructor; rewrite Hs; [intros _; constructor|done..]).
    clear Hs. revert Hl0 E. generalize (rs_world r0) as w0. intros w0. revert r0.
    induction evs as [|e evs IH]; intros r0 Hl0; cbn; [by intros [= <-]|].
    intros (? & r1 & E1 & E2)%bind_ok_inv. eapply IH; [|exact E2].
    by eapply (wlp_ok _ (fun _ => lifecycle w0)); [apply run_event_lifecycle|]. }
  destruct Hl as [H1 H2 H3]. destruct (rs_status r); auto.
Qed.

(** Every setting is stored as it was given, the answer reports the whole configuration,
    and reading the answer gives it back, as long as no value holds a backslash. *)
Theorem setting_reported s r :
  setting_ok s -> reportable (rs_config r) ->
  let c := apply_setting s (rs_config r) in
  exists text, onMessage true (setting_message s) r = Ok text (set_rs_config c r) /\
    read_config (cstr "config") text = Some c /\ reportable c.
Proof.
  intros Hs Hr c. rewrite setting_run by done. exists (getConfig (cstr "config") c).
  pose proof (apply_reportable s _ Hs Hr). split; [done|]. split; [by apply read_config_printed|done].
Qed.
End results.

(** ** Concrete runs *)

Definition demo_rpc_sys : RpcSys :=
  {| rpc_findalldevs := fun _ => inr [{| if_name := cstr "eth0"; if_description := None; if_addresses := [Some [10; 0; 0; 2]; None] |}];
     rpc_clock := fun _ => 1700000000000; rpc_version := cstr "0.2.3"; stoi_what := cstr "stoi" |}.
#[local] Existing Instance demo_env.
#[local] Existing Instance demo_rpc_sys.

Definition demo_server : rpc_server :=
  {| rs_world := boot_world; rs_options := no_options; rs_config := newConfig; rs_lastConfig := newConfig;
     rs_status := StatusNone; rs_lastError := [] |}.
Definition crlf : bytes := [13; 10].
(** Two connections; the second one's line comes in two pieces. *)
Definition demo_events : list server_event :=
  [Accept; Data 0 (cstr "start" ++ crlf); Accept; Data 1 (cstr "sta"); Data 0 (cstr "secre"); Data 1 (cstr "tus" ++ crlf)].

Lemma auth_required_witness :
  (exists conns, serve (cstr "secret") demo_events ([], demo_server) = Ok tt (conns, demo_server) /\
     Forall (fun c => rc_authed c = false /\ Forall (eq refusal) (rc_sent c)) conns) /\
  lines_received 1 demo_events = [cstr "status"].
Proof.
  split; [|vm_compute; reflexivity]. apply (auth_required (cstr "secret") demo_events demo_server).
  assert (Hl : forall i, lines_received (S (S i)) demo_events = []).
  { intros i. unfold lines_received, demo_events. cbn [stream]. by rewrite !decide_False by lia. }
  intros [|[|i]]; [| |rewrite Hl; apply not_elem_of_nil];
    intros Hin; vm_compute in Hin; repeat (apply elem_of_cons in Hin as [Hin|Hin]; [discriminate|]); by apply not_elem_of_nil in Hin.
Defined.

Definition demo_chunks : list bytes :=
  [cstr "hello" ++ crlf ++ cstr "sec"; cstr "ret" ++ crlf ++ cstr "relayServer=r.net:11"; cstr "451" ++ crlf ++ cstr "start" ++ crlf ++ cstr "sta"].
Definition demo_commands : list bytes := [cstr "relayServer=r.net:11451"; cstr "start"].

Lemma tcp_session_witness :
  for_each demo_chunks (tcp_onData (cstr "secret")) (newTCPConnection, demo_server) =
    (for_each demo_commands command ;;; upd_conn (set_rc_buffer (cstr "sta")))
      ({| rc_authed := true; rc_buffer := [];
          rc_sent := replicate 1 refusal ++ [AUTHORIZED ++ END_MARK] |}, demo_server).
Proof.
  apply (tcp_session (cstr "secret") demo_chunks [cstr "hello"] demo_commands (cstr "sta") demo_server);
    [vm_compute; reflexivity|vm_compute; reflexivity|].
  intros Hin. apply elem_of_cons in Hin as [Hin|Hin]; [vm_compute in Hin; discriminate|by apply not_elem_of_nil in Hin].
Defined.

Definition demo_messages : list rpc_event :=
  [Message (cstr "pmtu=1400"); Message (cstr "start"); Message (cstr "start"); Network KeepaliveTick; Message (cstr "stop")].
Lemma demo_messages_run :
  exists r, for_each demo_messages run_event demo_server = Ok tt r /\ rs_status r = StatusNone /\ rs_lastError r = cstr "Already running".
Proof.
  assert (E : match for_each demo_messages run_event demo_server with
              | Ok _ r => bool_decide (rs_status r = StatusNone) && bool_decide (rs_lastError r = cstr "Already running")
              | Stop _ => false end = true) by (vm_compute; reflexivity).
  revert E. destruct (for_each demo_messages run_event demo_server) as [[] r|]; [|done].
  intros [E1%bool_decide_eq_true E2%bool_decide_eq_true]%andb_true_iff. by exists r.
Qed.
Lemma client_lifecycle_witness :
  exists r, for_each demo_messages run_event demo_server = Ok tt r /\ client_run boot_world None (rs_world r).
Proof.
  destruct demo_messages_run as (r & E & Hs & _). exists r. split; [exact E|].
  pose proof (client_lifecycle demo_messages demo_server r eq_refl E) as Hr. rewrite Hs in Hr. exact Hr.
Defined.

Lemma setting_reported_witness :
  exists text, onMessage true (cstr "relayServer=a" ++ [34; 98]) demo_server = Ok text (set_rs_config (set_relayServer [97; 34; 98] newConfig) demo_server) /\
    read_config (cstr "config") text = Some (set_relayServer [97; 34; 98] newConfig) /\ reportable (set_relayServer [97; 34; 98] newConfig).
Proof.
  apply (setting_reported (RelayServer [97; 34; 98]) demo_server); [cbn; literal_free|].
  constructor; cbn; [by intros ?%not_elem_of_nil|by intros ?%not_elem_of_nil|lia].
Defined.

(** A number that does not fit in an [int] ends the program. *)
Example pmtu_abort : onMessage true (cstr "pmtu=99999999999") demo_server = Stop AssertFail.
Proof. vm_compute. done. Qed.
(** A start that fails after the capture was opened leaves it open, and [stop] refuses. *)
Example failed_start_open :
  match for_each [Message (cstr "socks5Server=nowhere:x"); Message (cstr "start"); Message (cstr "stop")] run_event demo_server with
  | Ok _ r => rs_status r = StatusNone /\ rs_lastError r = cstr "Already stopped" /\
              EvCall (UvPcapInit None) ∈ w_out (rs_world r) /\ EvCall UvPcapClose ∉ w_out (rs_world r)
  | Stop _ => False
  end.
Proof.
  vm_compute. split_and!; [done|done|by repeat constructor|].
  intros Hin. repeat (apply elem_of_cons in Hin as [Hin|Hin]; [discriminate|]). by apply not_elem_of_nil in Hin.
Qed.
