(* ===== verification/Proxy.v ===== *)
(** The UDP side of the gateway: [src/proxy_common.hpp], [src/proxy_direct.cpp] and the
    packet half of [src/gateway.cpp].

    A packet that leaves the virtual network enters at [gateway_on_packet].  A UDP
    datagram goes to the proxy, which keeps one socket per source address and port
    and forgets it thirty seconds after its last use; everything else goes to lwIP.
    A datagram that comes back on a socket is sent to the console that owns it.

    The table is the template [ProxyBase] of the source: it is written once, for any
    implementation of [UdpItem], the interface of its objects; [DirectProxyUdp] is one
    instance, the SOCKS5 client another ([Socks5]).  An object lives as long as its
    table entry, so the entry stands for the shared pointer.

    Shown here: the gateway reads within the packet on every input, and hands exactly
    the complete UDP datagrams to the proxy and everything else to lwIP; the table is
    a network address translation: a reply reaches the address and port that opened
    the socket, or is dropped, in the cases that are named; no two sources share one, and collection removes exactly what has
    expired. *)

From stdpp Require Import gmap.
From S2P Require Import Prelude Byteorder Structs Checksum Packet Arp Ipv4 LanClient Dispatch.

Definition PROXY_UDP_TABLE_TTL : Z := 30.

(** ** The code *)

(** [UdpCacheKey]: two keys are equal when both fields are. *)
Definition UdpCacheKey : Type := bytes * Z.

(** What leaves the process through the proxy; a socket is known by its number. *)
Inductive proxy_event :=
| PxOpen (socket : nat)                         (* loop->resource, recv *)
| PxSend (socket : nat) (addr : bytes) (port : Z) (data : bytes)
| PxClose (socket : nat)
| PxTcp (socket : nat) (data : bytes)           (* a write on a control connection *)
| PxTcpConnect (socket : nat)
| PxTcpClose (socket : nat)
| PxInput (data : bytes).                       (* uvlwip->input *)

(** The proxy and the client around it. *)
Record proxy (U : Type) := {
  px_table : gmap UdpCacheKey U;                (* cacheTable *)
  px_next : nat;                                (* the next socket *)
  px_out : list proxy_event;
  px_world : world;
}.
Arguments px_table {U} p.
Arguments px_next {U} p.
Arguments px_out {U} p.
Arguments px_world {U} p.

Definition set_px_table {U} (v : gmap UdpCacheKey U) (p : proxy U) : proxy U :=
  {| px_table := v; px_next := px_next p; px_out := px_out p; px_world := px_world p |}.
Definition set_px_next {U} (v : nat) (p : proxy U) : proxy U :=
  {| px_table := px_table p; px_next := v; px_out := px_out p; px_world := px_world p |}.
Definition set_px_out {U} (v : list proxy_event) (p : proxy U) : proxy U :=
  {| px_table := px_table p; px_next := px_next p; px_out := v; px_world := px_world p |}.
Definition set_px_world {U} (v : world) (p : proxy U) : proxy U :=
  {| px_table := px_table p; px_next := px_next p; px_out := px_out p; px_world := v |}.

Definition px_emit {U} (e : proxy_event) : M (proxy U) unit :=
  modify (fun p => set_px_out (px_out p ++ [e]) p).
(** A step of the client. *)
Definition on_world {U A} (m : M world A) : M (proxy U) A :=
  fun p => match m (px_world p) with
           | Ok a w => Ok a (set_px_world w p)
           | Stop e => Stop e
           end.
Definition new_socket {U} : M (proxy U) nat :=
  fun p => Ok (px_next p) (set_px_next (S (px_next p)) p).

(** The interface the template asks of its objects. *)
Class UdpItem (U : Type) := {
  item_init : bytes -> Z -> bytes -> Z -> M (proxy U) U;            (* newUdp, init *)
  item_expire_at : U -> Z;
  item_send : U -> bytes -> Z -> bytes -> M (proxy U) U;             (* send *)
  item_close : U -> M (proxy U) unit;                                (* the destructor *)
  item_event : Type;                                                 (* what its handles report *)
  item_on : item_event -> U -> M (proxy U) U;                        (* its callbacks *)
}.

Section base.
Context `{Env} `{UdpItem U}.

Definition isExpire (item : U) : M (proxy U) bool :=
  let* now := on_world time_now in
  ret (item_expire_at item <? now).

(** [cacheTable[key] = item]: the object it replaces is destroyed. *)
Definition table_set (key : UdpCacheKey) (item : U) : M (proxy U) unit :=
  modify (fun p => set_px_table (<[key := item]> (px_table p)) p).

Definition getUdp (src : bytes) (srcport : Z) (dst : bytes) (dstport : Z) : M (proxy U) U :=
  let key : UdpCacheKey := (take 4 src, srcport) in
  let* search := gets (fun p => px_table p !! key) in
  match search with
  | Some item =>
      let* expired := isExpire item in
      if expired : bool then
        let* fresh := item_init src srcport dst dstport in
        table_set key fresh ;;;
        item_close item ;;;
        ret fresh
      else
        table_set key item ;;;
        ret item
  | None =>
      let* fresh := item_init src srcport dst dstport in
      table_set key fresh ;;;
      ret fresh
  end.

(** Sending may change the object in the table. *)
Definition udpSend (src : bytes) (srcport : Z) (dst : bytes) (dstport : Z) (data : bytes)
    : M (proxy U) unit :=
  let* item := getUdp src srcport dst dstport in
  let* item := item_send item dst dstport data in
  table_set (take 4 src, srcport) item.

(** A handle of the object at [key] calls back; a destroyed object's handles are closed. *)
Definition on_item (key : UdpCacheKey) (ev : item_event) : M (proxy U) unit :=
  let* search := gets (fun p => px_table p !! key) in
  match search with
  | None => ret tt
  | Some item =>
      let* item := item_on ev item in
      table_set key item
  end.

(** The timer's loop over the table, in the order of [keys]. *)
Fixpoint gc_loop (keys : list UdpCacheKey) : M (proxy U) unit :=
  match keys with
  | [] => ret tt
  | key :: keys =>
      let* item := gets (fun p => px_table p !! key) in
      (match item with
       | Some item =>
           let* expired := isExpire item in
           if expired : bool then
             modify (fun p => set_px_table (delete key (px_table p)) p) ;;;
             item_close item
           else ret tt
       | None => ret tt
       end) ;;;
      gc_loop keys
  end.

Definition gc_timer : M (proxy U) unit :=
  let* keys := gets (fun p => (map_to_list (px_table p)).*1) in
  gc_loop keys.

(** *** gateway.cpp *)

Definition processUdp (data : bytes) (data_len : Z) : M (proxy U) Z :=
  let* ip_version := if 0 <? data_len
                     then let* b := mem (READ_NET8 data 0) in ret (Z.shiftr b 4)
                     else ret 0 in
  if ip_version =? 4 then
    let* udp := if data_len <? IPV4_OFF_END then ret false
                else let* b := mem (READ_NET8 data IPV4_OFF_PROTOCOL) in ret (b =? IPV4_PROTOCOL_UDP) in
    if negb udp then ret (-1)
    else
      let* b := mem (READ_NET8 data 0) in
      let ipv4_header_len := u16 (Z.land b 0xF * 4) in
      if (ipv4_header_len <? IPV4_OFF_END) || (data_len <? ipv4_header_len) then ret (-1)
      else if data_len <? ipv4_header_len + UDP_OFF_END then ret (-1)
      else
        let* udp_base := mem (mem_from data ipv4_header_len) in
        let* udp_len := mem (READ_NET16 udp_base UDP_OFF_LENGTH) in
        if udp_len <? UDP_OFF_END then ret (-1)
        else if data_len - ipv4_header_len <? udp_len then ret (-1)
        else
          let* src := mem (mem_get data IPV4_OFF_SRC 4) in
          let* dst := mem (mem_get data IPV4_OFF_DST 4) in
          let* srcport := mem (READ_NET16 udp_base UDP_OFF_SRCPORT) in
          let* dstport := mem (READ_NET16 udp_base UDP_OFF_DSTPORT) in
          let len := u16 (udp_len - UDP_OFF_END) in
          let* payload := mem (mem_get udp_base UDP_OFF_END len) in
          udpSend src srcport dst dstport payload ;;;
          ret 0
  else ret (-1).

Definition onPacket (data : bytes) (data_len : Z) : M (proxy U) unit :=
  let* r := processUdp data data_len in
  if r =? 0 then ret tt
  else
    let* b := mem (mem_get data 0 data_len) in
    px_emit (PxInput b).

Definition gateway_on_packet (data : bytes) (data_len : Z) : M (proxy U) unit :=
  if data_len <=? ETHER_OFF_END then ret tt
  else
    let* data := mem (mem_from data ETHER_OFF_END) in
    onPacket data (data_len - ETHER_OFF_END).
End base.

(** *** proxy_direct.cpp *)

(** [uvw::UDPDataEvent]: the sender and what it sent. *)
Record UDPDataEvent := { ud_ip : bytes; ud_port : Z; ud_data : bytes }.

Record DirectProxyUdp := {
  du_udp : nat;
  du_expire_at : Z;
  du_src : bytes;
  du_srcport : Z;
}.

Section direct.
Context `{Env}.

Definition visit (item : DirectProxyUdp) : M (proxy DirectProxyUdp) DirectProxyUdp :=
  let* now := on_world time_now in
  ret {| du_udp := du_udp item; du_expire_at := now + PROXY_UDP_TABLE_TTL; du_src := du_src item;
         du_srcport := du_srcport item |}.

(** The constructor and [init]; [expire_at] has no value before [visit]. *)
Definition direct_init (src : bytes) (srcport : Z) (dst : bytes) (dstport : Z)
    : M (proxy DirectProxyUdp) DirectProxyUdp :=
  let* socket := new_socket in
  px_emit (PxOpen socket) ;;;
  visit {| du_udp := socket; du_expire_at := 0; du_src := take 4 src; du_srcport := srcport |}.

Definition direct_send (item : DirectProxyUdp) (addr : bytes) (port : Z) (data : bytes)
    : M (proxy DirectProxyUdp) DirectProxyUdp :=
  px_emit (PxSend (du_udp item) addr port data) ;;;
  visit item.

Definition direct_close (item : DirectProxyUdp) : M (proxy DirectProxyUdp) unit :=
  px_emit (PxClose (du_udp item)).

(** The handler of [UDPDataEvent]; [ud_ip] and [ud_port]: the sender.  The length is cut to
    16 bits. *)
Definition direct_on_data (e : UDPDataEvent) (item : DirectProxyUdp)
    : M (proxy DirectProxyUdp) DirectProxyUdp :=
  let* _ := on_world (send_udp_ex (ud_ip e) (ud_port e) (du_src item) (du_srcport item)
                        [{| p_ptr := ud_data e; p_len := u16 (zlen (ud_data e)) |}]) in
  visit item.

#[export] Instance direct_item : UdpItem DirectProxyUdp :=
  {| item_init := direct_init; item_expire_at := du_expire_at; item_send := direct_send;
     item_close := direct_close; item_event := UDPDataEvent; item_on := direct_on_data |}.
End direct.

(** ** What the gateway takes

    The hand-written parsing of [processUdp] against the parsers of the packet layer. *)

Section gateway.
Context `{Env} `{UdpItem U}.

(** The UDP datagram a frame carries in full. *)
Definition gateway_udp (frame : bytes) : option udp :=
  e ← parse_ether frame (zlen frame);
  ip ← parse_ipv4 e;
  if (ip_version ip =? 4) && (ip_protocol ip =? IPV4_PROTOCOL_UDP) && (20 <=? ip_header_len ip) then
    u ← parse_udp ip;
    if (8 <=? udp_length u) && (udp_length u <=? zlen (ip_payload ip)) then Some u else None
  else None.

(** To the proxy under its source, or to lwIP as it is, without the Ethernet header. *)
Definition gateway_route (frame : bytes) : M (proxy U) unit :=
  match gateway_udp frame with
  | Some u => udpSend (ip_src (udp_ipv4 u)) (udp_srcport u) (ip_dst (udp_ipv4 u)) (udp_dstport u)
                (take (Z.to_nat (udp_length u - 8)) (udp_payload u))
  | None => px_emit (PxInput (drop 14 frame))
  end.

Lemma processUdp_run e p :
  is_bytes (ef_payload e) ->
  processUdp (ef_payload e) (zlen (ef_payload e)) p =
    match
      ip ← parse_ipv4 e;
      if (ip_version ip =? 4) && (ip_protocol ip =? IPV4_PROTOCOL_UDP) && (20 <=? ip_header_len ip) then
        u ← parse_udp ip;
        if (8 <=? udp_length u) && (udp_length u <=? zlen (ip_payload ip)) then Some u else None
      else None
    with
    | Some u =>
        (udpSend (ip_src (udp_ipv4 u)) (udp_srcport u) (ip_dst (udp_ipv4 u)) (udp_dstport u)
           (take (Z.to_nat (udp_length u - 8)) (udp_payload u)) ;;; ret 0) p
    | None => Ok (-1) p
    end.
Proof.
  intros Hb. unfold processUdp. change IPV4_OFF_END with 20. change UDP_OFF_END with 8.
  destruct (Z.ltb_spec (zlen (ef_payload e)) 20) as [Hs|Hl].
  { rewrite parse_ipv4_short by done. cbn [mbind option_bind].
    destruct (Z.ltb_spec 0 (zlen (ef_payload e))); [|done].
    destruct (READ_NET8_total (ef_payload e) 0) as (b & -> & _); [done|lia..|].
    rewrite (bind_ok _ _ _ (Z.shiftr b 4) p) by done. by destruct (_ =? 4). }
  destruct (parse_ipv4_fields e Hb) as (b & prot & ip & Ep & E0 & E9 & Es & Ed & Bb & Ev & Eh & Epr & Epl & Hip);
    [done|]. rewrite Ep. cbn [mbind option_bind]. rewrite Ev, Epr, Eh.
  destruct (Z.ltb_spec 0 (zlen (ef_payload e))); [|lia]. change IPV4_OFF_PROTOCOL with 9.
  rewrite E0, E9. rewrite (bind_ok _ _ _ (Z.shiftr b 4) p) by done.
  destruct (Z.shiftr b 4 =? 4); [|done]. rewrite (bind_ok _ _ _ (prot =? 17) p) by done.
  change IPV4_PROTOCOL_UDP with 17. destruct (prot =? 17); [|done]. cbn [negb andb].
  rewrite (bind_ok _ _ _ b p) by done. pose proof (land_nibble b Bb).
  rewrite (u16_id (Z.land b 15 * 4)) by (unfold is_u16; lia). set (hl := Z.land b 15 * 4) in *.
  replace ((hl <? 20) || (zlen (ef_payload e) <? hl)) with
    (negb ((20 <=? hl) && (hl <=? zlen (ef_payload e)))) by lia.
  destruct (Z.leb_spec 20 hl); [|done]. cbn [andb].
  assert (Lp : hl <= zlen (ef_payload e) -> zlen (ip_payload ip) = zlen (ef_payload e) - hl)
    by (intros; rewrite Epl; apply zlen_drop; lia).
  destruct (Z.ltb_spec (zlen (ef_payload e)) (hl + 8)) as [Hu|Hu].
  { rewrite parse_udp_short; [by destruct (negb _)|]. rewrite Epl. unfold zlen in *. rewrite length_drop. lia. }
  destruct (Z.leb_spec hl (zlen (ef_payload e))); [|lia]. cbn [negb]. specialize (Lp ltac:(lia)).
  destruct (parse_udp_fields ip) as (u & Eu & R0 & R2 & R4 & Ei & Eup & Bd);
    [rewrite Epl; by apply Forall_drop|lia|]. rewrite Eu. cbn [mbind option_bind].
  rewrite mem_from_Some, <- Epl by lia. rewrite (bind_ok _ _ _ (ip_payload ip) p) by done.
  change UDP_OFF_LENGTH with 4. change UDP_OFF_SRCPORT with 0. change UDP_OFF_DSTPORT with 2.
  change IPV4_OFF_SRC with 12. change IPV4_OFF_DST with 16. rewrite R0, R2, R4, Es, Ed.
  rewrite (bind_ok _ _ _ (udp_length u) p) by done. rewrite <- Lp.
  destruct (Z.ltb_spec (udp_length u) 8), (Z.leb_spec 8 (udp_length u)); try (done || lia).
  destruct (Z.ltb_spec (zlen (ip_payload ip)) (udp_length u)), (Z.leb_spec (udp_length u) (zlen (ip_payload ip)));
    try (done || lia). cbn [andb]. rewrite Ei.
  do 4 (rewrite (bind_ok _ _ _ _ p) by done).
  destruct (READ_NET16_total (ip_payload ip) 4) as (n & En & Hn);
    [rewrite Epl; by apply Forall_drop|lia..|]. assert (n = udp_length u) as -> by congruence.
  rewrite u16_id by (unfold is_u16 in *; lia).
  rewrite mem_get_Some by lia. rewrite (bind_ok _ _ _ _ p) by done. rewrite Eup. done.
Qed.

Lemma gateway_run frame p :
  is_bytes frame ->
  gateway_on_packet frame (zlen frame) p =
    if zlen frame <=? 14 then Ok tt p else gateway_route frame p.
Proof.
  intros Hb. unfold gateway_on_packet. change ETHER_OFF_END with 14.
  destruct (Z.leb_spec (zlen frame) 14); [done|]. unfold gateway_route, gateway_udp, parse_ether.
  destruct (mem_get_total frame ETHER_OFF_DST 6) as (d & -> & _); [done|consts; lia..|].
  destruct (mem_get_total frame ETHER_OFF_SRC 6) as (s & -> & _); [done|consts; lia..|].
  destruct (READ_NET16_total frame ETHER_OFF_TYPE) as (ty & -> & _); [done|consts; lia..|].
  change ETHER_OFF_END with 14. rewrite !mem_from_Some by lia. cbn [mbind option_bind].
  set (e := {| ef_raw := frame |}). rewrite (bind_ok _ _ _ (ef_payload e) p) by done.
  replace (zlen frame - 14) with (zlen (ef_payload e)) by (subst e; simpl; rewrite zlen_drop; lia).
  unfold onPacket. unfold bind at 1. rewrite processUdp_run by (by apply Forall_drop).
  change (drop 14 frame) with (ef_payload e).
  match goal with |- context [match ?o with Some _ => _ | None => Ok (-1) p end] => destruct o as [u|] end.
  - unfold bind at 1. by destruct (udpSend _ _ _ _ _ p) as [[] ?|].
  - cbn [Z.eqb]. pose proof (zlen_nonneg (ef_payload e)). rewrite mem_get_Some by lia.
    rewrite (bind_ok _ _ _ (ef_payload e) p); [done|]. cbn [mem]. unfold ret. f_equal.
    rewrite drop_0, to_nat_zlen. by apply firstn_all.
Qed.
End gateway.

(** ** The translation table

    What the table needs of its objects: an object belongs to one source and one
    socket for its whole life, and its operations leave the table to the proxy. *)

Class UdpLaws (U : Type) `{Env} `{!UdpItem U} := {
  item_key : U -> UdpCacheKey;
  item_sock : U -> nat;
  item_closes : U -> list proxy_event;
  law_init src sp dst dp p :
    post (item_init src sp dst dp) (fun it p' =>
      item_key it = (take 4 src, sp) /\ (px_next p <= item_sock it < px_next p')%nat /\
      px_table p' = px_table p) p;
  law_send it addr port data p :
    post (item_send it addr port data) (fun it' p' =>
      item_key it' = item_key it /\ item_sock it' = item_sock it /\
      px_table p' = px_table p /\ px_next p' = px_next p) p;
  law_close it p :
    item_close it p = Ok tt (set_px_out (px_out p ++ item_closes it) p);
  law_on ev it p :
    wlp (item_on ev it) (fun it' p' =>
      item_key it' = item_key it /\ item_sock it' = item_sock it /\
      px_table p' = px_table p /\ px_next p' = px_next p) p;
}.

Section nat.
Context `{Env} `{!UdpItem U} `{!UdpLaws U}.
Implicit Types p : proxy U.

(** Each entry is stored under the source it answers to, and no socket serves two. *)
Record nat_ok p : Prop := {
  no_key k it : px_table p !! k = Some it -> item_key it = k;
  no_sock k it : px_table p !! k = Some it -> (item_sock it < px_next p)%nat;
  no_inj k1 k2 it1 it2 : px_table p !! k1 = Some it1 -> px_table p !! k2 = Some it2 ->
    item_sock it1 = item_sock it2 -> k1 = k2;
}.

(** From [p] to [p'] the sockets of [p] stay with their sources; others are new. *)
Definition keeps p p' : Prop :=
  (px_next p <= px_next p')%nat /\
  forall k it', px_table p' !! k = Some it' ->
    (exists it, px_table p !! k = Some it /\ item_sock it' = item_sock it) \/ (px_next p <= item_sock it')%nat.

#[export] Instance keeps_preorder : PreOrder keeps.
Proof.
  split; [by intros p; split; [|eauto]|]. intros p1 p2 p3 [N12 K12] [N23 K23]. split; [lia|].
  intros k it3 [(it2 & E2 & Es2)|?]%K23; [|right; lia].
  apply K12 in E2 as [(it1 & E1 & Es1)|?]; [left; exists it1; split; congruence|right; congruence].
Qed.

Lemma nat_put p p' key it :
  nat_ok p -> item_key it = key -> px_table p' = <[key := it]> (px_table p) ->
  (px_next p <= px_next p')%nat ->
  ((exists old, px_table p !! key = Some old /\ item_sock it = item_sock old) \/
   (px_next p <= item_sock it < px_next p')%nat) ->
  nat_ok p' /\ keeps p p'.
Proof.
  intros [Hk Hs Hi] Ek Et Hn Hit.
  assert (Hlt : (item_sock it < px_next p')%nat) by (destruct Hit as [(old & Eo & ->)|?]; [apply Hs in Eo|]; lia).
  assert (Hown : forall k2 it2, k2 <> key -> px_table p !! k2 = Some it2 -> item_sock it2 <> item_sock it).
  { intros k2 it2 Hne E2 Es. destruct Hit as [(old & Eo & Eso)|?]; [|apply Hs in E2; lia].
    apply Hne, (Hi k2 key it2 old); congruence. }
  split; [constructor|split; [done|]]; rewrite Et.
  - intros k i [[<- <-]|[? Ei]]%lookup_insert_Some; [done|by apply Hk].
  - intros k i [[<- <-]|[? Ei]]%lookup_insert_Some; [done|apply Hs in Ei; lia].
  - intros k1 k2 i1 i2 [[<- <-]|[? E1]]%lookup_insert_Some [[<- <-]|[? E2]]%lookup_insert_Some Es; eauto;
      exfalso; eapply Hown; eauto.
  - intros k i [[<- <-]|[? Ei]]%lookup_insert_Some; [|by eauto].
    destruct Hit as [(old & Eo & Es)|?]; [by eauto|right; lia].
Qed.

Lemma nat_sub p p' :
  nat_ok p -> px_table p' ⊆ px_table p -> px_next p' = px_next p -> nat_ok p' /\ keeps p p'.
Proof.
  intros [Hk Hs Hi] Hsub En. assert (Hl : forall k it, px_table p' !! k = Some it -> px_table p !! k = Some it)
    by (intros k it Hk1; by eapply lookup_weaken). split; [constructor|split; [lia|]].
  - eauto.
  - intros. rewrite En. eauto.
  - eauto.
  - eauto.
Qed.

Lemma getUdp_post src sp dst dp p :
  nat_ok p ->
  post (getUdp src sp dst dp) (fun it p' =>
    nat_ok p' /\ keeps p p' /\ px_table p' !! (take 4 src, sp) = Some it) p.
Proof.
  intros Hp. unfold getUdp. set (key := (take 4 src, sp) : UdpCacheKey).
  assert (Hfresh : forall p0 close, px_table p0 = px_table p -> px_next p0 = px_next p ->
    (forall p1, exists p2, close p1 = Ok tt p2 /\ px_table p2 = px_table p1 /\ px_next p2 = px_next p1) ->
    post (let* fresh := item_init src sp dst dp in table_set key fresh ;;; close ;;; ret fresh)
      (fun it p' => nat_ok p' /\ keeps p p' /\ px_table p' !! key = Some it) p0).
  { intros p0 close Et En Hc. apply post_bind. eapply post_mono; [apply law_init|].
    intros it p1 (Ek & Hs & Et1). apply post_bind, post_modify, post_bind.
    destruct (Hc (set_px_table (<[key:=it]> (px_table p1)) p1)) as (p2 & E2 & Et2 & En2).
    cbn in Et2, En2. eapply post_ok; [exact E2|]. apply post_ret.
    destruct (nat_put p p2 key it) as [? ?]; [done|done|by rewrite Et2, Et1, Et|lia|right; lia|].
    split_and!; [done..|]. rewrite Et2. apply lookup_insert_eq. }
  apply post_bind, post_gets. destruct (px_table p !! key) as [item|] eqn:Ei.
  2: { apply (Hfresh p (ret tt)); [done..|]. intros p1. by exists p1. }
  apply post_bind. unfold isExpire. eapply post_bind, (post_ok _ (now_at (px_world p))); [done|].
  apply post_ret. destruct (_ <? _).
  - apply Hfresh; [done..|]. intros p1. rewrite law_close. by eexists.
  - apply post_bind, post_modify, post_ret. edestruct (nat_put p) as [? ?]; last (split_and!; [done..|]).
    + done.
    + by apply (no_key p).
    + done.
    + done.
    + eauto.
    + apply lookup_insert_eq.
Qed.

Lemma udpSend_post src sp dst dp data p :
  nat_ok p -> post (udpSend src sp dst dp data) (fun _ p' => nat_ok p' /\ keeps p p') p.
Proof.
  intros Hp. unfold udpSend. apply post_bind. eapply post_mono; [by apply getUdp_post|].
  intros it p1 (H1 & K1 & E1). apply post_bind. eapply post_mono; [apply law_send|].
  intros it' p2 (Ek & Es & Et & En). apply post_modify.
  edestruct (nat_put p1) as [H2 K2]; last (split; [exact H2|by etrans]); [done| |cbn; by rewrite Et|cbn; lia|].
  - rewrite Ek. by apply (no_key p1).
  - eauto.
Qed.

Lemma on_item_wlp key ev p :
  nat_ok p -> wlp (on_item key ev) (fun _ p' => nat_ok p' /\ keeps p p') p.
Proof.
  intros Hp. unfold on_item. do 2 wlp_step. case_match eqn:Ei; [|by wlp_step].
  wlp_step. eapply wlp_mono; [apply law_on|].
  intros it' p1 (Ek & Es & Et & En). unfold table_set. wlp_step.
  eapply (nat_put p); [done| |cbn; by rewrite Et|cbn; lia|eauto].
  rewrite Ek. by apply (no_key p).
Qed.

(** *** Collection *)

(** The clock at the [n] readings after [w]. *)
Definition clock_within (lo hi : Z) (n : nat) (w : world) : Prop :=
  forall i, (w_ticks w <= i < w_ticks w + n)%nat -> lo <= env_time i <= hi.

(** What one pass over [keys] leaves: sure to go below [lo], sure to stay from [hi] on. *)
Record collected (lo hi : Z) (keys : list UdpCacheKey) (gone : list (UdpCacheKey * U)) p p' : Prop := {
  cl_table : px_table p' = foldr delete (px_table p) gone.*1;
  cl_gone : Forall (fun '(k, it) => k ∈ keys /\ px_table p !! k = Some it /\ item_expire_at it < hi) gone;
  cl_nodup : NoDup gone.*1;
  cl_due k it : k ∈ keys -> px_table p !! k = Some it -> item_expire_at it < lo -> k ∈ gone.*1;
  cl_out : px_out p' = px_out p ++ concat ((item_closes ∘ snd) <$> gone);
  cl_next : px_next p' = px_next p;
}.

Lemma gc_loop_post lo hi keys p :
  NoDup keys -> clock_within lo hi (length keys) (px_world p) ->
  post (gc_loop keys) (fun _ p' => exists gone, collected lo hi keys gone p p') p.
Proof.
  revert p. induction keys as [|key keys IH]; intros p Hnd Hclk; cbn [gc_loop].
  { apply post_ret. exists []. constructor; cbn; [done|constructor|constructor|set_solver| |done].
    by rewrite app_nil_r. }
  apply NoDup_cons in Hnd as [Hnin Hnd].
  assert (Hnow : lo <= now_at (px_world p) <= hi) by (apply (Hclk (w_ticks (px_world p))); cbn; lia).
  assert (Hskip : forall p0, px_table p0 = px_table p -> px_out p0 = px_out p -> px_next p0 = px_next p ->
    clock_within lo hi (length keys) (px_world p0) ->
    (forall it, px_table p !! key = Some it -> lo <= item_expire_at it) ->
    post (gc_loop keys) (fun _ p' => exists gone, collected lo hi (key :: keys) gone p p') p0).
  { intros p0 Et Eo En Hc Hlive. eapply post_mono; [by apply IH|]. intros _ p' [gone []].
    exists gone. rewrite Et, Eo, En in *. constructor; [done| |done| |done|done].
    - eapply Forall_impl; [done|]. intros [k it] (? & ? & ?). split_and!; [set_solver|done..].
    - intros k it [->|Hin]%elem_of_cons Ei He; [|by eapply cl_due0].
      apply Hlive in Ei. lia. }
  apply post_bind, post_gets, post_bind. destruct (px_table p !! key) as [item|] eqn:Ei.
  2: { apply post_ret, Hskip; [done..| |done]. intros i Hi. apply Hclk. cbn. lia. }
  unfold isExpire. apply post_bind. eapply post_bind, (post_ok _ (now_at (px_world p))); [done|].
  apply post_ret.
  assert (Hc' : clock_within lo hi (length keys) (tick (px_world p)))
    by (intros i Hi; apply Hclk; cbn in *; lia).
  destruct (Z.ltb_spec (item_expire_at item) (now_at (px_world p))) as [Hexp|Hlive].
  2: { apply post_ret, Hskip; [done..|]. intros it [= <-]. lia. }
  apply post_bind, post_modify. cbv beta. unfold post at 1. rewrite law_close. cbv iota.
  eapply post_mono; [by apply IH|]. intros _ p' [gone [Ct Cg Cn Cd Co Cx]]. cbn in Ct, Cg, Cd, Co, Cx.
  assert (Hk : key ∉ gone.*1).
  { intros ([k it] & -> & Hin)%list_elem_of_fmap. rewrite Forall_forall in Cg.
    destruct (Cg _ Hin) as (Hin' & _). done. }
  exists ((key, item) :: gone). constructor.
  - rewrite Ct. cbn. clear -Hk. induction gone as [|[k it] gone IHg]; [done|]. cbn in *.
    rewrite IHg by set_solver. by rewrite delete_delete.
  - constructor; [split_and!; [set_solver|done|lia]|]. eapply Forall_impl; [done|].
    intros [k it] (Hin & [Hne El]%lookup_delete_Some & He). split_and!; [set_solver|done..].
  - cbn. by apply NoDup_cons.
  - intros k it [->|Hin]%elem_of_cons El He; [set_solver|]. cbn. apply elem_of_cons. right.
    apply (Cd k it); [done| |done]. rewrite lookup_delete_ne; [done|]. by intros ->.
  - rewrite Co. cbn. by rewrite <- app_assoc.
  - done.
Qed.

Lemma gc_sub keys gone lo hi p p' : collected lo hi keys gone p p' -> px_table p' ⊆ px_table p.
Proof.
  intros [-> _ _ _ _ _]. generalize (px_table p). intros m. induction gone as [|[k it] gone IH]; cbn; [done|].
  etrans; [apply delete_subseteq|done].
Qed.

Lemma gc_post lo hi p :
  clock_within lo hi (size (px_table p)) (px_world p) ->
  post gc_timer (fun _ p' => exists gone, collected lo hi ((map_to_list (px_table p)).*1) gone p p') p.
Proof.
  intros Hc. apply post_bind, post_gets, gc_loop_post; [apply NoDup_fst_map_to_list|].
  by rewrite length_fmap, length_map_to_list.
Qed.

Lemma clock_bounds n w : exists lo hi, clock_within lo hi n w.
Proof.
  induction n as [|n (lo & hi & IH)].
  { exists 0, 0. intros i Hi. lia. }
  exists (Z.min lo (env_time (w_ticks w + n))), (Z.max hi (env_time (w_ticks w + n))). intros i Hi.
  destruct (decide (i = w_ticks w + n)%nat) as [->|Hne]; [lia|]. specialize (IH i ltac:(lia)). lia.
Qed.

(** *** Everything that can happen to the table *)

Inductive nat_step : proxy U -> proxy U -> Prop :=
| NsSend src sp dst dp data p p' : udpSend src sp dst dp data p = Ok tt p' -> nat_step p p'
| NsEvent key ev p p' : on_item key ev p = Ok tt p' -> nat_step p p'
| NsCollect p p' : gc_timer p = Ok tt p' -> nat_step p p'
| NsClient w p : nat_step p (set_px_world w p).

Lemma nat_step_ok p p' : nat_step p p' -> nat_ok p -> nat_ok p' /\ keeps p p'.
Proof.
  intros [src sp dst dp data q q' E|key ev q q' E|q q' E|w q] Hp.
  - pose proof (udpSend_post src sp dst dp data q Hp) as (a & r & E' & Hr)%post_inv.
    rewrite E in E'. by injection E' as _ <-.
  - by apply (wlp_ok _ _ _ _ _ (on_item_wlp key ev q Hp) E).
  - destruct (clock_bounds (size (px_table q)) (px_world q)) as (lo & hi & Hc).
    destruct (post_inv _ _ _ (gc_post lo hi q Hc)) as (a & r & E' & gone & Hg).
    rewrite E in E'. injection E' as _ <-.
    apply nat_sub; [done|by eapply gc_sub|apply Hg].
  - by apply (nat_sub q).
Qed.

Lemma nat_steps_ok p p' : rtc nat_step p p' -> nat_ok p -> nat_ok p' /\ keeps p p'.
Proof.
  induction 1 as [p|p1 p2 p3 H12 H23 IH]; intros Hp; [by split|].
  destruct (nat_step_ok p1 p2 H12 Hp) as [H2 K12]. destruct (IH H2) as [H3 K23].
  split; [done|by etrans].
Qed.

(** A socket stays with its source. *)
Lemma nat_owner p p' k k' it it' :
  nat_ok p -> rtc nat_step p p' -> px_table p !! k = Some it -> px_table p' !! k' = Some it' ->
  item_sock it' = item_sock it -> k' = k.
Proof.
  intros Hp [Hp' [_ Hk]]%nat_steps_ok Ei Ei' Es; [|done].
  apply Hk in Ei' as [(it0 & E0 & Es0)|Hnew].
  - apply (no_inj p Hp k' k it0 it); congruence.
  - apply (no_sock p Hp) in Ei. lia.
Qed.
End nat.

(** ** Direct sockets *)

Section direct_nat.
Context `{Env}.

#[export] Program Instance direct_laws : UdpLaws DirectProxyUdp :=
  {| item_key it := (du_src it, du_srcport it); item_sock := du_udp;
     item_closes it := [PxClose (du_udp it)] |}.
Next Obligation. intros. unfold post, item_init. cbn. split_and!; [done|lia|lia|done]. Qed.
Next Obligation. done. Qed.
Next Obligation. done. Qed.
Next Obligation.
  intros [from fp data] it p. unfold item_on, wlp. cbn. unfold direct_on_data, bind, on_world.
  by destruct (send_udp_ex _ _ _ _ _ _).
Qed.

(** The entry a datagram from [key] uses: the live one, or a new one. *)
Definition live (key : UdpCacheKey) (p : proxy DirectProxyUdp) : option DirectProxyUdp :=
  it ← px_table p !! key;
  if du_expire_at it <? now_at (px_world p) then None else Some it.

Definition item_at (h : nat) (t : Z) (key : UdpCacheKey) : DirectProxyUdp :=
  {| du_udp := h; du_expire_at := t + PROXY_UDP_TABLE_TTL; du_src := key.1; du_srcport := key.2 |}.

Record sent_through (key : UdpCacheKey) (h : nat) (events : list proxy_event) (p p' : proxy DirectProxyUdp) : Prop := {
  st_table : exists i, (w_ticks (px_world p) <= i < w_ticks (px_world p'))%nat /\
    px_table p' = <[key := item_at h (env_time i) key]> (px_table p);
  st_out : px_out p' = px_out p ++ events;
  st_world : exists k, px_world p' = Nat.iter k tick (px_world p);
}.

Lemma udpSend_direct_run src sp dst dp data p :
  nat_ok p ->
  let key : UdpCacheKey := (take 4 src, sp) in
  exists p', udpSend src sp dst dp data p = Ok tt p' /\
    match live key p with
    | Some it => sent_through key (du_udp it) [PxSend (du_udp it) dst dp data] p p'
    | None =>
        let h := px_next p in
        let old := match px_table p !! key with Some it => [PxClose (du_udp it)] | None => [] end in
        sent_through key h ([PxOpen h] ++ old ++ [PxSend h dst dp data]) p p'
    end.
Proof.
  intros Hp key. unfold udpSend, getUdp, live. fold key. unfold bind at 1 2. unfold gets at 1. cbv beta iota.
  destruct (px_table p !! key) as [it|] eqn:Ei; rewrite ?Ei; cbn [mbind option_bind].
  - unfold isExpire. change (item_expire_at it) with (du_expire_at it).
    change (now_at (px_world p)) with (env_time (w_ticks (px_world p))). unfold bind at 1 2. unfold on_world at 1. cbn -[Z.add Nat.iter].
    destruct (_ <? _); eexists; (split; [reflexivity|]); constructor; cbn -[Z.add Nat.iter]; try done.
    + eexists. split; [|by rewrite insert_insert_eq]. cbn. lia.
    + by rewrite <- !app_assoc.
    + by exists 3%nat.
    + pose proof (no_key p Hp key it Ei) as Ek. change (item_key it) with (du_src it, du_srcport it) in Ek.
      unfold key in Ek; injection Ek as Es Esp. eexists. split; [|rewrite insert_insert_eq; unfold item_at; cbn; by rewrite Es, Esp].
      cbn. lia.
    + by exists 2%nat.
  - eexists; (split; [reflexivity|]); constructor; cbn -[Z.add Nat.iter]; try done.
    + eexists. split; [|by rewrite insert_insert_eq]. cbn. lia.
    + by rewrite <- !app_assoc.
    + by exists 2%nat.
Qed.

Lemma udpSend_direct_entry src sp dst dp data p p1 h :
  nat_ok p -> udpSend src sp dst dp data p = Ok tt p1 ->
  last (px_out p1) = Some (PxSend h dst dp data) ->
  exists it, px_table p1 !! (take 4 src, sp) = Some it /\ du_udp it = h.
Proof.
  intros Hp E El. destruct (udpSend_direct_run src sp dst dp data p Hp) as (p' & E' & Hs).
  rewrite E in E'. injection E' as <-.
  destruct (live _ p) as [it|]; destruct Hs as [(i & _ & Et) Eo _]; rewrite Eo, ?app_assoc, last_snoc in El;
    injection El as <-; rewrite Et, lookup_insert_eq; by eexists.
Qed.

(** What leaves for a chain of parts: one frame, or none if it does not fit the buffer. *)
Lemma send_ether_events mac c w :
  ctx_ok (pctx w) -> is_mac mac -> wf_payload c ->
  exists code w', send_ether mac ETHER_TYPE_IPV4 c w = Ok code w' /\ w_out w' = w_out w ++ frame_events mac (chain_data c) w.
Proof.
  intros Hc [Ld Hd] Hwf. destruct (ctx_mac _ Hc) as [Lm Bm]. pose proof (ctx_ok_buffer_ok _ Hc) as Hbuf.
  unfold frame_events. rewrite <- (ctx_buffer_len _ Hc). case_decide as Hl.
  - rewrite send_ether_ok by done. by eexists _, _.
  - unfold send_ether, send_ether_ex. unfold bind at 1. unfold gets at 1. unfold bind at 1.
    rewrite ether_header_eq by done. unfold mem, ret. set (h := eth_hdr _ _ _).
    assert (Hz : zlen h = 14) by by apply zlen_eth_hdr. rewrite (whole_eq h) by done.
    destruct (send_payloads_refused (whole h :: c) w) as (buf & Hbl & ->);
      rewrite ?chain_data_whole; [|done|rewrite (ctx_buffer_len _ Hc); consts; lia|rewrite zlen_app; lia|].
    { constructor; [|done]. by apply wf_whole, eth_hdr_is_bytes. }
    eexists _, _. split; [reflexivity|]. by rewrite app_nil_r.
Qed.

(** What leaves for a datagram of any length that UDP has. *)
Definition udp_events (src : bytes) (sp : Z) (dst : bytes) (dp ck : Z) (data : bytes) (w : world) : list event :=
  match arp_find (pc_arp_list (pctx w)) dst (now_at w) with
  | Some i =>
      if 42 + zlen data <? 2048 then
        [EvFrame (framed (ai_mac i) ETHER_TYPE_IPV4
           (ip_hdr src dst IPV4_PROTOCOL_UDP (pc_identification (pctx w)) (28 + zlen data) ++ udp_hdr ck sp dp (8 + zlen data) ++ data) w)]
      else []
  | None => [EvFrame (who_has dst w)]
  end.
Lemma send_udp_ex_events src sp dst dp data w :
  ctx_ok (pctx w) -> is_ip src -> is_ip dst -> is_bytes data -> zlen data <= 65507 ->
  exists ck code w', rfc1071_valid (pseudo_hdr src dst (8 + zlen data) ++ udp_hdr ck sp dp (8 + zlen data) ++ data) /\
    send_udp_ex src sp dst dp [whole data] w = Ok code w' /\ w_out w' = w_out w ++ udp_events src sp dst dp ck data w.
Proof.
  intros Hc Hs Hd Hb Hl. assert (Ed : chain_data [whole data] = data) by (rewrite chain_data_whole; apply app_nil_r).
  destruct (udp_header_run src sp dst dp [] (whole data)) as (ck & Hck & Eh & Hv); try done;
    [by constructor; [apply wf_whole|]|cbn [app]; rewrite Ed; lia|].
  cbn [app] in Eh, Hv. rewrite Ed in Eh, Hv. exists ck. destruct (udp_hdr_ok ck sp dp (8 + zlen data) Hck) as [Lh Bh].
  set (c := [whole (udp_hdr ck sp dp (8 + zlen data)); whole data]). assert (Hwf : wf_payload c) by (constructor; [by apply wf_whole|]; constructor; [by apply wf_whole|done]).
  assert (Ec : chain_data c = udp_hdr ck sp dp (8 + zlen data) ++ data) by (unfold c; by rewrite chain_data_whole, Ed).
  unfold send_udp_ex. rewrite Eh. unfold bind at 1. cbn [mem]. unfold ret at 1. rewrite (whole_eq _ UDP_OFF_END) by done. fold c.
  pose proof (bump_id_ctx_ok w Hc) as Hc1. unfold send_ipv4_ex. unfold bind at 1. unfold gets at 1. rewrite (bind_ok _ _ _ tt (bump_id w)) by done.
  rewrite payload_total_len_spec, Ec, zlen_app, Lh, u16_id by (try done; unfold is_u16; zlia).
  rewrite ipv4_header_eq by done. rewrite (bind_ok _ _ _ _ (bump_id w)) by done.
  unfold bind. rewrite arp_get_mac_by_ip_run by done. unfold resolved, udp_events.
  change (now_at (bump_id w)) with (now_at w). change (pc_arp_list (pctx (bump_id w))) with (pc_arp_list (pctx w)).
  destruct (arp_find _ _ _) as [i|] eqn:Ef; [|by eexists _, _].
  replace (IPV4_HEADER_LEN + (8 + zlen data)) with (28 + zlen data) by (consts; lia).
  destruct (ip_hdr_ok src dst IPV4_PROTOCOL_UDP (pc_identification (pctx w)) (28 + zlen data)) as [Hz Hbh]; try done.
  rewrite (whole_eq _ IPV4_HEADER_LEN) by done. apply arp_find_live in Ef as (Hin & _ & _).
  assert (Hm : is_mac (ai_mac i)) by (destruct (ctx_arp _ Hc) as [_ Hf]; rewrite Forall_forall in Hf; by apply Hf).
  destruct (send_ether_events (ai_mac i) (whole (ip_hdr src dst IPV4_PROTOCOL_UDP (pc_identification (pctx w)) (28 + zlen data)) :: c) (tick (bump_id w)))
    as (code & w' & E & Eo); [done|done|constructor; [by apply wf_whole|done]|].
  exists code, w'. split_and!; [done|exact E|]. rewrite Eo, chain_data_whole, Ec. change (w_out (tick (bump_id w))) with (w_out w). f_equal.
  unfold frame_events. rewrite !zlen_app, Hz, Lh. change BUFFER_SIZE with 2048. destruct (Z.ltb_spec (42 + zlen data) 2048); case_decide; (done || lia).
Qed.

Lemma direct_reply_run src sp p key it e :
  (du_src it, du_srcport it) = (src, sp) -> px_table p !! key = Some it ->
  ctx_ok (pctx (px_world p)) -> is_ip src -> is_ip (ud_ip e) -> is_bytes (ud_data e) -> zlen (ud_data e) <= 65507 ->
  let data := ud_data e in
  exists ck p', on_item key e p = Ok tt p' /\
    rfc1071_valid (pseudo_hdr (ud_ip e) src (8 + zlen data) ++ udp_hdr ck (ud_port e) sp (8 + zlen data) ++ data) /\
    w_out (px_world p') = w_out (px_world p) ++ udp_events (ud_ip e) (ud_port e) src sp ck data (px_world p).
Proof.
  intros [= Es Esp] Ei Hc Hs Hf Hb Hl data. unfold data.
  destruct (send_udp_ex_events (ud_ip e) (ud_port e) src sp (ud_data e) (px_world p)) as (ck & code & w' & Hv & Er & Eo); [done..|].
  exists ck. eexists. split; [|split; [exact Hv|]].
  - unfold on_item. unfold bind at 1. unfold gets at 1. rewrite Ei. cbn [item_on direct_item].
    unfold direct_on_data. rewrite u16_id by (unfold is_u16; zlia). rewrite Es, Esp.
    rewrite (whole_eq _ (zlen (ud_data e))) by done. unfold on_world, bind at 1 2. rewrite Er. reflexivity.
  - exact Eo.
Qed.

(** C35: replies reach whoever opened the conversation, or nobody.  A console at [src] sends
    from port [sp], and the datagram leaves through the socket [h].  Whatever happens next
    (other sources send, datagrams arrive, entries are collected, the client works), if [h] is
    still in the table and a datagram of up to 65507 bytes, the most that UDP carries,
    arrives on it, it is handled without error, and the checksum of what is built is valid.
    What leaves then depends on the address table of the client at that time.  With a live
    entry for [src] and fewer than 2048 bytes in the frame, 42 of which are headers, exactly
    one frame leaves, to the hardware address of the entry, from the sender's address and port
    to [src] and [sp], with the same data.  A longer one is dropped and nothing leaves.
    Without a live entry the datagram is dropped and one ARP request for [src] leaves.  So no
    reply is delivered to another console.  The state of the client is well formed at that
    time ([ctx_ok], which the event loop keeps: [LanPlay.event_loop_safe]). *)
Theorem nat_reply src sp dst dp data p p1 p2 h key it e :
  nat_ok p -> is_ip src -> udpSend src sp dst dp data p = Ok tt p1 ->
  last (px_out p1) = Some (PxSend h dst dp data) ->
  rtc nat_step p1 p2 -> px_table p2 !! key = Some it -> du_udp it = h ->
  ctx_ok (pctx (px_world p2)) -> is_ip (ud_ip e) -> is_bytes (ud_data e) -> zlen (ud_data e) <= 65507 ->
  let len := zlen (ud_data e) in
  let w := px_world p2 in
  exists ck p3, on_item key e p2 = Ok tt p3 /\
    rfc1071_valid (pseudo_hdr (ud_ip e) src (8 + len) ++ udp_hdr ck (ud_port e) sp (8 + len) ++ ud_data e) /\
    w_out (px_world p3) = w_out w ++
      match arp_find (pc_arp_list (pctx w)) src (now_at w) with
      | Some i =>
          if 42 + len <? 2048 then
            [EvFrame (framed (ai_mac i) ETHER_TYPE_IPV4
               (ip_hdr (ud_ip e) src IPV4_PROTOCOL_UDP (pc_identification (pctx w)) (28 + len) ++
                udp_hdr ck (ud_port e) sp (8 + len) ++ ud_data e) w)]
          else []
      | None => [EvFrame (who_has src w)]
      end.
Proof.
  intros Hp Hs E1 El Hr Ei Eh. destruct (udpSend_direct_entry _ _ _ _ _ _ _ _ Hp E1 El) as (it1 & E2 & Eh1).
  pose proof (udpSend_post src sp dst dp data p Hp) as (a & r & E' & [Hp1 _])%post_inv.
  rewrite E1 in E'. injection E' as _ <-.
  assert (key = (take 4 src, sp)) as -> by (apply (nat_owner p1 p2 _ key it1 it); [done..|cbn; congruence]).
  destruct (nat_steps_ok p1 p2 Hr Hp1) as [Hp2 _]. pose proof (no_key p2 Hp2 _ _ Ei) as Ek.
  rewrite take_ge in Ek by (destruct Hs; lia). intros Hc Hf Hb Hl len w.
  destruct (direct_reply_run src sp p2 _ it e Ek Ei Hc Hs Hf Hb Hl) as (ck & p3 & E & Hv & Eo).
  by exists ck, p3.
Qed.

(** Sending through the direct proxy.  A source with a live entry reuses its socket and
    nothing is opened; otherwise one new socket is opened for it, the expired one it
    replaces is closed, and the datagram leaves through the new one.  The entry then
    expires thirty seconds after a clock reading of this call, and no other entry
    changes. *)
Theorem udpSend_direct src sp dst dp data p :
  nat_ok p ->
  let key : UdpCacheKey := (take 4 src, sp) in
  exists p', udpSend src sp dst dp data p = Ok tt p' /\
    match live key p with
    | Some it => sent_through key (du_udp it) [PxSend (du_udp it) dst dp data] p p'
    | None =>
        let h := px_next p in
        let old := match px_table p !! key with Some it => [PxClose (du_udp it)] | None => [] end in
        sent_through key h ([PxOpen h] ++ old ++ [PxSend h dst dp data]) p p'
    end.
Proof. apply udpSend_direct_run. Qed.
End direct_nat.

Section claims.
Context `{Env} `{!UdpItem U}.

(** What the gateway does with a frame, for any proxy.  Up to fourteen bytes nothing
    happens.  A frame whose IPv4 header is complete, says version 4, UDP and at least
    twenty bytes of header, and whose UDP length is at least eight and within the packet,
    is one datagram for the proxy: source, destination and ports as the packet layer's
    parsers read them, and the data up to the UDP length.  Everything else goes to lwIP
    unchanged, without the Ethernet header.  No read leaves the frame. *)
Theorem gateway_on_packet_spec frame p :
  is_bytes frame ->
  gateway_on_packet frame (zlen frame) p =
    if zlen frame <=? 14 then Ok tt p else gateway_route frame p.
Proof. apply gateway_run. Qed.

(** One run of the collector, for any kind of entry, with the clock between [lo] and
    [hi] while it runs.  It always returns; the entries it removes had expired by [hi], and
    every entry that had expired before [lo] is removed; each removed object is closed,
    once, and nothing else happens. *)
Theorem gc_timer_spec `{!UdpLaws U} lo hi p :
  clock_within lo hi (size (px_table p)) (px_world p) ->
  exists p' gone, gc_timer p = Ok tt p' /\
    px_table p' = foldr delete (px_table p) gone.*1 /\ NoDup gone.*1 /\
    (forall k it, (k, it) ∈ gone -> px_table p !! k = Some it /\ item_expire_at it < hi) /\
    (forall k it, px_table p !! k = Some it -> item_expire_at it < lo -> k ∈ gone.*1) /\
    px_out p' = px_out p ++ concat ((item_closes ∘ snd) <$> gone).
Proof.
  intros Hc. destruct (post_inv _ _ _ (gc_post lo hi p Hc)) as ([] & p' & E & gone & []).
  exists p', gone. split_and!; try done.
  - intros k it Hin. rewrite Forall_forall in cl_gone0. by destruct (cl_gone0 _ Hin) as (_ & ? & ?).
  - intros k it Ei He. eapply cl_due0; [|done..]. apply list_elem_of_fmap. exists (k, it).
    split; [done|by apply elem_of_map_to_list].
Qed.
End claims.

(** ** Concrete runs *)

#[local] Existing Instance demo_env.

Definition demo_proxy : proxy DirectProxyUdp :=
  {| px_table := ∅; px_next := 0; px_out := []; px_world := demo_known |}.
Lemma demo_proxy_ok : nat_ok demo_proxy.
Proof. by constructor; intros *; cbn [px_table demo_proxy]; rewrite lookup_empty. Qed.

(** The peer asks a server, and the answer. *)
Definition demo_asked : proxy DirectProxyUdp :=
  match udpSend demo_peer 5000 [8; 8; 8; 8] 53 [1; 2] demo_proxy with
  | Ok _ p => p
  | Stop _ => demo_proxy
  end.
Definition demo_answer : UDPDataEvent := {| ud_ip := [8; 8; 8; 8]; ud_port := 53; ud_data := [3; 4; 5] |}.

Lemma udpSend_direct_witness :
  exists p', udpSend demo_peer 5000 [8; 8; 8; 8] 53 [1; 2] demo_proxy = Ok tt p' /\
    px_out p' = [PxOpen 0; PxSend 0 [8; 8; 8; 8] 53 [1; 2]].
Proof.
  destruct (udpSend_direct demo_peer 5000 [8; 8; 8; 8] 53 [1; 2] demo_proxy demo_proxy_ok)
    as (p' & E & Hs). exists p'. split; [exact E|]. destruct Hs as [_ Eo _]. rewrite Eo. reflexivity.
Defined.

Lemma nat_reply_witness :
  exists ck p3, on_item (demo_peer, 5000) demo_answer demo_asked = Ok tt p3 /\
    rfc1071_valid (pseudo_hdr [8; 8; 8; 8] demo_peer 11 ++ udp_hdr ck 53 5000 11 ++ [3; 4; 5]) /\
    w_out (px_world p3) = w_out (px_world demo_asked) ++
      [EvFrame (framed [2; 0; 0; 0; 0; 5] ETHER_TYPE_IPV4 (ip_hdr [8; 8; 8; 8] demo_peer 17 (pc_identification (pctx (px_world demo_asked))) 31 ++ udp_hdr ck 53 5000 11 ++ [3; 4; 5]) (px_world demo_asked))].
Proof.
  destruct (nat_reply demo_peer 5000 [8; 8; 8; 8] 53 [1; 2] demo_proxy demo_asked demo_asked 0
    (demo_peer, 5000) {| du_udp := 0; du_expire_at := 1032; du_src := demo_peer; du_srcport := 5000 |} demo_answer) as (ck & p3 & E & Hv & Eo).
  - apply demo_proxy_ok.
  - apply demo_peer_ok.
  - vm_compute. reflexivity.
  - reflexivity.
  - constructor.
  - vm_compute. reflexivity.
  - reflexivity.
  - apply demo_known_ok.
  - split; [done|bytes_tac].
  - bytes_tac.
  - vm_compute. discriminate.
  - exists ck, p3. split_and!; [exact E|exact Hv|]. rewrite Eo. reflexivity.
Defined.

Lemma gateway_on_packet_spec_witness :
  gateway_on_packet (replicate 14 0 ++ [0x60; 1; 2]) 17 demo_proxy =
    Ok tt (set_px_out [PxInput [0x60; 1; 2]] demo_proxy).
Proof.
  etransitivity; [apply (gateway_on_packet_spec (replicate 14 0 ++ [0x60; 1; 2]) demo_proxy);
    bytes_tac|reflexivity].
Defined.

(** A minute later the entry is gone. *)
Definition demo_late : proxy DirectProxyUdp := set_px_world (Nat.iter 60 tick (px_world demo_asked)) demo_asked.

Lemma gc_timer_spec_witness :
  exists p' (gone : list (UdpCacheKey * DirectProxyUdp)), gc_timer demo_late = Ok tt p' /\
    ((demo_peer, 5000) : UdpCacheKey) ∈ gone.*1 /\
    px_out p' = px_out demo_late ++ concat ((item_closes ∘ snd) <$> gone).
Proof.
  destruct (gc_timer_spec 1063 1063 demo_late) as (p' & gone & E & _ & _ & _ & Hd & Eo).
  { intros i Hi. change (63 <= i < 63 + 1)%nat in Hi. assert (i = 63%nat) as -> by lia.
    vm_compute; split; discriminate. }
  exists p', gone. split; [exact E|]. split; [|exact Eo].
  apply (Hd _ {| du_udp := 0; du_expire_at := 1032; du_src := demo_peer; du_srcport := 5000 |});
    [vm_compute; reflexivity|reflexivity].
Defined.
