(* ===== verification/Socks5.v ===== *)
(** The SOCKS5 client: [src/proxy_socks5.cpp].

    [Socks5Protocol] negotiates over a TCP connection to the server: methods, user name
    and password, then a request.  [Socks5ProxyUdp] is the other kind of object in the
    translation table of [Proxy]: it asks for a UDP association, wraps every datagram in
    a SOCKS5 header, and unwraps what comes back.

    An object of the source registers callbacks for one event at a time; the state here
    says which callback is waiting ([s5_connect_cb], [s5_data_cb]).  What the object asks
    of its TCP handle is a trace ([s5_out]), replayed by the owner.

    Shown here: the packer never leaves its buffer; which server answers lead to an
    association, and the bytes sent on the way; after a refusal nothing more is sent;
    what a datagram looks like to the server and to the console; the faults of the
    code on short datagrams, on datagrams sent too early, and after a refusal. *)

From stdpp Require Import gmap.
From S2P Require Import Prelude Byteorder Structs Checksum Packet Arp Ipv4 LanClient Dispatch Proxy.

(** ** The code *)

(** The parts of [sockaddr_in] that are used, as they lie in memory. *)
Record sockaddr_in := { sin_addr : bytes; sin_port : bytes }.

Record Socks5ServerConfig := {
  cfg_server : sockaddr_in;
  cfg_username : bytes;
  cfg_password : bytes;
}.

(** *** Packing and unpacking *)

Record ProtocolPacker := { pp_data : bytes; pp_offset : Z; pp_length : Z }.

Section packer.
Context `{Env}.

Definition newProtocolPacker (len : Z) : ProtocolPacker :=
  {| pp_data := uninit len; pp_offset := 0; pp_length := len |}.

Definition writeRaw (v : bytes) (size : Z) : M ProtocolPacker bool :=
  fun p =>
    if pp_length p <? pp_offset p + size then Ok false p
    else match memcpy (pp_data p) (pp_offset p) v 0 size with
         | Some d => Ok true {| pp_data := d; pp_offset := pp_offset p + size; pp_length := pp_length p |}
         | None => Stop Oob
         end.

(** [v]: the object as it lies in memory. *)
Definition writeAny (v : bytes) : M ProtocolPacker bool :=
  fun p =>
    if pp_length p <? pp_offset p + zlen v then Ok false p
    else match memcpy (pp_data p) (pp_offset p) v 0 (zlen v) with
         | Some d => Ok true {| pp_data := d; pp_offset := pp_offset p + zlen v; pp_length := pp_length p |}
         | None => Stop Oob
         end.
Definition writeInt8 (v : Z) : M ProtocolPacker bool := writeAny (store 1 (u8 v)).
Definition writeUint8 (v : Z) : M ProtocolPacker bool := writeAny (store 1 (u8 v)).
Definition writeUint16 (v : Z) : M ProtocolPacker bool := writeAny (store 2 (u16 v)).

(** A failed read leaves the variable, [v], as it was. *)
Definition readAny (v : bytes) : M ProtocolPacker (bool * bytes) :=
  fun p =>
    if pp_length p <? pp_offset p + zlen v then Ok (false, v) p
    else match mem_get (pp_data p) (pp_offset p) (zlen v) with
         | Some b => Ok (true, b) {| pp_data := pp_data p; pp_offset := pp_offset p + zlen v; pp_length := pp_length p |}
         | None => Stop Oob
         end.

(** Building a packet: the buffer at the end. *)
Definition pack {A} (len : Z) (m : M ProtocolPacker A) : option bytes :=
  match m (newProtocolPacker len) with
  | Ok _ p => Some (pp_data p)
  | Stop _ => None
  end.

(** Reading one: the values of the variables at the end. *)
Definition unpack {A} (data : bytes) (m : M ProtocolPacker A) : option A :=
  match m {| pp_data := data; pp_offset := 0; pp_length := zlen data |} with
  | Ok a _ => Some a
  | Stop _ => None
  end.
End packer.

(** *** The protocol *)

Inductive ErrCode :=
| VersionMismatch | UnexpectMethod | UnexpectResponse | UnexpectAddressType | UnexpectLength
| CredentialTooLong.

(** What the protocol asks of its TCP handle and its owner. *)
Inductive s5_event :=
| S5Connect (server : sockaddr_in)
| S5Read
| S5Write (data : bytes)
| S5Stop
| S5Close
| S5Error (e : ErrCode)                (* errorCallback *)
| S5Ready                              (* readyCallback *)
| S5UdpReady (addr : sockaddr_in).     (* udpReadyCallback *)

(** The callback registered with [once<DataEvent>]. *)
Inductive data_cb := OnMethod | OnAuth | OnReply.

Record Socks5Protocol := {
  s5_cmd : Z;                          (* 1: connect, 3: associate *)
  s5_dest : sockaddr_in;               (* the address the request names *)
  s5_connect_cb : bool;
  s5_data_cb : option data_cb;
  s5_closed : bool;                    (* the TCP handle *)
  s5_out : list s5_event;
}.

Definition set_s5_connect_cb (v : bool) (q : Socks5Protocol) : Socks5Protocol :=
  {| s5_cmd := s5_cmd q; s5_dest := s5_dest q; s5_connect_cb := v; s5_data_cb := s5_data_cb q;
     s5_closed := s5_closed q; s5_out := s5_out q |}.
Definition set_s5_data_cb (v : option data_cb) (q : Socks5Protocol) : Socks5Protocol :=
  {| s5_cmd := s5_cmd q; s5_dest := s5_dest q; s5_connect_cb := s5_connect_cb q; s5_data_cb := v;
     s5_closed := s5_closed q; s5_out := s5_out q |}.
Definition set_s5_closed (v : bool) (q : Socks5Protocol) : Socks5Protocol :=
  {| s5_cmd := s5_cmd q; s5_dest := s5_dest q; s5_connect_cb := s5_connect_cb q; s5_data_cb := s5_data_cb q;
     s5_closed := v; s5_out := s5_out q |}.
Definition set_s5_out (v : list s5_event) (q : Socks5Protocol) : Socks5Protocol :=
  {| s5_cmd := s5_cmd q; s5_dest := s5_dest q; s5_connect_cb := s5_connect_cb q; s5_data_cb := s5_data_cb q;
     s5_closed := s5_closed q; s5_out := v |}.

Definition s5_emit (e : s5_event) : M Socks5Protocol unit :=
  modify (fun q => set_s5_out (s5_out q ++ [e]) q).

Section protocol.
Context `{Env}.

Definition Assert (expression : bool) (errCode : ErrCode) : M Socks5Protocol bool :=
  (if expression then ret tt
   else
     s5_emit (S5Error errCode) ;;;
     s5_emit S5Close ;;;
     modify (set_s5_closed true)) ;;;
  ret expression.

(** [RASSERT(exp, err); rest] *)
Definition RASSERT (expression : bool) (errCode : ErrCode) (rest : M Socks5Protocol unit)
    : M Socks5Protocol unit :=
  let* ok := Assert expression errCode in
  if ok : bool then rest else ret tt.

Definition greeting (cfg : Socks5ServerConfig) : option bytes :=
  let useAuth := negb (bool_decide (cfg_username cfg = [])) in
  let methodCount := if useAuth then 2 else 1 in
  pack (2 + methodCount) (
    writeUint8 5 ;;;
    writeUint8 (u8 methodCount) ;;;
    writeUint8 0 ;;;
    if useAuth then writeUint8 2 else ret true).

(** The callbacks of [auth]; [s5_cmd] and [s5_dest] stand for its argument [cb]. *)
Definition on_connect_event (cfg : Socks5ServerConfig) : M Socks5Protocol unit :=
  s5_emit S5Read ;;;
  let* packet := mem (greeting cfg) in
  s5_emit (S5Write packet).

Definition auth_request (cfg : Socks5ServerConfig) : option bytes :=
  pack (3 + zlen (cfg_username cfg) + zlen (cfg_password cfg)) (
    writeUint8 1 ;;;
    writeUint8 (u8 (zlen (cfg_username cfg))) ;;;
    writeRaw (cfg_username cfg) (zlen (cfg_username cfg)) ;;;
    writeUint8 (u8 (zlen (cfg_password cfg))) ;;;
    writeRaw (cfg_password cfg) (zlen (cfg_password cfg))).

(** The lambda of [associate] and [connect]. *)
Definition request (cmd : Z) (addr : sockaddr_in) : option bytes :=
  pack 10 (
    writeUint8 5 ;;;
    writeUint8 cmd ;;;
    writeUint8 0 ;;;
    writeUint8 1 ;;;
    writeAny (sin_addr addr) ;;;
    writeAny (sin_port addr)).
Definition send_request : M Socks5Protocol unit :=
  let* q := gets id in
  let* packet := mem (request (s5_cmd q) (s5_dest q)) in
  s5_emit (S5Write packet) ;;;
  modify (set_s5_data_cb (Some OnReply)).

Definition on_method (cfg : Socks5ServerConfig) (data : bytes) : M Socks5Protocol unit :=
  RASSERT (zlen data =? 2) UnexpectLength (
  let* version := mem (READ_NET8 data 0) in
  let* method := mem (READ_NET8 data 1) in
  RASSERT (version =? 5) VersionMismatch (
  if method =? 0 then send_request
  else if method =? 2 then
    RASSERT ((zlen (cfg_username cfg) <=? 255) && (zlen (cfg_password cfg) <=? 255)) CredentialTooLong (
    let* authReq := mem (auth_request cfg) in
    modify (set_s5_data_cb (Some OnAuth)) ;;;
    s5_emit (S5Write authReq))
  else RASSERT false UnexpectMethod (ret tt))).

Definition on_auth (data : bytes) : M Socks5Protocol unit :=
  RASSERT (zlen data =? 2) UnexpectLength (
  let* authVersion := mem (READ_NET8 data 0) in
  let* authStatus := mem (READ_NET8 data 1) in
  RASSERT (authVersion =? 1) VersionMismatch (
  RASSERT (authStatus =? 0) UnexpectResponse
  send_request)).

(** The fields of the server's reply: ver, rep, atyp, the address and the port. *)
Definition read_reply (data : bytes) : option (bytes * bytes * bytes * sockaddr_in) :=
  unpack data (
    let* ver := readAny (uninit 1) in
    let* rep := readAny (uninit 1) in
    let* _ := readAny (uninit 1) in
    let* atyp := readAny (uninit 1) in
    let* addr := readAny (replicate 4 0) in
    let* port := readAny (replicate 2 0) in
    ret (ver.2, rep.2, atyp.2, {| sin_addr := addr.2; sin_port := port.2 |})).

Definition on_reply (data : bytes) : M Socks5Protocol unit :=
  RASSERT (zlen data =? 10) UnexpectLength (
  let* (ver, rep, atyp, addr) := mem (read_reply data) in
  RASSERT (load ver =? 5) VersionMismatch (
  RASSERT (load rep =? 0) UnexpectResponse (
  RASSERT (load atyp =? 1) UnexpectAddressType (
  let* cmd := gets s5_cmd in
  if cmd =? 3 then s5_emit (S5UdpReady addr)
  else
    s5_emit S5Stop ;;;
    s5_emit S5Ready)))).

Definition auth (cfg : Socks5ServerConfig) : M Socks5Protocol unit :=
  s5_emit (S5Connect (cfg_server cfg)) ;;;
  modify (set_s5_connect_cb true) ;;;
  modify (set_s5_data_cb (Some OnMethod)).

(** The handle reports: a [once] callback is removed before it runs; a closed handle
    reports nothing. *)
Definition s5_connected (cfg : Socks5ServerConfig) : M Socks5Protocol unit :=
  let* q := gets id in
  if s5_closed q || negb (s5_connect_cb q) then ret tt
  else
    modify (set_s5_connect_cb false) ;;;
    on_connect_event cfg.

Definition s5_data (cfg : Socks5ServerConfig) (data : bytes) : M Socks5Protocol unit :=
  let* q := gets id in
  if s5_closed q then ret tt
  else
    modify (set_s5_data_cb None) ;;;
    match s5_data_cb q with
    | None => ret tt
    | Some OnMethod => on_method cfg data
    | Some OnAuth => on_auth data
    | Some OnReply => on_reply data
    end.
End protocol.

(** The object before [associate] ([cmd] 3) or [connect] ([cmd] 1). *)
Definition newSocks5Protocol (cmd : Z) (addr : sockaddr_in) : Socks5Protocol :=
  {| s5_cmd := cmd; s5_dest := addr; s5_connect_cb := false; s5_data_cb := None; s5_closed := false;
     s5_out := [] |}.

(** *** The UDP association *)

Definition UDPHeaderSize : Z := 10.

Record Socks5ProxyUdp := {
  su_tcp : nat;
  su_udp : nat;
  su_expire_at : Z;
  su_server : sockaddr_in;             (* cfg.server *)
  su_protocol : Socks5Protocol;
  su_isReady : bool;
  su_waiting : option bytes;           (* waitingData, waitingLength bytes *)
  su_src : bytes;                      (* captured by the callback *)
  su_srcport : Z;
}.

Definition set_su_expire_at (v : Z) (u : Socks5ProxyUdp) : Socks5ProxyUdp :=
  {| su_tcp := su_tcp u; su_udp := su_udp u; su_expire_at := v; su_server := su_server u;
     su_protocol := su_protocol u; su_isReady := su_isReady u; su_waiting := su_waiting u;
     su_src := su_src u; su_srcport := su_srcport u |}.
Definition set_su_protocol (v : Socks5Protocol) (u : Socks5ProxyUdp) : Socks5ProxyUdp :=
  {| su_tcp := su_tcp u; su_udp := su_udp u; su_expire_at := su_expire_at u; su_server := su_server u;
     su_protocol := v; su_isReady := su_isReady u; su_waiting := su_waiting u;
     su_src := su_src u; su_srcport := su_srcport u |}.
Definition set_su_waiting (v : option bytes) (u : Socks5ProxyUdp) : Socks5ProxyUdp :=
  {| su_tcp := su_tcp u; su_udp := su_udp u; su_expire_at := su_expire_at u; su_server := su_server u;
     su_protocol := su_protocol u; su_isReady := su_isReady u; su_waiting := v;
     su_src := su_src u; su_srcport := su_srcport u |}.
Definition set_su_ready (server : sockaddr_in) (u : Socks5ProxyUdp) : Socks5ProxyUdp :=
  {| su_tcp := su_tcp u; su_udp := su_udp u; su_expire_at := su_expire_at u; su_server := server;
     su_protocol := su_protocol u; su_isReady := true; su_waiting := su_waiting u;
     su_src := su_src u; su_srcport := su_srcport u |}.

(** The handles an association owns, as they report. *)
Inductive socks5_event :=
| SeConnect
| SeTcpData (data : bytes)
| SeUdpData (data : bytes).

Section udp.
Context `{Env}.
Variable cfg : Socks5ServerConfig.

Definition su_visit (u : Socks5ProxyUdp) : M (proxy Socks5ProxyUdp) Socks5ProxyUdp :=
  let* now := on_world time_now in
  ret (set_su_expire_at (now + PROXY_UDP_TABLE_TTL) u).

(** [udp->send(this->cfg.server.u.addr, data, len)] *)
Definition su_forward (u : Socks5ProxyUdp) (data : bytes) : M (proxy Socks5ProxyUdp) unit :=
  px_emit (PxSend (su_udp u) (sin_addr (su_server u)) (ntohs (load (sin_port (su_server u)))) data).

(** The callback of [onUDPReady]. *)
Definition on_udp_ready (addr : sockaddr_in) (u : Socks5ProxyUdp) : M (proxy Socks5ProxyUdp) Socks5ProxyUdp :=
  let u := set_su_ready addr u in
  px_emit (PxOpen (su_udp u)) ;;;
  let* u := su_visit u in
  match su_waiting u with
  | Some data =>
      su_forward u data ;;;
      ret (set_su_waiting None u)
  | None => ret u
  end.

(** What the protocol asked for, in order. *)
Fixpoint replay (events : list s5_event) (u : Socks5ProxyUdp) : M (proxy Socks5ProxyUdp) Socks5ProxyUdp :=
  match events with
  | [] => ret u
  | e :: events =>
      let* u :=
        match e with
        | S5Connect _ => px_emit (PxTcpConnect (su_tcp u)) ;;; ret u
        | S5Write data => px_emit (PxTcp (su_tcp u) data) ;;; ret u
        | S5Close => px_emit (PxTcpClose (su_tcp u)) ;;; ret u
        | S5UdpReady addr => on_udp_ready addr u
        | S5Read | S5Stop | S5Error _ | S5Ready => ret u
        end in
      replay events u
  end.

Definition with_protocol (m : M Socks5Protocol unit) (u : Socks5ProxyUdp)
    : M (proxy Socks5ProxyUdp) Socks5ProxyUdp :=
  match m (set_s5_out [] (su_protocol u)) with
  | Ok _ q => replay (s5_out q) (set_su_protocol (set_s5_out [] q) u)
  | Stop e => halt e
  end.

(** The constructor and [init]; [expire_at] has no value yet. *)
Definition socks5_init (src : bytes) (srcport : Z) (dst : bytes) (dstport : Z)
    : M (proxy Socks5ProxyUdp) Socks5ProxyUdp :=
  let* tcp := new_socket in
  let addr := {| sin_addr := store 4 (htonl 0); sin_port := store 2 (htons dstport) |} in
  let protocol := newSocks5Protocol 3 addr in
  let* udp := new_socket in
  with_protocol (auth cfg)
    {| su_tcp := tcp; su_udp := udp; su_expire_at := 0; su_server := cfg_server cfg;
       su_protocol := protocol; su_isReady := false; su_waiting := None;
       su_src := take 4 src; su_srcport := srcport |}.

Definition encapsulate (addr : sockaddr_in) (dat : bytes) (len : Z) : option bytes :=
  pack (UDPHeaderSize + len) (
    writeUint16 0 ;;;
    writeInt8 0 ;;;
    writeInt8 1 ;;;
    writeAny (sin_addr addr) ;;;
    writeAny (sin_port addr) ;;;
    writeRaw dat len).

(** [addr], [port]: the [sockaddr] that [ProxyBase::udpSend] fills in. *)
Definition socks5_send (u : Socks5ProxyUdp) (addr : bytes) (port : Z) (data : bytes)
    : M (proxy Socks5ProxyUdp) Socks5ProxyUdp :=
  let paddr := {| sin_addr := addr; sin_port := store 2 (htons port) |} in
  let* packet := mem (encapsulate paddr data (zlen data)) in
  let* u := if su_isReady u then su_forward u packet ;;; ret u
            else ret (set_su_waiting (Some packet) u) in
  su_visit u.

(** The variables of the callback after its reads: atyp, the address and the port. *)
Definition read_udp_header (data : bytes) : option (bytes * sockaddr_in) :=
  unpack data (
    let* _ := readAny (uninit 2) in
    let* _ := readAny (uninit 1) in
    let* atyp := readAny (uninit 1) in
    let* addr := readAny (uninit 4) in
    let* port := readAny (uninit 2) in
    ret (atyp.2, {| sin_addr := addr.2; sin_port := port.2 |})).

(** The callback of [UDPDataEvent].  [data.get() + UDPHeaderSize] is only read through
    [send_udp_ex]. *)
Definition socks5_udp_data (data : bytes) (u : Socks5ProxyUdp) : M (proxy Socks5ProxyUdp) Socks5ProxyUdp :=
  let* (atyp, addr_in) := mem (read_udp_header data) in
  if negb (load atyp =? 1) then ret u
  else
    let part := {| p_ptr := drop (Z.to_nat UDPHeaderSize) data; p_len := u16 (zlen data - UDPHeaderSize) |} in
    let* _ := on_world (send_udp_ex (sin_addr addr_in) (ntohs (load (sin_port addr_in)))
                          (su_src u) (su_srcport u) [part]) in
    su_visit u.

Definition socks5_on (ev : socks5_event) (u : Socks5ProxyUdp) : M (proxy Socks5ProxyUdp) Socks5ProxyUdp :=
  match ev with
  | SeConnect => with_protocol (s5_connected cfg) u
  | SeTcpData data => with_protocol (s5_data cfg data) u
  | SeUdpData data => if su_isReady u then socks5_udp_data data u else ret u    (* recv not started *)
  end.

(** The destructors of the object and of its protocol. *)
Definition socks5_close (u : Socks5ProxyUdp) : M (proxy Socks5ProxyUdp) unit :=
  px_emit (PxClose (su_udp u)) ;;;
  px_emit (PxTcpClose (su_tcp u)).

Definition socks5_item : UdpItem Socks5ProxyUdp :=
  {| item_init := socks5_init; item_expire_at := su_expire_at; item_send := socks5_send;
     item_close := socks5_close; item_event := socks5_event; item_on := socks5_on |}.
End udp.

(** ** Packing *)

Section packing.
Context `{Env}.
Implicit Types v pre rest : bytes.

(** A buffer between two operations: [pre] is behind the offset. *)
Definition at_pos pre rest : ProtocolPacker :=
  {| pp_data := pre ++ rest; pp_offset := zlen pre; pp_length := zlen pre + zlen rest |}.

(** [m] writes exactly [v] wherever there is room for it. *)
Definition puts {A} (m : M ProtocolPacker A) v : Prop :=
  forall pre rest, zlen v <= zlen rest -> exists a, m (at_pos pre rest) = Ok a (at_pos (pre ++ v) (drop (length v) rest)).

(** [m] reads exactly [v], with result [a]. *)
Definition takes {A} (m : M ProtocolPacker A) v (a : A) : Prop :=
  forall pre rest, m (at_pos pre (v ++ rest)) = Ok a (at_pos (pre ++ v) rest).

Lemma puts_writeAny v : puts (writeAny v) v.
Proof.
  intros pre rest Hl. exists true. unfold writeAny, at_pos. cbn [pp_data pp_offset pp_length].
  destruct (Z.ltb_spec (zlen pre + zlen rest) (zlen pre + zlen v)); [lia|]. unfold memcpy.
  rewrite mem_get_Some by zlia. rewrite drop_0, to_nat_zlen, firstn_all. cbn [mbind option_bind].
  rewrite mem_put_Some by zlia. rewrite to_nat_zlen, take_app_length, drop_app_ge by lia.
  replace (zlen (pre ++ v) + zlen (drop (length v) rest)) with (zlen pre + zlen rest)
    by (unfold zlen in *; rewrite length_app, length_drop; lia).
  rewrite zlen_app, <- app_assoc. do 5 f_equal. lia.
Qed.

Lemma puts_writeRaw v n : n = zlen v -> puts (writeRaw v n) v.
Proof. intros ->. apply puts_writeAny. Qed.
Lemma puts_writeUint8 x : is_u8 x -> puts (writeUint8 x) [x].
Proof. intros Hx. unfold writeUint8. rewrite u8_id, store_single by done. apply puts_writeAny. Qed.
Lemma puts_writeInt8 x : is_u8 x -> puts (writeInt8 x) [x].
Proof. apply puts_writeUint8. Qed.

Lemma puts_ret {A} (a : A) : puts (ret a) [].
Proof. intros pre rest _. exists a. by rewrite app_nil_r. Qed.

Lemma puts_bind {A B} (m : M ProtocolPacker A) (k : A -> M ProtocolPacker B) v v' :
  puts m v -> (forall a, puts (k a) v') -> puts (bind m k) (v ++ v').
Proof.
  intros Hm Hk pre rest Hl. rewrite zlen_app in Hl.
  destruct (Hm pre rest) as [a Ea]; [zlia|]. unfold bind. rewrite Ea.
  destruct (Hk a (pre ++ v) (drop (length v) rest)) as [b Eb].
  { unfold zlen in *. rewrite length_drop. lia. }
  exists b. by rewrite Eb, app_assoc, drop_drop, length_app.
Qed.

Lemma pack_puts {A} len (m : M ProtocolPacker A) v : puts m v -> zlen v = len -> pack len m = Some v.
Proof.
  intros Hm Hl. unfold pack. pose proof (zlen_nonneg v).
  assert (Eu : zlen (uninit len) = len) by (apply zlen_uninit; lia).
  assert (newProtocolPacker len = at_pos [] (uninit len)) as ->
    by (unfold newProtocolPacker, at_pos; by rewrite Eu).
  destruct (Hm [] (uninit len)) as [a ->]; [lia|]. cbn. rewrite drop_ge, app_nil_r; [done|].
  unfold zlen in *. lia.
Qed.

Lemma takes_readAny old v : zlen old = zlen v -> takes (readAny old) v (true, v).
Proof.
  intros Hl pre rest. unfold readAny, at_pos. cbn [pp_data pp_offset pp_length]. rewrite Hl, !zlen_app.
  destruct (Z.ltb_spec (zlen pre + (zlen v + zlen rest)) (zlen pre + zlen v)); [zlia|].
  rewrite mem_get_Some by zlia. rewrite !to_nat_zlen, drop_app_length, take_app_length.
  do 2 f_equal; [by rewrite app_assoc|lia].
Qed.

Lemma takes_ret {A} (a : A) : takes (ret a) [] a.
Proof. intros pre rest. by rewrite app_nil_r. Qed.

Lemma takes_bind {A B} (m : M ProtocolPacker A) (k : A -> M ProtocolPacker B) v v' a b :
  takes m v a -> takes (k a) v' b -> takes (bind m k) (v ++ v') b.
Proof. intros Hm Hk pre rest. unfold bind. by rewrite <- app_assoc, Hm, Hk, app_assoc. Qed.

Lemma unpack_takes {A} data rest (m : M ProtocolPacker A) v a :
  takes m v a -> data = v ++ rest -> unpack data m = Some a.
Proof.
  intros Hm ->. unfold unpack.
  change {| pp_data := v ++ rest; pp_offset := 0; pp_length := zlen (v ++ rest) |} with (at_pos [] (v ++ rest)).
  by rewrite Hm.
Qed.
End packing.

Create HintDb puts.
#[export] Hint Resolve puts_writeAny puts_writeRaw puts_writeUint8 puts_writeInt8 puts_ret : puts.
#[export] Hint Extern 1 (is_u8 _) => (unfold is_u8; lia) : puts.

(** Find what a packing program writes. *)
Ltac puts_tac := repeat first [eapply puts_bind; [solve [eauto with puts]|intros _]|solve [eauto with puts]].
Ltac takes_tac := repeat first [eapply takes_bind; [apply takes_readAny|]|apply takes_ret].

(** ** The packets *)

Section packets.
Context `{Env}.

Definition greeting_bytes (cfg : Socks5ServerConfig) : bytes :=
  if decide (cfg_username cfg = []) then [5; 1; 0] else [5; 2; 0; 2].

Lemma greeting_run cfg : greeting cfg = Some (greeting_bytes cfg).
Proof.
  unfold greeting, greeting_bytes. case_bool_decide; case_decide; try done; cbn [negb].
  - apply (pack_puts _ _ ([5] ++ [1] ++ [0] ++ [])); [puts_tac|done].
  - apply (pack_puts _ _ ([5] ++ [2] ++ [0] ++ [2])); [puts_tac|done].
Qed.

Definition userpass_bytes (cfg : Socks5ServerConfig) : bytes :=
  [1] ++ [zlen (cfg_username cfg)] ++ cfg_username cfg ++ [zlen (cfg_password cfg)] ++ cfg_password cfg.

Lemma auth_request_run cfg :
  zlen (cfg_username cfg) <= 255 -> zlen (cfg_password cfg) <= 255 ->
  auth_request cfg = Some (userpass_bytes cfg).
Proof.
  intros Hu Hp. unfold auth_request. rewrite !u8_id by (unfold is_u8; zlia).
  apply pack_puts; [|unfold userpass_bytes; zlia]. unfold userpass_bytes.
  assert (is_u8 (zlen (cfg_username cfg)) /\ is_u8 (zlen (cfg_password cfg))) as [? ?] by (unfold is_u8; zlia).
  puts_tac.
Qed.

Lemma request_run cmd addr :
  is_u8 cmd -> length (sin_addr addr) = 4%nat -> length (sin_port addr) = 2%nat ->
  request cmd addr = Some ([5; cmd; 0; 1] ++ sin_addr addr ++ sin_port addr).
Proof.
  intros Hc Ha Hp. apply (pack_puts _ _ ([5] ++ [cmd] ++ [0] ++ [1] ++ sin_addr addr ++ sin_port addr)); [puts_tac|].
  unfold zlen. rewrite !length_app, Ha, Hp. done.
Qed.

(** The SOCKS5 header of a datagram. *)
Definition udp_wrapped (addr : bytes) (port : Z) (data : bytes) : bytes :=
  [0; 0; 0; 1] ++ addr ++ [port / 256; port mod 256] ++ data.

Lemma encapsulate_run addr port data :
  length addr = 4%nat -> is_u16 port ->
  encapsulate {| sin_addr := addr; sin_port := store 2 (htons port) |} data (zlen data) =
    Some (udp_wrapped addr port data).
Proof.
  intros Ha Hp. unfold encapsulate. cbn [sin_addr sin_port]. rewrite store_htons by done.
  assert (E0 : puts (writeUint16 0) [0; 0]).
  { unfold writeUint16. replace (store 2 (u16 0)) with [0; 0] by (unfold store; by destruct host_endian).
    apply puts_writeAny. }
  apply (pack_puts _ _ ([0; 0] ++ [0] ++ [1] ++ addr ++ [port / 256; port mod 256] ++ data)).
  - eapply puts_bind; [exact E0|intros _]. puts_tac.
  - rewrite !zlen_app. unfold zlen at 4. rewrite Ha. unfold UDPHeaderSize. change (zlen [0; 0]) with 2.
    change (zlen [0]) with 1. change (zlen [1]) with 1. change (zlen [port / 256; port mod 256]) with 2. lia.
Qed.

Lemma read_udp_header_run r0 r1 f t addr port data :
  length addr = 4%nat -> length port = 2%nat ->
  read_udp_header ([r0; r1] ++ [f] ++ [t] ++ addr ++ port ++ data) =
    Some ([t], {| sin_addr := addr; sin_port := port |}).
Proof.
  intros Ha Hp. unfold read_udp_header.
  apply (unpack_takes _ data _ ([r0; r1] ++ [f] ++ [t] ++ addr ++ port ++ [])); [|by rewrite !app_nil_r, <- !app_assoc].
  takes_tac; rewrite zlen_uninit by lia; unfold zlen; rewrite ?Ha, ?Hp; done.
Qed.

Lemma read_reply_run v r s t addr port :
  length addr = 4%nat -> length port = 2%nat ->
  read_reply ([v] ++ [r] ++ [s] ++ [t] ++ addr ++ port) = Some ([v], [r], [t], {| sin_addr := addr; sin_port := port |}).
Proof.
  intros Ha Hp. unfold read_reply.
  apply (unpack_takes _ [] _ ([v] ++ [r] ++ [s] ++ [t] ++ addr ++ port ++ [])); [|by rewrite !app_nil_r].
  takes_tac; try (rewrite zlen_uninit by lia); unfold zlen; rewrite ?Ha, ?Hp; done.
Qed.
End packets.

(** ** The handshake *)

Section handshake.
Context `{Env}.
Variable cfg : Socks5ServerConfig.
Variable cmd : Z.
Variable dest : sockaddr_in.
Hypothesis cmd_ok : is_u8 cmd.
Hypothesis dest_addr : length (sin_addr dest) = 4%nat.
Hypothesis dest_port : length (sin_port dest) = 2%nat.

(** The request for [cmd] and [dest], the chunks the server sends one after the other. *)
Definition s5_session (chunks : list bytes) : M Socks5Protocol unit :=
  auth cfg ;;;
  s5_connected cfg ;;;
  for_each chunks (s5_data cfg).

(** A reply that grants the request, and the address in it. *)
Definition reply_addr (r : bytes) : option sockaddr_in :=
  if decide (length r = 10%nat /\ take 2 r = [5; 0] /\ r !! 3%nat = Some 1)
  then Some {| sin_addr := take 4 (drop 4 r); sin_port := drop 8 r |} else None.

(** The user name and the password fit their length bytes. *)
Definition credentials_fit : Prop := zlen (cfg_username cfg) <= 255 /\ zlen (cfg_password cfg) <= 255.
#[local] Instance credentials_fit_dec : Decision credentials_fit.
Proof. unfold credentials_fit. apply _. Defined.

(** Whether the server lets us in without or with a password, and its reply. *)
Definition granted (chunks : list bytes) : option (bool * sockaddr_in) :=
  match chunks with
  | m :: rest =>
      if decide (m = [5; 0]) then
        match rest with r :: _ => pair false <$> reply_addr r | [] => None end
      else if decide (m = [5; 2] /\ credentials_fit) then
        match rest with
        | a :: r :: _ => if decide (a = [1; 0]) then pair true <$> reply_addr r else None
        | _ => None
        end
      else None
  | [] => None
  end.

Definition hello : list s5_event := [S5Connect (cfg_server cfg); S5Read; S5Write (greeting_bytes cfg)].
Definition asked : list s5_event := [S5Write ([5; cmd; 0; 1] ++ sin_addr dest ++ sin_port dest)].
Definition success (addr : sockaddr_in) : list s5_event :=
  if decide (cmd = 3) then [S5UdpReady addr] else [S5Stop; S5Ready].

(** The protocol in the middle of the conversation. *)
Definition talking (cb : option data_cb) (closed : bool) (out : list s5_event) : Socks5Protocol :=
  {| s5_cmd := cmd; s5_dest := dest; s5_connect_cb := false; s5_data_cb := cb; s5_closed := closed; s5_out := out |}.

Lemma RASSERT_false e rest out :
  RASSERT false e rest (talking None false out) = Ok tt (talking None true (out ++ [S5Error e; S5Close])).
Proof. unfold RASSERT, Assert. cbn. unfold ret, set_s5_closed, set_s5_out. cbn. by rewrite <- app_assoc. Qed.

Lemma RASSERT_true e rest q : RASSERT true e rest q = rest q.
Proof. done. Qed.

Lemma read_two (a b : Z) : READ_NET8 [a; b] 0 = Some a /\ READ_NET8 [a; b] 1 = Some b.
Proof. rewrite !READ_NET8_eq. done. Qed.

Lemma send_request_run out :
  send_request (talking None false out) = Ok tt (talking (Some OnReply) false (out ++ asked)).
Proof.
  unfold send_request. unfold bind at 1. unfold gets at 1, id. cbn [s5_cmd s5_dest talking].
  by rewrite request_run.
Qed.

Lemma two_bytes (data : bytes) : (zlen data =? 2) = true -> exists a b, data = [a; b].
Proof.
  intros Hl%Z.eqb_eq. unfold zlen in Hl. destruct data as [|a [|b [|c data]]]; cbn in Hl; try lia. by exists a, b.
Qed.

(** A chunk that refuses: one error, and the connection is closed. *)
Definition refused (out : list s5_event) (q : Socks5Protocol) : Prop :=
  exists e, q = talking None true (out ++ [S5Error e; S5Close]).

Lemma s5_data_method data out :
  exists q, s5_data cfg data (talking (Some OnMethod) false out) = Ok tt q /\
    if decide (data = [5; 0]) then q = talking (Some OnReply) false (out ++ asked)
    else if decide (data = [5; 2] /\ credentials_fit)
    then q = talking (Some OnAuth) false (out ++ [S5Write (userpass_bytes cfg)])
    else refused out q.
Proof.
  change (s5_data cfg data (talking (Some OnMethod) false out)) with (on_method cfg data (talking None false out)).
  unfold on_method. destruct (zlen data =? 2) eqn:El.
  2: { rewrite RASSERT_false. eexists. split; [done|].
       repeat case_decide; first [by subst|by destruct_and!; subst|by eexists]. }
  apply two_bytes in El as (a & b & ->). destruct (read_two a b) as [-> ->]. rewrite RASSERT_true. cbn [mem].
  do 2 (rewrite (bind_ok _ _ _ _ (talking None false out)) by done).
  destruct (Z.eqb_spec a 5) as [->|Ha].
  2: { rewrite RASSERT_false. eexists. split; [done|]. rewrite !decide_False by naive_solver. by eexists. }
  rewrite RASSERT_true. destruct (Z.eqb_spec b 0) as [->|Hb0].
  { rewrite send_request_run. eexists. split; [done|]. by rewrite decide_True. }
  destruct (Z.eqb_spec b 2) as [->|Hb2].
  2: { rewrite RASSERT_false. eexists. split; [done|]. rewrite !decide_False by naive_solver. by eexists. }
  destruct (decide credentials_fit) as [[Hu Hp]|Hc].
  - rewrite (proj2 (Z.leb_le _ _) Hu), (proj2 (Z.leb_le _ _) Hp). cbn [andb].
    rewrite RASSERT_true, auth_request_run by done. eexists. split; [reflexivity|].
    by rewrite decide_False, decide_True.
  - replace ((_ <=? 255) && (_ <=? 255)) with false.
    + rewrite RASSERT_false. eexists. split; [done|]. rewrite !decide_False by naive_solver. by eexists.
    + symmetry. apply andb_false_iff. unfold credentials_fit in Hc. rewrite !Z.leb_gt. lia.
Qed.

Lemma s5_data_auth data out :
  exists q, s5_data cfg data (talking (Some OnAuth) false out) = Ok tt q /\
    if decide (data = [1; 0]) then q = talking (Some OnReply) false (out ++ asked) else refused out q.
Proof.
  change (s5_data cfg data (talking (Some OnAuth) false out)) with (on_auth data (talking None false out)).
  unfold on_auth. destruct (zlen data =? 2) eqn:El.
  2: { rewrite RASSERT_false. eexists. split; [done|]. case_decide; [by subst|by eexists]. }
  apply two_bytes in El as (a & b & ->). destruct (read_two a b) as [-> ->]. rewrite RASSERT_true. cbn [mem].
  do 2 (rewrite (bind_ok _ _ _ _ (talking None false out)) by done).
  destruct (Z.eqb_spec a 1) as [->|Ha]; [rewrite RASSERT_true; destruct (Z.eqb_spec b 0) as [->|Hb]|].
  - rewrite RASSERT_true, send_request_run. eexists. split; [done|]. by rewrite decide_True.
  - rewrite RASSERT_false. eexists. split; [done|]. rewrite decide_False by naive_solver. by eexists.
  - rewrite RASSERT_false. eexists. split; [done|]. rewrite decide_False by naive_solver. by eexists.
Qed.

Lemma s5_data_reply data out :
  exists q, s5_data cfg data (talking (Some OnReply) false out) = Ok tt q /\
    match reply_addr data with
    | Some addr => q = talking None false (out ++ success addr)
    | None => refused out q
    end.
Proof.
  change (s5_data cfg data (talking (Some OnReply) false out)) with (on_reply data (talking None false out)).
  unfold on_reply, reply_addr. destruct (Z.eqb_spec (zlen data) 10) as [El|El].
  2: { rewrite RASSERT_false, decide_False by (unfold zlen in El; lia). eexists; split; [done|by eexists]. }
  assert (Hl : length data = 10%nat) by (unfold zlen in El; lia).
  do 4 (destruct data as [|? data]; [done|]). rewrite RASSERT_true.
  assert (L6 : length data = 6%nat) by (cbn in Hl; lia). destruct (length_6_inv _ L6) as (a & b & c & d & p & s & ->).
  change (z :: z0 :: z1 :: z2 :: [a; b; c; d; p; s]) with ([z] ++ [z0] ++ [z1] ++ [z2] ++ [a; b; c; d] ++ [p; s]).
  rewrite read_reply_run by done. cbn [mem]. rewrite (bind_ok _ _ _ _ (talking None false out)) by done.
  cbv iota beta. rewrite !load_single. cbn [app length take drop lookup list_lookup].
  destruct (Z.eqb_spec z 5) as [->|?]; [rewrite RASSERT_true|
    rewrite RASSERT_false, decide_False by naive_solver; eexists; split; [done|by eexists]].
  destruct (Z.eqb_spec z0 0) as [->|?]; [rewrite RASSERT_true|
    rewrite RASSERT_false, decide_False by naive_solver; eexists; split; [done|by eexists]].
  destruct (Z.eqb_spec z2 1) as [->|?]; [rewrite RASSERT_true|
    rewrite RASSERT_false, decide_False by naive_solver; eexists; split; [done|by eexists]].
  rewrite decide_True by done. unfold success. unfold bind at 1. unfold gets at 1. cbn [s5_cmd talking].
  destruct (Z.eqb_spec cmd 3); [rewrite decide_True by done|rewrite decide_False by done];
    (eexists; split; [reflexivity|]); cbn; unfold set_s5_out, talking; cbn; by rewrite <- ?app_assoc.
Qed.

(** Without a callback, or closed, the rest of the conversation is ignored. *)
Lemma s5_data_idle chunks closed out :
  for_each chunks (s5_data cfg) (talking None closed out) = Ok tt (talking None closed out).
Proof. induction chunks as [|c chunks IH]; [done|]. cbn. destruct closed; exact IH. Qed.

Lemma s5_session_start chunks :
  s5_session chunks (newSocks5Protocol cmd dest) =
  for_each chunks (s5_data cfg) (talking (Some OnMethod) false hello).
Proof.
  unfold s5_session. rewrite (bind_ok _ _ _ tt (set_s5_connect_cb true (talking (Some OnMethod) false [S5Connect (cfg_server cfg)])))
    by done.
  rewrite (bind_ok _ _ _ tt (talking (Some OnMethod) false hello)); [done|].
  unfold s5_connected. unfold bind at 1. unfold gets at 1, id. cbn [s5_closed s5_connect_cb set_s5_connect_cb talking orb negb].
  unfold on_connect_event. rewrite greeting_run. reflexivity.
Qed.

(** The trace of a conversation the server did not grant. *)
Definition unfinished (q : Socks5Protocol) : Prop :=
  exists sent err, s5_out q = hello ++ sent ++ err /\
    sent ∈ [[]; asked; [S5Write (userpass_bytes cfg)]; [S5Write (userpass_bytes cfg)] ++ asked] /\
    (s5_closed q = false /\ err = [] \/ s5_closed q = true /\ exists e, err = [S5Error e; S5Close]).

Lemma refused_unfinished sent chunks q :
  refused (hello ++ sent) q ->
  sent ∈ [[]; asked; [S5Write (userpass_bytes cfg)]; [S5Write (userpass_bytes cfg)] ++ asked] ->
  exists q', for_each chunks (s5_data cfg) q = Ok tt q' /\ unfinished q'.
Proof.
  intros [e ->] Hs. rewrite s5_data_idle. eexists. split; [done|]. exists sent, [S5Error e; S5Close].
  split; [by rewrite <- app_assoc|]. split; [done|]. right. eauto.
Qed.

Lemma pending_unfinished sent cb :
  sent ∈ [[]; asked; [S5Write (userpass_bytes cfg)]; [S5Write (userpass_bytes cfg)] ++ asked] ->
  unfinished (talking cb false (hello ++ sent)).
Proof. intros Hs. exists sent, []. split; [cbn; by rewrite app_nil_r|]. auto. Qed.

(** From the moment the request is out. *)
Lemma reply_run chunks (a : bool) sent :
  sent = (if a then [S5Write (userpass_bytes cfg)] else []) ++ asked ->
  exists q, for_each chunks (s5_data cfg) (talking (Some OnReply) false (hello ++ sent)) = Ok tt q /\
    match match chunks with r :: _ => reply_addr r | [] => None end with
    | Some addr => s5_out q = hello ++ sent ++ success addr /\ s5_closed q = false
    | None => unfinished q
    end.
Proof.
  intros Es. assert (Hin : sent ∈ [[]; asked; [S5Write (userpass_bytes cfg)]; [S5Write (userpass_bytes cfg)] ++ asked])
    by (destruct a; subst sent; set_solver).
  destruct chunks as [|r chunks]; cbn [for_each].
  { eexists. split; [done|]. by apply pending_unfinished. }
  destruct (s5_data_reply r (hello ++ sent)) as (q & E & Hq). rewrite (bind_ok _ _ _ tt q) by done.
  destruct (reply_addr r) as [addr|].
  - subst q. rewrite s5_data_idle. eexists. split; [done|]. split; [|done].
    change ((hello ++ sent) ++ success addr = hello ++ sent ++ success addr). by rewrite <- app_assoc.
  - by apply (refused_unfinished sent).
Qed.

Lemma handshake_run chunks :
  exists q, s5_session chunks (newSocks5Protocol cmd dest) = Ok tt q /\
    match granted chunks with
    | Some (password, addr) =>
        s5_out q = hello ++ ((if password : bool then [S5Write (userpass_bytes cfg)] else []) ++ asked) ++ success addr /\
        s5_closed q = false
    | None => unfinished q
    end.
Proof.
  rewrite s5_session_start. destruct chunks as [|m chunks]; cbn [for_each granted].
  { eexists. split; [done|]. rewrite <- (app_nil_r hello). apply pending_unfinished. set_solver. }
  destruct (s5_data_method m hello) as (q & E & Hq). rewrite (bind_ok _ _ _ tt q) by done.
  destruct (decide (m = [5; 0])).
  { subst q. destruct (reply_run chunks false asked) as (q & E' & Hq); [done|]. exists q. split; [done|].
    destruct chunks as [|r ?]; [done|]. by destruct (reply_addr r). }
  destruct (decide (m = [5; 2] /\ credentials_fit)) as [Hm|Hm].
  2: { rewrite <- (app_nil_r hello) in Hq. apply (refused_unfinished [] chunks q); [done|set_solver]. }
  subst q. destruct chunks as [|a chunks]; cbn [for_each].
  { eexists. split; [done|]. apply pending_unfinished. set_solver. }
  destruct (s5_data_auth a (hello ++ [S5Write (userpass_bytes cfg)])) as (q & E' & Hq).
  rewrite (bind_ok _ _ _ tt q) by done. destruct (decide (a = [1; 0])).
  2: { destruct (refused_unfinished [S5Write (userpass_bytes cfg)] chunks q) as (q' & ? & ?); [done|set_solver|].
       exists q'. split; [done|]. by destruct chunks. }
  subst q. rewrite <- app_assoc.
  destruct (reply_run chunks true ([S5Write (userpass_bytes cfg)] ++ asked)) as (q & E'' & Hq); [done|].
  exists q. split; [done|]. destruct chunks as [|r ?]; [done|]. by destruct (reply_addr r).
Qed.
End handshake.

(** ** The association in the table *)

Section safe_packing.
Context `{Env}.

(** The buffer has the length the packer says, and the offset is inside. *)
Definition packer_ok (p : ProtocolPacker) : Prop :=
  zlen (pp_data p) = pp_length p /\ 0 <= pp_offset p <= pp_length p.
(** [m] never touches memory outside the buffer. *)
Definition stays_inside {A} (m : M ProtocolPacker A) : Prop :=
  forall p, packer_ok p -> post m (fun _ => packer_ok) p.

Lemma inside_writeAny v : stays_inside (writeAny v).
Proof.
  intros p [Hl Ho]. unfold post, writeAny. destruct (Z.ltb_spec (pp_length p) (pp_offset p + zlen v)); [done|].
  unfold memcpy. rewrite mem_get_Some by zlia. rewrite drop_0, to_nat_zlen, firstn_all. cbn [mbind option_bind].
  destruct (mem_put (pp_data p) (pp_offset p) v) eqn:E; [|by rewrite mem_put_Some in E by lia].
  apply mem_put_zlen in E. split; cbn; [congruence|zlia].
Qed.
Lemma inside_writeRaw v n : n = zlen v -> stays_inside (writeRaw v n).
Proof. intros ->. apply inside_writeAny. Qed.

Lemma inside_readAny v : stays_inside (readAny v).
Proof.
  intros p [Hl Ho]. unfold post, readAny. destruct (Z.ltb_spec (pp_length p) (pp_offset p + zlen v)); [done|].
  rewrite mem_get_Some by zlia. split; cbn; [done|zlia].
Qed.

Lemma inside_ret {A} (a : A) : stays_inside (ret a).
Proof. by intros p. Qed.

Lemma inside_bind {A B} (m : M ProtocolPacker A) (k : A -> M ProtocolPacker B) :
  stays_inside m -> (forall a, stays_inside (k a)) -> stays_inside (bind m k).
Proof. intros Hm Hk p Hp. apply post_bind. eapply post_mono; [by apply Hm|]. intros a p' Hp'. by apply Hk. Qed.

Lemma pack_inside {A} len (m : M ProtocolPacker A) : 0 <= len -> stays_inside m -> is_Some (pack len m).
Proof.
  intros Hl Hm. destruct (post_inv _ _ _ (Hm (newProtocolPacker len) ltac:(split; [by apply zlen_uninit|cbn; lia])))
    as (a & p & E & _). unfold pack. rewrite E. eauto.
Qed.

Lemma unpack_inside {A} data (m : M ProtocolPacker A) : stays_inside m -> is_Some (unpack data m).
Proof.
  intros Hm. destruct (post_inv _ _ _ (Hm {| pp_data := data; pp_offset := 0; pp_length := zlen data |}
    ltac:(split; cbn; zlia))) as (a & p & E & _). unfold unpack. rewrite E. eauto.
Qed.
End safe_packing.

#[export] Hint Resolve inside_writeAny inside_writeRaw inside_readAny inside_ret : puts.
Ltac inside_tac := repeat first [apply inside_bind; [solve [eauto with puts]|intros ?]|solve [eauto with puts]].

Section association.
Context `{Env}.
Variable cfg : Socks5ServerConfig.

Lemma encapsulate_total addr data : is_Some (encapsulate addr data (zlen data)).
Proof. apply pack_inside; [unfold UDPHeaderSize; zlia|inside_tac]. Qed.

Lemma read_udp_header_total data : is_Some (read_udp_header data).
Proof. apply unpack_inside. inside_tac. Qed.

(** What no operation of an object changes. *)
Definition same_object (u : Socks5ProxyUdp) (p : proxy Socks5ProxyUdp) (u' : Socks5ProxyUdp)
    (p' : proxy Socks5ProxyUdp) : Prop :=
  (su_src u', su_srcport u') = (su_src u, su_srcport u) /\ su_udp u' = su_udp u /\ su_tcp u' = su_tcp u /\
  px_table p' = px_table p /\ px_next p' = px_next p.

Lemma same_object_trans u1 p1 u2 p2 u3 p3 :
  same_object u1 p1 u2 p2 -> same_object u2 p2 u3 p3 -> same_object u1 p1 u3 p3.
Proof. unfold same_object. intros (?&?&?&?&?) (?&?&?&?&?). split_and!; congruence. Qed.

Lemma on_udp_ready_post addr u p : post (on_udp_ready addr u) (same_object u p) p.
Proof. unfold on_udp_ready, post. cbn. by destruct (su_waiting u). Qed.

Lemma replay_post events u p : post (replay events u) (same_object u p) p.
Proof.
  revert u p. induction events as [|e events IH]; intros u p; [done|]. cbn [replay]. apply post_bind.
  apply (post_mono _ (same_object u p)).
  - destruct e; try done. apply on_udp_ready_post.
  - intros u1 p1 Hs. eapply post_mono; [apply IH|]. intros u2 p2. by apply same_object_trans.
Qed.

Lemma with_protocol_wlp m u p : wlp (with_protocol m u) (same_object u p) p.
Proof.
  unfold with_protocol. destruct (m _) as [[] q|]; [|done].
  destruct (post_inv _ _ _ (replay_post (s5_out q) (set_su_protocol (set_s5_out [] q) u) p)) as (u' & p' & E & Hs).
  unfold wlp. by rewrite E.
Qed.

Lemma socks5_send_run addr port data u p :
  exists packet u' p', encapsulate {| sin_addr := addr; sin_port := store 2 (htons port) |} data (zlen data) = Some packet /\
    socks5_send u addr port data p = Ok u' p' /\ same_object u p u' p' /\
    su_protocol u' = su_protocol u /\ su_isReady u' = su_isReady u /\
    su_expire_at u' = now_at (px_world p) + PROXY_UDP_TABLE_TTL /\
    px_world p' = tick (px_world p) /\
    if su_isReady u
    then px_out p' = px_out p ++ [PxSend (su_udp u) (sin_addr (su_server u)) (ntohs (load (sin_port (su_server u)))) packet] /\
         su_waiting u' = su_waiting u
    else px_out p' = px_out p /\ su_waiting u' = Some packet.
Proof.
  destruct (encapsulate_total {| sin_addr := addr; sin_port := store 2 (htons port) |} data) as [packet E].
  exists packet. unfold socks5_send. rewrite E. cbn [mem].
  destruct (su_isReady u) eqn:Er; do 2 eexists; (split; [done|split; [reflexivity|]]); by rewrite ?Er.
Qed.

Lemma socks5_on_wlp ev u p : wlp (socks5_on cfg ev u) (same_object u p) p.
Proof.
  destruct ev as [|data|data]; cbn [socks5_on]; [apply with_protocol_wlp..|].
  destruct (su_isReady u); [|done]. unfold socks5_udp_data. wlp_step. wlp_step.
  destruct (_ : bytes * sockaddr_in) as [atyp addr]. destruct (negb _); [done|].
  unfold wlp, bind, on_world. by destruct (send_udp_ex _ _ _ _ _ _).
Qed.

#[local] Instance socks5_item_here : UdpItem Socks5ProxyUdp := socks5_item cfg.
#[export] Program Instance socks5_laws : UdpLaws Socks5ProxyUdp (UdpItem0 := socks5_item cfg) :=
  {| item_key u := (su_src u, su_srcport u); item_sock := su_udp;
     item_closes u := [PxClose (su_udp u); PxTcpClose (su_tcp u)] |}.
Next Obligation. intros. unfold post, item_init. cbn. split_and!; first [done|lia]. Qed.
Next Obligation.
  intros u addr port data p. destruct (socks5_send_run addr port data u p) as (packet & u' & p' & _ & E & Hs & _).
  eapply post_ok; [exact E|]. destruct Hs as (?&?&?&?&?). by split_and!.
Qed.
Next Obligation.
  intros u p. unfold item_close. cbn [socks5_item socks5_item_here]. unfold socks5_close, px_emit, bind, modify.
  unfold set_px_out. cbn [px_out px_table px_next px_world]. by rewrite <- app_assoc.
Qed.
Next Obligation.
  intros ev u p. cbn. eapply wlp_mono; [apply socks5_on_wlp|]. intros u' p' (?&?&?&?&?). by split_and!.
Qed.

(** *** From the server to the console *)

(** A datagram the server relayed, with any reserved bytes and fragment number. *)
Definition relayed (r0 r1 frag : Z) (ip : bytes) (port : Z) (data : bytes) : bytes :=
  [r0; r1] ++ [frag] ++ [1] ++ ip ++ [port / 256; port mod 256] ++ data.

Lemma socks5_udp_data_run u p r0 r1 frag ip port data i :
  ctx_ok (pctx (px_world p)) -> is_ip (su_src u) -> is_ip ip -> is_u16 port -> is_bytes data ->
  42 + zlen data < BUFFER_SIZE ->
  arp_find (pc_arp_list (pctx (px_world p))) (su_src u) (now_at (px_world p)) = Some i ->
  let w := px_world p in
  exists ck u' p', socks5_udp_data (relayed r0 r1 frag ip port data) u p = Ok u' p' /\
    rfc1071_valid (pseudo_hdr ip (su_src u) (8 + zlen data) ++
                   udp_hdr ck port (su_srcport u) (8 + zlen data) ++ data) /\
    w_out (px_world p') = w_out w ++ [EvFrame (framed (ai_mac i) ETHER_TYPE_IPV4
      (ip_hdr ip (su_src u) IPV4_PROTOCOL_UDP (pc_identification (pctx w)) (28 + zlen data) ++
       udp_hdr ck port (su_srcport u) (8 + zlen data) ++ data) w)].
Proof.
  intros Hc Hs Hi Hp Hb Hl Ha w. change BUFFER_SIZE with 2048 in Hl. pose proof (proj1 Hi) as Li.
  destruct (send_udp_ex_run ip port (su_src u) (su_srcport u) data (px_world p)) as (ck & Hck & Hv & Er); [done..|].
  rewrite Ha in Er. exists ck. do 2 eexists. split; [|split; [exact Hv|]].
  - unfold socks5_udp_data, relayed. rewrite read_udp_header_run by done. cbn [mem].
    rewrite (bind_ok _ _ _ _ p) by done. cbv iota beta. rewrite load_single. cbn [Z.eqb negb Pos.eqb sin_addr sin_port].
    change (ntohs (load [port / 256; port mod 256])) with (htons (load [port / 256; port mod 256])).
    rewrite htons_load, hi_lo_val by auto with lanplay.
    replace (drop _ _) with data by (destruct (length_4_inv ip Li) as (a & b & c & d & ->); done).
    replace (zlen _ - UDPHeaderSize) with (zlen data).
    2: { rewrite !zlen_app. unfold zlen at 5, UDPHeaderSize. rewrite Li. change (zlen [r0; r1]) with 2. change (zlen [frag]) with 1.
         change (zlen [1]) with 1. change (zlen [port / 256; port mod 256]) with 2. lia. }
    rewrite u16_id by (unfold is_u16; zlia). rewrite (whole_eq _ (zlen data)) by done.
    unfold on_world, bind at 1. rewrite Er. reflexivity.
  - done.
Qed.

Lemma payload_loop_overrun parts part offset sum :
  offset ∈ [0; 1] -> p_ptr part = [] -> 2 < p_len part -> payload_loop (parts ++ [part]) offset sum = None.
Proof.
  revert offset sum. induction parts as [|q parts IH]; intros offset sum Ho Hp Hl; cbn [app payload_loop].
  - rewrite Hp. unfold sum_words. cbn [word_loop]. assert (0 <= offset <= 1) by (set_unfold; lia).
    destruct (Z.ltb_spec 1 (p_len part - offset)); [|lia]. by rewrite mem_get_None by (rewrite ?zlen_nil; lia).
  - destruct (sum_words _ _ _ _) as [[[o len] sum']|]; [|done]. cbn [mbind option_bind].
    destruct (negb _); [|apply IH; [set_solver|done..]].
    destruct (READ_NET8 _ o) as [hi|]; [|done]. cbn [mbind option_bind].
    match goal with |- (?c ≫= _) = None => destruct c as [?|] end; [|done]. apply IH; [set_solver|done..].
Qed.

Lemma udp_header_overrun src sp dst dp part :
  p_ptr part = [] -> 2 < p_len part -> udp_header src sp dst dp [part] = None.
Proof.
  intros Hp Hl. unfold udp_header.
  repeat match goal with |- (?c ≫= _) = None => lazymatch c with calc_payload_checksum _ => fail | _ => destruct c as [?|]; [cbn [mbind option_bind]|done] end end.
  unfold calc_payload_checksum.
  match goal with |- context [payload_loop (?a :: ?b :: ?c) 0 0] =>
    change (a :: b :: c) with ([a; b] ++ c) end.
  by rewrite payload_loop_overrun by (done || set_solver).
Qed.

(** Too short for its header, but long enough to say IPv4. *)
Lemma short_run u p data :
  4 <= zlen data < 10 -> data !! 3%nat = Some 1 -> socks5_udp_data data u p = Stop Oob.
Proof.
  intros Hl H3. unfold socks5_udp_data.
  assert (exists addr, read_udp_header data = Some ([1], addr)) as [addr Er].
  { destruct data as [|r0 [|r1 [|f [|t data]]]]; try done. cbn in H3. injection H3 as ->.
    unfold read_udp_header, unpack.
    change {| pp_data := r0 :: r1 :: f :: 1 :: data; pp_offset := 0; pp_length := _ |} with (at_pos [] ([r0; r1] ++ [f] ++ [1] ++ data)).
    assert (U2 : zlen (uninit 2) = 2) by (by apply zlen_uninit). assert (U1 : zlen (uninit 1) = 1) by (by apply zlen_uninit).
    rewrite (bind_ok _ _ _ _ _ (takes_readAny (uninit 2) [r0; r1] U2 [] _)).
    rewrite (bind_ok _ _ _ _ _ (takes_readAny (uninit 1) [f] U1 _ _)).
    rewrite (bind_ok _ _ _ _ _ (takes_readAny (uninit 1) [1] U1 _ _)).
    match goal with |- context [bind (readAny (uninit 4)) ?k ?q] => pose proof (inside_readAny (uninit 4) q) as Hi4 end.
    destruct (post_inv _ _ _ (Hi4 ltac:(split; unfold at_pos; cbn [pp_data pp_length pp_offset]; rewrite ?zlen_app; zlia)))
      as (x & q & E4 & Hq). rewrite (bind_ok _ _ _ _ _ E4).
    destruct (post_inv _ _ _ (inside_readAny (uninit 2) q Hq)) as (y & q' & E & _). rewrite (bind_ok _ _ _ _ _ E). by eexists. }
  rewrite Er. cbn [mem]. rewrite (bind_ok _ _ _ _ p) by done. cbv iota beta. rewrite load_single. cbn [Z.eqb negb Pos.eqb].
  unfold on_world, bind at 1, send_udp_ex. rewrite udp_header_overrun; [done| |]; cbn [p_ptr p_len].
  - apply drop_ge. unfold zlen, UDPHeaderSize in *. lia.
  - unfold u16, UDPHeaderSize. replace (zlen data - 10) with (zlen data - 10 + 65536 + (-1) * 65536) by lia.
    rewrite Z.mod_add, Z.mod_small by lia. lia.
Qed.

(** *** Before the server has answered, and after it has refused *)

Definition send_all (u : Socks5ProxyUdp) (sends : list (bytes * Z * bytes)) : M (proxy Socks5ProxyUdp) Socks5ProxyUdp :=
  foldl (fun m s => let* u := m in socks5_send u s.1.1 s.1.2 s.2) (ret u) sends.

Lemma send_all_waiting sends u p :
  su_isReady u = false -> Forall (fun s => length s.1.1 = 4%nat /\ is_u16 s.1.2) sends ->
  exists u' p', send_all u sends p = Ok u' p' /\ same_object u p u' p' /\ su_isReady u' = false /\
    px_out p' = px_out p /\
    su_waiting u' = match last sends with Some (a, port, d) => Some (udp_wrapped a port d) | None => su_waiting u end.
Proof.
  intros Hr. unfold send_all. induction sends as [|[[a port] d] sends IH] using rev_ind; intros Hs.
  { exists u, p. by split_and!. }
  apply Forall_app in Hs as [Hs [[Ha Hp] _]%Forall_cons]. cbn in Ha, Hp.
  destruct (IH Hs) as (u1 & p1 & E1 & S1 & R1 & O1 & W1). rewrite foldl_app. cbn [foldl].
  rewrite (bind_ok _ _ _ u1 p1) by done. cbn [fst snd].
  destruct (socks5_send_run a port d u1 p1) as (packet & u2 & p2 & Ep & E2 & S2 & _ & R2 & _ & _ & H2).
  rewrite R1 in H2. destruct H2 as [O2 W2]. rewrite encapsulate_run in Ep by done. injection Ep as <-.
  exists u2, p2. rewrite last_snoc. split_and!; [done|by eapply same_object_trans|congruence..].
Qed.

Lemma on_udp_ready_run addr u p :
  exists u' p', on_udp_ready addr u p = Ok u' p' /\ su_waiting u' = None /\ su_isReady u' = true /\
    px_out p' = px_out p ++ PxOpen (su_udp u) ::
      match su_waiting u with
      | Some d => [PxSend (su_udp u) (sin_addr addr) (ntohs (load (sin_port addr))) d]
      | None => []
      end.
Proof.
  unfold on_udp_ready. destruct (su_waiting u) as [d|] eqn:Ew; do 2 eexists;
    (split; [unfold px_emit, bind, modify, su_visit, on_world; cbn; rewrite Ew; reflexivity|]); cbn; rewrite ?Ew;
    split_and!; try done. by rewrite <- app_assoc.
Qed.

(** Refused by the server: the control connection is closed and no relay address is known. *)
Definition cut_off (key : UdpCacheKey) (p : proxy Socks5ProxyUdp) : Prop :=
  exists u, px_table p !! key = Some u /\ su_isReady u = false /\ s5_closed (su_protocol u) = true /\
    now_at (px_world p) <= su_expire_at u.

Lemma cut_off_run src sp dst dp data p :
  cut_off (take 4 src, sp) p ->
  exists p', udpSend (H0 := socks5_item cfg) src sp dst dp data p = Ok tt p' /\ px_out p' = px_out p /\
    exists u, px_table p' !! ((take 4 src, sp) : UdpCacheKey) = Some u /\ su_isReady u = false /\
      s5_closed (su_protocol u) = true /\
      su_expire_at u = now_at (tick (px_world p)) + PROXY_UDP_TABLE_TTL.
Proof.
  intros (u & Eu & Hr & Hc & Hn). unfold udpSend, getUdp. set (key := (take 4 src, sp) : UdpCacheKey) in *.
  unfold bind at 1 2. unfold gets at 1. cbv beta iota. rewrite Eu. unfold isExpire, bind at 1 2. unfold on_world at 1.
  cbn -[Z.add Z.ltb socks5_send].
  change (env_time (w_ticks (px_world p))) with (now_at (px_world p)).
  destruct (Z.ltb_spec (su_expire_at u) (now_at (px_world p))); [lia|]. cbn -[Z.add socks5_send].
  match goal with |- context [bind (socks5_send u dst dp data) _ ?q] =>
    destruct (socks5_send_run dst dp data u q) as (packet & u' & p' & _ & E & _ & Ec & Er & Ex & Ew & Ho) end.
  rewrite Hr in Ho. destruct Ho as [Ho _]. rewrite (bind_ok _ _ _ _ _ E). eexists. split; [reflexivity|].
  split; [exact Ho|]. exists u'. split; [apply lookup_insert_eq|]. by rewrite Er, Ec, Ex.
Qed.
End association.

(** ** Results *)

Section results.
Context `{Env}.
Variable cfg : Socks5ServerConfig.

(** C36: the negotiation, for every sequence of chunks the server sends.  It never leaves a
    buffer.  The request is granted exactly when the server accepts no authentication, or
    asks for a password, which fits, and accepts it, and then sends a ten byte reply with
    version 5, result 0 and an IPv4 address; the trace is then the greeting, the
    credentials if they were asked for, the request and the notification, in this order,
    and later chunks change nothing.  Otherwise the owner is not notified: no more than
    the credentials and the request has been sent, and a refusal is reported once, after
    which the connection is closed. *)
Theorem socks5_handshake cmd dest chunks :
  is_u8 cmd -> length (sin_addr dest) = 4%nat -> length (sin_port dest) = 2%nat ->
  exists q, s5_session cfg chunks (newSocks5Protocol cmd dest) = Ok tt q /\
    match granted cfg chunks with
    | Some (password, addr) =>
        s5_out q = hello cfg ++
          ((if password : bool then [S5Write (userpass_bytes cfg)] else []) ++ asked cmd dest) ++ success cmd addr /\
        s5_closed q = false
    | None => unfinished cfg cmd dest q
    end.
Proof. intros Hc Ha Hp. by apply handshake_run. Qed.

(** The header around a datagram.  What [send] builds for an address, a port and up to
    any number of bytes is ten bytes of header and the data, and reading it the way the
    receiving callback does gives back the address type, the address and the port; the
    data starts at byte ten. *)
Theorem socks5_header_roundtrip addr port data :
  length addr = 4%nat -> is_u16 port ->
  exists packet,
    encapsulate {| sin_addr := addr; sin_port := store 2 (htons port) |} data (zlen data) = Some packet /\
    read_udp_header packet = Some ([1], {| sin_addr := addr; sin_port := store 2 (htons port) |}) /\
    drop 10 packet = data.
Proof.
  intros Ha Hp. exists (udp_wrapped addr port data). split; [by apply encapsulate_run|]. split.
  - rewrite store_htons by done. by apply (read_udp_header_run 0 0 0 1 addr [port / 256; port mod 256] data).
  - by destruct (length_4_inv addr Ha) as (a & b & c & d & ->).
Qed.

(** A datagram relayed by the server reaches the console that opened the association:
    with the association of a source in the table, a datagram from [ip] and [port] is sent
    to that source's address and port as one frame with a valid checksum.  The fragment
    number of the header is not looked at, so a fragment is delivered as a datagram. *)
Theorem socks5_reply (p : proxy Socks5ProxyUdp) src sp u r0 r1 frag ip port data i :
  nat_ok (UdpLaws0 := socks5_laws cfg) p -> px_table p !! ((src, sp) : UdpCacheKey) = Some u ->
  su_isReady u = true -> ctx_ok (pctx (px_world p)) -> is_ip src -> is_ip ip -> is_u16 port -> is_bytes data ->
  42 + zlen data < BUFFER_SIZE ->
  arp_find (pc_arp_list (pctx (px_world p))) src (now_at (px_world p)) = Some i ->
  let w := px_world p in
  exists ck p', on_item (H0 := socks5_item cfg) (src, sp) (SeUdpData (relayed r0 r1 frag ip port data)) p = Ok tt p' /\
    rfc1071_valid (pseudo_hdr ip src (8 + zlen data) ++ udp_hdr ck port sp (8 + zlen data) ++ data) /\
    w_out (px_world p') = w_out w ++ [EvFrame (framed (ai_mac i) ETHER_TYPE_IPV4
      (ip_hdr ip src IPV4_PROTOCOL_UDP (pc_identification (pctx w)) (28 + zlen data) ++
       udp_hdr ck port sp (8 + zlen data) ++ data) w)].
Proof.
  intros Hn Eu Hr Hc Hs Hi Hp Hb Hl Ha w. pose proof (no_key p Hn _ _ Eu) as Ek. cbn in Ek. injection Ek as <- <-.
  destruct (socks5_udp_data_run u p r0 r1 frag ip port data i) as (ck & u' & p' & E & Hv & Ho); [done..|].
  exists ck. eexists. split; [|split; [exact Hv|]].
  - unfold on_item, bind at 1. unfold gets at 1. rewrite Eu. cbn [item_on socks5_item socks5_on]. rewrite Hr.
    rewrite (bind_ok _ _ _ _ _ E). reflexivity.
  - exact Ho.
Qed.

(** A datagram of four to nine bytes that says IPv4 makes the callback read outside it:
    the length of the data is computed as the length minus ten, modulo 2^16. *)
Theorem socks5_short_datagram u p data :
  su_isReady u = true -> 4 <= zlen data < 10 -> data !! 3%nat = Some 1 ->
  socks5_on cfg (SeUdpData data) u p = Stop Oob.
Proof. intros Hr Hl H3. cbn [socks5_on]. rewrite Hr. by apply short_run. Qed.

(** Datagrams sent before the server has granted the association: however many were
    sent, when the grant arrives only the last one leaves. *)
Theorem socks5_early_datagrams u p sends a port d addr :
  su_isReady u = false -> Forall (fun s => length s.1.1 = 4%nat /\ is_u16 s.1.2) sends ->
  length a = 4%nat -> is_u16 port ->
  exists u' p', (let* u := send_all u (sends ++ [(a, port, d)]) in on_udp_ready addr u) p = Ok u' p' /\
    su_waiting u' = None /\
    px_out p' = px_out p ++ [PxOpen (su_udp u);
      PxSend (su_udp u) (sin_addr addr) (ntohs (load (sin_port addr))) (udp_wrapped a port d)].
Proof.
  intros Hr Hs Ha Hp. destruct (send_all_waiting (sends ++ [(a, port, d)]) u p) as (u1 & p1 & E1 & S1 & R1 & O1 & W1);
    [done|apply Forall_app; split; [done|by constructor]|].
  rewrite last_snoc in W1. rewrite (bind_ok _ _ _ _ _ E1).
  destruct (on_udp_ready_run addr u1 p1) as (u2 & p2 & E2 & W2 & R2 & O2). exists u2, p2. split_and!; [done..|].
  rewrite O2, O1, W1. destruct S1 as (_ & -> & _). done.
Qed.

(** After a refusal the source stays cut off.  While the entry is in use, a datagram
    from the source is dropped without a trace, and the entry is kept for another thirty
    seconds, so no new association is tried as long as the console keeps sending. *)
Theorem socks5_cut_off src sp dst dp data p :
  cut_off (take 4 src, sp) p ->
  exists p', udpSend (H0 := socks5_item cfg) src sp dst dp data p = Ok tt p' /\ px_out p' = px_out p /\
    exists u, px_table p' !! ((take 4 src, sp) : UdpCacheKey) = Some u /\ su_isReady u = false /\
      s5_closed (su_protocol u) = true /\
      su_expire_at u = now_at (tick (px_world p)) + PROXY_UDP_TABLE_TTL.
Proof. apply cut_off_run. Qed.
End results.

(** ** Concrete runs *)

#[local] Existing Instance demo_env.

Definition demo_server : sockaddr_in := {| sin_addr := [192; 0; 2; 1]; sin_port := [4; 56] |}.
Definition demo_cfg : Socks5ServerConfig :=
  {| cfg_server := demo_server; cfg_username := [97; 98]; cfg_password := [99] |}.
Definition demo_any : sockaddr_in := {| sin_addr := [0; 0; 0; 0]; sin_port := [0; 53] |}.

Lemma socks5_handshake_witness :
  exists q, s5_session demo_cfg [[5; 2]; [1; 0]; [5; 0; 0; 1; 192; 0; 2; 1; 8; 0]] (newSocks5Protocol 3 demo_any) = Ok tt q /\
    s5_out q = [S5Connect demo_server; S5Read; S5Write [5; 2; 0; 2]; S5Write [1; 2; 97; 98; 1; 99];
                S5Write [5; 3; 0; 1; 0; 0; 0; 0; 0; 53]; S5UdpReady {| sin_addr := [192; 0; 2; 1]; sin_port := [8; 0] |}].
Proof.
  destruct (socks5_handshake demo_cfg 3 demo_any [[5; 2]; [1; 0]; [5; 0; 0; 1; 192; 0; 2; 1; 8; 0]]) as (q & E & Hq);
    [unfold is_u8; lia|done|done|].
  exists q. split; [exact E|]. vm_compute in Hq. apply Hq.
Defined.

Lemma socks5_header_roundtrip_witness :
  exists packet, read_udp_header packet = Some ([1], {| sin_addr := [8; 8; 8; 8]; sin_port := [0; 53] |}) /\
    drop 10 packet = [1; 2].
Proof.
  destruct (socks5_header_roundtrip [8; 8; 8; 8] 53 [1; 2]) as (packet & _ & E & Ed); [done|unfold is_u16; lia|].
  exists packet. split; [exact E|exact Ed].
Defined.

(** The peer's association, granted. *)
Definition demo_assoc : Socks5ProxyUdp :=
  {| su_tcp := 0; su_udp := 1; su_expire_at := 1030; su_server := demo_server;
     su_protocol := newSocks5Protocol 3 demo_any; su_isReady := true; su_waiting := None;
     su_src := demo_peer; su_srcport := 5000 |}.
Definition demo_assocs : proxy Socks5ProxyUdp :=
  {| px_table := {[ ((demo_peer, 5000) : UdpCacheKey) := demo_assoc ]}; px_next := 2; px_out := [];
     px_world := demo_known |}.

Lemma demo_assocs_ok : nat_ok (UdpLaws0 := socks5_laws demo_cfg) demo_assocs.
Proof.
  constructor; cbn [px_table demo_assocs].
  - by intros k it [<- <-]%lookup_singleton_Some.
  - intros k it [<- <-]%lookup_singleton_Some. cbn. lia.
  - by intros k1 k2 it1 it2 [<- <-]%lookup_singleton_Some [<- <-]%lookup_singleton_Some _.
Qed.

Lemma socks5_reply_witness :
  exists ck p', on_item (H0 := socks5_item demo_cfg) (demo_peer, 5000)
      (SeUdpData [0; 0; 7; 1; 8; 8; 8; 8; 0; 53; 3; 4; 5]) demo_assocs = Ok tt p' /\
    rfc1071_valid (pseudo_hdr [8; 8; 8; 8] demo_peer 11 ++ udp_hdr ck 53 5000 11 ++ [3; 4; 5]).
Proof.
  destruct (socks5_reply demo_cfg demo_assocs demo_peer 5000 demo_assoc 0 0 7 [8; 8; 8; 8] 53 [3; 4; 5]
    {| ai_ip := demo_peer; ai_mac := [2; 0; 0; 0; 0; 5]; ai_expire_at := 1030 |}) as (ck & p' & E & Hv & _).
  - apply demo_assocs_ok.
  - apply lookup_singleton_eq.
  - reflexivity.
  - apply demo_known_ok.
  - apply demo_peer_ok.
  - split; [done|bytes_tac].
  - unfold is_u16; lia.
  - bytes_tac.
  - reflexivity.
  - vm_compute. reflexivity.
  - exists ck, p'. split; [exact E|exact Hv].
Defined.

Lemma socks5_short_datagram_witness :
  socks5_on demo_cfg (SeUdpData [0; 0; 0; 1; 9]) demo_assoc demo_assocs = Stop Oob.
Proof. apply (socks5_short_datagram demo_cfg); [reflexivity|vm_compute; split; [discriminate|reflexivity]|reflexivity]. Defined.

Definition demo_pending : Socks5ProxyUdp :=
  {| su_tcp := 0; su_udp := 1; su_expire_at := 1030; su_server := demo_server;
     su_protocol := newSocks5Protocol 3 demo_any; su_isReady := false; su_waiting := None;
     su_src := demo_peer; su_srcport := 5000 |}.

Lemma socks5_early_datagrams_witness :
  exists u' p', (let* u := send_all demo_pending ([([8; 8; 8; 8], 53, [1])] ++ [([8; 8; 8; 8], 53, [2])]) in
                 on_udp_ready demo_server u) demo_assocs = Ok u' p' /\
    px_out p' = [PxOpen 1; PxSend 1 [192; 0; 2; 1] 1080 [0; 0; 0; 1; 8; 8; 8; 8; 0; 53; 2]].
Proof.
  destruct (socks5_early_datagrams demo_pending demo_assocs [([8; 8; 8; 8], 53, [1])] [8; 8; 8; 8] 53 [2] demo_server)
    as (u' & p' & E & _ & Ho);
    [reflexivity|constructor; [split; [reflexivity|unfold is_u16; cbn; lia]|constructor]|reflexivity|unfold is_u16; lia|].
  exists u', p'. split; [exact E|]. rewrite Ho. vm_compute. reflexivity.
Defined.

Definition demo_refused : Socks5ProxyUdp := set_su_protocol (set_s5_closed true (newSocks5Protocol 3 demo_any)) demo_pending.
Definition demo_dead : proxy Socks5ProxyUdp :=
  {| px_table := {[ ((demo_peer, 5000) : UdpCacheKey) := demo_refused ]}; px_next := 2; px_out := [];
     px_world := demo_known |}.

Lemma socks5_cut_off_witness :
  exists p', udpSend (H0 := socks5_item demo_cfg) demo_peer 5000 [8; 8; 8; 8] 53 [1] demo_dead = Ok tt p' /\ px_out p' = [].
Proof.
  destruct (socks5_cut_off demo_cfg demo_peer 5000 [8; 8; 8; 8] 53 [1] demo_dead) as (p' & E & Ho & _).
  - exists demo_refused. split; [apply lookup_singleton_eq|]. split; [reflexivity|]. split; [reflexivity|].
    vm_compute. discriminate.
  - exists p'. split; [exact E|exact Ho].
Defined.
