(* ===== verification/PcapLoop.v ===== *)
(** The capture loop: [src/pcaploop.cpp].

    Opening the interfaces, the filter, the table that remembers on which interface a
    hardware address was seen, sending, and the two ways a captured frame reaches the
    client's thread: polling the capture's descriptor, or a thread per interface that
    hands over one frame at a time.  libpcap is a parameter ([Pcap]).

    [pl_sendpacket] is the operation behind [uv_pcap_sendpacket] of [Structs], where the
    handlers of the client see it as one event.

    Shown here: where a frame leaves and with which source address, the buffer unchanged
    afterwards; an answer leaves through the interface the question came from; the text
    of the filter, whatever the command line says; every device that is opened and
    rejected is closed; which devices are opened; the threads hand over each frame once
    and in order, and closing an interface can block for ever. *)

From stdpp Require Import gmap strings.
From S2P Require Import Prelude Byteorder Structs Checksum Packet Helper Arp Ipv4 LanClient Dispatch.

(** ** The code *)

(** An interface of the array; [if_dev] stands for its [pcap_t]. *)
Record interf := { if_dev : nat; if_mac : bytes }.

Inductive pl_event :=
| PlSend (dev : nat) (data : bytes)        (* pcap_sendpacket *)
| PlFilter (dev : nat) (text : bytes)      (* pcap_compile, pcap_setfilter *)
| PlOpen (dev : nat)                       (* pcap_create succeeded *)
| PlClose (dev : nat)                      (* pcap_close *)
| PlPollStop (dev : nat)
| PlPrint (text : bytes).

(** The handle and what it owns. *)
Record uv_pcap := {
  pl_map : gmap Z nat;                     (* index into interfaces *)
  pl_interfaces : list (option interf);    (* new[]: not yet initialised *)
  pl_count : Z;
  pl_ticks : nat;                          (* calls of libpcap made so far *)
  pl_out : list pl_event;
}.

Definition set_pl_map (v : gmap Z nat) (p : uv_pcap) : uv_pcap :=
  {| pl_map := v; pl_interfaces := pl_interfaces p; pl_count := pl_count p; pl_ticks := pl_ticks p; pl_out := pl_out p |}.
Definition set_pl_interfaces (v : list (option interf)) (p : uv_pcap) : uv_pcap :=
  {| pl_map := pl_map p; pl_interfaces := v; pl_count := pl_count p; pl_ticks := pl_ticks p; pl_out := pl_out p |}.
Definition set_pl_count (v : Z) (p : uv_pcap) : uv_pcap :=
  {| pl_map := pl_map p; pl_interfaces := pl_interfaces p; pl_count := v; pl_ticks := pl_ticks p; pl_out := pl_out p |}.
Definition set_pl_ticks (v : nat) (p : uv_pcap) : uv_pcap :=
  {| pl_map := pl_map p; pl_interfaces := pl_interfaces p; pl_count := pl_count p; pl_ticks := v; pl_out := pl_out p |}.
Definition set_pl_out (v : list pl_event) (p : uv_pcap) : uv_pcap :=
  {| pl_map := pl_map p; pl_interfaces := pl_interfaces p; pl_count := pl_count p; pl_ticks := pl_ticks p; pl_out := v |}.

Definition pl_emit (e : pl_event) : M uv_pcap unit := modify (fun p => set_pl_out (pl_out p ++ [e]) p).

(** The calls whose result matters. *)
Inductive pcap_op :=
| PcCreate | PcSetTimeout | PcSetSnaplen | PcSetPromisc | PcActivate | PcDatalink | PcGetMac | PcImmediate
| PcPollInit | PcPollStart | PcSendpacket | PcFindalldevs.

Definition PCAP_WARNING : Z := 1.
Definition PCAP_WARNING_PROMISC_NOTSUP : Z := 2.
Definition DLT_EN10MB : Z := 1.
Definition EmptyMac : bytes := [0; 0; 0; 0; 0; 0].

Class Pcap := {
  pcap_host :: Host;
  pcap_result : nat -> pcap_op -> Z;       (* PcCreate: 0 is a null pointer *)
  pcap_mac : nat -> bytes;                 (* what get_mac_address stores *)
}.

Section code.
Context `{Pcap}.

Definition pc (op : pcap_op) : M uv_pcap Z :=
  fun p => Ok (pcap_result (pl_ticks p) op) (set_pl_ticks (S (pl_ticks p)) p).

Definition mac2int (mac : bytes) : option Z :=
  b ← memcpy (store 8 0) 0 mac 0 6;
  Some (load b).

Definition int2mac (i : Z) (mac : bytes) : option bytes := memcpy mac 0 (store 8 i) 0 6.

(** [for (num = 0; mask != 0 && num < 32; num++) mask <<= 1;] *)
Fixpoint prefix_loop (fuel : nat) (mask num : Z) : Z :=
  match fuel with
  | O => num
  | S fuel => if negb (mask =? 0) && (num <? 32) then prefix_loop fuel (u32 (Z.shiftl mask 1)) (num + 1) else num
  end.

(** ["%02x"] of a byte. *)
Definition hex2 (c : Z) : bytes := [hex_digit (c / 16); hex_digit (c mod 16)].

(** [snprintf] into a buffer of [size] bytes. *)
Definition snprintf (size : Z) (text : bytes) : bytes := take (Z.to_nat (size - 1)) text.

Definition filter_text (mac : bytes) : option bytes :=
  mask ← READ_NET32 (str2ip (Some (cstr "255.255.0.0"))) 0;
  let num := prefix_loop 33 mask 0 in
  m0 ← READ_NET8 mac 0;
  m1 ← READ_NET8 mac 1;
  m2 ← READ_NET8 mac 2;
  m3 ← READ_NET8 mac 3;
  m4 ← READ_NET8 mac 4;
  m5 ← READ_NET8 mac 5;
  Some (snprintf 100 (cstr "net " ++ cstr "10.13.0.0" ++ cstr "/" ++ dec 10 num ++ cstr " and not ether src " ++
    hex2 m0 ++ cstr ":" ++ hex2 m1 ++ cstr ":" ++ hex2 m2 ++ cstr ":" ++ hex2 m3 ++ cstr ":" ++ hex2 m4 ++
    cstr ":" ++ hex2 m5)).

Definition set_filter (dev : nat) (mac : bytes) : M uv_pcap unit :=
  let* filter := mem (filter_text mac) in
  pl_emit (PlFilter dev filter).

(** The result and the caller's buffer afterwards. *)
Definition uv_pcap_interf_sendpacket (handle : interf) (data : bytes) (size : Z) : M uv_pcap (Z * bytes) :=
  let* old := mem (mem_get data 6 6) in
  let* d := mem (CPY_MAC data 6 (if_mac handle) 0) in
  let* sent := mem (mem_get d 0 size) in
  let* r := pc PcSendpacket in
  pl_emit (PlSend (if_dev handle) sent) ;;;
  let* d := mem (CPY_MAC d 6 old 0) in
  ret (r, d).

Definition interface_at (i : nat) : M uv_pcap interf :=
  let* l := gets pl_interfaces in
  match l !! i with
  | Some (Some h) => ret h
  | _ => halt Oob
  end.

(** The loop over the interfaces, from [i]. *)
Fixpoint send_all_interfaces (n : nat) (i : nat) (data : bytes) (size : Z) : M uv_pcap bytes :=
  match n with
  | O => ret data
  | S n =>
      let* h := interface_at i in
      let* r := uv_pcap_interf_sendpacket h data size in
      send_all_interfaces n (S i) r.2 size
  end.

Definition pl_sendpacket (data : bytes) (size : Z) : M uv_pcap (Z * bytes) :=
  let* from := mem (mem_from data 6) in
  let* key := mem (mac2int from) in
  let* map := gets pl_map in
  match map !! key with
  | Some i =>
      let* item := interface_at i in
      let* r := uv_pcap_interf_sendpacket item data size in
      ret (0, r.2)
  | None =>
      let* count := gets pl_count in
      let* data := send_all_interfaces (Z.to_nat count) 0 data size in
      ret (0, data)
  end.

(** *** Receiving *)

(** The handle and the client behind its callback. *)
Definition on_pcap {A} (m : M uv_pcap A) : M (uv_pcap * world) A :=
  fun s => match m s.1 with Ok a p => Ok a (p, s.2) | Stop e => Stop e end.
Definition on_client {A} (m : M world A) : M (uv_pcap * world) A :=
  fun s => match m s.2 with Ok a w => Ok a (s.1, w) | Stop e => Stop e end.

(** The interface [i] captured [packet]; [cb] is [handle->cb]. *)
Definition uv_pcap_callback (cb : pcap_pkthdr -> bytes -> bytes -> M world unit) (i : nat)
    (pkt_header : pcap_pkthdr) (packet : bytes) : M (uv_pcap * world) unit :=
  let* key := mem (mac2int packet) in
  on_pcap (modify (fun p => set_pl_map (<[key := i]> (pl_map p)) p)) ;;;
  let* h := on_pcap (interface_at i) in
  on_client (cb pkt_header packet (if_mac h)).

(** [ready]: the frames [pcap_dispatch] finds before it returns 0 or an error. *)
Definition poll_handler (cb : pcap_pkthdr -> bytes -> bytes -> M world unit) (i : nat) (readable : bool)
    (ready : list (pcap_pkthdr * bytes)) : M (uv_pcap * world) unit :=
  if readable then for_each ready (fun '(h, packet) => uv_pcap_callback cb i h packet) else ret tt.

(** *** Opening *)

Definition uv_pcap_interf_init (i : nat) (dev : nat) (mac : bytes) : M uv_pcap Z :=
  let* mac := mem (mem_get mac 0 6) in
  modify (fun p => set_pl_interfaces (<[i := Some {| if_dev := dev; if_mac := mac |}]> (pl_interfaces p)) p) ;;;
  let* r := pc PcPollInit in
  if negb (r =? 0) then ret r
  else
    let* r := pc PcPollStart in
    if negb (r =? 0) then ret r else ret 0.

(** A device is known by the number of its [pcap_create]. *)
Definition uv_pcap_open_live (i : nat) : M uv_pcap Z :=
  let* dev := gets pl_ticks in
  let fail := pl_emit (PlClose dev) ;;; ret (-1) in
  let* created := pc PcCreate in
  if created =? 0 then ret (-1)
  else
    pl_emit (PlOpen dev) ;;;
    let* r := pc PcSetTimeout in if negb (r =? 0) then fail else
    let* r := pc PcSetSnaplen in if negb (r =? 0) then fail else
    let* r := pc PcSetPromisc in if negb (r =? 0) then fail else
    let* rc := pc PcActivate in
    if (0 <? rc) && (rc =? PCAP_WARNING_PROMISC_NOTSUP) then fail
    else if (0 <? rc) && negb (rc =? PCAP_WARNING) then fail
    else if rc <? 0 then fail
    else
      let* datalink := pc PcDatalink in
      if negb (datalink =? DLT_EN10MB) then fail
      else
        let* at_call := gets pl_ticks in
        let mac := pcap_mac at_call in
        let* r := pc PcGetMac in
        if negb (r =? 0) then fail
        else
          let* m := mem (mem_get mac 0 6) in
          if bool_decide (m = EmptyMac) then fail
          else
            set_filter dev mac ;;;
            let* r := pc PcImmediate in
            if r =? -1 then fail
            else
              let* r := uv_pcap_interf_init i dev mac in
              if negb (r =? 0) then fail else ret 0.

(** The first loop over the devices: their number, and the name that [netif] stands for. *)
Fixpoint count_devs (devs : list bytes) (i : Z) (netif : option bytes) : Z * option bytes :=
  match devs with
  | [] => (i, netif)
  | name :: devs =>
      let i := i + 1 in
      let netif := match netif with
                   | Some s => if i =? atoi s then Some name else Some s
                   | None => None
                   end in
      count_devs devs i netif
  end.

(** The loops that open; they return the number of interfaces. *)
Fixpoint open_named (devs : list bytes) (netif : bytes) (i : nat) : M uv_pcap nat :=
  match devs with
  | [] => ret i
  | name :: devs =>
      if bool_decide (name = netif) then
        pl_emit (PlPrint (cstr "found interface: " ++ name ++ [10])) ;;;
        let* r := uv_pcap_open_live i in
        if negb (r =? 0) then ret i else ret (S i)
      else open_named devs netif i
  end.
Fixpoint open_all (devs : list bytes) (i : nat) : M uv_pcap nat :=
  match devs with
  | [] => ret i
  | _ :: devs =>
      let* r := uv_pcap_open_live i in
      if negb (r =? 0) then open_all devs i else open_all devs (S i)
  end.

(** [alldevs]: the names [pcap_findalldevs] gives. *)
Definition uv_pcap_init (alldevs : list bytes) (netif : option bytes) : M uv_pcap Z :=
  modify (set_pl_map ∅) ;;;
  let* r := pc PcFindalldevs in
  if negb (r =? 0) then halt (Exited 1)
  else
    let '(i, netif) := count_devs alldevs 0 netif in
    if i =? 0 then halt (Exited 1)
    else
      modify (set_pl_interfaces (replicate (Z.to_nat i) None)) ;;;
      let* n := match netif with
                | Some name => open_named alldevs name 0
                | None => open_all alldevs 0
                end in
      modify (set_pl_count (Z.of_nat n)) ;;;
      pl_emit (PlPrint (cstr "pcap loop start" ++ [10])) ;;;
      ret 0.

Fixpoint close_interfaces (n : nat) (i : nat) : M uv_pcap unit :=
  match n with
  | O => ret tt
  | S n =>
      let* h := interface_at i in
      pl_emit (PlPollStop (if_dev h)) ;;;
      close_interfaces n (S i)
  end.
Definition uv_pcap_close : M uv_pcap unit :=
  modify (set_pl_map ∅) ;;;
  let* count := gets pl_count in
  close_interfaces (Z.to_nat count) 0 ;;;
  pl_emit (PlPrint (cstr "pcap loop stop" ++ [10])).
End code.

(** ** Addresses as keys *)

Section keys.
Context `{Pcap}.

Lemma mac2int_run m rest : length m = 6%nat -> mac2int (m ++ rest) = Some (load (m ++ [0; 0])).
Proof.
  intros Hl. unfold mac2int, memcpy. rewrite mem_get_Some by (unfold zlen; rewrite ?length_app; lia).
  rewrite drop_0, take_app_length' by (rewrite Hl; done). cbn [mbind option_bind].
  destruct (length_6_inv m Hl) as (a & b & c & d & e & f & ->).
  replace (store 8 0) with (replicate 8 0) by (unfold store; by destruct host_endian). reflexivity.
Qed.

Lemma load_key_inj m1 m2 :
  is_mac m1 -> is_mac m2 -> load (m1 ++ [0; 0]) = load (m2 ++ [0; 0]) -> m1 = m2.
Proof.
  intros [L1 B1] [L2 B2] E. apply (app_inv_tail [0; 0]), load_inj; [apply Forall_app_2; [done|bytes_tac]..| |done].
  rewrite !length_app. congruence.
Qed.

Lemma int2mac_run m old rest :
  is_mac m -> length old = 6%nat -> exists k, mac2int (m ++ rest) = Some k /\ int2mac k (old ++ rest) = Some (m ++ rest).
Proof.
  intros [Hl Hb] Ho. exists (load (m ++ [0; 0])). split; [by apply mac2int_run|]. unfold int2mac, memcpy.
  change 8%nat with (6 + 2)%nat. rewrite <- Hl at 1. change 2%nat with (length [0; 0]) at 1. rewrite <- length_app.
  rewrite store_load by (apply Forall_app_2; [done|bytes_tac]).
  rewrite mem_get_Some by (unfold zlen; rewrite ?length_app, ?Hl; cbn; lia).
  rewrite drop_0, take_app_length' by (rewrite Hl; done). cbn [mbind option_bind].
  rewrite mem_put_Some by (unfold zlen; rewrite ?length_app, ?Hl; lia). cbn [Z.to_nat take app].
  by rewrite drop_app_length' by (rewrite Hl; lia).
Qed.
End keys.

(** ** Sending *)

Section sending.
Context `{Pcap}.

(** The frame as it leaves an interface: its own address as the source. *)
Definition frame_on (h : interf) (data : bytes) : bytes := take 6 data ++ if_mac h ++ drop 12 data.

Definition sent_on (h : interf) (data : bytes) (p : uv_pcap) : uv_pcap :=
  set_pl_out (pl_out p ++ [PlSend (if_dev h) (frame_on h data)]) (set_pl_ticks (S (pl_ticks p)) p).

Lemma interf_send_run h data p :
  length (if_mac h) = 6%nat -> 12 <= zlen data ->
  exists r, uv_pcap_interf_sendpacket h data (zlen data) p = Ok (r, data) (sent_on h data p).
Proof.
  intros Hm Hl. unfold uv_pcap_interf_sendpacket, CPY_MAC, memcpy.
  assert (E : data = take 6 data ++ take 6 (drop 6 data) ++ drop 12 data)
    by (rewrite <- (take_drop 6 data) at 1; f_equal; rewrite <- (take_drop 6 (drop 6 data)) at 1; by rewrite drop_drop).
  assert (L1 : length (take 6 data) = 6%nat) by (unfold zlen in *; rewrite length_take; lia).
  assert (L2 : length (take 6 (drop 6 data)) = 6%nat) by (unfold zlen in *; rewrite length_take, length_drop; lia).
  unfold frame_on in *. unfold sent_on, frame_on. revert E Hl L1 L2.
  generalize (take 6 data) (take 6 (drop 6 data)) (drop 12 data). intros d s r -> Hl Ld Ls.
  assert (mem6 : forall x, length x = 6%nat -> mem_get x 0 6 = Some x).
  { intros x Hx. rewrite mem_get_Some by (unfold zlen; lia). by rewrite drop_0, take_ge by (rewrite Hx; lia). }
  assert (put6 : forall x y, length x = 6%nat -> length y = 6%nat -> mem_put (d ++ x ++ r) 6 y = Some (d ++ y ++ r)).
  { intros x y Hx Hy. rewrite mem_put_Some by (unfold zlen; rewrite ?length_app; lia).
    rewrite take_app_length', Hy by (rewrite Ld; done). rewrite (app_assoc d x r), drop_app_length'; [done|].
    rewrite length_app; lia. }
  rewrite (mem_get_Some _ 6 6) by (unfold zlen; rewrite ?length_app; lia).
  rewrite drop_app_length', take_app_length' by (rewrite ?Ld, ?Ls; done). cbn [mem].
  rewrite (bind_ok _ _ _ s p) by done. rewrite mem6 by done. cbn [mbind option_bind]. rewrite put6 by done. cbn [mem].
  rewrite (bind_ok _ _ _ _ p) by done.
  replace (zlen (d ++ s ++ r)) with (zlen (d ++ if_mac h ++ r)) by (unfold zlen; rewrite !length_app; lia).
  rewrite mem_get_Some by (pose proof (zlen_nonneg (d ++ if_mac h ++ r)); lia).
  rewrite drop_0, to_nat_zlen, firstn_all. cbn [mem]. rewrite (bind_ok _ _ _ _ p) by done.
  rewrite mem6 by done. cbn [mbind option_bind]. rewrite put6 by done. eexists. reflexivity.
Qed.

(** The interfaces that are open: the first [count] of the array. *)
Record pcap_ok (p : uv_pcap) (hs : list interf) : Prop := {
  po_count : pl_count p = zlen hs;
  po_array : take (length hs) (pl_interfaces p) = Some <$> hs;
  po_macs : Forall (fun h => is_mac (if_mac h)) hs;
  po_map k i : pl_map p !! k = Some i -> (i < length hs)%nat;
}.

Lemma interface_at_run p hs i h :
  pcap_ok p hs -> hs !! i = Some h -> interface_at i p = Ok h p.
Proof.
  intros [_ Ha _ _] Hi. unfold interface_at. unfold bind, gets.
  assert (E : pl_interfaces p !! i = Some (Some h)).
  { pose proof (lookup_lt_Some _ _ _ Hi) as Hlt.
    rewrite <- (lookup_take_lt _ (length hs)) by done. by rewrite Ha, list_lookup_fmap, Hi. }
  by rewrite E.
Qed.

Definition sent_on_all (hs : list interf) (data : bytes) (p : uv_pcap) : uv_pcap :=
  foldl (fun p h => sent_on h data p) p hs.

Lemma sent_on_ok h data p hs : pcap_ok p hs -> pcap_ok (sent_on h data p) hs.
Proof. by intros []. Qed.

Lemma send_all_run hs data rest pre p :
  pcap_ok p hs -> hs = pre ++ rest -> 12 <= zlen data ->
  send_all_interfaces (length rest) (length pre) data (zlen data) p = Ok data (sent_on_all rest data p).
Proof.
  revert pre p. induction rest as [|h rest IH]; intros pre p Hp -> Hl; [done|]. cbn [length send_all_interfaces].
  rewrite (bind_ok _ _ _ h p) by (eapply interface_at_run; [done|]; by apply list_lookup_middle).
  pose proof (po_macs _ _ Hp) as [_ [[Lm _] _]%Forall_cons]%Forall_app.
  destruct (interf_send_run h data p Lm Hl) as [r E]. rewrite (bind_ok _ _ _ _ _ E). cbn [snd].
  replace (S (length pre)) with (length (pre ++ [h])) by (rewrite length_app; cbn; lia).
  apply IH; [by apply sent_on_ok|by rewrite <- app_assoc|done].
Qed.

(** Where a frame goes: to the interface its source address was last seen on, or to all. *)
Definition targets (hs : list interf) (data : bytes) (p : uv_pcap) : list interf :=
  match pl_map p !! load (take 6 (drop 6 data) ++ [0; 0]) with
  | Some i => match hs !! i with Some h => [h] | None => [] end
  | None => hs
  end.

Lemma pl_sendpacket_run hs data p :
  pcap_ok p hs -> 12 <= zlen data ->
  pl_sendpacket data (zlen data) p = Ok (0, data) (sent_on_all (targets hs data p) data p).
Proof.
  intros Hp Hl. unfold pl_sendpacket. rewrite mem_from_Some by lia. cbn [mem]. change (Z.to_nat 6) with 6%nat.
  rewrite (bind_ok _ _ _ _ p) by done.
  rewrite <- (take_drop 6 (drop 6 data)) at 1. rewrite mac2int_run
    by (unfold zlen in *; rewrite length_take, length_drop; lia). cbn [mem].
  rewrite (bind_ok _ _ _ _ p) by done. unfold bind at 1. unfold gets at 1. unfold targets.
  destruct (pl_map p !! _) as [i|] eqn:Em.
  - destruct (lookup_lt_is_Some_2 hs i) as [h Eh]; [by apply (po_map _ _ Hp) in Em|]. rewrite Eh.
    rewrite (bind_ok _ _ _ h p) by (by eapply interface_at_run).
    pose proof (po_macs _ _ Hp) as Hm. rewrite Forall_lookup in Hm. destruct (Hm _ _ Eh) as [Lm _].
    destruct (interf_send_run h data p Lm Hl) as [r E]. by rewrite (bind_ok _ _ _ _ _ E).
  - unfold bind at 1. unfold gets at 1. rewrite (po_count _ _ Hp), to_nat_zlen.
    by rewrite (bind_ok _ _ _ _ _ (send_all_run hs data hs [] p Hp eq_refl Hl)).
Qed.

Lemma sent_on_all_out hs data p :
  pl_out (sent_on_all hs data p) = pl_out p ++ ((fun h => PlSend (if_dev h) (frame_on h data)) <$> hs).
Proof.
  revert p. induction hs as [|h hs IH]; intros p; [by rewrite app_nil_r|].
  change (sent_on_all (h :: hs) data p) with (sent_on_all hs data (sent_on h data p)). rewrite IH.
  cbn [sent_on set_pl_out pl_out]. by rewrite <- app_assoc.
Qed.
End sending.

(** ** The filter *)

Section filter.
Context `{Pcap}.

(** The filter the source means, in words: the network of the client, not our own frames. *)
Definition filter_of (mac : bytes) : bytes :=
  cstr "net 10.13.0.0/16 and not ether src " ++
  match mac with
  | a :: l => hex2 a ++ concat ((fun b => 58 :: hex2 b) <$> l)
  | [] => []
  end.

Lemma filter_text_run mac : length mac = 6%nat -> filter_text mac = Some (filter_of mac).
Proof.
  intros (a & b & c & d & e & f & ->)%length_6_inv. unfold filter_text.
  assert (Em : READ_NET32 (str2ip (Some (cstr "255.255.0.0"))) 0 = Some 0xffff0000).
  { change (str2ip (Some (cstr "255.255.0.0"))) with [255; 255; 0; 0]. unfold READ_NET32.
    change (mem_get [255; 255; 0; 0] 0 4) with (Some [255; 255; 0; 0]). cbn [mbind option_bind].
    f_equal. unfold htonl, ntohl. rewrite hton32_of. change 4%nat with (length [255; 255; 0; 0]).
    by rewrite hton_of_load by bytes_tac. }
  rewrite Em. cbn [mbind option_bind]. replace (prefix_loop 33 4294901760 0) with 16 by (vm_compute; reflexivity).
  rewrite !READ_NET8_eq. reflexivity.
Qed.

(** The prefix length of a mask with [n] leading ones. *)
Lemma prefix_loop_run n : 0 <= n <= 32 -> prefix_loop 33 (u32 (Z.shiftl (Z.ones n) (32 - n))) 0 = n.
Proof.
  intros Hn. assert (Hall : forallb (fun k => prefix_loop 33 (u32 (Z.shiftl (Z.ones k) (32 - k))) 0 =? k)
    (Z.of_nat <$> seq 0 33) = true) by (vm_compute; reflexivity).
  rewrite forallb_forall in Hall. apply Z.eqb_eq, Hall, list_elem_of_In, list_elem_of_fmap.
  exists (Z.to_nat n). split; [lia|]. apply elem_of_seq. lia.
Qed.
End filter.

(** ** Opening devices *)

Section opening.
Context `{Pcap}.
Hypothesis mac_ok : forall k, is_mac (pcap_mac k).

(** The devices that have been opened and not closed. *)
Definition open_step (l : list nat) (e : pl_event) : list nat :=
  match e with
  | PlOpen d => l ++ [d]
  | PlClose d => filter (fun x => x <> d) l
  | _ => l
  end.
Definition open_devs (out : list pl_event) : list nat := foldl open_step [] out.

(** What trying a device leaves: a new interface at [i], or no trace. *)
Definition tried (i : nat) (p : uv_pcap) (r : Z) (p' : uv_pcap) : Prop :=
  let dev := pl_ticks p in
  (dev < pl_ticks p')%nat /\ pl_map p' = pl_map p /\ pl_count p' = pl_count p /\
  ((r = 0 /\ exists mac, is_mac mac /\ mac <> EmptyMac /\
      pl_out p' = pl_out p ++ [PlOpen dev; PlFilter dev (filter_of mac)] /\
      pl_interfaces p' = <[i := Some {| if_dev := dev; if_mac := mac |}]> (pl_interfaces p)) \/
   (r <> 0 /\
      (pl_out p' = pl_out p \/ exists mid, pl_out p' = pl_out p ++ PlOpen dev :: mid ++ [PlClose dev] /\
         Forall (fun e => exists t, e = PlFilter dev t) mid) /\
      (pl_interfaces p' = pl_interfaces p \/ exists h, pl_interfaces p' = <[i := h]> (pl_interfaces p)))).

(** The state while a device is being opened. *)
Definition opening (i dev : nat) (mid : list pl_event) (p q : uv_pcap) : Prop :=
  (dev < pl_ticks q)%nat /\ pl_map q = pl_map p /\ pl_count q = pl_count p /\
  pl_out q = pl_out p ++ PlOpen dev :: mid /\ Forall (fun e => exists t, e = PlFilter dev t) mid /\
  (pl_interfaces q = pl_interfaces p \/ exists h, pl_interfaces q = <[i := h]> (pl_interfaces p)).

Lemma opening_call i dev mid p q :
  opening i dev mid p q -> opening i dev mid p (set_pl_ticks (S (pl_ticks q)) q).
Proof. intros (Ht & ?). split; [cbn; lia|done]. Qed.

Lemma opening_fail i mid p q :
  opening i (pl_ticks p) mid p q -> post (pl_emit (PlClose (pl_ticks p)) ;;; ret (-1)) (tried i p) q.
Proof.
  intros (Ht & Em & Ec & Eo & Hm & Ei). apply post_bind, post_modify, post_ret.
  split_and!; [done..|]. right. split; [done|]. split; [|done]. right. exists mid. split; [|done].
  cbn. by rewrite Eo, <- app_assoc.
Qed.

(** A step that fails the device, or goes on. *)
Lemma opening_step op (bad : Z -> bool) i mid p q (k : Z -> M uv_pcap Z) :
  opening i (pl_ticks p) mid p q ->
  (forall r q', bad r = false -> opening i (pl_ticks p) mid p q' -> pl_ticks q' = S (pl_ticks q) ->
     pl_interfaces q' = pl_interfaces q -> post (k r) (tried i p) q') ->
  post (let* r := pc op in if bad r then (pl_emit (PlClose (pl_ticks p)) ;;; ret (-1)) else k r) (tried i p) q.
Proof.
  intros Ho Hk. apply post_bind. eapply post_ok; [reflexivity|]. apply opening_call in Ho as Ho'.
  destruct (bad _) eqn:Eb; [by eapply opening_fail|by apply Hk].
Qed.

(** The last step: the interface is in the array, and polled or given up. *)
Lemma open_interf_post i mac p q8 :
  is_mac mac -> mac <> EmptyMac ->
  opening i (pl_ticks p) [PlFilter (pl_ticks p) (filter_of mac)] p q8 ->
  post (let* r := uv_pcap_interf_init i (pl_ticks p) mac in
        if negb (r =? 0) then (pl_emit (PlClose (pl_ticks p)) ;;; ret (-1)) else ret 0) (tried i p) q8.
Proof.
  intros [Lm Bm] Hne Ho8.
  apply post_bind. unfold uv_pcap_interf_init. apply post_bind.
  rewrite mem_get_Some by (unfold zlen; lia). rewrite drop_0, take_ge by (rewrite Lm; done).
  eapply (post_mem _ mac); [done|]. apply post_bind, post_modify. cbv beta.
  destruct Ho8 as (Ht & Em & Ec & Eo & Hf & Ei).
  set (h := Some {| if_dev := pl_ticks p; if_mac := mac |}).
  assert (Ei' : <[i := h]> (pl_interfaces q8) = <[i := h]> (pl_interfaces p)).
  { destruct Ei as [->|[h' ->]]; [done|]. apply list_insert_insert_eq. }
  assert (Hx : forall t, (pl_ticks p < t)%nat ->
    opening i (pl_ticks p) [PlFilter (pl_ticks p) (filter_of mac)] p
      (set_pl_ticks t (set_pl_interfaces (<[i := h]> (pl_interfaces q8)) q8))).
  { intros t Hlt. split_and!; [done..|]. right. exists h. exact Ei'. }
  apply post_bind. eapply post_ok; [reflexivity|].
  destruct (negb _) eqn:E1; [apply post_ret; cbv beta; rewrite E1; eapply opening_fail, Hx; cbn; lia|].
  apply post_bind. eapply post_ok; [reflexivity|].
  destruct (negb (pcap_result _ PcPollStart =? 0)) eqn:E2; apply post_ret; cbv beta; rewrite ?E2.
  - cbn [set_pl_ticks pl_ticks set_pl_interfaces]. eapply opening_fail, (Hx (S (S (pl_ticks q8)))). lia.
  - cbn [Z.eqb negb]. apply post_ret. split_and!; [cbn; lia|done..|]. left. split; [done|]. exists mac. by split_and!.
Qed.

Lemma open_live_post i p : post (uv_pcap_open_live i) (tried i p) p.
Proof.
  unfold uv_pcap_open_live. apply post_bind, post_gets, post_bind. eapply post_ok; [reflexivity|].
  destruct (_ =? 0).
  { apply post_ret. split_and!; [cbn; lia|done..|]. right. split_and!; [done|by left|by left]. }
  apply post_bind, post_modify. set (q := set_pl_out _ _).
  assert (Ho : opening i (pl_ticks p) [] p q) by (split_and!; [cbn; lia|done..|by left]). clearbody q.
  apply (opening_step PcSetTimeout (fun r => negb (r =? 0)) i [] p q); [done|]. intros _ q1 _ Ho1 _ _.
  apply (opening_step PcSetSnaplen (fun r => negb (r =? 0)) i [] p q1); [done|]. intros _ q2 _ Ho2 _ _.
  apply (opening_step PcSetPromisc (fun r => negb (r =? 0)) i [] p q2); [done|]. intros _ q3 _ Ho3 _ _.
  clear q q1 q2 Ho Ho1 Ho2. apply post_bind. eapply post_ok; [reflexivity|]. apply opening_call in Ho3.
  set (q4 := set_pl_ticks _ q3) in *. set (rc := pcap_result _ PcActivate). clearbody q4 rc. clear q3. cbv beta.
  destruct (_ && _); [by eapply opening_fail|]. destruct (_ && _); [by eapply opening_fail|].
  destruct (_ <? 0); [by eapply opening_fail|].
  apply (opening_step PcDatalink (fun r => negb (r =? DLT_EN10MB)) i [] p q4); [done|]. intros _ q5 _ Ho5 _ _.
  apply post_bind, post_gets. set (mac := pcap_mac _). assert (Hm : is_mac mac) by apply mac_ok. clearbody mac.
  apply (opening_step PcGetMac (fun r => negb (r =? 0)) i [] p q5); [done|]. intros _ q6 _ Ho6 _ _.
  destruct Hm as [Lm Bm]. rewrite mem_get_Some by (unfold zlen; lia). rewrite drop_0, take_ge by (rewrite Lm; done).
  apply post_bind. eapply (post_mem _ mac); [done|]. case_bool_decide as Hne; [by eapply opening_fail|].
  apply post_bind. unfold set_filter. apply post_bind. rewrite filter_text_run by done.
  eapply (post_mem _ (filter_of mac)); [done|]. apply post_modify.
  assert (Ho7 : opening i (pl_ticks p) [PlFilter (pl_ticks p) (filter_of mac)] p
    (set_pl_out (pl_out q6 ++ [PlFilter (pl_ticks p) (filter_of mac)]) q6)).
  { destruct Ho6 as (? & ? & ? & Eo & _ & ?). split_and!; [done..| |by constructor; [eexists|constructor]|done].
    cbn. by rewrite Eo, <- app_assoc. }
  revert Ho7. generalize (set_pl_out (pl_out q6 ++ [PlFilter (pl_ticks p) (filter_of mac)]) q6). intros q7 Ho7.
  apply (opening_step PcImmediate (fun r => r =? -1) i [PlFilter (pl_ticks p) (filter_of mac)] p q7); [done|]. intros _ q8 _ Ho8 _ _.
  by apply open_interf_post.
Qed.

(** The interfaces [hs] are open, and with the devices [base] nothing else is. *)
Record loading (base : list nat) (hs : list interf) (p : uv_pcap) : Prop := {
  ld_array : take (length hs) (pl_interfaces p) = Some <$> hs;
  ld_macs : Forall (fun h => is_mac (if_mac h)) hs;
  ld_open : open_devs (pl_out p) = base ++ (if_dev <$> hs);
  ld_fresh : Forall (fun d => (d < pl_ticks p)%nat) (open_devs (pl_out p));
  ld_map : pl_map p = ∅;
}.

Lemma open_devs_app out evs : open_devs (out ++ evs) = foldl open_step (open_devs out) evs.
Proof. apply foldl_app. Qed.

Lemma open_filters l mid dev :
  Forall (fun e => exists t, e = PlFilter dev t) mid -> foldl open_step l mid = l.
Proof. induction 1 as [|e mid [t ->] _ IH]; [done|exact IH]. Qed.

Lemma open_closed l mid dev :
  Forall (fun d => (d < dev)%nat) l -> Forall (fun e => exists t, e = PlFilter dev t) mid ->
  foldl open_step l (PlOpen dev :: mid ++ [PlClose dev]) = l.
Proof.
  intros Hl Hm. cbn [foldl open_step]. rewrite foldl_app, (open_filters _ mid dev Hm). cbn [foldl open_step].
  rewrite filter_app, filter_cons_False, filter_nil, app_nil_r by (intros Hd; by apply Hd).
  induction Hl as [|d l Hd Hl IH]; [done|]. rewrite filter_cons_True by lia. by rewrite IH.
Qed.

Lemma tried_loading base hs p r p' :
  loading base hs p -> (length hs < length (pl_interfaces p))%nat -> tried (length hs) p r p' ->
  length (pl_interfaces p') = length (pl_interfaces p) /\
  if decide (r = 0) then exists h, loading base (hs ++ [h]) p' else loading base hs p'.
Proof.
  intros [La Lm Lo Lf Lp] Hlt (Ht & Em & Ec & Hr).
  assert (Hmono : Forall (fun d => (d < pl_ticks p')%nat) (open_devs (pl_out p)))
    by (eapply Forall_impl; [done|]; cbn; lia).
  destruct Hr as [(-> & mac & Hm & _ & Eo & Ei)|(Hr & Eo & Ei)].
  - rewrite decide_True by done. rewrite Ei, length_insert. split; [done|].
    exists {| if_dev := pl_ticks p; if_mac := mac |}.
    assert (Eopen : open_devs (pl_out p') = open_devs (pl_out p) ++ [pl_ticks p])
      by (rewrite Eo; apply open_devs_app).
    constructor.
    + rewrite Ei, length_app, fmap_app, <- La. cbn [length fmap list_fmap]. rewrite Nat.add_1_r.
      erewrite take_S_r by (apply list_lookup_insert_eq; done). by rewrite take_insert_ge by lia.
    + apply Forall_app. split; [done|by constructor].
    + rewrite Eopen, Lo, fmap_app. by rewrite <- app_assoc.
    + rewrite Eopen. apply Forall_app. split; [done|by constructor].
    + congruence.
  - rewrite decide_False by done.
    assert (Eopen : open_devs (pl_out p') = open_devs (pl_out p)).
    { destruct Eo as [->|(mid & -> & Hmid)]; [done|]. rewrite open_devs_app. by apply open_closed. }
    split; [destruct Ei as [->|[h ->]]; by rewrite ?length_insert|]. constructor; [|done| | |congruence].
    + destruct Ei as [->|[h ->]]; [done|]. by rewrite take_insert_ge by lia.
    + congruence.
    + by rewrite Eopen.
Qed.

Lemma open_all_post base devs hs p :
  loading base hs p -> (length hs + length devs <= length (pl_interfaces p))%nat ->
  post (open_all devs (length hs)) (fun n p' => exists hs', n = length hs' /\ loading base hs' p') p.
Proof.
  revert hs p. induction devs as [|name devs IH]; intros hs p Hl Hn; cbn [open_all]; [by apply post_ret; exists hs|].
  cbn [length] in Hn. apply post_bind. eapply post_mono; [apply open_live_post|]. intros r p1 Ht.
  destruct (tried_loading base hs p r p1) as [En Hr]; [done|lia|done|].
  destruct (Z.eqb_spec r 0) as [->|Hne]; cbn [negb].
  - rewrite decide_True in Hr by done. destruct Hr as [h Hh].
    replace (S (length hs)) with (length (hs ++ [h])) by (rewrite length_app; cbn; lia).
    apply IH; [done|]. rewrite length_app. cbn. lia.
  - rewrite decide_False in Hr by done. apply IH; [done|lia].
Qed.

Lemma open_named_post base devs netif p :
  loading base [] p -> (0 < length (pl_interfaces p))%nat ->
  post (open_named devs netif 0) (fun n p' => exists hs', n = length hs' /\ (n <= 1)%nat /\ loading base hs' p') p.
Proof.
  intros Hl Hn. induction devs as [|name devs IH]; cbn [open_named]; [apply post_ret; exists []; by split_and!; [|lia|]|].
  case_bool_decide; [|done]. apply post_bind, post_modify, post_bind. eapply post_mono; [apply open_live_post|].
  intros r p1 Ht. set (q := set_pl_out _ p) in Ht.
  assert (Hq : loading base [] q).
  { destruct Hl as [? ? Lo Lf ?]. assert (Eq : open_devs (pl_out q) = open_devs (pl_out p)) by apply open_devs_app.
    constructor; [done..| | |done]; by rewrite Eq. }
  destruct (tried_loading base [] q r p1 Hq) as [_ Hr]; [done..|].
  destruct (Z.eqb_spec r 0) as [->|Hne]; cbn [negb]; apply post_ret.
  - rewrite decide_True in Hr by done. destruct Hr as [h Hh]. exists [h]. by split_and!.
  - rewrite decide_False in Hr by done. exists []. by split_and!; [|lia|].
Qed.

Lemma count_devs_fst devs i netif : (count_devs devs i netif).1 = i + zlen devs.
Proof.
  revert i netif. induction devs as [|name devs IH]; intros i netif; [cbn; zlia|]. cbn [count_devs]. rewrite IH. zlia.
Qed.

Lemma init_post devs netif p :
  devs <> [] -> pl_out p = [] -> pcap_result (pl_ticks p) PcFindalldevs = 0 ->
  post (uv_pcap_init devs netif) (fun r p' => r = 0 /\ exists hs, pcap_ok p' hs /\
    open_devs (pl_out p') = if_dev <$> hs) p.
Proof.
  intros Hd Ho Hf. unfold uv_pcap_init. apply post_bind, post_modify, post_bind. eapply post_ok; [reflexivity|].
  cbn [pl_ticks set_pl_map]. rewrite Hf. cbn [Z.eqb negb].
  destruct (count_devs devs 0 netif) as [n nm] eqn:Ec. pose proof (count_devs_fst devs 0 netif) as En.
  rewrite Ec in En. cbn [fst] in En. rewrite Z.add_0_l in En. subst n.
  destruct (Z.eqb_spec (zlen devs) 0) as [Ez|_]; [by apply zlen_0_inv in Ez|].
  apply post_bind, post_modify. cbv beta. set (q := set_pl_interfaces _ _).
  assert (Hq : loading [] [] q).
  { constructor; cbn; [done|constructor|by rewrite Ho|rewrite Ho; constructor|done]. }
  assert (Lq : length (pl_interfaces q) = length devs) by (cbn; rewrite length_replicate; unfold zlen; lia).
  assert (0 < length devs)%nat by (destruct devs; [done|cbn; lia]). clearbody q.
  assert (Hfin : forall hs p', loading [] hs p' ->
    post (modify (set_pl_count (Z.of_nat (length hs))) ;;; pl_emit (PlPrint (cstr "pcap loop start" ++ [10])) ;;; ret 0)
      (fun r p' => r = 0 /\ exists hs, pcap_ok p' hs /\ open_devs (pl_out p') = if_dev <$> hs) p').
  { intros hs p' [La Lm Lo Lf Lp]. apply post_bind, post_modify, post_bind, post_modify, post_ret. split; [done|].
    exists hs. split; [constructor; try done|].
    - cbn. rewrite Lp. intros k i Hi. by rewrite lookup_empty in Hi.
    - cbn. rewrite open_devs_app. exact Lo. }
  apply post_bind. destruct nm as [name|].
  - eapply post_mono; [apply (open_named_post []); [done|lia]|]. intros n p' (hs & -> & _ & Hl). by apply Hfin.
  - eapply post_mono; [apply (open_all_post [] devs []); [done|cbn; lia]|]. intros n p' (hs & -> & Hl). by apply Hfin.
Qed.
End opening.

(** ** Which device the option names *)

Lemma count_devs_name devs i s :
  Forall (fun n => atoi n = 0) devs -> 0 <= i ->
  (count_devs devs i (Some s)).2 =
    Some (if decide (i < atoi s <= i + zlen devs) then default s (devs !! Z.to_nat (atoi s - i - 1)) else s).
Proof.
  intros Hd. revert i s. induction Hd as [|name devs Hn Hd IH]; intros i s Hi; cbn [count_devs].
  { case_decide; [|done]. by rewrite zlen_nil in *. }
  destruct (Z.eqb_spec (i + 1) (atoi s)) as [E|E]; rewrite IH by lia; f_equal.
  - rewrite Hn. rewrite decide_False by lia. rewrite decide_True by zlia.
    by replace (Z.to_nat (atoi s - i - 1)) with 0%nat by lia.
  - destruct (decide (i + 1 < atoi s <= i + 1 + zlen devs)) as [Hin|Hout].
    + rewrite decide_True by zlia. by replace (Z.to_nat (atoi s - i - 1)) with (S (Z.to_nat (atoi s - (i + 1) - 1))) by lia.
    + rewrite decide_False by zlia. done.
Qed.

(** ** A thread per interface

    Where polling is not available: [libpcap_handler] runs in the capture thread,
    [get_packet_async_cb] in the client's, and [uv_pcap_interf_close] joins the thread.
    A frame is a number; [th_slot] is the shared pointer. *)

Inductive capture_pc :=
| CapLoop            (* inside pcap_loop *)
| CapStored          (* pkthdr and packet are set *)
| CapWait            (* uv_async_send done, in uv_sem_wait *)
| CapExit.           (* the thread has returned *)
Inductive client_pc :=
| CliLoop            (* inside the event loop *)
| CliCallback        (* handle->callback has the frame *)
| CliJoin            (* uv_pcap_interf_close, in uv_thread_join *)
| CliClosed.

Record threads := {
  th_capture : capture_pc;
  th_client : client_pc;
  th_slot : option nat;
  th_async : bool;                  (* uv_async_send pending *)
  th_sem : nat;
  th_break : bool;                  (* pcap_breakloop *)
  th_captured : list nat;
  th_handled : list nat;
}.

Definition threads_init : threads :=
  {| th_capture := CapLoop; th_client := CliLoop; th_slot := None; th_async := false; th_sem := 0; th_break := false;
     th_captured := []; th_handled := [] |}.

Inductive th_step : threads -> threads -> Prop :=
| libpcap_handler f cli slot sem a cap hd :
    th_step {| th_capture := CapLoop; th_client := cli; th_slot := slot; th_async := a; th_sem := sem; th_break := false;
               th_captured := cap; th_handled := hd |}
            {| th_capture := CapStored; th_client := cli; th_slot := Some f; th_async := a; th_sem := sem; th_break := false;
               th_captured := cap ++ [f]; th_handled := hd |}
| libpcap_handler_send cli slot sem a b cap hd :
    th_step {| th_capture := CapStored; th_client := cli; th_slot := slot; th_async := a; th_sem := sem; th_break := b;
               th_captured := cap; th_handled := hd |}
            {| th_capture := CapWait; th_client := cli; th_slot := slot; th_async := true; th_sem := sem; th_break := b;
               th_captured := cap; th_handled := hd |}
| libpcap_handler_wake cli slot sem a b cap hd :
    th_step {| th_capture := CapWait; th_client := cli; th_slot := slot; th_async := a; th_sem := S sem; th_break := b;
               th_captured := cap; th_handled := hd |}
            {| th_capture := CapLoop; th_client := cli; th_slot := slot; th_async := a; th_sem := sem; th_break := b;
               th_captured := cap; th_handled := hd |}
| libpcap_thread_exit cli slot sem a cap hd :
    th_step {| th_capture := CapLoop; th_client := cli; th_slot := slot; th_async := a; th_sem := sem; th_break := true;
               th_captured := cap; th_handled := hd |}
            {| th_capture := CapExit; th_client := cli; th_slot := slot; th_async := a; th_sem := sem; th_break := true;
               th_captured := cap; th_handled := hd |}
| get_packet_async f capt sem b cap hd :
    th_step {| th_capture := capt; th_client := CliLoop; th_slot := Some f; th_async := true; th_sem := sem; th_break := b;
               th_captured := cap; th_handled := hd |}
            {| th_capture := capt; th_client := CliCallback; th_slot := Some f; th_async := false; th_sem := sem; th_break := b;
               th_captured := cap; th_handled := hd ++ [f] |}
| get_packet_async_post capt slot sem a b cap hd :
    th_step {| th_capture := capt; th_client := CliCallback; th_slot := slot; th_async := a; th_sem := sem; th_break := b;
               th_captured := cap; th_handled := hd |}
            {| th_capture := capt; th_client := CliLoop; th_slot := slot; th_async := a; th_sem := S sem; th_break := b;
               th_captured := cap; th_handled := hd |}
| interf_close capt slot sem a b cap hd :
    th_step {| th_capture := capt; th_client := CliLoop; th_slot := slot; th_async := a; th_sem := sem; th_break := b;
               th_captured := cap; th_handled := hd |}
            {| th_capture := capt; th_client := CliJoin; th_slot := slot; th_async := a; th_sem := sem; th_break := true;
               th_captured := cap; th_handled := hd |}
| interf_joined slot sem a b cap hd :
    th_step {| th_capture := CapExit; th_client := CliJoin; th_slot := slot; th_async := a; th_sem := sem; th_break := b;
               th_captured := cap; th_handled := hd |}
            {| th_capture := CapExit; th_client := CliClosed; th_slot := slot; th_async := a; th_sem := sem; th_break := b;
               th_captured := cap; th_handled := hd |}.

(** Who owns the frame: the capture thread is in its handler exactly until the client has
    handled the frame and posted. *)
Definition th_ok (t : threads) : Prop :=
  let empty := th_async t = false /\ th_client t <> CliCallback in
  let done_all := th_captured t = th_handled t in
  let one_left := exists f, th_slot t = Some f /\ th_captured t = th_handled t ++ [f] in
  match th_capture t with
  | CapLoop | CapExit => th_sem t = 0%nat /\ empty /\ done_all
  | CapStored => th_sem t = 0%nat /\ empty /\ one_left
  | CapWait =>
      (th_sem t = 0%nat /\ th_async t = true /\ th_client t <> CliCallback /\ one_left) \/
      (th_sem t = 0%nat /\ th_async t = false /\ th_client t = CliCallback /\ done_all /\
         last (th_handled t) = th_slot t) \/
      (th_sem t = 1%nat /\ empty /\ done_all)
  end.

Lemma th_step_ok t t' : th_step t t' -> th_ok t -> th_ok t'.
Proof.
  intros Hs Ht. destruct Hs; unfold th_ok in *; cbn in *.
  - destruct Ht as (-> & [-> ?] & ->). split_and!; try done. by exists f.
  - destruct Ht as (-> & [-> ?] & Hl). left. by split_and!.
  - destruct Ht as [(? & _)|[(? & _)|(? & [-> ?] & ->)]]; [lia..|]. split_and!; [lia|done..].
  - done.
  - destruct capt; try (by destruct_and!). destruct Ht as [(-> & _ & _ & f' & [= ->] & ->)|[(_ & ? & _)|(_ & [? _] & _)]]; [|done..].
    right; left. split_and!; try done. by rewrite last_snoc.
  - destruct capt; try (by destruct_and!). destruct Ht as [(_ & _ & ? & _)|[(-> & -> & _ & -> & _)|(_ & [_ ?] & _)]]; [done| |done].
    right; right. by split_and!.
  - destruct capt; try (by destruct_and!; split_and!). destruct Ht as [Ht|[(_ & _ & ? & _)|Ht]]; [left|done|right; right];
      by destruct_and!; split_and!.
  - by destruct_and!; split_and!.
Qed.

Lemma threads_reach_ok t : rtc th_step threads_init t -> th_ok t.
Proof.
  intros Hr. remember threads_init as t0 eqn:E.
  assert (H0 : th_ok t0) by (by subst). clear E.
  induction Hr as [|t1 t2 t3 H12 H23 IH]; [done|]. apply IH. by eapply th_step_ok.
Qed.

(** The client joins the thread while the thread waits for the client. *)
Definition deadlocked (t : threads) : Prop :=
  th_client t = CliJoin /\ th_capture t = CapWait /\ th_sem t = 0%nat.

Lemma deadlocked_stuck t t' : deadlocked t -> ~ th_step t t'.
Proof. intros (Hc & Hw & Hs) Hst. destruct Hst; cbn in *; congruence. Qed.

Lemma deadlock_reachable f : exists t, rtc th_step threads_init t /\ deadlocked t /\ th_captured t = [f].
Proof.
  eexists. split.
  - eapply rtc_l; [apply (libpcap_handler f)|]. eapply rtc_l; [apply libpcap_handler_send|].
    eapply rtc_l; [apply interf_close|]. apply rtc_refl.
  - by repeat split.
Qed.

(** ** Results *)

Section results.
Context `{Pcap}.

(** Sending a frame.  The result is 0 and the caller's buffer is as it was.  If the
    frame's source address is the destination of a captured frame, the frame leaves once,
    on the interface that captured the last such frame; otherwise it leaves on every open
    interface.  On each one the source address is the interface's own, and the rest of
    the frame is unchanged. *)
Theorem pcap_send_spec hs data p :
  pcap_ok p hs -> 12 <= zlen data ->
  exists p', pl_sendpacket data (zlen data) p = Ok (0, data) p' /\
    pl_out p' = pl_out p ++ ((fun h => PlSend (if_dev h) (frame_on h data)) <$> targets hs data p) /\
    pcap_ok p' hs.
Proof.
  intros Hp Hl. eexists. split; [by apply pl_sendpacket_run|]. split; [apply sent_on_all_out|].
  generalize (targets hs data p). intros l. revert p Hp. induction l as [|h l IH]; intros p Hp; [done|].
  by apply (IH (sent_on h data p)), sent_on_ok.
Qed.

(** An answer leaves where the question came in.  The interface [i] captures a frame
    addressed to it, and the client handles it; a frame that the packet layer then builds
    with that interface's address as its own leaves on this interface and on no other, up
    to the next capture. *)
Theorem pcap_answer_interface `{E : Env} hs p w i h hdr rest p' w' dst type data w2 :
  pcap_ok p hs -> hs !! i = Some h ->
  uv_pcap_callback lan_play_pcap_handler i hdr (if_mac h ++ rest) (p, w) = Ok tt (p', w') ->
  length dst = 6%nat -> pc_mac (pctx w2) = if_mac h ->
  let frame := framed dst type data w2 in
  exists q, pl_sendpacket frame (zlen frame) p' = Ok (0, frame) q /\
    pl_out q = pl_out p ++ [PlSend (if_dev h) frame].
Proof.
  intros Hp Hi Hc Hd Hm frame. pose proof (po_macs _ _ Hp) as Hms. rewrite Forall_lookup in Hms.
  destruct (Hms _ _ Hi) as [Lm _]. unfold uv_pcap_callback in Hc. rewrite mac2int_run in Hc by done.
  set (k := load (if_mac h ++ [0; 0])) in *. cbn [mem] in Hc. rewrite (bind_ok _ _ _ k (p, w)) in Hc by done.
  set (q := set_pl_map (<[k := i]> (pl_map p)) p). rewrite (bind_ok _ _ _ tt (q, w)) in Hc by done.
  assert (Hq : pcap_ok q hs).
  { destruct Hp as [Pc Pa Pm Pk]. constructor; [done..|]. cbn. intros k' j [[_ <-]|[_ ?]]%lookup_insert_Some; [|eauto].
    by eapply lookup_lt_Some. }
  assert (Ei : on_pcap (interface_at i) (q, w) = Ok h (q, w))
    by (unfold on_pcap; cbn [fst]; by rewrite (interface_at_run q hs i h)).
  rewrite (bind_ok _ _ _ _ _ Ei) in Hc. unfold on_client in Hc. destruct (lan_play_pcap_handler _ _ _ _); [|done].
  injection Hc as _ <- _.
  assert (Ef : frame = dst ++ if_mac h ++ [u16 type / 256; u16 type mod 256] ++ data)
    by (unfold frame, framed, eth_hdr; by rewrite Hm, <- !app_assoc).
  assert (Hl : 12 <= zlen frame) by (rewrite Ef; unfold zlen; rewrite !length_app; lia).
  eexists. split; [by apply (pl_sendpacket_run hs)|]. rewrite sent_on_all_out.
  assert (E6 : drop 6 frame = if_mac h ++ [u16 type / 256; u16 type mod 256] ++ data)
    by (rewrite Ef; by apply drop_app_length').
  unfold targets. rewrite E6, take_app_length' by done. fold k. cbn [q pl_map set_pl_map].
  rewrite lookup_insert_eq, Hi. cbn [fmap list_fmap]. unfold frame_on. do 3 f_equal.
  assert (drop 12 frame = drop 6 (drop 6 frame)) as -> by (by rewrite drop_drop).
  rewrite E6, drop_app_length' by done. rewrite Ef. by rewrite take_app_length'.
Qed.

(** What starting the capture leaves, whatever libpcap answers: it returns 0 with the
    open interfaces in the array, each with a hardware address, and the devices that
    were opened and not closed are exactly those of the interfaces.  So every device
    that was opened and then rejected has been closed. *)
Theorem uv_pcap_init_spec devs netif p :
  (forall k, is_mac (pcap_mac k)) ->
  devs <> [] -> pl_out p = [] -> pcap_result (pl_ticks p) PcFindalldevs = 0 ->
  exists p' hs, uv_pcap_init devs netif p = Ok 0 p' /\ pcap_ok p' hs /\ open_devs (pl_out p') = if_dev <$> hs.
Proof.
  intros Hm Hd Ho Hf. destruct (post_inv _ _ _ (init_post Hm devs netif p Hd Ho Hf)) as (r & p' & E & -> & hs & Hok & Hop).
  by exists p', hs.
Qed.

(** The capture filter is the default network's, with the prefix length of the default
    mask, whatever network the command line sets; only the interface's own address
    varies. *)
Theorem filter_fixed mac : length mac = 6%nat -> filter_text mac = Some (filter_of mac).
Proof. apply filter_text_run. Qed.

(** [--netif]: a number from 1 to the number of devices names the device at that place,
    anything else is a device name, provided no device's name starts with a number. *)
Theorem netif_selects devs s :
  Forall (fun n => atoi n = 0) devs ->
  (count_devs devs 0 (Some s)).2 =
    Some (if decide (0 < atoi s <= zlen devs) then default s (devs !! Z.to_nat (atoi s - 1)) else s).
Proof. intros Hd. rewrite count_devs_name by done. by rewrite Z.sub_0_r, Z.add_0_l. Qed.
End results.

(** A thread per interface: in every reachable state, the frames handled by the client
    are the frames captured, in order, without repetition, up to at most one that is
    waiting; and while the client's callback runs, the capture thread is still inside its
    handler, so the frame in the slot is the one being handled. *)
Theorem threads_handover t :
  rtc th_step threads_init t ->
  (th_captured t = th_handled t \/ exists f, th_slot t = Some f /\ th_captured t = th_handled t ++ [f]) /\
  (th_client t = CliCallback -> th_capture t = CapWait /\ last (th_handled t) = th_slot t).
Proof.
  intros Hok%threads_reach_ok. unfold th_ok in Hok. destruct (th_capture t); naive_solver.
Qed.

(** Closing an interface can block for ever: from the start, one captured frame and a
    close before the client has seen it lead to a state in which the client waits for the
    thread, the thread waits for the client, and no step is possible. *)
Theorem threads_close_deadlock f :
  exists t, rtc th_step threads_init t /\ th_captured t = [f] /\ th_client t = CliJoin /\
    forall t', ~ th_step t t'.
Proof.
  destruct (deadlock_reachable f) as (t & Hr & Hd & Hc). exists t. split_and!; [done..|apply Hd|].
  intros t'. by apply deadlocked_stuck.
Qed.

(** ** Concrete runs *)

(** A libpcap that opens everything. *)
Definition demo_pcap : Pcap :=
  {| pcap_host := le_host;
     pcap_result := fun _ op => match op with PcCreate | PcDatalink => 1 | _ => 0 end;
     pcap_mac := fun k => [2; 0; 0; 0; 1; Z.of_nat k mod 256] |}.
#[local] Existing Instance demo_pcap.
#[local] Existing Instance demo_env.

Definition demo_pl0 : uv_pcap :=
  {| pl_map := ∅; pl_interfaces := []; pl_count := 0; pl_ticks := 0; pl_out := [] |}.
Definition demo_if0 : interf := {| if_dev := 1; if_mac := [2; 0; 0; 0; 1; 7] |}.
Definition demo_if1 : interf := {| if_dev := 11; if_mac := [2; 0; 0; 0; 1; 17] |}.
Definition demo_pl : uv_pcap :=
  {| pl_map := ∅; pl_interfaces := [Some demo_if0; Some demo_if1]; pl_count := 2; pl_ticks := 21; pl_out := [] |}.
Lemma demo_pl_ok : pcap_ok demo_pl [demo_if0; demo_if1].
Proof.
  constructor; [done..| |].
  - constructor; [split; [done|bytes_tac]|]. constructor; [split; [done|bytes_tac]|constructor].
  - intros k i Hi. cbn in Hi. by rewrite lookup_empty in Hi.
Qed.

Lemma pcap_send_spec_witness :
  exists p', pl_sendpacket (replicate 14 9) 14 demo_pl = Ok (0, replicate 14 9) p' /\
    pl_out p' = [PlSend 1 ([9; 9; 9; 9; 9; 9] ++ [2; 0; 0; 0; 1; 7] ++ [9; 9]);
                 PlSend 11 ([9; 9; 9; 9; 9; 9] ++ [2; 0; 0; 0; 1; 17] ++ [9; 9])].
Proof.
  destruct (pcap_send_spec [demo_if0; demo_if1] (replicate 14 9) demo_pl) as (p' & E & Ho & _);
    [apply demo_pl_ok|vm_compute; discriminate|].
  exists p'. split; [exact E|]. rewrite Ho. vm_compute. reflexivity.
Defined.

(** After a frame for the second interface. *)
Definition demo_caught : uv_pcap * world :=
  match uv_pcap_callback lan_play_pcap_handler 1 {| pk_caplen := 14; pk_len := 14 |}
          (if_mac demo_if1 ++ replicate 8 0) (demo_pl, demo_world) with
  | Ok _ s => s
  | Stop _ => (demo_pl, demo_world)
  end.

Lemma pcap_answer_interface_witness :
  let frame := framed demo_mac 0x0806 [] demo_caught.2 in
  exists q, pl_sendpacket frame (zlen frame) demo_caught.1 = Ok (0, frame) q /\ pl_out q = [PlSend 11 frame].
Proof.
  intros frame.
  destruct (pcap_answer_interface [demo_if0; demo_if1] demo_pl demo_world 1 demo_if1 {| pk_caplen := 14; pk_len := 14 |}
    (replicate 8 0) demo_caught.1 demo_caught.2 demo_mac 0x0806 [] demo_caught.2) as (q & E & Ho).
  - apply demo_pl_ok.
  - reflexivity.
  - vm_compute. reflexivity.
  - reflexivity.
  - vm_compute. reflexivity.
  - exists q. split; [exact E|exact Ho].
Defined.

Lemma uv_pcap_init_spec_witness :
  exists p' hs, uv_pcap_init [cstr "eth0"; cstr "wlan0"] None demo_pl0 = Ok 0 p' /\ pcap_ok p' hs /\
    open_devs (pl_out p') = if_dev <$> hs.
Proof.
  apply (uv_pcap_init_spec [cstr "eth0"; cstr "wlan0"] None demo_pl0); [|done..].
  intros k. split; [done|]. repeat (constructor; [unfold is_u8; lia|]). constructor; [|constructor].
  unfold is_u8. cbn. pose proof (Z.mod_pos_bound (Z.of_nat k) 256). lia.
Defined.

Lemma filter_fixed_witness :
  filter_text [2; 0; 0; 0; 1; 255] = Some (cstr "net 10.13.0.0/16 and not ether src 02:00:00:00:01:ff").
Proof. etransitivity; [apply (filter_fixed [2; 0; 0; 0; 1; 255]); reflexivity|reflexivity]. Defined.

Lemma netif_selects_witness :
  (count_devs [cstr "eth0"; cstr "wlan0"] 0 (Some (cstr "2"))).2 = Some (cstr "wlan0").
Proof.
  etransitivity; [apply (netif_selects [cstr "eth0"; cstr "wlan0"] (cstr "2"));
    repeat (constructor; [vm_compute; reflexivity|]); constructor|vm_compute; reflexivity].
Defined.

Lemma threads_handover_witness :
  exists t, rtc th_step threads_init t /\ th_captured t = th_handled t ++ [7]%nat.
Proof.
  eexists. split; [eapply rtc_l; [apply (libpcap_handler 7)|apply rtc_refl]|].
  destruct (threads_handover _ (rtc_l _ _ _ _ (libpcap_handler 7 CliLoop None 0 false [] []) (rtc_refl _ _)))
    as [[Hc|(f & Ef & Hc)] _]; [discriminate Hc|]. injection Ef as <-. exact Hc.
Defined.
