(* ===== verification/Nx.v ===== *)
(** The console port of the packet layer: [packet.c], [arp.c], [ipv4/ipv4.c],
    [ipv4/udp.c] and [ipv4/icmp.c] of [sysmodule/source].

    The Switch system module has its own copies of these files.  They run on the
    same structures ([nx_common.h] repeats the declarations), with two calls into
    the C++ part: [tap_send_packet], which hands a frame to the console's network
    stack, and the port's [lan_client_send_ipv4].  Both are the class [NxPort].

    Shown here: plugged into the desktop client's functions, the port handles a
    frame exactly as the desktop code does whenever the frame passes the checks the
    port leaves out; and what leaving them out means: the received length is never
    looked at, so that a header may claim bytes that were not received.  The port
    has one check of its own, on the length of ICMP messages. *)

From stdpp Require Import gmap.
From S2P Require Import Prelude Byteorder Structs Checksum Packet Arp Ipv4 Sha1 LanClient Dispatch.

(** ** The code *)

(** The C++ side: a frame for the console, and a packet for the relay (destination,
    bytes from the packet on, length). *)
Class NxPort `{Env} := {
  tap_send_packet : bytes -> M world Z;
  nx_lan_client_send_ipv4 : bytes -> bytes -> Z -> M world Z;
}.

(** *** packet.c *)

Section packet_c.
Context `{NxPort}.

Definition nx_lan_play_send_packet (data : bytes) : M world Z := tap_send_packet data.

(** [while (part) ...]: [pos] is [buf - self->buffer]. *)
Fixpoint nx_send_loop (parts : payload) (pos total_len : Z) : M world Z :=
  match parts with
  | [] =>
      upd_pctx (fun c => set_pc_upload_packet (u64 (pc_upload_packet c + 1)) c) ;;;
      upd_pctx (fun c => set_pc_upload_byte (u64 (pc_upload_byte c + total_len)) c) ;;;
      let* b := gets (fun w => pc_buffer (pctx w)) in
      let* data := mem (mem_get b 0 total_len) in
      nx_lan_play_send_packet data
  | p :: next =>
      let* buffer_len := gets (fun w => pc_buffer_len (pctx w)) in
      if buffer_len <=? pos + p_len p then ret (-1)
      else
        let* b := gets (fun w => pc_buffer (pctx w)) in
        let* b := mem (memcpy b pos (p_ptr p) 0 (p_len p)) in
        upd_pctx (set_pc_buffer b) ;;;
        nx_send_loop next (pos + p_len p) (u16 (total_len + p_len p))
  end.
Definition nx_send_payloads (c : payload) : M world Z := nx_send_loop c 0 0.

Definition nx_send_ether_ex (dst src : bytes) (type : Z) (c : payload) : M world Z :=
  let* buffer := mem (b ← CPY_MAC (uninit ETHER_HEADER_LEN) ETHER_OFF_DST dst 0;
                      b ← CPY_MAC b ETHER_OFF_SRC src 0;
                      WRITE_NET16 b ETHER_OFF_TYPE type) in
  nx_send_payloads ({| p_ptr := buffer; p_len := ETHER_HEADER_LEN |} :: c).

Definition nx_send_ether (dst : bytes) (type : Z) (c : payload) : M world Z :=
  let* mac := gets (fun w => pc_mac (pctx w)) in
  nx_send_ether_ex dst mac type c.

Definition nx_parse_ether (packet : bytes) (len : Z) : option ether_frame :=
  dst ← mem_get packet ETHER_OFF_DST 6;
  src ← mem_get packet ETHER_OFF_SRC 6;
  type ← READ_NET16 packet ETHER_OFF_TYPE;
  pl ← mem_from packet ETHER_OFF_END;
  Some {| ef_raw := packet; ef_raw_len := len; ef_dst := dst; ef_src := src;
          ef_type := type; ef_payload := pl |}.

Definition nx_packet_set_mac (mac : bytes) : M world unit := upd_pctx (set_pc_mac mac).

Definition s_any_mac : bytes := [0xff; 0xff; 0xff; 0xff; 0xff; 0xff].

Definition nx_packet_init (buffer : bytes) (buffer_len : Z) (ip subnet_net subnet_mask : bytes)
    (arp_ttl : Z) : M world Z :=
  let* ip := mem (mem_get ip 0 4) in
  let* net := mem (mem_get subnet_net 0 4) in
  let* mask := mem (mem_get subnet_mask 0 4) in
  upd_pctx (fun _ =>
    {| pc_buffer := buffer; pc_buffer_len := buffer_len; pc_ip := ip;
       pc_subnet_net := net; pc_subnet_mask := mask; pc_mac := s_any_mac;
       pc_identification := 0;
       pc_arp_list := replicate (Z.to_nat ARP_CACHE_LEN)
         {| ai_ip := [0; 0; 0; 0]; ai_mac := [0; 0; 0; 0; 0; 0]; ai_expire_at := 0 |};
       pc_arp_ttl := arp_ttl;
       pc_upload_byte := 0; pc_download_byte := 0;
       pc_upload_packet := 0; pc_download_packet := 0 |}) ;;;
  ret 0.

Definition nx_packet_close : M world Z := ret 0.

Fixpoint nx_payload_total_len_loop (c : payload) (total : Z) : Z :=
  match c with
  | [] => total
  | p :: next => nx_payload_total_len_loop next (u16 (total + p_len p))
  end.
Definition nx_payload_total_len (c : payload) : Z := nx_payload_total_len_loop c 0.

Fixpoint nx_payload_print_hex (c : payload) : M world unit :=
  match c with
  | [] => ret tt
  | p :: next =>
      let* b := mem (mem_get (p_ptr p) 0 (p_len p)) in
      modify (emit (EvDump b)) ;;; nx_payload_print_hex next
  end.
End packet_c.

(** *** arp.c *)

Section arp_c.
Context `{NxPort}.

Definition nx_parse_arp (ether : ether_frame) : option arp :=
  let packet := ef_payload ether in
  hardware_type ← READ_NET16 packet ARP_OFF_HARDWARE;
  protocol_type ← READ_NET16 packet ARP_OFF_PROTOCOL;
  hardware_size ← READ_NET8 packet ARP_OFF_HARDWARE_SIZE;
  protocol_size ← READ_NET8 packet ARP_OFF_PROTOCOL_SIZE;
  opcode ← READ_NET16 packet ARP_OFF_OPCODE;
  sender_mac ← mem_get packet ARP_OFF_SENDER_MAC 6;
  sender_ip ← mem_get packet ARP_OFF_SENDER_IP 4;
  target_mac ← mem_get packet ARP_OFF_TARGET_MAC 6;
  target_ip ← mem_get packet ARP_OFF_TARGET_IP 4;
  Some {| arp_hardware_type := hardware_type; arp_protocol_type := protocol_type;
          arp_hardware_size := hardware_size; arp_protocol_size := protocol_size;
          arp_opcode := opcode; arp_sender_mac := sender_mac; arp_sender_ip := sender_ip;
          arp_target_mac := target_mac; arp_target_ip := target_ip |}.

Definition nx_send_arp_ex (dst_mac : bytes) (opcode : Z)
    (sender_mac sender_ip target_mac target_ip : bytes) : M world Z :=
  let* buffer := mem (
    b ← WRITE_NET16 (uninit ARP_LEN) ARP_OFF_HARDWARE ARP_HARDTYPE_ETHER;
    b ← WRITE_NET16 b ARP_OFF_PROTOCOL ETHER_TYPE_IPV4;
    b ← WRITE_NET8 b ARP_OFF_HARDWARE_SIZE 6;
    b ← WRITE_NET8 b ARP_OFF_PROTOCOL_SIZE 4;
    b ← WRITE_NET16 b ARP_OFF_OPCODE opcode;
    b ← CPY_MAC b ARP_OFF_SENDER_MAC sender_mac 0;
    b ← CPY_IPV4 b ARP_OFF_SENDER_IP sender_ip 0;
    b ← CPY_MAC b ARP_OFF_TARGET_MAC target_mac 0;
    CPY_IPV4 b ARP_OFF_TARGET_IP target_ip 0) in
  nx_send_ether dst_mac ETHER_TYPE_ARP [{| p_ptr := buffer; p_len := ARP_LEN |}].

Definition nx_send_arp (opcode : Z) (sender_mac sender_ip target_mac target_ip : bytes) : M world Z :=
  nx_send_arp_ex target_mac opcode sender_mac sender_ip target_mac target_ip.

Definition nx_send_arp_request (target_ip : bytes) : M world Z :=
  let* mac := gets (fun w => pc_mac (pctx w)) in
  let* ip := gets (fun w => pc_ip (pctx w)) in
  nx_send_arp_ex BROADCASE_MAC ARP_OPCODE_REQUEST mac ip NONE_MAC target_ip.

(** The loops over the cache are those of the desktop file. *)
Definition nx_arp_has_ip (ip : bytes) : M world bool :=
  let* now := time_now in
  let* l := gets (fun w => pc_arp_list (pctx w)) in
  ret (bool_decide (is_Some (arp_find l ip now))).

Definition nx_arp_get_mac_by_ip (ip : bytes) : M world (option bytes) :=
  let* now := time_now in
  let* l := gets (fun w => pc_arp_list (pctx w)) in
  match arp_find l ip now with
  | Some item => ret (Some (ai_mac item))
  | None => let* _ := nx_send_arp_request ip in ret None
  end.

Definition nx_arp_set (mac ip : bytes) : M world bool :=
  let* now := time_now in
  let* ttl := gets (fun w => pc_arp_ttl (pctx w)) in
  let* l := gets (fun w => pc_arp_list (pctx w)) in
  match arp_set_loop l mac ip now ttl with
  | Some l' => upd_pctx (set_pc_arp_list l') ;;; ret true
  | None => ret false
  end.

Definition nx_arp_for_each (cb : arp_item -> M world Z) : M world unit :=
  let* now := time_now in
  arp_for_each_loop (seq 0 (Z.to_nat ARP_CACHE_LEN)) now cb.

Definition nx_arp_request (a : arp) : M world Z :=
  let* c := gets pctx in
  if IS_SUBNET (arp_target_ip a) (pc_subnet_net c) (pc_subnet_mask c) then
    if CMP_IPV4 (arp_target_ip a) (arp_sender_ip a) then ret 0
    else if CMP_IPV4 (arp_sender_ip a) NONE_IP then ret 0
    else
      let* known := nx_arp_has_ip (arp_target_ip a) in
      if known : bool then ret 0
      else
        let* mac := gets (fun w => pc_mac (pctx w)) in
        nx_send_arp ARP_OPCODE_REPLY mac (arp_target_ip a) (arp_sender_mac a) (arp_sender_ip a)
  else ret 0.

Definition nx_arp_reply (a : arp) : M world Z := ret 0.

Definition nx_process_arp (ether : ether_frame) : M world Z :=
  let* a := mem (nx_parse_arp ether) in
  if negb (arp_hardware_type a =? ARP_HARDTYPE_ETHER)
     || negb (arp_protocol_type a =? ETHER_TYPE_IPV4)
     || negb (arp_hardware_size a =? 6)
     || negb (arp_protocol_size a =? 4)
  then ret (-1)
  else
    let* _ := nx_arp_set (arp_sender_mac a) (arp_sender_ip a) in
    if arp_opcode a =? ARP_OPCODE_REQUEST then nx_arp_request a
    else if arp_opcode a =? ARP_OPCODE_REPLY then nx_arp_reply a
    else ret (-1).
End arp_c.

(** *** ipv4/ipv4.c, ipv4/udp.c, ipv4/icmp.c *)

Section ipv4_c.
Context `{NxPort}.

(** Two bytes a round; the loops over the words and the fold are those of the
    desktop file. *)
Definition nx_calc_checksum (buffer : bytes) (len : Z) : option Z :=
  '(o, len, sum) ← sum_words buffer 0 len 0;
  sum ← (if negb (len =? 0)
         then b ← READ_NET8 buffer o; Some (u32 (sum + b))
         else Some sum);
  sum ← fold_sum sum;
  Some (u16 (Z.lnot sum)).

Fixpoint nx_payload_loop (parts : payload) (offset sum : Z) : option Z :=
  match parts with
  | [] => Some sum
  | p :: next =>
      '(o, len, sum) ← sum_words (p_ptr p) (2 * offset) (p_len p - offset) sum;
      if negb (len =? 0) then
        hi ← READ_NET8 (p_ptr p) o;
        sum ← match next with
              | q :: _ =>
                  lo ← READ_NET8 (p_ptr q) 0;
                  Some (u32 (sum + Z.lor (Z.shiftl hi 8) lo))
              | [] => Some (u32 (sum + Z.shiftl hi 8))
              end;
        nx_payload_loop next 1 sum
      else nx_payload_loop next 0 sum
  end.
Definition nx_calc_payload_checksum (parts : payload) : option Z :=
  sum ← nx_payload_loop parts 0 0;
  sum ← fold_sum sum;
  Some (u16 (Z.lnot sum)).

Definition nx_ipv4_header (src dst : bytes) (protocol id total_len : Z) : option bytes :=
  b ← WRITE_NET8 (uninit IPV4_HEADER_LEN) IPV4_OFF_VER_LEN 0x45;
  b ← WRITE_NET8 b IPV4_OFF_DSCP_ECN 0x00;
  b ← WRITE_NET16 b IPV4_OFF_TOTAL_LEN total_len;
  b ← WRITE_NET16 b IPV4_OFF_ID id;
  b ← WRITE_NET16 b IPV4_OFF_FLAGS_FRAG_OFFSET 0;
  b ← WRITE_NET8 b IPV4_OFF_TTL 128;
  b ← WRITE_NET8 b IPV4_OFF_PROTOCOL protocol;
  b ← WRITE_NET16 b IPV4_OFF_CHECKSUM 0x0000;
  b ← CPY_IPV4 b IPV4_OFF_SRC src 0;
  b ← CPY_IPV4 b IPV4_OFF_DST dst 0;
  checksum ← nx_calc_checksum b IPV4_HEADER_LEN;
  WRITE_NET16 b IPV4_OFF_CHECKSUM checksum.

Definition nx_send_ipv4_ex (src dst : bytes) (protocol : Z) (c : payload) : M world Z :=
  let* id := gets (fun w => pc_identification (pctx w)) in
  upd_pctx (set_pc_identification (u16 (id + 1))) ;;;
  let* buffer := mem (nx_ipv4_header src dst protocol id (IPV4_HEADER_LEN + nx_payload_total_len c)) in
  let* r := nx_arp_get_mac_by_ip dst in
  match r with
  | None => ret 0
  | Some dst_mac =>
      nx_send_ether dst_mac ETHER_TYPE_IPV4 ({| p_ptr := buffer; p_len := IPV4_HEADER_LEN |} :: c)
  end.

Definition nx_send_ipv4 (dst : bytes) (protocol : Z) (c : payload) : M world Z :=
  let* ip := gets (fun w => pc_ip (pctx w)) in
  nx_send_ipv4_ex ip dst protocol c.

Definition nx_parse_ipv4 (ether : ether_frame) : option ipv4 :=
  let packet := ef_payload ether in
  t ← READ_NET8 packet IPV4_OFF_VER_LEN;
  let version := Z.shiftr t 4 in
  let header_len := Z.land t 0xF * 4 in
  t ← READ_NET8 packet IPV4_OFF_DSCP_ECN;
  let dscp := Z.shiftr t 2 in
  let ecn := Z.land t 3 in
  total_len ← READ_NET16 packet IPV4_OFF_TOTAL_LEN;
  identification ← READ_NET16 packet IPV4_OFF_ID;
  tt ← READ_NET16 packet IPV4_OFF_FLAGS_FRAG_OFFSET;
  let flags := Z.shiftr tt 13 in
  let fragment_offset := Z.land tt 0x1fff in
  ttl ← READ_NET8 packet IPV4_OFF_TTL;
  protocol ← READ_NET8 packet IPV4_OFF_PROTOCOL;
  checksum ← READ_NET16 packet IPV4_OFF_CHECKSUM;
  src ← mem_get packet IPV4_OFF_SRC 4;
  dst ← mem_get packet IPV4_OFF_DST 4;
  let pl := drop (Z.to_nat header_len) packet in
  Some {| ip_ether := ether; ip_version := version; ip_header_len := header_len;
          ip_dscp := dscp; ip_ecn := ecn; ip_total_len := total_len;
          ip_identification := identification; ip_flags := flags;
          ip_fragment_offset := fragment_offset; ip_ttl := ttl; ip_protocol := protocol;
          ip_checksum := checksum; ip_src := src; ip_dst := dst; ip_payload := pl |}.

Definition nx_parse_udp (ip : ipv4) : option udp :=
  let packet := ip_payload ip in
  srcport ← READ_NET16 packet UDP_OFF_SRCPORT;
  dstport ← READ_NET16 packet UDP_OFF_DSTPORT;
  length ← READ_NET16 packet UDP_OFF_LENGTH;
  checksum ← READ_NET16 packet UDP_OFF_CHECKSUM;
  pl ← mem_from packet UDP_OFF_END;
  Some {| udp_ipv4 := ip; udp_srcport := srcport; udp_dstport := dstport;
          udp_length := length; udp_checksum := checksum; udp_payload := pl |}.

Definition nx_send_udp_ex (src : bytes) (srcport : Z) (dst : bytes) (dstport : Z) (c : payload)
    : M world Z :=
  let udp_length := u16 (UDP_OFF_END + nx_payload_total_len c) in
  let* buffer := mem (
    b ← WRITE_NET16 (uninit UDP_OFF_END) UDP_OFF_SRCPORT srcport;
    b ← WRITE_NET16 b UDP_OFF_DSTPORT dstport;
    b ← WRITE_NET16 b UDP_OFF_LENGTH udp_length;
    b ← WRITE_NET16 b UDP_OFF_CHECKSUM 0;
    p ← CPY_IPV4 (uninit IPV4P_OFF_END) IPV4P_OFF_SRC src 0;
    p ← CPY_IPV4 p IPV4P_OFF_DST dst 0;
    p ← WRITE_NET8 p IPV4P_OFF_ZERO 0;
    p ← WRITE_NET8 p IPV4P_OFF_PROTOCOL IPV4_PROTOCOL_UDP;
    p ← WRITE_NET16 p IPV4P_OFF_LENGTH udp_length;
    checksum ← nx_calc_payload_checksum
      ({| p_ptr := p; p_len := IPV4P_OFF_END |} :: {| p_ptr := b; p_len := UDP_OFF_END |} :: c);
    WRITE_NET16 b UDP_OFF_CHECKSUM checksum) in
  nx_send_ipv4_ex src dst IPV4_PROTOCOL_UDP ({| p_ptr := buffer; p_len := UDP_OFF_END |} :: c).

(** The local [payload] array after the reply has been prepared in it. *)
Definition nx_icmp_buffer (ip : ipv4) (icmp_len : Z) : option bytes :=
  b ← memcpy (uninit BUFFER_SIZE) 0 (ip_payload ip) 0 icmp_len;
  b ← WRITE_NET8 b 0 0;
  b ← WRITE_NET16 b 2 0x0000;
  sum ← nx_calc_checksum b icmp_len;
  WRITE_NET16 b 2 sum.

Definition nx_process_icmp (ip : ipv4) : M world Z :=
  let icmp_len := ip_total_len ip - ip_header_len ip in
  if (icmp_len <=? 0) || (BUFFER_SIZE <? icmp_len) then ret (-1)
  else
    let* b := mem (nx_icmp_buffer ip icmp_len) in
    let* _ := nx_send_ipv4 (ip_src ip) IPV4_PROTOCOL_ICMP [{| p_ptr := b; p_len := u16 icmp_len |}] in
    ret 0.

Definition nx_process_ipv4 (ether : ether_frame) : M world Z :=
  let* ip := mem (nx_parse_ipv4 ether) in
  let* _ := nx_arp_set (ef_src ether) (ip_src ip) in
  let* c := gets pctx in
  let packet := ef_payload ether in
  let part := {| p_ptr := packet; p_len := ip_total_len ip |} in
  if CMP_IPV4 (ip_dst ip) (pc_ip c) then
    if ip_protocol ip =? IPV4_PROTOCOL_ICMP then nx_process_icmp ip else ret 0
  else if IS_SUBNET (ip_dst ip) (pc_subnet_net c) (pc_subnet_mask c) then
    if IS_BROADCAST (ip_dst ip) (pc_subnet_net c) (pc_subnet_mask c) then
      let* _ := nx_lan_client_send_ipv4 (ip_dst ip) packet (ip_total_len ip) in
      nx_send_ether (ef_src ether) ETHER_TYPE_IPV4 [part]
    else
      let* known := nx_arp_has_ip (ip_dst ip) in
      if known : bool then
        let* r := nx_arp_get_mac_by_ip (ip_dst ip) in
        let dst_mac := match r with Some mac => mac | None => uninit 6 end in
        nx_send_ether dst_mac ETHER_TYPE_IPV4 [part]
      else nx_lan_client_send_ipv4 (ip_dst ip) packet (ip_total_len ip)
  else ret 0.

(** *** Back in packet.c *)

Definition nx_process_ether (packet : bytes) (len : Z) : M world Z :=
  let* ether := mem (nx_parse_ether packet len) in
  let* mac := gets (fun w => pc_mac (pctx w)) in
  if CMP_MAC (ef_src ether) mac then ret 0
  else if ef_type ether =? ETHER_TYPE_ARP then nx_process_arp ether
  else if ef_type ether =? ETHER_TYPE_IPV4 then nx_process_ipv4 ether
  else ret 0.

Definition nx_get_packet (h : pcap_pkthdr) (packet : bytes) : M world unit :=
  if 65536 <=? pk_len h then ret tt
  else
    upd_pctx (fun c => set_pc_download_packet (u64 (pc_download_packet c + 1)) c) ;;;
    upd_pctx (fun c => set_pc_download_byte (u64 (pc_download_byte c + pk_len h)) c) ;;;
    let* _ := nx_process_ether packet (u16 (pk_len h)) in
    ret tt.
End ipv4_c.

(** ** The port against the desktop client *)

(** The desktop client's functions in place of the C++ side. *)
Definition desktop_port `{Env} : NxPort :=
  {| tap_send_packet := lan_play_send_packet; nx_lan_client_send_ipv4 := lan_client_send_ipv4 |}.

Section desktop.
Context `{Env}.
#[local] Existing Instance desktop_port.

Lemma nx_send_payloads_desktop : nx_send_payloads = send_payloads.
Proof. reflexivity. Qed.
Lemma nx_process_arp_desktop : nx_process_arp = process_arp.
Proof. reflexivity. Qed.
Lemma nx_calc_payload_checksum_desktop c : nx_calc_payload_checksum c = calc_payload_checksum c.
Proof. reflexivity. Qed.
Lemma nx_send_udp_desktop src sport dst dport c w :
  nx_send_udp_ex src sport dst dport c w = send_udp_ex src sport dst dport c w.
Proof. reflexivity. Qed.

Lemma nx_process_icmp_desktop ip w :
  0 < ip_total_len ip - ip_header_len ip <= BUFFER_SIZE -> nx_process_icmp ip w = process_icmp ip w.
Proof.
  intros Hl. unfold nx_process_icmp. rewrite (proj2 (Z.leb_gt _ _)), (proj2 (Z.ltb_ge _ _)) by lia.
  reflexivity.
Qed.

(** What the desktop's code checks of a frame and the port does not. *)
Definition ipv4_checked (len : Z) (ip : ipv4) : bool :=
  (ip_version ip =? 4) && (IPV4_OFF_END <=? ip_header_len ip) &&
  (ETHER_OFF_END + ip_header_len ip <=? len) && (ip_header_len ip <=? ip_total_len ip) &&
  (ETHER_OFF_END + ip_total_len ip <=? len).

Definition frame_checked (packet : bytes) (len : Z) : bool :=
  (ETHER_OFF_END <=? len) &&
  match parse_ether packet len with
  | Some e =>
      if ef_type e =? ETHER_TYPE_IPV4 then
        (ETHER_OFF_END + IPV4_OFF_END <=? len) &&
        match parse_ipv4 e with Some ip => ipv4_checked len ip | None => true end
      else true
  | None => true
  end.

(** Where the two mean to differ, with the port's result: it refuses an ICMP message to
    itself that is empty or too long, and has no gateway. *)
Definition ipv4_exception (c : packet_ctx) (e : ether_frame) (ip : ipv4) : option Z :=
  let icmp_len := ip_total_len ip - ip_header_len ip in
  if CMP_IPV4 (ip_dst ip) (pc_ip c) then
    if (ip_protocol ip =? IPV4_PROTOCOL_ICMP) && negb ((0 <? icmp_len) && (icmp_len <=? BUFFER_SIZE))
    then Some (-1) else None
  else if IS_SUBNET (ip_dst ip) (pc_subnet_net c) (pc_subnet_mask c) then None
  else if CMP_MAC (pc_mac c) (ef_dst e) then Some 0 else None.

(** The result, and the hardware and IP addresses of the sender. *)
Definition frame_exception (c : packet_ctx) (packet : bytes) (len : Z) : option (Z * bytes * bytes) :=
  e ← parse_ether packet len;
  if CMP_MAC (ef_src e) (pc_mac c) then None
  else if ef_type e =? ETHER_TYPE_IPV4 then
    ip ← parse_ipv4 e;
    r ← ipv4_exception c e ip;
    Some (r, ef_src e, ip_src ip)
  else None.

(** The checks pass. *)
Lemma process_ipv4_checked e ip w :
  ETHER_OFF_END + IPV4_OFF_END <= ef_raw_len e -> parse_ipv4 e = Some ip ->
  ipv4_checked (ef_raw_len e) ip = true ->
  nx_process_ipv4 e w =
    match ipv4_exception (pctx w) e ip with
    | None => process_ipv4 e w
    | Some r => Ok r (learned (ef_src e) (ip_src ip) w)
    end.
Proof.
  intros Hlen Hip Hck. unfold ipv4_checked in Hck.
  apply andb_prop in Hck as [Hck H5]. apply andb_prop in Hck as [Hck H4].
  apply andb_prop in Hck as [Hck H3]. apply andb_prop in Hck as [H1 H2].
  apply Z.leb_le in H2, H3, H4, H5. unfold process_ipv4, nx_process_ipv4.
  rewrite (proj2 (Z.ltb_ge _ _)) by lia. change (nx_parse_ipv4 e) with (parse_ipv4 e). rewrite Hip.
  rewrite !(bind_ok _ _ _ ip w) by done. rewrite H1, !(proj2 (Z.ltb_ge _ _)) by lia. cbn [negb orb].
  change (nx_arp_set (ef_src e) (ip_src ip)) with (arp_set (ef_src e) (ip_src ip)).
  rewrite !(bind_ok _ _ _ _ _ (arp_set_run _ _ w)).
  destruct (learned_frame (ef_src e) (ip_src ip) w) as (_ & _ & Hm & Hi & Hn & Hk).
  unfold ipv4_exception. rewrite <-Hm, <-Hi, <-Hn, <-Hk. set (w1 := learned _ _ w). clearbody w1.
  rewrite !(bind_ok _ _ _ (pctx w1) w1) by done.
  destruct (CMP_IPV4 _ _).
  - destruct (ip_protocol ip =? IPV4_PROTOCOL_ICMP); [|done]. cbn [andb].
    destruct ((0 <? _) && _) eqn:Hl; cbn [negb].
    + apply andb_prop in Hl as [L1%Z.ltb_lt L2%Z.leb_le]. by rewrite nx_process_icmp_desktop.
    + unfold nx_process_icmp. apply andb_false_iff in Hl as [L1%Z.ltb_ge|L2%Z.leb_gt].
      * by rewrite (proj2 (Z.leb_le _ _)) by lia.
      * by rewrite (proj2 (Z.ltb_lt _ _)), orb_true_r by lia.
  - destruct (IS_SUBNET _ _ _); [done|]. destruct (CMP_MAC _ _); done.
Qed.

Lemma process_ether_checked packet len w :
  frame_checked packet len = true ->
  nx_process_ether packet len w =
    match frame_exception (pctx w) packet len with
    | None => process_ether packet len w
    | Some (r, src_mac, src) => Ok r (learned src_mac src w)
    end.
Proof.
  intros Hc. apply andb_prop in Hc as [Hl%Z.leb_le Hc]. unfold nx_process_ether, process_ether, frame_exception.
  rewrite (proj2 (Z.ltb_ge _ _)) by done. change (nx_parse_ether packet len) with (parse_ether packet len).
  destruct (parse_ether packet len) as [e|] eqn:He; [|done]. cbn [mbind option_bind].
  rewrite !(bind_ok _ _ _ e w), !(bind_ok _ _ _ (pc_mac (pctx w)) w) by done.
  destruct (CMP_MAC _ _); [done|]. destruct (Z.eqb_spec (ef_type e) ETHER_TYPE_ARP) as [->|]; [done|].
  destruct (ef_type e =? ETHER_TYPE_IPV4); [|done]. apply andb_prop in Hc as [H34%Z.leb_le Hc].
  assert (Hrl : ef_raw_len e = len).
  { unfold parse_ether in He. repeat (apply bind_Some in He as (? & _ & He)). by injection He as <-. }
  destruct (parse_ipv4 e) as [ip|] eqn:Hip; cbn [mbind option_bind].
  - rewrite (process_ipv4_checked e ip w) by (rewrite ?Hrl; done).
    by destruct (ipv4_exception (pctx w) e ip).
  - unfold process_ipv4. rewrite (proj2 (Z.ltb_ge _ _)) by lia. rewrite Hip.
    unfold nx_process_ipv4. change (nx_parse_ipv4 e) with (parse_ipv4 e). by rewrite Hip.
Qed.
End desktop.

(** ** What the missing checks allow *)

Section unchecked.
Context `{NxPort}.

Definition set_raw_len (n : Z) (e : ether_frame) : ether_frame :=
  {| ef_raw := ef_raw e; ef_raw_len := n; ef_dst := ef_dst e; ef_src := ef_src e;
     ef_type := ef_type e; ef_payload := ef_payload e |}.

Lemma nx_parse_ether_len packet n m :
  nx_parse_ether packet m = set_raw_len m <$> nx_parse_ether packet n.
Proof.
  unfold nx_parse_ether. destruct (mem_get packet ETHER_OFF_DST 6); [|done].
  destruct (mem_get packet ETHER_OFF_SRC 6); [|done]. destruct (READ_NET16 packet ETHER_OFF_TYPE); [|done].
  by destruct (mem_from packet ETHER_OFF_END).
Qed.

Definition set_ether (e : ether_frame) (ip : ipv4) : ipv4 :=
  {| ip_ether := e; ip_version := ip_version ip; ip_header_len := ip_header_len ip;
     ip_dscp := ip_dscp ip; ip_ecn := ip_ecn ip; ip_total_len := ip_total_len ip;
     ip_identification := ip_identification ip; ip_flags := ip_flags ip;
     ip_fragment_offset := ip_fragment_offset ip; ip_ttl := ip_ttl ip; ip_protocol := ip_protocol ip;
     ip_checksum := ip_checksum ip; ip_src := ip_src ip; ip_dst := ip_dst ip;
     ip_payload := ip_payload ip |}.

Lemma nx_parse_ipv4_len e m :
  nx_parse_ipv4 (set_raw_len m e) = set_ether (set_raw_len m e) <$> nx_parse_ipv4 e.
Proof.
  unfold nx_parse_ipv4. cbn [ef_payload set_raw_len]. set (p := ef_payload e).
  destruct (READ_NET8 p IPV4_OFF_VER_LEN); [|done]. cbn [mbind option_bind].
  destruct (READ_NET8 p IPV4_OFF_DSCP_ECN); [|done]. cbn [mbind option_bind].
  destruct (READ_NET16 p IPV4_OFF_TOTAL_LEN); [|done]. cbn [mbind option_bind].
  destruct (READ_NET16 p IPV4_OFF_ID); [|done]. cbn [mbind option_bind].
  destruct (READ_NET16 p IPV4_OFF_FLAGS_FRAG_OFFSET); [|done]. cbn [mbind option_bind].
  destruct (READ_NET8 p IPV4_OFF_TTL); [|done]. cbn [mbind option_bind].
  destruct (READ_NET8 p IPV4_OFF_PROTOCOL); [|done]. cbn [mbind option_bind].
  destruct (READ_NET16 p IPV4_OFF_CHECKSUM); [|done]. cbn [mbind option_bind].
  destruct (mem_get p IPV4_OFF_SRC 4); [|done]. cbn [mbind option_bind].
  by destruct (mem_get p IPV4_OFF_DST 4).
Qed.

Lemma nx_process_ipv4_len e m w : nx_process_ipv4 (set_raw_len m e) w = nx_process_ipv4 e w.
Proof.
  unfold nx_process_ipv4. rewrite nx_parse_ipv4_len. by destruct (nx_parse_ipv4 e) as [ip|].
Qed.

Lemma nx_process_ether_len packet n m w : nx_process_ether packet n w = nx_process_ether packet m w.
Proof.
  unfold nx_process_ether. rewrite (nx_parse_ether_len packet n m).
  destruct (nx_parse_ether packet n) as [e|]; [|done]. cbn [fmap option_fmap option_map].
  rewrite (bind_ok _ _ _ e w), (bind_ok _ _ _ (set_raw_len m e) w) by done.
  rewrite !(bind_ok _ _ _ (pc_mac (pctx w)) w) by done. cbn [ef_src ef_type set_raw_len].
  destruct (CMP_MAC _ _); [done|]. destruct (ef_type e =? ETHER_TYPE_ARP); [done|].
  destruct (ef_type e =? ETHER_TYPE_IPV4); [|done]. by rewrite nx_process_ipv4_len.
Qed.

(** Gathering reads past a part that is shorter than its length says. *)
Lemma nx_send_ether_overread dst type p w :
  length dst = 6%nat -> length (pc_mac (pctx w)) = 6%nat ->
  zlen (pc_buffer (pctx w)) = pc_buffer_len (pctx w) ->
  zlen (p_ptr p) < p_len p -> ETHER_HEADER_LEN + p_len p < pc_buffer_len (pctx w) ->
  nx_send_ether dst type [p] w = Stop Oob.
Proof.
  intros Hd Hm Hb Hp Hfit. unfold nx_send_ether. rewrite (bind_ok _ _ _ (pc_mac (pctx w)) w) by done.
  unfold nx_send_ether_ex.
  pose proof (ether_header_eq dst (pc_mac (pctx w)) type Hd Hm) as Eh. unfold ether_header in Eh.
  rewrite Eh. set (h := eth_hdr _ _ _). rewrite (bind_ok _ _ _ h w) by done.
  unfold nx_send_payloads. cbn [nx_send_loop p_len p_ptr]. pose proof (zlen_nonneg (p_ptr p)).
  rewrite (bind_ok _ _ _ (pc_buffer_len (pctx w)) w) by done. change ETHER_HEADER_LEN with 14 in *.
  rewrite (proj2 (Z.leb_gt _ _)) by lia. rewrite (bind_ok _ _ _ (pc_buffer (pctx w)) w) by done.
  assert (Hh : zlen h = 14) by by apply zlen_eth_hdr.
  assert (Ec : exists b, memcpy (pc_buffer (pctx w)) 0 h 0 14 = Some b).
  { unfold memcpy. rewrite mem_get_Some by lia. cbn [mbind option_bind].
    eexists. apply mem_put_Some; [lia|]. rewrite zlen_take; rewrite ?drop_0; lia. }
  destruct Ec as [b Ec]. rewrite Ec. rewrite (bind_ok _ _ _ b w) by done.
  set (w1 := set_w_lp (set_lp_packet_ctx (set_pc_buffer b (pctx w)) (w_lp w)) w).
  rewrite (bind_ok _ _ _ tt w1) by done.
  rewrite (bind_ok _ _ _ (pc_buffer_len (pctx w)) w1) by done.
  rewrite (proj2 (Z.leb_gt _ _)) by lia. rewrite (bind_ok _ _ _ b w1) by done.
  unfold memcpy at 1. by rewrite mem_get_None by lia.
Qed.

(** A broadcast whose header claims more than the object holds. *)
Lemma nx_broadcast_overread e ip w w1 w2 r :
  nx_parse_ipv4 e = Some ip -> w1 = learned (ef_src e) (ip_src ip) w ->
  CMP_IPV4 (ip_dst ip) (pc_ip (pctx w)) = false ->
  IS_SUBNET (ip_dst ip) (pc_subnet_net (pctx w)) (pc_subnet_mask (pctx w)) = true ->
  IS_BROADCAST (ip_dst ip) (pc_subnet_net (pctx w)) (pc_subnet_mask (pctx w)) = true ->
  nx_lan_client_send_ipv4 (ip_dst ip) (ef_payload e) (ip_total_len ip) w1 = Ok r w2 ->
  length (ef_src e) = 6%nat -> length (pc_mac (pctx w2)) = 6%nat ->
  zlen (pc_buffer (pctx w2)) = pc_buffer_len (pctx w2) ->
  zlen (ef_payload e) < ip_total_len ip ->
  ETHER_HEADER_LEN + ip_total_len ip < pc_buffer_len (pctx w2) ->
  nx_process_ipv4 e w = Stop Oob.
Proof.
  intros Hip -> Hd Hs Hb Hr Hsrc Hmac Hbuf Hlt Hfit. unfold nx_process_ipv4. rewrite Hip.
  rewrite (bind_ok _ _ _ ip w) by done.
  change (nx_arp_set (ef_src e) (ip_src ip)) with (arp_set (ef_src e) (ip_src ip)).
  rewrite (bind_ok _ _ _ _ _ (arp_set_run _ _ w)).
  destruct (learned_frame (ef_src e) (ip_src ip) w) as (_ & _ & _ & Hi & Hn & Hk).
  set (w1 := learned _ _ w) in *. rewrite (bind_ok _ _ _ (pctx w1) w1) by done.
  rewrite Hi, Hn, Hk, Hd, Hs, Hb. rewrite (bind_ok _ _ _ _ _ Hr).
  by apply nx_send_ether_overread.
Qed.
End unchecked.

(** ** Results *)

(** C8: the console port and the desktop client agree.  On every frame that passes
    the checks of the desktop code, the port, with the desktop's functions for sending a frame
    and for relaying a packet, does exactly what the desktop client does: same frames, same
    relayed datagrams, same cache, same result.  There are two exceptions, both meant.  An ICMP
    message to the console's own address that is empty or longer than the local array is
    refused with -1, and a packet outside the subnet that is sent to us as the router is
    dropped with 0, since there is no gateway; in both the sender has been learned and nothing
    else has happened. *)
Theorem nx_agrees_with_desktop `{Env} packet len w :
  frame_checked packet len = true ->
  nx_process_ether (H0 := desktop_port) packet len w =
    match frame_exception (pctx w) packet len with
    | None => process_ether packet len w
    | Some (r, src_mac, src) => Ok r (learned src_mac src w)
    end.
Proof. apply process_ether_checked. Qed.

(** The port never looks at the received length: whatever part of the buffer was
    received, the handler does the same, and what it relays or sends is as long as
    the header claims. *)
Theorem nx_ignores_length `{NxPort} packet n m w :
  nx_process_ether packet n w = nx_process_ether packet m w.
Proof. apply nx_process_ether_len. Qed.

(** A broadcast whose header claims more bytes than the capture buffer holds is
    read past its end when it is sent back to the console. *)
Theorem nx_broadcast_reads_past `{NxPort} e ip w w1 w2 r :
  nx_parse_ipv4 e = Some ip -> w1 = learned (ef_src e) (ip_src ip) w ->
  CMP_IPV4 (ip_dst ip) (pc_ip (pctx w)) = false ->
  IS_SUBNET (ip_dst ip) (pc_subnet_net (pctx w)) (pc_subnet_mask (pctx w)) = true ->
  IS_BROADCAST (ip_dst ip) (pc_subnet_net (pctx w)) (pc_subnet_mask (pctx w)) = true ->
  nx_lan_client_send_ipv4 (ip_dst ip) (ef_payload e) (ip_total_len ip) w1 = Ok r w2 ->
  length (ef_src e) = 6%nat -> length (pc_mac (pctx w2)) = 6%nat ->
  zlen (pc_buffer (pctx w2)) = pc_buffer_len (pctx w2) ->
  zlen (ef_payload e) < ip_total_len ip ->
  ETHER_HEADER_LEN + ip_total_len ip < pc_buffer_len (pctx w2) ->
  nx_process_ipv4 e w = Stop Oob.
Proof. apply nx_broadcast_overread. Qed.

(** The port's own check.  An ICMP message that is empty, has a negative length or
    is longer than the local array is refused and nothing is sent or changed; any
    other is answered as the desktop client does. *)
Theorem nx_icmp_guard `{Env} ip w :
  nx_process_icmp (H0 := desktop_port) ip w =
    if decide (0 < ip_total_len ip - ip_header_len ip <= BUFFER_SIZE)
    then process_icmp ip w else Ok (-1) w.
Proof.
  case_decide as Hl; [by apply nx_process_icmp_desktop|]. unfold nx_process_icmp.
  destruct (Z.leb_spec (ip_total_len ip - ip_header_len ip) 0); [done|].
  by rewrite (proj2 (Z.ltb_lt _ _)) by lia.
Qed.

(** ** Concrete runs *)

Lemma nx_agrees_with_desktop_witness :
  nx_process_ether (H0 := desktop_port (H := still_env)) (demo_frame demo_mac demo_remote_pkt) 36 demo_world =
  process_ether (H := still_env) (demo_frame demo_mac demo_remote_pkt) 36 demo_world.
Proof.
  apply (nx_agrees_with_desktop (H := still_env) (demo_frame demo_mac demo_remote_pkt) 36 demo_world).
  reflexivity.
Defined.

(** A broadcast of 22 bytes whose header claims 40; the relay accepts anything. *)
Definition quiet_port : @NxPort still_env :=
  {| tap_send_packet := fun _ => ret 0; nx_lan_client_send_ipv4 := fun _ _ _ => ret 0 |}.
Definition demo_long_claim : bytes :=
  [0x45; 0; 0; 40; 0; 0; 0; 0; 64; 17; 0; 0; 10; 13; 0; 5; 10; 13; 255; 255; 1; 2].
Definition demo_long_ip : ipv4 :=
  {| ip_ether := demo_ip_ether demo_mac demo_long_claim; ip_version := 4; ip_header_len := 20;
     ip_dscp := 0; ip_ecn := 0; ip_total_len := 40; ip_identification := 0; ip_flags := 0;
     ip_fragment_offset := 0; ip_ttl := 64; ip_protocol := 17; ip_checksum := 0;
     ip_src := [10; 13; 0; 5]; ip_dst := [10; 13; 255; 255]; ip_payload := [1; 2] |}.

Lemma nx_broadcast_reads_past_witness :
  nx_process_ipv4 (H0 := quiet_port) (demo_ip_ether demo_mac demo_long_claim) demo_world = Stop Oob.
Proof.
  apply (nx_broadcast_reads_past (H := still_env) (H0 := quiet_port) (demo_ip_ether demo_mac demo_long_claim)
           demo_long_ip demo_world (learned (H := still_env) [2; 0; 0; 0; 0; 5] [10; 13; 0; 5] demo_world)
           (learned (H := still_env) [2; 0; 0; 0; 0; 5] [10; 13; 0; 5] demo_world) 0);
    try reflexivity; vm_compute; reflexivity.
Defined.
