(* ===== verification/NxClient.v ===== *)
(** The console's relay client: [sysmodule/source/lan_client_nx.cpp].

    It speaks the protocol of [src/lan-client.c] over a socket of its own, from three
    threads: one that receives, one that sends keep-alives, and the capture thread,
    which relays packets through it.  A turn of each thread's loop is a definition
    here; what the socket calls return is the environment's.  What becomes of a frame for
    the console is the port's ([NxPort]).

    Shown here, on a port that records each frame: the console sends the same datagrams as
    the desktop client, so each reassembles what the other fragments; where the reassembly
    table has room both clients do the same, and once it is full the console drops
    every new datagram for ever, since it never frees a slot; and the runtime is
    torn down after the sixth keep-alive in a row that fails.  [NxSession] has the turns of
    all threads on the console's own interface. *)

From stdpp Require Import gmap.
From S2P Require Import Prelude Byteorder Structs Checksum Packet Arp Ipv4 Sha1 LanClient Dispatch Nx.

(** ** The code *)

(** The error numbers the source tells apart. *)
Inductive errno :=
| EBADF | EAGAIN | EWOULDBLOCK | ETIMEDOUT | EINTR | ENETDOWN | EPIPE | ENXIO
| EHOSTUNREACH | ENETUNREACH | EOther (n : Z).
#[global] Instance errno_eq_dec : EqDecision errno.
Proof. solve_decision. Defined.

(** Allocation and error numbers, by number of calls made. *)
Class NxSys `{Env} := {
  nx_malloc : nat -> bool;
  nx_errno : nat -> errno;
}.

Definition upd_console (f : console -> console) : M world unit :=
  upd_lp (fun lp => set_lp_console (f (lp_console lp)) lp).
Definition set_send_err_count (v : Z) (c : console) : console :=
  {| cs_relay_fd := cs_relay_fd c; cs_send_err_count := v; cs_recv_err_count := cs_recv_err_count c;
     cs_running := cs_running c |}.
Definition set_recv_err_count (v : Z) (c : console) : console :=
  {| cs_relay_fd := cs_relay_fd c; cs_send_err_count := cs_send_err_count c; cs_recv_err_count := v;
     cs_running := cs_running c |}.
Definition set_relay_fd (v : Z) (c : console) : console :=
  {| cs_relay_fd := v; cs_send_err_count := cs_send_err_count c;
     cs_recv_err_count := cs_recv_err_count c; cs_running := cs_running c |}.
Definition set_running (v : bool) (c : console) : console :=
  {| cs_relay_fd := cs_relay_fd c; cs_send_err_count := cs_send_err_count c;
     cs_recv_err_count := cs_recv_err_count c; cs_running := v |}.

Section send.
Context `{NxSys}.

Definition malloc : M world bool := fun w => Ok (nx_malloc (w_ticks w)) (tick w).

(** The result and [errno]. *)
Definition relay_send_raw (data : bytes) : M world (Z * errno) :=
  let* fd := gets (fun w => cs_relay_fd (lp_console (w_lp w))) in
  if fd <? 0 then ret (-1, EBADF)
  else
    let* err := gets (fun w => nx_errno (w_ticks w)) in
    let* sent := uv_udp_send data in     (* sendto *)
    if sent <? 0 then
      upd_console (fun c => set_send_err_count (u32 (cs_send_err_count c + 1)) c) ;;;
      ret (-1, err)
    else
      upd_console (set_send_err_count 0) ;;;
      upd_lp (fun lp => set_lp_upload_packet (u64 (lp_upload_packet lp + 1)) lp) ;;;
      upd_lp (fun lp => set_lp_upload_byte (u64 (lp_upload_byte lp + zlen data)) lp) ;;;
      ret (0, err).

(** The [for] over the fragments; [header] keeps its bytes between iterations. *)
Fixpoint nx_send_frags (fuel : nat) (header packet : bytes) (id i pos len pmtu : Z) : M world Z :=
  if pos <? len then
    match fuel with
    | O => halt AssertFail
    | S fuel =>
        let part_len := LMIN pmtu (len - pos) in
        let* header := mem (h ← WRITE_NET16 header LC_FRAG_ID id;
                            h ← WRITE_NET8 h LC_FRAG_PART i;
                            WRITE_NET16 h LC_FRAG_LEN part_len) in
        let total := 1 + LC_FRAG_HEADER_LEN + part_len in
        let* ok := malloc in
        if negb ok then ret (-1)
        else
          let* buf := mem (b ← mem_put (uninit total) 0 [LAN_CLIENT_TYPE_IPV4_FRAG];
                           b ← memcpy b 1 header 0 LC_FRAG_HEADER_LEN;
                           memcpy b (1 + LC_FRAG_HEADER_LEN) packet pos part_len) in
          let* r := relay_send_raw buf in
          if negb (r.1 =? 0) then ret r.1
          else nx_send_frags fuel header packet id (i + 1) (pos + pmtu) len pmtu
    end
  else ret 0.

Definition nx_lan_client_send (type : Z) (packet : bytes) (len : Z) : M world Z :=
  let* pmtu := gets (fun w => lp_pmtu (w_lp w)) in
  if (type =? LAN_CLIENT_TYPE_IPV4) && (0 <? pmtu) && (u16 pmtu <? len) then
    let total_part := len / pmtu + (if negb (len mod pmtu =? 0) then 1 else 0) in
    let* id := gets (fun w => lp_frag_id (w_lp w)) in
    upd_lp (set_lp_frag_id (s32 (id + 1))) ;;;
    let* header := mem (h ← CPY_IPV4 (uninit LC_FRAG_HEADER_LEN) LC_FRAG_SRC packet IPV4_OFF_SRC;
                        h ← CPY_IPV4 h LC_FRAG_DST packet IPV4_OFF_DST;
                        h ← WRITE_NET8 h LC_FRAG_TOTAL_PART total_part;
                        WRITE_NET16 h LC_FRAG_PMTU pmtu) in
    nx_send_frags (Z.to_nat len) header packet id 0 0 len pmtu
  else
    let* ok := malloc in
    if negb ok then ret (-1)
    else
      let* buf := mem (b ← mem_put (uninit (1 + len)) 0 [type];
                       if 0 <? len then memcpy b 1 packet 0 len else Some b) in
      let* r := relay_send_raw buf in
      ret r.1.

(** [lan_client_send_ipv4] of the console. *)
Definition console_send_ipv4 (dst_ip packet : bytes) (len : Z) : M world Z :=
  nx_lan_client_send LAN_CLIENT_TYPE_IPV4 packet len.
End send.

Section receive.
Context `{NxSys} `{!NxPort}.

Definition lan_client_arp_cb (packet : bytes) (len : Z) (item : arp_item) : M world Z :=
  let* _ := nx_send_ether (ai_mac item) ETHER_TYPE_IPV4 [{| p_ptr := packet; p_len := len |}] in
  ret 0.

Definition nx_lan_client_on_broadcast (packet : bytes) (len : Z) : M world Z :=
  let* now := gets (fun w => lp_next_real_broadcast (w_lp w)) in
  if now : bool then
    upd_lp (set_lp_next_real_broadcast false) ;;;
    nx_send_ether BROADCAST_MAC ETHER_TYPE_IPV4 [{| p_ptr := packet; p_len := len |}]
  else
    nx_arp_for_each (lan_client_arp_cb packet len) ;;;
    ret 0.

Definition nx_lan_client_process (packet : bytes) (len : Z) : M world Z :=
  if len =? 0 then ret 0
  else
    let* dst := mem (mem_get packet IPV4_OFF_DST 4) in
    let* c := gets pctx in
    if IS_BROADCAST dst (pc_subnet_net c) (pc_subnet_mask c) then
      nx_lan_client_on_broadcast packet len
    else
      let* r := nx_arp_get_mac_by_ip dst in
      match r with
      | None => ret 0
      | Some dst_mac => nx_send_ether dst_mac ETHER_TYPE_IPV4 [{| p_ptr := packet; p_len := len |}]
      end.

(** The slot of the datagram or the first free one; there is no third choice.  The
    header, the checks and what a slot gets are the desktop's, word for word. *)
Definition nx_frag_slot (h : lan_client_fragment_header) : M world (option nat) :=
  let* frags := gets (fun w => lp_frags (w_lp w)) in
  match find_frag frags (fh_id h) (fh_src h) with
  | Some i => ret (Some i)
  | None =>
      match find_free frags with
      | Some i => claim_slot h i ;;; ret (Some i)
      | None => ret None
      end
  end.

Definition nx_lan_client_process_frag (packet : bytes) (len : Z) : M world Z :=
  if len <? LC_FRAG_HEADER_LEN then ret 0
  else
    let* h := mem (frag_header packet) in
    if frag_refused h len then ret 0
    else
      let* slot := nx_frag_slot h in
      match slot with
      | None => ret 0
      | Some i =>
          if (0 <? fh_pmtu h) && (fh_pmtu h * fh_part h + fh_len h <=? ETHER_MTU) then
            let* o := gets (fun w => lp_frags (w_lp w) !! i) in
            let* f := mem (f ← o; frag_store h packet f) in
            if u8 (Z.shiftl 1 (fh_total_part h) - 1) =? fr_part f then
              set_slot i (set_fr_used 0 f) ;;;
              nx_lan_client_process (fr_buffer f) (fr_total_len f)
            else
              set_slot i f ;;;
              ret 0
          else ret 0
      end.

Definition nx_lan_client_process_auth_me (packet : bytes) (len : Z) : M world unit :=
  let* lp := gets w_lp in
  match lp_username lp with
  | None => ret tt
  | Some username =>
      if len <? 1 then ret tt
      else
        let* auth_type := mem (READ_NET8 packet 0) in
        if negb (auth_type =? 0) then ret tt
        else
          let* challenge := mem (mem_from packet 1) in
          let challenge_len := u16 (len - 1) in
          let* ok := malloc in
          if negb ok then ret tt
          else
            let* response := mem (auth_response (lp_key lp) challenge challenge_len username) in
            let* _ := nx_lan_client_send LAN_CLIENT_TYPE_AUTH_ME response (zlen response) in
            ret tt
  end.

(** A turn of the receive thread: [recvfrom] returned [n], or failed with [err];
    [relay_buf] is the buffer afterwards. *)
Definition nx_recv_turn (n : Z) (err : errno) (relay_buf : bytes) : M world unit :=
  let* fd := gets (fun w => cs_relay_fd (lp_console (w_lp w))) in
  if fd <? 0 then ret tt
  else if n <=? 0 then
    if n <? 0 then
      if bool_decide (err = EBADF) then ret tt
      else if bool_decide (err ∈ [EAGAIN; EWOULDBLOCK; ETIMEDOUT; EINTR]) then ret tt
      else
        upd_console (fun c => set_recv_err_count (u32 (cs_recv_err_count c + 1)) c) ;;;
        if bool_decide (err ∈ [ENETDOWN; EPIPE; ENXIO]) then upd_console (set_running false)
        else ret tt
    else ret tt
  else
    upd_console (set_recv_err_count 0) ;;;
    upd_lp (fun lp => set_lp_download_packet (u64 (lp_download_packet lp + 1)) lp) ;;;
    upd_lp (fun lp => set_lp_download_byte (u64 (lp_download_byte lp + n)) lp) ;;;
    let* first := mem (READ_NET8 relay_buf 0) in
    let type := Z.land first 0x7f in
    let* rest := mem (mem_from relay_buf 1) in
    if type =? LAN_CLIENT_TYPE_KEEPALIVE then ret tt
    else if type =? LAN_CLIENT_TYPE_IPV4 then
      let* _ := nx_lan_client_process rest (u16 (n - 1)) in ret tt
    else if type =? LAN_CLIENT_TYPE_IPV4_FRAG then
      let* _ := nx_lan_client_process_frag rest (u16 (n - 1)) in ret tt
    else if type =? LAN_CLIENT_TYPE_AUTH_ME then
      nx_lan_client_process_auth_me rest (u16 (n - 1))
    else if type =? LAN_CLIENT_TYPE_INFO then
      modify (emit (EvInfo (c_string (Z.to_nat (n - 1)) rest)))
    else ret tt.

(** A turn of the keep-alive thread: the new count of failures, or [None] when the
    loop is left. *)
Definition nx_keepalive_turn (consecutive_fails : Z) : M world (option Z) :=
  let* r := relay_send_raw [LAN_CLIENT_TYPE_KEEPALIVE] in
  if r.1 <? 0 then
    if bool_decide (r.2 ∈ [EHOSTUNREACH; ENETUNREACH]) then ret (Some consecutive_fails)
    else if bool_decide (r.2 ∈ [ENETDOWN; EPIPE; ENXIO]) then
      upd_console (set_running false) ;;;
      ret None
    else
      let fails := consecutive_fails + 1 in
      if 6 <=? fails then
        upd_console (set_running false) ;;;
        ret None
      else
        upd_lp (set_lp_next_real_broadcast true) ;;;
        ret (Some fails)
  else
    upd_lp (set_lp_next_real_broadcast true) ;;;
    ret (Some 0).

(** [lan_client_keepalive_thread_fn]: at most [fuel] turns. *)
Fixpoint nx_keepalive_loop (fuel : nat) (consecutive_fails : Z) : M world unit :=
  match fuel with
  | O => ret tt
  | S fuel =>
      let* running := gets (fun w => cs_running (lp_console (w_lp w))) in
      if running : bool then
        let* r := nx_keepalive_turn consecutive_fails in
        match r with
        | Some fails => nx_keepalive_loop fuel fails
        | None => ret tt
        end
      else ret tt
  end.

(** [fd]: what [socket] returned; the options set on it are left out. *)
Definition nx_lan_client_init (fd : Z) : M world Z :=
  upd_lp (set_lp_frag_id 0) ;;;
  upd_lp (set_lp_local_id 0) ;;;
  upd_lp (set_lp_next_real_broadcast true) ;;;
  upd_lp (set_lp_frags (replicate (Z.to_nat LC_FRAG_COUNT) frag_zero)) ;;;
  upd_console (set_relay_fd fd) ;;;
  if fd <? 0 then ret (-1)
  else
    upd_lp (set_lp_upload_packet 0) ;;;
    upd_lp (set_lp_upload_byte 0) ;;;
    upd_lp (set_lp_download_packet 0) ;;;
    upd_lp (set_lp_download_byte 0) ;;;
    ret 0.

(** Closing the descriptor itself has no effect on the state. *)
Definition nx_lan_client_close : M world unit :=
  upd_console (set_relay_fd (-1)) ;;;
  upd_lp (set_lp_frags (replicate (Z.to_nat LC_FRAG_COUNT) frag_zero)).
End receive.

(** Frames for the console are recorded, packets go to the relay.  The lemmas of this file
    compare the client with the desktop's on this port; [NxSession] runs it on the console's
    own interface. *)
Definition recorded_port `{NxSys} : NxPort :=
  {| tap_send_packet := fun data => uv_pcap_sendpacket data;
     nx_lan_client_send_ipv4 := console_send_ipv4 |}.
#[local] Existing Instance recorded_port.

(** ** Sending *)

Section sending.
Context `{NxSys}.

(** Adding to the console's counters after [sendto]. *)
Definition count_sent (data : bytes) (w : world) : world :=
  let lp := w_lp w in
  set_w_lp (set_lp_upload_byte (u64 (lp_upload_byte lp + zlen data))
              (set_lp_upload_packet (u64 (lp_upload_packet lp + 1))
                 (set_lp_console (set_send_err_count 0 (lp_console lp)) lp)))
    (emit (EvRelay data) (tick w)).
Definition count_failed (data : bytes) (w : world) : world :=
  let lp := w_lp w in
  set_w_lp (set_lp_console
              (set_send_err_count (u32 (cs_send_err_count (lp_console lp) + 1)) (lp_console lp)) lp)
    (emit (EvRelay data) (tick w)).

Definition relay_result (data : bytes) (w : world) : Z * world :=
  if cs_relay_fd (lp_console (w_lp w)) <? 0 then (-1, w)
  else if env_udp_send (w_ticks w) data <? 0 then (-1, count_failed data w)
  else (0, count_sent data w).

Definition relay_errno (w : world) : errno :=
  if cs_relay_fd (lp_console (w_lp w)) <? 0 then EBADF else nx_errno (w_ticks w).

Lemma relay_send_raw_run data w :
  relay_send_raw data w = Ok ((relay_result data w).1, relay_errno w) (relay_result data w).2.
Proof.
  unfold relay_send_raw, relay_result, relay_errno, bind, gets, uv_udp_send, upd_console, upd_lp,
    modify, ret. by repeat destruct (_ <? 0).
Qed.

(** Datagrams in order, each from a block of its own, until one cannot be sent. *)
Fixpoint nx_relay_all (msgs : list bytes) (w : world) : outcome world Z :=
  match msgs with
  | [] => Ok 0 w
  | m :: msgs =>
      if nx_malloc (w_ticks w) then
        let '(r, w) := relay_result m (tick w) in
        if r =? 0 then nx_relay_all msgs w else Ok r w
      else Ok (-1) (tick w)
  end.

(** Filling the rest of a block. *)
Lemma memcpy_fill tail rest p d q :
  zlen d = zlen rest ->
  memcpy (tail ++ rest) (zlen tail) (p ++ d ++ q) (zlen p) (zlen d) = Some (tail ++ d).
Proof.
  intros E. rewrite memcpy_app by lia.
  by rewrite (drop_ge rest), app_nil_r by (unfold zlen in E; lia).
Qed.

Lemma mem_put_head m b : 1 <= zlen m -> mem_put m 0 [b] = Some ([b] ++ drop 1 m).
Proof. intros Hm. by rewrite mem_put_Some by zlia. Qed.

Lemma frag_block header p d q :
  zlen header = 16 ->
  (b ← mem_put (uninit (1 + LC_FRAG_HEADER_LEN + zlen d)) 0 [LAN_CLIENT_TYPE_IPV4_FRAG];
   b ← memcpy b 1 header 0 LC_FRAG_HEADER_LEN;
   memcpy b (1 + LC_FRAG_HEADER_LEN) (p ++ d ++ q) (zlen p) (zlen d)) =
  Some (LAN_CLIENT_TYPE_IPV4_FRAG :: header ++ d).
Proof.
  intros Hh. change LC_FRAG_HEADER_LEN with 16. zlen_facts.
  set (blk := uninit _). assert (Lb : zlen blk = 17 + zlen d) by (apply zlen_uninit; lia).
  rewrite mem_put_head by lia. cbn [mbind option_bind].
  pose proof (zlen_drop 1 blk) as Lr. change (Z.to_nat 1) with 1%nat in Lr.
  set (rest := drop 1 blk) in *. clearbody rest.
  pose proof (memcpy_app [LAN_CLIENT_TYPE_IPV4_FRAG] rest [] header []) as M1.
  rewrite app_nil_r, zlen_nil, Hh in M1. change (zlen [_]) with 1 in M1. cbn [app] in M1 |- *.
  rewrite M1 by lia. cbn [mbind option_bind].
  pose proof (memcpy_fill (LAN_CLIENT_TYPE_IPV4_FRAG :: header) (drop (length header) rest) p d q) as M2.
  rewrite zlen_cons, Hh in M2. apply M2.
  rewrite <- (to_nat_zlen header), zlen_drop by lia. lia.
Qed.

Lemma whole_block type pkt post :
  (b ← mem_put (uninit (1 + zlen pkt)) 0 [type];
   if 0 <? zlen pkt then memcpy b 1 (pkt ++ post) 0 (zlen pkt) else Some b) = Some (type :: pkt).
Proof.
  zlen_facts. rewrite mem_put_head by (rewrite zlen_uninit; lia). cbn [mbind option_bind].
  set (rest := drop 1 (uninit (1 + zlen pkt))).
  assert (Lr : zlen pkt = zlen rest).
  { pose proof (zlen_drop 1 (uninit (1 + zlen pkt))) as Z1. change (Z.to_nat 1) with 1%nat in Z1.
    fold rest in Z1. rewrite zlen_uninit in Z1 by lia. lia. }
  case_test; [by apply (memcpy_fill [type] rest [] pkt post)|].
  assert (E : zlen pkt = 0) by lia. rewrite E in Lr. symmetry in Lr.
  apply zlen_0_inv in E, Lr. by rewrite E, Lr.
Qed.

Lemma console_parts pmtu len :
  0 < pmtu -> 0 <= len ->
  len / pmtu + (if negb (len mod pmtu =? 0) then 1 else 0) = parts_of pmtu len.
Proof.
  intros Hp Hl. rewrite <- parts_of_code by done.
  pose proof (Z.div_mod len pmtu ltac:(lia)). pose proof (Z.mod_pos_bound len pmtu Hp).
  destruct (Z.eqb_spec (len mod pmtu) 0); destruct (Z.ltb_spec (pmtu * (len / pmtu)) len); cbn [negb]; lia.
Qed.

(** One datagram of [nx_relay_all], as the code sends it. *)
Lemma relay_step {A} (m : bytes) (k : Z -> M world A) w :
  (let* r := relay_send_raw m in k r.1) w = k (relay_result m w).1 (relay_result m w).2.
Proof. by rewrite (bind_ok _ _ _ _ _ (relay_send_raw_run m w)). Qed.

Lemma nx_send_frags_run pmtu id pkt post n i fuel h w :
  0 < pmtu -> is_bytes pkt -> 20 <= zlen pkt ->
  Z.of_nat i + Z.of_nat n = parts_of pmtu (zlen pkt) -> (n <= fuel)%nat ->
  frag_shape (ip_src_of pkt) (ip_dst_of pkt) (parts_of pmtu (zlen pkt)) pmtu h ->
  nx_send_frags fuel h (pkt ++ post) id (Z.of_nat i) (Z.of_nat i * pmtu) (zlen pkt) pmtu w =
  nx_relay_all ((fun i => LAN_CLIENT_TYPE_IPV4_FRAG :: fragment pmtu id pkt i) <$> seq i n) w.
Proof.
  intros Hp Hb Hl. destruct (ip_addrs_ok pkt Hb Hl) as [Hs Hd].
  revert i fuel h w. induction n as [|n IH]; intros i fuel h w Hi Hf Hh.
  - assert (Et : (Z.of_nat i * pmtu <? zlen pkt) = false).
    { apply Z.ltb_ge. destruct (parts_of_spec pmtu (zlen pkt) (Z.of_nat i)) as [_ Hx]; [lia..|].
      destruct (Z.leb_spec (zlen pkt) (Z.of_nat i * pmtu)); [done|]. lia. }
    destruct fuel; cbn [nx_send_frags]; by rewrite Et.
  - assert (E : Z.of_nat i * pmtu < zlen pkt) by (apply parts_of_spec; lia).
    destruct fuel as [|fuel]; [lia|]. cbn [nx_send_frags seq fmap list_fmap nx_relay_all].
    case_test; [|lia].
    rewrite (frag_hdr_write (ip_src_of pkt) (ip_dst_of pkt) (parts_of pmtu (zlen pkt)) pmtu) by done.
    replace (LMIN pmtu (zlen pkt - Z.of_nat i * pmtu)) with (zlen (chunk pmtu pkt i))
      by (rewrite zlen_chunk by lia; unfold LMIN; case_test; lia).
    set (hd := frag_hdr _ _ _ _ _ _ _). rewrite (bind_ok _ _ _ hd w) by done.
    rewrite (bind_ok _ _ _ (nx_malloc (w_ticks w)) (tick w)) by done.
    destruct (nx_malloc (w_ticks w)); [|done]. cbn [negb].
    destruct (drop_chunk pmtu pkt post i Hp ltac:(lia)) as [q Eq].
    assert (Esrc : pkt ++ post = take (Z.to_nat (Z.of_nat i * pmtu)) (pkt ++ post) ++ chunk pmtu pkt i ++ q)
      by (rewrite <- Eq; symmetry; apply take_drop).
    pose proof (frag_block hd (take (Z.to_nat (Z.of_nat i * pmtu)) (pkt ++ post)) (chunk pmtu pkt i) q) as Eb.
    rewrite <- Esrc, zlen_take in Eb by (rewrite zlen_app; zlia).
    rewrite Eb by (by apply frag_hdr_ok).
    rewrite (bind_ok _ _ _ (LAN_CLIENT_TYPE_IPV4_FRAG :: fragment pmtu id pkt i) (tick w)) by done.
    rewrite (relay_step _ (fun r => if negb (r =? 0) then ret r else _)).
    destruct (relay_result _ _) as [r w1]. cbn [fst snd]. case_test; cbn [negb]; [|done].
    replace (Z.of_nat i + 1) with (Z.of_nat (S i)) by lia.
    replace (Z.of_nat i * pmtu + pmtu) with (Z.of_nat (S i) * pmtu) by lia.
    apply IH; [lia|lia|apply frag_hdr_shape].
Qed.

Lemma nx_send_whole_run type pkt post w :
  type <> LAN_CLIENT_TYPE_IPV4 \/ ~ 0 < lp_pmtu (w_lp w) \/ zlen pkt <= u16 (lp_pmtu (w_lp w)) ->
  nx_lan_client_send type (pkt ++ post) (zlen pkt) w = nx_relay_all [type :: pkt] w.
Proof.
  intros Hc. unfold nx_lan_client_send. unfold bind at 1. unfold gets at 1.
  assert (E : (type =? LAN_CLIENT_TYPE_IPV4) && (0 <? lp_pmtu (w_lp w)) &&
    (u16 (lp_pmtu (w_lp w)) <? zlen pkt) = false) by (clear -Hc; lia).
  rewrite E, whole_block. rewrite (bind_ok _ _ _ (nx_malloc (w_ticks w)) (tick w)) by done.
  cbn [nx_relay_all]. destruct (nx_malloc (w_ticks w)); [|done]. cbn [negb].
  rewrite (bind_ok _ _ _ (type :: pkt) (tick w)) by done. rewrite (relay_step _ ret).
  destruct (relay_result _ _) as [r w1]. cbn [fst snd]. unfold ret. case_test; congruence.
Qed.

Lemma console_send_gen dst pkt post w :
  is_bytes pkt -> 20 <= zlen pkt ->
  let pmtu := lp_pmtu (w_lp w) in
  console_send_ipv4 dst (pkt ++ post) (zlen pkt) w =
    if decide (0 < pmtu /\ u16 pmtu < zlen pkt)
    then nx_relay_all (fragments pmtu (lp_frag_id (w_lp w)) pkt) (bump_frag_id w)
    else nx_relay_all [LAN_CLIENT_TYPE_IPV4 :: pkt] w.
Proof.
  intros Hb Hl pmtu. unfold console_send_ipv4. case_decide as Hd.
  - unfold nx_lan_client_send. unfold bind at 1. unfold gets at 1. fold pmtu.
    change (LAN_CLIENT_TYPE_IPV4 =? LAN_CLIENT_TYPE_IPV4) with true. cbn [andb].
    rewrite (proj2 (Z.ltb_lt 0 pmtu)), (proj2 (Z.ltb_lt (u16 pmtu) (zlen pkt))) by lia.
    cbn [andb]. rewrite console_parts by lia.
    unfold bind at 1. unfold gets at 1. rewrite (bind_ok _ _ _ tt (bump_frag_id w)) by done.
    destruct (frag_first_header (parts_of pmtu (zlen pkt)) pmtu pkt post) as (h & -> & Hh);
      [done..|]. rewrite (bind_ok _ _ _ h (bump_frag_id w)) by done.
    pose proof (nx_send_frags_run pmtu (lp_frag_id (w_lp w)) pkt post
      (Z.to_nat (parts_of pmtu (zlen pkt))) 0 (Z.to_nat (zlen pkt)) h (bump_frag_id w)) as E.
    simpl Z.of_nat in E. rewrite Z.mul_0_l in E. apply E; try done; try lia.
    + pose proof (proj2 (parts_of_spec pmtu (zlen pkt) 0 ltac:(lia) ltac:(lia) ltac:(lia))). lia.
    + unfold parts_of.
      pose proof (Z.div_lt_upper_bound (zlen pkt + pmtu - 1) pmtu (zlen pkt + 1)). nia.
  - apply nx_send_whole_run. fold pmtu. lia.
Qed.

Lemma console_send_run dst pkt post w :
  is_bytes pkt -> 20 <= zlen pkt -> lp_pmtu (w_lp w) < 2 ^ 16 ->
  let pmtu := lp_pmtu (w_lp w) in
  console_send_ipv4 dst (pkt ++ post) (zlen pkt) w =
    if decide (0 < pmtu < zlen pkt)
    then nx_relay_all (fragments pmtu (lp_frag_id (w_lp w)) pkt) (bump_frag_id w)
    else nx_relay_all [LAN_CLIENT_TYPE_IPV4 :: pkt] w.
Proof.
  intros Hb Hl Hm pmtu. rewrite console_send_gen by done. fold pmtu in Hm |- *.
  destruct (decide (0 < pmtu)).
  - rewrite u16_id by (unfold is_u16; lia). by repeat case_decide.
  - by rewrite !decide_False by lia.
Qed.

(** The console relays a packet as the desktop client does: in one datagram, or in
    the same [ceil(len / pmtu)] fragments in the same order, each from a block of its
    own, until an allocation or a [sendto] fails. *)
Theorem console_send_ipv4_spec dst pkt post w :
  is_bytes pkt -> 20 <= zlen pkt -> lp_pmtu (w_lp w) < 2 ^ 16 ->
  let pmtu := lp_pmtu (w_lp w) in
  console_send_ipv4 dst (pkt ++ post) (zlen pkt) w =
    if decide (0 < pmtu < zlen pkt)
    then nx_relay_all (fragments pmtu (lp_frag_id (w_lp w)) pkt) (bump_frag_id w)
    else nx_relay_all [LAN_CLIENT_TYPE_IPV4 :: pkt] w.
Proof. apply console_send_run. Qed.
End sending.

(** ** Receiving *)

Section receiving.
Context `{NxSys}.

(** Delivery is the desktop's. *)
Lemma nx_process_eq packet len : nx_lan_client_process packet len = lan_client_process packet len.
Proof. reflexivity. Qed.

(** The slots agree, where the desktop would not have to evict. *)
Definition has_slot (h : lan_client_fragment_header) (w : world) : Prop :=
  is_Some (find_frag (lp_frags (w_lp w)) (fh_id h) (fh_src h)) \/
  is_Some (find_free (lp_frags (w_lp w))).
#[global] Instance has_slot_dec h w : Decision (has_slot h w).
Proof. unfold has_slot. apply _. Defined.

Lemma nx_frag_slot_run h w :
  nx_frag_slot h w = if decide (has_slot h w) then frag_slot h w else Ok None w.
Proof.
  unfold nx_frag_slot, frag_slot, bind, gets. case_decide as Hs; unfold has_slot in Hs.
  - destruct (find_frag _ _ _), (find_free _); try done. by destruct Hs as [[? ?]|[? ?]].
  - destruct (find_frag _ _ _), (find_free _); try done; destruct Hs; eauto.
Qed.

(** One fragment: what the desktop does where there is a slot, and otherwise nothing. *)
Lemma nx_process_frag_run packet len w :
  is_bytes packet -> 16 <= zlen packet ->
  exists h, frag_header packet = Some h /\ hdr_ok h /\
    nx_lan_client_process_frag packet len w =
      if decide (len < LC_FRAG_HEADER_LEN \/ frag_refused h len = true \/ has_slot h w)
      then lan_client_process_frag packet len w else Ok 0 w.
Proof.
  intros Hb Hz. destruct (frag_header_total packet Hb Hz) as (h & Hh & Hok).
  exists h. split; [done|]. split; [done|].
  unfold nx_lan_client_process_frag, lan_client_process_frag.
  destruct (Z.ltb_spec len LC_FRAG_HEADER_LEN); [by rewrite decide_True by auto|].
  rewrite Hh. rewrite !(bind_ok _ _ _ h w) by done.
  destruct (frag_refused h len) eqn:Er; [by rewrite decide_True by auto|].
  pose proof (frag_refused_false h len Hok Er) as [_ _ Hm _ Hfit].
  assert (Et : (0 <? fh_pmtu h) && (fh_pmtu h * fh_part h + fh_len h <=? ETHER_MTU) = true) by lia.
  rewrite Et. unfold bind at 1. rewrite nx_frag_slot_run.
  destruct (decide (has_slot h w)); [by rewrite decide_True by auto|].
  rewrite decide_False; [done|]. intros [?|[?|?]]; (lia || done).
Qed.

Lemma client_ok_lp w w' :
  pctx w' = pctx w -> client_part w' = client_part w -> client_ok w -> client_ok w'.
Proof. intros E1 E2 Hw. apply (delivers_ok w); [done|]. split; [|done]. rewrite E1. apply Hw. Qed.

Lemma relay_result_ok m w : client_ok w -> client_ok (relay_result m w).2.
Proof. apply client_ok_lp; unfold relay_result; by repeat case_match. Qed.

Lemma nx_relay_all_post msgs w :
  client_ok w -> exists r w', nx_relay_all msgs w = Ok r w' /\ client_ok w'.
Proof.
  revert w. induction msgs as [|m msgs IH]; intros w Hw; cbn [nx_relay_all]; [by eauto|].
  assert (Ht : client_ok (tick w)) by (by apply (client_ok_lp w)).
  case_match; [|by eauto]. pose proof (relay_result_ok m _ Ht).
  destruct (relay_result _ _) as [r w1]. case_match; [by apply IH|by eauto].
Qed.

(** The answer to a login request; a request with no type byte is ignored. *)
Lemma nx_auth_me_run packet len w :
  client_ok w -> is_bytes packet -> 0 <= len <= zlen packet -> len < 2 ^ 16 ->
  nx_lan_client_process_auth_me packet len w =
    match lp_username (w_lp w) with
    | Some user =>
        if decide (1 <= len /\ head packet = Some 0) then
          if nx_malloc (w_ticks w) then
            let challenge := take (Z.to_nat (len - 1)) (drop 1 packet) in
            match nx_relay_all [LAN_CLIENT_TYPE_AUTH_ME :: sha1 (lp_key (w_lp w) ++ challenge) ++ user]
                    (tick w) with
            | Ok _ w' => Ok tt w'
            | Stop e => Stop e
            end
          else Ok tt (tick w)
        else Ok tt w
    | None => Ok tt w
    end.
Proof.
  intros Hw Hb Hl Hl16. unfold nx_lan_client_process_auth_me. unfold bind at 1. unfold gets at 1.
  destruct (lp_username (w_lp w)) as [user|] eqn:Hu; [|done].
  destruct (co_user _ Hw _ Hu) as [Bu Lu]. destruct (co_key _ Hw) as [Lk Bk].
  destruct (Z.ltb_spec len 1); [by rewrite decide_False by lia|].
  destruct (mem_tail packet _ eq_refl) as (ty & rest & -> & -> & -> & Lr); [lia|].
  rewrite (bind_ok _ _ _ ty w) by done. cbn [head]. apply Forall_cons in Hb as [_ Hb].
  destruct (Z.eqb_spec ty 0) as [->|]; cbn [negb]; [|rewrite decide_False; [done|]; by intros [_ [= ?]]].
  rewrite decide_True by done. rewrite (bind_ok _ _ _ rest w) by done.
  rewrite (bind_ok _ _ _ (nx_malloc (w_ticks w)) (tick w)) by done.
  destruct (nx_malloc (w_ticks w)); [|done]. cbn [negb].
  change (drop 1 (0 :: rest)) with rest. set (c := take (Z.to_nat (len - 1)) rest).
  assert (Lc : zlen c = len - 1) by (apply zlen_take; lia).
  rewrite u16_id, <- Lc by (unfold is_u16; lia).
  assert (Bc : is_bytes c) by (by apply Forall_take).
  assert (Ep : rest = c ++ drop (Z.to_nat (len - 1)) rest) by (symmetry; apply take_drop).
  clearbody c. rewrite Ep. rewrite auth_response_eq by (done || lia).
  set (r := sha1 _ ++ user). rewrite (bind_ok _ _ _ r (tick w)) by done.
  unfold bind at 1. rewrite <- (app_nil_r r) at 1.
  rewrite nx_send_whole_run by (left; done). by destruct (nx_relay_all _ _).
Qed.

Lemma nx_auth_me_post packet len w :
  client_ok w -> is_bytes packet -> 0 <= len <= zlen packet -> len < 2 ^ 16 ->
  post (nx_lan_client_process_auth_me packet len) (fun _ w' => client_ok w') w.
Proof.
  intros Hw Hb Hl Hl16. unfold post. rewrite nx_auth_me_run by done.
  assert (Ht : client_ok (tick w)) by (by apply (client_ok_lp w)).
  destruct (lp_username _) as [user|]; [|done]. case_decide; [|done].
  destruct (nx_malloc _); [|done]. cbv zeta.
  by destruct (nx_relay_all_post [LAN_CLIENT_TYPE_AUTH_ME ::
    sha1 (lp_key (w_lp w) ++ take (Z.to_nat (len - 1)) (drop 1 packet)) ++ user] _ Ht) as (r & w' & -> & ?).
Qed.

(** A fragment takes at most one slot. *)
Lemma process_frag_busy packet len w :
  client_ok w -> is_bytes packet -> 16 <= zlen packet -> 0 <= len <= zlen packet ->
  Z.of_nat (busy (lp_frags (w_lp w))) < LC_FRAG_COUNT ->
  post (lan_client_process_frag packet len) (fun _ w' => client_ok w' /\
    (busy (lp_frags (w_lp w')) <= S (busy (lp_frags (w_lp w))))%nat) w.
Proof.
  intros Hw Hb Hz Hl Hbusy.
  destruct (frag_header_total packet Hb Hz) as (h & Hh & Hok).
  assert (Hsame : lan_client_process_frag packet len w = Ok 0 w ->
    post (lan_client_process_frag packet len) (fun _ w' => client_ok w' /\
      (busy (lp_frags (w_lp w')) <= S (busy (lp_frags (w_lp w))))%nat) w).
  { intros E. apply (post_ok _ 0 _ w); [done|]. split; [done|lia]. }
  destruct (decide (len < LC_FRAG_HEADER_LEN)) as [Hs|Hs].
  { apply Hsame. unfold lan_client_process_frag. by case_test; [|lia]. }
  destruct (frag_refused h len) eqn:Er.
  { apply Hsame. unfold lan_client_process_frag. case_test; [lia|].
    rewrite Hh. rewrite (bind_ok _ _ _ h w) by done. by rewrite Er. }
  destruct (process_frag_room packet len w h (co_table _ Hw) Hb ltac:(consts; lia) Hh Hok Er Hbusy)
    as (i & l' & lid' & f & b & Ht & Hi & (Hu & Hid & Hsrc) & Hbl & _ & _ & Hso & E).
  assert (Hput : forall f', fr_src f' = fr_src f -> fr_id f' = fr_id f -> slot_ok f' ->
    client_ok (with_frags (<[i := f']> l') lid' w) /\ (busy (<[i := f']> l') <= busy l')%nat).
  { intros f' E1 E2 Hf'. split; [|by eapply busy_insert_used].
    apply with_frags_ok; [done|]. by eapply table_store. }
  unfold post. rewrite E. case_match.
  - destruct (Hput (set_fr_used 0 (stored h b f))) as [Hok1 Hb1]; [done..|by apply slot_release|].
    pose proof (so_buffer _ Hso) as Hsb. pose proof (so_total _ Hso) as Hst. cbn [stored fr_buffer] in Hsb.
    edestruct (post_inv _ _ _ (process_post b (fr_total_len (stored h b f)) _ (co_ctx _ Hok1)
      (so_bytes _ Hso) ltac:(rewrite Hsb; consts; lia) ltac:(by rewrite Hsb))) as (r & w' & -> & Hd).
    split; [by eapply delivers_ok|]. destruct Hd as [_ Ed]. injection Ed as -> _ _ _ _ _.
    simpl. lia.
  - destruct (Hput (stored h b f)) as [Hok1 Hb1]; [done..|]. split; [done|]. simpl. lia.
Qed.

(** A fragment of [len] bytes at the start of the receive buffer. *)
Definition frag_in_buffer (p : bytes * Z) : Prop :=
  is_bytes p.1 /\ 16 <= zlen p.1 /\ 0 <= p.2 <= zlen p.1.

Lemma busy_has_slot h w :
  table_ok (lp_frags (w_lp w)) -> Z.of_nat (busy (lp_frags (w_lp w))) < LC_FRAG_COUNT -> has_slot h w.
Proof.
  intros Ht Hb. right. destruct (find_free _) eqn:Ef; [by eauto|].
  apply find_free_None, busy_all in Ef. pose proof (to_length _ Ht). unfold zlen in *. lia.
Qed.

Lemma nx_process_frag_room packet len w :
  client_ok w -> is_bytes packet -> 16 <= zlen packet ->
  Z.of_nat (busy (lp_frags (w_lp w))) < LC_FRAG_COUNT ->
  nx_lan_client_process_frag packet len w = lan_client_process_frag packet len w.
Proof.
  intros Hw Hb Hz Hbusy. destruct (nx_process_frag_run packet len w Hb Hz) as (h & _ & _ & ->).
  rewrite decide_True; [done|]. right; right. apply busy_has_slot; [apply Hw|done].
Qed.

Lemma nx_runs_as_desktop packets w :
  client_ok w -> Forall frag_in_buffer packets ->
  Z.of_nat (busy (lp_frags (w_lp w))) + zlen packets <= LC_FRAG_COUNT ->
  for_each packets (fun p => nx_lan_client_process_frag p.1 p.2 ;;; ret tt) w =
  for_each packets (fun p => lan_client_process_frag p.1 p.2 ;;; ret tt) w.
Proof.
  intros Hw Hp. revert w Hw. induction Hp as [|[p len] packets (Hb & Hz & Hl) Hp IH]; intros w Hw Hroom;
    [done|]. rewrite zlen_cons in Hroom. zlen_facts. cbn [for_each fst snd] in *.
  destruct (post_inv _ _ _ (process_frag_busy p len w Hw Hb Hz Hl ltac:(lia))) as (r & w1 & E & Hw1 & Hb1).
  unfold bind. rewrite nx_process_frag_room by (done || lia). rewrite E. cbn [ret]. apply IH; [done|lia].
Qed.
End receiving.

(** ** A full table *)

Section full.
Context `{NxSys}.

Lemma nx_full_drops packet w :
  client_ok w -> Forall (fun f => fr_used f <> 0) (lp_frags (w_lp w)) -> newcomer packet w ->
  16 <= zlen packet ->
  nx_lan_client_process_frag packet (zlen packet) w = Ok 0 w.
Proof.
  intros Hw Hf [Hb Hn] Hz. pose proof (co_table _ Hw) as Ht.
  destruct (nx_process_frag_run packet (zlen packet) w Hb Hz) as (h & Hh & Hok & ->).
  assert (Hno : ~ has_slot h w).
  { unfold has_slot. rewrite (proj2 (find_free_None _) Hf).
    rewrite (proj2 (find_frag_None _ _ _ (to_slots _ Ht) (proj1 (ho_src _ Hok))) (Hn h Hh)).
    by intros [[? ?]|[? ?]]. }
  case_decide as Hd; [|done]. unfold lan_client_process_frag. case_test; [done|].
  rewrite Hh. rewrite (bind_ok _ _ _ h w) by done. destruct Hd as [?|[->|?]]; [lia|done|done].
Qed.

Lemma nx_full_run packets w :
  client_ok w -> Forall (fun f => fr_used f <> 0) (lp_frags (w_lp w)) ->
  Forall (fun p => newcomer p w /\ 16 <= zlen p) packets ->
  for_each packets (fun p => nx_lan_client_process_frag p (zlen p) ;;; ret tt) w = Ok tt w.
Proof.
  intros Hw Hf. induction 1 as [|p packets [Hp Hz] Hps IH]; [done|]. cbn [for_each].
  unfold bind. by rewrite nx_full_drops.
Qed.
End full.

(** ** Keep-alives *)

Section keepalive.
Context `{NxSys}.

(** An error the thread counts, instead of waiting or giving up at once. *)
Definition counted (e : errno) : Prop := e ∉ [EHOSTUNREACH; ENETUNREACH; ENETDOWN; EPIPE; ENXIO].
Definition running (w : world) : bool := cs_running (lp_console (w_lp w)).

Lemma keepalive_turn_fails k w :
  (relay_result [LAN_CLIENT_TYPE_KEEPALIVE] w).1 < 0 -> counted (relay_errno w) ->
  let w1 := (relay_result [LAN_CLIENT_TYPE_KEEPALIVE] w).2 in
  nx_keepalive_turn k w =
    if 6 <=? k + 1
    then Ok None (set_w_lp (set_lp_console (set_running false (lp_console (w_lp w1))) (w_lp w1)) w1)
    else Ok (Some (k + 1)) (set_w_lp (set_lp_next_real_broadcast true (w_lp w1)) w1).
Proof.
  intros Hr He w1. unfold nx_keepalive_turn. rewrite (bind_ok _ _ _ _ _ (relay_send_raw_run _ w)).
  fold w1. cbn [fst snd]. rewrite (proj2 (Z.ltb_lt _ _) Hr).
  rewrite !bool_decide_false by (intros Hx; apply He; set_solver). by case_match.
Qed.

Lemma keepalive_fails_run fuel k w :
  0 <= k < 6 -> running w = true -> 0 <= cs_relay_fd (lp_console (w_lp w)) ->
  (forall t, env_udp_send t [LAN_CLIENT_TYPE_KEEPALIVE] < 0 /\ counted (nx_errno t)) ->
  (Z.to_nat (6 - k) <= fuel)%nat ->
  exists w', nx_keepalive_loop fuel k w = Ok tt w' /\ running w' = false /\
    w_out w' = w_out w ++ replicate (Z.to_nat (6 - k)) (EvRelay [LAN_CLIENT_TYPE_KEEPALIVE]).
Proof.
  revert k w. induction fuel as [|fuel IH]; intros k w Hk Hrun Hfd Hfail Hfuel; [lia|].
  cbn [nx_keepalive_loop]. unfold bind at 1. unfold gets at 1. fold (running w). rewrite Hrun.
  assert (Ef : (cs_relay_fd (lp_console (w_lp w)) <? 0) = false) by lia.
  destruct (Hfail (w_ticks w)) as [Hs Hc]. pose proof (proj2 (Z.ltb_lt _ _) Hs) as Es.
  assert (Er : relay_result [LAN_CLIENT_TYPE_KEEPALIVE] w =
    (-1, count_failed [LAN_CLIENT_TYPE_KEEPALIVE] w)) by (unfold relay_result; by rewrite Ef, Es).
  pose proof (keepalive_turn_fails k w) as E. rewrite Er in E. cbn [fst snd] in E.
  unfold relay_errno in E. rewrite Ef in E. specialize (E ltac:(lia) Hc).
  unfold bind at 1. rewrite E. destruct (Z.leb_spec 6 (k + 1)).
  - assert (k = 5) as -> by lia. by eexists.
  - edestruct (IH (k + 1) (set_w_lp (set_lp_next_real_broadcast true
        (w_lp (count_failed [LAN_CLIENT_TYPE_KEEPALIVE] w))) (count_failed [LAN_CLIENT_TYPE_KEEPALIVE] w)))
      as (w' & E' & Hr' & Ho'); [lia|done|done|done|lia|].
    exists w'. split; [done|]. split; [done|]. rewrite Ho'.
    replace (Z.to_nat (6 - k)) with (S (Z.to_nat (6 - (k + 1)))) by lia.
    cbn [replicate]. by rewrite (cons_middle _ (w_out w)), app_assoc.
Qed.

(** While sends succeed, or the route is only missing, the thread never gives up. *)
Lemma keepalive_keeps fuel k w :
  running w = true -> 0 <= k < 6 -> 0 <= cs_relay_fd (lp_console (w_lp w)) ->
  (forall t, env_udp_send t [LAN_CLIENT_TYPE_KEEPALIVE] < 0 -> nx_errno t ∈ [EHOSTUNREACH; ENETUNREACH]) ->
  exists w', nx_keepalive_loop fuel k w = Ok tt w' /\ running w' = true.
Proof.
  revert k w. induction fuel as [|fuel IH]; intros k w Hrun Hk Hfd Hok; [by eexists|].
  cbn [nx_keepalive_loop]. unfold bind at 1. unfold gets at 1. fold (running w). rewrite Hrun.
  unfold nx_keepalive_turn. unfold bind at 1.
  rewrite (bind_ok _ _ _ _ _ (relay_send_raw_run _ w)).
  unfold relay_result, relay_errno. rewrite (proj2 (Z.ltb_ge _ _) Hfd).
  destruct (Z.ltb_spec (env_udp_send (w_ticks w) [LAN_CLIENT_TYPE_KEEPALIVE]) 0) as [Hs|Hs].
  - cbn [fst snd]. rewrite bool_decide_true by (by apply Hok). cbn [Z.ltb Z.compare]. by apply IH.
  - cbn [fst snd]. by apply IH.
Qed.
End keepalive.

(** ** Reassembly on the console *)

Section reassembly.
Context `{NxSys} (pkt : bytes) (pmtu id : Z).
Context (Hpkt : is_bytes pkt) (Hlen : 20 <= zlen pkt <= ETHER_MTU).
Context (Hpmtu : 0 < pmtu < 2 ^ 16) (Hparts : parts_of pmtu (zlen pkt) <= 8) (Hid : is_u16 id).

Definition nx_handle (a : arrival) : M world Z :=
  nx_lan_client_process_frag (packet_of pkt pmtu id a ++ ar_slack a) (zlen (packet_of pkt pmtu id a)).

Definition in_buffer (a : arrival) : Prop :=
  16 <= zlen (packet_of pkt pmtu id a ++ ar_slack a).

Lemma nx_handle_room a w :
  client_ok w -> arrival_ok pkt pmtu id a -> in_buffer a ->
  Z.of_nat (busy (lp_frags (w_lp w))) < LC_FRAG_COUNT ->
  nx_handle a w = handle pkt pmtu id a w /\
  post (handle pkt pmtu id a) (fun _ w' => client_ok w' /\
    (busy (lp_frags (w_lp w')) <= S (busy (lp_frags (w_lp w))))%nat) w.
Proof.
  intros Hw [Hsl Ha] Hz Hb.
  assert (Hby : is_bytes (packet_of pkt pmtu id a ++ ar_slack a)).
  { apply Forall_app_2; [|done]. unfold packet_of. destruct (ar_msg a) as [i|p]; [|by apply Ha].
    apply Forall_app_2; [|by apply Forall_take, Forall_drop].
    by apply frag_hdr_ok; apply ip_addrs_ok; try lia. }
  split; [by apply nx_process_frag_room|]. apply process_frag_busy; try done. rewrite zlen_app. zlia.
Qed.

Lemma nx_handle_all arrivals w :
  client_ok w -> Forall (arrival_ok pkt pmtu id) arrivals -> Forall in_buffer arrivals ->
  Z.of_nat (busy (lp_frags (w_lp w))) + zlen arrivals <= LC_FRAG_COUNT ->
  for_each arrivals (fun a => nx_handle a ;;; ret tt) w =
    for_each arrivals (fun a => handle pkt pmtu id a ;;; ret tt) w /\
  post (for_each arrivals (fun a => handle pkt pmtu id a ;;; ret tt)) (fun _ w' => client_ok w' /\
    Z.of_nat (busy (lp_frags (w_lp w'))) <= Z.of_nat (busy (lp_frags (w_lp w))) + zlen arrivals) w.
Proof.
  intros Hw Ha Hi. revert w Hw. induction Ha as [|a l Ha Hl IH]; intros w Hw Hb.
  { split; [done|]. apply post_ret. split; [done|zlia]. }
  inversion_clear Hi as [|? ? Hi1 Hi2]. rewrite zlen_cons in Hb. zlen_facts.
  destruct (nx_handle_room a w Hw Ha Hi1) as [E Hp]; [lia|].
  destruct (post_inv _ _ _ Hp) as (r & w1 & E1 & Hw1 & Hb1).
  destruct (IH Hi2 w1 Hw1) as [E2 Hp2]; [lia|].
  destruct (post_inv _ _ _ Hp2) as (u & w2 & E3 & Hw2 & Hb2). cbn [for_each]. unfold post, bind in *.
  rewrite E, E1. cbn [ret]. split; [done|]. rewrite E3, zlen_cons. split; [done|lia].
Qed.

Lemma nx_reassembly_run before last slack w :
  client_ok w -> Forall (fun f => ~ holds (ip_src_of pkt) id f) (lp_frags (w_lp w)) ->
  Forall (arrival_ok pkt pmtu id) before -> Forall in_buffer before ->
  Z.of_nat last < parts_of pmtu (zlen pkt) -> is_bytes slack ->
  Z.of_nat (busy (lp_frags (w_lp w))) + zlen before < LC_FRAG_COUNT ->
  Z.of_nat last ∉ parts_in before ->
  (forall k, 0 <= k < parts_of pmtu (zlen pkt) -> k ∈ parts_in before ∪ {[Z.of_nat last]}) ->
  exists w1 w2 rest,
    for_each before (fun a => nx_handle a ;;; ret tt) w = Ok tt w1 /\
    nx_handle {| ar_msg := inl last; ar_slack := slack |} w1 =
      nx_lan_client_process (pkt ++ rest) (zlen pkt) w2 /\
    client_ok w2 /\ Forall (fun f => ~ holds (ip_src_of pkt) id f) (lp_frags (w_lp w2)).
Proof.
  intros Hw Hfree Hb Hin Hlast Hsl Hroom Hnew Hall.
  destruct (reassembly_run pkt pmtu id Hpkt Hlen Hpmtu Hparts Hid before last slack w)
    as (w1 & w2 & rest & E1 & E2 & Hw2 & Hf2); try done.
  destruct (nx_handle_all before w Hw Hb Hin) as [E Hp]; [lia|].
  unfold post in Hp. rewrite E1 in Hp. destruct Hp as [Hw1 Hb1].
  exists w1, w2, rest. split; [congruence|]. rewrite nx_process_eq, <- E2. split; [|done].
  apply nx_handle_room; [done|by split| |lia]. unfold in_buffer, packet_of, fragment. cbn [ar_msg].
  destruct (ip_addrs_ok pkt Hpkt ltac:(lia)) as [Hs Hd]. rewrite !zlen_app.
  rewrite (proj1 (frag_hdr_ok _ _ _ _ _ _ _ Hs Hd)). zlia.
Qed.
End reassembly.

(** ** The claims *)

Section claims.
Context `{NxSys}.

(** What either client fragments, the console reassembles: in every order, with
    duplicates and with foreign or malformed fragments in between, the last missing
    part delivers exactly the packet, as long as the fragments in flight fit in the
    table. *)
Theorem console_reassembly pkt pmtu id before last slack w :
  is_bytes pkt -> 20 <= zlen pkt <= ETHER_MTU -> 0 < pmtu < 2 ^ 16 ->
  parts_of pmtu (zlen pkt) <= 8 -> is_u16 id ->
  client_ok w -> Forall (fun f => ~ holds (ip_src_of pkt) id f) (lp_frags (w_lp w)) ->
  Forall (arrival_ok pkt pmtu id) before -> Forall (in_buffer pkt pmtu id) before ->
  Z.of_nat last < parts_of pmtu (zlen pkt) -> is_bytes slack ->
  Z.of_nat (busy (lp_frags (w_lp w))) + zlen before < LC_FRAG_COUNT ->
  Z.of_nat last ∉ parts_in before ->
  (forall k, 0 <= k < parts_of pmtu (zlen pkt) -> k ∈ parts_in before ∪ {[Z.of_nat last]}) ->
  exists w1 w2 rest,
    for_each before (fun a => nx_handle pkt pmtu id a ;;; ret tt) w = Ok tt w1 /\
    nx_handle pkt pmtu id {| ar_msg := inl last; ar_slack := slack |} w1 =
      nx_lan_client_process (pkt ++ rest) (zlen pkt) w2 /\
    client_ok w2 /\ Forall (fun f => ~ holds (ip_src_of pkt) id f) (lp_frags (w_lp w2)).
Proof. intros. by apply nx_reassembly_run. Qed.

(** As long as the fragments received fit in the table, the console and the
    desktop client do the same with every sequence of fragments, forged ones
    included. *)
Theorem console_as_desktop packets w :
  client_ok w -> Forall frag_in_buffer packets ->
  Z.of_nat (busy (lp_frags (w_lp w))) + zlen packets <= LC_FRAG_COUNT ->
  for_each packets (fun p => nx_lan_client_process_frag p.1 p.2 ;;; ret tt) w =
  for_each packets (fun p => lan_client_process_frag p.1 p.2 ;;; ret tt) w.
Proof. apply nx_runs_as_desktop. Qed.

(** The console never gives up a slot.  Once every slot holds an unfinished
    datagram, however old, it drops every fragment of every new datagram, for ever. *)
Theorem console_table_full packets w :
  client_ok w -> Forall (fun f => fr_used f <> 0) (lp_frags (w_lp w)) ->
  Forall (fun p => newcomer p w /\ 16 <= zlen p) packets ->
  for_each packets (fun p => nx_lan_client_process_frag p (zlen p) ;;; ret tt) w = Ok tt w.
Proof. apply nx_full_run. Qed.

(** When keep-alives keep failing with an error that is neither a missing route
    nor a network that is down, the thread stops the runtime after the sixth failure
    in a row, having sent exactly that many. *)
Theorem keepalive_teardown fuel k w :
  0 <= k < 6 -> running w = true -> 0 <= cs_relay_fd (lp_console (w_lp w)) ->
  (forall t, env_udp_send t [LAN_CLIENT_TYPE_KEEPALIVE] < 0 /\ counted (nx_errno t)) ->
  (Z.to_nat (6 - k) <= fuel)%nat ->
  exists w', nx_keepalive_loop fuel k w = Ok tt w' /\ running w' = false /\
    w_out w' = w_out w ++ replicate (Z.to_nat (6 - k)) (EvRelay [LAN_CLIENT_TYPE_KEEPALIVE]).
Proof. apply keepalive_fails_run. Qed.
End claims.

(** ** Concrete runs *)

Definition demo_sys : @NxSys demo_env := {| nx_malloc := fun _ => true; nx_errno := fun _ => ETIMEDOUT |}.
(** A network on which nothing can be sent. *)
Definition dead_env : Env :=
  {| env_host := le_host; env_time := fun _ => 1000; env_pcap_sendpacket := fun _ _ => 0;
     env_udp_send := fun _ _ => -1; env_call := fun _ _ => 0; env_stack := fun _ => 0;
     env_getaddrinfo := fun _ _ _ => (-2, None); env_ip_name := fun _ => [] |}.
Definition dead_sys : @NxSys dead_env := {| nx_malloc := fun _ => true; nx_errno := fun _ => ETIMEDOUT |}.
(** A client that [lan_client_init] has just opened. *)
Definition demo_open : world :=
  set_w_lp (set_lp_console {| cs_relay_fd := 3; cs_send_err_count := 0; cs_recv_err_count := 0;
                              cs_running := true |} demo_lp) demo_world.

Lemma demo_open_ok : client_ok demo_open.
Proof. apply (client_ok_lp demo_world); [done|done|apply demo_client_ok]. Qed.

Lemma console_send_ipv4_spec_witness :
  console_send_ipv4 (H := demo_env) (H0 := demo_sys) demo_peer (demo_pkt ++ []) 30 demo_pmtu_world =
    nx_relay_all (H := demo_env) (H0 := demo_sys)
      [3 :: [10; 13; 37; 1; 10; 13; 0; 5; 0; 0; 0; 2; 0; 16; 0; 16] ++ take 16 demo_pkt;
       3 :: [10; 13; 37; 1; 10; 13; 0; 5; 0; 0; 1; 2; 0; 14; 0; 16] ++ drop 16 demo_pkt]
      (bump_frag_id demo_pmtu_world).
Proof.
  apply (console_send_ipv4_spec (H := demo_env) (H0 := demo_sys) demo_peer demo_pkt [] demo_pmtu_world);
    [apply demo_pkt_bytes|vm_compute; discriminate|reflexivity].
Defined.

Lemma console_reassembly_witness :
  exists w1 w2 rest,
    for_each [{| ar_msg := inl 1%nat; ar_slack := [] |};
              {| ar_msg := inr (demo_first 9); ar_slack := [4; 4] |}]
      (fun a => nx_handle (H := demo_env) (H0 := demo_sys) demo_pkt 16 7 a ;;; ret tt) demo_open = Ok tt w1 /\
    nx_handle (H := demo_env) (H0 := demo_sys) demo_pkt 16 7 {| ar_msg := inl 0%nat; ar_slack := [5] |} w1 =
      nx_lan_client_process (H := demo_env) (H1 := recorded_port (H0 := demo_sys)) (demo_pkt ++ rest) 30 w2 /\
    client_ok w2 /\ Forall (fun f => ~ holds [10; 13; 37; 1] 7 f) (lp_frags (w_lp w2)).
Proof.
  apply (console_reassembly (H := demo_env) (H0 := demo_sys) demo_pkt 16 7);
    [apply demo_pkt_bytes|split; vm_compute; discriminate|lia|vm_compute; discriminate|
     unfold is_u16; lia|apply demo_open_ok| | | |reflexivity|bytes_tac|reflexivity| |].
  - apply Forall_replicate. by intros [[] _].
  - repeat constructor; try (unfold is_u8; simpl; lia); intros h Hh; vm_compute in Hh;
      try discriminate Hh; injection Hh as <-; intros [E _]; discriminate E.
  - repeat constructor; vm_compute; discriminate.
  - vm_compute. intros E. discriminate E.
  - intros k Hk. change (parts_of 16 (zlen demo_pkt)) with 2 in Hk.
    assert (k = 0 \/ k = 1) as [-> | ->] by lia; set_solver.
Defined.

Lemma console_as_desktop_witness :
  for_each [(demo_first 1, 17); (demo_first 1, 16); (demo_first 2, 17)]
    (fun p => nx_lan_client_process_frag (H := demo_env) (H1 := recorded_port (H0 := demo_sys)) p.1 p.2 ;;; ret tt) demo_open =
  for_each [(demo_first 1, 17); (demo_first 1, 16); (demo_first 2, 17)]
    (fun p => lan_client_process_frag (H := demo_env) p.1 p.2 ;;; ret tt) demo_open.
Proof.
  apply (console_as_desktop (H := demo_env) (H0 := demo_sys)); [apply demo_open_ok| |vm_compute; discriminate].
  repeat (constructor; [split; [bytes_tac|split; [|split]; vm_compute; discriminate]|]). constructor.
Defined.

Lemma console_table_full_witness :
  for_each (demo_first <$> [200; 201; 202])
    (fun p => nx_lan_client_process_frag (H := demo_env) (H1 := recorded_port (H0 := demo_sys)) p (zlen p) ;;; ret tt) demo_jam_world
    = Ok tt demo_jam_world.
Proof.
  apply (console_table_full (H := demo_env) (H0 := demo_sys)).
  - apply with_frags_ok; [apply demo_client_ok|apply demo_jammed].
  - apply Forall_lookup_2. by intros i f [-> ?]%demo_jam_lookup.
  - repeat (constructor; [split; [apply demo_newcomer; lia|vm_compute; discriminate]|]). constructor.
Defined.

Lemma keepalive_teardown_witness :
  exists w', nx_keepalive_loop (H := dead_env) (H0 := dead_sys) 100 0 demo_open = Ok tt w' /\
    running w' = false /\ w_out w' = replicate 6 (EvRelay [0]).
Proof.
  apply (keepalive_teardown (H := dead_env) (H0 := dead_sys) 100 0 demo_open);
    [lia|reflexivity|vm_compute; discriminate| |simpl; lia].
  intros t. split; [reflexivity|]. unfold counted. set_solver.
Defined.
