(* ===== verification/NxTap.v ===== *)
(** The console's network interface: [sysmodule/source/tap_iface.cpp].

    A frame for the console ([tap_send_packet], the [EvFrame] of [NxClient]) is taken
    apart and its UDP payload sent to the game over a socket; what the console's own
    games send is captured on a raw socket, given an Ethernet header and handed to
    [get_packet].  The LDN bridge behind two of the branches is a parameter.

    Shown here: the hand-written parsing agrees with the parsers of the packet layer;
    every frame is handled within its bounds and without touching the client's state; which
    datagram a game receives; what is captured and what is filtered; the form of the
    hardware address. *)

From stdpp Require Import gmap.
From S2P Require Import Prelude Byteorder Structs Checksum Packet Arp Ipv4 LanClient Dispatch Nx NxClient.

(** ** The code *)

Definition TAP_BUF_SIZE : Z := 2048.
Definition BCAST_MAC : bytes := [0xff; 0xff; 0xff; 0xff; 0xff; 0xff].
Definition LDN_GAME_PORT : Z := 11452.
Definition LDN_BRIDGE_PORT : Z := 11453.

(** The fields of [lan_play] only this file uses, and [g_inject_fd]. *)
Record tap := {
  tp_my_mac : bytes;
  tp_bpf_fd : Z;
  tp_wifi_ip : Z;     (* as it lies in memory *)
  tp_inject_fd : Z;
}.

(** The socket and the bridge, by number of calls made. *)
Class NxTapSys `{Env} := {
  tap_sendto : nat -> bytes -> Z;
  ldn_bridge_result : nat -> bytes -> Z;
}.

(** FNV-1a over the serial number, up to its terminator: the hash and the count. *)
Fixpoint fnv1a (serial : bytes) (h i : Z) : Z * Z :=
  match serial with
  | [] => (h, i)
  | c :: serial => if c =? 0 then (h, i) else fnv1a serial (u32 (Z.lxor h c * 0x01000193)) (i + 1)
  end.

(** [serial]: what [setsysGetSerialNumber] gave, if it succeeded. *)
Definition build_virtual_mac (serial : option bytes) : bytes :=
  match serial with
  | Some number =>
      let '(h, i) := fnv1a number 0x811c9dc5 0 in
      [0x02; Z.land (Z.shiftr h 24) 0xff; Z.land (Z.shiftr h 16) 0xff; Z.land (Z.shiftr h 8) 0xff;
       Z.land h 0xff; u8 (i mod 256)]
  | None => [0x02; 0x4E; 0x58; 0x4C; 0x50; 0x01]
  end.

(** [fd], [inject_fd]: what the two calls of [socket] returned. *)
Definition tap_init (serial : option bytes) (fd inject_fd : Z) (t : tap) : Z * tap :=
  let mac := build_virtual_mac serial in
  if fd <? 0 then
    (-1, {| tp_my_mac := mac; tp_bpf_fd := tp_bpf_fd t; tp_wifi_ip := tp_wifi_ip t;
            tp_inject_fd := tp_inject_fd t |})
  else
    (0, {| tp_my_mac := mac; tp_bpf_fd := fd; tp_wifi_ip := tp_wifi_ip t; tp_inject_fd := inject_fd |}).

Definition tap_close (t : tap) : tap :=
  {| tp_my_mac := tp_my_mac t; tp_bpf_fd := -1; tp_wifi_ip := tp_wifi_ip t; tp_inject_fd := -1 |}.

Section bytes.
Context `{Host}.

(** [(p[o] << 8) | p[o + 1]] *)
Definition be16_at (p : bytes) (o : Z) : option Z :=
  hi ← READ_NET8 p o;
  lo ← READ_NET8 p (o + 1);
  Some (u16 (Z.lor (Z.shiftl hi 8) lo)).

(** To the whole network or to the console itself. *)
Definition inject_addr (dst_ip : bytes) : bytes :=
  let dst_raw := ntohl (load dst_ip) in
  if (dst_raw =? 0xFFFFFFFF) || (Z.land dst_raw 0xFFFF0000 =? 0x0A0D0000)
  then store 4 (htonl 0xFFFFFFFF) else store 4 (htonl 0x7F000001).
End bytes.

Section inject.
Context `{NxTapSys}.

Definition sendto (port addr data : bytes) : M world Z :=
  fun w => Ok (tap_sendto (w_ticks w) data) (emit (EvInject port addr data) (tick w)).
Definition ldn_bridge_inject (data : bytes) (src_port : Z) : M world Z :=
  fun w => Ok (ldn_bridge_result (w_ticks w) data) (emit (EvLdn data src_port) (tick w)).

(** The end of [tap_send_packet]: the payload goes to the injection socket. *)
Definition inject_udp (inject_fd dst_port : Z) (dst_ip udp_payload : bytes) : M world Z :=
  if inject_fd <? 0 then ret (-1)
  else
    let* n := sendto (store 2 (htons dst_port)) (inject_addr dst_ip) udp_payload in
    if n <? 0 then ret (-1) else ret 0.

Definition nx_tap_send_packet (inject_fd : Z) (frame : bytes) (len : Z) : M world Z :=
  if len <=? ETHER_HEADER_LEN then ret (-1)
  else
    let* ether_type := mem (be16_at frame ETHER_OFF_TYPE) in
    if negb (ether_type =? 0x0800) then ret 0
    else
      let* ip_pkt := mem (mem_from frame ETHER_HEADER_LEN) in
      let ip_len := len - ETHER_HEADER_LEN in
      if ip_len <? 20 then ret 0
      else
        let* b := mem (READ_NET8 ip_pkt 0) in
        if negb (Z.shiftr b 4 =? 4) then ret 0
        else
          let ip_hdr_len := u8 (Z.land b 0x0F * 4) in
          let* protocol := mem (READ_NET8 ip_pkt 9) in
          let* dst_ip := mem (mem_get ip_pkt 16 4) in
          if (protocol =? 17) && (ip_hdr_len + 8 <=? ip_len) then
            let* src_port := mem (be16_at ip_pkt ip_hdr_len) in
            let* dst_port := mem (be16_at ip_pkt (ip_hdr_len + 2)) in
            let* udp_len := mem (be16_at ip_pkt (ip_hdr_len + 4)) in
            let payload_len := udp_len - 8 in
            if (payload_len <=? 0) || (ip_len <? ip_hdr_len + 8 + payload_len) then ret 0
            else
              let* udp_payload := mem (mem_get ip_pkt (ip_hdr_len + 8) payload_len) in
              if (dst_port =? LDN_GAME_PORT) && (4 <=? payload_len) then
                let* src_ip := mem (mem_get ip_pkt 12 4) in
                if src_port =? LDN_BRIDGE_PORT then
                  modify (emit (EvLdnTcp (ntohl (load src_ip)) udp_payload)) ;;;
                  ret 0
                else if 12 <=? payload_len then
                  let* r := ldn_bridge_inject udp_payload src_port in
                  if r =? 0 then ret 0
                  else inject_udp inject_fd dst_port dst_ip udp_payload
                else inject_udp inject_fd dst_port dst_ip udp_payload
              else inject_udp inject_fd dst_port dst_ip udp_payload
          else ret 0.
End inject.

Section capture.
Context `{NxPort}.

(** Refreshing the address the anti-echo filter uses, every tenth turn; [new_ip]: what
    [nifmGetCurrentIpAddress] gave, if it succeeded. *)
Definition wifi_refresh (new_ip : option Z) (ticks : Z) (t : tap) : Z * tap :=
  if 10 <=? ticks + 1 then
    (0, match new_ip with
        | Some ip =>
            if negb (ip =? 0) && negb (ip =? tp_wifi_ip t)
            then {| tp_my_mac := tp_my_mac t; tp_bpf_fd := tp_bpf_fd t; tp_wifi_ip := ip;
                    tp_inject_fd := tp_inject_fd t |}
            else t
        | None => t
        end)
  else (ticks + 1, t).

(** The synthetic header over the start of the buffer. *)
Definition synthetic_header (frame_buf src_addr : bytes) : option bytes :=
  b ← memcpy frame_buf ETHER_OFF_DST BCAST_MAC 0 6;
  b ← mem_put b (ETHER_OFF_SRC + 0) [0x02];
  b ← memcpy b (ETHER_OFF_SRC + 1) src_addr 0 1;
  b ← memcpy b (ETHER_OFF_SRC + 2) src_addr 1 1;
  b ← memcpy b (ETHER_OFF_SRC + 3) src_addr 2 1;
  b ← memcpy b (ETHER_OFF_SRC + 4) src_addr 3 1;
  b ← mem_put b (ETHER_OFF_SRC + 5) [0x00];
  b ← mem_put b ETHER_OFF_TYPE [0x08];
  mem_put b (ETHER_OFF_TYPE + 1) [0x00].

(** A turn of [tap_recv_thread_fn]: [recvfrom] returned [n], or failed with [err];
    [frame_buf] is the buffer afterwards, [src_addr] the sender's address. *)
Definition tap_recv_turn (new_ip : option Z) (n : Z) (err : errno) (src_addr frame_buf : bytes)
    (ticks : Z) (t : tap) : M world (Z * tap) :=
  let '(ticks, t) := wifi_refresh new_ip ticks t in
  if n <=? 0 then
    (if (n <? 0) && negb (bool_decide (err ∈ [EAGAIN; ETIMEDOUT; EINTR])) then
       if bool_decide (err ∈ [ENETDOWN; EPIPE; ENXIO]) then upd_console (set_running false) else ret tt
     else ret tt) ;;;
    ret (ticks, t)
  else if negb (tp_wifi_ip t =? 0) && (load src_addr =? tp_wifi_ip t) then ret (ticks, t)
  else if Z.land (load src_addr) (htonl 0xFF000000) =? htonl 0x7F000000 then ret (ticks, t)
  else
    let* frame := mem (synthetic_header frame_buf src_addr) in
    let total_len := u16 (ETHER_HEADER_LEN + n) in
    nx_packet_set_mac (tp_my_mac t) ;;;
    nx_get_packet {| pk_caplen := total_len; pk_len := total_len |} frame ;;;
    ret (ticks, t).
End capture.

(** ** Reading the frame *)

Section reading.
Context `{Host}.

Lemma lor_shift8 a b : is_u8 a -> is_u8 b -> Z.lor (Z.shiftl a 8) b = a * 256 + b.
Proof.
  unfold is_u8. intros Ha Hb. rewrite Z.shiftl_mul_pow2 by lia.
  assert (Hz : Z.land (a * 2 ^ 8) b = 0); [|by rewrite <- (Z.lxor_lor _ _ Hz), <- (Z.add_nocarry_lxor _ _ Hz)].
  apply Z.bits_inj'. intros n Hn. rewrite Z.land_spec, Z.bits_0. destruct (Z.ltb_spec n 8).
  - by rewrite Z.mul_pow2_bits_low by lia.
  - rewrite (proj1 (Z.bounded_iff_bits_nonneg 8 b ltac:(lia) ltac:(lia)) ltac:(lia) n) by lia.
    apply andb_false_r.
Qed.

Lemma be16_at_read p o : is_bytes p -> 0 <= o -> be16_at p o = READ_NET16 p o.
Proof.
  intros Hp Ho. unfold be16_at. rewrite !READ_NET8_eq.
  destruct (decide (o + 2 <= zlen p)) as [Hl|Hl].
  - destruct (mem_get_total p o 1) as (x & Ex & Lx & Bx); [done|lia..|].
    destruct (mem_get_total p (o + 1) 1) as (y & Ey & Ly & By); [done|lia..|].
    destruct x as [|a [|? ?]]; try done. destruct y as [|b [|? ?]]; try done.
    rewrite Ex, Ey. cbn [mbind option_bind head].
    apply Forall_cons in Bx as [Ba _]. apply Forall_cons in By as [Bb _].
    rewrite lor_shift8, u16_id by (done || (unfold is_u8, is_u16 in *; lia)).
    symmetry. apply READ_NET16_get; [done..|].
    apply mem_get_inv in Ex as (_ & _ & _ & Ex). apply mem_get_inv in Ey as (_ & _ & _ & Ey).
    rewrite mem_get_Some by lia. f_equal.
    rewrite (Z2Nat.inj_add o 1) in Ey by lia. rewrite <- drop_drop in Ey.
    destruct (drop (Z.to_nat o) p) as [|a' q]; [done|]. cbn [drop] in Ey. change (Z.to_nat 1) with 1%nat in *.
    destruct q as [|b' q]; [done|]. simpl in Ex, Ey. by injection Ex as ->; injection Ey as ->.
  - unfold READ_NET16. rewrite (mem_get_None p o 2) by lia. cbn [mbind option_bind].
    destruct (mem_get p o 1) as [x|] eqn:Ex; [|done]. rewrite (mem_get_None p (o + 1) 1) by lia.
    cbn [mbind option_bind]. by destruct (head x).
Qed.

(** A four-byte address in network order. *)
Lemma ntohl_load a b c d :
  is_bytes [a; b; c; d] -> ntohl (load [a; b; c; d]) = ((a * 256 + b) * 256 + c) * 256 + d.
Proof.
  intros Hb. unfold ntohl. rewrite hton32_of. change 4%nat with (length [a; b; c; d]).
  rewrite hton_of_load by done. simpl. lia.
Qed.

Lemma land_high v : 0 <= v < 2 ^ 32 -> Z.land v 0xFFFF0000 = v / 65536 * 65536.
Proof.
  intros Hv. change 0xFFFF0000 with (Z.shiftl (Z.ones 16) 16).
  change 65536 with (2 ^ 16). rewrite <- Z.shiftr_div_pow2, <- Z.shiftl_mul_pow2 by lia.
  apply Z.bits_inj'. intros n Hn. rewrite Z.land_spec, !Z.shiftl_spec by lia.
  destruct (Z.ltb_spec n 16); [by rewrite !(Z.testbit_neg_r _ (n - 16)), andb_false_r by lia|].
  rewrite Z.shiftr_spec by lia. replace (n - 16 + 16) with n by lia.
  destruct (Z.ltb_spec (n - 16) 16); [by rewrite Z.ones_spec_low, andb_true_r by lia|].
  rewrite Z.ones_spec_high, andb_false_r by lia.
  by rewrite (proj1 (Z.bounded_iff_bits_nonneg 32 v ltac:(lia) ltac:(lia)) ltac:(lia) n) by lia.
Qed.

(** Broadcast, or any address of the virtual network, its hosts included. *)
Definition virtual_dst (ip : bytes) : bool :=
  bool_decide (ip = [255; 255; 255; 255]) || bool_decide (take 2 ip = [10; 13]).

Lemma inject_addr_run ip :
  is_ip ip -> inject_addr ip = if virtual_dst ip then [255; 255; 255; 255] else [127; 0; 0; 1].
Proof.
  intros [(a & b & c & d & ->)%length_4_inv Hb]. unfold inject_addr. rewrite ntohl_load by done.
  pose proof Hb as Hr. unfold is_bytes, is_u8 in Hr. rewrite !Forall_cons in Hr. destruct Hr as (Ha & Hb' & Hc & Hd & _).
  rewrite land_high by lia.
  replace (store 4 (htonl 0xFFFFFFFF)) with [255; 255; 255; 255]
    by (unfold store, htonl, hton32, badvpn_reverse32, store, load; by destruct host_endian).
  replace (store 4 (htonl 0x7F000001)) with [127; 0; 0; 1]
    by (unfold store, htonl, hton32, badvpn_reverse32, store, load; by destruct host_endian).
  unfold virtual_dst. simpl take.
  assert (E : (((a * 256 + b) * 256 + c) * 256 + d) / 65536 = a * 256 + b)
    by (symmetry; apply (Z.div_unique_pos _ _ _ (c * 256 + d)); lia). rewrite E.
  match goal with |- context [(?x =? 4294967295)] =>
    replace (x =? 4294967295) with (bool_decide ([a; b; c; d] = [255; 255; 255; 255])) end.
  2: { apply eq_bool_prop_intro. rewrite bool_decide_spec, Is_true_true, Z.eqb_eq. split.
       - intros [= -> -> -> ->]. lia.
       - intros Ev. repeat f_equal; lia. }
  match goal with |- context [(?x =? 168624128)] =>
    replace (x =? 168624128) with (bool_decide ([a; b] = [10; 13])); [done|] end.
  apply eq_bool_prop_intro. rewrite bool_decide_spec, Is_true_true, Z.eqb_eq. split.
  - intros [= -> ->]. lia.
  - intros Ev. repeat f_equal; lia.
Qed.

(** Addresses 127.x.x.x, on either host. *)
Lemma loopback_run ip :
  is_ip ip -> (Z.land (load ip) (htonl 0xFF000000) =? htonl 0x7F000000) = bool_decide (head ip = Some 127).
Proof.
  intros [Hl Hb]. pose proof (IS_SUBNET_bytes ip [127; 0; 0; 0] [255; 0; 0; 0] Hb) as E.
  unfold IS_SUBNET in E.
  replace (htonl 0xFF000000) with (load [255; 0; 0; 0])
    by (unfold htonl, hton32, badvpn_reverse32, store, load; by destruct host_endian).
  replace (htonl 0x7F000000) with (load [127; 0; 0; 0])
    by (unfold htonl, hton32, badvpn_reverse32, store, load; by destruct host_endian).
  rewrite E by (done || bytes_tac). apply length_4_inv in Hl as (a & b & c & d & ->). simpl.
  unfold is_bytes, is_u8 in Hb. rewrite !Forall_cons in Hb.
  change 255 with (Z.ones 8). rewrite Z.land_ones, Z.mod_small, !Z.land_0_r by lia.
  apply bool_decide_ext. naive_solver.
Qed.
End reading.

(** ** What a frame delivers *)

Section deliver.
Context `{NxTapSys}.

(** The UDP datagram in a frame, as the packet layer's parsers read it. *)
Definition frame_udp (frame : bytes) : option udp :=
  e ← parse_ether frame (zlen frame);
  if ef_type e =? ETHER_TYPE_IPV4 then
    ip ← parse_ipv4 e;
    if (ip_version ip =? 4) && (ip_protocol ip =? IPV4_PROTOCOL_UDP) then
      u ← parse_udp ip;
      if (8 <? udp_length u) && (udp_length u <=? zlen (ip_payload ip)) then Some u else None
    else None
  else None.

Definition udp_data (u : udp) : bytes := take (Z.to_nat (udp_length u - 8)) (udp_payload u).

(** To the LDN bridge or to the game. *)
Definition tap_deliver (inject_fd : Z) (u : udp) : M world Z :=
  let data := udp_data u in
  let game := inject_udp inject_fd (udp_dstport u) (ip_dst (udp_ipv4 u)) data in
  if (udp_dstport u =? LDN_GAME_PORT) && (4 <=? zlen data) then
    if udp_srcport u =? LDN_BRIDGE_PORT then
      modify (emit (EvLdnTcp (ntohl (load (ip_src (udp_ipv4 u)))) data)) ;;;
      ret 0
    else if 12 <=? zlen data then
      let* r := ldn_bridge_inject data (udp_srcport u) in
      if r =? 0 then ret 0 else game
    else game
  else game.

Lemma tap_send_run fd frame w :
  is_bytes frame -> 14 < zlen frame ->
  nx_tap_send_packet fd frame (zlen frame) w =
    match frame_udp frame with Some u => tap_deliver fd u w | None => Ok 0 w end.
Proof.
  intros Hb Hl. unfold nx_tap_send_packet, frame_udp, parse_ether.
  destruct (mem_get_total frame ETHER_OFF_DST 6) as (d & -> & _); [done|consts; lia..|].
  destruct (mem_get_total frame ETHER_OFF_SRC 6) as (s & -> & _); [done|consts; lia..|].
  rewrite be16_at_read by (done || consts; lia).
  destruct (READ_NET16_total frame ETHER_OFF_TYPE) as (ty & -> & _); [done|consts; lia..|].
  change ETHER_HEADER_LEN with 14. change ETHER_OFF_END with 14. rewrite !mem_from_Some by lia.
  cbn [mbind option_bind]. destruct (Z.leb_spec (zlen frame) 14); [lia|].
  rewrite (bind_ok _ _ _ ty w) by done. cbn [ef_type].
  change ETHER_TYPE_IPV4 with 0x0800. destruct (ty =? 0x0800); [|done]. cbn [negb].
  set (e := {| ef_raw := frame |}). set (p := drop (Z.to_nat 14) frame).
  assert (Bp : is_bytes p) by (by apply Forall_drop).
  assert (Lp : zlen p = zlen frame - 14) by (apply zlen_drop; lia). rewrite <- Lp.
  rewrite (bind_ok _ _ _ p w) by done. change p with (ef_payload e) in *. clearbody e. clear p.
  destruct (Z.ltb_spec (zlen (ef_payload e)) 20).
  { by rewrite parse_ipv4_short. }
  destruct (parse_ipv4_fields e Bp) as (b & prot & ip & Ep & E0 & E9 & Es & Ed & Bb & Ev & Eh & Epr & Epl & Hip);
    [done|]. rewrite Ep, E0, E9, Ed. cbn [mbind option_bind]. rewrite Ev, Epr.
  rewrite (bind_ok _ _ _ b w) by done.
  destruct (Z.shiftr b 4 =? 4); [|done]. cbn [negb andb].
  rewrite (bind_ok _ _ _ prot w) by done. rewrite (bind_ok _ _ _ (ip_dst ip) w) by done.
  pose proof (land_nibble b Bb) as Hn. rewrite (u8_id (Z.land b 15 * 4)) by (unfold is_u8; lia).
  set (hl := Z.land b 15 * 4) in *. change IPV4_PROTOCOL_UDP with 17.
  destruct (prot =? 17); [|done]. cbn [andb].
  assert (Hlen : hl + 8 <= zlen (ef_payload e) -> zlen (ip_payload ip) = zlen (ef_payload e) - hl)
    by (intros; rewrite Epl; apply zlen_drop; lia).
  destruct (Z.leb_spec (hl + 8) (zlen (ef_payload e))) as [Hu|Hu].
  2: { rewrite parse_udp_short; [done|]. rewrite Epl. unfold zlen in *. rewrite length_drop. lia. }
  specialize (Hlen Hu).
  destruct (parse_udp_fields ip) as (u & Eu & R0 & R2 & R4 & Ei & Eup & Bd);
    [rewrite Epl; by apply Forall_drop|lia|].
  rewrite Eu. cbn [mbind option_bind]. rewrite Hlen. rewrite Epl in R0, R2, R4.
  rewrite READ_NET16_drop in R0, R2, R4 by lia. rewrite Z.add_0_r in R0.
  rewrite !be16_at_read by (done || lia). rewrite R0, R2, R4.
  do 3 (rewrite (bind_ok _ _ _ _ w) by done).
  replace ((udp_length u - 8 <=? 0) || (zlen (ef_payload e) <? hl + 8 + (udp_length u - 8)))
    with (negb ((8 <? udp_length u) && (udp_length u <=? zlen (ef_payload e) - hl))) by lia.
  destruct (_ && _) eqn:Hc; [|done]. cbn [negb].
  assert (Ed' : mem_get (ef_payload e) (hl + 8) (udp_length u - 8) = Some (udp_data u)).
  { rewrite mem_get_Some by lia. unfold udp_data. rewrite Eup, Epl, drop_drop.
    by rewrite Z2Nat.inj_add by lia. }
  assert (Ld : zlen (udp_data u) = udp_length u - 8) by (by apply mem_get_zlen in Ed').
  rewrite Ed'. rewrite (bind_ok _ _ _ (udp_data u) w) by done. unfold tap_deliver. rewrite Ld, Ei, Es.
  by destruct ((udp_dstport u =? LDN_GAME_PORT) && (4 <=? udp_length u - 8)).
Qed.
End deliver.

(** ** Injecting and capturing *)

Section frames.
Context `{NxTapSys}.

Lemma tap_send_post fd frame w :
  is_bytes frame ->
  exists r w', nx_tap_send_packet fd frame (zlen frame) w = Ok r w' /\ w_lp w' = w_lp w.
Proof.
  intros Hb. destruct (decide (14 < zlen frame)) as [Hl|Hl].
  2: { exists (-1), w. unfold nx_tap_send_packet. change ETHER_HEADER_LEN with 14.
       by destruct (Z.leb_spec (zlen frame) 14); [|lia]. }
  rewrite tap_send_run by done. destruct (frame_udp frame) as [u|]; [|by do 2 eexists].
  assert (Hgame : forall w0, w_lp w0 = w_lp w -> exists r w',
    inject_udp fd (udp_dstport u) (ip_dst (udp_ipv4 u)) (udp_data u) w0 = Ok r w' /\ w_lp w' = w_lp w).
  { intros w0 E0. unfold inject_udp. destruct (fd <? 0); [by do 2 eexists|].
    unfold bind, sendto. destruct (_ <? 0); by do 2 eexists. }
  unfold tap_deliver. destruct (_ && _); [|by apply Hgame].
  destruct (_ =? LDN_BRIDGE_PORT); [by do 2 eexists|]. destruct (12 <=? _); [|by apply Hgame].
  unfold bind at 1. unfold ldn_bridge_inject. destruct (_ =? 0); [by do 2 eexists|]. by apply Hgame.
Qed.

(** A UDP datagram in a frame, as [send_udp_ex] and [send_ether] build it. *)
Definition udp_frame (mac src_mac : bytes) (src dst : bytes) (id ck sp dp : Z) (data pad : bytes) : bytes :=
  eth_hdr mac src_mac ETHER_TYPE_IPV4 ++
  ip_hdr src dst IPV4_PROTOCOL_UDP id (28 + zlen data) ++ udp_hdr ck sp dp (8 + zlen data) ++ data ++ pad.

Lemma parse_udp_hdr ip ck sp dp len rest :
  is_u16 ck -> is_u16 sp -> is_u16 dp -> is_u16 len ->
  ip_payload ip = udp_hdr ck sp dp len ++ rest ->
  parse_udp ip = Some {| udp_ipv4 := ip; udp_srcport := sp; udp_dstport := dp; udp_length := len;
                         udp_checksum := ck; udp_payload := rest |}.
Proof.
  intros Hck Hsp Hdp Hlen Hp. unfold parse_udp. rewrite Hp.
  assert (R : forall o v, is_u16 v -> 0 <= o ->
    mem_get (udp_hdr ck sp dp len ++ rest) o 2 = Some [v / 256; v mod 256] ->
    READ_NET16 (udp_hdr ck sp dp len ++ rest) o = Some v).
  { intros o v Hv Ho E. pose proof (hi_lo_bytes v Hv) as [B1 [B2 _]%Forall_cons]%Forall_cons.
    rewrite (READ_NET16_get _ _ _ _ B1 B2 E). f_equal.
    pose proof (Z.div_mod v 256). lia. }
  assert (Z8 : zlen (udp_hdr ck sp dp len ++ rest) = 8 + zlen rest) by (rewrite zlen_app; done).
  pose proof (zlen_nonneg rest).
  rewrite (R UDP_OFF_SRCPORT sp), (R UDP_OFF_DSTPORT dp), (R UDP_OFF_LENGTH len), (R UDP_OFF_CHECKSUM ck);
    try done; try (rewrite mem_get_Some by (rewrite ?Z8; consts; lia); unfold udp_hdr, udp_fields;
      rewrite ?(u16_id sp), ?(u16_id dp), ?(u16_id len) by done; reflexivity).
  rewrite mem_from_Some by (rewrite Z8; consts; lia). reflexivity.
Qed.

Lemma udp_frame_udp mac src_mac src dst id ck sp dp data pad :
  length mac = 6%nat -> length src_mac = 6%nat -> is_ip src -> is_ip dst -> is_u16 id -> is_u16 ck ->
  is_u16 sp -> is_u16 dp -> data <> [] -> zlen data <= 0xffff - 28 ->
  exists u, frame_udp (udp_frame mac src_mac src dst id ck sp dp data pad) = Some u /\
    udp_srcport u = sp /\ udp_dstport u = dp /\ ip_dst (udp_ipv4 u) = dst /\ udp_data u = data.
Proof.
  intros Hm Hs Hsrc Hdst Hid Hck Hsp Hdp Hne Hlen. zlen_facts. unfold frame_udp, udp_frame.
  assert (Hpos : 0 < zlen data).
  { destruct (decide (zlen data = 0)) as [E|]; [by apply zlen_0_inv in E|lia]. }
  rewrite (parse_ether_roundtrip mac src_mac ETHER_TYPE_IPV4); [|done|done|unfold is_u16; consts; lia|
    by apply ether_header_eq]. cbn [mbind option_bind ef_type].
  rewrite Z.eqb_refl. set (e := {| ef_raw := _ |}).
  destruct (parse_ipv4_roundtrip e src dst IPV4_PROTOCOL_UDP id (28 + zlen data)
    (ip_hdr src dst IPV4_PROTOCOL_UDP id (28 + zlen data)) (udp_hdr ck sp dp (8 + zlen data) ++ data ++ pad))
    as [ck' Eip]; [done|done|unfold is_u8; consts; lia|done|unfold is_u16; lia|by apply ipv4_header_eq|done|].
  rewrite Eip. cbn [mbind option_bind ip_version ip_protocol]. rewrite !Z.eqb_refl. cbn [andb].
  set (ip := {| ip_ether := e |}).
  rewrite (parse_udp_hdr ip ck sp dp (8 + zlen data) (data ++ pad)); [|done|done|done|unfold is_u16; lia|done].
  cbn [mbind option_bind udp_length].
  assert (Ez : zlen (ip_payload ip) = 8 + zlen data + zlen pad)
    by (unfold ip; cbn [ip_payload]; rewrite !zlen_app; change (zlen (udp_hdr _ _ _ _)) with 8; lia).
  rewrite Ez, (proj2 (Z.ltb_lt _ _)), (proj2 (Z.leb_le _ _)) by zlia. cbn [andb].
  eexists. split; [reflexivity|]. split_and!; try done. unfold udp_data. cbn [udp_length udp_payload].
  replace (8 + zlen data - 8) with (zlen data) by lia. by rewrite to_nat_zlen, take_app_length.
Qed.
End frames.

Section injects.
Context `{NxTapSys}.

Lemma tap_injects_run fd mac src_mac src dst id ck sp dp data pad w :
  is_mac mac -> is_mac src_mac -> is_ip src -> is_ip dst -> is_u16 id -> is_u16 ck ->
  is_u16 sp -> is_u16 dp -> is_bytes data -> is_bytes pad -> data <> [] -> zlen data <= 0xffff - 28 ->
  dp <> LDN_GAME_PORT -> 0 <= fd ->
  let frame := udp_frame mac src_mac src dst id ck sp dp data pad in
  nx_tap_send_packet fd frame (zlen frame) w =
    Ok (if tap_sendto (w_ticks w) data <? 0 then -1 else 0)
      (emit (EvInject [dp / 256; dp mod 256]
               (if virtual_dst dst then [255; 255; 255; 255] else [127; 0; 0; 1]) data) (tick w)).
Proof.
  intros [Lm Bm] [Ls Bs] Hsrc Hdst Hid Hck Hsp Hdp Bd Bp Hne Hlen Hnl Hfd frame.
  assert (Hf : is_bytes frame /\ 14 < zlen frame).
  { unfold frame, udp_frame. zlen_facts. destruct (udp_hdr_ok ck sp dp (8 + zlen data) Hck) as [Zu Bu].
    destruct (ip_hdr_ok src dst IPV4_PROTOCOL_UDP id (28 + zlen data) Hsrc Hdst) as [Zi Bi]. split.
    - apply Forall_app_2; [by apply eth_hdr_is_bytes|].
      apply Forall_app_2; [done|]. apply Forall_app_2; [done|]. by apply Forall_app_2.
    - rewrite !zlen_app, zlen_eth_hdr, Zi, Zu by done. zlia. }
  destruct Hf as [Bf Lf]. rewrite tap_send_run by done.
  destruct (udp_frame_udp mac src_mac src dst id ck sp dp data pad) as (u & Eu & Esp & Edp & Edst & Edata);
    try done. unfold frame. rewrite Eu. unfold tap_deliver. rewrite Edp, Edata, Edst, (proj2 (Z.eqb_neq _ _)) by done. cbn [andb].
  unfold inject_udp. rewrite (proj2 (Z.ltb_ge _ _)) by done.
  rewrite store_htons, inject_addr_run by done. unfold bind, sendto. by case_match.
Qed.
End injects.

Section captures.
Context `{NxPort}.

(** Writing to the front of an object leaves the rest alone. *)
Lemma mem_put_front a rest o bs b :
  mem_put a o bs = Some b -> mem_put (a ++ rest) o bs = Some (b ++ rest).
Proof.
  unfold mem_put. intros E. pose proof (zlen_nonneg rest). rewrite zlen_app.
  repeat match type of E with context [?x <=? ?y] => destruct (Z.leb_spec x y) end; try done.
  cbn [andb] in E. injection E as <-.
  repeat match goal with |- context [?x <=? ?y] => destruct (Z.leb_spec x y); [|lia] end. cbn [andb].
  unfold zlen in *. rewrite take_app_le, drop_app_le by lia. by rewrite <- !app_assoc.
Qed.

Lemma synthetic_header_run hd src rest :
  length hd = 14%nat -> length src = 4%nat ->
  synthetic_header (hd ++ rest) src =
    Some (eth_hdr BCAST_MAC ([2] ++ src ++ [0]) ETHER_TYPE_IPV4 ++ rest).
Proof.
  intros Hh (a & b & c & d & ->)%length_4_inv.
  do 14 (destruct hd as [|? hd]; [done|]). destruct hd; [|done].
  unfold synthetic_header, memcpy.
  repeat (etransitivity; [apply obind_Some;
    first [apply mem_put_front; reflexivity
          |etransitivity; [apply obind_Some; reflexivity|]; cbv beta; apply mem_put_front; reflexivity]|];
    cbv beta).
  by apply mem_put_front.
Qed.

(** Traffic of the console itself: its own address, or loopback. *)
Definition own_traffic (t : tap) (src : bytes) : bool :=
  negb (tp_wifi_ip t =? 0) && (load src =? tp_wifi_ip t) || bool_decide (head src = Some 127).

Lemma tap_recv_run new_ip err src hd pkt stale ticks t w :
  is_ip src -> length hd = 14%nat -> 0 < zlen pkt <= TAP_BUF_SIZE ->
  let '(ticks', t') := wifi_refresh new_ip ticks t in
  let frame := eth_hdr BCAST_MAC ([2] ++ src ++ [0]) ETHER_TYPE_IPV4 ++ pkt ++ stale in
  let h := {| pk_caplen := 14 + zlen pkt; pk_len := 14 + zlen pkt |} in
  tap_recv_turn new_ip (zlen pkt) err src (hd ++ pkt ++ stale) ticks t w =
    if own_traffic t' src then Ok (ticks', t') w
    else (nx_packet_set_mac (tp_my_mac t') ;;; nx_get_packet h frame ;;; ret (ticks', t')) w.
Proof.
  intros Hs Hh Hn. unfold tap_recv_turn. destruct (wifi_refresh new_ip ticks t) as [ticks' t'].
  cbv zeta. unfold own_traffic. rewrite loopback_run, synthetic_header_run by (done || apply Hs).
  rewrite (proj2 (Z.leb_gt _ _)) by lia. change ETHER_HEADER_LEN with 14. change TAP_BUF_SIZE with 2048 in Hn.
  rewrite u16_id by (unfold is_u16; lia).
  destruct (negb (tp_wifi_ip t' =? 0) && _); [done|]. by case_bool_decide.
Qed.

Lemma tap_recv_error new_ip n err src buf ticks t w :
  n <= 0 ->
  exists w', tap_recv_turn new_ip n err src buf ticks t w = Ok (wifi_refresh new_ip ticks t) w' /\
    w_out w' = w_out w /\ pctx w' = pctx w /\
    (running w' = running w \/ n < 0 /\ err ∈ [ENETDOWN; EPIPE; ENXIO] /\ running w' = false).
Proof.
  intros Hn. unfold tap_recv_turn. destruct (wifi_refresh new_ip ticks t) as [ticks' t'].
  destruct (Z.leb_spec n 0); [|lia].
  destruct (Z.ltb_spec n 0); cbn [andb]; [|eexists; split_and!; [reflexivity|..]; by auto].
  case_bool_decide; cbn [negb]; [eexists; split_and!; [reflexivity|..]; by auto|].
  case_bool_decide; eexists; (split_and!; [reflexivity|..]); by auto.
Qed.
End captures.

(** ** The hardware address *)

Lemma fnv1a_range serial h i : 0 <= i -> 0 <= (fnv1a serial h i).2.
Proof.
  revert h i. induction serial as [|c serial IH]; intros h i Hi; [done|]. cbn [fnv1a].
  case_test; [done|]. apply IH. lia.
Qed.

Lemma virtual_mac_ok serial :
  is_mac (build_virtual_mac serial) /\ head (build_virtual_mac serial) = Some 2.
Proof.
  unfold build_virtual_mac. destruct serial as [number|]; [|split; [split; [done|bytes_tac]|done]].
  destruct (fnv1a number _ _) as [h i]. split; [|done]. split; [done|].
  assert (Hb : forall x, is_u8 (Z.land x 0xff)).
  { intros x. unfold is_u8. change 0xff with (Z.ones 8). rewrite Z.land_ones by lia.
    apply Z.mod_pos_bound. lia. }
  repeat constructor; try apply Hb; try apply u8_range; unfold is_u8; lia.
Qed.

(** ** The claims *)

(** A frame for the console, of any contents and length, is taken apart within its
    bounds, always returns, and leaves the client's state alone. *)
Theorem tap_send_safe `{NxTapSys} fd frame w :
  is_bytes frame ->
  exists r w', nx_tap_send_packet fd frame (zlen frame) w = Ok r w' /\ w_lp w' = w_lp w.
Proof. apply tap_send_post. Qed.

(** The interface's own parsing is the packet layer's.  A frame longer than a header
    is delivered exactly when [parse_ether], [parse_ipv4] and [parse_udp] find a complete
    UDP datagram with data in it, and with the ports, addresses and data they find;
    every other frame is ignored. *)
Theorem tap_send_parses `{NxTapSys} fd frame w :
  is_bytes frame -> 14 < zlen frame ->
  nx_tap_send_packet fd frame (zlen frame) w =
    match frame_udp frame with Some u => tap_deliver fd u w | None => Ok 0 w end.
Proof. apply tap_send_run. Qed.

(** What a game receives.  A UDP datagram that a peer built, in a frame of the
    relay client, padded or not, is sent to the game as it was: the same data to the
    same port, on either byte order.  It goes to the broadcast address for every
    destination in 10.13.0.0/16, and to the console itself otherwise. *)
Theorem tap_injects `{NxTapSys} fd mac src_mac src dst id ck sp dp data pad w :
  is_mac mac -> is_mac src_mac -> is_ip src -> is_ip dst -> is_u16 id -> is_u16 ck ->
  is_u16 sp -> is_u16 dp -> is_bytes data -> is_bytes pad -> data <> [] -> zlen data <= 0xffff - 28 ->
  dp <> LDN_GAME_PORT -> 0 <= fd ->
  let frame := udp_frame mac src_mac src dst id ck sp dp data pad in
  nx_tap_send_packet fd frame (zlen frame) w =
    Ok (if tap_sendto (w_ticks w) data <? 0 then -1 else 0)
      (emit (EvInject [dp / 256; dp mod 256]
               (if virtual_dst dst then [255; 255; 255; 255] else [127; 0; 0; 1]) data) (tick w)).
Proof. apply tap_injects_run. Qed.

(** What is captured.  A datagram that the console itself sent, from its own
    address or from loopback, is dropped; every other one enters [get_packet] as a
    broadcast frame whose source is made of the sender's address, with the length
    received; what the buffer held before does not matter to its header. *)
Theorem tap_captures `{NxPort} new_ip err src hd pkt stale ticks t w :
  is_ip src -> length hd = 14%nat -> 0 < zlen pkt <= TAP_BUF_SIZE ->
  let '(ticks', t') := wifi_refresh new_ip ticks t in
  let frame := eth_hdr BCAST_MAC ([2] ++ src ++ [0]) ETHER_TYPE_IPV4 ++ pkt ++ stale in
  let h := {| pk_caplen := 14 + zlen pkt; pk_len := 14 + zlen pkt |} in
  tap_recv_turn new_ip (zlen pkt) err src (hd ++ pkt ++ stale) ticks t w =
    if own_traffic t' src then Ok (ticks', t') w
    else (nx_packet_set_mac (tp_my_mac t') ;;; nx_get_packet h frame ;;; ret (ticks', t')) w.
Proof. apply tap_recv_run. Qed.

(** ** Concrete runs *)

Definition demo_tap_sys : @NxTapSys demo_env :=
  {| tap_sendto := fun _ d => zlen d; ldn_bridge_result := fun _ _ => 0 |}.
Definition demo_udp_frame : bytes :=
  udp_frame demo_mac demo_mac [10; 13; 0; 5] [10; 13; 37; 9] 7 0 4000 5000 [1; 2; 3] [0; 0].

Lemma demo_udp_frame_bytes : is_bytes demo_udp_frame.
Proof. vm_compute. repeat constructor; discriminate. Qed.

Lemma tap_send_safe_witness :
  exists r w', nx_tap_send_packet (H0 := demo_tap_sys) 4 [1; 2; 3] 3 demo_world = Ok r w' /\
    w_lp w' = w_lp demo_world.
Proof. apply (tap_send_safe (H0 := demo_tap_sys) 4 [1; 2; 3] demo_world). bytes_tac. Defined.

Lemma tap_send_parses_witness :
  nx_tap_send_packet (H0 := demo_tap_sys) 4 demo_udp_frame 47 demo_world =
    match frame_udp (H := demo_env) demo_udp_frame with
    | Some u => tap_deliver (H0 := demo_tap_sys) 4 u demo_world | None => Ok 0 demo_world end.
Proof.
  apply (tap_send_parses (H0 := demo_tap_sys) 4 demo_udp_frame demo_world);
    [apply demo_udp_frame_bytes|reflexivity].
Defined.

Lemma tap_injects_witness :
  nx_tap_send_packet (H0 := demo_tap_sys) 4 demo_udp_frame 47 demo_world =
    Ok 0 (emit (EvInject [19; 136] [255; 255; 255; 255] [1; 2; 3]) (tick demo_world)).
Proof.
  apply (tap_injects (H0 := demo_tap_sys) 4 demo_mac demo_mac [10; 13; 0; 5] [10; 13; 37; 9] 7 0 4000 5000
           [1; 2; 3] [0; 0] demo_world);
    first [split; [reflexivity|bytes_tac]|bytes_tac|unfold is_u16; lia|discriminate|reflexivity].
Defined.

Definition demo_tap : tap :=
  {| tp_my_mac := demo_mac; tp_bpf_fd := 5; tp_wifi_ip := 0; tp_inject_fd := 4 |}.

Lemma tap_captures_witness :
  tap_recv_turn (H := still_env) (H0 := quiet_port) None 2 EAGAIN [127; 0; 0; 1]
    (replicate 14 0 ++ [1; 2] ++ [9]) 0 demo_tap demo_world = Ok (1, demo_tap) demo_world.
Proof.
  apply (tap_captures (H := still_env) (H0 := quiet_port) None EAGAIN [127; 0; 0; 1] (replicate 14 0)
           [1; 2] [9] 0 demo_tap demo_world); [split; [reflexivity|bytes_tac]|reflexivity|].
  split; vm_compute; congruence.
Defined.
