(* ===== verification/NxSession.v ===== *)
(** The console's client at work: the relay client of [NxClient] on the interface of
    [NxTap], with the turns of all its threads.

    Four threads share the client: one receives from the relay and injects frames into the
    console, one captures what the console's games send and relays it, one sends
    keep-alives, and the bridge relays packets of its own.  A step is one turn of one of
    them; turns come in any order.  [console_port] is the packet layer's way out: frames go
    through [tap_send_packet] of [tap_iface.cpp], packets through [lan_client_send_ipv4] of
    [lan_client_nx.cpp].

    The handlers are shown safe for every port that keeps [PortLaws], and the console's own
    port keeps them.

    Shown here: over any sequence of turns nothing leaves an object, the client stays well
    formed and the count of failed keep-alives below six.  One kind of captured packet is
    excepted, one whose header claims more bytes than the capture buffer holds: [Nx] shows
    that it is read past the end of the buffer. *)

From stdpp Require Import gmap.
From S2P Require Import Prelude Byteorder Structs Checksum Packet Arp Ipv4 Sha1 LanClient Dispatch Nx NxClient NxTap.

(** The functions of the console behind the packet layer. *)
Definition console_port `{NxSys} `{!NxTapSys} (inject_fd : Z) : NxPort :=
  {| tap_send_packet := fun frame => nx_tap_send_packet inject_fd frame (zlen frame);
     nx_lan_client_send_ipv4 := console_send_ipv4 |}.

(** What the packet layer relies on: a frame is taken and leaves the client alone; a packet
    at the start of an object that holds at least a header is relayed or refused. *)
Class PortLaws `{NxPort} : Prop := {
  law_tap frame w : is_bytes frame ->
    exists r w', tap_send_packet frame w = Ok r w' /\ w_lp w' = w_lp w;
  law_relay dst packet len w :
    client_ok w -> is_bytes packet -> 20 <= zlen packet -> 0 <= len <= zlen packet ->
    post (nx_lan_client_send_ipv4 dst packet len) (fun _ w' => client_ok w') w;
}.

(** ** Relaying a packet of any length *)

Section relaying.
Context `{NxSys}.

Lemma memcpy_total m off src so n :
  is_bytes m -> is_bytes src -> 0 <= off -> 0 <= so -> 0 <= n -> so + n <= zlen src -> off + n <= zlen m ->
  exists m', memcpy m off src so n = Some m' /\ zlen m' = zlen m /\ is_bytes m'.
Proof.
  intros Hm Hs Ho Hso Hn Hl1 Hl2. unfold memcpy.
  destruct (mem_get_total src so n) as (d & -> & Ld & Bd); [done|lia..|]. cbn [mbind option_bind].
  apply mem_put_total; [done|done|lia|]. unfold zlen in *. lia.
Qed.
Lemma write8_total m off v :
  is_bytes m -> 0 <= off -> off + 1 <= zlen m ->
  exists m', WRITE_NET8 m off v = Some m' /\ zlen m' = zlen m /\ is_bytes m'.
Proof.
  intros Hm Ho Hl. rewrite WRITE_NET8_put. apply mem_put_total; [done| |lia|done].
  repeat constructor; apply u8_range.
Qed.
Lemma write16_total m off v :
  is_bytes m -> 0 <= off -> off + 2 <= zlen m ->
  exists m', WRITE_NET16 m off v = Some m' /\ zlen m' = zlen m /\ is_bytes m'.
Proof.
  intros Hm Ho Hl. rewrite WRITE_NET16_put. apply mem_put_total; [done| |lia|done].
  apply hi_lo_bytes, u16_range.
Qed.

Lemma relay_raw_post m (k : Z * errno -> M world Z) w :
  client_ok w -> (forall r w', client_ok w' -> post (k r) (fun _ w' => client_ok w') w') ->
  post (let* r := relay_send_raw m in k r) (fun _ w' => client_ok w') w.
Proof.
  intros Hw Hk. apply post_bind, (post_ok _ _ _ _ _ (relay_send_raw_run _ w)). apply Hk.
  by apply relay_result_ok.
Qed.

Lemma frag_header_writes h id i part_len :
  is_bytes h -> zlen h = LC_FRAG_HEADER_LEN ->
  exists h', (h ← WRITE_NET16 h LC_FRAG_ID id; h ← WRITE_NET8 h LC_FRAG_PART i;
              WRITE_NET16 h LC_FRAG_LEN part_len) = Some h' /\ zlen h' = LC_FRAG_HEADER_LEN /\ is_bytes h'.
Proof.
  intros Hb Hl. destruct (write16_total h LC_FRAG_ID id) as (h1 & -> & L1 & B1); [done|rewrite ?Hl; consts; lia..|].
  cbn [mbind option_bind]. destruct (write8_total h1 LC_FRAG_PART i) as (h2 & -> & L2 & B2);
    [done|rewrite ?L1, ?Hl; consts; lia..|]. cbn [mbind option_bind].
  destruct (write16_total h2 LC_FRAG_LEN part_len) as (h3 & -> & L3 & B3); [done|rewrite ?L2, ?L1, ?Hl; consts; lia..|].
  exists h3. split; [done|]. split; [congruence|done].
Qed.

Lemma nx_send_frags_post fuel h packet id i pos len pmtu w :
  client_ok w -> is_bytes packet -> is_bytes h -> zlen h = LC_FRAG_HEADER_LEN -> 0 < pmtu ->
  0 <= pos -> len <= zlen packet -> len - pos <= Z.of_nat fuel ->
  post (nx_send_frags fuel h packet id i pos len pmtu) (fun _ w' => client_ok w') w.
Proof.
  intros Hw Hb. revert h i pos w Hw. induction fuel as [|fuel IH]; intros h i pos w Hw Bh Lh Hp Hpos Hlen Hf;
    cbn [nx_send_frags]; (case_test; [|by apply post_ret]); [lia|].
  set (part := LMIN pmtu (len - pos)).
  assert (Hpart : 0 < part <= len - pos) by (unfold part, LMIN; case_test; lia). clearbody part.
  destruct (frag_header_writes h id i part Bh Lh) as (h' & E & Lh' & Bh').
  apply post_bind, (post_mem _ h'); [done|]. apply post_bind, (post_ok _ (nx_malloc (w_ticks w)) _ (tick w)); [done|].
  assert (Ht : client_ok (tick w)) by (by apply (client_ok_lp w)).
  destruct (nx_malloc _); cbn [negb]; [|by apply post_ret].
  change LC_FRAG_HEADER_LEN with 16 in *. set (total := 1 + 16 + part).
  assert (Lu : zlen (uninit total) = total) by (apply zlen_uninit; unfold total; lia).
  destruct (mem_put_total (uninit total) 0 [LAN_CLIENT_TYPE_IPV4_FRAG]) as (b1 & E1 & L1 & B1);
    [apply uninit_is_bytes|apply Forall_cons; split; [unfold is_u8, LAN_CLIENT_TYPE_IPV4_FRAG; lia|done]|lia|rewrite Lu; unfold total, zlen; simpl; lia|].
  destruct (memcpy_total b1 1 h' 0 16) as (b2 & E2 & L2 & B2); [done|done|unfold total in *; lia..|].
  destruct (memcpy_total b2 17 packet pos part) as (b3 & E3 & L3 & B3); [done|done|unfold total in *; lia..|].
  apply post_bind, (post_mem _ b3).
  { rewrite E1. cbn [mbind option_bind]. rewrite E2. exact E3. }
  apply relay_raw_post; [done|]. intros r w1 Hw1. case_test; cbn [negb]; [|by apply post_ret].
  apply IH; (done || lia).
Qed.

Lemma console_send_post dst packet len w :
  client_ok w -> is_bytes packet -> 20 <= zlen packet -> 0 <= len <= zlen packet ->
  post (console_send_ipv4 dst packet len) (fun _ w' => client_ok w') w.
Proof.
  intros Hw Hb Hz Hl. unfold console_send_ipv4, nx_lan_client_send. apply post_bind, post_gets.
  case_match eqn:Hf.
  - apply post_bind, post_gets, post_bind, post_modify. set (w1 := set_w_lp _ w).
    assert (Hw1 : client_ok w1) by (destruct Hw; by constructor). clearbody w1.
    change LC_FRAG_HEADER_LEN with 16. set (n := _ / _ + _). clearbody n.
    assert (Lu : zlen (uninit 16) = 16) by (apply zlen_uninit; lia).
    destruct (memcpy_total (uninit 16) LC_FRAG_SRC packet IPV4_OFF_SRC 4) as (h1 & E1 & L1 & B1);
      [apply uninit_is_bytes|done|rewrite ?Lu; consts; lia..|].
    destruct (memcpy_total h1 LC_FRAG_DST packet IPV4_OFF_DST 4) as (h2 & E2 & L2 & B2);
      [done|done|rewrite ?L1, ?Lu; consts; lia..|].
    destruct (write8_total h2 LC_FRAG_TOTAL_PART n) as (h3 & E3 & L3 & B3); [done|rewrite ?L2, ?L1, ?Lu; consts; lia..|].
    destruct (write16_total h3 LC_FRAG_PMTU (lp_pmtu (w_lp w))) as (h4 & E4 & L4 & B4);
      [done|rewrite ?L3, ?L2, ?L1, ?Lu; consts; lia..|].
    apply post_bind, (post_mem _ h4).
    { unfold CPY_IPV4. rewrite E1. cbn [mbind option_bind]. rewrite E2. cbn [mbind option_bind].
      rewrite E3. cbn [mbind option_bind]. exact E4. }
    apply nx_send_frags_post; try done; [rewrite L4, L3, L2, L1; exact Lu|lia..].
  - destruct (post_inv (nx_lan_client_send LAN_CLIENT_TYPE_IPV4 packet len) (fun _ w' => client_ok w') w)
      as (r & w' & E & Hw').
    { assert (Lt : zlen (take (Z.to_nat len) packet) = len) by (by apply zlen_take).
      pose proof (nx_send_whole_run LAN_CLIENT_TYPE_IPV4 (take (Z.to_nat len) packet) (drop (Z.to_nat len) packet) w
        ltac:(rewrite Lt; lia)) as E. rewrite take_drop, Lt in E. unfold post. rewrite E.
      by destruct (nx_relay_all_post [LAN_CLIENT_TYPE_IPV4 :: take (Z.to_nat len) packet] w Hw) as (r & w' & -> & ?). }
    unfold nx_lan_client_send, bind at 1, gets at 1 in E. rewrite Hf in E. by eapply post_ok.
Qed.
End relaying.

#[export] Instance console_port_laws `{NxSys} `{!NxTapSys} fd : PortLaws (H0 := console_port fd).
Proof. split; [intros; by apply tap_send_post|intros; by apply console_send_post]. Qed.

(** ** The packet layer on a lawful port *)

Section layer.
Context `{HP : NxPort} `{!PortLaws}.

(** The gathering loop, part way through: [data] already copied. *)
Lemma nx_send_loop_post c data w :
  wf_payload c -> is_bytes data -> ctx_ok (pctx w) -> zlen data < BUFFER_SIZE ->
  post (nx_send_loop c (zlen data) (zlen data)) (fun _ w' => delivers w w')
    (set_w_lp (set_lp_packet_ctx (set_pc_buffer (filled data (pc_buffer (pctx w))) (pctx w)) (w_lp w)) w).
Proof.
  intros Hc Hd Hw. pose proof (ctx_buffer _ Hw) as Hb. pose proof (ctx_buffer_len _ Hw) as Hl.
  revert data Hd. induction Hc as [|p c Hp Hc IH]; intros data Hd Hz; cbn [nx_send_loop].
  - do 2 (apply post_bind, post_modify). apply post_bind, post_gets. apply post_bind, (post_mem _ data).
    { cbn. rewrite mem_get_Some; [|zlia|zlia|].
      - unfold filled. by rewrite drop_0, to_nat_zlen, take_app_length.
      - unfold filled, zlen in *. rewrite length_app. lia. }
    match goal with |- post _ _ ?w1 => destruct (law_tap data w1 Hd) as (r & w' & E & Ew) end.
    eapply post_ok; [exact E|]. unfold delivers, client_part, pctx. rewrite Ew. split; [|done].
    destruct Hw. constructor; try done. cbn. rewrite zlen_filled by lia. done.
  - pose proof (zlen_part_data p Hp) as Ep. apply post_bind, post_gets. cbn. rewrite Hl. case_test.
    { apply post_ret. split; [|done]. destruct Hw. constructor; try done. cbn. by rewrite zlen_filled by lia. }
    apply post_bind, post_gets. apply post_bind, (post_mem _ (filled (data ++ part_data p) (pc_buffer (pctx w)))).
    { cbn. apply memcpy_filled; [done|]. rewrite Hb. lia. }
    apply post_bind, post_modify. rewrite <- Ep, <- zlen_app.
    rewrite u16_id by (unfold is_u16; change BUFFER_SIZE with 2048 in *; zlia).
    apply (IH (data ++ part_data p)); [|rewrite zlen_app; lia].
    apply Forall_app_2; [done|]. by apply Forall_take, Hp.
Qed.

Lemma nx_send_ether_post dst type c w :
  ctx_ok (pctx w) -> is_mac dst -> wf_payload c ->
  post (nx_send_ether dst type c) (fun _ w' => delivers w w') w.
Proof.
  intros Hw [Ld Bd] Hc. destruct (ctx_mac _ Hw) as [Lm Bm]. unfold nx_send_ether, nx_send_ether_ex.
  apply post_bind, post_gets. apply post_bind, (post_mem _ (eth_hdr dst (pc_mac (pctx w)) type));
    [by apply ether_header_eq|].
  assert (Hz : zlen (eth_hdr dst (pc_mac (pctx w)) type) = 14) by by apply zlen_eth_hdr.
  rewrite (whole_eq _ ETHER_HEADER_LEN) by done. unfold nx_send_payloads.
  pose proof (nx_send_loop_post (whole (eth_hdr dst (pc_mac (pctx w)) type) :: c) [] w) as Hp.
  change (zlen (@nil Z)) with 0 in Hp.
  replace (set_w_lp _ _) with w in Hp by (unfold filled, pctx; simpl; by destruct w as [[[] ] ]).
  apply Hp; [|constructor|done|consts; lia]. constructor; [|done]. by apply wf_whole, eth_hdr_is_bytes.
Qed.

Lemma nx_arp_get_mac_post ip w :
  ctx_ok (pctx w) -> is_ip ip ->
  post (nx_arp_get_mac_by_ip ip)
    (fun r w' => delivers w w' /\ match r with Some mac => is_mac mac | None => True end) w.
Proof.
  intros Hw Hi. unfold nx_arp_get_mac_by_ip. apply post_bind, (post_ok _ (now_at w) _ (tick w)); [done|].
  apply post_bind, post_gets. destruct (arp_find _ _ _) as [item|] eqn:Ef.
  - apply post_ret. apply arp_find_live in Ef as (Hin & _ & _). apply list_elem_of_lookup_1 in Hin as [i Hi'].
    split; [done|by eapply (arp_item_mac (tick w))].
  - unfold nx_send_arp_request, nx_send_arp_ex. apply post_bind.
    do 2 (apply post_bind, post_gets). change (pctx (tick w)) with (pctx w).
    destruct (arp_pkt_ok ARP_OPCODE_REQUEST (pc_mac (pctx w)) (pc_ip (pctx w)) NONE_MAC ip) as [La Ba];
      [apply Hw|apply Hw|apply none_mac_ok|done|].
    apply post_bind, (post_mem _ (arp_pkt ARP_OPCODE_REQUEST (pc_mac (pctx w)) (pc_ip (pctx w)) NONE_MAC ip)).
    { apply (arp_buffer_eq ARP_OPCODE_REQUEST); [apply Hw|apply Hw|apply none_mac_ok|done]. }
    eapply post_mono; [apply nx_send_ether_post; [done|apply broadcase_mac_ok|]|].
    + constructor; [|constructor]. split; cbn [p_ptr p_len]; [rewrite La; consts; lia|done].
    + intros r w' Hd. apply post_ret. split; [|done]. exact Hd.
Qed.
End layer.

(** ** The client on a lawful port *)

Section client.
Context `{HS : NxSys} `{!NxPort} `{!PortLaws}.

Lemma nx_arp_for_each_post packet len w :
  ctx_ok (pctx w) -> wf_part {| p_ptr := packet; p_len := len |} ->
  post (nx_arp_for_each (lan_client_arp_cb packet len)) (fun _ w' => delivers w w') w.
Proof.
  intros Hc Hp. unfold nx_arp_for_each. apply post_bind, (post_ok _ (now_at w) _ (tick w)); [done|].
  assert (Hc0 : delivers w (tick w)) by done. revert Hc0. generalize (tick w).
  assert (Hidx : Forall (fun i => i < Z.to_nat ARP_CACHE_LEN)%nat (seq 0 (Z.to_nat ARP_CACHE_LEN))).
  { apply Forall_forall. intros i Hi%elem_of_seq. lia. }
  induction Hidx as [|i idx Hi Hidx IH]; intros w0 Hw0; cbn [arp_for_each_loop]; [done|].
  apply post_bind, post_gets. destruct Hw0 as [Hc0 E0].
  destruct (pc_arp_list (pctx w0) !! i) as [item|] eqn:Ei.
  2: { apply lookup_ge_None in Ei. destruct (ctx_arp _ Hc0) as [Hl _]. unfold zlen in Hl. lia. }
  apply post_bind, (post_mem _ item); [done|]. case_test; [|by apply IH].
  apply post_bind. unfold lan_client_arp_cb at 1. apply post_bind.
  eapply post_mono; [apply nx_send_ether_post; [done|by eapply arp_item_mac|by constructor]|].
  intros r w1 Hd. apply post_ret. cbn [negb Z.eqb]. apply IH. by apply (delivers_trans w w0 w1).
Qed.

Lemma nx_process_post packet len w :
  ctx_ok (pctx w) -> is_bytes packet -> 20 <= zlen packet -> 0 <= len <= zlen packet ->
  post (nx_lan_client_process packet len) (fun _ w' => delivers w w') w.
Proof.
  intros Hc Hb Hz Hl. unfold nx_lan_client_process. case_test; [by apply post_ret|].
  assert (Hp : wf_part {| p_ptr := packet; p_len := len |}) by done.
  destruct (mem_get_total packet IPV4_OFF_DST 4) as (dst & Ed & Ld & Bd); [done|consts; lia..|].
  apply post_bind, (post_mem _ dst); [done|]. apply post_bind, post_gets. destruct (IS_BROADCAST _ _ _).
  - unfold nx_lan_client_on_broadcast. apply post_bind, post_gets. destruct (lp_next_real_broadcast _).
    + apply post_bind, post_modify.
      eapply post_mono; [apply nx_send_ether_post; [done|apply broadcase_mac_ok|by constructor]|].
      by intros r w' [? ?].
    + apply post_bind. eapply post_mono; [by apply nx_arp_for_each_post|]. by intros [] w' ?.
  - apply post_bind. eapply post_mono; [by apply nx_arp_get_mac_post|].
    intros [mac|] w' [Hd Hm]; [|by apply post_ret].
    eapply post_mono; [apply nx_send_ether_post; [apply Hd|done|by constructor]|].
    intros r w1 Hd1. by apply (delivers_trans w w' w1).
Qed.

Lemma nx_frag_slot_post h w :
  table_ok (lp_frags (w_lp w)) -> hdr_ok h ->
  exists r l' lid', nx_frag_slot h w = Ok r (with_frags l' lid' w) /\ table_ok l' /\
    match r with Some i => exists f, l' !! i = Some f /\ fr_used f <> 0 | None => True end.
Proof.
  intros Ht Hh. rewrite nx_frag_slot_run. case_decide.
  - destruct (frag_slot_run h w Ht Hh) as (r & l' & lid' & E & Ht' & Hm). exists r, l', lid'.
    split_and!; try done. destruct r as [i|]; [|done]. destruct Hm as (f & Hi & Hf & _). by exists f.
  - exists None, (lp_frags (w_lp w)), (lp_local_id (w_lp w)). by rewrite with_frags_id.
Qed.

Lemma nx_frag_post packet len w :
  client_ok w -> is_bytes packet -> 16 <= zlen packet -> 0 <= len <= zlen packet ->
  post (nx_lan_client_process_frag packet len) (fun _ w' => client_ok w') w.
Proof.
  intros Hw Hb Hz Hl. unfold nx_lan_client_process_frag. case_test; [by apply post_ret|].
  destruct (frag_header_total packet Hb Hz) as (h & Hh & Hok). apply post_bind, (post_mem _ h); [done|].
  destruct (frag_refused h len) eqn:Er; [by apply post_ret|].
  pose proof (frag_refused_false h len Hok Er) as Hacc.
  destruct (nx_frag_slot_post h w (co_table _ Hw) Hok) as (r & l' & lid' & Es & Ht & Hm).
  apply post_bind, (post_ok _ _ _ _ _ Es). destruct r as [i|].
  2: { apply post_ret. by apply with_frags_ok. }
  destruct Hm as (f & Hi & Hu). case_match; [|apply post_ret; by apply with_frags_ok].
  assert (Hsf : slot_ok f) by (pose proof (to_slots _ Ht) as Hs; by eapply Forall_lookup_1 in Hs).
  destruct (frag_store_run h packet len f Hsf Hacc Hb) as (b & _ & Est & Hso); [lia|].
  apply post_bind, post_gets. apply post_bind, (post_mem _ (stored h b f)).
  { cbn. rewrite Hi. exact Est. }
  assert (Hput : forall f', fr_src f' = fr_src f -> fr_id f' = fr_id f -> slot_ok f' ->
    client_ok (with_frags (<[i := f']> l') lid' w)).
  { intros f' E1 E2 Hf'. apply with_frags_ok; [done|]. by apply (table_store _ _ f). }
  case_test; apply post_bind, post_modify.
  - pose proof (Hput (set_fr_used 0 (stored h b f)) eq_refl eq_refl (slot_release _ Hso)) as Hok1.
    destruct Hso as [_ Hsb Hsby Hst _]. change (fr_buffer (stored h b f)) with b in *.
    eapply post_mono; [apply nx_process_post; [apply (co_ctx _ Hok1)|done|rewrite Hsb; consts; lia|by rewrite Hsb]|].
    intros a w' Hd. by apply (delivers_ok _ _ Hok1).
  - apply post_ret. by apply Hput.
Qed.

(** A turn of the receive thread on any datagram. *)
Lemma nx_receive_post n err buf w :
  client_ok w -> is_bytes buf -> zlen buf = 4096 -> n <= 4096 ->
  post (nx_recv_turn n err buf) (fun _ w' => client_ok w') w.
Proof.
  intros Hw Hb Hz Hn. unfold nx_recv_turn. apply post_bind, post_gets.
  assert (Hup : forall f w', client_ok w' -> post (upd_console f) (fun _ w => client_ok w) w').
  { intros f w' ?. apply post_modify. by apply (client_ok_lp w'). }
  case_test; [by apply post_ret|]. destruct (Z.leb_spec n 0).
  { case_test; [|by apply post_ret]. do 2 (case_bool_decide; [by apply post_ret|]).
    apply post_bind. eapply post_mono; [by apply Hup|]. intros [] w1 Hw1.
    case_bool_decide; [by apply Hup|by apply post_ret]. }
  destruct (mem_tail buf _ Hz) as (b & rest & -> & Efrom & Eread & Lr); [lia|].
  apply Forall_cons in Hb as [_ Hb]. rewrite u16_id by (unfold is_u16; lia).
  do 3 (apply post_bind, post_modify). set (w1 := set_w_lp _ _).
  assert (Hw1 : client_ok w1) by (by apply (client_ok_lp w)). clearbody w1.
  apply post_bind, (post_mem _ b); [done|]. apply post_bind, (post_mem _ rest); [done|].
  repeat case_test; try by apply post_ret.
  - apply post_bind. eapply post_mono; [apply nx_process_post; [apply Hw1|done|lia..]|].
    intros r w' Hd. by apply post_ret, (delivers_ok w1).
  - apply post_bind. eapply post_mono; [apply nx_frag_post; [done|done|lia..]|].
    intros r w' Hd. by apply post_ret.
  - by apply nx_auth_me_post; try lia.
  - apply post_modify. by apply (client_ok_lp w1).
Qed.

(** *** The capture thread's path *)

Lemma nx_get_mac_client ip w :
  client_ok w -> is_ip ip ->
  post (nx_arp_get_mac_by_ip ip)
    (fun r w' => client_ok w' /\ match r with Some mac => is_mac mac | None => True end) w.
Proof.
  intros Hw Hi. eapply post_mono; [apply nx_arp_get_mac_post; [apply Hw|done]|].
  intros r w' [Hd Hm]. split; [by apply (delivers_ok w)|done].
Qed.

Lemma nx_send_client dst type c w :
  client_ok w -> is_mac dst -> wf_payload c ->
  post (nx_send_ether dst type c) (fun _ w' => client_ok w') w.
Proof.
  intros Hw Hd Hc. eapply post_mono; [apply nx_send_ether_post; [apply Hw|done..]|].
  intros r w' ?. by apply (delivers_ok w).
Qed.

Lemma nx_icmp_post ip w :
  client_ok w -> is_ip (ip_src ip) -> is_bytes (ip_payload ip) ->
  ip_total_len ip - ip_header_len ip <= zlen (ip_payload ip) ->
  post (nx_process_icmp ip) (fun _ w' => client_ok w') w.
Proof.
  intros Hw Hs Hb Hl. unfold nx_process_icmp. case_match eqn:Hr; [by apply post_ret|].
  apply orb_false_iff in Hr as [Hr1%Z.leb_gt Hr2%Z.ltb_ge].
  destruct (icmp_buffer_total ip (ip_total_len ip - ip_header_len ip)) as (b & E & Lb & Bb); [done|lia..|].
  apply post_bind, (post_mem _ b); [exact E|]. apply post_bind. unfold nx_send_ipv4. apply post_bind, post_gets.
  unfold nx_send_ipv4_ex. apply post_bind, post_gets, post_bind, post_modify.
  assert (Hw1 : client_ok (bump_id w)) by (apply (ctx_client_ok w); [done|apply bump_id_ctx_ok, Hw|done]).
  set (part := {| p_ptr := b |}).
  assert (Hpart : wf_part part).
  { split; cbn [p_ptr p_len part]; [|done]. change BUFFER_SIZE with 2048 in *.
    rewrite u16_id by (unfold is_u16; lia). lia. }
  set (id := pc_identification (pctx w)). set (n := IPV4_HEADER_LEN + nx_payload_total_len [part]).
  destruct (ip_hdr_ok (pc_ip (pctx w)) (ip_src ip) IPV4_PROTOCOL_ICMP id n) as [Lh Bh]; [apply Hw|done|].
  apply post_bind, (post_mem _ (ip_hdr (pc_ip (pctx w)) (ip_src ip) IPV4_PROTOCOL_ICMP id n)).
  { apply (ipv4_header_eq (pc_ip (pctx w)) (ip_src ip)); [apply Hw|done]. }
  apply post_bind. eapply post_mono; [by apply nx_get_mac_client|].
  intros [mac|] w' [Hw' Hm]; [|by apply post_ret, post_ret].
  eapply post_mono; [apply nx_send_client; [done|done|]|by intros r w2 ?; apply post_ret].
  constructor; [|by constructor]. split; cbn [p_ptr p_len]; [rewrite Lh; consts; lia|done].
Qed.

(** A captured packet whose header claims no more than the buffer holds. *)
Lemma nx_ipv4_post e w :
  client_ok w -> is_bytes (ef_payload e) -> is_mac (ef_src e) -> 20 <= zlen (ef_payload e) ->
  (forall ip, parse_ipv4 e = Some ip -> ip_total_len ip <= zlen (ef_payload e)) ->
  post (nx_process_ipv4 e) (fun _ w' => client_ok w') w.
Proof.
  intros Hw Hb Hm Hz Ht. destruct (parse_ipv4_total e Hb Hz) as (ip & Ei & [Hs Hd [Hn _] Hh Epl]).
  specialize (Ht ip Ei).
  assert (Hp : is_bytes (ip_payload ip)) by (rewrite Epl; by apply Forall_drop).
  assert (Hpl : ip_total_len ip - ip_header_len ip <= zlen (ip_payload ip))
    by (rewrite Epl; unfold zlen in *; rewrite length_drop; lia).
  unfold nx_process_ipv4. apply post_bind, (post_mem _ ip); [exact Ei|].
  apply post_bind. eapply post_ok; [apply (arp_set_run (ef_src e) (ip_src ip))|].
  pose proof (learned_client_ok (ef_src e) (ip_src ip) w Hw Hm Hs) as Hw1. set (w1 := learned _ _ _) in *.
  clearbody w1. apply post_bind, post_gets. set (part := {| p_ptr := _ |}).
  assert (Hpart : wf_payload [part]) by (constructor; [done|constructor]).
  destruct (CMP_IPV4 _ _).
  { case_test; [by apply nx_icmp_post|by apply post_ret]. }
  destruct (IS_SUBNET _ _ _); [|by apply post_ret]. destruct (IS_BROADCAST _ _ _).
  - apply post_bind. eapply post_mono; [by apply law_relay|]. intros r w2 Hw2. by apply nx_send_client.
  - apply post_bind, (post_ok _ (bool_decide (is_Some (arp_find (pc_arp_list (pctx w1)) (ip_dst ip) (now_at w1)))) _
      (tick w1)); [done|].
    assert (Hw2 : client_ok (tick w1)) by (by apply (client_ok_lp w1)). case_match; [|by apply law_relay].
    apply post_bind. eapply post_mono; [by apply nx_get_mac_client|].
    intros r w3 [Hw3 Hmac]. apply nx_send_client; [done| |done]. destruct r; [done|].
    split; [done|apply uninit_is_bytes].
Qed.
End client.

Section capture.
Context `{HS : NxSys} `{!NxPort} `{!PortLaws}.

(** A captured packet's header, at the start of what follows the Ethernet header, claims no
    more than the buffer holds. *)
Definition claims_within (rest : bytes) : Prop :=
  forall v, READ_NET16 rest IPV4_OFF_TOTAL_LEN = Some v -> v <= TAP_BUF_SIZE.

Lemma parse_ipv4_claim e ip :
  parse_ipv4 e = Some ip -> READ_NET16 (ef_payload e) IPV4_OFF_TOTAL_LEN = Some (ip_total_len ip).
Proof.
  unfold parse_ipv4. intros E. repeat (apply bind_Some in E as (? & ? & E)). by injection E as <-.
Qed.

Lemma set_mac_ok mac w :
  client_ok w -> is_mac mac -> client_ok (set_w_lp (set_lp_packet_ctx (set_pc_mac mac (pctx w)) (w_lp w)) w).
Proof. intros Hw Hm. apply (ctx_client_ok w); [done| |done]. by destruct (co_ctx _ Hw). Qed.

(** A turn of the capture thread: the buffer of [14 + 2048] bytes, [n] of them received. *)
Lemma tap_recv_post new_ip n err src hd rest ticks t w :
  client_ok w -> is_mac (tp_my_mac t) -> is_ip src -> length hd = 14%nat -> is_bytes rest ->
  zlen rest = TAP_BUF_SIZE -> n <= TAP_BUF_SIZE -> claims_within rest ->
  post (tap_recv_turn new_ip n err src (hd ++ rest) ticks t)
    (fun r w' => client_ok w' /\ is_mac (tp_my_mac r.2)) w.
Proof.
  intros Hw Hm Hs Hh Hb Hz Hn Hc.
  assert (Hm' : is_mac (tp_my_mac (wifi_refresh new_ip ticks t).2)).
  { unfold wifi_refresh. case_match; [|done]. destruct new_ip; [|done]. by case_match. }
  destruct (decide (n <= 0)) as [Hn0|Hn0].
  { destruct (tap_recv_error new_ip n err src (hd ++ rest) ticks t w Hn0) as (w' & E & _).
    unfold post. rewrite E. split; [|done]. revert E. unfold tap_recv_turn.
    destruct (wifi_refresh new_ip ticks t) as [ticks' t']. rewrite (proj2 (Z.leb_le _ _)) by done.
    repeat case_match; intros [= <-]; (done || by apply (client_ok_lp w)). }
  pose proof (take_drop (Z.to_nat n) rest) as Er. set (pkt := take _ rest) in *. set (stale := drop _ rest) in *.
  assert (Lp : zlen pkt = n) by (apply zlen_take; lia).
  pose proof (tap_recv_run new_ip err src hd pkt stale ticks t w Hs Hh ltac:(lia)) as E.
  destruct (wifi_refresh new_ip ticks t) as [ticks' t']. cbv zeta in E. rewrite Er, Lp in E.
  unfold post. rewrite E. destruct (own_traffic t' src); [done|].
  apply post_bind, post_modify. pose proof (set_mac_ok _ w Hw Hm') as Hw1. set (w1 := set_w_lp _ _) in *.
  clearbody w1. unfold nx_get_packet. cbn [pk_len]. change TAP_BUF_SIZE with 2048 in *. case_test; [lia|].
  apply post_bind. do 2 (apply post_bind, post_modify). set (w2 := set_w_lp _ _).
  assert (Hw2 : client_ok w2) by (apply (ctx_client_ok w1); [done|by destruct (co_ctx _ Hw1)|done]).
  clearbody w2. apply post_bind. destruct Hs as [Ls Bs].
  set (smac := [2] ++ src ++ [0]).
  assert (Hsm : is_mac smac).
  { split; [unfold smac; rewrite !length_app, Ls; done|]. apply Forall_app_2; [bytes_tac|].
    apply Forall_app_2; [done|bytes_tac]. }
  unfold nx_process_ether. set (frame := _ ++ rest).
  pose proof (parse_ether_roundtrip BCAST_MAC smac ETHER_TYPE_IPV4 rest (u16 (14 + n))
    (eth_hdr BCAST_MAC smac ETHER_TYPE_IPV4) eq_refl (proj1 Hsm) ltac:(unfold is_u16; consts; lia)
    (ether_header_eq BCAST_MAC smac _ eq_refl (proj1 Hsm))) as Ee.
  apply post_bind. eapply post_mem; [exact Ee|]. apply post_bind, post_gets. cbn [ef_src ef_type].
  case_match; [by do 2 apply post_ret|]. change (ETHER_TYPE_IPV4 =? ETHER_TYPE_ARP) with false.
  change (ETHER_TYPE_IPV4 =? ETHER_TYPE_IPV4) with true. cbv iota.
  eapply post_mono; [apply nx_ipv4_post; cbn [ef_payload ef_src]; [done|done|done|lia|]|].
  { intros ip Ei%parse_ipv4_claim. rewrite Hz. by apply Hc. }
  intros r w3 Hw3. by do 2 apply post_ret.
Qed.
End capture.

(** ** Sessions: the threads' turns in any order *)

Section session.
Context `{HS : NxSys} `{!NxTapSys}.

(** The client, the keep-alive thread's counter ([None]: the thread has left), and the
    interface with the capture thread's counter. *)
Inductive session :=
| Live (w : world) (fails : option Z) (ticks : Z) (t : tap)
| Crashed (e : stop).

Definition after {A} (k : A -> option Z * Z * tap) (o : outcome world A) : session :=
  match o with
  | Ok a w => let '(fails, ticks, t) := k a in Live w fails ticks t
  | Stop e => Crashed e
  end.

(** A turn of the receive thread, of the keep-alive thread or of the capture thread, a packet
    relayed by the bridge, [lan_client_close] or [tap_close].  What was received is arbitrary,
    but for the length a captured packet's header claims. *)
Inductive session_step : session -> session -> Prop :=
| st_recv w fails ticks t n err buf :
    running w = true -> is_bytes buf -> zlen buf = 4096 -> n <= 4096 ->
    session_step (Live w fails ticks t) (after (fun _ => (fails, ticks, t))
      (nx_recv_turn (H1 := console_port (tp_inject_fd t)) n err buf w))
| st_keepalive w k ticks t :
    running w = true ->
    session_step (Live w (Some k) ticks t) (after (fun fails => (fails, ticks, t)) (nx_keepalive_turn k w))
| st_capture w fails ticks t new_ip n err src hd rest :
    running w = true -> is_ip src -> length hd = 14%nat -> is_bytes rest ->
    zlen rest = TAP_BUF_SIZE -> n <= TAP_BUF_SIZE -> claims_within rest ->
    session_step (Live w fails ticks t) (after (fun r => (fails, r.1, r.2))
      (tap_recv_turn (H0 := console_port (tp_inject_fd t)) new_ip n err src (hd ++ rest) ticks t w))
| st_relay w fails ticks t dst packet len :
    is_bytes packet -> 20 <= zlen packet -> 0 <= len <= zlen packet ->
    session_step (Live w fails ticks t)
      (after (fun _ => (fails, ticks, t)) (console_send_ipv4 dst packet len w))
| st_close w fails ticks t :
    session_step (Live w fails ticks t) (after (fun _ => (fails, ticks, t)) (nx_lan_client_close w))
| st_tap_close w fails ticks t :
    session_step (Live w fails ticks t) (Live w fails ticks (tap_close t)).

Definition session_ok (s : session) : Prop :=
  match s with
  | Live w fails _ t => client_ok w /\ (forall k, fails = Some k -> 0 <= k < 6) /\ is_mac (tp_my_mac t)
  | Crashed _ => False
  end.

(** A turn that keeps the client keeps the session. *)
Lemma after_ok {A} (k : A -> option Z * Z * tap) (m : M world A) (P : A -> world -> Prop) w :
  post m P w -> (forall a w', P a w' -> session_ok (after k (Ok a w'))) -> session_ok (after k (m w)).
Proof. intros Hp Hk. destruct (post_inv _ _ _ Hp) as (a & w' & -> & Ha). by apply Hk. Qed.

Lemma keepalive_turn_post k w :
  client_ok w -> 0 <= k < 6 ->
  post (nx_keepalive_turn k) (fun r w' => client_ok w' /\ forall k', r = Some k' -> 0 <= k' < 6) w.
Proof.
  intros Hw Hk. unfold nx_keepalive_turn.
  apply post_bind, (post_ok _ _ _ _ _ (relay_send_raw_run _ w)). cbn [fst snd].
  pose proof (relay_result_ok [LAN_CLIENT_TYPE_KEEPALIVE] w Hw) as Hw1.
  destruct (relay_result _ w) as [r w1]. cbn [fst snd] in *.
  assert (Hup : forall f o, (forall lp, lp_packet_ctx (f lp) = lp_packet_ctx lp) ->
    (forall w, client_part (set_w_lp (f (w_lp w)) w) = client_part w) ->
    (forall k', o = Some k' -> 0 <= k' < 6) ->
    post (upd_lp f ;;; ret o) (fun r w' => client_ok w' /\ forall k', r = Some k' -> 0 <= k' < 6) w1).
  { intros f o Hf Hc Ho. apply post_bind, post_modify, post_ret. split; [|done].
    apply (client_ok_lp w1); [|by apply Hc|done]. unfold pctx. simpl. by rewrite Hf. }
  destruct (r <? 0); [|by apply Hup; try done; intros k' [= <-]].
  case_bool_decide; [apply post_ret; split; [done|by intros k' [= <-]]|].
  case_bool_decide; [by apply Hup|].
  destruct (Z.leb_spec 6 (k + 1)); [by apply Hup|]. apply Hup; try done. intros k' [= <-]. lia.
Qed.

Lemma session_step_ok s s' : session_ok s -> session_step s s' -> session_ok s'.
Proof.
  intros Hs Hst. revert Hs.
  destruct Hst as [w fails ticks t n err buf _ Hb Hz Hn|w k ticks t _
    |w fails ticks t new_ip n err src hd rest _ Hsrc Hh Hb Hz Hn Hc|w fails ticks t dst packet len Hb Hz Hl
    |w fails ticks t|w fails ticks t]; intros (Hw & Hk & Hm).
  - eapply after_ok; [by apply (nx_receive_post (H0 := console_port (tp_inject_fd t)))|done].
  - eapply after_ok; [by apply keepalive_turn_post, Hk|]. by intros r w' [? ?].
  - eapply after_ok; [by apply (tap_recv_post (H0 := console_port (tp_inject_fd t)))|]. by intros r w' [? ?].
  - eapply after_ok; [by apply console_send_post|done].
  - split; [|done]. destruct Hw. constructor; try done. apply empty_table_ok.
  - done.
Qed.

(** What the runtime has set up before [lan_client_init]. *)
Record configured (w : world) : Prop := {
  cf_ctx : ctx_ok (pctx w);
  cf_key : zlen (lp_key (w_lp w)) = LP_KEY_LEN /\ is_bytes (lp_key (w_lp w));
  cf_user u : lp_username (w_lp w) = Some u -> is_bytes u /\ zlen u <= 0xffff - 20;
}.

Lemma nx_init_ok fd w :
  configured w -> exists w', nx_lan_client_init fd w = Ok (if fd <? 0 then -1 else 0) w' /\ client_ok w'.
Proof.
  intros [Hc Hk Hu]. unfold nx_lan_client_init, bind, upd_console, upd_lp, modify, ret.
  destruct (fd <? 0); eexists; (split; [reflexivity|]); constructor; try done; apply empty_table_ok.
Qed.

(** [tap_init] and [lan_client_init], as [run_service] calls them before the threads start. *)
Definition session_start (serial : option bytes) (bpf inject fd : Z) (t : tap) (w : world) : session :=
  after (fun _ => (Some 0, 0, (tap_init serial bpf inject t).2)) (nx_lan_client_init fd w).

Lemma session_run serial bpf inject fd t w s :
  configured w -> rtc session_step (session_start serial bpf inject fd t w) s -> session_ok s.
Proof.
  intros Hw Hs. destruct (nx_init_ok fd w Hw) as (w1 & E & Hw1). unfold session_start in Hs. rewrite E in Hs.
  cbn [after] in Hs. set (t1 := (tap_init serial bpf inject t).2) in *.
  assert (H1 : session_ok (Live w1 (Some 0) 0 t1)).
  { split; [done|]. split; [intros k [= <-]; lia|]. unfold t1, tap_init. destruct (bpf <? 0); apply virtual_mac_ok. }
  revert H1. induction Hs as [s|s1 s2 s3 Hst _ IH]; [done|]. intros H1. by apply IH, (session_step_ok s1).
Qed.
End session.

(** C9: the console's client survives what the network does, one kind of captured packet
    excepted.  The runtime has set up a well-formed packet context, a key of 20 bytes and a
    user name of at most 65515 ([configured]).  After [tap_init] and [lan_client_init], in every
    order of turns of its threads (each taken as one step), no turn reaches outside an object, the client stays well formed,
    and the count of failed keep-alives stays below six.  The turns: the receive thread on a
    datagram of any contents and length up to its buffer, an empty login request included,
    which runs the injection into the console's own stack; the keep-alive thread; the capture
    thread on any packet up to its buffer, through [get_packet], to an ICMP answer, a relayed
    packet or a frame for the console; packets of at least an IPv4 header that the bridge relays; [lan_client_close] and
    [tap_close]; sends and allocations may fail.  The exception ([claims_within]) is a captured
    packet whose IPv4 header claims more than the 2048 bytes of the capture buffer: the code
    never compares the two, and [nx_broadcast_reads_past] shows it read past the end. *)
Theorem console_session_safe `{NxSys} `{!NxTapSys} serial bpf inject fd t w s :
  configured w -> rtc session_step (session_start serial bpf inject fd t w) s -> session_ok s.
Proof. apply session_run. Qed.

(** ** A concrete run *)

Definition demo_capture : bytes :=
  [0x45; 0; 0; 28; 0; 0; 0; 0; 64; 17; 0; 0; 10; 13; 0; 5; 10; 13; 255; 255; 1; 2; 3; 4; 5; 6; 7; 8]
  ++ replicate 2020 0.

(** A captured broadcast. *)
Lemma console_session_safe_witness :
  exists s, session_ok s /\
    rtc (session_step (H := demo_env) (HS := demo_sys) (H0 := demo_tap_sys))
      (session_start None 5 4 3 demo_tap demo_open) s.
Proof.
  assert (Hc : is_bytes demo_capture).
  { apply Forall_app_2; [bytes_tac|]. apply Forall_replicate. unfold is_u8. lia. }
  assert (Hrun : exists s, rtc (session_step (H := demo_env) (HS := demo_sys) (H0 := demo_tap_sys))
      (session_start None 5 4 3 demo_tap demo_open) s).
  { eexists. eapply rtc_l; [|apply rtc_refl].
    apply (st_capture (H := demo_env) (HS := demo_sys) (H0 := demo_tap_sys) _ _ _ _ None 28 EAGAIN
             [10; 13; 0; 5] (replicate 14 0) demo_capture);
      [reflexivity|split; [reflexivity|bytes_tac]|reflexivity|exact Hc|reflexivity|vm_compute; discriminate|].
    intros v Hv. vm_compute in Hv. injection Hv as <-. vm_compute. discriminate. }
  destruct Hrun as (s & Hrun). exists s. split; [|exact Hrun].
  apply (console_session_safe (H := demo_env) (H0 := demo_sys) (H1 := demo_tap_sys) None 5 4 3 demo_tap demo_open);
    [|exact Hrun].
  destruct demo_open_ok. by constructor.
Defined.
