(* ===== verification/LdnBridge.v ===== *)
(** The console's LDN bridge: [sysmodule/source/ldn_bridge.cpp].

    [ldn_mitm] mirrors the local-play packets of a game to the bridge, which rewrites the
    addresses in them, wraps them as IPv4 and UDP and hands them to the relay client of
    [NxClient]; what [NxTap] finds for the bridge in a frame of the relay is sent back to
    [ldn_mitm].  TCP streams are tunnelled through the same packets: one session per
    connection, in a table of eight.  The lobbies other consoles announce are kept and
    announced again.

    Threads run by turns: a definition is one round of a thread's loop, with what the
    system calls of that round answered as arguments.  The system's clock, its sockets and
    the file that disables the lobby cache are parameters.

    Shown here: which bytes of a packet the rewriting changes; what a packet looks like to
    the parsers at the other end, and that both tunnels deliver what was sent; which
    lobbies are in the cache, which one is replaced, what is announced again and when; how
    the session table evolves, and that a session closed by [ldn_bridge_close] is closed
    twice. *)

From Stdlib Require Import Sorted.
From stdpp Require Import gmap.
From S2P Require Import Prelude Byteorder Structs Checksum Packet Arp Ipv4 LanClient Dispatch Nx NxClient NxTap.

(** ** The code *)

Definition NI_LDN_OFFSET : Z := 80.
Definition NI_NODES_OFFSET : Z := NI_LDN_OFFSET + 24.
Definition NI_NODE_SIZE : Z := 64.
Definition NI_NODE_COUNT : Z := 8.
Definition NI_NODECOUNT_OFFSET : Z := NI_LDN_OFFSET + 23.
Definition LDN_HEADER_SIZE : Z := 12.
Definition LDN_MAGIC : Z := 0x11451400.
Definition LDN_TYPE_SCAN : Z := 0.
Definition LDN_TYPE_SCAN_RESP : Z := 1.
Definition LDN_TYPE_CONNECT : Z := 2.
Definition LDN_TYPE_SYNC_NETWORK : Z := 3.
Definition TCP_SESSION_MAX : Z := 8.
Definition LOBBY_CACHE_SIZE : Z := 16.
Definition LOBBY_REINJECT_INTERVAL_NS : Z := 500000000.
Definition LOBBY_EXPIRY_NS : Z := 30000000000.
Definition INADDR_LOOPBACK : Z := 0x7F000001.

Record cached_lobby := {
  cl_valid : bool;
  cl_data : bytes;       (* 2048 bytes *)
  cl_data_len : Z;
  cl_timestamp : Z;      (* uint64_t *)
}.

(** The thread of a session is a turn function of its own. *)
Record TcpSession := {
  ts_active : bool;
  ts_thread_created : bool;
  ts_client_fd : Z;
  ts_target_ip : Z;      (* host order *)
}.

(** What the bridge asks of the system. *)
Inductive br_event :=
| BrSendto (fd : Z) (port addr data : bytes)
| BrSend (fd : Z) (data : bytes) (n : Z)   (* send on a stream, and its result *)
| BrShutdown (fd : Z)
| BrClose (fd : Z)
| BrJoin (slot : nat)                      (* threadWaitForExit, threadClose *)
| BrStart (slot : nat).                    (* threadStart *)

(** The file's static variables, its trace, and the number of calls made. *)
Record bridge := {
  br_udp_fd : Z;
  br_inject_fd : Z;
  br_tcp_fd : Z;
  br_sessions : list TcpSession;
  br_sessions_ready : bool;
  br_wifi_ip : Z;
  br_cache : list cached_lobby;
  br_cache_ready : bool;
  br_last_reinject : Z;
  br_ticks : nat;
  br_out : list br_event;
}.

Class BridgeSys := {
  sys_tick : nat -> Z;                (* armGetSystemTick *)
  sys_ns : Z -> Z;                    (* armTicksToNs *)
  sys_stat : nat -> Z;                (* stat of disable_lobby_cache *)
  sys_sendto : nat -> bytes -> Z;
  sys_send : nat -> bytes -> Z;
  sys_ip : nat -> option Z;           (* nifmGetCurrentIpAddress *)
  sys_call : nat -> Z;                (* socket, bind, listen, threadCreate *)
}.

Definition set_br_udp_fd (v : Z) (b : bridge) : bridge :=
  {| br_udp_fd := v; br_inject_fd := br_inject_fd b; br_tcp_fd := br_tcp_fd b; br_sessions := br_sessions b;
     br_sessions_ready := br_sessions_ready b; br_wifi_ip := br_wifi_ip b; br_cache := br_cache b;
     br_cache_ready := br_cache_ready b; br_last_reinject := br_last_reinject b; br_ticks := br_ticks b;
     br_out := br_out b |}.
Definition set_br_inject_fd (v : Z) (b : bridge) : bridge :=
  {| br_udp_fd := br_udp_fd b; br_inject_fd := v; br_tcp_fd := br_tcp_fd b; br_sessions := br_sessions b;
     br_sessions_ready := br_sessions_ready b; br_wifi_ip := br_wifi_ip b; br_cache := br_cache b;
     br_cache_ready := br_cache_ready b; br_last_reinject := br_last_reinject b; br_ticks := br_ticks b;
     br_out := br_out b |}.
Definition set_br_tcp_fd (v : Z) (b : bridge) : bridge :=
  {| br_udp_fd := br_udp_fd b; br_inject_fd := br_inject_fd b; br_tcp_fd := v; br_sessions := br_sessions b;
     br_sessions_ready := br_sessions_ready b; br_wifi_ip := br_wifi_ip b; br_cache := br_cache b;
     br_cache_ready := br_cache_ready b; br_last_reinject := br_last_reinject b; br_ticks := br_ticks b;
     br_out := br_out b |}.
Definition set_br_sessions (v : list TcpSession) (b : bridge) : bridge :=
  {| br_udp_fd := br_udp_fd b; br_inject_fd := br_inject_fd b; br_tcp_fd := br_tcp_fd b; br_sessions := v;
     br_sessions_ready := br_sessions_ready b; br_wifi_ip := br_wifi_ip b; br_cache := br_cache b;
     br_cache_ready := br_cache_ready b; br_last_reinject := br_last_reinject b; br_ticks := br_ticks b;
     br_out := br_out b |}.
Definition set_br_sessions_ready (v : bool) (b : bridge) : bridge :=
  {| br_udp_fd := br_udp_fd b; br_inject_fd := br_inject_fd b; br_tcp_fd := br_tcp_fd b; br_sessions := br_sessions b;
     br_sessions_ready := v; br_wifi_ip := br_wifi_ip b; br_cache := br_cache b;
     br_cache_ready := br_cache_ready b; br_last_reinject := br_last_reinject b; br_ticks := br_ticks b;
     br_out := br_out b |}.
Definition set_br_wifi_ip (v : Z) (b : bridge) : bridge :=
  {| br_udp_fd := br_udp_fd b; br_inject_fd := br_inject_fd b; br_tcp_fd := br_tcp_fd b; br_sessions := br_sessions b;
     br_sessions_ready := br_sessions_ready b; br_wifi_ip := v; br_cache := br_cache b;
     br_cache_ready := br_cache_ready b; br_last_reinject := br_last_reinject b; br_ticks := br_ticks b;
     br_out := br_out b |}.
Definition set_br_cache (v : list cached_lobby) (b : bridge) : bridge :=
  {| br_udp_fd := br_udp_fd b; br_inject_fd := br_inject_fd b; br_tcp_fd := br_tcp_fd b; br_sessions := br_sessions b;
     br_sessions_ready := br_sessions_ready b; br_wifi_ip := br_wifi_ip b; br_cache := v;
     br_cache_ready := br_cache_ready b; br_last_reinject := br_last_reinject b; br_ticks := br_ticks b;
     br_out := br_out b |}.
Definition set_br_cache_ready (v : bool) (b : bridge) : bridge :=
  {| br_udp_fd := br_udp_fd b; br_inject_fd := br_inject_fd b; br_tcp_fd := br_tcp_fd b; br_sessions := br_sessions b;
     br_sessions_ready := br_sessions_ready b; br_wifi_ip := br_wifi_ip b; br_cache := br_cache b;
     br_cache_ready := v; br_last_reinject := br_last_reinject b; br_ticks := br_ticks b;
     br_out := br_out b |}.
Definition set_br_last_reinject (v : Z) (b : bridge) : bridge :=
  {| br_udp_fd := br_udp_fd b; br_inject_fd := br_inject_fd b; br_tcp_fd := br_tcp_fd b; br_sessions := br_sessions b;
     br_sessions_ready := br_sessions_ready b; br_wifi_ip := br_wifi_ip b; br_cache := br_cache b;
     br_cache_ready := br_cache_ready b; br_last_reinject := v; br_ticks := br_ticks b;
     br_out := br_out b |}.
Definition set_br_ticks (v : nat) (b : bridge) : bridge :=
  {| br_udp_fd := br_udp_fd b; br_inject_fd := br_inject_fd b; br_tcp_fd := br_tcp_fd b; br_sessions := br_sessions b;
     br_sessions_ready := br_sessions_ready b; br_wifi_ip := br_wifi_ip b; br_cache := br_cache b;
     br_cache_ready := br_cache_ready b; br_last_reinject := br_last_reinject b; br_ticks := v;
     br_out := br_out b |}.
Definition set_br_out (v : list br_event) (b : bridge) : bridge :=
  {| br_udp_fd := br_udp_fd b; br_inject_fd := br_inject_fd b; br_tcp_fd := br_tcp_fd b; br_sessions := br_sessions b;
     br_sessions_ready := br_sessions_ready b; br_wifi_ip := br_wifi_ip b; br_cache := br_cache b;
     br_cache_ready := br_cache_ready b; br_last_reinject := br_last_reinject b; br_ticks := br_ticks b;
     br_out := v |}.

Definition ask {A} (f : nat -> A) : M bridge A :=
  fun b => Ok (f (br_ticks b)) (set_br_ticks (S (br_ticks b)) b).
Definition br_emit (e : br_event) : M bridge unit := modify (fun b => set_br_out (br_out b ++ [e]) b).

Definition empty_lobby : cached_lobby :=
  {| cl_valid := false; cl_data := replicate 2048 0; cl_data_len := 0; cl_timestamp := 0 |}.

Section packets.
Context `{Host}.

(** [ldn_packet_header]: the fields the bridge looks at. *)
Definition hdr_magic (p : bytes) : option Z := b ← mem_get p 0 4; Some (load b).
Definition hdr_type (p : bytes) : option Z := READ_NET8 p 4.
Definition hdr_compressed (p : bytes) : option Z := READ_NET8 p 5.

(** The IPv4 and UDP headers, over the start of [out]; [None]: outside of it. *)
Definition ip_udp_header (out : bytes) (total src_ip_ho dst_ip_ho sport dport payload_len : Z) : option bytes :=
  o ← mem_put out 0 [0x45];
  o ← mem_put o 1 [0x00];
  o ← mem_put o 2 [Z.land (Z.shiftr total 8) 0xFF];
  o ← mem_put o 3 [Z.land total 0xFF];
  o ← mem_put o 4 [0; 0];
  o ← mem_put o 6 [0x40];
  o ← mem_put o 7 [0];
  o ← mem_put o 8 [64];
  o ← mem_put o 9 [17];
  o ← mem_put o 10 [0; 0];
  o ← mem_put o 12 (store 4 (htonl src_ip_ho));
  o ← mem_put o 16 (store 4 (htonl dst_ip_ho));
  o ← mem_put o 20 [Z.land (Z.shiftr sport 8) 0xFF];
  o ← mem_put o 21 [Z.land sport 0xFF];
  o ← mem_put o 22 [Z.land (Z.shiftr dport 8) 0xFF];
  o ← mem_put o 23 [Z.land dport 0xFF];
  let udp_len := u16 (8 + payload_len) in
  o ← mem_put o 24 [Z.land (Z.shiftr udp_len 8) 0xFF];
  o ← mem_put o 25 [Z.land udp_len 0xFF];
  mem_put o 26 [0; 0].
Definition build_ip_udp (out : bytes) (max_out src_ip_ho dst_ip_ho sport dport : Z) (payload : bytes) (payload_len : Z)
    : option (Z * bytes) :=
  let total := 20 + 8 + payload_len in
  if max_out <? total then Some (-1, out)
  else
    o ← ip_udp_header out total src_ip_ho dst_ip_ho sport dport payload_len;
    o ← memcpy o 28 payload 0 payload_len;
    Some (total, o).

(** The loop over the nodes of a [NetworkInfo], from node [i]. *)
Fixpoint rewrite_nodes (n : nat) (i : Z) (wifi_ip : Z) (my_ip : bytes) (outgoing : bool) (ldn_data : bytes)
    (body_len : Z) : option bytes :=
  match n with
  | O => Some ldn_data
  | S n =>
      let off := NI_NODES_OFFSET + i * NI_NODE_SIZE in
      if body_len <? off + 4 then Some ldn_data
      else
        ip ← mem_get ldn_data (LDN_HEADER_SIZE + off) 4;
        d ← (if outgoing && ((load ip =? wifi_ip) && negb (wifi_ip =? 0)) then
               mem_put ldn_data (LDN_HEADER_SIZE + off) (store 4 (ntohl (load my_ip)))
             else Some ldn_data);
        rewrite_nodes n (i + 1) wifi_ip my_ip outgoing d body_len
  end.

(** The changed packet; [wifi_ip] is [g_wifi_ip]. *)
Definition ldn_bridge_rewrite_ips (wifi_ip : Z) (my_ip : bytes) (ldn_data : bytes) (len : Z) (outgoing : bool)
    : option bytes :=
  if len <? LDN_HEADER_SIZE then Some ldn_data
  else
    magic ← hdr_magic ldn_data;
    if negb (magic =? LDN_MAGIC) then Some ldn_data
    else
      type ← hdr_type ldn_data;
      if negb (type =? LDN_TYPE_SCAN_RESP) && negb (type =? LDN_TYPE_CONNECT) && negb (type =? LDN_TYPE_SYNC_NETWORK)
      then Some ldn_data
      else
        let body_len := len - LDN_HEADER_SIZE in
        compressed ← hdr_compressed ldn_data;
        if negb (compressed =? 0) then Some ldn_data
        else if (type =? LDN_TYPE_SCAN_RESP) || (type =? LDN_TYPE_SYNC_NETWORK) then
          if body_len <? NI_NODES_OFFSET + NI_NODE_SIZE then Some ldn_data
          else
            node_count ← (if NI_NODECOUNT_OFFSET <? body_len
                          then READ_NET8 ldn_data (LDN_HEADER_SIZE + NI_NODECOUNT_OFFSET) else Some 0);
            let node_count := if NI_NODE_COUNT <? node_count then NI_NODE_COUNT else node_count in
            rewrite_nodes (Z.to_nat node_count) 0 wifi_ip my_ip outgoing ldn_data body_len
        else if type =? LDN_TYPE_CONNECT then
          if body_len <? 4 then Some ldn_data
          else
            ip ← mem_get ldn_data LDN_HEADER_SIZE 4;
            if outgoing && (load ip =? wifi_ip) && negb (wifi_ip =? 0) then
              mem_put ldn_data LDN_HEADER_SIZE (store 4 (ntohl (load my_ip)))
            else Some ldn_data
        else Some ldn_data.

(** The search for a slot: [slot], [oldest_slot] at the end of the loop or at its [break]. *)
Fixpoint lobby_scan (cache : list cached_lobby) (i : Z) (payload : bytes) (payload_len slot oldest_slot oldest_tick : Z)
    : option (Z * Z) :=
  match cache with
  | [] => Some (slot, oldest_slot)
  | c :: cache =>
      if negb (cl_valid c) then
        lobby_scan cache (i + 1) payload payload_len (if slot <? 0 then i else slot) oldest_slot oldest_tick
      else
        same ← (if (LDN_HEADER_SIZE + 32 <=? payload_len) && (LDN_HEADER_SIZE + 32 <=? cl_data_len c) then
                  a ← mem_get (cl_data c) LDN_HEADER_SIZE 32;
                  b ← mem_get payload LDN_HEADER_SIZE 32;
                  Some (bool_decide (a = b))
                else Some false);
        if same : bool then Some (i, oldest_slot)
        else if (oldest_tick =? 0) || (cl_timestamp c <? oldest_tick) then
          lobby_scan cache (i + 1) payload payload_len slot i (cl_timestamp c)
        else lobby_scan cache (i + 1) payload payload_len slot oldest_slot oldest_tick
  end.
End packets.

Section code.
Context `{Host} `{BridgeSys}.

Definition lobby_cache_enabled : M bridge bool :=
  let* r := ask sys_stat in ret (negb (r =? 0)).

Definition lobby_cache_init : M bridge unit :=
  modify (set_br_cache (replicate 16 empty_lobby)) ;;;
  modify (set_br_cache_ready true) ;;;
  modify (set_br_last_reinject 0).

Definition lobby_cache_store_if_scanresp (payload : bytes) (payload_len : Z) : M bridge unit :=
  let* ready := gets br_cache_ready in
  let* go := if ready : bool then lobby_cache_enabled else ret false in
  if negb go then ret tt
  else if payload_len <? LDN_HEADER_SIZE then ret tt
  else
    let* magic := mem (hdr_magic payload) in
    let* type := mem (hdr_type payload) in
    if negb (magic =? LDN_MAGIC) || negb (type =? LDN_TYPE_SCAN_RESP) then ret tt
    else if 2048 <? payload_len then ret tt
    else
      let* cache := gets br_cache in
      let* (slot, oldest_slot) := mem (lobby_scan cache 0 payload payload_len (-1) 0 0) in
      let slot := if slot <? 0 then oldest_slot else slot in
      let* c := mem (if slot <? 0 then None else cache !! Z.to_nat slot) in
      let* data := mem (memcpy (cl_data c) 0 payload 0 payload_len) in
      let* now := ask sys_tick in
      modify (set_br_cache (<[Z.to_nat slot :=
        {| cl_valid := true; cl_data := data; cl_data_len := payload_len; cl_timestamp := now |}]> cache)).

(** [sendto] on the injection socket, to [ldn_mitm]. *)
Definition to_mitm (data : bytes) : M bridge Z :=
  let* fd := gets br_inject_fd in
  br_emit (BrSendto fd (store 2 (htons LDN_GAME_PORT)) (store 4 (htonl INADDR_LOOPBACK)) data) ;;;
  ask (fun k => sys_sendto k data).

(** The loop over the cache: what is left of it. *)
Fixpoint reinject_loop (now : Z) (cache : list cached_lobby) : M bridge (list cached_lobby) :=
  match cache with
  | [] => ret []
  | c :: cache =>
      let* c := if negb (cl_valid c) then ret c
                else if LOBBY_EXPIRY_NS <? sys_ns (u64 (now - cl_timestamp c)) then
                  ret {| cl_valid := false; cl_data := cl_data c; cl_data_len := cl_data_len c;
                         cl_timestamp := cl_timestamp c |}
                else
                  let* data := mem (mem_get (cl_data c) 0 (cl_data_len c)) in
                  let* _ := to_mitm data in
                  ret c in
      let* cache := reinject_loop now cache in
      ret (c :: cache)
  end.
Definition lobby_cache_reinject_if_due : M bridge unit :=
  let* ready := gets br_cache_ready in
  let* go := if ready : bool then lobby_cache_enabled else ret false in
  let* fd := gets br_inject_fd in
  if negb go then ret tt
  else if fd <? 0 then ret tt
  else
    let* now := ask sys_tick in
    let* last := gets br_last_reinject in
    if negb (last =? 0) && (sys_ns (u64 (now - last)) <? LOBBY_REINJECT_INTERVAL_NS) then ret tt
    else
      modify (set_br_last_reinject now) ;;;
      let* cache := gets br_cache in
      let* cache := reinject_loop now cache in
      modify (set_br_cache cache).

Definition refresh_wifi_ip : M bridge unit :=
  let* ip := ask sys_ip in
  match ip with Some ip => modify (set_br_wifi_ip (ntohl ip)) | None => ret tt end.

(** [ldn_bridge_inject]: a datagram of the relay for [ldn_mitm]. *)
Definition bridge_inject (udp_payload : bytes) (payload_len : Z) : M bridge Z :=
  let* fd := gets br_inject_fd in
  if (fd <? 0) || (payload_len <=? 0) then ret (-1)
  else if payload_len <? LDN_HEADER_SIZE then ret 0
  else
    let* magic := mem (hdr_magic udp_payload) in
    if negb (magic =? LDN_MAGIC) then ret 0
    else
      lobby_cache_store_if_scanresp udp_payload payload_len ;;;
      let* data := mem (mem_get udp_payload 0 payload_len) in
      let* n := to_mitm data in
      if n <? 0 then ret (-1) else ret 0.

(** *** Opening and closing *)

Definition ldn_bridge_init : M bridge Z :=
  lobby_cache_init ;;;
  refresh_wifi_ip ;;;
  let* fd := ask sys_call in
  modify (set_br_udp_fd fd) ;;;
  if fd <? 0 then ret (-1)
  else
    let* r := ask sys_call in                   (* bind *)
    if r <? 0 then
      br_emit (BrClose fd) ;;;
      modify (set_br_udp_fd (-1)) ;;;
      ret (-1)
    else
      let* fd := ask sys_call in
      modify (set_br_inject_fd fd) ;;;
      let* fd := ask sys_call in
      modify (set_br_tcp_fd fd) ;;;
      (if 0 <=? fd then
         let* r := ask sys_call in              (* bind *)
         let* r := if r <? 0 then ret r else ask sys_call in  (* listen *)
         if r <? 0 then
           br_emit (BrClose fd) ;;;
           modify (set_br_tcp_fd (-1))
         else ret tt
       else ret tt) ;;;
      ret 0.

Definition set_ts_client_fd (v : Z) (s : TcpSession) : TcpSession :=
  {| ts_active := ts_active s; ts_thread_created := ts_thread_created s; ts_client_fd := v;
     ts_target_ip := ts_target_ip s |}.
Definition set_ts_thread_created (v : bool) (s : TcpSession) : TcpSession :=
  {| ts_active := ts_active s; ts_thread_created := v; ts_client_fd := ts_client_fd s;
     ts_target_ip := ts_target_ip s |}.

(** The descriptors of the sessions, copied before they are closed. *)
Definition snap_fds (sessions : list TcpSession) : list Z :=
  omap (fun s => if 0 <=? ts_client_fd s then Some (ts_client_fd s) else None) sessions.
Definition close_fd (fd : Z) : M bridge unit := if 0 <=? fd then br_emit (BrClose fd) else ret tt.
Definition ldn_bridge_close : M bridge unit :=
  let* fd := gets br_udp_fd in
  close_fd fd ;;;
  modify (fun b => if 0 <=? fd then set_br_udp_fd (-1) b else b) ;;;
  let* fd := gets br_inject_fd in
  close_fd fd ;;;
  modify (fun b => if 0 <=? fd then set_br_inject_fd (-1) b else b) ;;;
  let* ready := gets br_sessions_ready in
  (if ready : bool then
     let* sessions := gets br_sessions in
     modify (set_br_sessions
       ((fun s => if 0 <=? ts_client_fd s then set_ts_client_fd (-1) s else s) <$> sessions)) ;;;
     for_each (snap_fds sessions) (fun fd => br_emit (BrShutdown fd) ;;; br_emit (BrClose fd))
   else ret tt) ;;;
  let* fd := gets br_tcp_fd in
  close_fd fd ;;;
  modify (fun b => if 0 <=? fd then set_br_tcp_fd (-1) b else b).

(** Waiting for the thread of a slot, if there is one. *)
Definition join_slot (i : nat) : M bridge unit :=
  let* sessions := gets br_sessions in
  let* s := mem (sessions !! i) in
  if ts_thread_created s then
    br_emit (BrJoin i) ;;;
    modify (set_br_sessions (<[i := set_ts_thread_created false s]> sessions))
  else ret tt.
Definition ldn_bridge_wait_sessions : M bridge unit :=
  let* ready := gets br_sessions_ready in
  if negb ready then ret tt else for_each (seq 0 8) join_slot.

(** *** TCP sessions *)

(** The loop of [send]; each round sends at least a byte, so [len] rounds are enough. *)
Fixpoint relay_write_loop (fuel : nat) (fd : Z) (data : bytes) (sent : Z) : M bridge unit :=
  match fuel with
  | O => ret tt
  | S fuel =>
      if sent <? zlen data then
        let* rest := mem (mem_from data sent) in
        let* n := ask (fun k => sys_send k rest) in
        br_emit (BrSend fd rest n) ;;;
        if n <=? 0 then ret tt else relay_write_loop fuel fd data (sent + n)
      else ret tt
  end.

(** The first active session whose target is [src_ip_ho]; a negative descriptor ends the
    search. *)
Fixpoint find_session (sessions : list TcpSession) (src_ip_ho : Z) : option Z :=
  match sessions with
  | [] => None
  | s :: sessions =>
      if negb (ts_active s) then find_session sessions src_ip_ho
      else if negb (ts_target_ip s =? src_ip_ho) then find_session sessions src_ip_ho
      else if ts_client_fd s <? 0 then None
      else Some (ts_client_fd s)
  end.
Definition ldn_bridge_tcp_inject_from_relay (src_ip_ho : Z) (data : bytes) (len : Z) : M bridge unit :=
  let* ready := gets br_sessions_ready in
  if negb ready || (len <=? 0) then ret tt
  else
    let* sessions := gets br_sessions in
    match find_session sessions src_ip_ho with
    | Some fd =>
        let* data := mem (mem_get data 0 len) in
        relay_write_loop (Z.to_nat len) fd data 0
    | None => ret tt
    end.

(** The start of the accepting thread; whether it goes on. *)
Definition tcp_thread_start : M bridge bool :=
  let* ready := gets br_sessions_ready in
  (if ready : bool then ret tt
   else
     modify (fun b => set_br_sessions
       ((fun s => {| ts_active := false; ts_thread_created := false; ts_client_fd := -1;
                     ts_target_ip := ts_target_ip s |}) <$> br_sessions b) b) ;;;
     modify (set_br_sessions_ready true)) ;;;
  let* fd := gets br_tcp_fd in
  ret (0 <=? fd).

Fixpoint free_slot (sessions : list TcpSession) (i : nat) : option nat :=
  match sessions with
  | [] => None
  | s :: sessions => if negb (ts_active s) then Some i else free_slot sessions (S i)
  end.

(** A connection was accepted and its first four bytes read: [r] of them, [target_ip_be]. *)
Definition tcp_accepted (client_fd r : Z) (target_ip_be : bytes) : M bridge unit :=
  if negb (r =? 4) then br_emit (BrClose client_fd)
  else
    let target_ip_ho := ntohl (load target_ip_be) in
    let* sessions := gets br_sessions in
    match free_slot sessions 0 with
    | None => br_emit (BrClose client_fd)
    | Some slot =>
        join_slot slot ;;;
        let* sessions := gets br_sessions in
        let* s := mem (sessions !! slot) in
        modify (set_br_sessions (<[slot :=
          {| ts_active := true; ts_thread_created := ts_thread_created s; ts_client_fd := client_fd;
             ts_target_ip := target_ip_ho |}]> sessions)) ;;;
        let* rc := ask sys_call in              (* threadCreate *)
        let* sessions := gets br_sessions in
        let* s := mem (sessions !! slot) in
        if negb (rc =? 0) then
          modify (set_br_sessions (<[slot :=
            {| ts_active := false; ts_thread_created := ts_thread_created s; ts_client_fd := -1;
               ts_target_ip := ts_target_ip s |}]> sessions)) ;;;
          br_emit (BrClose client_fd)
        else
          modify (set_br_sessions (<[slot := set_ts_thread_created true s]> sessions)) ;;;
          br_emit (BrStart slot)
    end.

(** A round of the accepting thread: whether it goes on. *)
Definition tcp_accept_turn (pret : Z) (perr : errno) (client_fd : Z) (r : Z) (target_ip_be : bytes) : M bridge bool :=
  if pret <? 0 then ret (negb (bool_decide (perr = EBADF)))
  else if pret =? 0 then ret true
  else if client_fd <? 0 then ret true
  else tcp_accepted client_fd r target_ip_be ;;; ret true.

(** The end of a session's thread; [client_fd] is its own copy. *)
Definition tcp_session_end (slot : nat) (client_fd : Z) : M bridge unit :=
  let* sessions := gets br_sessions in
  let* s := mem (sessions !! slot) in
  modify (set_br_sessions (<[slot :=
    {| ts_active := false; ts_thread_created := ts_thread_created s; ts_client_fd := -1;
       ts_target_ip := ts_target_ip s |}]> sessions)) ;;;
  br_emit (BrClose client_fd).
End code.

(** *** The threads that send to the relay *)

Section relay.
Context `{NxSys} `{BridgeSys}.

Definition on_bridge {A} (m : M bridge A) : M (bridge * world) A :=
  fun s => match m s.1 with Ok a b => Ok a (b, s.2) | Stop e => Stop e end.
Definition on_client {A} (m : M world A) : M (bridge * world) A :=
  fun s => match m s.2 with Ok a w => Ok a (s.1, w) | Stop e => Stop e end.

(** The variables of [ldn_bridge_udp_thread_fn]. *)
Record udp_locals := {
  ul_ip_pkt : bytes;         (* 2048 + 28 bytes *)
  ul_poll_timeout : Z;
  ul_last_activity : Z;
}.

Definition udp_thread_start (ip_pkt : bytes) : M bridge udp_locals :=
  refresh_wifi_ip ;;;
  let* now := ask sys_tick in
  ret {| ul_ip_pkt := ip_pkt; ul_poll_timeout := 200; ul_last_activity := now |}.

(** Rewriting, wrapping and sending a packet of [n] bytes at the start of [buf], and the
    buffer of the packet. *)
Definition wrap_and_send (my_ip : bytes) (dst_ip sport : Z) (buf : bytes) (n : Z) (ip_pkt : bytes)
    : M (bridge * world) (Z * bytes) :=
  let* wifi := on_bridge (gets br_wifi_ip) in
  let* buf := mem (ldn_bridge_rewrite_ips wifi my_ip buf n true) in
  let my_virtual_ip := ntohl (load my_ip) in
  let* (pkt_len, ip_pkt) := mem (build_ip_udp ip_pkt 2076 my_virtual_ip dst_ip sport LDN_GAME_PORT buf n) in
  (if 0 <? pkt_len then
     let* dst := mem (mem_get ip_pkt 16 4) in
     let* _ := on_client (console_send_ipv4 dst ip_pkt (u16 pkt_len)) in
     ret tt
   else ret tt) ;;;
  ret (pkt_len, ip_pkt).

(** A round of the capture thread: [poll] returned [pret], or failed with [perr];
    [recvfrom] returned [n] with the buffer [recv_buf], or failed with [err].  The result
    says whether the thread goes on. *)
Definition udp_turn (my_ip : bytes) (pret : Z) (perr : errno) (n : Z) (err : errno) (recv_buf : bytes)
    (l : udp_locals) : M (bridge * world) (bool * udp_locals) :=
  if pret <? 0 then ret (negb (bool_decide (perr = EBADF)), l)
  else if pret =? 0 then
    on_bridge lobby_cache_reinject_if_due ;;;
    let* now := on_bridge (ask sys_tick) in
    let idle_ms := sys_ns (u64 (now - ul_last_activity l)) / 1000000 in
    ret (true, {| ul_ip_pkt := ul_ip_pkt l; ul_poll_timeout := if 2000 <? idle_ms then 500 else 200;
                  ul_last_activity := ul_last_activity l |})
  else
    let* now := on_bridge (ask sys_tick) in
    let l := {| ul_ip_pkt := ul_ip_pkt l; ul_poll_timeout := 10; ul_last_activity := now |} in
    if n <=? 0 then
      if (n <? 0) && negb (bool_decide (err ∈ [EAGAIN; ETIMEDOUT; EINTR])) then
        if bool_decide (err = EBADF) then ret (false, l)
        else
          (if bool_decide (err ∈ [ENETDOWN; EPIPE; ENXIO]) then on_client (upd_console (set_running false))
           else ret tt) ;;;
          ret (true, l)
      else ret (true, l)
    else if n <? LDN_HEADER_SIZE then ret (true, l)
    else
      let* magic := mem (hdr_magic recv_buf) in
      if negb (magic =? LDN_MAGIC) then ret (true, l)
      else
        let* wifi := on_bridge (gets br_wifi_ip) in
        (if wifi =? 0 then on_bridge refresh_wifi_ip else ret tt) ;;;
        let* (pkt_len, ip_pkt) := wrap_and_send my_ip 0x0A0DFFFF LDN_GAME_PORT recv_buf n (ul_ip_pkt l) in
        let l := {| ul_ip_pkt := ip_pkt; ul_poll_timeout := ul_poll_timeout l;
                    ul_last_activity := ul_last_activity l |} in
        if pkt_len <=? 0 then ret (true, l)
        else on_bridge lobby_cache_reinject_if_due ;;; ret (true, l).

(** A round of a session's thread: [recv] returned [n] with the buffer [buf], or failed
    with [err]. *)
Definition tcp_session_turn (my_ip : bytes) (target_ip n : Z) (err : errno) (buf ip_pkt : bytes)
    : M (bridge * world) (bool * bytes) :=
  if n <=? 0 then
    ret (negb (n =? 0) && bool_decide (err ∈ [EAGAIN; ETIMEDOUT; EINTR]), ip_pkt)
  else
    let* (_, ip_pkt) := wrap_and_send my_ip target_ip LDN_BRIDGE_PORT buf n ip_pkt in
    ret (true, ip_pkt).
End relay.

(** ** Rewriting addresses *)

Section rewriting.
Context `{Host} (wifi : Z) (my_ip : bytes).

(** The virtual address, as the packet holds addresses: in host order. *)
Definition virtual_field : bytes := store 4 (ntohl (load my_ip)).
Definition new_field (ip : bytes) : bytes :=
  if (load ip =? wifi) && negb (wifi =? 0) then virtual_field else ip.

(** An address field at [o], rewritten. *)
Definition patch (d : bytes) (o : Z) : bytes :=
  default d (ip ← mem_get d o 4; mem_put d o (new_field ip)).

(** Where the addresses of a packet of [len] bytes are. *)
Definition node_offset (k : Z) : Z := 116 + k * 64.
Definition node_offsets (count len : Z) : list Z :=
  filter (fun o => o + 4 <= len) (node_offset <$> seqZ 0 (8 `min` count)).
Definition address_fields (d : bytes) (len : Z) : list Z :=
  if decide (12 <= len /\ hdr_magic d = Some LDN_MAGIC /\ hdr_compressed d = Some 0) then
    let type := default LDN_TYPE_SCAN (hdr_type d) in
    if decide (type = LDN_TYPE_SCAN_RESP \/ type = LDN_TYPE_SYNC_NETWORK) then
      if decide (180 <= len) then node_offsets (default 0 (READ_NET8 d 115)) len else []
    else if decide (type = LDN_TYPE_CONNECT /\ 16 <= len) then [12]
    else []
  else [].

Lemma virtual_field_len : length virtual_field = 4%nat.
Proof. apply length_store. Qed.
Lemma new_field_len ip : length ip = 4%nat -> length (new_field ip) = 4%nat.
Proof. unfold new_field. case_match; [by rewrite virtual_field_len|done]. Qed.

(** [patch] within the object. *)
Lemma patch_run d o :
  0 <= o -> o + 4 <= zlen d ->
  exists ip, mem_get d o 4 = Some ip /\ length ip = 4%nat /\ mem_put d o (new_field ip) = Some (patch d o).
Proof.
  intros Ho Hl. eexists. split; [by apply mem_get_Some|].
  assert (L : length (take (Z.to_nat 4) (drop (Z.to_nat o) d)) = 4%nat)
    by (rewrite length_take, length_drop; unfold zlen in Hl; lia).
  split; [done|]. unfold patch. rewrite mem_get_Some by lia. cbn [mbind option_bind].
  rewrite mem_put_Some; [done|lia|]. unfold zlen at 1. rewrite new_field_len by done. lia.
Qed.

Lemma patch_zlen d o : zlen (patch d o) = zlen d.
Proof.
  unfold patch. destruct (mem_get d o 4) as [ip|]; cbn [mbind option_bind default]; [|done].
  destruct (mem_put d o _) as [m|] eqn:E; [by apply mem_put_zlen in E|done].
Qed.

Lemma mem_get_lookup (d d' : bytes) o n :
  zlen d = zlen d' -> 0 <= o ->
  (forall i : nat, o <= Z.of_nat i < o + n -> d !! i = d' !! i) -> mem_get d o n = mem_get d' o n.
Proof.
  intros Hz Ho Hi. unfold mem_get. rewrite Hz. destruct ((0 <=? o) && (0 <=? n) && (o + n <=? zlen d')) eqn:E; [|done].
  f_equal. apply list_eq. intros i. destruct (decide (i < Z.to_nat n)%nat) as [Hlt|Hge].
  - rewrite !lookup_take_lt, !lookup_drop by done. apply Hi. lia.
  - rewrite !lookup_take_ge by lia. done.
Qed.

Lemma patch_lookup d o (i : nat) : 0 <= o -> ~ (o <= Z.of_nat i < o + 4) -> patch d o !! i = d !! i.
Proof.
  intros Ho Hi. destruct (decide (o + 4 <= zlen d)) as [Hl|Hl].
  - destruct (patch_run d o Ho Hl) as (ip & _ & L & E). rewrite (mem_put_lookup _ _ _ _ i E).
    unfold zlen. rewrite new_field_len by done. rewrite decide_False by lia. done.
  - unfold patch. by rewrite mem_get_None by lia.
Qed.

Lemma patch_here d o ip :
  0 <= o -> mem_get d o 4 = Some ip -> mem_get (patch d o) o 4 = Some (new_field ip).
Proof.
  intros Ho E. pose proof (mem_get_inv _ _ _ _ E) as (_ & _ & Hl & _).
  destruct (patch_run d o Ho Hl) as (ip' & E' & L & Ep). rewrite E in E'. injection E' as <-.
  rewrite mem_get_Some by (rewrite ?patch_zlen; lia). f_equal. apply list_eq. intros i.
  destruct (decide (i < 4)%nat) as [Hi|Hi].
  - rewrite lookup_take_lt, lookup_drop, (mem_put_lookup _ _ _ _ _ Ep) by lia.
    unfold zlen. rewrite new_field_len, decide_True by (done || lia). f_equal. lia.
  - rewrite lookup_take_ge by lia. symmetry. apply lookup_ge_None. rewrite new_field_len by done. lia.
Qed.

(** Fields that are four bytes apart do not disturb each other. *)
Lemma patches_spec l d :
  Forall (fun o => 0 <= o) l -> StronglySorted (fun a b => a + 4 <= b) l ->
  let d' := foldl patch d l in
  zlen d' = zlen d /\
  (forall o ip, o ∈ l -> mem_get d o 4 = Some ip -> mem_get d' o 4 = Some (new_field ip)) /\
  (forall i : nat, (forall o, o ∈ l -> ~ (o <= Z.of_nat i < o + 4)) -> d' !! i = d !! i).
Proof.
  revert d. induction l as [|o l IH]; intros d Hp Hs; [by split_and!; try set_solver|].
  apply Forall_cons in Hp as [Ho Hp]. apply StronglySorted_inv in Hs as [Hs Hd].
  destruct (IH (patch d o) Hp Hs) as (Hz & Hin & Hout). cbn [foldl]. split_and!.
  - by rewrite Hz, patch_zlen.
  - intros o' ip [->|Ho']%elem_of_cons E.
    + apply (patch_here _ _ _ Ho) in E. rewrite <- E. apply mem_get_lookup; [done|done|]. intros i Hi.
      apply Hout. intros o2 Ho2. rewrite Forall_forall in Hd. specialize (Hd _ Ho2). cbv beta in Hd. lia.
    + apply Hin; [done|]. rewrite <- E. rewrite Forall_forall in Hp, Hd.
      specialize (Hp _ Ho'). specialize (Hd _ Ho'). cbv beta in Hp, Hd.
      apply mem_get_lookup; [by rewrite patch_zlen|done|]. intros i Hi.
      apply patch_lookup; lia.
  - intros i Hi. rewrite Hout by set_solver. apply patch_lookup; [done|]. apply Hi. by left.
Qed.
(** The offsets of a network's nodes. *)
Lemma offsets_end n i len :
  len < node_offset i + 4 -> filter (fun o => o + 4 <= len) (node_offset <$> seqZ i (Z.of_nat n)) = [].
Proof.
  revert i. induction n as [|n IH]; intros i Hi; [done|].
  rewrite seqZ_cons by lia. replace (Z.pred (Z.of_nat (S n))) with (Z.of_nat n) by lia.
  rewrite fmap_cons, filter_cons_False by lia. apply IH. unfold node_offset in *. lia.
Qed.

Lemma offsets_apart n i len :
  0 <= i -> let l := filter (fun o => o + 4 <= len) (node_offset <$> seqZ i (Z.of_nat n)) in
  Forall (fun o => node_offset i <= o) l /\ StronglySorted (fun a b => a + 4 <= b) l.
Proof.
  revert i. induction n as [|n IH]; intros i Hi; [by split; constructor|].
  rewrite seqZ_cons by lia. replace (Z.pred (Z.of_nat (S n))) with (Z.of_nat n) by lia. cbv zeta.
  destruct (IH (Z.succ i) ltac:(lia)) as [Hf Hs]. rewrite fmap_cons.
  assert (Hn : node_offset (Z.succ i) = node_offset i + 64) by (unfold node_offset; lia).
  rewrite filter_cons. case_decide.
  - split; [constructor; [lia|]|constructor; [done|]]; eapply Forall_impl; try exact Hf; cbv beta; lia.
  - split; [eapply Forall_impl; [exact Hf|]; cbv beta; lia|done].
Qed.

Lemma patch_store d o ip :
  0 <= o -> mem_get d o 4 = Some ip ->
  (if (load ip =? wifi) && negb (wifi =? 0) then mem_put d o virtual_field else Some d) = Some (patch d o).
Proof.
  intros Ho E. pose proof (mem_get_inv _ _ _ _ E) as (_ & _ & Hl & Eg).
  destruct (patch_run d o Ho Hl) as (ip' & E' & L & Ep). rewrite E in E'. injection E' as <-. unfold new_field in Ep.
  case_match; [done|]. rewrite <- Ep. symmetry.
  rewrite mem_put_Some by (try unfold zlen at 1; rewrite ?L; lia). rewrite L, Eg. f_equal.
  transitivity (take (Z.to_nat o) d ++ drop (Z.to_nat o) d); [|apply take_drop]. f_equal.
  transitivity (take (Z.to_nat 4) (drop (Z.to_nat o) d) ++ drop (Z.to_nat 4) (drop (Z.to_nat o) d));
    [by rewrite drop_drop|apply take_drop].
Qed.

Lemma rewrite_nodes_run n i d len :
  0 <= i -> len <= zlen d ->
  rewrite_nodes n i wifi my_ip true d (len - 12) =
    Some (foldl patch d (filter (fun o => o + 4 <= len) (node_offset <$> seqZ i (Z.of_nat n)))).
Proof.
  revert i d. induction n as [|n IH]; intros i d Hi Hl; [done|].
  rewrite seqZ_cons by lia. replace (Z.pred (Z.of_nat (S n))) with (Z.of_nat n) by lia. rewrite fmap_cons.
  cbn [rewrite_nodes]. change NI_NODES_OFFSET with 104. change NI_NODE_SIZE with 64. change LDN_HEADER_SIZE with 12.
  replace (12 + (104 + i * 64)) with (node_offset i) by (unfold node_offset; lia).
  destruct (Z.ltb_spec (len - 12) (104 + i * 64 + 4)).
  - rewrite filter_cons_False by (unfold node_offset; lia). rewrite offsets_end by (unfold node_offset; lia). done.
  - rewrite filter_cons_True by (unfold node_offset; lia). cbn [foldl].
    assert (Ho : 0 <= node_offset i) by (unfold node_offset; lia).
    destruct (patch_run d (node_offset i)) as (ip & Eg & _); [done|unfold node_offset; lia|].
    rewrite Eg. cbn [mbind option_bind andb]. fold virtual_field. rewrite (patch_store d _ ip Ho Eg).
    cbn [mbind option_bind]. apply IH; rewrite ?patch_zlen; lia.
Qed.

Lemma rewrite_nodes_incoming n i d len :
  0 <= i -> len <= zlen d -> rewrite_nodes n i wifi my_ip false d (len - 12) = Some d.
Proof.
  revert i. induction n as [|n IH]; intros i Hi Hl; [done|]. cbn [rewrite_nodes andb]. change LDN_HEADER_SIZE with 12.
  change NI_NODES_OFFSET with 104. change NI_NODE_SIZE with 64.
  destruct (Z.ltb_spec (len - 12) (104 + i * 64 + 4)); [done|]. rewrite mem_get_Some by lia. cbn [mbind option_bind].
  apply IH; lia.
Qed.

Lemma rewrite_run d len outgoing :
  is_bytes d -> len <= zlen d ->
  ldn_bridge_rewrite_ips wifi my_ip d len outgoing = Some (if outgoing then foldl patch d (address_fields d len) else d).
Proof.
  intros Hb Hl. unfold ldn_bridge_rewrite_ips, address_fields. change LDN_HEADER_SIZE with 12.
  destruct (Z.ltb_spec len 12); [rewrite decide_False by lia; by destruct outgoing|].
  destruct (READ_NET8_total d 4) as (t & Et & _); [done|lia..|].
  destruct (READ_NET8_total d 5) as (c & Ec & _); [done|lia..|].
  unfold hdr_magic, hdr_type, hdr_compressed. rewrite (mem_get_Some d 0 4) by lia. rewrite Et, Ec.
  cbn [mbind option_bind]. set (m := load _). destruct (Z.eqb_spec m LDN_MAGIC) as [->|Hm]; cbn [negb].
  2: { rewrite decide_False by naive_solver. by destruct outgoing. }
  destruct (Z.eqb_spec c 0) as [->|Hc]; cbn [negb].
  2: { rewrite decide_False by naive_solver. destruct outgoing; by case_match. }
  rewrite decide_True by done. change LDN_TYPE_SCAN_RESP with 1. change LDN_TYPE_CONNECT with 2.
  change LDN_TYPE_SYNC_NETWORK with 3. change (NI_NODES_OFFSET + NI_NODE_SIZE) with 168.
  change NI_NODECOUNT_OFFSET with 103. change (12 + 103) with 115. change NI_NODE_COUNT with 8. cbn [default from_option].
  cbv zeta. change (id t) with t. destruct (decide (t = 1 \/ t = 3)) as [Ht|Ht].
  - replace (negb (t =? 1) && negb (t =? 2) && negb (t =? 3)) with false by (by destruct Ht as [-> | ->]).
    replace ((t =? 1) || (t =? 3)) with true by (by destruct Ht as [-> | ->]).
    destruct (Z.ltb_spec (len - 12) 168); [rewrite decide_False by lia; by destruct outgoing|].
    rewrite decide_True by lia. rewrite (proj2 (Z.ltb_lt 103 _)) by lia.
    destruct (READ_NET8_total d 115) as (n & -> & [Bn _]); [done|lia..|]. cbn [mbind option_bind default from_option].
    destruct outgoing; [|by apply rewrite_nodes_incoming]. rewrite rewrite_nodes_run by lia. unfold node_offsets, id.
    do 5 f_equal. destruct (Z.ltb_spec 8 n); lia.
  - assert (t <> 1 /\ t <> 3) as [H1 H3] by naive_solver.
    rewrite (proj2 (Z.eqb_neq t 1)), (proj2 (Z.eqb_neq t 3)) by done. cbn [negb andb orb].
    destruct (Z.eqb_spec t 2) as [->|H2]; cbn [negb andb]; [|rewrite decide_False by naive_solver; by destruct outgoing].
    destruct (Z.ltb_spec (len - 12) 4); [rewrite decide_False by lia; by destruct outgoing|].
    rewrite decide_True by lia. destruct (mem_get_total d 12 4) as (ip & E & _); [done|lia..|].
    rewrite E. cbn [mbind option_bind]. destruct outgoing; [|done]. cbn [andb]. by apply patch_store.
Qed.
Lemma address_fields_apart d len :
  Forall (fun o => 0 <= o) (address_fields d len) /\ StronglySorted (fun a b => a + 4 <= b) (address_fields d len).
Proof.
  unfold address_fields. repeat case_decide; try (split; by repeat constructor).
  unfold node_offsets. set (c := default 0 _). destruct (decide (0 <= c)) as [Hc|Hc].
  - rewrite <- (Z2Nat.id (8 `min` c)) by lia.
    destruct (offsets_apart (Z.to_nat (8 `min` c)) 0 len (Z.le_refl 0)) as [Hf Hs]. split; [|done].
    eapply Forall_impl; [exact Hf|]. unfold node_offset. lia.
  - rewrite seqZ_nil by lia. split; constructor.
Qed.

Lemma patch_is_bytes d o : is_bytes d -> is_bytes (patch d o).
Proof.
  intros Hb. unfold patch. destruct (mem_get d o 4) as [ip|] eqn:E; [|done]. cbn [mbind option_bind].
  destruct (mem_put _ _ _) as [m|] eqn:Ep; [|done]. eapply mem_put_is_bytes; [exact Hb| |exact Ep].
  unfold new_field. case_match; [apply store_is_bytes|by eapply mem_get_is_bytes].
Qed.
Lemma patches_is_bytes l d : is_bytes d -> is_bytes (foldl patch d l).
Proof. revert d. induction l; intros d Hb; [done|]. by apply IHl, patch_is_bytes. Qed.
Lemma patches_zlen l d : zlen (foldl patch d l) = zlen d.
Proof. revert d. induction l; intros d; [done|]. cbn [foldl]. by rewrite IHl, patch_zlen. Qed.
End rewriting.

(** ** The packet *)

Section wrapping.
Context `{Env}.

(** The headers the bridge writes: version 4, no options, not to be fragmented, both
    checksums zero. *)
Definition ldn_header (src dst : bytes) (sport dport n : Z) : bytes :=
  [0x45; 0; (28 + n) / 256; (28 + n) mod 256; 0; 0; 0x40; 0; 64; 17; 0; 0] ++ src ++ dst ++ udp_hdr 0 sport dport (8 + n).

Lemma land_ff v : Z.land v 255 = v mod 256.
Proof. change 255 with (Z.ones 8). by rewrite Z.land_ones. Qed.
Lemma shiftr_8 v : Z.shiftr v 8 = v / 256.
Proof. by rewrite Z.shiftr_div_pow2. Qed.

(** An address kept in host order, as the bytes of a header. *)
Definition ip_of (ho : Z) : bytes := store 4 (htonl ho).

Lemma ip_of_is_ip ho : is_ip (ip_of ho).
Proof. split; [apply length_store|apply store_is_bytes]. Qed.
Lemma ip_of_ntohl ip : is_ip ip -> ip_of (ntohl (load ip)) = ip.
Proof.
  intros [Hl Hb]. unfold ip_of, htonl, ntohl. rewrite hton32_of, store_hton_of, hton32_of, <- Hl, hton_of_load by done.
  rewrite <- (length_reverse ip). rewrite le_bytes_val; [apply reverse_involutive|].
  unfold is_bytes. by rewrite Forall_reverse.
Qed.
Lemma ntohl_ip_of ho : is_u32 ho -> ntohl (load (ip_of ho)) = ho.
Proof.
  intros Hh. unfold ip_of, htonl, ntohl. rewrite load_store, !hton32_of.
  destruct (ip_of_is_ip ho) as [Hl Hb]. unfold ip_of, htonl in Hl, Hb. rewrite hton32_of in Hl, Hb.
  rewrite <- (load_store 4), <- Hl at 1. rewrite hton_of_load by done.
  rewrite store_hton_of, reverse_involutive, le_val_bytes. apply Z.mod_small. exact Hh.
Qed.

Lemma ip_udp_header_run out src dst sport dport n post :
  length out = 28%nat -> is_u16 sport -> is_u16 dport -> 0 <= n <= 0xffff - 28 ->
  ip_udp_header (out ++ post) (20 + 8 + n) src dst sport dport n = Some (ldn_header (ip_of src) (ip_of dst) sport dport n ++ post).
Proof.
  intros Lo Hs Hd Hn. unfold ip_udp_header, ldn_header. fold (ip_of src) (ip_of dst).
  destruct (ip_of_is_ip src) as [(s1 & s2 & s3 & s4 & ->)%length_4_inv _].
  destruct (ip_of_is_ip dst) as [(d1 & d2 & d3 & d4 & ->)%length_4_inv _].
  unfold udp_hdr, udp_fields. rewrite !u16_id by (done || unfold is_u16; lia). rewrite !land_ff, !shiftr_8.
  assert (B : forall v, is_u16 v -> v / 256 mod 256 = v / 256).
  { intros v Hv. apply Z.mod_small. unfold is_u16 in Hv. split; [apply Z.div_pos; lia|apply Z.div_lt_upper_bound; lia]. }
  rewrite !B by (done || unfold is_u16; lia). change (20 + 8 + n) with (28 + n).
  generalize ((28 + n) / 256) ((28 + n) mod 256) (sport / 256) (sport mod 256) (dport / 256) (dport mod 256)
    ((8 + n) / 256) ((8 + n) mod 256). intros t1 t2 p1 p2 q1 q2 u1 u2.
  do 28 (destruct out as [|? out]; [done|]). destruct out; [|done].
  repeat (etransitivity; [apply obind_Some; apply mem_put_front; cbv; reflexivity|]; cbv beta zeta).
  by apply mem_put_front.
Qed.

Definition ldn_packet (src dst : bytes) (sport dport : Z) (data : bytes) : bytes :=
  ldn_header src dst sport dport (zlen data) ++ data.

Lemma ldn_header_ok src dst sport dport n :
  is_ip src -> is_ip dst -> 0 <= n <= 0xffff - 28 ->
  zlen (ldn_header src dst sport dport n) = 28 /\ is_bytes (ldn_header src dst sport dport n).
Proof.
  intros [Ls Bs] [Ld Bd] Hn. unfold ldn_header. destruct (udp_hdr_ok 0 sport dport (8 + n)) as [Zu Bu]; [done|]. split.
  - rewrite !zlen_app, Zu. unfold zlen. by rewrite Ls, Ld.
  - apply Forall_app_2; [|apply Forall_app_2; [done|by apply Forall_app_2]].
    change [69; 0; (28 + n) / 256; (28 + n) mod 256; 0; 0; 64; 0; 64; 17; 0; 0]
      with ([69; 0] ++ [(28 + n) / 256; (28 + n) mod 256] ++ [0; 0; 64; 0; 64; 17; 0; 0]).
    repeat apply Forall_app_2; [bytes_tac|apply hi_lo_bytes; unfold is_u16; lia|bytes_tac].
Qed.

Lemma build_run out src dst sport dport data stale :
  zlen out = 2076 -> is_u16 sport -> is_u16 dport -> zlen data <= 2048 ->
  build_ip_udp out 2076 src dst sport dport (data ++ stale) (zlen data) =
    Some (28 + zlen data,
          ldn_packet (ip_of src) (ip_of dst) sport dport data ++ drop (Z.to_nat (28 + zlen data)) out).
Proof.
  intros Lo Hs Hd Hn. pose proof (zlen_nonneg data). unfold build_ip_udp.
  destruct (Z.ltb_spec 2076 (20 + 8 + zlen data)); [lia|].
  rewrite <- (take_drop 28 out) at 1.
  rewrite ip_udp_header_run; [|rewrite length_take; unfold zlen in Lo; lia|done|done|lia]. cbn [mbind option_bind].
  destruct (ldn_header_ok (ip_of src) (ip_of dst) sport dport (zlen data)) as [Zh _];
    [apply ip_of_is_ip..|lia|].
  unfold memcpy. rewrite mem_get_Some by zlia. cbn [mbind option_bind]. rewrite drop_0, to_nat_zlen, take_app_length.
  assert (Ld : zlen (drop 28 out) = 2048) by (unfold zlen in *; rewrite length_drop; lia).
  rewrite mem_put_Some by (rewrite ?zlen_app, ?Zh, ?Ld; lia). cbn [mbind option_bind]. do 2 f_equal.
  unfold ldn_packet. rewrite <- app_assoc.
  assert (Lh : length (ldn_header (ip_of src) (ip_of dst) sport dport (zlen data)) = 28%nat) by (apply Nat2Z.inj; exact Zh).
  rewrite take_app_length' by done. f_equal. f_equal. rewrite drop_app_ge by lia. rewrite Lh, drop_drop.
  f_equal. unfold zlen. lia.
Qed.

(** The packet at the other end, in any frame. *)
Lemma ldn_frame_udp mac src_mac src dst sport dport data pad :
  length mac = 6%nat -> length src_mac = 6%nat -> is_ip src -> is_ip dst -> is_u16 sport -> is_u16 dport ->
  is_bytes data -> is_bytes pad -> data <> [] -> zlen data <= 2048 ->
  exists u, frame_udp (eth_hdr mac src_mac ETHER_TYPE_IPV4 ++ ldn_packet src dst sport dport data ++ pad) = Some u /\
    udp_srcport u = sport /\ udp_dstport u = dport /\ ip_src (udp_ipv4 u) = src /\ ip_dst (udp_ipv4 u) = dst /\
    udp_data u = data.
Proof.
  intros Hm Hsm Hs Hd Hsp Hdp Bd Bp Hne Hn. pose proof (zlen_nonneg data). pose proof (zlen_nonneg pad). unfold frame_udp.
  assert (0 < zlen data) by (destruct data; [done|]; zlia).
  rewrite (parse_ether_roundtrip mac src_mac ETHER_TYPE_IPV4); [|done|done|unfold is_u16; consts; lia|
    by apply ether_header_eq]. cbn [mbind option_bind ef_type]. rewrite Z.eqb_refl.
  set (e := {| ef_raw := _ |}). destruct (ldn_header_ok src dst sport dport (zlen data)) as [Zh Bh]; [done|done|lia|].
  assert (Ee : ef_payload e = ldn_header src dst sport dport (zlen data) ++ data ++ pad) by (symmetry; apply app_assoc).
  clearbody e.
  assert (Be : is_bytes (ef_payload e)) by (rewrite Ee; apply Forall_app_2; [done|by apply Forall_app_2]).
  assert (Le : zlen (ef_payload e) = 28 + zlen data + zlen pad) by (rewrite Ee, !zlen_app, Zh; lia).
  destruct (parse_ipv4_fields e Be) as (b & prot & ip & Ep & E0 & E9 & Es & Ed & Bb & Ev & Eh & Epr & Epl & _); [lia|].
  rewrite !READ_NET8_eq in E0, E9. rewrite !mem_get_Some in E0, E9, Es, Ed by lia.
  assert (b = 69 /\ prot = 17 /\ src = ip_src ip /\ dst = ip_dst ip /\
    drop 20 (ef_payload e) = udp_hdr 0 sport dport (8 + zlen data) ++ data ++ pad) as (-> & -> & Es' & Ed' & E20).
  { clear Zh Bh. destruct Hs as [(s1 & s2 & s3 & s4 & ->)%length_4_inv _].
    destruct Hd as [(d1 & d2 & d3 & d4 & ->)%length_4_inv _]. rewrite Ee in *.
    injection E0 as <-. injection E9 as <-. injection Es as <-. injection Ed as <-. by split_and!. }
  rewrite Ep. cbn [mbind option_bind]. rewrite Ev, Epr, !Z.eqb_refl. cbn [andb].
  rewrite (parse_udp_hdr ip 0 sport dport (8 + zlen data) (data ++ pad));
    [|done|done|done|unfold is_u16; lia|by rewrite Epl]. cbn [mbind option_bind udp_length].
  assert (Ez : zlen (ip_payload ip) = 8 + zlen data + zlen pad).
  { rewrite Epl. change (Z.to_nat (Z.land 69 15 * 4)) with 20%nat. rewrite E20, !zlen_app.
    change (zlen (udp_hdr _ _ _ _)) with 8. lia. }
  rewrite Ez, (proj2 (Z.ltb_lt _ _)), (proj2 (Z.leb_le _ _)) by lia. cbn [andb].
  eexists. split; [reflexivity|]. split_and!; try done. unfold udp_data. cbn [udp_length udp_payload].
  replace (8 + zlen data - 8) with (zlen data) by lia. by rewrite to_nat_zlen, take_app_length.
Qed.
End wrapping.

(** ** The tunnel *)

Lemma mem_get_front (a rest : bytes) o n : o + n <= zlen a -> mem_get (a ++ rest) o n = mem_get a o n.
Proof.
  intros Hl. unfold mem_get. pose proof (zlen_nonneg rest). rewrite zlen_app.
  destruct (Z.leb_spec 0 o), (Z.leb_spec 0 n); try done. cbn [andb].
  rewrite (proj2 (Z.leb_le _ _)), (proj2 (Z.leb_le _ _)) by lia. f_equal. unfold zlen in *.
  rewrite drop_app_le by lia. apply take_app_le. rewrite length_drop. lia.
Qed.

Section rewriting_buffer.
Context `{Host} (wifi : Z) (my_ip : bytes).

Lemma patch_app d rest o : 0 <= o -> o + 4 <= zlen d -> patch wifi my_ip (d ++ rest) o = patch wifi my_ip d o ++ rest.
Proof.
  intros Ho Hl. destruct (patch_run wifi my_ip d o Ho Hl) as (ip & Eg & _ & Ep). unfold patch at 1.
  rewrite mem_get_front, Eg by done. cbn [mbind option_bind]. by rewrite (mem_put_front _ rest _ _ _ Ep).
Qed.

Lemma patches_app l d rest :
  Forall (fun o => 0 <= o /\ o + 4 <= zlen d) l ->
  foldl (patch wifi my_ip) (d ++ rest) l = foldl (patch wifi my_ip) d l ++ rest.
Proof.
  revert d. induction l as [|o l IH]; intros d Hl; [done|]. apply Forall_cons in Hl as [[Ho Hd] Hl]. cbn [foldl].
  rewrite patch_app by done. apply IH. eapply Forall_impl; [exact Hl|]. intros x. by rewrite patch_zlen.
Qed.

Lemma READ_NET8_front d rest o : o + 1 <= zlen d -> READ_NET8 (d ++ rest) o = READ_NET8 d o.
Proof. intros Ho. unfold READ_NET8. by rewrite mem_get_front. Qed.

Lemma address_fields_app d rest : address_fields (d ++ rest) (zlen d) = address_fields d (zlen d).
Proof.
  unfold address_fields. destruct (decide (12 <= zlen d)) as [Hl|Hl].
  - unfold hdr_magic, hdr_compressed, hdr_type. rewrite mem_get_front by lia. rewrite !READ_NET8_front by lia.
    case_decide; [|done]. case_decide; [|done]. case_decide; [|done]. by rewrite READ_NET8_front by lia.
  - by rewrite !decide_False by naive_solver.
Qed.

Lemma address_fields_within d : Forall (fun o => 0 <= o /\ o + 4 <= zlen d) (address_fields d (zlen d)).
Proof.
  destruct (address_fields_apart d (zlen d)) as [Hp _].
  assert (Forall (fun o => o + 4 <= zlen d) (address_fields d (zlen d))) as Hw.
  { unfold address_fields. repeat case_decide; repeat constructor; [|lia].
    apply Forall_forall. intros o Ho. by apply list_elem_of_filter in Ho as [? _]. }
  rewrite Forall_forall in Hp, Hw |- *. intros o Ho. split; [by apply Hp|by apply Hw].
Qed.

(** A packet of [ldn_mitm] as it leaves the console. *)
Definition rewritten (p : bytes) : bytes := foldl (patch wifi my_ip) p (address_fields p (zlen p)).

Lemma rewrite_buffer p stale :
  is_bytes p -> is_bytes stale ->
  ldn_bridge_rewrite_ips wifi my_ip (p ++ stale) (zlen p) true = Some (rewritten p ++ stale).
Proof.
  intros Hp Hs. rewrite rewrite_run by (by apply Forall_app_2 || zlia). f_equal.
  rewrite address_fields_app. apply patches_app, address_fields_within.
Qed.
Lemma rewritten_ok p : is_bytes p -> is_bytes (rewritten p) /\ zlen (rewritten p) = zlen p.
Proof. intros Hp. split; [by apply patches_is_bytes|apply patches_zlen]. Qed.
End rewriting_buffer.

Section tunnel.
Context `{NxSys} `{BridgeSys}.

Lemma wrap_run my_ip dst sport p stale ip_pkt b w :
  is_ip my_ip -> is_u16 sport -> is_bytes p -> is_bytes stale -> 0 < zlen p <= 2048 -> zlen ip_pkt = 2076 ->
  let data := rewritten (br_wifi_ip b) my_ip p in
  let pkt := ldn_packet my_ip (ip_of dst) sport LDN_GAME_PORT data in
  let rest := drop (Z.to_nat (zlen pkt)) ip_pkt in
  wrap_and_send my_ip dst sport (p ++ stale) (zlen p) ip_pkt (b, w) =
    match console_send_ipv4 (ip_of dst) (pkt ++ rest) (zlen pkt) w with
    | Ok _ w' => Ok (zlen pkt, pkt ++ rest) (b, w')
    | Stop e => Stop e
    end.
Proof.
  intros Hm Hs Hp Hst Hl Hk data pkt rest. unfold wrap_and_send.
  destruct (rewritten_ok (br_wifi_ip b) my_ip p Hp) as [Bd Zd]. fold data in Bd, Zd.
  assert (Zp : zlen pkt = 28 + zlen p).
  { unfold pkt, ldn_packet. rewrite zlen_app, Zd. f_equal. apply ldn_header_ok; [done|apply ip_of_is_ip|lia]. }
  rewrite (bind_ok _ _ _ _ _ (eq_refl : on_bridge (gets br_wifi_ip) (b, w) = Ok (br_wifi_ip b) (b, w))).
  rewrite rewrite_buffer by done. fold data. rewrite (bind_ok _ _ _ (data ++ stale) (b, w)) by done.
  cbv zeta. rewrite <- Zd. rewrite build_run by (done || lia). fold (ip_of (ntohl (load my_ip))).
  rewrite ip_of_ntohl by done. fold pkt. rewrite Zd, <- Zp. fold rest.
  rewrite (bind_ok _ _ _ (zlen pkt, pkt ++ rest) (b, w)) by done. cbv beta iota zeta.
  rewrite (proj2 (Z.ltb_lt 0 (zlen pkt))) by lia.
  assert (E16 : mem_get (pkt ++ rest) 16 4 = Some (ip_of dst)).
  { rewrite mem_get_front by lia. unfold pkt, ldn_packet. rewrite mem_get_front.
    2: { rewrite (proj1 (ldn_header_ok my_ip (ip_of dst) sport LDN_GAME_PORT (zlen data) Hm (ip_of_is_ip dst) ltac:(lia))). lia. }
    unfold ldn_header. destruct Hm as [(m1 & m2 & m3 & m4 & ->)%length_4_inv _].
    destruct (ip_of_is_ip dst) as [(d1 & d2 & d3 & d4 & ->)%length_4_inv _]. done. }
  rewrite E16, u16_id by (unfold is_u16; lia). unfold mem, bind, ret, on_client. cbn [snd fst].
  by destruct (console_send_ipv4 _ _ _ w).
Qed.
End tunnel.

(** What the other console's interface does with the packet. *)
Section tunnel_end.
Context `{NxTapSys}.

Definition tunnel_frame (mac src_mac : bytes) (pkt pad : bytes) : bytes :=
  eth_hdr mac src_mac ETHER_TYPE_IPV4 ++ pkt ++ pad.

Lemma tunnel_end_run fd mac src_mac src dst sport data pad w :
  is_mac mac -> is_mac src_mac -> is_ip src -> is_ip dst -> is_u16 sport -> is_bytes data -> is_bytes pad ->
  4 <= zlen data <= 2048 ->
  let frame := tunnel_frame mac src_mac (ldn_packet src dst sport LDN_GAME_PORT data) pad in
  nx_tap_send_packet fd frame (zlen frame) w =
    if sport =? LDN_BRIDGE_PORT then Ok 0 (emit (EvLdnTcp (ntohl (load src)) data) w)
    else if 12 <=? zlen data then
      (let* r := ldn_bridge_inject data sport in
       if r =? 0 then ret 0 else inject_udp fd LDN_GAME_PORT dst data) w
    else inject_udp fd LDN_GAME_PORT dst data w.
Proof.
  intros [Lm Bm] [Ls Bs] Hs Hd Hsp Bd Bp Hl frame.
  destruct (ldn_header_ok src dst sport LDN_GAME_PORT (zlen data) Hs Hd) as [Zh Bh]; [lia|].
  assert (Bf : is_bytes frame /\ 14 < zlen frame).
  { unfold frame, tunnel_frame, ldn_packet. rewrite <- app_assoc. split.
    - apply Forall_app_2; [by apply eth_hdr_is_bytes|]. apply Forall_app_2; [done|]. by apply Forall_app_2.
    - rewrite !zlen_app, zlen_eth_hdr, Zh by done. zlen_facts. lia. }
  rewrite tap_send_run by apply Bf.
  destruct (ldn_frame_udp mac src_mac src dst sport LDN_GAME_PORT data pad)
    as (u & Eu & Esp & Edp & Esrc & Edst & Edata);
    [done|done|done|done|done|unfold is_u16, LDN_GAME_PORT; lia|done|done|intros E; rewrite E, zlen_nil in Hl; lia|lia|].
  unfold frame, tunnel_frame. rewrite Eu. unfold tap_deliver. rewrite Esp, Edp, Esrc, Edst, Edata, Z.eqb_refl.
  rewrite (proj2 (Z.leb_le 4 _)) by lia. cbn [andb]. by case_match; [|case_match].
Qed.
End tunnel_end.

(** ** The lobby cache *)

Section cache.
Context `{Host} `{BridgeSys}.

Record lobby_ok (c : cached_lobby) : Prop := {
  lo_size : zlen (cl_data c) = 2048;
  lo_bytes : is_bytes (cl_data c);
  lo_len : 0 <= cl_data_len c <= 2048;
  lo_time : cl_valid c = true -> 0 < cl_timestamp c;
}.
Definition cache_ok (b : bridge) : Prop := length (br_cache b) = 16%nat /\ Forall lobby_ok (br_cache b).

(** The announcement in a slot. *)
Definition lobby_data (c : cached_lobby) : bytes := take (Z.to_nat (cl_data_len c)) (cl_data c).

(** Both packets hold a network identifier, and it is the same. *)
Definition same_lobby (p q : bytes) : Prop :=
  44 <= zlen p /\ 44 <= zlen q /\ take 32 (drop 12 p) = take 32 (drop 12 q).
#[global] Instance same_lobby_dec p q : Decision (same_lobby p q).
Proof. unfold same_lobby. apply _. Defined.

(** The search after the slots [pre]: none of them is for this lobby; the first free one;
    the oldest one. *)
Record scan_inv (payload : bytes) (pre : list cached_lobby) (slot oldest tick : Z) : Prop := {
  sc_other c : c ∈ pre -> cl_valid c = true -> ~ same_lobby payload (lobby_data c);
  sc_free : (slot = -1 /\ forall c, c ∈ pre -> cl_valid c = true) \/
    (0 <= slot /\ exists c, pre !! Z.to_nat slot = Some c /\ cl_valid c = false /\
     forall j c', (j < Z.to_nat slot)%nat -> pre !! j = Some c' -> cl_valid c' = true);
  sc_oldest : (tick = 0 /\ oldest = 0 /\ forall c, c ∈ pre -> cl_valid c = false) \/
    (0 < tick /\ 0 <= oldest /\ exists c, pre !! Z.to_nat oldest = Some c /\ cl_valid c = true /\ cl_timestamp c = tick /\
     forall c', c' ∈ pre -> cl_valid c' = true -> tick <= cl_timestamp c');
}.

Lemma lobby_data_len c : lobby_ok c -> zlen (lobby_data c) = cl_data_len c.
Proof. intros [Hs _ Hl _]. unfold lobby_data. apply zlen_take. lia. Qed.

(** The comparison of identifiers. *)
Lemma same_run payload c :
  lobby_ok c ->
  (if (12 + 32 <=? zlen payload) && (12 + 32 <=? cl_data_len c) then
     a ← mem_get (cl_data c) 12 32; b ← mem_get payload 12 32; Some (bool_decide (a = b))
   else Some false) = Some (bool_decide (same_lobby payload (lobby_data c))).
Proof.
  intros Hc. pose proof Hc as [Hs _ Hl _]. pose proof (lobby_data_len c Hc) as Ez.
  destruct (Z.leb_spec (12 + 32) (zlen payload)), (Z.leb_spec (12 + 32) (cl_data_len c)); cbn [andb];
    try (rewrite bool_decide_false by (unfold same_lobby; lia); done).
  rewrite !mem_get_Some by lia. cbn [mbind option_bind]. f_equal. apply bool_decide_ext. unfold same_lobby.
  assert (take 32 (drop 12 (lobby_data c)) = take (Z.to_nat 32) (drop (Z.to_nat 12) (cl_data c))) as ->; [|naive_solver lia].
  unfold lobby_data. rewrite skipn_firstn_comm, take_take. f_equal. lia.
Qed.

Lemma scan_inv_skip payload pre slot oldest tick c :
  cl_valid c = false -> scan_inv payload pre slot oldest tick ->
  scan_inv payload (pre ++ [c]) (if slot <? 0 then zlen pre else slot) oldest tick.
Proof.
  intros Hv [Ho Hf Hd]. constructor.
  - intros c' [Hc| ->%list_elem_of_singleton]%elem_of_app; [by apply Ho|congruence].
  - right. destruct Hf as [[-> Hf]|(Hs & c1 & Hc1 & Hv1 & Hj)].
    + cbn [Z.ltb Z.compare]. rewrite to_nat_zlen. split; [zlia|]. exists c. rewrite list_lookup_middle by done.
      split_and!; [done..|]. intros j c' Hj Hc'. rewrite lookup_app_l in Hc' by done. by eapply Hf, list_elem_of_lookup_2.
    + rewrite (proj2 (Z.ltb_ge slot 0)) by done. split; [done|]. exists c1.
      assert (Z.to_nat slot < length pre)%nat by (by eapply lookup_lt_Some).
      rewrite lookup_app_l by done. split_and!; [done..|]. intros j c' Hj' Hc'. rewrite lookup_app_l in Hc' by lia. by eapply Hj.
  - destruct Hd as [(-> & -> & Hd)|(Hp & Hs & c1 & Hc1 & Hv1 & Ht & Hmin)].
    + left. split_and!; [done..|]. intros c' [Hc| ->%list_elem_of_singleton]%elem_of_app; [by apply Hd|done].
    + right. split; [done|]. split; [done|]. exists c1. assert (Z.to_nat oldest < length pre)%nat by (by eapply lookup_lt_Some).
      rewrite lookup_app_l by done. split_and!; [done..|].
      intros c' [Hc| ->%list_elem_of_singleton]%elem_of_app Hv'; [by apply Hmin|congruence].
Qed.

Lemma scan_inv_valid payload pre slot oldest tick c :
  cl_valid c = true -> ~ same_lobby payload (lobby_data c) -> scan_inv payload pre slot oldest tick ->
  0 < cl_timestamp c ->
  if (tick =? 0) || (cl_timestamp c <? tick)
  then scan_inv payload (pre ++ [c]) slot (zlen pre) (cl_timestamp c)
  else scan_inv payload (pre ++ [c]) slot oldest tick.
Proof.
  intros Hv Hn [Ho Hf Hd] Ht0.
  assert (Ho' : forall c', c' ∈ pre ++ [c] -> cl_valid c' = true -> ~ same_lobby payload (lobby_data c'))
    by (intros c' [Hc| ->%list_elem_of_singleton]%elem_of_app; [by apply Ho|done]).
  assert (Hf' : (slot = -1 /\ forall c', c' ∈ pre ++ [c] -> cl_valid c' = true) \/
    (0 <= slot /\ exists c', (pre ++ [c]) !! Z.to_nat slot = Some c' /\ cl_valid c' = false /\
     forall j c', (j < Z.to_nat slot)%nat -> (pre ++ [c]) !! j = Some c' -> cl_valid c' = true)).
  { destruct Hf as [[-> Hf]|(Hs & c1 & Hc1 & Hv1 & Hj)]; [left|right].
    - split; [done|]. intros c' [Hc| ->%list_elem_of_singleton]%elem_of_app; [by apply Hf|done].
    - assert (Z.to_nat slot < length pre)%nat by (by eapply lookup_lt_Some). split; [done|]. exists c1.
      rewrite lookup_app_l by done. split_and!; [done..|]. intros j c' Hj' Hc'. rewrite lookup_app_l in Hc' by lia.
      by eapply Hj. }
  destruct (Z.eqb_spec tick 0) as [->|Ht]; [|destruct (Z.ltb_spec (cl_timestamp c) tick) as [Hlt|Hge]]; cbn [orb];
    (constructor; [exact Ho'|exact Hf'|right]).
  - split; [done|]. split; [zlia|]. exists c. rewrite to_nat_zlen, list_lookup_middle by done. split_and!; [done..|].
    destruct Hd as [(_ & _ & Hd)|(? & _)]; [|lia].
    intros c' [Hc| ->%list_elem_of_singleton]%elem_of_app Hv'; [|lia]. rewrite (Hd c' Hc) in Hv'. done.
  - destruct Hd as [(-> & _)|(Hp & _ & c1 & _ & _ & _ & Hmin)]; [done|].
    split; [done|]. split; [zlia|]. exists c. rewrite to_nat_zlen, list_lookup_middle by done. split_and!; [done..|].
    intros c' [Hc| ->%list_elem_of_singleton]%elem_of_app Hv'; [|lia]. specialize (Hmin c' Hc Hv'). lia.
  - destruct Hd as [(-> & _)|(Hp & Hs & c1 & Hc1 & Hv1 & E1 & Hmin)]; [done|]. split; [done|]. split; [done|].
    exists c1. assert (Z.to_nat oldest < length pre)%nat by (by eapply lookup_lt_Some). rewrite lookup_app_l by done.
    split_and!; [done..|]. intros c' [Hc| ->%list_elem_of_singleton]%elem_of_app Hv'; [by apply Hmin|done].
Qed.

Lemma lobby_scan_run payload cache pre slot oldest tick :
  Forall lobby_ok cache -> scan_inv payload pre slot oldest tick ->
  exists s o, lobby_scan cache (zlen pre) payload (zlen payload) slot oldest tick = Some (s, o) /\
    ((exists k c, cache !! k = Some c /\ cl_valid c = true /\ same_lobby payload (lobby_data c) /\ s = zlen pre + Z.of_nat k) \/
     exists t, scan_inv payload (pre ++ cache) s o t).
Proof.
  revert pre slot oldest tick. induction cache as [|c cache IH]; intros pre slot oldest tick Hc Hi.
  { do 2 eexists. split; [done|]. right. exists tick. by rewrite app_nil_r. }
  apply Forall_cons in Hc as [Hc Hcs].
  assert (Hz : zlen pre + 1 = zlen (pre ++ [c])) by (rewrite zlen_app; done).
  assert (Hstep : forall slot oldest tick, scan_inv payload (pre ++ [c]) slot oldest tick ->
    exists s o, lobby_scan cache (zlen pre + 1) payload (zlen payload) slot oldest tick = Some (s, o) /\
    ((exists k c', (c :: cache) !! k = Some c' /\ cl_valid c' = true /\ same_lobby payload (lobby_data c') /\
      s = zlen pre + Z.of_nat k) \/ exists t, scan_inv payload (pre ++ c :: cache) s o t)).
  { intros slot' oldest' tick' Hi'. rewrite Hz.
    destruct (IH _ _ _ _ Hcs Hi') as (s & o & -> & [(k & c' & Ek & Hv & Hs & ->)|[t Ht]]); do 2 eexists; (split; [done|]).
    - left. exists (S k), c'. split_and!; [done..|]. rewrite <- Hz. lia.
    - right. exists t. by rewrite <- app_assoc in Ht. }
  cbn [lobby_scan]. destruct (cl_valid c) eqn:Hv; cbn [negb]; [|by apply Hstep, scan_inv_skip].
  change LDN_HEADER_SIZE with 12. rewrite same_run by done. cbn [mbind option_bind]. case_bool_decide as Hs.
  - do 2 eexists. split; [done|]. left. exists 0%nat, c. split_and!; [done..|]. lia.
  - pose proof (scan_inv_valid payload pre slot oldest tick c Hv Hs Hi (lo_time _ Hc Hv)) as Hn.
    destruct ((tick =? 0) || (cl_timestamp c <? tick)); by apply Hstep.
Qed.

(** The slot an announcement is stored in: that of the same lobby; else the first free one;
    else the oldest. *)
Definition lobby_slot (payload : bytes) (cache : list cached_lobby) (i : nat) : Prop :=
  (exists c, cache !! i = Some c /\ cl_valid c = true /\ same_lobby payload (lobby_data c)) \/
  ((forall c, c ∈ cache -> cl_valid c = true -> ~ same_lobby payload (lobby_data c)) /\
   ((exists c, cache !! i = Some c /\ cl_valid c = false /\
      forall j c', (j < i)%nat -> cache !! j = Some c' -> cl_valid c' = true) \/
    ((forall c, c ∈ cache -> cl_valid c = true) /\
     exists c, cache !! i = Some c /\ forall c', c' ∈ cache -> cl_timestamp c <= cl_timestamp c'))).

(** A slot after an announcement was stored in it. *)
Definition stored (payload : bytes) (now : Z) (c : cached_lobby) : cached_lobby :=
  {| cl_valid := true; cl_data := payload ++ drop (length payload) (cl_data c); cl_data_len := zlen payload;
     cl_timestamp := now |}.

Lemma stored_data payload now c : lobby_data (stored payload now c) = payload.
Proof. unfold lobby_data. cbn. by rewrite to_nat_zlen, take_app_length. Qed.
Lemma stored_ok payload now c :
  lobby_ok c -> is_bytes payload -> zlen payload <= 2048 -> 0 < now -> lobby_ok (stored payload now c).
Proof.
  intros [Hs Hb Hl _] Hp Hz Hn. constructor; cbn.
  - unfold zlen in *. rewrite length_app, length_drop. lia.
  - apply Forall_app_2; [done|by apply Forall_drop].
  - zlia.
  - done.
Qed.

(** An announcement: what is stored. *)
Definition announces (payload : bytes) : Prop :=
  12 <= zlen payload <= 2048 /\ hdr_magic payload = Some LDN_MAGIC /\ hdr_type payload = Some LDN_TYPE_SCAN_RESP.
#[global] Instance announces_dec payload : Decision (announces payload).
Proof. unfold announces. apply _. Defined.

Lemma scan_inv_nil payload : scan_inv payload [] (-1) 0 0.
Proof. constructor; [by intros c ?%not_elem_of_nil|left|left]; split_and!; try done; by intros c ?%not_elem_of_nil. Qed.

Lemma scan_inv_slot payload cache s o t :
  cache <> [] -> scan_inv payload cache s o t ->
  let slot := if s <? 0 then o else s in 0 <= slot /\ lobby_slot payload cache (Z.to_nat slot).
Proof.
  intros Hne [Ho Hf Hd]. cbv zeta. destruct Hf as [[-> Hv]|(Hs & c & Hc & Hv & Hj)].
  - cbn [Z.ltb Z.compare]. destruct Hd as [(_ & _ & Hd)|(_ & Hs & c & Hc & _ & <- & Hmin)].
    + destruct cache as [|c cache]; [done|]. assert (c ∈ c :: cache) as Hin by left.
      pose proof (Hv c Hin). by rewrite (Hd c Hin) in *.
    + split; [done|]. right. split; [done|]. right. split; [done|]. exists c. split; [done|]. intros c' Hc'.
      by apply Hmin, Hv.
  - rewrite (proj2 (Z.ltb_ge s 0)) by done. split; [done|]. right. split; [done|]. left. by exists c.
Qed.

Lemma memcpy_front payload (d : bytes) :
  zlen payload <= zlen d -> memcpy d 0 payload 0 (zlen payload) = Some (payload ++ drop (length payload) d).
Proof.
  intros Hl. unfold memcpy. pose proof (zlen_nonneg payload). rewrite mem_get_Some by lia. cbn [mbind option_bind].
  rewrite drop_0, take_ge by (unfold zlen; lia). by rewrite mem_put_Some by lia.
Qed.

Definition cache_set (i : nat) (c : cached_lobby) (k : nat) (b : bridge) : bridge :=
  set_br_cache (<[i := c]> (br_cache b)) (set_br_ticks k b).

Lemma store_run payload b :
  cache_ok b -> br_cache_ready b = true -> sys_stat (br_ticks b) <> 0 -> is_bytes payload -> announces payload ->
  exists i c, br_cache b !! i = Some c /\ lobby_slot payload (br_cache b) i /\
    lobby_cache_store_if_scanresp payload (zlen payload) b =
      Ok tt (cache_set i (stored payload (sys_tick (S (br_ticks b))) c) (S (S (br_ticks b))) b).
Proof.
  intros [Hlen Hok] Hr Hst Hb ([Hl1 Hl2] & Hm & Ht). unfold lobby_cache_store_if_scanresp, lobby_cache_enabled.
  unfold bind at 1, gets at 1. rewrite Hr. unfold bind at 1, bind at 1, ask at 1. cbn [ret].
  unfold ret at 1. rewrite (proj2 (Z.eqb_neq _ 0) Hst). cbn [negb]. change LDN_HEADER_SIZE with 12.
  rewrite (proj2 (Z.ltb_ge _ 12)) by lia. rewrite Hm, Ht. cbn [mem]. unfold bind at 1, ret at 1.
  unfold bind at 1, ret at 1. rewrite !Z.eqb_refl. cbn [negb orb]. rewrite (proj2 (Z.ltb_ge 2048 _)) by lia.
  unfold bind at 1, gets at 1. cbn [br_cache set_br_ticks].
  destruct (lobby_scan_run payload (br_cache b) [] (-1) 0 0 Hok (scan_inv_nil payload)) as (s & o & E & Hres).
  change (zlen []) with 0 in E, Hres. cbn [app] in Hres. rewrite E. unfold mem at 1. unfold bind at 1, ret at 1.
  assert (Hslot : let slot := if s <? 0 then o else s in 0 <= slot /\ lobby_slot payload (br_cache b) (Z.to_nat slot)).
  { destruct Hres as [(k & c & Ek & Hv & Hs & ->)|[t Hi]].
    - rewrite (proj2 (Z.ltb_ge _ 0)) by lia. split; [lia|]. left. exists c. by replace (Z.to_nat (0 + Z.of_nat k)) with k by lia.
    - eapply scan_inv_slot; [|exact Hi]. intros En. by rewrite En in Hlen. }
  cbv zeta in Hslot |- *. set (slot := if s <? 0 then o else s) in *. destruct Hslot as [Hs0 Hslot].
  rewrite (proj2 (Z.ltb_ge slot 0)) by done.
  assert (exists c, br_cache b !! Z.to_nat slot = Some c) as [c Ec].
  { destruct Hslot as [(c & ? & _)|(_ & [(c & ? & _)|(_ & c & ? & _)])]; by exists c. }
  exists (Z.to_nat slot), c. split; [done|]. split; [done|]. rewrite Ec. unfold mem at 1. unfold bind at 1, ret at 1.
  assert (Hc : lobby_ok c) by (by eapply Forall_lookup_1). rewrite memcpy_front by (rewrite (lo_size _ Hc); lia).
  reflexivity.
Qed.

(** Anything else only costs the look at the file. *)
Lemma store_skip payload b :
  is_bytes payload ->
  ~ (br_cache_ready b = true /\ sys_stat (br_ticks b) <> 0 /\ announces payload) ->
  exists k, lobby_cache_store_if_scanresp payload (zlen payload) b = Ok tt (set_br_ticks k b).
Proof.
  intros Hb Hn. unfold lobby_cache_store_if_scanresp, lobby_cache_enabled. unfold bind at 1, gets at 1.
  destruct (br_cache_ready b) eqn:Hr.
  2: { exists (br_ticks b). by destruct b. }
  unfold bind at 1, bind at 1, ask at 1. unfold ret at 1. exists (S (br_ticks b)).
  destruct (Z.eqb_spec (sys_stat (br_ticks b)) 0) as [|Hst]; [done|]. cbn [negb]. change LDN_HEADER_SIZE with 12.
  destruct (Z.ltb_spec (zlen payload) 12); [done|].
  destruct (hdr_magic payload) as [m|] eqn:Em; [|unfold hdr_magic in Em; by rewrite mem_get_Some in Em by lia].
  destruct (READ_NET8_total payload 4) as (t & Et & _); [done|lia..|]. change (READ_NET8 payload 4) with (hdr_type payload) in Et.
  rewrite Et. cbn [mem]. unfold bind at 1, ret at 1. unfold bind at 1, ret at 1.
  destruct (Z.eqb_spec m LDN_MAGIC) as [->|]; [|done]. destruct (Z.eqb_spec t LDN_TYPE_SCAN_RESP) as [->|]; [|done].
  cbn [negb orb]. destruct (Z.ltb_spec 2048 (zlen payload)); [done|]. exfalso. apply Hn. by split_and!.
Qed.

(** No lobby is in the cache twice. *)
Definition distinct_lobbies (cache : list cached_lobby) : Prop :=
  forall i j ci cj, cache !! i = Some ci -> cache !! j = Some cj -> cl_valid ci = true -> cl_valid cj = true ->
  same_lobby (lobby_data ci) (lobby_data cj) -> i = j.

Lemma distinct_insert payload cache i now c :
  distinct_lobbies cache -> cache !! i = Some c -> lobby_slot payload cache i ->
  distinct_lobbies (<[i := stored payload now c]> cache).
Proof.
  intros Hd Hc Hslot.
  assert (Hone : forall j cj, j <> i -> cache !! j = Some cj -> cl_valid cj = true -> ~ same_lobby payload (lobby_data cj)).
  { intros j cj Hj Hcj Hv Hs. destruct Hslot as [(ci & Hci & Hvi & Hsi)|[Ho _]].
    - apply Hj. apply (Hd j i cj ci); [done..|]. unfold same_lobby in *. naive_solver congruence.
    - by apply (Ho cj (list_elem_of_lookup_2 _ _ _ Hcj) Hv). }
  intros j k cj ck Hj Hk Hvj Hvk Hs. assert (i < length cache)%nat as Hlt by (by eapply lookup_lt_Some).
  destruct (decide (j = i)) as [->|Hji], (decide (k = i)) as [->|Hki]; [done|..].
  - rewrite list_lookup_insert_eq in Hj by done. injection Hj as <-. rewrite stored_data in Hs.
    rewrite list_lookup_insert_ne in Hk by done. by destruct (Hone k ck).
  - rewrite list_lookup_insert_eq in Hk by done. injection Hk as <-. rewrite stored_data in Hs.
    rewrite list_lookup_insert_ne in Hj by done. destruct (Hone j cj); [done..|].
    unfold same_lobby in *. naive_solver congruence.
  - rewrite list_lookup_insert_ne in Hj, Hk by done. by apply (Hd j k cj ck).
Qed.

(** What the operations below leave alone. *)
Definition cache_frame (b b' : bridge) : Prop :=
  br_udp_fd b' = br_udp_fd b /\ br_inject_fd b' = br_inject_fd b /\ br_tcp_fd b' = br_tcp_fd b /\
  br_sessions b' = br_sessions b /\ br_sessions_ready b' = br_sessions_ready b /\ br_wifi_ip b' = br_wifi_ip b /\
  br_cache_ready b' = br_cache_ready b.

(** The cache: well formed, without repetition, and made of announcements out of [ps]. *)
Definition cache_inv (ps : list bytes) (b : bridge) : Prop :=
  cache_ok b /\ distinct_lobbies (br_cache b) /\
  forall c, c ∈ br_cache b -> cl_valid c = true -> lobby_data c ∈ ps /\ announces (lobby_data c).

Lemma cache_inv_mono ps ps' b : ps ⊆ ps' -> cache_inv ps b -> cache_inv ps' b.
Proof. intros Hs (H1 & H2 & H3). split_and!; [done..|]. intros c Hc Hv. destruct (H3 c Hc Hv). split; [by apply Hs|done]. Qed.

Lemma store_inv payload ps b :
  (forall k, 0 < sys_tick k) -> is_bytes payload -> cache_inv ps b ->
  exists b', lobby_cache_store_if_scanresp payload (zlen payload) b = Ok tt b' /\ cache_inv (payload :: ps) b' /\
    cache_frame b b' /\ br_out b' = br_out b /\ br_last_reinject b' = br_last_reinject b.
Proof.
  intros Hclk Hb Hi. pose proof (cache_inv_mono ps (payload :: ps) b ltac:(set_solver) Hi) as (Hok & Hd & Hin).
  destruct (decide (br_cache_ready b = true /\ sys_stat (br_ticks b) <> 0 /\ announces payload)) as [(Hr & Hst & Ha)|Hn].
  - destruct (store_run payload b Hok Hr Hst Hb Ha) as (i & c & Hc & Hslot & E). eexists. split; [exact E|].
    destruct Hok as [Hlen Hok]. assert (lobby_ok c) by (by eapply Forall_lookup_1). destruct Ha as (Hl & Hm & Ht).
    split; [|by split_and!]. unfold cache_inv, cache_ok, cache_set. cbn [set_br_cache br_cache]. split; [|split].
    + split; [by rewrite length_insert|]. apply Forall_insert; [done|]. apply stored_ok; [done..|lia|done].
    + by apply distinct_insert.
    + intros c' [k Hk]%list_elem_of_lookup Hv. destruct (decide (k = i)) as [->|Hki].
      * rewrite list_lookup_insert_eq in Hk by (by eapply lookup_lt_Some). injection Hk as <-. rewrite stored_data.
        split; [by left|done].
      * rewrite list_lookup_insert_ne in Hk by done. apply Hin; [by eapply list_elem_of_lookup_2|done].
  - destruct (store_skip payload b Hb Hn) as [k E]. eexists. split; [exact E|]. by split_and!.
Qed.

(** A datagram to [ldn_mitm]: 127.0.0.1, port 11452. *)
Definition mitm_send (fd : Z) (data : bytes) : br_event := BrSendto fd [44; 188] [127; 0; 0; 1] data.

Lemma to_mitm_run data b :
  to_mitm data b =
    Ok (sys_sendto (br_ticks b) data)
      (set_br_ticks (S (br_ticks b)) (set_br_out (br_out b ++ [mitm_send (br_inject_fd b) data]) b)).
Proof.
  unfold to_mitm. unfold bind at 1, gets at 1. unfold bind at 1, br_emit, modify.
  replace (store 2 (htons LDN_GAME_PORT)) with [44; 188]
    by (unfold htons, hton16, badvpn_reverse16, store, load; by destruct host_endian).
  replace (store 4 (htonl INADDR_LOOPBACK)) with [127; 0; 0; 1]
    by (unfold htonl, hton32, badvpn_reverse32, store, load; by destruct host_endian).
  done.
Qed.

Lemma bridge_inject_run payload ps b :
  (forall k, 0 < sys_tick k) -> is_bytes payload -> cache_inv ps b -> 12 <= zlen payload -> 0 <= br_inject_fd b ->
  hdr_magic payload = Some LDN_MAGIC ->
  exists r b', bridge_inject payload (zlen payload) b = Ok r b' /\ cache_inv (payload :: ps) b' /\ cache_frame b b' /\
    br_out b' = br_out b ++ [mitm_send (br_inject_fd b) payload] /\ (r = 0 \/ r = -1).
Proof.
  intros Hclk Hb Hi Hl Hfd Hm. destruct (store_inv payload ps b Hclk Hb Hi) as (b1 & E1 & Hi1 & Hf1 & Ho1 & _).
  unfold bridge_inject. unfold bind at 1, gets at 1. rewrite (proj2 (Z.ltb_ge _ 0)) by done.
  rewrite (proj2 (Z.leb_gt (zlen payload) 0)) by lia. cbn [orb]. change LDN_HEADER_SIZE with 12.
  rewrite (proj2 (Z.ltb_ge _ 12)) by lia. rewrite Hm. cbn [mem]. unfold bind at 1, ret at 1. rewrite Z.eqb_refl. cbn [negb].
  rewrite (bind_ok _ _ _ _ _ E1). rewrite mem_get_Some by lia. rewrite drop_0, to_nat_zlen, take_ge by done.
  cbn [mem]. unfold bind at 1, ret at 1. rewrite (bind_ok _ _ _ _ _ (to_mitm_run payload b1)).
  assert (Ef : br_inject_fd b1 = br_inject_fd b) by apply Hf1. rewrite Ef, Ho1.
  exists (if sys_sendto (br_ticks b1) payload <? 0 then -1 else 0). eexists. split; [by case_match|].
  split_and!; [done|apply Hf1..|done|case_match; [by right|by left]].
Qed.

(** A datagram that is not for [ldn_mitm] is dropped. *)
Lemma bridge_inject_drop payload b :
  is_bytes payload -> ~ (0 <= br_inject_fd b /\ 12 <= zlen payload /\ hdr_magic payload = Some LDN_MAGIC) ->
  exists r, bridge_inject payload (zlen payload) b = Ok r b.
Proof.
  intros Hb Hn. unfold bridge_inject. unfold bind at 1, gets at 1. destruct (Z.ltb_spec (br_inject_fd b) 0); [by eexists|].
  destruct (Z.leb_spec (zlen payload) 0); [by eexists|]. cbn [orb]. change LDN_HEADER_SIZE with 12.
  destruct (Z.ltb_spec (zlen payload) 12); [by eexists|].
  destruct (hdr_magic payload) as [m|] eqn:Em; [|unfold hdr_magic in Em; by rewrite mem_get_Some in Em by lia].
  cbn [mem]. unfold bind at 1, ret at 1. destruct (Z.eqb_spec m LDN_MAGIC) as [->|]; [|by eexists].
  exfalso. apply Hn. by split_and!; [lia..|].
Qed.

(** What is announced again, and what is left of a slot. *)
Definition live (now : Z) (c : cached_lobby) : bool :=
  cl_valid c && negb (LOBBY_EXPIRY_NS <? sys_ns (u64 (now - cl_timestamp c))).
Definition aged (now : Z) (c : cached_lobby) : cached_lobby :=
  {| cl_valid := live now c; cl_data := cl_data c; cl_data_len := cl_data_len c; cl_timestamp := cl_timestamp c |}.
Definition announced (fd now : Z) (cache : list cached_lobby) : list br_event :=
  mitm_send fd <$> (lobby_data <$> filter (fun c => live now c = true) cache).

Lemma reinject_loop_run now cache b :
  Forall lobby_ok cache ->
  exists k, reinject_loop now cache b =
    Ok (aged now <$> cache) (set_br_ticks k (set_br_out (br_out b ++ announced (br_inject_fd b) now cache) b)).
Proof.
  revert b. induction cache as [|c cache IH]; intros b Hok.
  { exists (br_ticks b). cbn. rewrite app_nil_r. by destruct b. }
  apply Forall_cons in Hok as [Hc Hok]. cbn [reinject_loop]. unfold announced. rewrite filter_cons, fmap_cons.
  assert (Hskip : live now c = false -> exists k, (let* cache' := reinject_loop now cache in ret (aged now c :: cache')) b =
    Ok (aged now c :: (aged now <$> cache))
      (set_br_ticks k (set_br_out (br_out b ++ announced (br_inject_fd b) now cache) b))).
  { intros _. destruct (IH b Hok) as [k E]. exists k. by rewrite (bind_ok _ _ _ _ _ E). }
  destruct (cl_valid c) eqn:Hv; cbn [negb].
  2: { assert (live now c = false) as Hd by (unfold live; by rewrite Hv). rewrite decide_False by congruence.
       replace (ret c) with (ret (S := bridge) (aged now c)); [by apply Hskip|]. f_equal. unfold aged. rewrite Hd, <- Hv. by destruct c. }
  destruct (LOBBY_EXPIRY_NS <? sys_ns (u64 (now - cl_timestamp c))) eqn:Hx.
  { assert (live now c = false) as Hd by (unfold live; by rewrite Hv, Hx). rewrite decide_False by congruence.
    unfold aged at 1. rewrite <- Hd. by apply Hskip. }
  assert (live now c = true) as Hd by (unfold live; by rewrite Hv, Hx). rewrite decide_True by done.
  destruct Hc as [Hsz Hby Hln _]. rewrite mem_get_Some by lia. rewrite drop_0. fold (lobby_data c). cbn [mem].
  unfold bind at 1. unfold bind at 1, ret at 1. unfold bind at 1. rewrite to_mitm_run. unfold ret at 1.
  destruct (IH (set_br_ticks (S (br_ticks b)) (set_br_out (br_out b ++ [mitm_send (br_inject_fd b) (lobby_data c)]) b)) Hok) as [k E].
  exists k. rewrite (bind_ok _ _ _ _ _ E). unfold ret. rewrite !fmap_cons. f_equal.
  - f_equal. unfold aged. rewrite Hd, <- Hv. by destruct c.
  - cbn [set_br_ticks set_br_out br_out br_inject_fd]. unfold announced. by rewrite <- app_assoc.
Qed.

Lemma aged_ok now c : lobby_ok c -> lobby_ok (aged now c).
Proof. intros [H1 H2 H3 H4]. constructor; cbn; try done. unfold live. intros [Hv _]%andb_true_iff. by apply H4. Qed.
Lemma aged_valid now c : cl_valid (aged now c) = true -> cl_valid c = true.
Proof. unfold aged, live. cbn. by intros [Hv _]%andb_true_iff. Qed.

Lemma aged_inv now ps b b' :
  cache_inv ps b -> br_cache b' = aged now <$> br_cache b -> cache_inv ps b'.
Proof.
  intros ([Hlen Hok] & Hd & Hin) E. unfold cache_inv, cache_ok. rewrite E. split; [split|split].
  - by rewrite length_fmap.
  - apply Forall_fmap. eapply Forall_impl; [exact Hok|]. apply aged_ok.
  - intros i j ci cj Hi Hj Hvi Hvj Hs. rewrite list_lookup_fmap, fmap_Some in Hi. rewrite list_lookup_fmap, fmap_Some in Hj.
    destruct Hi as (ci0 & Hi & ->), Hj as (cj0 & Hj & ->). apply (Hd i j ci0 cj0 Hi Hj); [by eapply aged_valid..|done].
  - intros c (c0 & -> & Hc)%list_elem_of_fmap Hv. apply (Hin c0 Hc). by eapply aged_valid.
Qed.

(** Whether it is time. *)
Definition due (b : bridge) (now : Z) : Prop :=
  br_last_reinject b = 0 \/ LOBBY_REINJECT_INTERVAL_NS <= sys_ns (u64 (now - br_last_reinject b)).
#[global] Instance due_dec b now : Decision (due b now).
Proof. unfold due. apply _. Defined.

Lemma reinject_run b :
  cache_ok b ->
  let now := sys_tick (S (br_ticks b)) in
  exists k, lobby_cache_reinject_if_due b =
    Ok tt (if decide (br_cache_ready b = true /\ sys_stat (br_ticks b) <> 0 /\ 0 <= br_inject_fd b /\ due b now)
           then set_br_cache (aged now <$> br_cache b)
                  (set_br_ticks k (set_br_out (br_out b ++ announced (br_inject_fd b) now (br_cache b)) (set_br_last_reinject now b)))
           else set_br_ticks k b).
Proof.
  intros [_ Hok] now. unfold lobby_cache_reinject_if_due, lobby_cache_enabled. unfold bind at 1, gets at 1.
  destruct (br_cache_ready b) eqn:Hr.
  2: { exists (br_ticks b). rewrite decide_False by naive_solver. by destruct b. }
  unfold bind at 1, bind at 1, ask at 1. unfold ret at 1. unfold bind at 1, gets at 1.
  cbn [br_inject_fd set_br_ticks].
  destruct (Z.eqb_spec (sys_stat (br_ticks b)) 0) as [|Hst]; cbn [negb].
  { eexists. by rewrite decide_False by naive_solver. }
  destruct (Z.ltb_spec (br_inject_fd b) 0). { eexists. by rewrite decide_False by naive_solver lia. }
  unfold bind at 1, ask at 1. unfold bind at 1, gets at 1. cbn [br_ticks set_br_ticks br_last_reinject]. fold now.
  destruct (negb (br_last_reinject b =? 0) && _) eqn:Hdue.
  - exists (S (S (br_ticks b))). rewrite decide_False; [done|]. intros (_ & _ & _ & [E|Hge]).
    + by rewrite E in Hdue.
    + apply andb_true_iff in Hdue as [_ Hlt%Z.ltb_lt]. lia.
  - assert (due b now) as Hd.
    { apply andb_false_iff in Hdue as [Hz%negb_false_iff%Z.eqb_eq|Hge%Z.ltb_ge]; [by left|by right]. }
    unfold bind at 1, modify at 1. unfold bind at 1, gets at 1. cbn [br_cache set_br_last_reinject].
    destruct (reinject_loop_run now (br_cache b) (set_br_last_reinject now (set_br_ticks (S (S (br_ticks b))) b)) Hok) as [k E].
    exists k. rewrite decide_True by done. rewrite (bind_ok _ _ _ _ _ E). reflexivity.
Qed.

Lemma reinject_inv ps b :
  cache_inv ps b ->
  exists b', lobby_cache_reinject_if_due b = Ok tt b' /\ cache_inv ps b' /\ cache_frame b b' /\
    exists l, br_out b' = br_out b ++ (mitm_send (br_inject_fd b) <$> l) /\ l ⊆ ps.
Proof.
  intros Hi. destruct (reinject_run b (proj1 Hi)) as [k E]. eexists. split; [exact E|].
  case_decide; [|split; [done|split; [by split_and!|exists []; by rewrite app_nil_r; split; [|set_solver]]]].
  split; [by eapply aged_inv|]. split; [by split_and!|].
  eexists. split; [reflexivity|]. intros x (c & -> & [Hl Hc]%list_elem_of_filter)%list_elem_of_fmap.
  apply Hi; [done|]. unfold live in Hl. by apply andb_true_iff in Hl as [? _].
Qed.

(** *** Runs *)

Inductive bridge_op := OpInject (payload : bytes) | OpReinject.
Definition run_op (op : bridge_op) : M bridge unit :=
  match op with
  | OpInject p => let* _ := bridge_inject p (zlen p) in ret tt
  | OpReinject => lobby_cache_reinject_if_due
  end.
Definition injected (ops : list bridge_op) : list bytes :=
  omap (fun op => match op with OpInject p => Some p | OpReinject => None end) ops.

Lemma run_ops_inv ops ps b :
  (forall k, 0 < sys_tick k) -> Forall is_bytes (injected ops) -> cache_inv ps b ->
  exists b', for_each ops run_op b = Ok tt b' /\ cache_inv (injected ops ++ ps) b' /\ cache_frame b b' /\
    exists l, br_out b' = br_out b ++ (mitm_send (br_inject_fd b) <$> l) /\ l ⊆ injected ops ++ ps.
Proof.
  intros Hclk. revert ps b. induction ops as [|op ops IH]; intros ps b Hb Hi.
  { exists b. split; [done|]. split; [done|]. split; [by split_and!|]. exists []. rewrite app_nil_r. split; [done|set_solver]. }
  cbn [for_each]. destruct op as [p|]; cbn [run_op injected omap list_omap] in *.
  - apply Forall_cons in Hb as [Hp Hb].
    assert (exists b1, (let* _ := bridge_inject p (zlen p) in ret tt) b = Ok tt b1 /\ cache_inv (p :: ps) b1 /\ cache_frame b b1 /\
      exists l, br_out b1 = br_out b ++ (mitm_send (br_inject_fd b) <$> l) /\ l ⊆ p :: ps) as (b1 & E1 & Hi1 & Hf1 & l1 & Ho1 & Hl1).
    { destruct (decide (0 <= br_inject_fd b /\ 12 <= zlen p /\ hdr_magic p = Some LDN_MAGIC)) as [(Hfd & Hl & Hm)|Hn].
      - destruct (bridge_inject_run p ps b Hclk Hp Hi Hl Hfd Hm) as (r & b1 & E & Hi1 & Hf1 & Ho1 & _).
        exists b1. rewrite (bind_ok _ _ _ _ _ E). split_and!; [done|done|apply Hf1..|]. exists [p]. split; [done|set_solver].
      - destruct (bridge_inject_drop p b Hp Hn) as [r E]. exists b. rewrite (bind_ok _ _ _ _ _ E).
        split; [done|]. split; [eapply cache_inv_mono; [|done]; set_solver|]. split; [by split_and!|].
        exists []. rewrite app_nil_r. split; [done|set_solver]. }
    rewrite (bind_ok _ _ _ _ _ E1). destruct (IH (p :: ps) b1 Hb Hi1) as (b2 & E2 & Hi2 & Hf2 & l2 & Ho2 & Hl2).
    exists b2. split; [done|]. split; [eapply cache_inv_mono; [|exact Hi2]; set_solver|].
    split; [unfold cache_frame in *; intuition congruence|]. exists (l1 ++ l2).
    assert (Ef : br_inject_fd b1 = br_inject_fd b) by apply Hf1. rewrite Ho2, Ho1, Ef, fmap_app, app_assoc. split; [done|set_solver].
  - destruct (reinject_inv ps b Hi) as (b1 & E1 & Hi1 & Hf1 & l1 & Ho1 & Hl1). rewrite (bind_ok _ _ _ _ _ E1).
    destruct (IH ps b1 Hb Hi1) as (b2 & E2 & Hi2 & Hf2 & l2 & Ho2 & Hl2). exists b2. split; [done|]. split; [done|].
    split; [unfold cache_frame in *; intuition congruence|]. exists (l1 ++ l2).
    assert (Ef : br_inject_fd b1 = br_inject_fd b) by apply Hf1. rewrite Ho2, Ho1, Ef, fmap_app, app_assoc. split; [done|set_solver].
Qed.
End cache.

(** ** Sessions *)

#[export] Instance br_event_eq_dec : EqDecision br_event.
Proof. solve_decision. Defined.

Section sessions.
Context `{Host} `{BridgeSys}.

(** What a stream has been given. *)
Definition stream (fd : Z) (l : list br_event) : bytes :=
  concat (omap (fun e => match e with
                         | BrSend fd' data n => if decide (fd' = fd) then Some (take (Z.to_nat n) data) else None
                         | _ => None
                         end) l).

Lemma send_loop_run fuel fd data sent b :
  (forall k d, sys_send k d <= zlen d) -> 0 <= sent -> zlen data - sent <= Z.of_nat fuel ->
  exists k l, relay_write_loop fuel fd data sent b = Ok tt (set_br_ticks k (set_br_out (br_out b ++ l) b)) /\
    stream fd l `prefix_of` drop (Z.to_nat sent) data /\
    ((forall k d, d <> [] -> 0 < sys_send k d) -> stream fd l = drop (Z.to_nat sent) data).
Proof.
  intros Hsend. revert sent b. induction fuel as [|fuel IH]; intros sent b Hs Hf.
  { exists (br_ticks b), []. rewrite app_nil_r. split; [by destruct b|]. rewrite drop_ge by (unfold zlen in Hf; lia).
    by split; [apply prefix_nil|]. }
  cbn [relay_write_loop]. destruct (Z.ltb_spec sent (zlen data)) as [Hlt|Hge].
  2: { exists (br_ticks b), []. rewrite app_nil_r. split; [by destruct b|]. rewrite drop_ge by (unfold zlen in Hge; lia).
       by split; [apply prefix_nil|]. }
  rewrite mem_from_Some by lia. set (rest := drop (Z.to_nat sent) data). cbn [mem]. unfold bind at 1, ret at 1.
  unfold bind at 1, ask at 1. set (n := sys_send (br_ticks b) rest). unfold bind at 1, br_emit, modify.
  assert (Hr : rest <> []) by (intros Hr%(f_equal zlen); unfold rest in Hr; rewrite zlen_drop, zlen_nil in Hr; lia).
  assert (Hz : zlen rest = zlen data - sent) by (apply zlen_drop; lia). pose proof (Hsend (br_ticks b) rest) as Hn. fold n in Hn.
  destruct (Z.leb_spec n 0) as [Hneg|Hpos].
  - exists (S (br_ticks b)), [BrSend fd rest n]. split; [done|]. unfold stream. cbn. rewrite decide_True by done. cbn.
    rewrite app_nil_r, Z2Nat.nonpos by lia. split; [apply prefix_nil|]. intros Hp. specialize (Hp (br_ticks b) rest Hr). fold n in Hp. lia.
  - destruct (IH (sent + n) (set_br_out (br_out b ++ [BrSend fd rest n]) (set_br_ticks (S (br_ticks b)) b))) as (k & l & E & Hpre & Hall);
      [lia|lia|]. exists k, (BrSend fd rest n :: l). split; [etransitivity; [exact E|]; cbn; by rewrite <- app_assoc|].
    assert (Es : stream fd (BrSend fd rest n :: l) = take (Z.to_nat n) rest ++ stream fd l)
      by (unfold stream; cbn; by rewrite decide_True).
    assert (Ed : drop (Z.to_nat (sent + n)) data = drop (Z.to_nat n) rest)
      by (unfold rest; rewrite drop_drop; f_equal; lia).
    rewrite Es. rewrite Ed in Hpre, Hall. rewrite <- (take_drop (Z.to_nat n) rest) at 2 4. split.
    + by apply prefix_app.
    + intros Hp. by rewrite Hall.
Qed.

(** The table. *)
Definition session_of (src_ip fd : Z) (sessions : list TcpSession) : Prop :=
  exists pre s post, sessions = pre ++ s :: post /\ ts_active s = true /\ ts_target_ip s = src_ip /\ ts_client_fd s = fd /\
    Forall (fun s' => ts_active s' = true -> ts_target_ip s' <> src_ip) pre.

Lemma find_session_run src_ip fd sessions :
  0 <= fd -> session_of src_ip fd sessions -> find_session sessions src_ip = Some fd.
Proof.
  intros Hfd (pre & s & post & -> & Ha & Ht & <- & Hpre). induction Hpre as [|s' pre Hs' Hpre IH]; cbn.
  - by rewrite Ha, Ht, Z.eqb_refl, (proj2 (Z.ltb_ge _ 0)).
  - destruct (ts_active s') eqn:E; cbn; [|done]. by rewrite (proj2 (Z.eqb_neq _ _)) by auto.
Qed.

Lemma tcp_inject_run src_ip fd data b :
  (forall k d, sys_send k d <= zlen d) -> br_sessions_ready b = true -> 0 <= fd ->
  session_of src_ip fd (br_sessions b) -> 0 < zlen data ->
  exists k l, ldn_bridge_tcp_inject_from_relay src_ip data (zlen data) b = Ok tt (set_br_ticks k (set_br_out (br_out b ++ l) b)) /\
    stream fd l `prefix_of` data /\ ((forall k d, d <> [] -> 0 < sys_send k d) -> stream fd l = data).
Proof.
  intros Hsend Hr Hfd Hs Hd. unfold ldn_bridge_tcp_inject_from_relay. unfold bind at 1, gets at 1. rewrite Hr.
  rewrite (proj2 (Z.leb_gt _ 0)) by done. cbn [negb orb]. unfold bind at 1, gets at 1.
  rewrite (find_session_run src_ip fd) by done. rewrite mem_get_Some by lia. rewrite drop_0, to_nat_zlen, take_ge by done.
  cbn [mem]. unfold bind at 1, ret at 1.
  destruct (send_loop_run (length data) fd data 0 b Hsend) as (k & l & E & Hl); [lia|unfold zlen; lia|].
  exists k, l. by rewrite E.
Qed.

Lemma free_slot_run sessions i j :
  free_slot sessions i = Some j ->
  (i <= j)%nat /\ exists s, sessions !! (j - i)%nat = Some s /\ ts_active s = false.
Proof.
  revert i. induction sessions as [|s sessions IH]; intros i; cbn; [done|]. destruct (ts_active s) eqn:E; cbn.
  - intros (? & s' & Hs & Ha)%IH. split; [lia|]. exists s'. split; [|done]. by replace (j - i)%nat with (S (j - S i)) by lia.
  - intros [= <-]. split; [done|]. exists s. by rewrite Nat.sub_diag.
Qed.
Lemma free_slot_none sessions i s : free_slot sessions i = None -> s ∈ sessions -> ts_active s = true.
Proof.
  revert i. induction sessions as [|s' sessions IH]; intros i; cbn; [by intros _ ?%not_elem_of_nil|].
  destruct (ts_active s') eqn:E; cbn; [|done]. intros Hf [->|Hs]%elem_of_cons; [done|by eapply IH].
Qed.

Definition session (fd ip : Z) : TcpSession :=
  {| ts_active := true; ts_thread_created := true; ts_client_fd := fd; ts_target_ip := ip |}.
Definition joins (i : nat) (s : TcpSession) : list br_event := if ts_thread_created s then [BrJoin i] else [].

Lemma tcp_accepted_run fd target b :
  exists k, tcp_accepted fd 4 target b = Ok tt
    match free_slot (br_sessions b) 0 with
    | Some i =>
        let s := default (session 0 0) (br_sessions b !! i) in
        if decide (sys_call (br_ticks b) = 0) then
          set_br_ticks k (set_br_out (br_out b ++ joins i s ++ [BrStart i])
            (set_br_sessions (<[i := session fd (ntohl (load target))]> (br_sessions b)) b))
        else
          set_br_ticks k (set_br_out (br_out b ++ joins i s ++ [BrClose fd])
            (set_br_sessions (<[i := {| ts_active := false; ts_thread_created := false; ts_client_fd := -1;
                                        ts_target_ip := ntohl (load target) |}]> (br_sessions b)) b))
    | None => set_br_out (br_out b ++ [BrClose fd]) b
    end.
Proof.
  exists (S (br_ticks b)). unfold tcp_accepted. cbn [Z.eqb Pos.eqb negb]. unfold bind at 1, gets at 1.
  destruct (free_slot (br_sessions b) 0) as [i|] eqn:Ef; [|done].
  apply free_slot_run in Ef as (_ & s & Hs & Ha). rewrite Nat.sub_0_r in Hs. cbv zeta. rewrite Hs. cbn [default from_option].
  assert (Hlt : (i < length (br_sessions b))%nat) by (by eapply lookup_lt_Some).
  unfold bind at 1. unfold join_slot. unfold bind at 1, gets at 1. rewrite Hs. cbn [mem]. unfold bind at 1, ret at 1.
  unfold joins, session, id. destruct s as [sa [] sf st]; cbn in Ha; cbn [ts_thread_created].
  - unfold bind at 1, br_emit at 1, modify at 1 2. unfold bind at 1, gets at 1. cbn [br_sessions set_br_sessions set_br_out].
    rewrite list_lookup_insert_eq by done. cbn [mem]. unfold bind at 1, ret at 1. unfold bind at 1, modify at 1.
    unfold bind at 1, ask at 1. unfold bind at 1, gets at 1. cbn [br_sessions set_br_sessions set_br_ticks br_ticks set_br_out].
    rewrite !list_insert_insert_eq, list_lookup_insert_eq by (rewrite ?length_insert; done). cbn [mem]. unfold bind at 1, ret at 1.
    case_decide as Hrc.
    + rewrite Hrc. cbn [Z.eqb negb]. unfold bind, br_emit, modify. cbn. by rewrite list_insert_insert_eq, <- app_assoc.
    + rewrite (proj2 (Z.eqb_neq _ 0) Hrc). cbn [negb]. unfold bind, br_emit, modify. cbn. by rewrite list_insert_insert_eq, <- app_assoc.
  - unfold ret at 1. unfold bind at 1, gets at 1. rewrite Hs. cbn [mem]. unfold bind at 1, ret at 1. unfold bind at 1, modify at 1.
    unfold bind at 1, ask at 1. unfold bind at 1, gets at 1. cbn [br_sessions set_br_sessions set_br_ticks br_ticks set_br_out].
    rewrite list_lookup_insert_eq by done. cbn [mem]. unfold bind at 1, ret at 1.
    case_decide as Hrc.
    + rewrite Hrc. cbn [Z.eqb negb]. unfold bind, br_emit, modify. cbn. by rewrite list_insert_insert_eq.
    + rewrite (proj2 (Z.eqb_neq _ 0) Hrc). cbn [negb]. unfold bind, br_emit, modify. cbn. by rewrite list_insert_insert_eq.
Qed.

(** *** The threads of the sessions *)

Definition count (e : br_event) (l : list br_event) : nat := length (filter (fun e' => e' = e) l).

Lemma count_app e l k : count e (l ++ k) = (count e l + count e k)%nat.
Proof. unfold count. by rewrite filter_app, length_app. Qed.

(** Eight slots, and in each the thread that was started and not waited for is the one the
    slot says it has; none before the table is ready. *)
Definition balanced (b : bridge) : Prop :=
  length (br_sessions b) = 8%nat /\
  forall i s, br_sessions b !! i = Some s ->
    count (BrStart i) (br_out b) = (count (BrJoin i) (br_out b) + Nat.b2n (ts_thread_created s))%nat /\
    (br_sessions_ready b = true \/ ts_thread_created s = false).

(** Steps that neither start nor join a thread. *)
Definition no_threads (l : list br_event) : Prop :=
  forall i, count (BrStart i) l = 0%nat /\ count (BrJoin i) l = 0%nat.
Definition same_threads (b b' : bridge) : Prop :=
  (ts_thread_created <$> br_sessions b') = (ts_thread_created <$> br_sessions b) /\
  br_sessions_ready b' = br_sessions_ready b /\
  exists l, br_out b' = br_out b ++ l /\ no_threads l.

Lemma same_threads_balanced b b' : same_threads b b' -> balanced b -> balanced b'.
Proof.
  intros (Es & Er & l & El & Hl) [Hlen Hb]. split.
  - apply (f_equal length) in Es. by rewrite !length_fmap, Hlen in Es.
  - intros i s' Hs'. assert ((ts_thread_created <$> br_sessions b') !! i = Some (ts_thread_created s')) as E
      by (by rewrite list_lookup_fmap, Hs'). rewrite Es, list_lookup_fmap, fmap_Some in E. destruct E as (s & Hs & ->).
    rewrite El, Er, !count_app. destruct (Hl i) as [-> ->]. destruct (Hb i s Hs) as [-> ?]. split; [lia|done].
Qed.
Lemma same_threads_refl b : same_threads b b.
Proof. split; [done|]. split; [done|]. exists []. by rewrite app_nil_r. Qed.
Lemma same_threads_trans b1 b2 b3 : same_threads b1 b2 -> same_threads b2 b3 -> same_threads b1 b3.
Proof.
  intros (E1 & R1 & l1 & O1 & N1) (E2 & R2 & l2 & O2 & N2). split; [congruence|]. split; [congruence|]. exists (l1 ++ l2). rewrite O2, O1, app_assoc.
  split; [done|]. intros i. rewrite !count_app. destruct (N1 i) as [-> ->]. by destruct (N2 i) as [-> ->].
Qed.
Lemma same_threads_emit b e :
  (forall i, e <> BrStart i /\ e <> BrJoin i) -> same_threads b (set_br_out (br_out b ++ [e]) b).
Proof.
  intros He. split; [done|]. split; [done|]. exists [e]. split; [done|]. intros i. destruct (He i). unfold count.
  by rewrite !filter_cons_False.
Qed.

Lemma send_loop_threads fuel fd data sent b r b' : relay_write_loop fuel fd data sent b = Ok r b' -> same_threads b b'.
Proof.
  revert sent b. induction fuel as [|fuel IH]; intros sent b; cbn [relay_write_loop].
  { intros [= _ <-]. apply same_threads_refl. }
  case_match; [|intros [= _ <-]; apply same_threads_refl]. destruct (mem_from data sent) as [rest|]; [|done].
  cbn [mem]. unfold bind at 1, ret at 1. unfold bind at 1, ask at 1. unfold bind at 1, br_emit, modify.
  set (b1 := set_br_out _ _). assert (same_threads b b1) as Hs by (apply (same_threads_emit (set_br_ticks (S (br_ticks b)) b)); done).
  case_match; [by intros [= _ <-]|]. intros E%IH. by eapply same_threads_trans.
Qed.

Lemma tcp_inject_threads src_ip data len b r b' :
  ldn_bridge_tcp_inject_from_relay src_ip data len b = Ok r b' -> same_threads b b'.
Proof.
  unfold ldn_bridge_tcp_inject_from_relay. unfold bind at 1, gets at 1.
  case_match; [intros [= _ <-]; apply same_threads_refl|]. unfold bind at 1, gets at 1.
  case_match; [|intros [= _ <-]; apply same_threads_refl]. destruct (mem_get data 0 len); [|done].
  cbn [mem]. unfold bind at 1, ret at 1. apply send_loop_threads.
Qed.

Lemma session_end_run slot fd s b :
  br_sessions b !! slot = Some s ->
  tcp_session_end slot fd b = Ok tt (set_br_out (br_out b ++ [BrClose fd])
    (set_br_sessions (<[slot := {| ts_active := false; ts_thread_created := ts_thread_created s; ts_client_fd := -1;
                                   ts_target_ip := ts_target_ip s |}]> (br_sessions b)) b)).
Proof. intros Hs. unfold tcp_session_end. unfold bind at 1, gets at 1. by rewrite Hs. Qed.

Lemma session_end_threads slot fd b r b' : tcp_session_end slot fd b = Ok r b' -> same_threads b b'.
Proof.
  destruct (br_sessions b !! slot) as [s|] eqn:Hs.
  - rewrite (session_end_run slot fd s b Hs). intros [= _ <-]. split_and!; cbn; [|done|].
    + rewrite list_fmap_insert. cbn. apply list_insert_id. by rewrite list_lookup_fmap, Hs.
    + exists [BrClose fd]. split; [done|]. by intros i.
  - unfold tcp_session_end. unfold bind at 1, gets at 1. by rewrite Hs.
Qed.

Lemma close_loop_run fds b :
  for_each fds (fun fd => br_emit (BrShutdown fd) ;;; br_emit (BrClose fd)) b =
    Ok tt (set_br_out (br_out b ++ (fds ≫= fun fd => [BrShutdown fd; BrClose fd])) b).
Proof.
  revert b. induction fds as [|fd fds IH]; intros b; cbn; [rewrite app_nil_r; by destruct b|].
  unfold bind, br_emit, modify. rewrite IH. cbn. by rewrite <- !app_assoc.
Qed.

Definition closed_session (s : TcpSession) : TcpSession := if 0 <=? ts_client_fd s then set_ts_client_fd (-1) s else s.
Definition closes (fd : Z) : list br_event := if 0 <=? fd then [BrClose fd] else [].

Lemma bridge_close_run b :
  exists b', ldn_bridge_close b = Ok tt b' /\ br_sessions_ready b' = br_sessions_ready b /\
    br_sessions b' = (if br_sessions_ready b then closed_session <$> br_sessions b else br_sessions b) /\
    br_out b' = br_out b ++ closes (br_udp_fd b) ++ closes (br_inject_fd b) ++
      (if br_sessions_ready b then snap_fds (br_sessions b) ≫= fun fd => [BrShutdown fd; BrClose fd] else []) ++
      closes (br_tcp_fd b).
Proof.
  unfold ldn_bridge_close, close_fd, closes, closed_session.
  unfold bind, gets, br_emit, modify, ret.
  destruct (0 <=? br_udp_fd b) eqn:E1, (0 <=? br_inject_fd b) eqn:E2, (0 <=? br_tcp_fd b) eqn:E3, (br_sessions_ready b) eqn:Hr;
    cbn; rewrite ?E1, ?E2; cbn; rewrite ?Hr; unfold modify; rewrite ?close_loop_run; cbn; rewrite ?E3;
    (eexists; split; [reflexivity|]); cbn; (split_and!; [done|done|]); rewrite <- ?app_assoc, ?app_nil_r; done.
Qed.

Lemma no_threads_app l k : no_threads l -> no_threads k -> no_threads (l ++ k).
Proof. intros Hl Hk i. rewrite !count_app. destruct (Hl i) as [-> ->]. by destruct (Hk i) as [-> ->]. Qed.
Lemma no_threads_closes fd : no_threads (closes fd).
Proof. unfold closes. by case_match; intros i. Qed.
Lemma no_threads_snap fds : no_threads (fds ≫= fun fd => [BrShutdown fd; BrClose fd]).
Proof. induction fds as [|fd fds IH]; [by intros i|]. cbn. by apply (no_threads_app [BrShutdown fd; BrClose fd]). Qed.

Lemma bridge_close_threads b r b' : ldn_bridge_close b = Ok r b' -> same_threads b b'.
Proof.
  destruct (bridge_close_run b) as (b1 & -> & Er & Es & Eo). intros [= _ <-]. split_and!; [|done|].
  - rewrite Es. case_match; [|done]. rewrite <- list_fmap_compose. apply list_fmap_ext. intros i s _. cbn.
    unfold closed_session. by case_match.
  - eexists. split; [exact Eo|]. repeat apply no_threads_app; try apply no_threads_closes.
    case_match; [apply no_threads_snap|by intros i].
Qed.

Lemma join_slot_run i s b :
  br_sessions b !! i = Some s ->
  join_slot i b = Ok tt (if ts_thread_created s
    then set_br_sessions (<[i := set_ts_thread_created false s]> (br_sessions b)) (set_br_out (br_out b ++ [BrJoin i]) b) else b).
Proof. intros Hs. unfold join_slot. unfold bind at 1, gets at 1. rewrite Hs. cbn. by destruct (ts_thread_created s). Qed.

(** Replacing the session of a slot, with what happened to its threads. *)
Lemma balanced_update b i s s' l k :
  balanced b -> br_sessions b !! i = Some s ->
  (forall j, j <> i -> count (BrStart j) l = 0%nat /\ count (BrJoin j) l = 0%nat) ->
  (Nat.b2n (ts_thread_created s) + count (BrStart i) l = count (BrJoin i) l + Nat.b2n (ts_thread_created s'))%nat ->
  br_sessions_ready b = true \/ ts_thread_created s' = false ->
  balanced (set_br_ticks k (set_br_out (br_out b ++ l) (set_br_sessions (<[i := s']> (br_sessions b)) b))).
Proof.
  intros [Hlen Hb] Hs Ho Hi Hr. split; cbn [br_sessions br_out br_sessions_ready set_br_ticks set_br_out set_br_sessions]; [by rewrite length_insert|]. intros j sj Hj. rewrite !count_app.
  assert (Hlt : (i < length (br_sessions b))%nat) by (by eapply lookup_lt_Some).
  destruct (decide (j = i)) as [->|Hji].
  - rewrite list_lookup_insert_eq in Hj by done. injection Hj as <-. destruct (Hb i s Hs). split; [lia|done].
  - rewrite list_lookup_insert_ne in Hj by done. destruct (Hb j sj Hj). destruct (Ho j Hji). split; [lia|done].
Qed.

Lemma join_slot_balanced i b :
  balanced b -> (i < 8)%nat ->
  exists b', join_slot i b = Ok tt b' /\ balanced b' /\
    (forall s, br_sessions b' !! i = Some s -> ts_thread_created s = false) /\
    (forall j s, br_sessions b' !! j = Some s -> ts_thread_created s = true ->
       exists s0, br_sessions b !! j = Some s0 /\ ts_thread_created s0 = true).
Proof.
  intros Hb Hi. pose proof Hb as [Hlen _]. destruct (lookup_lt_is_Some_2 (br_sessions b) i) as [s Hs]; [lia|].
  rewrite (join_slot_run i s b Hs). eexists. split; [done|]. destruct (ts_thread_created s) eqn:Hc.
  - split; [|split]; cbn.
    + apply (balanced_update b i s (set_ts_thread_created false s) [BrJoin i] (br_ticks b) Hb Hs).
      * intros j Hj. unfold count. by rewrite !filter_cons_False by congruence.
      * rewrite Hc. unfold count. by rewrite filter_cons_False, filter_cons_True by congruence.
      * by right.
    + intros s'. rewrite list_lookup_insert_eq by lia. by intros [= <-].
    + intros j sj. destruct (decide (j = i)) as [->|Hji].
      * rewrite list_lookup_insert_eq by lia. by intros [= <-].
      * rewrite list_lookup_insert_ne by done. eauto.
  - split; [done|]. split; [by intros s'; rewrite Hs; intros [= <-]|eauto].
Qed.

Lemma wait_run slots b :
  balanced b -> Forall (fun i => (i < 8)%nat) slots ->
  exists b', for_each slots join_slot b = Ok tt b' /\ balanced b' /\
    (forall i s, i ∈ slots -> br_sessions b' !! i = Some s -> ts_thread_created s = false) /\
    (forall j s, br_sessions b' !! j = Some s -> ts_thread_created s = true ->
       exists s0, br_sessions b !! j = Some s0 /\ ts_thread_created s0 = true).
Proof.
  revert b. induction slots as [|i slots IH]; intros b Hb Hi; [exists b; split_and!; try done; [by intros ? ? ?%not_elem_of_nil|eauto]|].
  apply Forall_cons in Hi as [Hi Hsl]. destruct (join_slot_balanced i b Hb Hi) as (b1 & E1 & Hb1 & Hj1 & Hk1).
  destruct (IH b1 Hb1 Hsl) as (b2 & E2 & Hb2 & Hj2 & Hk2). exists b2. cbn. rewrite (bind_ok _ _ _ _ _ E1).
  split_and!; [done|done| |].
  - intros j s [->|Hj]%elem_of_cons Hs; [|by eapply Hj2]. destruct (ts_thread_created s) eqn:E; [|done].
    destruct (Hk2 _ _ Hs E) as (s0 & Hs0 & E0). by rewrite (Hj1 _ Hs0) in E0.
  - intros j s Hs E. destruct (Hk2 _ _ Hs E) as (s0 & Hs0 & E0). by apply (Hk1 j s0).
Qed.

Lemma tcp_accepted_balanced fd target b :
  balanced b -> br_sessions_ready b = true -> wlp (tcp_accepted fd 4 target) (fun _ b' => balanced b') b.
Proof.
  intros Hb Hr. destruct (tcp_accepted_run fd target b) as [k E]. unfold wlp. rewrite E.
  destruct (free_slot (br_sessions b) 0) as [i|] eqn:Ef.
  2: { eapply same_threads_balanced; [by apply same_threads_emit|done]. }
  apply free_slot_run in Ef as (_ & s & Hs & _). rewrite Nat.sub_0_r in Hs. cbv zeta. rewrite Hs. cbn [default from_option].
  change (id s) with s. unfold joins. case_decide; (apply (balanced_update b i s); [done|done| | |by left]); destruct (ts_thread_created s); cbn [app];
    first [intros j Hj; unfold count; by rewrite !filter_cons_False by congruence|unfold count;
      rewrite ?filter_cons_False by congruence; rewrite ?filter_cons_True by congruence; rewrite ?filter_cons_False by congruence; done|idtac].
  all: unfold count; cbn; repeat case_decide; simplify_eq; done.
Qed.
End sessions.

(** A step of the threads that use the table, or of the one that closes the bridge.  The
    accepting thread is started any number of times, and accepts once it has made the table
    ready. *)
Inductive session_step `{Host} `{BridgeSys} (b b' : bridge) : Prop :=
| SsStart x : tcp_thread_start b = Ok x b' -> session_step b b'
| SsAccept pret perr client_fd r target x :
    br_sessions_ready b = true -> tcp_accept_turn pret perr client_fd r target b = Ok x b' -> session_step b b'
| SsEnd slot fd x : tcp_session_end slot fd b = Ok x b' -> session_step b b'
| SsRelay src_ip data len x : ldn_bridge_tcp_inject_from_relay src_ip data len b = Ok x b' -> session_step b b'
| SsClose x : ldn_bridge_close b = Ok x b' -> session_step b b'
| SsWait x : ldn_bridge_wait_sessions b = Ok x b' -> session_step b b'.

Section session_runs.
Context `{Host} `{BridgeSys}.

Lemma accept_turn_balanced pret perr client_fd r target b x b' :
  tcp_accept_turn pret perr client_fd r target b = Ok x b' ->
  br_sessions_ready b = true -> balanced b -> balanced b'.
Proof.
  unfold tcp_accept_turn. intros E Hr' Hb. repeat (case_match; [by injection E as _ <-|]).
  apply bind_ok_inv in E as (u & b1 & E1 & [= _ <-]). destruct (decide (r = 4)) as [->|Hr].
  - exact (wlp_ok _ _ _ _ _ (tcp_accepted_balanced client_fd target b Hb Hr') E1).
  - unfold tcp_accepted in E1. rewrite (proj2 (Z.eqb_neq r 4) Hr) in E1. cbn in E1. injection E1 as _ <-.
    eapply same_threads_balanced; [by apply same_threads_emit|done].
Qed.

Lemma wait_sessions_run b :
  balanced b ->
  exists b', ldn_bridge_wait_sessions b = Ok tt b' /\ balanced b' /\
    (forall i s, br_sessions b' !! i = Some s -> ts_thread_created s = false).
Proof.
  intros Hb. unfold ldn_bridge_wait_sessions. unfold bind at 1, gets at 1.
  destruct (br_sessions_ready b) eqn:Hr; cbn [negb].
  2: { exists b. split_and!; [done..|]. intros i s Hs. destruct (proj2 Hb i s Hs) as [_ [?|?]]; congruence. }
  destruct (wait_run (seq 0 8) b Hb) as (b' & E & Hb' & Hj & _).
  { apply Forall_forall. intros i Hi%elem_of_seq. lia. }
  exists b'. split; [done|]. split; [done|]. intros i s Hs. eapply Hj; [|exact Hs]. apply elem_of_seq.
  apply lookup_lt_Some in Hs as Hlt. rewrite (proj1 Hb') in Hlt. lia.
Qed.

(** The first start prepares the table, every later one leaves it alone. *)
Lemma thread_start_balanced b x b' : tcp_thread_start b = Ok x b' -> balanced b -> balanced b'.
Proof.
  unfold tcp_thread_start. unfold bind at 1, gets at 1. destruct (br_sessions_ready b) eqn:Hr; intros [= _ <-] [Hlen Hb];
    [done|]. split; cbn; [by rewrite length_fmap|]. intros i s' Hs. rewrite list_lookup_fmap in Hs.
  destruct (br_sessions b !! i) as [s|] eqn:Hi; [|done]. injection Hs as <-.
  destruct (Hb i s Hi) as [Hc [?|Hn]]; [congruence|]. rewrite Hn in Hc. split; [exact Hc|by left].
Qed.

Lemma session_step_balanced b b' : session_step b b' -> balanced b -> balanced b'.
Proof.
  intros [? E|? ? ? ? ? ? Hr E|? ? ? E|? ? ? ? E|? E|? E] Hb.
  - by eapply thread_start_balanced.
  - by eapply accept_turn_balanced.
  - eapply same_threads_balanced; [by eapply session_end_threads|done].
  - eapply same_threads_balanced; [by eapply tcp_inject_threads|done].
  - eapply same_threads_balanced; [by eapply bridge_close_threads|done].
  - destruct (wait_sessions_run b Hb) as (b1 & E1 & Hb1 & _). congruence.
Qed.

(** The static table as the program starts. *)
Definition fresh_table (b : bridge) : Prop :=
  br_out b = [] /\ br_sessions_ready b = false /\
  br_sessions b =
    replicate 8 {| ts_active := false; ts_thread_created := false; ts_client_fd := 0; ts_target_ip := 0 |}.
Lemma fresh_balanced b : fresh_table b -> balanced b.
Proof.
  intros (Ho & _ & E). split; rewrite E; [done|]. intros i s Hi. apply lookup_replicate in Hi as [-> _].
  rewrite Ho. split; [done|by right].
Qed.
End session_runs.

(** ** Results *)

(** Rewriting the addresses of a packet of [len] bytes, in a buffer at least as long.  It
    never leaves the buffer.  An incoming packet is not changed.  In an outgoing one, each
    address of a node that is within the packet, of at most eight nodes and as many as the
    packet says, becomes the virtual address if it is the console's wireless address, and
    is left alone otherwise; no other byte changes. *)
Theorem rewrite_ips_spec `{Host} wifi my_ip d len :
  is_bytes d -> len <= zlen d ->
  ldn_bridge_rewrite_ips wifi my_ip d len false = Some d /\
  exists d', ldn_bridge_rewrite_ips wifi my_ip d len true = Some d' /\ zlen d' = zlen d /\
    (forall o ip, o ∈ address_fields d len -> mem_get d o 4 = Some ip ->
       mem_get d' o 4 = Some (if decide (load ip = wifi /\ wifi <> 0) then store 4 (ntohl (load my_ip)) else ip)) /\
    (forall i : nat, (forall o, o ∈ address_fields d len -> ~ (o <= Z.of_nat i < o + 4)) -> d' !! i = d !! i).
Proof.
  intros Hb Hl. rewrite !rewrite_run by done. split; [done|]. eexists. split; [done|].
  destruct (address_fields_apart d len) as [Hp Hs]. destruct (patches_spec wifi my_ip _ d Hp Hs) as (Hz & Hin & Hout).
  split; [done|]. split; [|done]. intros o ip Ho Ei. rewrite (Hin o ip Ho Ei). unfold new_field, virtual_field.
  destruct (Z.eqb_spec (load ip) wifi), (Z.eqb_spec wifi 0); cbn [andb negb];
    (rewrite decide_True by done) || (rewrite decide_False by naive_solver); done.
Qed.

(** C10: both tunnels, from one console to another.  A packet of 4 to 2048 bytes read from
    [ldn_mitm] is rewritten and given to the relay client as one IPv4 packet, and on every
    console whose interface receives that packet in a frame, whatever the frame's
    addresses and trailer: data of a session ([sport] is the bridge's port) reaches the
    session of the sender, and a packet of at least twelve bytes reaches the bridge. *)
Theorem ldn_tunnel (E2 : Env) (T2 : @NxTapSys E2) (E1 : Env) (N1 : @NxSys E1)
    my_ip dst sport p stale ip_pkt b w :
  is_ip my_ip -> is_u16 sport -> is_bytes p -> is_bytes stale -> 4 <= zlen p <= 2048 -> zlen ip_pkt = 2076 ->
  let data := rewritten (br_wifi_ip b) my_ip p in
  exists pkt rest,
    wrap_and_send my_ip dst sport (p ++ stale) (zlen p) ip_pkt (b, w) =
      match console_send_ipv4 (ip_of dst) (pkt ++ rest) (zlen pkt) w with
      | Ok _ w' => Ok (zlen pkt, pkt ++ rest) (b, w')
      | Stop e => Stop e
      end /\
    forall fd mac src_mac pad w2, is_mac mac -> is_mac src_mac -> is_bytes pad ->
      let frame := tunnel_frame mac src_mac pkt pad in
      @nx_tap_send_packet E2 T2 fd frame (zlen frame) w2 =
        if sport =? LDN_BRIDGE_PORT then Ok 0 (emit (EvLdnTcp (@ntohl (@env_host E2) (@load (@env_host E2) my_ip)) data) w2)
        else if 12 <=? zlen p then
          (let* r := @ldn_bridge_inject E2 T2 data sport in
           if r =? 0 then ret 0 else @inject_udp E2 T2 fd LDN_GAME_PORT (ip_of dst) data) w2
        else @inject_udp E2 T2 fd LDN_GAME_PORT (ip_of dst) data w2.
Proof.
  intros Hm Hs Hp Hst Hl Hk data. exists (ldn_packet my_ip (ip_of dst) sport LDN_GAME_PORT data). eexists.
  split; [apply wrap_run; (done || lia)|]. intros fd mac src_mac pad w2 Hmac Hsrc Hpad frame.
  destruct (rewritten_ok (br_wifi_ip b) my_ip p Hp) as [Bd Zd]. rewrite <- Zd.
  apply tunnel_end_run; (done || apply ip_of_is_ip || (fold data in Zd; lia)).
Qed.

(** Storing an announcement.  It is put in exactly one slot: that of the lobby it is
    about, if it is in the cache; else the first free one; else the one stored longest ago.
    The slot then holds the announcement and the time; the other slots do not change. *)
Theorem lobby_store_spec `{Host} `{BridgeSys} payload b :
  cache_ok b -> br_cache_ready b = true -> sys_stat (br_ticks b) <> 0 -> is_bytes payload -> announces payload ->
  exists i c k, lobby_slot payload (br_cache b) i /\ lobby_data c = payload /\ cl_valid c = true /\
    cl_timestamp c = sys_tick (S (br_ticks b)) /\
    lobby_cache_store_if_scanresp payload (zlen payload) b =
      Ok tt (set_br_cache (<[i := c]> (br_cache b)) (set_br_ticks k b)).
Proof.
  intros Hok Hr Hst Hb Ha. destruct (store_run payload b Hok Hr Hst Hb Ha) as (i & c & _ & Hslot & E).
  exists i, (stored payload (sys_tick (S (br_ticks b))) c), (S (S (br_ticks b))).
  split_and!; [done|apply stored_data|done..].
Qed.

(** Announcing again.  When the cache is on, the socket is open and half a second has
    passed since the last time, every lobby that is at most thirty seconds old is sent
    once to [ldn_mitm], in the order of the slots, and the others leave the cache;
    otherwise nothing happens. *)
Theorem lobby_reinject_spec `{Host} `{BridgeSys} b :
  cache_ok b ->
  let now := sys_tick (S (br_ticks b)) in
  exists k, lobby_cache_reinject_if_due b =
    Ok tt (if decide (br_cache_ready b = true /\ sys_stat (br_ticks b) <> 0 /\ 0 <= br_inject_fd b /\ due b now)
           then set_br_cache (aged now <$> br_cache b)
                  (set_br_ticks k (set_br_out (br_out b ++ announced (br_inject_fd b) now (br_cache b)) (set_br_last_reinject now b)))
           else set_br_ticks k b).
Proof. apply reinject_run. Qed.

(** The cache over any sequence of datagrams from the relay and timers: every operation
    returns, no lobby is in the cache twice, everything in it is an announcement that was
    received, and everything sent to [ldn_mitm] was received from the relay. *)
Theorem lobby_cache_run `{Host} `{BridgeSys} ops b :
  (forall k, 0 < sys_tick k) -> Forall is_bytes (injected ops) -> br_cache b = replicate 16 empty_lobby ->
  exists b' l, for_each ops run_op b = Ok tt b' /\ cache_ok b' /\ distinct_lobbies (br_cache b') /\
    (forall c, c ∈ br_cache b' -> cl_valid c = true -> lobby_data c ∈ injected ops /\ announces (lobby_data c)) /\
    br_out b' = br_out b ++ (mitm_send (br_inject_fd b) <$> l) /\ l ⊆ injected ops.
Proof.
  intros Hclk Hb Hc. assert (cache_inv [] b) as Hi.
  { unfold cache_inv, cache_ok. rewrite Hc. split; [split|split].
    - done.
    - apply Forall_replicate. constructor; [done| |done|done]. apply Forall_replicate. unfold is_u8. lia.
    - intros i j ci cj [-> _]%lookup_replicate _ Hv. done.
    - intros c [k [-> _]%lookup_replicate]%list_elem_of_lookup. done. }
  destruct (run_ops_inv ops [] b Hclk Hb Hi) as (b' & E & (Hok & Hd & Hin) & _ & l & Ho & Hl). rewrite app_nil_r in *.
  by exists b', l.
Qed.

(** Delivering the data of a session.  If the first active session for the sender has
    the descriptor [fd], the bytes written to [fd] are the first bytes of the data, in
    order and once each, and all of them if the socket takes at least a byte each time;
    nothing else changes. *)
Theorem tcp_inject_delivers `{Host} `{BridgeSys} src_ip fd data b :
  (forall k d, sys_send k d <= zlen d) -> br_sessions_ready b = true -> 0 <= fd ->
  session_of src_ip fd (br_sessions b) -> 0 < zlen data ->
  exists k l, ldn_bridge_tcp_inject_from_relay src_ip data (zlen data) b = Ok tt (set_br_ticks k (set_br_out (br_out b ++ l) b)) /\
    stream fd l `prefix_of` data /\ ((forall k d, d <> [] -> 0 < sys_send k d) -> stream fd l = data).
Proof. apply tcp_inject_run. Qed.

(** C11: the session threads.  From the zeroed table of the program's start, in every run of
    the accepting thread, started and restarted, and of the sessions, the relay, the closing of
    the bridge and the waiting for its sessions, waiting again returns, and then every thread
    that was started has been joined exactly once. *)
Theorem sessions_joined `{Host} `{BridgeSys} b0 b :
  fresh_table b0 -> rtc session_step b0 b ->
  exists b', ldn_bridge_wait_sessions b = Ok tt b' /\
    forall i, (i < 8)%nat -> count (BrStart i) (br_out b') = count (BrJoin i) (br_out b').
Proof.
  intros Hf%fresh_balanced Hrun. assert (balanced b) as Hb.
  { induction Hrun as [|b1 b2 b3 Hs _ IH]; [done|]. apply IH. by eapply session_step_balanced. }
  destruct (wait_sessions_run b Hb) as (b' & E & [Hlen Hb'] & Hj). exists b'. split; [done|]. intros i Hi.
  destruct (lookup_lt_is_Some_2 (br_sessions b') i) as [s Hs]; [lia|].
  rewrite (proj1 (Hb' i s Hs)), (Hj i s Hs). cbn. lia.
Qed.

(** A session that is open when the bridge is closed is closed twice: by
    [ldn_bridge_close], and again, under its old number, by its own thread. *)
Theorem session_closed_twice `{Host} `{BridgeSys} slot s b :
  br_sessions_ready b = true -> br_sessions b !! slot = Some s -> 0 <= ts_client_fd s ->
  exists b' l1 l2, (ldn_bridge_close ;;; tcp_session_end slot (ts_client_fd s)) b = Ok tt b' /\
    br_out b' = br_out b ++ l1 ++ [BrClose (ts_client_fd s)] ++ l2 ++ [BrClose (ts_client_fd s)].
Proof.
  intros Hr Hs Hfd. destruct (bridge_close_run b) as (b1 & E1 & _ & Es1 & Eo1). rewrite Hr in Es1, Eo1.
  rewrite (bind_ok _ _ _ _ _ E1).
  rewrite (session_end_run slot _ (closed_session s)) by (by rewrite Es1, list_lookup_fmap, Hs).
  assert (BrClose (ts_client_fd s) ∈ (snap_fds (br_sessions b) ≫= fun fd => [BrShutdown fd; BrClose fd])) as Hin.
  { apply list_elem_of_bind. exists (ts_client_fd s). split; [by right; left|]. apply list_elem_of_omap.
    exists s. split; [by eapply list_elem_of_lookup_2|]. by rewrite (proj2 (Z.leb_le 0 _)). }
  apply list_elem_of_split in Hin as (m1 & m2 & Em). eexists. exists (closes (br_udp_fd b) ++ closes (br_inject_fd b) ++ m1).
  exists (m2 ++ closes (br_tcp_fd b)). split; [done|]. cbn [br_out set_br_out]. rewrite Eo1, Em. cbn [br_out set_br_sessions].
  rewrite <- !app_assoc. done.
Qed.

(** ** Concrete runs *)

#[local] Existing Instance le_host.

Definition demo_bridge_sys : BridgeSys :=
  {| sys_tick := fun k => Z.of_nat k + 1; sys_ns := fun t => t * 1000000000; sys_stat := fun _ => -1;
     sys_sendto := fun _ d => zlen d; sys_send := fun _ d => zlen d `min` 2; sys_ip := fun _ => None; sys_call := fun _ => 0 |}.
#[local] Existing Instance demo_bridge_sys.
Definition demo_bridge : bridge :=
  {| br_udp_fd := 3; br_inject_fd := 4; br_tcp_fd := 5;
     br_sessions := replicate 8 {| ts_active := false; ts_thread_created := false; ts_client_fd := -1; ts_target_ip := 0 |};
     br_sessions_ready := true; br_wifi_ip := 0xC0A80007; br_cache := replicate 16 empty_lobby; br_cache_ready := true;
     br_last_reinject := 0; br_ticks := 0; br_out := [] |}.

(** A packet of [ldn_mitm] with one node, 192.168.0.7; an announcement; a scan. *)
Definition demo_ldn_header (type : Z) : bytes := [0; 20; 69; 17; type; 0; 0; 0; 0; 0; 0; 0].
Definition demo_connect : bytes := demo_ldn_header 2 ++ [7; 0; 168; 192].
Definition demo_lobby (id : Z) : bytes := demo_ldn_header 1 ++ replicate 32 id.
Definition demo_virtual : bytes := [10; 13; 0; 9].

Lemma demo_connect_bytes : is_bytes demo_connect.
Proof. vm_compute. repeat constructor; discriminate. Qed.
Lemma demo_lobby_bytes : is_bytes (demo_lobby 5).
Proof. vm_compute. repeat constructor; discriminate. Qed.

Lemma rewrite_ips_spec_witness :
  exists d', ldn_bridge_rewrite_ips 0xC0A80007 demo_virtual demo_connect 16 true = Some d' /\
    mem_get d' 12 4 = Some [9; 0; 13; 10].
Proof.
  destruct (rewrite_ips_spec 0xC0A80007 demo_virtual demo_connect 16 demo_connect_bytes) as [_ (d' & E & _ & Hin & _)];
    [vm_compute; discriminate|]. exists d'. split; [exact E|].
  rewrite (Hin 12 [7; 0; 168; 192]); [vm_compute; reflexivity|vm_compute; left|vm_compute; reflexivity].
Defined.

Lemma ldn_tunnel_witness :
  let data := rewritten 0xC0A80007 demo_virtual demo_connect in
  exists pkt, forall fd pad, is_bytes pad ->
    nx_tap_send_packet (H := demo_env) (H0 := demo_tap_sys) fd (tunnel_frame demo_mac demo_mac pkt pad)
      (zlen (tunnel_frame demo_mac demo_mac pkt pad)) demo_world =
      Ok 0 (emit (EvLdnTcp 0x0A0D0009 data) demo_world).
Proof.
  destruct (ldn_tunnel demo_env demo_tap_sys demo_env demo_sys demo_virtual 0x0A0D0005 LDN_BRIDGE_PORT demo_connect []
              (replicate 2076 0) demo_bridge demo_world) as (pkt & rest & _ & Hf).
  - split; [reflexivity|bytes_tac].
  - unfold is_u16, LDN_BRIDGE_PORT. lia.
  - apply demo_connect_bytes.
  - constructor.
  - split; vm_compute; discriminate.
  - reflexivity.
  - exists pkt. intros fd pad Hp. apply (Hf fd demo_mac demo_mac pad demo_world); [split; [reflexivity|bytes_tac]..|exact Hp].
Defined.

Lemma demo_cache_ok : cache_ok demo_bridge.
Proof.
  split; [done|]. apply Forall_replicate. constructor; [done| |done|done]. apply Forall_replicate. unfold is_u8. lia.
Qed.

Lemma lobby_store_spec_witness :
  exists i c k, lobby_slot (demo_lobby 5) (br_cache demo_bridge) i /\ lobby_data c = demo_lobby 5 /\ cl_valid c = true /\
    cl_timestamp c = 2 /\
    lobby_cache_store_if_scanresp (demo_lobby 5) (zlen (demo_lobby 5)) demo_bridge =
      Ok tt (set_br_cache (<[i := c]> (br_cache demo_bridge)) (set_br_ticks k demo_bridge)).
Proof.
  destruct (lobby_store_spec (demo_lobby 5) demo_bridge demo_cache_ok) as (i & c & k & H1 & H2 & H3 & H4 & H5).
  - reflexivity.
  - discriminate.
  - apply demo_lobby_bytes.
  - split; [split; vm_compute; discriminate|split; vm_compute; reflexivity].
  - exists i, c, k. split_and!; [exact H1|exact H2|exact H3|exact H4|exact H5].
Defined.

Lemma lobby_reinject_spec_witness :
  exists k, lobby_cache_reinject_if_due demo_bridge =
    Ok tt (set_br_cache (aged 2 <$> br_cache demo_bridge)
             (set_br_ticks k (set_br_out (br_out demo_bridge ++ announced 4 2 (br_cache demo_bridge))
                (set_br_last_reinject 2 demo_bridge)))).
Proof.
  destruct (lobby_reinject_spec demo_bridge demo_cache_ok) as [k E]. exists k. etransitivity; [exact E|].
  rewrite decide_True; [reflexivity|]. split_and!; [reflexivity|discriminate|discriminate|by left].
Defined.

Lemma lobby_cache_run_witness :
  exists b' l, for_each [OpInject (demo_lobby 5); OpReinject] run_op demo_bridge = Ok tt b' /\
    br_out b' = (mitm_send 4 <$> l) /\ l ⊆ [demo_lobby 5].
Proof.
  destruct (lobby_cache_run [OpInject (demo_lobby 5); OpReinject] demo_bridge) as (b' & l & E & _ & _ & _ & Ho & Hl).
  - intros k. cbn. lia.
  - constructor; [apply demo_lobby_bytes|constructor].
  - reflexivity.
  - exists b', l. split; [exact E|]. split; [exact Ho|exact Hl].
Defined.

Definition demo_connected : bridge :=
  set_br_sessions (session 9 0x0A0D0005 :: replicate 7 {| ts_active := false; ts_thread_created := false; ts_client_fd := -1;
                                                         ts_target_ip := 0 |}) demo_bridge.

Lemma tcp_inject_delivers_witness :
  exists k l, ldn_bridge_tcp_inject_from_relay 0x0A0D0005 [1; 2; 3] 3 demo_connected =
    Ok tt (set_br_ticks k (set_br_out l demo_connected)) /\ stream 9 l = [1; 2; 3].
Proof.
  destruct (tcp_inject_delivers 0x0A0D0005 9 [1; 2; 3] demo_connected) as (k & l & E & _ & Hs).
  - intros k d. cbn. lia.
  - reflexivity.
  - lia.
  - eexists [], _, _. split; [reflexivity|]. split_and!; [reflexivity..|constructor].
  - reflexivity.
  - exists k, l. split; [exact E|]. apply Hs. intros k' d Hd. cbn. destruct d; [done|]. zlia.
Defined.

(** A bridge whose threads have not started. *)
Definition demo_fresh : bridge :=
  set_br_sessions_ready false (set_br_sessions
    (replicate 8 {| ts_active := false; ts_thread_created := false; ts_client_fd := 0; ts_target_ip := 0 |}) demo_bridge).
Definition demo_started_bridge : bridge :=
  match tcp_thread_start demo_fresh with
  | Ok _ b => match tcp_accept_turn 1 EAGAIN 9 4 [10; 13; 0; 5] b with Ok _ b => b | Stop _ => b end
  | Stop _ => demo_fresh
  end.
Lemma sessions_joined_witness :
  exists b', ldn_bridge_wait_sessions demo_started_bridge = Ok tt b' /\
    count (BrStart 0) (br_out b') = count (BrJoin 0) (br_out b').
Proof.
  destruct (sessions_joined demo_fresh demo_started_bridge) as (b' & E & Hc).
  - split_and!; reflexivity.
  - eapply rtc_l; [apply (SsStart _ _ true); reflexivity|].
    eapply rtc_l; [|apply rtc_refl]. by apply (SsAccept _ _ 1 EAGAIN 9 4 [10; 13; 0; 5] true).
  - exists b'. split; [exact E|]. apply Hc. lia.
Defined.

Lemma session_closed_twice_witness :
  exists b' l1 l2, (ldn_bridge_close ;;; tcp_session_end 0 9) demo_connected = Ok tt b' /\
    br_out b' = l1 ++ [BrClose 9] ++ l2 ++ [BrClose 9].
Proof.
  apply (session_closed_twice 0 (session 9 0x0A0D0005) demo_connected); [reflexivity|reflexivity|cbn; lia].
Defined.
