(* ===== verification/NxGate.v ===== *)
(** When the console's client runs: [sysmodule/source/ldn_gate.cpp].

    [ldn_mitm] says over a service what the game does with local play; the gate polls it,
    keeps the last state and two times, and answers whether the relay should run
    ([ldn_gate_is_active]) or be started ([ldn_gate_is_active_for_start]).  The service
    calls and the clock are parameters.

    Shown here: both answers are those of a specification on the history of what was
    observed, for every sequence of polls; the service is never left open nor closed
    twice.  By the specification a hosting or joined game keeps the relay running until
    another event is observed, also once the service is lost and none can be. *)

From stdpp Require Import base list strings.
From S2P Require Import Prelude.
#[local] Open Scope Z_scope.

(** ** The code *)

Definition LANP_GATE_MAGIC : Z := 0x47504E4C.
Definition LANP_GATE_VERSION : Z := 1.
Definition LANP_GATE_TIMEOUT_SECONDS : Z := 120.
Definition LANP_GATE_TICKS_PER_SECOND : Z := 19200000.

Definition LANP_GATE_EVENT_NONE : Z := 0.
Definition LANP_GATE_EVENT_SCAN : Z := 1.
Definition LANP_GATE_EVENT_HOST : Z := 2.
Definition LANP_GATE_EVENT_CONNECT : Z := 3.
Definition LANP_GATE_EVENT_IDLE : Z := 4.
Definition LANP_GATE_EVENT_FINALIZE : Z := 5.
Definition LANP_GATE_EVENT_PREPARE : Z := 6.

Record lanp_gate_state_t := {
  gs_magic : Z;
  gs_version : Z;
  gs_event_type : Z;
  gs_active : Z;
  gs_process_id : Z;
  gs_title_id : Z;
  gs_local_communication_id : Z;
  gs_last_event_tick : Z;
  gs_scene_id : Z;
}.

(** What the gate asks of the system. *)
Inductive gate_event :=
| GtOpen                      (* smGetService succeeded *)
| GtClose                     (* serviceClose *)
| GtCloseHandle (h : Z)
| GtSleep (ns : Z)
| GtReset (h : Z).            (* svcResetSignal *)

#[export] Instance gate_event_eq_dec : EqDecision gate_event.
Proof. solve_decision. Defined.

(** The static variables; [ga_handle] is [None] for [INVALID_HANDLE]. *)
Record gate := {
  ga_state : lanp_gate_state_t;
  ga_connected : bool;
  ga_handle : option Z;
  ga_last_active : Z;         (* u64 *)
  ga_finalize : Z;            (* u64 *)
  ga_ticks : nat;
  ga_out : list gate_event;
}.

(** The system, by number of calls made.  A result is 0 for success. *)
Class GateSys := {
  gate_tick : nat -> Z;                            (* svcGetSystemTick *)
  sm_initialize : nat -> Z;
  sm_get_service : nat -> Z;
  gate_get_event : nat -> Z * option Z;            (* command 1: result and handle *)
  gate_get_state : nat -> Z * lanp_gate_state_t;   (* command 0: result and state *)
  gate_wait : nat -> Z;                            (* svcWaitSynchronizationSingle *)
}.

Definition set_ga_state (v : lanp_gate_state_t) (g : gate) : gate :=
  {| ga_state := v; ga_connected := ga_connected g; ga_handle := ga_handle g; ga_last_active := ga_last_active g;
     ga_finalize := ga_finalize g; ga_ticks := ga_ticks g; ga_out := ga_out g |}.
Definition set_ga_connected (v : bool) (g : gate) : gate :=
  {| ga_state := ga_state g; ga_connected := v; ga_handle := ga_handle g; ga_last_active := ga_last_active g;
     ga_finalize := ga_finalize g; ga_ticks := ga_ticks g; ga_out := ga_out g |}.
Definition set_ga_handle (v : option Z) (g : gate) : gate :=
  {| ga_state := ga_state g; ga_connected := ga_connected g; ga_handle := v; ga_last_active := ga_last_active g;
     ga_finalize := ga_finalize g; ga_ticks := ga_ticks g; ga_out := ga_out g |}.
Definition set_ga_last_active (v : Z) (g : gate) : gate :=
  {| ga_state := ga_state g; ga_connected := ga_connected g; ga_handle := ga_handle g; ga_last_active := v;
     ga_finalize := ga_finalize g; ga_ticks := ga_ticks g; ga_out := ga_out g |}.
Definition set_ga_finalize (v : Z) (g : gate) : gate :=
  {| ga_state := ga_state g; ga_connected := ga_connected g; ga_handle := ga_handle g;
     ga_last_active := ga_last_active g; ga_finalize := v; ga_ticks := ga_ticks g; ga_out := ga_out g |}.
Definition set_ga_ticks (v : nat) (g : gate) : gate :=
  {| ga_state := ga_state g; ga_connected := ga_connected g; ga_handle := ga_handle g;
     ga_last_active := ga_last_active g; ga_finalize := ga_finalize g; ga_ticks := v; ga_out := ga_out g |}.
Definition set_ga_out (v : list gate_event) (g : gate) : gate :=
  {| ga_state := ga_state g; ga_connected := ga_connected g; ga_handle := ga_handle g;
     ga_last_active := ga_last_active g; ga_finalize := ga_finalize g; ga_ticks := ga_ticks g; ga_out := v |}.

Definition gate_ask {A} (f : nat -> A) : M gate A :=
  fun g => Ok (f (ga_ticks g)) (set_ga_ticks (S (ga_ticks g)) g).
Definition gate_emit (e : gate_event) : M gate unit := modify (fun g => set_ga_out (ga_out g ++ [e]) g).

Definition ldn_gate_event_name (event_type : Z) : string :=
  if event_type =? LANP_GATE_EVENT_SCAN then "scan"
  else if event_type =? LANP_GATE_EVENT_HOST then "host"
  else if event_type =? LANP_GATE_EVENT_CONNECT then "connect"
  else if event_type =? LANP_GATE_EVENT_IDLE then "idle"
  else if event_type =? LANP_GATE_EVENT_FINALIZE then "finalize"
  else if event_type =? LANP_GATE_EVENT_PREPARE then "prepare"
  else "none".

Section code.
Context `{GateSys}.

Definition gate_now_tick : M gate Z := gate_ask gate_tick.

Definition gate_reset_state_locked : M gate unit :=
  let* now := gate_now_tick in
  modify (set_ga_state {| gs_magic := LANP_GATE_MAGIC; gs_version := LANP_GATE_VERSION;
    gs_event_type := LANP_GATE_EVENT_NONE; gs_active := 0; gs_process_id := 0; gs_title_id := 0;
    gs_local_communication_id := 0; gs_last_event_tick := now; gs_scene_id := 0 |}).

Definition ldn_gate_get_state : M gate lanp_gate_state_t := gets ga_state.

(** The end of both checks. *)
Definition recent_activity : M gate bool :=
  let* last := gets ga_last_active in
  if last =? 0 then ret false
  else
    let* now := gate_now_tick in
    let timeout_ticks := LANP_GATE_TICKS_PER_SECOND * LANP_GATE_TIMEOUT_SECONDS in
    ret (negb (timeout_ticks <? u64 (now - last))).

Definition ldn_gate_is_active : M gate bool :=
  let* st := ldn_gate_get_state in
  if negb (gs_magic st =? LANP_GATE_MAGIC) || negb (gs_version st =? LANP_GATE_VERSION) then ret false
  else if (gs_event_type st =? LANP_GATE_EVENT_HOST) || (gs_event_type st =? LANP_GATE_EVENT_CONNECT) then ret true
  else if gs_event_type st =? LANP_GATE_EVENT_FINALIZE then
    let* fin := gets ga_finalize in
    if negb (fin =? 0) then
      let* now := gate_now_tick in
      ret (u64 (now - fin) <=? LANP_GATE_TICKS_PER_SECOND * 10)
    else ret false
  else recent_activity.

Definition ldn_gate_is_active_for_start : M gate bool :=
  let* st := ldn_gate_get_state in
  if negb (gs_magic st =? LANP_GATE_MAGIC) || negb (gs_version st =? LANP_GATE_VERSION) then ret false
  else if gs_event_type st =? LANP_GATE_EVENT_FINALIZE then ret false
  else recent_activity.

(** Connecting to the service, on the first poll and after a failure: whether it is there. *)
Definition gate_connect : M gate bool :=
  let* rc := gate_ask sm_initialize in
  if negb (rc =? 0) then ret false
  else
    let* rc := gate_ask sm_get_service in
    if negb (rc =? 0) then ret false
    else
      gate_emit GtOpen ;;;
      modify (set_ga_connected true) ;;;
      let* handle := gets ga_handle in
      (if bool_decide (handle = None) then
         let* (rc, tmp_handle) := gate_ask gate_get_event in
         if (rc =? 0) && bool_decide (is_Some tmp_handle) then modify (set_ga_handle tmp_handle) else ret tt
       else ret tt) ;;;
      ret true.

(** A state from the service, with its magic and version. *)
Definition gate_update (st : lanp_gate_state_t) : M gate unit :=
  (if negb (gs_event_type st =? LANP_GATE_EVENT_NONE) && negb (gs_event_type st =? LANP_GATE_EVENT_FINALIZE) then
     let* now := gate_now_tick in
     modify (set_ga_last_active now) ;;;
     modify (set_ga_finalize 0)
   else ret tt) ;;;
  let* old := gets ga_state in
  (if (gs_event_type st =? LANP_GATE_EVENT_FINALIZE) && negb (gs_event_type old =? LANP_GATE_EVENT_FINALIZE) then
     let* now := gate_now_tick in
     modify (set_ga_finalize now)
   else ret tt) ;;;
  modify (set_ga_state st).

Definition ldn_gate_poll : M gate unit :=
  let* connected := gets ga_connected in
  let* there := if negb connected then gate_connect else ret true in
  if negb there then ret tt
  else
    let* (rc, st) := gate_ask gate_get_state in
    if negb (rc =? 0) then
      gate_emit GtClose ;;;
      modify (set_ga_connected false)
    else if (gs_magic st =? LANP_GATE_MAGIC) && (gs_version st =? LANP_GATE_VERSION) then gate_update st
    else ret tt.

Definition ldn_gate_service_init : M gate Z :=
  gate_reset_state_locked ;;;
  modify (set_ga_connected false) ;;;
  modify (set_ga_last_active 0) ;;;
  modify (set_ga_finalize 0) ;;;
  ret 0.

Definition ldn_gate_service_exit : M gate unit :=
  let* handle := gets ga_handle in
  (match handle with
   | Some h => gate_emit (GtCloseHandle h) ;;; modify (set_ga_handle None)
   | None => ret tt
   end) ;;;
  let* connected := gets ga_connected in
  if connected : bool then gate_emit GtClose ;;; modify (set_ga_connected false) else ret tt.

Definition ldn_gate_wait_event (timeout_ns : Z) : M gate bool :=
  let* handle := gets ga_handle in
  match handle with
  | None => gate_emit (GtSleep timeout_ns) ;;; ret false
  | Some h =>
      gate_emit (GtReset h) ;;;
      let* rc := gate_ask gate_wait in
      ret (rc =? 0)
  end.

Definition ldn_gate_service_available : bool := true.
End code.

(** ** The specification

    The history is what the polls observed, newest first: an event and the time. *)

Definition history : Type := list (Z * Z).

Definition is_activity (e : Z) : Prop := e <> LANP_GATE_EVENT_NONE /\ e <> LANP_GATE_EVENT_FINALIZE.

(** When the game was last seen using local play. *)
Fixpoint last_activity (h : history) : option Z :=
  match h with
  | [] => None
  | (e, t) :: h => if decide (is_activity e) then Some t else last_activity h
  end.

(** When the game left local play: the first of the latest observations that say so. *)
Fixpoint left_at (h : history) : option Z :=
  match h with
  | (e, t) :: h => if decide (e = LANP_GATE_EVENT_FINALIZE) then Some (default t (left_at h)) else None
  | [] => None
  end.

Definition seconds (n : Z) : Z := LANP_GATE_TICKS_PER_SECOND * n.
Definition recently (since : option Z) (now limit : Z) : bool :=
  match since with Some t => bool_decide (now - t <= limit) | None => false end.

(** Whether the relay should go on running, and whether it should be started. *)
Definition keep_running (h : history) (now : Z) : bool :=
  match h with
  | [] => false
  | (e, _) :: _ =>
      if decide (e = LANP_GATE_EVENT_HOST \/ e = LANP_GATE_EVENT_CONNECT) then true
      else if decide (e = LANP_GATE_EVENT_FINALIZE) then recently (left_at h) now (seconds 10)
      else recently (last_activity h) now (seconds 120)
  end.
Definition may_start (h : history) (now : Z) : bool :=
  match h with
  | [] => false
  | (e, _) :: _ =>
      if decide (e = LANP_GATE_EVENT_FINALIZE) then false else recently (last_activity h) now (seconds 120)
  end.

(** ** The gate implements it *)

Section refinement.
Context `{GateSys}.

(** The calls a poll makes before it asks for the state; [None]: the service is not there. *)
Definition connect_calls (g : gate) : option nat :=
  if ga_connected g then Some 0%nat
  else if decide (sm_initialize (ga_ticks g) = 0 /\ sm_get_service (S (ga_ticks g)) = 0) then
    Some (match ga_handle g with Some _ => 2%nat | None => 3%nat end)
  else None.
(** What a poll observes. *)
Definition observed (g : gate) : option (Z * Z) :=
  n ← connect_calls g;
  let k := (ga_ticks g + n)%nat in
  let '(rc, st) := gate_get_state k in
  if decide (rc = 0 /\ gs_magic st = LANP_GATE_MAGIC /\ gs_version st = LANP_GATE_VERSION)
  then Some (gs_event_type st, gate_tick (S k)) else None.

(** Uses of the gate by the program. *)
Inductive gate_op := GPoll | GCheck | GCheckStart | GWait (ns : Z).
Definition gate_do (op : gate_op) (h : history) : M gate history :=
  match op with
  | GPoll => let* o := gets observed in ldn_gate_poll ;;; ret (match o with Some x => x :: h | None => h end)
  | GCheck => let* _ := ldn_gate_is_active in ret h
  | GCheckStart => let* _ := ldn_gate_is_active_for_start in ret h
  | GWait ns => let* _ := ldn_gate_wait_event ns in ret h
  end.
Fixpoint gate_run (ops : list gate_op) (h : history) : M gate history :=
  match ops with
  | [] => ret h
  | op :: ops => let* h := gate_do op h in gate_run ops h
  end.

Definition head_event (h : history) : Z := default LANP_GATE_EVENT_NONE (fst <$> head h).

(** The state holds what is needed of the history. *)
Record implements (h : history) (g : gate) : Prop := {
  im_magic : gs_magic (ga_state g) = LANP_GATE_MAGIC;
  im_version : gs_version (ga_state g) = LANP_GATE_VERSION;
  im_event : gs_event_type (ga_state g) = head_event h;
  im_active : ga_last_active g = default 0 (last_activity h);
  im_finalize : head_event h = LANP_GATE_EVENT_FINALIZE -> left_at h = Some (ga_finalize g);
  im_times : Forall (fun x => 0 < x.2 <= gate_tick (ga_ticks g)) h;
}.

(** The clock runs, and starts above zero. *)
Definition clock_ok : Prop := forall k, 0 < gate_tick k <= gate_tick (S k) /\ gate_tick k < 2 ^ 64.

Lemma clock_mono j k : clock_ok -> (j <= k)%nat -> gate_tick j <= gate_tick k.
Proof. intros Hc Hjk. induction Hjk as [|k Hjk IH]; [done|]. destruct (Hc k). lia. Qed.

Lemma last_activity_in h t : last_activity h = Some t -> exists e, (e, t) ∈ h.
Proof.
  induction h as [|[e t'] h IH]; cbn; [done|]. case_decide.
  - intros [= ->]. exists e. by left.
  - intros [e' He]%IH. exists e'. by right.
Qed.
Lemma left_at_in h t : left_at h = Some t -> exists e, (e, t) ∈ h.
Proof.
  revert t. induction h as [|[e t'] h IH]; cbn; [done|]. intros t. case_decide; [|done]. intros [= <-].
  destruct (left_at h) as [t2|]; cbn; [destruct (IH t2 eq_refl) as [e' He]; exists e'; by right|exists e; by left].
Qed.

Lemma implements_ticks h g k :
  clock_ok -> (ga_ticks g <= k)%nat -> implements h g -> implements h (set_ga_ticks k g).
Proof.
  intros Hc Hk [H1 H2 H3 H4 H5 H6]. constructor; cbn; try done. eapply Forall_impl; [exact H6|]. cbn.
  pose proof (clock_mono _ _ Hc Hk). intros x. lia.
Qed.

Lemma u64_small x : 0 <= x < 2 ^ 64 -> u64 x = x.
Proof. intros. by apply Z.mod_small. Qed.

Lemma recent_run h g :
  clock_ok -> implements h g -> exists k, (ga_ticks g <= k)%nat /\
  recent_activity g = Ok (recently (last_activity h) (gate_tick (ga_ticks g)) (seconds 120)) (set_ga_ticks k g).
Proof.
  intros Hc [_ _ _ Ha _ Ht]. unfold recent_activity. unfold bind at 1, gets at 1. rewrite Ha.
  destruct (last_activity h) as [t|] eqn:El; cbn [default from_option].
  - destruct (last_activity_in h t El) as [e He]. rewrite Forall_forall in Ht. specialize (Ht _ He). cbn in Ht.
    change (id t) with t. rewrite (proj2 (Z.eqb_neq t 0)) by lia. exists (S (ga_ticks g)). split; [lia|].
    unfold bind, gate_now_tick, gate_ask, ret. f_equal. destruct (Hc (ga_ticks g)) as [_ Hmax].
    rewrite u64_small by lia. cbn [recently]. unfold seconds. change LANP_GATE_TIMEOUT_SECONDS with 120.
    destruct (Z.ltb_spec (LANP_GATE_TICKS_PER_SECOND * 120) (gate_tick (ga_ticks g) - t)); cbn [negb];
      symmetry; [apply bool_decide_eq_false|apply bool_decide_eq_true]; lia.
  - exists (ga_ticks g). split; [lia|]. cbn. by destruct g.
Qed.

Lemma is_active_run h g :
  clock_ok -> implements h g -> exists k, (ga_ticks g <= k)%nat /\
  ldn_gate_is_active g = Ok (keep_running h (gate_tick (ga_ticks g))) (set_ga_ticks k g).
Proof.
  intros Hc Hi. pose proof Hi as [Hm Hv He _ Hf Ht]. unfold ldn_gate_is_active, ldn_gate_get_state.
  unfold bind at 1, gets at 1. rewrite Hm, Hv, !Z.eqb_refl, He. cbn [negb orb].
  destruct h as [|[e t] h]; cbn [head_event head fmap option_fmap option_map default from_option fst] in *.
  { destruct (recent_run [] g Hc Hi) as (k & Hk & E). by exists k. }
  unfold id in *. cbn [keep_running]. change (id e) with e.
  destruct (Z.eqb_spec e LANP_GATE_EVENT_HOST) as [->|Hh]; cbn [orb].
  { exists (ga_ticks g). split; [lia|]. rewrite decide_True by tauto. by destruct g. }
  destruct (Z.eqb_spec e LANP_GATE_EVENT_CONNECT) as [->|Hcn].
  { exists (ga_ticks g). split; [lia|]. rewrite decide_True by tauto. by destruct g. }
  rewrite decide_False by tauto. destruct (Z.eqb_spec e LANP_GATE_EVENT_FINALIZE) as [->|Hfn].
  - rewrite decide_True by done. specialize (Hf eq_refl). rewrite Hf.
    destruct (left_at_in _ _ Hf) as [e' He']. rewrite Forall_forall in Ht. specialize (Ht _ He'). cbn in Ht.
    unfold bind at 1, gets at 1. rewrite (proj2 (Z.eqb_neq _ 0)) by lia. cbn [negb]. exists (S (ga_ticks g)). split; [lia|].
    unfold bind, gate_now_tick, gate_ask, ret. f_equal. destruct (Hc (ga_ticks g)) as [_ Hmax]. rewrite u64_small by lia.
    cbn [recently]. unfold seconds. destruct (Z.leb_spec (gate_tick (ga_ticks g) - ga_finalize g) (LANP_GATE_TICKS_PER_SECOND * 10));
      symmetry; [apply bool_decide_eq_true|apply bool_decide_eq_false]; lia.
  - rewrite decide_False by done. by apply recent_run.
Qed.

Lemma is_active_for_start_run h g :
  clock_ok -> implements h g -> exists k, (ga_ticks g <= k)%nat /\
  ldn_gate_is_active_for_start g = Ok (may_start h (gate_tick (ga_ticks g))) (set_ga_ticks k g).
Proof.
  intros Hc Hi. pose proof Hi as [Hm Hv He _ Hf Ht]. unfold ldn_gate_is_active_for_start, ldn_gate_get_state.
  unfold bind at 1, gets at 1. rewrite Hm, Hv, !Z.eqb_refl, He. cbn [negb orb].
  destruct h as [|[e t] h]; cbn [head_event head fmap option_fmap option_map default from_option fst] in *.
  { destruct (recent_run [] g Hc Hi) as (k & Hk & E). by exists k. }
  cbn [may_start]. change (id e) with e. destruct (Z.eqb_spec e LANP_GATE_EVENT_FINALIZE) as [->|Hfn].
  - exists (ga_ticks g). split; [lia|]. rewrite decide_True by done. by destruct g.
  - rewrite decide_False by done. by apply recent_run.
Qed.

(** Opened and not closed. *)
Definition opens (l : list gate_event) : nat := length (filter (fun e => e = GtOpen) l).
Definition closings (l : list gate_event) : nat := length (filter (fun e => e = GtClose) l).
Definition service_ok (g : gate) : Prop := opens (ga_out g) = (closings (ga_out g) + Nat.b2n (ga_connected g))%nat.

Lemma opens_app l k : opens (l ++ k) = (opens l + opens k)%nat.
Proof. unfold opens. by rewrite filter_app, length_app. Qed.
Lemma closings_app l k : closings (l ++ k) = (closings l + closings k)%nat.
Proof. unfold closings. by rewrite filter_app, length_app. Qed.

Lemma gate_update_run h g st :
  clock_ok -> implements h g -> gs_magic st = LANP_GATE_MAGIC -> gs_version st = LANP_GATE_VERSION ->
  exists g', gate_update st g = Ok tt g' /\ implements ((gs_event_type st, gate_tick (ga_ticks g)) :: h) g' /\
    ga_connected g' = ga_connected g /\ ga_handle g' = ga_handle g /\ ga_out g' = ga_out g.
Proof.
  intros Hc [Hm Hv He Ha Hf Ht] Hsm Hsv. destruct (Hc (ga_ticks g)) as [[Hpos Hstep] _].
  assert (Hnew : forall k, (ga_ticks g <= k)%nat ->
    Forall (fun x => 0 < x.2 <= gate_tick k) ((gs_event_type st, gate_tick (ga_ticks g)) :: h)).
  { intros k Hk. pose proof (clock_mono _ _ Hc Hk). constructor; [cbn; lia|]. eapply Forall_impl; [exact Ht|]. cbn. intros x. lia. }
  unfold gate_update. destruct (Z.eqb_spec (gs_event_type st) LANP_GATE_EVENT_NONE) as [En|En];
    [|destruct (Z.eqb_spec (gs_event_type st) LANP_GATE_EVENT_FINALIZE) as [Ef|Ef]]; cbn [negb andb].
  - rewrite En in *. cbn. eexists. split; [reflexivity|]. split; [|done].
    constructor; cbn; try done. by apply Hnew.
  - unfold bind at 1, ret at 1. unfold bind at 1, gets at 1. rewrite He. destruct (Z.eqb_spec (head_event h) LANP_GATE_EVENT_FINALIZE) as [Eh|Eh].
    + cbn. eexists. split; [reflexivity|]. split; [|done]. constructor; cbn; try done.
      * rewrite decide_False; [done|]. unfold is_activity. naive_solver.
      * intros _. rewrite decide_True by done. by rewrite (Hf Eh).
      * by apply Hnew.
    + cbn. eexists. split; [reflexivity|]. split; [|done]. constructor; cbn; try done.
      * rewrite decide_False; [done|]. unfold is_activity. naive_solver.
      * intros _. rewrite decide_True by done. f_equal. destruct h as [|[e t] h]; [done|]. cbn in Eh |- *.
        by rewrite decide_False by done.
      * apply Hnew. lia.
  - cbn. eexists. split; [reflexivity|]. split; [|done]. constructor; cbn; try done.
    + by rewrite decide_True.
    + apply Hnew. lia.
Qed.

Lemma gate_connect_run h g :
  clock_ok -> implements h g -> ga_connected g = false -> service_ok g ->
  exists g', gate_connect g = Ok (bool_decide (is_Some (connect_calls g))) g' /\ implements h g' /\ service_ok g' /\
    (forall n, connect_calls g = Some n -> ga_connected g' = true /\ ga_ticks g' = (ga_ticks g + n)%nat).
Proof.
  intros Hc Hi Hn Hs. unfold gate_connect, connect_calls. rewrite Hn. unfold bind at 1, gate_ask at 1.
  assert (Hadd : forall k, (ga_ticks g <= k)%nat -> implements h (set_ga_ticks k g)) by (intros; by apply implements_ticks).
  destruct (Z.eqb_spec (sm_initialize (ga_ticks g)) 0) as [E1|E1]; cbn [negb].
  2: { rewrite decide_False by naive_solver. eexists. split; [reflexivity|]. split; [by apply Hadd; lia|done]. }
  unfold bind at 1, gate_ask at 1. cbn [ga_ticks set_ga_ticks].
  destruct (Z.eqb_spec (sm_get_service (S (ga_ticks g))) 0) as [E2|E2]; cbn [negb].
  2: { rewrite decide_False by naive_solver. eexists. split; [reflexivity|]. split; [|done].
       apply (Hadd (S (S (ga_ticks g)))). lia. }
  rewrite decide_True by done. unfold bind at 1, gate_emit at 1, modify at 1. unfold bind at 1, modify at 1. unfold bind at 1, gets at 1.
  cbn [ga_handle set_ga_connected set_ga_out set_ga_ticks].
  assert (Ho : opens (ga_out g ++ [GtOpen]) = (closings (ga_out g ++ [GtOpen]) + 1)%nat).
  { rewrite opens_app, closings_app. unfold service_ok in Hs. rewrite Hn in Hs.
    change (opens [GtOpen]) with 1%nat. change (closings [GtOpen]) with 0%nat. change (Nat.b2n false) with 0%nat in Hs. lia. }
  assert (Himpl : forall k hd c, (ga_ticks g <= k)%nat ->
    implements h (set_ga_ticks k (set_ga_handle hd (set_ga_connected c (set_ga_out (ga_out g ++ [GtOpen]) g))))).
  { intros k hd c Hk. destruct (Hadd k Hk) as [H1 H2 H3 H4 H5 H6]. by constructor. }
  destruct (ga_handle g) as [hd|] eqn:Eh; cbn.
  - eexists. split; [reflexivity|]. split; [|split; [exact Ho|]].
    + replace (set_ga_connected _ _) with
        (set_ga_ticks (S (S (ga_ticks g))) (set_ga_handle (Some hd) (set_ga_connected true (set_ga_out (ga_out g ++ [GtOpen]) g))));
        [apply Himpl; lia|]. unfold set_ga_ticks, set_ga_handle, set_ga_connected, set_ga_out. cbn. by rewrite Eh.
    + intros n [= <-]. split; [done|cbn; lia].
  - unfold bind, gate_ask. cbn. destruct (gate_get_event (S (S (ga_ticks g)))) as [rc tmp].
    exists (set_ga_ticks (S (S (S (ga_ticks g)))) (set_ga_handle (if (rc =? 0) && bool_decide (is_Some tmp) then tmp else None)
      (set_ga_connected true (set_ga_out (ga_out g ++ [GtOpen]) g)))).
    split; [|split; [apply Himpl; lia|split; [exact Ho|]]].
    + destruct ((rc =? 0) && bool_decide (is_Some tmp)); unfold modify, ret, set_ga_ticks, set_ga_handle, set_ga_connected, set_ga_out;
        cbn; by rewrite ?Eh.
    + intros n [= <-]. split; [done|cbn; lia].
Qed.

Definition extended (h : history) (o : option (Z * Z)) : history := match o with Some x => x :: h | None => h end.

(** Asking for the state, once the service is there. *)
Lemma poll_state_run h g :
  clock_ok -> implements h g -> service_ok g -> ga_connected g = true ->
  let '(rc, st) := gate_get_state (ga_ticks g) in
  exists g', (let* (rc, st) := gate_ask gate_get_state in
    if negb (rc =? 0) then gate_emit GtClose ;;; modify (set_ga_connected false)
    else if (gs_magic st =? LANP_GATE_MAGIC) && (gs_version st =? LANP_GATE_VERSION) then gate_update st
    else ret tt) g = Ok tt g' /\ service_ok g' /\
    implements (extended h (if decide (rc = 0 /\ gs_magic st = LANP_GATE_MAGIC /\ gs_version st = LANP_GATE_VERSION)
                            then Some (gs_event_type st, gate_tick (S (ga_ticks g))) else None)) g'.
Proof.
  intros Hc Hi Hs Hn. unfold bind at 1, gate_ask at 1. destruct (gate_get_state (ga_ticks g)) as [rc st].
  assert (Hi' : implements h (set_ga_ticks (S (ga_ticks g)) g)) by (apply implements_ticks; (done || lia)).
  destruct (Z.eqb_spec rc 0) as [->|Hrc]; cbn [negb].
  2: { eexists. split; [reflexivity|]. rewrite decide_False by naive_solver. split.
       - unfold service_ok in *. cbn [ga_out ga_connected set_ga_connected set_ga_out]. cbn [ga_out set_ga_ticks].
         rewrite opens_app, closings_app, Hs, Hn. change (opens [GtClose]) with 0%nat. change (closings [GtClose]) with 1%nat.
         change (Nat.b2n true) with 1%nat. change (Nat.b2n false) with 0%nat. lia.
       - destruct Hi' as [H1 H2 H3 H4 H5 H6]. by constructor. }
  destruct (Z.eqb_spec (gs_magic st) LANP_GATE_MAGIC) as [Hm|Hm];
    [destruct (Z.eqb_spec (gs_version st) LANP_GATE_VERSION) as [Hv|Hv]|]; cbn [andb].
  - destruct (gate_update_run h _ st Hc Hi' Hm Hv) as (g' & E & Hi2 & E1 & E2 & E3). exists g'. split; [exact E|].
    rewrite decide_True by done. split; [|done]. unfold service_ok in *. by rewrite E1, E3.
  - eexists. split; [reflexivity|]. by rewrite decide_False by naive_solver.
  - eexists. split; [reflexivity|]. by rewrite decide_False by naive_solver.
Qed.

Lemma poll_run h g :
  clock_ok -> implements h g -> service_ok g ->
  exists g', ldn_gate_poll g = Ok tt g' /\ service_ok g' /\ implements (extended h (observed g)) g'.
Proof.
  intros Hc Hi Hs. unfold ldn_gate_poll, observed. unfold bind at 1, gets at 1. destruct (ga_connected g) eqn:Hn; cbn [negb].
  - unfold bind at 1, ret at 1. cbn [negb]. unfold connect_calls. rewrite Hn. cbn [mbind option_bind]. rewrite Nat.add_0_r.
    pose proof (poll_state_run h g Hc Hi Hs Hn) as Hp. by destruct (gate_get_state (ga_ticks g)).
  - destruct (gate_connect_run h g Hc Hi Hn Hs) as (g1 & E1 & Hi1 & Hs1 & Hk). rewrite (bind_ok _ _ _ _ _ E1).
    destruct (connect_calls g) as [n|] eqn:Ec.
    + rewrite bool_decide_true by done. cbn [negb mbind option_bind]. destruct (Hk n eq_refl) as [Hn1 <-].
      pose proof (poll_state_run h g1 Hc Hi1 Hs1 Hn1) as Hp. by destruct (gate_get_state (ga_ticks g1)).
    + rewrite bool_decide_false by (by intros [? ?]). cbn. by exists g1.
Qed.

Lemma wait_event_run h g ns :
  clock_ok -> implements h g -> service_ok g ->
  exists r g', ldn_gate_wait_event ns g = Ok r g' /\ implements h g' /\ service_ok g'.
Proof.
  intros Hc Hi Hs. unfold ldn_gate_wait_event. unfold bind at 1, gets at 1. destruct (ga_handle g) as [hd|].
  - do 2 eexists. split; [reflexivity|]. split.
    + pose proof (implements_ticks h g (S (ga_ticks g)) Hc ltac:(lia) Hi) as [H1 H2 H3 H4 H5 H6]. by constructor.
    + unfold service_ok in *. cbn [ga_out ga_connected set_ga_ticks set_ga_out]. rewrite opens_app, closings_app, Hs.
      change (opens [GtReset hd]) with 0%nat. change (closings [GtReset hd]) with 0%nat. lia.
  - do 2 eexists. split; [reflexivity|]. split; [destruct Hi as [H1 H2 H3 H4 H5 H6]; by constructor|].
    unfold service_ok in *. cbn [ga_out ga_connected set_ga_out]. rewrite opens_app, closings_app, Hs.
    change (opens [GtSleep ns]) with 0%nat. change (closings [GtSleep ns]) with 0%nat. lia.
Qed.

Lemma gate_run_ok ops h g :
  clock_ok -> implements h g -> service_ok g ->
  exists h' g', gate_run ops h g = Ok h' g' /\ implements h' g' /\ service_ok g'.
Proof.
  intros Hc. revert h g. induction ops as [|op ops IH]; intros h g Hi Hs; [by exists h, g|]. cbn [gate_run].
  assert (exists h1 g1, gate_do op h g = Ok h1 g1 /\ implements h1 g1 /\ service_ok g1) as (h1 & g1 & E & Hi1 & Hs1).
  { destruct op as [| | |ns]; cbn [gate_do].
    - unfold bind at 1, gets at 1. destruct (poll_run h g Hc Hi Hs) as (g1 & E & Hs1 & Hi1). rewrite (bind_ok _ _ _ _ _ E).
      by exists (extended h (observed g)), g1.
    - destruct (is_active_run h g Hc Hi) as (k & Hk & E). rewrite (bind_ok _ _ _ _ _ E). do 2 eexists. split; [reflexivity|].
      split; [by apply implements_ticks|done].
    - destruct (is_active_for_start_run h g Hc Hi) as (k & Hk & E). rewrite (bind_ok _ _ _ _ _ E). do 2 eexists.
      split; [reflexivity|]. split; [by apply implements_ticks|done].
    - destruct (wait_event_run h g ns Hc Hi Hs) as (r & g1 & E & Hi1 & Hs1). rewrite (bind_ok _ _ _ _ _ E). by exists h, g1. }
  rewrite (bind_ok _ _ _ _ _ E). by apply IH.
Qed.

Lemma init_run g :
  ga_out g = [] ->
  exists g0, ldn_gate_service_init g = Ok 0 g0 /\ implements [] g0 /\ service_ok g0.
Proof. intros Ho. eexists. split; [reflexivity|]. split; [by constructor|]. unfold service_ok. cbn. by rewrite Ho. Qed.
End refinement.

(** ** Results *)

Section results.
Context `{GateSys}.

(** C19: for every sequence of polls, checks and waits after the start, with a clock that
    runs, every call returns and both answers are those of the specification on what the
    polls observed: the relay goes on while a game hosts or has joined, for ten seconds
    after it left local play, and otherwise for two minutes after the last activity; it is
    started only within two minutes of activity and not after the game left. *)
Theorem gate_refines ops g :
  clock_ok -> ga_out g = [] ->
  exists g0 h g1 g2 g3, ldn_gate_service_init g = Ok 0 g0 /\ gate_run ops [] g0 = Ok h g1 /\
    ldn_gate_is_active g1 = Ok (keep_running h (gate_tick (ga_ticks g1))) g2 /\
    ldn_gate_is_active_for_start g1 = Ok (may_start h (gate_tick (ga_ticks g1))) g3.
Proof.
  intros Hc Ho. destruct (init_run g Ho) as (g0 & E0 & Hi0 & Hs0).
  destruct (gate_run_ok ops [] g0 Hc Hi0 Hs0) as (h & g1 & E1 & Hi1 & _).
  destruct (is_active_run h g1 Hc Hi1) as (k2 & _ & E2). destruct (is_active_for_start_run h g1 Hc Hi1) as (k3 & _ & E3).
  by exists g0, h, g1, (set_ga_ticks k2 g1), (set_ga_ticks k3 g1).
Qed.

(** The service over such a run: it is opened once more than it was closed while the
    gate is connected, and as often otherwise; closing the gate closes it if it is open, and
    leaves no event handle. *)
Theorem gate_service_closed ops g :
  clock_ok -> ga_out g = [] ->
  exists g0 h g1 g2, ldn_gate_service_init g = Ok 0 g0 /\ gate_run ops [] g0 = Ok h g1 /\
    opens (ga_out g1) = (closings (ga_out g1) + Nat.b2n (ga_connected g1))%nat /\
    ldn_gate_service_exit g1 = Ok tt g2 /\ opens (ga_out g2) = closings (ga_out g2) /\
    ga_connected g2 = false /\ ga_handle g2 = None.
Proof.
  intros Hc Ho. destruct (init_run g Ho) as (g0 & E0 & Hi0 & Hs0).
  destruct (gate_run_ok ops [] g0 Hc Hi0 Hs0) as (h & g1 & E1 & _ & Hs1). unfold service_ok in Hs1.
  exists g0, h, g1. unfold ldn_gate_service_exit, bind, gets, gate_emit, modify, ret.
  destruct (ga_handle g1) as [hd|] eqn:Eh, (ga_connected g1) eqn:En; cbn; rewrite ?En; cbn;
    (eexists; split_and!; [done..|reflexivity| |by cbn; rewrite ?En, ?Eh|by cbn; rewrite ?En, ?Eh]);
    cbn [ga_out set_ga_out set_ga_connected set_ga_handle]; rewrite ?opens_app, ?closings_app, ?Hs1;
    repeat match goal with
    | |- context [opens [?e]] => let n := eval vm_compute in (opens [e]) in change (opens [e]) with n
    | |- context [closings [?e]] => let n := eval vm_compute in (closings [e]) in change (closings [e]) with n
    end; cbn; lia.
Qed.
End results.

(** ** Concrete runs *)

Definition demo_gate_state (event : Z) : lanp_gate_state_t :=
  {| gs_magic := LANP_GATE_MAGIC; gs_version := LANP_GATE_VERSION; gs_event_type := event; gs_active := 1;
     gs_process_id := 0; gs_title_id := 0; gs_local_communication_id := 0; gs_last_event_tick := 0; gs_scene_id := 0 |}.
(** A scan first, then the game leaves; fifteen seconds per call. *)
Definition demo_gate_sys : GateSys :=
  {| gate_tick := fun k => Z.min (Z.of_nat k * 288000000 + 1) (2 ^ 63); sm_initialize := fun _ => 0; sm_get_service := fun _ => 0;
     gate_get_event := fun _ => (1, None);
     gate_get_state := fun k => (0, demo_gate_state (if (k <=? 4)%nat then LANP_GATE_EVENT_SCAN else LANP_GATE_EVENT_FINALIZE));
     gate_wait := fun _ => 0 |}.
Definition demo_gate : gate :=
  {| ga_state := demo_gate_state 0; ga_connected := false; ga_handle := None; ga_last_active := 0; ga_finalize := 0;
     ga_ticks := 0; ga_out := [] |}.

Lemma demo_clock : @clock_ok demo_gate_sys.
Proof. intros k. cbn [gate_tick demo_gate_sys]. lia. Qed.

Lemma gate_refines_witness :
  exists g0 h g1 g2 g3, ldn_gate_service_init (H := demo_gate_sys) demo_gate = Ok 0 g0 /\
    gate_run (H := demo_gate_sys) [GPoll; GPoll; GWait 5] [] g0 = Ok h g1 /\
    ldn_gate_is_active (H := demo_gate_sys) g1 = Ok (keep_running h (gate_tick (GateSys := demo_gate_sys) (ga_ticks g1))) g2 /\
    ldn_gate_is_active_for_start (H := demo_gate_sys) g1 =
      Ok (may_start h (gate_tick (GateSys := demo_gate_sys) (ga_ticks g1))) g3.
Proof. apply (gate_refines (H := demo_gate_sys) [GPoll; GPoll; GWait 5] demo_gate demo_clock). reflexivity. Defined.

Lemma gate_service_closed_witness :
  exists g0 h g1 g2, ldn_gate_service_init (H := demo_gate_sys) demo_gate = Ok 0 g0 /\
    gate_run (H := demo_gate_sys) [GPoll; GCheck] [] g0 = Ok h g1 /\
    opens (ga_out g1) = (closings (ga_out g1) + Nat.b2n (ga_connected g1))%nat /\
    ldn_gate_service_exit g1 = Ok tt g2 /\ opens (ga_out g2) = closings (ga_out g2) /\
    ga_connected g2 = false /\ ga_handle g2 = None.
Proof. apply (gate_service_closed (H := demo_gate_sys) [GPoll; GCheck] demo_gate demo_clock). reflexivity. Defined.
