(* ===== verification/NxConfig.v ===== *)
(** The console's configuration file: [sysmodule/source/config.cpp].

    A file is the list of its bytes, or [None] if it cannot be opened; a string is the list
    of its bytes before the terminator.  A field of [nx_config_t] is its array, all bytes,
    so that [strncpy] and its padding are visible.

    Shown here: what a field holds after any file, always terminated; saving a relay address
    and loading the file gives that address and every other setting as before, for every
    text file the code can hold; the address the console gives itself is one of the virtual
    network's hosts and not the gateway's; where saving loses settings. *)

From stdpp Require Import strings.
From S2P Require Import Prelude Byteorder Structs Checksum Packet Arp Ipv4 LanClient Dispatch Nx NxClient NxTap Helper.

(** ** The C library *)

(** [fgets] with room for [size] bytes: a line with its newline, or the first [size - 1] bytes
    of a longer one; the rest of the file. *)
Fixpoint fgets_loop (room : nat) (f : bytes) : bytes * bytes :=
  match room, f with
  | S room, c :: f =>
      if c =? 10 then ([c], f)
      else let '(l, r) := fgets_loop room f in (c :: l, r)
  | _, _ => ([], f)
  end.
Definition fgets (size : Z) (f : bytes) : option (bytes * bytes) :=
  match f with [] => None | _ => Some (fgets_loop (Z.to_nat (size - 1)) f) end.

(** [strncpy(dst, src, n)]: padded with zeros up to [n]. *)
Definition strncpy (dst src : bytes) (n : Z) : bytes :=
  take (Z.to_nat n) (src ++ replicate (Z.to_nat n) 0) ++ drop (Z.to_nat n) dst.

(** ** The code *)

Definition NX_IP_MAX : Z := 16.
Definition NX_STR_MAX : Z := 256.
Definition MAX_CONFIG_LINES : Z := 64.
Definition MAX_LINE_LEN : Z := 512.

Record nx_config_t := {
  cf_relay_addr : bytes;
  cf_my_ip : bytes;
  cf_subnet_net : bytes;
  cf_subnet_mask : bytes;
  cf_username : bytes;
  cf_password : bytes;
}.

Definition set_cf_relay_addr (v : bytes) (c : nx_config_t) : nx_config_t :=
  {| cf_relay_addr := v; cf_my_ip := cf_my_ip c; cf_subnet_net := cf_subnet_net c; cf_subnet_mask := cf_subnet_mask c;
     cf_username := cf_username c; cf_password := cf_password c |}.
Definition set_cf_my_ip (v : bytes) (c : nx_config_t) : nx_config_t :=
  {| cf_relay_addr := cf_relay_addr c; cf_my_ip := v; cf_subnet_net := cf_subnet_net c;
     cf_subnet_mask := cf_subnet_mask c; cf_username := cf_username c; cf_password := cf_password c |}.
Definition set_cf_subnet_net (v : bytes) (c : nx_config_t) : nx_config_t :=
  {| cf_relay_addr := cf_relay_addr c; cf_my_ip := cf_my_ip c; cf_subnet_net := v;
     cf_subnet_mask := cf_subnet_mask c; cf_username := cf_username c; cf_password := cf_password c |}.
Definition set_cf_subnet_mask (v : bytes) (c : nx_config_t) : nx_config_t :=
  {| cf_relay_addr := cf_relay_addr c; cf_my_ip := cf_my_ip c; cf_subnet_net := cf_subnet_net c;
     cf_subnet_mask := v; cf_username := cf_username c; cf_password := cf_password c |}.
Definition set_cf_username (v : bytes) (c : nx_config_t) : nx_config_t :=
  {| cf_relay_addr := cf_relay_addr c; cf_my_ip := cf_my_ip c; cf_subnet_net := cf_subnet_net c;
     cf_subnet_mask := cf_subnet_mask c; cf_username := v; cf_password := cf_password c |}.
Definition set_cf_password (v : bytes) (c : nx_config_t) : nx_config_t :=
  {| cf_relay_addr := cf_relay_addr c; cf_my_ip := cf_my_ip c; cf_subnet_net := cf_subnet_net c;
     cf_subnet_mask := cf_subnet_mask c; cf_username := cf_username c; cf_password := v |}.

(** [trim]: blanks and tabs at the front; these, carriage returns and newlines at the end. *)
Definition is_blank (c : Z) : bool := (c =? 32) || (c =? 9).
Definition is_trailing (c : Z) : bool := (c =? 32) || (c =? 9) || (c =? 13) || (c =? 10).
Fixpoint skip_blank (s : bytes) : bytes :=
  match s with c :: s' => if is_blank c then skip_blank s' else s | [] => [] end.
Fixpoint cut_trailing (s : bytes) : bytes :=
  match s with
  | [] => []
  | c :: s => match cut_trailing s with [] => if is_trailing c then [] else [c] | t => c :: t end
  end.
Definition trim (s : bytes) : bytes := cut_trailing (skip_blank s).

Definition set_defaults : nx_config_t :=
  let zero (n : Z) : bytes := replicate (Z.to_nat n) 0 in
  {| cf_relay_addr := zero NX_STR_MAX; cf_my_ip := zero NX_IP_MAX;
     cf_subnet_net := strncpy (zero NX_IP_MAX) (cstr "10.13.0.0") (NX_IP_MAX - 1);
     cf_subnet_mask := strncpy (zero NX_IP_MAX) (cstr "255.255.0.0") (NX_IP_MAX - 1);
     cf_username := zero NX_STR_MAX; cf_password := zero NX_STR_MAX |}.

(** The body of the loop of [nx_config_load]; [line] is the buffer up to its terminator. *)
Definition config_line (cfg : nx_config_t) (line : bytes) : nx_config_t :=
  let line := trim line in
  match line with
  | [] => cfg
  | c :: _ =>
      if (c =? 59) || (c =? 35) || (c =? 91) then cfg          (* ; # [ *)
      else
        match split_char line 61 with
        | None => cfg
        | Some (key, val) =>
            let key := trim key in
            let val := trim val in
            if bool_decide (key = cstr "relay_addr") then
              set_cf_relay_addr (strncpy (cf_relay_addr cfg) val (NX_STR_MAX - 1)) cfg
            else if bool_decide (key = cstr "ip") then set_cf_my_ip (strncpy (cf_my_ip cfg) val (NX_IP_MAX - 1)) cfg
            else if bool_decide (key = cstr "subnet_net") then
              set_cf_subnet_net (strncpy (cf_subnet_net cfg) val (NX_IP_MAX - 1)) cfg
            else if bool_decide (key = cstr "subnet_mask") then
              set_cf_subnet_mask (strncpy (cf_subnet_mask cfg) val (NX_IP_MAX - 1)) cfg
            else if bool_decide (key = cstr "username") then
              set_cf_username (strncpy (cf_username cfg) val (NX_STR_MAX - 1)) cfg
            else if bool_decide (key = cstr "password") then
              set_cf_password (strncpy (cf_password cfg) val (NX_STR_MAX - 1)) cfg
            else cfg
        end
  end.

(** The loop; a round reads at least a byte, so as many rounds as the file has are enough. *)
Fixpoint load_loop (fuel : nat) (cfg : nx_config_t) (f : bytes) : nx_config_t :=
  match fuel with
  | O => cfg
  | S fuel =>
      match fgets MAX_LINE_LEN f with
      | None => cfg
      | Some (line, f) => load_loop fuel (config_line cfg (cstring line)) f
      end
  end.
Definition nx_config_load (file : option bytes) : Z * nx_config_t :=
  match file with
  | None => (-1, set_defaults)
  | Some f =>
      let cfg := load_loop (S (length f)) set_defaults f in
      (if bool_decide (cstring (cf_relay_addr cfg) = []) then -1 else 0, cfg)
  end.

(** [serial]: what [setsysGetSerialNumber] gave, if it succeeded. *)
Definition nx_config_auto_ip (serial : option bytes) (cfg : nx_config_t) : nx_config_t :=
  if negb (bool_decide (cstring (cf_my_ip cfg) = [])) then cfg
  else
    let h := match serial with
             | Some number => (fnv1a number 0x811c9dc5 0).1
             | None => 0x5851f42d
             end in
    let x := Z.land (Z.shiftr h 8) 0xFF in
    let y := Z.land h 0xFF in
    let x := if x =? 0 then 1 else x in
    let x := if x =? 255 then 254 else x in
    let y := if y =? 0 then 1 else y in
    let y := if y =? 255 then 254 else y in
    let y := if (x =? 37) && (y =? 1) then 2 else y in
    let text := cstr "10.13." ++ dec 3 x ++ [46] ++ dec 3 y in
    set_cf_my_ip (text ++ 0 :: drop (S (length text)) (cf_my_ip cfg)) cfg.

Definition newline : bytes := [10].
(** The template. *)
Definition default_file : bytes :=
  cstr "; switch-lan-play configuration" ++ newline ++
  cstr "; Use the LanPlay Setup homebrew app to configure this file," ++ newline ++
  cstr "; or edit it manually and reboot." ++ newline ++ newline ++
  cstr "[server]" ++ newline ++
  cstr "; Address of the relay server (host:port or just host for default port)" ++ newline ++
  cstr "relay_addr = YOUR_SERVER:11451" ++ newline ++ newline ++
  cstr "; Optional: only needed if the server requires a password" ++ newline ++
  cstr "; username =" ++ newline ++ cstr "; password =" ++ newline ++ newline ++
  cstr "; Advanced: manually pin the virtual IP (leave commented for auto)" ++ newline ++
  cstr "; ip = 10.13.1.1" ++ newline.
(** The file after [nx_config_write_default]; [writable]: whether it could be opened. *)
Definition nx_config_write_default (file : option bytes) (writable : bool) : Z * option bytes :=
  if writable then (0, Some default_file) else (-1, file).

(** Reading at most [n] lines into the table. *)
Fixpoint read_lines (n : nat) (f : bytes) : list bytes :=
  match n with
  | O => []
  | S n => match fgets MAX_LINE_LEN f with None => [] | Some (line, f) => cstring line :: read_lines n f end
  end.
(** [snprintf(lines[i], MAX_LINE_LEN, "relay_addr = %s\n", relay_addr)] *)
Definition relay_line (relay_addr : bytes) : bytes :=
  take (Z.to_nat (MAX_LINE_LEN - 1)) (cstr "relay_addr = " ++ relay_addr ++ newline).
(** [strncmp(tmp, "relay_addr", 10) == 0 && strchr(tmp, '=')] *)
Definition is_relay_line (line : bytes) : bool :=
  let tmp := trim line in
  bool_decide (take 10 tmp = cstr "relay_addr") && bool_decide (is_Some (split_char tmp 61)).
Fixpoint replace_relay (lines : list bytes) (relay_addr : bytes) : list bytes * bool :=
  match lines with
  | [] => ([], false)
  | l :: lines =>
      if is_relay_line l then (relay_line relay_addr :: lines, true)
      else let '(ls, found) := replace_relay lines relay_addr in (l :: ls, found)
  end.

(** The new file; [writable]: whether it could be opened for writing. *)
Definition nx_config_save_relay (file : option bytes) (writable : bool) (relay_addr : bytes) : Z * option bytes :=
  let lines := match file with Some f => read_lines (Z.to_nat (MAX_CONFIG_LINES - 1)) f | None => [] end in
  let '(lines, found) := replace_relay lines relay_addr in
  let lines :=
    if found then lines
    else (match lines with
          | [] => [cstr "; switch-lan-play configuration" ++ newline; cstr "[server]" ++ newline]
          | _ => lines
          end) ++ [relay_line relay_addr] in
  if writable then (0, Some (concat lines)) else (-1, file).

(** ** Strings *)

Lemma cut_trailing_nonempty a c t : cut_trailing (a ++ c :: t) = [] -> is_trailing c = true /\ cut_trailing t = [].
Proof.
  induction a as [|x a IH]; cbn.
  - destruct (cut_trailing t); [|done]. by destruct (is_trailing c).
  - destruct (cut_trailing (a ++ c :: t)); [by intros _; apply IH|done].
Qed.

(** A string that is kept whole, behind anything. *)
Lemma cut_trailing_app a r : r <> [] -> cut_trailing r = r -> cut_trailing (a ++ r) = a ++ r.
Proof.
  intros Hr E. induction a as [|x a IH]; [done|]. cbn. rewrite IH. by destruct a, r.
Qed.

Lemma cut_trailing_prefix s : exists t, s = cut_trailing s ++ t.
Proof.
  induction s as [|c s [t IH]]; [by exists []|]. cbn. destruct (cut_trailing s) as [|d l].
  - destruct (is_trailing c); [by exists (c :: s)|by exists s].
  - exists t. by rewrite IH at 1.
Qed.

Lemma cut_trailing_drop s c : is_trailing c = true -> cut_trailing (s ++ [c]) = cut_trailing s.
Proof. intros Hc. induction s as [|x s IH]; cbn; [by rewrite Hc|]. by rewrite IH. Qed.

Lemma cut_trailing_idem s : cut_trailing (cut_trailing s) = cut_trailing s.
Proof.
  induction s as [|c s IH]; [done|]. cbn. destruct (cut_trailing s) as [|d l] eqn:E.
  - destruct (is_trailing c) eqn:Hc; [done|]. cbn. by rewrite Hc.
  - cbn in IH |- *. by rewrite IH.
Qed.

Lemma is_blank_trailing c : is_blank c = true -> is_trailing c = true.
Proof. unfold is_blank, is_trailing. intros [-> | ->]%orb_true_iff; by rewrite ?orb_true_r. Qed.

(** Cutting commutes with skipping. *)
Lemma cut_trailing_blank s : skip_blank (cut_trailing s) = cut_trailing (skip_blank s).
Proof.
  induction s as [|c s IH]; [done|]. cbn [skip_blank cut_trailing]. destruct (is_blank c) eqn:Hc.
  - rewrite <- IH. destruct (cut_trailing s) as [|d l]; [by rewrite (is_blank_trailing c Hc)|]. cbn [skip_blank]. by rewrite Hc.
  - cbn [cut_trailing]. destruct (cut_trailing s) as [|d l]; [destruct (is_trailing c); cbn [skip_blank]; by rewrite ?Hc|].
    cbn [skip_blank]. by rewrite Hc.
Qed.

Lemma trim_newline s : trim (s ++ [10]) = trim s.
Proof. unfold trim. rewrite <- !cut_trailing_blank. by rewrite cut_trailing_drop. Qed.

Lemma skip_blank_idem s : skip_blank (skip_blank s) = skip_blank s.
Proof. induction s as [|c s IH]; [done|]. cbn. destruct (is_blank c) eqn:E; [done|]. cbn. by rewrite E. Qed.

Lemma trim_front s : skip_blank (trim s) = trim s.
Proof. unfold trim. by rewrite cut_trailing_blank, skip_blank_idem. Qed.

(** ** Fields *)

(** An array of [n] bytes whose last one is the terminator. *)
Definition field_ok (n : nat) (a : bytes) : Prop := exists b, a = b ++ [0] /\ length a = n.

Lemma strncpy_ok n dst src : field_ok (S n) dst -> field_ok (S n) (strncpy dst src (Z.of_nat (S n) - 1)).
Proof.
  intros (b & -> & Hl). rewrite length_app in Hl. cbn in Hl. unfold strncpy. replace (Z.to_nat (Z.of_nat (S n) - 1)) with n by lia.
  rewrite drop_app_length' by lia. eexists. split; [done|].
  rewrite length_app, length_take, length_app, length_replicate. cbn. lia.
Qed.

Lemma cstring_zero b : is_cstr b -> cstring (b ++ [0]) = b.
Proof. intros Hb. by apply (cstring_terminated b []). Qed.

Lemma is_cstr_take n s : is_cstr s -> is_cstr (take n s).
Proof. apply Forall_take. Qed.

(** What the field then holds: the value, cut to fit. *)
Lemma strncpy_string n dst src :
  field_ok (S n) dst -> is_cstr src -> cstring (strncpy dst src (Z.of_nat (S n) - 1)) = take n src.
Proof.
  intros (b & -> & Hl) Hs. rewrite length_app in Hl. cbn in Hl. unfold strncpy. replace (Z.to_nat (Z.of_nat (S n) - 1)) with n by lia.
  rewrite drop_app_length' by lia. destruct (decide (length src < n)%nat) as [Hlt|Hge].
  - rewrite take_app_ge by lia. rewrite (take_ge src) by lia. destruct (n - length src)%nat as [|m] eqn:E; [lia|].
    destruct n; [lia|]. cbn [replicate take]. rewrite <- app_assoc. cbn. by rewrite (cstring_terminated src).
  - rewrite take_app_le by lia. apply cstring_zero. by apply is_cstr_take.
Qed.

Record config_ok (c : nx_config_t) : Prop := {
  ok_relay : field_ok 256 (cf_relay_addr c);
  ok_ip : field_ok 16 (cf_my_ip c);
  ok_net : field_ok 16 (cf_subnet_net c);
  ok_mask : field_ok 16 (cf_subnet_mask c);
  ok_user : field_ok 256 (cf_username c);
  ok_pass : field_ok 256 (cf_password c);
}.

Lemma config_line_ok cfg line : config_ok cfg -> config_ok (config_line cfg line).
Proof.
  intros Hc. unfold config_line. destruct (trim line) as [|c t]; [done|]. case_match; [done|].
  case_match; [|done]. destruct p as [key val]. destruct Hc as [H1 H2 H3 H4 H5 H6].
  repeat case_bool_decide; constructor; cbn; try done;
    first [by apply (strncpy_ok 255)|by apply (strncpy_ok 15)].
Qed.

Lemma set_defaults_ok : config_ok set_defaults.
Proof.
  assert (Hz : forall n, field_ok (S n) (replicate (S n) 0))
    by (intros n; exists (replicate n 0); by rewrite length_replicate, <- replicate_S_end).
  constructor; first [apply (Hz 255%nat)|apply (Hz 15%nat)|apply (strncpy_ok 15), (Hz 15%nat)].
Qed.

Lemma load_loop_ok fuel cfg f : config_ok cfg -> config_ok (load_loop fuel cfg f).
Proof.
  revert cfg f. induction fuel as [|fuel IH]; intros cfg f Hc; cbn; [done|].
  destruct (fgets MAX_LINE_LEN f) as [[line r]|]; [|done]. by apply IH, config_line_ok.
Qed.

(** A file of bytes gives fields of bytes. *)
Lemma cstring_bytes s : is_bytes s -> is_bytes (cstring s).
Proof. intros Hs. induction Hs as [|c s Hc Hs IH]; [constructor|]. cbn. destruct (c =? 0); [constructor|by constructor]. Qed.
Lemma cstring_length s : (length (cstring s) <= length s)%nat.
Proof. induction s as [|c s IH]; cbn; [done|]. destruct (c =? 0); cbn; lia. Qed.
Lemma trim_Forall (P : Z -> Prop) s : Forall P s -> Forall P (trim s).
Proof.
  intros Hs. assert (Hb : Forall P (skip_blank s)) by (induction Hs; cbn; [constructor|]; destruct (is_blank _); [done|by constructor]).
  destruct (cut_trailing_prefix (skip_blank s)) as [t Ht]. rewrite Ht, Forall_app in Hb. apply Hb.
Qed.
Lemma trim_bytes s : is_bytes s -> is_bytes (trim s).
Proof. apply trim_Forall. Qed.
Lemma fgets_bytes n f l r : is_bytes f -> fgets_loop n f = (l, r) -> is_bytes l /\ is_bytes r.
Proof.
  intros Hf. revert n l r. induction Hf as [|c f Hc Hf IH]; intros [|n] l r; cbn; intros E; simplify_eq; try (split; [constructor|by constructor]).
  destruct (c =? 10); simplify_eq; [split; [by apply Forall_singleton|done]|]. destruct (fgets_loop n f) as [l' r'] eqn:E'. simplify_eq.
  destruct (IH _ _ _ E'). split; [by apply Forall_cons|done].
Qed.
Lemma strncpy_bytes dst src n : is_bytes dst -> is_bytes src -> is_bytes (strncpy dst src n).
Proof.
  intros Hd Hs. apply Forall_app_2; [|by apply Forall_drop]. apply Forall_take, Forall_app_2; [done|]. apply Forall_replicate. unfold is_u8. lia.
Qed.
Lemma password_bytes fuel cfg f : is_bytes f -> is_bytes (cf_password cfg) -> is_bytes (cf_password (load_loop fuel cfg f)).
Proof.
  revert cfg f. induction fuel as [|fuel IH]; intros cfg f Hf Hp; cbn [load_loop]; [done|]. unfold fgets. destruct f as [|b f']; [done|].
  destruct (fgets_loop _ _) as [line r] eqn:E. destruct (fgets_bytes _ _ _ _ Hf E) as [Hl Hr]. apply IH; [done|].
  apply cstring_bytes, trim_bytes in Hl. unfold config_line. destruct (trim (cstring line)) as [|c t]; [done|]. case_match; [done|].
  destruct (split_char _ _) as [[key val]|] eqn:Es; [|done]. apply split_char_app in Es. unfold is_bytes in Hl. rewrite Es, Forall_app, Forall_cons in Hl.
  repeat case_bool_decide; cbn; try done. apply strncpy_bytes, trim_bytes; [done|apply Hl].
Qed.
Lemma load_password f : is_bytes f -> is_bytes (cf_password (nx_config_load (Some f)).2) /\ zlen (cf_password (nx_config_load (Some f)).2) = 256.
Proof.
  intros Hf. split; [apply password_bytes; [done|]; by apply Forall_replicate; unfold is_u8; lia|].
  destruct (ok_pass _ (load_loop_ok (S (length f)) _ f set_defaults_ok)) as (b & _ & Hl). unfold zlen. cbn [nx_config_load snd]. by rewrite Hl.
Qed.

(** ** Text files *)

(** A line of a text file: no newline, no zero, and it fits the buffer with its newline. *)
Definition line_ok (l : bytes) : Prop := is_cstr l /\ 10 ∉ l /\ (length l <= 510)%nat.
Definition text (ls : list bytes) : bytes := concat ((fun l => l ++ newline) <$> ls).

Lemma fgets_text size l rest : 10 ∉ l -> zlen l < size - 1 -> fgets size (l ++ newline ++ rest) = Some (l ++ newline, rest).
Proof.
  intros Hn Hl. assert (E : forall room, (length l < room)%nat -> fgets_loop room (l ++ newline ++ rest) = (l ++ newline, rest)).
  { clear Hl. induction l as [|c l IH]; intros room Hr; destruct room as [|room]; cbn in Hr |- *; try lia; [done|].
    rewrite (proj2 (Z.eqb_neq c 10)) by set_solver. rewrite IH by (set_solver || lia). done. }
  unfold fgets, zlen in *. rewrite E by lia. by destruct l.
Qed.
Lemma fgets_line l rest : line_ok l -> fgets MAX_LINE_LEN (l ++ newline ++ rest) = Some (l ++ newline, rest).
Proof. intros (_ & Hn & Hl). apply fgets_text; [done|]. unfold zlen, MAX_LINE_LEN. lia. Qed.

Lemma line_cstring l : line_ok l -> cstring (l ++ newline) = l ++ newline.
Proof. intros (Hc & _). apply cstring_whole, Forall_app_2; [done|by repeat constructor]. Qed.

Lemma text_cons l ls : text (l :: ls) = l ++ newline ++ text ls.
Proof. unfold text. cbn. by rewrite <- app_assoc. Qed.
Lemma text_snoc ls l : text (ls ++ [l]) = text ls ++ l ++ newline.
Proof. unfold text. rewrite fmap_app, concat_app. cbn. by rewrite app_nil_r. Qed.

Lemma config_line_newline cfg l : config_line cfg (l ++ newline) = config_line cfg l.
Proof. unfold config_line, newline. by rewrite trim_newline. Qed.
Lemma is_relay_line_newline l : is_relay_line (l ++ newline) = is_relay_line l.
Proof. unfold is_relay_line, newline. by rewrite trim_newline. Qed.

Lemma load_text fuel cfg ls :
  Forall line_ok ls -> (length ls < fuel)%nat -> load_loop fuel cfg (text ls) = foldl config_line cfg ls.
Proof.
  revert fuel cfg. induction ls as [|l ls IH]; intros fuel cfg Hok Hf; destruct fuel as [|fuel]; cbn in Hf; try lia; [done|].
  apply Forall_cons in Hok as [Hl Hok]. cbn [load_loop]. rewrite text_cons, fgets_line by done.
  rewrite line_cstring, config_line_newline by done. apply IH; [done|lia].
Qed.

Lemma length_text ls : (length ls <= length (text ls))%nat.
Proof. induction ls as [|l ls IH]; [done|]. rewrite text_cons, !length_app. cbn. lia. Qed.

Lemma config_load_text ls :
  Forall line_ok ls ->
  nx_config_load (Some (text ls)) =
    (if bool_decide (cstring (cf_relay_addr (foldl config_line set_defaults ls)) = []) then -1 else 0,
     foldl config_line set_defaults ls).
Proof. intros Hok. pose proof (length_text ls). unfold nx_config_load. rewrite load_text by (done || lia). done. Qed.

Lemma read_lines_text n ls :
  Forall line_ok ls -> (length ls <= n)%nat -> read_lines n (text ls) = (fun l => l ++ newline) <$> ls.
Proof.
  revert ls. induction n as [|n IH]; intros [|l ls] Hok Hn; cbn in Hn; try lia; [done..|].
  apply Forall_cons in Hok as [Hl Hok]. cbn [read_lines fmap list_fmap]. rewrite text_cons, fgets_line by done.
  rewrite line_cstring by done. f_equal. apply IH; [done|lia].
Qed.

(** ** Saving the relay address *)

(** An address a user can give: what is stored of it is read back. *)
Definition relay_ok (r : bytes) : Prop := r <> [] /\ is_cstr r /\ 10 ∉ r /\ trim r = r /\ (length r <= 255)%nat.

Definition relay_text (r : bytes) : bytes := cstr "relay_addr = " ++ r.

Lemma relay_line_eq r : relay_ok r -> relay_line r = relay_text r ++ newline.
Proof.
  intros (_ & _ & _ & _ & Hl). unfold relay_line, relay_text. rewrite take_ge; [by rewrite <- app_assoc|].
  rewrite !length_app. change (length (cstr "relay_addr = ")) with 13%nat. cbn [newline length]. change (Z.to_nat (MAX_LINE_LEN - 1)) with 511%nat. lia.
Qed.
Lemma relay_text_ok r : relay_ok r -> line_ok (relay_text r).
Proof.
  intros (_ & Hc & Hn & _ & Hl). unfold relay_text. split_and!.
  - apply Forall_app_2; [vm_compute; by repeat constructor|done].
  - rewrite elem_of_app. intros [Hin|]; [|done]. revert Hin. literal_free.
  - rewrite length_app. change (length (cstr "relay_addr = ")) with 13%nat. lia.
Qed.

(** A file's line sets the address. *)
Lemma config_relay_text cfg r :
  relay_ok r -> config_line cfg (relay_text r) = set_cf_relay_addr (strncpy (cf_relay_addr cfg) r 255) cfg.
Proof.
  intros (Hne & Hc & Hn & Ht & Hl). unfold config_line.
  assert (Hcut : cut_trailing r = r) by (rewrite <- Ht at 1; unfold trim; by rewrite cut_trailing_idem).
  assert (E : trim (relay_text r) = relay_text r).
  { unfold trim, relay_text. change (skip_blank (cstr "relay_addr = " ++ r)) with (cstr "relay_addr = " ++ r). by apply cut_trailing_app. }
  rewrite E. change (relay_text r) with (114 :: (cstr "elay_addr = " ++ r)) at 1. cbn [Z.eqb Pos.eqb orb].
  change (relay_text r) with (cstr "relay_addr " ++ 61 :: (32 :: r)).
  rewrite split_char_skip. 2: { literal_free. }
  change (trim (cstr "relay_addr ")) with (cstr "relay_addr"). rewrite bool_decide_true by done.
  change (trim (32 :: r)) with (trim r). by rewrite Ht.
Qed.

Lemma skip_blank_length s : (length (skip_blank s) <= length s)%nat.
Proof. induction s as [|c s IH]; cbn; [done|]. destruct (is_blank c); cbn; lia. Qed.
Lemma trim_first l c t : trim l = c :: t -> is_blank c = false.
Proof.
  intros E. pose proof (trim_front l) as Hf. rewrite E in Hf. cbn in Hf. destruct (is_blank c); [|done].
  pose proof (skip_blank_length t). apply (f_equal length) in Hf. cbn in Hf. lia.
Qed.

(** A key that is [relay_addr] is at the start of the line. *)
Lemma relay_key l key val :
  split_char (trim l) 61 = Some (key, val) -> trim key = cstr "relay_addr" -> is_relay_line l = true.
Proof.
  intros Hs Hk. unfold is_relay_line. rewrite Hs, (bool_decide_true (is_Some _)) by done. rewrite andb_true_r.
  apply bool_decide_eq_true. pose proof (split_char_app _ _ _ _ Hs) as E.
  destruct key as [|c k]; [done|]. rewrite E in *. pose proof (trim_first l c (k ++ 61 :: val)) as Hb.
  unfold trim in Hk. cbn [skip_blank] in Hk. rewrite Hb in Hk by (by rewrite E).
  destruct (cut_trailing_prefix (c :: k)) as [t Et]. rewrite Et, Hk. done.
Qed.

(** Other lines have nothing to do with the address, ... *)
Lemma other_line l v cfg :
  is_relay_line l = false -> config_line (set_cf_relay_addr v cfg) l = set_cf_relay_addr v (config_line cfg l).
Proof.
  intros Hr. unfold config_line. pose proof (relay_key l) as Hk. rewrite Hr in Hk. destruct (trim l) as [|c t]; [done|].
  case_match; [done|]. destruct (split_char (c :: t) 61) as [[key val]|]; [|done].
  rewrite (bool_decide_false (trim key = cstr "relay_addr")) by (intros E; by specialize (Hk key val eq_refl E)).
  by repeat case_bool_decide.
Qed.

Lemma other_lines ls v cfg :
  Forall (fun l => is_relay_line l = false) ls ->
  foldl config_line (set_cf_relay_addr v cfg) ls = set_cf_relay_addr v (foldl config_line cfg ls).
Proof.
  intros Hls. revert cfg. induction Hls as [|l ls Hl _ IH]; intros cfg; cbn; [done|]. by rewrite other_line, IH.
Qed.

(** ... and a line that starts with [relay_addr] only with it. *)
Lemma relay_effect l cfg : is_relay_line l = true -> exists v, config_line cfg l = set_cf_relay_addr v cfg.
Proof.
  unfold is_relay_line. intros [Ht%bool_decide_eq_true Hs%bool_decide_eq_true]%andb_true_iff.
  destruct Hs as [[key val] Hs]. unfold config_line. pose proof (split_char_app _ _ _ _ Hs) as E.
  assert (exists k, key = 114 :: k) as [k ->].
  { rewrite E in Ht. destruct key as [|c k]; [by vm_compute in Ht|]. exists k. f_equal. by injection Ht. }
  assert (Ek : exists k', trim (114 :: k) = 114 :: k').
  { unfold trim. cbn [skip_blank]. change (is_blank 114) with false. cbn [cut_trailing]. change (is_trailing 114) with false.
    destruct (cut_trailing k); by eexists. }
  destruct Ek as [k' Ek]. rewrite E in Hs |- *. cbn [app] in Hs |- *. rewrite Hs.
  change ((114 =? 59) || (114 =? 35) || (114 =? 91)) with false. cbv zeta iota. rewrite Ek. case_bool_decide; [by eexists|]. repeat (rewrite bool_decide_false by (vm_compute; congruence)).
  exists (cf_relay_addr cfg). by destruct cfg.
Qed.

Lemma set_relay_twice u v cfg : set_cf_relay_addr u (set_cf_relay_addr v cfg) = set_cf_relay_addr u cfg.
Proof. done. Qed.
Lemma set_relay_same cfg : set_cf_relay_addr (cf_relay_addr cfg) cfg = cfg.
Proof. by destruct cfg. Qed.

(** The lines of the file after saving. *)
Definition saved_lines (ls : list bytes) (r : bytes) : list bytes :=
  match list_find (fun l => is_relay_line l = true) ls with
  | Some (i, _) => <[i := relay_text r]> ls
  | None => (match ls with [] => [cstr "; switch-lan-play configuration"; cstr "[server]"] | _ => ls end) ++ [relay_text r]
  end.

Lemma replace_relay_run ls r :
  relay_ok r ->
  replace_relay ((fun l => l ++ newline) <$> ls) r =
    match list_find (fun l => is_relay_line l = true) ls with
    | Some (i, _) => ((fun l => l ++ newline) <$> <[i := relay_text r]> ls, true)
    | None => ((fun l => l ++ newline) <$> ls, false)
    end.
Proof.
  intros Hr. induction ls as [|l ls IH]; [done|]. cbn. rewrite is_relay_line_newline. destruct (is_relay_line l) eqn:E.
  - rewrite decide_True by done. cbn. by rewrite relay_line_eq.
  - rewrite decide_False by congruence. rewrite IH. by destruct (list_find _ ls) as [[i l']|].
Qed.

Lemma save_run ls r :
  Forall line_ok ls -> (length ls <= 63)%nat -> relay_ok r ->
  nx_config_save_relay (Some (text ls)) true r = (0, Some (text (saved_lines ls r))).
Proof.
  intros Hok Hn Hr. unfold nx_config_save_relay. change (Z.to_nat (MAX_CONFIG_LINES - 1)) with 63%nat.
  rewrite read_lines_text by done. rewrite replace_relay_run by done. unfold saved_lines.
  destruct (list_find _ ls) as [[i l]|]; [done|]. rewrite relay_line_eq by done. do 2 f_equal.
  destruct ls as [|l ls]; cbn [fmap list_fmap]; [done|]. unfold text. rewrite !fmap_app, !fmap_cons, !concat_app. cbn. by rewrite app_nil_r.
Qed.

Lemma saved_lines_ok ls r : Forall line_ok ls -> relay_ok r -> Forall line_ok (saved_lines ls r).
Proof.
  intros Hok Hr. pose proof (relay_text_ok r Hr). unfold saved_lines. destruct (list_find _ ls) as [[i l]|].
  - by apply Forall_insert.
  - apply Forall_app_2; [|by apply Forall_singleton]. destruct ls; [|done].
    rewrite Forall_cons, Forall_singleton. split; (split_and!; [vm_compute; by repeat constructor| |vm_compute; lia]);
      literal_free.
Qed.

(** At most one line is about the address. *)
Definition one_relay_line (ls : list bytes) : Prop :=
  forall i j li lj, ls !! i = Some li -> ls !! j = Some lj -> is_relay_line li = true -> is_relay_line lj = true -> i = j.

Lemma saved_config ls r :
  relay_ok r -> one_relay_line ls ->
  exists v dst, v = strncpy dst r 255 /\ field_ok 256 dst /\
    foldl config_line set_defaults (saved_lines ls r) = set_cf_relay_addr v (foldl config_line set_defaults ls).
Proof.
  intros Hr Hone. assert (Hok : forall ls, config_ok (foldl config_line set_defaults ls)).
  { intros l. assert (forall cfg, config_ok cfg -> config_ok (foldl config_line cfg l)) as Hf; [|apply Hf, set_defaults_ok].
    induction l as [|x l IH]; intros cfg Hc; [done|]. by apply IH, config_line_ok. }
  unfold saved_lines. destruct (list_find _ ls) as [[i l]|] eqn:Ef.
  - apply list_find_Some in Ef as (Hi & Hl & Hbefore). eexists _, _. split; [reflexivity|].
    rewrite <- (take_drop_middle ls i l Hi) at 2. rewrite insert_take_drop by (by eapply lookup_lt_Some).
    rewrite !foldl_app. cbn [foldl]. rewrite config_relay_text by done.
    set (c1 := foldl config_line set_defaults (take i ls)). destruct (relay_effect l c1 Hl) as [u Eu]. rewrite Eu.
    assert (Hpost : Forall (fun l' => is_relay_line l' = false) (drop (S i) ls)).
    { apply Forall_lookup. intros j l' Hj. rewrite lookup_drop in Hj. destruct (is_relay_line l') eqn:E; [|done].
      pose proof (Hone _ _ _ _ Hi Hj Hl E). lia. }
    rewrite !other_lines by done. rewrite set_relay_twice. split; [apply Hok|]. reflexivity.
  - assert (Hno : Forall (fun l => is_relay_line l = false) ls).
    { apply list_find_None in Ef. eapply Forall_impl; [exact Ef|]. cbv beta. intros l. by destruct (is_relay_line l). }
    eexists _, _. split; [reflexivity|]. rewrite foldl_app. cbn [foldl]. rewrite config_relay_text by done.
    destruct ls as [|l ls]; (split; [apply Hok|]); [|reflexivity]. reflexivity.
Qed.

(** ** The console's own address *)

(** Of a byte, the one in 1..254. *)
Definition host_byte (b : Z) : Z := if b =? 0 then 1 else if b =? 255 then 254 else b.

Lemma host_byte_range h : 1 <= host_byte (Z.land h 0xFF) <= 254.
Proof.
  unfold host_byte. change (Z.land h 0xFF) with (Z.land h (Z.ones 8)). rewrite Z.land_ones by lia. assert (0 <= h mod 2 ^ 8 < 256) by (by apply Z.mod_pos_bound).
  destruct (Z.eqb_spec (h mod 2 ^ 8) 0); [lia|]. destruct (Z.eqb_spec (h mod 2 ^ 8) 255); lia.
Qed.
Lemma host_byte_steps b : host_byte b = let b := if b =? 0 then 1 else b in if b =? 255 then 254 else b.
Proof. unfold host_byte. by destruct (b =? 0). Qed.

Definition auto_hash (serial : option bytes) : Z :=
  match serial with Some number => (fnv1a number 0x811c9dc5 0).1 | None => 0x5851f42d end.
Definition auto_address (h : Z) : bytes :=
  let x := host_byte (Z.land (Z.shiftr h 8) 0xFF) in
  let y := host_byte (Z.land h 0xFF) in
  [10; 13; x; if (x =? 37) && (y =? 1) then 2 else y].

Lemma auto_ip_run serial cfg :
  cstring (cf_my_ip cfg) = [] ->
  nx_config_auto_ip serial cfg =
    let t := dotted (auto_address (auto_hash serial)) in set_cf_my_ip (t ++ 0 :: drop (S (length t)) (cf_my_ip cfg)) cfg.
Proof. intros E. unfold nx_config_auto_ip, auto_address. by rewrite bool_decide_true, !host_byte_steps by done. Qed.

Lemma auto_address_spec h :
  exists x y, auto_address h = [10; 13; x; y] /\ 1 <= x <= 254 /\ 1 <= y <= 254 /\ (x, y) <> (37, 1).
Proof.
  unfold auto_address. pose proof (host_byte_range (Z.shiftr h 8)) as Hx. pose proof (host_byte_range h) as Hy.
  eexists _, _. split; [reflexivity|]. split; [done|]. destruct (Z.eqb_spec (host_byte (Z.land (Z.shiftr h 8) 0xFF)) 37); cbn [andb].
  - destruct (Z.eqb_spec (host_byte (Z.land h 0xFF)) 1); (split; [lia|congruence]).
  - split; [done|congruence].
Qed.

Lemma dotted_cstr a b c d :
  0 <= a -> 0 <= b -> 0 <= c -> 0 <= d ->
  is_cstr (dotted [a; b; c; d]) /\ (length (dotted [a; b; c; d]) <= 15)%nat.
Proof.
  intros Ha Hb Hc Hd. destruct (dec_cstr 3 a Ha), (dec_cstr 3 b Hb), (dec_cstr 3 c Hc), (dec_cstr 3 d Hd). cbn [dotted]. split.
  - repeat first [apply Forall_app_2; [done|]|apply Forall_cons_2; [done|]]. done.
  - rewrite !length_app. cbn [length]. rewrite !length_app. cbn [length]. rewrite length_app. cbn [length]. lia.
Qed.

(** A string and its terminator written at the start of a field. *)
Lemma field_overwrite n a t : field_ok n a -> (length t < n)%nat -> field_ok n (t ++ 0 :: drop (S (length t)) a).
Proof.
  intros (b & -> & Hl) Ht. rewrite length_app in Hl. cbn in Hl. destruct (decide (S (length t) = n)) as [E|].
  - rewrite drop_ge by (rewrite length_app; cbn; lia). exists t. rewrite length_app. cbn. split; [done|lia].
  - rewrite drop_app_le by lia. exists (t ++ 0 :: drop (S (length t)) b). split; [by rewrite <- app_assoc|].
    rewrite length_app. cbn [length]. rewrite length_app, length_drop. cbn. lia.
Qed.

(** ** Results *)

(** Whatever the file holds - lines longer than the buffer, values longer than their
    fields, bytes that are not text, no line at all - every field the loader leaves behind
    is terminated within its array, and it reports success exactly when there is an address. *)
Theorem config_terminated (file : option bytes) :
  config_ok (nx_config_load file).2 /\
  ((nx_config_load file).1 = 0 <-> is_Some file /\ cstring (cf_relay_addr (nx_config_load file).2) <> []).
Proof.
  unfold nx_config_load. destruct file as [f|]; cbn [fst snd].
  - split; [apply load_loop_ok, set_defaults_ok|]. case_bool_decide; (split; [|by intros [_ ?]]); [done|].
    intros _. split; [by eexists|done].
  - split; [apply set_defaults_ok|]. split; [done|]. by intros [[? [=]] _].
Qed.

(** C28: saving an address in a text file of at most 63 lines, of which at most one is about
    the address, succeeds; loading the new file succeeds and gives the configuration that
    was in the old one, with the address replaced by the one saved. *)
Theorem config_save_load (ls : list bytes) (r : bytes) :
  Forall line_ok ls -> (length ls <= 63)%nat -> one_relay_line ls -> relay_ok r ->
  exists file v,
    nx_config_save_relay (Some (text ls)) true r = (0, Some file) /\
    nx_config_load (Some file) = (0, set_cf_relay_addr v (nx_config_load (Some (text ls))).2) /\
    cstring v = r.
Proof.
  intros Hok Hn Hone Hr. destruct (saved_config ls r Hr Hone) as (v & dst & -> & Hd & E).
  pose proof Hr as (Hne & Hc & _ & _ & Hl).
  assert (Hv : cstring (strncpy dst r 255) = r) by (rewrite (strncpy_string 255) by done; by apply take_ge).
  exists (text (saved_lines ls r)), (strncpy dst r 255). split_and!; [by apply save_run| |done].
  rewrite !config_load_text by (try apply saved_lines_ok; done). rewrite E. cbn [fst snd cf_relay_addr set_cf_relay_addr].
  by rewrite Hv, bool_decide_false.
Qed.

(** An address that the file gives is kept; otherwise the console takes a host address
    of the virtual network from its serial number, one that the address parser reads back,
    never the gateway's, and nothing else of the configuration changes. *)
Theorem auto_ip_host (serial : option bytes) (cfg : nx_config_t) :
  config_ok cfg ->
  let cfg' := nx_config_auto_ip serial cfg in
  config_ok cfg' /\ cfg' = set_cf_my_ip (cf_my_ip cfg') cfg /\
  (cstring (cf_my_ip cfg) <> [] -> cfg' = cfg) /\
  (cstring (cf_my_ip cfg) = [] ->
   exists x y, str2ip (Some (cstring (cf_my_ip cfg'))) = [10; 13; x; y] /\
     1 <= x <= 254 /\ 1 <= y <= 254 /\ (x, y) <> (37, 1)).
Proof.
  intros Hc. cbv zeta. destruct (decide (cstring (cf_my_ip cfg) = [])) as [E|E].
  - rewrite auto_ip_run by done. cbv zeta. destruct (auto_address_spec (auto_hash serial)) as (x & y & -> & Hx & Hy & Hxy).
    destruct (dotted_cstr 10 13 x y) as [Hs Hl]; [lia..|]. split_and!; [|done|done|].
    + destruct Hc. constructor; try done. cbn [cf_my_ip set_cf_my_ip]. apply field_overwrite; [done|lia].
    + intros _. exists x, y. split_and!; try lia; [|done]. cbn [cf_my_ip set_cf_my_ip]. rewrite cstring_terminated by done.
      apply str2ip_dotted; [done|]. repeat constructor; lia.
  - assert (nx_config_auto_ip serial cfg = cfg) as -> by (unfold nx_config_auto_ip; by rewrite bool_decide_false).
    split_and!; try done. by destruct cfg.
Qed.

(** ** Concrete runs *)

Definition demo_lines : list bytes :=
  [cstr "[server]"; cstr "relay_addr = old.example:11451"; cstr "  password= secret "; cstr "ip=10.13.4.5"].

Lemma config_save_load_witness :
  (exists file v,
     nx_config_save_relay (Some (text demo_lines)) true (cstr "10.0.0.7") = (0, Some file) /\
     nx_config_load (Some file) = (0, set_cf_relay_addr v (nx_config_load (Some (text demo_lines))).2) /\
     cstring v = cstr "10.0.0.7") /\
  cstring (cf_password (nx_config_load (Some (text demo_lines))).2) = cstr "secret".
Proof.
  split; [|vm_compute; reflexivity]. apply (config_save_load demo_lines (cstr "10.0.0.7")).
  - repeat apply Forall_cons_2; [..|constructor]; (split_and!; [vm_compute; by repeat constructor| |vm_compute; lia]);
      literal_free.
  - vm_compute. lia.
  - assert (H : forall i l, demo_lines !! i = Some l -> is_relay_line l = true -> i = 1%nat).
    { intros i l Hi Hl. do 4 (destruct i as [|i]; [injection Hi as <-; by vm_compute in Hl|]). done. }
    intros i j li lj Hi Hj Hli Hlj. by rewrite (H i li), (H j lj).
  - split_and!; try done; [vm_compute; by repeat constructor| |vm_compute; lia]. literal_free.
Defined.

Lemma auto_ip_host_witness :
  (let cfg' := nx_config_auto_ip (Some (cstr "XAW10012345678" ++ [0])) set_defaults in
   config_ok cfg' /\ cfg' = set_cf_my_ip (cf_my_ip cfg') set_defaults /\
   (cstring (cf_my_ip set_defaults) <> [] -> cfg' = set_defaults) /\
   (cstring (cf_my_ip set_defaults) = [] ->
    exists x y, str2ip (Some (cstring (cf_my_ip cfg'))) = [10; 13; x; y] /\
      1 <= x <= 254 /\ 1 <= y <= 254 /\ (x, y) <> (37, 1))) /\
  cstring (cf_my_ip set_defaults) = [].
Proof. split; [apply auto_ip_host, set_defaults_ok|vm_compute; reflexivity]. Defined.

(** The template loads: its placeholder is taken for an address. *)
Example default_loads :
  (nx_config_load (Some default_file)).1 = 0 /\
  cstring (cf_relay_addr (nx_config_load (Some default_file)).2) = cstr "YOUR_SERVER:11451".
Proof. vm_compute. done. Qed.
(** With two lines about the address the first is replaced and the second one counts. *)
Example saved_address_ignored :
  let file := text [cstr "relay_addr=a"; cstr "relay_addr=b"] in
  match nx_config_save_relay (Some file) true (cstr "c") with
  | (_, f) => cstring (cf_relay_addr (nx_config_load f).2) = cstr "b"
  end.
Proof. vm_compute. done. Qed.
(** A last line without its newline swallows the address. *)
Example saved_address_lost :
  match nx_config_save_relay (Some (cstr "username=me")) true (cstr "c") with
  | (_, f) => cstring (cf_relay_addr (nx_config_load f).2) = [] /\
              cstring (cf_username (nx_config_load f).2) = cstr "merelay_addr = c"
  end.
Proof. vm_compute. done. Qed.
