(* ===== verification/NxHosts.v ===== *)
(** Finding the relay: the names of [sysmodule/source/main.cpp] and the file that remembers
    their addresses.

    [resolve_server] takes an address as it stands, asks the name service three times, and
    falls back on [hosts.txt] and a table in the program.  What the name service answers is
    written to [hosts.txt].  A file is the list of its bytes, as in [NxConfig]; the answers
    of the name service are an argument; [inet_pton] belongs to the C library and is a
    parameter with one law.

    Shown here: once a name was resolved, the console finds the same address again without
    the name service, and what the file says of every other name is unchanged; where the
    file forgets. *)

From stdpp Require Import strings.
From S2P Require Import Prelude Byteorder Structs Checksum Packet Arp Ipv4 LanClient Dispatch Nx NxClient NxTap Helper NxConfig.

(** ** The C library *)

(** A directive [%<width>s] of [sscanf]. *)
Fixpoint scan_word (width : nat) (s : bytes) : bytes * bytes :=
  match width, s with
  | S width, c :: s' => if isspace c then ([], s) else let '(w, r) := scan_word width s' in (c :: w, r)
  | _, _ => ([], s)
  end.
Definition scan_s (width : nat) (s : bytes) : option (bytes * bytes) :=
  match scan_word width (skip_space s) with ([], _) => None | wr => Some wr end.

Class Inet := inet_pton : bytes -> option bytes.

(** ** The code *)

Definition g_known_relays : list (bytes * bytes) :=
  [(cstr "lan.nonny.horse", cstr "65.21.20.230");
   (cstr "switch.servegame.com", cstr "89.163.151.130");
   (cstr "switch-lanyplay-de.ddns.net", cstr "37.201.39.187");
   (cstr "switch.jayseateam.nl", cstr "45.83.241.140");
   (cstr "switch.r3ps4j.nl", cstr "141.144.207.91");
   (cstr "muitxobem-lanplay.ddns.net", cstr "129.148.17.98")].

Fixpoint lookup_relays (l : list (bytes * bytes)) (host : bytes) : option bytes :=
  match l with
  | [] => None
  | (h, ip) :: l => if bool_decide (h = host) then Some ip else lookup_relays l host
  end.
Definition lookup_known_relay_ip (host : bytes) : option bytes := lookup_relays g_known_relays host.

Definition HOSTS_LINES : Z := 64.
Definition HOSTS_LINE_LEN : Z := 256.

(** [sscanf(line, "%63s %127s", ip, host) == 2] *)
Definition scan_entry (line : bytes) : option (bytes * bytes) :=
  '(ip, rest) ← scan_s 63 line;
  '(host, _) ← scan_s 127 rest;
  Some (ip, host).
Definition is_entry (host line : bytes) : bool :=
  match scan_entry line with Some (_, h) => bool_decide (h = host) | None => false end.

(** Reading at most [n] lines into the table. *)
Fixpoint read_hosts (n : nat) (f : bytes) : list bytes :=
  match n with
  | O => []
  | S n => match fgets HOSTS_LINE_LEN f with None => [] | Some (line, f) => cstring line :: read_hosts n f end
  end.
(** [snprintf(line, 256, "%s %s\n", ip, host)] *)
Definition host_line (ip host : bytes) : bytes := take (Z.to_nat (HOSTS_LINE_LEN - 1)) (ip ++ 32 :: host ++ newline).

(** The new file; [writable]: whether it could be opened for writing. *)
Definition cache_host_mapping (file : option bytes) (writable : bool) (host ip : bytes) : option bytes :=
  let lines := match file with Some f => read_hosts (Z.to_nat HOSTS_LINES) f | None => [] end in
  let found := existsb (is_entry host) lines in
  let lines := (fun l => if is_entry host l then host_line ip host else l) <$> lines in
  let lines := if negb found && (zlen lines <? HOSTS_LINES) then lines ++ [host_line ip host] else lines in
  if writable then Some (concat lines) else file.

Section code.
Context `{Inet}.

(** A line of the file: the address it gives for the name. *)
Definition hosts_entry (host line : bytes) : option bytes :=
  match line with
  | c :: _ => if (c =? 35) || (c =? 10) || (c =? 13) then None       (* a comment or an empty line *)
              else '(ip, name) ← scan_entry line; if bool_decide (name = host) then inet_pton ip else None
  | [] => None
  end.
Fixpoint hosts_loop (fuel : nat) (host f : bytes) : option bytes :=
  match fuel with
  | O => None
  | S fuel =>
      match fgets HOSTS_LINE_LEN f with
      | None => None
      | Some (line, f) => match hosts_entry host (cstring line) with Some a => Some a | None => hosts_loop fuel host f end
      end
  end.
(** A round reads at least a byte. *)
Definition resolve_from_hosts_file (file : option bytes) (host : bytes) : option bytes :=
  f ← file; hosts_loop (S (length f)) host f.

Definition resolve_from_builtin_fallback (host : bytes) : option bytes := lookup_known_relay_ip host ≫= inet_pton.

(** [getaddrinfo], at most [n] times from the attempt [i] on. *)
Fixpoint dns_tries (dns : nat -> bytes -> option bytes) (n i : nat) (host : bytes) : option bytes :=
  match n with
  | O => None
  | S n => match dns i host with Some a => Some a | None => dns_tries dns n (S i) host end
  end.

(** The host and the port in [addr_str]. *)
Definition host_port (addr_str : bytes) : bytes * Z :=
  let host := take 255 addr_str in
  match split_char host 58 with
  | Some (h, p) => (h, atoi p)
  | None => (host, 11451)
  end.

(** The result, the address and the port, and the file. *)
Definition resolve_server (dns : nat -> bytes -> option bytes) (writable : bool) (addr_str : bytes) (file : option bytes)
    : Z * (bytes * Z) * option bytes :=
  let '(host, port) := host_port addr_str in
  let sin_port := u16 port in
  match inet_pton host with
  | Some a => (0, (a, sin_port), file)
  | None =>
      match dns_tries dns 3 0 host with
      | Some a => (0, (a, sin_port), cache_host_mapping file writable host (dotted a))
      | None =>
          match resolve_from_hosts_file file host with
          | Some a => (0, (a, sin_port), file)
          | None =>
              match resolve_from_builtin_fallback host with
              | Some a => (0, (a, sin_port), file)
              | None => (-1, (replicate 4 0, sin_port), file)
              end
          end
      end
  end.
End code.

(** ** Lines *)

(** A line of [hosts.txt] without its newline, and a name it can hold. *)
Definition host_line_ok (l : bytes) : Prop := is_cstr l /\ 10 ∉ l /\ (length l <= 254)%nat.
Definition word_ok (n : nat) (s : bytes) : Prop := s <> [] /\ Forall (fun c => isspace c = false /\ c <> 0) s /\ (length s <= n)%nat.

Lemma word_run width s rest :
  Forall (fun c => isspace c = false /\ c <> 0) s -> (length s <= width)%nat -> (forall c r, rest = c :: r -> isspace c = true) ->
  scan_word width (s ++ rest) = (s, rest).
Proof.
  intros Hs. revert width. induction Hs as [|c s [Hc _] Hs IH]; intros width Hl Hr; cbn in Hl |- *.
  - destruct width, rest as [|c r]; try done. cbn. by rewrite (Hr c r eq_refl).
  - destruct width as [|width]; [lia|]. cbn. rewrite Hc, IH; [done|lia|done].
Qed.
Lemma skip_word s rest : Forall (fun c => isspace c = false /\ c <> 0) s -> s <> [] -> skip_space (s ++ rest) = s ++ rest.
Proof. intros Hs Hn. destruct Hs as [|c s [Hc _]]; [done|]. cbn. by rewrite Hc. Qed.
Lemma scan_s_run n s rest : word_ok n s -> (forall c r, rest = c :: r -> isspace c = true) -> scan_s n (s ++ rest) = Some (s, rest).
Proof.
  intros (Hn & Hs & Hl) Hr. unfold scan_s. rewrite skip_word, word_run by done. by destruct s.
Qed.

Lemma scan_entry_run ip host : word_ok 63 ip -> word_ok 127 host -> scan_entry (ip ++ 32 :: host ++ newline) = Some (ip, host).
Proof.
  intros Hi Hh. unfold scan_entry. rewrite scan_s_run by (done || by intros ? ? [= <- <-]). cbn [mbind option_bind].
  change (scan_s 127 (32 :: host ++ newline)) with (scan_s 127 (host ++ newline)).
  by rewrite scan_s_run by (done || by intros ? ? [= <- <-]).
Qed.

Lemma word_plain n s : word_ok n s -> is_cstr s /\ 10 ∉ s.
Proof.
  intros (_ & Hs & _). split; [by eapply Forall_impl; [exact Hs|intros c []]|].
  intros Hin. rewrite Forall_forall in Hs. by destruct (Hs 10 Hin).
Qed.

(** *** Addresses *)

Lemma dec_is_digits fuel n : 0 <= n -> Forall (fun c => isdigit c = true) (dec fuel n).
Proof.
  revert n. induction fuel as [|fuel IH]; intros n Hn; cbn [dec]; [constructor|]. case_test.
  - constructor; [apply isdigit_48; lia|constructor].
  - apply Forall_app_2; [apply IH, Z.div_pos; lia|]. constructor; [apply isdigit_48, Z.mod_pos_bound; lia|constructor].
Qed.
Lemma digit_plain c : isdigit c = true -> isspace c = false /\ c <> 0.
Proof. unfold isdigit, isspace. intros [? ?]%andb_true_iff. split; [|lia]. apply orb_false_iff. split; [lia|]. apply andb_false_iff. right. lia. Qed.
Lemma dec_plain n : 0 <= n -> Forall (fun c => isspace c = false /\ c <> 0) (dec 3 n) /\ (length (dec 3 n) <= 3)%nat.
Proof. intros Hn. split; [|by apply dec_cstr]. eapply Forall_impl; [by apply dec_is_digits|]. apply digit_plain. Qed.

Definition is_ipv4 (ip : bytes) : Prop := length ip = 4%nat /\ is_bytes ip.
Lemma dotted_word ip : is_ipv4 ip -> word_ok 63 (dotted ip) /\ (length (dotted ip) <= 15)%nat.
Proof.
  intros [(a & b & c & d & ->)%length_4_inv Hb]. unfold is_bytes in Hb; rewrite !Forall_cons in Hb. destruct Hb as (Ha & Hb & Hc & Hd & _).
  destruct (dec_plain a) as [Pa La], (dec_plain b) as [Pb Lb], (dec_plain c) as [Pc Lc], (dec_plain d) as [Pd Ld]; try apply Ha; try apply Hb; try apply Hc; try apply Hd.
  assert (Hl : (length (dotted [a; b; c; d]) <= 15)%nat) by (cbn [dotted]; repeat (rewrite length_app; cbn [length]); lia).
  split; [|done]. split; [|split; [|lia]].
  - destruct (dec_head 3 a) as (x & s & E & _); [apply Ha|done|]. cbn [dotted]. by rewrite E.
  - cbn [dotted]. repeat first [apply Forall_app_2; [done|] | apply Forall_cons_2; [by split|]]. done.
Qed.
Lemma dotted_first ip : is_ipv4 ip -> exists c s, dotted ip = c :: s /\ isdigit c = true.
Proof.
  intros [(a & b & c & d & ->)%length_4_inv Hb]. unfold is_bytes in Hb; rewrite !Forall_cons in Hb. destruct Hb as (Ha & _).
  destruct (dec_head 3 a) as (x & s & E & Hx); [apply Ha|done|]. cbn [dotted]. rewrite E. eexists _, _. split; [reflexivity|]. by apply isdigit_48.
Qed.

(** ** Files of lines *)

Lemma fgets_host_line l rest : host_line_ok l -> fgets HOSTS_LINE_LEN (l ++ newline ++ rest) = Some (l ++ newline, rest).
Proof. intros (_ & Hn & Hl). apply fgets_text; [done|]. unfold zlen, HOSTS_LINE_LEN. lia. Qed.
Lemma host_line_cstring l : host_line_ok l -> cstring (l ++ newline) = l ++ newline.
Proof. intros (Hc & _). apply cstring_whole, Forall_app_2; [done|by repeat constructor]. Qed.

Lemma read_hosts_text n ls :
  Forall host_line_ok ls -> (length ls <= n)%nat -> read_hosts n (text ls) = (fun l => l ++ newline) <$> ls.
Proof.
  revert ls. induction n as [|n IH]; intros [|l ls] Hok Hn; cbn in Hn; try lia; [done..|].
  apply Forall_cons in Hok as [Hl Hok]. cbn [read_hosts fmap list_fmap]. rewrite text_cons, fgets_host_line by done.
  rewrite host_line_cstring by done. f_equal. apply IH; [done|lia].
Qed.

(** The entry that is written. *)
Definition entry (ip host : bytes) : bytes := dotted ip ++ 32 :: host.
Section entries.
Context (ip host : bytes) (Hip : is_ipv4 ip) (Hhost : word_ok 127 host).

Lemma entry_ok : host_line_ok (entry ip host).
Proof using Hip Hhost.
  destruct (dotted_word ip Hip) as [Hw Hl]. destruct (word_plain _ _ Hw) as [Hc Hn]. destruct (word_plain _ _ Hhost) as [Hc' Hn'].
  destruct Hhost as (_ & _ & Hh). unfold entry. split; [apply Forall_app_2; [done|]; by constructor|]. split.
  - rewrite elem_of_app, elem_of_cons. naive_solver.
  - rewrite length_app. cbn. lia.
Qed.
Lemma host_line_entry : host_line (dotted ip) host = entry ip host ++ newline.
Proof using Hip Hhost.
  pose proof entry_ok as (_ & _ & Hl). unfold host_line, entry in *. rewrite length_app in Hl. cbn in Hl. rewrite take_ge; [by rewrite <- app_assoc|].
  rewrite length_app. cbn. rewrite length_app. cbn. change (Z.to_nat (HOSTS_LINE_LEN - 1)) with 255%nat. lia.
Qed.
Lemma scan_entry_entry : scan_entry (entry ip host ++ newline) = Some (dotted ip, host).
Proof using Hip Hhost. unfold entry. rewrite <- app_assoc. apply scan_entry_run; [by apply dotted_word|done]. Qed.

(** The lines after caching. *)
Definition cached (ls : list bytes) : list bytes :=
  if existsb (fun l => is_entry host (l ++ newline)) ls
  then (fun l => if is_entry host (l ++ newline) then entry ip host else l) <$> ls
  else ls ++ [entry ip host].
Lemma cached_ok ls : Forall host_line_ok ls -> Forall host_line_ok (cached ls).
Proof using Hip Hhost.
  intros Hls. unfold cached. destruct (existsb _ ls).
  - apply Forall_fmap. eapply Forall_impl; [exact Hls|]. intros l Hl. cbn. destruct (is_entry _ _); [apply entry_ok|done].
  - apply Forall_app_2; [done|]. constructor; [apply entry_ok|constructor].
Qed.
Lemma existsb_fmap {A B} (p : B -> bool) (f : A -> B) l : existsb p (f <$> l) = existsb (fun x => p (f x)) l.
Proof. induction l as [|x l IH]; [done|]. cbn. by rewrite IH. Qed.
Lemma not_entries ls : existsb (fun l => is_entry host (l ++ newline)) ls = false ->
  (fun l => if is_entry host (l ++ newline) then entry ip host else l) <$> ls = ls.
Proof. induction ls as [|l ls IH]; [done|]. cbn. intros [-> Hf]%orb_false_iff. by rewrite IH. Qed.

Lemma cache_text ls :
  Forall host_line_ok ls -> (length ls < 64)%nat ->
  cache_host_mapping (Some (text ls)) true host (dotted ip) = Some (text (cached ls)).
Proof using Hip Hhost.
  intros Hls Hn. unfold cache_host_mapping. change (Z.to_nat HOSTS_LINES) with 64%nat. rewrite read_hosts_text by (done || lia).
  rewrite existsb_fmap, <- list_fmap_compose, host_line_entry. unfold zlen. rewrite length_fmap.
  assert (Hlt : Z.of_nat (length ls) <? HOSTS_LINES = true) by (unfold HOSTS_LINES; lia). rewrite Hlt, andb_true_r.
  f_equal. unfold cached. destruct (existsb _ ls) eqn:E; cbn [negb].
  - unfold text. f_equal. rewrite <- list_fmap_compose. apply list_fmap_ext. intros i l _. cbn. by destruct (is_entry _ _).
  - rewrite text_snoc. unfold text. rewrite concat_app. cbn. rewrite app_nil_r. f_equal. f_equal.
    rewrite <- (not_entries ls E) at 2. rewrite <- list_fmap_compose. apply list_fmap_ext. intros i l _. cbn. by destruct (is_entry _ _).
Qed.
End entries.

(** ** Reading the file back *)

Class InetLaws `{Inet} : Prop := { pton_dotted ip : is_ipv4 ip -> inet_pton (dotted ip) = Some ip }.

Section resolve.
Context `{InetLaws}.

(** The first line that gives an address. *)
Fixpoint hosts_lines (host : bytes) (ls : list bytes) : option bytes :=
  match ls with
  | [] => None
  | l :: ls => match hosts_entry host (l ++ newline) with Some a => Some a | None => hosts_lines host ls end
  end.
Lemma hosts_loop_text fuel host ls :
  Forall host_line_ok ls -> (length ls < fuel)%nat -> hosts_loop fuel host (text ls) = hosts_lines host ls.
Proof.
  revert fuel. induction ls as [|l ls IH]; intros fuel Hok Hf; destruct fuel as [|fuel]; cbn in Hf; try lia; [done|].
  apply Forall_cons in Hok as [Hl Hok]. cbn [hosts_loop]. rewrite text_cons, fgets_host_line, host_line_cstring by done. cbn [hosts_lines].
  destruct (hosts_entry _ _); [done|]. apply IH; [done|lia].
Qed.
Lemma resolve_text ls host : Forall host_line_ok ls -> resolve_from_hosts_file (Some (text ls)) host = hosts_lines host ls.
Proof. intros Hok. pose proof (length_text ls). unfold resolve_from_hosts_file. cbn [mbind option_bind]. apply hosts_loop_text; [done|lia]. Qed.

(** A line is about one name. *)
Lemma hosts_entry_not host l : is_entry host l = false -> hosts_entry host l = None.
Proof.
  unfold is_entry, hosts_entry. destruct l as [|c l]; [done|]. destruct (_ || _); [done|]. destruct (scan_entry _) as [[x h]|]; [|done].
  cbn. by intros ->.
Qed.
Lemma is_entry_fun host host' l : is_entry host l = true -> host' <> host -> is_entry host' l = false.
Proof. unfold is_entry. destruct (scan_entry l) as [[x h]|]; [|done]. intros ->%bool_decide_eq_true Hne. by apply bool_decide_eq_false. Qed.

Context (ip host : bytes) (Hip : is_ipv4 ip) (Hhost : word_ok 127 host).
Lemma hosts_entry_own : hosts_entry host (entry ip host ++ newline) = Some ip.
Proof using Type*.
  pose proof (scan_entry_entry ip host Hip Hhost) as Es. destruct (dotted_first ip Hip) as (c & s & Ed & Hc).
  assert (Ee : entry ip host ++ newline = c :: (s ++ 32 :: host) ++ newline) by (unfold entry; by rewrite Ed).
  unfold hosts_entry. rewrite Ee in Es |- *. rewrite Es. cbn [mbind option_bind]. rewrite bool_decide_true, pton_dotted by done.
  unfold isdigit in Hc. apply andb_true_iff in Hc as [? ?]. by rewrite !(proj2 (Z.eqb_neq c _)) by lia.
Qed.
Lemma own_entry : is_entry host (entry ip host ++ newline) = true.
Proof using Hip Hhost. unfold is_entry. rewrite scan_entry_entry by done. by apply bool_decide_eq_true. Qed.

Lemma hosts_lines_app ls ls' : hosts_lines host (ls ++ ls') = match hosts_lines host ls with Some a => Some a | None => hosts_lines host ls' end.
Proof. induction ls as [|l ls IH]; [done|]. cbn. by destruct (hosts_entry _ _). Qed.
Lemma cached_own ls : hosts_lines host (cached ip host ls) = Some ip.
Proof using Type*.
  unfold cached. destruct (existsb _ ls) eqn:E.
  - induction ls as [|l ls IH]; [done|]. cbn in E |- *. destruct (is_entry host (l ++ newline)) eqn:El.
    + by rewrite hosts_entry_own.
    + rewrite hosts_entry_not by done. by apply IH.
  - induction ls as [|l ls IH]; cbn; [by rewrite hosts_entry_own|]. cbn in E. apply orb_false_iff in E as [El E]. rewrite hosts_entry_not by done. by apply IH.
Qed.
Lemma cached_other host' ls : host' <> host -> hosts_lines host' (cached ip host ls) = hosts_lines host' ls.
Proof using Hip Hhost.
  intros Hne. pose proof (hosts_entry_not host' _ (is_entry_fun _ host' _ own_entry Hne)) as Hown. unfold cached. destruct (existsb _ ls).
  - induction ls as [|l ls IH]; [done|]. cbn. rewrite IH. destruct (is_entry host (l ++ newline)) eqn:El; [|done].
    by rewrite Hown, (hosts_entry_not host' _ (is_entry_fun _ host' _ El Hne)).
  - induction ls as [|l ls IH]; cbn; [by rewrite Hown|]. by rewrite IH.
Qed.
End resolve.

(** ** Results *)

(** C24: A name that was resolved stays resolved.  Whatever lines the file has, up to 63 of
    them, when the name service gives an address the console uses it, and from then on,
    while the name service does not answer, it gets the same address and port from the file;
    what the file says about every other name is as it was. *)
Theorem hosts_remembered `{InetLaws} dns addr_str ls file ip :
  file = Some (text ls) \/ (file = None /\ ls = []) -> Forall host_line_ok ls -> (length ls < 64)%nat ->
  let host := (host_port addr_str).1 in
  let port := u16 (host_port addr_str).2 in
  word_ok 127 host -> inet_pton host = None -> dns_tries dns 3 0 host = Some ip -> is_ipv4 ip ->
  exists f, resolve_server dns true addr_str file = (0, (ip, port), Some f) /\
    (forall dns' writable, dns_tries dns' 3 0 host = None -> resolve_server dns' writable addr_str (Some f) = (0, (ip, port), Some f)) /\
    forall host', host' <> host -> resolve_from_hosts_file (Some f) host' = resolve_from_hosts_file file host'.
Proof.
  intros Hf Hls Hn host port Hw Hnum Hdns Hip. exists (text (cached ip host ls)). unfold resolve_server. subst host port.
  destruct (host_port addr_str) as [host port]. cbn [fst snd] in *. rewrite Hnum, Hdns. pose proof (cached_ok ip host Hip Hw ls Hls) as Hok.
  split; [|split].
  - f_equal. destruct Hf as [-> |[-> ->]]; [by apply cache_text|]. rewrite <- (cache_text ip host Hip Hw []) by (done || cbn; lia). done.
  - intros dns' writable Hd. by rewrite Hd, resolve_text, cached_own.
  - intros host' Hne. rewrite resolve_text, cached_other by done. destruct Hf as [-> |[-> ->]]; [by rewrite resolve_text|done].
Qed.

(** The names of the table in the program always have an address. *)
Lemma builtin_resolves `{InetLaws} host : lookup_known_relay_ip host <> None -> is_Some (resolve_from_builtin_fallback host).
Proof.
  unfold resolve_from_builtin_fallback, lookup_known_relay_ip, g_known_relays, lookup_relays.
  repeat (case_bool_decide; [intros _; cbn [mbind option_bind];
    match goal with |- is_Some (inet_pton ?s) => let ip := eval vm_compute in (str2ip (Some s)) in
      change s with (dotted ip); rewrite pton_dotted; [by eexists|split; [done|by repeat (constructor; [split; [discriminate|reflexivity]|]); constructor]] end|]).
  done.
Qed.

(** ** Concrete runs *)

Module Demo.
(** A parser of addresses: four numbers, printed as they are read. *)
#[export] Instance strict_pton : Inet :=
  fun s => let ip := str2ip (Some s) in if bool_decide (dotted ip = s) then Some ip else None.
#[export] Instance strict_laws : InetLaws.
Proof. constructor. intros ip [Hl Hb]. unfold inet_pton, strict_pton. by rewrite str2ip_dotted, bool_decide_true. Qed.

Definition demo_name : bytes := cstr "relay.example.org".
Definition demo_lines : list bytes := [cstr "# names"; cstr "10.0.0.1 other.example.org"; cstr "10.0.0.2 relay.example.org"].
Definition demo_dns (ip : bytes) : nat -> bytes -> option bytes := fun i _ => if decide (i = 2%nat) then Some ip else None.
End Demo.
Import Demo.

Lemma hosts_remembered_witness :
  exists f, resolve_server (demo_dns [10; 0; 0; 9]) true (cstr "relay.example.org:4000") (Some (text demo_lines)) =
      (0, ([10; 0; 0; 9], 4000), Some f) /\
    resolve_server (fun _ _ => None) true (cstr "relay.example.org:4000") (Some f) = (0, ([10; 0; 0; 9], 4000), Some f) /\
    resolve_from_hosts_file (Some f) (cstr "other.example.org") = Some [10; 0; 0; 1].
Proof.
  destruct (hosts_remembered (demo_dns [10; 0; 0; 9]) (cstr "relay.example.org:4000") demo_lines (Some (text demo_lines)) [10; 0; 0; 9])
    as (f & E1 & E2 & E3).
  - by left.
  - repeat constructor; vm_compute; (discriminate || lia || (intros Hx; set_solver) || idtac).
  - cbn. lia.
  - split; [discriminate|]. split; [vm_compute; repeat (constructor; [split; [reflexivity|discriminate]|]); constructor|vm_compute; lia].
  - vm_compute. reflexivity.
  - vm_compute. reflexivity.
  - split; [reflexivity|]. repeat (constructor; [split; [discriminate|reflexivity]|]). constructor.
  - exists f. split; [exact E1|]. split; [apply E2; reflexivity|]. rewrite E3 by (vm_compute; discriminate). vm_compute. reflexivity.
Defined.

(** A last line without a newline takes the new entry with it. *)
Example hosts_unterminated :
  let file := Some (cstr "10.0.0.1 other.example.org") in
  let '(_, _, file') := resolve_server (demo_dns [10; 0; 0; 9]) true demo_name file in
  resolve_from_hosts_file file (cstr "other.example.org") = Some [10; 0; 0; 1] /\
  resolve_from_hosts_file file' (cstr "other.example.org") = None /\ resolve_from_hosts_file file' demo_name = None.
Proof. vm_compute. auto. Qed.
(** A file of 64 lines takes no more names, and what follows them is lost. *)
Example hosts_full :
  let file := Some (text (replicate 64 [35] ++ [cstr "10.0.0.1 other.example.org"])) in
  let '(_, _, file') := resolve_server (demo_dns [10; 0; 0; 9]) true demo_name file in
  resolve_from_hosts_file file' (cstr "other.example.org") = None /\ resolve_from_hosts_file file' demo_name = None.
Proof. vm_compute. auto. Qed.
(** A port is taken modulo 65536. *)
Example port_wraps : (resolve_server (fun _ _ => None) true (cstr "10.0.0.1:70000") None).1 = (0, ([10; 0; 0; 1], 4464)).
Proof. vm_compute. reflexivity. Qed.
