(* ===== verification/NxMain.v ===== *)
(** The console's program: [sysmodule/source/main.cpp] and [foreground_detector.cpp].

    [main] waits until a game uses local play (or is in the foreground), runs the client
    once ([run_service]) and starts over.  [run_service] opens the network services, waits
    for the network, reads the configuration, resolves the relay, starts the five threads of
    the client, and watches whether it is still wanted; then it stops everything.

    The state is the static variables of the two files with the gate of [NxGate] and the file
    of [NxHosts]; what is asked of the system is its trace, what the system answers comes
    from [NxSys], by number of calls made.  The thread that watches processes runs while the
    program sleeps.  A loop that waits takes a number of turns and gives [None] when they are
    used up.  Opening the interface, the relay client and the bridge are calls with a
    result; [NxTap], [NxClient] and [LdnBridge] model them.

    Shown here: every service, thread and object is used in order and given back, on every
    path of [run_service], but for the power-state service, which the program never closes;
    the settings in effect are those of the configuration file, with the relay's address from
    the name service or the file of names; the client goes on exactly as long as the specification of the gate wants it; and the pause
    between two runs, meant to grow, is always three seconds. *)

From stdpp Require Import strings gmap.
From S2P Require Import Prelude Byteorder Structs Checksum Packet Arp Ipv4 Sha1 LanClient Dispatch LanPlay Nx NxClient NxTap Helper NxGate NxConfig NxHosts.

(** ** The code *)

Inductive service := SvSm | SvFs | SvSetsys | SvPscm | SvNifm | SvBsd | SvSocket | SvPgl | SvObserver | SvProcessEvent | SvPmshell | SvPminfo.
#[export] Instance service_eq_dec : EqDecision service.
Proof. solve_decision. Defined.
Inductive task := TkTap | TkRelay | TkKeepalive | TkLdnUdp | TkLdnTcp | TkPgl.
#[export] Instance task_eq_dec : EqDecision task.
Proof. solve_decision. Defined.

(** [foreground_state_t] *)
Record foreground_state_t := {
  fg_available : bool;
  fg_has_application : bool;
  fg_is_game : bool;
  fg_process_id : Z;
  fg_title_id : Z;
  fg_last_rc : Z;
}.

(** What the client runs with. *)
Record settings := {
  st_server : bytes * Z;        (* server_addr *)
  st_my_ip : bytes;
  st_net : bytes;
  st_mask : bytes;
  st_auth : option (bytes * bytes);   (* username and key *)
  st_wifi_ip : Z;
}.

(** The contents of [lanplay.status]. *)
Inductive status :=
| StError (msg : bytes)
| StWaitingGame (fg : option foreground_state_t)
| StWaitingLdn (gate : lanp_gate_state_t)
| StInactive
| StActive (relay : bytes) (event : Z).

Inductive nx_event :=
| NeOpen (s : service)
| NeExit (s : service)
| NeCreate (t : task)
| NeStart (t : task)
| NeWait (t : task)
| NeClose (t : task)
| NeAlloc                       (* lp *)
| NeFree
| NeTapInit | NeTapClose
| NeClientInit | NeClientClose
| NeBridgeInit | NeBridgeClose | NeWaitSessions
| NeReady (s : settings)        (* packet_init and the fields of lp are set *)
| NeStatus (s : status)
| NeSleep (ns : Z)
| NeRestart (ns : Z).           (* the pause before the next run *)

#[export] Instance gate_state_eq_dec : EqDecision lanp_gate_state_t.
Proof. solve_decision. Defined.
#[export] Instance foreground_eq_dec : EqDecision foreground_state_t.
Proof. solve_decision. Defined.
#[export] Instance settings_eq_dec : EqDecision settings.
Proof. solve_decision. Defined.
#[export] Instance status_eq_dec : EqDecision status.
Proof. solve_decision. Defined.
#[export] Instance nx_event_eq_dec : EqDecision nx_event.
Proof. solve_decision. Defined.

(** Process events ([PmProcessEvent]). *)
Definition PmProcessEvent_None : Z := 0.
Definition PmProcessEvent_Exit : Z := 1.
Definition PmProcessEvent_Start : Z := 2.
Definition PmProcessEvent_Crash : Z := 3.
Definition PmProcessEvent_DebugStart : Z := 4.

(** What a turn of the thread that watches processes gets: nothing, no information, or an
    event and a process. *)
Inductive pgl_report := RpTimeout | RpNoInfo | RpInfo (event process_id : Z).

Record sysmod := {
  y_rc_fs : Z;
  y_network : bool;
  y_nifm : bool;
  y_bsd : bool;
  y_socket : bool;
  y_pgl_ready : bool;
  y_pgl_mutex : bool;
  y_pgl_thread : bool;          (* g_pgl_thread_started *)
  y_pgl_running : bool;
  y_pgl_observer : bool;
  y_pgl_event : bool;
  y_app : Z * Z * Z;            (* g_pgl_app_pid, g_pgl_last_event, g_pgl_last_rc *)
  y_pm : bool * Z;              (* g_pm_ready, g_pm_init_rc *)
  y_active_lp : bool;           (* g_active_lp is not null *)
  y_gate : gate;
  y_hosts : option bytes;       (* hosts.txt *)
  y_ticks : nat;
  y_out : list nx_event;
}.
Definition set_network (v n b s : bool) (y : sysmod) : sysmod :=
  {| y_rc_fs := y_rc_fs y; y_network := v; y_nifm := n; y_bsd := b; y_socket := s; y_pgl_ready := y_pgl_ready y; y_pgl_mutex := y_pgl_mutex y;
     y_pgl_thread := y_pgl_thread y; y_pgl_running := y_pgl_running y; y_pgl_observer := y_pgl_observer y; y_pgl_event := y_pgl_event y;
     y_app := y_app y; y_pm := y_pm y; y_active_lp := y_active_lp y; y_gate := y_gate y; y_hosts := y_hosts y; y_ticks := y_ticks y; y_out := y_out y |}.
Definition set_pgl (ready mutex thread running observer event : bool) (y : sysmod) : sysmod :=
  {| y_rc_fs := y_rc_fs y; y_network := y_network y; y_nifm := y_nifm y; y_bsd := y_bsd y; y_socket := y_socket y; y_pgl_ready := ready; y_pgl_mutex := mutex;
     y_pgl_thread := thread; y_pgl_running := running; y_pgl_observer := observer; y_pgl_event := event;
     y_app := y_app y; y_pm := y_pm y; y_active_lp := y_active_lp y; y_gate := y_gate y; y_hosts := y_hosts y; y_ticks := y_ticks y; y_out := y_out y |}.
Definition set_app (v : Z * Z * Z) (y : sysmod) : sysmod :=
  {| y_rc_fs := y_rc_fs y; y_network := y_network y; y_nifm := y_nifm y; y_bsd := y_bsd y; y_socket := y_socket y; y_pgl_ready := y_pgl_ready y; y_pgl_mutex := y_pgl_mutex y;
     y_pgl_thread := y_pgl_thread y; y_pgl_running := y_pgl_running y; y_pgl_observer := y_pgl_observer y; y_pgl_event := y_pgl_event y;
     y_app := v; y_pm := y_pm y; y_active_lp := y_active_lp y; y_gate := y_gate y; y_hosts := y_hosts y; y_ticks := y_ticks y; y_out := y_out y |}.
Definition set_pm (v : bool * Z) (y : sysmod) : sysmod :=
  {| y_rc_fs := y_rc_fs y; y_network := y_network y; y_nifm := y_nifm y; y_bsd := y_bsd y; y_socket := y_socket y; y_pgl_ready := y_pgl_ready y; y_pgl_mutex := y_pgl_mutex y;
     y_pgl_thread := y_pgl_thread y; y_pgl_running := y_pgl_running y; y_pgl_observer := y_pgl_observer y; y_pgl_event := y_pgl_event y;
     y_app := y_app y; y_pm := v; y_active_lp := y_active_lp y; y_gate := y_gate y; y_hosts := y_hosts y; y_ticks := y_ticks y; y_out := y_out y |}.
Definition set_active_lp (v : bool) (y : sysmod) : sysmod :=
  {| y_rc_fs := y_rc_fs y; y_network := y_network y; y_nifm := y_nifm y; y_bsd := y_bsd y; y_socket := y_socket y; y_pgl_ready := y_pgl_ready y; y_pgl_mutex := y_pgl_mutex y;
     y_pgl_thread := y_pgl_thread y; y_pgl_running := y_pgl_running y; y_pgl_observer := y_pgl_observer y; y_pgl_event := y_pgl_event y;
     y_app := y_app y; y_pm := y_pm y; y_active_lp := v; y_gate := y_gate y; y_hosts := y_hosts y; y_ticks := y_ticks y; y_out := y_out y |}.
Definition set_gate (v : gate) (y : sysmod) : sysmod :=
  {| y_rc_fs := y_rc_fs y; y_network := y_network y; y_nifm := y_nifm y; y_bsd := y_bsd y; y_socket := y_socket y; y_pgl_ready := y_pgl_ready y; y_pgl_mutex := y_pgl_mutex y;
     y_pgl_thread := y_pgl_thread y; y_pgl_running := y_pgl_running y; y_pgl_observer := y_pgl_observer y; y_pgl_event := y_pgl_event y;
     y_app := y_app y; y_pm := y_pm y; y_active_lp := y_active_lp y; y_gate := v; y_hosts := y_hosts y; y_ticks := y_ticks y; y_out := y_out y |}.
Definition set_hosts (v : option bytes) (y : sysmod) : sysmod :=
  {| y_rc_fs := y_rc_fs y; y_network := y_network y; y_nifm := y_nifm y; y_bsd := y_bsd y; y_socket := y_socket y; y_pgl_ready := y_pgl_ready y; y_pgl_mutex := y_pgl_mutex y;
     y_pgl_thread := y_pgl_thread y; y_pgl_running := y_pgl_running y; y_pgl_observer := y_pgl_observer y; y_pgl_event := y_pgl_event y;
     y_app := y_app y; y_pm := y_pm y; y_active_lp := y_active_lp y; y_gate := y_gate y; y_hosts := v; y_ticks := y_ticks y; y_out := y_out y |}.
Definition set_y_rc_fs (v : Z) (y : sysmod) : sysmod :=
  {| y_rc_fs := v; y_network := y_network y; y_nifm := y_nifm y; y_bsd := y_bsd y; y_socket := y_socket y; y_pgl_ready := y_pgl_ready y; y_pgl_mutex := y_pgl_mutex y;
     y_pgl_thread := y_pgl_thread y; y_pgl_running := y_pgl_running y; y_pgl_observer := y_pgl_observer y; y_pgl_event := y_pgl_event y;
     y_app := y_app y; y_pm := y_pm y; y_active_lp := y_active_lp y; y_gate := y_gate y; y_hosts := y_hosts y; y_ticks := y_ticks y; y_out := y_out y |}.
Definition set_trace (ticks : nat) (out : list nx_event) (y : sysmod) : sysmod :=
  {| y_rc_fs := y_rc_fs y; y_network := y_network y; y_nifm := y_nifm y; y_bsd := y_bsd y; y_socket := y_socket y; y_pgl_ready := y_pgl_ready y; y_pgl_mutex := y_pgl_mutex y;
     y_pgl_thread := y_pgl_thread y; y_pgl_running := y_pgl_running y; y_pgl_observer := y_pgl_observer y; y_pgl_event := y_pgl_event y;
     y_app := y_app y; y_pm := y_pm y; y_active_lp := y_active_lp y; y_gate := y_gate y; y_hosts := y_hosts y; y_ticks := ticks; y_out := out |}.

(** The system.  A result is 0 for success. *)
Class NxSys := {
  nx_rc : nat -> Z;                          (* the result of a call *)
  nx_app : nat -> Z * Z;                     (* the application: result and process *)
  nx_title : nat -> Z * Z;                   (* pminfoGetProgramId *)
  nx_there : nat -> bool;                    (* stat: the file is there *)
  nx_ip : nat -> Z;                          (* nifmGetCurrentIpAddress *)
  nx_room : nat -> bool;                     (* malloc or strdup succeeded *)
  nx_config_file : nat -> option bytes;
  nx_serial : nat -> option bytes;
  nx_dns : nat -> nat -> bytes -> option bytes;
  nx_writable : nat -> bool;
  nx_running : nat -> bool;                  (* lp->running, which the threads of the client clear *)
  nx_reports : nat -> list pgl_report;       (* what the thread that watches processes gets *)
  inet_aton : bytes -> option bytes;
}.

Section code.
Context `{NxSys} `{GateSys} `{Inet} `{Env}.
Abbreviation Y := (M sysmod).

Definition ask {A} (f : nat -> A) : Y A := fun y => Ok (f (y_ticks y)) (set_trace (S (y_ticks y)) (y_out y) y).
Definition say (e : nx_event) : Y unit := modify (fun y => set_trace (y_ticks y) (y_out y ++ [e]) y).
Definition on_gate {A} (m : M gate A) : Y A :=
  fun y => match m (y_gate y) with Ok a g => Ok a (set_gate g y) | Stop e => Stop e end.
(** A call that opens a service if it succeeds, or creates a thread. *)
Definition open_service (s : service) : Y Z :=
  let* rc := ask nx_rc in
  (if rc =? 0 then say (NeOpen s) else ret tt) ;;;
  ret rc.
Definition threadCreate (t : task) : Y Z :=
  let* rc := ask nx_rc in
  (if rc =? 0 then say (NeCreate t) else ret tt) ;;;
  ret rc.

(** *** foreground_detector.cpp *)

Definition foreground_detector_init : Y Z :=
  let* y := gets id in
  if (y_pm y).1 then ret 0
  else
    let* rc_sm := open_service SvSm in
    if negb (rc_sm =? 0) then modify (set_pm (false, rc_sm)) ;;; ret rc_sm
    else
      let* rc_shell := open_service SvPmshell in
      if negb (rc_shell =? 0) then say (NeExit SvSm) ;;; modify (set_pm (false, rc_shell)) ;;; ret rc_shell
      else
        let* rc_info := open_service SvPminfo in
        if negb (rc_info =? 0) then
          say (NeExit SvPmshell) ;;;
          say (NeExit SvSm) ;;;
          modify (set_pm (false, rc_info)) ;;;
          ret rc_info
        else
          say (NeExit SvSm) ;;;
          modify (set_pm (true, 0)) ;;;
          ret 0.
Definition foreground_detector_exit : Y unit :=
  let* y := gets id in
  if (y_pm y).1 then
    say (NeExit SvPminfo) ;;;
    say (NeExit SvPmshell) ;;;
    modify (set_pm (false, (y_pm y).2))
  else ret tt.
Definition foreground_detector_available : Y bool := gets (fun y => (y_pm y).1).

Definition foreground_is_system_title (title_id : Z) : bool :=
  if title_id =? 0 then true
  else if (0x0100000000000000 <=? title_id) && (title_id <? 0x0100000000010000) then true
  else bool_decide (title_id ∈ seqZ 0x0100000000001000 20).

Definition foreground_has_game : Y (bool * foreground_state_t) :=
  let* y := gets id in
  let fg (app game : bool) (pid title rc : Z) :=
    {| fg_available := (y_pm y).1; fg_has_application := app; fg_is_game := game; fg_process_id := pid; fg_title_id := title; fg_last_rc := rc |} in
  if negb (y_pm y).1 then ret (false, fg false false 0 0 (y_pm y).2)
  else
    let* (rc, pid) := ask nx_app in
    if negb (rc =? 0) || (pid =? 0) then ret (false, fg false false 0 0 rc)
    else
      let* (rc, title_id) := ask nx_title in
      if (rc =? 0) && negb (title_id =? 0) then
        let game := negb (foreground_is_system_title title_id) in
        ret (game, fg true game pid title_id rc)
      else ret (true, fg true true pid 0 rc).

(** *** The thread that watches processes *)

Definition pgl_set_state (pid event rc : Z) : Y unit :=
  let* y := gets id in
  if y_pgl_mutex y then modify (set_app (pid, event, rc)) else ret tt.
Definition pgl_clear_pid (rc : Z) : Y unit :=
  let* y := gets id in
  if y_pgl_mutex y then modify (set_app (0, (y_app y).1.2, rc)) else ret tt.
Definition pgl_get_state : Y (Z * Z * Z) :=
  let* y := gets id in
  ret (if y_pgl_mutex y then y_app y else (0, PmProcessEvent_None, 0)).
Definition pgl_refresh_application_state : Y bool :=
  let* y := gets id in
  if negb (y_pgl_ready y) then ret false
  else
    let* (rc, pid) := ask nx_app in
    if (rc =? 0) && negb (pid =? 0) then pgl_set_state pid PmProcessEvent_Start rc ;;; ret true
    else pgl_clear_pid rc ;;; ret false.
Definition pgl_has_application : Y bool :=
  let* y := gets id in
  if negb (y_pgl_ready y) then ret false
  else
    (if negb (y_pgl_thread y) then let* _ := pgl_refresh_application_state in ret tt else ret tt) ;;;
    let* st := pgl_get_state in
    ret (negb (st.1.1 =? 0)).

(** A turn of [pgl_thread_fn]. *)
Definition pgl_turn (r : pgl_report) : Y unit :=
  let* y := gets id in
  if negb (y_pgl_running y) || negb (y_pgl_event y) then ret tt
  else
    match r with
    | RpTimeout => ret tt
    | RpNoInfo => let* _ := pgl_refresh_application_state in ret tt
    | RpInfo event pid =>
        let* st := pgl_get_state in
        let current_pid := st.1.1 in
        if (event =? PmProcessEvent_Start) || (event =? PmProcessEvent_DebugStart) then pgl_set_state pid event 0
        else if (event =? PmProcessEvent_Exit) || (event =? PmProcessEvent_Crash) then
          if (current_pid =? 0) || (current_pid =? pid) then pgl_set_state 0 event 0
          else pgl_set_state current_pid event 0
        else pgl_set_state current_pid event 0
    end.
(** The other thread runs while this one sleeps. *)
Definition svcSleepThread (ns : Z) : Y unit :=
  say (NeSleep ns) ;;;
  let* reports := ask nx_reports in
  let* y := gets id in
  if y_pgl_thread y then for_each reports pgl_turn else ret tt.

Definition pgl_monitor_start : Y unit :=
  let* y := gets id in
  if negb (y_pgl_ready y) || y_pgl_thread y then ret tt
  else
    let* rc := open_service SvObserver in
    if negb (rc =? 0) then ret tt
    else
      modify (fun y => set_pgl (y_pgl_ready y) (y_pgl_mutex y) (y_pgl_thread y) (y_pgl_running y) true (y_pgl_event y) y) ;;;
      let* rc := open_service SvProcessEvent in
      if negb (rc =? 0) then
        say (NeExit SvObserver) ;;;
        modify (fun y => set_pgl (y_pgl_ready y) (y_pgl_mutex y) (y_pgl_thread y) (y_pgl_running y) false (y_pgl_event y) y)
      else
        modify (fun y => set_pgl (y_pgl_ready y) (y_pgl_mutex y) (y_pgl_thread y) true (y_pgl_observer y) true y) ;;;
        let* rc := threadCreate TkPgl in
        if negb (rc =? 0) then
          say (NeExit SvProcessEvent) ;;;
          say (NeExit SvObserver) ;;;
          modify (fun y => set_pgl (y_pgl_ready y) (y_pgl_mutex y) (y_pgl_thread y) false false false y)
        else
          say (NeStart TkPgl) ;;;
          modify (fun y => set_pgl (y_pgl_ready y) (y_pgl_mutex y) true (y_pgl_running y) (y_pgl_observer y) (y_pgl_event y) y).
Definition pgl_monitor_stop : Y unit :=
  let* y := gets id in
  (if y_pgl_thread y then say (NeWait TkPgl) ;;; say (NeClose TkPgl) else ret tt) ;;;
  (if y_pgl_event y then say (NeExit SvProcessEvent) else ret tt) ;;;
  (if y_pgl_observer y then say (NeExit SvObserver) else ret tt) ;;;
  (if y_pgl_ready y then say (NeExit SvPgl) else ret tt) ;;;
  modify (set_pgl false (y_pgl_mutex y) false false false false).
Definition pgl_monitor_init_late : Y unit :=
  let* y := gets id in
  if y_pgl_ready y then ret tt
  else
    let* rc := open_service SvSm in
    if negb (rc =? 0) then ret tt
    else
      let* rc := open_service SvPgl in
      say (NeExit SvSm) ;;;
      if negb (rc =? 0) then ret tt
      else
        modify (fun y => set_pgl true true (y_pgl_thread y) (y_pgl_running y) (y_pgl_observer y) (y_pgl_event y) y) ;;;
        let* _ := pgl_refresh_application_state in
        pgl_monitor_start.

(** *** Network services *)

Definition runtime_network_init : Y Z :=
  let* y := gets id in
  if y_network y then ret 0
  else
    let* rc := open_service SvSm in
    if negb (rc =? 0) then ret (-1)
    else
      let* rc := open_service SvNifm in                        (* NifmServiceType_System *)
      let* rc := if negb (rc =? 0) then open_service SvNifm else ret rc in
      if negb (rc =? 0) then say (NeExit SvSm) ;;; ret (-1)
      else
        let* rc := open_service SvBsd in
        if negb (rc =? 0) then
          say (NeExit SvNifm) ;;;
          say (NeExit SvSm) ;;;
          ret (-1)
        else
          let* rc := open_service SvSocket in
          if negb (rc =? 0) then
            say (NeExit SvBsd) ;;;
            say (NeExit SvNifm) ;;;
            say (NeExit SvSm) ;;;
            ret (-1)
          else
            modify (set_network true true true true) ;;;
            say (NeExit SvSm) ;;;
            ret 0.
Definition runtime_network_cleanup_final : Y unit :=
  let* y := gets id in
  (if y_socket y then say (NeExit SvSocket) else ret tt) ;;;
  (if y_bsd y then say (NeExit SvBsd) else ret tt) ;;;
  (if y_nifm y then say (NeExit SvNifm) else ret tt) ;;;
  modify (set_network false false false false).
Definition runtime_network_exit : Y unit := ret tt.

(** *** Whether the client should run *)

Definition write_status (s : status) : Y unit :=
  let* y := gets id in
  if y_rc_fs y =? 0 then say (NeStatus s) else ret tt.
Definition write_status_error (msg : string) : Y unit := write_status (StError (cstr msg)).
Definition write_status_waiting_game (fg : option foreground_state_t) : Y unit := write_status (StWaitingGame fg).
Definition write_status_waiting_ldn (gate : lanp_gate_state_t) : Y unit := write_status (StWaitingLdn gate).

Definition pm_monitors_enabled : Y bool := ask nx_there.
Definition foreground_gate_disabled_by_file : Y bool := ask nx_there.
Definition foreground_gate_enabled : Y bool :=
  let* pm := pm_monitors_enabled in
  if negb pm then ret false
  else
    let* disabled := foreground_gate_disabled_by_file in
    if disabled : bool then ret false else foreground_detector_available.
Definition ldn_activity_gate_disabled_by_file : Y bool := ask nx_there.
Definition ldn_activity_gate_enabled : Y bool :=
  if ldn_gate_service_available then let* disabled := ldn_activity_gate_disabled_by_file in ret (negb disabled) else ret false.

(** [stat] and [unlink] of [lanplay.reload]. *)
Definition consume_reload : Y bool := ask nx_there.

Definition no_application : Y bool :=
  let* y := gets id in
  if y_pgl_ready y then let* has := pgl_has_application in ret (negb has) else ret false.

Fixpoint wait_ldn_loop (turns : nat) : Y (option bool) :=
  match turns with
  | O => ret None
  | S turns =>
      let* missing := no_application in
      if missing : bool then
        write_status_waiting_game None ;;;
        let* _ := consume_reload in
        svcSleepThread 1000000000 ;;;
        wait_ldn_loop turns
      else
        on_gate ldn_gate_poll ;;;
        let* gate := on_gate ldn_gate_get_state in
        let* start := on_gate ldn_gate_is_active_for_start in
        if start : bool then ret (Some true)
        else
          write_status_waiting_ldn gate ;;;
          let* _ := consume_reload in
          svcSleepThread 1000000000 ;;;
          wait_ldn_loop turns
  end.
Definition wait_for_ldn_activity (turns : nat) : Y (option bool) :=
  let* enabled := ldn_activity_gate_enabled in
  if negb enabled then ret (Some true) else wait_ldn_loop turns.

Definition ldn_runtime_still_allowed : Y bool :=
  let* enabled := ldn_activity_gate_enabled in
  let* missing := if enabled : bool then no_application else ret false in
  if missing : bool then write_status_waiting_game None ;;; ret false
  else
    let* enabled := ldn_activity_gate_enabled in
    if negb enabled then ret true
    else
      on_gate ldn_gate_poll ;;;
      let* active := on_gate ldn_gate_is_active in
      if active : bool then ret true
      else
        let* gate := on_gate ldn_gate_get_state in
        write_status_waiting_ldn gate ;;;
        ret false.

Fixpoint wait_game_loop (turns : nat) : Y (option bool) :=
  match turns with
  | O => ret None
  | S turns =>
      let* (game, fg) := foreground_has_game in
      if game : bool then ret (Some true)
      else
        write_status_waiting_game (Some fg) ;;;
        let* _ := consume_reload in
        svcSleepThread 1000000000 ;;;
        wait_game_loop turns
  end.
Definition wait_for_foreground_game (turns : nat) : Y (option bool) :=
  let* enabled := foreground_gate_enabled in
  if negb enabled then ret (Some true) else wait_game_loop turns.

Definition foreground_runtime_still_allowed : Y bool :=
  let* ldn := ldn_activity_gate_enabled in
  if ldn : bool then ret true
  else
    let* enabled := foreground_gate_enabled in
    if negb enabled then ret true
    else
      let* (game, fg) := foreground_has_game in
      if game : bool then ret true
      else write_status_waiting_game (Some fg) ;;; ret false.
(** Both, as every wait asks them. *)
Definition still_allowed : Y bool :=
  let* fg := foreground_runtime_still_allowed in
  if negb fg then ret false else ldn_runtime_still_allowed.

(** *** run_service *)

(** The address the console has; [Some None]: the client is not wanted any more. *)
Fixpoint wait_wifi (turns : nat) : Y (option (option Z)) :=
  match turns with
  | O => ret None
  | S turns =>
      let* ip := ask nx_ip in
      if negb (ip =? 0) then ret (Some (Some ip))
      else
        write_status_error "Esperando WiFi..." ;;;
        let* allowed := still_allowed in
        if negb allowed then ret (Some None)
        else svcSleepThread 2000000000 ;;; wait_wifi turns
  end.

(** [sendto] until it does not fail, at most [n] times. *)
Fixpoint probe (n : nat) (pause : Z) : Y unit :=
  match n with
  | O => ret tt
  | S n =>
      let* rc := ask nx_rc in
      if rc =? 0 then ret tt else svcSleepThread pause ;;; probe n pause
  end.
Definition route_probe : Y unit :=
  let* fd := ask nx_rc in
  if fd =? 0 then probe 5 1000000000 else svcSleepThread 2000000000.
Definition relay_probe : Y unit :=
  let* fd := ask nx_rc in
  if fd =? 0 then probe 15 2000000000 else ret tt.

(** Without a configuration: until there is one, or the client is not wanted. *)
Fixpoint wait_config (turns : nat) : Y (option Z) :=
  match turns with
  | O => ret None
  | S turns =>
      say (NeStatus StInactive) ;;;
      let* reload := consume_reload in
      if reload : bool then ret (Some 1)
      else
        let* allowed := still_allowed in
        if negb allowed then ret (Some 1)
        else svcSleepThread 2000000000 ;;; wait_config turns
  end.

Definition resolve (relay : bytes) : Y (Z * (bytes * Z)) :=
  let* dns := ask nx_dns in
  let* writable := ask nx_writable in
  let* y := gets id in
  let '(rc, addr, file) := resolve_server dns writable relay (y_hosts y) in
  modify (set_hosts file) ;;;
  ret (rc, addr).
Fixpoint wait_relay (turns : nat) (relay : bytes) : Y (option (option (bytes * Z))) :=
  match turns with
  | O => ret None
  | S turns =>
      let* (rc, addr) := resolve relay in
      if rc =? 0 then ret (Some (Some addr))
      else
        write_status_error "Esperando DNS del relay..." ;;;
        let* reload := consume_reload in
        if reload : bool then ret (Some None)
        else
          let* allowed := still_allowed in
          if negb allowed then ret (Some None)
          else svcSleepThread 2000000000 ;;; wait_relay turns relay
  end.

Definition hash_password (password : bytes) : option bytes :=
  let ctx := {| sha_state := [0; 0; 0; 0; 0]; sha_count0 := 0; sha_count1 := 0; sha_buffer := uninit 64 |} in
  ctx ← SHA1Update (SHA1Init ctx) password (u32 (zlen password));
  '(digest, _) ← SHA1Final ctx;
  Some digest.

Fixpoint service_loop (turns : nat) (relay : bytes) : Y (option unit) :=
  match turns with
  | O => ret None
  | S turns =>
      let* running := ask nx_running in
      if negb running then write_status_error "Suspendiendo: cerrando red para modo reposo" ;;; ret (Some tt)
      else
        let* gst := on_gate ldn_gate_get_state in
        say (NeStatus (StActive relay (gs_event_type gst))) ;;;
        let* reload := consume_reload in
        if reload : bool then svcSleepThread 1000000000 ;;; ret (Some tt)
        else
          let* enabled := foreground_gate_enabled in
          let* gone :=
            (if enabled : bool then
               let* (game, fg) := foreground_has_game in
               if game : bool then ret false else write_status_waiting_game (Some fg) ;;; ret true
             else ret false) in
          if gone : bool then ret (Some tt)
          else
            let* allowed := ldn_runtime_still_allowed in
            if negb allowed then ret (Some tt)
            else svcSleepThread 2000000000 ;;; service_loop turns relay
  end.

Definition join (t : task) : Y unit := say (NeWait t) ;;; say (NeClose t).
(** The end of [run_service], [started] being the threads that were started. *)
Definition cleanup (started : list task) : Y (option Z) :=
  say NeBridgeClose ;;;
  say NeClientClose ;;;
  say NeTapClose ;;;
  for_each started join ;;;
  say NeWaitSessions ;;;
  modify (set_active_lp false) ;;;
  say NeFree ;;;
  svcSleepThread 500000000 ;;;
  ret (Some 1).
(** A thread the client can do without: whether it was started. *)
Definition start_optional (t : task) : Y bool :=
  let* rc := threadCreate t in
  if rc =? 0 then say (NeStart t) ;;; ret true else ret false.
Definition run_threads (turns : nat) (relay : bytes) : Y (option Z) :=
  let* rc := threadCreate TkTap in
  if negb (rc =? 0) then write_status_error "Failed to create tap thread" ;;; cleanup []
  else
    let* rc := threadCreate TkRelay in
    if negb (rc =? 0) then
      write_status_error "Failed to create relay thread" ;;;
      say (NeClose TkTap) ;;;
      cleanup []
    else
      let* rc := threadCreate TkKeepalive in
      if negb (rc =? 0) then
        write_status_error "Failed to create keepalive thread" ;;;
        say (NeClose TkTap) ;;;
        say (NeClose TkRelay) ;;;
        cleanup []
      else
        say (NeStart TkTap) ;;;
        say (NeStart TkRelay) ;;;
        say (NeStart TkKeepalive) ;;;
        let* udp := start_optional TkLdnUdp in
        let* tcp := start_optional TkLdnTcp in
        let* r := service_loop turns relay in
        match r with
        | None => ret None
        | Some _ => cleanup ((if tcp : bool then [TkLdnTcp] else []) ++ (if udp : bool then [TkLdnUdp] else []) ++ [TkKeepalive; TkRelay; TkTap])
        end.

(** An error after [lp] was allocated. *)
Definition abandon (msg : string) (clear : bool) : Y (option Z) :=
  write_status_error msg ;;;
  (if clear then modify (set_active_lp false) else ret tt) ;;;
  say NeFree ;;;
  svcSleepThread 3000000000 ;;;
  ret (Some 1).

Definition start_client (turns : nat) (relay : bytes) : Y (option Z) :=
  let* rc := ask nx_rc in                                     (* tap_init *)
  if negb (rc =? 0) then abandon "TAP interface init failed" true
  else
    say NeTapInit ;;;
    let* rc := ask nx_rc in                                   (* lan_client_init *)
    if negb (rc =? 0) then say NeTapClose ;;; abandon "Relay client init failed" true
    else
      say NeClientInit ;;;
      let* rc := ask nx_rc in                                 (* ldn_bridge_init *)
      (if rc =? 0 then say NeBridgeInit else ret tt) ;;;
      run_threads turns relay.

(** The name and the key, if there is a name; [None]: out of memory. *)
Definition login (cfg : nx_config_t) : Y (option (option (bytes * bytes))) :=
  let username := cstring (cf_username cfg) in
  if bool_decide (username = []) then ret (Some None)
  else
    let* room := ask nx_room in
    if negb room then ret None
    else
      let* key := mem (hash_password (cstring (cf_password cfg))) in
      ret (Some (Some (username, key))).

Definition with_server (turns : nat) (wifi_ip : Z) (cfg : nx_config_t) (server : bytes * Z) : Y (option Z) :=
  relay_probe ;;;
  match inet_aton (cstring (cf_my_ip cfg)), inet_aton (cstring (cf_subnet_net cfg)), inet_aton (cstring (cf_subnet_mask cfg)) with
  | Some my_ip, Some net, Some mask =>
      let* auth := login cfg in
      match auth with
      | None => abandon "Out of memory for username" false
      | Some auth =>
          say (NeReady {| st_server := server; st_my_ip := my_ip; st_net := net; st_mask := mask; st_auth := auth; st_wifi_ip := wifi_ip |}) ;;;
          start_client turns (cstring (cf_relay_addr cfg))
      end
  | _, _, _ => abandon "Invalid IP/subnet config" true
  end.

Definition with_config (turns : nat) (wifi_ip : Z) (cfg : nx_config_t) : Y (option Z) :=
  let* room := ask nx_room in
  if negb room then write_status_error "Out of memory" ;;; svcSleepThread 3000000000 ;;; runtime_network_exit ;;; ret (Some 1)
  else
    say NeAlloc ;;;
    modify (set_active_lp true) ;;;
    let* server := wait_relay turns (cstring (cf_relay_addr cfg)) in
    match server with
    | None => ret None
    | Some None => say NeFree ;;; ret (Some 1)                (* g_active_lp stays *)
    | Some (Some server) => with_server turns wifi_ip cfg server
    end.

Definition run_service (turns : nat) : Y (option Z) :=
  let* rc := runtime_network_init in
  if negb (rc =? 0) then write_status_error "Runtime network init failed" ;;; svcSleepThread 3000000000 ;;; ret (Some 1)
  else
    let* wifi := wait_wifi turns in
    match wifi with
    | None => ret None
    | Some None => ret (Some 1)
    | Some (Some wifi_ip) =>
        route_probe ;;;
        let* file := ask nx_config_file in
        let '(rc, cfg) := nx_config_load file in
        if negb (rc =? 0) then wait_config turns
        else
          let* serial := ask nx_serial in
          with_config turns wifi_ip (nx_config_auto_ip serial cfg)
    end.

(** *** main *)

(** The seconds before the next run. *)
Fixpoint double (n : nat) (delay : Z) : Z :=
  match n with
  | O => delay
  | S n => if delay <? 60 then double n (delay * 2) else delay
  end.
Definition backoff (restart_count : Z) : Z :=
  let delay := double (Z.to_nat (restart_count - 1)) 3 in
  if 60 <? delay then 60 else delay.

(** Waiting for a reason to run. *)
Definition wait_turn (turns : nat) : Y (option bool) :=
  let* ldn := ldn_activity_gate_enabled in
  if ldn : bool then wait_for_ldn_activity turns
  else
    let* pm := pm_monitors_enabled in
    if pm : bool then
      let* _ := foreground_detector_init in
      let* r := wait_for_foreground_game turns in
      ret (match r with Some _ => Some true | None => None end)
    else ret (Some true).
(** The loop of [main], at most [runs] times; [None]: it goes on. *)
Fixpoint main_loop (runs turns : nat) (restart_count : Z) : Y (option Z) :=
  match runs with
  | O => ret None
  | S runs =>
      let* ready := wait_turn turns in
      match ready with
      | None => ret None
      | Some false => svcSleepThread 1000000000 ;;; main_loop runs turns restart_count
      | Some true =>
          let restart_count := 0 in
          let* rc := run_service turns in
          match rc with
          | None => ret None
          | Some rc =>
              if rc =? 0 then ret (Some 0)
              else
                let restart_count := restart_count + 1 in
                say (NeRestart (backoff restart_count * 1000000000)) ;;;
                svcSleepThread (backoff restart_count * 1000000000) ;;;
                main_loop runs turns restart_count
          end
      end
  end.
Definition main (runs turns : nat) : Y (option Z) :=
  let* _ := pm_monitors_enabled in                            (* for the log *)
  let* y := gets id in
  if negb (y_rc_fs y =? 0) then svcSleepThread 5000000000 ;;; ret (Some 0)
  else
    let* pm := pm_monitors_enabled in
    (if pm : bool then for_each (seqZ 0 15) (fun _ => svcSleepThread 1000000000) ;;; pgl_monitor_init_late else ret tt) ;;;
    main_loop runs turns 0.

Definition appInit : Y unit :=
  let* rc := open_service SvSm in
  if negb (rc =? 0) then ret tt
  else
    let* rc := open_service SvFs in
    (if rc =? 0 then let* mount_rc := ask nx_rc in modify (set_y_rc_fs mount_rc) else modify (set_y_rc_fs rc)) ;;;
    let* _ := open_service SvSetsys in
    let* _ := open_service SvPscm in
    let* _ := on_gate ldn_gate_service_init in
    say (NeExit SvSm).
Definition appExit : Y unit :=
  pgl_monitor_stop ;;;
  on_gate ldn_gate_service_exit ;;;
  foreground_detector_exit ;;;
  runtime_network_cleanup_final ;;;
  say (NeExit SvSetsys) ;;;
  say (NeExit SvFs).
End code.

(** ** The protocol of the resources *)

Inductive tstate := Absent | Created | Running | Ended.
#[export] Instance tstate_eq_dec : EqDecision tstate.
Proof. solve_decision. Defined.

(** The client: its object, what is open, and its threads. *)
Record tasks := { k_tap : tstate; k_relay : tstate; k_keepalive : tstate; k_udp : tstate; k_tcp : tstate }.
Record client := {
  cl_lp : bool;
  cl_tap : bool;
  cl_client : bool;
  cl_sessions : bool;           (* threads of the bridge may be running *)
  cl_tasks : tasks;
}.
Definition cl_task (c : client) (t : task) : tstate :=
  match t with
  | TkTap => k_tap (cl_tasks c)
  | TkRelay => k_relay (cl_tasks c)
  | TkKeepalive => k_keepalive (cl_tasks c)
  | TkLdnUdp => k_udp (cl_tasks c)
  | TkLdnTcp => k_tcp (cl_tasks c)
  | TkPgl => Absent
  end.
Definition put_task (t : task) (v : tstate) (k : tasks) : tasks :=
  match t with
  | TkTap => {| k_tap := v; k_relay := k_relay k; k_keepalive := k_keepalive k; k_udp := k_udp k; k_tcp := k_tcp k |}
  | TkRelay => {| k_tap := k_tap k; k_relay := v; k_keepalive := k_keepalive k; k_udp := k_udp k; k_tcp := k_tcp k |}
  | TkKeepalive => {| k_tap := k_tap k; k_relay := k_relay k; k_keepalive := v; k_udp := k_udp k; k_tcp := k_tcp k |}
  | TkLdnUdp => {| k_tap := k_tap k; k_relay := k_relay k; k_keepalive := k_keepalive k; k_udp := v; k_tcp := k_tcp k |}
  | TkLdnTcp => {| k_tap := k_tap k; k_relay := k_relay k; k_keepalive := k_keepalive k; k_udp := k_udp k; k_tcp := v |}
  | TkPgl => k
  end.
Definition set_task (t : task) (v : tstate) (c : client) : client :=
  {| cl_lp := cl_lp c; cl_tap := cl_tap c; cl_client := cl_client c; cl_sessions := cl_sessions c || (bool_decide (t = TkLdnTcp) && bool_decide (v = Running));
     cl_tasks := put_task t v (cl_tasks c) |}.
Definition client_tasks : list task := [TkTap; TkRelay; TkKeepalive; TkLdnUdp; TkLdnTcp].

(** What may be done with it when.  A thread uses the object from its creation on; the object
    may be freed when every thread and every session is gone and the sockets are closed. *)
Definition client_step (e : nx_event) (c : client) : option client :=
  match e with
  | NeCreate t => if cl_lp c && bool_decide (cl_task c t = Absent) then Some (set_task t Created c) else None
  | NeStart t => if bool_decide (cl_task c t = Created) then Some (set_task t Running c) else None
  | NeWait t => if bool_decide (cl_task c t = Running) then Some (set_task t Ended c) else None
  | NeClose t => if bool_decide (cl_task c t = Created) || bool_decide (cl_task c t = Ended) then Some (set_task t Absent c) else None
  | NeAlloc => if cl_lp c then None else Some {| cl_lp := true; cl_tap := false; cl_client := false; cl_sessions := false; cl_tasks := cl_tasks c |}
  | NeFree =>
      if cl_lp c && negb (cl_tap c) && negb (cl_client c) && negb (cl_sessions c) && forallb (fun t => bool_decide (cl_task c t = Absent)) client_tasks
      then Some {| cl_lp := false; cl_tap := false; cl_client := false; cl_sessions := false; cl_tasks := cl_tasks c |} else None
  | NeTapInit => if cl_lp c && negb (cl_tap c) then Some {| cl_lp := true; cl_tap := true; cl_client := cl_client c; cl_sessions := cl_sessions c; cl_tasks := cl_tasks c |} else None
  | NeTapClose => if cl_tap c then Some {| cl_lp := cl_lp c; cl_tap := false; cl_client := cl_client c; cl_sessions := cl_sessions c; cl_tasks := cl_tasks c |} else None
  | NeClientInit => if cl_lp c && negb (cl_client c) then Some {| cl_lp := true; cl_tap := cl_tap c; cl_client := true; cl_sessions := cl_sessions c; cl_tasks := cl_tasks c |} else None
  | NeClientClose => if cl_client c then Some {| cl_lp := cl_lp c; cl_tap := cl_tap c; cl_client := false; cl_sessions := cl_sessions c; cl_tasks := cl_tasks c |} else None
  | NeBridgeInit | NeBridgeClose => if cl_lp c then Some c else None
  (* the thread that accepts sessions has ended *)
  | NeWaitSessions =>
      if cl_lp c && bool_decide (cl_task c TkLdnTcp = Absent)
      then Some {| cl_lp := cl_lp c; cl_tap := cl_tap c; cl_client := cl_client c; cl_sessions := false; cl_tasks := cl_tasks c |} else None
  | _ => Some c
  end.

(** Everything: the services, the thread that watches processes, and the client. *)
Record res := {
  rs_open : service -> bool;
  rs_pgl : tstate;
  rs_client : client;
}.
(** Closing one of these when it is not open does nothing: [__appExit] closes them whether
    [__appInit] could open them or not. *)
Definition exit_allowed (s : service) : bool := bool_decide (s = SvFs) || bool_decide (s = SvSetsys).
Definition set_open (s : service) (v : bool) (r : res) : res :=
  {| rs_open := fun x => if decide (x = s) then v else rs_open r x; rs_pgl := rs_pgl r; rs_client := rs_client r |}.
Definition set_pgl_task (v : tstate) (r : res) : res := {| rs_open := rs_open r; rs_pgl := v; rs_client := rs_client r |}.
Definition set_client (c : client) (r : res) : res := {| rs_open := rs_open r; rs_pgl := rs_pgl r; rs_client := c |}.

Definition res_step (r : res) (e : nx_event) : option res :=
  match e with
  | NeOpen s => if rs_open r s then None else Some (set_open s true r)
  | NeExit s => if rs_open r s then Some (set_open s false r) else if exit_allowed s then Some r else None
  | NeCreate TkPgl => if bool_decide (rs_pgl r = Absent) then Some (set_pgl_task Created r) else None
  | NeStart TkPgl => if bool_decide (rs_pgl r = Created) then Some (set_pgl_task Running r) else None
  | NeWait TkPgl => if bool_decide (rs_pgl r = Running) then Some (set_pgl_task Ended r) else None
  | NeClose TkPgl => if bool_decide (rs_pgl r = Ended) then Some (set_pgl_task Absent r) else None
  | _ => c ← client_step e (rs_client r); Some (set_client c r)
  end.
Fixpoint res_run (r : res) (es : list nx_event) : option res :=
  match es with [] => Some r | e :: es => r ← res_step r e; res_run r es end.

Definition no_client : client := {| cl_lp := false; cl_tap := false; cl_client := false; cl_sessions := false;
     cl_tasks := {| k_tap := Absent; k_relay := Absent; k_keepalive := Absent; k_udp := Absent; k_tcp := Absent |} |}.
Definition res0 : res := {| rs_open := fun _ => false; rs_pgl := Absent; rs_client := no_client |}.

Lemma res_run_app r es es' : res_run r (es ++ es') = res_run r es ≫= fun r => res_run r es'.
Proof. revert r. induction es as [|e es IH]; intros r; [done|]. cbn. destruct (res_step r e); [|done]. cbn. apply IH. Qed.
Lemma res_run_snoc es r e r' : res_run res0 es = Some r -> res_step r e = Some r' -> res_run res0 (es ++ [e]) = Some r'.
Proof. intros H1 H2. rewrite res_run_app, H1. cbn. by rewrite H2. Qed.

Lemma client_part_step r e r' :
  (c ← client_step e (rs_client r); Some (set_client c r)) = Some r' -> rs_open r' = rs_open r.
Proof. destruct (client_step _ _); [|done]. by intros [= <-]. Qed.
Lemma res_step_open r e r' v :
  res_step r e = Some r' -> e <> NeExit v -> rs_open r' v = rs_open r v || bool_decide (e = NeOpen v).
Proof.
  intros E Hx. destruct (decide (e = NeOpen v)) as [->|Hn].
  - cbn in E. destruct (rs_open r v) eqn:Ev; [done|]. injection E as <-. cbn. by rewrite decide_True, bool_decide_true.
  - rewrite bool_decide_false, orb_false_r by done. destruct e; cbn [res_step] in E;
      try (apply client_part_step in E; by rewrite E);
      repeat case_match; simplify_eq; cbn; rewrite ?decide_False by congruence; try done;
      try (apply client_part_step in E; by rewrite E).
Qed.
(** A service that is never closed is open at the end if it was opened. *)
Lemma res_run_open es r r' v :
  res_run r es = Some r' -> NeExit v ∉ es -> rs_open r' v = rs_open r v || bool_decide (NeOpen v ∈ es).
Proof.
  revert r. induction es as [|e es IH]; intros r E Hx; cbn in E.
  - injection E as <-. rewrite bool_decide_false by apply not_elem_of_nil. by rewrite orb_false_r.
  - destruct (res_step r e) as [r1|] eqn:E1; [|done]. cbn in E. apply not_elem_of_cons in Hx as [Hx1 Hx].
    rewrite (IH r1 E Hx), (res_step_open r e r1 v E1) by congruence. rewrite <- orb_assoc. f_equal.
    rewrite <- bool_decide_or. apply bool_decide_ext. rewrite elem_of_cons. naive_solver.
Qed.

(** ** Operations and the protocol *)

(** What is said of the settings and of the pauses in a trace, the services that were opened at
    the start and are never closed while [main] runs, and the file of names at the start. *)
Class Noted := {
  noted : nx_event -> Prop;
  boot : service -> bool;
  hosts0 : option bytes;
}.
Definition note `{Noted} (e : nx_event) : Prop :=
  match e with NeReady _ | NeRestart _ => noted e | NeExit s => s <> SvPscm | _ => True end.

(** The trace is in order and left these services open, the thread that watches processes at
    [p] and the client at [c]. *)
Definition at_res `{Noted} (f : service -> bool) (p : tstate) (c : client) (out : list nx_event) : Prop :=
  Forall note out /\
  exists r, res_run res0 out = Some r /\ rs_client r = c /\ rs_pgl r = p /\ forall s, rs_open r s = f s.
Definition upd_open (s : service) (v : bool) (f : service -> bool) : service -> bool := fun x => if decide (x = s) then v else f x.

Section at_res.
Context `{Noted}.

Lemma noted_snoc out e : Forall note out -> note e -> Forall note (out ++ [e]).
Proof. intros Ho He. apply Forall_app_2; [done|]. by constructor. Qed.

Lemma ar_ext f f' p c out : (forall s, f s = f' s) -> at_res f p c out -> at_res f' p c out.
Proof. intros Hf (Hq & r & Hr & Hc & Hp & Ho). split; [done|]. exists r. do 3 (split; [done|]). intros s. by rewrite <- Hf, Ho. Qed.
Lemma ar_open s f p c out : at_res f p c out -> f s = false -> at_res (upd_open s true f) p c (out ++ [NeOpen s]).
Proof.
  intros (Hq & r & Hr & Hc & Hp & Ho) Hs. split; [by apply noted_snoc|]. exists (set_open s true r).
  split; [eapply res_run_snoc; [exact Hr|]; cbn; by rewrite Ho, Hs|]. do 2 (split; [done|]).
  intros x. cbn. unfold upd_open. destruct (decide (x = s)); [done|by apply Ho].
Qed.
Lemma ar_exit s f p c out :
  s <> SvPscm -> at_res f p c out -> f s = true \/ exit_allowed s = true -> at_res (upd_open s false f) p c (out ++ [NeExit s]).
Proof.
  intros Hn (Hq & r & Hr & Hc & Hp & Ho) Hs. split; [by apply noted_snoc|].
  exists (if f s then set_open s false r else r). split.
  { eapply res_run_snoc; [exact Hr|]. cbn. rewrite Ho. destruct (f s); [done|]. by destruct Hs as [| ->]. }
  do 2 (split; [by destruct (f s)|]). intros x. unfold upd_open.
  destruct (f s) eqn:Ef; cbn; destruct (decide (x = s)) as [->|]; rewrite ?Ho; done.
Qed.
Lemma ar_pgl e f p p' c out :
  (forall r, rs_pgl r = p -> res_step r e = Some (set_pgl_task p' r)) -> note e -> at_res f p c out -> at_res f p' c (out ++ [e]).
Proof. intros He Hn (Hq & r & Hr & Hc & Hp & Ho). split; [by apply noted_snoc|]. exists (set_pgl_task p' r). split; [eapply res_run_snoc; [exact Hr|]; by apply He|]. done. Qed.
Lemma ar_create f c out : at_res f Absent c out -> at_res f Created c (out ++ [NeCreate TkPgl]).
Proof. apply ar_pgl; [|done]. intros r Hr. cbn. by rewrite Hr. Qed.
Lemma ar_start f c out : at_res f Created c out -> at_res f Running c (out ++ [NeStart TkPgl]).
Proof. apply ar_pgl; [|done]. intros r Hr. cbn. by rewrite Hr. Qed.
Lemma ar_wait f c out : at_res f Running c out -> at_res f Ended c (out ++ [NeWait TkPgl]).
Proof. apply ar_pgl; [|done]. intros r Hr. cbn. by rewrite Hr. Qed.
Lemma ar_close f c out : at_res f Ended c out -> at_res f Absent c (out ++ [NeClose TkPgl]).
Proof. apply ar_pgl; [|done]. intros r Hr. cbn. by rewrite Hr. Qed.
Lemma ar_client e c' f p c out :
  client_step e c = Some c' -> (forall s, e <> NeOpen s /\ e <> NeExit s) ->
  e <> NeCreate TkPgl -> e <> NeStart TkPgl -> e <> NeWait TkPgl -> e <> NeClose TkPgl -> note e ->
  at_res f p c out -> at_res f p c' (out ++ [e]).
Proof.
  intros Hs He E1 E2 E3 E4 Hn (Hq & r & Hr & <- & Hp & Ho). split; [by apply noted_snoc|]. exists (set_client c' r). split; [|done]. eapply res_run_snoc; [exact Hr|].
  destruct e as [s|s|t|t|t|t| | | | | | | | | | | | |]; cbn [res_step]; try (by rewrite Hs); try (by destruct (He s)); by destruct t; rewrite ?Hs.
Qed.

End at_res.

(** The services the variables say are open. *)
Definition flags `{Noted} (y : sysmod) (s : service) : bool :=
  match s with
  | SvNifm => y_nifm y
  | SvBsd => y_bsd y
  | SvSocket => y_socket y
  | SvPgl => y_pgl_ready y
  | SvObserver => y_pgl_observer y
  | SvProcessEvent => y_pgl_event y
  | SvPmshell | SvPminfo => (y_pm y).1
  | SvFs | SvSetsys | SvPscm => boot s
  | SvSm => false
  end.
(** The files of names that the program's own lookups make of [f0]. *)
Inductive kept `{NxSys} `{Inet} (f0 : option bytes) : option bytes -> Prop :=
| kept_start : kept f0 f0
| kept_resolved i j relay f : kept f0 f -> kept f0 (resolve_server (nx_dns i) (nx_writable j) relay f).2.
(** The trace is in order, the client is at [c], and the variables say what is open. *)
Record ok `{NxSys} `{Inet} `{Noted} (c : client) (y : sysmod) : Prop := {
  ok_run : at_res (flags y) (if y_pgl_thread y then Running else Absent) c (y_out y);
  ok_network : y_nifm y = y_network y /\ y_bsd y = y_network y /\ y_socket y = y_network y;
  ok_pgl : y_pgl_observer y = y_pgl_thread y /\ y_pgl_event y = y_pgl_thread y /\ (y_pgl_ready y = false -> y_pgl_thread y = false);
  ok_hosts : kept hosts0 (y_hosts y);
}.

(** The variables that [ok] is about. *)
Record same (y y' : sysmod) : Prop := {
  sm_out : y_out y' = y_out y;
  sm_net : (y_network y', y_nifm y', y_bsd y', y_socket y') = (y_network y, y_nifm y, y_bsd y, y_socket y);
  sm_pgl : (y_pgl_ready y', y_pgl_thread y', y_pgl_observer y', y_pgl_event y') = (y_pgl_ready y, y_pgl_thread y, y_pgl_observer y, y_pgl_event y);
  sm_pm : (y_pm y').1 = (y_pm y).1;
  sm_hosts : y_hosts y' = y_hosts y;
}.
Lemma ok_same `{NxSys} `{Inet} `{Noted} c y y' : same y y' -> ok c y -> ok c y'.
Proof.
  intros [Ho Hn Hp Hm Hh] [Hr Hnet Hpgl Hho]. injection Hn as N1 N2 N3 N4. injection Hp as E1 E2 E3 E4.
  constructor; rewrite ?N1, ?N2, ?N3, ?N4, ?E1, ?E2, ?E3, ?E4, ?Hh; [|done..]. rewrite Ho. eapply ar_ext; [|exact Hr].
  intros s. destruct s; cbn; congruence.
Qed.

(** An operation that leaves the client where it is. *)
Definition keeps `{NxSys} `{Inet} `{Noted} {A} (m : M sysmod A) : Prop := forall c y, ok c y -> post m (fun _ => ok c) y.
Create HintDb keeps.

Section steps.
Context `{NxSys} `{GateSys} `{Inet} `{Env} `{Noted}.

Lemma keeps_ret {A} (a : A) : keeps (ret a).
Proof. intros c y Hy. by apply post_ret. Qed.
Lemma keeps_gets {A} (f : sysmod -> A) : keeps (gets f).
Proof. intros c y Hy. by apply post_gets. Qed.
Lemma keeps_seq {A B} (m : M sysmod A) (k : A -> M sysmod B) : keeps m -> (forall a, keeps (k a)) -> keeps (bind m k).
Proof. intros Hm Hk c y Hy. apply post_bind. eapply post_mono; [by apply Hm|]. intros a y' Hy'. by apply Hk. Qed.
Lemma keeps_modify f : (forall y, same y (f y)) -> keeps (modify f).
Proof. intros Hf c y Hy. apply post_modify. by eapply ok_same. Qed.
Lemma keeps_ask {A} (f : nat -> A) : keeps (ask f).
Proof. intros c y Hy. unfold post, ask. eapply ok_same; [|exact Hy]. by constructor. Qed.
Lemma keeps_each {A} (l : list A) (f : A -> M sysmod unit) : (forall a, keeps (f a)) -> keeps (for_each l f).
Proof. intros Hf. induction l as [|a l IH]; cbn; [apply keeps_ret|]. apply keeps_seq; [apply Hf|by intros []]. Qed.

(** A step of the client. *)
Lemma ok_step e c c' y :
  client_step e c = Some c' -> (forall s, e <> NeOpen s /\ e <> NeExit s) ->
  e <> NeCreate TkPgl -> e <> NeStart TkPgl -> e <> NeWait TkPgl -> e <> NeClose TkPgl -> note e ->
  ok c y -> post (say e) (fun _ => ok c') y.
Proof.
  intros Hs He E1 E2 E3 E4 Hnt [Hr Hn Hp Hh]. apply post_modify. constructor; [|done..]. cbn [y_out set_trace].
  by eapply (ar_ext (flags y)), ar_client.
Qed.
Lemma keeps_status s : keeps (say (NeStatus s)).
Proof. intros c y. by apply ok_step. Qed.
Lemma keeps_gate {A} (m : M gate A) : (forall g, exists a g', m g = Ok a g') -> keeps (on_gate m).
Proof.
  intros Hm c y Hy. unfold post, on_gate. destruct (Hm (y_gate y)) as (a & g & ->). eapply ok_same; [|exact Hy]. by constructor.
Qed.

Lemma gate_poll_total g : exists a g', ldn_gate_poll g = Ok a g'.
Proof.
  unfold ldn_gate_poll, gate_connect, gate_update, gate_emit, gate_now_tick, gate_ask, bind, gets, modify, ret.
  repeat first [progress cbn | case_match]; simplify_eq; eauto.
Qed.
Lemma gate_state_total g : exists a g', ldn_gate_get_state g = Ok a g'.
Proof. by eexists _, _. Qed.
Lemma gate_start_total g : exists a g', ldn_gate_is_active_for_start g = Ok a g'.
Proof.
  unfold ldn_gate_is_active_for_start, recent_activity, ldn_gate_get_state, gate_now_tick, gate_ask, bind, gets, ret.
  repeat first [progress cbn | case_match]; simplify_eq; eauto.
Qed.
Lemma gate_active_total g : exists a g', ldn_gate_is_active g = Ok a g'.
Proof.
  unfold ldn_gate_is_active, recent_activity, ldn_gate_get_state, gate_now_tick, gate_ask, bind, gets, ret.
  repeat first [progress cbn | case_match]; simplify_eq; eauto.
Qed.
End steps.
#[export] Hint Resolve keeps_ret keeps_gets keeps_ask keeps_status gate_poll_total gate_state_total gate_start_total gate_active_total : keeps.

(** Goes through an operation whose steps all keep the client where it is. *)
Ltac keep :=
  repeat (intros; match goal with
    | |- keeps (bind _ _) => apply keeps_seq
    | |- keeps (if ?b then _ else _) => destruct b
    | |- keeps (match ?x with _ => _ end) => destruct x
    | |- keeps (on_gate _) => apply keeps_gate
    | |- keeps (for_each _ _) => apply keeps_each
    | |- keeps (modify _) => apply keeps_modify; intros; by constructor
    | _ => solve [eauto with keeps]
    end).

Section services.
Context `{NxSys} `{GateSys} `{Inet} `{Env} `{Noted}.

(** In the middle of a sequence of calls that began at [y0]. *)
Definition mid (f : service -> bool) (p : tstate) (c : client) (y0 y : sysmod) : Prop :=
  exists t out, y = set_trace t out y0 /\ at_res f p c out.

Lemma mid_start c y : ok c y -> mid (flags y) (if y_pgl_thread y then Running else Absent) c y y.
Proof. intros [Hr _ _ _]. exists (y_ticks y), (y_out y). split; [by destruct y|done]. Qed.
Lemma mid_ask {A} (g : nat -> A) f p c y0 y : mid f p c y0 y -> post (ask g) (fun _ => mid f p c y0) y.
Proof. intros (t & out & -> & Hr). unfold post, ask. by exists (S t), out. Qed.
Lemma mid_say e f p c f' p' c' y0 y :
  mid f p c y0 y -> (forall out, at_res f p c out -> at_res f' p' c' (out ++ [e])) -> post (say e) (fun _ => mid f' p' c' y0) y.
Proof. intros (t & out & -> & Hr) He. apply post_modify. exists t, (out ++ [e]). split; [done|]. by apply He. Qed.
Lemma mid_open s f p c y0 y :
  mid f p c y0 y -> f s = false -> post (open_service s) (fun rc => mid (if rc =? 0 then upd_open s true f else f) p c y0) y.
Proof.
  intros Hm Hs. apply post_bind. eapply post_mono; [by apply mid_ask|]. intros rc y1 Hm1. apply post_bind. cbv beta in Hm1.
  destruct (rc =? 0) eqn:E; [|by do 2 apply post_ret; rewrite E].
  eapply post_mono; [eapply mid_say; [exact Hm1|]; intros out Ho; by apply ar_open|]. intros [] y2 Hm2. apply post_ret. by rewrite E.
Qed.
Lemma mid_exit s f p c y0 y : mid f p c y0 y -> s <> SvPscm -> f s = true -> post (say (NeExit s)) (fun _ => mid (upd_open s false f) p c y0) y.
Proof. intros Hm Hn Hs. eapply mid_say; [exact Hm|]. intros out Ho. by apply ar_exit; [..|left]. Qed.
(** The end of the sequence, with the variables it sets. *)
Lemma mid_ok g f p c y0 y :
  mid f p c y0 y -> kept hosts0 (y_hosts y0) ->
  (forall t out, let y' := g (set_trace t out y0) in
    y_out y' = out /\ y_hosts y' = y_hosts y0 /\ (forall s, f s = flags y' s) /\ p = (if y_pgl_thread y' then Running else Absent) /\
    (y_nifm y' = y_network y' /\ y_bsd y' = y_network y' /\ y_socket y' = y_network y') /\
    (y_pgl_observer y' = y_pgl_thread y' /\ y_pgl_event y' = y_pgl_thread y' /\ (y_pgl_ready y' = false -> y_pgl_thread y' = false))) ->
  ok c (g y).
Proof.
  intros (t & out & -> & Hr) Hh Hg. destruct (Hg t out) as (Ho & Ehs & Hf & Hp & Hn & Hk).
  constructor; [|done..|by rewrite Ehs]. rewrite Ho, <- Hp. by eapply ar_ext.
Qed.
End services.

(** Calls that open and close services. *)
Ltac flag := unfold upd_open; repeat first [rewrite decide_True by done | rewrite decide_False by done]; cbn; first [done|congruence].
Ltac mid_done g H := apply (mid_ok g _ _ _ _ _ H); [assumption|]; intros ? ?; cbn; split; [done|]; split; [done|]; split; [intros []; intros; flag|]; split_and!; intros; first [done|congruence|by auto|match goal with E : y_pgl_thread _ = _ |- _ => by rewrite E end].
Ltac mid_open_step H rc :=
  apply post_bind; eapply post_mono; [apply (mid_open _ _ _ _ _ _ H); flag|]; clear H; intros rc ? H; cbv beta in H.
Ltac mid_exit_step H :=
  apply post_bind; eapply post_mono; [apply (mid_exit _ _ _ _ _ _ H); [done|flag]|]; clear H; intros ? ? H; cbv beta in H.

Section services2.
Context `{NxSys} `{GateSys} `{Inet} `{Env} `{Noted}.

Lemma keeps_foreground_init : keeps foreground_detector_init.
Proof.
  intros c y Hy. pose proof Hy as [_ (N1 & N2 & N3) (K1 & K2 & K3) Hho]. apply mid_start in Hy as Hm. unfold foreground_detector_init. apply post_bind, post_gets. unfold id.
  destruct (y_pm y) as [[] rc0] eqn:Epm; cbn [fst]; [by apply post_ret|].
  assert (Hf : (y_pm y).1 = false) by (by rewrite Epm). 
  mid_open_step Hm rc. destruct (rc =? 0); cbn [negb].
  2: { apply post_bind, post_modify, post_ret. mid_done (set_pm (false, rc)) Hm. }
  mid_open_step Hm rc2. destruct (rc2 =? 0); cbn [negb].
  2: { mid_exit_step Hm. apply post_bind, post_modify, post_ret. mid_done (set_pm (false, rc2)) Hm. }
  mid_open_step Hm rc3. destruct (rc3 =? 0); cbn [negb].
  2: { do 2 mid_exit_step Hm. apply post_bind, post_modify, post_ret. mid_done (set_pm (false, rc3)) Hm. }
  mid_exit_step Hm. apply post_bind, post_modify, post_ret. mid_done (set_pm (true, 0)) Hm.
Qed.
Lemma keeps_network_init : keeps runtime_network_init.
Proof.
  intros c y Hy. pose proof Hy as [_ (N1 & N2 & N3) (K1 & K2 & K3) Hho]. apply mid_start in Hy as Hm. unfold runtime_network_init. apply post_bind, post_gets. unfold id.
  destruct (y_network y) eqn:En; [by apply post_ret|].
  mid_open_step Hm rc. destruct (rc =? 0); cbn [negb]; [|apply post_ret; mid_done (@id sysmod) Hm].
  mid_open_step Hm rc2. apply post_bind.
  apply (post_mono _ (fun rc y' => mid (if rc =? 0 then upd_open SvNifm true (upd_open SvSm true (flags y)) else upd_open SvSm true (flags y))
    (if y_pgl_thread y then Running else Absent) c y y')).
  { destruct (rc2 =? 0) eqn:E2; cbn [negb]; [apply post_ret; by rewrite E2|]. apply (mid_open _ _ _ _ _ _ Hm). flag. }
  clear Hm rc2. intros rc2 ? Hm. cbv beta in Hm. destruct (rc2 =? 0); cbn [negb].
  2: { mid_exit_step Hm. apply post_ret. mid_done (@id sysmod) Hm. }
  mid_open_step Hm rc3. destruct (rc3 =? 0); cbn [negb].
  2: { do 2 mid_exit_step Hm. apply post_ret. mid_done (@id sysmod) Hm. }
  mid_open_step Hm rc4. destruct (rc4 =? 0); cbn [negb].
  2: { do 3 mid_exit_step Hm. apply post_ret. mid_done (@id sysmod) Hm. }
  apply post_bind, post_modify, post_bind. destruct Hm as (t & out & -> & Hr). apply post_modify, post_ret.
  constructor; cbn [set_network set_trace y_nifm y_bsd y_socket y_network y_pgl_ready y_pgl_thread y_pgl_observer y_pgl_event]; [|done..].
  eapply ar_ext; [|apply (ar_exit SvSm); [done|exact Hr|left; flag]]. intros []; intros; flag.
Qed.

Lemma same_app v y : same y (set_app v y).
Proof. by constructor. Qed.
Lemma keeps_refresh : keeps pgl_refresh_application_state.
Proof. unfold pgl_refresh_application_state, pgl_set_state, pgl_clear_pid. keep. Qed.
Hint Resolve keeps_refresh : keeps.
Lemma keeps_pgl_turn r : keeps (pgl_turn r).
Proof. unfold pgl_turn, pgl_get_state, pgl_set_state. keep. Qed.
Hint Resolve keeps_pgl_turn : keeps.
Lemma keeps_sleep ns : keeps (svcSleepThread ns).
Proof. unfold svcSleepThread. apply keeps_seq; [intros c y; by apply ok_step|]. keep. Qed.
Lemma keeps_has_application : keeps pgl_has_application.
Proof. unfold pgl_has_application, pgl_get_state. keep. Qed.
Hint Resolve keeps_sleep keeps_has_application : keeps.

Lemma keeps_monitor_start : keeps pgl_monitor_start.
Proof.
  intros c y Hy. pose proof Hy as [_ (N1 & N2 & N3) (K1 & K2 & K3) Hho]. apply mid_start in Hy as Hm. unfold pgl_monitor_start. apply post_bind, post_gets. unfold id.
  destruct (y_pgl_ready y) eqn:Er; cbn [negb orb]; [|by apply post_ret]. destruct (y_pgl_thread y) eqn:Et; [by apply post_ret|].
  mid_open_step Hm rc. destruct (rc =? 0); cbn [negb]; [|apply post_ret; mid_done (@id sysmod) Hm].
  apply post_bind, post_modify. destruct Hm as (t & out & -> & Hr). set (y1 := set_pgl _ _ _ _ _ _ _).
  assert (Hm : mid (upd_open SvObserver true (flags y)) Absent c y1 y1) by (by exists t, out). clear Hr.
  mid_open_step Hm rc2. destruct (rc2 =? 0); cbn [negb].
  2: { mid_exit_step Hm. apply post_modify. destruct Hm as (t2 & out2 & -> & Hr). constructor; cbn; rewrite ?Et, ?Er; [|done..].
       eapply ar_ext; [|exact Hr]. intros []; intros; flag. }
  apply post_bind, post_modify. destruct Hm as (t2 & out2 & -> & Hr). set (y2 := set_pgl _ _ _ _ _ _ _).
  assert (Hm : mid (upd_open SvProcessEvent true (upd_open SvObserver true (flags y))) Absent c y2 y2) by (by exists t2, out2). clear Hr.
  unfold threadCreate. apply post_bind, post_bind. eapply post_mono; [by apply mid_ask|]. clear Hm. intros rc3 ? Hm. cbv beta in Hm. apply post_bind.
  destruct (rc3 =? 0) eqn:E3.
  - eapply post_mono; [eapply mid_say; [exact Hm|intros ?; apply ar_create]|]. clear Hm. intros [] ? Hm. cbv beta in Hm. apply post_ret. rewrite E3. cbn [negb].
    apply post_bind. eapply post_mono; [eapply mid_say; [exact Hm|intros ?; apply ar_start]|]. clear Hm. intros [] ? Hm. cbv beta in Hm.
    apply post_modify. destruct Hm as (t3 & out3 & -> & Hr). constructor; cbn; rewrite ?Er; [|done..]. eapply ar_ext; [|exact Hr]. intros []; intros; flag.
  - apply post_ret. cbv beta. apply post_ret. rewrite E3. cbn [negb]. do 2 mid_exit_step Hm. apply post_modify. destruct Hm as (t3 & out3 & -> & Hr).
    constructor; cbn; rewrite ?Et, ?Er; [|done..]. eapply ar_ext; [|exact Hr]. intros []; intros; flag.
Qed.

Lemma keeps_monitor_init : keeps pgl_monitor_init_late.
Proof.
  intros c y Hy. pose proof Hy as [_ (N1 & N2 & N3) (K1 & K2 & K3) Hho]. apply mid_start in Hy as Hm. unfold pgl_monitor_init_late. apply post_bind, post_gets. unfold id.
  destruct (y_pgl_ready y) eqn:Er; [by apply post_ret|].
  mid_open_step Hm rc. destruct (rc =? 0); cbn [negb]; [|apply post_ret; mid_done (@id sysmod) Hm].
  mid_open_step Hm rc2. apply post_bind.
  eapply post_mono; [apply (mid_exit SvSm _ _ _ _ _ Hm); [done|]; destruct (rc2 =? 0); flag|]. clear Hm. intros [] ? Hm. cbv beta in Hm.
  destruct (rc2 =? 0); cbn [negb]; [|apply post_ret; mid_done (@id sysmod) Hm]. apply post_bind, post_modify.
  assert (Hy1 : ok c (set_pgl true true (y_pgl_thread s'1) (y_pgl_running s'1) (y_pgl_observer s'1) (y_pgl_event s'1) s'1)).
  { destruct Hm as (t & out & -> & Hr). constructor; cbn; [|done..]. eapply ar_ext; [|exact Hr]. intros []; intros; flag. }
  apply post_bind. eapply post_mono; [by apply keeps_refresh|]. intros ? y2 Hy2. by apply keeps_monitor_start.
Qed.
Hint Resolve keeps_monitor_init keeps_foreground_init keeps_network_init : keeps.

(** The waits and the checks. *)
Lemma keeps_write_status st : keeps (write_status st).
Proof. unfold write_status. keep. Qed.
Hint Resolve keeps_write_status : keeps.
Lemma keeps_no_application : keeps no_application.
Proof. unfold no_application. keep. Qed.
Lemma keeps_ldn_enabled : keeps ldn_activity_gate_enabled.
Proof. unfold ldn_activity_gate_enabled, ldn_activity_gate_disabled_by_file. keep. Qed.
Lemma keeps_fg_enabled : keeps foreground_gate_enabled.
Proof. unfold foreground_gate_enabled, pm_monitors_enabled, foreground_gate_disabled_by_file, foreground_detector_available. keep. Qed.
Lemma keeps_has_game : keeps foreground_has_game.
Proof. unfold foreground_has_game. keep. Qed.
Hint Resolve keeps_no_application keeps_ldn_enabled keeps_fg_enabled keeps_has_game : keeps.
Lemma keeps_ldn_allowed : keeps ldn_runtime_still_allowed.
Proof. unfold ldn_runtime_still_allowed, write_status_waiting_game, write_status_waiting_ldn. keep. Qed.
Lemma keeps_fg_allowed : keeps foreground_runtime_still_allowed.
Proof. unfold foreground_runtime_still_allowed, write_status_waiting_game. keep. Qed.
Hint Resolve keeps_ldn_allowed keeps_fg_allowed : keeps.
Lemma keeps_allowed : keeps still_allowed.
Proof. unfold still_allowed. keep. Qed.
Hint Resolve keeps_allowed : keeps.
Lemma keeps_wait_ldn n : keeps (wait_ldn_loop n).
Proof. induction n; cbn [wait_ldn_loop]; unfold write_status_waiting_game, write_status_waiting_ldn, consume_reload; keep. Qed.
Lemma keeps_wait_game n : keeps (wait_game_loop n).
Proof. induction n; cbn [wait_game_loop]; unfold write_status_waiting_game, consume_reload; keep. Qed.
Lemma keeps_wait_wifi n : keeps (wait_wifi n).
Proof. induction n; cbn [wait_wifi]; unfold write_status_error; keep. Qed.
Lemma keeps_wait_config n : keeps (wait_config n).
Proof. induction n; cbn [wait_config]; unfold consume_reload; keep. Qed.
(** A lookup, which may have written the file of names. *)
Lemma hosts_ok i j relay addr rc file c y :
  ok c y -> resolve_server (nx_dns i) (nx_writable j) relay (y_hosts y) = (rc, addr, file) -> ok c (set_hosts file y).
Proof.
  intros [Hr Hn Hp Hh] E. constructor; [|done..|].
  - eapply ar_ext; [|exact Hr]. by intros [].
  - cbn. pose proof (kept_resolved _ i j relay _ Hh) as Hk. by rewrite E in Hk.
Qed.
Lemma keeps_resolve relay : keeps (resolve relay).
Proof.
  intros c y Hy. unfold resolve. do 2 (apply post_bind; unfold ask, post at 1). apply post_bind, post_gets. unfold id.
  match goal with |- post _ _ ?z => assert (Hy2 : ok c z) by (eapply ok_same; [|exact Hy]; by constructor) end.
  destruct (resolve_server _ _ _ _) as [[rc addr] file] eqn:E. apply post_bind, post_modify, post_ret. exact (hosts_ok _ _ _ _ _ _ _ _ Hy2 E).
Qed.
Hint Resolve keeps_wait_ldn keeps_wait_game keeps_resolve : keeps.
Lemma keeps_wait_relay n relay : keeps (wait_relay n relay).
Proof. induction n; cbn [wait_relay]; unfold write_status_error, consume_reload; keep. Qed.
Lemma keeps_probe n ns : keeps (probe n ns).
Proof. induction n; cbn [probe]; keep. Qed.
Hint Resolve keeps_wait_wifi keeps_wait_config keeps_wait_relay keeps_probe : keeps.
Lemma keeps_service_loop n relay : keeps (service_loop n relay).
Proof. induction n; cbn [service_loop]; unfold write_status_error, write_status_waiting_game, consume_reload; keep. Qed.
Lemma keeps_wait_turn n : keeps (wait_turn n).
Proof. unfold wait_turn, wait_for_ldn_activity, wait_for_foreground_game, pm_monitors_enabled. keep. Qed.
Hint Resolve keeps_service_loop keeps_wait_turn : keeps.
Lemma keeps_route_probe : keeps route_probe.
Proof. unfold route_probe. keep. Qed.
Lemma keeps_relay_probe : keeps relay_probe.
Proof. unfold relay_probe. keep. Qed.
End services2.
#[export] Hint Resolve keeps_refresh keeps_pgl_turn keeps_sleep keeps_has_application keeps_monitor_init keeps_foreground_init keeps_network_init
  keeps_write_status keeps_no_application keeps_ldn_enabled keeps_fg_enabled keeps_has_game keeps_ldn_allowed keeps_fg_allowed keeps_allowed
  keeps_wait_ldn keeps_wait_game keeps_wait_wifi keeps_wait_config keeps_resolve keeps_wait_relay keeps_probe keeps_service_loop keeps_wait_turn
  keeps_route_probe keeps_relay_probe : keeps.

(** ** Running the client *)

(** The client with these threads. *)
Definition running (sessions : bool) (tap relay keepalive udp tcp : tstate) : client :=
  {| cl_lp := true; cl_tap := true; cl_client := true; cl_sessions := sessions;
     cl_tasks := {| k_tap := tap; k_relay := relay; k_keepalive := keepalive; k_udp := udp; k_tcp := tcp |} |}.
Definition allocated : client :=
  {| cl_lp := true; cl_tap := false; cl_client := false; cl_sessions := false; cl_tasks := cl_tasks no_client |}.

(** What [run_service] gives back: the result 1 and everything of the client, or it is still
    waiting, in order. *)
Definition returned `{NxSys} `{Inet} `{Noted} (r : option Z) (y : sysmod) : Prop :=
  match r with Some rc => rc = 1 /\ ok no_client y | None => exists c, ok c y end.

Section runs.
Context `{NxSys} `{GateSys} `{Inet} `{Env} `{Noted}.

Lemma keep_then {A B} (m : M sysmod A) (k : A -> M sysmod B) c (Q : B -> sysmod -> Prop) y :
  keeps m -> ok c y -> (forall a y', ok c y' -> post (k a) Q y') -> post (bind m k) Q y.
Proof. intros Hm Hy Hk. apply post_bind. eapply post_mono; [by apply Hm|]. intros a y'. apply Hk. Qed.
Lemma ask_then {A B} (f : nat -> A) (k : A -> M sysmod B) c (Q : B -> sysmod -> Prop) y :
  ok c y -> (forall n y', ok c y' -> post (k (f n)) Q y') -> post (bind (ask f) k) Q y.
Proof. intros Hy Hk. apply Hk. eapply ok_same; [|exact Hy]. by constructor. Qed.
Lemma say_then {B} e c c' (k : M sysmod B) (Q : B -> sysmod -> Prop) y :
  client_step e c = Some c' -> (forall s, e <> NeOpen s /\ e <> NeExit s) ->
  e <> NeCreate TkPgl -> e <> NeStart TkPgl -> e <> NeWait TkPgl -> e <> NeClose TkPgl -> note e ->
  ok c y -> (forall y', ok c' y' -> post k Q y') -> post (say e ;;; k) Q y.
Proof. intros Hs He E1 E2 E3 E4 Hnt Hy Hk. apply post_bind. eapply post_mono; [by eapply ok_step|]. intros [] y'. apply Hk. Qed.
Lemma create_then {B} t c c' (k : Z -> M sysmod B) (Q : B -> sysmod -> Prop) y :
  client_step (NeCreate t) c = Some c' -> t <> TkPgl -> ok c y ->
  (forall rc y', (rc =? 0) = true -> ok c' y' -> post (k rc) Q y') -> (forall rc y', (rc =? 0) = false -> ok c y' -> post (k rc) Q y') ->
  post (bind (threadCreate t) k) Q y.
Proof.
  intros Hs Ht Hy Hk Hk0. unfold threadCreate. apply post_bind. eapply keep_then; [apply keeps_ask|exact Hy|]. intros rc y1 Hy1. apply post_bind.
  destruct (rc =? 0) eqn:E.
  - eapply post_mono; [eapply ok_step; [exact Hs|by intros|congruence|done|done|done|done|exact Hy1]|]. intros [] y2 Hy2. apply post_ret. by apply Hk.
  - apply post_ret. cbv beta. apply post_ret. by apply Hk0.
Qed.
Lemma set_active_ok c v y : ok c y -> ok c (set_active_lp v y).
Proof. apply ok_same. by constructor. Qed.

End runs.

Ltac sayit :=
  match goal with Hy : ok ?c ?y |- post _ _ ?y => eapply (say_then _ c); [cbv; reflexivity|by intros|done|done|done|done|done|exact Hy|clear Hy; intros ? Hy] end.
Ltac keepit :=
  match goal with Hy : ok ?c ?y |- post _ _ ?y =>
    eapply (keep_then _ _ c); [solve [eauto with keeps | unfold write_status_error; eauto with keeps]|exact Hy|clear Hy; intros ? ? Hy] end.
Ltac createit :=
  match goal with Hy : ok ?c ?y |- post _ _ ?y =>
    eapply (create_then _ c); [cbv; reflexivity|done|exact Hy|clear Hy; intros ? ? ? Hy|clear Hy; intros ? ? ? Hy] end.

Section runs2.
Context `{NxSys} `{GateSys} `{Inet} `{Env} `{Noted}.

Lemma join_run t c c1 c' (Q : unit -> sysmod -> Prop) y :
  ok c y -> client_step (NeWait t) c = Some c1 -> client_step (NeClose t) c1 = Some c' -> t <> TkPgl ->
  (forall y', ok c' y' -> Q tt y') -> post (join t) Q y.
Proof.
  intros Hy H1' H2' Ht HQ. unfold join. eapply say_then; [exact H1'|by intros|congruence|congruence|congruence|congruence|done|exact Hy|]. intros y1 Hy1.
  eapply post_mono; [eapply ok_step; [exact H2'|by intros|congruence|congruence|congruence|congruence|done|exact Hy1]|]. intros [] y2. apply HQ.
Qed.
(** From any set of threads to nothing. *)
Lemma cleanup_run (tcp udp tap relay keepalive sessions : bool) y :
  (sessions = true -> tcp = true) ->
  let st (b : bool) := if b then Running else Absent in
  ok (running sessions (st tap) (st relay) (st keepalive) (st udp) (st tcp)) y ->
  post (cleanup ((if tcp then [TkLdnTcp] else []) ++ (if udp then [TkLdnUdp] else []) ++ (if keepalive then [TkKeepalive] else []) ++
    (if relay then [TkRelay] else []) ++ (if tap then [TkTap] else []))) returned y.
Proof.
  intros Hs st Hy. unfold cleanup. sayit. sayit. sayit. apply post_bind.
  apply (post_mono _ (fun _ => ok {| cl_lp := true; cl_tap := false; cl_client := false; cl_sessions := sessions; cl_tasks := cl_tasks no_client |})).
  { unfold st in *. destruct tcp, udp, keepalive, relay, tap, sessions; try (by discriminate Hs); cbn [app for_each];
      repeat first [apply post_ret; exact Hy | apply post_bind; eapply join_run; [exact Hy|cbv; reflexivity|cbv; reflexivity|done|clear Hy; intros ? Hy]]. }
  intros [] y1 Hy1. cbv beta in Hy1. sayit. apply post_bind, post_modify. match goal with HH : ok _ ?z |- context [set_active_lp false ?z] => apply (set_active_ok _ false) in HH end.
  sayit. keepit. apply post_ret. by split.
Qed.

Lemma start_optional_run t c (Q : bool -> sysmod -> Prop) y :
  ok c y -> cl_lp c = true -> cl_task c t = Absent -> t <> TkPgl ->
  (forall (b : bool) y', ok (if b then set_task t Running (set_task t Created c) else c) y' -> Q b y') -> post (start_optional t) Q y.
Proof.
  intros Hy Hlp Ht Hn HQ. unfold start_optional. eapply create_then; [cbn; by rewrite Hlp, Ht|done|exact Hy| |]; intros rc y1 -> Hy1.
  - eapply say_then; [|by intros|congruence|congruence|congruence|congruence|done|exact Hy1|].
    { cbn. rewrite bool_decide_true; [reflexivity|]. destruct t; done. }
    intros y2 Hy2. apply post_ret. by apply HQ.
  - apply post_ret. by apply HQ.
Qed.

Lemma run_threads_run turns relay y : ok (running false Absent Absent Absent Absent Absent) y -> post (run_threads turns relay) returned y.
Proof.
  intros Hy. unfold run_threads. createit; (match goal with E : (?rc =? 0) = _ |- _ => rewrite E; clear E end); cbn [negb].
  2: { keepit. by apply (cleanup_run false false false false false false). }
  createit; (match goal with E : (?rc =? 0) = _ |- _ => rewrite E; clear E end); cbn [negb].
  2: { keepit. sayit. by apply (cleanup_run false false false false false false). }
  createit; (match goal with E : (?rc =? 0) = _ |- _ => rewrite E; clear E end); cbn [negb].
  2: { keepit. sayit. sayit. by apply (cleanup_run false false false false false false). }
  sayit. sayit. sayit.
  apply post_bind. eapply start_optional_run; [exact Hy|done|done|done|]. clear Hy. intros udp ? Hy.
  apply post_bind. eapply start_optional_run; [exact Hy|by destruct udp|by destruct udp|done|]. clear Hy. intros tcp ? Hy.
  keepit. match goal with |- context [match ?r with Some _ => _ | None => _ end] => destruct r as [[]|] end; [|apply post_ret; by eexists].
  destruct tcp, udp; match type of Hy with ok ?c _ => let c' := eval cbv in c in change (ok c' y'3) in Hy || idtac end;
    [apply (cleanup_run true true true true true true)|apply (cleanup_run true false true true true true)
    |apply (cleanup_run false true true true true false)|apply (cleanup_run false false true true true false)]; done.
Qed.

Lemma abandon_run msg clear y : ok allocated y -> post (abandon msg clear) returned y.
Proof.
  intros Hy. unfold abandon. keepit. apply post_bind. apply (post_mono _ (fun _ => ok allocated)).
  { destruct clear; [apply post_modify; by apply set_active_ok|by apply post_ret]. }
  clear Hy. intros [] ? Hy. cbv beta in Hy. sayit. keepit. apply post_ret. by split.
Qed.

Lemma start_client_run turns relay y : ok allocated y -> post (start_client turns relay) returned y.
Proof.
  intros Hy. unfold start_client. keepit. destruct (_ =? 0); cbn [negb]; [|by apply abandon_run]. sayit. keepit. destruct (_ =? 0); cbn [negb].
  2: { sayit. by apply abandon_run. }
  sayit. keepit. apply post_bind. match goal with Hy : ok ?c _ |- _ => apply (post_mono _ (fun _ => ok c)) end.
  { destruct (_ =? 0); [|by apply post_ret]. match goal with Hy : ok ?c _ |- _ => by apply (ok_step _ c c) end. }
  clear Hy. intros [] ? Hy. by apply run_threads_run.
Qed.

Lemma login_run cfg c y :
  is_bytes (cf_password cfg) -> zlen (cf_password cfg) <= 256 -> ok c y -> post (login cfg) (fun r y' => ok c y' /\
    (r = Some (if bool_decide (cstring (cf_username cfg) = []) then None else Some (cstring (cf_username cfg), sha1 (cstring (cf_password cfg)))) \/ r = None)) y.
Proof.
  intros Hb Hl Hy. unfold login. case_bool_decide; [apply post_ret; auto|]. keepit. destruct (negb _); [apply post_ret; auto|]. apply post_bind.
  eapply post_mem; [|apply post_ret; auto]. change hash_password with password_key. apply password_key_eq; [by apply cstring_bytes|].
  pose proof (cstring_length (cf_password cfg)). unfold zlen in *. lia.
Qed.
(** An address that the name of the relay resolved to: with an answer of the name service, or
    with a file of names that the program has made of [f0]. *)
Definition resolved (f0 : option bytes) (relay : bytes) (addr : bytes * Z) : Prop :=
  exists i j file file', kept f0 file /\ resolve_server (nx_dns i) (nx_writable j) relay file = (0, addr, file').
Lemma resolve_run relay c y : ok c y -> post (resolve relay) (fun r y' => ok c y' /\ (r.1 = 0 -> resolved hosts0 relay r.2)) y.
Proof.
  intros Hy. unfold resolve. eapply ask_then; [exact Hy|]. clear Hy. intros i y1 Hy. eapply ask_then; [exact Hy|]. clear Hy. intros j y2 Hy.
  apply post_bind, post_gets. unfold id. destruct (resolve_server _ _ _ _) as [[rc addr] file] eqn:E.
  apply post_bind, post_modify, post_ret. split.
  - by apply (hosts_ok i j relay addr rc).
  - cbn. intros ->. exists i, j, (y_hosts y2), file. split; [apply Hy|done].
Qed.
Lemma wait_relay_run n relay c y :
  ok c y -> post (wait_relay n relay) (fun r y' => ok c y' /\ forall addr, r = Some (Some addr) -> resolved hosts0 relay addr) y.
Proof.
  revert y. induction n as [|n IH]; intros y Hy; cbn [wait_relay]; [by apply post_ret|].
  apply post_bind. eapply post_mono; [by apply resolve_run|]. clear Hy. intros [rc addr] ? [Hy Hr]. cbn in Hr.
  destruct (Z.eqb_spec rc 0) as [->|_]; [apply post_ret; split; [done|]; intros a [= <-]; by apply Hr|].
  keepit. unfold consume_reload. keepit. match goal with b : bool |- _ => destruct b end; [by apply post_ret|].
  keepit. match goal with b : bool |- _ => destruct b end; cbn [negb]; [|by apply post_ret].
  keepit. by apply IH.
Qed.
End runs2.

(** ** The whole program *)

Section program.
Context `{NxSys} `{GateSys} `{Inet} `{Env}.

(** The settings that a configuration file, the serial number of the console and the name
    service give: the address of the relay is one its name resolved to, [f0] being the file of
    names at the start; the address, the network and the mask are those of the file, or the
    address made of the serial number; with a user name, the key is the SHA-1 of the
    password. *)
Definition settings_from (f0 : option bytes) (file : bytes) (serial : option bytes) (s : settings) : Prop :=
  let '(rc, cfg) := nx_config_load (Some file) in
  let text (f : nx_config_t -> bytes) : bytes := cstring (f (nx_config_auto_ip serial cfg)) in
  rc = 0 /\
  resolved f0 (text cf_relay_addr) (st_server s) /\
  inet_aton (text cf_my_ip) = Some (st_my_ip s) /\
  inet_aton (text cf_subnet_net) = Some (st_net s) /\
  inet_aton (text cf_subnet_mask) = Some (st_mask s) /\
  st_auth s = (if bool_decide (text cf_username = []) then None else Some (text cf_username, sha1 (text cf_password))) /\
  st_wifi_ip s <> 0.
Definition program_notes (b : service -> bool) (f0 : option bytes) : Noted :=
  {| noted e :=
       match e with
       | NeReady s => exists i j file, nx_config_file i = Some file /\ settings_from f0 file (nx_serial j) s
       | NeRestart ns => ns = 3000000000
       | _ => True
       end;
     boot := b;
     hosts0 := f0 |}.

(** A file holds bytes. *)
Definition files_ok : Prop := forall i file, nx_config_file i = Some file -> is_bytes file.
Hypothesis Hfiles : files_ok.

Section notes.
Context (b : service -> bool) (f0 : option bytes).
#[local] Instance notes : Noted := program_notes b f0.

(** What is said of the result of the steps in between: they keep the client where it is. *)
Lemma wait_wifi_run n c y : ok c y -> post (wait_wifi n) (fun r y' => ok c y' /\ forall ip, r = Some (Some ip) -> ip <> 0) y.
Proof.
  revert y. induction n as [|n IH]; intros y Hy; cbn [wait_wifi]; [by apply post_ret|]. keepit.
  match goal with |- context [?ip =? 0] => destruct (Z.eqb_spec ip 0) end; cbn [negb]; [|apply post_ret; split; [done|]; by intros ? [= <-]].
  keepit. keepit. match goal with b : bool |- _ => destruct b end; cbn [negb]; [|by apply post_ret]. keepit. by apply IH.
Qed.
Lemma wait_config_run n c y : ok c y -> post (wait_config n) (fun r y' => ok c y' /\ (r = Some 1 \/ r = None)) y.
Proof.
  revert y. induction n as [|n IH]; intros y Hy; cbn [wait_config]; [apply post_ret; auto|]. keepit. unfold consume_reload. keepit.
  match goal with b : bool |- _ => destruct b end; [apply post_ret; auto|]. keepit.
  match goal with b : bool |- _ => destruct b end; cbn [negb]; [|apply post_ret; auto]. keepit. by apply IH.
Qed.
Lemma with_server_run turns wifi_ip serial j i file cfg server y :
  nx_config_file i = Some file -> nx_config_load (Some file) = (0, cfg) -> nx_serial j = serial -> wifi_ip <> 0 ->
  resolved f0 (cstring (cf_relay_addr (nx_config_auto_ip serial cfg))) server ->
  ok allocated y -> post (with_server turns wifi_ip (nx_config_auto_ip serial cfg) server) returned y.
Proof.
  intros Hi Hc Hj Hw Hs Hy. unfold with_server. apply post_bind. eapply post_mono; [by apply keeps_relay_probe|]. clear Hy. intros [] ? Hy. cbv beta in Hy.
  destruct (inet_aton _) as [my|] eqn:E1; [|by apply abandon_run]. destruct (inet_aton (cstring (cf_subnet_net _))) as [net|] eqn:E2; [|by apply abandon_run].
  destruct (inet_aton (cstring (cf_subnet_mask _))) as [mask|] eqn:E3; [|by apply abandon_run].
  destruct (load_password file) as [Hb Hl]; [by eapply Hfiles|]. rewrite Hc in Hb, Hl. cbn [snd] in Hb, Hl.
  assert (Ep : cf_password (nx_config_auto_ip serial cfg) = cf_password cfg) by (unfold nx_config_auto_ip; by destruct (negb _)).
  apply post_bind. eapply post_mono; [apply (login_run _ allocated); rewrite ?Ep; [done|lia|exact Hy]|]. clear Hy. intros auth ? [Hy [->| ->]]; [|by apply abandon_run].
  eapply (say_then _ allocated); [done|by intros|done|done|done|done| |exact Hy|].
  - exists i, j, file. split; [done|]. unfold settings_from. rewrite Hc, Hj. by split_and!.
  - clear Hy. intros ? Hy. by apply start_client_run.
Qed.
Lemma with_config_run turns wifi_ip serial j i file cfg y :
  nx_config_file i = Some file -> nx_config_load (Some file) = (0, cfg) -> nx_serial j = serial -> wifi_ip <> 0 ->
  ok no_client y -> post (with_config turns wifi_ip (nx_config_auto_ip serial cfg)) returned y.
Proof.
  intros Hi Hc Hj Hw Hy. unfold with_config. keepit. match goal with b : bool |- _ => destruct b end; cbn [negb].
  2: { keepit. keepit. unfold runtime_network_exit. keepit. apply post_ret. by split. }
  sayit. apply post_bind, post_modify. apply (set_active_ok _ true) in Hy. apply post_bind.
  eapply post_mono; [by apply wait_relay_run|]. clear Hy. intros [[server|]|] ? [Hy Hr].
  - by apply (with_server_run _ _ _ j i file); [..|apply Hr|].
  - sayit. apply post_ret. by split.
  - apply post_ret. by eexists.
Qed.
Lemma run_service_run turns y : ok no_client y -> post (run_service turns) returned y.
Proof.
  intros Hy. unfold run_service. keepit. match goal with |- context [?rc =? 0] => destruct (rc =? 0) end; cbn [negb].
  2: { keepit. keepit. apply post_ret. by split. }
  apply post_bind. eapply post_mono; [by apply wait_wifi_run|]. clear Hy. intros [[ip|]|] ? [Hy Hip]; [|apply post_ret; by split|apply post_ret; by eexists].
  keepit. eapply ask_then; [exact Hy|]. clear Hy. intros i ? Hy.
  destruct (nx_config_load (nx_config_file i)) as [rc cfg] eqn:Ec. destruct (Z.eqb_spec rc 0) as [->|_]; cbn [negb].
  - eapply ask_then; [exact Hy|]. clear Hy. intros j ? Hy. destruct (nx_config_file i) as [file|] eqn:Ei; [|done].
    by eapply (with_config_run _ _ _ _ i file); [..|by apply Hip|].
  - eapply post_mono; [by apply wait_config_run|]. intros r ? [Hy' Hr]. destruct r; cbn; [by destruct Hr as [[= ->]|]|by eexists].
Qed.

Lemma main_loop_run runs turns n y : ok no_client y -> post (main_loop runs turns n) (fun r y' => r = None /\ exists c, ok c y') y.
Proof.
  revert n y. induction runs as [|runs IH]; intros n y Hy; cbn [main_loop]; [apply post_ret; eauto|]. keepit.
  match goal with r : option bool |- _ => destruct r as [[]|] end; [|keepit; by apply IH|apply post_ret; eauto].
  apply post_bind. eapply post_mono; [by apply run_service_run|]. clear Hy. intros [rc|] ? Hr; cbn in Hr; [|by apply post_ret].
  destruct Hr as [-> Hy]. cbn. change (backoff 1 * 1000000000) with 3000000000. sayit. keepit. by apply IH.
Qed.
Lemma main_run runs turns y :
  ok no_client y ->
  post (main runs turns) (fun r y' => match r with Some rc => rc = 0 /\ y_rc_fs y <> 0 /\ ok no_client y' | None => exists c, ok c y' end) y.
Proof.
  intros Hy. assert (Hy1 : ok no_client (set_trace (S (y_ticks y)) (y_out y) y)) by (eapply ok_same; [|exact Hy]; by constructor).
  change (post (main runs turns) ?Q y) with (post (let* y := gets id in
    if negb (y_rc_fs y =? 0) then svcSleepThread 5000000000 ;;; ret (Some 0)
    else
      let* pm := pm_monitors_enabled in
      (if pm : bool then for_each (seqZ 0 15) (fun _ => svcSleepThread 1000000000) ;;; pgl_monitor_init_late else ret tt) ;;;
      main_loop runs turns 0) Q (set_trace (S (y_ticks y)) (y_out y) y)).
  clear Hy. apply post_bind, post_gets. unfold id. cbn [y_rc_fs set_trace]. destruct (Z.eqb_spec (y_rc_fs y) 0) as [E|E]; cbn [negb].
  - unfold pm_monitors_enabled. keepit. eapply (keep_then _ _ no_client); [keep|exact Hy1|]. clear Hy1. intros [] ? Hy.
    eapply post_mono; [by apply main_loop_run|]. by intros r ? [-> Hc].
  - keepit. by apply post_ret.
Qed.

(** The end of the program. *)
Lemma gate_init_total g : exists a g', ldn_gate_service_init g = Ok a g'.
Proof. unfold ldn_gate_service_init, gate_reset_state_locked, gate_now_tick, gate_ask, bind, gets, modify, ret. repeat first [progress cbn | case_match]; simplify_eq; eauto. Qed.
Lemma gate_exit_total g : exists a g', ldn_gate_service_exit g = Ok a g'.
Proof. unfold ldn_gate_service_exit, gate_reset_state_locked, gate_emit, gate_now_tick, gate_ask, bind, gets, modify, ret. repeat first [progress cbn | case_match]; simplify_eq; eauto. Qed.

Lemma monitor_stop_run c y : ok c y -> post pgl_monitor_stop (fun _ y' => ok c y' /\ y_pgl_ready y' = false) y.
Proof.
  intros Hy. pose proof Hy as [_ (N1 & N2 & N3) (K1 & K2 & K3) Hho]. apply mid_start in Hy as Hm. unfold pgl_monitor_stop. apply post_bind, post_gets. unfold id.
  rewrite K1, K2. destruct (y_pgl_thread y) eqn:Et.
  - destruct (y_pgl_ready y) eqn:Er; [|by discriminate K3]. apply post_bind, post_bind.
    eapply post_mono; [eapply mid_say; [exact Hm|intros ?; apply ar_wait]|]. clear Hm. intros [] ? Hm. cbv beta in Hm.
    eapply post_mono; [eapply mid_say; [exact Hm|intros ?; apply ar_close]|]. clear Hm. intros [] ? Hm. cbv beta in Hm.
    do 3 mid_exit_step Hm. apply post_modify. split; [|done]. mid_done (set_pgl false (y_pgl_mutex y) false false false false) Hm.
  - do 3 (apply post_bind, post_ret). destruct (y_pgl_ready y) eqn:Er.
    + mid_exit_step Hm. apply post_modify. split; [|done]. mid_done (set_pgl false (y_pgl_mutex y) false false false false) Hm.
    + apply post_bind, post_ret, post_modify. split; [|done]. mid_done (set_pgl false (y_pgl_mutex y) false false false false) Hm.
Qed.
Lemma foreground_exit_run c y :
  ok c y -> post foreground_detector_exit (fun _ y' => ok c y' /\ y_pgl_ready y' = y_pgl_ready y /\ (y_pm y').1 = false) y.
Proof.
  intros Hy. pose proof Hy as [_ (N1 & N2 & N3) (K1 & K2 & K3) Hho]. apply mid_start in Hy as Hm. unfold foreground_detector_exit. apply post_bind, post_gets. unfold id.
  destruct (y_pm y).1 eqn:Ep; [|by apply post_ret]. do 2 mid_exit_step Hm. apply post_modify. split.
  - mid_done (set_pm (false, (y_pm y).2)) Hm.
  - destruct Hm as (t & out & -> & _). done.
Qed.
Lemma network_cleanup_run c y :
  ok c y -> post runtime_network_cleanup_final
    (fun _ y' => ok c y' /\ y_pgl_ready y' = y_pgl_ready y /\ (y_pm y').1 = (y_pm y).1 /\ y_network y' = false) y.
Proof.
  intros Hy. pose proof Hy as [_ (N1 & N2 & N3) (K1 & K2 & K3) Hho]. apply mid_start in Hy as Hm. unfold runtime_network_cleanup_final. apply post_bind, post_gets. unfold id.
  rewrite N1, N2, N3. destruct (y_network y) eqn:En; [do 3 mid_exit_step Hm|do 3 (apply post_bind, post_ret)]; apply post_modify; (split; [mid_done (set_network false false false false) Hm|]);
    destruct Hm as (t & out & -> & _); done.
Qed.
(** Everything is closed but what is never closed. *)
Lemma app_exit_run y :
  ok no_client y ->
  post appExit (fun _ y' => at_res (fun s => bool_decide (s = SvPscm) && b SvPscm) Absent no_client (y_out y')) y.
Proof.
  intros Hy. unfold appExit. apply post_bind. eapply post_mono; [by apply monitor_stop_run|]. clear Hy. intros [] y1 [Hy E1].
  apply post_bind. unfold on_gate. unfold post at 1. destruct (gate_exit_total (y_gate y1)) as (? & g & ->).
  assert (Hy2 : ok no_client (set_gate g y1)) by (eapply ok_same; [|exact Hy]; by constructor). change (y_pgl_ready (set_gate g y1) = false) in E1. clear Hy.
  apply post_bind. eapply post_mono; [by apply foreground_exit_run|]. intros [] y3 (Hy & E2 & E3). apply post_bind. eapply post_mono; [by apply network_cleanup_run|].
  intros [] y4 ([Hr (N1 & N2 & N3) (K1 & K2 & K3) _] & F1 & F2 & F3).
  assert (Ht : y_pgl_thread y4 = false) by (apply K3; congruence). rewrite Ht in Hr. apply post_bind, post_modify, post_modify. cbn [set_trace y_out].
  eapply ar_ext; [|apply (ar_exit SvFs); [done| |by right]; apply (ar_exit SvSetsys); [done|exact Hr|by right]].
  intros []; unfold upd_open; repeat case_decide; cbn; congruence.
Qed.
End notes.

(** Before [__appInit]: nothing has been done and nothing is open. *)
Definition booted (y : sysmod) : Prop :=
  y_out y = [] /\ (forall s, flags (H := program_notes (fun _ => false) (y_hosts y)) y s = false) /\
  y_network y = false /\ y_pgl_thread y = false.
Lemma booted_ok y : booted y -> ok (H1 := program_notes (fun _ => false) (y_hosts y)) no_client y.
Proof.
  intros (Ho & Hf & Hn & Ht). pose proof (Hf SvNifm) as F1. pose proof (Hf SvBsd) as F2. pose proof (Hf SvSocket) as F3.
  pose proof (Hf SvObserver) as F4. pose proof (Hf SvProcessEvent) as F5. cbn in F1, F2, F3, F4, F5.
  constructor; [|by rewrite F1, F2, F3, Hn|by rewrite F4, F5, Ht|constructor].
  rewrite Ho, Ht. split; [constructor|]. exists res0. split; [done|]. do 2 (split; [done|]). intros s. by rewrite Hf.
Qed.

(** While the service manager is open, with the services [b] opened so far. *)
Definition booting (f0 : option bytes) (b : service -> bool) (y : sysmod) : Prop :=
  at_res (H := program_notes b f0) (upd_open SvSm true (flags (H := program_notes b f0) y))
    (if y_pgl_thread y then Running else Absent) no_client (y_out y) /\
  (y_nifm y = y_network y /\ y_bsd y = y_network y /\ y_socket y = y_network y) /\
  (y_pgl_observer y = y_pgl_thread y /\ y_pgl_event y = y_pgl_thread y /\ (y_pgl_ready y = false -> y_pgl_thread y = false)) /\
  y_hosts y = f0.
Lemma booting_same f0 b y y' : same y y' -> booting f0 b y -> booting f0 b y'.
Proof.
  intros [E1 E2 E3 E4 E5] (Hr & Hn & Hp & Hh). injection E2 as N1 N2 N3 N4. injection E3 as K1 K2 K3 K4.
  unfold booting. rewrite E1, E5, N1, N2, N3, N4, K1, K2, K3, K4.
  split; [|done]. eapply ar_ext; [|exact Hr]. intros []; intros; unfold upd_open; repeat case_decide; cbn; congruence.
Qed.
Lemma booting_open {B} f0 b s (k : Z -> M sysmod B) Q y :
  s = SvFs \/ s = SvSetsys \/ s = SvPscm -> b s = false -> booting f0 b y ->
  (forall rc b' y', b' = upd_open s (rc =? 0) b -> booting f0 b' y' -> post (k rc) Q y') -> post (bind (open_service s) k) Q y.
Proof.
  intros Hs Hbs Hb Hk. apply post_bind, post_bind. unfold ask, post at 1. set (rc := nx_rc (y_ticks y)). apply post_bind.
  destruct (rc =? 0) eqn:Erc; [apply post_modify, post_ret|apply post_ret, post_ret]; (eapply Hk; [reflexivity|]); rewrite Erc.
  - destruct Hb as (Hr & Hn & Hp & Hh). split; [|done]. cbn [y_out set_trace].
    eapply (ar_ext (H := program_notes _ f0)); [|apply (ar_open s); [exact Hr|]].
    + destruct Hs as [->|[-> | ->]]; intros []; unfold upd_open; cbn; done.
    + destruct Hs as [->|[-> | ->]]; unfold upd_open; cbn; done.
  - apply (booting_same _ _ y); [by constructor|]. destruct Hb as (Hr & Hn & Hp & Hh). split; [|done].
    eapply (ar_ext (H := program_notes _ f0)); [|exact Hr].
    destruct Hs as [->|[-> | ->]]; intros []; unfold upd_open; cbn; done.
Qed.
Lemma app_init_run f0 y :
  ok (H1 := program_notes (fun _ => false) f0) no_client y -> y_hosts y = f0 ->
  post appInit (fun _ y' => exists b, ok (H1 := program_notes b f0) no_client y') y.
Proof.
  intros Hy Hh. apply mid_start in Hy as Hm. unfold appInit.
  mid_open_step Hm rc. destruct Hm as (t & out & -> & Hr). destruct Hy as [Hy Hn Hp Hk]. destruct (rc =? 0); cbn [negb].
  2: { apply post_ret. exists (fun _ => false). by constructor. }
  assert (Hb : booting f0 (fun _ => false) (set_trace t out y)) by done. clear Hy Hr.
  eapply booting_open; [| |exact Hb|]; [by auto|done|]. clear Hb. intros rc2 b2 y2 -> Hb. apply post_bind.
  set (b2 := upd_open _ _ _) in *. apply (post_mono _ (fun _ => booting f0 b2)).
  { destruct (rc2 =? 0); [apply post_bind; unfold ask, post at 1|]; apply post_modify; (eapply booting_same; [|exact Hb]; by constructor). }
  clear Hb. intros [] y3 Hb. eapply booting_open; [| |exact Hb|]; [by auto|done|]. clear Hb. intros rc3 b3 y4 -> Hb.
  eapply booting_open; [| |exact Hb|]; [by auto|done|]. clear Hb. intros rc4 b4 y5 -> Hb.
  apply post_bind. unfold on_gate, post at 1. destruct (gate_init_total (y_gate y5)) as (? & g & ->).
  apply (booting_same _ _ _ (set_gate g y5)) in Hb as (Hr & Hn' & Hp' & Hh'); [|by constructor]. apply post_modify.
  exists (upd_open SvPscm (rc4 =? 0) (upd_open SvSetsys (rc3 =? 0) b2)). constructor; [|done..|cbn in Hh' |- *; rewrite Hh'; constructor].
  cbn [set_trace y_out]. eapply ar_ext; [|apply (ar_exit SvSm); [done|exact Hr|left; flag]]. by intros [].
Qed.

(** What the console runs: [__appInit], [main] and, if it returns, [__appExit]. *)
Definition program (runs turns : nat) : M sysmod (option Z) :=
  appInit ;;;
  let* r := main runs turns in
  (match r with Some _ => appExit | None => ret tt end) ;;;
  ret r.
Lemma program_run runs turns y :
  booted y -> post (program runs turns) (fun r y' => exists b f p c, at_res (H := program_notes b (y_hosts y)) f p c (y_out y') /\
    (forall rc, r = Some rc -> rc = 0 /\ f = (fun s => bool_decide (s = SvPscm) && b SvPscm) /\ p = Absent /\ c = no_client)) y.
Proof.
  intros Hb. apply post_bind. eapply post_mono; [by apply app_init_run; [apply booted_ok|]|]. intros [] y1 [b Hy1]. cbv beta in Hy1.
  apply post_bind. eapply post_mono; [by apply main_run|]. intros [rc|] y2; cbn beta iota; intros Hr; apply post_bind.
  - destruct Hr as (-> & _ & Hy2). eapply post_mono; [by apply app_exit_run|]. intros [] y3 Hr. apply post_ret.
    eexists b, _, _, _. split; [exact Hr|]. by intros ? [= <-].
  - destruct Hr as [c [Hr _ _ _]]. apply post_ret, post_ret. eexists b, _, _, _. split; [exact Hr|done].
Qed.
End program.

(** ** Results *)

Section results.
Context `{NxSys} `{GateSys} `{Inet} `{Env}.

(** With the gate alone, [ldn_runtime_still_allowed] is the specification of the gate. *)
Definition tick (y : sysmod) : sysmod := set_trace (S (y_ticks y)) (y_out y) y.
Lemma enabled_run y : (forall n, nx_there n = false) -> ldn_activity_gate_enabled y = Ok true (tick y).
Proof. intros Hth. unfold ldn_activity_gate_enabled, ldn_activity_gate_disabled_by_file, ask, bind. cbn. by rewrite Hth. Qed.
Lemma on_gate_run {A} (m : M gate A) a g y : m (y_gate y) = Ok a g -> on_gate m y = Ok a (set_gate g y).
Proof. unfold on_gate. by intros ->. Qed.
Lemma status_run st y : exists y', write_status st y = Ok tt y' /\ y_gate y' = y_gate y /\ y_pgl_ready y' = y_pgl_ready y.
Proof. unfold write_status, say, bind, gets, modify, ret, id. destruct (_ =? 0); by eexists. Qed.
Lemma allowed_run y h :
  clock_ok -> implements h (y_gate y) -> service_ok (y_gate y) -> y_pgl_ready y = false -> (forall n, nx_there n = false) ->
  let h' := extended h (observed (y_gate y)) in
  exists g1 y', ldn_gate_poll (y_gate y) = Ok tt g1 /\
    ldn_runtime_still_allowed y = Ok (keep_running h' (gate_tick (ga_ticks g1))) y' /\
    implements h' (y_gate y') /\ service_ok (y_gate y') /\ y_pgl_ready y' = false.
Proof.
  intros Hc Hi Hs Hp Hth h'.
  destruct (poll_run h (y_gate y) Hc Hi Hs) as (g1 & E1 & Hs1 & Hi1). destruct (is_active_run _ _ Hc Hi1) as (k & Hk & E2).
  exists g1. unfold ldn_runtime_still_allowed. rewrite (bind_ok _ _ _ _ _ (enabled_run y Hth)).
  assert (En : no_application (tick y) = Ok false (tick y)) by (unfold no_application, bind, gets, id; by destruct y; cbn in *; subst).
  rewrite (bind_ok _ _ _ _ _ En), (bind_ok _ _ _ _ _ (enabled_run _ Hth)). cbn [negb].
  rewrite (bind_ok _ _ _ _ _ (on_gate_run ldn_gate_poll tt g1 (tick (tick y)) E1)). fold h' in Hi1, E2.
  set (y1 := set_gate _ _). rewrite (bind_ok _ _ _ _ _ (on_gate_run ldn_gate_is_active _ _ y1 E2)).
  pose proof (implements_ticks _ _ _ Hc Hk Hi1) as Hi2. destruct (keep_running h' _).
  - eexists. split; [done|]. split; [reflexivity|]. by split_and!.
  - unfold bind at 1, on_gate at 1, ldn_gate_get_state, gets. cbn beta iota.
    match goal with |- context [write_status_waiting_ldn ?st] => destruct (status_run (StWaitingLdn st) (set_gate (y_gate (set_gate (set_ga_ticks k g1) y1)) (set_gate (set_ga_ticks k g1) y1))) as (y2 & E3 & G2 & R2) end.
    unfold write_status_waiting_ldn. rewrite (bind_ok _ _ _ _ _ E3). exists y2. split; [done|]. split; [done|]. rewrite G2, R2. by split_and!.
Qed.

(** C20: whatever the system answers, [run_service] uses its services, threads and objects in
    order: nothing is opened twice or closed unopened, no thread is created without the
    object it uses, started, awaited or closed twice, and the object is freed only when the
    sockets are closed, every thread was awaited and closed, and no session of the bridge can
    be left.  It returns 1, with nothing of the client left and the services open that its
    variables say are open, or it is still waiting for something. *)
Theorem run_service_releases (b : service -> bool) (turns : nat) (y : sysmod) :
  files_ok -> ok (H1 := program_notes b (y_hosts y)) no_client y ->
  exists r y', run_service turns y = Ok r y' /\
    match r with
    | Some rc => rc = 1 /\ ok (H1 := program_notes b (y_hosts y)) no_client y'
    | None => exists c, ok (H1 := program_notes b (y_hosts y)) c y'
    end.
Proof. intros Hf Hy. apply post_inv. by apply (run_service_run Hf b (y_hosts y)). Qed.

(** C21: the whole program, from the start of the console: every trace of it is in order, with
    every service, thread and object counted.  When [main] returns, the result is 0 and
    [__appExit] leaves no thread and no service open but one: the power-state service, which
    [__appInit] opens and nothing closes, is left open whenever it could be opened.  Closing
    the file system or the settings service when it is not open, which [__appExit] may do,
    counts as doing nothing. *)
Theorem sysmodule_in_order (runs turns : nat) (y : sysmod) :
  files_ok -> booted y ->
  exists r y' s, program runs turns y = Ok r y' /\ res_run res0 (y_out y') = Some s /\
    (forall rc, r = Some rc -> rc = 0 /\ rs_client s = no_client /\ rs_pgl s = Absent /\
      forall v, rs_open s v = bool_decide (v = SvPscm /\ NeOpen SvPscm ∈ y_out y')).
Proof.
  intros Hf Hy. destruct (post_inv _ _ _ (program_run Hf runs turns y Hy)) as (r & y' & E & b & f & p & c & (Hn & s & Hs & Ec & Ep & Ho) & Hr).
  exists r, y', s. split; [done|]. split; [done|]. intros rc Hrc. destruct (Hr rc Hrc) as (-> & -> & -> & ->). do 3 (split; [done|]).
  intros v. destruct (decide (v = SvPscm)) as [->|Hv].
  - rewrite (res_run_open _ _ _ SvPscm Hs); [cbn; apply bool_decide_ext; naive_solver|].
    intros Hx. rewrite Forall_forall in Hn. by apply (Hn _ Hx).
  - rewrite Ho, !bool_decide_false by naive_solver. done.
Qed.

(** C23: what the client runs with, in every run of the program: the settings of a
    configuration file that was read, with the address made of the serial number if the file
    gives none, the console's own address on the network, and the SHA-1 of the password as the
    key if there is a user name.  The relay's address is what [resolve_server] made of its name
    with one of the answers of the system's name service and with the file of names: the file
    at the start, as the program's own lookups have changed it.  Files hold bytes. *)
Theorem service_settings (runs turns : nat) (y : sysmod) :
  files_ok -> booted y ->
  exists r y', program runs turns y = Ok r y' /\
    forall s, NeReady s ∈ y_out y' ->
      exists i j file, nx_config_file i = Some file /\ settings_from (y_hosts y) file (nx_serial j) s.
Proof.
  intros Hf Hy. destruct (post_inv _ _ _ (program_run Hf runs turns y Hy)) as (r & y' & E & b & f & p & c & (Hn & _) & _).
  exists r, y'. split; [done|]. intros s Hs. rewrite Forall_forall in Hn. by apply (Hn _ Hs).
Qed.

(** The pause between two runs, which is meant to double up to a minute, is three seconds
    every time. *)
Theorem restart_pause (runs turns : nat) (y : sysmod) :
  files_ok -> booted y ->
  exists r y', program runs turns y = Ok r y' /\ forall ns, NeRestart ns ∈ y_out y' -> ns = 3000000000.
Proof.
  intros Hf Hy. destruct (post_inv _ _ _ (program_run Hf runs turns y Hy)) as (r & y' & E & b & f & p & c & (Hn & _) & _).
  exists r, y'. split; [done|]. intros ns Hns. rewrite Forall_forall in Hn. by apply (Hn _ Hns).
Qed.

(** C22: a turn of the service loop with the client running, a gate that implements its
    specification on the history so far ([NxGate.gate_refines]), the thread that watches processes
    not in use, none of the files there that switch something, and a clock that does not run
    backwards.  The gate is polled once; then, the time being the clock's next reading, the
    client goes on for two seconds exactly if the specification of the gate wants it at that
    time on what was observed, within its time-out of 120 seconds and its grace of 10 after the
    game has left, and otherwise the loop is left.  The gate goes on implementing the
    specification. *)
Theorem service_turn (turns : nat) (relay : bytes) (y : sysmod) (h : history) :
  clock_ok -> implements h (y_gate y) -> service_ok (y_gate y) -> y_pgl_ready y = false ->
  (forall n, nx_there n = false) -> (forall n, nx_running n = true) ->
  let h' := extended h (observed (y_gate y)) in
  exists g1 y', ldn_gate_poll (y_gate y) = Ok tt g1 /\
    implements h' (y_gate y') /\ service_ok (y_gate y') /\ y_pgl_ready y' = false /\
    service_loop (S turns) relay y =
      (if keep_running h' (gate_tick (ga_ticks g1)) then (svcSleepThread 2000000000 ;;; service_loop turns relay) y'
       else Ok (Some tt) y').
Proof.
  intros Hc Hi Hs Hp Hth Hrun h'.
  cbn [service_loop]. unfold bind at 1, ask at 1. rewrite Hrun. cbn [negb].
  unfold bind at 1, on_gate at 1, ldn_gate_get_state at 1, gets at 1. cbn beta iota.
  unfold bind at 1, say at 1, modify at 1. cbn beta iota. unfold bind at 1, consume_reload, ask at 1. rewrite Hth.
  unfold bind at 1, foreground_gate_enabled, pm_monitors_enabled, bind at 1, ask at 1. rewrite Hth. cbn [negb]. unfold ret at 1. cbn beta iota.
  unfold bind at 1, ret at 1. cbn beta iota.
  match goal with |- context [bind ldn_runtime_still_allowed _ ?y1] => destruct (allowed_run y1 h) as (g1 & y2 & Eg & E & Hi2 & Hs2 & Hp2); [done..|] end.
  exists g1, y2. split; [exact Eg|]. split; [exact Hi2|]. split; [exact Hs2|]. split; [exact Hp2|]. rewrite (bind_ok _ _ _ _ _ E).
  change (extended h (observed _)) with h'. by destruct (keep_running h' _).
Qed.
End results.

(** ** Concrete runs *)

Module Demo.
Import NxHosts.Demo.
Definition demo_config : bytes :=
  text [cstr "# lan-play"; cstr "relay_addr = lan.nonny.horse:11451"; cstr "username = ana"; cstr "password = secret"].
(** Every call has the result [rc]. *)
Definition demo_nx (rc : Z) (running : bool) : NxSys :=
  {| nx_rc := fun _ => rc; nx_app := fun _ => (0, 0); nx_title := fun _ => (0, 0); nx_there := fun _ => false; nx_ip := fun _ => 0x0201A8C0;
     nx_room := fun _ => true; nx_config_file := fun _ => Some demo_config; nx_serial := fun _ => None; nx_dns := fun _ _ _ => None;
     nx_writable := fun _ => true; nx_running := fun _ => running; nx_reports := fun _ => []; inet_aton := strict_pton |}.
Definition demo_sysmod : sysmod :=
  {| y_rc_fs := 0; y_network := false; y_nifm := false; y_bsd := false; y_socket := false; y_pgl_ready := false; y_pgl_mutex := false; y_pgl_thread := false;
     y_pgl_running := false; y_pgl_observer := false; y_pgl_event := false; y_app := (0, 0, 0); y_pm := (false, 0); y_active_lp := false;
     y_gate := demo_gate; y_hosts := None; y_ticks := 0; y_out := [] |}.
Lemma demo_files rc running : files_ok (H := demo_nx rc running).
Proof. intros i file [= <-]. apply Forall_forall. intros b Hb. assert (Hall : forallb (fun b => (0 <=? b) && (b <? 256)) demo_config = true) by (vm_compute; reflexivity).
  rewrite forallb_forall in Hall. specialize (Hall b ltac:(by apply list_elem_of_In)). unfold is_u8. lia. Qed.
End Demo.
Import Demo.
#[local] Existing Instance NxHosts.Demo.strict_pton.
#[local] Existing Instance demo_env.

Lemma demo_booted rc : booted (H := demo_nx rc false) demo_sysmod.
Proof. split; [done|]. split; [by intros []|done]. Qed.

Lemma run_service_releases_witness :
  exists r y', run_service (H := demo_nx 0 false) (H0 := demo_gate_sys) 3 demo_sysmod = Ok r y' /\
    match r with
    | Some rc => rc = 1 /\ ok (H := demo_nx 0 false) (H1 := program_notes (H := demo_nx 0 false) (fun _ => false) None) no_client y'
    | None => exists c, ok (H := demo_nx 0 false) (H1 := program_notes (H := demo_nx 0 false) (fun _ => false) None) c y'
    end.
Proof.
  apply (run_service_releases (H := demo_nx 0 false) (H0 := demo_gate_sys) (fun _ => false) 3 demo_sysmod (demo_files 0 false)).
  apply (booted_ok (H := demo_nx 0 false) demo_sysmod), demo_booted.
Defined.
(** It starts the client, which stops at once, and returns. *)
Example demo_service :
  match run_service (H := demo_nx 0 false) (H0 := demo_gate_sys) 3 demo_sysmod with
  | Ok r y' => r = Some 1 /\ NeStart TkLdnTcp ∈ y_out y' /\ NeFree ∈ y_out y'
  | Stop _ => False
  end.
Proof. vm_compute. split; [reflexivity|]. split; set_solver. Qed.

Lemma sysmodule_in_order_witness :
  exists r y' s, program (H := demo_nx 5 false) (H0 := demo_gate_sys) 3 3 demo_sysmod = Ok r y' /\ res_run res0 (y_out y') = Some s /\
    (forall rc, r = Some rc -> rc = 0 /\ rs_client s = no_client /\ rs_pgl s = Absent /\
      forall v, rs_open s v = bool_decide (v = SvPscm /\ NeOpen SvPscm ∈ y_out y')).
Proof. apply (sysmodule_in_order (H := demo_nx 5 false) (H0 := demo_gate_sys) 3 3 demo_sysmod (demo_files 5 false) (demo_booted 5)). Defined.

Lemma service_settings_witness :
  exists r y', program (H := demo_nx 0 false) (H0 := demo_gate_sys) 1 3 demo_sysmod = Ok r y' /\
    forall s, NeReady s ∈ y_out y' ->
      exists i j file, nx_config_file (NxSys := demo_nx 0 false) i = Some file /\
        settings_from (H := demo_nx 0 false) None file (nx_serial (NxSys := demo_nx 0 false) j) s.
Proof. apply (service_settings (H := demo_nx 0 false) (H0 := demo_gate_sys) 1 3 demo_sysmod (demo_files 0 false) (demo_booted 0)). Defined.

Lemma restart_pause_witness :
  exists r y', program (H := demo_nx 0 false) (H0 := demo_gate_sys) 3 3 demo_sysmod = Ok r y' /\ forall ns, NeRestart ns ∈ y_out y' -> ns = 3000000000.
Proof. apply (restart_pause (H := demo_nx 0 false) (H0 := demo_gate_sys) 3 3 demo_sysmod (demo_files 0 false) (demo_booted 0)). Defined.
(** A game that hosts all the time: three runs, three pauses of three seconds. *)
Definition hosting_gate_sys : GateSys :=
  {| gate_tick := fun k => Z.of_nat k + 1; sm_initialize := fun _ => 0; sm_get_service := fun _ => 0; gate_get_event := fun _ => (1, None);
     gate_get_state := fun _ => (0, demo_gate_state LANP_GATE_EVENT_HOST); gate_wait := fun _ => 0 |}.
Example demo_pauses :
  match program (H := demo_nx 0 false) (H0 := hosting_gate_sys) 3 3 demo_sysmod with
  | Ok r y' => (r, omap (fun e => match e with NeRestart ns => Some ns | _ => None end) (y_out y'))
  | Stop _ => (None, [])
  end = (None, [3000000000; 3000000000; 3000000000]).
Proof. vm_compute. reflexivity. Qed.

Definition demo_gate_on : gate :=
  {| ga_state := demo_gate_state LANP_GATE_EVENT_SCAN; ga_connected := false; ga_handle := None; ga_last_active := 1; ga_finalize := 0; ga_ticks := 0; ga_out := [] |}.
Lemma service_turn_witness :
  let y := set_gate demo_gate_on demo_sysmod in
  let h' := extended [(LANP_GATE_EVENT_SCAN, 1)] (observed (H := demo_gate_sys) (y_gate y)) in
  exists g1 y', ldn_gate_poll (H := demo_gate_sys) (y_gate y) = Ok tt g1 /\
    implements (H := demo_gate_sys) h' (y_gate y') /\ service_ok (y_gate y') /\ y_pgl_ready y' = false /\
    service_loop (H := demo_nx 0 true) (H0 := demo_gate_sys) 4 (cstr "10.0.0.1") y =
      (if keep_running h' (gate_tick (GateSys := demo_gate_sys) (ga_ticks g1)) then (svcSleepThread (H := demo_nx 0 true) 2000000000 ;;; service_loop (H := demo_nx 0 true) (H0 := demo_gate_sys) 3 (cstr "10.0.0.1")) y'
       else Ok (Some tt) y').
Proof.
  apply (service_turn (H := demo_nx 0 true) (H0 := demo_gate_sys) 3 (cstr "10.0.0.1") (set_gate demo_gate_on demo_sysmod) [(LANP_GATE_EVENT_SCAN, 1)] demo_clock).
  - constructor; cbn; try reflexivity; [discriminate|]. repeat constructor; cbn; lia.
  - reflexivity.
  - reflexivity.
  - reflexivity.
  - reflexivity.
Defined.
