(* ===== verification/HbApp.v ===== *)
(** The set-up application of the console: [hbapp/source/main.cpp].

    A menu, a list of relays and a keyboard for addresses.  What is chosen goes to
    [config.ini], which the client of the console loads ([NxConfig]), and to [relays.txt],
    the list of the relays used last; then the client is told to start over.  Every pass
    through the loop of a screen sees one [frame]: whether the application still runs, the
    buttons, the stick, the time and the touches.  Files are the lists of their bytes.  A
    screen takes a number of turns and gives [None] when they are used up.  What is drawn has
    no effect and is left out, except for what the menu tells of the client.

    Shown here: an address that is entered reaches the client, which then needs no name
    service; the list of relays is a list of addresses with names in order of use, and
    survives the file; no input makes a screen leave its buffers or the list, whose rows and
    bytes are checked at every access, and the client is told to start over only after a
    configuration was written for an address that was accepted; every key can be reached; what the
    client says of itself is what the menu shows. *)

From stdpp Require Import strings.
From S2P Require Import Prelude Byteorder Structs Checksum Packet Arp Ipv4 LanClient Dispatch Nx NxClient NxTap Helper NxConfig NxHosts.

(** ** The C library *)

(** One ["%u"] of [sscanf]: [strtoul] as an [unsigned]. *)
Definition strtoul_value (v : Z) : Z := if 2 ^ 64 - 1 <? Z.abs v then 2 ^ 64 - 1 else u64 v.
Definition scan_u (s : bytes) : option (Z * bytes) := '(v, r) ← scan_int s; Some (u32 (strtoul_value v), r).
Definition strtoull (s : bytes) : Z := match scan_int s with Some (v, _) => strtoul_value v | None => 0 end.
(** [strrchr]: what is before and behind the last [c]. *)
Fixpoint rsplit_char (s : bytes) (c : Z) : option (bytes * bytes) :=
  match s with
  | [] => None
  | x :: s =>
      match rsplit_char s c with
      | Some (a, b) => Some (x :: a, b)
      | None => if x =? c then Some ([], s) else None
      end
  end.
(** The string without the characters at its end that satisfy [p]. *)
Fixpoint cut_end (p : Z -> bool) (s : bytes) : bytes :=
  match s with
  | [] => []
  | c :: s => match cut_end p s with [] => if p c then [] else [c] | t => c :: t end
  end.
(** [strstr] *)
Fixpoint contains (s w : bytes) : bool :=
  bool_decide (take (length w) s = w) || match s with [] => false | _ :: s => contains s w end.

(** ** The code *)

Definition FB_W : Z := 1280.
Definition FB_H : Z := 720.
Definition STR_MAX : Z := 256.
Definition MAX_CFG_LINES : Z := 64.
Definition MAX_RELAYS : Z := 32.

Definition g_seed_relays : list bytes :=
  [cstr "88.140.156.4:11451"; cstr "192.241.238.136:11451"; cstr "65.21.20.230:11451"; cstr "45.83.241.140:11451"; cstr "45.83.241.140:11453";
   cstr "91.195.240.12:11453"; cstr "199.60.101.194:11451"; cstr "199.60.101.194:11453"; cstr "89.163.151.130:11451"; cstr "37.187.111.226:11451";
   cstr "185.117.82.250:11451"; cstr "37.201.39.187:11451"; cstr "201.83.170.61:11451"].
Definition g_seed_labels : list bytes :=
  [cstr "switch.lan-play.com  EU FR"; cstr "tekn0.net            EU"; cstr "lan.nonny.horse      EU"; cstr "switch.jayseateam.nl NL";
   cstr "switch.jayseateam.nl NL :11453"; cstr "switch.0mn1b0x.com   AU"; cstr "joinsg.net           US"; cstr "joinsg.net           US :11453";
   cstr "switch.servegame.com DK"; cstr "spain-slp.duckdns.org FR"; cstr "games.initlab.org    BG"; cstr "switch-lanyplay-de   DE"; cstr "herbertfx.ddns.net   BR"].

(** *** The list of relays *)

(** The rows of the two arrays, of 64 and 48 bytes. *)
Record RelayList := {
  rl_entries : list bytes;
  rl_labels : list bytes;
  rl_count : Z;
}.
Definition row (l : list bytes) (i : nat) : bytes := default [] (l !! i).
(** What a local variable of this type holds, from the bytes [m] of its memory. *)
Definition stack_list (m : nat -> Z) : RelayList :=
  {| rl_entries := (fun i => (fun j => m (i * 64 + j)%nat) <$> seq 0 64) <$> seq 0 32;
     rl_labels := (fun i => (fun j => m (2048 + (i * 48 + j))%nat) <$> seq 0 48) <$> seq 0 32;
     rl_count := m 3584%nat |}.
(** The string at the front of [m]; there is none without a terminator. *)
Definition str_in (m : bytes) : option bytes := if bool_decide (0 ∈ m) then Some (cstring m) else None.
(** The string at a row.  One without a terminator goes on in the rows behind it, then in the
    names and in [count]; reading on behind these is an error, as is a row the array does not
    have. *)
Definition label_str (rl : RelayList) (i : nat) : option bytes :=
  _ ← rl_labels rl !! i; str_in (concat (drop i (rl_labels rl)) ++ [rl_count rl; 0; 0; 0]).
Definition entry_str (rl : RelayList) (i : nat) : option bytes :=
  _ ← rl_entries rl !! i; str_in (concat (drop i (rl_entries rl)) ++ concat (rl_labels rl) ++ [rl_count rl; 0; 0; 0]).
(** [strncpy] into a row and a terminator put into one, which has to have the room. *)
Definition copy_row (v : bytes) (n : Z) (r : bytes) : option bytes := if n <=? zlen r then Some (strncpy r v n) else None.
Definition end_row (i : Z) (r : bytes) : option bytes := mem_put r i [0].
(** A row of an array is changed, which has to have this row. *)
Definition upd_row (i : nat) (f : bytes -> option bytes) (rows : list bytes) : option (list bytes) :=
  r ← rows !! i; r ← f r; Some (<[i := r]> rows).
Definition set_entry (i : nat) (v : bytes) (rl : RelayList) : option RelayList :=
  es ← upd_row i (copy_row v 63) (rl_entries rl);
  Some {| rl_entries := es; rl_labels := rl_labels rl; rl_count := rl_count rl |}.
Definition set_label (i : nat) (f : bytes -> option bytes) (rl : RelayList) : option RelayList :=
  ls ← upd_row i f (rl_labels rl);
  Some {| rl_entries := rl_entries rl; rl_labels := ls; rl_count := rl_count rl |}.
Definition set_count (n : Z) (rl : RelayList) : RelayList := {| rl_entries := rl_entries rl; rl_labels := rl_labels rl; rl_count := n |}.

Definition is_eol (c : Z) : bool := (c =? 10) || (c =? 13).
(** A line of the file. *)
Definition relay_entry (line : bytes) (rl : RelayList) : option RelayList :=
  let line := cut_end is_eol line in
  let n := Z.to_nat (rl_count rl) in
  match line with
  | [] => Some rl
  | _ =>
      '(line, rl) ←
        match split_char line 35 with
        | Some (ip, lbl) => rl ← set_label n (fun r => r ← copy_row (skip_blank lbl) 47 r; end_row 47 r) rl; Some (cut_end is_blank ip, rl)
        | None => rl ← set_label n (end_row 0) rl; Some (line, rl)
        end;
      match line with [] => Some rl | _ => rl ← set_entry n line rl; Some (set_count (rl_count rl + 1) rl) end
  end.
Fixpoint load_relays (fuel : nat) (f : bytes) (rl : RelayList) : option RelayList :=
  match fuel with
  | O => Some rl
  | S fuel =>
      if rl_count rl <? MAX_RELAYS then
        match fgets 128 f with None => Some rl | Some (line, f) => rl ← relay_entry (cstring line) rl; load_relays fuel f rl end
      else Some rl
  end.
(** The list of the program. *)
Fixpoint load_seeds (ss : list (bytes * bytes)) (rl : RelayList) : option RelayList :=
  match ss with
  | [] => Some rl
  | s :: ss =>
      let n := Z.to_nat (rl_count rl) in
      if rl_count rl <? MAX_RELAYS then
        rl ← set_entry n s.1 rl;
        rl ← set_label n (copy_row s.2 47) rl;
        load_seeds ss (set_count (rl_count rl + 1) rl)
      else Some rl
  end.
(** [rl] is what the variable held before. *)
Definition relaylist_load (file : option bytes) (rl : RelayList) : option RelayList :=
  let rl := set_count 0 rl in
  rl ← match file with Some f => load_relays (S (length f)) f rl | None => Some rl end;
  if rl_count rl =? 0 then load_seeds (zip g_seed_relays g_seed_labels) rl else Some rl.

Definition relay_row (rl : RelayList) (i : nat) : option bytes :=
  label ← label_str rl i;
  entry ← entry_str rl i;
  Some match label with [] => entry ++ newline | _ => entry ++ cstr "  # " ++ label ++ newline end.
(** The file; [writable]: whether it could be opened for writing. *)
Definition relaylist_save (rl : RelayList) (file : option bytes) (writable : bool) : option (option bytes) :=
  if writable then rows ← mapM (relay_row rl) (seq 0 (Z.to_nat (rl_count rl))); Some (Some (concat rows)) else Some file.

(** [memmove(a[1], a[0], n * sizeof(a[0]))], where the array has to have the rows up to [n]. *)
Definition shift_rows (n : nat) (l : list bytes) : option (list bytes) :=
  if (S n <=? length l)%nat then Some (take 1 l ++ take n l ++ drop (S n) l) else None.
Definition shift_list (n : nat) (rl : RelayList) : option RelayList :=
  es ← shift_rows n (rl_entries rl);
  ls ← shift_rows n (rl_labels rl);
  Some {| rl_entries := es; rl_labels := ls; rl_count := rl_count rl |}.
(** The first row from [i] on, of [n], that holds this string. *)
Fixpoint find_entry (rl : RelayList) (ip_port : bytes) (i n : nat) : option (option nat) :=
  match n with
  | O => Some None
  | S n =>
      entry ← entry_str rl i;
      if bool_decide (entry = ip_port) then Some (Some i) else find_entry rl ip_port (S i) n
  end.
Definition relaylist_add (rl : RelayList) (ip_port : bytes) : option RelayList :=
  found ← find_entry rl ip_port 0 (Z.to_nat (rl_count rl));
  match found with
  | Some i =>
      label ← label_str rl i;
      let saved_label := take 47 label in
      rl ← shift_list i rl;
      rl ← set_entry 0 ip_port rl;
      set_label 0 (copy_row saved_label 47) rl
  | None =>
      let keep := if rl_count rl <? MAX_RELAYS then rl_count rl else MAX_RELAYS - 1 in
      rl ← shift_list (Z.to_nat keep) rl;
      rl ← set_entry 0 ip_port rl;
      rl ← set_label 0 (end_row 0) rl;
      Some (set_count (keep + 1) rl)
  end.

(** *** Addresses and the configuration *)

Definition is_ipv4_literal (host : bytes) : bool :=
  match (
    '(a, s) ← scan_u host; s ← scan_char 46 s;
    '(b, s) ← scan_u s; s ← scan_char 46 s;
    '(c, s) ← scan_u s; s ← scan_char 46 s;
    '(d, s) ← scan_u s;
    Some (a, b, c, d, s)
  ) with
  | Some (a, b, c, d, []) => (a <=? 255) && (b <=? 255) && (c <=? 255) && (d <=? 255)
  | _ => false
  end.
(** The host, cut to [host_sz - 1] characters, and the port. *)
Definition extract_host_port (addr : bytes) (host_sz : Z) : bytes * Z :=
  let cut := take (Z.to_nat (host_sz - 1)) in
  match addr with
  | [] => ([], 11451)
  | _ =>
      match rsplit_char addr 58 with
      | Some (host, port) => (cut host, if atoi port <=? 0 then 11451 else atoi port)
      | None => (cut addr, 11451)
      end
  end.
Definition normalize_relay_for_save (addr : bytes) (out_sz : Z) : option bytes :=
  let '(host, port) := extract_host_port addr 128 in
  if bool_decide (host = []) then None
  else if negb (is_ipv4_literal host) then None
  else
    let port := if (port <=? 0) || (65535 <? port) then 11451 else port in
    Some (take (Z.to_nat (out_sz - 1)) (host ++ 58 :: dec 5 port)).

(** The value of a line about the address. *)
Definition relay_value (line : bytes) : option bytes :=
  match trim line with
  | [] => None
  | c :: _ =>
      if (c =? 59) || (c =? 35) || (c =? 91) then None
      else '(key, val) ← split_char (trim line) 61; if bool_decide (trim key = cstr "relay_addr") then Some (trim val) else None
  end.
Fixpoint read_loop (fuel : nat) (f : bytes) : option bytes :=
  match fuel with
  | O => None
  | S fuel =>
      match fgets 512 f with
      | None => None
      | Some (line, f) => match relay_value (cstring line) with Some v => Some v | None => read_loop fuel f end
      end
  end.
Definition read_relay (file : option bytes) (sz : Z) : Z * bytes :=
  match f ← file; read_loop (S (length f)) f with
  | Some v => (0, take (Z.to_nat (sz - 1)) v)
  | None => (-1, [])
  end.

(** The lines with the address in them. *)
Definition save_lines (lines : list bytes) (normalized : bytes) : list bytes :=
  let '(lines, found) := replace_relay lines normalized in
  if found : bool then lines
  else
    let lines := match lines with [] => [cstr "; switch-lan-play" ++ newline; cstr "[server]" ++ newline] | _ => lines end in
    if zlen lines <? MAX_CFG_LINES - 1 then lines ++ [relay_line normalized] else lines.

(** *** What the client says of itself *)

Record SysStatus := {
  ss_active : bool;
  ss_relay : bytes;
  ss_error_msg : bytes;
  ss_up_b : Z;
  ss_dn_b : Z;
}.
(** The part of a field up to the end of the line. *)
Definition field_text (s : bytes) : bytes := match split_char s 10 with Some (a, _) => a | None => s end.
Definition status_line (s : SysStatus) (line : bytes) : SysStatus :=
  let has (w : string) := bool_decide (take (length (cstr w)) line = cstr w) in
  let value (n : nat) := drop n line in
  {| ss_active := ss_active s || has "active=1";
     ss_relay := if has "relay=" then field_text (take 127 (value 6%nat)) else ss_relay s;
     ss_error_msg := if has "error=" then field_text (take 127 (value 6%nat)) else ss_error_msg s;
     ss_up_b := if has "up_bytes=" then strtoull (value 9%nat) else ss_up_b s;
     ss_dn_b := if has "dn_bytes=" then strtoull (value 9%nat) else ss_dn_b s |}.
Fixpoint status_loop (fuel : nat) (f : bytes) (s : SysStatus) : SysStatus :=
  match fuel with
  | O => s
  | S fuel => match fgets 128 f with None => s | Some (line, f) => status_loop fuel f (status_line s (cstring line)) end
  end.
Definition read_status (file : option bytes) : SysStatus :=
  let s := {| ss_active := false; ss_relay := []; ss_error_msg := []; ss_up_b := 0; ss_dn_b := 0 |} in
  match file with Some f => status_loop (S (length f)) f s | None => s end.
(** What the menu tells of it. *)
Inductive shown := ShActive (relay : bytes) (up_kb dn_kb : Z) | ShWaitingWiFi | ShNotRunning (msg : bytes).
Definition menu_status (s : SysStatus) : shown :=
  if ss_active s then ShActive (ss_relay s) (ss_up_b s / 1024) (ss_dn_b s / 1024)
  else if contains (ss_error_msg s) (cstr "WiFi") then ShWaitingWiFi
  else ShNotRunning (ss_error_msg s).

(** *** The keyboard *)

Definition KEY_BS : Z := 8.
Definition KEY_OK : Z := 13.
Record Key := { k_x : Z; k_y : Z; k_w : Z; k_h : Z; k_val : Z }.
Definition KBD_MARGIN : Z := 60.
Definition KBD_GAP : Z := 8.
Definition KBD_VGAP : Z := 10.
Definition KBD_COLS : Z := 10.
Definition KBD_TOP : Z := 230.
Definition KBD_KEY_H : Z := 130.
Definition KBD_KEY_W : Z := (FB_W - 2 * KBD_MARGIN - (KBD_COLS - 1) * KBD_GAP) / KBD_COLS.
Definition ROW_DIGITS : bytes := cstr "1234567890".

(** [g_keys] after [kbd_init]. *)
Definition kbd_init : list Key :=
  let digits := imap (fun c v =>
    {| k_x := KBD_MARGIN + Z.of_nat c * (KBD_KEY_W + KBD_GAP); k_y := KBD_TOP; k_w := KBD_KEY_W; k_h := KBD_KEY_H; k_val := v |}) ROW_DIGITS in
  let r1y := KBD_TOP + 1 * (KBD_KEY_H + KBD_VGAP) in
  let total_w := FB_W - 2 * KBD_MARGIN in
  let unit := KBD_KEY_W in
  let cx := KBD_MARGIN in
  let dot := {| k_x := cx; k_y := r1y; k_w := unit * 2 + KBD_GAP; k_h := KBD_KEY_H; k_val := 46 |} in
  let cx := cx + (unit * 2 + KBD_GAP * 2) in
  let colon := {| k_x := cx; k_y := r1y; k_w := unit * 2 + KBD_GAP; k_h := KBD_KEY_H; k_val := 58 |} in
  let cx := cx + (unit * 2 + KBD_GAP * 2) in
  let dw := unit * 3 + KBD_GAP * 2 in
  let del := {| k_x := cx; k_y := r1y; k_w := dw; k_h := KBD_KEY_H; k_val := KEY_BS |} in
  let cx := cx + (dw + KBD_GAP) in
  let ow := KBD_MARGIN + total_w - cx in
  let done := {| k_x := cx; k_y := r1y; k_w := ow; k_h := KBD_KEY_H; k_val := KEY_OK |} in
  digits ++ [dot; colon; del; done].
Definition g_keys : list Key := kbd_init.

Definition hit (px_x px_y : Z) (k : Key) : bool :=
  (k_x k <=? px_x) && (px_x <? k_x k + k_w k) && (k_y k <=? px_y) && (px_y <? k_y k + k_h k).
Definition key_at (px_x px_y : Z) : option nat := fst <$> list_find (fun k => hit px_x px_y k = true) g_keys.

Definition center (k : Key) : Z * Z := (k_x k + k_w k / 2, k_y k + k_h k / 2).
(** The direction is right: [d] is the way to go, [dd] the way to the key. *)
Definition towards (d dd : Z) : bool := negb ((0 <? d) && (dd <=? 0)) && negb ((d <? 0) && (0 <=? dd)).
Definition nearer (from : nat) (dx dy : Z) (best : option (nat * Z)) (ik : nat * Key) : option (nat * Z) :=
  let cur := default (ik.2) (g_keys !! from) in
  let ddx := (center ik.2).1 - (center cur).1 in
  let ddy := (center ik.2).2 - (center cur).2 in
  if bool_decide (ik.1 = from) || negb (towards dx ddx) || negb (towards dy ddy) then best
  else
    let dist := ddx * ddx + ddy * ddy in
    if dist <? match best with Some (_, d) => d | None => 999999 end then Some (ik.1, dist) else best.
Definition find_key_dir (from : nat) (dx dy : Z) : nat :=
  match foldl (nearer from dx dy) None (imap pair g_keys) with Some (i, _) => i | None => from end.

(** Buttons ([HidNpadButton]). *)
Definition button (down : Z) (i : Z) : bool := Z.testbit down i.
Definition BtnA : Z := 0.
Definition BtnB : Z := 1.
Definition BtnX : Z := 2.
Definition BtnY : Z := 3.
Definition BtnPlus : Z := 10.
Definition BtnMinus : Z := 11.
Definition BtnLeft : Z := 12.
Definition BtnUp : Z := 13.
Definition BtnRight : Z := 14.
Definition BtnDown : Z := 15.

(** What a pass through the loop of a screen sees. *)
Record frame := {
  fr_running : bool;                   (* appletMainLoop *)
  fr_down : Z;                         (* the buttons that went down *)
  fr_stick : Z * Z;
  fr_now : Z;                          (* nanoseconds *)
  fr_touch : option (list (Z * Z));    (* None: no state of the touch screen *)
}.
Record kbd := {
  kb_buf : bytes;
  kb_len : Z;
  kb_sel : nat;                        (* g_sel *)
  kb_prev_tc : Z;
  kb_stick_last : Z;
}.
Definition set_text (b : bytes) (n : Z) (k : kbd) : kbd :=
  {| kb_buf := b; kb_len := n; kb_sel := kb_sel k; kb_prev_tc := kb_prev_tc k; kb_stick_last := kb_stick_last k |}.
Definition set_sel (v : nat) (k : kbd) : kbd :=
  {| kb_buf := kb_buf k; kb_len := kb_len k; kb_sel := v; kb_prev_tc := kb_prev_tc k; kb_stick_last := kb_stick_last k |}.
Definition set_prev_tc (v : Z) (k : kbd) : kbd :=
  {| kb_buf := kb_buf k; kb_len := kb_len k; kb_sel := kb_sel k; kb_prev_tc := v; kb_stick_last := kb_stick_last k |}.
Definition set_stick_last (v : Z) (k : kbd) : kbd :=
  {| kb_buf := kb_buf k; kb_len := kb_len k; kb_sel := kb_sel k; kb_prev_tc := kb_prev_tc k; kb_stick_last := v |}.

(** The three things a key does; [Some out]: the text is accepted. *)
Definition accept (outsz : Z) : M kbd (option bytes) :=
  let* k := gets id in
  if 0 <? kb_len k then
    let* s := mem (mem_get (kb_buf k) 0 (kb_len k)) in
    let* out := mem (mem_put (replicate (Z.to_nat outsz) 0) 0 (s ++ [0])) in
    ret (Some (cstring out))
  else ret None.
Definition backspace : M kbd unit :=
  let* k := gets id in
  if 0 <? kb_len k then
    let* buf := mem (mem_put (kb_buf k) (kb_len k - 1) [0]) in
    modify (set_text buf (kb_len k - 1))
  else ret tt.
Definition type_char (outsz v : Z) : M kbd unit :=
  let* k := gets id in
  if kb_len k <? outsz - 1 then
    let* buf := mem (mem_put (kb_buf k) (kb_len k) [v; 0]) in
    modify (set_text buf (kb_len k + 1))
  else ret tt.
Definition press (outsz : Z) (i : nat) : M kbd (option bytes) :=
  let* key := mem (g_keys !! i) in
  if k_val key =? KEY_OK then accept outsz
  else if k_val key =? KEY_BS then backspace ;;; ret None
  else type_char outsz (k_val key) ;;; ret None.

Definition move (go : bool) (dx dy : Z) : M kbd unit :=
  if go then modify (fun k => set_sel (find_key_dir (kb_sel k) dx dy) k) else ret tt.
Definition STICK_D : Z := 120000000.
Definition stick (fr : frame) : M kbd unit :=
  let '(x, y) := fr_stick fr in
  let* k := gets id in
  if STICK_D <? u64 (fr_now fr - kb_stick_last k) then
    move (20000 <? x) 1 0 ;;;
    move (x <? -20000) (-1) 0 ;;;
    move (20000 <? y) 0 (-1) ;;;
    move (y <? -20000) 0 1 ;;;
    (if (20000 <? x) || (x <? -20000) || (20000 <? y) || (y <? -20000) then modify (set_stick_last (fr_now fr)) else ret tt)
  else ret tt.
Definition touch (outsz : Z) (fr : frame) : M kbd (option bytes) :=
  match fr_touch fr with
  | None => ret None
  | Some ts =>
      let* k := gets id in
      modify (set_prev_tc (zlen ts)) ;;;
      match ts with
      | (x, y) :: _ =>
          if kb_prev_tc k =? 0 then
            match key_at x y with
            | Some ki => modify (set_sel ki) ;;; press outsz ki
            | None => ret None
            end
          else ret None
      | [] => ret None
      end
  end.
(** A pass through the loop: [None], it goes on; [Some None], cancelled; [Some (Some s)], the
    text is [s]. *)
Definition keyboard_frame (outsz : Z) (fr : frame) : M kbd (option (option bytes)) :=
  let down := fr_down fr in
  move (button down BtnRight) 1 0 ;;;
  move (button down BtnLeft) (-1) 0 ;;;
  move (button down BtnDown) 0 1 ;;;
  move (button down BtnUp) 0 (-1) ;;;
  stick fr ;;;
  let* k := gets id in
  let* a := if button down BtnA then press outsz (kb_sel k) else ret None in
  match a with
  | Some s => ret (Some (Some s))
  | None =>
      let* t := touch outsz fr in
      match t with
      | Some s => ret (Some (Some s))
      | None =>
          (if button down BtnB then backspace else ret tt) ;;;
          let* p := if button down BtnPlus then accept outsz else ret None in
          match p with
          | Some s => ret (Some (Some s))
          | None => ret (if button down BtnMinus then Some None else None)
          end
      end
  end.
Definition keyboard_start (prefill : bytes) (outsz : Z) : option kbd :=
  let s := take (Z.to_nat (outsz - 1)) prefill in
  let buf := replicate (Z.to_nat STR_MAX) 0 in
  b ← (if bool_decide (prefill = []) then Some buf else mem_put buf 0 (s ++ [0]));
  Some {| kb_buf := b; kb_len := zlen s; kb_sel := 0; kb_prev_tc := 0; kb_stick_last := 0 |}.

(** *** The screens *)

Inductive hb_event :=
| HbShow (s : option shown)            (* drawn by the menu; None: the variable is not set yet *)
| HbReload (config : option bytes).    (* lanplay.reload was written *)
Record hb := {
  hb_config : option bytes;            (* config.ini *)
  hb_relays : option bytes;            (* relays.txt *)
  hb_ticks : nat;
  hb_out : list hb_event;
}.
Definition set_config (v : option bytes) (h : hb) : hb := {| hb_config := v; hb_relays := hb_relays h; hb_ticks := hb_ticks h; hb_out := hb_out h |}.
Definition set_relays (v : option bytes) (h : hb) : hb := {| hb_config := hb_config h; hb_relays := v; hb_ticks := hb_ticks h; hb_out := hb_out h |}.
Definition hb_say (e : hb_event) (h : hb) : hb := {| hb_config := hb_config h; hb_relays := hb_relays h; hb_ticks := hb_ticks h; hb_out := hb_out h ++ [e] |}.

Class HbSys := {
  hb_frame : nat -> frame;
  hb_writable : nat -> bool;           (* a file could be opened for writing *)
  hb_status : nat -> option bytes;     (* lanplay.status *)
  hb_stack : nat -> nat -> Z;          (* the bytes of a local variable *)
}.

Section code.
Context `{HbSys}.
Abbreviation B := (M hb).

Definition hb_ask {A} (f : nat -> A) : B A :=
  fun h => Ok (f (hb_ticks h)) {| hb_config := hb_config h; hb_relays := hb_relays h; hb_ticks := S (hb_ticks h); hb_out := hb_out h |}.

Definition load_list : B RelayList :=
  let* junk := hb_ask hb_stack in
  let* h := gets id in
  mem (relaylist_load (hb_relays h) (stack_list junk)).
Definition save_relay (addr : bytes) : B Z :=
  match normalize_relay_for_save addr 128 with
  | None | Some [] => ret (-1)
  | Some normalized =>
      let* rl := load_list in
      let* rl := mem (relaylist_add rl normalized) in
      let* w := hb_ask hb_writable in
      let* h := gets id in
      let* file := mem (relaylist_save rl (hb_relays h) w) in
      modify (set_relays file) ;;;
      let* h := gets id in
      let lines := match hb_config h with Some f => read_lines (Z.to_nat (MAX_CFG_LINES - 1)) f | None => [] end in
      let* w := hb_ask hb_writable in
      if w : bool then modify (set_config (Some (concat (save_lines lines normalized)))) ;;; ret 0 else ret (-1)
  end.
Definition trigger_reload : B unit :=
  let* w := hb_ask hb_writable in
  if w : bool then modify (fun h => hb_say (HbReload (hb_config h)) h) else ret tt.

Fixpoint keyboard_loop (turns : nat) (outsz : Z) (k : kbd) : B (option (option bytes)) :=
  match turns with
  | O => ret None
  | S turns =>
      let* fr := hb_ask hb_frame in
      if negb (fr_running fr) then ret (Some None)
      else
        match keyboard_frame outsz fr k with
        | Ok (Some r) _ => ret (Some r)
        | Ok None k => keyboard_loop turns outsz k
        | Stop e => fun _ => Stop e
        end
  end.
(** [Some (Some s)]: the text [s] was entered. *)
Definition keyboard_screen (turns : nat) (prefill : bytes) (outsz : Z) : B (option (option bytes)) :=
  let* k := mem (keyboard_start prefill outsz) in
  keyboard_loop turns outsz k.

Definition inside (t : Z * Z) (x y w h : Z) : bool := (x <=? t.1) && (t.1 <? x + w) && (y <=? t.2) && (t.2 <? y + h).

(** The menu: 0 to leave, 1 for the list, 2 for the keyboard. *)
Definition menu_frame (fr : frame) : option Z :=
  let bw := 280 in let bh := 80 in let gap := 30 in
  let bx := (FB_W - bw * 3 - gap * 2) / 2 in
  let down := fr_down fr in
  if button down BtnA then Some 1
  else if button down BtnX then Some 2
  else if button down BtnB || button down BtnPlus then Some 0
  else
    match fr_touch fr with
    | Some (t :: _) =>
        if inside t bx 340 bw bh then Some 1
        else if inside t (bx + bw + gap) 340 bw bh then Some 2
        else if inside t (bx + 2 * (bw + gap)) 340 bw bh then Some 0
        else None
    | _ => None
    end.
Fixpoint menu_loop (turns : nat) (status : option SysStatus) (last_update : Z) : B (option Z) :=
  match turns with
  | O => ret None
  | S turns =>
      let* fr := hb_ask hb_frame in
      if negb (fr_running fr) then ret (Some 0)
      else
        let* file := hb_ask hb_status in
        let '(status, last_update) :=
          if 1000000000 <? u64 (fr_now fr - last_update) then (Some (read_status file), fr_now fr) else (status, last_update) in
        modify (hb_say (HbShow (menu_status <$> status))) ;;;
        match menu_frame fr with
        | Some r => ret (Some r)
        | None => menu_loop turns status last_update
        end
  end.
Definition menu_screen (turns : nat) : B (option Z) := menu_loop turns None 0.

Definition LIST_ITEM_H : Z := 68.
Definition LIST_TOP : Z := 110.
Definition LIST_LEFT : Z := 80.
Definition LIST_W : Z := FB_W - 160.
Definition LIST_VISIBLE : Z := 7.

(** What is chosen, and what the screen returns. *)
Inductive choice := ChPicked (sel : Z) | ChKeyboard | ChBack.
Inductive list_result := LrPicked (out : bytes) | LrKeyboard | LrBack.
(** [rl->entries[sel]] *)
Definition entry_at (rl : RelayList) (sel : Z) : option bytes :=
  if 0 <=? sel then entry_str rl (Z.to_nat sel) else None.
Definition clamp_scroll (sel scroll : Z) : Z :=
  let scroll := if sel <? scroll then sel else scroll in
  let scroll := if scroll + LIST_VISIBLE <=? sel then sel - LIST_VISIBLE + 1 else scroll in
  if scroll <? 0 then 0 else scroll.
(** The rows, from [vi] on: the choice or the row that is selected then. *)
Fixpoint tap_rows (n : nat) (rl : RelayList) (t : Z * Z) (vi scroll sel : Z) : choice + Z :=
  match n with
  | O => inr sel
  | S n =>
      let idx := scroll + vi in
      if rl_count rl <=? idx then inr sel
      else if inside t LIST_LEFT (LIST_TOP + vi * (LIST_ITEM_H + 4)) LIST_W LIST_ITEM_H then
        if idx =? sel then inl (ChPicked sel) else tap_rows n rl t (vi + 1) scroll idx
      else tap_rows n rl t (vi + 1) scroll sel
  end.
Definition list_frame (rl : RelayList) (fr : frame) (scroll sel : Z) : choice + Z :=
  let down := fr_down fr in
  let sel := if button down BtnDown && (sel <? rl_count rl - 1) then sel + 1 else sel in
  let sel := if button down BtnUp && (0 <? sel) then sel - 1 else sel in
  if (button down BtnA || button down BtnPlus) && (0 <? rl_count rl) then inl (ChPicked sel)
  else if button down BtnY then inl ChKeyboard
  else if button down BtnB || button down BtnMinus then inl ChBack
  else
    match fr_touch fr with
    | Some (t :: _) =>
        match tap_rows (Z.to_nat LIST_VISIBLE) rl t 0 scroll sel with
        | inl c => inl c
        | inr sel =>
            let bot := FB_H - 90 in
            let bw := 280 in let bh := 60 in let gap := 30 in
            let bx := (FB_W - bw * 3 - gap * 2) / 2 in
            if inside t bx bot bw bh && (0 <? rl_count rl) then inl (ChPicked sel)
            else if inside t (bx + bw + gap) bot bw bh then inl ChKeyboard
            else if inside t (bx + 2 * (bw + gap)) bot bw bh then inl ChBack
            else inr sel
        end
    | _ => inr sel
    end.
Fixpoint list_loop (turns : nat) (rl : RelayList) (outsz scroll sel : Z) : B (option list_result) :=
  match turns with
  | O => ret None
  | S turns =>
      let* fr := hb_ask hb_frame in
      if negb (fr_running fr) then ret (Some LrBack)
      else
        let scroll := clamp_scroll sel scroll in
        match list_frame rl fr scroll sel with
        | inl (ChPicked sel) =>
            let* entry := mem (entry_at rl sel) in
            ret (Some (LrPicked (take (Z.to_nat (outsz - 1)) entry)))
        | inl ChKeyboard => ret (Some LrKeyboard)
        | inl ChBack => ret (Some LrBack)
        | inr sel => list_loop turns rl outsz scroll sel
        end
  end.
Definition list_screen (turns : nat) (rl : RelayList) (current : bytes) (outsz : Z) : B (option list_result) :=
  let* found := mem (if bool_decide (current = []) then Some None else find_entry rl current 0 (Z.to_nat (rl_count rl))) in
  let sel := match found with Some i => Z.of_nat i | None => 0 end in
  list_loop turns rl outsz 0 sel.

(** Until a button or a touch. *)
Fixpoint result_screen (turns : nat) : B (option unit) :=
  match turns with
  | O => ret None
  | S turns =>
      let* fr := hb_ask hb_frame in
      if negb (fr_running fr) then ret (Some tt)
      else if negb (fr_down fr =? 0) then ret (Some tt)
      else match fr_touch fr with Some (_ :: _) => ret (Some tt) | _ => result_screen turns end
  end.

(** Saving what was chosen; [None]: still on the screen that says it failed. *)
Definition commit (turns : nat) (relay : bytes) : B (option unit) :=
  let* rc := save_relay relay in
  if rc =? 0 then trigger_reload ;;; ret (Some tt) else result_screen turns.
Definition enter (turns : nat) (prefill : bytes) : B (option unit) :=
  let* r := keyboard_screen turns prefill STR_MAX in
  match r with
  | None => ret None
  | Some (Some relay) => commit turns relay
  | Some None => ret (Some tt)
  end.
(** The loop of [main], at most [passes] times. *)
Fixpoint app_loop (passes turns : nat) : B (option unit) :=
  match passes with
  | O => ret None
  | S passes =>
      let* fr := hb_ask hb_frame in
      if negb (fr_running fr) then ret (Some tt)
      else
        let* h := gets id in
        let current := (read_relay (hb_config h) STR_MAX).2 in
        let* rl := load_list in
        let* action := menu_screen turns in
        match action with
        | None => ret None
        | Some action =>
            if action =? 0 then ret (Some tt)
            else
              let* r :=
                (if action =? 1 then
                   let* c := list_screen turns rl current STR_MAX in
                   match c with
                   | None => ret None
                   | Some (LrPicked relay) => commit turns relay
                   | Some LrKeyboard => enter turns current
                   | Some LrBack => ret (Some tt)
                   end
                 else enter turns current) in
              match r with None => ret None | Some _ => app_loop passes turns end
        end
  end.
End code.

(** ** The keyboard *)

(** A character that a key types. *)
Definition typed (c : Z) : Prop := c ∈ ROW_DIGITS \/ c = 46 \/ c = 58.
(** The buffer holds the text [s], whose characters were there at the start or were typed. *)
Record kbd_ok (prefill : bytes) (k : kbd) (s : bytes) : Prop := {
  ko_buf : exists rest, kb_buf k = s ++ 0 :: rest;
  ko_size : zlen (kb_buf k) = 256;
  ko_len : kb_len k = zlen s;
  ko_chars : Forall (fun c => c <> 0 /\ (c ∈ prefill \/ typed c)) s;
  ko_sel : (kb_sel k < 14)%nat;
}.
Lemma key_values : Forall (fun k => k_val k = KEY_OK \/ k_val k = KEY_BS \/ (k_val k <> 0 /\ typed (k_val k))) g_keys.
Proof.
  assert (Hc : forallb (fun k => (k_val k =? KEY_OK) || (k_val k =? KEY_BS) || (negb (k_val k =? 0) && (bool_decide (k_val k ∈ ROW_DIGITS) || (k_val k =? 46) || (k_val k =? 58)))) g_keys = true)
    by (vm_compute; reflexivity).
  apply Forall_forall. intros k Hk. rewrite forallb_forall in Hc. specialize (Hc k ltac:(by apply list_elem_of_In)). unfold typed.
  apply orb_true_iff in Hc as [Hc|Hc]; [apply orb_true_iff in Hc as [Hc|Hc]; apply Z.eqb_eq in Hc; auto|]. right. right.
  apply andb_true_iff in Hc as [Hn Hc]. split; [by apply negb_true_iff, Z.eqb_neq in Hn|].
  apply orb_true_iff in Hc as [Hc|Hc]; [apply orb_true_iff in Hc as [Hc|Hc]|]; [left; by apply bool_decide_eq_true in Hc|right; left; lia|right; right; lia].
Qed.
Lemma find_key_range from dx dy : (from < 14)%nat -> (find_key_dir from dx dy < 14)%nat.
Proof.
  intros Hf. unfold find_key_dir.
  assert (Hg : forall l best, Forall (fun ik : nat * Key => (ik.1 < 14)%nat) l -> (forall i d, best = Some (i, d) -> (i < 14)%nat) ->
    forall i d, foldl (nearer from dx dy) best l = Some (i, d) -> (i < 14)%nat).
  { induction l as [|ik l IH]; intros best Hl Hb; cbn; [done|]. apply Forall_cons in Hl as [Hik Hl]. apply IH; [done|]. intros i d.
    unfold nearer. repeat case_match; intros ?; simplify_eq; eauto. }
  specialize (Hg (imap pair g_keys) None). destruct (foldl _ _ _) as [[i d]|]; [|done]. eapply Hg; [|done|done].
  apply Forall_forall. intros [j k] Hj. apply list_elem_of_lookup in Hj as [n Hn]. rewrite list_lookup_imap in Hn.
  destruct (g_keys !! n) as [k'|] eqn:En; [|done]. cbn in Hn. simplify_eq. apply lookup_lt_Some in En. exact En.
Qed.

Section edits.
Context (prefill : bytes).

(** The steps of a pass, on the text. *)
Definition edited (s : bytes) (r : option bytes) (k : kbd) : Prop :=
  exists s', kbd_ok prefill k s' /\ match r with Some t => t = s' /\ s' <> [] | None => True end.

Lemma move_run go dx dy k s : kbd_ok prefill k s -> post (move go dx dy) (fun _ k' => kbd_ok prefill k' s) k.
Proof.
  intros [H1 H2 H3 H4 H5]. unfold move. destruct go; [|by apply post_ret]. apply post_modify. constructor; try done. by apply find_key_range.
Qed.
Lemma accept_run k s : kbd_ok prefill k s -> post (accept STR_MAX) (fun r k' => k' = k /\ match r with Some t => t = s /\ s <> [] | None => True end) k.
Proof.
  intros [[rest H1] H2 H3 H4 H5]. unfold accept. apply post_bind, post_gets. unfold id. destruct (Z.ltb_spec 0 (kb_len k)); [|by apply post_ret].
  assert (Hl : zlen s < 256) by (rewrite H1, zlen_app, zlen_cons in H2; pose proof (zlen_nonneg rest); lia).
  apply post_bind. eapply post_mem; [apply (mem_get_Some _ 0 (kb_len k)); lia|]. apply post_bind.
  assert (Et : take (Z.to_nat (kb_len k)) (drop (Z.to_nat 0) (kb_buf k)) = s).
  { cbn [drop Z.to_nat]. rewrite H1, H3, to_nat_zlen. apply take_app_length. }
  rewrite Et. eapply post_mem; [apply mem_put_Some; [lia|]|].
  { rewrite zlen_app, zlen_replicate by (unfold STR_MAX; lia). change (zlen [0]) with 1. unfold STR_MAX. lia. }
  apply post_ret. split; [done|]. split; [|intros ->; rewrite zlen_nil in H3; lia]. cbn [take Z.to_nat app]. rewrite <- app_assoc. cbn [app]. apply cstring_terminated.
  eapply Forall_impl; [exact H4|]. by intros c [].
Qed.

Lemma backspace_run k s : kbd_ok prefill k s -> post backspace (fun _ k' => exists s', kbd_ok prefill k' s') k.
Proof.
  intros [[rest H1] H2 H3 H4 H5]. unfold backspace. apply post_bind, post_gets. unfold id. destruct (Z.ltb_spec 0 (kb_len k)).
  2: { apply post_ret. exists s. constructor; eauto. }
  destruct (exists_last (l := s)) as (s' & c & ->); [intros ->; rewrite zlen_nil in H3; lia|]. rewrite zlen_app in H3. change (zlen [c]) with 1 in H3.
  assert (Hl : zlen s' + 2 <= 256) by (rewrite H1, !zlen_app, !zlen_cons, zlen_nil in H2; pose proof (zlen_nonneg rest); lia).
  apply post_bind. eapply post_mem; [apply mem_put_Some; [lia|rewrite H2; change (zlen [0]) with 1; pose proof (zlen_nonneg s'); lia]|]. apply post_modify.
  assert (Eb : take (Z.to_nat (kb_len k - 1)) (kb_buf k) ++ [0] ++ drop (Z.to_nat (kb_len k - 1) + length [0]) (kb_buf k) = s' ++ 0 :: 0 :: rest).
  { replace (Z.to_nat (kb_len k - 1)) with (length s') by (unfold zlen in H3; lia). rewrite H1, <- app_assoc, take_app_length. f_equal. cbn [app]. f_equal.
    rewrite drop_app_ge by (cbn; lia). change (length [0]) with 1%nat. by rewrite Nat.add_comm, Nat.add_sub. }
  rewrite Eb. apply Forall_app in H4 as [H4 _]. exists s'. constructor; cbn; [by eexists| |lia|done|done].
  rewrite H1, <- app_assoc, zlen_app in H2. rewrite zlen_app. cbn [app] in H2. rewrite !zlen_cons in *. lia.
Qed.
Lemma type_run v k s : v <> 0 -> typed v -> kbd_ok prefill k s -> post (type_char STR_MAX v) (fun _ k' => exists s', kbd_ok prefill k' s') k.
Proof.
  intros Hv Ht [[rest H1] H2 H3 H4 H5]. unfold type_char. apply post_bind, post_gets. unfold id. destruct (Z.ltb_spec (kb_len k) (STR_MAX - 1)) as [Hlt|].
  2: { apply post_ret. exists s. constructor; eauto. }
  unfold STR_MAX in Hlt. apply post_bind. eapply post_mem; [apply mem_put_Some; [rewrite H3; apply zlen_nonneg|rewrite H2; change (zlen [v; 0]) with 2; lia]|]. apply post_modify.
  destruct rest as [|x rest]; [rewrite H1, zlen_app, zlen_cons, zlen_nil in H2; lia|].
  assert (Eb : take (Z.to_nat (kb_len k)) (kb_buf k) ++ [v; 0] ++ drop (Z.to_nat (kb_len k) + length [v; 0]) (kb_buf k) = (s ++ [v]) ++ 0 :: rest).
  { rewrite H3, to_nat_zlen, H1, take_app_length, <- app_assoc. f_equal. cbn [app]. do 2 f_equal. rewrite drop_app_ge by (cbn; lia).
    change (length [v; 0]) with 2%nat. by rewrite Nat.add_comm, Nat.add_sub. }
  rewrite Eb. exists (s ++ [v]). constructor; cbn; [by eexists| |rewrite zlen_app; change (zlen [v]) with 1; lia| |done].
  - rewrite H1, zlen_app, !zlen_cons in H2. rewrite !zlen_app, !zlen_cons, zlen_nil. lia.
  - apply Forall_app_2; [done|]. apply Forall_singleton. auto.
Qed.
Lemma press_run i k s : (i < 14)%nat -> kbd_ok prefill k s -> post (press STR_MAX i) (fun r k' => edited s r k') k.
Proof.
  intros Hi Hk. unfold press. destruct (lookup_lt_is_Some_2 g_keys i Hi) as [key Ek]. apply post_bind. eapply post_mem; [exact Ek|].
  assert (Hv := Forall_lookup_1 _ _ _ _ key_values Ek). cbv beta in Hv. destruct (Z.eqb_spec (k_val key) KEY_OK) as [E|E].
  { eapply post_mono; [by apply accept_run|]. intros r k' [-> Hr]. exists s. by split. }
  destruct (Z.eqb_spec (k_val key) KEY_BS) as [E'|E']; apply post_bind.
  - eapply post_mono; [by eapply backspace_run|]. intros [] k' [s' Hs']. apply post_ret. by exists s'.
  - eapply post_mono; [eapply type_run; [tauto..|exact Hk]|]. intros [] k' [s' Hs']. apply post_ret. by exists s'.
Qed.
Lemma stick_run fr k s : kbd_ok prefill k s -> post (stick fr) (fun _ k' => kbd_ok prefill k' s) k.
Proof.
  intros Hk. unfold stick. destruct (fr_stick fr) as [x y]. apply post_bind, post_gets. unfold id. destruct (STICK_D <? _); [|by apply post_ret].
  do 4 (apply post_bind; eapply post_mono; [by apply move_run|]; clear Hk; clear k; intros [] k Hk; cbv beta in Hk).
  destruct (_ || _ || _ || _); [|by apply post_ret]. apply post_modify. destruct Hk as [H1 H2 H3 H4 H5]. by constructor.
Qed.
Lemma key_at_range x y i : key_at x y = Some i -> (i < 14)%nat.
Proof.
  unfold key_at. destruct (list_find _ _) as [[j k]|] eqn:E; [|done]. intros [= <-]. apply list_find_Some in E as (E & _). by apply lookup_lt_Some in E.
Qed.
Lemma touch_run fr k s : kbd_ok prefill k s -> post (touch STR_MAX fr) (fun r k' => edited s r k') k.
Proof.
  intros Hk. unfold touch. destruct (fr_touch fr) as [ts|]; [|apply post_ret; by exists s]. apply post_bind, post_gets. unfold id. apply post_bind, post_modify.
  assert (Hk' : kbd_ok prefill (set_prev_tc (zlen ts) k) s) by (destruct Hk as [H1 H2 H3 H4 H5]; by constructor).
  destruct ts as [|[x y] ts]; [apply post_ret; by exists s|]. destruct (_ =? 0); [|apply post_ret; by exists s].
  destruct (key_at x y) as [ki|] eqn:E; [|apply post_ret; by exists s]. apply post_bind, post_modify. apply press_run; [by eapply key_at_range|].
  apply key_at_range in E. destruct Hk' as [H1 H2 H3 H4 H5]. by constructor.
Qed.
Lemma keyboard_frame_run fr k s :
  kbd_ok prefill k s ->
  post (keyboard_frame STR_MAX fr) (fun r k' => exists s', kbd_ok prefill k' s' /\ match r with Some (Some t) => t = s' /\ s' <> [] | _ => True end) k.
Proof.
  intros Hk. unfold keyboard_frame. do 4 (apply post_bind; eapply post_mono; [by apply move_run|]; clear Hk; clear k; intros [] k Hk; cbv beta in Hk).
  apply post_bind. eapply post_mono; [by apply stick_run|]. clear Hk. clear k. intros [] k Hk. cbv beta in Hk. apply post_bind, post_gets. unfold id. apply post_bind.
  apply (post_mono _ (fun r k' => edited s r k')).
  { destruct (button _ _); [apply press_run; [apply Hk|done]|apply post_ret; by exists s]. }
  clear Hk. intros [t|] k1 (s1 & Hk & Ht); [apply post_ret; eauto|]. apply post_bind. eapply post_mono; [by apply touch_run|]. clear Hk.
  intros [t|] k2 (s2 & Hk & Ht2); [apply post_ret; eauto|]. apply post_bind. apply (post_mono _ (fun _ k' => exists s', kbd_ok prefill k' s')).
  { destruct (button _ _); [by eapply backspace_run|apply post_ret; by exists s2]. }
  clear Hk. intros [] k3 [s3 Hk]. apply post_bind. apply (post_mono _ (fun r k' => k' = k3 /\ match r with Some t => t = s3 /\ s3 <> [] | None => True end)).
  { destruct (button _ _); [by apply accept_run|by apply post_ret]. }
  intros [t|] k4 [-> Ht4]; apply post_ret; [eauto|]. exists s3. split; [done|]. by destruct (button _ _).
Qed.
End edits.

(** The keys do not overlap, and the cross reaches each from each. *)
Definition apart (a b : Key) : bool :=
  (k_x a + k_w a <=? k_x b) || (k_x b + k_w b <=? k_x a) || (k_y a + k_h a <=? k_y b) || (k_y b + k_h b <=? k_y a).
Lemma keys_apart i j a b : g_keys !! i = Some a -> g_keys !! j = Some b -> i <> j -> apart a b = true.
Proof.
  assert (Hc : forallb (fun x : nat * Key => forallb (fun y : nat * Key => bool_decide (x.1 = y.1) || apart x.2 y.2) (imap pair g_keys)) (imap pair g_keys) = true)
    by (vm_compute; reflexivity).
  intros Ha Hb Hn. rewrite forallb_forall in Hc. specialize (Hc (i, a)). rewrite forallb_forall in Hc.
  assert (Hin : forall n k, g_keys !! n = Some k -> In (n, k) (imap pair g_keys)).
  { intros n k Hk. apply list_elem_of_In, list_elem_of_lookup. exists n. by rewrite list_lookup_imap, Hk. }
  specialize (Hc (Hin _ _ Ha) (j, b) (Hin _ _ Hb)). cbn in Hc. by rewrite bool_decide_false in Hc.
Qed.
Lemma key_at_hit x y i k : g_keys !! i = Some k -> hit x y k = true -> key_at x y = Some i.
Proof.
  intros Hi Hk. unfold key_at. destruct (list_find _ g_keys) as [[j k']|] eqn:E.
  - apply list_find_Some in E as (Hj & Hk' & _). destruct (decide (i = j)) as [->|Hn]; [done|]. pose proof (keys_apart _ _ _ _ Hi Hj Hn) as Ha.
    unfold hit, apart in *. rewrite !andb_true_iff, !Z.leb_le, !Z.ltb_lt in *. rewrite !orb_true_iff, !Z.leb_le in Ha. lia.
  - apply list_find_None in E. rewrite Forall_forall in E. exfalso. apply (E k); [|done]. by eapply list_elem_of_lookup_2.
Qed.
Definition cross : list (Z * Z) := [(1, 0); (-1, 0); (0, 1); (0, -1)].
Definition walk (from : nat) (path : list (Z * Z)) : nat := foldl (fun i d => find_key_dir i d.1 d.2) from path.
Definition reaches (from i : nat) : Prop := exists path, Forall (fun d => d ∈ cross) path /\ walk from path = i.
(** Where the cross leads from each key. *)
Definition cross_table : list (list nat) := Eval vm_compute in (fun x => (fun d => find_key_dir x d.1 d.2) <$> cross) <$> seq 0 14.
Lemma cross_table_eq : cross_table = (fun x => (fun d => find_key_dir x d.1 d.2) <$> cross) <$> seq 0 14.
Proof. vm_compute. reflexivity. Qed.
(** The keys that can be reached in [n] more steps. *)
Fixpoint closure (n : nat) (l : list nat) : list nat :=
  match n with O => l | S n => closure n (remove_dups (l ++ (x ← l; default [] (cross_table !! x)))) end.
Lemma closure_reaches n from l : Forall (reaches from) l -> Forall (reaches from) (closure n l).
Proof.
  revert l. induction n as [|n IH]; intros l Hl; cbn [closure]; [done|]. apply IH. apply Forall_forall. intros i Hi. rewrite elem_of_remove_dups, elem_of_app in Hi.
  rewrite Forall_forall in Hl. destruct Hi as [Hi|Hi]; [by apply Hl|]. apply list_elem_of_bind in Hi as (x & Hi & Hx).
  destruct (cross_table !! x) as [t|] eqn:Et; [|by apply not_elem_of_nil in Hi]. rewrite cross_table_eq in Et. rewrite list_lookup_fmap in Et. apply fmap_Some in Et as (x' & Ex & ->).
  apply lookup_seq in Ex as [-> _]. rewrite Nat.add_0_l in Hi. change (default [] (Some ?l)) with l in Hi. apply list_elem_of_fmap in Hi as (d & -> & Hd).
  destruct (Hl _ Hx) as (path & Hp & <-). exists (path ++ [d]). split; [apply Forall_app_2; [done|]; by apply Forall_singleton|]. unfold walk. by rewrite foldl_app.
Qed.
Lemma keys_reached i j : (i < 14)%nat -> (j < 14)%nat -> reaches i j.
Proof.
  intros Hi Hj. assert (Hc : forallb (fun i => let c := closure 12 [i] in forallb (fun j => existsb (Nat.eqb j) c) (seq 0 14)) (seq 0 14) = true) by (vm_compute; reflexivity).
  rewrite forallb_forall in Hc. specialize (Hc i ltac:(apply in_seq; lia)). cbv zeta in Hc. rewrite forallb_forall in Hc. specialize (Hc j ltac:(apply in_seq; lia)).
  apply existsb_exists in Hc as (k & Hc & Ek). apply Nat.eqb_eq in Ek as <-. apply list_elem_of_In in Hc. eapply Forall_forall in Hc; [exact Hc|].
  apply closure_reaches, Forall_singleton. exists []. by split.
Qed.

(** ** The list of relays *)

(** A row of an array that holds a string; the first rows of an array of 32. *)
Definition holds (r e : bytes) : Prop := is_cstr e /\ exists rest, r = e ++ 0 :: rest.
Definition rows_show (w : nat) (rows es : list bytes) : Prop :=
  length rows = 32%nat /\ Forall (fun r => length r = w) rows /\ exists r1 r2, rows = r1 ++ r2 /\ Forall2 holds r1 es.
(** The list shows these addresses and names. *)
Definition rl_shows (rl : RelayList) (l : list (bytes * bytes)) : Prop :=
  rows_show 64 (rl_entries rl) (l.*1) /\ rows_show 48 (rl_labels rl) (l.*2) /\ rl_count rl = zlen l.

(** A variable of the type, whatever it holds. *)
Definition rl_shape (rl : RelayList) : Prop :=
  length (rl_entries rl) = 32%nat /\ Forall (fun r => length r = 64%nat) (rl_entries rl) /\
  length (rl_labels rl) = 32%nat /\ Forall (fun r => length r = 48%nat) (rl_labels rl).
Lemma stack_shape m : rl_shape (stack_list m).
Proof. split_and!; cbn [rl_entries rl_labels stack_list]; rewrite ?length_fmap; [done| |done|]; apply Forall_fmap, Forall_forall; intros i _; reflexivity. Qed.
Lemma shows_shape rl l : rl_shows rl l -> rl_shape rl.
Proof. intros ((H1 & H2 & _) & (H3 & H4 & _) & _). by split_and!. Qed.
Lemma row_width w rows i : Forall (fun r => length r = w) rows -> (i < length rows)%nat -> rows !! i = Some (row rows i) /\ length (row rows i) = w.
Proof. intros Hw Hi. destruct (lookup_lt_is_Some_2 rows i Hi) as [r Hr]. unfold row. rewrite Hr. split; [done|]. by apply (Forall_lookup_1 _ _ _ _ Hw Hr). Qed.
(** The result of changing a row of a list with this shape. *)
Definition put_entry (i : nat) (r : bytes) (rl : RelayList) : RelayList :=
  {| rl_entries := <[i := r]> (rl_entries rl); rl_labels := rl_labels rl; rl_count := rl_count rl |}.
Definition put_label (i : nat) (r : bytes) (rl : RelayList) : RelayList :=
  {| rl_entries := rl_entries rl; rl_labels := <[i := r]> (rl_labels rl); rl_count := rl_count rl |}.
Lemma put_entry_shape i r rl : rl_shape rl -> length r = 64%nat -> rl_shape (put_entry i r rl).
Proof. intros (H1 & H2 & H3 & H4) Hr. split_and!; cbn; [by rewrite length_insert|by apply Forall_insert|done|done]. Qed.
Lemma put_label_shape i r rl : rl_shape rl -> length r = 48%nat -> rl_shape (put_label i r rl).
Proof. intros (H1 & H2 & H3 & H4) Hr. split_and!; cbn; [done|done|by rewrite length_insert|by apply Forall_insert]. Qed.
Lemma strncpy_length r v n : (n <= length r)%nat -> length (strncpy r v (Z.of_nat n)) = length r.
Proof. intros Hl. unfold strncpy. rewrite Nat2Z.id, length_app, length_take, length_app, length_replicate, length_drop. lia. Qed.
Lemma copy_row_Some r v n : (n <= length r)%nat -> copy_row v (Z.of_nat n) r = Some (strncpy r v (Z.of_nat n)).
Proof. intros Hn. unfold copy_row. by rewrite (proj2 (Z.leb_le _ _)) by (unfold zlen; lia). Qed.
Lemma end_row_Some r n : (n < length r)%nat -> end_row (Z.of_nat n) r = Some (<[n := 0]> r).
Proof.
  intros Hn. unfold end_row. rewrite mem_put_Some by (unfold zlen; cbn; lia). rewrite Nat2Z.id. cbn [length app]. by rewrite (insert_take_drop r n 0 Hn), Nat.add_1_r.
Qed.
Lemma set_entry_Some rl i v :
  rl_shape rl -> (i < 32)%nat ->
  let r := strncpy (row (rl_entries rl) i) v 63 in set_entry i v rl = Some (put_entry i r rl) /\ length r = 64%nat /\ rl_shape (put_entry i r rl).
Proof.
  intros Hs Hi r. pose proof Hs as (H1 & H2 & _). destruct (row_width 64 _ i H2 ltac:(lia)) as [Hr Hl].
  assert (Hl' : length r = 64%nat) by (unfold r; rewrite (strncpy_length _ _ 63); lia). split_and!; [|done|by apply put_entry_shape].
  unfold set_entry, upd_row. rewrite Hr. cbn [mbind option_bind]. by rewrite (copy_row_Some _ _ 63) by lia.
Qed.
Lemma set_label_Some rl i f r :
  rl_shape rl -> (i < 32)%nat -> f (row (rl_labels rl) i) = Some r -> length r = 48%nat -> set_label i f rl = Some (put_label i r rl) /\ rl_shape (put_label i r rl).
Proof.
  intros Hs Hi Hf Hr. pose proof Hs as (_ & _ & H1 & H2). destruct (row_width 48 _ i H2 ltac:(lia)) as [Hrow _]. split; [|by apply put_label_shape].
  unfold set_label, upd_row. rewrite Hrow. cbn [mbind option_bind]. by rewrite Hf.
Qed.
Lemma label_width rl i : rl_shape rl -> (i < 32)%nat -> length (row (rl_labels rl) i) = 48%nat.
Proof. intros (_ & _ & H1 & H2) Hi. by apply row_width; [|lia]. Qed.

(** The three ways a name is set. *)
Lemma set_label_copy rl i v :
  rl_shape rl -> (i < 32)%nat -> let r := strncpy (row (rl_labels rl) i) v 47 in
  set_label i (copy_row v 47) rl = Some (put_label i r rl) /\ length r = 48%nat /\ rl_shape (put_label i r rl).
Proof.
  intros Hs Hi r. pose proof (label_width _ i Hs Hi) as Lw. assert (Lr : length r = 48%nat) by (unfold r; rewrite (strncpy_length _ _ 47); lia).
  destruct (set_label_Some rl i (copy_row v 47) r Hs Hi) as [-> ?]; [apply (copy_row_Some _ _ 47); lia|done|by split_and!].
Qed.
Lemma set_label_end rl i :
  rl_shape rl -> (i < 32)%nat -> let r := <[0%nat := 0]> (row (rl_labels rl) i) in
  set_label i (end_row 0) rl = Some (put_label i r rl) /\ length r = 48%nat /\ rl_shape (put_label i r rl).
Proof.
  intros Hs Hi r. pose proof (label_width _ i Hs Hi) as Lw. assert (Lr : length r = 48%nat) by (unfold r; by rewrite length_insert).
  destruct (set_label_Some rl i (end_row 0) r Hs Hi) as [-> ?]; [apply (end_row_Some _ 0); lia|done|by split_and!].
Qed.
Lemma set_label_both rl i v :
  rl_shape rl -> (i < 32)%nat -> let r := <[47%nat := 0]> (strncpy (row (rl_labels rl) i) v 47) in
  set_label i (fun r => r ← copy_row v 47 r; end_row 47 r) rl = Some (put_label i r rl) /\ length r = 48%nat /\ rl_shape (put_label i r rl).
Proof.
  intros Hs Hi r. pose proof (label_width _ i Hs Hi) as Lw. assert (Lr : length r = 48%nat) by (unfold r; rewrite length_insert, (strncpy_length _ _ 47); lia).
  destruct (set_label_Some rl i (fun r => r ← copy_row v 47 r; end_row 47 r) r Hs Hi) as [-> ?]; [|done|by split_and!].
  rewrite (copy_row_Some _ _ 47) by lia. cbn [mbind option_bind]. apply (end_row_Some _ 47). rewrite strncpy_length; lia.
Qed.

Lemma rows_length w rows es : rows_show w rows es -> (length es <= 32)%nat.
Proof. intros (Hl & _ & r1 & r2 & -> & H2). rewrite length_app in Hl. apply Forall2_length in H2. lia. Qed.
Lemma rows_row w rows es i e : rows_show w rows es -> es !! i = Some e -> is_cstr e /\ exists rest, concat (drop i rows) = e ++ 0 :: rest.
Proof.
  intros (_ & _ & r1 & r2 & -> & H2) Hi. destruct (Forall2_lookup_r _ _ _ _ _ H2 Hi) as (r & Hr & He & rest & ->). split; [done|].
  rewrite drop_app_le by (apply lookup_lt_Some in Hr; lia). rewrite (drop_S _ _ _ Hr). cbn. rewrite <- !app_assoc. cbn. by eexists.
Qed.
Lemma rows_width w rows es i : rows_show w rows es -> (i < 32)%nat -> length (row rows i) = w.
Proof.
  intros (Hl & Hw & _) Hi. destruct (lookup_lt_is_Some_2 rows i) as [r Hr]; [lia|]. unfold row. rewrite Hr. by apply (Forall_lookup_1 _ _ _ _ Hw Hr).
Qed.
(** A row behind the others is set. *)
Lemma rows_snoc w rows es r e : rows_show w rows es -> (length es < 32)%nat -> holds r e -> length r = w -> rows_show w (<[length es := r]> rows) (es ++ [e]).
Proof.
  intros (Hl & Hw & r1 & r2 & -> & H2) Hes He Hr. pose proof (Forall2_length _ _ _ H2) as E. rewrite <- E. split; [by rewrite length_insert|]. split; [by apply Forall_insert|].
  rewrite length_app in Hl. destruct r2 as [|x r2]; [cbn in Hl; lia|]. exists (r1 ++ [r]), r2. split.
  - rewrite insert_app_r_alt by lia. by rewrite Nat.sub_diag, <- app_assoc.
  - by apply Forall2_app; [|constructor].
Qed.
(** A row is put in front, and one is taken away or falls off the end. *)
Lemma rows_push w rows es n r e :
  rows_show w rows es -> (n < 32)%nat -> holds r e -> length r = w ->
  rows_show w (r :: take n rows ++ drop (S n) rows) (e :: take n es ++ drop (S n) es).
Proof.
  intros (Hl & Hw & r1 & r2 & -> & H2) Hn He Hr. split.
  { cbn [length]. rewrite length_app, length_take, length_drop, length_app in *. lia. }
  split; [apply Forall_cons; split; [done|]; apply Forall_app_2; [by apply Forall_take|by apply Forall_drop]|].
  pose proof (Forall2_length _ _ _ H2) as E. destruct (decide (n < length r1)%nat) as [Hlt|Hge].
  - exists (r :: take n r1 ++ drop (S n) r1), r2. rewrite take_app_le, drop_app_le by lia. split; [by cbn; rewrite <- app_assoc|].
    constructor; [done|]. apply Forall2_app; [by apply Forall2_take|by apply Forall2_drop].
  - exists (r :: r1), (take (n - length r1) r2 ++ drop (S n) (r1 ++ r2)). rewrite take_app_ge by lia. split; [by cbn; rewrite <- app_assoc|].
    rewrite (take_ge es), (drop_ge es), app_nil_r by lia. by constructor.
Qed.
Lemma rows_cut w rows es n : rows_show w rows es -> rows_show w rows (take n es).
Proof.
  intros (Hl & Hw & r1 & r2 & -> & H2). split; [done|]. split; [done|]. exists (take n r1), (drop n r1 ++ r2). split; [by rewrite app_assoc, take_drop|by apply Forall2_take].
Qed.

Lemma rows_push_cut w rows es n r e :
  rows_show w rows es -> (n < 32)%nat -> holds r e -> length r = w -> rows_show w (r :: take n rows ++ drop (S n) rows) (e :: take n es).
Proof.
  intros Hs Hn He Hr. pose proof (rows_push _ _ _ n _ _ (rows_cut _ _ _ n Hs) Hn He Hr) as Hp.
  rewrite take_take, Nat.min_id, (drop_ge (take n es)), app_nil_r in Hp; [done|]. rewrite length_take. lia.
Qed.
Lemma empty_row r : (0 < length r)%nat -> holds (<[0%nat := 0]> r) [].
Proof. intros Hr. split; [constructor|]. destruct r as [|x r]; [cbn in Hr; lia|]. by exists r. Qed.

(** [strncpy] into a row. *)
Lemma strncpy_row r v n : is_cstr v -> (length v < n)%nat -> holds (strncpy r v (Z.of_nat n)) v.
Proof.
  intros Hv Hl. split; [done|]. unfold strncpy. rewrite Nat2Z.id. rewrite take_app_ge by lia. destruct (n - length v)%nat as [|m] eqn:E; [lia|].
  destruct n as [|n]; [lia|]. cbn [replicate take]. rewrite <- app_assoc. by eexists.
Qed.
Lemma str_in_terminated e rest : is_cstr e -> str_in (e ++ 0 :: rest) = Some e.
Proof. intros He. unfold str_in. rewrite bool_decide_true by set_solver. by rewrite cstring_terminated. Qed.
Lemma entry_str_run rl l i x : rl_shows rl l -> l !! i = Some x -> entry_str rl i = Some x.1 /\ label_str rl i = Some x.2.
Proof.
  intros (He & Hb & _) Hi. destruct (rows_row _ _ _ i x.1 He) as (Ce & re & Ee); [by rewrite list_lookup_fmap, Hi|].
  destruct (rows_row _ _ _ i x.2 Hb) as (Cb & rb & Eb); [by rewrite list_lookup_fmap, Hi|].
  pose proof (rows_length _ _ _ He) as Hl. rewrite length_fmap in Hl. apply lookup_lt_Some in Hi as Hlt.
  destruct (lookup_lt_is_Some_2 (rl_entries rl) i) as [r Hr]; [destruct He; lia|]. destruct (lookup_lt_is_Some_2 (rl_labels rl) i) as [r' Hr']; [destruct Hb; lia|].
  unfold entry_str, label_str. rewrite Hr, Hr'. cbn [mbind option_bind]. rewrite Ee, Eb, <- !app_assoc. cbn [app]. by rewrite !str_in_terminated.
Qed.

(** The order of use: an address goes to the front with the name it had. *)
Definition promote (l : list (bytes * bytes)) (ip : bytes) : list (bytes * bytes) :=
  match list_find (fun x => x.1 = ip) l with
  | Some (i, (_, b)) => (ip, b) :: take i l ++ drop (S i) l
  | None => (ip, []) :: take 31 l
  end.
(** An address and a name that the file can hold. *)
Definition entry_ok (e : bytes) : Prop :=
  e <> [] /\ is_cstr e /\ (length e <= 62)%nat /\ 10 ∉ e /\ 13 ∉ e /\ 35 ∉ e /\ cut_end is_blank e = e.
Definition name_ok (b : bytes) : Prop := is_cstr b /\ (length b <= 46)%nat /\ 10 ∉ b /\ 13 ∉ b /\ skip_blank b = b.
Definition list_ok (l : list (bytes * bytes)) : Prop := Forall (fun x => entry_ok x.1 /\ name_ok x.2) l.

Lemma find_entry_run rl l ip i n :
  rl_shows rl l -> (i + n = length l)%nat ->
  find_entry rl ip i n = Some ((fun x => (i + x.1)%nat) <$> list_find (fun x => x.1 = ip) (drop i l)).
Proof.
  intros Hs. revert i. induction n as [|n IH]; intros i Hi; cbn [find_entry].
  - by rewrite drop_ge by lia.
  - destruct (lookup_lt_is_Some_2 l i) as [x Hx]; [lia|]. rewrite (drop_S _ _ _ Hx). cbn [list_find]. rewrite (proj1 (entry_str_run _ _ _ _ Hs Hx)). cbn [mbind option_bind].
    case_bool_decide; case_decide; try done; [cbn; by rewrite Nat.add_0_r|]. rewrite IH by lia. destruct (list_find _ _) as [[j y]|]; cbn; [do 2 f_equal; lia|done].
Qed.
Lemma shift_set n (rows : list bytes) r : length rows = 32%nat -> <[0%nat := r]> (take 1 rows ++ take n rows ++ drop (S n) rows) = r :: take n rows ++ drop (S n) rows.
Proof. intros Hl. by destruct rows as [|x rows]. Qed.
Lemma shift_list_Some n rl :
  rl_shape rl -> (n < 32)%nat -> exists rl', shift_list n rl = Some rl' /\ rl_shape rl' /\ rl_count rl' = rl_count rl /\
    (forall r, <[0%nat := r]> (rl_entries rl') = r :: take n (rl_entries rl) ++ drop (S n) (rl_entries rl)) /\
    (forall r, <[0%nat := r]> (rl_labels rl') = r :: take n (rl_labels rl) ++ drop (S n) (rl_labels rl)).
Proof.
  intros (H1 & H2 & H3 & H4) Hn. unfold shift_list, shift_rows. rewrite !(proj2 (Nat.leb_le _ _)) by lia. cbn [mbind option_bind]. eexists. split; [reflexivity|].
  assert (Hl : forall rows : list bytes, length rows = 32%nat -> length (take 1 rows ++ take n rows ++ drop (S n) rows) = 32%nat).
  { intros rows Hr. rewrite !length_app, !length_take, length_drop. lia. }
  split_and!; cbn; [|done|intros r; by apply shift_set..]. split_and!; cbn; [by apply Hl| |by apply Hl|]; (apply Forall_app_2; [by apply Forall_take|]; apply Forall_app_2; [by apply Forall_take|by apply Forall_drop]).
Qed.
Lemma strncpy_entry r ip : is_cstr ip -> (length ip <= 62)%nat -> holds (strncpy r ip 63) ip.
Proof. intros Hc Hl. apply (strncpy_row _ _ 63); [done|lia]. Qed.

Lemma add_run rl l ip :
  rl_shows rl l -> is_cstr ip -> (length ip <= 62)%nat -> Forall (fun x => (length x.2 <= 46)%nat) l ->
  exists rl', relaylist_add rl ip = Some rl' /\ rl_shows rl' (promote l ip).
Proof.
  intros Hs Hip Hl Hb. pose proof (shows_shape _ _ Hs) as Hsh. pose proof Hs as (He & Hn & Hc). pose proof (rows_length _ _ _ He) as Hlen. rewrite length_fmap in Hlen.
  unfold relaylist_add, promote. rewrite (find_entry_run _ l) by (done || (unfold zlen in Hc; lia)). rewrite drop_0. cbn [mbind option_bind].
  destruct (list_find _ l) as [[i [e b]]|] eqn:Ef; cbn [fmap option_fmap option_map].
  - apply list_find_Some in Ef as (Hi & _). change (0 + (i, (e, b)).1)%nat with i. pose proof (lookup_lt_Some _ _ _ Hi) as Hi32.
    rewrite (proj2 (entry_str_run _ _ _ _ Hs Hi)). pose proof (Forall_lookup_1 _ _ _ _ Hb Hi) as Hlb. cbn in Hlb. cbn [snd mbind option_bind]. rewrite take_ge by lia.
    assert (Cb : is_cstr b) by (apply (rows_row _ _ _ i b Hn); by rewrite list_lookup_fmap, Hi).
    destruct (shift_list_Some i rl Hsh) as (rl1 & -> & S1 & C1 & Q1 & Q2); [lia|]. cbn [mbind option_bind]. destruct (set_entry_Some rl1 0 ip S1) as (-> & L2 & S2); [lia|]. cbn [mbind option_bind].
     destruct (set_label_copy _ 0 b S2) as (-> & L3 & S3); [lia|].
    eexists. split; [reflexivity|]. split_and!; cbn [rl_entries rl_labels rl_count put_entry put_label].
    + rewrite Q1, fmap_cons, fmap_app, fmap_take, fmap_drop. apply rows_push; [done|lia|by apply strncpy_entry|done].
    + rewrite Q2, fmap_cons, fmap_app, fmap_take, fmap_drop. apply rows_push; [done|lia|apply (strncpy_row _ _ 47); [done|lia]|done].
    + rewrite C1. unfold zlen in *. cbn. rewrite length_app, length_take, length_drop. lia.
  - set (keep := if rl_count rl <? MAX_RELAYS then rl_count rl else MAX_RELAYS - 1).
    assert (Hk : (Z.to_nat keep < 32)%nat /\ keep = zlen (take 31 l) /\ take 31 l = take (Z.to_nat keep) l).
    { unfold keep, MAX_RELAYS. unfold zlen in *. rewrite length_take. destruct (Z.ltb_spec (rl_count rl) 32); (split; [lia|]); (split; [lia|]).
      - rewrite !take_ge by lia. done.
      - done. }
    destruct Hk as (Hk32 & Hk & Ek). rewrite Ek. destruct (shift_list_Some (Z.to_nat keep) rl Hsh Hk32) as (rl1 & -> & S1 & C1 & Q1 & Q2). cbn [mbind option_bind].
    destruct (set_entry_Some rl1 0 ip S1) as (-> & L2 & S2); [lia|]. cbn [mbind option_bind]. 
    destruct (set_label_end _ 0 S2) as (-> & L3 & S3); [lia|]. cbn [mbind option_bind].
    eexists. split; [reflexivity|]. split_and!; cbn [rl_entries rl_labels rl_count put_entry put_label set_count].
    + rewrite Q1, fmap_cons, fmap_take. apply rows_push_cut; [done|done|by apply strncpy_entry|done].
    + rewrite Q2, fmap_cons, fmap_take. apply rows_push_cut; [done|done|apply empty_row; rewrite length_insert in L3; cbn [rl_labels put_entry] in L3; lia|done].
    + rewrite <- Ek, zlen_cons. lia.
Qed.

(** The file that holds the list. *)
Definition row_text (x : bytes * bytes) : bytes := match x.2 with [] => x.1 | b => x.1 ++ cstr "  # " ++ b end.
Definition relays_text (l : list (bytes * bytes)) : bytes := concat ((fun x => row_text x ++ newline) <$> l).

Lemma save_list rl l file : rl_shows rl l -> relaylist_save rl file true = Some (Some (relays_text l)).
Proof.
  intros Hs. unfold relaylist_save, relays_text. pose proof Hs as (_ & _ & Hc). rewrite Hc, to_nat_zlen.
  assert (Hm : mapM (relay_row rl) (seq 0 (length l)) = Some ((fun x => row_text x ++ newline) <$> l)).
  { apply mapM_Some, Forall2_same_length_lookup_2; [by rewrite length_seq, length_fmap|]. intros i j y [-> Hi]%lookup_seq Hy. rewrite list_lookup_fmap in Hy.
    apply fmap_Some in Hy as (x & Hx & ->). unfold relay_row, row_text. rewrite Nat.add_0_l. destruct (entry_str_run _ _ _ _ Hs Hx) as [-> ->]. cbn [mbind option_bind].
    destruct x.2; [done|]. by rewrite <- !app_assoc. }
  by rewrite Hm.
Qed.

Lemma cut_end_app p a b : b <> [] -> cut_end p b = b -> cut_end p (a ++ b) = a ++ b.
Proof.
  intros Hb Hc. induction a as [|x a IH]; [done|]. cbn. rewrite IH. destruct (a ++ b) eqn:E; [|done]. apply app_nil in E. naive_solver.
Qed.
Lemma cut_end_drop p a b : Forall (fun c => p c = true) b -> cut_end p (a ++ b) = cut_end p a.
Proof.
  intros Hb. induction a as [|x a IH]; [|cbn; by rewrite IH]. induction Hb as [|c b Hc _ IHb]; [done|]. cbn in *. by rewrite IHb, Hc.
Qed.
Lemma cut_end_none p a : Forall (fun c => p c = false) a -> cut_end p a = a.
Proof. intros Ha. induction Ha as [|c a Hc _ IH]; [done|]. cbn. rewrite IH, Hc. by destruct a. Qed.

Lemma row_text_ok x : entry_ok x.1 -> name_ok x.2 -> is_cstr (row_text x) /\ 10 ∉ row_text x /\ zlen (row_text x) < 127 /\ Forall (fun c => is_eol c = false) (row_text x).
Proof.
  intros (_ & Ce & Le & N1 & N2 & _) (Cb & Lb & M1 & M2 & _). unfold row_text.
  assert (Hf : forall s, 10 ∉ s -> 13 ∉ s -> Forall (fun c => is_eol c = false) s).
  { intros s S1 S2. apply Forall_forall. intros c Hc. unfold is_eol. destruct (Z.eqb_spec c 10) as [->|]; [done|]. by destruct (Z.eqb_spec c 13) as [->|]. }
  assert (Hm : is_cstr (cstr "  # ") /\ 10 ∉ cstr "  # " /\ 13 ∉ cstr "  # ") by (split; [vm_compute; by repeat constructor|split; literal_free]). destruct Hm as (Cm & Q1 & Q2).
  destruct x.2 as [|c b] eqn:Eb; [split_and!; auto; unfold zlen; lia|]. assert (T1 : 10 ∉ x.1 ++ cstr "  # " ++ c :: b) by (rewrite !elem_of_app; tauto).
  assert (T2 : 13 ∉ x.1 ++ cstr "  # " ++ c :: b) by (rewrite !elem_of_app; tauto). split_and!; [by repeat apply Forall_app_2|done| |by apply Hf].
  unfold zlen. rewrite !length_app. change (length (cstr "  # ")) with 4%nat. lia.
Qed.
Lemma relay_entry_run rl l x :
  rl_shows rl l -> (length l < 32)%nat -> entry_ok x.1 -> name_ok x.2 ->
  exists rl', relay_entry (row_text x ++ newline) rl = Some rl' /\ rl_shows rl' (l ++ [x]).
Proof.
  intros Hs Hlt Hx Hb. pose proof (shows_shape _ _ Hs) as Hsh. destruct Hs as (He & Hn & Hc). destruct (row_text_ok x Hx Hb) as (Ct & _ & _ & Ht). destruct x as [e b]. cbn [fst snd] in *.
  destruct Hx as (Hne & Ce & Le & _ & _ & N3 & Hcut). destruct Hb as (Cb & Lb & _ & _ & Hskip).
  assert (Hadd : forall r, rl_shape (put_label (length l) r rl) -> holds r b -> length r = 48%nat -> exists rl',
    (rl ← set_entry (length l) e (put_label (length l) r rl); Some (set_count (rl_count rl + 1) rl)) = Some rl' /\ rl_shows rl' (l ++ [(e, b)])).
  { intros r S1 Hh Hr. destruct (set_entry_Some _ (length l) e S1) as (-> & L2 & _); [lia|]. cbn [mbind option_bind]. eexists. split; [reflexivity|].
    split_and!; cbn [rl_entries rl_labels rl_count put_entry put_label set_count]; rewrite ?fmap_app; cbn.
    - rewrite <- (length_fmap fst l) at 1. apply rows_snoc; [done|by rewrite length_fmap|by apply strncpy_entry|done].
    - rewrite <- (length_fmap snd l) at 1. apply rows_snoc; [done|by rewrite length_fmap|done|done].
    - rewrite Hc, zlen_app. done. }
  unfold relay_entry. rewrite cut_end_drop by (by repeat constructor). rewrite cut_end_none by done. rewrite Hc, to_nat_zlen. unfold row_text in *. cbn [fst snd] in *.
  destruct b as [|c b].
  - rewrite split_char_none by done. destruct e as [|c e]; [done|]. destruct (set_label_end rl (length l) Hsh Hlt) as (-> & L1 & S1). cbn [mbind option_bind].
    apply Hadd; [done|apply empty_row; rewrite length_insert in L1; lia|done].
  - change (cstr "  # " ++ c :: b) with ([32; 32] ++ 35 :: 32 :: c :: b). destruct (e ++ [32; 32] ++ 35 :: 32 :: c :: b) eqn:E; [by apply app_nil in E as [-> _]|]. rewrite <- E. clear E.
    rewrite app_assoc, split_char_skip by (rewrite elem_of_app; intros [|Hin]; [done|]; set_solver).
    rewrite cut_end_drop by (by repeat constructor). rewrite Hcut. change (skip_blank (32 :: c :: b)) with (skip_blank (c :: b)). rewrite Hskip.
    destruct (set_label_both rl (length l) (c :: b) Hsh Hlt) as (-> & L1 & S1). cbn [mbind option_bind]. destruct e as [|d e]; [done|]. apply Hadd; [done| |done].
    destruct (strncpy_row (row (rl_labels rl) (length l)) (c :: b) 47) as (_ & rest & Er); [done|lia|]. change (Z.of_nat 47) with 47 in Er. rewrite Er. split; [done|].
    rewrite insert_app_r_alt by lia. destruct (47 - length (c :: b))%nat as [|m] eqn:Em; [lia|]. cbn. by eexists.
Qed.
Lemma load_relays_run fuel rl l l' :
  rl_shows rl l -> list_ok l' -> (length l + length l' <= 32)%nat -> (length l' < fuel)%nat ->
  exists rl', load_relays fuel (relays_text l') rl = Some rl' /\ rl_shows rl' (l ++ l').
Proof.
  revert rl l fuel. induction l' as [|x l' IH]; intros rl l fuel Hs Hok Hl Hf; (destruct fuel as [|fuel]; [lia|]); cbn [load_relays].
  - rewrite app_nil_r. exists rl. by destruct (_ <? _).
  - apply Forall_cons in Hok as [[Hx Hb] Hok]. cbn [length] in Hl, Hf. pose proof Hs as (_ & _ & Hc).
    rewrite (proj2 (Z.ltb_lt _ _)) by (unfold MAX_RELAYS, zlen in *; lia). destruct (row_text_ok x Hx Hb) as (Ct & N & Hz & _).
    change (relays_text (x :: l')) with ((row_text x ++ newline) ++ relays_text l'). rewrite <- app_assoc, fgets_text by (done || lia).
    rewrite cstring_whole by (apply Forall_app_2; [done|by repeat constructor]).
    destruct (relay_entry_run rl l x Hs ltac:(lia) Hx Hb) as (rl1 & -> & Hs1). cbn [mbind option_bind].
    replace (l ++ x :: l') with ((l ++ [x]) ++ l') by (by rewrite <- app_assoc). apply IH; [done|done|rewrite length_app; cbn; lia|lia].
Qed.
Lemma relays_text_length l : (length l <= length (relays_text l))%nat.
Proof. induction l as [|x l IH]; [done|]. change (relays_text (x :: l)) with ((row_text x ++ newline) ++ relays_text l). rewrite !length_app. cbn. lia. Qed.

Lemma shape_empty rl : rl_shape rl -> rl_shows (set_count 0 rl) [].
Proof. intros (H1 & H2 & H3 & H4). split_and!; cbn; [| |done]; (split; [done|]; split; [done|]); by eexists [], _. Qed.
Lemma load_list_run l junk :
  list_ok l -> l <> [] -> (length l <= 32)%nat -> rl_shape junk -> exists rl, relaylist_load (Some (relays_text l)) junk = Some rl /\ rl_shows rl l.
Proof.
  intros Hok Hne Hl Hj. unfold relaylist_load. destruct (load_relays_run (S (length (relays_text l))) _ [] l (shape_empty _ Hj) Hok Hl) as (rl & -> & Hr).
  { pose proof (relays_text_length l). lia. }
  exists rl. split; [|done]. cbn [mbind option_bind]. pose proof Hr as (_ & _ & Hc). rewrite Hc.
  rewrite (proj2 (Z.eqb_neq _ _)); [done|]. destruct l; [done|]. unfold zlen. cbn. lia.
Qed.
Definition seeds : list (bytes * bytes) := zip g_seed_relays g_seed_labels.
Lemma seeds_run rl l ss :
  rl_shows rl l -> (length l + length ss <= 32)%nat ->
  Forall (fun s : bytes * bytes => is_cstr s.1 /\ is_cstr s.2 /\ (length s.1 <= 62)%nat /\ (length s.2 <= 46)%nat) ss ->
  exists rl', load_seeds ss rl = Some rl' /\ rl_shows rl' (l ++ ss).
Proof.
  intros Hs. revert rl l Hs. induction ss as [|s ss IH]; intros rl l Hs Hl Hok; [rewrite app_nil_r; by exists rl|]. cbn in Hl. apply Forall_cons in Hok as [(S1 & S2 & S3 & S4) Hok].
  pose proof (shows_shape _ _ Hs) as Hsh. destruct Hs as (He & Hn & Hc). cbn [load_seeds].
  rewrite (proj2 (Z.ltb_lt _ _)) by (unfold MAX_RELAYS, zlen in *; lia). rewrite Hc, to_nat_zlen.
  destruct (set_entry_Some rl (length l) s.1 Hsh) as (-> & L1 & Sh1); [lia|]. cbn [mbind option_bind].
  destruct (set_label_copy _ (length l) s.2 Sh1) as (-> & L3 & Sh2); [lia|].
  cbn [mbind option_bind]. replace (l ++ s :: ss) with ((l ++ [s]) ++ ss) by (by rewrite <- app_assoc). apply IH; [|rewrite length_app; cbn; lia|done].
  split_and!; cbn [rl_entries rl_labels rl_count put_entry put_label set_count]; rewrite ?fmap_app; cbn [fmap list_fmap].
  - rewrite <- (length_fmap fst l) at 1. apply rows_snoc; [done|rewrite length_fmap; lia|by apply strncpy_entry|done].
  - rewrite <- (length_fmap snd l) at 1. apply rows_snoc; [done|rewrite length_fmap; lia|apply (strncpy_row _ _ 47); [done|lia]|done].
  - rewrite Hc, zlen_app. done.
Qed.

Lemma promote_ok l ip : list_ok l -> (length l <= 32)%nat -> entry_ok ip -> list_ok (promote l ip) /\ (length (promote l ip) <= 32)%nat /\ promote l ip <> [].
Proof.
  intros Hok Hl Hip. unfold promote. destruct (list_find _ l) as [[i [e b]]|] eqn:Ef.
  - apply list_find_Some in Ef as (Hi & _). pose proof (Forall_lookup_1 _ _ _ _ Hok Hi) as [_ Hb]. pose proof (lookup_lt_Some _ _ _ Hi). split_and!; [|cbn; rewrite length_app, length_take, length_drop; lia|done].
    apply Forall_cons_2; [by split|]. apply Forall_app_2; [by apply Forall_take|by apply Forall_drop].
  - split_and!; [|cbn; rewrite length_take; lia|done]. apply Forall_cons_2; [|by apply Forall_take]. split; [done|]. split_and!; [constructor|cbn; lia|by apply not_elem_of_nil..|done].
Qed.
Lemma seeds_ok : Forall (fun s : bytes * bytes => is_cstr s.1 /\ is_cstr s.2 /\ (length s.1 <= 62)%nat /\ (length s.2 <= 46)%nat) seeds.
Proof.
  apply Forall_forall. intros s Hin.
  assert (Hb : forallb (fun s : bytes * bytes => forallb (fun c => negb (c =? 0)) s.1 && forallb (fun c => negb (c =? 0)) s.2 && (length s.1 <=? 62)%nat && (length s.2 <=? 46)%nat) seeds = true)
    by (vm_compute; reflexivity).
  rewrite forallb_forall in Hb. specialize (Hb s ltac:(by apply list_elem_of_In)). rewrite !andb_true_iff, !forallb_forall, !Nat.leb_le in Hb. destruct Hb as (((H1 & H2) & H3) & H4).
  split_and!; [| |done|done]; apply Forall_forall; intros c Hc%list_elem_of_In; [specialize (H1 c Hc)|specialize (H2 c Hc)]; lia.
Qed.

(** *** No row outside the arrays *)

(** A list as the code keeps it. *)
Definition list_wf (rl : RelayList) : Prop := rl_shape rl /\ 1 <= rl_count rl <= 32.
Lemma entry_str_total rl i : rl_shape rl -> (i < 32)%nat -> exists e b, entry_str rl i = Some e /\ label_str rl i = Some b.
Proof.
  intros (H1 & _ & H3 & _) Hi. destruct (lookup_lt_is_Some_2 (rl_entries rl) i) as [r Hr]; [lia|]. destruct (lookup_lt_is_Some_2 (rl_labels rl) i) as [r' Hr']; [lia|].
  unfold entry_str, label_str, str_in. rewrite Hr, Hr'. cbn [mbind option_bind]. rewrite !bool_decide_true by set_solver. eauto.
Qed.
Lemma find_total rl ip i n : rl_shape rl -> (i + n <= 32)%nat -> exists r, find_entry rl ip i n = Some r /\ forall k, r = Some k -> (i <= k < i + n)%nat.
Proof.
  intros Hs. revert i. induction n as [|n IH]; intros i Hi; cbn [find_entry]; [by eexists|]. destruct (entry_str_total rl i Hs ltac:(lia)) as (e & b & -> & _). cbn [mbind option_bind].
  case_bool_decide; [eexists; split; [done|]; intros k [= <-]; lia|]. destruct (IH (S i) ltac:(lia)) as (r & -> & Hr). eexists. split; [done|]. intros k Hk. specialize (Hr k Hk). lia.
Qed.
Lemma relay_entry_total line rl :
  rl_shape rl -> 0 <= rl_count rl < 32 -> exists rl', relay_entry line rl = Some rl' /\ rl_shape rl' /\ rl_count rl <= rl_count rl' <= rl_count rl + 1.
Proof.
  intros Hs Hc. set (n := Z.to_nat (rl_count rl)). assert (Hn : (n < 32)%nat) by lia. unfold relay_entry. fold n.
  assert (Hadd : forall rl1 v, rl_shape rl1 -> rl_count rl1 = rl_count rl ->
    exists rl', match v with [] => Some rl1 | _ => rl2 ← set_entry n v rl1; Some (set_count (rl_count rl2 + 1) rl2) end = Some rl' /\ rl_shape rl' /\ rl_count rl <= rl_count rl' <= rl_count rl + 1).
  { intros rl1 v S1 C1. destruct v as [|c v]; [exists rl1; split_and!; [done|done|lia|lia]|]. destruct (set_entry_Some rl1 n (c :: v) S1 Hn) as (-> & _ & S2). eexists. split_and!; [done|done|cbn; lia|cbn; lia]. }
  destruct (cut_end is_eol line) as [|c l]; [exists rl; split_and!; [done|done|lia|lia]|]. destruct (split_char _ _) as [[ip lbl]|].
  - destruct (set_label_both rl n (skip_blank lbl) Hs Hn) as (-> & _ & S1). cbn [mbind option_bind]. by apply Hadd.
  - destruct (set_label_end rl n Hs Hn) as (-> & _ & S1). cbn [mbind option_bind]. by apply (Hadd _ (c :: l)).
Qed.
Lemma load_relays_total fuel f rl :
  rl_shape rl -> 0 <= rl_count rl <= 32 -> exists rl', load_relays fuel f rl = Some rl' /\ rl_shape rl' /\ 0 <= rl_count rl' <= 32.
Proof.
  revert f rl. induction fuel as [|fuel IH]; intros f rl Hs Hc; cbn [load_relays]; [by exists rl|]. destruct (Z.ltb_spec (rl_count rl) MAX_RELAYS) as [Hlt|]; [|by exists rl].
  unfold MAX_RELAYS in Hlt. destruct (fgets 128 f) as [[line r]|]; [|by exists rl]. destruct (relay_entry_total (cstring line) rl Hs ltac:(lia)) as (rl1 & -> & S1 & C1).
  cbn [mbind option_bind]. apply IH; [done|lia].
Qed.
Lemma load_seeds_total ss rl :
  rl_shape rl -> 0 <= rl_count rl -> rl_count rl + zlen ss <= 32 -> exists rl', load_seeds ss rl = Some rl' /\ rl_shape rl' /\ rl_count rl' = rl_count rl + zlen ss.
Proof.
  revert rl. induction ss as [|s ss IH]; intros rl Hs H0 Hc; cbn [load_seeds]; [exists rl; rewrite zlen_nil; split_and!; [done|done|lia]|].
  rewrite zlen_cons in *. pose proof (zlen_nonneg ss). rewrite (proj2 (Z.ltb_lt _ _)) by (unfold MAX_RELAYS; lia). set (n := Z.to_nat (rl_count rl)). assert (Hn : (n < 32)%nat) by lia.
  destruct (set_entry_Some rl n s.1 Hs Hn) as (-> & L1 & Sh1). cbn [mbind option_bind].
  destruct (set_label_copy _ n s.2 Sh1) as (-> & L3 & Sh2); [lia|].
  cbn [mbind option_bind]. edestruct (IH (set_count (rl_count rl + 1) (put_label n _ (put_entry n _ rl))) Sh2) as (rl' & E & S' & C'); [cbn; lia|cbn; lia|].
  exists rl'. split_and!; [exact E|done|rewrite C'; cbn; lia].
Qed.
Lemma load_total file junk : rl_shape junk -> exists rl, relaylist_load file junk = Some rl /\ list_wf rl.
Proof.
  intros Hj. unfold relaylist_load. assert (Hl : exists rl, match file with Some f => load_relays (S (length f)) f (set_count 0 junk) | None => Some (set_count 0 junk) end = Some rl /\ rl_shape rl /\ 0 <= rl_count rl <= 32).
  { destruct file as [f|]; [by apply load_relays_total|by eexists]. }
  destruct Hl as (rl & -> & Hs & Hc). cbn [mbind option_bind]. destruct (Z.eqb_spec (rl_count rl) 0) as [E|]; [|exists rl; split; [done|]; split; [done|lia]].
  destruct (load_seeds_total (zip g_seed_relays g_seed_labels) rl Hs) as (rl' & -> & S' & C'); [lia|rewrite E; vm_compute; discriminate|].
  exists rl'. rewrite E in C'. split; [done|]. split; [done|]. rewrite C'. vm_compute. split; discriminate.
Qed.
Lemma add_total rl ip : list_wf rl -> exists rl', relaylist_add rl ip = Some rl' /\ list_wf rl'.
Proof.
  intros [Hs Hc]. unfold relaylist_add. destruct (find_total rl ip 0 (Z.to_nat (rl_count rl)) Hs ltac:(lia)) as (r & -> & Hr). cbn [mbind option_bind]. destruct r as [i|].
  - specialize (Hr i eq_refl). destruct (entry_str_total rl i Hs ltac:(lia)) as (e & b & _ & ->). cbn [mbind option_bind].
    destruct (shift_list_Some i rl Hs) as (rl1 & -> & S1 & C1 & _); [lia|]. cbn [mbind option_bind]. destruct (set_entry_Some rl1 0 ip S1) as (-> & L2 & S2); [lia|].
     cbn [mbind option_bind].
    destruct (set_label_copy _ 0 (take 47 b) S2) as (-> & L3 & S3); [lia|].
    eexists. split; [done|]; split; [done|cbn; lia].
  - set (keep := if _ <? _ then _ else _). assert (Hk : 1 <= keep <= 31) by (unfold keep, MAX_RELAYS; destruct (Z.ltb_spec (rl_count rl) 32); lia). clearbody keep.
    destruct (shift_list_Some (Z.to_nat keep) rl Hs) as (rl1 & -> & S1 & C1 & _); [lia|]. cbn [mbind option_bind]. destruct (set_entry_Some rl1 0 ip S1) as (-> & L2 & S2); [lia|].
     cbn [mbind option_bind].
    destruct (set_label_end _ 0 S2) as (-> & L3 & S3); [lia|]. cbn [mbind option_bind].
    eexists. split; [done|]; split; [done|cbn; lia].
Qed.
Lemma save_total rl file w : list_wf rl -> exists f, relaylist_save rl file w = Some f.
Proof.
  intros [Hs Hc]. unfold relaylist_save. destruct w; [|by eexists]. assert (Hm : is_Some (mapM (relay_row rl) (seq 0 (Z.to_nat (rl_count rl))))).
  { apply mapM_is_Some, Forall_forall. intros i Hi%elem_of_seq. destruct (entry_str_total rl i Hs ltac:(lia)) as (e & b & E1 & E2). unfold compose, relay_row. rewrite E2. cbn [mbind option_bind]. rewrite E1. by eexists. }
  destruct Hm as [rows ->]. by eexists.
Qed.

(** ** Addresses *)

Definition addr_text (ip : bytes) (port : Z) : bytes := dotted ip ++ 58 :: dec 5 port.
Definition addr_char (c : Z) : Prop := isdigit c = true \/ c = 46 \/ c = 58.
Lemma dotted_chars ip : is_ipv4 ip -> Forall (fun c => isdigit c = true \/ c = 46) (dotted ip).
Proof.
  intros [(a & b & c & d & ->)%length_4_inv Hb]. unfold is_bytes in Hb; rewrite !Forall_cons in Hb. destruct Hb as ([Ha _] & [Hb _] & [Hc _] & [Hd _] & _).
  assert (Hx : forall n, 0 <= n -> Forall (fun c => isdigit c = true \/ c = 46) (dec 3 n)) by (intros n Hn; eapply Forall_impl; [by apply dec_is_digits|]; auto).
  cbn [dotted]. repeat first [apply Forall_app_2; [by apply Hx|] | apply Forall_cons_2; [by right|]]. by apply Hx.
Qed.
Lemma addr_chars ip port : is_ipv4 ip -> 0 <= port -> Forall addr_char (addr_text ip port).
Proof.
  intros Hip Hp. apply Forall_app_2; [eapply Forall_impl; [by apply dotted_chars|]; unfold addr_char; tauto|]. apply Forall_cons_2; [by right; right|].
  eapply Forall_impl; [by apply dec_is_digits|]. by left.
Qed.
Lemma addr_char_plain c : addr_char c -> 46 <= c <= 58.
Proof. unfold addr_char, isdigit. intros [?|[->| ->]]; lia. Qed.
Lemma plain_not s c : Forall addr_char s -> ~ 46 <= c <= 58 -> c ∉ s.
Proof. intros Hs Hc Hin. rewrite Forall_forall in Hs. by apply Hc, addr_char_plain, Hs. Qed.
Lemma addr_length ip port : is_ipv4 ip -> 0 <= port -> (length (addr_text ip port) <= 21)%nat.
Proof.
  intros Hip Hp. destruct (dotted_word ip Hip) as [_ Hl]. destruct (dec_cstr 5 port Hp) as [_ H5]. unfold addr_text. rewrite length_app. cbn [length]. lia.
Qed.
Lemma addr_nonempty ip port : is_ipv4 ip -> addr_text ip port <> [].
Proof. intros Hip. destruct (dotted_first ip Hip) as (c & s & E & _). unfold addr_text. by rewrite E. Qed.
Lemma skip_blank_id s : Forall (fun c => is_blank c = false) s -> skip_blank s = s.
Proof. intros Hs. destruct Hs as [|c s Hc Hs]; [done|]. cbn. by rewrite Hc. Qed.
Lemma cut_trailing_none s : Forall (fun c => is_trailing c = false) s -> cut_trailing s = s.
Proof. intros Hs. induction Hs as [|c s Hc _ IH]; [done|]. cbn. rewrite IH, Hc. by destruct s. Qed.
Lemma plain_trim s : Forall addr_char s -> trim s = s /\ cut_end is_blank s = s.
Proof.
  intros Hs. assert (H1 : Forall (fun c => is_blank c = false) s) by (eapply Forall_impl; [exact Hs|]; intros c Hc%addr_char_plain; unfold is_blank; lia).
  assert (H2 : Forall (fun c => is_trailing c = false) s) by (eapply Forall_impl; [exact Hs|]; intros c Hc%addr_char_plain; unfold is_trailing; lia).
  unfold trim. by rewrite skip_blank_id, cut_trailing_none, cut_end_none.
Qed.
Lemma addr_cstr s : Forall addr_char s -> is_cstr s.
Proof. intros Hs. eapply Forall_impl; [exact Hs|]. intros c Hc%addr_char_plain. lia. Qed.
Lemma addr_relay_ok ip port : is_ipv4 ip -> 0 <= port -> relay_ok (addr_text ip port).
Proof.
  intros Hip Hp. pose proof (addr_chars ip port Hip Hp) as Hc. pose proof (addr_length ip port Hip Hp).
  split_and!; [by apply addr_nonempty|by apply addr_cstr|apply plain_not; (done || lia)|by apply plain_trim|lia].
Qed.
Lemma addr_entry_ok ip port : is_ipv4 ip -> 0 <= port -> entry_ok (addr_text ip port).
Proof.
  intros Hip Hp. pose proof (addr_chars ip port Hip Hp) as Hc. pose proof (addr_length ip port Hip Hp).
  split_and!; [by apply addr_nonempty|by apply addr_cstr|lia|apply plain_not; (done || lia)..|by apply plain_trim].
Qed.

Lemma rsplit_none s c : c ∉ s -> rsplit_char s c = None.
Proof. induction s as [|x s IH]; intros Hc; [done|]. cbn. rewrite IH by set_solver. by rewrite (proj2 (Z.eqb_neq x c)) by set_solver. Qed.
Lemma rsplit_at a b c : c ∉ b -> rsplit_char (a ++ c :: b) c = Some (a, b).
Proof. intros Hb. induction a as [|x a IH]; cbn; [by rewrite rsplit_none, Z.eqb_refl|by rewrite IH]. Qed.
Lemma digits_no_colon n : 0 <= n -> 58 ∉ dec 5 n.
Proof. intros Hn Hin. pose proof (dec_is_digits 5 n Hn) as Hd. rewrite Forall_forall in Hd. specialize (Hd _ Hin). done. Qed.
Lemma atoi_dec port : 0 <= port <= 65535 -> atoi (dec 5 port) = port.
Proof.
  intros Hp. unfold atoi, strtol. rewrite <- (app_nil_r (dec 5 port)), scan_int_dec by (done || (cbn; lia) || by intros ? ? ?). cbn [fst].
  unfold clamp_long. rewrite Z.min_r, Z.max_r, s32_id by lia. done.
Qed.
Lemma scan_u_byte n r : is_u8 n -> no_digit r -> scan_u (dec 3 n ++ r) = Some (n, r).
Proof.
  unfold is_u8. intros Hn Hr. unfold scan_u. rewrite scan_int_dec by (done || lia). cbn. unfold strtoul_value. rewrite (proj2 (Z.ltb_ge _ _)) by lia.
  unfold u64. rewrite Z.mod_small by lia. by rewrite u32_id by (unfold is_u32; lia).
Qed.
Lemma literal_dotted ip : is_ipv4 ip -> is_ipv4_literal (dotted ip) = true.
Proof.
  intros [(a & b & c & d & ->)%length_4_inv Hb]. unfold is_bytes in Hb; rewrite !Forall_cons in Hb. destruct Hb as (Ha & Hb & Hc & Hd & _).
  unfold is_ipv4_literal, dotted. rewrite <- (app_nil_r (dec 3 d)).
  repeat (rewrite scan_u_byte by first [done|apply no_digit_dot|apply no_digit_nil]; cbn [mbind option_bind scan_char Z.eqb Pos.eqb]). unfold is_u8 in *. lia.
Qed.
Lemma normalize_addr ip port : is_ipv4 ip -> 1 <= port <= 65535 -> normalize_relay_for_save (addr_text ip port) 128 = Some (addr_text ip port).
Proof.
  intros Hip Hp. destruct (dotted_word ip Hip) as [_ Hl]. destruct (dotted_first ip Hip) as (c & s & E & _).
  assert (Ex : extract_host_port (addr_text ip port) 128 = (dotted ip, port)).
  { unfold extract_host_port. destruct (addr_text ip port) as [|x t] eqn:Ea; [by apply addr_nonempty in Ea|]. rewrite <- Ea. unfold addr_text.
    rewrite rsplit_at by (apply digits_no_colon; lia). rewrite atoi_dec by lia. rewrite (proj2 (Z.leb_gt _ _)) by lia. f_equal. apply take_ge. cbn. lia. }
  unfold normalize_relay_for_save. rewrite Ex, bool_decide_false by (by rewrite E). rewrite literal_dotted by done. cbn [negb].
  rewrite (proj2 (Z.leb_gt _ _)), (proj2 (Z.ltb_ge _ _)) by lia. cbn [orb]. f_equal. apply take_ge. pose proof (addr_length ip port Hip). unfold addr_text in *.
  change (Z.to_nat (128 - 1)) with 127%nat. lia.
Qed.
(** The client finds the relay without a name service. *)
Lemma resolve_addr `{InetLaws} dns writable ip port file :
  is_ipv4 ip -> 1 <= port <= 65535 -> resolve_server dns writable (addr_text ip port) file = (0, (ip, port), file).
Proof.
  intros Hip Hp. unfold resolve_server, host_port. rewrite take_ge by (pose proof (addr_length ip port Hip); lia). unfold addr_text.
  rewrite split_char_skip. 2: { pose proof (dotted_chars ip Hip) as Hd. rewrite Forall_forall in Hd. intros Hin. by destruct (Hd _ Hin). }
  rewrite atoi_dec by lia. rewrite pton_dotted by done. by rewrite u16_id by (unfold is_u16; lia).
Qed.

(** The lines of the configuration after saving. *)
Definition setup_lines (ls : list bytes) (r : bytes) : list bytes :=
  match ls with [] => [cstr "; switch-lan-play"; cstr "[server]"; relay_text r] | _ => saved_lines ls r end.
Lemma setup_lines_run ls r : (length ls <= 62)%nat -> relay_ok r -> concat (save_lines ((fun l => l ++ newline) <$> ls) r) = text (setup_lines ls r).
Proof.
  intros Hl Hr. unfold save_lines, setup_lines. rewrite replace_relay_run by done. destruct ls as [|l ls].
  { cbn [list_find fmap list_fmap]. rewrite relay_line_eq by done. vm_compute (_ <? _). done. }
  unfold saved_lines. destruct (list_find _ (l :: ls)) as [[i x]|]; [done|]. rewrite relay_line_eq by done. cbn [fmap list_fmap].
  rewrite (proj2 (Z.ltb_lt _ _)). 2: { unfold zlen, MAX_CFG_LINES. cbn [length] in *. rewrite length_fmap. lia. }
  unfold text. rewrite fmap_app, !fmap_cons, !concat_app. done.
Qed.
Lemma setup_config ls r :
  relay_ok r -> one_relay_line ls ->
  exists v, cstring v = r /\ foldl config_line set_defaults (setup_lines ls r) = set_cf_relay_addr v (foldl config_line set_defaults ls).
Proof.
  intros Hr Hone. pose proof Hr as (_ & Hc & _ & _ & Hl).
  assert (Hv : forall dst, field_ok 256 dst -> cstring (strncpy dst r 255) = r) by (intros dst Hd; rewrite (strncpy_string 255) by done; by apply take_ge).
  destruct ls as [|l ls].
  - eexists. split; [apply Hv, (ok_relay _ set_defaults_ok)|]. cbn [setup_lines foldl].
    change (config_line (config_line set_defaults (cstr "; switch-lan-play")) (cstr "[server]")) with set_defaults. by apply config_relay_text.
  - destruct (saved_config (l :: ls) r Hr Hone) as (v & dst & -> & Hd & E). exists (strncpy dst r 255). split; [by apply Hv|done].
Qed.
Lemma setup_lines_ok ls r : Forall line_ok ls -> relay_ok r -> Forall line_ok (setup_lines ls r).
Proof.
  intros Hok Hr. destruct ls as [|l ls]; [|by apply saved_lines_ok]. cbn [setup_lines].
  repeat apply Forall_cons_2; [..|done]; [| |by apply relay_text_ok]; (split_and!; [vm_compute; by repeat constructor|literal_free|vm_compute; lia]).
Qed.

(** ** The application *)

(** What is known when the client is told to start over: the file was just written from lines
    with an address that was accepted.  One of the lines is about this address, unless the
    file had 63 lines and none about an address. *)
Definition saved_into (lines : list bytes) (r : bytes) : Prop :=
  relay_line r ∈ save_lines lines r \/ (length lines = 63%nat /\ Forall (fun l => is_relay_line l = false) lines).
Lemma save_lines_saves lines r : (length lines <= 63)%nat -> saved_into lines r.
Proof.
  intros Hl. unfold saved_into, save_lines.
  assert (Hr : forall ls, match replace_relay ls r with (ls', true) => relay_line r ∈ ls' | (ls', false) => ls' = ls /\ Forall (fun l => is_relay_line l = false) ls end).
  { induction ls as [|l ls IH]; cbn; [by split|]. destruct (is_relay_line l) eqn:E; [by left|]. destruct (replace_relay ls r) as [ls' []]; [by right|].
    destruct IH as [-> IH]. split; [done|by constructor]. }
  specialize (Hr lines). destruct (replace_relay lines r) as [ls' []]; [by left|]. destruct Hr as [-> Hr]. destruct (Z.ltb_spec (zlen (match lines with [] => [cstr "; switch-lan-play" ++ newline; cstr "[server]" ++ newline] | _ => lines end)) (MAX_CFG_LINES - 1)) as [Hlt|Hge].
  - left. apply elem_of_app. right. by left.
  - right. split; [|done]. destruct lines as [|l ls]; [vm_compute in Hge; by destruct Hge|]. unfold zlen, MAX_CFG_LINES in Hge. lia.
Qed.
Lemma read_lines_length n f : (length (read_lines n f) <= n)%nat.
Proof. revert f. induction n as [|n IH]; intros f; cbn [read_lines]; [done|]. destruct (fgets _ f) as [[line r]|]; cbn; [|lia]. specialize (IH r). lia. Qed.
Definition event_ok (e : hb_event) : Prop :=
  match e with
  | HbReload (Some f) => exists addr r lines, normalize_relay_for_save addr 128 = Some r /\ f = concat (save_lines lines r) /\ saved_into lines r
  | HbReload None => False
  | HbShow _ => True
  end.
Section app.
Context `{HbSys}.

Definition app_ok (h : hb) : Prop := Forall event_ok (hb_out h).
Lemma app_ask {A B} (f : nat -> A) (k : A -> M hb B) Q h : app_ok h -> (forall a h', app_ok h' -> hb_config h' = hb_config h -> hb_relays h' = hb_relays h -> post (k a) Q h') -> post (bind (hb_ask f) k) Q h.
Proof. intros Hh Hk. by apply Hk. Qed.
(** A list is loaded, as the application keeps it. *)
Lemma load_list_wf {B} (k : RelayList -> M hb B) Q h :
  app_ok h -> (forall rl h', list_wf rl -> app_ok h' -> hb_config h' = hb_config h -> post (k rl) Q h') -> post (bind load_list k) Q h.
Proof.
  intros Hh Hk. unfold load_list. apply post_bind. apply app_ask; [done|]. intros junk h1 Hh1 E1 _. apply post_bind, post_gets. unfold id.
  destruct (load_total (hb_relays h1) _ (stack_shape junk)) as (rl & E & Hwf). eapply post_mem; [exact E|]. by apply Hk.
Qed.
Lemma save_relay_run addr h :
  app_ok h -> post (save_relay addr) (fun rc h' => app_ok h' /\
    (rc = 0 -> exists r lines, normalize_relay_for_save addr 128 = Some r /\ hb_config h' = Some (concat (save_lines lines r)) /\ saved_into lines r)) h.
Proof.
  intros Hh. unfold save_relay. destruct (normalize_relay_for_save addr 128) as [[|c r]|] eqn:En; [by apply post_ret| |by apply post_ret].
  apply load_list_wf; [done|]. intros rl h1 Hwf Hh1 _. destruct (add_total rl (c :: r) Hwf) as (rl' & Ea & Hwf'). apply post_bind. eapply post_mem; [exact Ea|].
  apply app_ask; [done|]. intros w h2 Hh2 _ _. apply post_bind, post_gets. unfold id. destruct (save_total rl' (hb_relays h2) w Hwf') as (file & Es).
  apply post_bind. eapply post_mem; [exact Es|]. apply post_bind, post_modify, post_bind, post_gets. unfold id. apply app_ask; [done|]. intros [] h3 Hh3 _ _; [|by apply post_ret].
  apply post_bind, post_modify, post_ret. split; [done|]. intros _. eexists _, _. split; [done|]. split; [reflexivity|].
  apply save_lines_saves. destruct (hb_config _); [apply read_lines_length|cbn; lia].
Qed.
Lemma keyboard_loop_run turns prefill k s h :
  app_ok h -> kbd_ok prefill k s -> post (keyboard_loop turns STR_MAX k) (fun _ => app_ok) h.
Proof.
  revert k s h. induction turns as [|turns IH]; intros k s h Hh Hk; cbn [keyboard_loop]; [by apply post_ret|]. apply app_ask; [done|]. intros fr h1 Hh1 _ _.
  destruct (negb _); [by apply post_ret|]. destruct (post_inv _ _ _ (keyboard_frame_run prefill fr k s Hk)) as (r & k' & E & s' & Hk' & _). rewrite E.
  destruct r; [by apply post_ret|by eapply IH].
Qed.
Lemma keyboard_start_run prefill : is_cstr prefill -> exists k s, keyboard_start prefill STR_MAX = Some k /\ kbd_ok prefill k s.
Proof.
  intros Hp. unfold keyboard_start. set (s := take _ prefill). assert (Hs : (length s <= 255)%nat) by (unfold s; rewrite length_take; change (Z.to_nat (STR_MAX - 1)) with 255%nat; lia).
  assert (Hc : Forall (fun c => c <> 0 /\ (c ∈ prefill \/ typed c)) s).
  { apply Forall_forall. intros c Hin. apply elem_of_take in Hin as (i & Hi & _). split; [by apply (Forall_lookup_1 _ _ _ _ Hp Hi)|left; by eapply list_elem_of_lookup_2]. }
  case_bool_decide as E.
  - cbn [mbind option_bind]. eexists _, s. split; [reflexivity|]. subst. constructor; cbn; [by eexists|done|done|done|lia].
  - rewrite mem_put_Some; [|done|]. 2: { unfold zlen. rewrite length_app, length_replicate. change (Z.to_nat STR_MAX) with 256%nat. cbn [length]. lia. }
    cbn [mbind option_bind]. eexists _, s. split; [reflexivity|]. constructor; cbn [kb_buf kb_len kb_sel]; [| |done|done|lia].
    + cbn [take Z.to_nat app]. rewrite <- app_assoc. by eexists.
    + unfold zlen. rewrite !length_app, length_take, length_drop, length_replicate. change (length [0]) with 1%nat. change (Z.to_nat STR_MAX) with 256%nat. cbn [length Z.to_nat Init.Nat.add]. lia.
Qed.
Lemma cstring_is_cstr s : is_cstr (cstring s).
Proof. induction s as [|c s IH]; [constructor|]. cbn. destruct (Z.eqb_spec c 0); [constructor|by constructor]. Qed.
Lemma read_relay_cstr file sz : is_cstr (read_relay file sz).2.
Proof.
  unfold read_relay. destruct file as [f|]; [|constructor]. cbn [mbind option_bind].
  assert (Hl : forall fuel f v, read_loop fuel f = Some v -> is_cstr v).
  { induction fuel as [|fuel IH]; intros g v; cbn [read_loop]; [done|]. destruct (fgets 512 g) as [[line r]|]; [|done].
    destruct (relay_value (cstring line)) as [u|] eqn:E; [|by apply IH]. intros [= <-]. unfold relay_value in E.
    pose proof (trim_Forall _ _ (cstring_is_cstr line)) as Ht. destruct (trim (cstring line)) as [|c t]; [done|]. destruct (_ || _ || _); [done|].
    destruct (split_char _ _) as [[key val]|] eqn:Es; [|done]. cbn in E. case_bool_decide; [|done]. injection E as <-. apply split_char_app in Es. rewrite Es in Ht.
    apply Forall_app in Ht as [_ Ht]. apply Forall_cons in Ht as [_ Ht]. by apply trim_Forall. }
  destruct (read_loop _ _) as [v|] eqn:E; [|constructor]. cbn. by apply Forall_take, (Hl _ _ _ E).
Qed.

Lemma result_screen_run turns h : app_ok h -> post (result_screen turns) (fun _ => app_ok) h.
Proof.
  revert h. induction turns as [|turns IH]; intros h Hh; cbn [result_screen]; [by apply post_ret|]. apply app_ask; [done|]. intros fr h1 Hh1 _ _.
  destruct (negb _); [by apply post_ret|]. destruct (negb _); [by apply post_ret|]. destruct (fr_touch fr) as [[|t ts]|]; [by apply IH|by apply post_ret|by apply IH].
Qed.
Lemma commit_run turns relay h : app_ok h -> post (commit turns relay) (fun _ => app_ok) h.
Proof.
  intros Hh. unfold commit. apply post_bind. eapply post_mono; [by apply save_relay_run|]. clear Hh. intros rc h1 [Hh Hs].
  destruct (Z.eqb_spec rc 0) as [E|_]; [|by apply result_screen_run]. destruct (Hs E) as (r & lines & En & Ec & Hsv). unfold trigger_reload. apply post_bind.
  apply app_ask; [done|]. intros [] h2 Hh2 Ec2 _; [|by apply post_ret, post_ret]. apply post_modify, post_ret. apply Forall_app_2; [done|]. apply Forall_singleton.
  rewrite Ec2, Ec. cbn. by eexists _, _, _.
Qed.
Lemma enter_run turns prefill h : is_cstr prefill -> app_ok h -> post (enter turns prefill) (fun _ => app_ok) h.
Proof.
  intros Hp Hh. unfold enter, keyboard_screen. destruct (keyboard_start_run prefill Hp) as (k & s & Ek & Hk). apply post_bind, post_bind. eapply post_mem; [exact Ek|].
  eapply post_mono; [by eapply keyboard_loop_run|]. clear Hh. intros [[relay|]|] h1 Hh; [by apply commit_run|by apply post_ret..].
Qed.
Lemma menu_loop_run turns status last h : app_ok h -> post (menu_loop turns status last) (fun _ => app_ok) h.
Proof.
  revert status last h. induction turns as [|turns IH]; intros status last h Hh; cbn [menu_loop]; [by apply post_ret|]. apply app_ask; [done|]. intros fr h1 Hh1 _ _.
  destruct (negb _); [by apply post_ret|]. apply app_ask; [done|]. intros file h2 Hh2 _ _. destruct (if _ <? _ then _ else _) as [status' last']. apply post_bind, post_modify.
  assert (Hh3 : app_ok (hb_say (HbShow (menu_status <$> status')) h2)) by (apply Forall_app_2; [done|by apply Forall_singleton]).
  destruct (menu_frame fr); [by apply post_ret|by apply IH].
Qed.
(** The row that is selected is one of the list, and no other is picked. *)
Definition in_list (rl : RelayList) (r : choice + Z) : Prop :=
  match r with inl (ChPicked i) | inr i => 0 <= i < rl_count rl | _ => True end.
Lemma tap_rows_run n rl t vi scroll sel : 0 <= vi -> 0 <= scroll -> 0 <= sel < rl_count rl -> in_list rl (tap_rows n rl t vi scroll sel).
Proof.
  revert vi sel. induction n as [|n IH]; intros vi sel Hv Hs Hc; cbn [tap_rows]; [done|]. destruct (Z.leb_spec (rl_count rl) (scroll + vi)); [done|].
  destruct (inside _ _ _ _ _); [|apply IH; lia]. destruct (Z.eqb_spec (scroll + vi) sel); [done|apply IH; lia].
Qed.
Lemma list_frame_run rl fr scroll sel : 0 <= scroll -> 0 <= sel < rl_count rl -> in_list rl (list_frame rl fr scroll sel).
Proof.
  intros Hs Hc. unfold list_frame. set (sel1 := if _ && _ then sel + 1 else sel). assert (H1 : 0 <= sel1 < rl_count rl).
  { unfold sel1. destruct (button _ _); cbn [andb]; [|done]. destruct (Z.ltb_spec sel (rl_count rl - 1)); lia. }
  set (sel2 := if _ && _ then sel1 - 1 else sel1). assert (H2 : 0 <= sel2 < rl_count rl).
  { unfold sel2. clearbody sel1. destruct (button _ _); cbn [andb]; [|done]. destruct (Z.ltb_spec 0 sel1); lia. }
  clearbody sel2. clear sel1 H1. case_match; [exact H2|]. case_match; [done|]. case_match; [done|]. destruct (fr_touch fr) as [[|t ts]|]; [exact H2| |exact H2].
  pose proof (tap_rows_run (Z.to_nat LIST_VISIBLE) rl t 0 scroll sel2 ltac:(lia) Hs H2) as Ht. destruct (tap_rows _ _ _ _ _ _) as [c|sel3]; [done|].
  cbn in Ht. cbv zeta. repeat case_match; done.
Qed.
Lemma list_loop_run turns rl scroll sel h : 0 <= sel < rl_count rl -> rl_shape rl -> rl_count rl <= 32 -> app_ok h -> post (list_loop turns rl STR_MAX scroll sel) (fun _ => app_ok) h.
Proof.
  revert scroll sel h. induction turns as [|turns IH]; intros scroll sel h Hc Hs H32 Hh; cbn [list_loop]; [by apply post_ret|]. apply app_ask; [done|]. intros fr h1 Hh1 _ _.
  destruct (negb _); [by apply post_ret|]. set (sc := clamp_scroll sel scroll). assert (Hsc : 0 <= sc) by (unfold sc, clamp_scroll; match goal with |- context [if ?x <? 0 then 0 else ?x] => destruct (Z.ltb_spec x 0) end; lia).
  pose proof (list_frame_run rl fr sc sel Hsc ltac:(lia)) as Hr. destruct (list_frame rl fr sc sel) as [[i| |]|sel']; cbn in Hr; [|by apply post_ret..|by apply IH].
  destruct (entry_str_total rl (Z.to_nat i) Hs ltac:(lia)) as (e & b & Ee & _).
  apply post_bind. eapply post_mem; [|by apply post_ret]. unfold entry_at. rewrite (proj2 (Z.leb_le _ _)) by lia. exact Ee.
Qed.
Lemma list_screen_run turns rl current h : list_wf rl -> app_ok h -> post (list_screen turns rl current STR_MAX) (fun _ => app_ok) h.
Proof.
  intros [Hs Hc] Hh. unfold list_screen. apply post_bind.
  assert (Hf : exists r, (if bool_decide (current = []) then Some None else find_entry rl current 0 (Z.to_nat (rl_count rl))) = Some r /\ forall k, r = Some k -> (0 <= k < 0 + Z.to_nat (rl_count rl))%nat).
  { case_bool_decide; [by eexists|]. apply find_total; [done|lia]. }
  destruct Hf as (r & Er & Hr). eapply post_mem; [exact Er|]. apply list_loop_run; [|done|lia|done]. destruct r as [k|]; [|lia]. specialize (Hr k eq_refl). lia.
Qed.
Lemma app_loop_run passes turns h : app_ok h -> post (app_loop passes turns) (fun _ => app_ok) h.
Proof.
  revert h. induction passes as [|passes IH]; intros h Hh; cbn [app_loop]; [by apply post_ret|]. apply app_ask; [done|]. intros fr h1 Hh1 _ _.
  destruct (negb _); [by apply post_ret|]. apply post_bind, post_gets. unfold id. pose proof (read_relay_cstr (hb_config h1) STR_MAX) as Hcur. set (current := (read_relay _ _).2) in *.
  apply load_list_wf; [done|]. intros rl h2 Hwf Hh2 _. apply post_bind. eapply post_mono; [by apply menu_loop_run|]. intros [action|] h3 Hh3; [|by apply post_ret]. cbv beta in Hh3. destruct (action =? 0); [by apply post_ret|].
  apply post_bind. apply (post_mono _ (fun _ => app_ok)).
  - destruct (action =? 1); [|by apply enter_run]. apply post_bind. eapply post_mono; [by apply list_screen_run|]. intros [[relay| |]|] h4 Hh4; cbv beta in Hh4;
      [by apply commit_run|by apply enter_run|by apply post_ret..].
  - intros [[]|] h4 Hh4; [by apply IH|by apply post_ret].
Qed.
End app.

(** ** What the client says of itself *)

(** The file the service loop writes, and the one that says why the client is not running. *)
Definition status_active (relay : bytes) (up_pkt up_b dn_pkt dn_b : Z) (state : bytes) : list bytes :=
  [cstr "active=1"; cstr "error="; cstr "relay=" ++ relay; cstr "up_pkt=" ++ dec 20 up_pkt; cstr "up_bytes=" ++ dec 20 up_b;
   cstr "dn_pkt=" ++ dec 20 dn_pkt; cstr "dn_bytes=" ++ dec 20 dn_b; cstr "state=" ++ state].
Definition status_error (msg : bytes) : list bytes := [cstr "active=0"; cstr "error=" ++ msg].

Definition short_line (l : bytes) : Prop := is_cstr l /\ 10 ∉ l /\ zlen l <= 126.
Lemma status_loop_run fuel ls s :
  Forall short_line ls -> (length ls < fuel)%nat -> status_loop fuel (text ls) s = foldl (fun s l => status_line s (l ++ newline)) s ls.
Proof.
  revert fuel s. induction ls as [|l ls IH]; intros fuel s Hok Hf; (destruct fuel as [|fuel]; [lia|]); cbn [status_loop]; [done|].
  apply Forall_cons in Hok as [(Hc & Hn & Hl) Hok]. cbn in Hf. rewrite text_cons, fgets_text by (done || lia).
  rewrite cstring_whole by (apply Forall_app_2; [done|by repeat constructor]). apply IH; [done|lia].
Qed.
Lemma read_status_text ls :
  Forall short_line ls ->
  read_status (Some (text ls)) =
    foldl (fun s l => status_line s (l ++ newline)) {| ss_active := false; ss_relay := []; ss_error_msg := []; ss_up_b := 0; ss_dn_b := 0 |} ls.
Proof. intros Hok. unfold read_status. apply status_loop_run; [done|]. pose proof (length_text ls). lia. Qed.
Lemma field_line s : 10 ∉ s -> zlen s <= 126 -> field_text (take 127 (s ++ newline)) = s.
Proof. intros Hn Hl. unfold zlen in Hl. rewrite take_ge by (rewrite length_app; cbn; lia). unfold field_text. unfold newline. by rewrite split_char_skip. Qed.
Lemma strtoull_dec n : 0 <= n < 2 ^ 64 -> strtoull (dec 20 n ++ newline) = n.
Proof.
  intros Hn. unfold strtoull. rewrite scan_int_dec by (done || lia || (by intros ? ? [= <- _])). unfold strtoul_value. rewrite (proj2 (Z.ltb_ge _ _)) by lia.
  unfold u64. by rewrite Z.mod_small by lia.
Qed.
Lemma number_short key n : is_cstr key -> 10 ∉ key -> zlen key <= 100 -> 0 <= n -> short_line (key ++ dec 20 n).
Proof.
  intros Hc Hn Hl H0. destruct (dec_cstr 20 n H0) as [Cd Ld]. split_and!; [by apply Forall_app_2| |unfold zlen in *; rewrite length_app; lia].
  rewrite elem_of_app. intros [|Hin]; [done|]. pose proof (dec_is_digits 20 n H0) as Hd. rewrite Forall_forall in Hd. by specialize (Hd _ Hin).
Qed.
Lemma keyed_short key s : is_cstr key -> 10 ∉ key -> zlen key <= 16 -> is_cstr s -> 10 ∉ s -> zlen s <= 100 -> short_line (key ++ s).
Proof. intros H1 H2 H3 H4 H5 H6. split_and!; [by apply Forall_app_2|rewrite elem_of_app; tauto|rewrite zlen_app; lia]. Qed.
(** Decides which key a line has. *)
Ltac keyed := repeat first [rewrite bool_decide_true by reflexivity | rewrite bool_decide_false by (let E := fresh in intros E; vm_compute in E; discriminate E)].
Ltac key_ok := first [vm_compute; by repeat constructor | literal_free | vm_compute; discriminate].
Section lines.
Context (s : SysStatus) (t : bytes).
Lemma line_active : status_line s (cstr "active=1" ++ t) =
  {| ss_active := true; ss_relay := ss_relay s; ss_error_msg := ss_error_msg s; ss_up_b := ss_up_b s; ss_dn_b := ss_dn_b s |}.
Proof. unfold status_line. keyed. by rewrite orb_true_r. Qed.
Lemma line_inactive : status_line s (cstr "active=0" ++ t) = s.
Proof. unfold status_line. keyed. rewrite orb_false_r. by destruct s. Qed.
Lemma line_relay : status_line s (cstr "relay=" ++ t) =
  {| ss_active := ss_active s; ss_relay := field_text (take 127 t); ss_error_msg := ss_error_msg s; ss_up_b := ss_up_b s; ss_dn_b := ss_dn_b s |}.
Proof. unfold status_line. keyed. by rewrite orb_false_r. Qed.
Lemma line_error : status_line s (cstr "error=" ++ t) =
  {| ss_active := ss_active s; ss_relay := ss_relay s; ss_error_msg := field_text (take 127 t); ss_up_b := ss_up_b s; ss_dn_b := ss_dn_b s |}.
Proof. unfold status_line. keyed. by rewrite orb_false_r. Qed.
Lemma line_up : status_line s (cstr "up_bytes=" ++ t) =
  {| ss_active := ss_active s; ss_relay := ss_relay s; ss_error_msg := ss_error_msg s; ss_up_b := strtoull t; ss_dn_b := ss_dn_b s |}.
Proof. unfold status_line. keyed. by rewrite orb_false_r. Qed.
Lemma line_dn : status_line s (cstr "dn_bytes=" ++ t) =
  {| ss_active := ss_active s; ss_relay := ss_relay s; ss_error_msg := ss_error_msg s; ss_up_b := ss_up_b s; ss_dn_b := strtoull t |}.
Proof. unfold status_line. keyed. by rewrite orb_false_r. Qed.
Lemma line_up_pkt : status_line s (cstr "up_pkt=" ++ t) = s.
Proof. unfold status_line. keyed. rewrite orb_false_r. by destruct s. Qed.
Lemma line_dn_pkt : status_line s (cstr "dn_pkt=" ++ t) = s.
Proof. unfold status_line. keyed. rewrite orb_false_r. by destruct s. Qed.
Lemma line_state : status_line s (cstr "state=" ++ t) = s.
Proof. unfold status_line. keyed. rewrite orb_false_r. by destruct s. Qed.
End lines.
Lemma status_lines_run relay up_pkt up_b dn_pkt dn_b state s :
  10 ∉ relay -> zlen relay <= 100 -> 0 <= up_b < 2 ^ 64 -> 0 <= dn_b < 2 ^ 64 ->
  foldl (fun s l => status_line s (l ++ newline)) s (status_active relay up_pkt up_b dn_pkt dn_b state) =
    {| ss_active := true; ss_relay := relay; ss_error_msg := []; ss_up_b := up_b; ss_dn_b := dn_b |}.
Proof.
  intros Hr Hl Hu Hd. cbn [foldl status_active]. rewrite <- !app_assoc.
  rewrite line_active, line_error, line_relay, line_up_pkt, line_up, line_dn_pkt, line_dn, line_state. cbn [ss_active ss_relay ss_error_msg ss_up_b ss_dn_b].
  rewrite field_line, !strtoull_dec by (done || lia). done.
Qed.

(** ** Results *)

(** C25: an address entered in the application reaches the client of the console.  For a text
    file of at most 62 lines, one of them at most about the address, saving an address and a
    port succeeds; the client loads the new file with all its other settings as they were,
    and finds the relay at this address and port whatever the name service answers. *)
Theorem setup_reaches_client `{HbSys} `{InetLaws} (h : hb) (ls : list bytes) (ip : bytes) (port : Z) (dns : nat -> bytes -> option bytes) (hosts : option bytes) (w : bool) :
  hb_config h = Some (text ls) -> Forall line_ok ls -> (length ls <= 62)%nat -> one_relay_line ls ->
  is_ipv4 ip -> 1 <= port <= 65535 -> (forall n, hb_writable n = true) ->
  exists h' file v, save_relay (addr_text ip port) h = Ok 0 h' /\ hb_config h' = Some file /\
    nx_config_load (Some file) = (0, set_cf_relay_addr v (nx_config_load (Some (text ls))).2) /\
    resolve_server dns w (cstring v) hosts = (0, (ip, port), hosts).
Proof.
  intros Hf Hok Hl Hone Hip Hp Hw. pose proof (addr_relay_ok ip port Hip ltac:(lia)) as Hr. destruct (setup_config ls _ Hr Hone) as (v & Hv & Ec).
  unfold save_relay. rewrite normalize_addr by done. destruct (addr_text ip port) as [|c t] eqn:Ea; [by apply addr_nonempty in Ea|]. rewrite <- Ea in *.
  unfold load_list, hb_ask, bind, gets, modify, ret, id. cbn beta iota.
  destruct (load_total (hb_relays h) _ (stack_shape (hb_stack (hb_ticks h)))) as (rl & El & Hwf). cbn [hb_relays]. rewrite El. cbn beta iota delta [mem ret].
  destruct (add_total rl (addr_text ip port) Hwf) as (rl' & Ead & Hwf'). rewrite Ead. cbn beta iota delta [mem ret]. rewrite !Hw.
  destruct (save_total rl' (hb_relays h) true Hwf') as (rf & Esv). cbn [hb_relays hb_ticks]. rewrite Esv. cbn beta iota delta [mem ret]. cbn [hb_config set_relays]. rewrite Hf. rewrite Hw. cbn beta iota.
  eexists _, (text (setup_lines ls (addr_text ip port))), v. split; [reflexivity|]. split.
  { cbn [hb_config set_config]. change (Z.to_nat (MAX_CFG_LINES - 1)) with 63%nat. rewrite read_lines_text by (done || lia). by rewrite setup_lines_run. }
  split; [|rewrite Hv; by apply resolve_addr]. rewrite !config_load_text by (try apply setup_lines_ok; done). rewrite Ec. cbn [fst snd cf_relay_addr set_cf_relay_addr].
  rewrite Hv, bool_decide_false; [done|]. by apply addr_nonempty.
Qed.

(** C26: the list of relays is a list of addresses with their names in order of use.  A file
    that was written for such a list is read back as that list, whatever the variable held;
    adding an address puts it in front with the name it had, or without a name, the last of
    32 falling off the end; and the file written then holds the new list.  Without a file, the
    list is the one of the program. *)
Theorem relay_list_kept (l : list (bytes * bytes)) (ip : bytes) (junk junk' : RelayList) :
  list_ok l -> l <> [] -> (length l <= 32)%nat -> entry_ok ip -> rl_shape junk -> rl_shape junk' ->
  exists rl rl' rl1 rl2, relaylist_load (Some (relays_text l)) junk = Some rl /\ rl_shows rl l /\
    relaylist_add rl ip = Some rl' /\ rl_shows rl' (promote l ip) /\
    relaylist_save rl' (Some (relays_text l)) true = Some (Some (relays_text (promote l ip))) /\
    relaylist_load (Some (relays_text (promote l ip))) junk' = Some rl1 /\ rl_shows rl1 (promote l ip) /\
    relaylist_load None junk = Some rl2 /\ rl_shows rl2 seeds.
Proof.
  intros Hok Hne Hl Hip Hj Hj'. destruct (load_list_run l junk Hok Hne Hl Hj) as (rl & E1 & Hs).
  destruct (add_run rl l ip Hs) as (rl' & E2 & Hadd); [apply Hip|apply Hip|eapply Forall_impl; [exact Hok|]; by intros x [_ (_ & ? & _)]|].
  destruct (promote_ok l ip Hok Hl Hip) as (Hok' & Hl' & Hne'). destruct (load_list_run (promote l ip) junk' Hok' Hne' Hl' Hj') as (rl1 & E3 & Hs1).
  destruct (seeds_run _ [] seeds (shape_empty junk Hj) ltac:(vm_compute; lia) seeds_ok) as (rl2 & E4 & Hs2).
  exists rl, rl', rl1, rl2. split_and!; [done|done|done|done|by apply save_list|done|done|exact E4|exact Hs2].
Qed.

(** C27: whatever is pressed and touched, whatever the files hold and whatever the local
    variables held before, no step of the application reads or writes outside the 256 bytes of
    the keyboard, the 32 rows of 64 and of 48 bytes of a list of relays, or a list.  An address
    of 63 characters or more can leave its row without a terminator; it is then read on into
    the rows behind it, but never behind the list.  The client is told to start over only after
    a configuration was written with an address that was accepted; one of its lines is about
    this address, unless the file had 63 lines and none about an address, where the address is
    lost. *)
Theorem setup_safe `{HbSys} (passes turns : nat) (h : hb) :
  hb_out h = [] -> exists r h', app_loop passes turns h = Ok r h' /\ Forall event_ok (hb_out h').
Proof. intros Ho. apply post_inv, app_loop_run. unfold app_ok. rewrite Ho. constructor. Qed.

(** A touch presses the key it is on, no two keys share a point, and the cross leads from
    every key to every other. *)
Theorem keys_usable (x y : Z) (i j : nat) (k : Key) :
  g_keys !! i = Some k -> (j < 14)%nat -> (hit x y k = true -> key_at x y = Some i) /\ reaches i j.
Proof. intros Hi Hj. split; [by apply key_at_hit|]. apply keys_reached; [|done]. by apply lookup_lt_Some in Hi. Qed.

(** The menu shows what the client wrote: with which relay it is active and how much it
    sent and received, that it waits for the network, or why it does not run. *)
Theorem status_shown (relay state msg : bytes) (up_pkt up_b dn_pkt dn_b : Z) :
  is_cstr relay -> 10 ∉ relay -> zlen relay <= 100 -> is_cstr state -> 10 ∉ state -> zlen state <= 100 -> is_cstr msg -> 10 ∉ msg -> zlen msg <= 100 ->
  0 <= up_pkt -> 0 <= up_b < 2 ^ 64 -> 0 <= dn_pkt -> 0 <= dn_b < 2 ^ 64 ->
  menu_status (read_status (Some (text (status_active relay up_pkt up_b dn_pkt dn_b state)))) = ShActive relay (up_b / 1024) (dn_b / 1024) /\
  menu_status (read_status (Some (text (status_error msg)))) = (if contains msg (cstr "WiFi") then ShWaitingWiFi else ShNotRunning msg).
Proof.
  intros R1 R2 R3 S1 S2 S3 M1 M2 M3 U1 U2 D1 D2. split.
  - rewrite read_status_text; [by rewrite status_lines_run by (done || lia)|]. unfold status_active. repeat apply Forall_cons_2; [..|done].
    1,2: split_and!; key_ok. 1,6: apply keyed_short; (done || key_ok). all: apply number_short; first [lia|key_ok].
  - rewrite read_status_text. 2: { unfold status_error. repeat apply Forall_cons_2; [split_and!; key_ok|apply keyed_short; (done || key_ok)|done]. }
    cbn [foldl status_error]. rewrite <- app_assoc, line_inactive, line_error, field_line by (done || lia). done.
Qed.

(** ** Concrete runs *)

Module Demo.
Export NxHosts.Demo.
Definition demo_junk : RelayList := stack_list (fun _ => 165).
Definition quiet : frame := {| fr_running := true; fr_down := 0; fr_stick := (0, 0); fr_now := 0; fr_touch := None |}.
Definition demo_sys (frames : list frame) : HbSys :=
  {| hb_frame := fun n => default quiet (frames !! n); hb_writable := fun _ => true; hb_status := fun _ => None; hb_stack := fun _ _ => 165 |}.
Definition demo_hb (config : option bytes) : hb := {| hb_config := config; hb_relays := None; hb_ticks := 0; hb_out := [] |}.
Definition demo_config : list bytes := [cstr "[server]"; cstr "relay_addr = YOUR_SERVER:11451"; cstr "username = ana"].
(** Someone holds a finger on the screen. *)
Definition held (x y : Z) : frame := {| fr_running := true; fr_down := 0; fr_stick := (0, 0); fr_now := 0; fr_touch := Some [(x, y)] |}.
End Demo.
Import Demo.

Lemma setup_reaches_client_witness :
  exists h' file v, save_relay (H := demo_sys []) (addr_text [10; 0; 0; 9] 4000) (demo_hb (Some (text demo_config))) = Ok 0 h' /\ hb_config h' = Some file /\
    nx_config_load (Some file) = (0, set_cf_relay_addr v (nx_config_load (Some (text demo_config))).2) /\
    resolve_server (fun _ _ => None) true (cstring v) None = (0, ([10; 0; 0; 9], 4000), None).
Proof.
  apply (setup_reaches_client (H := demo_sys []) (demo_hb (Some (text demo_config))) demo_config [10; 0; 0; 9] 4000).
  - reflexivity.
  - repeat apply Forall_cons_2; [..|constructor]; (split_and!; [vm_compute; repeat (constructor; [discriminate|]); constructor|literal_free|vm_compute; lia]).
  - vm_compute. lia.
  - intros i j li lj Hi Hj Hri Hrj. assert (Hone : forall n l, demo_config !! n = Some l -> is_relay_line l = true -> n = 1%nat).
    { intros [|[|[|n]]] l Hl Hr; cbn in Hl; simplify_eq; first [reflexivity | vm_compute in Hr; discriminate]. }
    by rewrite (Hone i li), (Hone j lj).
  - split; [reflexivity|]. repeat (constructor; [split; [discriminate|reflexivity]|]). constructor.
  - lia.
  - reflexivity.
Defined.

Definition demo_relays : list (bytes * bytes) := [(cstr "1.2.3.4:11451", cstr "home"); (cstr "5.6.7.8:11451", [])].
Lemma demo_relays_ok : list_ok demo_relays /\ entry_ok (cstr "5.6.7.8:11451").
Proof.
  assert (He : forall s : string, Forall addr_char (cstr s) -> cstr s <> [] -> (length (cstr s) <= 62)%nat -> entry_ok (cstr s)).
  { intros s Hs Hne Hl. split_and!; [done|by apply addr_cstr|done|apply plain_not; (done || lia)..|by apply plain_trim]. }
  assert (E1 : entry_ok (cstr "1.2.3.4:11451")) by (apply He; [vm_compute; repeat (constructor; [auto|]); constructor|done|vm_compute; lia]).
  assert (E2 : entry_ok (cstr "5.6.7.8:11451")) by (apply He; [vm_compute; repeat (constructor; [auto|]); constructor|done|vm_compute; lia]).
  split; [|done]. apply Forall_cons_2; [split; [done|]|apply Forall_cons_2; [split; [done|]|done]]; cbn [snd].
  - split_and!; [vm_compute; by repeat constructor|vm_compute; lia|literal_free|literal_free|done].
  - split_and!; [constructor|cbn; lia|by apply not_elem_of_nil..|done].
Qed.
Lemma relay_list_kept_witness :
  exists rl rl' rl1 rl2, relaylist_load (Some (relays_text demo_relays)) demo_junk = Some rl /\ rl_shows rl demo_relays /\
    relaylist_add rl (cstr "5.6.7.8:11451") = Some rl' /\ rl_shows rl' (promote demo_relays (cstr "5.6.7.8:11451")) /\
    relaylist_save rl' (Some (relays_text demo_relays)) true = Some (Some (relays_text (promote demo_relays (cstr "5.6.7.8:11451")))) /\
    relaylist_load (Some (relays_text (promote demo_relays (cstr "5.6.7.8:11451")))) demo_junk = Some rl1 /\ rl_shows rl1 (promote demo_relays (cstr "5.6.7.8:11451")) /\
    relaylist_load None demo_junk = Some rl2 /\ rl_shows rl2 seeds.
Proof.
  apply (relay_list_kept demo_relays (cstr "5.6.7.8:11451") demo_junk demo_junk (proj1 demo_relays_ok)); [discriminate|vm_compute; lia|apply demo_relays_ok|apply stack_shape|apply stack_shape].
Defined.

Lemma setup_safe_witness :
  exists r h', app_loop (H := demo_sys [held 300 380]) 2 3 (demo_hb None) = Ok r h' /\ Forall event_ok (hb_out h').
Proof. apply (setup_safe (H := demo_sys [held 300 380]) 2 3 (demo_hb None)). reflexivity. Defined.

Lemma keys_usable_witness :
  (hit 70 240 {| k_x := 60; k_y := 230; k_w := 108; k_h := 130; k_val := 49 |} = true -> key_at 70 240 = Some 0%nat) /\ reaches 0 13.
Proof. apply (keys_usable 70 240 0 13 {| k_x := 60; k_y := 230; k_w := 108; k_h := 130; k_val := 49 |}); [vm_compute; reflexivity|lia]. Defined.

Lemma status_shown_witness :
  menu_status (read_status (Some (text (status_active (cstr "1.2.3.4:11451") 7 4096 3 1024 (cstr "host"))))) = ShActive (cstr "1.2.3.4:11451") (4096 / 1024) (1024 / 1024) /\
  menu_status (read_status (Some (text (status_error (cstr "Esperando WiFi..."))))) =
    (if contains (cstr "Esperando WiFi...") (cstr "WiFi") then ShWaitingWiFi else ShNotRunning (cstr "Esperando WiFi...")).
Proof.
  apply (status_shown (cstr "1.2.3.4:11451") (cstr "host") (cstr "Esperando WiFi...") 7 4096 3 1024);
    first [lia | literal_free | vm_compute; lia | vm_compute; discriminate | vm_compute; repeat (constructor; [discriminate|]); constructor].
Defined.

(** The finger that opens the list picks a row of it: the touch is seen again in the next
    pass, selects the row under it, and in the pass after that confirms it.  A relay is saved
    that nobody chose. *)
Example held_touch_picks :
  let sys := demo_sys (replicate 20 (held 300 380)) in
  match app_loop (H := sys) 1 3 (demo_hb None) with
  | Ok _ h' => read_relay (hb_config h') STR_MAX = (0, cstr "45.83.241.140:11451")
  | Stop _ => False
  end.
Proof. vm_compute. reflexivity. Qed.
(** A number of more than 32 bits is taken modulo 2^32, so this is saved as an address. *)
Example literal_wraps : normalize_relay_for_save (cstr "4294967297.1.1.1:70000") 128 = Some (cstr "4294967297.1.1.1:11451").
Proof. vm_compute. reflexivity. Qed.
(** With two lines about the address the application shows and replaces the first, and the
    client takes the last. *)
Example other_relay_used :
  let file := Some (text [cstr "relay_addr = 1.1.1.1:1"; cstr "relay_addr = 2.2.2.2:2"]) in
  (read_relay file STR_MAX).2 = cstr "1.1.1.1:1" /\ cstring (cf_relay_addr (nx_config_load file).2) = cstr "2.2.2.2:2".
Proof. vm_compute. auto. Qed.
(** An address of 70 characters fills its row: what is read there goes on in the next row. *)
Example long_row_runs_on :
  (rl ← relaylist_load (Some (text [replicate 70 49; cstr "5.6.7.8:1"])) demo_junk; entry_str rl 0) = Some (replicate 63 49 ++ 165 :: cstr "5.6.7.8:1").
Proof. vm_compute. reflexivity. Qed.
(** In a file of 63 lines without an address, saving succeeds and saves nothing. *)
Example full_file_not_saved :
  match save_relay (H := demo_sys []) (cstr "1.2.3.4:5") (demo_hb (Some (text (replicate 63 (cstr ";"))))) with
  | Ok rc h' => rc = 0 /\ (read_relay (hb_config h') STR_MAX).1 = -1
  | Stop _ => False
  end.
Proof. vm_compute. auto. Qed.
