(* ===== verification/LanProtocol.v ===== *)
(** The packets of local play: [ldn_mitm/source/lan_protocol.cpp] of the console module
    [ldn_mitm] that ships with the repository.

    A packet is a header of twelve bytes and a body, which is compressed when that does not
    make it longer: a run of zeros becomes a zero and a count.  [LanSocket] collects what a
    socket delivers in a buffer of 2048 bytes and hands complete packets to a callback, one
    for each read.  The same packets travel over UDP, mirrored to the bridge of [LdnBridge],
    and over TCP.

    The socket calls are arguments: what [recvfrom] returned and the bytes it stored.
    [StackBytes] is what an uninitialised array holds.

    Shown here: decompressing gives back what was compressed, inside both buffers; no
    sequence of received bytes makes the reader leave its buffer; over TCP, however the
    stream is cut, the packets handed to the callback are those sent, in order and
    unchanged, and there is always room for the next read; that a read hands over at most
    one packet, so that a packet that arrives together with another one waits for the next
    arrival; and that an incomplete datagram swallows the datagrams that follow it. *)

From stdpp Require Import list.
From S2P Require Import Prelude Byteorder.

(** ** The code *)

Module LANPacketType.
Definition Scan : Z := 0.
Definition ScanResp : Z := 1.
Definition Connect : Z := 2.
Definition SyncNetwork : Z := 3.
End LANPacketType.

Definition LANMagic : Z := 0x11451400.
Definition BufferSize : Z := 2048.

Record LANPacketHeader := {
  lh_magic : Z;              (* u32 *)
  lh_type : Z;               (* u8 *)
  lh_compressed : Z;         (* u8 *)
  lh_length : Z;             (* u16 *)
  lh_decompress_length : Z;  (* u16 *)
}.
Definition HeaderSize : Z := 12.

(** The members of [LanSocket] other than its descriptor. *)
Record LanSocket := {
  ls_fd : Z;
  ls_buffer : bytes;         (* BufferSize bytes *)
  ls_recvSize : Z;           (* u16 *)
}.

Definition set_ls_fd (v : Z) (s : LanSocket) : LanSocket :=
  {| ls_fd := v; ls_buffer := ls_buffer s; ls_recvSize := ls_recvSize s |}.
Definition set_ls_buffer (v : bytes) (s : LanSocket) : LanSocket :=
  {| ls_fd := ls_fd s; ls_buffer := v; ls_recvSize := ls_recvSize s |}.
Definition set_ls_recvSize (v : Z) (s : LanSocket) : LanSocket :=
  {| ls_fd := ls_fd s; ls_buffer := ls_buffer s; ls_recvSize := v |}.

(** *** Compression *)

(** The inner loop of [compress]: the zeros that follow, at most 255 of them. *)
Fixpoint count_zeros (input : bytes) (count : Z) : Z * bytes :=
  match input with
  | c :: input' => if (c =? 0) && (count <? 0xFF) then count_zeros input' (count + 1) else (count, input)
  | [] => (count, [])
  end.

(** The outer loop, [output] being what was written; [None] is a return of -1. *)
Fixpoint compress_loop (fuel : nat) (input output : bytes) (output_size : Z) : option (bytes * bytes) :=
  match fuel, input with
  | S fuel, c :: input' =>
      if zlen output <? output_size then
        if c =? 0 then
          let '(count, rest) := count_zeros input' 0 in
          if zlen (output ++ [0]) =? output_size then None
          else compress_loop fuel rest (output ++ [0; count]) output_size
        else compress_loop fuel input' (output ++ [c]) output_size
      else Some (input, output)
  | _, _ => Some (input, output)
  end.

(** The bytes written, when the result is 0. *)
Definition compress (input : bytes) (output_size : Z) : option bytes :=
  '(rest, output) ← compress_loop (length input) input [] output_size;
  if zlen rest =? 0 then Some output else None.

(** The loop of [decompress]; the zeros of a run stop at the end of the output. *)
Fixpoint decompress_loop (fuel : nat) (input output : bytes) (output_size : Z) : option (bytes * bytes) :=
  match fuel, input with
  | S fuel, c :: input' =>
      if zlen output <? output_size then
        if c =? 0 then
          match input' with
          | [] => None
          | count :: rest =>
              decompress_loop fuel rest
                (output ++ [c] ++ replicate (Z.to_nat (Z.min count (output_size - zlen output - 1))) c) output_size
          end
        else decompress_loop fuel input' (output ++ [c]) output_size
      else Some (input, output)
  | _, _ => Some (input, output)
  end.

Definition decompress (input : bytes) (output_size : Z) : option bytes :=
  '(rest, output) ← decompress_loop (length input) input [] output_size;
  if zlen rest =? 0 then Some output else None.

(** *** Packets *)

Class StackBytes := stack_byte : Z -> Z.
Definition fresh `{StackBytes} (n : Z) : bytes := (fun i => u8 (stack_byte i)) <$> seqZ 0 n.

Section code.
Context `{Host} `{StackBytes}.

Definition header_bytes (h : LANPacketHeader) : bytes :=
  store 4 (lh_magic h) ++ [lh_type h; lh_compressed h] ++ store 2 (lh_length h) ++ store 2 (lh_decompress_length h) ++ [0; 0].

(** A cast of the buffer to [LANPacketHeader *] and its members. *)
Definition read_header (buf : bytes) : option LANPacketHeader :=
  magic ← mem_get buf 0 4;
  type ← mem_get buf 4 1;
  compressed ← mem_get buf 5 1;
  length ← mem_get buf 6 2;
  decompress_length ← mem_get buf 8 2;
  Some {| lh_magic := load magic; lh_type := load type; lh_compressed := load compressed; lh_length := load length;
          lh_decompress_length := load decompress_length |}.

Definition prepareHeader (type : Z) : LANPacketHeader :=
  {| lh_magic := LANMagic; lh_type := type; lh_compressed := 0; lh_length := 0; lh_decompress_length := 0 |}.

(** [sendPacket] up to its [sendto]: the bytes that are sent. *)
Definition sendPacket (type : Z) (data : option bytes) : option bytes :=
  let body := default [] data in
  let size := zlen body in
  let header := {| lh_magic := lh_magic (prepareHeader type); lh_type := type; lh_compressed := 0; lh_length := u16 size;
                   lh_decompress_length := 0 |} in
  let buf := fresh (size + HeaderSize) in
  '(header, buf) ←
    (if 0 <? size then
       match compress body size with
       | Some compressed =>
           buf ← mem_put buf HeaderSize compressed;
           Some ({| lh_magic := lh_magic header; lh_type := type; lh_compressed := 1; lh_length := u16 (zlen compressed);
                    lh_decompress_length := lh_length header |}, buf)
       | None =>
           buf ← mem_put buf HeaderSize body;
           Some (header, buf)
       end
     else Some (header, buf));
  buf ← mem_put buf 0 (header_bytes header);
  mem_get buf 0 (lh_length header + HeaderSize).

Definition resetRecvSize : M LanSocket unit := modify (set_ls_recvSize 0).

(** [recvPartPacket], [len] being what [recvfrom] returned and [data] what it stored: the
    result and what the caller's buffer holds. *)
Definition recvPartPacket (len : Z) (data : bytes) : M LanSocket (Z * bytes) :=
  if len <=? 0 then ret (len, [])
  else
    let* s := gets id in
    let* buffer := mem (mem_put (ls_buffer s) (ls_recvSize s) data) in
    let recvSize := u16 (ls_recvSize s + len) in
    modify (fun s => set_ls_recvSize recvSize (set_ls_buffer buffer s)) ;;;
    if recvSize <? HeaderSize then ret (0, [])
    else
      let* header := mem (read_header buffer) in
      if negb (lh_magic header =? LANMagic) then resetRecvSize ;;; ret (0, [])
      else
        let total := HeaderSize + lh_length header in
        if BufferSize <? total then resetRecvSize ;;; ret (0, [])
        else if recvSize <? total then ret (0, [])
        else
          let* out := mem (memcpy (fresh BufferSize) 0 buffer 0 total) in
          let recvSize := u16 (recvSize - total) in
          let* buffer := mem (memcpy buffer 0 buffer total recvSize) in
          modify (fun s => set_ls_recvSize recvSize (set_ls_buffer buffer s)) ;;;
          ret (total, out).

(** [recvPacket] up to the callback: its result, or the type and the body. *)
Definition recv_message (len : Z) (data : bytes) : M LanSocket (Z + Z * bytes) :=
  let* (len, buffer) := recvPartPacket len data in
  if len <=? 0 then ret (inl len)
  else
    let* header := mem (read_header buffer) in
    let* body := mem (mem_get buffer HeaderSize (len - HeaderSize)) in
    if negb (lh_compressed header =? 0) then
      match decompress body BufferSize with
      | None => ret (inl (-1))
      | Some out =>
          if negb (zlen out =? lh_decompress_length header) then ret (inl (-1))
          else ret (inr (lh_type header, out))
      end
    else ret (inr (lh_type header, body)).

(** [recvPacket] on a socket that is part of a larger state. *)
Definition recvPacket {S} (on_socket : forall A, M LanSocket A -> M S A) (callback : Z -> bytes -> M S Z)
    (len : Z) (data : bytes) : M S Z :=
  let* m := on_socket _ (recv_message len data) in
  match m with
  | inl len => ret len
  | inr (type, body) => callback type body
  end.
End code.

(** [TcpLanSocketBase::recvfrom]: what the system returned, the end of the stream being an
    error; [UdpLanSocketBase] returns it as it is. *)
Definition tcp_recvfrom (rc : Z) : Z := if rc =? 0 then - 0xFD23 else rc.
Definition udp_recvfrom (rc : Z) : Z := rc.

(** [UdpLanSocketBase::sendto] sends every datagram also to the bridge on this console. *)
Definition bridge_addr : Z * Z := (0x7f000001, 11453).

(** ** Compression *)

(** What compressed data stands for: a byte for itself, a zero and a count for a run. *)
Inductive packed : bytes -> bytes -> Prop :=
| packed_nil : packed [] []
| packed_byte c w d : c <> 0 -> packed w d -> packed (c :: w) (c :: d)
| packed_run n w d : is_u8 n -> packed w d -> packed (0 :: n :: w) (0 :: replicate (Z.to_nat n) 0 ++ d).

Lemma count_zeros_spec input count k rest :
  0 <= count <= 255 -> count_zeros input count = (k, rest) ->
  count <= k <= 255 /\ input = replicate (Z.to_nat (k - count)) 0 ++ rest.
Proof.
  revert count. induction input as [|c input IH]; cbn; intros count Hc.
  { intros [= <- <-]. rewrite Z.sub_diag. split; [lia|done]. }
  destruct (Z.eqb_spec c 0) as [->|]; cbn; [|intros [= <- <-]; rewrite Z.sub_diag; split; [lia|done]].
  destruct (Z.ltb_spec count 255); [|intros [= <- <-]; rewrite Z.sub_diag; split; [lia|done]].
  intros [Hk ->]%IH; [|lia]. split; [lia|]. replace (Z.to_nat (k - count)) with (S (Z.to_nat (k - (count + 1)))) by lia. done.
Qed.

Lemma compress_loop_packed fuel input output size output' :
  (length input <= fuel)%nat -> zlen output <= size -> compress_loop fuel input output size = Some ([], output') ->
  exists w, output' = output ++ w /\ packed w input /\ zlen output' <= size.
Proof.
  revert input output. induction fuel as [|fuel IH]; intros [|c input] output Hf Ho; cbn in Hf |- *; try lia;
    try (intros [= <-]; exists []; rewrite app_nil_r; split; [done|]; split; [constructor|lia]).
  destruct (Z.ltb_spec (zlen output) size); [|done]. destruct (Z.eqb_spec c 0) as [->|Hc].
  - destruct (count_zeros input 0) as [n rest] eqn:E. apply count_zeros_spec in E as [Hn ->]; [|lia].
    rewrite length_app, length_replicate in Hf. destruct (Z.eqb_spec (zlen (output ++ [0])) size); [done|].
    intros (w & -> & Hw & Hl)%IH; [|lia|zlia]. exists (0 :: n :: w). split; [by rewrite <- app_assoc|]. split; [|done].
    rewrite Z.sub_0_r. constructor; [unfold is_u8; lia|done].
  - intros (w & -> & Hw & Hl)%IH; [|lia|zlia]. exists (c :: w). split; [by rewrite <- app_assoc|]. split; [by constructor|done].
Qed.

Lemma compress_packed input size w :
  0 <= size -> compress input size = Some w -> packed w input /\ zlen w <= size.
Proof.
  intros Hs. unfold compress. intros ([rest out] & E & Hw)%bind_Some. cbn in Hw.
  destruct (Z.eqb_spec (zlen rest) 0) as [->%zlen_0_inv|]; [|done]. injection Hw as [= ->].
  apply compress_loop_packed in E as (w' & -> & Hp & Hl); [done|lia|by rewrite zlen_nil].
Qed.

Lemma decompress_loop_packed w d fuel output size :
  packed w d -> (length w <= fuel)%nat -> zlen output + zlen d <= size ->
  decompress_loop fuel w output size = Some ([], output ++ d).
Proof.
  intros Hw. revert fuel output. induction Hw as [|c w d Hc Hw IH|n w d Hn Hw IH]; intros fuel output Hf Hs; cbn in Hf.
  - rewrite app_nil_r. by destruct fuel.
  - destruct fuel as [|fuel]; [lia|]. cbn. rewrite zlen_cons in Hs. pose proof (zlen_nonneg d).
    rewrite (proj2 (Z.ltb_lt _ _)), (proj2 (Z.eqb_neq _ _)) by lia. rewrite IH by zlia. by rewrite <- app_assoc.
  - destruct fuel as [|fuel]; [lia|]. cbn. rewrite zlen_cons, zlen_app, zlen_replicate in Hs by (unfold is_u8 in *; lia).
    pose proof (zlen_nonneg d). unfold is_u8 in *. rewrite (proj2 (Z.ltb_lt _ _)) by lia. rewrite Z.min_l by lia. rewrite IH; [|lia|].
    + by rewrite <- !app_assoc.
    + rewrite zlen_app, zlen_cons, zlen_replicate by lia. lia.
Qed.

Lemma decompress_packed w d size : packed w d -> zlen d <= size -> decompress w size = Some d.
Proof. intros Hw Hs. unfold decompress. by rewrite (decompress_loop_packed w d). Qed.

Lemma decompress_loop_bound fuel input output size rest output' :
  zlen output <= size -> decompress_loop fuel input output size = Some (rest, output') -> zlen output' <= size.
Proof.
  revert input output. induction fuel as [|fuel IH]; intros [|c input] output Ho; cbn; try (by intros [= <- <-]).
  destruct (Z.ltb_spec (zlen output) size); [|by intros [= <- <-]]. destruct (c =? 0).
  - destruct input as [|count input]; [done|]. apply IH. rewrite zlen_app, zlen_cons. unfold zlen in *. rewrite length_replicate. lia.
  - apply IH. zlia.
Qed.
Lemma decompress_bound input size out : 0 <= size -> decompress input size = Some out -> zlen out <= size.
Proof.
  intros Hs. unfold decompress. intros ([rest out'] & E & Hw)%bind_Some. cbn in Hw. destruct (zlen rest =? 0); [|done]. injection Hw as [= ->].
  by eapply decompress_loop_bound; [|exact E].
Qed.

Lemma compress_loop_is_bytes fuel input output size rest output' :
  is_bytes input -> is_bytes output -> compress_loop fuel input output size = Some (rest, output') -> is_bytes output'.
Proof.
  revert input output. induction fuel as [|fuel IH]; intros [|c input] output Hi Ho; cbn; try (by intros [= <- <-]).
  destruct (zlen output <? size); [|by intros [= <- <-]]. apply Forall_cons in Hi as [Hc Hi]. destruct (c =? 0).
  - destruct (count_zeros input 0) as [n rest'] eqn:E. apply count_zeros_spec in E as [Hn ->]; [|lia].
    destruct (zlen (output ++ [0]) =? size); [done|]. apply Forall_app in Hi as [_ Hi]. apply IH; [done|].
    apply Forall_app; split; [done|]. repeat constructor; unfold is_u8; lia.
  - apply IH; [done|]. apply Forall_app; split; [done|]. constructor; [done|constructor].
Qed.

Lemma decompress_loop_is_bytes fuel input output size rest output' :
  is_bytes input -> is_bytes output -> decompress_loop fuel input output size = Some (rest, output') -> is_bytes output'.
Proof.
  revert input output. induction fuel as [|fuel IH]; intros [|c input] output Hi Ho; cbn; try (by intros [= <- <-]).
  destruct (zlen output <? size); [|by intros [= <- <-]]. apply Forall_cons in Hi as [Hc Hi]. destruct (c =? 0).
  - destruct input as [|count input]; [done|]. apply Forall_cons in Hi as [_ Hi]. apply IH; [done|].
    apply Forall_app; split; [done|]. apply Forall_cons; split; [done|]. by apply Forall_replicate.
  - apply IH; [done|]. apply Forall_app; split; [done|]. by apply Forall_singleton.
Qed.
Lemma decompress_is_bytes input size out : is_bytes input -> decompress input size = Some out -> is_bytes out.
Proof.
  intros Hi. unfold decompress. intros ([rest out'] & E & Hw)%bind_Some. cbn in Hw. destruct (zlen rest =? 0); [|done]. injection Hw as [= ->].
  eapply decompress_loop_is_bytes; [exact Hi|constructor|exact E].
Qed.

(** ** The reader *)

(** The received bytes that wait, and what they mean for the next read. *)
Definition held (s : LanSocket) : bytes := take (Z.to_nat (ls_recvSize s)) (ls_buffer s).

Record socket_ok (s : LanSocket) : Prop := {
  sk_buffer : zlen (ls_buffer s) = BufferSize;
  sk_bytes : is_bytes (ls_buffer s);
  sk_size : 0 <= ls_recvSize s <= BufferSize;
}.

Lemma zlen_held s : socket_ok s -> zlen (held s) = ls_recvSize s.
Proof. intros [Hb _ Hs]. unfold held. apply zlen_take. lia. Qed.

Lemma zlen_fresh `{StackBytes} n : 0 <= n -> zlen (fresh n) = n.
Proof. intros. unfold fresh, zlen. rewrite length_fmap, length_seqZ. lia. Qed.

Section reader.
Context `{Host} `{StackBytes}.

Definition message (h : LANPacketHeader) (body : bytes) : Z + Z * bytes :=
  if negb (lh_compressed h =? 0) then
    match decompress body BufferSize with
    | None => inl (-1)
    | Some out => if negb (zlen out =? lh_decompress_length h) then inl (-1) else inr (lh_type h, out)
    end
  else inr (lh_type h, body).

(** A read on the bytes themselves: the result and the bytes that wait afterwards. *)
Definition read_step (h : bytes) : (Z + Z * bytes) * bytes :=
  if zlen h <? HeaderSize then (inl 0, h)
  else
  match read_header h with
  | None => (inl 0, h)
  | Some hd =>
      let total := HeaderSize + lh_length hd in
      if negb (lh_magic hd =? LANMagic) || (BufferSize <? total) then (inl 0, [])
      else if zlen h <? total then (inl 0, h)
      else (message hd (take (Z.to_nat (lh_length hd)) (drop 12 h)), drop (Z.to_nat total) h)
  end.

Lemma read_header_take (h : bytes) : 12 <= zlen h -> read_header h = read_header (take 12 h).
Proof.
  intros. unfold read_header.
  assert (Hg : forall o n, 0 <= o -> 0 <= n -> o + n <= 12 -> mem_get h o n = mem_get (take 12 h) o n).
  { intros o n Ho Hn Hl. assert (zlen (take 12 h) = 12) by (unfold zlen in *; rewrite length_take; lia).
    rewrite !mem_get_Some by lia. f_equal. rewrite skipn_firstn_comm, take_take. f_equal. lia. }
  by rewrite !Hg by lia.
Qed.

Lemma read_header_total (h : bytes) : 12 <= zlen h -> exists hd, read_header h = Some hd.
Proof. intros. unfold read_header. rewrite !mem_get_Some by lia. by eexists. Qed.

Lemma load2_range (b : bytes) : is_bytes b -> zlen b = 2 -> 0 <= load b < 2 ^ 16.
Proof.
  intros Hb Hl. unfold load. destruct host_endian.
  - pose proof (le_val_range b Hb) as Hr. rewrite Hl in Hr. exact Hr.
  - pose proof (le_val_range (reverse b)) as Hr. unfold zlen in *. rewrite length_reverse, Hl in Hr. apply Hr. by apply Forall_reverse.
Qed.

Lemma read_header_length (h : bytes) hd : is_bytes h -> read_header h = Some hd -> is_u16 (lh_length hd).
Proof.
  intros Hb. unfold read_header. intros (a & _ & (b & _ & (c & _ & (d & Ed & (e & _ & [= <-])%bind_Some)%bind_Some)%bind_Some)%bind_Some)%bind_Some.
  cbn. apply load2_range; [by eapply mem_get_is_bytes|by eapply mem_get_zlen].
Qed.

(** The buffer after [n] of its bytes were taken: the others are at the front. *)
Lemma recv_moved (buffer : bytes) n k :
  zlen buffer = BufferSize -> 0 <= k -> 0 <= n -> n + k <= BufferSize ->
  exists buffer', memcpy buffer 0 buffer n k = Some buffer' /\ zlen buffer' = BufferSize /\
    take (Z.to_nat k) buffer' = take (Z.to_nat k) (drop (Z.to_nat n) buffer) /\ (is_bytes buffer -> is_bytes buffer').
Proof.
  intros Hb Hk Hn Hl. unfold memcpy. rewrite mem_get_Some by lia. cbn. set (d := take _ _).
  assert (Hd : zlen d = k) by (apply zlen_take; rewrite zlen_drop; lia).
  destruct (mem_put buffer 0 d) as [b'|] eqn:E; [|rewrite mem_put_Some in E by lia; done].
  exists b'. split; [done|]. pose proof (mem_put_zlen _ _ _ _ E). split; [lia|]. split.
  - apply mem_put_inv in E as (_ & _ & ->). cbn [app]. change (take (Z.to_nat 0) buffer) with (@nil Z). cbn [app]. apply take_app_length'. unfold zlen in Hd. lia.
  - intros Hby. eapply mem_put_is_bytes; [done| |done]. apply Forall_take, Forall_drop, Hby.
Qed.

(** What [recvPartPacket] gives for the bytes [h]: nothing yet, or a packet of [len] bytes. *)
Definition part_spec (h : bytes) (len : Z) (out h' : bytes) : Prop :=
  (len = 0 /\ read_step h = (inl 0, h')) \/
  exists hd, read_header h = Some hd /\ len = HeaderSize + lh_length hd /\ 12 <= len <= zlen h /\
    zlen out = BufferSize /\ take (Z.to_nat len) out = take (Z.to_nat len) h /\
    read_step h = (message hd (take (Z.to_nat (lh_length hd)) (drop 12 h)), h').

(** A complete packet at the front of the buffer. *)
Lemma recv_copied (buffer h : bytes) total :
  zlen buffer = BufferSize -> take (Z.to_nat (zlen h)) buffer = h -> 12 <= total <= zlen h -> zlen h <= BufferSize ->
  exists out buffer', memcpy (fresh BufferSize) 0 buffer 0 total = Some out /\ zlen out = BufferSize /\
    take (Z.to_nat total) out = take (Z.to_nat total) h /\
    memcpy buffer 0 buffer total (zlen h - total) = Some buffer' /\ zlen buffer' = BufferSize /\
    take (Z.to_nat (zlen h - total)) buffer' = drop (Z.to_nat total) h /\ (is_bytes buffer -> is_bytes buffer').
Proof.
  intros Hb Eh Ht Hh. assert (Ebt : take (Z.to_nat total) buffer = take (Z.to_nat total) h) by (rewrite <- Eh, take_take; f_equal; lia).
  destruct (recv_moved buffer total (zlen h - total)) as (buffer' & Eb' & Hzb' & Et' & Hby'); [lia..|].
  unfold memcpy at 1. rewrite mem_get_Some by lia. cbn [mbind option_bind]. rewrite drop_0, Ebt.
  pose proof (zlen_take total h ltac:(lia)) as Hzt. unfold BufferSize in *.
  destruct (mem_put (fresh 2048) 0 (take (Z.to_nat total) h)) as [out|] eqn:Eo.
  2: { rewrite mem_put_Some in Eo; [done|lia|]. rewrite zlen_fresh; lia. }
  pose proof (mem_put_zlen _ _ _ _ Eo) as Hz. rewrite zlen_fresh in Hz by lia. exists out, buffer'.
  split; [done|]. split; [done|]. split.
  { apply mem_put_inv in Eo as (_ & _ & ->). change (take (Z.to_nat 0) (fresh 2048)) with (@nil Z). cbn [app].
    unfold zlen in Hzt. apply take_app_length'. lia. }
  do 2 (split; [done|]). split; [|done]. rewrite Et'.
  transitivity (drop (Z.to_nat total) (take (Z.to_nat (zlen h)) buffer)); [|by rewrite Eh]. rewrite skipn_firstn_comm. f_equal. lia.
Qed.

Lemma recvPartPacket_run s data :
  socket_ok s -> is_bytes data -> 0 < zlen data -> ls_recvSize s + zlen data <= BufferSize ->
  exists len out s', recvPartPacket (zlen data) data s = Ok (len, out) s' /\
    socket_ok s' /\ part_spec (held s ++ data) len out (held s') /\ ls_fd s' = ls_fd s.
Proof.
  intros Hs Hd Hn Hr. pose proof (zlen_held s Hs) as Hh. destruct Hs as [Hb Hby Hsz]. set (h := held s ++ data).
  assert (Hzh : zlen h = ls_recvSize s + zlen data) by (unfold h; rewrite zlen_app; lia).
  unfold recvPartPacket. rewrite (proj2 (Z.leb_gt _ _)) by lia. unfold bind at 1, gets at 1, id.
  destruct (mem_put (ls_buffer s) (ls_recvSize s) data) as [buffer|] eqn:E; [|rewrite mem_put_Some in E by lia; done].
  pose proof (mem_put_zlen _ _ _ _ E) as Hzb. pose proof (mem_put_is_bytes _ _ _ _ Hby Hd E) as Hbb.
  assert (Eh : take (Z.to_nat (zlen h)) buffer = h).
  { apply mem_put_inv in E as (_ & _ & ->). rewrite app_assoc. fold (held s). fold h. rewrite to_nat_zlen. by rewrite take_app_length. }
  clearbody h. clear E. unfold mem at 1, bind at 1, ret at 1. rewrite <- Hzh. rewrite u16_id by (unfold is_u16, BufferSize in *; lia).
  unfold bind at 1, modify at 1. set (s1 := set_ls_recvSize _ _).
  assert (Hs1 : socket_ok s1) by (constructor; cbn; [lia|done|lia]). assert (Hh1 : held s1 = h) by exact Eh.
  assert (Hreset : socket_ok (set_ls_recvSize 0 s1)) by (constructor; cbn; [lia|done|unfold BufferSize; lia]).
  unfold part_spec, read_step. destruct (Z.ltb_spec (zlen h) HeaderSize) as [Hlt|Hge].
  { exists 0, [], s1. split; [done|]. split; [done|]. split; [left; by rewrite Hh1|done]. }
  assert (Hrh : read_header buffer = read_header h).
  { unfold HeaderSize, BufferSize in *. rewrite (read_header_take buffer), (read_header_take h) by lia. rewrite <- Eh, take_take. do 2 f_equal. lia. }
  rewrite Hrh. destruct (read_header_total h Hge) as [hd Ehd]. rewrite Ehd. unfold mem at 1, bind at 1, ret at 1.
  assert (Hl : is_u16 (lh_length hd)) by (eapply read_header_length; [|exact Ehd]; rewrite <- Eh; by apply Forall_take).
  unfold is_u16 in Hl. destruct (Z.eqb_spec (lh_magic hd) LANMagic) as [Em|Em]; cbn [negb orb].
  2: { exists 0, [], (set_ls_recvSize 0 s1). split; [done|]. split; [done|]. split; [by left|done]. }
  destruct (Z.ltb_spec BufferSize (HeaderSize + lh_length hd)) as [Ht|Ht].
  { exists 0, [], (set_ls_recvSize 0 s1). split; [done|]. split; [done|]. split; [by left|done]. }
  destruct (Z.ltb_spec (zlen h) (HeaderSize + lh_length hd)) as [Hp|Hp].
  { exists 0, [], s1. split; [done|]. split; [done|]. split; [left; by rewrite Hh1|done]. }
  set (total := HeaderSize + lh_length hd) in *. assert (Ht0 : 12 <= total <= zlen h) by (unfold total, HeaderSize in *; lia).
  destruct (recv_copied buffer h total) as (out & buffer' & -> & Hzo & Eout & Em' & Hzb' & Et' & Hby'); [lia|done|lia|lia|].
  unfold mem at 1, bind at 1, ret at 1. rewrite u16_id by (unfold is_u16, BufferSize in *; lia). rewrite Em'.
  unfold mem at 1, bind at 1, ret at 1. eexists total, out, _. split; [reflexivity|]. split; [constructor; cbn; [done|by apply Hby'|lia]|].
  split; [|done]. right. exists hd. do 5 (split; [done|]). unfold held. cbn. by rewrite Et'.
Qed.

Lemma recv_message_run s data :
  socket_ok s -> is_bytes data -> 0 < zlen data -> ls_recvSize s + zlen data <= BufferSize ->
  exists s', recv_message (zlen data) data s = Ok (read_step (held s ++ data)).1 s' /\
    socket_ok s' /\ held s' = (read_step (held s ++ data)).2 /\ ls_fd s' = ls_fd s.
Proof.
  intros Hs Hd Hn Hr. destruct (recvPartPacket_run s data Hs Hd Hn Hr) as (len & out & s' & E & Hs' & Hp & Hf).
  assert (Hh : zlen (held s ++ data) <= BufferSize) by (rewrite zlen_app, zlen_held by done; lia).
  exists s'. unfold recv_message, bind at 1. rewrite E. set (h := held s ++ data) in *. clearbody h.
  destruct Hp as [[-> ->]|(hd & Ehd & El & Hl & Hzo & Eo & ->)]; [done|]. cbn [fst snd]. rewrite (proj2 (Z.leb_gt _ _)) by lia.
  unfold BufferSize, HeaderSize in *.
  assert (Hro : read_header out = Some hd).
  { rewrite read_header_take by lia. rewrite <- Ehd, (read_header_take h) by lia. f_equal.
    transitivity (take 12 (take (Z.to_nat len) out)); [rewrite take_take; f_equal; lia|]. rewrite Eo, take_take. f_equal. lia. }
  rewrite Hro. unfold mem at 1, bind at 1, ret at 1. rewrite mem_get_Some by lia. unfold mem at 1, bind at 1, ret at 1.
  replace (take (Z.to_nat (len - 12)) (drop (Z.to_nat 12) out)) with (take (Z.to_nat (lh_length hd)) (drop 12 h)).
  - split; [|done]. unfold message. destruct (negb (lh_compressed hd =? 0)); [|reflexivity]. destruct (decompress _ _); [|reflexivity].
    by destruct (negb (_ =? lh_decompress_length hd)).
  - change (Z.to_nat 12) with 12%nat. replace (Z.to_nat (len - 12)) with (Z.to_nat len - 12)%nat by lia.
    replace (Z.to_nat (lh_length hd)) with (Z.to_nat len - 12)%nat by lia. by rewrite <- !skipn_firstn_comm, Eo.
Qed.

Lemma message_bytes hd body type out :
  is_bytes body -> zlen body <= BufferSize -> message hd body = inr (type, out) -> is_bytes out /\ zlen out <= BufferSize.
Proof.
  intros Hb Hl. unfold message. destruct (negb _); [|by intros [= _ <-]].
  destruct (decompress body BufferSize) as [o|] eqn:Eo; [|done]. destruct (negb _); [done|]. intros [= _ <-].
  split; [by eapply decompress_is_bytes|by eapply decompress_bound].
Qed.
Lemma read_step_bytes h type out :
  is_bytes h -> zlen h <= BufferSize -> (read_step h).1 = inr (type, out) -> is_bytes out /\ zlen out <= BufferSize.
Proof.
  intros Hb Hl. unfold read_step. destruct (zlen h <? HeaderSize); [done|]. destruct (read_header h) as [hd|]; [|done].
  destruct (_ || _); [done|]. destruct (_ <? _); [done|]. apply message_bytes; [by apply Forall_take, Forall_drop|].
  unfold zlen in *. rewrite length_take, length_drop. lia.
Qed.

(** What [recvfrom] can report for a socket: an error, or bytes it had room for. *)
Definition read_ok (s : LanSocket) (rc : Z) (data : bytes) : Prop :=
  rc <= 0 \/ rc = zlen data /\ 0 < zlen data /\ is_bytes data /\ ls_recvSize s + zlen data <= BufferSize.
Lemma recv_message_any s rc data :
  socket_ok s -> read_ok s rc data ->
  exists m s', recv_message rc data s = Ok m s' /\ socket_ok s' /\ ls_fd s' = ls_fd s /\
    forall type body, m = inr (type, body) -> is_bytes body /\ zlen body <= BufferSize.
Proof.
  intros Hs [Hr|(-> & Hn & Hb & Hr)].
  - exists (inl rc), s. unfold recv_message, recvPartPacket, bind, ret. rewrite (proj2 (Z.leb_le _ _)) by lia. cbv beta iota.
    rewrite (proj2 (Z.leb_le _ _)) by lia. done.
  - destruct (recv_message_run s data Hs Hb Hn Hr) as (s' & E & Hs' & _ & Hf). eexists _, s'. split; [exact E|]. split; [done|]. split; [done|].
    intros type body. apply read_step_bytes; [|rewrite zlen_app, zlen_held by done; lia]. apply Forall_app; split; [|done]. apply Forall_take, (sk_bytes _ Hs).
Qed.
End reader.

(** ** Packets *)

Section packets.
Context `{Host} `{StackBytes}.

Definition lan_header (type compressed length decompress_length : Z) : LANPacketHeader :=
  {| lh_magic := LANMagic; lh_type := type; lh_compressed := compressed; lh_length := length;
     lh_decompress_length := decompress_length |}.

(** A packet: its header and its body. *)
Definition packet_parts (type : Z) (data : bytes) : LANPacketHeader * bytes :=
  match compress data (zlen data) with
  | Some w => if 0 <? zlen data then (lan_header type 1 (zlen w) (zlen data), w) else (lan_header type 0 0 0, [])
  | None => (lan_header type 0 (zlen data) 0, data)
  end.
Definition packet (type : Z) (data : bytes) : bytes :=
  let '(h, body) := packet_parts type data in header_bytes h ++ body.

Record header_ok (h : LANPacketHeader) : Prop := {
  hk_magic : lh_magic h = LANMagic;
  hk_type : is_u8 (lh_type h);
  hk_compressed : is_u8 (lh_compressed h);
  hk_length : is_u16 (lh_length h);
  hk_decompress_length : is_u16 (lh_decompress_length h);
}.

Lemma zlen_header_bytes h : zlen (header_bytes h) = HeaderSize.
Proof. unfold header_bytes, zlen. rewrite !length_app, !length_store. done. Qed.

Lemma mem_get_slice (a b c p : bytes) o n : p = a ++ b ++ c -> o = zlen a -> n = zlen b -> mem_get p o n = Some b.
Proof.
  intros -> -> ->. rewrite mem_get_Some by (rewrite ?zlen_app; zlen_facts; lia). rewrite !to_nat_zlen, drop_app_length, take_app_length. done.
Qed.

Lemma read_header_bytes h rest : header_ok h -> read_header (header_bytes h ++ rest) = Some h.
Proof.
  intros [Hm Ht Hc Hl Hd]. unfold read_header, header_bytes. rewrite <- !app_assoc.
  set (m := store 4 _). set (l := store 2 _). set (d := store 2 _).
  assert (zlen m = 4) by (unfold zlen, m; by rewrite length_store). assert (zlen l = 2) by (unfold zlen, l; by rewrite length_store).
  assert (zlen d = 2) by (unfold zlen, d; by rewrite length_store). set (tail := [0; 0] ++ rest).
  set (p := m ++ _). set (x := lh_type h) in *. set (y := lh_compressed h) in *.
  assert (Ep : p = m ++ [x; y] ++ l ++ d ++ tail) by done. clearbody p tail.
  assert (Em : m = store 4 (lh_magic h)) by done. assert (El : l = store 2 (lh_length h)) by done.
  assert (Ed : d = store 2 (lh_decompress_length h)) by done. clearbody m l d.
  assert (G : forall a b c o n, p = a ++ b ++ c -> o = zlen a -> n = zlen b -> mem_get p o n = Some b) by (intros; by eapply mem_get_slice).
  rewrite (G [] m ([x; y] ++ l ++ d ++ tail) 0 4) by (exact Ep || done || lia). cbn [mbind option_bind].
  rewrite (G m [x] ([y] ++ l ++ d ++ tail) 4 1) by (exact Ep || done || lia). cbn [mbind option_bind].
  rewrite (G (m ++ [x]) [y] (l ++ d ++ tail) 5 1) by (rewrite ?zlen_app, ?Ep, <- ?app_assoc; done || (zlens; lia)). cbn [mbind option_bind].
  rewrite (G (m ++ [x; y]) l (d ++ tail) 6 2) by (rewrite ?zlen_app, ?Ep, <- ?app_assoc; done || (zlens; lia)). cbn [mbind option_bind].
  rewrite (G (m ++ [x; y] ++ l) d tail 8 2) by (rewrite ?zlen_app, ?Ep, <- ?app_assoc; done || (zlens; lia)). cbn [mbind option_bind].
  rewrite Em, El, Ed, !load_store, !load_single, Hm.
  change (256 ^ Z.of_nat 2) with (2 ^ 16). unfold is_u16 in *. rewrite (Z.mod_small (lh_length h)), (Z.mod_small (lh_decompress_length h)) by lia.
  change (LANMagic mod 256 ^ Z.of_nat 4) with LANMagic. destruct h; cbn in *; congruence.
Qed.

(** What can be sent: it fits a buffer together with its header. *)
Definition message_ok (m : Z * bytes) : Prop := is_u8 m.1 /\ is_bytes m.2 /\ zlen m.2 <= BufferSize - HeaderSize.

Lemma packet_parts_ok type data :
  message_ok (type, data) ->
  let '(h, body) := packet_parts type data in
  header_ok h /\ zlen body = lh_length h /\ lh_length h <= zlen data /\ is_bytes body /\ message h body = inr (type, data).
Proof.
  intros (Ht & Hb & Hl). unfold BufferSize, HeaderSize in *. cbn [fst snd] in *. pose proof (zlen_nonneg data). unfold packet_parts.
  destruct (compress data (zlen data)) as [w|] eqn:E.
  - pose proof E as E'. apply compress_packed in E as [Hp Hw]; [|done]. pose proof (zlen_nonneg w).
    destruct (Z.ltb_spec 0 (zlen data)).
    + split; [constructor; unfold is_u8, is_u16; cbn; try done; lia|]. do 2 (split; [done|]). split.
      * unfold compress in E'. apply bind_Some in E' as ([rest out] & E1 & E2). cbn in E2. destruct (zlen rest =? 0); [|done].
        injection E2 as [= ->]. eapply compress_loop_is_bytes; [exact Hb|constructor|exact E1].
      * unfold message. cbn. rewrite (decompress_packed w data) by (unfold BufferSize; lia || done). by rewrite Z.eqb_refl.
    + assert (data = []) as -> by (apply zlen_0_inv; lia). split; [constructor; unfold is_u8, is_u16; cbn; try done; lia|].
      do 2 (split; [done|]). split; [constructor|done].
  - split; [constructor; unfold is_u8, is_u16; cbn; try done; lia|]. cbn. done.
Qed.

(** [sendPacket] stays inside its arrays and sends the packet. *)
Lemma sendPacket_run type data : message_ok (type, data) -> sendPacket type (Some data) = Some (packet type data).
Proof.
  intros Hm. pose proof (packet_parts_ok type data Hm) as Hp. destruct Hm as (Ht & Hb & Hl). cbn [fst snd] in *.
  unfold sendPacket, packet. change (default [] (Some data)) with data. unfold BufferSize, HeaderSize in *. pose proof (zlen_nonneg data).
  cbv zeta. rewrite (u16_id (zlen data)) by (unfold is_u16; lia).
  assert (Hput : forall h body, zlen body = lh_length h -> lh_length h <= zlen data ->
    (buf ← mem_put (fresh (zlen data + 12)) 12 body; b ← mem_put buf 0 (header_bytes h); mem_get b 0 (lh_length h + 12)) = Some (header_bytes h ++ body)).
  { intros h body E Hle. pose proof (zlen_nonneg body). pose proof (zlen_header_bytes h) as Hz. unfold HeaderSize in Hz.
    pose proof (zlen_fresh (zlen data + 12) ltac:(lia)) as Hf. rewrite mem_put_Some by lia. cbn [mbind option_bind]. set (fr := fresh _) in *.
    assert (Hz1 : zlen (take (Z.to_nat 12) fr) = 12) by (apply zlen_take; lia).
    assert (Hz2 : zlen (drop (Z.to_nat 12 + length body) fr) = zlen fr - 12 - zlen body) by (unfold zlen in *; rewrite length_drop; lia).
    rewrite mem_put_Some by (rewrite ?zlen_app; lia). cbn [mbind option_bind]. change (Z.to_nat 0) with 0%nat. rewrite take_0. cbn [app plus].
    rewrite drop_app_length' by (unfold zlen in *; lia). rewrite app_assoc. rewrite mem_get_Some by (rewrite ?zlen_app; lia).
    rewrite drop_0. f_equal. apply take_app_length'. unfold zlen in *. rewrite length_app. lia. }
  unfold packet_parts in *. destruct (compress data (zlen data)) as [w|] eqn:E.
  - destruct (Z.ltb_spec 0 (zlen data)).
    + destruct Hp as (Hh & Hz & Hle & _). cbn in Hz, Hle. rewrite u16_id by (apply (hk_length _ Hh)).
      rewrite <- (Hput (lan_header type 1 (zlen w) (zlen data)) w Hz Hle). by destruct (mem_put (fresh _) _ w).
    + assert (data = []) as -> by (apply zlen_0_inv; lia). cbn [mbind option_bind].
      rewrite <- (Hput (lan_header type 0 0 0) [] eq_refl ltac:(cbn; lia)). 
      rewrite (mem_put_Some (fresh _) 12 []) by (rewrite ?zlen_fresh; zlia). cbn [app length]. by rewrite Nat.add_0_r, take_drop.
  - destruct Hp as (Hh & Hz & Hle & _). cbn in Hz, Hle. destruct (Z.ltb_spec 0 (zlen data)).
    + rewrite <- (Hput (lan_header type 0 (zlen data) 0) data Hz Hle). by destruct (mem_put (fresh _) _ data).
    + assert (data = []) as -> by (apply zlen_0_inv; lia). done.
Qed.
End packets.

(** ** Streams *)

Section streams.
Context `{Host} `{StackBytes}.

(** Successive reads of a socket, and the same on the bytes that wait. *)
Fixpoint recv_all (pieces : list bytes) : M LanSocket (list (Z + Z * bytes)) :=
  match pieces with
  | [] => ret []
  | p :: pieces =>
      let* m := recv_message (zlen p) p in
      let* ms := recv_all pieces in
      ret (m :: ms)
  end.
Fixpoint read_all (pieces : list bytes) (h : bytes) : list (Z + Z * bytes) * bytes :=
  match pieces with
  | [] => ([], h)
  | p :: pieces =>
      let '(m, h) := read_step (h ++ p) in
      let '(ms, h) := read_all pieces h in
      (m :: ms, h)
  end.

(** What a system call can deliver: bytes, at least one and no more than there is room for. *)
Fixpoint deliverable (pieces : list bytes) (h : bytes) : Prop :=
  match pieces with
  | [] => True
  | p :: pieces =>
      is_bytes p /\ 0 < zlen p /\ zlen h + zlen p <= BufferSize /\ deliverable pieces (read_step (h ++ p)).2
  end.

Lemma recv_all_run pieces s :
  socket_ok s -> deliverable pieces (held s) ->
  exists s', recv_all pieces s = Ok (read_all pieces (held s)).1 s' /\ socket_ok s' /\
    held s' = (read_all pieces (held s)).2 /\ ls_fd s' = ls_fd s.
Proof.
  revert s. induction pieces as [|p pieces IH]; intros s Hs; cbn; [by exists s|]. intros (Hp & Hn & Hr & Hd).
  rewrite zlen_held in Hr by done. destruct (recv_message_run s p Hs Hp Hn Hr) as (s1 & E1 & Hs1 & Hh1 & Hf1).
  destruct (read_step (held s ++ p)) as [m h] eqn:E. cbn [fst snd] in *. rewrite <- Hh1 in Hd.
  destruct (IH s1 Hs1 Hd) as (s2 & E2 & Hs2 & Hh2 & Hf2). exists s2. unfold bind at 1. rewrite E1. unfold bind at 1. rewrite E2, Hh1 in *.
  destruct (read_all pieces h) as [ms h']. cbn in *. split; [done|]. split; [done|]. split; [done|congruence].
Qed.

(** A read leaves room for the next. *)
Lemma read_step_room h :
  is_bytes h -> zlen h <= BufferSize -> is_bytes (read_step h).2 /\ zlen (read_step h).2 < BufferSize.
Proof.
  intros Hb Hl. unfold read_step, BufferSize, HeaderSize in *. destruct (Z.ltb_spec (zlen h) 12) as [Hlt|Hge]; [split; [done|cbn; lia]|].
  destruct (read_header_total h Hge) as [hd E]. rewrite E. pose proof (read_header_length h hd Hb E) as Hu. unfold is_u16 in Hu.
  destruct (negb _ || _) eqn:Eb; [by split; [constructor|cbn]|]. apply orb_false_iff in Eb as [_ Eb%Z.ltb_ge].
  destruct (Z.ltb_spec (zlen h) (12 + lh_length hd)); cbn; [split; [done|lia]|].
  split; [by apply Forall_drop|]. rewrite zlen_drop; lia.
Qed.
Lemma read_all_room pieces h :
  is_bytes h -> deliverable pieces h -> zlen h < BufferSize -> zlen (read_all pieces h).2 < BufferSize.
Proof.
  revert h. induction pieces as [|p pieces IH]; intros h Hb Hd Hr; cbn in *; [done|]. destruct Hd as (Hp & Hn & Hl & Hd).
  destruct (read_step_room (h ++ p)) as [Hb1 Hz1]; [by apply Forall_app|by rewrite zlen_app|].
  destruct (read_step (h ++ p)) as [m h1]. specialize (IH h1 Hb1 Hd Hz1). by destruct (read_all pieces h1).
Qed.

Definition delivered (ms : list (Z + Z * bytes)) : list (Z * bytes) :=
  omap (fun m => match m with inr m => Some m | inl _ => None end) ms.
Definition packets (sent : list (Z * bytes)) : bytes := concat ((fun m => packet m.1 m.2) <$> sent).

Lemma packet_zlen type data : message_ok (type, data) -> 12 <= zlen (packet type data) <= BufferSize.
Proof.
  intros Hm. pose proof (packet_parts_ok type data Hm) as Hp. destruct Hm as (_ & _ & Hl). unfold packet, BufferSize, HeaderSize in *. cbn in Hl.
  destruct (packet_parts type data) as [h body]. destruct Hp as (Hh & Hz & Hle & _). rewrite zlen_app, zlen_header_bytes. unfold HeaderSize.
  pose proof (hk_length _ Hh) as Hu. unfold is_u16 in Hu. lia.
Qed.

(** A read when the bytes that wait are the beginning of a stream of packets. *)
Lemma read_step_packets h type data (sent : list (Z * bytes)) :
  message_ok (type, data) -> 0 < zlen h -> h `prefix_of` packet type data ++ packets sent ->
  read_step h =
    if zlen h <? zlen (packet type data) then (inl 0, h)
    else (inr (type, data), drop (length (packet type data)) h).
Proof.
  intros Hm Hn [t Et]. pose proof (packet_parts_ok type data Hm) as Hp. pose proof (packet_zlen type data Hm) as Hz. unfold packet in *.
  destruct (packet_parts type data) as [hd body] eqn:E. destruct Hp as (Hh & Hb & _ & _ & Em). rewrite zlen_app, zlen_header_bytes in *.
  unfold read_step. destruct (Z.ltb_spec (zlen h) HeaderSize) as [Hlt|Hge].
  { rewrite (proj2 (Z.ltb_lt _ _)); [done|]. zlen_facts. lia. }
  assert (Eh : take 12 h = header_bytes hd).
  { pose proof (zlen_header_bytes hd) as Hl. unfold zlen, HeaderSize in *. rewrite <- (take_app_le h t 12) by lia. rewrite <- Et, <- app_assoc.
    apply take_app_length'. lia. }
  assert (Ehd : read_header h = Some hd).
  { rewrite read_header_take by exact Hge. rewrite Eh, <- (app_nil_r (header_bytes hd)). by apply read_header_bytes. }
  rewrite Ehd, (hk_magic _ Hh), Z.eqb_refl. cbn [negb orb]. rewrite Hb in *. rewrite (proj2 (Z.ltb_ge _ _)) by lia.
  destruct (Z.ltb_spec (zlen h) (HeaderSize + lh_length hd)) as [|Hc]; [done|].
  assert (Hd : take (Z.to_nat (lh_length hd)) (drop 12 h) = body).
  { assert (h = header_bytes hd ++ drop 12 h) as Eq by (rewrite <- Eh; by rewrite take_drop).
    rewrite Eq, <- !app_assoc in Et. apply app_inv_head in Et. unfold zlen, HeaderSize in *.
    rewrite <- (take_app_le (drop 12 h) t) by (rewrite length_drop; lia). rewrite <- Et. apply take_app_length'. lia. }
  rewrite Hd, Em. f_equal. f_equal. rewrite length_app. pose proof (zlen_header_bytes hd). unfold zlen, HeaderSize in *. lia.
Qed.

Lemma read_all_packets pieces h (sent : list (Z * bytes)) :
  Forall message_ok sent -> deliverable pieces h -> zlen h < BufferSize -> h ++ concat pieces `prefix_of` packets sent ->
  exists k, Forall (fun m => m = inl 0 \/ exists x, m = inr x) (read_all pieces h).1 /\
    delivered (read_all pieces h).1 = take k sent /\
    h ++ concat pieces = packets (take k sent) ++ (read_all pieces h).2 /\ zlen (read_all pieces h).2 < BufferSize.
Proof.
  revert h sent. induction pieces as [|p pieces IH]; intros h sent Hok Hd Hh Hp; cbn [read_all concat deliverable] in *.
  { exists 0%nat. rewrite take_0. by rewrite app_nil_r. }
  destruct Hd as (Hby & Hn & Hr & Hd). rewrite app_assoc in Hp |- *. set (h1 := h ++ p) in *.
  assert (Hz1 : 0 < zlen h1 <= BufferSize) by (unfold h1; rewrite zlen_app; zlen_facts; lia). clearbody h1. clear Hby Hn Hr.
  destruct sent as [|[type data] sent].
  { apply prefix_nil_inv, app_nil in Hp as [-> _]. unfold zlen in Hz1. cbn in Hz1. lia. }
  apply Forall_cons in Hok as [Hm Hok]. pose proof (packet_zlen type data Hm) as Hzp.
  assert (Hp1 : h1 `prefix_of` packet type data ++ packets sent) by (etransitivity; [apply prefix_app_r; reflexivity|exact Hp]).
  rewrite (read_step_packets h1 type data sent Hm (proj1 Hz1) Hp1) in *.
  destruct (Z.ltb_spec (zlen h1) (zlen (packet type data))) as [Hlt|Hge].
  - cbn [snd] in Hd. destruct (IH h1 ((type, data) :: sent)) as (k & H1 & H2 & H3 & H4); [by constructor|done|lia|done|].
    exists k. destruct (read_all pieces h1) as [ms h']. cbn in *. split; [constructor; [by left|done]|]. done.
  - cbn [snd] in Hd. set (h2 := drop _ h1) in *.
    assert (E1 : h1 = packet type data ++ h2).
    { unfold h2. rewrite <- (take_drop (length (packet type data)) h1) at 1. f_equal. destruct Hp1 as [t Et].
      rewrite <- (take_app_le h1 t) by (unfold zlen in *; lia). rewrite <- Et. by rewrite take_app_length. }
    clearbody h2. subst h1. rewrite zlen_app in Hz1. rewrite <- app_assoc in Hp |- *. unfold packets in Hp. cbn in Hp. apply prefix_app_inv in Hp.
    destruct (IH h2 sent) as (k & H1 & H2 & H3 & H4); [done|done|lia|done|]. exists (S k).
    destruct (read_all pieces h2) as [ms h']. cbn in *. split; [constructor; [right; by eexists|done]|]. split; [by rewrite H2|]. split; [|done].
    rewrite H3. unfold packets. cbn. by rewrite <- app_assoc.
Qed.
Lemma packet_bytes type data :
  message_ok (type, data) -> is_bytes (packet type data) /\ zlen (packet type data) <= HeaderSize + zlen data.
Proof.
  intros Hm. pose proof (packet_parts_ok type data Hm) as Hp. unfold packet. destruct (packet_parts type data) as [h body].
  destruct Hp as ([Hmg Ht Hc Hl Hd] & Hzb & Hle & Hb & _). rewrite zlen_app, zlen_header_bytes. split; [|lia]. unfold header_bytes.
  repeat (apply Forall_app; split); try apply store_is_bytes; try done; repeat (constructor; [unfold is_u8 in *; lia|]); constructor.
Qed.
(** A whole packet that a reader with nothing waiting gets in one read. *)
Lemma recv_packet_run type data s :
  message_ok (type, data) -> socket_ok s -> held s = [] ->
  exists s', recv_message (zlen (packet type data)) (packet type data) s = Ok (inr (type, data)) s' /\ socket_ok s' /\ held s' = [] /\ ls_fd s' = ls_fd s.
Proof.
  intros Hm Hs Hh. pose proof (packet_zlen type data Hm) as Hz. pose proof (packet_bytes type data Hm) as Hp.
  assert (Hr : read_step (held s ++ packet type data) = (inr (type, data), [])).
  { rewrite Hh. cbn [app]. rewrite (read_step_packets _ type data []) by (done || lia || (unfold packets; cbn; by rewrite app_nil_r)).
    rewrite Z.ltb_irrefl. by rewrite drop_all. }
  pose proof (zlen_held s Hs) as Hz0. rewrite Hh, zlen_nil in Hz0.
  destruct (recv_message_run s (packet type data)) as (s' & Er & Hs' & Hh' & Hf); [done|apply Hp|lia|lia|].
  rewrite Hr in Er, Hh'. by exists s'.
Qed.
End streams.

(** ** Results *)

Section results.
Context `{Host} `{StackBytes}.

(** A message goes through a datagram.  For every message that fits in a buffer
    [sendPacket] stays inside its arrays, the packet is no longer than the message and its
    header, and a reader with nothing waiting gives the message back from it and has nothing
    waiting afterwards, whether the body was compressed or not. *)
Theorem packet_roundtrip type data s :
  message_ok (type, data) -> socket_ok s -> held s = [] ->
  exists p s', sendPacket type (Some data) = Some p /\ zlen p <= HeaderSize + zlen data /\
    recv_message (udp_recvfrom (zlen p)) p s = Ok (inr (type, data)) s' /\ socket_ok s' /\ held s' = [].
Proof.
  intros Hm Hs Hh. destruct (recv_packet_run type data s Hm Hs Hh) as (s' & Er & Hs' & Hh' & _). exists (packet type data), s'.
  split; [by apply sendPacket_run|]. by split; [apply packet_bytes|].
Qed.

(** C16: The reader on arbitrary input.  Whatever bytes arrive, in reads of any sizes the
    system can deliver, every read returns, no access leaves a buffer, there is room for the
    next read, and what is handed over is what the reader of byte lists gives: bytes are
    taken from the front, so the stale contents of the buffer never matter. *)
Theorem recv_refines pieces s :
  socket_ok s -> ls_recvSize s < BufferSize -> deliverable pieces (held s) ->
  exists s', recv_all pieces s = Ok (read_all pieces (held s)).1 s' /\ held s' = (read_all pieces (held s)).2 /\
    socket_ok s' /\ ls_recvSize s' < BufferSize.
Proof.
  intros Hs Hr Hd. destruct (recv_all_run pieces s Hs Hd) as (s' & E & Hs' & Hh' & _). exists s'. do 3 (split; [done|]).
  rewrite <- zlen_held, Hh' by done. rewrite <- zlen_held in Hr by done. apply read_all_room; [|done..]. apply Forall_take, (sk_bytes _ Hs).
Qed.

(** C15: A stream of packets.  However the bytes of the packets sent over a connection are
    cut into reads, what the reader hands over is a prefix of the messages sent, in order
    and unchanged, each once; the bytes read are exactly those of the messages handed over
    and those that wait; no read reports an error, and there is room for the next. *)
Theorem packet_stream (sent : list (Z * bytes)) pieces s :
  Forall message_ok sent -> socket_ok s -> held s = [] -> deliverable pieces [] -> concat pieces `prefix_of` packets sent ->
  exists ms k s', recv_all pieces s = Ok ms s' /\ socket_ok s' /\ ls_recvSize s' < BufferSize /\
    delivered ms = take k sent /\ concat pieces = packets (take k sent) ++ held s' /\
    Forall (fun m => m = inl 0 \/ exists x, m = inr x) ms.
Proof.
  intros Hok Hs Hh Hd Hp. rewrite <- Hh in Hd. destruct (recv_all_run pieces s Hs Hd) as (s' & E & Hs' & Hh' & _). rewrite Hh in *.
  destruct (read_all_packets pieces [] sent Hok Hd ltac:(done) Hp) as (k & H1 & H2 & H3 & H4).
  exists (read_all pieces []).1, k, s'. rewrite <- Hh' in *. rewrite zlen_held in H4 by done. done.
Qed.

(** A read hands over one packet: of two packets that arrive together the second one waits
    until something else arrives. *)
Lemma second_packet_waits m1 m2 rest :
  message_ok m1 -> rest `prefix_of` packet m2.1 m2.2 ->
  read_step (packet m1.1 m1.2 ++ rest) = (inr m1, rest).
Proof.
  intros Hm Hp. destruct m1 as [type data]. cbn [fst snd]. pose proof (packet_zlen type data Hm).
  rewrite (read_step_packets _ type data [m2]).
  - rewrite zlen_app, (proj2 (Z.ltb_ge _ _)) by (zlen_facts; lia). by rewrite drop_app_length.
  - done.
  - rewrite zlen_app. zlen_facts. lia.
  - apply prefix_app. unfold packets. cbn. by rewrite app_nil_r.
Qed.
End results.

(** ** Concrete runs *)

#[local] Existing Instance le_host.
Definition demo_stack : StackBytes := fun i => i.
#[local] Existing Instance demo_stack.
Definition new_socket (fd : Z) : LanSocket := {| ls_fd := fd; ls_buffer := fresh BufferSize; ls_recvSize := 0 |}.

Lemma new_socket_ok fd : socket_ok (new_socket fd).
Proof.
  constructor; cbn; [by apply zlen_fresh| |unfold BufferSize; lia]. apply Forall_forall. intros x (i & -> & _)%list_elem_of_fmap. apply u8_range.
Qed.

Definition demo_message : Z * bytes := (LANPacketType.SyncNetwork, [7; 0; 0; 0; 0; 0; 9; 0; 5]).
Lemma demo_message_ok : message_ok demo_message.
Proof. split; [done|]. split; [repeat constructor; done|done]. Qed.

Lemma packet_roundtrip_witness :
  exists p s', sendPacket LANPacketType.SyncNetwork (Some demo_message.2) = Some p /\ zlen p <= HeaderSize + zlen demo_message.2 /\
    recv_message (udp_recvfrom (zlen p)) p (new_socket 3) = Ok (inr demo_message) s' /\ socket_ok s' /\ held s' = [].
Proof. exact (packet_roundtrip LANPacketType.SyncNetwork demo_message.2 (new_socket 3) demo_message_ok (new_socket_ok 3) eq_refl). Defined.

(** The packet of the message, cut in two, and a second message behind it. *)
Definition demo_packet : bytes := packet demo_message.1 demo_message.2.
Definition demo_reads : list bytes := [take 14 demo_packet; drop 14 demo_packet ++ take 5 demo_packet].

Lemma demo_deliverable : deliverable demo_reads [].
Proof. vm_compute. repeat (split || constructor || discriminate || done). Qed.

Lemma recv_refines_witness :
  exists s', recv_all demo_reads (new_socket 3) = Ok [inl 0; inr demo_message] s' /\ held s' = take 5 demo_packet /\
    socket_ok s' /\ ls_recvSize s' < BufferSize.
Proof. exact (recv_refines demo_reads (new_socket 3) (new_socket_ok 3) eq_refl demo_deliverable). Defined.

Lemma packet_stream_witness :
  exists ms k s', recv_all demo_reads (new_socket 3) = Ok ms s' /\ socket_ok s' /\ ls_recvSize s' < BufferSize /\
    delivered ms = take k [demo_message; demo_message] /\ concat demo_reads = packets (take k [demo_message; demo_message]) ++ held s' /\
    Forall (fun m => m = inl 0 \/ exists x, m = inr x) ms.
Proof.
  apply (packet_stream [demo_message; demo_message] demo_reads (new_socket 3)).
  - repeat (constructor; [exact demo_message_ok|]). constructor.
  - exact (new_socket_ok 3).
  - reflexivity.
  - exact demo_deliverable.
  - exists (drop 5 demo_packet). vm_compute. reflexivity.
Defined.

(** A datagram that claims a longer body than it has: the datagrams behind it, complete
    packets, are taken for the rest of its body, and nothing is handed over. *)
Definition truncated : bytes := header_bytes (lan_header LANPacketType.Scan 0 1000 0).
Example truncated_datagram_swallows :
  (read_all [truncated; demo_packet; demo_packet] []).1 = [inl 0; inl 0; inl 0].
Proof. vm_compute. reflexivity. Qed.
