(* ===== verification/LanDiscovery.v ===== *)
(** The lobby of local play: [ldn_mitm/source/lan_discovery.cpp] and the structures of
    [ldn_types.hpp].

    A console that hosts a game answers scans with its [NetworkInfo] and accepts up to seven
    stations over TCP; each station sends its [NodeInfo] and gets the whole [NetworkInfo]
    whenever it changes.  A console that joins a game does the other half.  A worker thread
    polls the sockets; the game's calls come from another one.  A definition is one call of
    the game or the handling of one report of [poll], with what the system calls returned as
    arguments or as answers of [MitmSys].  Calls and reports run one after the other here; in
    the code the mutex covers only a turn of the worker and the making of a socket.

    A [NetworkInfo] is kept as its 1152 bytes, since the code casts received bodies to it;
    members are read and written at their offsets.  The callbacks [lanEvent] and
    [stateChangeEvent] belong to the client of the class and are an interface, [Callbacks],
    on a state of their own.

    Shown here: while a network is open, the node table and the node count that are
    announced say exactly which stations have joined; a scan returns only networks that were
    announced since it began and that match its filter, each once; a station ends up with
    the host's [NetworkInfo], byte for byte; and which calls dereference a null pointer
    because the object was not initialised. *)

From stdpp Require Import strings list.
From S2P Require Import Prelude Byteorder Helper LanProtocol.

(** ** The code *)

(** *** ldn_types.hpp *)

Definition NodeCountMax : Z := 8.
Definition StationCountMax : Z := NodeCountMax - 1.
Definition AdvertiseDataSizeMax : Z := 384.
Definition UserNameBytesMax : Z := 32.

Definition NodeStateChange_None : Z := 0.
Definition NodeStateChange_Connect : Z := 1.
Definition NodeStateChange_Disconnect : Z := 2.

Definition ScanFilterFlag_LocalCommunicationId : Z := 1.
Definition ScanFilterFlag_SessionId : Z := 2.
Definition ScanFilterFlag_NetworkType : Z := 4.
Definition ScanFilterFlag_Ssid : Z := 16.
Definition ScanFilterFlag_SceneId : Z := 32.

Inductive CommState := CsNone | Initialized | AccessPoint | AccessPointCreated | Station | StationConnected | CsError.
#[export] Instance comm_state_eq_dec : EqDecision CommState.
Proof. solve_decision. Defined.
Inductive NodeStatus := Disconnected | NsConnect | Connected.
#[export] Instance node_status_eq_dec : EqDecision NodeStatus.
Proof. solve_decision. Defined.
Inductive DisconnectReason :=
  DrNone | DisconnectedByUser | DisconnectedBySystem | DestroyedByUser | DestroyedBySystem | Rejected | SignalLost.

(** Layout of [NetworkInfo] ([sizeof] 0x480), [NodeInfo] and [ScanFilter] ([sizeof] 0x60). *)
Definition sizeof_NetworkInfo : Z := 0x480.
Definition sizeof_NodeInfo : Z := 64.
Definition sizeof_ScanFilter : Z := 0x60.
Definition sizeof_UserConfig : Z := 48.

Definition ni_intentId : Z := 0.
Definition ni_localCommunicationId : Z := 0.
Definition ni_sceneId : Z := 10.
Definition ni_sessionId : Z := 16.
Definition ni_bssid : Z := 32.
Definition ni_ssid : Z := 38.
Definition ni_channel : Z := 72.
Definition ni_linkLevel : Z := 74.
Definition ni_networkType : Z := 75.
Definition ni_unkRandom : Z := 80.
Definition ni_securityMode : Z := 96.
Definition ni_nodeCountMax : Z := 102.
Definition ni_nodeCount : Z := 103.
Definition ni_nodes (i : Z) : Z := 104 + i * sizeof_NodeInfo.
Definition ni_advertiseDataSize : Z := 618.
Definition ni_advertiseData : Z := 620.

Definition node_ipv4Address : Z := 0.
Definition node_macAddress : Z := 4.
Definition node_nodeId : Z := 10.
Definition node_isConnected : Z := 11.
Definition node_userName : Z := 12.
Definition node_localCommunicationVersion : Z := 46.

Definition sf_networkType : Z := 32.
Definition sf_ssid : Z := 42.
Definition sf_flag : Z := 92.

(** *** lan_discovery.hpp *)

Definition DefaultPort : Z := 11452.
Definition ModuleID : Z := 0xFD.
Definition LdnModuleId : Z := 0xCB.
Definition MAKERESULT (module description : Z) : Z := Z.lor (Z.land module 0x1FF) (Z.shiftl (Z.land description 0x1FFF) 9).
Definition FakeSsid : bytes := cstr "12345678123456781234567812345678".

(** [nodeInfo] points to the entry of [nodeId] in [networkInfo] once the object is
    initialised. *)
Record LanStation := {
  st_status : NodeStatus;
  st_socket : option LanSocket;
  st_nodeId : Z;
  st_nodeInfo : bool;
}.

(** [scanResults] by hardware address, each with the network received first. *)
Record LDUdpSocket := {
  lu_socket : LanSocket;
  lu_scanResults : list (bytes * bytes);
}.

Inductive mitm_event :=
| MtSend (fd : Z) (data : bytes)                       (* send on a connection *)
| MtSendto (fd : Z) (addr port : Z) (data : bytes)     (* host order *)
| MtClose (fd : Z).

Record LANDiscovery (E : Type) := {
  d_disconnect_reason : DisconnectReason;
  d_udp : option LDUdpSocket;
  d_tcp : option LanSocket;
  d_stations : list LanStation;           (* StationCountMax of them *)
  d_nodeChanges : list Z;                 (* NodeLatestUpdate::stateChange, NodeCountMax of them *)
  d_nodeLastStates : list Z;
  d_originalMtu : Z;
  d_stop : bool;
  d_initialized : bool;
  d_networkInfo : bytes;                  (* a NetworkInfo *)
  d_listenPort : Z;
  d_bound : bool;                         (* the callbacks were given *)
  d_state : CommState;
  d_ticks : nat;                          (* the system calls made *)
  d_out : list mitm_event;                (* what was asked of the system *)
  d_user : E;                             (* the state of the callbacks *)
}.
Arguments d_disconnect_reason {E} _.
Arguments d_udp {E} _.
Arguments d_tcp {E} _.
Arguments d_stations {E} _.
Arguments d_nodeChanges {E} _.
Arguments d_nodeLastStates {E} _.
Arguments d_originalMtu {E} _.
Arguments d_stop {E} _.
Arguments d_initialized {E} _.
Arguments d_networkInfo {E} _.
Arguments d_listenPort {E} _.
Arguments d_bound {E} _.
Arguments d_state {E} _.
Arguments d_ticks {E} _.
Arguments d_out {E} _.
Arguments d_user {E} _.

Definition set_disconnect_reason {E} (v : DisconnectReason) (d : LANDiscovery E) : LANDiscovery E :=
  {| d_disconnect_reason := v; d_udp := d_udp d; d_tcp := d_tcp d; d_stations := d_stations d;
     d_nodeChanges := d_nodeChanges d; d_nodeLastStates := d_nodeLastStates d;
     d_originalMtu := d_originalMtu d; d_stop := d_stop d; d_initialized := d_initialized d;
     d_networkInfo := d_networkInfo d; d_listenPort := d_listenPort d; d_bound := d_bound d;
     d_state := d_state d; d_ticks := d_ticks d; d_out := d_out d; d_user := d_user d |}.
Definition set_udp {E} (v : option LDUdpSocket) (d : LANDiscovery E) : LANDiscovery E :=
  {| d_disconnect_reason := d_disconnect_reason d; d_udp := v; d_tcp := d_tcp d;
     d_stations := d_stations d; d_nodeChanges := d_nodeChanges d; d_nodeLastStates := d_nodeLastStates d;
     d_originalMtu := d_originalMtu d; d_stop := d_stop d; d_initialized := d_initialized d;
     d_networkInfo := d_networkInfo d; d_listenPort := d_listenPort d; d_bound := d_bound d;
     d_state := d_state d; d_ticks := d_ticks d; d_out := d_out d; d_user := d_user d |}.
Definition set_tcp {E} (v : option LanSocket) (d : LANDiscovery E) : LANDiscovery E :=
  {| d_disconnect_reason := d_disconnect_reason d; d_udp := d_udp d; d_tcp := v;
     d_stations := d_stations d; d_nodeChanges := d_nodeChanges d; d_nodeLastStates := d_nodeLastStates d;
     d_originalMtu := d_originalMtu d; d_stop := d_stop d; d_initialized := d_initialized d;
     d_networkInfo := d_networkInfo d; d_listenPort := d_listenPort d; d_bound := d_bound d;
     d_state := d_state d; d_ticks := d_ticks d; d_out := d_out d; d_user := d_user d |}.
Definition set_stations {E} (v : list LanStation) (d : LANDiscovery E) : LANDiscovery E :=
  {| d_disconnect_reason := d_disconnect_reason d; d_udp := d_udp d; d_tcp := d_tcp d; d_stations := v;
     d_nodeChanges := d_nodeChanges d; d_nodeLastStates := d_nodeLastStates d;
     d_originalMtu := d_originalMtu d; d_stop := d_stop d; d_initialized := d_initialized d;
     d_networkInfo := d_networkInfo d; d_listenPort := d_listenPort d; d_bound := d_bound d;
     d_state := d_state d; d_ticks := d_ticks d; d_out := d_out d; d_user := d_user d |}.
Definition set_nodeChanges {E} (v : list Z) (d : LANDiscovery E) : LANDiscovery E :=
  {| d_disconnect_reason := d_disconnect_reason d; d_udp := d_udp d; d_tcp := d_tcp d;
     d_stations := d_stations d; d_nodeChanges := v; d_nodeLastStates := d_nodeLastStates d;
     d_originalMtu := d_originalMtu d; d_stop := d_stop d; d_initialized := d_initialized d;
     d_networkInfo := d_networkInfo d; d_listenPort := d_listenPort d; d_bound := d_bound d;
     d_state := d_state d; d_ticks := d_ticks d; d_out := d_out d; d_user := d_user d |}.
Definition set_nodeLastStates {E} (v : list Z) (d : LANDiscovery E) : LANDiscovery E :=
  {| d_disconnect_reason := d_disconnect_reason d; d_udp := d_udp d; d_tcp := d_tcp d;
     d_stations := d_stations d; d_nodeChanges := d_nodeChanges d; d_nodeLastStates := v;
     d_originalMtu := d_originalMtu d; d_stop := d_stop d; d_initialized := d_initialized d;
     d_networkInfo := d_networkInfo d; d_listenPort := d_listenPort d; d_bound := d_bound d;
     d_state := d_state d; d_ticks := d_ticks d; d_out := d_out d; d_user := d_user d |}.
Definition set_originalMtu {E} (v : Z) (d : LANDiscovery E) : LANDiscovery E :=
  {| d_disconnect_reason := d_disconnect_reason d; d_udp := d_udp d; d_tcp := d_tcp d;
     d_stations := d_stations d; d_nodeChanges := d_nodeChanges d; d_nodeLastStates := d_nodeLastStates d;
     d_originalMtu := v; d_stop := d_stop d; d_initialized := d_initialized d;
     d_networkInfo := d_networkInfo d; d_listenPort := d_listenPort d; d_bound := d_bound d;
     d_state := d_state d; d_ticks := d_ticks d; d_out := d_out d; d_user := d_user d |}.
Definition set_stop {E} (v : bool) (d : LANDiscovery E) : LANDiscovery E :=
  {| d_disconnect_reason := d_disconnect_reason d; d_udp := d_udp d; d_tcp := d_tcp d;
     d_stations := d_stations d; d_nodeChanges := d_nodeChanges d; d_nodeLastStates := d_nodeLastStates d;
     d_originalMtu := d_originalMtu d; d_stop := v; d_initialized := d_initialized d;
     d_networkInfo := d_networkInfo d; d_listenPort := d_listenPort d; d_bound := d_bound d;
     d_state := d_state d; d_ticks := d_ticks d; d_out := d_out d; d_user := d_user d |}.
Definition set_initialized {E} (v : bool) (d : LANDiscovery E) : LANDiscovery E :=
  {| d_disconnect_reason := d_disconnect_reason d; d_udp := d_udp d; d_tcp := d_tcp d;
     d_stations := d_stations d; d_nodeChanges := d_nodeChanges d; d_nodeLastStates := d_nodeLastStates d;
     d_originalMtu := d_originalMtu d; d_stop := d_stop d; d_initialized := v;
     d_networkInfo := d_networkInfo d; d_listenPort := d_listenPort d; d_bound := d_bound d;
     d_state := d_state d; d_ticks := d_ticks d; d_out := d_out d; d_user := d_user d |}.
Definition set_networkInfo {E} (v : bytes) (d : LANDiscovery E) : LANDiscovery E :=
  {| d_disconnect_reason := d_disconnect_reason d; d_udp := d_udp d; d_tcp := d_tcp d;
     d_stations := d_stations d; d_nodeChanges := d_nodeChanges d; d_nodeLastStates := d_nodeLastStates d;
     d_originalMtu := d_originalMtu d; d_stop := d_stop d; d_initialized := d_initialized d;
     d_networkInfo := v; d_listenPort := d_listenPort d; d_bound := d_bound d; d_state := d_state d;
     d_ticks := d_ticks d; d_out := d_out d; d_user := d_user d |}.
Definition set_listenPort {E} (v : Z) (d : LANDiscovery E) : LANDiscovery E :=
  {| d_disconnect_reason := d_disconnect_reason d; d_udp := d_udp d; d_tcp := d_tcp d;
     d_stations := d_stations d; d_nodeChanges := d_nodeChanges d; d_nodeLastStates := d_nodeLastStates d;
     d_originalMtu := d_originalMtu d; d_stop := d_stop d; d_initialized := d_initialized d;
     d_networkInfo := d_networkInfo d; d_listenPort := v; d_bound := d_bound d; d_state := d_state d;
     d_ticks := d_ticks d; d_out := d_out d; d_user := d_user d |}.
Definition set_bound {E} (v : bool) (d : LANDiscovery E) : LANDiscovery E :=
  {| d_disconnect_reason := d_disconnect_reason d; d_udp := d_udp d; d_tcp := d_tcp d;
     d_stations := d_stations d; d_nodeChanges := d_nodeChanges d; d_nodeLastStates := d_nodeLastStates d;
     d_originalMtu := d_originalMtu d; d_stop := d_stop d; d_initialized := d_initialized d;
     d_networkInfo := d_networkInfo d; d_listenPort := d_listenPort d; d_bound := v; d_state := d_state d;
     d_ticks := d_ticks d; d_out := d_out d; d_user := d_user d |}.
Definition set_state {E} (v : CommState) (d : LANDiscovery E) : LANDiscovery E :=
  {| d_disconnect_reason := d_disconnect_reason d; d_udp := d_udp d; d_tcp := d_tcp d;
     d_stations := d_stations d; d_nodeChanges := d_nodeChanges d; d_nodeLastStates := d_nodeLastStates d;
     d_originalMtu := d_originalMtu d; d_stop := d_stop d; d_initialized := d_initialized d;
     d_networkInfo := d_networkInfo d; d_listenPort := d_listenPort d; d_bound := d_bound d; d_state := v;
     d_ticks := d_ticks d; d_out := d_out d; d_user := d_user d |}.
Definition set_ticks {E} (v : nat) (d : LANDiscovery E) : LANDiscovery E :=
  {| d_disconnect_reason := d_disconnect_reason d; d_udp := d_udp d; d_tcp := d_tcp d;
     d_stations := d_stations d; d_nodeChanges := d_nodeChanges d; d_nodeLastStates := d_nodeLastStates d;
     d_originalMtu := d_originalMtu d; d_stop := d_stop d; d_initialized := d_initialized d;
     d_networkInfo := d_networkInfo d; d_listenPort := d_listenPort d; d_bound := d_bound d;
     d_state := d_state d; d_ticks := v; d_out := d_out d; d_user := d_user d |}.
Definition set_out {E} (v : list mitm_event) (d : LANDiscovery E) : LANDiscovery E :=
  {| d_disconnect_reason := d_disconnect_reason d; d_udp := d_udp d; d_tcp := d_tcp d;
     d_stations := d_stations d; d_nodeChanges := d_nodeChanges d; d_nodeLastStates := d_nodeLastStates d;
     d_originalMtu := d_originalMtu d; d_stop := d_stop d; d_initialized := d_initialized d;
     d_networkInfo := d_networkInfo d; d_listenPort := d_listenPort d; d_bound := d_bound d;
     d_state := d_state d; d_ticks := d_ticks d; d_out := v; d_user := d_user d |}.
Definition set_user {E} (v : E) (d : LANDiscovery E) : LANDiscovery E :=
  {| d_disconnect_reason := d_disconnect_reason d; d_udp := d_udp d; d_tcp := d_tcp d;
     d_stations := d_stations d; d_nodeChanges := d_nodeChanges d; d_nodeLastStates := d_nodeLastStates d;
     d_originalMtu := d_originalMtu d; d_stop := d_stop d; d_initialized := d_initialized d;
     d_networkInfo := d_networkInfo d; d_listenPort := d_listenPort d; d_bound := d_bound d;
     d_state := d_state d; d_ticks := d_ticks d; d_out := d_out d; d_user := v |}.

(** The system: results of its calls in the order they are made, the console's address in
    network order, its address and mask, random bytes, and the order in which a hash table
    is walked. *)
Class MitmSys := {
  mitm_call : nat -> Z;
  mitm_ip : nat -> Z * Z;                      (* nifmGetCurrentIpAddress: result, address *)
  mitm_ip_config : nat -> Z * Z * Z;           (* nifmGetCurrentIpConfigInfo: result, address, mask *)
  mitm_random : nat -> bytes;                  (* 16 bytes *)
  mitm_mtu : nat -> Z;
  mitm_order : list (bytes * bytes) -> list (bytes * bytes);
}.

(** The two functions the client of [LANDiscovery] gives it. *)
Class Callbacks (E : Type) := {
  cb_lanEvent : M (LANDiscovery E) unit;
  cb_stateChange : CommState -> CommState -> M (LANDiscovery E) unit;
}.

(** An [int8_t]. *)
Definition s8 (x : Z) : Z := if x <? 128 then x else x - 256.

Definition set_st_status (v : NodeStatus) (s : LanStation) : LanStation :=
  {| st_status := v; st_socket := st_socket s; st_nodeId := st_nodeId s; st_nodeInfo := st_nodeInfo s |}.
Definition set_st_socket (v : option LanSocket) (s : LanStation) : LanStation :=
  {| st_status := st_status s; st_socket := v; st_nodeId := st_nodeId s; st_nodeInfo := st_nodeInfo s |}.

Section code.
Context `{Host} `{StackBytes} `{MitmSys} {E : Type} `{!Callbacks E}.
Abbreviation Disc := (M (LANDiscovery E)).

Definition new_LanSocket (fd : Z) : LanSocket := {| ls_fd := fd; ls_buffer := fresh BufferSize; ls_recvSize := 0 |}.
Definition sys {A} (f : nat -> A) : Disc A :=
  fun d => Ok (f (d_ticks d)) (set_ticks (S (d_ticks d)) d).
Definition mt_emit (e : mitm_event) : Disc unit := modify (fun d => set_out (d_out d ++ [e]) d).

(** A member of a structure, and a store to one of [networkInfo]. *)
Definition field (b : bytes) (off n : Z) : option Z := x ← mem_get b off n; Some (load x).
Definition put_info (off : Z) (bs : bytes) : Disc unit :=
  let* d := gets id in
  let* info := mem (mem_put (d_networkInfo d) off bs) in
  modify (set_networkInfo info).

(** [Ssid::operator==], on [length] and the 33 bytes of [raw]. *)
Definition ssid_eq (a b : bytes) : option bool :=
  la ← field a 0 1;
  lb ← field b 0 1;
  if la =? lb then
    raw_a ← mem_get (drop 1 a) 0 la;
    raw_b ← mem_get (drop 1 b) 0 la;
    Some (bool_decide (raw_a = raw_b))
  else Some false.

Definition scanFilterMatchesNetwork (filter : option bytes) (info : bytes) : option bool :=
  match filter with
  | None => Some true
  | Some filter =>
      flag ← field filter sf_flag 4;
      let test (bit : Z) (c : option bool) : option bool := if negb (Z.land flag bit =? 0) then c else Some true in
      let same off n := a ← mem_get filter off n; b ← mem_get info off n; Some (bool_decide (a = b)) in
      c1 ← test ScanFilterFlag_LocalCommunicationId (same ni_localCommunicationId 8);
      c2 ← test ScanFilterFlag_SessionId (same ni_sessionId 16);
      c3 ← test ScanFilterFlag_NetworkType
             (a ← field filter sf_networkType 4; b ← field info ni_networkType 1; Some (a =? b));
      c4 ← test ScanFilterFlag_Ssid
             (a ← mem_get filter sf_ssid 34; b ← mem_get info ni_ssid 34; ssid_eq a b);
      c5 ← test ScanFilterFlag_SceneId (same ni_sceneId 2);
      Some (c1 && c2 && c3 && c4 && c5)
  end.

Definition setState (v : CommState) : Disc unit :=
  let* previous := gets d_state in
  modify (set_state v) ;;;
  let* bound := gets d_bound in
  if negb bound then ret tt
  else
    (if decide (previous <> v) then cb_stateChange previous v else ret tt) ;;;
    cb_lanEvent.

(** [LanSocket::close], on the socket itself. *)
Definition close_socket (s : LanSocket) : Disc LanSocket :=
  if negb (ls_fd s =? -1) then mt_emit (MtClose (ls_fd s)) ;;; ret (set_ls_fd (-1) s) else ret s.
(** [if (this->tcp) this->tcp->close()] *)
Definition close_tcp : Disc unit :=
  let* tcp := gets d_tcp in
  match tcp with
  | Some s => let* s := close_socket s in modify (set_tcp (Some s))
  | None => ret tt
  end.

(** *** LanStation *)

(** [reset]: the socket is destroyed, which closes it. *)
Definition st_reset (st : LanStation) : Disc LanStation :=
  (match st_socket st with Some s => let* _ := close_socket s in ret tt | None => ret tt end) ;;;
  ret (set_st_status Disconnected (set_st_socket None st)).
Definition st_link (fd : Z) (st : LanStation) : LanStation :=
  set_st_status NsConnect (set_st_socket (Some (new_LanSocket fd)) st).

Definition station (i : nat) : Disc LanStation :=
  let* d := gets id in mem (d_stations d !! i).
Definition put_station (i : nat) (st : LanStation) : Disc unit :=
  modify (fun d => set_stations (<[i := st]> (d_stations d)) d).
Definition station_ids : list nat := seq 0 (Z.to_nat StationCountMax).

(** [socket->sendPacket(type, data, size)] over TCP: the result of [send]. *)
Definition tcp_sendPacket (s : LanSocket) (type : Z) (data : option bytes) : Disc Z :=
  let* buf := mem (sendPacket type data) in
  mt_emit (MtSend (ls_fd s) buf) ;;;
  sys mitm_call.
Definition st_sendPacket (st : LanStation) (type : Z) (data : bytes) : Disc Z :=
  match st_socket st with
  | None => ret (-1)
  | Some s => tcp_sendPacket s type (Some data)
  end.

(** [overrideInfo]: two members of the node, through [nodeInfo]. *)
Definition overrideInfo (st : LanStation) : Disc unit :=
  if st_nodeInfo st then
    put_info (ni_nodes (st_nodeId st) + node_nodeId) [u8 (st_nodeId st)] ;;;
    put_info (ni_nodes (st_nodeId st) + node_isConnected) [if decide (st_status st = Connected) then 1 else 0]
  else halt NullDeref.

(** *** Node table *)

Definition initNodeStateChange : Disc unit :=
  modify (fun d => set_nodeChanges (replicate 8 NodeStateChange_None) (set_nodeLastStates (replicate 8 0) d)).

(** One node of [isNodeStateChanged]: whether it changed. *)
Definition check_node (i : nat) : Disc bool :=
  let* d := gets id in
  let* now := mem (field (d_networkInfo d) (ni_nodes (Z.of_nat i) + node_isConnected) 1) in
  let* last := mem (d_nodeLastStates d !! i) in
  let* change := mem (d_nodeChanges d !! i) in
  if negb (s8 now =? last) then
    let bit := if negb (now =? 0) then NodeStateChange_Connect else NodeStateChange_Disconnect in
    modify (fun d => set_nodeChanges (<[i := Z.lor change bit]> (d_nodeChanges d))
                       (set_nodeLastStates (<[i := now]> (d_nodeLastStates d)) d)) ;;;
    ret true
  else ret false.
Fixpoint check_nodes (l : list nat) (changed : bool) : Disc bool :=
  match l with
  | [] => ret changed
  | i :: l => let* c := check_node i in check_nodes l (c || changed)
  end.
Definition isNodeStateChanged : Disc bool := check_nodes (seq 0 8) false.

Definition lanEvent : Disc unit :=
  let* bound := gets d_bound in if bound : bool then cb_lanEvent else ret tt.
Definition onNetworkInfoChanged : Disc unit :=
  let* changed := isNodeStateChanged in
  if changed : bool then lanEvent else ret tt.

(** The two loops of [updateNodes]. *)
Fixpoint override_all (l : list nat) (count : Z) : Disc Z :=
  match l with
  | [] => ret count
  | i :: l =>
      let* st := station i in
      overrideInfo st ;;;
      override_all l (if decide (st_status st = Connected) then count + 1 else count)
  end.
Definition sync_station (i : nat) : Disc unit :=
  let* st := station i in
  if decide (st_status st = Connected) then
    let* d := gets id in
    let* _ := st_sendPacket st LANPacketType.SyncNetwork (d_networkInfo d) in
    ret tt
  else ret tt.
Definition updateNodes : Disc unit :=
  let* count := override_all station_ids 0 in
  put_info ni_nodeCount [u8 (count + 1)] ;;;
  for_each station_ids sync_station ;;;
  onNetworkInfoChanged.

Fixpoint stationCount (l : list LanStation) : Z :=
  match l with
  | [] => 0
  | st :: l => (if decide (st_status st <> Disconnected) then 1 else 0) + stationCount l
  end.

Definition reset_station (i : nat) : Disc unit :=
  let* st := station i in
  let* st := st_reset st in
  put_station i st.
Definition resetStations : Disc unit := for_each station_ids reset_station.

(** *** Reports of poll *)

Definition onSyncNetwork (info : bytes) : Disc unit :=
  modify (set_networkInfo info) ;;;
  let* state := gets d_state in
  (if decide (state = Station) then setState StationConnected else ret tt) ;;;
  onNetworkInfoChanged.

Fixpoint free_station (l : list LanStation) (i : nat) : option nat :=
  match l with
  | [] => None
  | st :: l => if decide (st_status st = Disconnected) then Some i else free_station l (S i)
  end.
Definition onConnect (new_fd : Z) : Disc unit :=
  let* d := gets id in
  if StationCountMax <=? stationCount (d_stations d) then mt_emit (MtClose new_fd)
  else
    match free_station (d_stations d) 0 with
    | Some i => let* st := station i in put_station i (st_link new_fd st)
    | None => mt_emit (MtClose new_fd)
    end.

Definition onDisconnectFromHost : Disc unit :=
  let* state := gets d_state in
  if decide (state = StationConnected) then setState Station else ret tt.

(** [LanStation::onRead], [rc] and [data] being what [recvfrom] gave. *)
Definition on_station_socket (i : nat) (A : Type) (m : M LanSocket A) : Disc A :=
  let* st := station i in
  match st_socket st with
  | None => halt NullDeref
  | Some s =>
      match m s with
      | Ok a s' => put_station i (set_st_socket (Some s') st) ;;; ret a
      | Stop e => halt e
      end
  end.
Definition station_message (i : nat) (type : Z) (data : bytes) : Disc Z :=
  if type =? LANPacketType.Connect then
    if negb (zlen data =? sizeof_NodeInfo) then ret (-1)
    else
      let* st := station i in
      if st_nodeInfo st then
        put_info (ni_nodes (st_nodeId st)) data ;;;
        put_station i (set_st_status Connected st) ;;;
        updateNodes ;;;
        ret 0
      else halt NullDeref
  else ret 0.
Definition station_onRead (i : nat) (rc : Z) (data : bytes) : Disc Z :=
  let* st := station i in
  match st_socket st with
  | None => ret (-1)
  | Some _ => recvPacket (on_station_socket i) (station_message i) (tcp_recvfrom rc) data
  end.
Definition station_onClose (i : nat) : Disc unit :=
  reset_station i ;;;
  updateNodes.

(** [LDUdpSocket] *)
Definition on_udp_socket (A : Type) (m : M LanSocket A) : Disc A :=
  let* udp := gets d_udp in
  match udp with
  | None => halt NullDeref
  | Some u =>
      match m (lu_socket u) with
      | Ok a s' => modify (set_udp (Some {| lu_socket := s'; lu_scanResults := lu_scanResults u |})) ;;; ret a
      | Stop e => halt e
      end
  end.
(** A datagram to [addr] and its copy to the bridge; the result of the first. *)
Definition udp_sendPacket (addr port : Z) (type : Z) (data : option bytes) : Disc Z :=
  let* udp := gets d_udp in
  match udp with
  | None => halt NullDeref
  | Some u =>
      let fd := ls_fd (lu_socket u) in
      let* buf := mem (sendPacket type data) in
      mt_emit (MtSendto fd addr port buf) ;;;
      let* rc := sys mitm_call in
      mt_emit (MtSendto fd bridge_addr.1 bridge_addr.2 buf) ;;;
      let* _ := sys mitm_call in
      ret rc
  end.
(** [reply]: [addr] and [port] are where the datagram came from. *)
Definition udp_message (addr port : Z) (type : Z) (data : bytes) : Disc Z :=
  (if type =? LANPacketType.Scan then
     let* d := gets id in
     if decide (d_state d = AccessPointCreated) then
       let filter := if sizeof_ScanFilter <=? zlen data then Some (take (Z.to_nat sizeof_ScanFilter) data) else None in
       let* match_ := mem (scanFilterMatchesNetwork filter (d_networkInfo d)) in
       if match_ : bool then
         let* _ := udp_sendPacket addr port LANPacketType.ScanResp (Some (d_networkInfo d)) in ret tt
       else ret tt
     else ret tt
   else if type =? LANPacketType.ScanResp then
     if negb (zlen data =? sizeof_NetworkInfo) then ret tt
     else
       let* bssid := mem (mem_get data ni_bssid 6) in
       let* udp := gets d_udp in
       match udp with
       | None => halt NullDeref
       | Some u =>
           if decide (bssid ∈ (lu_scanResults u).*1) then ret tt
           else modify (set_udp (Some {| lu_socket := lu_socket u; lu_scanResults := lu_scanResults u ++ [(bssid, data)] |}))
       end
   else ret tt) ;;;
  ret 0.
Definition udp_onRead (addr port rc : Z) (data : bytes) : Disc Z :=
  recvPacket on_udp_socket (udp_message addr port) (udp_recvfrom rc) data.
Definition udp_onClose : Disc unit :=
  modify (set_disconnect_reason SignalLost) ;;;
  setState CsError.

(** [LDTcpSocket] *)
Definition on_tcp_socket (A : Type) (m : M LanSocket A) : Disc A :=
  let* tcp := gets d_tcp in
  match tcp with
  | None => halt NullDeref
  | Some s =>
      match m s with
      | Ok a s' => modify (set_tcp (Some s')) ;;; ret a
      | Stop e => halt e
      end
  end.
Definition tcp_message (type : Z) (data : bytes) : Disc Z :=
  if type =? LANPacketType.SyncNetwork then
    if negb (zlen data =? sizeof_NetworkInfo) then ret (-1)
    else onSyncNetwork data ;;; ret 0
  else ret (-1).
(** [rc] is the result of [recvfrom], or the descriptor that [accept] returned. *)
Definition tcp_onRead (rc : Z) (data : bytes) : Disc Z :=
  let* state := gets d_state in
  match state with
  | Station | StationConnected => recvPacket on_tcp_socket tcp_message (tcp_recvfrom rc) data
  | AccessPointCreated => if rc <? 0 then ret (-1) else onConnect rc ;;; ret 0
  | _ => ret (-1)
  end.
Definition tcp_onClose : Disc unit := onDisconnectFromHost.

(** What [poll] reports about a descriptor: an error or a hang-up, or that it can be read,
    with what the read gives. *)
Inductive revents := Hangup | Readable (addr port rc : Z) (data : bytes).
Inductive pollfd := PollUdp | PollTcp | PollStation (i : nat).
Definition pf_onClose (p : pollfd) : Disc unit :=
  match p with PollUdp => udp_onClose | PollTcp => tcp_onClose | PollStation i => station_onClose i end.
Definition poll_one (p : pollfd) (r : revents) : Disc unit :=
  match r with
  | Hangup => pf_onClose p
  | Readable addr port rc data =>
      let* rc :=
        match p with
        | PollUdp => udp_onRead addr port rc data
        | PollTcp => tcp_onRead rc data
        | PollStation i => station_onRead i rc data
        end in
      if negb (rc =? 0) then pf_onClose p else ret tt
  end.
(** A turn of the worker: [loopPoll] and [Pollable::Poll]; [None]: [poll] failed. *)
Definition loopPoll (reports : option (list (pollfd * revents))) : Disc Z :=
  let* d := gets id in
  if negb (d_initialized d) then ret 0
  else
    match reports with
    | None => ret (-1)
    | Some reports => for_each reports (fun '(p, r) => poll_one p r) ;;; ret 0
    end.
(** The worker thread, for as many turns as there are reports: whether it has ended. *)
Fixpoint worker_loop (turns : list (option (list (pollfd * revents)))) : Disc bool :=
  let* stop := gets d_stop in
  if stop : bool then ret true
  else
    match turns with
    | [] => ret false
    | r :: turns => let* rc := loopPoll r in if rc <? 0 then ret true else worker_loop turns
    end.
Definition worker (turns : list (option (list (pollfd * revents)))) : Disc bool :=
  modify (set_stop false) ;;;
  worker_loop turns.
End code.

(** *** Calls of the game *)

Record NetworkConfig := {
  nc_intentId : bytes;                 (* 16 bytes *)
  nc_channel : Z;
  nc_nodeCountMax : Z;
  nc_localCommunicationVersion : Z;
}.

Section calls.
Context `{Host} `{StackBytes} `{MitmSys} {E : Type} `{!Callbacks E}.
Abbreviation Disc := (M (LANDiscovery E)).

Definition setAdvertiseData (data : option bytes) (size : Z) : Disc Z :=
  if AdvertiseDataSizeMax <? size then ret (MAKERESULT ModuleID 10)
  else
    (match data with
     | Some data =>
         if 0 <? size then let* bs := mem (mem_get data 0 size) in put_info ni_advertiseData bs else ret tt
     | None => ret tt
     end) ;;;
    put_info ni_advertiseDataSize (store 2 size) ;;;
    updateNodes ;;;
    ret 0.

(** The result and the six bytes of the address, of which four may be left as they were. *)
Definition getFakeMac (mac : bytes) : Disc (Z * bytes) :=
  let* (rc, ip) := sys mitm_ip in
  ret (rc, if rc =? 0 then [0x02; 0x00] ++ store 4 (ntohl ip) else [0x02; 0x00] ++ drop 2 mac).

Definition init_node (i : Z) : Disc unit :=
  put_info (ni_nodes i + node_nodeId) [u8 i] ;;;
  put_info (ni_nodes i + node_isConnected) [0].
Definition initNetworkInfo : Disc Z :=
  let* d := gets id in
  let* bssid := mem (mem_get (d_networkInfo d) ni_bssid 6) in
  let* (rc, bssid) := getFakeMac bssid in
  put_info ni_bssid bssid ;;;
  if negb (rc =? 0) then ret rc
  else
    put_info ni_channel (store 2 6) ;;;
    put_info ni_linkLevel [3] ;;;
    put_info ni_networkType [2] ;;;
    put_info (ni_ssid + 1) (FakeSsid ++ [0]) ;;;
    put_info ni_ssid [u8 (zlen FakeSsid)] ;;;
    for_each (seqZ 0 NodeCountMax) init_node ;;;
    ret 0.

Definition setSocketOpts (fd : Z) : Disc Z :=
  let* rc := sys mitm_call in
  if negb (rc =? 0) then ret (MAKERESULT ModuleID 4)
  else let* _ := sys mitm_call in ret 0.

(** [bind], and for TCP [listen]: the description of the error that is reported. *)
Definition bind_and_listen (tcp : bool) (bind_err listen_err : Z) : Disc (option Z) :=
  let* rc := sys mitm_call in
  if negb (rc =? 0) then ret (Some bind_err)
  else if tcp then
    let* rc := sys mitm_call in
    ret (if negb (rc =? 0) then Some listen_err else None)
  else ret None.
(** A new socket that is given to [use] when nothing failed, and closed otherwise. *)
Definition init_socket (tcp listening : bool) (socket_err bind_err listen_err : Z) (use : LanSocket -> Disc unit) : Disc Z :=
  let* fd := sys mitm_call in
  if fd <? 0 then ret (MAKERESULT ModuleID socket_err)
  else
    let s := new_LanSocket fd in
    let* err := (if listening then bind_and_listen tcp bind_err listen_err else ret None) in
    match err with
    | Some e => let* _ := close_socket s in ret (MAKERESULT ModuleID e)
    | None =>
        let* rc := setSocketOpts fd in
        if negb (rc =? 0) then let* _ := close_socket s in ret rc
        else use s ;;; ret 0
    end.
Definition initTcp (listening : bool) : Disc Z :=
  close_tcp ;;;
  init_socket true listening 6 7 8 (fun s => modify (set_tcp (Some s))).
Definition close_udp : Disc unit :=
  let* udp := gets d_udp in
  match udp with
  | Some u =>
      let* s := close_socket (lu_socket u) in
      modify (set_udp (Some {| lu_socket := s; lu_scanResults := lu_scanResults u |}))
  | None => ret tt
  end.
Definition initUdp (listening : bool) : Disc Z :=
  close_udp ;;;
  init_socket false listening 1 2 0 (fun s => modify (set_udp (Some {| lu_socket := s; lu_scanResults := [] |}))).

Definition getBroadcast : Disc Z :=
  let* (rc, address, netmask) := sys mitm_ip_config in
  ret (if negb (rc =? 0) then 0xFFFFFFFF else Z.lor (ntohl address) (Z.ldiff 0xFFFFFFFF (ntohl netmask))).
Definition sendBroadcast (type : Z) (data : option bytes) : Disc Z :=
  let* addr := getBroadcast in
  let* d := gets id in
  udp_sendPacket addr (d_listenPort d) type data.

(** The loop over [scanResults]: the networks that are copied out. *)
Fixpoint scan_copy (items : list (bytes * bytes)) (filter : bytes) (count i : Z) : option (list bytes) :=
  match items with
  | [] => Some []
  | (_, info) :: items =>
      if count <=? i then Some []
      else
        copy ← scanFilterMatchesNetwork (Some filter) info;
        if copy : bool then rest ← scan_copy items filter count (i + 1); Some (info :: rest)
        else scan_copy items filter count i
  end.
(** [scan] before and after it waits for a second, in which the worker takes the turns
    [meanwhile]: the result and the networks. *)
Definition scan_begin (filter : bytes) : Disc Z :=
  let* udp := gets d_udp in
  match udp with
  | None => halt NullDeref
  | Some u =>
      modify (set_udp (Some {| lu_socket := lu_socket u; lu_scanResults := [] |})) ;;;
      sendBroadcast LANPacketType.Scan (Some filter)
  end.
Definition scan_end (count : Z) (filter : bytes) : Disc (list bytes) :=
  let* udp := gets d_udp in
  match udp with
  | None => halt NullDeref
  | Some u => mem (scan_copy (mitm_order (lu_scanResults u)) filter count 0)
  end.
Definition scan (meanwhile : list (option (list (pollfd * revents)))) (count : Z) (filter : bytes) : Disc (Z * list bytes) :=
  let* len := scan_begin filter in
  if len <? 0 then ret (MAKERESULT ModuleID 20, [])
  else
    for_each meanwhile (fun r => let* _ := loopPoll r in ret tt) ;;;
    let* found := scan_end count filter in
    ret (0, found).

Definition getNetworkInfo : Disc (Z * option bytes) :=
  let* d := gets id in
  match d_state d with
  | AccessPointCreated | StationConnected => ret (0, Some (d_networkInfo d))
  | _ => ret (MAKERESULT LdnModuleId 32, None)
  end.

(** One entry of [pOutUpdates]. *)
Definition take_change (i : nat) : Disc Z :=
  let* d := gets id in
  let* c := mem (d_nodeChanges d !! i) in
  modify (fun d => set_nodeChanges (<[i := NodeStateChange_None]> (d_nodeChanges d)) d) ;;;
  ret c.
Fixpoint take_changes (l : list nat) : Disc (list Z) :=
  match l with
  | [] => ret []
  | i :: l => let* c := take_change i in let* cs := take_changes l in ret (c :: cs)
  end.
Definition getNetworkInfo_updates (bufferCount : Z) : Disc (Z * option (bytes * list Z)) :=
  if (bufferCount <? 0) || (NodeCountMax <? bufferCount) then ret (MAKERESULT ModuleID 50, None)
  else
    let* d := gets id in
    match d_state d with
    | AccessPointCreated | StationConnected =>
        let* updates := take_changes (seq 0 (Z.to_nat bufferCount)) in
        ret (0, Some (d_networkInfo d, updates))
    | _ => ret (MAKERESULT LdnModuleId 32, None)
    end.

(** [strcpy] of a user name, an array of 33 bytes that should end with a NUL. *)
Definition user_name (userConfig : bytes) : option bytes :=
  name ← mem_get userConfig 0 (UserNameBytesMax + 1);
  if zlen (cstring name) <=? UserNameBytesMax then Some (cstring name ++ [0]) else None.

(** [getNodeInfo] on the bytes of a node. *)
Definition getNodeInfo (node : bytes) (userConfig : bytes) (localCommunicationVersion : Z) : Disc (Z * bytes) :=
  let* (rc, ipAddress) := sys mitm_ip in
  if negb (rc =? 0) then ret (rc, node)
  else
    let* mac := mem (mem_get node node_macAddress 6) in
    let* (rc, mac) := getFakeMac mac in
    let* node := mem (mem_put node node_macAddress mac) in
    if negb (rc =? 0) then ret (rc, node)
    else
      let* node := mem (mem_put node node_isConnected [1]) in
      let* name := mem (user_name userConfig) in
      let* node := mem (mem_put node node_userName name) in
      let* node := mem (mem_put node node_localCommunicationVersion (store 2 localCommunicationVersion)) in
      let* node := mem (mem_put node node_ipv4Address (store 4 (ntohl ipAddress))) in
      ret (0, node).

(** [createNetwork] after [initNetworkInfo]: the members of [networkInfo], then the node of
    the host; and its end, from [setState] on. *)
Definition fill_network (securityMode : Z) (userConfig : bytes) (networkConfig : NetworkConfig) : Disc Z :=
  put_info ni_nodeCountMax [nc_nodeCountMax networkConfig] ;;;
  put_info ni_securityMode (store 2 securityMode) ;;;
  put_info ni_channel (store 2 (if nc_channel networkConfig =? 0 then 6 else nc_channel networkConfig)) ;;;
  let* random := sys mitm_random in
  put_info ni_sessionId random ;;;
  put_info ni_intentId (nc_intentId networkConfig) ;;;
  let* d := gets id in
  let* node0 := mem (mem_get (d_networkInfo d) (ni_nodes 0) sizeof_NodeInfo) in
  let* (rc, node0) := getNodeInfo node0 userConfig (nc_localCommunicationVersion networkConfig) in
  put_info (ni_nodes 0) node0 ;;;
  ret rc.
Definition open_network : Disc unit :=
  setState AccessPointCreated ;;;
  initNodeStateChange ;;;
  put_info (ni_nodes 0 + node_isConnected) [1] ;;;
  updateNodes.
Definition createNetwork (securityMode : Z) (userConfig : bytes) (networkConfig : NetworkConfig) : Disc Z :=
  let* state := gets d_state in
  if decide (state <> AccessPoint) then ret (MAKERESULT LdnModuleId 32)
  else
    let* rc := initTcp true in
    if negb (rc =? 0) then ret rc
    else
      let* rc := initNetworkInfo in
      if negb (rc =? 0) then ret rc
      else
        let* rc := fill_network securityMode userConfig networkConfig in
        if negb (rc =? 0) then ret rc
        else open_network ;;; ret rc.

Definition destroyNetwork : Disc Z :=
  close_tcp ;;;
  resetStations ;;;
  setState AccessPoint ;;;
  ret 0.
Definition disconnect : Disc Z :=
  close_tcp ;;;
  setState Station ;;;
  ret 0.

(** The four calls that open and close: only the first of each pair clears the reason. *)
Definition change_mode (v : CommState) : Disc Z :=
  let* state := gets d_state in
  if decide (state = CsNone) then ret (MAKERESULT LdnModuleId 32)
  else
    close_tcp ;;;
    resetStations ;;;
    setState v ;;;
    ret 0.
Definition openAccessPoint : Disc Z := modify (set_disconnect_reason DrNone) ;;; change_mode AccessPoint.
Definition closeAccessPoint : Disc Z := change_mode Initialized.
Definition openStation : Disc Z := modify (set_disconnect_reason DrNone) ;;; change_mode Station.
Definition closeStation : Disc Z := change_mode Initialized.

(** Where a host is reached: an address of the relayed network through the bridge. *)
Definition host_address (hostIp listenPort : Z) : Z * Z :=
  if Z.land hostIp 0xFFFF0000 =? 0x0A0D0000 then (0x7f000001, 11453) else (hostIp, listenPort).
(** [sys_connect]: the result of [connect] with that address. *)
Definition connect (sys_connect : Z * Z -> Z) (networkInfo userConfig : bytes) (localCommunicationVersion : Z) : Disc Z :=
  let* nodeCount := mem (field networkInfo ni_nodeCount 1) in
  if nodeCount =? 0 then ret (MAKERESULT ModuleID 30)
  else
    let* hostIp := mem (field networkInfo (ni_nodes 0 + node_ipv4Address) 4) in
    let* d := gets id in
    let addr := host_address hostIp (d_listenPort d) in
    let* rc := initTcp false in
    if negb (rc =? 0) then ret rc
    else
      if negb (sys_connect addr =? 0) then ret (MAKERESULT ModuleID 31)
      else
        let* (rc, myNode) := getNodeInfo (replicate 64 0) userConfig localCommunicationVersion in
        if negb (rc =? 0) then ret rc
        else
          let* tcp := gets d_tcp in
          match tcp with
          | None => halt NullDeref
          | Some s =>
              let* ret_ := tcp_sendPacket s LANPacketType.Connect (Some myNode) in
              if ret_ <? 0 then ret (MAKERESULT ModuleID 32)
              else initNodeStateChange ;;; ret 0
          end.

Definition drop_udp : Disc unit :=
  let* udp := gets d_udp in
  match udp with
  | Some u => let* _ := close_socket (lu_socket u) in modify (set_udp None)
  | None => ret tt
  end.
Definition drop_tcp : Disc unit :=
  let* tcp := gets d_tcp in
  match tcp with
  | Some s => let* _ := close_socket s in modify (set_tcp None)
  | None => ret tt
  end.
Definition finalize : Disc Z :=
  let* initialized := gets d_initialized in
  let* rc :=
    (if initialized : bool then
       modify (set_stop true) ;;;
       drop_udp ;;;
       drop_tcp ;;;
       resetStations ;;;
       modify (set_initialized false) ;;;
       let* _ := sys mitm_call in        (* nifmRequestCancel *)
       let* _ := sys mitm_call in        (* nifmGetCurrentNetworkProfile *)
       sys mitm_call                     (* nifmSetNetworkProfile *)
     else ret 0) in
  setState CsNone ;;;
  ret rc.

(** The destructor. *)
Definition deleteLANDiscovery : Disc unit :=
  let* initialized := gets d_initialized in
  if initialized : bool then let* _ := finalize in ret tt else ret tt.

Definition init_station (i : nat) : Disc unit :=
  let* st := station i in
  let* st := st_reset st in
  put_station i {| st_status := st_status st; st_socket := st_socket st; st_nodeId := st_nodeId st; st_nodeInfo := true |}.
(** The calls before the sockets are made; the first failure is the result. *)
Fixpoint nifm_calls (n : nat) : Disc Z :=
  match n with
  | O => ret 0
  | S n => let* rc := sys mitm_call in if negb (rc =? 0) then ret rc else nifm_calls n
  end.
Definition initialize (listening : bool) : Disc Z :=
  let* initialized := gets d_initialized in
  if initialized : bool then ret 0
  else
    let* rc := nifm_calls 1 in           (* nifmGetCurrentNetworkProfile *)
    if negb (rc =? 0) then ret rc
    else
      let* mtu := sys mitm_mtu in
      modify (set_originalMtu mtu) ;;;
      let* rc := nifm_calls 4 in         (* SetNetworkProfile, CreateRequest, SetLocalNetworkMode, SubmitAndWait *)
      if negb (rc =? 0) then ret rc
      else
        for_each station_ids init_station ;;;
        modify (set_bound true) ;;;
        let* rc := initUdp listening in
        if negb (rc =? 0) then ret rc
        else
          let* rc := sys mitm_call in    (* CreateThread *)
          if negb (rc =? 0) then ret 0xF601
          else
            modify (set_stop false) ;;;
            setState Initialized ;;;
            modify (set_initialized true) ;;;
            ret 0.

Definition new_station (i : Z) : LanStation :=
  {| st_status := Disconnected; st_socket := None; st_nodeId := i; st_nodeInfo := false |}.
(** The constructor; the two arrays of node changes are not initialised. *)
Definition newLANDiscovery (u : E) : LANDiscovery E :=
  {| d_disconnect_reason := DrNone; d_udp := None; d_tcp := None; d_stations := new_station <$> seqZ 1 StationCountMax;
     d_nodeChanges := fresh NodeCountMax; d_nodeLastStates := fresh NodeCountMax; d_originalMtu := 0; d_stop := false;
     d_initialized := false; d_networkInfo := replicate 1152 0; d_listenPort := DefaultPort; d_bound := false;
     d_state := CsNone; d_ticks := 0; d_out := []; d_user := u |}.
End calls.

(** ** Invariants *)

(** The callbacks keep to their own state. *)
Class CallbackLaws (E : Type) `{!Callbacks E} := {
  law_lanEvent d : exists e, cb_lanEvent d = Ok tt (set_user e d);
  law_stateChange v v' d : exists e, cb_stateChange v v' d = Ok tt (set_user e d);
}.

Section invariants.
Context `{Host} `{StackBytes} `{MitmSys} {E : Type} `{!Callbacks E} `{!CallbackLaws E}.
Implicit Types d : LANDiscovery E.

Definition nid (i : nat) : nat := (104 + 64 * S i + 10)%nat.
Definition ncon (i : nat) : nat := (104 + 64 * S i + 11)%nat.
#[local] Arguments nid : simpl never.
#[local] Arguments ncon : simpl never.
Definition joined (st : LanStation) : Z := if decide (st_status st = Connected) then 1 else 0.

Record station_ok (bound : bool) (i : nat) (st : LanStation) : Prop := {
  sn_id : st_nodeId st = Z.of_nat (S i);
  sn_info : st_nodeInfo st = bound;
  sn_status : st_status st = Disconnected <-> st_socket st = None;
  sn_socket s : st_socket st = Some s -> socket_ok s;
}.

Record lobby_ok d : Prop := {
  lk_info : zlen (d_networkInfo d) = sizeof_NetworkInfo;
  lk_bytes : is_bytes (d_networkInfo d);
  lk_stations : length (d_stations d) = 7%nat;
  lk_station i st : d_stations d !! i = Some st -> station_ok (d_bound d) i st;
  lk_changes : length (d_nodeChanges d) = 8%nat;
  lk_last : length (d_nodeLastStates d) = 8%nat;
  lk_tcp s : d_tcp d = Some s -> socket_ok s;
  lk_udp u : d_udp d = Some u -> socket_ok (lu_socket u) /\ Forall (fun x => zlen x.2 = sizeof_NetworkInfo) (lu_scanResults u);
}.

(** The name of the network, and the node of the host. *)
Definition host_ok (info : bytes) : Prop := info !! 38%nat = Some 32 /\ info !! 114%nat = Some 0 /\ info !! 115%nat = Some 1.

(** The node table says who has joined. *)
Record table_ok d : Prop := {
  tk_count : d_networkInfo d !! 103%nat = Some (1 + foldr Z.add 0 (joined <$> d_stations d));
  tk_host : host_ok (d_networkInfo d);
  tk_nodes i st : d_stations d !! i = Some st ->
    d_networkInfo d !! nid i = Some (Z.of_nat (S i)) /\ d_networkInfo d !! ncon i = Some (joined st);
}.

(** What most steps leave alone. *)
Record calm d d' : Prop := {
  cm_udp : d_udp d' = d_udp d;
  cm_tcp : d_tcp d' = d_tcp d;
  cm_stations : d_stations d' = d_stations d;
  cm_info : d_networkInfo d' = d_networkInfo d;
  cm_bound : d_bound d' = d_bound d;
  cm_init : d_initialized d' = d_initialized d;
  cm_state : d_state d' = d_state d;
  cm_changes : length (d_nodeChanges d') = length (d_nodeChanges d);
  cm_last : length (d_nodeLastStates d') = length (d_nodeLastStates d);
}.

#[export] Instance calm_preorder : PreOrder calm.
Proof.
  split; [by constructor|]. intros d1 d2 d3 [] []. constructor; congruence.
Qed.

Lemma calm_lobby d d' : calm d d' -> lobby_ok d -> lobby_ok d'.
Proof.
  intros [] []. constructor; rewrite ?cm_udp0, ?cm_tcp0, ?cm_stations0, ?cm_info0, ?cm_bound0, ?cm_init0, ?cm_changes0, ?cm_last0; done.
Qed.
Lemma calm_table d d' : calm d d' -> table_ok d -> table_ok d'.
Proof. intros [] []. constructor; rewrite ?cm_info0, ?cm_stations0; eauto. Qed.

Lemma emit_calm e d : post (mt_emit e) (fun _ d' => calm d d') d.
Proof. done. Qed.
Lemma sys_calm {A} (f : nat -> A) d : post (sys f) (fun _ d' => calm d d') d.
Proof. done. Qed.
Lemma lanEvent_calm d : post lanEvent (fun _ d' => calm d d') d.
Proof.
  unfold lanEvent, post, bind, gets. destruct (d_bound d); [|done]. destruct (law_lanEvent d) as [e ->]. done.
Qed.

Lemma post_calm {A B} (m : M (LANDiscovery E) A) (k : A -> M (LANDiscovery E) B) d0 d :
  post m (fun _ d' => calm d d') d -> calm d0 d -> (forall a d', calm d0 d' -> post (k a) (fun _ d'' => calm d0 d'') d') ->
  post (bind m k) (fun _ d'' => calm d0 d'') d.
Proof. intros Hm Hc Hk. apply post_bind. eapply post_mono; [exact Hm|]. intros a d' Hd. apply Hk. by etransitivity. Qed.

Lemma setState_run v d : post (setState v) (fun _ d' => calm (set_state v d) d') d.
Proof.
  unfold post, setState, bind, gets, modify, ret. cbn [d_bound set_state]. destruct (d_bound d); cbn; [|done].
  destruct (decide _).
  - destruct (law_stateChange (d_state d) v (set_state v d)) as [e ->]. destruct (law_lanEvent (set_user e (set_state v d))) as [e' ->]. done.
  - destruct (law_lanEvent (set_state v d)) as [e' ->]. done.
Qed.

Lemma close_socket_run s d :
  post (close_socket s) (fun s' d' => calm d d' /\ ls_buffer s' = ls_buffer s /\ ls_recvSize s' = ls_recvSize s) d.
Proof. unfold post, close_socket. by destruct (negb _). Qed.
Lemma socket_ok_same s s' : ls_buffer s' = ls_buffer s -> ls_recvSize s' = ls_recvSize s -> socket_ok s -> socket_ok s'.
Proof. intros E1 E2 []. constructor; rewrite ?E1, ?E2; done. Qed.
Lemma new_socket_fresh fd : socket_ok (new_LanSocket fd).
Proof.
  constructor; cbn; [by apply zlen_fresh| |unfold BufferSize; lia]. apply Forall_forall. intros x (i & -> & _)%list_elem_of_fmap. apply u8_range.
Qed.

(** Changes of a single member of the object. *)
Lemma lobby_state v d : lobby_ok d -> lobby_ok (set_state v d).
Proof. intros []. by constructor. Qed.
Lemma lobby_tcp t d : lobby_ok d -> (forall s, t = Some s -> socket_ok s) -> lobby_ok (set_tcp t d).
Proof. intros [] Ht. by constructor. Qed.
Lemma lobby_info i d : lobby_ok d -> zlen i = sizeof_NetworkInfo -> is_bytes i -> lobby_ok (set_networkInfo i d).
Proof. intros [] Hz Hb. by constructor. Qed.
Lemma lobby_stations l d :
  lobby_ok d -> length l = 7%nat -> (forall i st, l !! i = Some st -> station_ok (d_bound d) i st) -> lobby_ok (set_stations l d).
Proof. intros [] Hl Hs. by constructor. Qed.
Lemma lobby_station i st d : lobby_ok d -> station_ok (d_bound d) i st -> lobby_ok (set_stations (<[i:=st]> (d_stations d)) d).
Proof.
  intros Hd Hs. apply lobby_stations; [done|by rewrite length_insert; apply Hd|].
  intros j st' Hj. destruct (decide (i = j)) as [<-|Hij].
  - apply list_lookup_insert_Some in Hj as [(_ & <- & _)|[? _]]; done.
  - rewrite list_lookup_insert_ne in Hj by done. by apply (lk_station _ Hd).
Qed.

Lemma put_info_run off bs d :
  lobby_ok d -> 0 <= off -> off + zlen bs <= sizeof_NetworkInfo -> is_bytes bs ->
  exists info, put_info off bs d = Ok tt (set_networkInfo info d) /\ mem_put (d_networkInfo d) off bs = Some info /\
    lobby_ok (set_networkInfo info d).
Proof.
  intros Hd Ho Hl Hb. destruct (mem_put (d_networkInfo d) off bs) as [info|] eqn:Eo.
  2: { rewrite mem_put_Some in Eo by (rewrite ?lk_info; done). done. }
  exists info. unfold put_info, bind, gets, id. rewrite Eo. split; [done|]. split; [done|].
  apply lobby_info; [done|rewrite (mem_put_zlen _ _ _ _ Eo); by apply lk_info|]. eapply mem_put_is_bytes; [apply (lk_bytes _ Hd)|done..].
Qed.

Lemma close_tcp_run d :
  lobby_ok d -> post close_tcp (fun _ d' => lobby_ok d' /\ exists t, calm (set_tcp t d) d') d.
Proof.
  intros Hd. unfold close_tcp. apply post_bind. unfold post at 1, gets. destruct (d_tcp d) as [s|] eqn:Eo.
  - apply post_bind. eapply post_mono; [apply close_socket_run|]. cbn. intros s' d' (Hc & E1 & E2). unfold post, modify. split.
    + apply lobby_tcp; [by eapply calm_lobby|]. intros ? [= <-]. eapply socket_ok_same; [done..|]. by apply (lk_tcp _ Hd).
    + exists (Some s'). destruct Hc. by constructor.
  - unfold post, ret. split; [done|]. exists None. destruct d; cbn in *; subst; by constructor.
Qed.

(** *** updateNodes *)

Lemma mem_put_byte (m : bytes) k v : (k < length m)%nat -> mem_put m (Z.of_nat k) [v] = Some (<[k := v]> m).
Proof.
  intros Hk. rewrite mem_put_Some by (unfold zlen; cbn; lia). f_equal. rewrite Nat2Z.id. cbn [length app].
  rewrite insert_take_drop by done. by rewrite Nat.add_1_r.
Qed.
Lemma put_byte_run k v d :
  lobby_ok d -> (k < 1152)%nat -> put_info (Z.of_nat k) [v] d = Ok tt (set_networkInfo (<[k := v]> (d_networkInfo d)) d).
Proof.
  intros Hd Hk. unfold put_info, bind, gets, id. rewrite mem_put_byte; [done|].
  pose proof (lk_info _ Hd) as Hz. unfold zlen, sizeof_NetworkInfo in Hz. lia.
Qed.
Lemma lobby_put_byte k v d : lobby_ok d -> is_u8 v -> lobby_ok (set_networkInfo (<[k := v]> (d_networkInfo d)) d).
Proof. intros Hd Hv. apply lobby_info; [done|rewrite zlen_insert; by apply lk_info|]. apply Forall_insert; [apply (lk_bytes _ Hd)|done]. Qed.

Definition override_node (i : nat) (st : LanStation) (info : bytes) : bytes :=
  <[ncon i := joined st]> (<[nid i := Z.of_nat (S i)]> info).
Fixpoint overridden (l : list nat) (sts : list LanStation) (info : bytes) : bytes :=
  match l with
  | [] => info
  | i :: l => overridden l sts (match sts !! i with Some st => override_node i st info | None => info end)
  end.

Lemma overrideInfo_run i st d :
  lobby_ok d -> station_ok true i st -> (i < 7)%nat ->
  overrideInfo st d = Ok tt (set_networkInfo (override_node i st (d_networkInfo d)) d) /\
  lobby_ok (set_networkInfo (override_node i st (d_networkInfo d)) d).
Proof.
  intros Hd [Hid Hinfo _ _] Hi. unfold overrideInfo. rewrite Hinfo, Hid. unfold ni_nodes, node_nodeId, node_isConnected, sizeof_NodeInfo.
  rewrite u8_id by (unfold is_u8; lia).
  replace (104 + Z.of_nat (S i) * 64 + 10) with (Z.of_nat (nid i)) by (unfold nid; lia).
  replace (104 + Z.of_nat (S i) * 64 + 11) with (Z.of_nat (ncon i)) by (unfold ncon; lia).
  assert (Hd1 : lobby_ok (set_networkInfo (<[nid i := Z.of_nat (S i)]> (d_networkInfo d)) d)) by (apply lobby_put_byte; [done|unfold is_u8; lia]).
  split.
  - unfold bind. rewrite put_byte_run by (done || unfold nid; lia). rewrite put_byte_run by (done || unfold ncon; lia). done.
  - apply (lobby_put_byte (ncon i) (joined st) _ Hd1). unfold joined, is_u8. destruct (decide _); lia.
Qed.

Lemma override_all_run l count d :
  lobby_ok d -> d_bound d = true -> Forall (fun i => i < 7)%nat l ->
  override_all l count d = Ok (count + foldr Z.add 0 ((fun i => from_option joined 0 (d_stations d !! i)) <$> l))
    (set_networkInfo (overridden l (d_stations d) (d_networkInfo d)) d) /\
  lobby_ok (set_networkInfo (overridden l (d_stations d) (d_networkInfo d)) d).
Proof.
  intros Hd Hb Hl. revert count d Hd Hb. induction Hl as [|i l Hi Hl IH]; intros count d Hd Hb.
  { cbn. rewrite Z.add_0_r. split; [by destruct d|]. by destruct d. }
  cbn [override_all overridden]. destruct (lookup_lt_is_Some_2 (d_stations d) i) as [st Est]; [by rewrite (lk_stations _ Hd)|].
  pose proof (lk_station _ Hd i st Est) as Hst. rewrite Hb in Hst. destruct (overrideInfo_run i st d Hd Hst Hi) as [E1 Hd1].
  specialize (IH (if decide (st_status st = Connected) then count + 1 else count) _ Hd1 Hb). cbn [d_stations d_networkInfo set_networkInfo] in IH. destruct IH as [E2 Hd2].
  unfold station, bind at 1 2, gets, id. rewrite Est. unfold mem, ret at 1. unfold bind at 1. rewrite E1, E2. split; [|done].
  f_equal. cbn. rewrite Est. cbn. unfold joined. destruct (decide _); lia.
Qed.

Lemma overridden_length l sts info : length (overridden l sts info) = length info.
Proof. revert info. induction l as [|i l IH]; intros info; cbn; [done|]. rewrite IH. destruct (sts !! i); [|done]. unfold override_node. by rewrite !length_insert. Qed.
Lemma overridden_other l sts info k :
  (forall i, i ∈ l -> k <> nid i /\ k <> ncon i) -> overridden l sts info !! k = info !! k.
Proof.
  revert info. induction l as [|i l IH]; intros info Hk; cbn; [done|]. rewrite IH by (intros; apply Hk; set_solver).
  destruct (sts !! i); [|done]. unfold override_node. destruct (Hk i) as [Hk1 Hk2]; [set_solver|]. by rewrite !list_lookup_insert_ne.
Qed.
Lemma overridden_node l sts info i st :
  NoDup l -> i ∈ l -> (i < 7)%nat -> length info = 1152%nat -> sts !! i = Some st ->
  overridden l sts info !! nid i = Some (Z.of_nat (S i)) /\ overridden l sts info !! ncon i = Some (joined st).
Proof.
  revert info. induction l as [|j l IH]; intros info Hn Hi H7 Hl Hs; [set_solver|]. apply NoDup_cons in Hn as [Hj Hn]. cbn.
  destruct (decide (i = j)) as [<-|Hij].
  - rewrite Hs, !overridden_other; [|intros j Hj'; assert (i <> j) by (by intros ->); unfold nid, ncon; lia..]. unfold override_node.
    rewrite list_lookup_insert_ne, !list_lookup_insert_eq by (rewrite ?length_insert; unfold nid, ncon; lia). done.
  - apply IH; [done|set_solver|done| |done]. destruct (sts !! j); [|done]. unfold override_node. by rewrite !length_insert.
Qed.

Lemma info_message type d : lobby_ok d -> is_u8 type -> message_ok (type, d_networkInfo d).
Proof. intros Hd Ht. split; [done|]. split; [apply (lk_bytes _ Hd)|]. cbn. by rewrite (lk_info _ Hd). Qed.

Lemma tcp_sendPacket_run sk type data d :
  message_ok (type, data) ->
  tcp_sendPacket sk type (Some data) d =
    Ok (mitm_call (d_ticks d)) (set_ticks (S (d_ticks d)) (set_out (d_out d ++ [MtSend (ls_fd sk) (packet type data)]) d)).
Proof. intros Hm. unfold tcp_sendPacket. rewrite sendPacket_run by done. done. Qed.

Lemma sync_station_calm i d : lobby_ok d -> (i < 7)%nat -> post (sync_station i) (fun _ d' => calm d d') d.
Proof.
  intros Hd Hi. unfold sync_station, station. apply post_bind. unfold post at 1, bind, gets, id.
  destruct (lookup_lt_is_Some_2 (d_stations d) i) as [st ->]; [by rewrite (lk_stations _ Hd)|]. cbn [mem ret].
  destruct (decide _); [|done]. unfold post, bind, gets, id, st_sendPacket. destruct (st_socket st); [|done].
  rewrite tcp_sendPacket_run by (by apply info_message). done.
Qed.
Lemma sync_all_calm l d : lobby_ok d -> Forall (fun i => i < 7)%nat l -> post (for_each l sync_station) (fun _ d' => calm d d') d.
Proof.
  intros Hd Hl. apply (post_mono _ (fun _ d' => calm d d' /\ lobby_ok d')); [|by intros ? ? []].
  apply (post_for_each l sync_station (fun d' => calm d d' /\ lobby_ok d')); [done|]. intros i d' Hi [Hc Hd'].
  rewrite Forall_forall in Hl. eapply post_mono; [apply sync_station_calm; [done|by apply Hl]|].
  intros ? d'' Hc'. cbv beta in Hc'. split; [by etransitivity|by eapply calm_lobby].
Qed.

Lemma check_node_calm i d : lobby_ok d -> (i < 8)%nat -> post (check_node i) (fun _ d' => calm d d') d.
Proof.
  intros Hd Hi. unfold check_node, post, bind, gets, id, field. rewrite mem_get_Some.
  2-4: unfold ni_nodes, node_isConnected, sizeof_NodeInfo; rewrite ?(lk_info _ Hd); unfold sizeof_NetworkInfo; lia.
  cbn [mbind option_bind mem ret]. destruct (lookup_lt_is_Some_2 (d_nodeLastStates d) i) as [a ->]; [by rewrite (lk_last _ Hd)|].
  destruct (lookup_lt_is_Some_2 (d_nodeChanges d) i) as [b ->]; [by rewrite (lk_changes _ Hd)|]. cbn [mem ret].
  destruct (negb _); [|done]. constructor; cbn; by rewrite ?length_insert.
Qed.
Lemma check_nodes_calm l c d : lobby_ok d -> Forall (fun i => i < 8)%nat l -> post (check_nodes l c) (fun _ d' => calm d d') d.
Proof.
  intros Hd Hl. revert c d Hd. induction Hl as [|i l Hi Hl IH]; intros c d Hd; [done|]. cbn.
  eapply post_calm; [by apply check_node_calm|done|]. intros c' d' Hc. eapply post_mono; [apply IH; by eapply calm_lobby|].
  intros ? ? Hc'. cbv beta in Hc'. by etransitivity.
Qed.
Lemma onNetworkInfoChanged_calm d : lobby_ok d -> post onNetworkInfoChanged (fun _ d' => calm d d') d.
Proof.
  intros Hd. unfold onNetworkInfoChanged, isNodeStateChanged.
  eapply post_calm; [apply check_nodes_calm; [done|repeat constructor; lia]|done|]. intros [] d' Hc; [|done].
  eapply post_mono; [apply lanEvent_calm|]. intros ? ? Hc'. cbv beta in Hc'. by etransitivity.
Qed.

(** What [updateNodes] makes of the announced information. *)
Definition updated (sts : list LanStation) (info : bytes) : bytes :=
  <[103%nat := 1 + foldr Z.add 0 (joined <$> sts)]> (overridden (seq 0 7) sts info).

Lemma joined_sum sts : 0 <= foldr Z.add 0 (joined <$> sts) <= Z.of_nat (length sts).
Proof.
  induction sts as [|st sts IH]; cbn [fmap list_fmap foldr length]; [lia|].
  assert (0 <= joined st <= 1) by (unfold joined; destruct (decide _); lia). lia.
Qed.
Lemma joined_seq (sts pre : list LanStation) :
  (fun i => from_option joined 0 ((pre ++ sts) !! i)) <$> seq (length pre) (length sts) = joined <$> sts.
Proof.
  revert pre. induction sts as [|st sts IH]; intros pre; cbn; [done|]. f_equal.
  - by rewrite list_lookup_middle.
  - specialize (IH (pre ++ [st])). rewrite <- app_assoc, length_app, Nat.add_1_r in IH. exact IH.
Qed.

Lemma updated_lobby d : lobby_ok d -> d_bound d = true -> lobby_ok (set_networkInfo (updated (d_stations d) (d_networkInfo d)) d).
Proof.
  intros Hd Hb. destruct (override_all_run (seq 0 7) 0 d Hd Hb) as [_ Hd1]; [repeat constructor; lia|].
  apply (lobby_put_byte 103 (1 + foldr Z.add 0 (joined <$> d_stations d)) _ Hd1).
  pose proof (joined_sum (d_stations d)) as Hs. rewrite (lk_stations _ Hd) in Hs. unfold is_u8. lia.
Qed.
Lemma updateNodes_run d :
  lobby_ok d -> d_bound d = true ->
  post updateNodes (fun _ d' => lobby_ok d' /\ calm (set_networkInfo (updated (d_stations d) (d_networkInfo d)) d) d') d.
Proof.
  intros Hd Hb. destruct (override_all_run (seq 0 7) 0 d Hd Hb) as [E1 Hd1]; [repeat constructor; lia|].
  pose proof (joined_seq (d_stations d) []) as Hj. cbn [app length] in Hj. rewrite (lk_stations _ Hd) in Hj. rewrite Hj in E1.
  pose proof (joined_sum (d_stations d)) as Hs. rewrite (lk_stations _ Hd) in Hs. pose proof (updated_lobby d Hd Hb) as Hd2.
  unfold updateNodes. apply post_bind. change station_ids with (seq 0 7). unfold post at 1. rewrite E1. rewrite Z.add_0_l.
  apply post_bind. unfold post at 1. rewrite u8_id by (unfold is_u8; lia). change ni_nodeCount with (Z.of_nat 103).
  rewrite put_byte_run by (done || lia). cbn [d_networkInfo set_networkInfo]. rewrite (Z.add_comm _ 1). fold (updated (d_stations d) (d_networkInfo d)).
  change (set_networkInfo (updated (d_stations d) (d_networkInfo d)) (set_networkInfo ?x d)) with (set_networkInfo (updated (d_stations d) (d_networkInfo d)) d).
  apply post_bind. eapply post_mono; [apply sync_all_calm; [done|repeat constructor; lia]|]. intros ? d1 Hc1. cbv beta in Hc1.
  assert (Hd1' : lobby_ok d1) by (by eapply calm_lobby). eapply post_mono; [by apply onNetworkInfoChanged_calm|].
  intros ? d2 Hc2. cbv beta in Hc2. split; [by eapply calm_lobby|by etransitivity].
Qed.

Lemma updated_table d :
  lobby_ok d -> host_ok (d_networkInfo d) ->
  table_ok (set_networkInfo (updated (d_stations d) (d_networkInfo d)) d).
Proof.
  intros Hd Hh. pose proof (lk_info _ Hd) as Hz. unfold zlen, sizeof_NetworkInfo in Hz.
  assert (Ho : forall k, (k < 168)%nat -> overridden (seq 0 7) (d_stations d) (d_networkInfo d) !! k = d_networkInfo d !! k).
  { intros k Hk. apply overridden_other. intros i _. unfold nid, ncon. lia. }
  constructor; cbn [d_networkInfo d_stations set_networkInfo]; unfold updated.
  - apply list_lookup_insert_eq. rewrite overridden_length. lia.
  - unfold host_ok. rewrite !list_lookup_insert_ne, !Ho by lia. done.
  - intros i st Hi. assert (i < 7)%nat by (apply lookup_lt_Some in Hi; rewrite (lk_stations _ Hd) in Hi; lia).
    rewrite !list_lookup_insert_ne by (unfold nid, ncon; lia). apply overridden_node; [apply NoDup_seq|apply elem_of_seq; lia|done|lia|done].
Qed.

(** *** The invariant *)

Record lobby_inv d : Prop := {
  li_ok : lobby_ok d;
  li_bound : d_bound d = true;
  li_table : d_state d = AccessPointCreated -> table_ok d;
}.

Lemma calm_inv d d' : calm d d' -> lobby_inv d -> lobby_inv d'.
Proof.
  intros Hc [Hd Hb Ht]. constructor; [by eapply calm_lobby|by rewrite (cm_bound _ _ Hc)|]. rewrite (cm_state _ _ Hc). intros E0. eapply calm_table; eauto.
Qed.
Lemma inv_other d : lobby_ok d -> d_bound d = true -> d_state d <> AccessPointCreated -> lobby_inv d.
Proof. by constructor. Qed.
Lemma post_calm_inv {A} (m : M (LANDiscovery E) A) d :
  post m (fun _ d' => calm d d') d -> lobby_inv d -> post m (fun _ => lobby_inv) d.
Proof. intros Hm Hi. eapply post_mono; [exact Hm|]. intros ? d' Hc. cbv beta in Hc. by eapply calm_inv. Qed.

Lemma update_inv d :
  lobby_ok d -> d_bound d = true -> (d_state d = AccessPointCreated -> host_ok (d_networkInfo d)) ->
  post updateNodes (fun _ => lobby_inv) d.
Proof.
  intros Hd Hb Hh. eapply post_mono; [by apply updateNodes_run|]. intros ? d' [Hd' Hc]. constructor; [done|by rewrite (cm_bound _ _ Hc)|].
  rewrite (cm_state _ _ Hc). cbn. intros Hs. eapply calm_table; [exact Hc|]. apply updated_table; auto.
Qed.

(** The state is changed to another one than [AccessPointCreated]. *)
Lemma leave_inv v d : lobby_ok d -> d_bound d = true -> v <> AccessPointCreated -> post (setState v) (fun _ => lobby_inv) d.
Proof.
  intros Hd Hb Hv. eapply post_mono; [apply setState_run|]. intros ? d' Hc. cbv beta in Hc. eapply calm_inv; [exact Hc|].
  apply inv_other; [by apply lobby_state|done|done].
Qed.

(** What [reset] leaves of a station. *)
Definition idle (st : LanStation) : LanStation := set_st_status Disconnected (set_st_socket None st).
Lemma idle_ok b i st : station_ok b i st -> station_ok b i (idle st).
Proof. intros [Hid Hi _ _]. by constructor. Qed.
Lemma st_reset_run st d : exists o, st_reset st d = Ok (idle st) (set_out o d).
Proof.
  unfold st_reset, bind, close_socket. destruct (st_socket st) as [sk|]; [|exists (d_out d); by destruct d].
  destruct (negb _); cbn; [by eexists|exists (d_out d); by destruct d].
Qed.
Lemma lobby_out o d : lobby_ok d -> lobby_ok (set_out o d).
Proof. apply calm_lobby. by constructor. Qed.

Lemma reset_station_run i d :
  lobby_ok d -> (i < 7)%nat ->
  exists st o, d_stations d !! i = Some st /\
    reset_station i d = Ok tt (set_stations (<[i := idle st]> (d_stations d)) (set_out o d)) /\
    lobby_ok (set_stations (<[i := idle st]> (d_stations d)) (set_out o d)).
Proof.
  intros Hd Hi. destruct (lookup_lt_is_Some_2 (d_stations d) i) as [st Est]; [by rewrite (lk_stations _ Hd)|].
  destruct (st_reset_run st d) as [o Eo]. exists st, o. split; [done|]. split.
  - unfold reset_station, station, bind, gets, id. rewrite Est. cbn [mem ret]. by rewrite Eo.
  - apply (lobby_station i (idle st) (set_out o d)); [by apply lobby_out|]. apply idle_ok, (lk_station _ Hd), Est.
Qed.
(** Everything but the stations is left alone. *)
Definition restation (d d' : LANDiscovery E) : Prop := exists l o, d' = set_stations l (set_out o d).
Lemma resetStations_run d :
  lobby_ok d -> post resetStations (fun _ d' => lobby_ok d' /\ restation d d') d.
Proof.
  intros Hd. unfold resetStations. apply (post_for_each station_ids reset_station (fun d' => lobby_ok d' /\ restation d d')).
  { split; [done|]. exists (d_stations d), (d_out d). by destruct d. }
  intros i d' Hi [Hd' (l & o & ->)]. unfold station_ids in Hi. apply elem_of_seq in Hi. change (Z.to_nat StationCountMax) with 7%nat in Hi.
  destruct (reset_station_run i _ Hd' ltac:(lia)) as (st & o' & _ & Er & Hok). unfold post. rewrite Er. split; [done|]. by eexists _, _.
Qed.

(** *** Sockets and modes *)

Lemma MAKERESULT_nonzero e : MAKERESULT ModuleID e <> 0.
Proof. unfold MAKERESULT. by intros [? _]%Z.lor_eq_0_iff. Qed.

Lemma close_socket_calm sk d : post (close_socket sk) (fun _ d' => calm d d') d.
Proof. eapply post_mono; [apply close_socket_run|]. by intros ? ? []. Qed.
Lemma setSocketOpts_calm fd d : post (setSocketOpts fd) (fun _ d' => calm d d') d.
Proof. unfold post, setSocketOpts, bind, sys, ret. by destruct (negb _). Qed.
Lemma bind_and_listen_calm t x y d : post (bind_and_listen t x y) (fun _ d' => calm d d') d.
Proof. unfold post, bind_and_listen, bind, sys, ret. destruct (negb _); [done|]. by destruct t. Qed.

Lemma init_socket_run tcp listening a b c use d :
  post (init_socket tcp listening a b c use)
    (fun rc d' => (rc <> 0 /\ calm d d') \/ exists fd d1, calm d d1 /\ rc = 0 /\ use (new_LanSocket fd) d1 = Ok tt d') d
  \/ exists fd d1 e, calm d d1 /\ use (new_LanSocket fd) d1 = Stop e.
Proof.
  unfold init_socket. set (d0 := set_ticks (S (d_ticks d)) d). assert (Hc0 : calm d d0) by by constructor.
  unfold post at 1, bind at 1, sys at 1. destruct (mitm_call (d_ticks d) <? 0); [left; left; split; [apply MAKERESULT_nonzero|done]|].
  set (fd := mitm_call (d_ticks d)).
  assert (H2 : post (if listening then bind_and_listen tcp b c else ret None) (fun _ d' => calm d0 d') d0).
  { destruct listening; [apply bind_and_listen_calm|done]. }
  apply post_inv in H2 as (err & d2 & E2 & Hc2). fold d0. unfold bind at 1. rewrite E2. destruct err as [e|].
  { pose proof (close_socket_calm (new_LanSocket fd) d2) as (x & d3 & E3 & Hc3)%post_inv. unfold bind. rewrite E3.
    left. left. split; [apply MAKERESULT_nonzero|]. etransitivity; [exact Hc0|]. by etransitivity. }
  pose proof (setSocketOpts_calm fd d2) as (rc & d3 & E3 & Hc3)%post_inv. unfold bind at 1. rewrite E3.
  assert (Hc : calm d d3) by (etransitivity; [exact Hc0|]; by etransitivity).
  destruct (Z.eqb_spec rc 0) as [->|Hrc]; cbn [negb].
  - unfold bind at 1. destruct (use (new_LanSocket fd) d3) as [[] d4|e] eqn:E4; [|right; by eexists _, _, _].
    left. right. exists fd, d3. done.
  - pose proof (close_socket_calm (new_LanSocket fd) d3) as (x & d4 & E4 & Hc4)%post_inv. unfold bind. rewrite E4. left. left. split; [done|]. by etransitivity.
Qed.

Lemma calm_set_tcp t d d' : calm d d' -> calm (set_tcp t d) (set_tcp t d').
Proof. intros []. by constructor. Qed.

Lemma initTcp_run listening d :
  lobby_ok d ->
  post (initTcp listening) (fun rc d' => lobby_ok d' /\ exists t, calm (set_tcp t d) d' /\ (rc = 0 -> is_Some t)) d.
Proof.
  intros Hd. unfold initTcp. apply post_bind. eapply post_mono; [by apply close_tcp_run|]. intros ? d1 [Hd1 [t Hc1]].
  destruct (init_socket_run true listening 6 7 8 (fun sk => modify (set_tcp (Some sk))) d1) as [Hp|(? & ? & ? & _ & [=])].
  eapply post_mono; [exact Hp|]. intros rc d' [[Hrc Hc]|(fd & d2 & Hc & -> & [= <-])].
  - split; [by eapply calm_lobby|]. exists t. split; [by etransitivity|done].
  - split; [apply lobby_tcp; [by eapply calm_lobby|]; intros ? [= <-]; apply new_socket_fresh|]. exists (Some (new_LanSocket fd)).
    split; [|done]. apply (calm_set_tcp (Some (new_LanSocket fd))) in Hc1, Hc. by etransitivity.
Qed.

Lemma close_and_reset_run d :
  lobby_ok d -> d_bound d = true ->
  post (close_tcp ;;; resetStations) (fun _ d' => lobby_ok d' /\ d_bound d' = true) d.
Proof.
  intros Hd Hb. apply post_bind. eapply post_mono; [by apply close_tcp_run|]. intros ? d1 [Hd1 [t Hc1]].
  eapply post_mono; [by apply resetStations_run|]. intros ? d2 [Hd2 (l & o & ->)]. split; [done|]. cbn. by rewrite (cm_bound _ _ Hc1).
Qed.
Lemma post_seq {A B C} (m : M (LANDiscovery E) A) (n : M (LANDiscovery E) B) (k : M (LANDiscovery E) C) Q d :
  post (m ;;; n) (fun _ d' => post k Q d') d -> post (m ;;; n ;;; k) Q d.
Proof. unfold post, bind. destruct (m d); [|done]. by destruct (n _). Qed.

Lemma mode_inv v d : lobby_inv d -> v <> AccessPointCreated -> post (change_mode v) (fun _ => lobby_inv) d.
Proof.
  intros Hi Hv. unfold change_mode. apply post_bind. unfold post at 1, gets. destruct (decide _); [done|].
  apply post_seq. eapply post_mono; [exact (close_and_reset_run d (li_ok _ Hi) (li_bound _ Hi))|]. intros ? d1 [Hd1 Hb1].
  apply post_bind. eapply post_mono; [by apply leave_inv|]. done.
Qed.
Lemma reason_inv r d : lobby_inv d -> lobby_inv (set_disconnect_reason r d).
Proof. apply calm_inv. by constructor. Qed.
Lemma destroy_inv d : lobby_inv d -> post destroyNetwork (fun _ => lobby_inv) d.
Proof.
  intros Hi. unfold destroyNetwork. apply post_seq. eapply post_mono; [exact (close_and_reset_run d (li_ok _ Hi) (li_bound _ Hi))|]. intros ? d1 [Hd1 Hb1].
  apply post_bind. eapply post_mono; [by apply leave_inv|]. done.
Qed.
Lemma disconnect_inv d : lobby_inv d -> post disconnect (fun _ => lobby_inv) d.
Proof.
  intros [Hd Hb Ht]. unfold disconnect. apply post_bind. eapply post_mono; [by apply close_tcp_run|]. intros ? d1 [Hd1 [t Hc1]].
  apply post_bind. eapply post_mono; [apply leave_inv; [done|by rewrite (cm_bound _ _ Hc1)|done]|]. done.
Qed.

(** *** Stores to the announced information *)

(** Only the information changes. *)
Definition info_only (d d' : LANDiscovery E) : Prop := calm (set_networkInfo (d_networkInfo d') d) d'.
#[export] Instance info_only_preorder : PreOrder info_only.
Proof.
  split; [by constructor|]. intros d1 d2 d3 [] []. constructor; cbn in *; congruence.
Qed.
Lemma calm_info_only d d' : calm d d' -> info_only d d'.
Proof. intros []. by constructor. Qed.

(** A store of [n] bytes at [off]. *)
Record stored (off : Z) (bs : bytes) d d' : Prop := {
  sd_ok : lobby_ok d';
  sd_info : info_only d d';
  sd_bytes (k : nat) : d_networkInfo d' !! k =
    if decide (off <= Z.of_nat k < off + zlen bs) then bs !! (k - Z.to_nat off)%nat else d_networkInfo d !! k;
}.
Lemma put_info_post off bs d :
  lobby_ok d -> 0 <= off -> off + zlen bs <= sizeof_NetworkInfo -> is_bytes bs -> post (put_info off bs) (fun _ => stored off bs d) d.
Proof.
  intros Hd Ho Hl Hb. destruct (put_info_run off bs d Hd Ho Hl Hb) as (info & Er & Ep & Hd'). unfold post. rewrite Er.
  constructor; [done|by constructor|]. intros k. by apply mem_put_lookup.
Qed.
Lemma put_then {A} off bs (k : M (LANDiscovery E) A) Q d :
  lobby_ok d -> 0 <= off -> off + zlen bs <= sizeof_NetworkInfo -> is_bytes bs ->
  (forall d', stored off bs d d' -> post k Q d') -> post (put_info off bs ;;; k) Q d.
Proof. intros Hd Ho Hl Hb Hk. apply post_bind. eapply post_mono; [by apply put_info_post|]. intros ? d' Hs. by apply Hk. Qed.
Lemma stored_other off bs d d' (k : nat) :
  stored off bs d d' -> ~ off <= Z.of_nat k < off + zlen bs -> d_networkInfo d' !! k = d_networkInfo d !! k.
Proof. intros Hs Hk. rewrite (sd_bytes _ _ _ _ Hs). by rewrite decide_False. Qed.

Lemma store_bytes n x : is_bytes (store n x) /\ zlen (store n x) = Z.of_nat n.
Proof. split; [apply store_is_bytes|]. unfold zlen. by rewrite length_store. Qed.
Lemma byte_bytes v : is_u8 v -> is_bytes [v].
Proof. intros. constructor; [done|constructor]. Qed.

Definition advertise_ok (data : option bytes) (size : Z) : Prop :=
  is_u16 size /\ match data with Some bs => is_bytes bs /\ size <= zlen bs | None => True end.
Lemma advertise_inv data size d : lobby_inv d -> advertise_ok data size -> post (setAdvertiseData data size) (fun _ => lobby_inv) d.
Proof.
  intros [Hd Hb Ht] [Hz Ha]. unfold setAdvertiseData, is_u16 in *. unfold AdvertiseDataSizeMax. destruct (Z.ltb_spec 384 size); [done|].
  apply post_bind. eapply post_mono; [|].
  { instantiate (1 := fun _ d' => lobby_ok d' /\ info_only d d' /\ forall k, (k < 620)%nat -> d_networkInfo d' !! k = d_networkInfo d !! k).
    destruct data as [bs|]; [|split; [done|]; split; [by apply calm_info_only|done]]. destruct Ha as [Hbs Hl].
    destruct (Z.ltb_spec 0 size); [|split; [done|]; split; [by apply calm_info_only|done]].
    apply post_bind. unfold post at 1. rewrite mem_get_Some by lia. cbn [mem ret]. unfold ni_advertiseData.
    eapply post_mono; [apply put_info_post; [done|lia|rewrite zlen_take by (change (Z.to_nat 0) with 0%nat; rewrite drop_0; lia); unfold sizeof_NetworkInfo; lia|by apply Forall_take, Forall_drop]|].
    intros ? d' Hs. cbv beta in Hs. split; [apply Hs|]. split; [apply Hs|]. intros k Hk. eapply stored_other; [exact Hs|]. lia. }
  intros ? d1 (Hd1 & Hi1 & Hk1). cbv beta. destruct (store_bytes 2 size) as [Hsb Hsz].
  apply put_then; [done|unfold ni_advertiseDataSize; lia|rewrite Hsz; unfold ni_advertiseDataSize, sizeof_NetworkInfo; lia|done|]. intros d2 Hs2.
  pose proof (sd_info _ _ _ _ Hs2) as Hi2. assert (Hi : info_only d d2) by (by etransitivity).
  apply post_bind. eapply post_mono; [apply update_inv; [apply Hs2|by rewrite (cm_bound _ _ Hi)|]|done].
  rewrite (cm_state _ _ Hi). intros Hs. destruct (tk_host _ (Ht Hs)) as (Hh1 & Hh2 & Hh3). unfold host_ok.
  rewrite !(stored_other _ _ _ _ _ Hs2), !Hk1 by (unfold ni_advertiseDataSize; rewrite ?Hsz; lia). done.
Qed.

(** *** createNetwork *)

Lemma cstring_sub (b : bytes) : cstring b `prefix_of` b.
Proof. induction b as [|c b IH]; cbn; [done|]. destruct (c =? 0); [by eexists|]. by apply prefix_cons. Qed.

Definition user_ok (userConfig : bytes) : Prop := is_bytes userConfig /\ is_Some (user_name userConfig).
Lemma user_name_ok userConfig name : is_bytes userConfig -> user_name userConfig = Some name -> is_bytes name /\ zlen name <= 33.
Proof.
  intros Hb. unfold user_name. intros (b & Eb & Hn)%bind_Some. unfold UserNameBytesMax in Hn.
  destruct (Z.leb_spec (zlen (cstring b)) 32); [|done]. injection Hn as [= <-]. split; [|zlia].
  apply Forall_app; split; [|by apply byte_bytes]. destruct (cstring_sub b) as [t Et].
  pose proof (mem_get_is_bytes _ _ _ _ Hb Eb) as Hbb. rewrite Et in Hbb. by apply Forall_app in Hbb as [? _].
Qed.

Lemma getFakeMac_run mac d :
  is_bytes mac -> zlen mac = 6 -> post (getFakeMac mac) (fun r d' => calm d d' /\ is_bytes r.2 /\ zlen r.2 = 6) d.
Proof.
  intros Hb Hl. unfold post, getFakeMac, bind, sys, ret. destruct (mitm_ip (d_ticks d)) as [rc ip]. split; [done|]. cbn [snd].
  destruct (store_bytes 4 (ntohl ip)) as [Hs Hz]. destruct (rc =? 0).
  - split; [|zlens; rewrite Hz; done]. do 2 (constructor; [done|]). done.
  - split; [do 2 (constructor; [done|]); by apply Forall_drop|]. unfold zlen in *. cbn. rewrite length_drop. lia.
Qed.

(** Stores to the bytes of a node. *)
Lemma node_put (node : bytes) off bs :
  zlen node = 64 -> is_bytes node -> is_bytes bs -> 0 <= off -> off + zlen bs <= 64 -> ~ off <= 10 < off + zlen bs ->
  exists node', mem_put node off bs = Some node' /\ zlen node' = 64 /\ is_bytes node' /\ node' !! 10%nat = node !! 10%nat.
Proof.
  intros Hz Hb Hbs Ho Hl Hk. destruct (mem_put node off bs) as [node'|] eqn:Ep; [|rewrite mem_put_Some in Ep by lia; done].
  exists node'. split; [done|]. split; [by rewrite (mem_put_zlen _ _ _ _ Ep)|]. split; [eapply mem_put_is_bytes; [exact Hb|exact Hbs|exact Ep]|].
  rewrite (mem_put_lookup _ _ _ _ 10 Ep). by rewrite decide_False by lia.
Qed.
Lemma getNodeInfo_run node userConfig v d :
  zlen node = 64 -> is_bytes node -> user_ok userConfig ->
  post (getNodeInfo node userConfig v)
    (fun r d' => calm d d' /\ zlen r.2 = 64 /\ is_bytes r.2 /\ r.2 !! 10%nat = node !! 10%nat) d.
Proof.
  intros Hz Hb [Hu [name En]]. destruct (user_name_ok _ _ Hu En) as [Hnb Hnz]. unfold getNodeInfo. apply post_bind. unfold post at 1, sys.
  destruct (mitm_ip (d_ticks d)) as [rc ip]. destruct (negb (rc =? 0)); [done|]. apply post_bind. unfold post at 1.
  rewrite mem_get_Some by (unfold node_macAddress; lia). cbn [mem ret]. apply post_bind. unfold node_macAddress.
  eapply post_mono; [apply getFakeMac_run; [by apply Forall_take, Forall_drop|rewrite zlen_take; [done|rewrite zlen_drop; lia]]|].
  intros [rc2 mac] d2 (Hc2 & Hmb & Hmz). cbn [snd] in *. assert (Hc : calm d d2) by (etransitivity; [|exact Hc2]; by constructor). clear Hc2.
  destruct (node_put node 4 mac) as (n1 & E1 & Hz1 & Hb1 & K1); [done..|lia|lia|lia|].
  apply post_bind. unfold post at 1. rewrite E1. cbn [mem ret]. destruct (negb (rc2 =? 0)); [by rewrite <- K1|].
  destruct (node_put n1 11 [1]) as (n2 & E2 & Hz2 & Hb2 & K2); [done|done|by apply byte_bytes|zlia..|].
  apply post_bind. unfold post at 1, node_isConnected. rewrite E2. cbn [mem ret]. apply post_bind. unfold post at 1. rewrite En. cbn [mem ret].
  destruct (node_put n2 12 name) as (n3 & E3 & Hz3 & Hb3 & K3); [done..|lia|lia|lia|].
  apply post_bind. unfold post at 1, node_userName. rewrite E3. cbn [mem ret]. destruct (store_bytes 2 v) as [Hs2 Hsz2].
  destruct (node_put n3 46 (store 2 v)) as (n4 & E4 & Hz4 & Hb4 & K4); [done..|lia|lia|lia|].
  apply post_bind. unfold post at 1, node_localCommunicationVersion. rewrite E4. cbn [mem ret]. destruct (store_bytes 4 (ntohl ip)) as [Hs4 Hsz4].
  destruct (node_put n4 0 (store 4 (ntohl ip))) as (n5 & E5 & Hz5 & Hb5 & K5); [done..|lia|lia|lia|].
  apply post_bind. unfold post at 1, node_ipv4Address. rewrite E5. cbn [mem ret]. unfold post, ret. cbn [snd]. split; [done|]. split; [done|]. split; [done|congruence].
Qed.

Lemma init_node_run i d :
  lobby_ok d -> 0 <= i < 8 ->
  post (init_node i) (fun _ d' => lobby_ok d' /\ info_only d d' /\ d_networkInfo d' !! Z.to_nat (ni_nodes i + 10) = Some i /\
    forall k : nat, ~ ni_nodes i <= Z.of_nat k < ni_nodes i + 64 -> d_networkInfo d' !! k = d_networkInfo d !! k) d.
Proof.
  intros Hd Hi. unfold init_node, ni_nodes, node_nodeId, node_isConnected, sizeof_NodeInfo in *. rewrite u8_id by (unfold is_u8; lia).
  apply put_then; [done|lia|zlens; unfold sizeof_NetworkInfo; lia|apply byte_bytes; unfold is_u8; lia|]. intros d1 Hs1.
  eapply post_mono; [apply put_info_post; [apply Hs1|lia|zlens; unfold sizeof_NetworkInfo; lia|by apply byte_bytes]|]. intros ? d2 Hs2. cbv beta in Hs2.
  split; [apply Hs2|]. split; [etransitivity; [apply Hs1|apply Hs2]|]. split.
  - rewrite (stored_other _ _ _ _ _ Hs2) by (zlens; lia). rewrite (sd_bytes _ _ _ _ Hs1), decide_True by (zlens; lia). by rewrite Nat.sub_diag.
  - intros k Hk. rewrite (stored_other _ _ _ _ _ Hs2), (stored_other _ _ _ _ _ Hs1) by (zlens; lia). done.
Qed.
Lemma init_nodes_run d :
  lobby_ok d ->
  post (for_each (seqZ 0 NodeCountMax) init_node) (fun _ d' => lobby_ok d' /\ info_only d d' /\ d_networkInfo d' !! 114%nat = Some 0 /\
    forall k, (k < 104)%nat -> d_networkInfo d' !! k = d_networkInfo d !! k) d.
Proof.
  intros Hd. change (seqZ 0 NodeCountMax) with (0 :: seqZ 1 7). cbn [for_each]. apply post_bind.
  eapply post_mono; [apply init_node_run; [done|lia]|]. intros ? d1 (Hd1 & Hi1 & K1 & O1). change (Z.to_nat (ni_nodes 0 + 10)) with 114%nat in K1.
  eapply post_mono.
  { apply (post_for_each _ init_node (fun d' => lobby_ok d' /\ info_only d1 d' /\ forall k, (k < 168)%nat -> d_networkInfo d' !! k = d_networkInfo d1 !! k)).
    - split; [done|]. split; [reflexivity|done].
    - intros i d' Hi (Hd' & Hi' & O'). apply elem_of_seqZ in Hi. eapply post_mono; [apply init_node_run; [done|lia]|].
      intros ? d2 (Hd2 & Hi2 & _ & O2). split; [done|]. split; [by etransitivity|]. intros k Hk. rewrite O2, O' by (unfold ni_nodes, sizeof_NodeInfo; lia). done. }
  intros ? d2 (Hd2 & Hi2 & O2). split; [done|]. split; [by etransitivity|]. split; [by rewrite O2 by lia|].
  intros k Hk. rewrite O2 by lia. apply O1. unfold ni_nodes, sizeof_NodeInfo. lia.
Qed.

Lemma FakeSsid_bytes : is_bytes (FakeSsid ++ [0]) /\ zlen (FakeSsid ++ [0]) = 33.
Proof. split; [|done]. vm_compute. repeat (constructor; [split; [discriminate|reflexivity]|]). constructor. Qed.

Lemma initNetworkInfo_run d :
  lobby_ok d ->
  post initNetworkInfo (fun rc d' => lobby_ok d' /\ info_only d d' /\
    (rc = 0 -> d_networkInfo d' !! 38%nat = Some 32 /\ d_networkInfo d' !! 114%nat = Some 0)) d.
Proof.
  intros Hd. unfold initNetworkInfo, ni_bssid, ni_channel, ni_linkLevel, ni_networkType, ni_ssid. apply post_bind. unfold post at 1, gets, id.
  apply post_bind. unfold post at 1. rewrite mem_get_Some by (rewrite ?(lk_info _ Hd); unfold sizeof_NetworkInfo; lia). cbn [mem ret].
  apply post_bind. eapply post_mono; [apply getFakeMac_run|].
  { apply Forall_take, Forall_drop, (lk_bytes _ Hd). }
  { rewrite zlen_take; [done|]. rewrite zlen_drop; rewrite (lk_info _ Hd); unfold sizeof_NetworkInfo; lia. }
  intros [rc bssid] d1 (Hc1 & Hb1 & Hz1). cbn [snd] in *. assert (Hd1 : lobby_ok d1) by (by eapply calm_lobby).
  apply put_then; [done|lia|rewrite Hz1; unfold sizeof_NetworkInfo; lia|done|]. intros d2 Hs2.
  assert (Hi2 : info_only d d2) by (etransitivity; [apply calm_info_only, Hc1|apply Hs2]).
  destruct (Z.eqb_spec rc 0) as [->|Hrc]; cbn [negb]; [|split; [apply Hs2|done]].
  destruct (store_bytes 2 6) as [Hsb Hsz]. destruct FakeSsid_bytes as [Hfb Hfz].
  apply put_then; [apply Hs2|lia|rewrite Hsz; unfold sizeof_NetworkInfo; lia|done|]. intros d3 Hs3.
  apply put_then; [apply Hs3|lia|zlens; unfold sizeof_NetworkInfo; lia|by apply byte_bytes|]. intros d4 Hs4.
  apply put_then; [apply Hs4|lia|zlens; unfold sizeof_NetworkInfo; lia|by apply byte_bytes|]. intros d5 Hs5.
  apply put_then; [apply Hs5|lia|rewrite Hfz; unfold sizeof_NetworkInfo; lia|done|]. intros d6 Hs6.
  change [u8 (zlen FakeSsid)] with [32].
  apply put_then; [apply Hs6|lia|zlens; unfold sizeof_NetworkInfo; lia|by apply byte_bytes|]. intros d7 Hs7.
  apply post_bind. eapply post_mono; [apply init_nodes_run; apply Hs7|]. intros ? d8 (Hd8 & Hi8 & K8 & O8). split; [done|]. split.
  - etransitivity; [exact Hi2|]. etransitivity; [apply Hs3|]. etransitivity; [apply Hs4|]. etransitivity; [apply Hs5|].
    etransitivity; [apply Hs6|]. etransitivity; [apply Hs7|]. done.
  - intros _. split; [|done]. rewrite O8 by lia. rewrite (sd_bytes _ _ _ _ Hs7), decide_True by (zlens; lia). done.
Qed.

Record network_ok (nc : NetworkConfig) : Prop := {
  nk_intent : zlen (nc_intentId nc) = 16;
  nk_intent_bytes : is_bytes (nc_intentId nc);
  nk_max : is_u8 (nc_nodeCountMax nc);
}.
Class MitmLaws := {
  law_random n : zlen (mitm_random n) = 16 /\ is_bytes (mitm_random n);
  law_order l : mitm_order l ≡ₚ l;
}.
Context `{!MitmLaws}.

(** The two bytes of the information that later steps rely on. *)
Definition named (info : bytes) : Prop := info !! 38%nat = Some 32 /\ info !! 114%nat = Some 0.
Lemma stored_named off bs d d' :
  stored off bs d d' -> off + zlen bs <= 38 \/ 39 <= off /\ (off + zlen bs <= 114 \/ 115 <= off) -> named (d_networkInfo d) ->
  named (d_networkInfo d').
Proof. intros Hs Hk [K1 K2]. unfold named. rewrite !(stored_other _ _ _ _ _ Hs) by lia. done. Qed.

Lemma fill_network_run securityMode userConfig nc d :
  lobby_ok d -> named (d_networkInfo d) -> user_ok userConfig -> network_ok nc ->
  post (fill_network securityMode userConfig nc) (fun _ d' => lobby_ok d' /\ info_only d d' /\ named (d_networkInfo d')) d.
Proof.
  intros Hd Hn Hu [Hni Hnb Hnm]. unfold fill_network, ni_nodeCountMax, ni_securityMode, ni_channel, ni_sessionId, ni_intentId.
  apply put_then; [done|lia|zlens; unfold sizeof_NetworkInfo; lia|by apply byte_bytes|]. intros d3 Hs3.
  destruct (store_bytes 2 securityMode) as [Hsb Hsz]. destruct (store_bytes 2 (if nc_channel nc =? 0 then 6 else nc_channel nc)) as [Hcb Hcz].
  apply put_then; [apply Hs3|lia|rewrite Hsz; unfold sizeof_NetworkInfo; lia|done|]. intros d4 Hs4.
  apply put_then; [apply Hs4|lia|rewrite Hcz; unfold sizeof_NetworkInfo; lia|done|]. intros d5 Hs5.
  apply post_bind. unfold post at 1, sys. destruct (law_random (d_ticks d5)) as [Hrz Hrb].
  assert (Hc5 : calm d5 (set_ticks (S (d_ticks d5)) d5)) by by constructor.
  apply put_then; [eapply calm_lobby; [exact Hc5|apply Hs5]|lia|rewrite Hrz; unfold sizeof_NetworkInfo; lia|done|]. intros d6 Hs6.
  apply put_then; [apply Hs6|lia|rewrite Hni; unfold sizeof_NetworkInfo; lia|done|]. intros d7 Hs7.
  assert (Hi7 : info_only d d7).
  { etransitivity; [apply Hs3|]. etransitivity; [apply Hs4|]. etransitivity; [apply Hs5|]. etransitivity; [apply calm_info_only, Hc5|].
    etransitivity; [apply Hs6|apply Hs7]. }
  assert (K7 : named (d_networkInfo d7)).
  { eapply stored_named; [exact Hs7|lia|]. eapply stored_named; [exact Hs6|lia|]. cbn [d_networkInfo set_ticks].
    eapply stored_named; [exact Hs5|lia|]. eapply stored_named; [exact Hs4|lia|]. eapply stored_named; [exact Hs3|zlens; lia|done]. }
  pose proof (sd_ok _ _ _ _ Hs7) as Hd7. apply post_bind. unfold post at 1, gets, id. apply post_bind. unfold post at 1, ni_nodes, sizeof_NodeInfo.
  rewrite mem_get_Some by (rewrite ?(lk_info _ Hd7); unfold sizeof_NetworkInfo; lia). cbn [mem ret]. set (node0 := take _ _).
  assert (Hz0 : zlen node0 = 64) by (apply zlen_take; rewrite zlen_drop; rewrite ?(lk_info _ Hd7); unfold sizeof_NetworkInfo; lia).
  assert (K0 : node0 !! 10%nat = Some 0) by (unfold node0; rewrite lookup_take_lt, lookup_drop by lia; apply K7).
  apply post_bind. eapply post_mono; [apply getNodeInfo_run; [done|apply Forall_take, Forall_drop, (lk_bytes _ Hd7)|done]|].
  intros [rc3 node1] d8 (Hc8 & Hz1 & Hb1 & K1). cbn [snd] in *. assert (Hd8 : lobby_ok d8) by (by eapply calm_lobby).
  apply put_then; [done|lia|rewrite Hz1; unfold sizeof_NetworkInfo; lia|done|]. intros d9 Hs9. split; [apply Hs9|]. split.
  - etransitivity; [exact Hi7|]. etransitivity; [apply calm_info_only, Hc8|apply Hs9].
  - split.
    + rewrite (stored_other _ _ _ _ _ Hs9) by lia. rewrite (cm_info _ _ Hc8). apply K7.
    + rewrite (sd_bytes _ _ _ _ Hs9), decide_True by lia. change (114 - Z.to_nat (104 + 0 * 64))%nat with 10%nat. congruence.
Qed.

Lemma open_network_inv d :
  lobby_ok d -> d_bound d = true -> named (d_networkInfo d) -> post open_network (fun _ => lobby_inv) d.
Proof.
  intros Hd Hb [K1 K2]. unfold open_network, ni_nodes, sizeof_NodeInfo, node_isConnected. apply post_bind. eapply post_mono; [apply setState_run|].
  intros ? d1 Hc1. cbv beta in Hc1. assert (Hd1 : lobby_ok d1) by (eapply calm_lobby; [exact Hc1|by apply lobby_state]).
  apply post_bind. unfold initNodeStateChange, post at 1, modify. set (d2 := set_nodeChanges _ _).
  assert (Hd2 : lobby_ok d2) by (destruct Hd1; by constructor).
  apply put_then; [done|lia|zlens; unfold sizeof_NetworkInfo; lia|by apply byte_bytes|]. intros d3 Hs3.
  apply update_inv; [apply Hs3|rewrite (cm_bound _ _ (sd_info _ _ _ _ Hs3)); cbn; by rewrite (cm_bound _ _ Hc1)|].
  intros _. unfold host_ok. rewrite (stored_other _ _ _ _ 38 Hs3), (stored_other _ _ _ _ 114 Hs3) by (zlens; lia).
  cbn [d_networkInfo set_nodeChanges set_nodeLastStates d2]. rewrite (cm_info _ _ Hc1). cbn. split; [done|]. split; [done|].
  by rewrite (sd_bytes _ _ _ _ Hs3), decide_True by (zlens; lia).
Qed.

Lemma create_inv securityMode userConfig nc d :
  lobby_inv d -> user_ok userConfig -> network_ok nc -> post (createNetwork securityMode userConfig nc) (fun _ => lobby_inv) d.
Proof.
  intros [Hd Hb Ht] Hu Hn. unfold createNetwork. apply post_bind. unfold post at 1, gets. destruct (decide _) as [|Hst]; [done|].
  assert (Hs0 : d_state d = AccessPoint) by (destruct (decide (d_state d = AccessPoint)); [done|by exfalso; apply Hst]).
  apply post_bind. eapply post_mono; [by apply initTcp_run|]. intros rc d1 (Hd1 & t & Hc1 & _).
  assert (Hb1 : d_bound d1 = true) by (by rewrite (cm_bound _ _ Hc1)). assert (Hs1 : d_state d1 = AccessPoint) by (by rewrite (cm_state _ _ Hc1)).
  destruct (negb (rc =? 0)); [by apply inv_other; rewrite ?Hs1|]. apply post_bind. eapply post_mono; [by apply initNetworkInfo_run|].
  intros rc2 d2 (Hd2 & Hi2 & K2). assert (Hb2 : d_bound d2 = true) by (by rewrite (cm_bound _ _ Hi2)).
  assert (Hs2 : d_state d2 = AccessPoint) by (by rewrite (cm_state _ _ Hi2)).
  destruct (Z.eqb_spec rc2 0) as [->|]; cbn [negb]; [|by apply inv_other; rewrite ?Hs2].
  apply post_bind. eapply post_mono; [apply fill_network_run; [done|exact (K2 eq_refl)|done|done]|]. intros rc3 d3 (Hd3 & Hi3 & K3).
  assert (Hb3 : d_bound d3 = true) by (by rewrite (cm_bound _ _ Hi3)). destruct (negb (rc3 =? 0)).
  - apply inv_other; [done|done|]. rewrite (cm_state _ _ Hi3). cbn. by rewrite Hs2.
  - apply post_bind. eapply post_mono; [by apply open_network_inv|done].
Qed.

(** *** connect, scan and the ends of a session *)

Lemma tcp_changed_inv t d d' : lobby_inv d -> lobby_ok d' -> calm (set_tcp t d) d' -> lobby_inv d'.
Proof.
  intros [Hd Hb Ht] Hd' Hc. constructor; [done|by rewrite (cm_bound _ _ Hc)|]. rewrite (cm_state _ _ Hc). intros Hs.
  eapply calm_table; [exact Hc|]. by destruct (Ht Hs).
Qed.
Lemma initNodeStateChange_calm d : lobby_ok d -> post initNodeStateChange (fun _ d' => calm d d') d.
Proof. intros Hd. constructor; cbn; rewrite ?(lk_changes _ Hd), ?(lk_last _ Hd); done. Qed.

Lemma connect_inv sys_connect info userConfig v d :
  lobby_inv d -> zlen info = sizeof_NetworkInfo -> user_ok userConfig ->
  post (connect sys_connect info userConfig v) (fun _ => lobby_inv) d.
Proof.
  intros Hi Hz Hu. unfold connect, field, ni_nodeCount, ni_nodes, sizeof_NodeInfo, node_ipv4Address. unfold sizeof_NetworkInfo in Hz.
  apply post_bind. unfold post at 1. rewrite mem_get_Some by lia. cbn [mbind option_bind mem ret]. destruct (_ =? 0); [done|].
  apply post_bind. unfold post at 1. rewrite mem_get_Some by lia. cbn [mbind option_bind mem ret]. apply post_bind. unfold post at 1, gets, id.
  apply post_bind. eapply post_mono; [apply initTcp_run, Hi|]. intros rc d1 (Hd1 & t & Hc1 & Ht1). pose proof (tcp_changed_inv _ _ _ Hi Hd1 Hc1) as Hi1.
  destruct (Z.eqb_spec rc 0) as [->|]; cbn [negb]; [|done]. destruct (Ht1 eq_refl) as [sk ->]. clear Ht1. destruct (negb _); [done|].
  apply post_bind. eapply post_mono; [apply getNodeInfo_run; [done|by apply Forall_replicate|done]|]. intros [rc2 node] d2 (Hc2 & Hz2 & Hb2 & _). cbn [snd] in *.
  pose proof (calm_inv _ _ Hc2 Hi1) as Hi2. destruct (negb _); [done|]. apply post_bind. unfold post at 1, gets. rewrite (cm_tcp _ _ Hc2), (cm_tcp _ _ Hc1).
  cbn [d_tcp set_tcp]. apply post_bind. unfold post at 1. rewrite tcp_sendPacket_run.
  2: { split; [done|]. split; [done|]. cbn. rewrite Hz2. done. }
  set (d3 := set_ticks _ _). assert (Hi3 : lobby_inv d3) by (eapply calm_inv; [|exact Hi2]; by constructor). destruct (_ <? 0); [done|].
  apply post_bind. eapply post_mono; [apply initNodeStateChange_calm, Hi3|]. intros ? d4 Hc4. cbv beta in Hc4. exact (calm_inv _ _ Hc4 Hi3).
Qed.

Definition filter_ok (filter : bytes) : Prop := is_bytes filter /\ zlen filter = sizeof_ScanFilter.

Lemma udp_sendPacket_calm addr port type data d :
  message_ok (type, data) -> is_Some (d_udp d) -> post (udp_sendPacket addr port type (Some data)) (fun _ d' => calm d d') d.
Proof.
  intros Hm [u Hu]. unfold post, udp_sendPacket, bind, gets. rewrite Hu, sendPacket_run by done. done.
Qed.
Lemma lobby_udp u d :
  lobby_ok d -> socket_ok (lu_socket u) -> Forall (fun x => zlen x.2 = sizeof_NetworkInfo) (lu_scanResults u) -> lobby_ok (set_udp (Some u) d).
Proof. intros [] Hs Hf. constructor; try done; cbn. by intros ? [= <-]. Qed.
Lemma udp_changed_inv u d :
  lobby_inv d -> socket_ok (lu_socket u) -> Forall (fun x => zlen x.2 = sizeof_NetworkInfo) (lu_scanResults u) -> lobby_inv (set_udp (Some u) d).
Proof. intros [Hd Hb Ht] Hs Hf. constructor; [by apply lobby_udp|done|]. cbn. intros Hst. by destruct (Ht Hst). Qed.

Lemma scan_begin_inv filter d :
  lobby_inv d -> is_Some (d_udp d) -> filter_ok filter ->
  post (scan_begin filter) (fun _ d' => lobby_inv d' /\ exists u, d_udp d' = Some u /\ lu_scanResults u = []) d.
Proof.
  intros Hi [u Hu] [Hfb Hfz]. unfold scan_begin. apply post_bind. unfold post at 1, gets. rewrite Hu. apply post_bind. unfold post at 1, modify.
  set (u' := {| lu_socket := _; lu_scanResults := _ |}). set (d1 := set_udp _ _).
  assert (Hi1 : lobby_inv d1) by (apply udp_changed_inv; [done|exact (proj1 (lk_udp _ (li_ok _ Hi) u Hu))|constructor]).
  unfold sendBroadcast, getBroadcast. apply post_bind. unfold post at 1, bind, sys. destruct (mitm_ip_config (d_ticks d1)) as [[rc a] m].
  unfold ret. set (d2 := set_ticks _ _). assert (Hc2 : calm d1 d2) by by constructor. apply post_bind. unfold post at 1, gets, id.
  eapply post_mono; [apply udp_sendPacket_calm; [|by exists u']|].
  { split; [done|]. split; [done|]. cbn [snd]. rewrite Hfz. unfold sizeof_ScanFilter, BufferSize, HeaderSize. lia. }
  intros ? d3 Hc3. cbv beta in Hc3. assert (Hc : calm d1 d3) by (by etransitivity). split; [by eapply calm_inv|]. exists u'. by rewrite (cm_udp _ _ Hc).
Qed.

Lemma take_changes_calm l d :
  lobby_ok d -> Forall (fun i => i < 8)%nat l -> post (take_changes l) (fun _ d' => calm d d') d.
Proof.
  intros Hd Hl. revert d Hd. induction Hl as [|i l Hi Hl IH]; intros d Hd; [done|]. cbn [take_changes].
  eapply (post_calm _ _ d); [|done|].
  - unfold take_change, post, bind, gets, id. destruct (lookup_lt_is_Some_2 (d_nodeChanges d) i) as [c ->]; [by rewrite (lk_changes _ Hd)|].
    cbn. constructor; cbn; by rewrite ?length_insert.
  - intros c d' Hc. eapply (post_calm _ _ d); [apply IH; by eapply calm_lobby|done|]. done.
Qed.
Lemma updates_inv n d : lobby_inv d -> post (getNetworkInfo_updates n) (fun _ => lobby_inv) d.
Proof.
  intros Hi. unfold getNetworkInfo_updates, NodeCountMax. destruct ((n <? 0) || (8 <? n)) eqn:Eb; [done|]. apply orb_false_iff in Eb as [E1%Z.ltb_ge E2%Z.ltb_ge].
  assert (Ht : post (let* updates := take_changes (seq 0 (Z.to_nat n)) in ret (0, Some (d_networkInfo d, updates))) (fun _ => lobby_inv) d).
  { apply post_bind. eapply post_mono; [apply take_changes_calm; [apply Hi|]|].
    - apply Forall_forall. intros i Hin%elem_of_seq. lia.
    - intros ? d' Hc. cbv beta in Hc. unfold post, ret. by eapply calm_inv. }
  apply post_bind. unfold post at 1, gets, id. by destruct (d_state d).
Qed.

Lemma drop_sockets_run d :
  lobby_ok d -> post (drop_udp ;;; drop_tcp) (fun _ d' => lobby_ok d' /\ d_bound d' = d_bound d) d.
Proof.
  intros Hd. apply post_bind. apply (post_mono _ (fun _ d' => lobby_ok d' /\ d_bound d' = d_bound d)).
  - unfold drop_udp. apply post_bind. unfold post at 1, gets. destruct (d_udp d); [|done]. apply post_bind.
    eapply post_mono; [apply close_socket_calm|]. intros ? d1 Hc1. cbv beta in Hc1. pose proof (calm_lobby _ _ Hc1 Hd) as [].
    split; [by constructor|]. cbn. by rewrite (cm_bound _ _ Hc1).
  - intros ? d1 [Hd1 <-]. unfold drop_tcp. apply post_bind. unfold post at 1, gets. destruct (d_tcp d1); [|done]. apply post_bind.
    eapply post_mono; [apply close_socket_calm|]. intros ? d2 Hc2. cbv beta in Hc2. split; [|apply (cm_bound _ _ Hc2)].
    apply lobby_tcp; [by eapply calm_lobby|done].
Qed.
Lemma finalize_inv d : lobby_inv d -> post finalize (fun _ => lobby_inv) d.
Proof.
  intros [Hd Hb _]. unfold finalize. apply post_bind. unfold post at 1, gets. apply post_bind.
  apply (post_mono _ (fun _ d' => lobby_ok d' /\ d_bound d' = true)).
  - destruct (d_initialized d); [|done]. apply post_bind. unfold post at 1, modify. set (d0 := set_stop true d).
    assert (Hd0 : lobby_ok d0) by (eapply calm_lobby; [|exact Hd]; by constructor). apply post_seq.
    eapply post_mono; [by apply drop_sockets_run|]. intros ? d1 [Hd1 Hb1]. apply post_bind. eapply post_mono; [by apply resetStations_run|].
    intros ? d2 [Hd2 (l & o & ->)]. unfold post, bind, modify, sys. split; [destruct Hd2; by constructor|]. cbn. by rewrite Hb1.
  - intros rc d1 [Hd1 Hb1]. apply post_bind. eapply post_mono; [by apply leave_inv|]. done.
Qed.

Lemma nifm_calls_calm n d : post (nifm_calls n) (fun _ d' => calm d d') d.
Proof.
  revert d. induction n as [|n IH]; intros d; [done|]. cbn [nifm_calls]. eapply (post_calm _ _ d); [apply sys_calm|done|].
  intros rc d' Hc. destruct (negb _); [done|]. eapply post_mono; [apply IH|]. intros ? ? Hc'. cbv beta in Hc'. by etransitivity.
Qed.

Lemma calm_set_udp u d d' : calm d d' -> calm (set_udp u d) (set_udp u d').
Proof. intros []. by constructor. Qed.
Lemma close_udp_run d : lobby_ok d -> post close_udp (fun _ d' => lobby_ok d' /\ exists u, calm (set_udp u d) d') d.
Proof.
  intros Hd. unfold close_udp. apply post_bind. unfold post at 1, gets. destruct (d_udp d) as [u|] eqn:Eu.
  - apply post_bind. eapply post_mono; [apply close_socket_run|]. cbn. intros s' d' (Hc & E1 & E2). unfold post, modify.
    destruct (lk_udp _ Hd u Eu) as [Hs Hf]. split; [|eexists; apply calm_set_udp, Hc].
    apply lobby_udp; [by eapply calm_lobby|by eapply socket_ok_same|done].
  - split; [done|]. exists None. destruct d; cbn in *; subst; by constructor.
Qed.
Lemma initUdp_run listening d :
  lobby_ok d ->
  post (initUdp listening) (fun rc d' => lobby_ok d' /\ exists u, calm (set_udp u d) d' /\ (rc = 0 -> is_Some u)) d.
Proof.
  intros Hd. unfold initUdp. apply post_bind. eapply post_mono; [by apply close_udp_run|]. intros ? d1 [Hd1 [u Hc1]].
  destruct (init_socket_run false listening 1 2 0 (fun s => modify (set_udp (Some {| lu_socket := s; lu_scanResults := [] |}))) d1)
    as [Hp|(? & ? & ? & _ & [=])].
  eapply post_mono; [exact Hp|]. intros rc d' [[Hrc Hc]|(fd & d2 & Hc & -> & [= <-])].
  - split; [by eapply calm_lobby|]. exists u. split; [by etransitivity|done].
  - split; [apply lobby_udp; [by eapply calm_lobby|apply new_socket_fresh|constructor]|]. eexists. split; [|by eexists].
    etransitivity; [|apply calm_set_udp, Hc]. exact (calm_set_udp _ _ _ Hc1).
Qed.

Definition has_info (i : nat) (sts : list LanStation) : Prop := exists st, sts !! i = Some st /\ st_nodeInfo st = true.
Lemma init_stations_run l d :
  (forall i, i ∈ l -> (i < 7)%nat) -> length (d_stations d) = 7%nat ->
  (forall i st, d_stations d !! i = Some st -> exists b, station_ok b i st) ->
  post (for_each l init_station) (fun _ d' => exists sts o, d' = set_stations sts (set_out o d) /\ length sts = 7%nat /\
    (forall i st, sts !! i = Some st -> exists b, station_ok b i st) /\
    forall i st, sts !! i = Some st -> i ∈ l \/ has_info i (d_stations d) -> st_nodeInfo st = true) d.
Proof.
  revert d. induction l as [|j l IH]; intros d Hl H7 Hok.
  { exists (d_stations d), (d_out d). split; [by destruct d|]. split; [done|]. split; [done|]. intros i st Hi [[]%elem_of_nil|(st' & Hi' & ?)]. congruence. }
  cbn [for_each]. apply post_bind. destruct (lookup_lt_is_Some_2 (d_stations d) j) as [st Est]; [rewrite H7; apply Hl; set_solver|].
  destruct (st_reset_run st d) as [o Eo]. unfold post at 1, init_station, station, bind, gets, id. rewrite Est. cbn [mem ret]. rewrite Eo.
  unfold put_station, modify. cbn [d_stations set_out]. set (st' := {| st_status := _ |}). set (sts := <[j := st']> (d_stations d)).
  assert (Hj : (j < length (d_stations d))%nat) by (by eapply lookup_lt_Some).
  eapply post_mono; [apply IH|].
  - intros i Hi. apply Hl. set_solver.
  - cbn. unfold sts. by rewrite length_insert.
  - intros i st0 Hi. apply list_lookup_insert_Some in Hi as [(<- & <- & _)|[_ Hi]]; [|by apply Hok].
    destruct (Hok _ _ Est) as [b []]. exists true. by constructor.
  - intros ? d' (sts' & o' & -> & Hz & Ha & Hn). eexists sts', o'. split; [done|]. split; [done|]. split; [done|].
    intros i st0 Hi Hor. apply (Hn i st0 Hi). cbn [d_stations set_stations]. destruct (decide (i = j)) as [->|Hij].
    + right. exists st'. split; [by apply list_lookup_insert_eq|done].
    + destruct Hor as [Hor|(st1 & Hst1 & ?)]; [left; set_solver|right]. exists st1. split; [by unfold sts; rewrite list_lookup_insert_ne|done].
Qed.
Lemma init_all_run d :
  lobby_ok d -> post (for_each station_ids init_station ;;; modify (set_bound true))
    (fun _ d' => lobby_ok d' /\ d_bound d' = true /\ d_state d' = d_state d) d.
Proof.
  intros Hd. apply post_bind. eapply post_mono; [apply init_stations_run|].
  - intros i Hi%elem_of_seq. change (Z.to_nat StationCountMax) with 7%nat in Hi. lia.
  - apply Hd.
  - intros i st Hi. eexists. by apply (lk_station _ Hd).
  - intros ? d' (sts & o & -> & Hz & Ha & Hn). unfold post, modify. split; [|done]. destruct Hd. constructor; try done. cbn.
    intros i st Hi. destruct (Ha i st Hi) as [b []]. constructor; try done. apply (Hn i st Hi). left. apply elem_of_seq.
    apply lookup_lt_Some in Hi. change (Z.to_nat StationCountMax) with 7%nat. lia.
Qed.

Lemma initialize_run listening d :
  lobby_ok d -> d_state d <> AccessPointCreated -> (d_initialized d = true -> d_bound d = true) ->
  post (initialize listening) (fun rc d' => lobby_ok d' /\ d_state d' <> AccessPointCreated /\
    (d_bound d = true \/ rc = 0 -> d_bound d' = true) /\ (rc = 0 -> d_initialized d = false -> d_state d' = Initialized)) d.
Proof.
  intros Hd Hs Hb. unfold initialize. apply post_bind. unfold post at 1, gets. destruct (d_initialized d).
  { split; [done|]. split; [done|]. split; [intros _; by apply Hb|done]. }
  clear Hb. apply post_bind. eapply post_mono; [apply nifm_calls_calm|]. intros rc d1 Hc1. cbv beta in Hc1.
  assert (Hq1 : lobby_ok d1 /\ d_state d1 <> AccessPointCreated /\ d_bound d1 = d_bound d).
  { split; [by eapply calm_lobby|]. by rewrite (cm_state _ _ Hc1), (cm_bound _ _ Hc1). }
  clear Hc1. destruct Hq1 as (Hd1 & Hs1 & Hb1). destruct (Z.eqb_spec rc 0); cbn [negb].
  2: { split; [done|]. split; [done|]. rewrite Hb1. split; [intros [|]; [done|lia]|by intros]. }
  apply post_bind. unfold post at 1, sys. apply post_bind. unfold post at 1, modify. set (d2 := set_originalMtu _ _).
  apply post_bind. eapply post_mono; [apply nifm_calls_calm|]. intros rc2 d3 Hc3. cbv beta in Hc3.
  assert (Hc : calm d1 d3) by (etransitivity; [|exact Hc3]; by constructor). assert (Hd3 : lobby_ok d3) by (by eapply calm_lobby).
  destruct (Z.eqb_spec rc2 0); cbn [negb].
  2: { split; [done|]. rewrite (cm_state _ _ Hc), (cm_bound _ _ Hc), Hb1. split; [done|]. split; [intros [|]; [done|lia]|by intros]. }
  apply post_seq. eapply post_mono; [by apply init_all_run|]. intros ? d4 (Hd4 & Hb4 & Hs4). rewrite (cm_state _ _ Hc) in Hs4.
  apply post_bind. eapply post_mono; [by apply initUdp_run|]. intros rc5 d5 (Hd5 & u & Hc5 & _).
  assert (Hs5 : d_state d5 <> AccessPointCreated) by (rewrite (cm_state _ _ Hc5); cbn; by rewrite Hs4).
  assert (Hb5 : d_bound d5 = true) by (by rewrite (cm_bound _ _ Hc5)). destruct (Z.eqb_spec rc5 0); cbn [negb]; [|by split_and!].
  apply post_bind. unfold post at 1, sys. destruct (negb _).
  { split; [destruct Hd5; by constructor|]. by split_and!. }
  apply post_bind. unfold post at 1, modify. apply post_bind. set (d6 := set_stop _ _).
  assert (Hd6 : lobby_ok d6) by (destruct Hd5; by constructor).
  eapply post_mono; [apply setState_run|]. intros ? d7 Hc7. cbv beta in Hc7. unfold post, bind, modify, ret.
  split; [pose proof (calm_lobby _ _ Hc7 (lobby_state _ _ Hd6)) as []; by constructor|]. cbn. by rewrite (cm_state _ _ Hc7), (cm_bound _ _ Hc7).
Qed.

(** *** Reports *)

Lemma station_post i st (Q : LanStation -> LANDiscovery E -> Prop) d : d_stations d !! i = Some st -> Q st d -> post (station i) Q d.
Proof. intros Hst HQ. unfold post, station, bind, gets, id. by rewrite Hst. Qed.

(** A station whose place in the table stays the same. *)
Lemma station_same_inv i st st' d :
  lobby_inv d -> d_stations d !! i = Some st -> station_ok true i st' -> joined st' = joined st ->
  lobby_inv (set_stations (<[i := st']> (d_stations d)) d).
Proof.
  intros [Hd Hb Ht] Hi Hst Hj. constructor; [apply lobby_station; [done|by rewrite Hb]|done|]. cbn [d_state set_stations]. intros Hs.
  destruct (Ht Hs) as [Hc Hh Hn]. constructor; cbn [d_networkInfo d_stations set_stations].
  - rewrite list_fmap_insert, list_insert_id; [done|]. rewrite list_lookup_fmap, Hi, Hj. done.
  - done.
  - intros k st0 Hk. apply list_lookup_insert_Some in Hk as [(<- & <- & _)|[_ Hk]]; [rewrite Hj|]; by apply Hn.
Qed.

Lemma station_ok_socket b i st sk :
  station_ok b i st -> is_Some (st_socket st) -> socket_ok sk -> station_ok b i (set_st_socket (Some sk) st).
Proof.
  intros [H1' H2' H3' H4'] [sk0 Hsk] Hs. constructor; [done|done| |by intros ? [= <-]]. cbn. rewrite H3', Hsk. done.
Qed.

Lemma on_station_run i st sk rc data d :
  lobby_inv d -> d_stations d !! i = Some st -> st_socket st = Some sk -> read_ok sk rc data ->
  exists m sk', on_station_socket i _ (recv_message rc data) d = Ok m (set_stations (<[i := set_st_socket (Some sk') st]> (d_stations d)) d) /\
    lobby_inv (set_stations (<[i := set_st_socket (Some sk') st]> (d_stations d)) d) /\
    (forall type body, m = inr (type, body) -> is_bytes body /\ zlen body <= BufferSize).
Proof.
  intros Hi Hst Hsk Hr. pose proof (lk_station _ (li_ok _ Hi) i st Hst) as Hok. rewrite (li_bound _ Hi) in Hok.
  destruct (recv_message_any sk rc data (sn_socket _ _ _ Hok sk Hsk) Hr) as (m & sk' & Er & Hsk' & _ & Hm).
  exists m, sk'. split.
  - unfold on_station_socket, station, bind, gets, id. rewrite Hst. cbn [mem ret]. rewrite Hsk, Er. done.
  - split; [|done]. eapply station_same_inv; [done|done| |done]. apply station_ok_socket; [done|by rewrite Hsk|done].
Qed.

(** A station has sent its node. *)
Lemma station_message_run i st type data d :
  lobby_inv d -> d_stations d !! i = Some st -> is_Some (st_socket st) -> is_bytes data ->
  post (station_message i type data) (fun _ => lobby_inv) d.
Proof.
  intros Hi Hst [sk Hsk] Hb. pose proof (lk_station _ (li_ok _ Hi) i st Hst) as Hok. rewrite (li_bound _ Hi) in Hok.
  unfold station_message. destruct (_ =? LANPacketType.Connect); [|done]. destruct (Z.eqb_spec (zlen data) sizeof_NodeInfo) as [Hz|]; [|done].
  cbn [negb]. assert (Hi7 : (i < 7)%nat) by (rewrite <- (lk_stations _ (li_ok _ Hi)); by eapply lookup_lt_Some).
  apply post_bind, (station_post _ st); [done|]. rewrite (sn_info _ _ _ Hok), (sn_id _ _ _ Hok).
  unfold ni_nodes, sizeof_NodeInfo, sizeof_NetworkInfo in *.
  apply put_then; [apply Hi|lia|unfold sizeof_NetworkInfo; lia|done|]. intros d1 Hs1. apply post_bind, post_modify.
  apply post_bind. eapply post_mono; [apply update_inv|done].
  - apply lobby_station; [apply Hs1|]. rewrite (cm_bound _ _ (sd_info _ _ _ _ Hs1)). cbn. rewrite (li_bound _ Hi).
    destruct Hok. constructor; try done. cbn. by rewrite Hsk.
  - cbn. rewrite (cm_bound _ _ (sd_info _ _ _ _ Hs1)). apply Hi.
  - cbn. rewrite (cm_state _ _ (sd_info _ _ _ _ Hs1)). cbn. intros Hs. pose proof (tk_host _ (li_table _ Hi Hs)) as (A & B & C).
    unfold host_ok. rewrite !(stored_other _ _ _ _ _ Hs1) by lia. done.
Qed.

Definition station_read_ok (i : nat) (rc : Z) (data : bytes) d : Prop :=
  (i < 7)%nat /\ forall st sk, d_stations d !! i = Some st -> st_socket st = Some sk -> read_ok sk (tcp_recvfrom rc) data.
Lemma station_onRead_inv i rc data d :
  lobby_inv d -> station_read_ok i rc data d -> post (station_onRead i rc data) (fun _ => lobby_inv) d.
Proof.
  intros Hi [H7 Hr]. destruct (lookup_lt_is_Some_2 (d_stations d) i) as [st Hst]; [by rewrite (lk_stations _ (li_ok _ Hi))|].
  unfold station_onRead. apply post_bind, (station_post _ st); [done|].
  destruct (st_socket st) as [sk|] eqn:Hsk; [|done].
  destruct (on_station_run i st sk _ data d Hi Hst Hsk (Hr st sk Hst Hsk)) as (m & sk' & Er & Hi' & Hm).
  unfold recvPacket. apply post_bind. unfold post at 1. rewrite Er. destruct m as [len|[type body]]; [done|].
  apply (station_message_run i (set_st_socket (Some sk') st)); [done| |by eexists|by eapply Hm].
  apply list_lookup_insert_eq. by eapply lookup_lt_Some.
Qed.
Lemma station_onClose_inv i d : lobby_inv d -> (i < 7)%nat -> post (station_onClose i) (fun _ => lobby_inv) d.
Proof.
  intros [Hd Hb Ht] Hi. destruct (reset_station_run i d Hd Hi) as (st & o & _ & Er & Hok). unfold station_onClose. apply post_bind.
  unfold post at 1. rewrite Er. apply update_inv; [done|done|]. cbn. intros Hs. apply (tk_host _ (Ht Hs)).
Qed.

Lemma free_station_spec l k i : free_station l k = Some i -> exists j st, i = (k + j)%nat /\ l !! j = Some st /\ st_status st = Disconnected.
Proof.
  revert k. induction l as [|st l IH]; intros k; cbn; [done|]. destruct (decide _) as [Hst|].
  - intros [= <-]. exists 0%nat, st. split; [lia|done].
  - intros (j & st' & -> & Hj & Hst')%IH. exists (S j), st'. split; [lia|done].
Qed.
Lemma onConnect_inv fd d : lobby_inv d -> post (onConnect fd) (fun _ => lobby_inv) d.
Proof.
  intros Hi. unfold onConnect. apply post_bind. unfold post at 1, gets, id.
  assert (Hem : post (mt_emit (MtClose fd)) (fun _ => lobby_inv) d) by (apply post_calm_inv; [apply emit_calm|done]).
  destruct (_ <=? _); [done|]. destruct (free_station (d_stations d) 0) as [i|] eqn:Ef; [|done].
  apply free_station_spec in Ef as (j & st & -> & Hst & Hdis). cbn [Nat.add]. apply post_bind, (station_post _ st); [done|]. unfold post, put_station, modify. pose proof (lk_station _ (li_ok _ Hi) j st Hst) as []. rewrite (li_bound _ Hi) in *.
  eapply station_same_inv; [done|done| |].
  - constructor; [done|done|done|]. intros ? [= <-]. apply new_socket_fresh.
  - unfold joined. rewrite Hdis. done.
Qed.

Lemma onSyncNetwork_inv info d :
  lobby_inv d -> d_state d <> AccessPointCreated -> is_bytes info -> zlen info = sizeof_NetworkInfo ->
  post (onSyncNetwork info) (fun _ => lobby_inv) d.
Proof.
  intros [Hd Hb _] Hs Hbi Hz. unfold onSyncNetwork. apply post_bind. unfold post at 1, modify. set (d1 := set_networkInfo info d).
  assert (Hd1 : lobby_ok d1) by (by apply lobby_info). assert (Hi1 : lobby_inv d1) by (by apply inv_other).
  apply post_bind. unfold post at 1, gets. apply post_bind. apply (post_mono _ (fun _ => lobby_inv)).
  - destruct (decide _); [by apply leave_inv|done].
  - intros ? d2 Hi2. apply post_calm_inv; [apply onNetworkInfoChanged_calm, Hi2|done].
Qed.

Lemma on_tcp_run sk rc data d :
  lobby_inv d -> d_tcp d = Some sk -> read_ok sk rc data ->
  exists m sk', on_tcp_socket _ (recv_message rc data) d = Ok m (set_tcp (Some sk') d) /\ lobby_inv (set_tcp (Some sk') d) /\
    (forall type body, m = inr (type, body) -> is_bytes body /\ zlen body <= BufferSize).
Proof.
  intros Hi Hsk Hr. destruct (recv_message_any sk rc data (lk_tcp _ (li_ok _ Hi) sk Hsk) Hr) as (m & sk' & Er & Hsk' & _ & Hm).
  exists m, sk'. split; [unfold on_tcp_socket, bind, gets; rewrite Hsk, Er; done|]. split; [|done].
  eapply tcp_changed_inv; [done| |reflexivity]. apply lobby_tcp; [apply Hi|]. by intros ? [= <-].
Qed.

(** [accept] needs no socket of the object; a read goes to the connection to the host. *)
Definition tcp_read_ok (rc : Z) (data : bytes) d : Prop :=
  (d_state d = Station \/ d_state d = StationConnected) -> exists sk, d_tcp d = Some sk /\ read_ok sk (tcp_recvfrom rc) data.
Lemma tcp_onRead_inv rc data d : lobby_inv d -> tcp_read_ok rc data d -> post (tcp_onRead rc data) (fun _ => lobby_inv) d.
Proof.
  intros Hi Hr. unfold tcp_onRead. apply post_bind, post_gets.
  assert (Hread : d_state d = Station \/ d_state d = StationConnected -> post (recvPacket on_tcp_socket tcp_message (tcp_recvfrom rc) data) (fun _ => lobby_inv) d).
  { intros Hs. destruct (Hr Hs) as (sk & Hsk & Hok). destruct (on_tcp_run sk _ data d Hi Hsk Hok) as (m & sk' & Er & Hi' & Hm).
    unfold recvPacket. apply post_bind. unfold post at 1. rewrite Er. destruct m as [len|[type body]]; [done|]. destruct (Hm type body eq_refl) as [Hb Hl].
    unfold tcp_message. destruct (_ =? _); [|done]. destruct (Z.eqb_spec (zlen body) sizeof_NetworkInfo); [|done]. cbn [negb].
    apply post_bind. eapply post_mono; [apply onSyncNetwork_inv; [done|destruct Hs as [Hs|Hs]; cbn; by rewrite Hs|done|done]|]. done. }
  destruct (d_state d); try done; [|by apply Hread; left|by apply Hread; right].
  destruct (_ <? 0); [done|]. apply post_bind. eapply post_mono; [by apply onConnect_inv|]. done.
Qed.
Lemma tcp_onClose_inv d : lobby_inv d -> post tcp_onClose (fun _ => lobby_inv) d.
Proof. intros Hi. unfold tcp_onClose, onDisconnectFromHost. apply post_bind, post_gets. destruct (decide _); [|done]. apply leave_inv; [apply Hi..|done]. Qed.

(** *** Filters *)

Lemma field_byte (b : bytes) k v : b !! k = Some v -> field b (Z.of_nat k) 1 = Some v.
Proof.
  intros Hk. pose proof (lookup_lt_Some _ _ _ Hk) as Hl. unfold field. rewrite mem_get_Some by (unfold zlen; lia). cbn [mbind option_bind].
  rewrite Nat2Z.id. rewrite (drop_S _ _ _ Hk). change (take (Z.to_nat 1) (v :: ?l)) with [v]. by rewrite load_single.
Qed.
Lemma ssid_eq_total (a b : bytes) x y :
  zlen a = 34 -> zlen b = 34 -> a !! 0%nat = Some x -> b !! 0%nat = Some y -> 0 <= x -> (x = y -> x <= 33) -> is_Some (ssid_eq a b).
Proof.
  intros Ha Hb Hx Hy H0' Hl. unfold ssid_eq. rewrite (field_byte a 0 x Hx : field a 0 1 = _), (field_byte b 0 y Hy : field b 0 1 = _). cbn [mbind option_bind].
  destruct (Z.eqb_spec x y) as [Hxy|]; [|done]. specialize (Hl Hxy). rewrite !mem_get_Some; [by eexists|lia|lia| |lia|lia|].
  all: unfold zlen in *; rewrite length_drop; lia.
Qed.
(** The length in a filter's name does not exceed the array, or it is not the network's. *)
Definition names_ok (filter info : bytes) : Prop :=
  forall x y, filter !! 42%nat = Some x -> info !! 38%nat = Some y -> x = y -> x <= 33.
Lemma matches_total filter info :
  is_bytes filter -> zlen filter = sizeof_ScanFilter -> zlen info = sizeof_NetworkInfo -> names_ok filter info ->
  is_Some (scanFilterMatchesNetwork (Some filter) info).
Proof.
  intros Hb Hf Hi Hn. unfold scanFilterMatchesNetwork, field, sizeof_ScanFilter, sizeof_NetworkInfo, sf_flag, sf_networkType, sf_ssid in *.
  unfold ni_localCommunicationId, ni_sessionId, ni_networkType, ni_ssid, ni_sceneId. rewrite !(mem_get_Some filter), !(mem_get_Some info) by lia.
  cbn [mbind option_bind].
  assert (Hs : is_Some (ssid_eq (take (Z.to_nat 34) (drop (Z.to_nat 42) filter)) (take (Z.to_nat 34) (drop (Z.to_nat 38) info)))).
  { destruct (lookup_lt_is_Some_2 filter 42) as [x Hx]; [unfold zlen in *; lia|]. destruct (lookup_lt_is_Some_2 info 38) as [y Hy]; [unfold zlen in *; lia|].
    apply (ssid_eq_total _ _ x y).
    - apply zlen_take. rewrite zlen_drop; lia.
    - apply zlen_take. rewrite zlen_drop; lia.
    - rewrite lookup_take_lt, lookup_drop by lia. done.
    - rewrite lookup_take_lt, lookup_drop by lia. done.
    - exact (proj1 (proj1 (Forall_lookup _ _) Hb _ _ Hx)).
    - by apply Hn. }
  destruct Hs as [b ->]. repeat (case_match; cbn [mbind option_bind]); by eexists.
Qed.

(** *** Datagrams *)

Lemma on_udp_run u rc data d :
  lobby_inv d -> d_udp d = Some u -> read_ok (lu_socket u) rc data ->
  exists m sk', on_udp_socket _ (recv_message rc data) d = Ok m (set_udp (Some {| lu_socket := sk'; lu_scanResults := lu_scanResults u |}) d) /\
    lobby_inv (set_udp (Some {| lu_socket := sk'; lu_scanResults := lu_scanResults u |}) d) /\
    (forall type body, m = inr (type, body) -> is_bytes body /\ zlen body <= BufferSize).
Proof.
  intros Hi Hu Hr. destruct (lk_udp _ (li_ok _ Hi) u Hu) as [Hsk Hf].
  destruct (recv_message_any _ rc data Hsk Hr) as (m & sk' & Er & Hsk' & _ & Hm).
  exists m, sk'. split; [unfold on_udp_socket, bind, gets; rewrite Hu, Er; done|]. split; [|done]. by apply udp_changed_inv.
Qed.

Lemma udp_message_inv addr port type data d :
  lobby_inv d -> is_Some (d_udp d) -> is_bytes data -> post (udp_message addr port type data) (fun _ => lobby_inv) d.
Proof.
  intros Hi [u Hu] Hb. unfold udp_message. apply post_bind. apply (post_mono _ (fun _ => lobby_inv)); [|done].
  destruct (type =? LANPacketType.Scan).
  { apply post_bind, post_gets. unfold id. destruct (decide _) as [Hs|]; [|done]. pose proof (tk_host _ (li_table _ Hi Hs)) as (K & _ & _).
    set (f := if sizeof_ScanFilter <=? zlen data then Some (take (Z.to_nat sizeof_ScanFilter) data) else None).
    assert (Ht : is_Some (scanFilterMatchesNetwork f (d_networkInfo d))).
    { unfold f, sizeof_ScanFilter. destruct (Z.leb_spec 0x60 (zlen data)); [|by eexists].
      apply matches_total; [by apply Forall_take|apply zlen_take; unfold sizeof_ScanFilter; lia|apply Hi|]. intros x y _ Hy ->. rewrite K in Hy. injection Hy. lia. }
    destruct Ht as [b Eb]. apply post_bind, (post_mem _ b); [done|]. destruct b; [|done]. apply post_bind.
    eapply post_mono; [apply udp_sendPacket_calm; [by apply (info_message _ _ (li_ok _ Hi))|by eexists]|]. intros ? d' Hc. cbv beta in Hc. unfold post, ret. by eapply calm_inv. }
  destruct (type =? LANPacketType.ScanResp); [|done]. destruct (Z.eqb_spec (zlen data) sizeof_NetworkInfo) as [Hz|]; [|done]. cbn [negb].
  apply post_bind. eapply post_mem; [apply mem_get_Some; unfold ni_bssid, sizeof_NetworkInfo in *; lia|]. apply post_bind, post_gets. rewrite Hu.
  destruct (decide _); [done|]. apply post_modify. destruct (lk_udp _ (li_ok _ Hi) u Hu) as [Hsk Hf].
  apply udp_changed_inv; [done|done|]. apply Forall_app; split; [done|]. by constructor.
Qed.

Definition udp_read_ok (rc : Z) (data : bytes) d : Prop := exists u, d_udp d = Some u /\ read_ok (lu_socket u) (udp_recvfrom rc) data.
Lemma udp_onRead_inv addr port rc data d : lobby_inv d -> udp_read_ok rc data d -> post (udp_onRead addr port rc data) (fun _ => lobby_inv) d.
Proof.
  intros Hi (u & Hu & Hr). destruct (on_udp_run u _ data d Hi Hu Hr) as (m & sk' & Er & Hi' & Hm). unfold udp_onRead, recvPacket.
  apply post_bind. unfold post at 1. rewrite Er. destruct m as [len|[type body]]; [done|]. apply udp_message_inv; [done|by eexists|by eapply Hm].
Qed.
Lemma udp_onClose_inv d : lobby_inv d -> post udp_onClose (fun _ => lobby_inv) d.
Proof. intros Hi. unfold udp_onClose. apply post_bind, post_modify. apply leave_inv; [apply reason_inv, Hi|apply Hi|done]. Qed.

Lemma pf_onClose_inv p d :
  lobby_inv d -> match p with PollStation i => (i < 7)%nat | _ => True end -> post (pf_onClose p) (fun _ => lobby_inv) d.
Proof. destruct p; intros Hi Hp; [by apply udp_onClose_inv|by apply tcp_onClose_inv|by apply station_onClose_inv]. Qed.

(** What [poll] and the read that follows can report. *)
Definition report_ok (p : pollfd) (r : revents) d : Prop :=
  match p, r with
  | PollStation i, Hangup => (i < 7)%nat
  | _, Hangup => True
  | PollUdp, Readable _ _ rc data => udp_read_ok rc data d
  | PollTcp, Readable _ _ rc data => tcp_read_ok rc data d
  | PollStation i, Readable _ _ rc data => station_read_ok i rc data d
  end.
Lemma poll_one_inv p r d : lobby_inv d -> report_ok p r d -> post (poll_one p r) (fun _ => lobby_inv) d.
Proof.
  intros Hi Hr. destruct r as [|addr port rc data]; [apply pf_onClose_inv; [done|by destruct p]|].
  cbn [poll_one]. apply post_bind. apply (post_mono _ (fun _ => lobby_inv)).
  - destruct p; [by apply udp_onRead_inv|by apply tcp_onRead_inv|by apply station_onRead_inv].
  - intros rc' d' Hi'. destruct (negb _); [|done]. apply pf_onClose_inv; [done|]. destruct p; [done|done|apply Hr].
Qed.

(** *** Scanning *)

Definition matches (flt info : bytes) : bool := default false (scanFilterMatchesNetwork (Some flt) info).
Definition matching (flt : bytes) (infos : list bytes) : list bytes := filter (fun x => matches flt x = true) infos.
Lemma scan_copy_run flt count items i :
  (forall x, x ∈ items -> is_Some (scanFilterMatchesNetwork (Some flt) x.2)) ->
  scan_copy items flt count i = Some (take (Z.to_nat (count - i)) (matching flt (items.*2))).
Proof.
  revert i. induction items as [|[b info] items IH]; intros i Ht; cbn [scan_copy fmap list_fmap]; [unfold matching; by rewrite filter_nil, take_nil|].
  destruct (Ht (b, info)) as [c Ec]; [set_solver|]. cbn [snd] in *. destruct (Z.leb_spec count i).
  { by replace (Z.to_nat (count - i)) with 0%nat by lia. }
  rewrite Ec. cbn [mbind option_bind]. assert (Hm : matches flt info = c) by (unfold matches; by rewrite Ec).
  rewrite !IH by set_solver. unfold matching. destruct c; cbn [mbind option_bind].
  - rewrite filter_cons_True by done. by replace (Z.to_nat (count - i)) with (S (Z.to_nat (count - (i + 1)))) by lia.
  - rewrite filter_cons_False by congruence. done.
Qed.
Lemma scan_end_run count flt d u :
  lobby_inv d -> d_udp d = Some u -> filter_ok flt -> (forall x, x ∈ (lu_scanResults u).*2 -> names_ok flt x) ->
  scan_end count flt d = Ok (take (Z.to_nat count) (matching flt (mitm_order (lu_scanResults u)).*2)) d.
Proof.
  intros Hi Hu [Hb Hz] Hn. unfold scan_end, bind, gets. rewrite Hu. rewrite scan_copy_run.
  - by rewrite Z.sub_0_r.
  - intros x Hx. rewrite law_order in Hx. destruct (lk_udp _ (li_ok _ Hi) u Hu) as [_ Hf]. rewrite Forall_forall in Hf.
    apply matches_total; [done|done|by apply Hf|]. apply Hn. apply list_elem_of_fmap. by exists x.
Qed.
End invariants.

(** ** Results *)

Inductive game_call :=
| CInitialize (listening : bool) | CFinalize
| COpenAccessPoint | CCloseAccessPoint | COpenStation | CCloseStation
| CCreateNetwork (securityMode : Z) (userConfig : bytes) (nc : NetworkConfig) | CDestroyNetwork
| CConnect (sys_connect : Z * Z -> Z) (info userConfig : bytes) (version : Z) | CDisconnect
| CSetAdvertiseData (data : option bytes) (size : Z)
| CGetNetworkInfo | CGetUpdates (bufferCount : Z)
| CScanBegin (flt : bytes) | CScanEnd (count : Z) (flt : bytes).

Section results.
Context `{Host} `{StackBytes} `{MitmSys} {E : Type} `{!Callbacks E} `{!CallbackLaws E} `{!MitmLaws}.
Implicit Types d : LANDiscovery E.

Definition discard {A} (m : M (LANDiscovery E) A) : M (LANDiscovery E) unit := let* _ := m in ret tt.
Definition run_call (c : game_call) : M (LANDiscovery E) unit :=
  match c with
  | CInitialize listening => discard (initialize listening)
  | CFinalize => discard finalize
  | COpenAccessPoint => discard openAccessPoint
  | CCloseAccessPoint => discard closeAccessPoint
  | COpenStation => discard openStation
  | CCloseStation => discard closeStation
  | CCreateNetwork securityMode userConfig nc => discard (createNetwork securityMode userConfig nc)
  | CDestroyNetwork => discard destroyNetwork
  | CConnect sys_connect info userConfig v => discard (connect sys_connect info userConfig v)
  | CDisconnect => discard disconnect
  | CSetAdvertiseData data size => discard (setAdvertiseData data size)
  | CGetNetworkInfo => discard getNetworkInfo
  | CGetUpdates n => discard (getNetworkInfo_updates n)
  | CScanBegin flt => discard (scan_begin flt)
  | CScanEnd count flt => discard (scan_end count flt)
  end.

(** What the service hands to the object: structures of the right size with a terminated
    user name, scans only while there is a socket, and [initialize] not in the middle of a
    session. *)
Definition call_ok (c : game_call) d : Prop :=
  match c with
  | CInitialize _ => d_state d <> AccessPointCreated
  | CCreateNetwork _ userConfig nc => user_ok userConfig /\ network_ok nc
  | CConnect _ info userConfig _ => zlen info = sizeof_NetworkInfo /\ user_ok userConfig
  | CSetAdvertiseData data size => advertise_ok data size
  | CScanBegin flt => is_Some (d_udp d) /\ filter_ok flt
  | CScanEnd _ flt => is_Some (d_udp d) /\ filter_ok flt /\ forall x, flt !! 42%nat = Some x -> x <= 33
  | _ => True
  end.

Lemma discard_inv {A} (m : M (LANDiscovery E) A) d : post m (fun _ => lobby_inv) d -> post (discard m) (fun _ => lobby_inv) d.
Proof. intros Hm. unfold discard. apply post_bind. eapply post_mono; [exact Hm|]. done. Qed.
Lemma run_call_inv c d : lobby_inv d -> call_ok c d -> post (run_call c) (fun _ => lobby_inv) d.
Proof.
  intros Hi Hc. destruct c; cbn in Hc |- *; apply discard_inv.
  - eapply post_mono; [apply initialize_run; [apply Hi|done|intros _; apply Hi]|]. intros rc d' (Hd & Hs & Hb & _). apply inv_other; [done| |done].
    apply Hb. left. apply Hi.
  - by apply finalize_inv.
  - apply post_bind, post_modify, mode_inv; [by apply reason_inv|done].
  - by apply mode_inv.
  - apply post_bind, post_modify, mode_inv; [by apply reason_inv|done].
  - by apply mode_inv.
  - apply create_inv; [done|apply Hc..].
  - by apply destroy_inv.
  - apply connect_inv; [done|apply Hc..].
  - by apply disconnect_inv.
  - by apply advertise_inv.
  - apply post_bind, post_gets. unfold id. by destruct (d_state d).
  - by apply updates_inv.
  - eapply post_mono; [apply scan_begin_inv; [done|apply Hc..]|]. by intros ? ? [].
  - destruct Hc as ([u Hu] & Hf & Hx). unfold post. rewrite (scan_end_run _ _ d u); [done|done|done|done|]. intros x _ a b Ha _ _. by apply Hx.
Qed.

(** The object after it was initialised, and any number of calls and reports. *)
Inductive reachable : LANDiscovery E -> Prop :=
| reach_start (u : E) listening d : initialize listening (newLANDiscovery u) = Ok 0 d -> reachable d
| reach_call c d d' : reachable d -> call_ok c d -> run_call c d = Ok tt d' -> reachable d'
| reach_report p r d d' : reachable d -> report_ok p r d -> poll_one p r d = Ok tt d' -> reachable d'.

Lemma new_lobby (u : E) : lobby_ok (newLANDiscovery u).
Proof.
  constructor; try done.
  - by apply Forall_replicate.
  - intros i st Hi. apply list_lookup_fmap_Some in Hi as (k & -> & Hk). apply lookup_seqZ in Hk as [-> _]. constructor; cbn; [lia|done..].
Qed.
Lemma reachable_inv d : reachable d -> lobby_inv d.
Proof.
  induction 1 as [u listening d Hr|c d d' _ Hi Hc Hr|p r d d' _ Hi Hok Hr].
  - pose proof (initialize_run listening (newLANDiscovery u) (new_lobby u)) as Hp. unfold post in Hp. rewrite Hr in Hp.
    destruct Hp as (Hd & Hs & Hb & _); [done|done|]. apply inv_other; auto.
  - pose proof (run_call_inv c d Hi Hc) as Hp. unfold post in Hp. by rewrite Hr in Hp.
  - pose proof (poll_one_inv p r d Hi Hok) as Hp. unfold post in Hp. by rewrite Hr in Hp.
Qed.

(** C12: The lobby, over any sequence of admissible calls of the game and reports of the
    worker after a successful [initialize].  While a network is open the information it
    announces is right: the node count is one more than the number of stations that have
    joined, and for each of the seven places the node has its number and says whether the
    station there has joined.  No admissible call and no report, with whatever bytes arrived,
    leaves an array or dereferences a null pointer.  A call is admissible ([call_ok]) when its
    structures have their sizes, the user name is terminated, a scan's filter has a name
    length of at most 33, the scan finds a UDP socket open, and [initialize] does not come
    while a network is open.  The last conjunct is what a scan does without a socket, before
    [initialize] or after [finalize]: it dereferences null. *)
Theorem lobby_table d :
  reachable d ->
  (d_state d = AccessPointCreated ->
    d_networkInfo d !! 103%nat = Some (1 + foldr Z.add 0 (joined <$> d_stations d)) /\ length (d_stations d) = 7%nat /\
    forall i st, d_stations d !! i = Some st ->
      d_networkInfo d !! (104 + 64 * S i + 10)%nat = Some (Z.of_nat (S i)) /\
      d_networkInfo d !! (104 + 64 * S i + 11)%nat = Some (joined st)) /\
  (forall c, call_ok c d -> exists d', run_call c d = Ok tt d') /\
  (forall p r, report_ok p r d -> exists d', poll_one p r d = Ok tt d') /\
  (d_udp d = None -> forall count flt,
    run_call (CScanBegin flt) d = Stop NullDeref /\ run_call (CScanEnd count flt) d = Stop NullDeref).
Proof.
  intros Hi%reachable_inv. split_and!.
  - intros Hs. pose proof (li_table _ Hi Hs) as Ht. split; [apply Ht|]. split; [apply Hi|apply Ht].
  - intros c Hc. pose proof (run_call_inv c d Hi Hc) as ([] & d' & Er & _)%post_inv. by exists d'.
  - intros p r Hr. pose proof (poll_one_inv p r d Hi Hr) as ([] & d' & Er & _)%post_inv. by exists d'.
  - intros Hu count flt. cbn. unfold discard, scan_begin, scan_end, bind, gets. by rewrite Hu.
Qed.

(** *** Scanning *)

Definition network_info (info : bytes) : Prop := is_bytes info /\ zlen info = sizeof_NetworkInfo.
Definition bssid (info : bytes) : bytes := take 6 (drop 32 info).
(** The table of results: the first network heard of each hardware address. *)
Definition heard (rs : list (bytes * bytes)) (info : bytes) : list (bytes * bytes) :=
  if decide (bssid info ∈ rs.*1) then rs else rs ++ [(bssid info, info)].
Lemma sublist_fmap {A B} (f : A -> B) (l k : list A) : l `sublist_of` k -> f <$> l `sublist_of` f <$> k.
Proof. induction 1; cbn; by constructor. Qed.
Record results_of (infos : list bytes) (rs : list (bytes * bytes)) : Prop := {
  rs_nodup : NoDup rs.*1;
  rs_from x : x ∈ rs -> x.2 ∈ infos /\ x.1 = bssid x.2;
  rs_all info : info ∈ infos -> bssid info ∈ rs.*1;
}.
Lemma heard_results infos rs info : results_of infos rs -> results_of (infos ++ [info]) (heard rs info).
Proof.
  intros [Hn Hf Ha]. unfold heard. destruct (decide _) as [Hin|Hin].
  - constructor; [done| |].
    + intros x [? ?]%Hf. split; [set_solver|done].
    + intros i [Hi|Hi%list_elem_of_singleton]%elem_of_app; [by apply Ha|by subst].
  - constructor.
    + rewrite fmap_app. apply NoDup_app. split; [done|]. split; [|apply NoDup_singleton]. cbn. intros x Hx Hx'. set_solver.
    + intros x [[? ?]%Hf|Hx%list_elem_of_singleton]%elem_of_app; [split; [set_solver|done]|]. subst. split; [set_solver|done].
    + intros i [Hi%Ha|Hi%list_elem_of_singleton]%elem_of_app; rewrite fmap_app; [set_solver|]. subst. set_solver.
Qed.

Definition answer (a : Z * Z * bytes) : option (list (pollfd * revents)) :=
  let p := packet LANPacketType.ScanResp a.2 in Some [(PollUdp, Readable a.1.1 a.1.2 (zlen p) p)].

(** The object while it scans. *)
Record scanning (infos : list bytes) d : Prop := {
  sc_inv : lobby_inv d;
  sc_init : d_initialized d = true;
  sc_udp : exists u, d_udp d = Some u /\ held (lu_socket u) = [] /\ results_of infos (lu_scanResults u);
}.
Lemma scan_answer infos a d :
  scanning infos d -> network_info a.2 -> post (loopPoll (answer a)) (fun _ => scanning (infos ++ [a.2])) d.
Proof.
  intros [Hi Hini (u & Hu & Hh & Hr)] [Hb Hz]. destruct a as [[addr port] info]. cbn [snd fst] in *.
  assert (Hm : message_ok (LANPacketType.ScanResp, info)) by (split; [done|]; split; [done|]; cbn [snd]; rewrite Hz; done).
  destruct (lk_udp _ (li_ok _ Hi) u Hu) as [Hsk Hf].
  destruct (recv_packet_run _ _ (lu_socket u) Hm Hsk Hh) as (sk' & Er & Hsk' & Hh' & _). unfold loopPoll. apply post_bind, post_gets. unfold id. rewrite Hini.
  cbn [negb answer fst snd for_each]. set (p := packet _ _) in *. unfold sizeof_NetworkInfo in Hz.
  set (u' := {| lu_socket := sk'; lu_scanResults := heard (lu_scanResults u) info |}).
  assert (Hd : udp_onRead addr port (zlen p) p d = Ok 0 (set_udp (Some u') d)).
  { unfold udp_onRead, recvPacket, on_udp_socket, bind at 1 2, gets at 1. rewrite Hu. unfold udp_recvfrom. rewrite Er. unfold bind at 1, modify at 1, ret at 1.
    unfold udp_message. cbn [Z.eqb LANPacketType.ScanResp LANPacketType.Scan]. rewrite Hz. cbn [Z.eqb Pos.eqb negb sizeof_NetworkInfo].
    unfold bind at 1 2. unfold ni_bssid. rewrite mem_get_Some by lia. cbn [mem ret]. unfold bind at 1, gets. cbn [d_udp set_udp lu_scanResults lu_socket].
    unfold u', heard, bssid. change (Z.to_nat 6) with 6%nat. change (Z.to_nat 32) with 32%nat. by destruct (decide _). }
  apply post_bind. apply (post_mono _ (fun _ => scanning (infos ++ [info]))); [|done]. apply post_bind. unfold post, poll_one, bind. rewrite Hd. cbn.
  pose proof (heard_results _ _ info Hr) as Hr'. constructor; [|done|by exists u']. apply udp_changed_inv; [done|done|]. cbn. unfold heard.
  destruct (decide _); [done|]. apply Forall_app; split; [done|]. by constructor.
Qed.
Lemma scan_answers infos l d :
  scanning infos d -> Forall (fun a => network_info a.2) l ->
  post (for_each (answer <$> l) (fun r => let* _ := loopPoll r in ret tt)) (fun _ => scanning (infos ++ l.*2)) d.
Proof.
  intros Hs Hl. revert infos d Hs. induction Hl as [|a l Ha Hl IH]; intros infos d Hs; cbn [fmap list_fmap for_each]; [by rewrite app_nil_r|].
  apply post_bind, post_bind. eapply post_mono; [by apply scan_answer|]. intros ? d' Hs'. cbv beta in Hs'. apply post_ret.
  eapply post_mono; [by apply IH|]. intros ? d'' Hs''. cbv beta in Hs''. by rewrite <- app_assoc in Hs''.
Qed.

Lemma scan_begin_run flt d u :
  d_udp d = Some u -> filter_ok flt ->
  post (scan_begin flt) (fun rc d' => rc = mitm_call (S (d_ticks d)) /\
    calm (set_udp (Some {| lu_socket := lu_socket u; lu_scanResults := [] |}) d) d') d.
Proof.
  intros Hu [Hb Hz]. unfold scan_begin. apply post_bind, post_gets. rewrite Hu. apply post_bind, post_modify. unfold sendBroadcast, getBroadcast.
  apply post_bind, post_bind. unfold post at 1, sys. cbn [d_ticks set_udp]. destruct (mitm_ip_config (d_ticks d)) as [[rc a] m]. apply post_ret.
  apply post_bind, post_gets. unfold id, udp_sendPacket. apply post_bind, post_gets. cbn [d_udp set_udp set_ticks]. apply post_bind.
  eapply post_mem; [apply sendPacket_run|].
  { split; [done|]. split; [done|]. cbn [snd]. rewrite Hz. unfold sizeof_ScanFilter, BufferSize, HeaderSize. lia. }
  unfold post, bind, mt_emit, modify, sys, ret. split; [done|]. by constructor.
Qed.

(** C14: Scanning.  Whatever networks answer while a scan waits, the result holds only
    networks that answered and that match the filter, no more than there is room for, each
    hardware address at most once; and if there was room left, every network that answered
    and matches is found, unless a different one answered with the same address.  A scan
    whose request could not be sent reports that and finds nothing. *)
Theorem scan_finds d u count flt l :
  reachable d -> d_initialized d = true -> d_udp d = Some u -> held (lu_socket u) = [] -> filter_ok flt -> 0 <= count ->
  (forall x, flt !! 42%nat = Some x -> x <= 33) -> Forall (fun a => network_info a.2) l ->
  exists rc found d', scan (answer <$> l) count flt d = Ok (rc, found) d' /\
    if mitm_call (S (d_ticks d)) <? 0 then rc = MAKERESULT ModuleID 20 /\ found = []
    else rc = 0 /\ zlen found <= count /\ NoDup (bssid <$> found) /\
      (forall x, x ∈ found -> x ∈ l.*2 /\ matches flt x = true) /\
      (zlen found < count -> forall x, x ∈ l.*2 -> matches flt x = true -> (forall y, y ∈ l.*2 -> bssid y = bssid x -> y = x) -> x ∈ found).
Proof.
  intros Hr Hini Hu Hh Hf Hc Hx Hl. pose proof (reachable_inv _ Hr) as Hi. unfold scan.
  pose proof (scan_begin_run flt d u Hu Hf) as (rc & d1 & E1 & -> & Hc1)%post_inv. unfold bind at 1. rewrite E1. destruct (Z.ltb_spec (mitm_call (S (d_ticks d))) 0).
  { by eexists _, _, _. }
  assert (Hs1 : scanning [] d1).
  { constructor; [eapply calm_inv; [exact Hc1|]; apply udp_changed_inv; [done|by apply (lk_udp _ (li_ok _ Hi) u Hu)|constructor]|by rewrite (cm_init _ _ Hc1)|].
    rewrite (cm_udp _ _ Hc1). eexists. split; [done|]. split; [done|]. constructor; [constructor|set_solver|set_solver]. }
  pose proof (scan_answers [] l d1 Hs1 Hl) as ([] & d2 & E2 & [Hi2 _ (u2 & Hu2 & _ & [Hn Hfr Ha])])%post_inv. unfold bind at 1. rewrite E2.
  unfold bind at 1. rewrite (scan_end_run count flt d2 u2 Hi2 Hu2 Hf) by (intros y _ a b Ha' _ _; by apply Hx).
  set (rs := mitm_order (lu_scanResults u2)). assert (Hp : rs ≡ₚ lu_scanResults u2) by apply law_order. cbn [app] in *. clearbody rs.
  assert (Eb : bssid <$> rs.*2 = rs.*1).
  { rewrite <- list_fmap_compose. apply list_fmap_ext. intros i [b x] Hix%list_elem_of_lookup_2. cbn. rewrite Hp in Hix. destruct (Hfr _ Hix) as [_ Hb]. symmetry. exact Hb. }
  eexists 0, _, d2. split; [reflexivity|]. split; [done|]. split; [unfold zlen; rewrite length_take; lia|].
  assert (Hsub : take (Z.to_nat count) (matching flt rs.*2) `sublist_of` rs.*2).
  { etransitivity; [apply sublist_take|]. apply sublist_filter. }
  split; [|split].
  - eapply sublist_NoDup; [|apply (sublist_fmap bssid), Hsub]. rewrite Eb. by rewrite Hp.
  - intros x Hx'. split.
    + pose proof (elem_of_sublist _ _ _ Hx' Hsub) as (y & -> & Hy)%list_elem_of_fmap. rewrite Hp in Hy. by apply Hfr.
    + apply elem_of_take in Hx' as (i & Hi' & _). apply list_elem_of_lookup_2, list_elem_of_filter in Hi' as [? _]. done.
  - intros Hlt x Hxl Hm Hu1. rewrite take_ge by (unfold zlen in Hlt; rewrite length_take in Hlt; lia).
    apply list_elem_of_filter. split; [done|]. apply Ha, list_elem_of_fmap in Hxl as ([b y] & Eby & Hy). cbn [fst] in Eby.
    destruct (Hfr _ Hy) as [Hy1 Hy2]. cbn [fst snd] in Hy1, Hy2. assert (y = x) as -> by (apply Hu1; [done|congruence]).
    apply list_elem_of_fmap. exists (b, x). by rewrite Hp.
Qed.

(** *** Joining *)

(** What was asked of the system stays asked. *)
Definition grows d d' : Prop := d_out d `prefix_of` d_out d'.
#[local] Instance grows_preorder : PreOrder grows.
Proof. split; [intros ?; unfold grows; reflexivity|]. intros ? ? ? ? ?. unfold grows in *. by etransitivity. Qed.
Lemma grows_elem d d' x : grows d d' -> x ∈ d_out d -> x ∈ d_out d'.
Proof. intros [o Ho] Hx. rewrite Ho. apply elem_of_app. by left. Qed.

Lemma check_nodes_grows l c d : wlp (check_nodes l c) (fun _ d' => grows d d') d.
Proof.
  revert c d. induction l as [|i l IH]; intros c d; [unfold wlp, check_nodes, ret; reflexivity|]. cbn [check_nodes]. apply wlp_bind.
  apply (wlp_mono _ (fun _ d' => d_out d' = d_out d)).
  - unfold check_node. repeat wlp_step; done.
  - intros c' d' Hd. eapply wlp_mono; [apply IH|]. intros ? d'' Hg. unfold grows in *. by rewrite <- Hd.
Qed.
Lemma onNetworkInfoChanged_grows d : wlp onNetworkInfoChanged (fun _ d' => grows d d') d.
Proof.
  unfold onNetworkInfoChanged, isNodeStateChanged. apply wlp_bind. eapply wlp_mono; [apply check_nodes_grows|]. intros [] d' Hg; cbv beta in Hg; [|done].
  unfold wlp, lanEvent, bind, gets. destruct (d_bound d'); [|done]. destruct (law_lanEvent d') as [e ->]. done.
Qed.
Lemma wlp_post {A} (m : M (LANDiscovery E) A) P Q d : post m P d -> wlp m Q d -> post m (fun a d' => P a d' /\ Q a d') d.
Proof. unfold post, wlp. by destruct (m d). Qed.

Definition synced (st : LanStation) (info : bytes) (out : list mitm_event) : Prop :=
  forall sk, st_status st = Connected -> st_socket st = Some sk -> MtSend (ls_fd sk) (packet LANPacketType.SyncNetwork info) ∈ out.
Lemma sync_station_sends i st d :
  lobby_ok d -> d_stations d !! i = Some st ->
  post (sync_station i) (fun _ d' => calm d d' /\ grows d d' /\ synced st (d_networkInfo d) (d_out d')) d.
Proof.
  intros Hd Hst. unfold sync_station. apply post_bind, (station_post _ st); [done|]. destruct (decide _) as [Hc|Hc].
  - apply post_bind, post_gets. unfold id, st_sendPacket, post, bind. destruct (st_socket st) as [sk|] eqn:Hsk.
    + rewrite tcp_sendPacket_run by (by apply info_message). split; [done|]. split; [by eexists|]. intros sk0 _ Hk. rewrite Hsk in Hk. injection Hk as [= <-]. cbn. set_solver.
    + split; [done|]. split; [unfold grows; reflexivity|]. unfold synced. by rewrite Hsk.
  - split; [done|]. split; [unfold grows; reflexivity|]. by intros ? ?.
Qed.
Lemma sync_all_sends l d :
  lobby_ok d -> Forall (fun i => i < 7)%nat l ->
  post (for_each l sync_station) (fun _ d' => calm d d' /\ grows d d' /\
    forall i st, i ∈ l -> d_stations d !! i = Some st -> synced st (d_networkInfo d) (d_out d')) d.
Proof.
  intros Hd Hl. revert d Hd. induction Hl as [|i l Hi Hl IH]; intros d Hd; cbn [for_each].
  { split; [done|]. split; [unfold grows; reflexivity|]. set_solver. }
  destruct (lookup_lt_is_Some_2 (d_stations d) i) as [st Hst]; [by rewrite (lk_stations _ Hd)|]. apply post_bind.
  eapply post_mono; [by apply (sync_station_sends i st)|]. intros ? d1 (Hc1 & Hg1 & Hs1).
  eapply post_mono; [apply IH; by eapply calm_lobby|]. intros ? d2 (Hc2 & Hg2 & Hs2). split; [by etransitivity|]. split; [by etransitivity|].
  rewrite (cm_info _ _ Hc1), (cm_stations _ _ Hc1) in Hs2. intros j st' [->|Hj]%elem_of_cons Hst'; [|by eapply Hs2].
  rewrite Hst in Hst'. injection Hst' as [= <-]. intros sk Hk1 Hk2. eapply grows_elem; [exact Hg2|]. by apply Hs1.
Qed.

Lemma updateNodes_sends d :
  lobby_ok d -> d_bound d = true ->
  post updateNodes (fun _ d' => calm (set_networkInfo (updated (d_stations d) (d_networkInfo d)) d) d' /\
    forall i st, d_stations d !! i = Some st -> synced st (d_networkInfo d') (d_out d')) d.
Proof.
  intros Hd Hb. pose proof (updateNodes_run d Hd Hb) as Hp.
  assert (Hw : wlp updateNodes (fun _ d' => forall i st, d_stations d !! i = Some st ->
    synced st (updated (d_stations d) (d_networkInfo d)) (d_out d')) d).
  { destruct (override_all_run (seq 0 7) 0 d Hd Hb) as [E1 Hd1]; [repeat constructor; lia|].
    pose proof (joined_seq (d_stations d) []) as Hj. cbn [app length] in Hj. rewrite (lk_stations _ Hd) in Hj. rewrite Hj in E1.
    pose proof (joined_sum (d_stations d)) as Hs. rewrite (lk_stations _ Hd) in Hs. pose proof (updated_lobby d Hd Hb) as Hd2.
    unfold updateNodes. apply wlp_bind. change station_ids with (seq 0 7). unfold wlp at 1. rewrite E1, Z.add_0_l.
    apply wlp_bind. unfold wlp at 1. rewrite u8_id by (unfold is_u8; lia). change ni_nodeCount with (Z.of_nat 103).
    rewrite put_byte_run by (done || lia). cbn [d_networkInfo set_networkInfo]. rewrite (Z.add_comm _ 1). fold (updated (d_stations d) (d_networkInfo d)).
    apply wlp_bind. set (d0 := set_networkInfo _ _).
    pose proof (sync_all_sends (seq 0 7) d0 Hd2) as (x & d1 & E2 & Hc1 & Hg1 & Hs1)%post_inv; [|repeat constructor; lia].
    unfold wlp at 1. rewrite E2. eapply wlp_mono; [apply onNetworkInfoChanged_grows|]. intros ? d2 Hg2 i st Hst sk Hk1 Hk2. cbv beta in Hg2.
    eapply grows_elem; [exact Hg2|]. apply (Hs1 i st); [|done|done|done]. apply elem_of_seq. apply lookup_lt_Some in Hst. rewrite (lk_stations _ Hd) in Hst. lia. }
  eapply post_mono; [apply (wlp_post _ _ _ _ Hp Hw)|]. intros ? d' [[_ Hc] Hs]. split; [done|]. by rewrite (cm_info _ _ Hc).
Qed.

(** The host when a station's node arrives. *)
Definition with_node (i : nat) (st : LanStation) (node : bytes) (sts : list LanStation) (info : bytes) : bytes :=
  updated (<[i := set_st_status Connected st]> sts) (take (104 + 64 * S i) info ++ node ++ drop (104 + 64 * S i + 64) info).
Lemma station_join_run i st sk node d :
  lobby_inv d -> d_stations d !! i = Some st -> st_socket st = Some sk -> held sk = [] -> is_bytes node -> zlen node = 64 ->
  let p := packet LANPacketType.Connect node in
  post (station_onRead i (zlen p) p) (fun rc d' => rc = 0 /\
    d_networkInfo d' = with_node i st node (d_stations d) (d_networkInfo d) /\
    MtSend (ls_fd sk) (packet LANPacketType.SyncNetwork (d_networkInfo d')) ∈ d_out d') d.
Proof.
  intros Hi Hst Hsk Hh Hb Hz p. pose proof (lk_station _ (li_ok _ Hi) i st Hst) as Hok. rewrite (li_bound _ Hi) in Hok.
  assert (Hm : message_ok (LANPacketType.Connect, node)) by (split; [done|]; split; [done|]; cbn [snd]; rewrite Hz; done).
  assert (Hi7 : (i < 7)%nat) by (rewrite <- (lk_stations _ (li_ok _ Hi)); by eapply lookup_lt_Some).
  destruct (recv_packet_run _ _ sk Hm (sn_socket _ _ _ Hok sk Hsk) Hh) as (sk' & Er & Hsk' & _ & Hfd).
  pose proof (packet_zlen _ _ Hm) as Hp. unfold station_onRead. apply post_bind, (station_post _ st); [done|]. rewrite Hsk. unfold recvPacket, tcp_recvfrom.
  fold p in Er, Hp. rewrite (proj2 (Z.eqb_neq _ _)) by lia. apply post_bind. set (st1 := set_st_socket (Some sk') st).
  apply (post_ok _ (inr (LANPacketType.Connect, node)) _ (set_stations (<[i := st1]> (d_stations d)) d)).
  { unfold on_station_socket. erewrite bind_ok by (unfold station, bind, gets, id; rewrite Hst; reflexivity). rewrite Hsk, Er. done. }
  set (d1 := set_stations _ d).
  assert (Hi1 : lobby_inv d1) by (eapply station_same_inv; [done|done|apply station_ok_socket; [done|by eexists|done]|done]).
  assert (Hst1 : d_stations d1 !! i = Some st1) by (apply list_lookup_insert_eq; by eapply lookup_lt_Some).
  unfold station_message. cbn [Z.eqb Pos.eqb LANPacketType.Connect]. rewrite Hz. cbn [Z.eqb Pos.eqb sizeof_NodeInfo negb].
  apply post_bind, (station_post _ st1); [done|]. cbn [st_nodeInfo st_nodeId set_st_socket st1]. rewrite (sn_info _ _ _ Hok), (sn_id _ _ _ Hok).
  unfold ni_nodes, sizeof_NodeInfo.
  destruct (put_info_run (104 + Z.of_nat (S i) * 64) node d1) as (info & Ep & Em & Hd2); [apply Hi1|lia|unfold sizeof_NetworkInfo; lia|done|].
  apply post_bind. apply (post_ok _ tt _ _ _ Ep). apply post_bind, post_modify. cbn [d_stations set_networkInfo].
  set (st2 := set_st_status Connected st1). set (d3 := set_stations _ _).
  assert (Hl3 : d_stations d3 = <[i := st2]> (d_stations d)) by (cbn; by rewrite list_insert_insert_eq).
  assert (Hst3 : d_stations d3 !! i = Some st2) by (rewrite Hl3; apply list_lookup_insert_eq; by eapply lookup_lt_Some).
  assert (Hd3 : lobby_ok d3).
  { apply (lobby_station i st2 (set_networkInfo info d1) Hd2). cbn. rewrite (li_bound _ Hi). destruct (station_ok_socket true i st sk' Hok); [by eexists|done|]. by constructor. }
  apply post_bind. eapply post_mono; [apply updateNodes_sends; [done|exact (li_bound _ Hi)]|]. intros ? d4 [Hc4 Hs4]. apply post_ret. split; [done|]. split.
  - rewrite (cm_info _ _ Hc4). cbn [d_networkInfo set_networkInfo]. rewrite Hl3. unfold with_node, updated.
    apply mem_put_inv in Em as (_ & _ & Em). cbn [d_networkInfo set_stations d1] in Em. change (d_networkInfo d3) with info. rewrite Em.
    replace (Z.to_nat (104 + Z.of_nat (S i) * 64)) with (104 + 64 * S i)%nat by lia.
    replace (length node) with 64%nat by (unfold zlen in Hz; lia).
    assert (Ho : forall l b, overridden l (<[i := st2]> (d_stations d)) b = overridden l (<[i := set_st_status Connected st]> (d_stations d)) b).
    { intros l. induction l as [|j l IHl]; intros b; [done|]. cbn [overridden]. rewrite IHl. f_equal. destruct (decide (i = j)) as [<-|Hij].
      - rewrite !list_lookup_insert_eq by (by eapply lookup_lt_Some). done.
      - by rewrite !list_lookup_insert_ne. }
    rewrite Ho, !list_fmap_insert. done.
  - rewrite <- Hfd. by apply (Hs4 i st2).
Qed.

Lemma with_node_entry i st node sts (info : bytes) (k : nat) :
  (i < 7)%nat -> length sts = 7%nat -> length info = 1152%nat -> length node = 64%nat -> (k < 64)%nat ->
  with_node i st node sts info !! (104 + 64 * S i + k)%nat =
    if decide (k = 10%nat) then Some (Z.of_nat (S i)) else if decide (k = 11%nat) then Some 1 else node !! k.
Proof.
  intros Hi Hs Hl Hn Hk. unfold with_node, updated. set (m := take _ _ ++ _).
  assert (Hm : length m = 1152%nat) by (unfold m; rewrite !length_app, length_take, length_drop; lia).
  rewrite list_lookup_insert_ne by lia. set (st1 := set_st_status Connected st).
  assert (Hst : <[i := st1]> sts !! i = Some st1) by (apply list_lookup_insert_eq; lia).
  destruct (overridden_node (seq 0 7) (<[i := st1]> sts) m i st1) as [H10 H11]; [apply NoDup_seq|apply elem_of_seq; lia|done|done|done|].
  destruct (decide (k = 10%nat)) as [->|K10]; [done|]. destruct (decide (k = 11%nat)) as [->|K11]; [done|].
  rewrite overridden_other by (intros j _; unfold nid, ncon; lia). unfold m.
  rewrite lookup_app_r; rewrite length_take; [|lia]. rewrite lookup_app_l by lia. f_equal. lia.
Qed.

(** The station when the host's information arrives. *)
Lemma sync_run info g d :
  lobby_inv d -> d_state d = Station \/ d_state d = StationConnected -> d_tcp d = Some g -> held g = [] -> network_info info ->
  let q := packet LANPacketType.SyncNetwork info in
  post (tcp_onRead (zlen q) q) (fun rc d' => rc = 0 /\ d_networkInfo d' = info /\ d_state d' = StationConnected) d.
Proof.
  intros Hi Hs Hg Hh [Hb Hz] q.
  assert (Hm : message_ok (LANPacketType.SyncNetwork, info)) by (split; [done|]; split; [done|]; cbn [snd]; rewrite Hz; done).
  pose proof (packet_zlen _ _ Hm) as Hp. fold q in Hp. destruct (recv_packet_run _ _ g Hm (lk_tcp _ (li_ok _ Hi) g Hg) Hh) as (g' & Er & Hg' & _ & _).
  fold q in Er. set (d1 := set_tcp (Some g') d).
  assert (Hi1 : lobby_inv d1) by (apply (tcp_changed_inv (Some g') d); [done|apply lobby_tcp; [apply Hi|by intros ? [= <-]]|reflexivity]).
  assert (Hrun : post (recvPacket on_tcp_socket tcp_message (tcp_recvfrom (zlen q)) q)
    (fun rc d' => rc = 0 /\ d_networkInfo d' = info /\ d_state d' = StationConnected) d).
  { unfold recvPacket, tcp_recvfrom. rewrite (proj2 (Z.eqb_neq _ _)) by lia. apply post_bind.
    apply (post_ok _ (inr (LANPacketType.SyncNetwork, info)) _ d1).
    { unfold on_tcp_socket, bind, gets. by rewrite Hg, Er. }
    unfold tcp_message. cbn [Z.eqb Pos.eqb LANPacketType.SyncNetwork]. rewrite Hz, Z.eqb_refl. cbn [negb]. unfold onSyncNetwork.
    apply post_bind, post_bind, post_modify. set (d2 := set_networkInfo info d1).
    assert (Hd2 : lobby_ok d2) by (apply lobby_info; [apply Hi1|done|done]).
    apply post_bind, post_gets. cbn [d_state set_networkInfo set_tcp d1 d2]. apply post_bind.
    apply (post_mono _ (fun _ d' => calm (set_state StationConnected d2) d')).
    { destruct (decide (d_state d = Station)) as [E0|E0]; [apply setState_run|]. destruct Hs as [Hs|Hs]; [done|].
      apply post_ret. constructor; try done. }
    intros ? d3 Hc3. assert (Hd3 : lobby_ok d3) by (eapply calm_lobby; [exact Hc3|by apply lobby_state]).
    eapply post_mono; [by apply onNetworkInfoChanged_calm|]. intros ? d4 Hc4. cbv beta in Hc4. apply post_ret.
    by rewrite (cm_info _ _ Hc4), (cm_info _ _ Hc3), (cm_state _ _ Hc4), (cm_state _ _ Hc3). }
  unfold tcp_onRead. apply post_bind, post_gets. by destruct Hs as [->| ->].
Qed.

(** C13: Joining a network.  When the node that a station sent arrives at the host, the host
    enters it: its place has the number of the place, is marked as connected and otherwise
    holds the node as it was sent; and the host sends its information to that station.  When
    the packet that was sent arrives at the station, the station has the host's information,
    byte for byte, and is connected. *)
Theorem station_joins host guest i st sk node g a b :
  reachable host -> d_state host = AccessPointCreated -> d_stations host !! i = Some st -> st_socket st = Some sk -> held sk = [] ->
  is_bytes node -> zlen node = sizeof_NodeInfo ->
  reachable guest -> d_state guest = Station \/ d_state guest = StationConnected -> d_tcp guest = Some g -> held g = [] ->
  let p := packet LANPacketType.Connect node in
  exists host' guest', poll_one (PollStation i) (Readable a b (zlen p) p) host = Ok tt host' /\
    let q := packet LANPacketType.SyncNetwork (d_networkInfo host') in
    (forall k : nat, (k < 64)%nat -> d_networkInfo host' !! (104 + 64 * S i + k)%nat =
      if decide (k = 10%nat) then Some (Z.of_nat (S i)) else if decide (k = 11%nat) then Some 1 else node !! k) /\
    MtSend (ls_fd sk) q ∈ d_out host' /\
    poll_one PollTcp (Readable a b (zlen q) q) guest = Ok tt guest' /\
    d_networkInfo guest' = d_networkInfo host' /\ d_state guest' = StationConnected.
Proof.
  intros Hh%reachable_inv Hs Hst Hsk He Hb Hz Hg%reachable_inv Hgs Hgt Hge p.
  pose proof (station_join_run i st sk node host Hh Hst Hsk He Hb Hz) as (rc & host' & Er & -> & Ei & Ho)%post_inv. fold p in Er.
  assert (Hi7 : (i < 7)%nat) by (rewrite <- (lk_stations _ (li_ok _ Hh)); by eapply lookup_lt_Some).
  assert (Hinv : lobby_inv host').
  { pose proof (station_onRead_inv i (zlen p) p host Hh) as Hp. unfold post in Hp. rewrite Er in Hp. apply Hp. split; [done|]. intros st' sk' Hst' Hsk'.
    rewrite Hst in Hst'. injection Hst' as [= <-]. rewrite Hsk in Hsk'. injection Hsk' as [= <-].
    assert (Hm : message_ok (LANPacketType.Connect, node)) by (split; [done|]; split; [done|]; cbn [snd]; rewrite Hz; done).
    pose proof (packet_zlen _ _ Hm) as Hpz. pose proof (packet_bytes _ _ Hm) as [Hpb _]. fold p in Hpz, Hpb.
    pose proof (zlen_held sk) as Hz0. rewrite He, zlen_nil in Hz0. right. unfold tcp_recvfrom. rewrite (proj2 (Z.eqb_neq _ _)) by lia.
    split; [done|]. split; [lia|]. split; [done|]. rewrite <- Hz0; [lia|]. pose proof (lk_station _ (li_ok _ Hh) i st Hst) as []. by apply sn_socket0. }
  assert (Hni : network_info (d_networkInfo host')) by (split; [apply (lk_bytes _ (li_ok _ Hinv))|apply (lk_info _ (li_ok _ Hinv))]).
  pose proof (sync_run (d_networkInfo host') g guest Hg Hgs Hgt Hge Hni) as (rc & guest' & Eg & -> & Eg1 & Eg2)%post_inv.
  exists host', guest'. split; [unfold poll_one, bind; by rewrite Er|]. cbv zeta. split.
  - intros k Hk. rewrite Ei. pose proof (lk_info _ (li_ok _ Hh)) as Hl. unfold zlen, sizeof_NetworkInfo, sizeof_NodeInfo in *.
    apply with_node_entry; [done|apply Hh|lia|lia|done].
  - split; [done|]. split; [unfold poll_one, bind; by rewrite Eg|]. done.
Qed.

(** [finalize] sets [stop] and waits for the worker.  A worker that starts after that clears
    it again and goes on for as long as [poll] does not fail, so the wait does not end. *)
Lemma late_worker_goes_on n d : worker (replicate n (Some [])) (set_stop true d) = Ok false (set_stop false d).
Proof.
  unfold worker, bind at 1, modify. induction n as [|n IH]; [done|]. cbn [replicate worker_loop]. unfold bind at 1, gets at 1. cbn [d_stop set_stop].
  unfold loopPoll, bind at 1, bind at 1, gets at 1, id. destruct (negb _); cbn; exact IH.
Qed.
Lemma stopped_worker_ends turns d : d_stop d = true -> worker_loop turns d = Ok true d.
Proof. intros Hs. destruct turns; cbn [worker_loop]; unfold bind, gets; by rewrite Hs. Qed.

Definition after {A} (m : M (LANDiscovery E) A) d : LANDiscovery E := match m d with Ok _ d' => d' | Stop _ => d end.
Lemma after_call c d : reachable d -> call_ok c d -> reachable (after (run_call c) d).
Proof. intros Hr Hc. unfold after. destruct (run_call c d) as [[] d'|] eqn:Ec; [|done]. by apply (reach_call c d). Qed.
Lemma after_report p r d : reachable d -> report_ok p r d -> reachable (after (poll_one p r) d).
Proof. intros Hd Hr. unfold after. destruct (poll_one p r d) as [[] d'|] eqn:Ec; [|done]. by apply (reach_report p r d). Qed.
End results.

(** ** Concrete runs *)

Module Demo.
#[export] Existing Instance le_host.
#[export] Instance stack : StackBytes := fun i => i.
#[export] Instance system : MitmSys := {|
  mitm_call := fun _ => 0;
  mitm_ip := fun _ => (0, 0x0200130A);
  mitm_ip_config := fun _ => (0, 0x0200130A, 0x0000FFFF);
  mitm_random := fun _ => replicate 16 7;
  mitm_mtu := fun _ => 1500;
  mitm_order := id;
|}.
#[export] Instance callbacks : Callbacks unit := {| cb_lanEvent := ret tt; cb_stateChange := fun _ _ => ret tt |}.
#[export] Instance callback_laws : CallbackLaws unit.
Proof. split; intros; exists tt; by destruct d as [? ? ? ? ? ? ? ? ? ? ? ? ? ? ? []]. Qed.
#[export] Instance system_laws : MitmLaws.
Proof. split; [|done]. intros n. split; [done|]. by apply Forall_replicate. Qed.

Definition fresh_object : LANDiscovery unit := newLANDiscovery tt.
Definition user : bytes := cstr "player" ++ replicate 42 0.
Definition network : NetworkConfig :=
  {| nc_intentId := replicate 16 1; nc_channel := 0; nc_nodeCountMax := 8; nc_localCommunicationVersion := 1 |}.
Definition started : LANDiscovery unit := after (initialize true) fresh_object.
Definition opened : LANDiscovery unit := after (run_call COpenAccessPoint) started.
Definition hosting : LANDiscovery unit := after (run_call (CCreateNetwork 1 user network)) opened.
Definition accepted : LANDiscovery unit := after (poll_one PollTcp (Readable 0 0 9 [])) hosting.
Definition searching : LANDiscovery unit := after (run_call COpenStation) started.
Definition connecting : LANDiscovery unit := after (run_call (CConnect (fun _ => 0) (d_networkInfo hosting) user 1)) searching.

Lemma user_fits : user_ok user.
Proof. split; [|by eexists]. vm_compute. repeat (constructor; [split; [discriminate|reflexivity]|]). constructor. Qed.
Lemma network_fits : network_ok network.
Proof. split; [done|by apply Forall_replicate|done]. Qed.
Lemma started_reachable : reachable started.
Proof. apply (reach_start tt true). vm_compute. reflexivity. Qed.
Lemma hosting_reachable : reachable hosting.
Proof. apply after_call; [apply after_call; [exact started_reachable|done]|]. split; [exact user_fits|exact network_fits]. Qed.
Lemma accepted_reachable : reachable accepted.
Proof. apply after_report; [exact hosting_reachable|]. intros [Hs|Hs]; vm_compute in Hs; discriminate. Qed.
Lemma connecting_reachable : reachable connecting.
Proof. apply after_call; [apply after_call; [exact started_reachable|done]|]. split; [vm_compute; reflexivity|exact user_fits]. Qed.
End Demo.
Import Demo.

Lemma lobby_table_witness :
  d_state accepted = AccessPointCreated /\
  (d_networkInfo accepted !! 103%nat = Some (1 + foldr Z.add 0 (joined <$> d_stations accepted)) /\ length (d_stations accepted) = 7%nat /\
    forall i st, d_stations accepted !! i = Some st ->
      d_networkInfo accepted !! (104 + 64 * S i + 10)%nat = Some (Z.of_nat (S i)) /\
      d_networkInfo accepted !! (104 + 64 * S i + 11)%nat = Some (joined st)).
Proof.
  assert (Hs : d_state accepted = AccessPointCreated) by (vm_compute; reflexivity).
  split; [exact Hs|]. exact (proj1 (lobby_table accepted accepted_reachable) Hs).
Defined.

Definition demo_filter : bytes := take 32 (d_networkInfo hosting) ++ replicate 60 0 ++ store 4 3.
Definition demo_answers : list (Z * Z * bytes) := [(0x0A130005, DefaultPort, d_networkInfo hosting); (0x0A130006, DefaultPort, replicate 1152 0)].
Definition demo_udp : LDUdpSocket := {| lu_socket := new_LanSocket 0; lu_scanResults := [] |}.
Lemma demo_infos : Forall (fun a => network_info a.2) demo_answers.
Proof.
  pose proof (reachable_inv _ hosting_reachable) as [Hd _ _]. constructor; [split; [apply (lk_bytes _ Hd)|apply (lk_info _ Hd)]|].
  constructor; [|constructor]. split; [by apply Forall_replicate|done].
Qed.
Lemma demo_filter_ok : filter_ok demo_filter.
Proof. split; [|vm_compute; reflexivity]. vm_compute. repeat (constructor; [split; [discriminate|reflexivity]|]). constructor. Qed.

Lemma scan_finds_witness :
  exists rc found d', scan (answer <$> demo_answers) 4 demo_filter started = Ok (rc, found) d' /\
    if mitm_call (S (d_ticks started)) <? 0 then rc = MAKERESULT ModuleID 20 /\ found = []
    else rc = 0 /\ zlen found <= 4 /\ NoDup (bssid <$> found) /\
      (forall x, x ∈ found -> x ∈ demo_answers.*2 /\ matches demo_filter x = true) /\
      (zlen found < 4 -> forall x, x ∈ demo_answers.*2 -> matches demo_filter x = true ->
        (forall y, y ∈ demo_answers.*2 -> bssid y = bssid x -> y = x) -> x ∈ found).
Proof.
  apply (scan_finds started demo_udp 4 demo_filter demo_answers).
  - exact started_reachable.
  - vm_compute. reflexivity.
  - vm_compute. reflexivity.
  - reflexivity.
  - exact demo_filter_ok.
  - lia.
  - intros x Hx. vm_compute in Hx. injection Hx as <-. lia.
  - exact demo_infos.
Defined.
Example scan_found :
  (fun r => match r with Ok a _ => Some a | Stop _ => None end) (scan (answer <$> demo_answers) 4 demo_filter started)
    = Some (0, [d_networkInfo hosting]).
Proof. vm_compute. reflexivity. Qed.

Definition demo_node : bytes := [5; 0; 19; 10; 2; 0; 5; 0; 19; 10; 0; 1] ++ cstr "guest" ++ replicate 47 0.
Lemma station_joins_witness :
  exists st sk host' guest', d_stations accepted !! 0%nat = Some st /\ st_socket st = Some sk /\
    let p := packet LANPacketType.Connect demo_node in
    poll_one (PollStation 0) (Readable 0 0 (zlen p) p) accepted = Ok tt host' /\
    let q := packet LANPacketType.SyncNetwork (d_networkInfo host') in
    (forall k : nat, (k < 64)%nat -> d_networkInfo host' !! (104 + 64 * 1 + k)%nat =
      if decide (k = 10%nat) then Some 1 else if decide (k = 11%nat) then Some 1 else demo_node !! k) /\
    MtSend (ls_fd sk) q ∈ d_out host' /\
    poll_one PollTcp (Readable 0 0 (zlen q) q) connecting = Ok tt guest' /\
    d_networkInfo guest' = d_networkInfo host' /\ d_state guest' = StationConnected.
Proof.
  pose (st := st_link 9 {| st_status := Disconnected; st_socket := None; st_nodeId := 1; st_nodeInfo := true |}).
  assert (Hst : d_stations accepted !! 0%nat = Some st) by (vm_compute; reflexivity).
  destruct (station_joins accepted connecting 0 st (new_LanSocket 9) demo_node (new_LanSocket 0) 0 0) as (host' & guest' & Hj).
  - exact accepted_reachable.
  - vm_compute. reflexivity.
  - exact Hst.
  - reflexivity.
  - reflexivity.
  - vm_compute. repeat (constructor; [split; [discriminate|reflexivity]|]). constructor.
  - reflexivity.
  - exact connecting_reachable.
  - left. vm_compute. reflexivity.
  - vm_compute. reflexivity.
  - reflexivity.
  - exists st, (new_LanSocket 9), host', guest'. split; [exact Hst|]. split; [reflexivity|]. exact Hj.
Defined.

(** Calls before [initialize]: the stations have no node yet and there is no socket, so the
    first two dereference a null pointer; the third opens an access point although the
    object is not initialised. *)
Example advertise_before_initialize : setAdvertiseData None 0 fresh_object = Stop NullDeref.
Proof. vm_compute. reflexivity. Qed.
Example scan_before_initialize : scan [] 1 demo_filter fresh_object = Stop NullDeref.
Proof. vm_compute. reflexivity. Qed.
Example destroy_before_initialize : d_state (after destroyNetwork fresh_object) = AccessPoint.
Proof. vm_compute. reflexivity. Qed.
