(* ===== verification/LdnComm.v ===== *)
(** The service that games call for local play, and what it tells the console's client:
    [ldn_mitm/source/ldn_icommunication.cpp] and [ldn_gate_client.cpp].

    [ICommunicationService] passes the calls of a game to the lobby of [LanDiscovery] and is
    its client: the lobby calls back when its state changes and when the game should look
    again.  Each change of state becomes an event of the gate, a record that another process,
    the console's client, polls through a service of its own ([NxGate] is the other end).

    The state of the callbacks of [LanDiscovery] is the service's: [service].  The clock is
    [TickClock], the system's answers to the thread that serves the gate are arguments.

    Shown here: over every sequence of calls and reports the published record agrees with the
    state of the lobby, and asks for the relay whenever a game hosts or has joined.  What a
    poll by the console's client would find is shown too, for a service that is registered;
    nothing in the program registers it ([InitGateClient] is never called).  Each change of state publishes the event for it;
    the thread that serves the gate closes every session it accepts exactly once, and a
    session that breaks without a close request keeps every later client out. *)

From stdpp Require Import strings list.
From S2P Require Import Prelude Byteorder NxGate LanProtocol LanDiscovery.

(** ** The code *)

(** *** ldn_gate_client.cpp *)

Inductive LanPlayGateEvent := GeNone | GeScan | GeHost | GeConnect | GeIdle | GeFinalize | GePrepare.
#[export] Instance gate_event_type_eq_dec : EqDecision LanPlayGateEvent.
Proof. solve_decision. Defined.
Definition event_code (e : LanPlayGateEvent) : Z :=
  match e with
  | GeNone => 0 | GeScan => 1 | GeHost => 2 | GeConnect => 3 | GeIdle => 4 | GeFinalize => 5 | GePrepare => 6
  end.
Definition GateMagic : Z := 0x47504E4C.
Definition GateVersion : Z := 1.
Definition GateCmdGetState : Z := 0.
Definition GateCmdGetEvent : Z := 1.

(** The static variables; a handle is [None] for [INVALID_HANDLE]. *)
Record GateServer := {
  gv_state : lanp_gate_state_t;          (* g_gate_state *)
  gv_event_w : option Z;
  gv_event_r : option Z;
  gv_port : option Z;
  gv_registered : bool;
  gv_running : bool;
  gv_thread_valid : bool;
  gv_signals : nat;                      (* svcSignalEvent *)
  gv_closed : list Z;                    (* svcCloseHandle *)
}.

Definition set_gv_state (v : lanp_gate_state_t) (g : GateServer) : GateServer :=
  {| gv_state := v; gv_event_w := gv_event_w g; gv_event_r := gv_event_r g; gv_port := gv_port g;
     gv_registered := gv_registered g; gv_running := gv_running g; gv_thread_valid := gv_thread_valid g;
     gv_signals := gv_signals g; gv_closed := gv_closed g |}.
Definition gv_signal (g : GateServer) : GateServer :=
  {| gv_state := gv_state g; gv_event_w := gv_event_w g; gv_event_r := gv_event_r g; gv_port := gv_port g;
     gv_registered := gv_registered g; gv_running := gv_running g; gv_thread_valid := gv_thread_valid g;
     gv_signals := S (gv_signals g); gv_closed := gv_closed g |}.
Definition set_gv_events (w r : option Z) (g : GateServer) : GateServer :=
  {| gv_state := gv_state g; gv_event_w := w; gv_event_r := r; gv_port := gv_port g;
     gv_registered := gv_registered g; gv_running := gv_running g; gv_thread_valid := gv_thread_valid g;
     gv_signals := gv_signals g; gv_closed := gv_closed g |}.
Definition set_gv_server (port : option Z) (registered running thread_valid : bool) (g : GateServer) : GateServer :=
  {| gv_state := gv_state g; gv_event_w := gv_event_w g; gv_event_r := gv_event_r g; gv_port := port;
     gv_registered := registered; gv_running := running; gv_thread_valid := thread_valid;
     gv_signals := gv_signals g; gv_closed := gv_closed g |}.
Definition gv_close (h : option Z) (g : GateServer) : GateServer :=
  {| gv_state := gv_state g; gv_event_w := gv_event_w g; gv_event_r := gv_event_r g; gv_port := gv_port g;
     gv_registered := gv_registered g; gv_running := gv_running g; gv_thread_valid := gv_thread_valid g;
     gv_signals := gv_signals g; gv_closed := gv_closed g ++ match h with Some h => [h] | None => [] end |}.

Definition event_active (event_type : LanPlayGateEvent) : bool :=
  match event_type with GePrepare | GeScan | GeHost | GeConnect => true | _ => false end.

(** [tick] is what [armGetSystemTick] returned. *)
Definition NotifyLanPlayGate (event_type : LanPlayGateEvent) (process_id title_id local_communication_id scene_id tick : Z)
    (g : GateServer) : GateServer :=
  let g := set_gv_state
    {| gs_magic := GateMagic; gs_version := GateVersion; gs_event_type := event_code event_type;
       gs_active := if event_active event_type then 1 else 0; gs_process_id := process_id; gs_title_id := title_id;
       gs_local_communication_id := local_communication_id; gs_last_event_tick := tick; gs_scene_id := scene_id |} g in
  match gv_event_w g with Some _ => gv_signal g | None => g end.

(** [create], [reg] and [thread] are what the three system calls returned. *)
Definition InitGateClient (create : Z * (Z * Z)) (reg : Z * Z) (thread : Z) (g : GateServer) : GateServer :=
  let g := set_gv_state
    {| gs_magic := GateMagic; gs_version := GateVersion; gs_event_type := 0; gs_active := 0; gs_process_id := 0;
       gs_title_id := 0; gs_local_communication_id := 0; gs_last_event_tick := 0; gs_scene_id := 0 |} g in
  let g := if create.1 =? 0 then set_gv_events (Some create.2.1) (Some create.2.2) g else set_gv_events None None g in
  if negb (reg.1 =? 0) then g
  else if negb (thread =? 0) then set_gv_server None false false (gv_thread_valid g) (gv_close (Some reg.2) g)
  else set_gv_server (Some reg.2) true true true g.

Definition FinalizeGateClient (g : GateServer) : GateServer :=
  let g := set_gv_server (gv_port g) (gv_registered g) false false g in
  let g := if gv_registered g then set_gv_server None false false false (gv_close (gv_port g) g) else g in
  let g := match gv_event_w g with Some h => set_gv_events None (gv_event_r g) (gv_close (Some h) g) | None => g end in
  match gv_event_r g with Some h => set_gv_events (gv_event_w g) None (gv_close (Some h) g) | None => g end.

(** A request: its type, and the header when it has a valid one. *)
Inductive request_type := RqClose | RqRequest | RqRequestWithContext | RqOther.
Inductive LibnxError := LibnxError_BadInput | LibnxError_NotInitialized.
Inductive response := RsOk | RsState (st : lanp_gate_state_t) | RsHandle (h : Z) | RsError (error : LibnxError).
Definition ProcessRequest (type : request_type) (command_id : option Z) (g : GateServer) : response * bool :=
  match type with
  | RqClose => (RsOk, true)
  | RqOther => (RsError LibnxError_BadInput, false)
  | _ =>
      match command_id with
      | None => (RsError LibnxError_BadInput, false)
      | Some command_id =>
          if command_id =? GateCmdGetState then (RsState (gv_state g), false)
          else if command_id =? GateCmdGetEvent then
            (match gv_event_r g with Some h => RsHandle h | None => RsError LibnxError_NotInitialized end, false)
          else (RsError LibnxError_BadInput, false)
      end
  end.

(** The variables of [SrvThreadFn], and what it asked of the system. *)
Inductive srv_event := SvAccept (h : Z) | SvReply (h : Z) (r : response) | SvClose (h : Z).
Record srv := {
  sr_session : option Z;
  sr_reply : option (Z * response);      (* reply_target with the reply in its buffer *)
  sr_close_after : bool;
  sr_out : list srv_event;
}.
(** What [svcReplyAndReceive] returns: a failure, a connection to the port with what
    [svcAcceptSession] gives, or a request on the session. *)
Inductive received := RcFail | RcPort (accepted : option Z) | RcSession (type : request_type) (command_id : option Z) | RcIndex.

(** One turn of its loop; [svcReplyAndReceive] sends the reply first. *)
Definition srv_turn (r : received) (g : GateServer) (s : srv) : srv :=
  let out := sr_out s ++ match sr_reply s with Some (h, rs) => [SvReply h rs] | None => [] end in
  let '(session, out, close_after) :=
    match sr_reply s with
    | Some (h, _) =>
        if sr_close_after s then
          (if decide (sr_session s = Some h) then None else sr_session s, out ++ [SvClose h], false)
        else (sr_session s, out, sr_close_after s)
    | None => (sr_session s, out, sr_close_after s)
    end in
  match r, session with
  | RcPort (Some h), None => {| sr_session := Some h; sr_reply := None; sr_close_after := close_after; sr_out := out ++ [SvAccept h] |}
  | RcPort (Some h), Some _ =>
      {| sr_session := session; sr_reply := None; sr_close_after := close_after; sr_out := out ++ [SvAccept h; SvClose h] |}
  | RcSession type command_id, Some h =>
      let '(rs, close_session) := ProcessRequest type command_id g in
      {| sr_session := session; sr_reply := Some (h, rs); sr_close_after := close_session; sr_out := out |}
  | _, _ => {| sr_session := session; sr_reply := None; sr_close_after := close_after; sr_out := out |}
  end.
Definition srv_start : srv := {| sr_session := None; sr_reply := None; sr_close_after := false; sr_out := [] |}.
Fixpoint srv_turns (l : list (received * GateServer)) (s : srv) : srv :=
  match l with [] => s | (r, g) :: l => srv_turns l (srv_turn r g s) end.
(** The end of the thread. *)
Definition srv_exit (s : srv) : list srv_event :=
  sr_out s ++ match sr_session s with Some h => [SvClose h] | None => [] end.
Definition SrvThreadFn (l : list (received * GateServer)) : list srv_event := srv_exit (srv_turns l srv_start).

(** *** ldn_icommunication.cpp *)

(** The service but for its [LANDiscovery], with the gate's variables. *)
Record service := {
  sv_state_event : option nat;           (* state_event, with the signals sent *)
  sv_error_state : Z;
  sv_process_id : Z;
  sv_title_id : Z;
  sv_intent_id : bytes;                  (* an IntentId, 16 bytes *)
  sv_intent_valid : bool;
  sv_gate : GateServer;
  sv_clock : nat;
}.
Definition set_sv_state_event (v : option nat) (s : service) : service :=
  {| sv_state_event := v; sv_error_state := sv_error_state s; sv_process_id := sv_process_id s; sv_title_id := sv_title_id s;
     sv_intent_id := sv_intent_id s; sv_intent_valid := sv_intent_valid s; sv_gate := sv_gate s; sv_clock := sv_clock s |}.
Definition set_sv_error_state (v : Z) (s : service) : service :=
  {| sv_state_event := sv_state_event s; sv_error_state := v; sv_process_id := sv_process_id s; sv_title_id := sv_title_id s;
     sv_intent_id := sv_intent_id s; sv_intent_valid := sv_intent_valid s; sv_gate := sv_gate s; sv_clock := sv_clock s |}.
Definition set_sv_client (pid tid : Z) (s : service) : service :=
  {| sv_state_event := sv_state_event s; sv_error_state := sv_error_state s; sv_process_id := pid; sv_title_id := tid;
     sv_intent_id := sv_intent_id s; sv_intent_valid := sv_intent_valid s; sv_gate := sv_gate s; sv_clock := sv_clock s |}.
Definition set_sv_intent (intent : bytes) (valid : bool) (s : service) : service :=
  {| sv_state_event := sv_state_event s; sv_error_state := sv_error_state s; sv_process_id := sv_process_id s;
     sv_title_id := sv_title_id s; sv_intent_id := intent; sv_intent_valid := valid; sv_gate := sv_gate s; sv_clock := sv_clock s |}.
Definition set_sv_gate (v : GateServer) (s : service) : service :=
  {| sv_state_event := sv_state_event s; sv_error_state := sv_error_state s; sv_process_id := sv_process_id s;
     sv_title_id := sv_title_id s; sv_intent_id := sv_intent_id s; sv_intent_valid := sv_intent_valid s; sv_gate := v;
     sv_clock := S (sv_clock s) |}.

Definition gate_event_for_state_transition (previous_state new_state : CommState) : LanPlayGateEvent :=
  match new_state with
  | AccessPoint | Station => GePrepare
  | AccessPointCreated => GeHost
  | StationConnected => GeConnect
  | Initialized =>
      match previous_state with
      | AccessPoint | AccessPointCreated | Station | StationConnected | CsError => GeIdle
      | _ => GeNone
      end
  | CsError => GeIdle
  | CsNone => GeFinalize
  end.

Class TickClock := arm_tick : nat -> Z.   (* armGetSystemTick *)

Section code.
Context `{Host} `{TickClock}.
Abbreviation Svc := (M (LANDiscovery service)).

Definition upd (f : service -> service) : Svc unit := modify (fun d => set_user (f (d_user d)) d).

Definition notify_gate_verbose (event_type : LanPlayGateEvent) (local_communication_id scene_id : Z) : Svc unit :=
  upd (fun s => set_sv_gate (NotifyLanPlayGate event_type (sv_process_id s) (sv_title_id s) local_communication_id scene_id
                               (arm_tick (sv_clock s)) (sv_gate s)) s).

Definition cacheGateIntent (intent_id : bytes) : Svc unit := upd (set_sv_intent intent_id true).
Definition intent_localCommunicationId (intent : bytes) : Z := load (take 8 intent).
Definition intent_sceneId (intent : bytes) : Z := load (take 2 (drop 10 intent)).
Definition NotifyLanPlayGateFromIntent (event_type : LanPlayGateEvent) (process_id title_id : Z) (intent_id : bytes) (tick : Z)
    (g : GateServer) : GateServer :=
  NotifyLanPlayGate event_type process_id title_id (intent_localCommunicationId intent_id) (intent_sceneId intent_id) tick g.
(** The two identifiers that go with an event. *)
Definition gate_ids (s : service) : Z * Z :=
  if sv_intent_valid s then (intent_localCommunicationId (sv_intent_id s), intent_sceneId (sv_intent_id s)) else (0, 0).

Definition onEventFired : Svc unit :=
  upd (fun s => match sv_state_event s with Some n => set_sv_state_event (Some (S n)) s | None => s end).

Definition onLanStateChanged (previous_state new_state : CommState) : Svc unit :=
  let event_type := gate_event_for_state_transition previous_state new_state in
  if decide (event_type = GeNone) then ret tt
  else
    (if decide (event_type = GeHost \/ event_type = GeConnect) then
       let* (rc, info) := getNetworkInfo in
       match info with Some info => cacheGateIntent (take 16 info) | None => ret tt end
     else ret tt) ;;;
    let* d := gets id in
    let '(local_communication_id, scene_id) := gate_ids (d_user d) in
    notify_gate_verbose event_type local_communication_id scene_id ;;;
    if decide (event_type = GeFinalize) then upd (fun s => set_sv_intent (sv_intent_id s) false s) else ret tt.

#[export] Instance service_callbacks : Callbacks service :=
  {| cb_lanEvent := onEventFired; cb_stateChange := onLanStateChanged |}.

Context `{StackBytes} `{MitmSys}.

Definition Initialize (client_process_id : Z) : Svc Z :=
  upd (set_sv_client client_process_id 0) ;;;
  upd (fun s => match sv_state_event s with None => set_sv_state_event (Some 0%nat) s | Some _ => s end) ;;;
  let* init_rc := initialize true in
  if negb (init_rc =? 0) then ret init_rc
  else notify_gate_verbose GePrepare 0 0 ;;; ret 0.
Definition InitializeSystem2 (unk client_process_id : Z) : Svc Z :=
  upd (set_sv_error_state unk) ;;;
  Initialize client_process_id.
Definition Finalize : Svc Z :=
  let* rc := finalize in
  upd (set_sv_state_event None) ;;;
  ret rc.

Definition OpenAccessPoint : Svc Z := openAccessPoint.
Definition CloseAccessPoint : Svc Z := closeAccessPoint.
Definition DestroyNetwork : Svc Z := destroyNetwork.
Definition OpenStation : Svc Z := openStation.
Definition CloseStation : Svc Z := closeStation.
Definition Disconnect : Svc Z := disconnect.
Definition CreateNetwork (securityMode : Z) (userConfig : bytes) (networkConfig : NetworkConfig) : Svc Z :=
  cacheGateIntent (nc_intentId networkConfig) ;;;
  createNetwork securityMode userConfig networkConfig.
(** [GetSize] is converted to a [uint16_t]. *)
Definition SetAdvertiseData (data : bytes) : Svc Z := setAdvertiseData (Some data) (u16 (zlen data)).

Definition state_code (s : CommState) : Z :=
  match s with
  | CsNone => 0 | Initialized => 1 | AccessPoint => 2 | AccessPointCreated => 3 | Station => 4 | StationConnected => 5 | CsError => 6
  end.
Definition reason_code (r : DisconnectReason) : Z :=
  match r with
  | DrNone => 0 | DisconnectedByUser => 1 | DisconnectedBySystem => 2 | DestroyedByUser => 3 | DestroyedBySystem => 4
  | Rejected => 5 | SignalLost => 6
  end.
Definition GetState : Svc (Z * Z) :=
  let* d := gets id in
  let reason := reason_code (d_disconnect_reason d) in
  ret (state_code (d_state d),
       if negb (sv_error_state (d_user d) =? 0) && negb (reason =? 0) then MAKERESULT 0x10 reason else 0).
Definition GetDisconnectReason : Svc Z := let* d := gets id in ret (reason_code (d_disconnect_reason d)).
Definition GetIpv4Address : Svc (Z * Z * Z) :=
  let* (rc, address, netmask) := sys mitm_ip_config in
  ret (rc, ntohl address, ntohl netmask).
Definition GetNetworkInfo : Svc (Z * option bytes) := getNetworkInfo.
Definition GetNetworkInfoLatestUpdate (size : Z) : Svc (Z * option (bytes * list Z)) := getNetworkInfo_updates size.

(** [ldn_types.cpp] *)
Definition NetworkInfo2NetworkConfig (info : bytes) : option NetworkConfig :=
  intent ← mem_get info ni_intentId 16;
  channel ← field info ni_channel 2;
  nodeCountMax ← field info ni_nodeCountMax 1;
  version ← field info (ni_nodes 0 + node_localCommunicationVersion) 2;
  Some {| nc_intentId := intent; nc_channel := channel; nc_nodeCountMax := nodeCountMax; nc_localCommunicationVersion := version |}.
(** The session and the random bytes. *)
Definition NetworkInfo2SecurityParameter (info : bytes) : option (bytes * bytes) :=
  session ← mem_get info ni_sessionId 16;
  random ← mem_get info ni_unkRandom 16;
  Some (session, random).
Definition GetSecurityParameter : Svc (Z * option (bytes * bytes)) :=
  let* (rc, info) := getNetworkInfo in
  match info with
  | Some info => let* p := mem (NetworkInfo2SecurityParameter info) in ret (rc, Some p)
  | None => ret (rc, None)
  end.
Definition GetNetworkConfig : Svc (Z * option NetworkConfig) :=
  let* (rc, info) := getNetworkInfo in
  match info with
  | Some info => let* c := mem (NetworkInfo2NetworkConfig info) in ret (rc, Some c)
  | None => ret (rc, None)
  end.

Definition AttachStateChangeEvent : Svc unit :=
  let* d := gets id in
  match sv_state_event (d_user d) with Some _ => ret tt | None => halt NullDeref end.

(** The result, the count that is returned and the networks; [meanwhile] as for [scan]. *)
Definition Scan (meanwhile : list (option (list (pollfd * revents)))) (buffer_size : Z) (filter : bytes) : Svc (Z * Z * list bytes) :=
  let count := u16 buffer_size in
  let* (rc, found) := scan meanwhile count filter in
  if rc =? 0 then
    let* d := gets id in
    let '(local_communication_id, scene_id) := gate_ids (d_user d) in
    notify_gate_verbose GeScan local_communication_id scene_id ;;;
    ret (rc, zlen found, found)
  else ret (rc, count, found).

Definition Connect (sys_connect : Z * Z -> Z) (userConfig : bytes) (localCommunicationVersion : Z) (data : bytes) : Svc Z :=
  cacheGateIntent (take 16 data) ;;;
  connect sys_connect data userConfig (u16 localCommunicationVersion).
End code.

(** ** The published event *)

(** The events that agree with a state of the lobby.  A scan and a repeated [Initialize]
    publish an event of their own in any state in which they are possible. *)
Definition agrees (s : CommState) (e : LanPlayGateEvent) : Prop :=
  e = GeScan \/
  match s with
  | AccessPoint | Station => e = GePrepare
  | AccessPointCreated => e = GeHost \/ e = GePrepare
  | StationConnected => e = GeConnect \/ e = GePrepare
  | CsError => e = GeIdle \/ e = GePrepare
  | Initialized => True
  | CsNone => e = GeFinalize
  end.
Definition publishes (e : LanPlayGateEvent) (g : GateServer) : Prop :=
  gs_magic (gv_state g) = GateMagic /\ gs_version (gv_state g) = GateVersion /\
  gs_event_type (gv_state g) = event_code e /\ gs_active (gv_state g) = if event_active e then 1 else 0.

Section tracking.
Context `{Host} `{TickClock} `{StackBytes} `{MitmSys}.
Implicit Types d : LANDiscovery service.

Definition tracked d : Prop :=
  d_bound d = true /\ (exists e, publishes e (sv_gate (d_user d)) /\ agrees (d_state d) e) /\
  (d_initialized d = true -> d_state d <> CsNone).

Lemma notify_publishes e pid tid lid sid t g : publishes e (NotifyLanPlayGate e pid tid lid sid t g).
Proof. unfold NotifyLanPlayGate. cbn. by destruct (gv_event_w g). Qed.

(** The events for a change of state, whatever was published before. *)
Lemma stateChange_run v v' d :
  post (onLanStateChanged v v') (fun _ d' => (exists s, d' = set_user s d) /\
    if decide (gate_event_for_state_transition v v' = GeNone) then d' = d
    else publishes (gate_event_for_state_transition v v') (sv_gate (d_user d'))) d.
Proof.
  unfold onLanStateChanged. destruct (decide _); [split; [exists (d_user d); by destruct d|done]|].
  apply post_bind. apply (post_mono _ (fun _ d' => exists s, d' = set_user s d)).
  - destruct (decide _); [|exists (d_user d); by destruct d]. apply post_bind. unfold getNetworkInfo. apply post_bind, post_gets. unfold id.
    destruct (d_state d); apply post_ret; first [by eexists|exists (d_user d); by destruct d].
  - intros ? d1 [s ->]. apply post_bind, post_gets. unfold id. destruct (gate_ids _) as [lid sid]. unfold notify_gate_verbose.
    apply post_bind, post_modify. destruct (decide _); [apply post_modify|apply post_ret]; (split; [by eexists|]); apply notify_publishes.
Qed.
#[export] Instance service_callback_laws : CallbackLaws service.
Proof.
  split; [by eexists|]. intros v v' d. pose proof (stateChange_run v v' d) as ([] & d' & Er & [s ->] & _)%post_inv. by exists s.
Qed.
Lemma transition_agrees v v' : v' <> Initialized -> gate_event_for_state_transition v v' <> GeNone /\ agrees v' (gate_event_for_state_transition v v').
Proof. intros Hv. unfold agrees. destruct v'; cbn; split; try done; auto. Qed.

Lemma tr_lanEvent d : tracked d -> wlp lanEvent (fun _ => tracked) d.
Proof. intros (Hb & He & Hi). unfold lanEvent, wlp, bind, gets. rewrite Hb. split; [done|]. split; [|done]. cbn. by destruct (sv_state_event _). Qed.
Lemma tr_setState v d : tracked d -> (v = CsNone -> d_initialized d = false) -> wlp (setState v) (fun _ => tracked) d.
Proof.
  intros (Hb & (e & Hp & Ha) & Hi) Hv. unfold setState, wlp, bind, gets, modify. cbn [d_bound set_state]. rewrite Hb. cbn [negb].
  assert (Hfin : forall d', d_bound d' = true -> d_state d' = v -> d_initialized d' = d_initialized d ->
    (exists e, publishes e (sv_gate (d_user d')) /\ agrees v e) -> wlp cb_lanEvent (fun _ => tracked) d').
  { intros d' Hb' Hs' Hi' He. split; [done|]. cbn. split.
    - rewrite Hs'. by destruct (sv_state_event _).
    - rewrite Hi', Hs'. intros Hin ->. rewrite Hv in Hin by done. done. }
  unfold wlp in Hfin. destruct (decide _) as [Hne|Heq].
  - pose proof (stateChange_run (d_state d) v (set_state v d)) as ([] & d1 & E1 & [sv ->] & Hq)%post_inv. cbn [cb_stateChange service_callbacks].
    rewrite E1. apply Hfin; [done|done|done|]. destruct (decide (v = Initialized)) as [->|Hvi].
    + destruct (decide _).
      * exists e. assert (sv = d_user d) as -> by (by injection Hq). split; [done|by right].
      * eexists. split; [exact Hq|by right].
    + destruct (transition_agrees (d_state d) v Hvi) as [Hn Hag]. rewrite decide_False in Hq by done. by eexists.
  - apply Hfin; [done|done|done|]. exists e. assert (d_state d = v) as <- by (destruct (decide (d_state d = v)); [done|by exfalso]). done.
Qed.

(** Symbolic execution: basic operations step, an operation with a lemma in [track] is
    replaced by what the lemma says, and what is not the state, the client's or the two
    flags may change. *)
Lemma wlp_tracked {A B} (m : M (LANDiscovery service) A) (k : A -> M (LANDiscovery service) B) d :
  wlp m (fun _ => tracked) d -> (forall a d', tracked d' -> wlp (k a) (fun _ => tracked) d') -> wlp (bind m k) (fun _ => tracked) d.
Proof. intros Hm Hk. apply wlp_bind. eapply wlp_mono; [exact Hm|]. intros a d' Hd. by apply Hk. Qed.
Lemma tr_for_each {A} (l : list A) (body : A -> M (LANDiscovery service) unit) d :
  (forall x d, tracked d -> wlp (body x) (fun _ => tracked) d) -> tracked d -> wlp (for_each l body) (fun _ => tracked) d.
Proof. intros Hb. revert d. induction l as [|x l IH]; intros d Hd; [done|]. cbn. apply wlp_tracked; [by apply Hb|]. intros [] d'. apply IH. Qed.
Lemma tr_sys {A} (f : nat -> A) d : tracked d -> wlp (sys f) (fun _ => tracked) d.
Proof. done. Qed.
Lemma tr_put_info off bs d : tracked d -> wlp (put_info off bs) (fun _ => tracked) d.
Proof. intros Hd. unfold put_info. repeat wlp_step. exact Hd. Qed.
End tracking.

Create HintDb track.
#[export] Hint Resolve tr_lanEvent tr_sys tr_put_info : track.

Ltac track_step :=
  match goal with
  | |- wlp (modify ?f) _ ?d =>
      unfold wlp at 1, modify at 1;
      match goal with Ht : tracked d |- _ => change (tracked (f d)) in Ht; cbv beta in Ht |- * end
  | |- wlp (bind (if _ then _ else _) _) _ _ => apply wlp_tracked; [|intros ? ? ?]
  | |- wlp (bind (bind _ _) _) _ _ => apply wlp_tracked; [|intros ? ? ?]
  | |- wlp (bind (for_each _ _) _) _ _ => apply wlp_tracked; [|intros ? ? ?]
  | |- wlp (bind (match _ with Some _ => _ | None => _ end) _) _ _ => apply wlp_tracked; [|intros ? ? ?]
  | |- wlp (bind _ _) _ _ => apply wlp_tracked; [solve [eauto with track]|intros ? ? ?]
  | |- wlp (for_each _ _) _ _ => apply tr_for_each; [intros ? ? ?|eassumption]
  | |- wlp _ (fun _ => tracked) _ => solve [eauto with track]
  | |- wlp (mem _) _ _ => apply wlp_mem; intros ? ?
  | _ => wlp_step
  end.
Ltac track := repeat track_step; try done.

Section operations.
Context `{Host} `{TickClock} `{StackBytes} `{MitmSys}.
Implicit Types d : LANDiscovery service.

Lemma tr_close_socket sk d : tracked d -> wlp (close_socket sk) (fun _ => tracked) d.
Proof. intros Hd. unfold close_socket, mt_emit. track. Qed.
#[local] Hint Resolve tr_close_socket : track.
Lemma tr_close_tcp d : tracked d -> wlp close_tcp (fun _ => tracked) d.
Proof. intros Hd. unfold close_tcp. track. Qed.
Lemma tr_station i d : tracked d -> wlp (station i) (fun _ => tracked) d.
Proof. intros Hd. unfold station. track. Qed.
Lemma tr_put_station i st d : tracked d -> wlp (put_station i st) (fun _ => tracked) d.
Proof. intros Hd. unfold put_station. track. Qed.
Lemma tr_st_reset st d : tracked d -> wlp (st_reset st) (fun _ => tracked) d.
Proof. intros Hd. unfold st_reset. track. Qed.
#[local] Hint Resolve tr_close_tcp tr_station tr_put_station tr_st_reset : track.
Lemma tr_tcp_sendPacket sk type data d : tracked d -> wlp (tcp_sendPacket sk type data) (fun _ => tracked) d.
Proof. intros Hd. unfold tcp_sendPacket, mt_emit. track. Qed.
#[local] Hint Resolve tr_tcp_sendPacket : track.
Lemma tr_overrideInfo st d : tracked d -> wlp (overrideInfo st) (fun _ => tracked) d.
Proof. intros Hd. unfold overrideInfo. track. Qed.
#[local] Hint Resolve tr_overrideInfo : track.
Lemma tr_override_all l c d : tracked d -> wlp (override_all l c) (fun _ => tracked) d.
Proof. revert c d. induction l as [|i l IH]; intros c d Hd; cbn [override_all]; track. Qed.
Lemma tr_sync_station i d : tracked d -> wlp (sync_station i) (fun _ => tracked) d.
Proof. intros Hd. unfold sync_station, st_sendPacket. track. Qed.
Lemma tr_check_nodes l c d : tracked d -> wlp (check_nodes l c) (fun _ => tracked) d.
Proof. revert c d. induction l as [|i l IH]; intros c d Hd; cbn [check_nodes]; unfold check_node; track. Qed.
Lemma tr_onNetworkInfoChanged d : tracked d -> wlp onNetworkInfoChanged (fun _ => tracked) d.
Proof. intros Hd. unfold onNetworkInfoChanged, isNodeStateChanged. apply wlp_tracked; [by apply tr_check_nodes|]. intros [] d' Hd'; track. Qed.
#[local] Hint Resolve tr_override_all tr_sync_station tr_onNetworkInfoChanged : track.
Lemma tr_updateNodes d : tracked d -> wlp updateNodes (fun _ => tracked) d.
Proof. intros Hd. unfold updateNodes. track. Qed.
Lemma tr_reset_station i d : tracked d -> wlp (reset_station i) (fun _ => tracked) d.
Proof. intros Hd. unfold reset_station. track. Qed.
#[local] Hint Resolve tr_updateNodes tr_reset_station : track.
Lemma tr_resetStations d : tracked d -> wlp resetStations (fun _ => tracked) d.
Proof. intros Hd. unfold resetStations. track. Qed.
#[local] Hint Resolve tr_resetStations : track.

(** *** Reports *)

Lemma tr_change v d : tracked d -> v <> CsNone -> wlp (setState v) (fun _ => tracked) d.
Proof. intros Hd Hv. by apply tr_setState. Qed.
#[local] Hint Extern 1 (_ <> CsNone) => discriminate : track.
#[local] Hint Resolve tr_change : track.
Lemma tr_onSyncNetwork info d : tracked d -> wlp (onSyncNetwork info) (fun _ => tracked) d.
Proof. intros Hd. unfold onSyncNetwork. track. Qed.
Lemma tr_onConnect fd d : tracked d -> wlp (onConnect fd) (fun _ => tracked) d.
Proof. intros Hd. unfold onConnect, mt_emit. track. Qed.
Lemma tr_udp_sendPacket addr port type data d : tracked d -> wlp (udp_sendPacket addr port type data) (fun _ => tracked) d.
Proof. intros Hd. unfold udp_sendPacket, mt_emit. track. Qed.
#[local] Hint Resolve tr_onSyncNetwork tr_onConnect tr_udp_sendPacket : track.
Lemma tr_station_onRead i rc data d : tracked d -> wlp (station_onRead i rc data) (fun _ => tracked) d.
Proof.
  intros Hd. unfold station_onRead, recvPacket. apply wlp_tracked; [auto with track|]. intros st d1 Hd1. destruct (st_socket st); [|done].
  apply wlp_tracked.
  - unfold on_station_socket. apply wlp_tracked; [auto with track|]. intros st' d2 Hd2. destruct (st_socket st') as [sk|]; [|done].
    destruct (recv_message _ _ sk); [track|done].
  - intros [len|[type body]] d2 Hd2; [done|]. unfold station_message. track.
Qed.
Lemma tr_station_onClose i d : tracked d -> wlp (station_onClose i) (fun _ => tracked) d.
Proof. intros Hd. unfold station_onClose. track. Qed.
Lemma tr_tcp_onRead rc data d : tracked d -> wlp (tcp_onRead rc data) (fun _ => tracked) d.
Proof.
  intros Hd. unfold tcp_onRead. apply wlp_bind. unfold wlp at 1, gets.
  assert (Hr : wlp (recvPacket on_tcp_socket tcp_message (tcp_recvfrom rc) data) (fun _ => tracked) d).
  { unfold recvPacket. apply wlp_tracked.
    - unfold on_tcp_socket. apply wlp_bind. unfold wlp at 1, gets. destruct (d_tcp d) as [sk|]; [|done]. destruct (recv_message _ _ sk); [track|done].
    - intros [len|[type body]] d2 Hd2; [done|]. unfold tcp_message. track. }
  destruct (d_state d); track.
Qed.
Lemma tr_udp_onRead addr port rc data d : tracked d -> wlp (udp_onRead addr port rc data) (fun _ => tracked) d.
Proof.
  intros Hd. unfold udp_onRead, recvPacket. apply wlp_tracked.
  - unfold on_udp_socket. apply wlp_bind. unfold wlp at 1, gets. destruct (d_udp d) as [u|]; [|done]. destruct (recv_message _ _ (lu_socket u)); [track|done].
  - intros [len|[type body]] d2 Hd2; [done|]. unfold udp_message. track.
Qed.
Lemma tr_onClose p d : tracked d -> wlp (pf_onClose p) (fun _ => tracked) d.
Proof. intros Hd. destruct p; cbn; [unfold udp_onClose|unfold tcp_onClose, onDisconnectFromHost|unfold station_onClose]; track. Qed.
#[local] Hint Resolve tr_station_onRead tr_tcp_onRead tr_udp_onRead tr_onClose : track.
Lemma tr_poll_one p r d : tracked d -> wlp (poll_one p r) (fun _ => tracked) d.
Proof.
  intros Hd. destruct r as [|addr port rc data]; cbn [poll_one]; [auto with track|]. apply wlp_tracked; [destruct p; auto with track|].
  intros rc' d' Hd'. destruct (negb _); [auto with track|done].
Qed.
#[local] Hint Resolve tr_poll_one : track.
Lemma tr_loopPoll r d : tracked d -> wlp (loopPoll r) (fun _ => tracked) d.
Proof.
  intros Hd. unfold loopPoll. apply wlp_bind. unfold wlp at 1, gets, id. destruct (negb _); [done|]. destruct r as [l|]; [|done].
  apply wlp_tracked; [|done]. apply tr_for_each; [|done]. intros [p r] d' Hd'. auto with track.
Qed.

(** *** Calls of the lobby *)

#[local] Hint Resolve tr_loopPoll : track.
Lemma tr_initTcp listening d : tracked d -> wlp (initTcp listening) (fun _ => tracked) d.
Proof. intros Hd. unfold initTcp, init_socket, bind_and_listen, setSocketOpts. track. Qed.
Lemma tr_initUdp listening d : tracked d -> wlp (initUdp listening) (fun _ => tracked) d.
Proof. intros Hd. unfold initUdp, close_udp, init_socket, bind_and_listen, setSocketOpts. track. Qed.
Lemma tr_getFakeMac mac d : tracked d -> wlp (getFakeMac mac) (fun _ => tracked) d.
Proof. intros Hd. unfold getFakeMac. apply wlp_tracked; [auto with track|]. by intros [rc ip] d' Hd'. Qed.
#[local] Hint Resolve tr_initTcp tr_initUdp tr_getFakeMac : track.
Lemma tr_getNodeInfo node userConfig v d : tracked d -> wlp (getNodeInfo node userConfig v) (fun _ => tracked) d.
Proof.
  intros Hd. unfold getNodeInfo. apply wlp_tracked; [auto with track|]. intros [rc ip] d1 Hd1. destruct (negb _); [done|]. apply wlp_bind, wlp_mem. intros mac _.
  apply wlp_tracked; [auto with track|]. intros [rc2 mac2] d2 Hd2. track.
Qed.
Lemma tr_initNetworkInfo d : tracked d -> wlp initNetworkInfo (fun _ => tracked) d.
Proof.
  intros Hd. unfold initNetworkInfo. apply wlp_bind. unfold wlp at 1, gets, id. apply wlp_bind, wlp_mem. intros b _.
  apply wlp_tracked; [auto with track|]. intros [rc b2] d2 Hd2. unfold init_node. track.
Qed.
#[local] Hint Resolve tr_getNodeInfo tr_initNetworkInfo : track.
Lemma tr_fill_network sm userConfig nc d : tracked d -> wlp (fill_network sm userConfig nc) (fun _ => tracked) d.
Proof.
  intros Hd. unfold fill_network. do 3 (apply wlp_tracked; [auto with track|]; intros ? ? ?). apply wlp_tracked; [auto with track|]. intros rnd d1 Hd1.
  do 2 (apply wlp_tracked; [auto with track|]; intros ? ? ?). apply wlp_bind. unfold wlp at 1, gets, id. apply wlp_bind, wlp_mem. intros node _.
  apply wlp_tracked; [auto with track|]. intros [rc node2] d2 Hd2. track.
Qed.
Lemma tr_open_network d : tracked d -> wlp open_network (fun _ => tracked) d.
Proof. intros Hd. unfold open_network, initNodeStateChange. track. Qed.
#[local] Hint Resolve tr_fill_network tr_open_network : track.
Lemma tr_createNetwork sm userConfig nc d : tracked d -> wlp (createNetwork sm userConfig nc) (fun _ => tracked) d.
Proof. intros Hd. unfold createNetwork. track. Qed.
Lemma tr_destroyNetwork d : tracked d -> wlp destroyNetwork (fun _ => tracked) d.
Proof. intros Hd. unfold destroyNetwork. track. Qed.
Lemma tr_disconnect d : tracked d -> wlp disconnect (fun _ => tracked) d.
Proof. intros Hd. unfold disconnect. track. Qed.
Lemma tr_change_mode v d : tracked d -> v <> CsNone -> wlp (change_mode v) (fun _ => tracked) d.
Proof. intros Hd Hv. unfold change_mode. track. Qed.
Lemma tr_connect c info userConfig v d : tracked d -> wlp (connect c info userConfig v) (fun _ => tracked) d.
Proof.
  intros Hd. unfold connect, initNodeStateChange. apply wlp_bind, wlp_mem. intros n _. destruct (_ =? 0); [done|]. apply wlp_bind, wlp_mem. intros ip _.
  apply wlp_bind. unfold wlp at 1, gets, id. apply wlp_tracked; [auto with track|]. intros rc d1 Hd1. do 2 (destruct (negb _); [done|]).
  apply wlp_tracked; [auto with track|]. intros [rc2 node] d2 Hd2. track.
Qed.
Lemma tr_setAdvertiseData data size d : tracked d -> wlp (setAdvertiseData data size) (fun _ => tracked) d.
Proof. intros Hd. unfold setAdvertiseData. track. Qed.
Lemma tr_take_changes l d : tracked d -> wlp (take_changes l) (fun _ => tracked) d.
Proof. revert d. induction l as [|i l IH]; intros d Hd; cbn [take_changes]; unfold take_change; track. Qed.
#[local] Hint Resolve tr_createNetwork tr_destroyNetwork tr_disconnect tr_change_mode tr_connect tr_setAdvertiseData tr_take_changes : track.
Lemma tr_updates n d : tracked d -> wlp (getNetworkInfo_updates n) (fun _ => tracked) d.
Proof. intros Hd. unfold getNetworkInfo_updates. destruct (_ || _); [done|]. apply wlp_bind. unfold wlp at 1, gets, id. destruct (d_state d); track. Qed.
Lemma tr_scan meanwhile count flt d : tracked d -> wlp (scan meanwhile count flt) (fun _ => tracked) d.
Proof.
  intros Hd. unfold scan. apply wlp_tracked.
  - unfold scan_begin, sendBroadcast, getBroadcast. apply wlp_bind. unfold wlp at 1, gets. destruct (d_udp d); [|done].
    apply wlp_bind. unfold wlp at 1, modify. apply wlp_tracked; [|intros a d1 Hd1; track].
    apply wlp_tracked; [by apply (tr_sys mitm_ip_config (set_udp _ d))|]. by intros [[rc a] m] d1 Hd1.
  - intros len d1 Hd1. destruct (_ <? 0); [done|]. apply wlp_tracked; [|intros [] d2 Hd2; unfold scan_end; track].
    apply tr_for_each; [|done]. intros r d2 Hd2. track.
Qed.
#[local] Hint Resolve tr_updates tr_scan : track.

Lemma tr_stopped d : tracked d -> tracked (set_initialized false d).
Proof. by intros (Hb & He & _). Qed.
Lemma tr_finalize d : tracked d -> wlp finalize (fun _ => tracked) d.
Proof.
  intros Hd. unfold finalize. apply wlp_bind. unfold wlp at 1, gets. apply wlp_bind.
  apply (wlp_mono _ (fun _ d' => tracked d' /\ d_initialized d' = false)).
  - destruct (d_initialized d) eqn:Ei; [|done]. apply wlp_bind. unfold wlp at 1, modify.
    assert (Hd0 : tracked (set_stop true d)) by exact Hd. apply wlp_bind. apply (wlp_mono _ (fun _ => tracked)); [unfold drop_udp; track|]. intros ? d1 Hd1.
    apply wlp_bind. apply (wlp_mono _ (fun _ => tracked)); [unfold drop_tcp; track|]. intros ? d2 Hd2.
    apply wlp_bind. apply (wlp_mono _ (fun _ => tracked)); [auto with track|]. intros ? d3 Hd3. cbv beta in Hd3.
    unfold wlp, bind, modify, sys. split; [exact (tr_stopped _ Hd3)|done].
  - intros rc d1 [Hd1 Hi1]. apply wlp_tracked; [by apply tr_setState|]. by intros.
Qed.

Lemma setState_to v d : tracked d -> v <> CsNone -> wlp (setState v) (fun _ d' => tracked d' /\ d_state d' = v) d.
Proof.
  intros Hd Hv. pose proof (tr_change v d Hd Hv) as Hw. pose proof (setState_run v d) as Hp. unfold wlp, post in *.
  destruct (setState v d); [|done]. split; [done|]. exact (cm_state _ _ Hp).
Qed.
Lemma tr_nifm_calls n d : tracked d -> wlp (nifm_calls n) (fun _ => tracked) d.
Proof. revert d. induction n as [|n IH]; intros d Hd; cbn [nifm_calls]; track. Qed.
#[local] Hint Resolve tr_nifm_calls : track.
Lemma tr_initialize listening d :
  tracked d -> wlp (initialize listening) (fun rc d' => tracked d' /\ (rc = 0 -> d_initialized d' = true)) d.
Proof.
  intros Hd. unfold initialize. apply wlp_bind. unfold wlp at 1, gets. destruct (d_initialized d) eqn:Ei; [done|].
  assert (Hstop : forall rc d', tracked d' -> negb (rc =? 0) = true -> tracked d' /\ (rc = 0 -> d_initialized d' = true)).
  { intros rc d' Hd' Hrc. split; [done|]. intros ->. done. }
  apply wlp_bind. apply (wlp_mono _ (fun _ => tracked)); [auto with track|]. intros rc1 d1 Hd1. destruct (negb (rc1 =? 0)) eqn:E1; [by apply Hstop|].
  apply wlp_bind. unfold wlp at 1, sys. apply wlp_bind. unfold wlp at 1, modify. set (d2 := set_originalMtu _ _).
  assert (Hd2 : tracked d2) by exact Hd1. apply wlp_bind. apply (wlp_mono _ (fun _ => tracked)); [auto with track|].
  intros rc3 d3 Hd3. destruct (negb (rc3 =? 0)) eqn:E3; [by apply Hstop|].
  apply wlp_bind. apply (wlp_mono _ (fun _ => tracked)).
  { apply tr_for_each; [|done]. intros i d' Hd'. unfold init_station. track. }
  intros ? d4 Hd4. apply wlp_bind. unfold wlp at 1, modify. set (d5 := set_bound true d4).
  assert (Hd5 : tracked d5) by (destruct Hd4 as (_ & He & Hi); done). apply wlp_bind. apply (wlp_mono _ (fun _ => tracked)); [auto with track|].
  intros rc6 d6 Hd6. destruct (negb (rc6 =? 0)) eqn:E6; [by apply Hstop|]. apply wlp_bind. unfold wlp at 1, sys. destruct (negb (mitm_call (d_ticks d6) =? 0)); [done|].
  apply wlp_bind. unfold wlp at 1, modify. apply wlp_bind. eapply wlp_mono; [apply setState_to; [exact Hd6|done]|].
  intros ? d7 [(Hb & He & _) Hs]. unfold wlp, bind, modify, ret. split; [|done]. split; [done|]. split; [done|]. cbn. by rewrite Hs.
Qed.

(** *** The service *)

Lemma tr_user f d :
  tracked d -> (forall s, sv_gate (f s) = sv_gate s) -> wlp (upd f) (fun _ => tracked) d.
Proof. intros (Hb & He & Hi) Hf. unfold wlp, upd, modify. split; [done|]. split; [|done]. cbn. by rewrite Hf. Qed.
Lemma tr_notify e lid sid d : tracked d -> agrees (d_state d) e -> wlp (notify_gate_verbose e lid sid) (fun _ => tracked) d.
Proof.
  intros (Hb & _ & Hi) Ha. unfold wlp, notify_gate_verbose, upd, modify. split; [done|]. split; [|done]. exists e. split; [apply notify_publishes|done].
Qed.
Lemma prepare_agrees s : s <> CsNone -> agrees s GePrepare.
Proof. intros Hs. right. destruct s; auto; done. Qed.
Lemma tr_cache intent d : tracked d -> wlp (cacheGateIntent intent) (fun _ => tracked) d.
Proof. intros Hd. by apply tr_user. Qed.
#[local] Hint Resolve tr_cache : track.

Lemma tr_Initialize pid d : tracked d -> wlp (Initialize pid) (fun _ => tracked) d.
Proof.
  intros Hd. unfold Initialize. apply wlp_tracked; [by apply tr_user|]. intros ? d1 Hd1.
  apply wlp_tracked; [apply tr_user; [done|]; intros s; by destruct (sv_state_event s)|]. intros ? d2 Hd2.
  apply wlp_bind. eapply wlp_mono; [by apply tr_initialize|]. intros rc d3 [Hd3 Hi3]. destruct (Z.eqb_spec rc 0) as [->|]; cbn [negb]; [|done].
  apply wlp_tracked; [|by intros]. apply tr_notify; [done|]. apply prepare_agrees. destruct Hd3 as (_ & _ & Hs). by apply Hs, Hi3.
Qed.
Lemma tr_Finalize d : tracked d -> wlp Finalize (fun _ => tracked) d.
Proof.
  intros Hd. unfold Finalize. apply wlp_tracked; [by apply tr_finalize|]. intros rc d1 Hd1. apply wlp_tracked; [by apply tr_user|]. by intros.
Qed.
Lemma tr_Scan meanwhile size flt d : tracked d -> wlp (Scan meanwhile size flt) (fun _ => tracked) d.
Proof.
  intros Hd. unfold Scan. apply wlp_tracked; [auto with track|]. intros [rc found] d1 Hd1. destruct (_ =? 0); [|done].
  apply wlp_bind. unfold wlp at 1, gets, id. destruct (gate_ids _) as [lid sid]. apply wlp_tracked; [|by intros]. apply tr_notify; [done|by left].
Qed.
#[local] Hint Resolve tr_Initialize tr_Finalize tr_Scan : track.

Context `{!MitmLaws}.
Lemma start_tracked pid (sv : service) d : Initialize pid (newLANDiscovery sv) = Ok 0 d -> tracked d.
Proof.
  unfold Initialize. unfold bind at 1, upd at 1, modify at 1. unfold bind at 1, upd at 1, modify at 1.
  set (d0 := set_user _ _). assert (Hd0 : exists sv', d0 = newLANDiscovery sv') by (unfold d0; by eexists). destruct Hd0 as [sv' ->]. unfold bind at 1.
  pose proof (initialize_run true (newLANDiscovery sv') (new_lobby sv')) as Hp. unfold post in Hp.
  destruct (initialize true (newLANDiscovery sv')) as [rc d1|]; [|done]. destruct Hp as (_ & _ & Hb & Hs); [done|done|].
  destruct (Z.eqb_spec rc 0) as [->|Hrc]; cbn [negb]; [|intros [= ->]; done]. intros [= <-]. specialize (Hs eq_refl eq_refl).
  split; [by apply Hb; right|]. split; [|cbn; by rewrite Hs]. exists GePrepare. split; [apply notify_publishes|]. cbn. rewrite Hs. by right.
Qed.
End operations.

(** ** Results *)

Inductive svc_call :=
| SInitialize (pid : Z) | SInitializeSystem2 (unk pid : Z) | SFinalize
| SOpenAccessPoint | SCloseAccessPoint | SOpenStation | SCloseStation
| SCreateNetwork (securityMode : Z) (userConfig : bytes) (nc : NetworkConfig) | SDestroyNetwork
| SConnect (sys_connect : Z * Z -> Z) (userConfig : bytes) (version : Z) (data : bytes) | SDisconnect
| SSetAdvertiseData (data : bytes) | SGetNetworkInfoLatestUpdate (size : Z)
| SScan (meanwhile : list (option (list (pollfd * revents)))) (size : Z) (flt : bytes).

Section results.
Context `{Host} `{TickClock} `{StackBytes} `{MitmSys} `{!MitmLaws}.
Implicit Types d : LANDiscovery service.

(** The calls that change the object. *)
Definition run_svc (c : svc_call) : M (LANDiscovery service) unit :=
  match c with
  | SInitialize pid => discard (Initialize pid)
  | SInitializeSystem2 unk pid => discard (InitializeSystem2 unk pid)
  | SFinalize => discard Finalize
  | SOpenAccessPoint => discard OpenAccessPoint
  | SCloseAccessPoint => discard CloseAccessPoint
  | SOpenStation => discard OpenStation
  | SCloseStation => discard CloseStation
  | SCreateNetwork securityMode userConfig nc => discard (CreateNetwork securityMode userConfig nc)
  | SDestroyNetwork => discard DestroyNetwork
  | SConnect sys_connect userConfig v data => discard (Connect sys_connect userConfig v data)
  | SDisconnect => discard Disconnect
  | SSetAdvertiseData data => discard (SetAdvertiseData data)
  | SGetNetworkInfoLatestUpdate size => discard (GetNetworkInfoLatestUpdate size)
  | SScan meanwhile size flt => discard (Scan meanwhile size flt)
  end.
Inductive svc_reachable : LANDiscovery service -> Prop :=
| svc_start pid (sv : service) d : Initialize pid (newLANDiscovery sv) = Ok 0 d -> svc_reachable d
| svc_step c d d' : svc_reachable d -> run_svc c d = Ok tt d' -> svc_reachable d'
| svc_report p r d d' : svc_reachable d -> poll_one p r d = Ok tt d' -> svc_reachable d'.

Lemma tr_discard {A} (m : M (LANDiscovery service) A) d : wlp m (fun _ => tracked) d -> wlp (discard m) (fun _ => tracked) d.
Proof. intros Hm. unfold discard. apply wlp_tracked; [done|]. by intros. Qed.
Lemma tr_run_svc c d : tracked d -> wlp (run_svc c) (fun _ => tracked) d.
Proof.
  intros Hd. destruct c; cbn [run_svc]; apply tr_discard.
  - by apply tr_Initialize.
  - apply wlp_tracked; [by apply tr_user|]. intros ? d1 Hd1. by apply tr_Initialize.
  - by apply tr_Finalize.
  - apply wlp_tracked; [exact Hd|]. intros ? d1 Hd1. by apply tr_change_mode.
  - by apply tr_change_mode.
  - apply wlp_tracked; [exact Hd|]. intros ? d1 Hd1. by apply tr_change_mode.
  - by apply tr_change_mode.
  - apply wlp_tracked; [by apply tr_cache|]. intros ? d1 Hd1. by apply tr_createNetwork.
  - by apply tr_destroyNetwork.
  - apply wlp_tracked; [by apply tr_cache|]. intros ? d1 Hd1. by apply tr_connect.
  - by apply tr_disconnect.
  - by apply tr_setAdvertiseData.
  - by apply tr_updates.
  - by apply tr_Scan.
Qed.
Lemma svc_tracked d : svc_reachable d -> tracked d.
Proof.
  induction 1 as [pid sv d Hr|c d d' _ IH Hr|p r d d' _ IH Hr]; [by eapply start_tracked|..].
  - exact (wlp_ok _ _ _ _ _ (tr_run_svc c d IH) Hr).
  - exact (wlp_ok _ _ _ _ _ (tr_poll_one p r d IH) Hr).
Qed.

(** What is published follows the game.  After a successful [Initialize], whatever calls
    the game makes and whatever the worker's sockets report, the record that the console's
    client polls is valid and its event agrees with the state of the lobby: a game that
    hosts has published that it hosts, one that has joined that it has joined, one that left
    that it left, except that a scan or another [Initialize] since then published its own. *)
Lemma tracked_event d : svc_reachable d -> exists e, publishes e (sv_gate (d_user d)) /\ agrees (d_state d) e.
Proof. by intros (_ & He & _)%svc_tracked. Qed.

(** C17: The record published for the relay follows the game.  After a successful
    [Initialize], whatever calls the game makes and whatever the worker's sockets report, the
    record [GetState] answers with is valid, and it holds one of the events that agree with the
    state of the lobby.  While a lobby is open for hosting or joining, hosts, or has joined,
    the record asks for the relay: the event is that of the state, or a scan's or another
    [Initialize]'s since then ([agrees]).  Once the game has left, the event says so and the
    relay is not asked for, unless a scan was made since.  In the state [Initialized] any event
    may stand.  This is about the record: nothing in the program registers the service that
    would hand it out, so no client reads it. *)
Theorem record_follows_game d :
  svc_reachable d ->
  let st := gv_state (sv_gate (d_user d)) in
  ProcessRequest RqRequest (Some GateCmdGetState) (sv_gate (d_user d)) = (RsState st, false) /\
  gs_magic st = GateMagic /\ gs_version st = GateVersion /\
  (exists e, gs_event_type st = event_code e /\ gs_active st = (if event_active e then 1 else 0) /\ agrees (d_state d) e) /\
  match d_state d with
  | AccessPoint | AccessPointCreated | Station | StationConnected => gs_active st = 1
  | CsNone => gs_event_type st = event_code GeFinalize /\ gs_active st = 0 \/ gs_event_type st = event_code GeScan
  | Initialized | CsError => True
  end.
Proof.
  intros (e & (Hm & Hv & He & Ha) & Hg)%tracked_event st. split_and!; [done..|by exists e|]. subst st.
  rewrite He, Ha. unfold agrees in Hg. destruct (d_state d); naive_solver.
Qed.

(** Every change of state is published: the record holds the event of the transition and
    whether it asks for the relay, together with the game's process; when a network is
    created or joined it also holds the communication and the scene of that network. *)
Theorem state_change_published v v' d :
  gate_event_for_state_transition v v' <> GeNone ->
  exists d', onLanStateChanged v v' d = Ok tt d' /\
    let st := gv_state (sv_gate (d_user d')) in
    gs_event_type st = event_code (gate_event_for_state_transition v v') /\
    gs_active st = (if event_active (gate_event_for_state_transition v v') then 1 else 0) /\
    gs_process_id st = sv_process_id (d_user d) /\
    (v' = d_state d -> v' = AccessPointCreated \/ v' = StationConnected ->
      gs_local_communication_id st = load (take 8 (take 16 (d_networkInfo d))) /\
      gs_scene_id st = load (take 2 (drop 10 (take 16 (d_networkInfo d))))).
Proof.
  intros Hn. unfold onLanStateChanged. rewrite decide_False by done.
  assert (Hc : exists s, (if decide (gate_event_for_state_transition v v' = GeHost \/ gate_event_for_state_transition v v' = GeConnect)
      then let* (_, info) := getNetworkInfo in match info with Some info => cacheGateIntent (take 16 info) | None => ret tt end else ret tt) d
      = Ok tt (set_user s d) /\ sv_process_id s = sv_process_id (d_user d) /\
      (v' = d_state d -> v' = AccessPointCreated \/ v' = StationConnected ->
        gate_ids s = (load (take 8 (take 16 (d_networkInfo d))), load (take 2 (drop 10 (take 16 (d_networkInfo d))))))).
  { destruct (decide _) as [He|He].
    - unfold getNetworkInfo, bind, gets, id. destruct (d_state d) eqn:Es.
      all: try (exists (d_user d); split; [by destruct d|]; split; [done|]; intros -> [[=]|[=]]).
      all: eexists; (split; [reflexivity|]); done.
    - exists (d_user d). split; [by destruct d|]. split; [done|]. intros _ Hv. exfalso. apply He. destruct Hv as [-> | ->]; auto. }
  destruct Hc as (s & Er & Hpid & Hids). unfold bind at 1. rewrite Er. unfold bind at 1, gets at 1, id. cbn [d_user set_user].
  destruct (gate_ids s) as [lid sid]. unfold bind at 1, notify_gate_verbose, upd at 1, modify at 1. cbn [d_user set_user].
  destruct (decide (_ = GeFinalize)); eexists; (split; [reflexivity|]); cbn; unfold NotifyLanPlayGate; cbn; destruct (gv_event_w (sv_gate s)); cbn.
  all: do 2 (split; [done|]); (split; [exact Hpid|]); intros Hv Hs; by injection (Hids Hv Hs) as [= -> ->].
Qed.

(** *** The other end *)

Section relay.
Context `{GateSys}.

(** A poll of the gate, and what its two questions are answered then. *)
Definition poll_and_check : M gate (bool * bool) :=
  ldn_gate_poll ;;;
  let* active := ldn_gate_is_active in
  let* start := ldn_gate_is_active_for_start in
  ret (active, start).

(** The gate's client is connected, the service answers the poll with its record, and the
    clock advances by less than the time-out during it. *)
Record polling (gv : GateServer) (g : gate) : Prop := {
  pl_connected : ga_connected g = true;
  pl_answer st : ProcessRequest RqRequest (Some GateCmdGetState) gv = (RsState st, false) -> gate_get_state (ga_ticks g) = (0, st);
  pl_clock : clock_ok;
  pl_short : forall k, gate_tick (S (S k)) - gate_tick k <= seconds 120;
}.

Lemma recent_true g :
  clock_ok -> (forall k, gate_tick (S (S k)) - gate_tick k <= seconds 120) ->
  (exists k, ga_last_active g = gate_tick k /\ (ga_ticks g = S k \/ ga_ticks g = S (S k))) ->
  exists g', recent_activity g = Ok true g' /\ ga_ticks g' = S (ga_ticks g) /\ ga_last_active g' = ga_last_active g /\ ga_state g' = ga_state g.
Proof.
  intros Hc Hs (k & Hl & Hk). unfold recent_activity, bind, gets. pose proof (Hc k) as [[Hp _] Hu]. rewrite Hl, (proj2 (Z.eqb_neq _ _)) by lia.
  unfold gate_now_tick, gate_ask, ret.
  assert (Hd : 0 <= gate_tick (ga_ticks g) - gate_tick k <= seconds 120).
  { pose proof (Hc k) as [[_ Hc1] _]. pose proof (Hc (S k)) as [[_ Hc2] _]. pose proof (Hs k). destruct Hk as [-> | ->]; lia. }
  unfold seconds in Hd. rewrite u64_small by (unfold LANP_GATE_TICKS_PER_SECOND in Hd; lia). rewrite (proj2 (Z.ltb_ge _ _)) by (unfold LANP_GATE_TIMEOUT_SECONDS; lia).
  eexists. split; [reflexivity|]. done.
Qed.

Lemma checks_total g : exists a b g', (let* active := ldn_gate_is_active in let* start := ldn_gate_is_active_for_start in ret (active, start)) g = Ok (a, b) g'.
Proof.
  unfold ldn_gate_is_active, ldn_gate_is_active_for_start, recent_activity, ldn_gate_get_state, gate_now_tick, gate_ask, bind, gets, ret.
  repeat case_match; simplify_eq; eauto.
Qed.
Lemma poll_check_run e gv g :
  publishes e gv -> polling gv g ->
  exists g' a b, poll_and_check g = Ok (a, b) g' /\ (event_active e = true -> a = true /\ b = true) /\ (e = GeFinalize -> b = false).
Proof.
  intros (Hm & Hv & He & _) [Hcon Hans Hck Hsh]. specialize (Hans (gv_state gv) eq_refl). unfold poll_and_check, ldn_gate_poll.
  assert (Hpoll : exists g1, ldn_gate_poll g = Ok tt g1 /\ ga_state g1 = gv_state gv /\
    (event_active e = true -> exists k, ga_last_active g1 = gate_tick k /\ ga_ticks g1 = S k)).
  { unfold ldn_gate_poll, bind at 1, gets at 1. rewrite Hcon. cbn [negb]. unfold bind at 1, ret at 1. cbn [negb]. unfold bind at 1, gate_ask at 1. rewrite Hans.
    cbn [negb Z.eqb]. rewrite Hm, Hv. cbn [andb Z.eqb]. change (GateMagic =? LANP_GATE_MAGIC) with true. change (GateVersion =? LANP_GATE_VERSION) with true.
    cbn [andb]. unfold gate_update, bind, gate_now_tick, gate_ask, modify, gets, ret. rewrite He.
    destruct e; cbn; try (eexists; split; [reflexivity|]; split; [done|]; intros _; exists (S (ga_ticks g)); done); try (by eexists).
    destruct (negb _); by eexists. }
  destruct Hpoll as (g1 & E1 & Hst & Hact). fold ldn_gate_poll. unfold bind at 1. rewrite E1. destruct (event_active e) eqn:Ea.
  - destruct (Hact eq_refl) as (k & Hl & Ht).
    assert (Hact' : exists g2, ldn_gate_is_active g1 = Ok true g2 /\ ga_state g2 = gv_state gv /\ ga_last_active g2 = gate_tick k /\
      (ga_ticks g2 = S k \/ ga_ticks g2 = S (S k))).
    { unfold ldn_gate_is_active, bind at 1, ldn_gate_get_state, gets at 1. rewrite Hst, Hm, Hv, He.
      change (GateMagic =? LANP_GATE_MAGIC) with true. change (GateVersion =? LANP_GATE_VERSION) with true. cbn [negb orb].
      destruct (recent_true g1 Hck Hsh) as (g2 & Er & Ht2 & Hl2 & Hs2); [exists k; auto|].
      assert (Hg2 : ga_state g2 = gv_state gv /\ ga_last_active g2 = gate_tick k /\ (ga_ticks g2 = S k \/ ga_ticks g2 = S (S k))).
      { rewrite Hs2, Hl2, Ht2, Ht. auto. }
      destruct e; try done; [exists g2; by split|exists g1; by auto|exists g1; by auto|exists g2; by split]. }
    destruct Hact' as (g2 & E2 & Hs2 & Hl2 & Ht2). unfold bind at 1. rewrite E2.
    destruct (recent_true g2 Hck Hsh) as (g3 & E3 & _); [exists k; auto|].
    assert (E4 : ldn_gate_is_active_for_start g2 = Ok true g3).
    { unfold ldn_gate_is_active_for_start, bind at 1, ldn_gate_get_state, gets at 1. rewrite Hs2, Hm, Hv, He.
      change (GateMagic =? LANP_GATE_MAGIC) with true. change (GateVersion =? LANP_GATE_VERSION) with true. by destruct e. }
    unfold bind at 1. rewrite E4. exists g3, true, true. split; [done|]. split; [done|]. by intros ->.
  - destruct (checks_total g1) as (a & b & g2 & E2). exists g2, a, b. split; [exact E2|]. split; [done|]. intros ->.
    revert E2. unfold ldn_gate_is_active, ldn_gate_is_active_for_start, ldn_gate_get_state, bind, gets, ret. rewrite Hst, Hm, Hv, He.
    change (GateMagic =? LANP_GATE_MAGIC) with true. change (GateVersion =? LANP_GATE_VERSION) with true. cbn.
    unfold gate_now_tick, gate_ask. destruct (negb _); cbn; rewrite Hst, Hm, Hv, He; cbn; by intros [= <- <- <-].
Qed.

(** What a client would do with it.  Were the service registered and the console's client
    connected to it, a poll would find the relay wanted, both to go on and to be started, while
    the lobby is open for hosting or joining, hosts, or has joined; and that it must not be
    started when the game has left and did not scan since.  The clock is taken to advance by
    at most the time-out within the poll. *)
Theorem relay_follows_game d g :
  svc_reachable d -> polling (sv_gate (d_user d)) g ->
  exists g' active start, poll_and_check g = Ok (active, start) g' /\
    match d_state d with
    | AccessPoint | AccessPointCreated | Station | StationConnected => active = true /\ start = true
    | CsNone => gs_event_type (gv_state (sv_gate (d_user d))) <> LANP_GATE_EVENT_SCAN -> start = false
    | _ => True
    end.
Proof.
  intros (e & Hp & Ha)%tracked_event Hg. destruct (poll_check_run e _ g Hp Hg) as (g' & a & b & Er & Hact & Hfin). exists g', a, b. split; [done|].
  destruct (d_state d); unfold agrees in Ha; cbn in Ha; try done; try (apply Hact; naive_solver).
  intros Hns. apply Hfin. destruct Ha as [->|]; [|done]. exfalso. apply Hns. by destruct Hp as (_ & _ & -> & _).
Qed.
End relay.
End results.

(** ** The thread that serves the gate *)

#[export] Instance response_eq_dec : EqDecision response.
Proof. assert (EqDecision lanp_gate_state_t) by solve_decision. assert (EqDecision LibnxError) by solve_decision. solve_decision. Defined.
#[export] Instance srv_event_eq_dec : EqDecision srv_event.
Proof. solve_decision. Defined.

Definition accepts (h : Z) (out : list srv_event) : nat := length (filter (fun e => e = SvAccept h) out).
Definition closes (h : Z) (out : list srv_event) : nat := length (filter (fun e => e = SvClose h) out).
Lemma accepts_app h l k : accepts h (l ++ k) = (accepts h l + accepts h k)%nat.
Proof. unfold accepts. by rewrite filter_app, length_app. Qed.
Lemma closes_app h l k : closes h (l ++ k) = (closes h l + closes h k)%nat.
Proof. unfold closes. by rewrite filter_app, length_app. Qed.

(** Sessions that are open after what was done so far. *)
Definition balanced (out : list srv_event) (session : option Z) : Prop :=
  forall h, accepts h out = (closes h out + if decide (session = Some h) then 1 else 0)%nat.
(** Every reply goes to a session that is open. *)
Definition replies_ok (out : list srv_event) : Prop :=
  forall pre h r post, out = pre ++ SvReply h r :: post -> (closes h pre < accepts h pre)%nat.
Record srv_ok (s : srv) : Prop := {
  so_balanced : balanced (sr_out s) (sr_session s);
  so_replies : replies_ok (sr_out s);
  so_target h r : sr_reply s = Some (h, r) -> sr_session s = Some h;
}.

Lemma replies_snoc out e :
  replies_ok out -> match e with SvReply h _ => (closes h out < accepts h out)%nat | _ => True end -> replies_ok (out ++ [e]).
Proof.
  intros Ho He pre h r post Heq. destruct post as [|x post _] using rev_ind.
  - apply app_inj_tail in Heq as [<- ->]. done.
  - rewrite app_comm_cons, app_assoc in Heq. apply app_inj_tail in Heq as [-> _]. by eapply Ho.
Qed.
Lemma count_accept h k : accepts h [SvAccept k] = (if decide (k = h) then 1%nat else 0%nat) /\ closes h [SvAccept k] = 0%nat.
Proof. unfold accepts, closes. rewrite !filter_cons, filter_nil. destruct (decide (k = h)) as [->|]; [by rewrite decide_True|by rewrite decide_False by congruence]. Qed.
Lemma count_close h k : closes h [SvClose k] = (if decide (k = h) then 1%nat else 0%nat) /\ accepts h [SvClose k] = 0%nat.
Proof. unfold accepts, closes. rewrite !filter_cons, filter_nil. destruct (decide (k = h)) as [->|]; [by rewrite decide_True|by rewrite decide_False by congruence]. Qed.
Lemma decide_Some (h k : Z) : (if decide (Some h = Some k) then 1%nat else 0%nat) = (if decide (h = k) then 1%nat else 0%nat).
Proof. destruct (decide (h = k)) as [->|]; [by rewrite decide_True|by rewrite decide_False by congruence]. Qed.
Lemma balanced_accept out h : balanced out None -> balanced (out ++ [SvAccept h]) (Some h).
Proof. intros Hb k. specialize (Hb k). destruct (count_accept k h) as [Ha Hc]. rewrite accepts_app, closes_app, Ha, Hc, Hb, decide_Some, decide_False by done. lia. Qed.
Lemma balanced_close out h : balanced out (Some h) -> balanced (out ++ [SvClose h]) None.
Proof. intros Hb k. specialize (Hb k). destruct (count_close k h) as [Ha Hc]. rewrite accepts_app, closes_app, Ha, Hc, Hb, decide_Some, (decide_False (P := None = _)) by done. lia. Qed.
Lemma balanced_refuse out h s : balanced out s -> balanced (out ++ [SvAccept h; SvClose h]) s.
Proof.
  intros Hb k. specialize (Hb k). destruct (count_close k h) as [Hc1 Hc2]. destruct (count_accept k h) as [Ha1 Ha2].
  change [SvAccept h; SvClose h] with ([SvAccept h] ++ [SvClose h]). rewrite !accepts_app, !closes_app, Ha1, Ha2, Hc1, Hc2, Hb. lia.
Qed.
Lemma balanced_reply out h r s : balanced out s -> balanced (out ++ [SvReply h r]) s.
Proof.
  intros Hb k. assert (accepts k [SvReply h r] = 0%nat /\ closes k [SvReply h r] = 0%nat) as [Ha Hc] by (unfold accepts, closes; by rewrite !filter_cons_False).
  rewrite accepts_app, closes_app, (Hb k), Ha, Hc. lia.
Qed.

Lemma srv_turn_ok r g s : srv_ok s -> srv_ok (srv_turn r g s).
Proof.
  intros [Hb Hr Ht]. unfold srv_turn.
  set (out := sr_out s ++ _).
  assert (Hbo : balanced out (sr_session s) /\ replies_ok out).
  { unfold out. destruct (sr_reply s) as [[h rs]|] eqn:Er; [|by rewrite app_nil_r]. split; [by apply balanced_reply|]. apply replies_snoc; [done|].
    pose proof (Hb h) as Hh. rewrite (Ht h rs eq_refl), decide_True in Hh by done. lia. }
  clearbody out. clear Hb Hr. destruct Hbo as [Hb Hr].
  assert (Hmid : exists session out' close', (match sr_reply s with
      | Some (h, _) => if sr_close_after s then (if decide (sr_session s = Some h) then None else sr_session s, out ++ [SvClose h], false)
                       else (sr_session s, out, sr_close_after s)
      | None => (sr_session s, out, sr_close_after s) end) = (session, out', close') /\ balanced out' session /\ replies_ok out').
  { destruct (sr_reply s) as [[h rs]|] eqn:Er; [|by eexists _, _, _]. destruct (sr_close_after s); [|by eexists _, _, _].
    rewrite (Ht h rs eq_refl) in *. rewrite decide_True by done. eexists _, _, _. split; [reflexivity|]. split; [by apply balanced_close|by apply replies_snoc]. }
  destruct Hmid as (session & out' & close' & -> & Hb' & Hr'). clear Hb Hr Ht.
  destruct r as [|[h|]|type cmd|], session as [k|]; cbn; try (by constructor).
  - constructor; cbn; [by apply balanced_refuse| |done]. change [SvAccept h; SvClose h] with ([SvAccept h] ++ [SvClose h]). rewrite app_assoc.
    by do 2 (apply replies_snoc; [|done]).
  - constructor; cbn; [by apply balanced_accept|by apply replies_snoc|done].
  - destruct (ProcessRequest type cmd g) as [rs cl]. constructor; cbn; [done|done|]. by intros ? ? [= -> ->].
Qed.
Lemma srv_turns_ok l s : srv_ok s -> srv_ok (srv_turns l s).
Proof. revert s. induction l as [|[r g] l IH]; intros s Hs; [done|]. by apply IH, srv_turn_ok. Qed.
Lemma srv_start_ok : srv_ok srv_start.
Proof. constructor; cbn; [by intros h|by intros [|? ?] ? ? ? [=]|done]. Qed.

(** Sessions of the gate.  Whatever the thread that serves it receives, when the thread
    ends it has closed every session it accepted exactly once, and every reply it sent went
    to a session that was open then. *)
Theorem gate_sessions_closed l :
  (forall h, accepts h (SrvThreadFn l) = closes h (SrvThreadFn l)) /\ replies_ok (SrvThreadFn l).
Proof.
  pose proof (srv_turns_ok l srv_start srv_start_ok) as [Hb Hr _]. unfold SrvThreadFn, srv_exit.
  destruct (sr_session (srv_turns l srv_start)) as [k|].
  - split; [|by apply replies_snoc]. intros h. rewrite (balanced_close _ _ Hb h), decide_False by done. lia.
  - rewrite app_nil_r. split; [|done]. intros h. rewrite (Hb h), decide_False by done. lia.
Qed.

(** A session that breaks without a close request is never given up: whatever the number of
    failed turns, the next client is turned away. *)
Lemma broken_session_blocks n k h g out :
  srv_turns (replicate n (RcFail, g) ++ [(RcPort (Some h), g)])
    {| sr_session := Some k; sr_reply := None; sr_close_after := false; sr_out := out |} =
    {| sr_session := Some k; sr_reply := None; sr_close_after := false; sr_out := out ++ [SvAccept h; SvClose h] |}.
Proof.
  induction n as [|n IH]; cbn [replicate app srv_turns].
  - unfold srv_turn. cbn. by rewrite app_nil_r.
  - rewrite <- IH. f_equal. unfold srv_turn. cbn. by rewrite app_nil_r.
Qed.

(** ** Concrete runs *)

Import LanDiscovery.Demo.
#[local] Instance demo_clock_ticks : TickClock := fun n => Z.of_nat n + 1.
Definition demo_gate_server : GateServer :=
  {| gv_state := demo_gate_state 0; gv_event_w := None; gv_event_r := None; gv_port := None; gv_registered := false;
     gv_running := false; gv_thread_valid := false; gv_signals := 0; gv_closed := [] |}.
Definition demo_service : service :=
  {| sv_state_event := None; sv_error_state := 0; sv_process_id := 0; sv_title_id := 0; sv_intent_id := replicate 16 0;
     sv_intent_valid := false; sv_gate := demo_gate_server; sv_clock := 0 |}.
Definition svc_started : LANDiscovery service := after (Initialize 80) (newLANDiscovery demo_service).
Definition svc_open : LANDiscovery service := after (run_svc SOpenAccessPoint) svc_started.
Definition svc_hosting : LANDiscovery service := after (run_svc (SCreateNetwork 1 user network)) svc_open.
Definition svc_left : LANDiscovery service := after (run_svc SFinalize) svc_hosting.

Lemma svc_started_reachable : svc_reachable svc_started.
Proof. apply (svc_start 80 demo_service). vm_compute. reflexivity. Qed.
Lemma svc_hosting_reachable : svc_reachable svc_hosting.
Proof.
  apply (svc_step (SCreateNetwork 1 user network) svc_open); [|vm_compute; reflexivity].
  apply (svc_step SOpenAccessPoint svc_started); [exact svc_started_reachable|vm_compute; reflexivity].
Qed.

Definition state_change_published_at (v v' : CommState) (d : LANDiscovery service) : Prop :=
  exists d', onLanStateChanged v v' d = Ok tt d' /\
    let st := gv_state (sv_gate (d_user d')) in
    gs_event_type st = event_code (gate_event_for_state_transition v v') /\
    gs_active st = (if event_active (gate_event_for_state_transition v v') then 1 else 0) /\
    gs_process_id st = sv_process_id (d_user d) /\
    (v' = d_state d -> v' = AccessPointCreated \/ v' = StationConnected ->
      gs_local_communication_id st = load (take 8 (take 16 (d_networkInfo d))) /\
      gs_scene_id st = load (take 2 (drop 10 (take 16 (d_networkInfo d))))).
Lemma state_change_published_witness : state_change_published_at AccessPoint AccessPointCreated svc_hosting.
Proof. exact (state_change_published AccessPoint AccessPointCreated svc_hosting ltac:(discriminate)). Defined.

Lemma record_follows_game_witness :
  d_state svc_hosting = AccessPointCreated /\ gs_active (gv_state (sv_gate (d_user svc_hosting))) = 1.
Proof.
  assert (Hs : d_state svc_hosting = AccessPointCreated) by (vm_compute; reflexivity). split; [exact Hs|].
  destruct (record_follows_game svc_hosting svc_hosting_reachable) as (_ & _ & _ & _ & Ha).
  rewrite Hs in Ha. exact Ha.
Defined.

(** The console's client, connected to the service of [svc_hosting]. *)
Definition demo_relay_sys : GateSys :=
  {| gate_tick := fun n => Z.min (Z.of_nat n * 19200000 + 1) (2 ^ 63); sm_initialize := fun _ => 0; sm_get_service := fun _ => 0;
     gate_get_event := fun _ => (0, Some 2); gate_get_state := fun _ => (0, gv_state (sv_gate (d_user svc_hosting)));
     gate_wait := fun _ => 0 |}.
Definition demo_relay_gate : gate :=
  {| ga_state := demo_gate_state 0; ga_connected := true; ga_handle := None; ga_last_active := 0; ga_finalize := 0; ga_ticks := 0;
     ga_out := [GtOpen] |}.
Lemma state_answer gv st : ProcessRequest RqRequest (Some GateCmdGetState) gv = (RsState st, false) -> gv_state gv = st.
Proof. by intros [= ->]. Qed.
Lemma relay_follows_game_witness :
  exists g' active start, @poll_and_check demo_relay_sys demo_relay_gate = Ok (active, start) g' /\ active = true /\ start = true.
Proof.
  apply (relay_follows_game (H4 := demo_relay_sys) svc_hosting demo_relay_gate svc_hosting_reachable).
  constructor.
  - reflexivity.
  - intros st Hst. rewrite <- (state_answer _ _ Hst). reflexivity.
  - intros k. cbn [gate_tick demo_relay_sys]. lia.
  - intros k. unfold seconds, LANP_GATE_TICKS_PER_SECOND. cbn [gate_tick demo_relay_sys]. lia.
Defined.

(** A second [Initialize], or a scan, hides that the game hosts. *)
Example initialize_again_hides_host :
  gs_event_type (gv_state (sv_gate (d_user (after (run_svc (SInitialize 80)) svc_hosting)))) = LANP_GATE_EVENT_PREPARE /\
  d_state (after (run_svc (SInitialize 80)) svc_hosting) = AccessPointCreated.
Proof. vm_compute. done. Qed.
Example scan_hides_host :
  gs_event_type (gv_state (sv_gate (d_user (after (run_svc (SScan [] 1 (replicate 96 0))) svc_hosting)))) = LANP_GATE_EVENT_SCAN /\
  d_state (after (run_svc (SScan [] 1 (replicate 96 0))) svc_hosting) = AccessPointCreated.
Proof. vm_compute. done. Qed.
(** The event to wait on is gone after [Finalize]. *)
Example attach_after_finalize : AttachStateChangeEvent svc_left = Stop NullDeref.
Proof. vm_compute. reflexivity. Qed.
