(* ===== verification/LdnPlay.v ===== *)
(** Local play through the relay: a lobby that [LanDiscovery] announces, on its way through
    the bridge of [LdnBridge] to the console that joins.

    The bridge replaces the wireless address of the host in outgoing packets by the address
    the host has in the relayed network, and the station dials an address of that network
    through its own bridge ([host_address]).  The bridge leaves compressed packets as they
    are, and [ldn_mitm] compresses every packet that does not get longer by it.

    Shown here: which address the joining console dials, depending on whether the announced
    information could be compressed. *)

From stdpp Require Import list.
From S2P Require Import Prelude Byteorder LdnBridge LanProtocol LanDiscovery.

Section announce.
Context `{Host} `{StackBytes}.

Lemma header_lookup hd body :
  let p := header_bytes hd ++ body in
  mem_get p 0 4 = Some (store 4 (lh_magic hd)) /\ p !! 4%nat = Some (lh_type hd) /\ p !! 5%nat = Some (lh_compressed hd).
Proof.
  cbv zeta. unfold header_bytes. rewrite <- !app_assoc. split; [|split].
  - eapply (mem_get_slice []); [reflexivity|done|]. unfold zlen. by rewrite length_store.
  - rewrite lookup_app_r; rewrite length_store; [done|lia].
  - rewrite lookup_app_r; rewrite length_store; [done|lia].
Qed.
Lemma header_fields hd body :
  header_ok hd ->
  let p := header_bytes hd ++ body in
  hdr_magic p = Some LDN_MAGIC /\ hdr_type p = Some (lh_type hd) /\ hdr_compressed p = Some (lh_compressed hd).
Proof.
  intros Hk p. destruct (header_lookup hd body) as (Hm & Ht & Hc). fold p in Hm, Ht, Hc. split; [|split].
  - unfold hdr_magic. rewrite Hm. cbn [mbind option_bind]. rewrite load_store, (hk_magic _ Hk). done.
  - exact (field_byte p 4 _ Ht).
  - exact (field_byte p 5 _ Hc).
Qed.

(** A packet whose body is not compressed, read by a socket with nothing waiting. *)
Lemma recv_raw_run type body p s :
  is_u8 type -> is_bytes p -> zlen body <= BufferSize - HeaderSize -> p = header_bytes (lan_header type 0 (zlen body) 0) ++ body ->
  socket_ok s -> held s = [] ->
  exists s', recv_message (zlen p) p s = Ok (inr (type, body)) s' /\ socket_ok s' /\ held s' = [].
Proof.
  intros Ht Hp Hl Ep Hs Hh. set (hd := lan_header type 0 (zlen body) 0) in *. pose proof (zlen_nonneg body).
  assert (Hk : header_ok hd) by (constructor; cbn; [done|done|done|unfold is_u16, BufferSize, HeaderSize in *; lia|done]).
  assert (Hz : zlen p = 12 + zlen body) by (rewrite Ep, zlen_app, zlen_header_bytes; done).
  assert (Hr : read_step (held s ++ p) = (inr (type, body), [])).
  { rewrite Hh. cbn [app]. unfold read_step, HeaderSize, BufferSize in *. rewrite (proj2 (Z.ltb_ge _ _)) by lia.
    assert (Erh : read_header p = Some hd) by (rewrite Ep; by apply read_header_bytes). rewrite Erh. cbn [lh_magic lh_length lan_header hd]. rewrite Z.eqb_refl. cbn [negb orb].
    rewrite (proj2 (Z.ltb_ge _ _)), (proj2 (Z.ltb_ge _ _)) by lia.
    assert (length (header_bytes hd) = 12%nat) by (pose proof (zlen_header_bytes hd) as Hzh; unfold zlen, HeaderSize in Hzh; lia).
    rewrite Ep. rewrite drop_app_length' by done. rewrite to_nat_zlen, firstn_all. f_equal. apply drop_ge. rewrite <- Ep. unfold zlen in *. lia. }
  pose proof (zlen_held s Hs) as Hz0. rewrite Hh, zlen_nil in Hz0. unfold BufferSize, HeaderSize in *.
  destruct (recv_message_run s p) as (s' & Er & Hs' & Hh' & _); [done|done|lia|unfold BufferSize; lia|]. rewrite Hr in Er, Hh'. by exists s'.
Qed.

Lemma rewrite_compressed wifi my_ip hd body :
  header_ok hd -> is_bytes (header_bytes hd ++ body) -> lh_compressed hd <> 0 ->
  ldn_bridge_rewrite_ips wifi my_ip (header_bytes hd ++ body) (zlen (header_bytes hd ++ body)) true = Some (header_bytes hd ++ body).
Proof.
  intros Hk Hb Hc. rewrite rewrite_run by done. destruct (header_fields hd body Hk) as (_ & _ & Ec). unfold address_fields. rewrite decide_False; [done|].
  rewrite Ec. intros (_ & _ & [=]). done.
Qed.

(** The information in an uncompressed announcement after the bridge. *)
Lemma rewrite_raw wifi my_ip info :
  network_info info -> (exists n, info !! 103%nat = Some n /\ 1 <= n) -> field info (ni_nodes 0) 4 = Some wifi -> wifi <> 0 ->
  let hd := lan_header LANPacketType.ScanResp 0 (zlen info) 0 in
  let p := header_bytes hd ++ info in
  exists info', ldn_bridge_rewrite_ips wifi my_ip p (zlen p) true = Some (header_bytes hd ++ info') /\
    is_bytes (header_bytes hd ++ info') /\ zlen info' = zlen info /\ field info' (ni_nodes 0) 4 = Some (load (virtual_field my_ip)).
Proof.
  intros [Hb Hz] (n & Hn & Hn1) Hw Hw0 hd p. unfold sizeof_NetworkInfo in Hz.
  assert (Hk : header_ok hd) by (constructor; cbn; rewrite ?Hz; done).
  assert (Hh : length (header_bytes hd) = 12%nat) by (pose proof (zlen_header_bytes hd) as Hzh; unfold zlen, HeaderSize in Hzh; lia).
  assert (Hpb : is_bytes p).
  { apply Forall_app; split; [|done]. unfold header_bytes. repeat (apply Forall_app; split); try apply store_is_bytes; repeat constructor; done. }
  assert (Hpz : zlen p = 1164) by (unfold p; rewrite zlen_app, zlen_header_bytes, Hz; done).
  rewrite rewrite_run by done. destruct (address_fields_apart p (zlen p)) as [Hpos Hsort].
  destruct (patches_spec wifi my_ip _ p Hpos Hsort) as (Hz' & Hin & Hout). set (p' := foldl _ _ _) in *.
  assert (Haf : address_fields p (zlen p) = node_offsets n 1164 ).
  { destruct (header_fields hd info Hk) as (Em & Et & Ec). fold p in Em, Et, Ec. unfold address_fields. rewrite Hpz, decide_True by done.
    rewrite Et. cbn [default]. rewrite decide_True by (by left). rewrite decide_True by lia.
    assert (E115 : p !! 115%nat = Some n) by (unfold p; rewrite lookup_app_r, Hh by lia; exact Hn).
    by rewrite (field_byte p 115 n E115 : READ_NET8 p 115 = Some n). }
  assert (Hge : forall o, o ∈ address_fields p (zlen p) -> 116 <= o).
  { rewrite Haf. intros o Ho. apply list_elem_of_filter in Ho as [_ (k & -> & Hk')%list_elem_of_fmap]. apply elem_of_seqZ in Hk'. unfold node_offset. lia. }
  assert (H116 : 116 ∈ address_fields p (zlen p)).
  { rewrite Haf. apply list_elem_of_filter. split; [done|]. apply list_elem_of_fmap. exists 0. split; [done|]. apply elem_of_seqZ. lia. }
  assert (Epre : take 12 p' = header_bytes hd).
  { apply list_eq. intros i. destruct (decide (i < 12)%nat).
    - rewrite lookup_take_lt by done. rewrite Hout by (intros o Ho%Hge; lia). unfold p. by rewrite lookup_app_l by lia.
    - rewrite lookup_take_ge by lia. symmetry. apply lookup_ge_None. lia. }
  exists (drop 12 p'). rewrite <- Epre, take_drop. split; [done|]. split; [by apply patches_is_bytes|]. split.
  { unfold zlen in *. rewrite length_drop. lia. }
  destruct (mem_get p 116 4) as [ip|] eqn:Eip; [|rewrite mem_get_Some in Eip by lia; done]. specialize (Hin 116 ip H116 Eip).
  assert (Hip : load ip = wifi).
  { revert Hw. unfold field, ni_nodes, sizeof_NodeInfo. rewrite mem_get_Some in Eip |- * by lia. cbn [mbind option_bind]. injection Eip as <-. intros [= <-].
    do 2 f_equal. unfold p. change (Z.to_nat 116) with (12 + 104)%nat. rewrite <- drop_drop, drop_app_length' by done. done. }
  unfold field, ni_nodes, sizeof_NodeInfo. rewrite mem_get_Some in Hin by lia. unfold new_field in Hin. rewrite Hip, Z.eqb_refl in Hin.
  rewrite (proj2 (Z.eqb_neq _ _)) in Hin by done. cbn [andb negb] in Hin. injection Hin as Hin.
  rewrite mem_get_Some by (unfold zlen in *; rewrite ?length_drop; lia). cbn [mbind option_bind]. rewrite <- Hin. do 2 f_equal.
  by rewrite drop_drop.
Qed.

(** The relayed network. *)
Definition via_relay (ip : Z) : Prop := Z.land ip 0xFFFF0000 = 0x0A0D0000.
Lemma dial_relayed ip port : via_relay ip -> host_address ip port = bridge_addr.
Proof. unfold via_relay, host_address. by intros ->. Qed.
Lemma dial_direct ip port : ~ via_relay ip -> host_address ip port = (ip, port).
Proof. unfold via_relay, host_address. intros Hr. by rewrite (proj2 (Z.eqb_neq _ _)). Qed.

(** C18: The address a guest dials for a host that is reached through the relay.  The host
    answers a scan with its information, the bridge on its console passes the packet on, and
    the guest reads it.  If the information cannot be compressed, the guest gets the host's
    address in the relayed network and dials its own bridge.  If it can, as that of a fresh
    lobby can, the bridge changes nothing: the guest gets the host's wireless address and
    dials that. *)
Theorem relayed_host_address wifi my_ip info s :
  network_info info -> (exists n, info !! 103%nat = Some n /\ 1 <= n) -> field info (ni_nodes 0) 4 = Some wifi ->
  wifi <> 0 -> ~ via_relay wifi -> via_relay (load (virtual_field my_ip)) -> socket_ok s -> held s = [] ->
  exists p p' info' ip s', sendPacket LANPacketType.ScanResp (Some info) = Some p /\
    ldn_bridge_rewrite_ips wifi my_ip p (zlen p) true = Some p' /\
    recv_message (udp_recvfrom (zlen p')) p' s = Ok (inr (LANPacketType.ScanResp, info')) s' /\
    field info' (ni_nodes 0 + node_ipv4Address) 4 = Some ip /\
    host_address ip DefaultPort =
      match compress info sizeof_NetworkInfo with Some _ => (wifi, DefaultPort) | None => bridge_addr end.
Proof.
  intros Hi Hn Hw Hw0 Hnr Hr Hs Hh. pose proof Hi as [Hb Hz].
  assert (Hm : message_ok (LANPacketType.ScanResp, info)) by (split; [done|]; split; [done|]; cbn [snd]; rewrite Hz; done).
  pose proof (sendPacket_run _ _ Hm) as Hp. pose proof (packet_parts_ok _ _ Hm) as Hpp. pose proof (packet_bytes _ _ Hm) as [Hpb _].
  unfold packet in *. unfold packet_parts in *. rewrite Hz in *. change (0 <? sizeof_NetworkInfo) with true in *.
  destruct (compress info sizeof_NetworkInfo) as [w|] eqn:Ec; cbn iota in *.
  - destruct Hpp as (Hk & _). pose proof (rewrite_compressed wifi my_ip _ w Hk Hpb ltac:(done)) as Hrw.
    destruct (recv_packet_run _ _ s Hm Hs Hh) as (s' & Er & _). unfold packet, packet_parts in Er. rewrite Hz, Ec in Er.
    change (0 <? sizeof_NetworkInfo) with true in Er. cbn iota in Er. eexists _, _, info, wifi, s'. split; [exact Hp|]. split; [exact Hrw|].
    split; [exact Er|]. split; [exact Hw|by apply dial_direct].
  - destruct (rewrite_raw wifi my_ip info Hi Hn Hw Hw0) as (info' & Hrw & Hpb' & Hz' & Hv). rewrite Hz in Hrw, Hpb', Hz'.
    destruct (recv_raw_run LANPacketType.ScanResp info' _ s ltac:(done) Hpb') as (s' & Er & _); [rewrite Hz'; done|by rewrite Hz'|done|done|].
    eexists _, _, info', _, s'. split; [exact Hp|]. split; [exact Hrw|]. split; [exact Er|]. split; [exact Hv|by apply dial_relayed].
Qed.
End announce.

(** ** Concrete runs *)

Import LanDiscovery.Demo.

Definition demo_wifi : Z := 0x0A130002.
Lemma relayed_host_address_witness :
  exists p p' info' ip s', sendPacket LANPacketType.ScanResp (Some (d_networkInfo hosting)) = Some p /\
    ldn_bridge_rewrite_ips demo_wifi [10; 13; 0; 9] p (zlen p) true = Some p' /\
    recv_message (udp_recvfrom (zlen p')) p' (new_socket 3) = Ok (inr (LANPacketType.ScanResp, info')) s' /\
    field info' (ni_nodes 0 + node_ipv4Address) 4 = Some ip /\
    host_address ip DefaultPort =
      match compress (d_networkInfo hosting) sizeof_NetworkInfo with Some _ => (demo_wifi, DefaultPort) | None => bridge_addr end.
Proof.
  apply (relayed_host_address demo_wifi [10; 13; 0; 9] (d_networkInfo hosting) (new_socket 3)).
  - pose proof (reachable_inv _ hosting_reachable) as [Hd _ _]. split; [apply (lk_bytes _ Hd)|apply (lk_info _ Hd)].
  - exists 1. split; [vm_compute; reflexivity|lia].
  - vm_compute. reflexivity.
  - discriminate.
  - vm_compute. discriminate.
  - vm_compute. reflexivity.
  - apply new_socket_ok.
  - reflexivity.
Defined.

(** The network of a fresh lobby is compressed, so the bridge does not change it. *)
Example fresh_lobby_compressed : is_Some (compress (d_networkInfo hosting) sizeof_NetworkInfo).
Proof. vm_compute. by eexists. Qed.
