(* ===== verification/UvTcp.v ===== *)
(** TCP connections over lwIP: the [uvl_tcp_t] half of [uv_lwip/uv_lwip.c].

    A connection owns a queue of write requests, a linked list of objects that
    belong to the caller: they are a heap here, and a request is freed when its
    callback has run, so that touching it afterwards stops the run.  lwIP's
    control block is an interface ([Lwip]): an abstract state with the calls the
    source makes and, as laws, what their documentation promises.  libuv's
    wake-ups and the caller's buffers come from the environment; the caller's
    callbacks are events and do not call back into the connection.

    Shown here: whatever the sizes lwIP accepts, the bytes handed to it are the
    buffers of the write requests in order, none lost, duplicated or reordered;
    requests complete in order, each once, when everything is sent and
    acknowledged; acknowledgements never run off the queue; received data reaches
    the reader unchanged.  And two defects: a fatal error of [tcp_write] makes
    the pump use a null control block, and an empty request behind a non-empty one
    is read past its buffers. *)

From stdpp Require Import gmap.
From S2P Require Import Prelude.

(** ** lwIP *)

Definition ERR_OK : Z := 0.
Definition ERR_MEM : Z := -1.
Definition ERR_IF : Z := -12.
Definition ERR_ABRT : Z := -13.

(** A control block and the calls on it.  [stream] is everything [tcp_write] has
    accepted, in order; it is not part of the interface the code sees. *)
Class Lwip := {
  pcb : Type;
  tcp_sndbuf : pcb -> Z;
  tcp_write : pcb -> bytes -> Z * pcb;
  tcp_output : pcb -> Z * pcb;
  tcp_close : pcb -> Z * pcb;
  tcp_recved : pcb -> Z -> pcb;
  stream : pcb -> bytes;
}.

(** What lwIP documents: the send buffer is a [u16_t] and shrinks by what a
    successful [tcp_write] takes; a refused one takes nothing. *)
Class LwipLaws `{Lwip} : Prop := {
  sndbuf_range p : 0 <= tcp_sndbuf p <= 65535;
  write_ok p d p' : tcp_write p d = (ERR_OK, p') ->
    stream p' = stream p ++ d /\ tcp_sndbuf p' = tcp_sndbuf p - zlen d;
  write_refused p d e p' : tcp_write p d = (e, p') -> e <> ERR_OK ->
    stream p' = stream p /\ tcp_sndbuf p' = tcp_sndbuf p;
  output_stream p e p' : tcp_output p = (e, p') -> stream p' = stream p;
  recved_stream p n : stream (tcp_recved p n) = stream p;
}.

(** The rest of the environment, by number of calls made. *)
Class UvEnv := {
  uv_lwip :: Lwip;
  env_async_send : nat -> Z;             (* uv_async_send *)
  env_async_init : nat -> Z;             (* uv_async_init *)
  env_alloc : nat -> option Z;           (* length of the buffer alloc_cb gives *)
}.

(** ** Structures *)

Definition TCP_MSS : Z := 512.
Definition TCP_WND : Z := 4 * TCP_MSS.
Definition UVL_TCP_RECV_BUF_LEN : Z := TCP_WND.
Definition UV_ECANCELED : Z := -125.
Definition UV_EOF : Z := -4095.
Definition UV_ENOBUFS : Z := -105.
Definition UV_EALREADY : Z := -114.

Record uvl_tcp_buf := { recv_buf : bytes; recv_used : Z }.

(** [send_bufs] with [send_nbufs] entries. *)
Record uvl_write_t := {
  send_bufs : list bytes;
  sent_bufs : Z;
  sent : Z;
  pending : Z;
  total_sent : Z;
  total_len : Z;
  next : option nat;
}.

Inductive tcp_event :=
| EvWriteCb (req : nat) (status : Z)
| EvReadCb (nread : Z) (data : bytes)
| EvCloseCb
| EvAsyncRead
| EvAsyncWrite
| EvTcpAbort
| EvUvClose.

Record uvl_tcp_t `{Lwip} := {
  t_reqs : gmap nat uvl_write_t;         (* the requests that are alive *)
  t_cur_write : option nat;
  t_tail_write : option nat;
  t_pcb : option pcb;
  t_closed : bool;
  t_buf : option uvl_tcp_buf;
  t_read_cb : bool;                      (* not null; alloc_cb is set with it *)
  t_close_cb : option nat;               (* the function, by number *)
  t_local_addr : bytes * Z;              (* address, port in network order *)
  t_remote_addr : bytes * Z;
  t_sent_bytes : Z;
  t_recv_bytes : Z;
  t_closed_handle : Z;
  t_ticks : nat;
  t_log : list tcp_event;
}.

(** Stores to the fields. *)
Definition set_send_bufs (v : list bytes) (r : uvl_write_t) : uvl_write_t :=
  {| send_bufs := v; sent_bufs := sent_bufs r; sent := sent r; pending := pending r; total_sent
     := total_sent r; total_len := total_len r; next := next r |}.
Definition set_sent_bufs (v : Z) (r : uvl_write_t) : uvl_write_t :=
  {| send_bufs := send_bufs r; sent_bufs := v; sent := sent r; pending := pending r; total_sent
     := total_sent r; total_len := total_len r; next := next r |}.
Definition set_sent (v : Z) (r : uvl_write_t) : uvl_write_t :=
  {| send_bufs := send_bufs r; sent_bufs := sent_bufs r; sent := v; pending := pending r;
     total_sent := total_sent r; total_len := total_len r; next := next r |}.
Definition set_pending (v : Z) (r : uvl_write_t) : uvl_write_t :=
  {| send_bufs := send_bufs r; sent_bufs := sent_bufs r; sent := sent r; pending := v;
     total_sent := total_sent r; total_len := total_len r; next := next r |}.
Definition set_total_sent (v : Z) (r : uvl_write_t) : uvl_write_t :=
  {| send_bufs := send_bufs r; sent_bufs := sent_bufs r; sent := sent r; pending := pending r;
     total_sent := v; total_len := total_len r; next := next r |}.
Definition set_total_len (v : Z) (r : uvl_write_t) : uvl_write_t :=
  {| send_bufs := send_bufs r; sent_bufs := sent_bufs r; sent := sent r; pending := pending r;
     total_sent := total_sent r; total_len := v; next := next r |}.
Definition set_next (v : option nat) (r : uvl_write_t) : uvl_write_t :=
  {| send_bufs := send_bufs r; sent_bufs := sent_bufs r; sent := sent r; pending := pending r;
     total_sent := total_sent r; total_len := total_len r; next := v |}.

Definition set_t_reqs `{Lwip} (v : gmap nat uvl_write_t) (r : uvl_tcp_t) : uvl_tcp_t :=
  {| t_reqs := v; t_cur_write := t_cur_write r; t_tail_write := t_tail_write r; t_pcb := t_pcb
     r; t_closed := t_closed r; t_buf := t_buf r; t_read_cb := t_read_cb r; t_close_cb :=
     t_close_cb r; t_local_addr := t_local_addr r; t_remote_addr := t_remote_addr r;
     t_sent_bytes := t_sent_bytes r; t_recv_bytes := t_recv_bytes r; t_closed_handle :=
     t_closed_handle r; t_ticks := t_ticks r; t_log := t_log r |}.
Definition set_t_cur_write `{Lwip} (v : option nat) (r : uvl_tcp_t) : uvl_tcp_t :=
  {| t_reqs := t_reqs r; t_cur_write := v; t_tail_write := t_tail_write r; t_pcb := t_pcb r;
     t_closed := t_closed r; t_buf := t_buf r; t_read_cb := t_read_cb r; t_close_cb :=
     t_close_cb r; t_local_addr := t_local_addr r; t_remote_addr := t_remote_addr r;
     t_sent_bytes := t_sent_bytes r; t_recv_bytes := t_recv_bytes r; t_closed_handle :=
     t_closed_handle r; t_ticks := t_ticks r; t_log := t_log r |}.
Definition set_t_tail_write `{Lwip} (v : option nat) (r : uvl_tcp_t) : uvl_tcp_t :=
  {| t_reqs := t_reqs r; t_cur_write := t_cur_write r; t_tail_write := v; t_pcb := t_pcb r;
     t_closed := t_closed r; t_buf := t_buf r; t_read_cb := t_read_cb r; t_close_cb :=
     t_close_cb r; t_local_addr := t_local_addr r; t_remote_addr := t_remote_addr r;
     t_sent_bytes := t_sent_bytes r; t_recv_bytes := t_recv_bytes r; t_closed_handle :=
     t_closed_handle r; t_ticks := t_ticks r; t_log := t_log r |}.
Definition set_t_pcb `{Lwip} (v : option pcb) (r : uvl_tcp_t) : uvl_tcp_t :=
  {| t_reqs := t_reqs r; t_cur_write := t_cur_write r; t_tail_write := t_tail_write r; t_pcb :=
     v; t_closed := t_closed r; t_buf := t_buf r; t_read_cb := t_read_cb r; t_close_cb :=
     t_close_cb r; t_local_addr := t_local_addr r; t_remote_addr := t_remote_addr r;
     t_sent_bytes := t_sent_bytes r; t_recv_bytes := t_recv_bytes r; t_closed_handle :=
     t_closed_handle r; t_ticks := t_ticks r; t_log := t_log r |}.
Definition set_t_closed `{Lwip} (v : bool) (r : uvl_tcp_t) : uvl_tcp_t :=
  {| t_reqs := t_reqs r; t_cur_write := t_cur_write r; t_tail_write := t_tail_write r; t_pcb :=
     t_pcb r; t_closed := v; t_buf := t_buf r; t_read_cb := t_read_cb r; t_close_cb :=
     t_close_cb r; t_local_addr := t_local_addr r; t_remote_addr := t_remote_addr r;
     t_sent_bytes := t_sent_bytes r; t_recv_bytes := t_recv_bytes r; t_closed_handle :=
     t_closed_handle r; t_ticks := t_ticks r; t_log := t_log r |}.
Definition set_t_buf `{Lwip} (v : option uvl_tcp_buf) (r : uvl_tcp_t) : uvl_tcp_t :=
  {| t_reqs := t_reqs r; t_cur_write := t_cur_write r; t_tail_write := t_tail_write r; t_pcb :=
     t_pcb r; t_closed := t_closed r; t_buf := v; t_read_cb := t_read_cb r; t_close_cb :=
     t_close_cb r; t_local_addr := t_local_addr r; t_remote_addr := t_remote_addr r;
     t_sent_bytes := t_sent_bytes r; t_recv_bytes := t_recv_bytes r; t_closed_handle :=
     t_closed_handle r; t_ticks := t_ticks r; t_log := t_log r |}.
Definition set_t_read_cb `{Lwip} (v : bool) (r : uvl_tcp_t) : uvl_tcp_t :=
  {| t_reqs := t_reqs r; t_cur_write := t_cur_write r; t_tail_write := t_tail_write r; t_pcb :=
     t_pcb r; t_closed := t_closed r; t_buf := t_buf r; t_read_cb := v; t_close_cb :=
     t_close_cb r; t_local_addr := t_local_addr r; t_remote_addr := t_remote_addr r;
     t_sent_bytes := t_sent_bytes r; t_recv_bytes := t_recv_bytes r; t_closed_handle :=
     t_closed_handle r; t_ticks := t_ticks r; t_log := t_log r |}.
Definition set_t_close_cb `{Lwip} (v : option nat) (r : uvl_tcp_t) : uvl_tcp_t :=
  {| t_reqs := t_reqs r; t_cur_write := t_cur_write r; t_tail_write := t_tail_write r; t_pcb :=
     t_pcb r; t_closed := t_closed r; t_buf := t_buf r; t_read_cb := t_read_cb r; t_close_cb :=
     v; t_local_addr := t_local_addr r; t_remote_addr := t_remote_addr r; t_sent_bytes :=
     t_sent_bytes r; t_recv_bytes := t_recv_bytes r; t_closed_handle := t_closed_handle r;
     t_ticks := t_ticks r; t_log := t_log r |}.
Definition set_t_local_addr `{Lwip} (v : bytes * Z) (r : uvl_tcp_t) : uvl_tcp_t :=
  {| t_reqs := t_reqs r; t_cur_write := t_cur_write r; t_tail_write := t_tail_write r; t_pcb :=
     t_pcb r; t_closed := t_closed r; t_buf := t_buf r; t_read_cb := t_read_cb r; t_close_cb :=
     t_close_cb r; t_local_addr := v; t_remote_addr := t_remote_addr r; t_sent_bytes :=
     t_sent_bytes r; t_recv_bytes := t_recv_bytes r; t_closed_handle := t_closed_handle r;
     t_ticks := t_ticks r; t_log := t_log r |}.
Definition set_t_remote_addr `{Lwip} (v : bytes * Z) (r : uvl_tcp_t) : uvl_tcp_t :=
  {| t_reqs := t_reqs r; t_cur_write := t_cur_write r; t_tail_write := t_tail_write r; t_pcb :=
     t_pcb r; t_closed := t_closed r; t_buf := t_buf r; t_read_cb := t_read_cb r; t_close_cb :=
     t_close_cb r; t_local_addr := t_local_addr r; t_remote_addr := v; t_sent_bytes :=
     t_sent_bytes r; t_recv_bytes := t_recv_bytes r; t_closed_handle := t_closed_handle r;
     t_ticks := t_ticks r; t_log := t_log r |}.
Definition set_t_sent_bytes `{Lwip} (v : Z) (r : uvl_tcp_t) : uvl_tcp_t :=
  {| t_reqs := t_reqs r; t_cur_write := t_cur_write r; t_tail_write := t_tail_write r; t_pcb :=
     t_pcb r; t_closed := t_closed r; t_buf := t_buf r; t_read_cb := t_read_cb r; t_close_cb :=
     t_close_cb r; t_local_addr := t_local_addr r; t_remote_addr := t_remote_addr r;
     t_sent_bytes := v; t_recv_bytes := t_recv_bytes r; t_closed_handle := t_closed_handle r;
     t_ticks := t_ticks r; t_log := t_log r |}.
Definition set_t_recv_bytes `{Lwip} (v : Z) (r : uvl_tcp_t) : uvl_tcp_t :=
  {| t_reqs := t_reqs r; t_cur_write := t_cur_write r; t_tail_write := t_tail_write r; t_pcb :=
     t_pcb r; t_closed := t_closed r; t_buf := t_buf r; t_read_cb := t_read_cb r; t_close_cb :=
     t_close_cb r; t_local_addr := t_local_addr r; t_remote_addr := t_remote_addr r;
     t_sent_bytes := t_sent_bytes r; t_recv_bytes := v; t_closed_handle := t_closed_handle r;
     t_ticks := t_ticks r; t_log := t_log r |}.
Definition set_t_closed_handle `{Lwip} (v : Z) (r : uvl_tcp_t) : uvl_tcp_t :=
  {| t_reqs := t_reqs r; t_cur_write := t_cur_write r; t_tail_write := t_tail_write r; t_pcb :=
     t_pcb r; t_closed := t_closed r; t_buf := t_buf r; t_read_cb := t_read_cb r; t_close_cb :=
     t_close_cb r; t_local_addr := t_local_addr r; t_remote_addr := t_remote_addr r;
     t_sent_bytes := t_sent_bytes r; t_recv_bytes := t_recv_bytes r; t_closed_handle := v;
     t_ticks := t_ticks r; t_log := t_log r |}.
Definition set_t_ticks `{Lwip} (v : nat) (r : uvl_tcp_t) : uvl_tcp_t :=
  {| t_reqs := t_reqs r; t_cur_write := t_cur_write r; t_tail_write := t_tail_write r; t_pcb :=
     t_pcb r; t_closed := t_closed r; t_buf := t_buf r; t_read_cb := t_read_cb r; t_close_cb :=
     t_close_cb r; t_local_addr := t_local_addr r; t_remote_addr := t_remote_addr r;
     t_sent_bytes := t_sent_bytes r; t_recv_bytes := t_recv_bytes r; t_closed_handle :=
     t_closed_handle r; t_ticks := v; t_log := t_log r |}.
Definition set_t_log `{Lwip} (v : list tcp_event) (r : uvl_tcp_t) : uvl_tcp_t :=
  {| t_reqs := t_reqs r; t_cur_write := t_cur_write r; t_tail_write := t_tail_write r; t_pcb :=
     t_pcb r; t_closed := t_closed r; t_buf := t_buf r; t_read_cb := t_read_cb r; t_close_cb :=
     t_close_cb r; t_local_addr := t_local_addr r; t_remote_addr := t_remote_addr r;
     t_sent_bytes := t_sent_bytes r; t_recv_bytes := t_recv_bytes r; t_closed_handle :=
     t_closed_handle r; t_ticks := t_ticks r; t_log := v |}.

(** ** The operations *)

Section code.
Context `{UvEnv}.

Definition upd (f : uvl_tcp_t -> uvl_tcp_t) : M uvl_tcp_t unit := modify f.
Definition log (e : tcp_event) : M uvl_tcp_t unit :=
  upd (fun c => set_t_log (t_log c ++ [e]) c).

Definition ASSERT (b : bool) : M uvl_tcp_t unit := if b then ret tt else halt AssertFail.

(** A pointer that must not be null. *)
Definition nonnull {A} (o : option A) : M uvl_tcp_t A :=
  match o with Some a => ret a | None => halt NullDeref end.

(** The request behind a pointer; a request that was freed cannot be read. *)
Definition deref (i : nat) : M uvl_tcp_t uvl_write_t :=
  let* o := gets (fun c => t_reqs c !! i) in
  match o with Some r => ret r | None => halt Oob end.
Definition put (i : nat) (r : uvl_write_t) : M uvl_tcp_t unit :=
  upd (fun c => set_t_reqs (<[i := r]> (t_reqs c)) c).

Definition uv_async_send (e : tcp_event) : M uvl_tcp_t Z :=
  let* n := gets t_ticks in
  upd (set_t_ticks (S n)) ;;;
  log e ;;;
  ret (env_async_send n).

(** [req->write_cb(req, status)]: the owner frees the request. *)
Definition write_cb (i : nat) (status : Z) : M uvl_tcp_t unit :=
  log (EvWriteCb i status) ;;;
  upd (fun c => set_t_reqs (delete i (t_reqs c)) c).

Definition uvl_async_tcp_read_cb : M uvl_tcp_t unit :=
  let* c := gets id in
  let* buf := nonnull (t_buf c) in
  ASSERT (recv_used buf <=? zlen (recv_buf buf)) ;;;
  if t_read_cb c && (0 <? recv_used buf) then
    upd (set_t_ticks (S (t_ticks c))) ;;;
    let no_bufs := log (EvReadCb UV_ENOBUFS []) in
    match env_alloc (t_ticks c) with
    | None => no_bufs
    | Some len =>
        if len <? recv_used buf then no_bufs
        else
          let* data := mem (mem_get (recv_buf buf) 0 (recv_used buf)) in
          let* p := nonnull (t_pcb c) in
          upd (set_t_pcb (Some (tcp_recved p (recv_used buf)))) ;;;
          upd (set_t_buf (Some {| recv_buf := recv_buf buf; recv_used := 0 |})) ;;;
          log (EvReadCb (recv_used buf) data)
    end
  else ret tt.

Fixpoint cancel_loop (fuel : nat) (req : option nat) : M uvl_tcp_t unit :=
  match req, fuel with
  | None, _ => ret tt
  | Some _, O => halt AssertFail
  | Some i, S fuel =>
      let* r := deref i in
      let next := next r in
      write_cb i UV_ECANCELED ;;;
      cancel_loop fuel next
  end.

(** The reader is told and removed. *)
Definition end_read (status : Z) : M uvl_tcp_t unit :=
  let* reading := gets t_read_cb in
  if reading : bool then log (EvReadCb status []) ;;; upd (set_t_read_cb false) else ret tt.

(** Loops over the queue visit each live request at most once. *)
Definition queue_fuel (c : uvl_tcp_t) : nat := size (t_reqs c).

Definition uvl_cancel_reqs : M uvl_tcp_t unit :=
  let* c := gets id in
  cancel_loop (queue_fuel c) (t_cur_write c) ;;;
  upd (set_t_cur_write None) ;;;
  upd (set_t_tail_write None) ;;;
  end_read UV_ECANCELED.

Definition uvl_client_freed : M uvl_tcp_t unit :=
  upd (set_t_pcb None) ;;;
  upd (set_t_closed true) ;;;
  end_read UV_EOF.

Definition uvl_client_abort : M uvl_tcp_t Z :=
  let* c := gets id in
  ASSERT (bool_decide (is_Some (t_pcb c))) ;;;
  ASSERT (negb (t_closed c)) ;;;
  log EvTcpAbort ;;;
  uvl_client_freed ;;;
  ret ERR_ABRT.

Definition uvl_client_close_func : M uvl_tcp_t Z :=
  let* c := gets id in
  ASSERT (negb (t_closed c)) ;;;
  let* p := nonnull (t_pcb c) in
  let '(err, p) := tcp_close p in
  upd (set_t_pcb (Some p)) ;;;
  if err =? ERR_OK then uvl_client_freed ;;; ret err
  else uvl_client_abort.

(** The [do]-[while] of [uvl_imp_write_buf_to_tcp] for the buffer [buf]:
    [Some code] when it returns, [None] when it reaches [may_next]. *)
Fixpoint write_buf_loop (fuel : nat) (i : nat) (buf : bytes) : M uvl_tcp_t (option Z) :=
  let* c := gets id in
  let* p := nonnull (t_pcb c) in
  let* r := deref i in
  let to_write := Z.min (zlen buf - sent r) (tcp_sndbuf p) in
  if to_write =? 0 then ret None
  else
    let* d := mem (mem_get buf (sent r) to_write) in
    let '(err, p) := tcp_write p d in
    upd (set_t_pcb (Some p)) ;;;
    if negb (err =? ERR_OK) then
      if err =? ERR_MEM then ret (Some 0)
      else let* e := uvl_client_close_func in ret (Some e)
    else
      put i {| send_bufs := send_bufs r; sent_bufs := sent_bufs r; sent := u32 (sent r + to_write);
               pending := u32 (pending r + to_write); total_sent := u32 (total_sent r + to_write);
               total_len := total_len r; next := next r |} ;;;
      upd (fun c => set_t_recv_bytes (u32 (t_recv_bytes c + to_write)) c) ;;;
      if u32 (sent r + to_write) <? zlen buf then
        match fuel with
        | O => halt AssertFail
        | S fuel => write_buf_loop fuel i buf
        end
      else ret None.

Definition uvl_imp_write_buf_to_tcp (i : nat) : M uvl_tcp_t Z :=
  let* r := deref i in
  let* buf := mem (send_bufs r !! Z.to_nat (sent_bufs r)) in
  let* code := write_buf_loop (length buf) i buf in
  match code with
  | Some code => ret code
  | None =>
      let* c := gets id in
      let* p := nonnull (t_pcb c) in
      if tcp_sndbuf p =? 0 then ret 0
      else
        let* r := deref i in
        put i (set_sent_bufs (u32 (sent_bufs r + 1)) (set_sent 0 r)) ;;;
        ret 1
  end.

(** The first request with a buffer left. *)
Fixpoint first_unsent (fuel : nat) (req : option nat) : M uvl_tcp_t (option nat) :=
  match req, fuel with
  | None, _ => ret None
  | Some _, O => halt AssertFail
  | Some i, S fuel =>
      let* r := deref i in
      if sent_bufs r <? zlen (send_bufs r) then ret (Some i) else first_unsent fuel (next r)
  end.

(** The second loop; [false] is the early [return]. *)
Fixpoint write_loop (fuel : nat) (req : option nat) : M uvl_tcp_t bool :=
  match req, fuel with
  | None, _ => ret true
  | Some _, O => halt AssertFail
  | Some i, S fuel =>
      let* code := uvl_imp_write_buf_to_tcp i in
      if code =? 0 then ret true
      else if code =? -1 then ret false
      else
        let* r := deref i in
        write_loop fuel (if sent_bufs r =? zlen (send_bufs r) then next r else Some i)
  end.

(** Each round of the loop but the last finishes a buffer. *)
Definition write_fuel (c : uvl_tcp_t) : nat :=
  S $ map_fold (fun _ r n => length (send_bufs r) + n)%nat O (t_reqs c).

Definition uvl_imp_write_to_tcp : M uvl_tcp_t unit :=
  let* c := gets id in
  ASSERT (bool_decide (is_Some (t_cur_write c))) ;;;
  ASSERT (bool_decide (is_Some (t_pcb c))) ;;;
  let* req := first_unsent (queue_fuel c) (t_cur_write c) in
  let* go_on := write_loop (write_fuel c) req in
  if negb go_on then ret tt
  else
    let* c := gets id in
    let* p := nonnull (t_pcb c) in
    let '(err, p) := tcp_output p in
    upd (set_t_pcb (Some p)) ;;;
    if negb (err =? ERR_OK) then let* _ := uvl_client_close_func in ret tt else ret tt.

Fixpoint complete_loop (fuel : nat) (req : option nat) : M uvl_tcp_t unit :=
  match req, fuel with
  | None, _ => ret tt
  | Some _, O => halt AssertFail
  | Some i, S fuel =>
      let* r := deref i in
      if (total_sent r =? total_len r) && (pending r =? 0) then
        let next := next r in
        upd (set_t_cur_write next) ;;;
        write_cb i 0 ;;;
        complete_loop fuel next
      else ret tt
  end.

Definition uvl_async_tcp_write_cb : M uvl_tcp_t unit :=
  let* c := gets id in
  complete_loop (queue_fuel c) (t_cur_write c) ;;;
  let* c := gets id in
  (if bool_decide (t_cur_write c = None) then upd (set_t_tail_write None) else ret tt) ;;;
  if t_closed c then uvl_cancel_reqs
  else if bool_decide (is_Some (t_cur_write c)) then uvl_imp_write_to_tcp
  else ret tt.

(** lwIP delivers [p], or closes the connection ([None]).  [tpcb] is the control block the
    callback was registered on, so that [client->pcb == tpcb] says that it was not given up. *)
Definition uvl_client_recv_func (p : option bytes) (err : Z) : M uvl_tcp_t Z :=
  let* c := gets id in
  ASSERT (negb (t_closed c)) ;;;
  ASSERT (bool_decide (is_Some (t_pcb c))) ;;;
  ASSERT (err =? ERR_OK) ;;;
  match p with
  | None => uvl_client_close_func
  | Some data =>
      ASSERT (0 <? zlen data) ;;;
      let* buf := nonnull (t_buf c) in
      if zlen (recv_buf buf) - recv_used buf <? zlen data then ret ERR_MEM
      else
        let* b := mem (mem_put (recv_buf buf) (recv_used buf) data) in
        upd (set_t_buf (Some {| recv_buf := b; recv_used := u16 (recv_used buf + zlen data) |})) ;;;
        let* r := uv_async_send EvAsyncRead in
        ret (if r =? 0 then ERR_OK else ERR_ABRT)
  end.

(** [len] bytes were acknowledged. *)
Fixpoint sent_loop (fuel : nat) (req : option nat) (len : Z) : M uvl_tcp_t unit :=
  if 0 <? len then
    match fuel with
    | O => halt AssertFail
    | S fuel =>
        let* i := nonnull req in
        let* r := deref i in
        let to_sub := Z.min (pending r) len in
        put i (set_pending (u32 (pending r - to_sub)) r) ;;;
        sent_loop fuel (next r) (u16 (len - to_sub))
    end
  else ret tt.

Definition uvl_client_sent_func (len : Z) : M uvl_tcp_t Z :=
  let* c := gets id in
  ASSERT (negb (t_closed c)) ;;;
  ASSERT (0 <? len) ;;;
  upd (set_t_sent_bytes (u32 (t_sent_bytes c + len))) ;;;
  sent_loop (S (queue_fuel c)) (t_cur_write c) len ;;;
  let* _ := uv_async_send EvAsyncWrite in
  ret ERR_OK.

Definition uvl_client_err_func : M uvl_tcp_t unit := uvl_client_freed.

Definition uvl_read_start : M uvl_tcp_t Z :=
  let* c := gets id in
  if t_read_cb c then ret UV_EALREADY
  else if t_closed c then log (EvReadCb UV_EOF []) ;;; ret 0
  else
    let* err := uv_async_send EvAsyncRead in
    if err =? 0 then upd (set_t_read_cb true) ;;; ret err else ret err.

Definition uvl_read_stop : M uvl_tcp_t Z := upd (set_t_read_cb false) ;;; ret 0.

(** [i] is the caller's request object. *)
Definition uvl_write (i : nat) (bufs : list bytes) : M uvl_tcp_t Z :=
  let req := {| send_bufs := bufs; sent_bufs := 0; sent := 0; pending := 0; total_sent := 0;
                total_len := foldl (fun n b => u32 (n + zlen b)) 0 bufs; next := None |} in
  let* c := gets id in
  put i req ;;;
  match t_tail_write c with
  | Some t => let* r := deref t in put t (set_next (Some i) r)
  | None => ret tt
  end ;;;
  upd (set_t_tail_write (Some i)) ;;;
  (if bool_decide (t_cur_write c = None) then upd (set_t_cur_write (Some i)) else ret tt) ;;;
  uv_async_send EvAsyncWrite.

Definition uv_async_init : M uvl_tcp_t Z :=
  let* n := gets t_ticks in upd (set_t_ticks (S n)) ;;; ret (env_async_init n).

Definition uvl_tcp_init : M uvl_tcp_t Z :=
  upd (fun c =>
    {| t_reqs := t_reqs c; t_cur_write := None; t_tail_write := None; t_pcb := None;
       t_closed := false;
       t_buf := Some {| recv_buf := replicate (Z.to_nat UVL_TCP_RECV_BUF_LEN) 0; recv_used := 0 |};
       t_read_cb := false; t_close_cb := None; t_local_addr := t_local_addr c;
       t_remote_addr := t_remote_addr c; t_sent_bytes := t_sent_bytes c;
       t_recv_bytes := t_recv_bytes c; t_closed_handle := t_closed_handle c;
       t_ticks := t_ticks c; t_log := t_log c |}) ;;;
  let* r := uv_async_init in
  if negb (r =? 0) then ret r
  else
    let* r := uv_async_init in
    if negb (r =? 0) then ret r
    else
      upd (set_t_local_addr (replicate 4 0, 0)) ;;;
      upd (set_t_remote_addr (replicate 4 0, 0)) ;;;
      ret 0.

(** The part of [uvl_accept] that fills the connection in. *)
Definition accept_client (newpcb : pcb) (local remote : bytes * Z) : M uvl_tcp_t unit :=
  upd (set_t_pcb (Some newpcb)) ;;;
  upd (set_t_local_addr local) ;;;
  upd (set_t_remote_addr remote) ;;;
  upd (set_t_sent_bytes 0) ;;;
  upd (set_t_recv_bytes 0) ;;;
  upd (set_t_closed_handle 0).

Definition uvl_tcp_close_handle_cb : M uvl_tcp_t unit :=
  let* c := gets id in
  upd (set_t_closed_handle (t_closed_handle c + 1)) ;;;
  if t_closed_handle c + 1 =? 2 then
    upd (fun c =>
      {| t_reqs := t_reqs c; t_cur_write := None; t_tail_write := None; t_pcb := None;
         t_closed := t_closed c; t_buf := None; t_read_cb := false; t_close_cb := t_close_cb c;
         t_local_addr := t_local_addr c; t_remote_addr := t_remote_addr c;
         t_sent_bytes := t_sent_bytes c; t_recv_bytes := t_recv_bytes c; t_closed_handle := 0;
         t_ticks := t_ticks c; t_log := t_log c |}) ;;;
    let* cb := gets t_close_cb in
    upd (set_t_close_cb None) ;;;
    let* _ := nonnull cb in
    log EvCloseCb
  else ret tt.

Definition uvl_tcp_close (cb : nat) : M uvl_tcp_t Z :=
  let* c := gets id in
  ASSERT (bool_decide (t_close_cb c = None \/ t_close_cb c = Some cb)) ;;;
  (if negb (t_closed c) then let* _ := uvl_client_close_func in ret tt else ret tt) ;;;
  uvl_cancel_reqs ;;;
  log EvUvClose ;;;
  log EvUvClose ;;;
  upd (set_t_close_cb (Some cb)) ;;;
  ret 0.
End code.

(** ** The queue *)

(** The requests from a pointer on. *)
Inductive chain (h : gmap nat uvl_write_t) : option nat -> list nat -> Prop :=
| chain_nil : chain h None []
| chain_cons i r ids : h !! i = Some r -> chain h (next r) ids -> chain h (Some i) (i :: ids).

(** What a request still has to hand to lwIP. *)
Definition unsent (r : uvl_write_t) : bytes :=
  drop (Z.to_nat (sent r)) (concat (drop (Z.to_nat (sent_bufs r)) (send_bufs r))).

Record wr_ok (r : uvl_write_t) : Prop := {
  wr_bufs : send_bufs r <> [];
  wr_pos : 0 <= sent_bufs r <= zlen (send_bufs r) /\ zlen (send_bufs r) < 2 ^ 32;
  wr_sent : 0 <= sent r <= zlen (nth (Z.to_nat (sent_bufs r)) (send_bufs r) []);
  wr_len : total_len r = zlen (concat (send_bufs r)) /\ total_len r < 2 ^ 32;
  wr_total : total_sent r = total_len r - zlen (unsent r);
  wr_pending : 0 <= pending r <= total_sent r;
}.

Definition busy (r : uvl_write_t) : Prop := sent_bufs r < zlen (send_bufs r).
Definition fresh (r : uvl_write_t) : Prop := sent_bufs r = 0 /\ sent r = 0.

(** Requests are sent in order: behind one with buffers left, nothing was sent. *)
Fixpoint ordered (h : gmap nat uvl_write_t) (ids : list nat) : Prop :=
  match ids with
  | [] => True
  | i :: ids =>
      (forall r j r', h !! i = Some r -> busy r -> j ∈ ids -> h !! j = Some r' -> fresh r') /\
      ordered h ids
  end.

Record queue_ok (h : gmap nat uvl_write_t) (cur tail : option nat) (ids : list nat) : Prop := {
  q_chain : chain h cur ids;
  q_nodup : NoDup ids;
  q_tail : tail = last ids;
  q_reqs i : i ∈ ids -> exists r, h !! i = Some r /\ wr_ok r;
  q_ordered : ordered h ids;
}.

Definition unsent_at (h : gmap nat uvl_write_t) (i : nat) : bytes :=
  match h !! i with Some r => unsent r | None => [] end.
Definition backlog (h : gmap nat uvl_write_t) (ids : list nat) : bytes :=
  concat (unsent_at h <$> ids).

Section queue.
Implicit Types h : gmap nat uvl_write_t.

Lemma chain_mono h h' q ids :
  (forall i, i ∈ ids -> next <$> h' !! i = next <$> h !! i) -> chain h q ids -> chain h' q ids.
Proof.
  intros Hn Hc. induction Hc as [|i r ids Hi Hc IH]; [constructor|].
  pose proof (Hn i ltac:(set_solver)) as E. rewrite Hi in E. simpl in E.
  destruct (h' !! i) as [r'|] eqn:Hi'; [|done]. injection E as E. econstructor; [done|].
  rewrite E. apply IH. intros; apply Hn; set_solver.
Qed.

Lemma chain_split h q ids1 i ids2 :
  chain h q (ids1 ++ i :: ids2) -> exists r, h !! i = Some r /\ chain h (next r) ids2.
Proof.
  revert q. induction ids1 as [|j ids1 IH]; intros q Hc; inversion Hc; subst; eauto.
Qed.

Lemma chain_head h q ids : chain h q ids -> q = head ids.
Proof. by destruct 1. Qed.

Lemma unsent_at_put_ne h i j r : i <> j -> unsent_at (<[i := r]> h) j = unsent_at h j.
Proof. intros. unfold unsent_at. by rewrite lookup_insert_ne. Qed.

Lemma backlog_put_notin h i r ids : i ∉ ids -> backlog (<[i := r]> h) ids = backlog h ids.
Proof.
  intros Hi. unfold backlog. f_equal. apply list_fmap_ext. intros k j Hj.
  apply unsent_at_put_ne. intros ->. apply Hi. by eapply list_elem_of_lookup_2.
Qed.

Lemma backlog_app h ids1 ids2 : backlog h (ids1 ++ ids2) = backlog h ids1 ++ backlog h ids2.
Proof. unfold backlog. by rewrite fmap_app, concat_app. Qed.

Lemma backlog_cons h i ids : backlog h (i :: ids) = unsent_at h i ++ backlog h ids.
Proof. done. Qed.

Lemma concat_part_le (l : list bytes) k b : l !! k = Some b -> zlen b <= zlen (concat l).
Proof.
  revert k. induction l as [|x l IH]; intros [|k] Hk; simplify_eq/=; rewrite zlen_app.
  - zlia.
  - apply IH in Hk. zlia.
Qed.

Lemma unsent_split r buf :
  wr_ok r -> send_bufs r !! Z.to_nat (sent_bufs r) = Some buf ->
  nth (Z.to_nat (sent_bufs r)) (send_bufs r) [] = buf /\
  unsent r = drop (Z.to_nat (sent r)) buf ++
             concat (drop (S (Z.to_nat (sent_bufs r))) (send_bufs r)).
Proof.
  intros [_ _ Hs _ _ _] Hb. assert (Hn : nth (Z.to_nat (sent_bufs r)) (send_bufs r) [] = buf).
  { by apply nth_lookup_Some with (d := []) in Hb. }
  split; [done|]. rewrite Hn in Hs. unfold unsent. rewrite (drop_S _ _ _ Hb). simpl.
  apply drop_app_le. unfold zlen in Hs. lia.
Qed.
End queue.

(** ** The pump *)

(** Nothing but the requests, the control block and a counter changes. *)
Definition frame `{Lwip} (c c' : uvl_tcp_t) : Prop :=
  c' = set_t_recv_bytes (t_recv_bytes c') (set_t_reqs (t_reqs c') (set_t_pcb (t_pcb c') c)).

(** Request [i] went from [r] to [r'] and lwIP got what is missing. *)
Record pumped `{Lwip} (i : nat) (r r' : uvl_write_t) (c c' : uvl_tcp_t) (p p' : pcb) : Prop := {
  pu_frame : frame c c';
  pu_pcb : t_pcb c' = Some p';
  pu_reqs : t_reqs c' = <[i := r']> (t_reqs c);
  pu_bufs : send_bufs r' = send_bufs r;
  pu_next : next r' = next r;
  pu_ok : wr_ok r';
  pu_stream : stream p' ++ unsent r' = stream p ++ unsent r;
}.

Section pump.
Context `{UvEnv} `{!LwipLaws}.

Lemma frame_refl c : frame c c.
Proof. by destruct c. Qed.
Lemma frame_trans c1 c2 c3 : frame c1 c2 -> frame c2 c3 -> frame c1 c3.
Proof. unfold frame. intros -> ->. done. Qed.

Lemma pumped_refl i r c p :
  t_pcb c = Some p -> t_reqs c !! i = Some r -> wr_ok r -> pumped i r r c c p p.
Proof.
  intros. constructor; try done; [apply frame_refl|]. by rewrite insert_id.
Qed.
Lemma pumped_trans i r1 r2 r3 c1 c2 c3 p1 p2 p3 :
  pumped i r1 r2 c1 c2 p1 p2 -> pumped i r2 r3 c2 c3 p2 p3 -> pumped i r1 r3 c1 c3 p1 p3.
Proof.
  intros [] []. constructor; try congruence; [by eapply frame_trans|].
  rewrite pu_reqs1, pu_reqs0. apply insert_insert_eq.
Qed.

Definition wrote (r : uvl_write_t) (n : Z) : uvl_write_t :=
  {| send_bufs := send_bufs r; sent_bufs := sent_bufs r; sent := u32 (sent r + n);
     pending := u32 (pending r + n); total_sent := u32 (total_sent r + n);
     total_len := total_len r; next := next r |}.

(** One successful [tcp_write] of [n] bytes of the current buffer. *)
Lemma wrote_ok r buf n :
  wr_ok r -> send_bufs r !! Z.to_nat (sent_bufs r) = Some buf -> 0 < n <= zlen buf - sent r ->
  wr_ok (wrote r n) /\ sent (wrote r n) = sent r + n /\
  unsent r = take (Z.to_nat n) (drop (Z.to_nat (sent r)) buf) ++ unsent (wrote r n).
Proof.
  intros Hr Hb Hn. destruct (unsent_split r buf Hr Hb) as [Hnth Hu].
  destruct Hr as [H1 H2 H3 [H4 H4'] H5 H6]. rewrite Hnth in H3.
  assert (Hul : zlen (unsent r) >= zlen buf - sent r).
  { rewrite Hu, zlen_app, zlen_drop by lia. zlia. }
  pose proof (concat_part_le _ _ _ Hb).
  assert (Hs : u32 (sent r + n) = sent r + n) by (apply u32_id; unfold is_u32; zlia).
  assert (Ht : u32 (total_sent r + n) = total_sent r + n) by (apply u32_id; unfold is_u32; zlia).
  assert (Hp : u32 (pending r + n) = pending r + n) by (apply u32_id; unfold is_u32; zlia).
  assert (Hw : unsent (wrote r n) = drop (Z.to_nat n) (unsent r)).
  { unfold unsent, wrote. cbn [sent sent_bufs send_bufs]. rewrite Hs, drop_drop. f_equal. lia. }
  assert (Hsplit : unsent r = take (Z.to_nat n) (drop (Z.to_nat (sent r)) buf) ++ unsent (wrote r n)).
  { rewrite Hw. rewrite <-(take_drop (Z.to_nat n) (unsent r)) at 1. f_equal. rewrite Hu.
    apply take_app_le. rewrite length_drop. unfold zlen in *. lia. }
  split; [|done]. constructor; cbn [wrote send_bufs sent_bufs sent total_len total_sent pending];
    rewrite ?Hs, ?Ht, ?Hp; try done; [rewrite Hnth; lia| |lia].
  rewrite Hw, zlen_drop by zlia. lia.
Qed.

(** The requests whose callback has run, in order. *)
Definition called (l : list tcp_event) : list nat :=
  omap (fun e => match e with EvWriteCb i _ => Some i | _ => None end) l.

Lemma called_snoc l e :
  called (l ++ [e]) = called l ++ match e with EvWriteCb i _ => [i] | _ => [] end.
Proof. unfold called. rewrite omap_app. by destruct e. Qed.

(** Closing from the pump. *)
Definition hung_up (c c' : uvl_tcp_t) : Prop :=
  t_reqs c' = t_reqs c /\ t_cur_write c' = t_cur_write c /\ t_tail_write c' = t_tail_write c /\
  t_closed c' = true /\ t_buf c' = t_buf c /\ called (t_log c') = called (t_log c) /\ t_pcb c' = None /\
  t_close_cb c' = t_close_cb c.

Lemma close_func_run c p :
  t_closed c = false -> t_pcb c = Some p ->
  exists e c', uvl_client_close_func c = Ok e c' /\ hung_up c c' /\ (e = ERR_OK \/ e = ERR_ABRT).
Proof.
  intros Hcl Hp. unfold uvl_client_close_func. rewrite (bind_ok _ _ _ c c) by done. rewrite Hcl.
  rewrite (bind_ok _ _ _ tt c) by done. rewrite Hp. rewrite (bind_ok _ _ _ p c) by done.
  destruct (tcp_close p) as [err p1]. rewrite (bind_ok _ _ _ tt (set_t_pcb (Some p1) c)) by done.
  unfold hung_up. case_test.
  - destruct (t_read_cb c) eqn:Er; eexists _, _; (split; [unfold uvl_client_freed, end_read, bind, upd, modify, gets, ret, log; simpl; rewrite Er; reflexivity|]);
      simpl; rewrite ?called_snoc; simpl; rewrite ?app_nil_r; (split; [done|auto]).
  - destruct (t_read_cb c) eqn:Er; eexists _, _; (split; [unfold uvl_client_abort, uvl_client_freed, end_read, ASSERT, bind, upd, modify, gets, ret, log; simpl; rewrite Hcl; simpl; rewrite Er; reflexivity|]);
      simpl; rewrite ?called_snoc; simpl; rewrite ?app_nil_r; (split; [done|auto]).
Qed.
(** lwIP failed to take data for another reason than lack of memory. *)
Definition fatal : Prop :=
  exists p d e p', tcp_write p d = (e, p') /\ e <> ERR_OK /\ e <> ERR_MEM.

(** After such a failure: the control block is gone, request [i] is where it was. *)
Definition lost (i : nat) (r : uvl_write_t) (c' : uvl_tcp_t) : Prop :=
  fatal /\ t_pcb c' = None /\
  exists r', t_reqs c' !! i = Some r' /\ sent_bufs r' = sent_bufs r /\ send_bufs r' = send_bufs r.

Lemma write_buf_loop_run fuel i buf r c p :
  t_closed c = false -> t_pcb c = Some p -> t_reqs c !! i = Some r -> wr_ok r ->
  send_bufs r !! Z.to_nat (sent_bufs r) = Some buf -> zlen buf - sent r <= Z.of_nat fuel ->
  exists code c', write_buf_loop fuel i buf c = Ok code c' /\
    ((exists p' r', pumped i r r' c c' p p' /\ sent_bufs r' = sent_bufs r /\
        (code = Some 0 \/ code = None /\ (sent r' = zlen buf \/ tcp_sndbuf p' = 0))) \/
     lost i r c' /\ (code = Some ERR_OK \/ code = Some ERR_ABRT)).
Proof.
  revert r c p. induction fuel as [|fuel IH]; intros r c p Hcl Hp Hi Hr Hb Hf;
    destruct (unsent_split r buf Hr Hb) as [Hnth Hu]; pose proof (wr_sent _ Hr) as Hs;
    rewrite Hnth in Hs; pose proof (sndbuf_range p) as Hsb.
  all: cbn [write_buf_loop]; rewrite (bind_ok _ _ _ c c) by done; rewrite Hp;
    rewrite (bind_ok _ _ _ p c) by done; unfold deref at 1; unfold bind at 1 2, gets at 1; rewrite Hi;
    unfold ret at 1; set (n := Z.min _ _); destruct (Z.eqb_spec n 0) as [En|En];
    [exists None, c; split; [done|]; left; exists p, r; split_and!; [by apply pumped_refl|done|];
     right; split; [done|subst n; lia]|].
  { subst n; lia. }
  assert (Hn : 0 < n <= zlen buf - sent r) by (subst n; lia). clearbody n.
  rewrite mem_get_Some by lia. set (d := take _ _).
  assert (Hd : zlen d = n) by (apply zlen_take; rewrite zlen_drop; lia).
  rewrite (bind_ok _ _ _ d c) by done. destruct (tcp_write p d) as [err p1] eqn:Ew.
  rewrite (bind_ok _ _ _ tt (set_t_pcb (Some p1) c)) by done.
  destruct (Z.eqb_spec err ERR_OK) as [->|He1]; cbn [negb].
  2: { destruct (Z.eqb_spec err ERR_MEM) as [->|He2].
    - destruct (write_refused _ _ _ _ Ew) as [Est _]; [done|].
      exists (Some 0), (set_t_pcb (Some p1) c). split; [done|]. left. exists p1, r.
      split_and!; [|done|by left].
      constructor; [by destruct c|done|by simpl; rewrite insert_id|done..|by rewrite Est].
    - destruct (close_func_run (set_t_pcb (Some p1) c) p1 Hcl eq_refl) as (e & c1 & Ec & Hh & Hcode).
      rewrite (bind_ok _ _ _ _ _ Ec). exists (Some e), c1. split; [done|]. right.
      destruct Hh as (Er & _ & _ & _ & _ & _ & Hp1 & _). split; [|naive_solver].
      split; [by exists p, d, err, p1|]. split; [done|]. exists r. by rewrite Er. }
  destruct (write_ok _ _ _ Ew) as [Est Esb]. destruct (wrote_ok r buf n Hr Hb Hn) as (Hw & Hsn & Hun).
  change {| send_bufs := send_bufs r; sent_bufs := _; sent := _; pending := _; total_sent := _;
            total_len := _; next := _ |} with (wrote r n).
  set (c2 := set_t_recv_bytes (u32 (t_recv_bytes c + n))
               (set_t_reqs (<[i := wrote r n]> (t_reqs c)) (set_t_pcb (Some p1) c))).
  assert (P2 : pumped i r (wrote r n) c c2 p p1).
  { constructor; [by destruct c|done..|]. rewrite Est, Hun. by rewrite <-app_assoc. }
  rewrite (bind_ok _ _ _ tt (set_t_reqs (<[i := wrote r n]> (t_reqs c)) (set_t_pcb (Some p1) c))) by done.
  rewrite (bind_ok _ _ _ tt c2) by done. change (u32 (sent r + n)) with (sent (wrote r n)).
  case_test.
  - destruct (IH (wrote r n) c2 p1) as (code & c3 & E3 & K3);
      [done|done|by simpl; rewrite lookup_insert_eq|done|done|lia|].
    exists code, c3. split; [done|]. destruct K3 as [(p3 & r3 & P3 & B3 & K3)|K3]; [left|by right].
    exists p3, r3. split_and!; [by eapply pumped_trans|done|done].
  - exists None, c2. split; [done|]. left. exists p1, (wrote r n). split_and!; [done..|].
    right. split; [done|]. left. lia.
Qed.

(** Moving to the next buffer. *)
Lemma next_buf_ok r buf :
  wr_ok r -> send_bufs r !! Z.to_nat (sent_bufs r) = Some buf -> sent r = zlen buf ->
  sent_bufs r < zlen (send_bufs r) ->
  let r' := set_sent_bufs (u32 (sent_bufs r + 1)) (set_sent 0 r) in
  wr_ok r' /\ unsent r' = unsent r /\ sent_bufs r' = sent_bufs r + 1.
Proof.
  intros Hr Hb Hs Hlt r'. destruct (unsent_split r buf Hr Hb) as [_ Hu].
  destruct Hr as [H1 H2 H3 H4 H5 H6].
  assert (Hp : u32 (sent_bufs r + 1) = sent_bufs r + 1) by (apply u32_id; unfold is_u32; lia).
  assert (Hu' : unsent r' = unsent r).
  { rewrite Hu, Hs, to_nat_zlen, drop_all. unfold unsent, r'. cbn [sent sent_bufs send_bufs set_sent set_sent_bufs].
    rewrite Hp. change (Z.to_nat 0) with O. rewrite drop_0. simpl app. do 2 f_equal. lia. }
  assert (Hb' : sent_bufs r' = sent_bufs r + 1) by done.
  assert (Hs' : sent r' = 0) by done. assert (Hsb : send_bufs r' = send_bufs r) by done.
  split; [|done]. constructor; rewrite ?Hsb, ?Hb', ?Hs', ?Hu'; try done; [lia|zlia].
Qed.

(** One buffer: either lwIP is full, or the request moves to its next buffer. *)
Lemma write_buf_run i r c p :
  t_closed c = false -> t_pcb c = Some p -> t_reqs c !! i = Some r -> wr_ok r -> busy r ->
  exists code c', uvl_imp_write_buf_to_tcp i c = Ok code c' /\
    ((exists p' r', pumped i r r' c c' p p' /\
        (code = 0 /\ sent_bufs r' = sent_bufs r \/ code = 1 /\ sent_bufs r' = sent_bufs r + 1)) \/
     lost i r c' /\ (code = ERR_OK \/ code = ERR_ABRT)).
Proof.
  intros Hcl Hp Hi Hr Hbusy. unfold busy in Hbusy. pose proof (wr_pos _ Hr) as Hpos.
  destruct (lookup_lt_is_Some_2 (send_bufs r) (Z.to_nat (sent_bufs r))) as [buf Hb];
    [unfold zlen in Hbusy; lia|].
  unfold uvl_imp_write_buf_to_tcp, deref at 1. unfold bind at 1 2, gets at 1. rewrite Hi. unfold ret at 1.
  rewrite Hb. rewrite (bind_ok _ _ _ buf c) by done.
  destruct (write_buf_loop_run (length buf) i buf r c p) as (code & c1 & E1 & K1);
    [done..|pose proof (wr_sent _ Hr); unfold zlen; lia|].
  rewrite (bind_ok _ _ _ _ _ E1). destruct K1 as [(p1 & r1 & P1 & B1 & K1)|[Hlost Hcode]].
  2: { destruct Hcode as [-> | ->]; eexists _, c1; (split; [reflexivity|]); right; auto. }
  destruct K1 as [-> | [-> K1]].
  { exists 0, c1. split; [done|]. left. exists p1, r1. auto. }
  rewrite (bind_ok _ _ _ c1 c1) by done. rewrite (pu_pcb _ _ _ _ _ _ _ P1).
  rewrite (bind_ok _ _ _ p1 c1) by done. destruct (Z.eqb_spec (tcp_sndbuf p1) 0) as [E0|E0].
  { exists 0, c1. split; [done|]. left. exists p1, r1. auto. }
  destruct K1 as [K1|?]; [|done].
  assert (Hi1 : t_reqs c1 !! i = Some r1) by (rewrite (pu_reqs _ _ _ _ _ _ _ P1); apply lookup_insert_eq).
  unfold deref. unfold bind at 1 2, gets at 1. rewrite Hi1. unfold ret at 1.
  set (r2 := set_sent_bufs _ _). pose proof (pu_ok _ _ _ _ _ _ _ P1) as Hr1.
  assert (Hb1 : send_bufs r1 !! Z.to_nat (sent_bufs r1) = Some buf).
  { by rewrite (pu_bufs _ _ _ _ _ _ _ P1), B1. }
  assert (Hlt : sent_bufs r1 < zlen (send_bufs r1)).
  { apply lookup_lt_Some in Hb1. pose proof (wr_pos _ Hr1). unfold zlen. lia. }
  destruct (next_buf_ok r1 buf Hr1 Hb1 K1 Hlt) as (Hw & Hu & Hs).
  rewrite (bind_ok _ _ _ tt (set_t_reqs (<[i := r2]> (t_reqs c1)) c1)) by done.
  eexists 1, _. split; [done|]. left. exists p1, r2. split; [|right; split; [done|]; rewrite <-B1; exact Hs].
  eapply pumped_trans; [exact P1|]. constructor; [by destruct c1|by destruct P1|done..|f_equal; exact Hu].
Qed.

(** Without a control block the next buffer stops the pump. *)
Lemma write_buf_null i r c :
  t_pcb c = None -> t_reqs c !! i = Some r -> 0 <= sent_bufs r -> busy r ->
  uvl_imp_write_buf_to_tcp i c = Stop NullDeref.
Proof.
  intros Hp Hi Hsb Hbusy. unfold busy in Hbusy.
  destruct (lookup_lt_is_Some_2 (send_bufs r) (Z.to_nat (sent_bufs r))) as [buf Hb];
    [unfold zlen in Hbusy; lia|].
  unfold uvl_imp_write_buf_to_tcp, deref. unfold bind at 1 2, gets at 1. rewrite Hi.
  unfold ret at 1. rewrite Hb. rewrite (bind_ok _ _ _ buf c) by done.
  assert (El : write_buf_loop (length buf) i buf c = Stop NullDeref); [|by rewrite (bind_stop _ _ _ _ El)].
  destruct (length buf); cbn [write_buf_loop]; rewrite (bind_ok _ _ _ c c) by done; by rewrite Hp.
Qed.

(** The pump's position: everything before [i] is sent, nothing after it. *)
Record position (h : gmap nat uvl_write_t) (ids1 : list nat) (ids2 : list nat) : Prop := {
  po_before j r : j ∈ ids1 -> h !! j = Some r -> ~ busy r;
  po_after j r : j ∈ ids2 -> h !! j = Some r -> fresh r;
}.

Lemma ordered_fresh h ids :
  (forall j r, j ∈ ids -> h !! j = Some r -> fresh r) -> ordered h ids.
Proof.
  induction ids as [|i ids IH]; intros Hf; [done|]. simpl. split.
  - intros r j r' _ _ Hj. apply Hf. set_solver.
  - apply IH. intros j r Hj. apply Hf. set_solver.
Qed.

Lemma ordered_position h ids1 i ids2 : position h ids1 ids2 -> ordered h (ids1 ++ i :: ids2).
Proof.
  intros [Hb Ha]. induction ids1 as [|j ids1 IH]; simpl.
  - split; [|by apply ordered_fresh]. eauto.
  - split; [|apply IH; intros j' r' Hj'; apply (Hb j'); set_solver].
    intros r k r' Hj Hbusy. exfalso. apply (Hb j r); [set_solver|done..].
Qed.

Lemma unsent_nil r : wr_ok r -> ~ busy r -> unsent r = [].
Proof.
  unfold busy, unsent. intros [_ Hp _ _ _ _] Hb. rewrite (drop_ge (send_bufs r)); [apply drop_nil|].
  unfold zlen in *. lia.
Qed.

(** Before the position nothing is left. *)
Lemma backlog_before h ids1 ids2 :
  position h ids1 ids2 -> (forall j, j ∈ ids1 -> exists r, h !! j = Some r /\ wr_ok r) ->
  backlog h ids1 = [].
Proof.
  intros [Hb _] Hr. induction ids1 as [|j ids1 IH]; [done|]. rewrite backlog_cons.
  destruct (Hr j) as (r & Hj & Hw); [set_solver|]. unfold unsent_at. rewrite Hj.
  rewrite (unsent_nil r Hw) by (apply (Hb j); [set_solver|done]). simpl.
  apply IH; [intros k rk Hk; apply Hb; set_solver|intros k Hk; apply Hr; set_solver].
Qed.

(** A step at [i] keeps the queue and what will be sent. *)
Lemma pumped_queue ids1 i ids2 r r' c c' p p' cur tail :
  pumped i r r' c c' p p' -> t_reqs c !! i = Some r ->
  queue_ok (t_reqs c) cur tail (ids1 ++ i :: ids2) -> position (t_reqs c) ids1 ids2 ->
  queue_ok (t_reqs c') cur tail (ids1 ++ i :: ids2) /\ position (t_reqs c') ids1 ids2 /\
  stream p' ++ backlog (t_reqs c') (ids1 ++ i :: ids2) =
  stream p ++ backlog (t_reqs c) (ids1 ++ i :: ids2).
Proof.
  intros [_ _ Er Eb En Hok Hst] Hi [Hc Hnd Htl Hreq Hord] Hpos. rewrite Er.
  apply NoDup_app in Hnd as Hnd'. destruct Hnd' as (_ & Hdis & Hnd2%NoDup_cons).
  assert (Hn1 : i ∉ ids1) by (intros Hin; apply (Hdis i Hin); set_solver).
  assert (Hn2 : i ∉ ids2) by apply Hnd2.
  assert (Hp' : position (<[i := r']> (t_reqs c)) ids1 ids2).
  { destruct Hpos as [Hb Ha]. split; intros j rj Hj; rewrite lookup_insert_ne by set_solver; eauto. }
  split_and!; [|done|].
  - constructor; try done; [| |by apply ordered_position].
    + apply (chain_mono (t_reqs c)); [|done]. intros j _.
      destruct (decide (j = i)) as [->|?]; [by rewrite lookup_insert_eq, Hi; simpl; rewrite En|].
      by rewrite lookup_insert_ne.
    + intros j Hj. destruct (decide (j = i)) as [->|?]; [exists r'; by rewrite lookup_insert_eq|].
      rewrite lookup_insert_ne by done. by apply Hreq.
  - rewrite !backlog_app, !backlog_cons, !backlog_put_notin by done.
    rewrite (backlog_before _ ids1 ids2) by (done || (intros; apply Hreq; set_solver)). simpl app.
    unfold unsent_at. rewrite lookup_insert_eq, Hi, !app_assoc. by rewrite Hst.
Qed.

(** Buffers left. *)
Definition bufs_left (h : gmap nat uvl_write_t) (i : nat) : nat :=
  match h !! i with Some r => Z.to_nat (zlen (send_bufs r) - sent_bufs r) | None => O end.
Definition remaining (h : gmap nat uvl_write_t) (ids : list nat) : nat :=
  sum_list (bufs_left h <$> ids).

Lemma remaining_cons h i ids : remaining h (i :: ids) = (bufs_left h i + remaining h ids)%nat.
Proof. done. Qed.

Lemma remaining_put_notin h i r ids : i ∉ ids -> remaining (<[i := r]> h) ids = remaining h ids.
Proof.
  intros Hi. unfold remaining. f_equal. apply list_fmap_ext. intros k j Hj.
  unfold bufs_left. rewrite lookup_insert_ne; [done|]. intros ->.
  apply Hi. by eapply list_elem_of_lookup_2.
Qed.

(** What a run of the pump leaves. *)
Record flushed (ids : list nat) (cur tail : option nat) (c c' : uvl_tcp_t) (p p' : pcb) : Prop := {
  fl_frame : frame c c';
  fl_pcb : t_pcb c' = Some p';
  fl_queue : queue_ok (t_reqs c') cur tail ids;
  fl_stream : stream p' ++ backlog (t_reqs c') ids = stream p ++ backlog (t_reqs c) ids;
}.

Lemma flushed_trans ids cur tail c1 c2 c3 p1 p2 p3 :
  flushed ids cur tail c1 c2 p1 p2 -> flushed ids cur tail c2 c3 p2 p3 ->
  flushed ids cur tail c1 c3 p1 p3.
Proof. intros [] []. constructor; try done; [by eapply frame_trans|congruence]. Qed.

Lemma fresh_busy r : wr_ok r -> fresh r -> busy r.
Proof.
  intros [Hb _ _ _ _ _] [E _]. unfold busy. rewrite E.
  destruct (send_bufs r); [done|]. rewrite zlen_cons. zlia.
Qed.

(** What the pump's loop can come to after a fatal failure. *)
Definition fell (m : outcome uvl_tcp_t bool) : Prop :=
  fatal /\ ((exists c', m = Ok true c' /\ t_pcb c' = None) \/ m = Stop NullDeref).

(** The round after the failure. *)
Lemma write_loop_lost fuel i r code c c1 :
  uvl_imp_write_buf_to_tcp i c = Ok code c1 -> lost i r c1 -> code = ERR_OK \/ code = ERR_ABRT ->
  0 <= sent_bufs r -> busy r -> fell (write_loop (S (S fuel)) (Some i) c).
Proof.
  intros E1 (Hf & Hp & r' & Hi & Eb & Es) Hcode Hsb Hbusy. split; [done|]. unfold busy in *.
  cbn [write_loop]. rewrite (bind_ok _ _ _ _ _ E1). destruct Hcode as [-> | ->]; [left; by exists c1|right].
  assert (Ed : deref i c1 = Ok r' c1) by (unfold deref, bind, gets; by rewrite Hi).
  cbn [Z.eqb Pos.eqb ERR_ABRT]. rewrite (bind_ok _ _ _ _ _ Ed).
  rewrite (proj2 (Z.eqb_neq _ _)) by (rewrite Eb, Es; lia). cbn [write_loop].
  apply bind_stop, (write_buf_null i r'); [done|done|lia|unfold busy; rewrite Eb, Es; lia].
Qed.

Lemma write_loop_run fuel cur tail ids1 i ids2 c p r :
  t_closed c = false -> t_pcb c = Some p -> t_reqs c !! i = Some r -> busy r ->
  queue_ok (t_reqs c) cur tail (ids1 ++ i :: ids2) -> position (t_reqs c) ids1 ids2 ->
  (remaining (t_reqs c) (i :: ids2) < fuel)%nat ->
  (exists c' p', write_loop fuel (Some i) c = Ok true c' /\
                flushed (ids1 ++ i :: ids2) cur tail c c' p p') \/
  fell (write_loop fuel (Some i) c).
Proof.
  revert ids1 i ids2 c p r.
  induction fuel as [|fuel IH]; intros ids1 i ids2 c p r Hcl Hp Hi Hbusy Hq Hpos Hf; [lia|].
  assert (Hw : wr_ok r) by (destruct (q_reqs _ _ _ _ Hq i) as (r0 & Hr0 & ?); [set_solver|]; congruence).
  assert (Hleft : remaining (t_reqs c) (i :: ids2) =
       (Z.to_nat (zlen (send_bufs r) - sent_bufs r) + remaining (t_reqs c) ids2)%nat)
      by (unfold remaining; simpl; unfold bufs_left at 1; by rewrite Hi).
  pose proof (wr_pos _ Hw) as Hpos0.
  destruct (write_buf_run i r c p) as (code & c1 & E1 & K1); [done..|].
  destruct K1 as [(p1 & r1 & P1 & K1)|[Hlost Hcode]].
  2: { right. destruct fuel as [|fuel]; [unfold busy in Hbusy; lia|]. eapply write_loop_lost; (done || lia). }
  cbn [write_loop].
  destruct (pumped_queue ids1 i ids2 r r1 c c1 p p1 cur tail P1 Hi Hq Hpos) as (Hq1 & Hpos1 & Hs1).
  assert (F1 : flushed (ids1 ++ i :: ids2) cur tail c c1 p p1) by (by destruct P1).
  assert (Hcl1 : t_closed c1 = false) by (destruct F1 as [-> _ _ _]; done).
  rewrite (bind_ok _ _ _ _ _ E1). destruct K1 as [[-> _]|[-> B1]]; cbn [Z.eqb Pos.eqb].
  { left. by exists c1, p1. }
  assert (Hi1 : t_reqs c1 !! i = Some r1) by (rewrite (pu_reqs _ _ _ _ _ _ _ P1); apply lookup_insert_eq).
  assert (Ed1 : deref i c1 = Ok r1 c1) by (unfold deref, bind, gets; by rewrite Hi1).
  rewrite (bind_ok _ _ _ _ _ Ed1).
  assert (Hrem : remaining (t_reqs c1) ids2 = remaining (t_reqs c) ids2).
  { rewrite (pu_reqs _ _ _ _ _ _ _ P1). apply remaining_put_notin.
    pose proof (q_nodup _ _ _ _ Hq) as (_ & _ & [? _]%NoDup_cons)%NoDup_app. done. }
  pose proof (pu_bufs _ _ _ _ _ _ _ P1) as Eb. unfold busy in Hbusy.
  assert (Hgo : forall ids3 k, ids1 ++ i :: ids2 = ids3 ->
    (exists c' p', write_loop fuel k c1 = Ok true c' /\ flushed ids3 cur tail c1 c' p1 p') \/ fell (write_loop fuel k c1) ->
    (exists c' p', write_loop fuel k c1 = Ok true c' /\ flushed (ids1 ++ i :: ids2) cur tail c c' p p') \/
    fell (write_loop fuel k c1)).
  { intros ids3 k <- [(c2 & p2 & E2 & F2)|?]; [left|by right]. exists c2, p2. split; [done|].
    by eapply flushed_trans. }
  destruct (Z.eqb_spec (sent_bufs r1) (zlen (send_bufs r1))) as [Ed|Ed].
  - destruct (chain_split _ _ _ _ _ (q_chain _ _ _ _ Hq1)) as (r1' & Hi1' & Hch).
    assert (r1' = r1) as -> by congruence. destruct ids2 as [|k ids2].
    { rewrite (chain_head _ _ _ Hch). left. exists c1, p1. by destruct fuel. }
    rewrite (chain_head _ _ _ Hch). cbn [head].
    destruct (q_reqs _ _ _ _ Hq1 k) as (rk & Hk & Hwk); [set_solver|].
    apply (Hgo ((ids1 ++ [i]) ++ k :: ids2)); [by rewrite <-app_assoc|]. apply (IH _ k ids2 c1 p1 rk).
    + done.
    + by destruct P1.
    + done.
    + apply fresh_busy; [done|]. apply (po_after _ _ _ Hpos1 k); [set_solver|done].
    + by rewrite <-app_assoc.
    + destruct Hpos1 as [Hb Ha]. split; [|intros j rj Hj; apply Ha; set_solver].
      intros j rj [Hj|Hj]%elem_of_app Hrj; [by eapply Hb|].
      apply list_elem_of_singleton in Hj as ->. unfold busy. naive_solver lia.
    + lia.
  - apply (Hgo (ids1 ++ i :: ids2)); [done|]. apply (IH ids1 i ids2 c1 p1 r1); try done.
    + by destruct P1.
    + unfold busy. pose proof (wr_pos _ (pu_ok _ _ _ _ _ _ _ P1)). lia.
    + change (bufs_left (t_reqs c1) i + remaining (t_reqs c1) ids2 < fuel)%nat.
      unfold bufs_left. rewrite Hi1, Eb. lia.
Qed.

(** The loops have fuel for the whole queue. *)
Lemma queue_size (h : gmap nat uvl_write_t) ids :
  NoDup ids -> (forall i, i ∈ ids -> is_Some (h !! i)) -> (length ids <= size h)%nat.
Proof.
  revert h. induction ids as [|i ids IH]; intros h Hnd Hs; simpl; [lia|]. apply NoDup_cons in Hnd as [Hi Hnd].
  destruct (Hs i) as [r Hr]; [set_solver|]. rewrite <-(insert_delete_id _ _ _ Hr).
  rewrite map_size_insert_None by apply lookup_delete_eq. apply le_n_S, IH; [done|].
  intros j Hj. rewrite lookup_delete_ne by set_solver. apply Hs. set_solver.
Qed.

Definition all_bufs (h : gmap nat uvl_write_t) : nat :=
  map_fold (fun _ r n => length (send_bufs r) + n)%nat O h.

Lemma remaining_fuel h ids :
  NoDup ids -> (forall i r, i ∈ ids -> h !! i = Some r -> 0 <= sent_bufs r) ->
  (remaining h ids <= all_bufs h)%nat.
Proof.
  revert h. induction ids as [|i ids IH]; intros h Hnd Hs; [unfold remaining; simpl; lia|].
  apply NoDup_cons in Hnd as [Hi Hnd]. rewrite remaining_cons. unfold bufs_left.
  destruct (h !! i) as [r|] eqn:Hr.
  - unfold all_bufs. rewrite (map_fold_delete_L _ _ i r) by (intros; lia || done).
    specialize (IH (delete i h) Hnd). pose proof (Hs i r ltac:(set_solver) Hr).
    assert (Er : remaining (delete i h) ids = remaining h ids).
    { unfold remaining. f_equal. apply list_fmap_ext. intros k j Hj. unfold bufs_left.
      rewrite lookup_delete_ne; [done|]. intros ->. apply Hi. by eapply list_elem_of_lookup_2. }
    rewrite <-Er. change (map_fold _ O (delete i h)) with (all_bufs (delete i h)).
    assert (remaining (delete i h) ids <= all_bufs (delete i h))%nat.
    { apply IH. intros j rj Hj Hrj. apply lookup_delete_Some in Hrj as [_ Hrj]. apply (Hs j rj); [set_solver|done]. }
    unfold zlen. lia.
  - apply IH; [done|]. intros j rj Hj. apply Hs. set_solver.
Qed.

Lemma first_unsent_run fuel c cur ids0 ids :
  chain (t_reqs c) cur ids -> (length ids <= fuel)%nat ->
  (forall i, i ∈ ids -> exists r, t_reqs c !! i = Some r /\ wr_ok r) -> ordered (t_reqs c) ids ->
  (forall j r, j ∈ ids0 -> t_reqs c !! j = Some r -> ~ busy r) ->
  exists res, first_unsent fuel cur c = Ok res c /\
    match res with
    | None => forall j r, j ∈ ids -> t_reqs c !! j = Some r -> ~ busy r
    | Some i => exists ids1 ids2 r, ids0 ++ ids = (ids0 ++ ids1) ++ i :: ids2 /\
                  t_reqs c !! i = Some r /\ busy r /\ position (t_reqs c) (ids0 ++ ids1) ids2
    end.
Proof.
  intros Hc. revert fuel ids0. induction Hc as [|i r ids Hi Hc IH]; intros fuel ids0 Hf Hreq Hord Hpre.
  { exists None. split; [by destruct fuel|]. set_solver. }
  destruct fuel as [|fuel]; [simpl in Hf; lia|]. cbn [first_unsent]. unfold deref.
  unfold bind at 1 2, gets at 1. rewrite Hi. unfold ret at 1. destruct Hord as [Hord1 Hord].
  case_test.
  - exists (Some i). split; [done|]. exists [], ids, r. rewrite app_nil_r. split_and!; try done.
    split; [by apply Hpre|]. intros j rj Hj. by eapply Hord1.
  - destruct (IH fuel (ids0 ++ [i])) as (res & -> & Hres).
    + simpl in Hf. lia.
    + intros j Hj. apply Hreq. set_solver.
    + done.
    + intros j rj [Hj|Hj]%elem_of_app Hrj; [by eapply Hpre|].
      apply list_elem_of_singleton in Hj as ->. unfold busy. naive_solver lia.
    + exists res. split; [done|]. destruct res as [k|].
      * destruct Hres as (ids1 & ids2 & rk & E & Hk). exists (i :: ids1), ids2, rk.
        rewrite <-!app_assoc in *. simpl in *. split; [done|]. done.
      * intros j rj [->|Hj]%elem_of_cons Hrj; [unfold busy; naive_solver lia|by eapply Hres].
Qed.

End pump.

(** ** The connection's invariant *)

(** [ids]: the requests in the queue; [W]: every byte the caller asked to write;
    [A]: every request, in order. *)
Record inv `{Lwip} (c : uvl_tcp_t) (ids : list nat) (W : bytes) (A : list nat) : Prop := {
  iv_queue : queue_ok (t_reqs c) (t_cur_write c) (t_tail_write c) ids;
  iv_stream : t_closed c = false ->
    exists p, t_pcb c = Some p /\ stream p ++ backlog (t_reqs c) ids = W;
  iv_called : called (t_log c) ++ ids = A;
  iv_buf : exists b, t_buf c = Some b /\ zlen (recv_buf b) = UVL_TCP_RECV_BUF_LEN /\
                     0 <= recv_used b <= UVL_TCP_RECV_BUF_LEN;
  iv_close : t_close_cb c = None;
}.

Section operations.
Context `{UvEnv} `{!LwipLaws}.

Lemma hung_up_inv c c' ids W A : hung_up c c' -> inv c ids W A -> inv c' ids W A.
Proof.
  intros (E1 & E2 & E3 & E4 & E5 & E6 & _ & E7) [Hq _ Hc Hb Hn].
  constructor; rewrite ?E1, ?E2, ?E3, ?E4, ?E5, ?E6, ?E7; done.
Qed.

(** The two loops of the pump, with the fuel the code gives them. *)
Lemma pump_loops_run c ids p :
  t_closed c = false -> queue_ok (t_reqs c) (t_cur_write c) (t_tail_write c) ids -> t_pcb c = Some p ->
  exists req, first_unsent (queue_fuel c) (t_cur_write c) c = Ok req c /\
    ((exists c1 p1, write_loop (write_fuel c) req c = Ok true c1 /\
        flushed ids (t_cur_write c) (t_tail_write c) c c1 p p1) \/
     fell (write_loop (write_fuel c) req c)).
Proof.
  intros Hcl Hq Hp.
  destruct (first_unsent_run (queue_fuel c) c (t_cur_write c) [] ids) as (res & E1 & Hres).
  { apply Hq. }
  { apply queue_size; [apply Hq|]. intros i Hi. destruct (q_reqs _ _ _ _ Hq i Hi) as (r & -> & _). done. }
  { apply Hq. } { apply Hq. } { set_solver. }
  exists res. split; [done|]. destruct res as [i|].
  - destruct Hres as (ids1 & ids2 & r & E & Hi & Hb & Hpos). simpl in E, Hpos. subst ids.
    apply (write_loop_run (write_fuel c) (t_cur_write c) (t_tail_write c) ids1 i ids2 c p r); try done.
    apply (Nat.le_lt_trans _ (all_bufs (t_reqs c))); [|unfold write_fuel, all_bufs; lia].
    apply (remaining_fuel _ (i :: ids2)).
    + pose proof (q_nodup _ _ _ _ Hq) as (_ & _ & ?)%NoDup_app. done.
    + intros j rj Hj Hrj. destruct (q_reqs _ _ _ _ Hq j) as (r' & Hr' & Hw); [set_solver|].
      pose proof (wr_pos _ Hw). naive_solver lia.
  - left. exists c, p. split; [by destruct (write_fuel c)|]. constructor; try done. apply frame_refl.
Qed.

(** The pump: lwIP gets a prefix of the backlog, or the connection is closed; or lwIP failed
    and the pump uses the control block it has given up. *)
Lemma write_to_tcp_run c ids W A :
  inv c ids W A -> t_closed c = false -> ids <> [] ->
  (exists c', uvl_imp_write_to_tcp c = Ok tt c' /\ inv c' ids W A) \/
  fatal /\ uvl_imp_write_to_tcp c = Stop NullDeref.
Proof.
  intros Hinv Hcl Hne. destruct (iv_stream _ _ _ _ Hinv Hcl) as (p & Hp & HW).
  pose proof (iv_queue _ _ _ _ Hinv) as Hq.
  assert (Hcur : is_Some (t_cur_write c)).
  { rewrite (chain_head _ _ _ (q_chain _ _ _ _ Hq)). by destruct ids. }
  unfold uvl_imp_write_to_tcp. rewrite (bind_ok _ _ _ c c) by done.
  rewrite bool_decide_eq_true_2 by done. rewrite (bind_ok _ _ _ tt c) by done.
  rewrite bool_decide_eq_true_2 by (by rewrite Hp). rewrite (bind_ok _ _ _ tt c) by done.
  destruct (pump_loops_run c ids p Hcl Hq Hp) as (res & E1 & Hloop). rewrite (bind_ok _ _ _ _ _ E1).
  destruct Hloop as [(c1 & p1 & E2 & [Hfr Hp1 Hq1 Hs1])|[Hf [(c1 & E2 & Hp1)|E2]]].
  2: { right. split; [done|]. rewrite (bind_ok _ _ _ _ _ E2). cbn [negb].
       rewrite (bind_ok _ _ _ c1 c1) by done. by rewrite Hp1. }
  2: { right. split; [done|]. by apply bind_stop. }
  left. rewrite (bind_ok _ _ _ _ _ E2). cbn [negb].
  rewrite (bind_ok _ _ _ c1 c1) by done. rewrite Hp1. rewrite (bind_ok _ _ _ p1 c1) by done.
  destruct (tcp_output p1) as [err p2] eqn:Eo. pose proof (output_stream _ _ _ Eo) as Es2.
  set (c2 := set_t_pcb (Some p2) c1). rewrite (bind_ok _ _ _ tt c2) by done.
  assert (Hi2 : inv c2 ids W A).
  { destruct Hinv as [_ _ Hc Hb Hn]. unfold c2. rewrite Hfr in Hq1 |- *. constructor; try done.
    intros _. exists p2. split; [done|]. rewrite Es2. rewrite Hfr in Hs1. simpl in *. congruence. }
  case_test; [by exists c2|].
  destruct (close_func_run c2 p2) as (e & c3 & E3 & Hh & _); [by unfold c2; rewrite Hfr|done|].
  cbn [negb]. rewrite (bind_ok _ _ _ _ _ E3). exists c3. split; [done|]. by eapply hung_up_inv.
Qed.

(** Removing the first request. *)
Lemma queue_pop h i r ids tail :
  queue_ok h (Some i) tail (i :: ids) -> h !! i = Some r ->
  queue_ok (delete i h) (next r) (last ids) ids /\ backlog (delete i h) ids = backlog h ids.
Proof.
  intros [Hc Hnd _ Hreq Hord] Hi. apply NoDup_cons in Hnd as [Hn Hnd].
  assert (Hl : forall j, j ∈ ids -> delete i h !! j = h !! j).
  { intros j Hj. apply lookup_delete_ne. set_solver. }
  inversion Hc as [|? r' ? Hi' Hc']; subst. assert (r' = r) as -> by congruence.
  split; [constructor; try done|].
  - apply (chain_mono h); [|done]. intros j Hj. by rewrite Hl.
  - intros j Hj. rewrite Hl by done. apply Hreq. set_solver.
  - destruct Hord as [_ Hord]. clear -Hord Hl. induction ids as [|k ids IH]; [done|].
    destruct Hord as [H1 H2]. split; [|apply IH; [done|intros; apply Hl; set_solver]].
    intros rk j rj Hk Hb Hj Hrj. rewrite Hl in Hk, Hrj by set_solver. by eapply H1.
  - unfold backlog. f_equal. apply list_fmap_ext. intros k j Hj. unfold unsent_at.
    rewrite Hl; [done|]. by eapply list_elem_of_lookup_2.
Qed.

(** What popping requests off the queue changes. *)
Record popped (pre ids : list nat) (c c' : uvl_tcp_t) : Prop := {
  pp_queue : queue_ok (t_reqs c') (head ids) (last ids) ids;
  pp_called : called (t_log c') = called (t_log c) ++ pre;
  pp_tail : t_tail_write c' = t_tail_write c;
  pp_closed : t_closed c' = t_closed c;
  pp_pcb : t_pcb c' = t_pcb c;
  pp_buf : t_buf c' = t_buf c;
  pp_read : t_read_cb c' = t_read_cb c;
  pp_close : t_close_cb c' = t_close_cb c;
}.

Lemma complete_loop_run fuel c ids :
  queue_ok (t_reqs c) (head ids) (last ids) ids -> t_cur_write c = head ids ->
  (length ids <= fuel)%nat ->
  exists pre ids' c', complete_loop fuel (head ids) c = Ok tt c' /\ ids = pre ++ ids' /\
    popped pre ids' c c' /\ t_cur_write c' = head ids' /\
    backlog (t_reqs c') ids' = backlog (t_reqs c) ids.
Proof.
  revert c fuel. induction ids as [|i ids IH]; intros c fuel Hq Hcur Hf.
  { exists [], [], c. split_and!; try done; [by destruct fuel|]. constructor; try done.
    by rewrite app_nil_r. }
  destruct fuel as [|fuel]; [simpl in Hf; lia|]. cbn [complete_loop head].
  destruct (q_reqs _ _ _ _ Hq i) as (r & Hi & Hw); [set_solver|].
  unfold deref. unfold bind at 1 2, gets at 1. rewrite Hi. unfold ret at 1.
  destruct ((total_sent r =? total_len r) && (pending r =? 0)) eqn:Ed.
  2: { exists [], (i :: ids), c. split_and!; try done. constructor; try done. by rewrite app_nil_r. }
  apply andb_true_iff in Ed as [Ed _]. apply Z.eqb_eq in Ed.
  destruct (queue_pop _ _ _ _ _ Hq Hi) as [Hq' Hb'].
  assert (Hnx : next r = head ids) by apply (chain_head _ _ _ (q_chain _ _ _ _ Hq')).
  rewrite (bind_ok _ _ _ tt (set_t_cur_write (next r) c)) by done.
  set (c1 := set_t_reqs (delete i (t_reqs c)) (set_t_log (t_log c ++ [EvWriteCb i 0]) (set_t_cur_write (next r) c))).
  rewrite (bind_ok _ _ _ tt c1) by done. rewrite Hnx in Hq' |- *.
  destruct (IH c1 fuel) as (pre & ids' & c2 & E2 & -> & [] & Hcur2 & Hb2); [done|done|simpl in Hf; lia|].
  exists (i :: pre), ids', c2. split_and!; try done.
  - constructor; try done. rewrite pp_called0. simpl. rewrite called_snoc. by rewrite <-app_assoc.
  - rewrite Hb2, backlog_cons. simpl. rewrite Hb'. unfold unsent_at. rewrite Hi.
    rewrite (zlen_0_inv (unsent r)); [done|]. pose proof (wr_total _ Hw). lia.
Qed.

Lemma cancel_loop_run fuel c ids :
  queue_ok (t_reqs c) (head ids) (last ids) ids -> (length ids <= fuel)%nat ->
  exists c', cancel_loop fuel (head ids) c = Ok tt c' /\ popped ids [] c c'.
Proof.
  revert c fuel. induction ids as [|i ids IH]; intros c fuel Hq Hf.
  { exists c. split; [by destruct fuel|]. constructor; try done. by rewrite app_nil_r. }
  destruct fuel as [|fuel]; [simpl in Hf; lia|]. cbn [cancel_loop head].
  destruct (q_reqs _ _ _ _ Hq i) as (r & Hi & Hw); [set_solver|].
  unfold deref. unfold bind at 1 2, gets at 1. rewrite Hi. unfold ret at 1.
  destruct (queue_pop _ _ _ _ _ Hq Hi) as [Hq' _].
  assert (Hnx : next r = head ids) by apply (chain_head _ _ _ (q_chain _ _ _ _ Hq')).
  set (c1 := set_t_reqs (delete i (t_reqs c)) (set_t_log (t_log c ++ [EvWriteCb i UV_ECANCELED]) c)).
  rewrite (bind_ok _ _ _ tt c1) by done. rewrite Hnx in Hq' |- *.
  destruct (IH c1 fuel) as (c2 & E2 & []); [done|simpl in Hf; lia|].
  exists c2. split; [done|]. constructor; try done.
  rewrite pp_called0. simpl. rewrite called_snoc. by rewrite <-app_assoc.
Qed.

Lemma queue_fuel_ok c ids cur tail :
  queue_ok (t_reqs c) cur tail ids -> (length ids <= queue_fuel c)%nat.
Proof.
  intros Hq. apply queue_size; [apply Hq|]. intros i Hi.
  destruct (q_reqs _ _ _ _ Hq i Hi) as (r & -> & _). done.
Qed.

(** The queue with its pointers written from its ends. *)
Lemma queue_ends h cur tail ids :
  queue_ok h cur tail ids -> cur = head ids /\ tail = last ids /\ queue_ok h (head ids) (last ids) ids.
Proof.
  intros Hq. pose proof (chain_head _ _ _ (q_chain _ _ _ _ Hq)) as E1.
  pose proof (q_tail _ _ _ _ Hq) as E2. subst. done.
Qed.

Lemma end_read_run st c :
  exists c', end_read st c = Ok tt c' /\ t_reqs c' = t_reqs c /\ t_cur_write c' = t_cur_write c /\
    t_tail_write c' = t_tail_write c /\ t_closed c' = t_closed c /\ t_pcb c' = t_pcb c /\
    t_buf c' = t_buf c /\ called (t_log c') = called (t_log c).
Proof.
  unfold end_read, bind, gets. destruct (t_read_cb c); eexists; (split; [reflexivity|]); simpl;
    rewrite ?called_snoc, ?app_nil_r; done.
Qed.

(** Cancelling empties the queue. *)
Lemma cancel_reqs_run c ids W A :
  inv c ids W A -> exists c', uvl_cancel_reqs c = Ok tt c' /\ called (t_log c') = A /\
    t_cur_write c' = None /\ t_tail_write c' = None /\ t_closed c' = t_closed c /\
    t_buf c' = t_buf c.
Proof.
  intros [Hq _ Hc Hb _]. destruct (queue_ends _ _ _ _ Hq) as (E1 & _ & Hq').
  unfold uvl_cancel_reqs. rewrite (bind_ok _ _ _ c c) by done. rewrite E1.
  destruct (cancel_loop_run (queue_fuel c) c ids Hq' (queue_fuel_ok _ _ _ _ Hq)) as (c1 & E & []).
  rewrite (bind_ok _ _ _ _ _ E). set (c2 := set_t_tail_write None (set_t_cur_write None c1)).
  rewrite (bind_ok _ _ _ tt (set_t_cur_write None c1)) by done.
  rewrite (bind_ok _ _ _ tt c2) by done.
  destruct (end_read_run UV_ECANCELED c2) as (c3 & E3 & H1 & H2 & H3 & H4 & H5 & H6 & H7).
  exists c3. split; [done|]. rewrite H2, H3, H4, H6, H7. simpl. rewrite pp_called0. done.
Qed.

(** The write wake-up: finished requests complete in order, the rest is pumped;
    on a closed connection everything is cancelled. *)
Lemma async_write_run c ids W A :
  inv c ids W A ->
  (exists ids' c', uvl_async_tcp_write_cb c = Ok tt c' /\
    if t_closed c then ids' = [] /\ called (t_log c') = A else inv c' ids' W A) \/
  t_closed c = false /\ fatal /\ uvl_async_tcp_write_cb c = Stop NullDeref.
Proof.
  intros Hinv. pose proof (iv_queue _ _ _ _ Hinv) as Hq.
  destruct (queue_ends _ _ _ _ Hq) as (E1 & E2 & Hq').
  unfold uvl_async_tcp_write_cb. rewrite (bind_ok _ _ _ c c) by done. rewrite E1.
  destruct (complete_loop_run (queue_fuel c) c ids Hq' E1 (queue_fuel_ok _ _ _ _ Hq))
    as (pre & ids' & c1 & E & -> & [] & Hcur & Hb).
  rewrite (bind_ok _ _ _ _ _ E). rewrite (bind_ok _ _ _ c1 c1) by done.
  set (c2 := if bool_decide (t_cur_write c1 = None) then set_t_tail_write None c1 else c1).
  rewrite (bind_ok _ _ _ tt c2) by (unfold c2; by destruct (bool_decide _)).
  assert (Hinv2 : inv c2 ids' W A /\ t_closed c2 = t_closed c /\ t_cur_write c2 = head ids').
  { destruct Hinv as [_ Hs Hc Hbuf Hn].
    assert (Hc2 : t_tail_write c2 = last ids' /\ t_reqs c2 = t_reqs c1 /\ t_cur_write c2 = head ids' /\
              t_closed c2 = t_closed c /\ t_pcb c2 = t_pcb c /\ t_log c2 = t_log c1 /\ t_buf c2 = t_buf c /\ t_close_cb c2 = t_close_cb c).
    { unfold c2. rewrite Hcur. destruct ids' as [|k ids']; simpl; [done|].
      rewrite pp_tail0, E2. split_and!; try done. by rewrite last_app_cons. }
    destruct Hc2 as (T1 & T2 & T3 & T4 & T5 & T6 & T7 & T8). split_and!; [|done..].
    constructor; rewrite ?T1, ?T2, ?T3, ?T4, ?T5, ?T6, ?T7, ?T8; [done| | |done|done].
    - intros Hcl. destruct (Hs Hcl) as (p & Hp & HW). exists p. split; [done|]. by rewrite Hb.
    - rewrite pp_called0, <-app_assoc. done. }
  destruct Hinv2 as (Hinv2 & Hcl2 & Hcur2). rewrite pp_closed0.
  destruct (t_closed c) eqn:Hcl.
  - left. destruct (cancel_reqs_run _ _ _ _ Hinv2) as (c3 & E3 & Hc3 & _). exists [], c3. done.
  - rewrite Hcur. destruct ids' as [|k ids']; simpl.
    + left. exists [], c2. done.
    + destruct (write_to_tcp_run c2 (k :: ids') W A) as [(c3 & E3 & H3)|[Hf E3]]; [done..| |by right].
      left. exists (k :: ids'), c3. done.
Qed.

(** ** Adding a request *)

(** The same requests up to their links. *)
Definition relinked (h h' : gmap nat uvl_write_t) (ids : list nat) : Prop :=
  forall j r, j ∈ ids -> h !! j = Some r -> exists n, h' !! j = Some (set_next n r).

Lemma relinked_tail h h' i ids : relinked h h' (i :: ids) -> relinked h h' ids.
Proof. intros Hr j r Hj. apply Hr. set_solver. Qed.

Lemma relinked_backlog h h' ids :
  relinked h h' ids -> (forall j, j ∈ ids -> is_Some (h !! j)) -> backlog h' ids = backlog h ids.
Proof.
  intros Hr Hs. unfold backlog. f_equal. apply list_fmap_ext. intros k j Hj.
  apply list_elem_of_lookup_2 in Hj. destruct (Hs j Hj) as [r Ej].
  destruct (Hr j r Hj Ej) as [n En]. unfold unsent_at. by rewrite Ej, En.
Qed.

Lemma relinked_ordered h h' ids i r :
  relinked h h' ids -> (forall j, j ∈ ids -> is_Some (h !! j)) -> h' !! i = Some r -> fresh r ->
  ordered h ids -> ordered h' (ids ++ [i]).
Proof.
  intros Hr Hs Hi Hf. induction ids as [|k ids IH]; intros Ho.
  { split; [|done]. intros ? ? ? ? ? []%not_elem_of_nil. }
  destruct Ho as [H1 H2]. split; [|apply IH; [by eapply relinked_tail|intros; apply Hs; set_solver|done]].
  intros rk j rj Hk Hb Hj Hrj. apply elem_of_app in Hj as [Hj|Hj].
  - destruct (Hs k) as [rk0 Ek]; [set_solver|]. destruct (Hr k rk0) as [n En]; [set_solver|done|].
    destruct (Hs j) as [rj0 Ej]; [set_solver|]. destruct (Hr j rj0) as [m Em]; [set_solver|done|].
    rewrite Hk in En. injection En as ->. rewrite Hrj in Em. injection Em as ->.
    exact (H1 rk0 j rj0 Ek Hb Hj Ej).
  - apply list_elem_of_singleton in Hj as ->. congruence.
Qed.

Lemma chain_snoc h h' q ids i r t :
  chain h q ids -> NoDup ids -> last ids = Some t -> h' !! i = Some r -> next r = None ->
  (forall j, j ∈ ids -> j <> t -> h' !! j = h !! j) ->
  (exists rt, h' !! t = Some rt /\ next rt = Some i) -> chain h' q (ids ++ [i]).
Proof.
  intros Hc. revert t. induction Hc as [|k rk ids Hk Hc IH]; intros t Hnd Hl Hi Hn Hsame Ht; [done|].
  apply NoDup_cons in Hnd as [Hni Hnd]. destruct ids as [|k' ids].
  - injection Hl as <-. destruct Ht as (rt & Et & Ent). simpl. econstructor; [exact Et|]. rewrite Ent.
    econstructor; [exact Hi|]. rewrite Hn. constructor.
  - simpl. assert (Hkt : k <> t).
    { intros ->. apply Hni. apply last_Some_elem_of. by rewrite last_cons_cons in Hl. }
    econstructor; [rewrite Hsame by (done || set_solver); exact Hk|].
    apply (IH t); try done. intros; apply Hsame; [set_solver|done].
Qed.

Lemma total_len_eq (bufs : list bytes) :
  zlen (concat bufs) < 2 ^ 32 -> foldl (fun n b => u32 (n + zlen b)) 0 bufs = zlen (concat bufs).
Proof.
  intros Hl. assert (Hg : forall n, 0 <= n -> n + zlen (concat bufs) < 2 ^ 32 ->
    foldl (fun n b => u32 (n + zlen b)) n bufs = n + zlen (concat bufs)); [|by rewrite Hg].
  clear Hl. induction bufs as [|b bufs IH]; intros n Hn Hl; simpl; [rewrite zlen_nil; lia|].
  simpl in Hl. rewrite zlen_app in *. rewrite u32_id by (unfold is_u32; zlia).
  rewrite IH by zlia. lia.
Qed.

Definition new_req (bufs : list bytes) : uvl_write_t :=
  {| send_bufs := bufs; sent_bufs := 0; sent := 0; pending := 0; total_sent := 0;
     total_len := foldl (fun n b => u32 (n + zlen b)) 0 bufs; next := None |}.

Lemma new_req_ok bufs :
  bufs <> [] -> zlen bufs < 2 ^ 32 -> zlen (concat bufs) < 2 ^ 32 ->
  wr_ok (new_req bufs) /\ unsent (new_req bufs) = concat bufs.
Proof.
  intros Hne Hn Hl. pose proof (total_len_eq bufs Hl) as Ht.
  assert (Hu : unsent (new_req bufs) = concat bufs) by done. split; [|done].
  constructor; cbn [new_req send_bufs sent_bufs sent total_len total_sent pending]; rewrite ?Ht; try done.
  - zlia.
  - zlia.
  - rewrite Hu. lia.
Qed.

(** The state after a write: the request at the tail, the old tail linked to it. *)
Record appended (c c' : uvl_tcp_t) (ids : list nat) (i : nat) (bufs : list bytes) : Prop := {
  ap_chain : chain (t_reqs c') (t_cur_write c') (ids ++ [i]);
  ap_tail : t_tail_write c' = Some i;
  ap_new : t_reqs c' !! i = Some (new_req bufs);
  ap_relinked : relinked (t_reqs c) (t_reqs c') ids;
  ap_closed : t_closed c' = t_closed c;
  ap_pcb : t_pcb c' = t_pcb c;
  ap_buf : t_buf c' = t_buf c;
  ap_called : called (t_log c') = called (t_log c);
  ap_close : t_close_cb c' = t_close_cb c;
}.

Lemma uvl_write_appends c ids i bufs :
  queue_ok (t_reqs c) (t_cur_write c) (t_tail_write c) ids -> i ∉ ids ->
  exists e c', uvl_write i bufs c = Ok e c' /\ appended c c' ids i bufs.
Proof.
  intros Hq Hni. pose proof (queue_ends _ _ _ _ Hq) as (Ecur & Etl & _).
  unfold uvl_write. rewrite (bind_ok _ _ _ c c) by done.
  rewrite (bind_ok _ _ _ tt (set_t_reqs (<[i := new_req bufs]> (t_reqs c)) c)) by done.
  destruct (last ids) as [t|] eqn:El.
  - assert (Ht : t ∈ ids) by (by apply last_Some_elem_of). destruct (q_reqs _ _ _ _ Hq t Ht) as (rt & Ert & _).
    assert (Hti : i <> t) by (intros ->; done).
    rewrite Etl. unfold deref. unfold bind at 1 2 3, gets at 1. cbn [t_reqs set_t_reqs].
    rewrite (lookup_insert_ne _ _ _ _ Hti), Ert. unfold ret at 1.
    set (h' := <[t := set_next (Some i) rt]> (<[i := new_req bufs]> (t_reqs c))).
    assert (Hnew : h' !! i = Some (new_req bufs)).
    { unfold h'. rewrite lookup_insert_ne by done. apply lookup_insert_eq. }
    assert (Hcs : is_Some (t_cur_write c)) by (rewrite Ecur; by destruct ids).
    rewrite (bool_decide_eq_false_2 (t_cur_write c = None)) by (by destruct Hcs as [? ->]).
    eexists _, _. split; [reflexivity|]. constructor; simpl; try done.
    + apply (chain_snoc (t_reqs c) _ _ _ _ (new_req bufs) t); try done; [apply Hq|apply Hq|..].
      * intros j Hj Hjt. unfold h'. by rewrite !lookup_insert_ne by set_solver.
      * exists (set_next (Some i) rt). unfold h'. by rewrite lookup_insert_eq.
    + intros j r Hj Hr. unfold h'. destruct (decide (j = t)) as [->|Hjt].
      * rewrite lookup_insert_eq. exists (Some i). by simplify_eq.
      * exists (next r). rewrite !lookup_insert_ne by set_solver. by destruct r.
    + by rewrite called_snoc, app_nil_r.
  - apply last_None in El as ->. rewrite Etl, Ecur. simpl.
    eexists _, _. split; [reflexivity|]. constructor; simpl; try done.
    + econstructor; [apply lookup_insert_eq|constructor].
    + apply lookup_insert_eq.
    + by intros j r []%not_elem_of_nil.
    + by rewrite called_snoc, app_nil_r.
Qed.

Lemma uvl_write_run c ids W A i bufs :
  inv c ids W A -> t_reqs c !! i = None -> bufs <> [] -> zlen bufs < 2 ^ 32 ->
  zlen (concat bufs) < 2 ^ 32 ->
  exists e c', uvl_write i bufs c = Ok e c' /\ t_closed c' = t_closed c /\
    inv c' (ids ++ [i]) (W ++ concat bufs) (A ++ [i]).
Proof.
  intros [Hq Hs Hc Hb Hcb] Hi Hne Hn Hl. destruct (new_req_ok bufs Hne Hn Hl) as [Hok Hun].
  assert (Hreq : forall j, j ∈ ids -> exists r, t_reqs c !! j = Some r /\ wr_ok r) by apply Hq.
  assert (Hni : i ∉ ids) by (intros Hin; destruct (Hreq i Hin) as (? & ? & _); congruence).
  destruct (uvl_write_appends c ids i bufs Hq Hni) as (e & c' & E & [Hch Et Hi' Hrl Ecl Ep Eb Elog Ecb]).
  exists e, c'. split; [done|]. split; [done|].
  assert (Hsm : forall j, j ∈ ids -> is_Some (t_reqs c !! j)) by (intros j (? & -> & _)%Hreq; done).
  constructor; rewrite ?Ecl, ?Ep, ?Eb, ?Elog, ?Ecb; [| | |done|done].
  - constructor; [done| | | |].
    + apply NoDup_app. split_and!; [apply Hq|set_solver|apply NoDup_singleton].
    + by rewrite last_snoc.
    + intros j [Hj|Hj]%elem_of_app.
      * destruct (Hreq j Hj) as (r & Er & Hw). destruct (Hrl j r Hj Er) as [n En]. eexists. split; [done|].
        destruct Hw. by constructor.
      * apply list_elem_of_singleton in Hj as ->. by exists (new_req bufs).
    + eapply relinked_ordered; [done..|by split|apply Hq].
  - intros Hcl. destruct (Hs Hcl) as (p & Hp & HW). exists p. split; [done|].
    rewrite backlog_app, (relinked_backlog (t_reqs c) (t_reqs c')) by done. unfold backlog at 2. simpl.
    unfold unsent_at. rewrite Hi', Hun, app_nil_r, app_assoc. by rewrite HW.
  - by rewrite app_assoc, Hc.
Qed.

(** ** Acknowledgements *)

Definition pending_at (h : gmap nat uvl_write_t) (i : nat) : Z :=
  match h !! i with Some r => pending r | None => 0 end.
(** Bytes handed to lwIP and not acknowledged. *)
Definition outstanding (h : gmap nat uvl_write_t) (ids : list nat) : Z :=
  foldr Z.add 0 (pending_at h <$> ids).

Lemma outstanding_cons h i ids :
  outstanding h (i :: ids) = pending_at h i + outstanding h ids.
Proof. done. Qed.

(** Only pending counts of [ids] went down. *)
Record acked (h h' : gmap nat uvl_write_t) (ids : list nat) : Prop := {
  ak_in j r : j ∈ ids -> h !! j = Some r ->
    exists n, h' !! j = Some (set_pending n r) /\ 0 <= n <= pending r;
  ak_out j : j ∉ ids -> h' !! j = h !! j;
}.

Lemma outstanding_ext h h' ids :
  (forall j, j ∈ ids -> h' !! j = h !! j) -> outstanding h' ids = outstanding h ids.
Proof.
  intros Hs. unfold outstanding. f_equal. apply list_fmap_ext. intros k j Hj.
  unfold pending_at. rewrite Hs; [done|]. by eapply list_elem_of_lookup_2.
Qed.

Lemma outstanding_nonneg (h : gmap nat uvl_write_t) ids :
  (forall j, j ∈ ids -> exists r, h !! j = Some r /\ wr_ok r) -> 0 <= outstanding h ids.
Proof.
  induction ids as [|i ids IH]; intros Hr; [done|]. rewrite outstanding_cons.
  destruct (Hr i) as (r & Er & Hw); [set_solver|]. unfold pending_at. rewrite Er.
  pose proof (wr_pending _ Hw). assert (0 <= outstanding h ids) by (apply IH; intros; apply Hr; set_solver).
  lia.
Qed.

Lemma sent_loop_run fuel ids q len c :
  chain (t_reqs c) q ids -> NoDup ids -> (length ids < fuel)%nat ->
  (forall j, j ∈ ids -> exists r, t_reqs c !! j = Some r /\ wr_ok r) ->
  0 <= len <= outstanding (t_reqs c) ids -> len < 2 ^ 16 ->
  exists h', sent_loop fuel q len c = Ok tt (set_t_reqs h' c) /\ acked (t_reqs c) h' ids /\
             outstanding h' ids = outstanding (t_reqs c) ids - len.
Proof.
  revert fuel q len c. induction ids as [|i ids IH]; intros fuel q len c Hc Hnd Hf Hreq Hlen H16.
  { assert (len = 0) as -> by (unfold outstanding in Hlen; simpl in Hlen; lia).
    exists (t_reqs c). split; [destruct fuel, c; done|]. split; [|lia]. split; [set_solver|done]. }
  inversion Hc as [|? r ? Hi Hcn]; subst q. subst.
  destruct fuel as [|fuel]; [simpl in Hf; lia|]. apply NoDup_cons in Hnd as [Hni Hnd].
  assert (Hout : outstanding (t_reqs c) (i :: ids) = pending r + outstanding (t_reqs c) ids).
  { rewrite outstanding_cons. unfold pending_at. by rewrite Hi. }
  destruct (Hreq i) as (r' & Hr' & Hw); [set_solver|]. assert (r' = r) as -> by congruence.
  pose proof (wr_pending _ Hw) as Hpend. pose proof (wr_total _ Hw). pose proof (wr_len _ Hw).
  cbn [sent_loop]. case_test.
  2: { assert (len = 0) as -> by lia. exists (t_reqs c). split; [by destruct c|]. split; [|lia].
       split; [|done]. intros j rj Hj Hrj. exists (pending rj). destruct (Hreq j Hj) as (r0 & E0 & W0).
       assert (r0 = rj) as -> by congruence. pose proof (wr_pending _ W0). destruct rj; split; [done|].
       simpl in *. lia. }
  unfold nonnull. rewrite (bind_ok _ _ _ i c) by done. unfold deref. unfold bind at 1 2, gets at 1.
  rewrite Hi. unfold ret at 1. set (n := Z.min (pending r) len).
  assert (Hn : n = Z.min (pending r) len) by done. clearbody n. rewrite Hout in Hlen.
  rewrite u32_id, u16_id by (unfold is_u32, is_u16; zlia).
  set (h1 := <[i := set_pending (pending r - n) r]> (t_reqs c)).
  rewrite (bind_ok _ _ _ tt (set_t_reqs h1 c)) by done.
  assert (Hs1 : forall j, j ∈ ids -> h1 !! j = t_reqs c !! j).
  { intros j Hj. unfold h1. apply lookup_insert_ne. set_solver. }
  assert (Ho1 : outstanding h1 ids = outstanding (t_reqs c) ids) by (by apply outstanding_ext).
  destruct (IH fuel (next r) (len - n) (set_t_reqs h1 c)) as (h2 & E2 & [A1 A2] & Ho2).
  - apply (chain_mono (t_reqs c)); [|done]. intros j Hj. simpl. by rewrite Hs1.
  - done.
  - simpl in Hf. lia.
  - intros j Hj. simpl. rewrite Hs1 by done. apply Hreq. set_solver.
  - change (t_reqs (set_t_reqs h1 c)) with h1. rewrite Ho1.
    pose proof (outstanding_nonneg (t_reqs c) ids ltac:(intros; apply Hreq; set_solver)). lia.
  - lia.
  - change (t_reqs (set_t_reqs h1 c)) with h1 in *. exists h2. split; [done|].
    assert (Hi2 : h2 !! i = Some (set_pending (pending r - n) r)).
    { rewrite A2 by done. unfold h1. apply lookup_insert_eq. }
    split; [split|].
    + intros j rj [->|Hj]%elem_of_cons Hrj.
      * exists (pending r - n). assert (rj = r) as -> by congruence. split; [done|lia].
      * apply A1; [done|]. by rewrite Hs1.
    + intros j Hj. rewrite A2 by set_solver. unfold h1. apply lookup_insert_ne. set_solver.
    + rewrite outstanding_cons, Ho2, Ho1, Hout. unfold pending_at. rewrite Hi2. simpl. lia.
Qed.

Lemma acked_queue h h' cur tail ids :
  queue_ok h cur tail ids -> acked h h' ids ->
  queue_ok h' cur tail ids /\ backlog h' ids = backlog h ids.
Proof.
  intros [Hc Hnd Htl Hreq Hord] [Ain _].
  assert (Hn : forall j, j ∈ ids -> exists r n, h !! j = Some r /\ wr_ok r /\
            h' !! j = Some (set_pending n r) /\ 0 <= n <= pending r).
  { intros j Hj. destruct (Hreq j Hj) as (r & Er & Hw). destruct (Ain j r Hj Er) as (n & En & ?). eauto 10. }
  split.
  - constructor; try done.
    + apply (chain_mono h); [|done]. intros j Hj. destruct (Hn j Hj) as (r & n & -> & _ & -> & _). done.
    + intros j Hj. destruct (Hn j Hj) as (r & n & _ & [] & -> & ?). eexists. split; [done|].
      constructor; try done. simpl. lia.
    + clear Hc Hnd Htl Hreq Ain. induction ids as [|k ids IH]; [done|]. destruct Hord as [H1 H2].
      split; [|apply IH; [done|intros; apply Hn; set_solver]]. intros rk j rj Hk Hb Hj Hrj.
      destruct (Hn k) as (r0 & n0 & E0 & _ & E0' & _); [set_solver|].
      destruct (Hn j) as (r1 & n1 & E1 & _ & E1' & _); [set_solver|].
      rewrite E0' in Hk. injection Hk as <-. rewrite E1' in Hrj. injection Hrj as <-.
      exact (H1 r0 j r1 E0 Hb Hj E1).
  - unfold backlog. f_equal. apply list_fmap_ext. intros k j Hj. apply list_elem_of_lookup_2 in Hj.
    destruct (Hn j Hj) as (r & n & E0 & _ & E1 & _). unfold unsent_at. by rewrite E0, E1.
Qed.

Lemma sent_func_run c ids W A len :
  inv c ids W A -> t_closed c = false -> 0 < len < 2 ^ 16 -> len <= outstanding (t_reqs c) ids ->
  exists c', uvl_client_sent_func len c = Ok ERR_OK c' /\ inv c' ids W A /\
             t_closed c' = false /\ outstanding (t_reqs c') ids = outstanding (t_reqs c) ids - len.
Proof.
  intros [Hq Hs Hc Hb Hcb] Hcl Hlen Hout. unfold uvl_client_sent_func.
  rewrite (bind_ok _ _ _ c c) by done. rewrite Hcl. rewrite (bind_ok _ _ _ tt c) by done.
  rewrite (proj2 (Z.ltb_lt 0 len)) by lia. rewrite (bind_ok _ _ _ tt c) by done.
  set (c1 := set_t_sent_bytes (u32 (t_sent_bytes c + len)) c). rewrite (bind_ok _ _ _ tt c1) by done.
  destruct (sent_loop_run (S (queue_fuel c)) ids (t_cur_write c) len c1) as (h' & E & Hak & Ho);
    [apply Hq|apply Hq|pose proof (queue_fuel_ok _ _ _ _ Hq); lia|apply Hq|simpl; lia|lia|].
  rewrite (bind_ok _ _ _ _ _ E). destruct (acked_queue _ _ _ _ _ Hq Hak) as [Hq' Hb'].
  eexists. split; [reflexivity|]. simpl. split_and!; [|done|done].
  constructor; simpl; [done| |by rewrite called_snoc, app_nil_r|done|done].
  intros _. destruct (Hs Hcl) as (p & Hp & HW). exists p. split; [done|]. by rewrite Hb'.
Qed.

(** ** Receiving *)

(** Received and not yet read. *)
Definition unread (c : uvl_tcp_t) : bytes :=
  match t_buf c with Some b => take (Z.to_nat (recv_used b)) (recv_buf b) | None => [] end.

(** The parts of the state the invariant is about. *)
Lemma inv_same c c' ids W A :
  inv c ids W A -> t_reqs c' = t_reqs c -> t_cur_write c' = t_cur_write c ->
  t_tail_write c' = t_tail_write c -> t_closed c' = t_closed c ->
  stream <$> t_pcb c' = stream <$> t_pcb c -> called (t_log c') = called (t_log c) ->
  (exists b, t_buf c' = Some b /\ zlen (recv_buf b) = UVL_TCP_RECV_BUF_LEN /\
             0 <= recv_used b <= UVL_TCP_RECV_BUF_LEN) ->
  t_close_cb c' = t_close_cb c -> inv c' ids W A.
Proof.
  intros [Hq Hs Hc _ Hcb] E1 E2 E3 E4 E5 E6 Hb E7. constructor; rewrite ?E1, ?E2, ?E3, ?E4, ?E6, ?E7; try done.
  intros Hcl. destruct (Hs Hcl) as (p & Hp & HW). rewrite Hp in E5.
  destruct (t_pcb c') as [p'|]; [|done]. injection E5 as E5. exists p'. by rewrite E5.
Qed.

Lemma recv_func_run c ids W A data :
  inv c ids W A -> t_closed c = false -> 0 < zlen data ->
  exists e c', uvl_client_recv_func (Some data) ERR_OK c = Ok e c' /\ inv c' ids W A /\
    t_closed c' = false /\
    (zlen (unread c) + zlen data <= UVL_TCP_RECV_BUF_LEN -> unread c' = unread c ++ data) /\
    (UVL_TCP_RECV_BUF_LEN < zlen (unread c) + zlen data -> e = ERR_MEM /\ c' = c).
Proof.
  intros Hinv Hcl Hd. destruct (iv_buf _ _ _ _ Hinv) as (b & Hb & Hlb & Hu).
  assert (Hur : zlen (unread c) = recv_used b) by (unfold unread; rewrite Hb; apply zlen_take; lia).
  destruct (iv_stream _ _ _ _ Hinv Hcl) as (p & Hp & _).
  unfold uvl_client_recv_func. rewrite (bind_ok _ _ _ c c) by done. rewrite Hcl.
  rewrite (bind_ok _ _ _ tt c) by done. rewrite bool_decide_eq_true_2 by (by rewrite Hp).
  do 2 (rewrite (bind_ok _ _ _ tt c) by done). rewrite (proj2 (Z.ltb_lt _ _)) by done.
  rewrite (bind_ok _ _ _ tt c) by done. rewrite Hb. rewrite (bind_ok _ _ _ b c) by done.
  case_test.
  { eexists _, c. split; [done|]. split_and!; [done|done|lia|done]. }
  change UVL_TCP_RECV_BUF_LEN with 2048 in *. rewrite mem_put_Some by lia. set (m := _ ++ _ ++ _).
  assert (Hm : zlen m = 2048).
  { unfold m. rewrite !zlen_app, zlen_take by lia.
    replace (Z.to_nat (recv_used b) + length data)%nat with (Z.to_nat (recv_used b + zlen data)) by (unfold zlen; lia).
    rewrite zlen_drop by lia. lia. }
  rewrite (bind_ok _ _ _ m c) by done. rewrite u16_id by (unfold is_u16; lia).
  eexists _, _. split; [reflexivity|]. simpl. split_and!; [|done| |lia].
  - apply (inv_same c); try done; [simpl; by rewrite called_snoc, app_nil_r|].
    eexists. split; [reflexivity|]. simpl. change UVL_TCP_RECV_BUF_LEN with 2048. split; [done|lia].
  - intros _. unfold unread at 1. simpl. unfold m. rewrite app_assoc, take_app_le.
    + unfold unread. rewrite Hb. apply take_ge. rewrite length_app, length_take. unfold zlen in *. lia.
    + rewrite length_app, length_take. unfold zlen in *. lia.
Qed.

(** The read wake-up hands everything received to a reader with a large enough
    buffer, and opens the window again. *)
Lemma read_cb_run c ids W A :
  inv c ids W A -> t_closed c = false ->
  exists c', uvl_async_tcp_read_cb c = Ok tt c' /\ inv c' ids W A /\ t_closed c' = false /\
    (t_read_cb c = true -> unread c <> [] ->
     (exists len, env_alloc (t_ticks c) = Some len /\ zlen (unread c) <= len) ->
     unread c' = [] /\ t_log c' = t_log c ++ [EvReadCb (zlen (unread c)) (unread c)]).
Proof.
  intros Hinv Hcl. destruct (iv_buf _ _ _ _ Hinv) as (b & Hb & Hlb & Hu).
  destruct (iv_stream _ _ _ _ Hinv Hcl) as (p & Hp & _).
  assert (Hur : zlen (unread c) = recv_used b) by (unfold unread; rewrite Hb; apply zlen_take; lia).
  unfold uvl_async_tcp_read_cb. rewrite (bind_ok _ _ _ c c) by done. rewrite Hb.
  rewrite (bind_ok _ _ _ b c) by done. rewrite (proj2 (Z.leb_le _ _)) by lia.
  rewrite (bind_ok _ _ _ tt c) by done.
  destruct (t_read_cb c && (0 <? recv_used b)) eqn:Er.
  2: { exists c. split_and!; try done. intros Hr Hne _. exfalso. apply Hne, zlen_0_inv.
       rewrite Hr in Er. simpl in Er. apply Z.ltb_ge in Er. zlia. }
  set (c1 := set_t_ticks (S (t_ticks c)) c). rewrite (bind_ok _ _ _ tt c1) by done.
  assert (Hno : forall st, inv (set_t_log (t_log c ++ [EvReadCb st []]) c1) ids W A).
  { intros st. apply (inv_same c); try done; [by simpl; rewrite called_snoc, app_nil_r|eauto]. }
  destruct (env_alloc (t_ticks c)) as [len|] eqn:Ea.
  2: { eexists. split; [reflexivity|]. split; [apply Hno|]. split; [done|]. intros _ _ (? & ? & _). done. }
  case_test.
  { eexists. split; [reflexivity|]. split; [apply Hno|]. split; [done|]. intros _ _ (? & [= <-] & ?). lia. }
  rewrite mem_get_Some by lia. change (drop (Z.to_nat 0) (recv_buf b)) with (recv_buf b).
  rewrite (bind_ok _ _ _ (take (Z.to_nat (recv_used b)) (recv_buf b)) c1) by done.
  rewrite Hp. rewrite (bind_ok _ _ _ p c1) by done.
  eexists. split; [reflexivity|]. split_and!; [|done|].
  - apply (inv_same c); try done; simpl.
    + rewrite Hp. simpl. by rewrite recved_stream.
    + by rewrite called_snoc, app_nil_r.
    + eexists. split; [reflexivity|]. simpl. rewrite Hlb. split; [done|]. unfold UVL_TCP_RECV_BUF_LEN, TCP_WND, TCP_MSS. lia.
  - intros _ _ _. split; [done|]. simpl. rewrite Hur. unfold unread. by rewrite Hb.
Qed.
End operations.

(** ** Runs of a connection *)

Inductive tcp_op :=
| OpWrite (i : nat) (bufs : list bytes)
| OpWriteWakeup
| OpAcked (len : Z)
| OpRecv (data : bytes)
| OpReadWakeup
| OpReadStart
| OpReadStop.

Definition exec `{UvEnv} (op : tcp_op) : M uvl_tcp_t unit :=
  match op with
  | OpWrite i bufs => let* _ := uvl_write i bufs in ret tt
  | OpWriteWakeup => uvl_async_tcp_write_cb
  | OpAcked len => let* _ := uvl_client_sent_func len in ret tt
  | OpRecv data => let* _ := uvl_client_recv_func (Some data) ERR_OK in ret tt
  | OpReadWakeup => uvl_async_tcp_read_cb
  | OpReadStart => let* _ := uvl_read_start in ret tt
  | OpReadStop => let* _ := uvl_read_stop in ret tt
  end.

(** What the caller and lwIP may do: a write uses a request that is not in use and
    has at least one buffer; acknowledgements are for bytes handed over. *)
Definition admits `{UvEnv} (c : uvl_tcp_t) (op : tcp_op) : Prop :=
  match op with
  | OpWrite i bufs =>
      t_reqs c !! i = None /\ bufs <> [] /\ zlen bufs < 2 ^ 32 /\ zlen (concat bufs) < 2 ^ 32
  | OpAcked len =>
      0 < len < 2 ^ 16 /\
      exists ids, chain (t_reqs c) (t_cur_write c) ids /\ len <= outstanding (t_reqs c) ids
  | OpRecv data => 0 < zlen data
  | _ => True
  end.

Definition op_bytes (op : tcp_op) : bytes :=
  match op with OpWrite _ bufs => concat bufs | _ => [] end.
Definition op_reqs (op : tcp_op) : list nat :=
  match op with OpWrite i _ => [i] | _ => [] end.

(** [runs c0 c W A]: from [c0], writes of the bytes [W] by the requests [A] and
    other operations lead to [c]; operations come while the connection is open. *)
Inductive runs `{UvEnv} (c0 : uvl_tcp_t) : uvl_tcp_t -> bytes -> list nat -> Prop :=
| runs_start : runs c0 c0 [] []
| runs_step c W A op c' :
    runs c0 c W A -> t_closed c = false -> admits c op -> exec op c = Ok tt c' ->
    runs c0 c' (W ++ op_bytes op) (A ++ op_reqs op).

(** A connection as [uvl_tcp_init] and [uvl_accept] leave it. *)
Record connected `{Lwip} (c : uvl_tcp_t) (p : pcb) : Prop := {
  cn_pcb : t_pcb c = Some p;
  cn_open : t_closed c = false;
  cn_cur : t_cur_write c = None;
  cn_tail : t_tail_write c = None;
  cn_log : called (t_log c) = [];
  cn_close : t_close_cb c = None;
  cn_buf : exists b, t_buf c = Some b /\ zlen (recv_buf b) = UVL_TCP_RECV_BUF_LEN /\
                     0 <= recv_used b <= UVL_TCP_RECV_BUF_LEN;
}.

Section traces.
Context `{UvEnv} `{!LwipLaws}.

Lemma chain_fun h q ids ids' : chain h q ids -> chain h q ids' -> ids = ids'.
Proof.
  intros Hc. revert ids'. induction Hc as [|i r ids Hi Hc IH]; intros ids' Hc'; inversion Hc'; subst; [done|].
  f_equal. apply IH. congruence.
Qed.

Lemma connected_inv c p : connected c p -> inv c [] (stream p) [].
Proof.
  intros [H1 H2 H3 H4 H5 H6 H7]. constructor; [|intros _; exists p; by rewrite app_nil_r|by rewrite H5|done|done].
  rewrite H3, H4. constructor; try done; [constructor|constructor|set_solver].
Qed.

(** One operation. *)
Lemma exec_run c ids W A op :
  inv c ids W A -> t_closed c = false -> admits c op ->
  (exists ids' c', exec op c = Ok tt c' /\ inv c' ids' (W ++ op_bytes op) (A ++ op_reqs op)) \/
  op = OpWriteWakeup /\ fatal /\ exec op c = Stop NullDeref.
Proof.
  intros Hinv Hcl Ha.
  destruct op as [i bufs| |len|data| | |]; cbn [admits exec op_bytes op_reqs] in *; rewrite ?app_nil_r.
  2: { destruct (async_write_run c ids W A Hinv) as [(ids' & c' & E & Hi)|(_ & Hf & E)]; [|by right].
       left. rewrite Hcl in Hi. eauto. }
  all: left.
  - destruct Ha as (? & ? & ? & ?).
    destruct (uvl_write_run c ids W A i bufs) as (e & c' & E & _ & Hi); [done..|].
    exists (ids ++ [i]), c'. by rewrite (bind_ok _ _ _ _ _ E).
  - destruct Ha as (? & ids' & Hch & Ho).
    assert (ids' = ids) as -> by (eapply chain_fun; [done|apply (iv_queue _ _ _ _ Hinv)]).
    destruct (sent_func_run c ids W A len) as (c' & E & Hi & _); [done..|].
    exists ids, c'. by rewrite (bind_ok _ _ _ _ _ E).
  - destruct (recv_func_run c ids W A data) as (e & c' & E & Hi & _); [done..|].
    exists ids, c'. by rewrite (bind_ok _ _ _ _ _ E).
  - destruct (read_cb_run c ids W A Hinv Hcl) as (c' & E & Hi & _). eauto.
  - unfold uvl_read_start. rewrite bind_assoc. rewrite (bind_ok _ _ _ c c) by done. rewrite Hcl.
    assert (Hn : forall b, inv (set_t_read_cb b (set_t_log (t_log c ++ [EvAsyncRead]) (set_t_ticks (S (t_ticks c)) c))) ids W A).
    { intros b. apply (inv_same c); try done; [by simpl; rewrite called_snoc, app_nil_r|]. apply Hinv. }
    destruct (t_read_cb c) eqn:Er; [by exists ids, c|].
    exists ids. unfold uv_async_send, bind, gets, upd, modify, log, ret. simpl.
    destruct (env_async_send (t_ticks c) =? 0); eexists; (split; [reflexivity|]); [apply (Hn true)|].
    specialize (Hn false). by destruct c; simpl in *; subst.
  - exists ids. eexists. split; [reflexivity|]. apply (inv_same c); try done. apply Hinv.
Qed.

Lemma runs_inv c0 p0 c W A :
  connected c0 p0 -> runs c0 c W A -> exists ids, inv c ids (stream p0 ++ W) A.
Proof.
  intros Hc0. induction 1 as [|c W A op c' _ [ids IH] Hcl Ha He].
  - exists []. rewrite app_nil_r. by apply connected_inv.
  - destruct (exec_run c ids _ _ op IH Hcl Ha) as [(ids' & c2 & E & Hi)|(_ & _ & E)]; [|congruence].
    exists ids'. rewrite app_assoc. congruence.
Qed.

Lemma tcp_close_run cb c ids W A :
  inv c ids W A -> exists c', uvl_tcp_close cb c = Ok 0 c' /\ called (t_log c') = A /\
    t_cur_write c' = None /\ t_closed c' = true.
Proof.
  intros Hinv. unfold uvl_tcp_close. rewrite (bind_ok _ _ _ c c) by done.
  rewrite bool_decide_eq_true_2 by (left; apply Hinv). rewrite (bind_ok _ _ _ tt c) by done.
  assert (Hc : exists c1, (if negb (t_closed c) then let* _ := uvl_client_close_func in ret tt else ret tt) c
             = Ok tt c1 /\ inv c1 ids W A /\ t_closed c1 = true).
  { destruct (t_closed c) eqn:Hcl; [by exists c|].
    destruct (iv_stream _ _ _ _ Hinv Hcl) as (p & Hp & _).
    destruct (close_func_run c p Hcl Hp) as (e & c1 & E & Hh & _). exists c1. cbn [negb].
    rewrite (bind_ok _ _ _ _ _ E). split; [done|]. split; [by eapply hung_up_inv|apply Hh]. }
  destruct Hc as (c1 & E1 & Hi1 & Hcl1). rewrite (bind_ok _ _ _ _ _ E1).
  destruct (cancel_reqs_run c1 ids W A Hi1) as (c2 & E2 & Hcall & Hcur & _ & Hcl2 & _).
  rewrite (bind_ok _ _ _ _ _ E2). eexists. split; [reflexivity|]. simpl.
  rewrite !called_snoc, !app_nil_r. split_and!; [done|done|congruence].
Qed.

(** ** Fuel

    A loop that returns with some fuel returns the same with more. *)
Lemma first_unsent_mono n m req c res c' :
  first_unsent n req c = Ok res c' -> (n <= m)%nat -> first_unsent m req c = Ok res c'.
Proof.
  revert m req. induction n as [|n IH]; intros m req E Hm.
  { destruct req; [discriminate E|]. by destruct m. }
  destruct m as [|m]; [lia|]. destruct req as [i|]; [|done]. cbn [first_unsent] in *.
  apply bind_ok_inv in E as (r & c1 & E1 & E). rewrite (bind_ok _ _ _ _ _ E1).
  destruct (_ <? _); [done|]. assert (c1 = c) as ->.
  { unfold deref, bind, gets, ret, halt in E1. destruct (t_reqs c !! i); by simplify_eq/=. }
  apply IH; [done|lia].
Qed.

Lemma write_loop_mono n m req c R :
  write_loop n req c = R -> R <> Stop AssertFail -> (n <= m)%nat -> write_loop m req c = R.
Proof.
  intros <-. revert m req c. induction n as [|n IH]; intros m req c Hr Hm.
  { destruct req; [done|]. by destruct m. }
  destruct m as [|m]; [lia|]. destruct req as [i|]; [|done]. cbn [write_loop] in *. unfold bind at 1 3.
  unfold bind at 1 in Hr. destruct (uvl_imp_write_buf_to_tcp i c) as [code c1|]; [|done].
  destruct (code =? 0); [done|]. destruct (code =? -1); [done|]. unfold bind at 1 2. unfold bind at 1 in Hr.
  destruct (deref i c1) as [r c2|]; [|done]. apply IH; [done|lia].
Qed.

Lemma write_buf_loop_mono n m i buf c res c' :
  write_buf_loop n i buf c = Ok res c' -> (n <= m)%nat -> write_buf_loop m i buf c = Ok res c'.
Proof.
  revert m c. induction n as [|n IH]; intros m c E Hm; (destruct m as [|m]; [try done; lia|]);
    cbn [write_buf_loop] in *.
  all: apply bind_ok_inv in E as (c0 & s0 & E0 & E); rewrite (bind_ok _ _ _ _ _ E0).
  all: apply bind_ok_inv in E as (p & s1 & E1 & E); rewrite (bind_ok _ _ _ _ _ E1).
  all: apply bind_ok_inv in E as (r & s2 & E2 & E); rewrite (bind_ok _ _ _ _ _ E2).
  all: destruct (_ =? 0); [done|].
  all: apply bind_ok_inv in E as (d & s3 & E3 & E); rewrite (bind_ok _ _ _ _ _ E3).
  all: destruct (tcp_write p d) as [err p1].
  all: apply bind_ok_inv in E as (t1 & s4 & E4 & E); rewrite (bind_ok _ _ _ _ _ E4).
  all: destruct (negb (err =? ERR_OK)); [done|].
  all: apply bind_ok_inv in E as (t2 & s5 & E5 & E); rewrite (bind_ok _ _ _ _ _ E5).
  all: apply bind_ok_inv in E as (t3 & s6 & E6 & E); rewrite (bind_ok _ _ _ _ _ E6).
  all: destruct (_ <? _); [|done].
  - discriminate E.
  - apply IH; [done|lia].
Qed.

(** ** Two defects *)

(** A fatal error of [tcp_write]. *)
Lemma write_fatal_run c i r buf p p' e :
  t_closed c = false -> t_pcb c = Some p -> t_cur_write c = Some i -> t_reqs c !! i = Some r ->
  0 <= sent_bufs r -> busy r -> send_bufs r !! Z.to_nat (sent_bufs r) = Some buf ->
  0 <= sent r < zlen buf -> 0 < tcp_sndbuf p ->
  tcp_write p (take (Z.to_nat (Z.min (zlen buf - sent r) (tcp_sndbuf p)))
                    (drop (Z.to_nat (sent r)) buf)) = (e, p') ->
  e <> ERR_OK -> e <> ERR_MEM ->
  uvl_imp_write_to_tcp c = Stop NullDeref.
Proof.
  intros Hcl Hp Hcur Hi Hsb Hbusy Hbuf Hs Hsnd Hw He1 He2. unfold busy in Hbusy.
  assert (Hsz : exists n, queue_fuel c = S n).
  { unfold queue_fuel. rewrite <-(insert_delete_id _ _ _ Hi), map_size_insert_None by apply lookup_delete_eq. eauto. }
  assert (Hfuel : exists n, write_fuel c = S (S n)).
  { unfold write_fuel. rewrite (map_fold_delete_L _ _ i r) by (intros; lia || done).
    apply lookup_lt_Some in Hbuf. destruct (send_bufs r); [simpl in Hbuf; lia|]. simpl. eauto. }
  destruct Hsz as [n1 En1], Hfuel as [n2 En2].
  unfold uvl_imp_write_to_tcp. rewrite (bind_ok _ _ _ c c) by done.
  rewrite bool_decide_eq_true_2 by (by rewrite Hcur). rewrite (bind_ok _ _ _ tt c) by done.
  rewrite bool_decide_eq_true_2 by (by rewrite Hp). rewrite (bind_ok _ _ _ tt c) by done.
  assert (E1 : first_unsent (queue_fuel c) (t_cur_write c) c = Ok (Some i) c).
  { rewrite En1, Hcur. cbn [first_unsent]. unfold deref, bind, gets. rewrite Hi. unfold ret at 1.
    by rewrite (proj2 (Z.ltb_lt _ _)) by done. }
  rewrite (bind_ok _ _ _ _ _ E1). rewrite En2.
  destruct (close_func_run (set_t_pcb (Some p') c) p' Hcl eq_refl) as (e1 & c1 & Ec & Hh & Hcode).
  destruct Hh as (Er1 & _ & _ & _ & _ & _ & Hp1 & _). simpl in Er1.
  assert (Ew : uvl_imp_write_buf_to_tcp i c = Ok e1 c1).
  { unfold uvl_imp_write_buf_to_tcp, deref at 1. unfold bind at 1 2, gets at 1. rewrite Hi. unfold ret at 1.
    rewrite Hbuf. rewrite (bind_ok _ _ _ buf c) by done.
    assert (El : write_buf_loop (length buf) i buf c = Ok (Some e1) c1); [|by rewrite (bind_ok _ _ _ _ _ El)].
    destruct (length buf) as [|fuel] eqn:Elen; [unfold zlen in Hs; lia|]. cbn [write_buf_loop].
    rewrite (bind_ok _ _ _ c c) by done. rewrite Hp. rewrite (bind_ok _ _ _ p c) by done.
    unfold deref at 1. unfold bind at 1 2, gets at 1. rewrite Hi. unfold ret at 1.
    destruct (Z.eqb_spec (Z.min (zlen buf - sent r) (tcp_sndbuf p)) 0); [lia|].
    rewrite mem_get_Some by lia. rewrite (bind_ok _ _ _ _ c) by done. rewrite Hw.
    rewrite (bind_ok _ _ _ tt (set_t_pcb (Some p') c)) by done.
    rewrite (proj2 (Z.eqb_neq e ERR_OK)), (proj2 (Z.eqb_neq e ERR_MEM)) by done. cbn [negb].
    by rewrite (bind_ok _ _ _ _ _ Ec). }
  cbn [write_loop]. unfold bind at 1 2. rewrite Ew. destruct Hcode as [-> | ->]; cbn [Z.eqb ERR_OK ERR_ABRT Pos.eqb].
  - unfold ret at 1. cbn [negb]. rewrite (bind_ok _ _ _ c1 c1) by done. by rewrite Hp1.
  - unfold deref. unfold bind at 1 2, gets at 1. rewrite Er1, Hi. unfold ret at 1.
    rewrite (proj2 (Z.eqb_neq (sent_bufs r) _)) by lia. cbn [write_loop].
    unfold bind at 1, uvl_imp_write_buf_to_tcp, deref. unfold bind at 1 2, gets at 1. rewrite Er1, Hi.
    unfold ret at 1. rewrite Hbuf. rewrite (bind_ok _ _ _ buf c1) by done.
    assert (El : write_buf_loop (length buf) i buf c1 = Stop NullDeref); [|by rewrite (bind_stop _ _ _ _ El)].
    destruct (length buf); cbn [write_buf_loop]; rewrite (bind_ok _ _ _ c1 c1) by done; by rewrite Hp1.
Qed.
End traces.

(** ** Results *)

(** C4: integrity of the outgoing stream.  Over any run of writes, wake-ups,
    acknowledgements and reads on an open connection, whatever amounts lwIP accepts
    at a time and whatever it fails with: the bytes handed to lwIP followed by those still
    queued are exactly the bytes the caller asked to write, in order; the requests whose
    callback ran, followed by those in the queue, are exactly the requests made, in order; and
    the next admissible operation runs to completion, with one exception: in a write wake-up
    [tcp_write] fails with another error than [ERR_MEM], and the pump goes on with the control
    block it has given up.  Admissible is a write of a request that is not in use and has at
    least one buffer (an empty one behind another one is read past its end), an
    acknowledgement of bytes handed over, and data that is not empty. *)
Theorem tcp_stream_integrity `{UvEnv} `{!LwipLaws} c0 p0 c W A :
  connected c0 p0 -> runs c0 c W A -> t_closed c = false ->
  (exists p ids, t_pcb c = Some p /\ chain (t_reqs c) (t_cur_write c) ids /\
     stream p ++ backlog (t_reqs c) ids = stream p0 ++ W /\ called (t_log c) ++ ids = A) /\
  (forall op, admits c op ->
     (exists c', exec op c = Ok tt c') \/ op = OpWriteWakeup /\ fatal /\ exec op c = Stop NullDeref).
Proof.
  intros Hc0 Hr Hcl. destruct (runs_inv c0 p0 c W A Hc0 Hr) as [ids Hinv]. split.
  - destruct (iv_stream _ _ _ _ Hinv Hcl) as (p & Hp & Hs). exists p, ids.
    split_and!; try done; apply Hinv.
  - intros op Ha. destruct (exec_run c ids _ A op Hinv Hcl Ha) as [(ids' & c' & E & _)|?]; eauto.
Qed.

(** C6: the pump terminates.  In every state of a run the search for the first request
    with a buffer left and the loop over the queue come to an end after at most as many
    rounds as there are requests, and buffers in them plus one: with any larger
    number of rounds the result is the same, and likewise the loop over the pieces of
    one buffer makes at most one round per byte.  The searches and the loop over a buffer
    return; the loop over the queue returns, or stops at the null control block after
    [tcp_write] failed with another error than [ERR_MEM]. *)
Theorem pump_terminates `{UvEnv} `{!LwipLaws} c0 p0 c W A :
  connected c0 p0 -> runs c0 c W A -> t_closed c = false ->
  exists req R,
    (forall n, (size (t_reqs c) <= n)%nat -> first_unsent n (t_cur_write c) c = Ok req c) /\
    (forall n, (1 + all_bufs (t_reqs c) <= n)%nat -> write_loop n req c = R) /\
    ((exists c1, R = Ok true c1) \/ fatal /\ R = Stop NullDeref) /\
    (forall i r buf, t_reqs c !! i = Some r -> wr_ok r ->
       send_bufs r !! Z.to_nat (sent_bufs r) = Some buf ->
       exists code c2, forall n, (length buf <= n)%nat -> write_buf_loop n i buf c = Ok code c2).
Proof.
  intros Hc0 Hr Hcl. destruct (runs_inv c0 p0 c W A Hc0 Hr) as [ids Hinv].
  destruct (iv_stream _ _ _ _ Hinv Hcl) as (p & Hp & _).
  destruct (pump_loops_run c ids p Hcl (iv_queue _ _ _ _ Hinv) Hp) as (req & E1 & E2).
  assert (HR : (exists c1, write_loop (write_fuel c) req c = Ok true c1) \/
               fatal /\ write_loop (write_fuel c) req c = Stop NullDeref).
  { destruct E2 as [(c1 & p1 & -> & _)|[Hf [(c1 & -> & _)|E2]]]; eauto. }
  exists req, (write_loop (write_fuel c) req c). split_and!; [| |done|].
  - intros n Hn. by apply (first_unsent_mono (queue_fuel c)).
  - intros n Hn. apply (write_loop_mono (write_fuel c)); [done| |done].
    destruct HR as [[c1 ->]|[_ ->]]; discriminate.
  - intros i r buf Hi Hw Hb.
    destruct (write_buf_loop_run (length buf) i buf r c p) as (code & c2 & E & _); try done.
    + pose proof (wr_sent _ Hw). unfold zlen. lia.
    + exists code, c2. intros n Hn. by apply (write_buf_loop_mono (length buf)).
Qed.

(** C5: closing a connection at any point of a run returns, marks it closed and
    runs the callback of every request that was still queued: each request made has
    been called back exactly once, in order. *)
Theorem tcp_close_completes `{UvEnv} `{!LwipLaws} c0 p0 c W A cb :
  connected c0 p0 -> runs c0 c W A ->
  exists c', uvl_tcp_close cb c = Ok 0 c' /\ called (t_log c') = A /\
             t_cur_write c' = None /\ t_closed c' = true.
Proof.
  intros Hc0 Hr. destruct (runs_inv c0 p0 c W A Hc0 Hr) as [ids Hinv].
  by eapply tcp_close_run.
Qed.

(** Received data reaches the reader unchanged: a segment that fits is appended
    to what is unread (one that does not is refused and left with lwIP), and a wake-up
    with a reader and a large enough buffer hands over everything unread, once. *)
Theorem tcp_receive `{UvEnv} `{!LwipLaws} c0 p0 c W A data :
  connected c0 p0 -> runs c0 c W A -> t_closed c = false -> 0 < zlen data ->
  exists e c1, uvl_client_recv_func (Some data) ERR_OK c = Ok e c1 /\
    (UVL_TCP_RECV_BUF_LEN < zlen (unread c) + zlen data -> e = ERR_MEM /\ c1 = c) /\
    (zlen (unread c) + zlen data <= UVL_TCP_RECV_BUF_LEN ->
     unread c1 = unread c ++ data /\
     (t_read_cb c1 = true ->
      (exists len, env_alloc (t_ticks c1) = Some len /\ zlen (unread c1) <= len) ->
      exists c2, uvl_async_tcp_read_cb c1 = Ok tt c2 /\ unread c2 = [] /\
        t_log c2 = t_log c1 ++ [EvReadCb (zlen (unread c ++ data)) (unread c ++ data)])).
Proof.
  intros Hc0 Hr Hcl Hd. destruct (runs_inv c0 p0 c W A Hc0 Hr) as [ids Hinv].
  destruct (recv_func_run c ids _ A data Hinv Hcl Hd) as (e & c1 & E1 & Hi1 & Hcl1 & Hfit & Hfull).
  exists e, c1. split_and!; [done|done|]. intros Hroom. specialize (Hfit Hroom). split; [done|].
  intros Hrd Hal. destruct (read_cb_run c1 ids _ A Hi1 Hcl1) as (c2 & E2 & _ & _ & Hdel).
  exists c2. split; [done|]. rewrite <-Hfit. apply Hdel; [done| |done].
  rewrite Hfit. intros [_ E]%app_eq_nil. rewrite E in Hd. unfold zlen in Hd. simpl in Hd. lia.
Qed.

(** C30: a failure of [tcp_write] other than lack of memory makes the pump use a
    null control block: closing the connection clears [pcb], but the result of the
    close is taken for "buffer full" (0) or for progress, and the pump goes on to
    [tcp_output] or [tcp_sndbuf]. *)
Theorem tcp_write_failure_null `{UvEnv} c i r buf p p' e :
  t_closed c = false -> t_pcb c = Some p -> t_cur_write c = Some i -> t_reqs c !! i = Some r ->
  0 <= sent_bufs r -> busy r -> send_bufs r !! Z.to_nat (sent_bufs r) = Some buf ->
  0 <= sent r < zlen buf -> 0 < tcp_sndbuf p ->
  tcp_write p (take (Z.to_nat (Z.min (zlen buf - sent r) (tcp_sndbuf p)))
                    (drop (Z.to_nat (sent r)) buf)) = (e, p') ->
  e <> ERR_OK -> e <> ERR_MEM ->
  uvl_imp_write_to_tcp c = Stop NullDeref.
Proof. apply write_fatal_run. Qed.

(** ** Concrete runs *)

(** A control block with a send buffer and nothing else. *)
Record sim_pcb := { sim_sndbuf : Z; sim_stream : bytes }.
Definition sim_space (p : sim_pcb) : Z := Z.max 0 (Z.min 65535 (sim_sndbuf p)).
Definition sim_write (p : sim_pcb) (d : bytes) : Z * sim_pcb :=
  if sim_space p <? zlen d then (ERR_MEM, p)
  else (ERR_OK, {| sim_sndbuf := sim_space p - zlen d; sim_stream := sim_stream p ++ d |}).

Definition sim_lwip : Lwip :=
  {| pcb := sim_pcb; tcp_sndbuf := sim_space; tcp_write := sim_write;
     tcp_output := fun p => (ERR_OK, p); tcp_close := fun p => (ERR_OK, p);
     tcp_recved := fun p _ => p; stream := sim_stream |}.
Definition sim_env : UvEnv :=
  {| uv_lwip := sim_lwip; env_async_send := fun _ => 0; env_async_init := fun _ => 0;
     env_alloc := fun _ => Some 65536 |}.

(** The same, failing every write with [ERR_CONN]. *)
Definition broken_env : UvEnv :=
  {| uv_lwip :=
       {| pcb := sim_pcb; tcp_sndbuf := sim_space; tcp_write := fun p _ => (-11, p);
          tcp_output := fun p => (ERR_OK, p); tcp_close := fun p => (ERR_OK, p);
          tcp_recved := fun p _ => p; stream := sim_stream |};
     env_async_send := fun _ => 0; env_async_init := fun _ => 0; env_alloc := fun _ => None |}.

Lemma sim_laws : @LwipLaws sim_lwip.
Proof.
  split; simpl; unfold sim_write, sim_space.
  - lia.
  - intros p d p' E. destruct (Z.ltb_spec (Z.max 0 (Z.min 65535 (sim_sndbuf p))) (zlen d)); [done|].
    injection E as <-. simpl. split; [done|]. zlia.
  - intros p d e p' E He. destruct (_ <? _); [by injection E as _ <-|]. by injection E as <- _.
  - by intros p e p' [= <- <-].
  - done.
Qed.

(** An accepted connection with room for three bytes. *)
Definition conn (E : UvEnv) (p : @pcb uv_lwip) : @uvl_tcp_t uv_lwip :=
  {| t_reqs := ∅; t_cur_write := None; t_tail_write := None; t_pcb := Some p; t_closed := false;
     t_buf := Some {| recv_buf := replicate (Z.to_nat UVL_TCP_RECV_BUF_LEN) 0; recv_used := 0 |};
     t_read_cb := true; t_close_cb := None; t_local_addr := ([], 0); t_remote_addr := ([], 0);
     t_sent_bytes := 0; t_recv_bytes := 0; t_closed_handle := 0; t_ticks := 0; t_log := [] |}.
Definition sim_p0 : sim_pcb := {| sim_sndbuf := 3; sim_stream := [] |}.
Definition sim_c0 : @uvl_tcp_t sim_lwip := conn sim_env sim_p0.
Definition after `{UvEnv} (op : tcp_op) (c : uvl_tcp_t) : uvl_tcp_t :=
  match exec op c with Ok _ c' => c' | Stop _ => c end.
Definition sim_c1 : @uvl_tcp_t sim_lwip := after (H := sim_env) (OpWrite 7 [[1; 2]; [3; 4]]) sim_c0.
Definition sim_c2 : @uvl_tcp_t sim_lwip := after (H := sim_env) OpWriteWakeup sim_c1.

Lemma sim_connected : connected sim_c0 sim_p0.
Proof. constructor; try done. eexists. split; [reflexivity|]. split; [done|]. split; done. Qed.

Lemma sim_runs : runs (H := sim_env) sim_c0 sim_c2 ([1; 2; 3; 4] ++ []) ([7%nat] ++ []).
Proof.
  apply (runs_step (H := sim_env) _ sim_c1 [1; 2; 3; 4] [7%nat] OpWriteWakeup sim_c2);
    [|vm_compute; reflexivity|exact I|vm_compute; reflexivity].
  apply (runs_step (H := sim_env) _ sim_c0 [] [] (OpWrite 7 [[1; 2]; [3; 4]]) sim_c1);
    [constructor|reflexivity| |vm_compute; reflexivity].
  split; [reflexivity|]. split; [discriminate|]. split; reflexivity.
Qed.

Lemma tcp_stream_integrity_witness :
  (exists p ids, t_pcb sim_c2 = Some p /\ chain (t_reqs sim_c2) (t_cur_write sim_c2) ids /\
     sim_stream p ++ backlog (t_reqs sim_c2) ids = [1; 2; 3; 4] /\
     called (t_log sim_c2) ++ ids = [7%nat]) /\
  (forall op, admits (H := sim_env) sim_c2 op ->
     (exists c', exec (H := sim_env) op sim_c2 = Ok tt c') \/
     op = OpWriteWakeup /\ fatal (H := sim_env) /\ exec (H := sim_env) op sim_c2 = Stop NullDeref).
Proof.
  apply (tcp_stream_integrity (H := sim_env) (H0 := sim_laws) sim_c0 sim_p0 sim_c2 _ _
           sim_connected sim_runs). vm_compute. reflexivity.
Defined.

Lemma pump_terminates_witness :
  exists req R,
    (forall n, (1 <= n)%nat -> first_unsent (H := sim_env) n (t_cur_write sim_c2) sim_c2 = Ok req sim_c2) /\
    (forall n, (3 <= n)%nat -> write_loop (H := sim_env) n req sim_c2 = R).
Proof.
  destruct (pump_terminates (H := sim_env) (H0 := sim_laws) sim_c0 sim_p0 sim_c2 _ _
              sim_connected sim_runs) as (req & R & H1 & H2 & _); [vm_compute; reflexivity|].
  exists req, R. split; [exact H1|exact H2].
Defined.

Lemma tcp_close_completes_witness :
  exists c', uvl_tcp_close (H := sim_env) 0 sim_c2 = Ok 0 c' /\ called (t_log c') = [7%nat] /\
             t_cur_write c' = None /\ t_closed c' = true.
Proof.
  apply (tcp_close_completes (H := sim_env) (H0 := sim_laws) sim_c0 sim_p0 sim_c2 _ _
           0 sim_connected sim_runs).
Defined.

Lemma tcp_receive_witness :
  exists e c1, uvl_client_recv_func (H := sim_env) (Some [9; 8]) ERR_OK sim_c0 = Ok e c1 /\
    exists c2, uvl_async_tcp_read_cb (H := sim_env) c1 = Ok tt c2 /\ unread (H := sim_env) c2 = [] /\
      t_log c2 = t_log c1 ++ [EvReadCb 2 [9; 8]].
Proof.
  destruct (tcp_receive (H := sim_env) (H0 := sim_laws) sim_c0 sim_p0 sim_c0 [] [] [9; 8]
              sim_connected (runs_start (H := sim_env) sim_c0) eq_refl eq_refl)
    as (e & c1 & E1 & _ & Hfit).
  exists e, c1. split; [exact E1|]. destruct Hfit as [Hu Hr]; [vm_compute; discriminate|].
  assert (Hc1 : t_read_cb c1 = true) by (vm_compute in E1; injection E1 as _ <-; reflexivity).
  apply (Hr Hc1). exists 65536. split; [reflexivity|]. rewrite Hu. vm_compute. discriminate.
Defined.

Lemma tcp_write_failure_null_witness :
  uvl_imp_write_to_tcp (H := broken_env)
    (after (H := broken_env) (OpWrite 7 [[1; 2]]) (conn broken_env sim_p0)) = Stop NullDeref.
Proof.
  apply (tcp_write_failure_null (H := broken_env) _ 7 (new_req [[1; 2]]) [1; 2] sim_p0 sim_p0 (-11));
    try (vm_compute; (reflexivity || discriminate || (split; (reflexivity || discriminate)))).
Defined.

(** An empty request behind another one: its first buffer is read, and there is
    none. *)
Example empty_request_overrun :
  exec (H := sim_env) OpWriteWakeup
    (after (H := sim_env) (OpWrite 2 []) (after (H := sim_env) (OpWrite 1 [[5]]) sim_c0)) = Stop Oob.
Proof. vm_compute. reflexivity. Qed.
