(* ===== verification/UvTcpTypes.v ===== *)
(** Types of the fields of a connection ([uvl_tcp_t] and its requests, declared in
    [uv_lwip/uv_lwip.h]).

    The structures hold [uint32_t] and [uint16_t] counters; in the model they are
    integers, and every store the code makes into them has to fit.  [typed] says
    that they do, that the receive buffer has the declared size and is filled within
    it, and that a closed connection has no control block.  Every entry point keeps
    it, whatever the arguments, the state of the queue and the behaviour of lwIP
    ([entries_typed]).  Over the runs of [UvTcp] more is true: no counter of a request wraps,
    and the receive callback and the read wake-up always return ([tcp_types]). *)

From stdpp Require Import gmap.
From S2P Require Import Prelude UvTcp.

Record typed_req (r : uvl_write_t) : Prop := {
  tr_sent_bufs : is_u32 (sent_bufs r);
  tr_sent : is_u32 (sent r);
  tr_pending : is_u32 (pending r);
  tr_total_sent : is_u32 (total_sent r);
  tr_total_len : is_u32 (total_len r);
}.

Definition typed_buf (b : uvl_tcp_buf) : Prop :=
  zlen (recv_buf b) = UVL_TCP_RECV_BUF_LEN /\ 0 <= recv_used b <= UVL_TCP_RECV_BUF_LEN.

Record typed `{Lwip} (c : uvl_tcp_t) : Prop := {
  ty_reqs : map_Forall (fun _ => typed_req) (t_reqs c);
  ty_buf b : t_buf c = Some b -> typed_buf b;
  ty_sent_bytes : is_u32 (t_sent_bytes c);
  ty_recv_bytes : is_u32 (t_recv_bytes c);
  ty_closed : t_closed c = true -> t_pcb c = None;
}.

(** The entry points: what lwIP, libuv and the caller invoke. *)
Inductive entry `{Lwip} :=
| EnOp (op : tcp_op)
| EnHangUp                               (* lwIP: the peer closed *)
| EnErr                                  (* lwIP: the connection failed *)
| EnClose (cb : nat)
| EnCloseHandle
| EnAccept (newpcb : pcb) (local remote : bytes * Z).   (* a new object *)

Definition enter `{UvEnv} (e : entry) : M uvl_tcp_t unit :=
  match e with
  | EnOp op => exec op
  | EnHangUp => let* _ := uvl_client_recv_func None ERR_OK in ret tt
  | EnErr => uvl_client_err_func
  | EnClose cb => let* _ := uvl_tcp_close cb in ret tt
  | EnCloseHandle => uvl_tcp_close_handle_cb
  | EnAccept newpcb local remote =>
      let* r := uvl_tcp_init in
      if r =? 0 then accept_client newpcb local remote else ret tt
  end.

Section types.
Context `{UvEnv}.
Implicit Types c : uvl_tcp_t.

(** Stores that do not touch a typed field. *)
Lemma typed_log v c : typed c -> typed (set_t_log v c).
Proof. intros []; by constructor. Qed.
Lemma typed_ticks v c : typed c -> typed (set_t_ticks v c).
Proof. intros []; by constructor. Qed.
Lemma typed_cur v c : typed c -> typed (set_t_cur_write v c).
Proof. intros []; by constructor. Qed.
Lemma typed_tail v c : typed c -> typed (set_t_tail_write v c).
Proof. intros []; by constructor. Qed.
Lemma typed_read v c : typed c -> typed (set_t_read_cb v c).
Proof. intros []; by constructor. Qed.
Lemma typed_close_cb v c : typed c -> typed (set_t_close_cb v c).
Proof. intros []; by constructor. Qed.
Lemma typed_handles v c : typed c -> typed (set_t_closed_handle v c).
Proof. intros []; by constructor. Qed.
Lemma typed_local v c : typed c -> typed (set_t_local_addr v c).
Proof. intros []; by constructor. Qed.
Lemma typed_remote v c : typed c -> typed (set_t_remote_addr v c).
Proof. intros []; by constructor. Qed.

(** Stores into typed fields. *)
Lemma typed_put i r c : typed_req r -> typed c -> typed (set_t_reqs (<[i := r]> (t_reqs c)) c).
Proof. intros Hr []; constructor; try done. by apply map_Forall_insert_2. Qed.
Lemma typed_free i c : typed c -> typed (set_t_reqs (delete i (t_reqs c)) c).
Proof. intros []; constructor; try done. by apply map_Forall_delete. Qed.
Lemma typed_sent n c : typed c -> typed (set_t_sent_bytes (u32 n) c).
Proof. intros []; constructor; try done. apply u32_range. Qed.
Lemma typed_recv n c : typed c -> typed (set_t_recv_bytes (u32 n) c).
Proof. intros []; constructor; try done. apply u32_range. Qed.
Lemma typed_freed c : typed c -> typed (set_t_closed true (set_t_pcb None c)).
Proof. intros []; by constructor. Qed.
Lemma typed_pcb p q c : t_pcb c = Some q -> typed c -> typed (set_t_pcb (Some p) c).
Proof.
  intros Hq []; constructor; try done. simpl. intros E. apply ty_closed0 in E. congruence.
Qed.
Lemma typed_set_buf b c : typed_buf b -> typed c -> typed (set_t_buf (Some b) c).
Proof. intros Hb []; constructor; try done. intros b' [= <-]. done. Qed.

Lemma typed_get c i r : typed c -> t_reqs c !! i = Some r -> typed_req r.
Proof. intros [Hr _ _ _ _] Hi. by apply (Hr i). Qed.
End types.

#[export] Hint Resolve typed_log typed_ticks typed_cur typed_tail typed_read typed_close_cb
  typed_handles typed_local typed_remote typed_put typed_free typed_sent typed_recv typed_freed
  typed_set_buf : wlp.

#[export] Hint Extern 2 (typed (set_t_pcb (Some _) _)) => eapply typed_pcb; [eassumption|] : wlp.

(** A request built from one that was read: each counter is wrapped or copied. *)
Ltac req_fields :=
  match goal with
  | Hc : typed ?c, Hi : t_reqs ?c !! _ = Some ?r |- typed_req _ =>
      destruct (typed_get _ _ _ Hc Hi); constructor; cbn; (apply u32_range || assumption || done)
  end.
#[export] Hint Extern 1 (typed_req _) => req_fields : wlp.

(** Run the code symbolically and close what is left with the lemmas. *)
Ltac typed_run :=
  repeat first [wlp_step | progress cbn beta];
  try (first [done | eauto 8 with wlp]).

Section entries.
Context `{UvEnv}.
Implicit Types c : uvl_tcp_t.

(** Calls: a callee that keeps [typed] and returns whatever it returns. *)
Definition sound {A} (m : M uvl_tcp_t A) : Prop := forall c, typed c -> wlp m (fun _ => typed) c.

Lemma sound_use {A} (m : M uvl_tcp_t A) (Q : A -> uvl_tcp_t -> Prop) c :
  sound m -> typed c -> (forall a c', typed c' -> Q a c') -> wlp m Q c.
Proof. intros Hm Hc HQ. eapply wlp_mono; [by apply Hm|]. auto. Qed.

Ltac steps := repeat (wlp_step; cbn beta).
Ltac call L := eapply sound_use; [apply L|by eauto with wlp|intros ? ? ?; steps].

Lemma write_cb_sound i status : sound (write_cb i status).
Proof. intros c Hc. unfold write_cb, log, upd. typed_run. Qed.

Lemma end_read_sound status : sound (end_read status).
Proof. intros c Hc. unfold end_read, log, upd. typed_run. Qed.

Lemma async_send_sound e : sound (uv_async_send e).
Proof. intros c Hc. unfold uv_async_send, log, upd. typed_run. Qed.

Lemma cancel_loop_sound fuel req : sound (cancel_loop fuel req).
Proof.
  revert req. induction fuel as [|fuel IH]; intros [i|] c Hc; cbn [cancel_loop]; try done.
  unfold deref. steps. call write_cb_sound. by apply IH.
Qed.

Lemma cancel_reqs_sound : sound uvl_cancel_reqs.
Proof.
  intros c Hc. unfold uvl_cancel_reqs, upd. steps. call cancel_loop_sound.
  apply end_read_sound. auto with wlp.
Qed.

Lemma freed_sound : sound uvl_client_freed.
Proof. intros c Hc. unfold uvl_client_freed, upd. steps. apply end_read_sound. auto with wlp. Qed.

Lemma abort_sound : sound uvl_client_abort.
Proof.
  intros c Hc. unfold uvl_client_abort, ASSERT, log, upd. steps. call freed_sound. done.
Qed.

Lemma close_func_sound : sound uvl_client_close_func.
Proof.
  intros c Hc. unfold uvl_client_close_func, ASSERT, nonnull, upd. steps; [call freed_sound; done|].
  apply abort_sound. eauto with wlp.
Qed.

Lemma write_buf_loop_sound fuel i buf : sound (write_buf_loop fuel i buf).
Proof.
  induction fuel as [|fuel IH]; intros c Hc; cbn [write_buf_loop]; unfold nonnull, deref, put, upd;
    steps;
    try (call close_func_sound); by eauto 8 with wlp.
Qed.

Lemma write_buf_sound i : sound (uvl_imp_write_buf_to_tcp i).
Proof.
  intros c Hc. unfold uvl_imp_write_buf_to_tcp, deref, nonnull, put, upd. steps.
  call write_buf_loop_sound; try done. by eauto 8 with wlp.
Qed.

Lemma first_unsent_sound fuel req : sound (first_unsent fuel req).
Proof.
  revert req. induction fuel as [|fuel IH]; intros [i|] c Hc; cbn [first_unsent]; try done.
  unfold deref. steps; [done|]. by apply IH.
Qed.

Lemma write_loop_sound fuel req : sound (write_loop fuel req).
Proof.
  revert req. induction fuel as [|fuel IH]; intros [i|] c Hc; cbn [write_loop]; try done.
  unfold deref. steps. call write_buf_sound; try done; by apply IH.
Qed.

Lemma write_to_tcp_sound : sound uvl_imp_write_to_tcp.
Proof.
  intros c Hc. unfold uvl_imp_write_to_tcp, ASSERT, nonnull, upd. steps.
  call first_unsent_sound. call write_loop_sound; try (by eauto with wlp).
  call close_func_sound. done.
Qed.

Lemma complete_loop_sound fuel req : sound (complete_loop fuel req).
Proof.
  revert req. induction fuel as [|fuel IH]; intros [i|] c Hc; cbn [complete_loop]; try done.
  unfold deref, upd. steps; [|done]. call write_cb_sound. by apply IH.
Qed.

Lemma write_wakeup_sound : sound uvl_async_tcp_write_cb.
Proof.
  intros c Hc. unfold uvl_async_tcp_write_cb, upd. steps. call complete_loop_sound;
    (apply cancel_reqs_sound || apply write_to_tcp_sound || idtac); eauto with wlp.
Qed.

Lemma read_wakeup_sound : sound uvl_async_tcp_read_cb.
Proof.
  intros c Hc. unfold uvl_async_tcp_read_cb, ASSERT, nonnull, log, upd. steps; eauto with wlp.
  assert (Hb : typed_buf {| recv_buf := recv_buf u; recv_used := 0 |}).
  { destruct (ty_buf _ Hc u) as [Hl Hu]; [done|]. split; [done|]. cbn. lia. }
  eauto 8 with wlp.
Qed.

Lemma recv_sound p err : sound (uvl_client_recv_func p err).
Proof.
  intros c Hc. unfold uvl_client_recv_func, ASSERT, nonnull, upd. steps; [done| |by apply close_func_sound].
  destruct (ty_buf _ Hc u) as [Hl Hu]; [done|]. pose proof (mem_put_zlen _ _ _ _ H0).
  match goal with Hz : (_ <? _) = false |- _ => apply Z.ltb_ge in Hz end.
  assert (Hs : 0 <= recv_used u + zlen l <= UVL_TCP_RECV_BUF_LEN) by (pose proof (zlen_nonneg l); lia).
  assert (Hw : u16 (recv_used u + zlen l) = recv_used u + zlen l).
  { apply u16_id. unfold is_u16. change UVL_TCP_RECV_BUF_LEN with 2048 in Hs. lia. }
  assert (Hb : typed_buf {| recv_buf := a; recv_used := u16 (recv_used u + zlen l) |}).
  { split; cbn; [congruence|by rewrite Hw]. }
  call async_send_sound. done.
Qed.

Lemma sent_loop_sound fuel req len : sound (sent_loop fuel req len).
Proof.
  revert req len. induction fuel as [|fuel IH]; intros req len c Hc; cbn [sent_loop]; steps; try done.
  unfold nonnull, deref, put, upd. steps. apply IH. eauto with wlp.
Qed.

Lemma sent_sound len : sound (uvl_client_sent_func len).
Proof.
  intros c Hc. unfold uvl_client_sent_func, ASSERT, upd. steps. call sent_loop_sound.
  call async_send_sound. done.
Qed.

Lemma read_start_sound : sound uvl_read_start.
Proof.
  intros c Hc. unfold uvl_read_start, log, upd. steps; eauto with wlp.
  call async_send_sound; eauto with wlp.
Qed.

Lemma total_len_u32 (bufs : list bytes) n :
  is_u32 n -> is_u32 (foldl (fun n b => u32 (n + zlen b)) n bufs).
Proof. revert n. induction bufs as [|b bufs IH]; intros n Hn; [done|]. apply IH, u32_range. Qed.

Lemma write_sound i bufs : sound (uvl_write i bufs).
Proof.
  intros c Hc. unfold uvl_write. set (r := {| send_bufs := bufs |}).
  assert (Hr : typed_req r) by (constructor; try done; by apply total_len_u32).
  assert (Hc1 : typed (set_t_reqs (<[i := r]> (t_reqs c)) c)) by auto with wlp.
  unfold put, deref, upd. steps; apply async_send_sound; eauto 8 with wlp.
Qed.

Lemma close_handle_sound : sound uvl_tcp_close_handle_cb.
Proof.
  intros c Hc. unfold uvl_tcp_close_handle_cb, nonnull, log, upd. steps; eauto with wlp.
  all: apply typed_log, typed_close_cb; destruct Hc; by constructor.
Qed.

Lemma close_sound cb : sound (uvl_tcp_close cb).
Proof.
  intros c Hc. unfold uvl_tcp_close, ASSERT, log, upd. steps; [call close_func_sound|];
    call cancel_reqs_sound; by eauto 8 with wlp.
Qed.

Lemma typed_open p c : t_closed c = false -> typed c -> typed (set_t_pcb (Some p) c).
Proof. intros Hcl []; constructor; try done. cbn [t_closed set_t_pcb]. congruence. Qed.

Lemma accept_sound newpcb local remote c :
  t_closed c = false -> typed c -> wlp (accept_client newpcb local remote) (fun _ => typed) c.
Proof.
  intros Hcl Hc. unfold accept_client, upd. steps. change 0 with (u32 0) at 2 3.
  assert (typed (set_t_pcb (Some newpcb) c)) by (by apply typed_open). eauto 8 with wlp.
Qed.

(** The new object, whatever its buffer. *)
Lemma fresh_typed b c :
  zlen b = UVL_TCP_RECV_BUF_LEN -> typed c ->
  typed {| t_reqs := t_reqs c; t_cur_write := None; t_tail_write := None; t_pcb := None;
           t_closed := false; t_buf := Some {| recv_buf := b; recv_used := 0 |};
           t_read_cb := false; t_close_cb := None; t_local_addr := t_local_addr c;
           t_remote_addr := t_remote_addr c; t_sent_bytes := t_sent_bytes c;
           t_recv_bytes := t_recv_bytes c; t_closed_handle := t_closed_handle c;
           t_ticks := t_ticks c; t_log := t_log c |}.
Proof. intros Hb []; constructor; try done. by intros ? [= <-]. Qed.

Lemma init_sound c :
  typed c -> wlp uvl_tcp_init (fun _ c' => typed c' /\ t_closed c' = false) c.
Proof.
  intros Hc. unfold uvl_tcp_init, uv_async_init, upd. steps.
  all: split; [|reflexivity].
  all: auto 8 using fresh_typed, zlen_replicate with wlp.
Qed.

Lemma start_sound newpcb local remote :
  sound (let* r := uvl_tcp_init in if r =? 0 then accept_client newpcb local remote else ret tt).
Proof.
  intros c Hc. apply wlp_bind. eapply wlp_mono; [by apply init_sound|].
  intros r c' [Hc' Hcl]. cbn beta. wlp_step; [by apply accept_sound|done].
Qed.
End entries.

(** Every entry point keeps the fields within their types, on any arguments, any queue and
    any behaviour of lwIP. *)
Theorem entries_typed `{UvEnv} e c c' : typed c -> enter e c = Ok tt c' -> typed c'.
Proof.
  intros Hc. assert (Hs : forall m : M uvl_tcp_t Z, sound m -> sound (let* _ := m in ret tt)).
  { intros m Hm s Hs. apply wlp_bind. eapply sound_use; [done..|]. by intros ? ? ?. }
  assert (He : sound (enter e)).
  { destruct e as [[]| | | | |]; cbn [enter exec];
      auto using write_sound, write_wakeup_sound, sent_sound, recv_sound, read_wakeup_sound,
        read_start_sound, freed_sound, close_sound, close_handle_sound, start_sound.
    apply Hs. intros s Hst. unfold uvl_read_stop, upd. typed_run. }
  intros E. exact (wlp_ok _ _ _ _ _ (He c Hc) E).
Qed.

Lemma runs_typed `{UvEnv} c0 c W A : typed c0 -> runs c0 c W A -> typed c.
Proof.
  intros H0. induction 1 as [|c W A op c' _ IH _ _ E]; [done|]. by apply (entries_typed (EnOp op) c).
Qed.

(** The counters of a request are the numbers they stand for: none has wrapped. *)
Definition exact (r : uvl_write_t) : Prop :=
  total_len r = zlen (concat (send_bufs r)) /\ total_sent r = total_len r - zlen (unsent r) /\
  0 <= pending r <= total_sent r /\ 0 <= sent_bufs r <= zlen (send_bufs r).

(** C7: the fields of a connection, over any run of it (admissible operations, from a
    connection just accepted).  Every counter is within its machine type, the receive buffer
    has its declared size and is filled within it, and the control block is null once the
    connection is closed.  While it is open, the counters of every queued request are exact,
    so that none of the 32-bit sums has wrapped; data of any length is either taken whole
    behind what is unread or, when there is no room for all of it, refused with [ERR_MEM] and
    nothing changed; and the read wake-up returns. *)
Theorem tcp_types `{UvEnv} `{!LwipLaws} c0 p0 c W A :
  connected c0 p0 -> typed c0 -> runs c0 c W A ->
  typed c /\
  (t_closed c = false ->
    (forall ids i r, chain (t_reqs c) (t_cur_write c) ids -> i ∈ ids -> t_reqs c !! i = Some r -> exact r) /\
    (forall data, 0 < zlen data -> exists e c', uvl_client_recv_func (Some data) ERR_OK c = Ok e c' /\ typed c' /\
       if decide (zlen (unread c) + zlen data <= UVL_TCP_RECV_BUF_LEN)
       then unread c' = unread c ++ data else e = ERR_MEM /\ c' = c) /\
    exists c', uvl_async_tcp_read_cb c = Ok tt c' /\ typed c').
Proof.
  intros Hc0 Ht Hr. pose proof (runs_typed c0 c W A Ht Hr) as Hty. split; [done|]. intros Hcl.
  destruct (runs_inv c0 p0 c W A Hc0 Hr) as [ids Hinv]. split_and!.
  - intros ids' i r Hch Hin Hi. pose proof (iv_queue _ _ _ _ Hinv) as Hq.
    rewrite (chain_fun _ _ _ _ Hch (q_chain _ _ _ _ Hq)) in Hin.
    destruct (q_reqs _ _ _ _ Hq i Hin) as (r' & Hr' & []). assert (r' = r) as -> by congruence.
    split; [apply wr_len|]. split; [done|]. split; [done|apply wr_pos].
  - intros data Hd. destruct (recv_func_run c ids _ A data Hinv Hcl Hd) as (e & c1 & E1 & _ & _ & Hfit & Hfull).
    exists e, c1. split; [done|]. split; [exact (wlp_ok _ _ _ _ _ (recv_sound _ _ c Hty) E1)|].
    case_decide; [by apply Hfit|apply Hfull; lia].
  - destruct (read_cb_run c ids _ A Hinv Hcl) as (c1 & E1 & _). exists c1. split; [done|].
    exact (wlp_ok _ _ _ _ _ (read_wakeup_sound c Hty) E1).
Qed.

Lemma sim_typed : typed sim_c0.
Proof.
  constructor; try done. intros b [= <-]. split; [by vm_compute|]. vm_compute. split; discriminate.
Qed.

Lemma tcp_types_witness :
  typed sim_c2 /\ exists e c', uvl_client_recv_func (H := sim_env) (Some (replicate 3000 1)) ERR_OK sim_c2 = Ok e c' /\ c' = sim_c2.
Proof.
  destruct (tcp_types (H := sim_env) (H0 := sim_laws) sim_c0 sim_p0 sim_c2 _ _ sim_connected sim_typed sim_runs)
    as [Ht Ho]. split; [exact Ht|]. destruct Ho as (_ & Hr & _); [vm_compute; reflexivity|].
  destruct (Hr (replicate 3000 1)) as (e & c' & E & _ & Hd); [reflexivity|]. exists e, c'. split; [exact E|].
  destruct (decide _) as [Hl|_]; [|apply Hd]. vm_compute in Hl. by destruct Hl.
Defined.
