(* ===== verification/UvLwip.v ===== *)
(** The lwIP network interface: the [uvl_t] half of [uv_lwip/uv_lwip.c].

    Packets of the virtual network go into lwIP ([uvl_input]) and come out of it
    ([uvl_netif_output_func]); new TCP connections are offered to the caller and
    accepted or reset; a timer drives lwIP.  The results of lwIP's and libuv's
    calls are the environment's; a packet buffer (pbuf) is the list of its
    segments, and allocation and release are events, so that leaks and double
    frees can be counted.  A connection that is accepted becomes a [uvl_tcp_t] of
    the file [UvTcp].

    Shown here: a packet of up to nine segments leaves lwIP whole and in order, one
    of ten trips the assertion and a longer one overruns the array before it;
    a connection offered is accepted or reset, never left waiting, and an accepted
    one is a fresh connection in the sense of [UvTcp]; every packet buffer allocated
    for an input is released exactly once; lwIP's slow timers run on every fourth
    tick. *)

From stdpp Require Import gmap.
From S2P Require Import Prelude Byteorder UvTcp.

Definition UVL_NBUF_LEN : Z := 10.

(** lwIP's timer periods, in milliseconds. *)
Definition TCP_TMR_INTERVAL : Z := 250.
Definition IP_TMR_INTERVAL : Z := 1000.
Definition ND6_TMR_INTERVAL : Z := 1000.
Definition IP6_REASS_TMR_INTERVAL : Z := 1000.

(** An address of lwIP: the source only looks at version 4. *)
Inductive ip_addr_t := IpV4 (addr : bytes) | IpV6.

Record netif := {
  nf_name : bytes;
  nf_num : Z;
  nf_output : bool;                      (* uvl_netif_output_func is set *)
  nf_mtu : Z;
  nf_up : bool;
  nf_link_up : bool;
  nf_pretend_tcp : Z;
  nf_default : bool;
}.

Inductive uvl_event `{Lwip} :=
| EvOutput (bufs : list bytes)           (* handle->output *)
| EvAbort (p : pcb)                      (* tcp_abort *)
| EvTcpClose (p : pcb)
| EvLwipInit
| EvNetifRemove                          (* and freed *)
| EvPbufAlloc
| EvPbufFree
| EvIp4Input (data : bytes)              (* ip4_input takes the buffer over *)
| EvIp6Input (data : bytes)
| EvTcpTmr
| EvIpReassTmr
| EvNd6Tmr
| EvIp6ReassTmr
| EvTimerStop
| EvTimerClose
| EvCloseCallback.

(** Results of the calls, by number of calls made.  The connection callback
    either accepts with a [uvl_tcp_t] of its own or does not. *)
Class UvlEnv := {
  ue_uv :: UvEnv;
  ue_host :: Host;
  ue_call : nat -> Z;                    (* err_t or int result *)
  ue_new : nat -> option pcb;            (* tcp_new_ip_type, tcp_listen *)
  ue_succeeds : nat -> bool;             (* pbuf_alloc, netif_add *)
  ue_input : nat -> Z;                   (* ip4_input, ip6_input *)
  ue_connection_cb : nat -> option uvl_tcp_t;
  pcb_local : pcb -> ip_addr_t * Z;      (* local_ip, local_port *)
  pcb_remote : pcb -> ip_addr_t * Z;
  ue_stack : nat -> bytes;               (* an uninitialised array of four bytes *)
}.

Record uvl_t `{Lwip} := {
  u_output : bool;                       (* callbacks: set or not *)
  u_connection_cb : bool;
  u_close_cb : bool;
  u_the_netif : option netif;
  u_listener : option pcb;
  u_waiting_pcb : option pcb;
  u_tcp_timer_mod4 : Z;
  u_closed : Z;
  u_lwip_init : bool;                    (* the static uvl_init_once *)
  u_clients : list uvl_tcp_t;            (* the connections accepted *)
  u_ticks : nat;
  u_log : list uvl_event;
}.

(** Stores to the fields. *)
Section stores.
Context `{Lwip}.
Definition set_u_output (v : bool) (u : uvl_t) : uvl_t :=
  {| u_output := v; u_connection_cb := u_connection_cb u; u_close_cb := u_close_cb u;
     u_the_netif := u_the_netif u; u_listener := u_listener u; u_waiting_pcb := u_waiting_pcb u;
     u_tcp_timer_mod4 := u_tcp_timer_mod4 u; u_closed := u_closed u; u_lwip_init := u_lwip_init u;
     u_clients := u_clients u; u_ticks := u_ticks u; u_log := u_log u |}.
Definition set_u_connection_cb (v : bool) (u : uvl_t) : uvl_t :=
  {| u_output := u_output u; u_connection_cb := v; u_close_cb := u_close_cb u; u_the_netif :=
     u_the_netif u; u_listener := u_listener u; u_waiting_pcb := u_waiting_pcb u; u_tcp_timer_mod4
     := u_tcp_timer_mod4 u; u_closed := u_closed u; u_lwip_init := u_lwip_init u; u_clients :=
     u_clients u; u_ticks := u_ticks u; u_log := u_log u |}.
Definition set_u_close_cb (v : bool) (u : uvl_t) : uvl_t :=
  {| u_output := u_output u; u_connection_cb := u_connection_cb u; u_close_cb := v; u_the_netif
     := u_the_netif u; u_listener := u_listener u; u_waiting_pcb := u_waiting_pcb u;
     u_tcp_timer_mod4 := u_tcp_timer_mod4 u; u_closed := u_closed u; u_lwip_init := u_lwip_init u;
     u_clients := u_clients u; u_ticks := u_ticks u; u_log := u_log u |}.
Definition set_u_the_netif (v : option netif) (u : uvl_t) : uvl_t :=
  {| u_output := u_output u; u_connection_cb := u_connection_cb u; u_close_cb := u_close_cb u;
     u_the_netif := v; u_listener := u_listener u; u_waiting_pcb := u_waiting_pcb u;
     u_tcp_timer_mod4 := u_tcp_timer_mod4 u; u_closed := u_closed u; u_lwip_init := u_lwip_init u;
     u_clients := u_clients u; u_ticks := u_ticks u; u_log := u_log u |}.
Definition set_u_listener (v : option pcb) (u : uvl_t) : uvl_t :=
  {| u_output := u_output u; u_connection_cb := u_connection_cb u; u_close_cb := u_close_cb u;
     u_the_netif := u_the_netif u; u_listener := v; u_waiting_pcb := u_waiting_pcb u;
     u_tcp_timer_mod4 := u_tcp_timer_mod4 u; u_closed := u_closed u; u_lwip_init := u_lwip_init u;
     u_clients := u_clients u; u_ticks := u_ticks u; u_log := u_log u |}.
Definition set_u_waiting_pcb (v : option pcb) (u : uvl_t) : uvl_t :=
  {| u_output := u_output u; u_connection_cb := u_connection_cb u; u_close_cb := u_close_cb u;
     u_the_netif := u_the_netif u; u_listener := u_listener u; u_waiting_pcb := v; u_tcp_timer_mod4
     := u_tcp_timer_mod4 u; u_closed := u_closed u; u_lwip_init := u_lwip_init u; u_clients :=
     u_clients u; u_ticks := u_ticks u; u_log := u_log u |}.
Definition set_u_tcp_timer_mod4 (v : Z) (u : uvl_t) : uvl_t :=
  {| u_output := u_output u; u_connection_cb := u_connection_cb u; u_close_cb := u_close_cb u;
     u_the_netif := u_the_netif u; u_listener := u_listener u; u_waiting_pcb := u_waiting_pcb u;
     u_tcp_timer_mod4 := v; u_closed := u_closed u; u_lwip_init := u_lwip_init u; u_clients :=
     u_clients u; u_ticks := u_ticks u; u_log := u_log u |}.
Definition set_u_closed (v : Z) (u : uvl_t) : uvl_t :=
  {| u_output := u_output u; u_connection_cb := u_connection_cb u; u_close_cb := u_close_cb u;
     u_the_netif := u_the_netif u; u_listener := u_listener u; u_waiting_pcb := u_waiting_pcb u;
     u_tcp_timer_mod4 := u_tcp_timer_mod4 u; u_closed := v; u_lwip_init := u_lwip_init u; u_clients
     := u_clients u; u_ticks := u_ticks u; u_log := u_log u |}.
Definition set_u_lwip_init (v : bool) (u : uvl_t) : uvl_t :=
  {| u_output := u_output u; u_connection_cb := u_connection_cb u; u_close_cb := u_close_cb u;
     u_the_netif := u_the_netif u; u_listener := u_listener u; u_waiting_pcb := u_waiting_pcb u;
     u_tcp_timer_mod4 := u_tcp_timer_mod4 u; u_closed := u_closed u; u_lwip_init := v; u_clients :=
     u_clients u; u_ticks := u_ticks u; u_log := u_log u |}.
Definition set_u_clients (v : list uvl_tcp_t) (u : uvl_t) : uvl_t :=
  {| u_output := u_output u; u_connection_cb := u_connection_cb u; u_close_cb := u_close_cb u;
     u_the_netif := u_the_netif u; u_listener := u_listener u; u_waiting_pcb := u_waiting_pcb u;
     u_tcp_timer_mod4 := u_tcp_timer_mod4 u; u_closed := u_closed u; u_lwip_init := u_lwip_init u;
     u_clients := v; u_ticks := u_ticks u; u_log := u_log u |}.
Definition set_u_ticks (v : nat) (u : uvl_t) : uvl_t :=
  {| u_output := u_output u; u_connection_cb := u_connection_cb u; u_close_cb := u_close_cb u;
     u_the_netif := u_the_netif u; u_listener := u_listener u; u_waiting_pcb := u_waiting_pcb u;
     u_tcp_timer_mod4 := u_tcp_timer_mod4 u; u_closed := u_closed u; u_lwip_init := u_lwip_init u;
     u_clients := u_clients u; u_ticks := v; u_log := u_log u |}.
Definition set_u_log (v : list uvl_event) (u : uvl_t) : uvl_t :=
  {| u_output := u_output u; u_connection_cb := u_connection_cb u; u_close_cb := u_close_cb u;
     u_the_netif := u_the_netif u; u_listener := u_listener u; u_waiting_pcb := u_waiting_pcb u;
     u_tcp_timer_mod4 := u_tcp_timer_mod4 u; u_closed := u_closed u; u_lwip_init := u_lwip_init u;
     u_clients := u_clients u; u_ticks := u_ticks u; u_log := v |}.
End stores.

(** ** The operations *)

Section code.
Context `{UvlEnv}.

Definition note (e : uvl_event) : M uvl_t unit := modify (fun u => set_u_log (u_log u ++ [e]) u).
Definition answer {A} (f : nat -> A) : M uvl_t A :=
  fun u => Ok (f (u_ticks u)) (set_u_ticks (S (u_ticks u)) u).
Definition check (b : bool) : M uvl_t unit := if b then ret tt else halt AssertFail.

(** The [do]-[while] over the segments, into an array of [UVL_NBUF_LEN]. *)
Fixpoint gather (i : Z) (p : list bytes) (bufs : list bytes) : M uvl_t (list bytes) :=
  match p with
  | [] => ret bufs
  | seg :: p => if i <? UVL_NBUF_LEN then gather (i + 1) p (bufs ++ [seg]) else halt Oob
  end.

Definition uvl_netif_output_func (p : list bytes) : M uvl_t Z :=
  let* bufs := match p with [] => halt NullDeref | _ => gather 0 p [] end in
  check (zlen bufs <? UVL_NBUF_LEN) ;;;
  let* output := gets u_output in
  if negb output then halt NullDeref
  else
    note (EvOutput bufs) ;;;
    let* r := answer ue_call in
    ret (if r =? 0 then ERR_OK else ERR_IF).

Definition uvl_netif_init_func (n : netif) : netif :=
  {| nf_name := [104; 111]; nf_num := 0; nf_output := true; nf_mtu := nf_mtu n; nf_up := nf_up n;
     nf_link_up := nf_link_up n; nf_pretend_tcp := nf_pretend_tcp n; nf_default := nf_default n |}.

(** [p->len] is the length of the first segment. *)
Definition uvl_netif_input_func (p : list bytes) : M uvl_t Z :=
  let* first := match p with seg :: _ => ret seg | [] => halt NullDeref end in
  let* ip_version := if 0 <? zlen first
                     then let* b := mem (mem_get first 0 1) in ret (Z.shiftr (load b) 4)
                     else ret 0 in
  if ip_version =? 4 then note (EvIp4Input (concat p)) ;;; answer ue_input
  else if ip_version =? 6 then note (EvIp6Input (concat p)) ;;; answer ue_input
  else note EvPbufFree ;;; ret ERR_OK.

(** The segments a pool buffer is made of are lwIP's choice: [split]. *)
Definition uvl_input (split : bytes -> list bytes) (buf : bytes) : M uvl_t Z :=
  let* ok := answer ue_succeeds in       (* pbuf_alloc *)
  if negb ok then ret (-1)
  else
    note EvPbufAlloc ;;;
    let* r := answer ue_call in          (* pbuf_take *)
    if negb (r =? ERR_OK) then note EvPbufFree ;;; ret (-1)
    else
      let* netif := gets u_the_netif in
      match netif with
      | None => halt NullDeref
      | Some _ =>
          let* r := uvl_netif_input_func (split buf) in
          if negb (r =? ERR_OK) then note EvPbufFree ;;; ret (-1)
          else ret 0
      end.

(** Version 6 leaves the destination as it was. *)
Definition addr_from_lwip (ip : bytes) (ip_addr : ip_addr_t) : bytes :=
  match ip_addr with IpV6 => ip | IpV4 addr => addr end.

(** Accepting the waiting connection with the object [client]. *)
Definition uvl_accept (client : uvl_tcp_t) : M uvl_t Z :=
  let* u := gets id in
  match u_waiting_pcb u with
  | None => halt AssertFail
  | Some newpcb =>
      let* junk1 := answer ue_stack in
      let* junk2 := answer ue_stack in
      let local_addr := addr_from_lwip junk1 (pcb_local newpcb).1 in
      let remote_addr := addr_from_lwip junk2 (pcb_remote newpcb).1 in
      match accept_client newpcb (local_addr, htons (pcb_local newpcb).2)
                          (remote_addr, htons (pcb_remote newpcb).2) client with
      | Stop s => halt s
      | Ok _ client =>
          modify (fun u => set_u_clients (u_clients u ++ [client]) u) ;;;
          modify (set_u_waiting_pcb None) ;;;
          ret 0
      end
  end.

Definition uvl_listener_accept_func (newpcb : pcb) (err : Z) : M uvl_t Z :=
  check (err =? ERR_OK) ;;;
  let* u := gets id in
  check (bool_decide (is_Some (u_listener u))) ;;;
  check (u_connection_cb u) ;;;
  modify (set_u_waiting_pcb (Some newpcb)) ;;;
  let* client := answer ue_connection_cb in
  match client with
  | Some client => let* _ := uvl_accept client in ret tt
  | None => ret tt
  end ;;;
  let* u := gets id in
  if bool_decide (is_Some (u_waiting_pcb u)) then
    note (EvAbort newpcb) ;;;
    modify (set_u_waiting_pcb None) ;;;
    ret ERR_ABRT
  else ret ERR_OK.

(** [IP_REASSEMBLY], [LWIP_IPV6] and [LWIP_IPV6_REASS] are on. *)
Definition uvl_timer : M uvl_t unit :=
  modify (fun u => set_u_tcp_timer_mod4 ((u_tcp_timer_mod4 u + 1) mod 4) u) ;;;
  note EvTcpTmr ;;;
  let* u := gets id in
  if u_tcp_timer_mod4 u =? 0 then
    check (IP_TMR_INTERVAL =? 4 * TCP_TMR_INTERVAL) ;;;
    note EvIpReassTmr ;;;
    check (ND6_TMR_INTERVAL =? 4 * TCP_TMR_INTERVAL) ;;;
    note EvNd6Tmr ;;;
    check (IP6_REASS_TMR_INTERVAL =? 4 * TCP_TMR_INTERVAL) ;;;
    note EvIp6ReassTmr
  else ret tt.

(** The interface is allocated; [netif_add] runs the init function and may fail. *)
Definition uvl_init_lwip (fresh : netif) : M uvl_t Z :=
  modify (set_u_the_netif (Some fresh)) ;;;
  let* u := gets id in
  (if negb (u_lwip_init u) then note EvLwipInit ;;; modify (set_u_lwip_init true) else ret tt) ;;;
  let n := uvl_netif_init_func fresh in
  modify (set_u_the_netif (Some n)) ;;;
  let* ok := answer ue_succeeds in
  if negb ok then ret (-1)
  else
    modify (set_u_the_netif (Some
      {| nf_name := nf_name n; nf_num := nf_num n; nf_output := nf_output n; nf_mtu := 1300;
         nf_up := true; nf_link_up := true; nf_pretend_tcp := 1; nf_default := true |})) ;;;
    ret 0.

Definition uvl_init (fresh : netif) : M uvl_t Z :=
  modify (fun u => {| u_output := false; u_connection_cb := false; u_close_cb := false;
                      u_the_netif := u_the_netif u; u_listener := None; u_waiting_pcb := None;
                      u_tcp_timer_mod4 := 0; u_closed := 0; u_lwip_init := u_lwip_init u;
                      u_clients := u_clients u; u_ticks := u_ticks u; u_log := u_log u |}) ;;;
  let* r := answer ue_call in            (* uv_timer_init *)
  if negb (r =? 0) then ret r
  else
    let* r := answer ue_call in          (* uv_timer_start, every 250 ms *)
    if negb (r =? 0) then ret r else uvl_init_lwip fresh.

Definition uvl_bind : M uvl_t Z := modify (set_u_output true) ;;; ret 0.

Definition uvl_listen : M uvl_t Z :=
  modify (set_u_connection_cb true) ;;;
  let* l := answer ue_new in             (* tcp_new_ip_type *)
  match l with
  | None => ret (-1)
  | Some l =>
      let* r := answer ue_call in        (* tcp_bind_to_netif *)
      if negb (r =? ERR_OK) then note (EvTcpClose l) ;;; ret (-1)
      else
        let* listener := answer ue_new in (* tcp_listen *)
        modify (set_u_listener listener) ;;;
        match listener with
        | None => note (EvTcpClose l) ;;; ret (-1)
        | Some _ => ret 0
        end
  end.

Definition uvl_timer_close_cb : M uvl_t unit :=
  let* u := gets id in if u_close_cb u then note EvCloseCallback else ret tt.

Definition uvl_close (close_cb : bool) : M uvl_t Z :=
  let* u := gets id in
  (if negb (u_closed u =? 0) && close_cb then note EvCloseCallback else ret tt) ;;;
  match u_listener u with
  | Some l =>
      note (EvTcpClose l) ;;;
      let* err := answer ue_call in
      (if negb (err =? ERR_OK) then note (EvAbort l) else ret tt) ;;;
      modify (set_u_listener None)
  | None => ret tt
  end ;;;
  match u_the_netif u with
  | Some _ => note EvNetifRemove ;;; modify (set_u_the_netif None)
  | None => ret tt
  end ;;;
  note EvTimerStop ;;;
  modify (set_u_close_cb close_cb) ;;;
  note EvTimerClose ;;;
  ret 0.
End code.

(** ** Properties *)

(** Occurrences, weighted. *)
Definition tally {A} (f : A -> Z) (l : list A) : Z := foldr (fun e n => n + f e) 0 l.

Lemma tally_app {A} (f : A -> Z) (l k : list A) : tally f (l ++ k) = tally f l + tally f k.
Proof. unfold tally. induction l as [|x l IH]; simpl; [lia|]. rewrite IH. lia. Qed.

Section properties.
Context `{UvlEnv}.

(** Packet buffers in use: allocated, not freed and not taken over by lwIP. *)
Definition held : list uvl_event -> Z :=
  tally (fun e => match e with
                  | EvPbufAlloc => 1
                  | EvPbufFree | EvIp4Input _ | EvIp6Input _ => -1
                  | _ => 0
                  end).
Definition fast_ticks : list uvl_event -> Z :=
  tally (fun e => match e with EvTcpTmr => 1 | _ => 0 end).
Definition slow_ticks : list uvl_event -> Z :=
  tally (fun e => match e with EvIpReassTmr => 1 | _ => 0 end).

Fixpoint ticks (n : nat) : M uvl_t unit :=
  match n with O => ret tt | S n => uvl_timer ;;; ticks n end.

Lemma gather_run i p bufs u :
  0 <= i <= UVL_NBUF_LEN ->
  gather i p bufs u = if i + zlen p <=? UVL_NBUF_LEN then Ok (bufs ++ p) u else Stop Oob.
Proof.
  change UVL_NBUF_LEN with 10. revert i bufs. induction p as [|seg p IH]; intros i bufs Hi; simpl.
  - rewrite app_nil_r, zlen_nil. by rewrite (proj2 (Z.leb_le _ _)) by lia.
  - rewrite zlen_cons. change UVL_NBUF_LEN with 10. pose proof (zlen_nonneg p).
    destruct (Z.ltb_spec i 10).
    + rewrite IH by lia. rewrite <-app_assoc. by replace (i + 1 + zlen p) with (i + (zlen p + 1)) by lia.
    + by rewrite (proj2 (Z.leb_gt _ _)) by lia.
Qed.

Lemma netif_output_run p u :
  p <> [] -> u_output u = true ->
  uvl_netif_output_func p u =
    if zlen p <? UVL_NBUF_LEN then
      Ok (if ue_call (u_ticks u) =? 0 then ERR_OK else ERR_IF)
         (set_u_ticks (S (u_ticks u)) (set_u_log (u_log u ++ [EvOutput p]) u))
    else if zlen p =? UVL_NBUF_LEN then Stop AssertFail else Stop Oob.
Proof.
  intros Hp Ho. unfold uvl_netif_output_func. destruct p as [|s p]; [done|]. generalize dependent (s :: p).
  clear s p. intros p _. unfold bind at 1. rewrite gather_run by (change UVL_NBUF_LEN with 10; lia).
  change UVL_NBUF_LEN with 10. rewrite Z.add_0_l. cbn [app].
  destruct (Z.leb_spec (zlen p) 10); [|by rewrite (proj2 (Z.ltb_ge _ _)), (proj2 (Z.eqb_neq _ _)) by lia].
  destruct (Z.ltb_spec (zlen p) 10).
  - unfold check, bind, gets, ret at 1. by rewrite Ho.
  - by rewrite (proj2 (Z.eqb_eq _ _)) by lia.
Qed.

(** A fresh object, as [uvl_tcp_init] leaves it. *)
Definition initialised (c : uvl_tcp_t) : Prop :=
  t_cur_write c = None /\ t_tail_write c = None /\ t_closed c = false /\ called (t_log c) = [] /\
  t_close_cb c = None /\ t_buf c = Some {| recv_buf := replicate (Z.to_nat UVL_TCP_RECV_BUF_LEN) 0; recv_used := 0 |}.

Lemma tcp_init_initialised c c' :
  called (t_log c) = [] -> uvl_tcp_init c = Ok 0 c' -> initialised c'.
Proof.
  intros Hl. unfold uvl_tcp_init, uv_async_init, initialised. set (b := replicate _ 0).
  unfold bind, upd, modify, gets, ret. cbn [t_ticks set_t_ticks].
  destruct (Z.eqb_spec (env_async_init (t_ticks c)) 0); cbn [negb]; [|intros E; by inversion E].
  cbn [t_ticks set_t_ticks].
  destruct (Z.eqb_spec (env_async_init (S (t_ticks c))) 0); cbn [negb]; [|intros E; by inversion E].
  by intros [= <-].
Qed.

Lemma accept_connected c p local remote :
  initialised c ->
  exists c', accept_client p local remote c = Ok tt c' /\ connected c' p /\
    t_local_addr c' = local /\ t_remote_addr c' = remote /\ t_log c' = t_log c.
Proof.
  intros (Hcur & Htail & Hcl & Hlog & Hcb & Hb). eexists. split; [reflexivity|]. split; [|done].
  constructor; try done. eexists. split; [exact Hb|]. split; [done|]. split; done.
Qed.

Lemma accept_func_run newpcb u :
  is_Some (u_listener u) -> u_connection_cb u = true ->
  match ue_connection_cb (u_ticks u) with
  | None => exists u', uvl_listener_accept_func newpcb ERR_OK u = Ok ERR_ABRT u' /\
      u_waiting_pcb u' = None /\ u_clients u' = u_clients u /\ u_log u' = u_log u ++ [EvAbort newpcb]
  | Some client => initialised client ->
      exists u' c', uvl_listener_accept_func newpcb ERR_OK u = Ok ERR_OK u' /\
        u_waiting_pcb u' = None /\ u_clients u' = u_clients u ++ [c'] /\ u_log u' = u_log u /\
        connected c' newpcb /\
        (t_remote_addr c').2 = htons (pcb_remote newpcb).2 /\
        forall a, (pcb_remote newpcb).1 = IpV4 a -> (t_remote_addr c').1 = a
  end.
Proof.
  intros [l Hl] Hcb. unfold uvl_listener_accept_func.
  rewrite (bind_ok _ _ _ tt u), (bind_ok _ _ _ u u) by done. rewrite Hl, Hcb.
  rewrite !(bind_ok _ _ _ tt u) by done. set (u1 := set_u_waiting_pcb (Some newpcb) u).
  rewrite (bind_ok _ _ _ tt u1) by done.
  rewrite (bind_ok _ _ _ (ue_connection_cb (u_ticks u)) (set_u_ticks (S (u_ticks u)) u1)) by done.
  destruct (ue_connection_cb (u_ticks u)) as [client|].
  - intros Hc. unfold uvl_accept, bind, gets, answer. cbn [u_waiting_pcb set_u_ticks set_u_waiting_pcb id u1].
    match goal with |- context [accept_client ?p ?a ?b client] =>
      destruct (accept_connected client p a b Hc) as (c' & -> & Hconn & _ & Hrem & _) end.
    eexists _, c'. split; [reflexivity|]. rewrite Hrem. split_and!; try done. by intros a ->.
  - eexists. split; [reflexivity|]. done.
Qed.

Lemma netif_input_run p u :
  p <> [] -> (forall n, ue_input n = ERR_OK) ->
  exists u', uvl_netif_input_func p u = Ok ERR_OK u' /\ held (u_log u') = held (u_log u) - 1.
Proof.
  intros Hp Hin. destruct p as [|first p]; [done|]. unfold uvl_netif_input_func.
  rewrite (bind_ok _ _ _ first u) by done. set (m := if 0 <? zlen first then _ else _).
  assert (Hv : exists v, m u = Ok v u).
  { unfold m. destruct (Z.ltb_spec 0 (zlen first)); [|by eexists]. rewrite mem_get_Some by lia. by eexists. }
  destruct Hv as [v Ev]. rewrite (bind_ok _ _ _ _ _ Ev).
  destruct (v =? 4); [|destruct (v =? 6)]; unfold bind, note, modify, answer, ret; rewrite ?Hin;
    eexists; (split; [reflexivity|]); cbn [u_log set_u_log set_u_ticks]; unfold held; rewrite tally_app; simpl; lia.
Qed.

Lemma input_run split buf u :
  is_Some (u_the_netif u) -> split buf <> [] -> (forall n, ue_input n = ERR_OK) ->
  exists r u', uvl_input split buf u = Ok r u' /\ held (u_log u') = held (u_log u) /\ (r = 0 \/ r = -1).
Proof.
  intros [nf Hn] Hs Hin. unfold uvl_input, bind at 1, answer at 1. destruct (ue_succeeds (u_ticks u)); cbn [negb].
  2: { eexists _, _. split; [reflexivity|]. split; [done|by right]. }
  unfold bind at 1, note at 1, modify. unfold bind at 1, answer at 1. cbn [u_ticks u_log set_u_log set_u_ticks].
  destruct (negb (ue_call (S (u_ticks u)) =? ERR_OK)).
  { eexists _, _. split; [reflexivity|]. split; [|by right]. cbn [u_log set_u_log set_u_ticks].
    unfold held. rewrite !tally_app. simpl. lia. }
  unfold bind at 1, gets. cbn [u_the_netif set_u_log set_u_ticks]. rewrite Hn.
  match goal with |- context [bind (uvl_netif_input_func _) _ ?v] =>
    destruct (netif_input_run (split buf) v Hs Hin) as (u' & E & Hh) end.
  rewrite (bind_ok _ _ _ _ _ E). eexists _, _. split; [reflexivity|]. split; [|by left].
  rewrite Hh. cbn [u_log set_u_log set_u_ticks]. unfold held. rewrite !tally_app. simpl. lia.
Qed.

Lemma uvl_timer_run u :
  uvl_timer u = Ok tt (let m := (u_tcp_timer_mod4 u + 1) mod 4 in
    set_u_log (u_log u ++ EvTcpTmr :: if m =? 0 then [EvIpReassTmr; EvNd6Tmr; EvIp6ReassTmr] else [])
      (set_u_tcp_timer_mod4 m u)).
Proof.
  unfold uvl_timer, bind, gets, modify, note, check, ret. cbn [u_tcp_timer_mod4 set_u_log set_u_tcp_timer_mod4 id].
  change (IP_TMR_INTERVAL =? 4 * TCP_TMR_INTERVAL) with true.
  change (ND6_TMR_INTERVAL =? 4 * TCP_TMR_INTERVAL) with true.
  change (IP6_REASS_TMR_INTERVAL =? 4 * TCP_TMR_INTERVAL) with true. cbv zeta.
  unfold modify. cbn [u_tcp_timer_mod4 set_u_log set_u_tcp_timer_mod4].
  destruct ((u_tcp_timer_mod4 u + 1) mod 4 =? 0); [|done].
  cbn [u_log set_u_log set_u_tcp_timer_mod4]. by rewrite <-!app_assoc.
Qed.

Lemma ticks_run n k v :
  0 <= k -> u_tcp_timer_mod4 v = k mod 4 ->
  exists v', ticks n v = Ok tt v' /\
    fast_ticks (u_log v') = fast_ticks (u_log v) + Z.of_nat n /\
    slow_ticks (u_log v') = slow_ticks (u_log v) + (k + Z.of_nat n) / 4 - k / 4 /\
    u_tcp_timer_mod4 v' = (k + Z.of_nat n) mod 4.
Proof.
  revert k v. induction n as [|n IH]; intros k v Hk H3.
  { exists v. rewrite !Z.add_0_r. split_and!; (done || lia). }
  cbn [ticks]. rewrite (bind_ok _ _ _ _ _ (uvl_timer_run v)). cbv zeta. set (v1 := set_u_log _ _).
  assert (Em : (u_tcp_timer_mod4 v + 1) mod 4 = (k + 1) mod 4) by (rewrite H3; apply Z.add_mod_idemp_l; lia).
  destruct (IH (k + 1) v1) as (v' & E & T1 & T2 & T3); [lia|exact Em|].
  exists v'. rewrite Nat2Z.inj_succ. replace (k + Z.succ (Z.of_nat n)) with (k + 1 + Z.of_nat n) by lia.
  split_and!; [done| |rewrite T2|done].
  - rewrite T1. unfold v1, fast_ticks. cbn [u_log set_u_log]. rewrite tally_app. destruct (_ =? 0); simpl; lia.
  - unfold v1, slow_ticks. cbn [u_log set_u_log]. rewrite tally_app, Em.
    pose proof (Z.div_mod k 4). pose proof (Z.div_mod (k + 1) 4).
    pose proof (Z.mod_pos_bound k 4). pose proof (Z.mod_pos_bound (k + 1) 4).
    destruct (Z.eqb_spec ((k + 1) mod 4) 0); simpl; lia.
Qed.
End properties.

(** ** Results *)

(** C29: a packet lwIP sends through the interface leaves whole and in order when it
    has at most nine segments; one of exactly ten stops at the assertion that
    follows the loop, and a longer one has by then stored past the end of the array
    of ten. *)
Theorem netif_output_segments `{UvlEnv} p u :
  p <> [] -> u_output u = true ->
  uvl_netif_output_func p u =
    if zlen p <? UVL_NBUF_LEN then
      Ok (if ue_call (u_ticks u) =? 0 then ERR_OK else ERR_IF)
         (set_u_ticks (S (u_ticks u)) (set_u_log (u_log u ++ [EvOutput p]) u))
    else if zlen p =? UVL_NBUF_LEN then Stop AssertFail else Stop Oob.
Proof. apply netif_output_run. Qed.

(** An offered connection is never left waiting.  When the connection callback
    does not accept, it is reset and reported as aborted; when it accepts with an
    object [uvl_tcp_init] has prepared, that object becomes a connection over the
    offered control block in its initial state, the one the stream theorems start
    from, with the peer's address and port. *)
Theorem accept_or_reset `{UvlEnv} newpcb u :
  is_Some (u_listener u) -> u_connection_cb u = true ->
  match ue_connection_cb (u_ticks u) with
  | None => exists u', uvl_listener_accept_func newpcb ERR_OK u = Ok ERR_ABRT u' /\
      u_waiting_pcb u' = None /\ u_clients u' = u_clients u /\ u_log u' = u_log u ++ [EvAbort newpcb]
  | Some client => forall c, called (t_log c) = [] -> uvl_tcp_init c = Ok 0 client ->
      exists u' c', uvl_listener_accept_func newpcb ERR_OK u = Ok ERR_OK u' /\
        u_waiting_pcb u' = None /\ u_clients u' = u_clients u ++ [c'] /\ u_log u' = u_log u /\
        connected c' newpcb /\
        (t_remote_addr c').2 = htons (pcb_remote newpcb).2 /\
        forall a, (pcb_remote newpcb).1 = IpV4 a -> (t_remote_addr c').1 = a
  end.
Proof.
  intros Hl Hcb. pose proof (accept_func_run newpcb u Hl Hcb) as Hrun.
  destruct (ue_connection_cb (u_ticks u)) as [client|]; [|done].
  intros c Hc Hi. apply Hrun. by eapply tcp_init_initialised.
Qed.

(** Feeding a packet to lwIP never leaks nor frees twice a packet buffer: what is
    allocated is freed or handed to lwIP exactly once, on success and on every error
    path, as lwIP's input functions return [ERR_OK] once they own the buffer. *)
Theorem uvl_input_balanced `{UvlEnv} split buf u :
  is_Some (u_the_netif u) -> split buf <> [] -> (forall n, ue_input n = ERR_OK) ->
  exists r u', uvl_input split buf u = Ok r u' /\ held (u_log u') = held (u_log u) /\ (r = 0 \/ r = -1).
Proof. apply input_run. Qed.

(** After any number of timer ticks of an initialised interface lwIP's TCP timer
    has run on each and its slow timers on every fourth, and the assertions on the
    periods hold. *)
Theorem slow_timer_period `{UvlEnv} n u :
  u_tcp_timer_mod4 u = 0 ->
  exists u', ticks n u = Ok tt u' /\
    fast_ticks (u_log u') = fast_ticks (u_log u) + Z.of_nat n /\
    slow_ticks (u_log u') = slow_ticks (u_log u) + Z.of_nat n / 4 /\
    u_tcp_timer_mod4 u' = Z.of_nat n mod 4.
Proof.
  intros Hm. destruct (ticks_run n 0 u (Z.le_refl 0) Hm) as (u' & E & Hf & Hs & Hm').
  exists u'. split_and!; [done|done| |done]. rewrite Hs. rewrite Z.sub_0_r. done.
Qed.

(** ** Concrete runs *)

Definition blank_client : @uvl_tcp_t sim_lwip :=
  {| t_reqs := ∅; t_cur_write := None; t_tail_write := None; t_pcb := None; t_closed := false;
     t_buf := None; t_read_cb := false; t_close_cb := None; t_local_addr := ([], 0);
     t_remote_addr := ([], 0); t_sent_bytes := 0; t_recv_bytes := 0; t_closed_handle := 0;
     t_ticks := 0; t_log := [] |}.
Definition ready_client : @uvl_tcp_t sim_lwip :=
  match uvl_tcp_init (H := sim_env) blank_client with Ok _ c => c | Stop _ => blank_client end.

Definition sim_uvl : UvlEnv :=
  {| ue_uv := sim_env; ue_host := le_host; ue_call := fun _ => 0; ue_new := fun _ => Some sim_p0;
     ue_succeeds := fun _ => true; ue_input := fun _ => ERR_OK;
     ue_connection_cb := fun _ => Some ready_client;
     pcb_local := fun _ => (IpV4 [10; 13; 0; 1], 80);
     pcb_remote := fun _ => (IpV4 [10; 13; 0; 2], 4000); ue_stack := fun _ => [0; 0; 0; 0] |}.

Definition fresh_netif : netif :=
  {| nf_name := [0; 0]; nf_num := 0; nf_output := false; nf_mtu := 0; nf_up := false;
     nf_link_up := false; nf_pretend_tcp := 0; nf_default := false |}.
Definition blank_uvl : @uvl_t sim_lwip :=
  {| u_output := false; u_connection_cb := false; u_close_cb := false; u_the_netif := None;
     u_listener := None; u_waiting_pcb := None; u_tcp_timer_mod4 := 7; u_closed := 0;
     u_lwip_init := false; u_clients := []; u_ticks := 0; u_log := [] |}.
Definition started : M (@uvl_t sim_lwip) Z :=
  let* _ := uvl_init (H := sim_uvl) fresh_netif in
  let* _ := uvl_bind in uvl_listen (H := sim_uvl).
Definition sim_u0 : @uvl_t sim_lwip :=
  match started blank_uvl with Ok _ u => u | Stop _ => blank_uvl end.

Lemma netif_output_segments_witness :
  uvl_netif_output_func (H := sim_uvl) [[1]; [2]; [3]] sim_u0 =
    Ok ERR_OK (set_u_ticks (S (u_ticks sim_u0)) (set_u_log (u_log sim_u0 ++ [EvOutput [[1]; [2]; [3]]]) sim_u0)) /\
  uvl_netif_output_func (H := sim_uvl) (replicate 10 [1]) sim_u0 = Stop AssertFail /\
  uvl_netif_output_func (H := sim_uvl) (replicate 11 [1]) sim_u0 = Stop Oob.
Proof.
  split; [|split].
  - apply (netif_output_segments (H := sim_uvl) [[1]; [2]; [3]] sim_u0); [discriminate|reflexivity].
  - apply (netif_output_segments (H := sim_uvl) (replicate 10 [1]) sim_u0); [discriminate|reflexivity].
  - apply (netif_output_segments (H := sim_uvl) (replicate 11 [1]) sim_u0); [discriminate|reflexivity].
Defined.

Lemma accept_or_reset_witness :
  exists u' c', uvl_listener_accept_func (H := sim_uvl) sim_p0 ERR_OK sim_u0 = Ok ERR_OK u' /\
    u_waiting_pcb u' = None /\ u_clients u' = u_clients sim_u0 ++ [c'] /\ u_log u' = u_log sim_u0 /\
    connected (H := sim_lwip) c' sim_p0 /\
    (t_remote_addr (H := sim_lwip) c').2 = htons (H := le_host) 4000 /\
    forall a, IpV4 [10; 13; 0; 2] = IpV4 a -> (t_remote_addr (H := sim_lwip) c').1 = a.
Proof.
  apply (accept_or_reset (H := sim_uvl) sim_p0 sim_u0 (mk_is_Some _ _ eq_refl) eq_refl blank_client);
    reflexivity.
Defined.

Lemma uvl_input_balanced_witness :
  exists r u', uvl_input (H := sim_uvl) (fun b => [b]) [69; 0] sim_u0 = Ok r u' /\
    held (H := sim_uvl) (u_log u') = held (H := sim_uvl) (u_log sim_u0) /\ (r = 0 \/ r = -1).
Proof.
  apply (uvl_input_balanced (H := sim_uvl) (fun b => [b]) [69; 0] sim_u0);
    [by eexists|discriminate|reflexivity].
Defined.

Lemma slow_timer_period_witness :
  exists u', ticks (H := sim_uvl) 9 sim_u0 = Ok tt u' /\
    fast_ticks (H := sim_uvl) (u_log u') = 9 /\ slow_ticks (H := sim_uvl) (u_log u') = 2 /\
    u_tcp_timer_mod4 u' = 1.
Proof. apply (slow_timer_period (H := sim_uvl) 9 sim_u0). reflexivity. Defined.
