(* ===== verification/TcpProxy.v ===== *)
(** TCP through the gateway: [TcpConnection] of [src/gateway.cpp], the connection object
    [IConnection] and its owner [UvLwipBase] of [uv_lwip/uv_lwip.hpp], and the TCP halves
    of [src/proxy_direct.cpp] and [src/proxy_socks5.cpp].

    A console's connection, accepted by lwIP, is joined to a connection to the server.
    Each side is an interface: [ConsoleTcp], what [uv_lwip.c] offers (its instance is
    [uvl_tcp_t] of [UvTcp]), and [IProxyTcp], the interface of the source with its two
    implementations.  Callbacks are events: [conn_event] says what the two sides can
    report, [conn_step] which reports are possible, from what was asked of them.

    Shown here: data is taken from a side only when the other side has taken the
    previous piece, so at most one piece is under way in each direction; bytes arrive in
    order, none lost or repeated; as long as both sides are open, neither direction
    is ever stuck; closing happens once; and where the SOCKS5 implementation crashes or
    leaves the console waiting. *)

From stdpp Require Import gmap.
From S2P Require Import Prelude Byteorder Structs Packet Arp Ipv4 LanClient Dispatch Socks5 UvTcp.

(** ** The code *)

(** What [IConnection] uses of its [uvl_tcp_t].  [ct_read_start] also says whether the read
    callback was run with end-of-file before it returned. *)
Class ConsoleTcp (T : Type) := {
  ct_reading : T -> bool;
  ct_ended : T -> bool;                         (* lwIP has dropped the connection *)
  ct_local_addr : T -> sockaddr_in;
  ct_read_start : M T (Z * bool);
  ct_read_stop : M T Z;
  ct_write : nat -> bytes -> M T Z;
  ct_close : M T Z;
}.

(** [IProxyTcp] *)
Class IProxyTcp (P : Type) := {
  pt_connect : sockaddr_in -> M P unit;
  pt_stop : M P unit;
  pt_read : M P unit;
  pt_write : bytes -> M P unit;
  pt_close : M P unit;
}.

(** [UvLwipBase]; [ub_in_set]: this connection is in [connSet]. *)
Record UvLwipBase := {
  ub_closing : bool;
  ub_lwipClosed : bool;
  ub_closingCount : Z;
  ub_in_set : bool;
  ub_reset : bool;                              (* the reference to itself is gone *)
}.

Record TcpConnection (T P : Type) := {
  tc_client : T;
  tc_ptcp : P;
  tc_closing : bool;                            (* TcpConnection::closing *)
  tc_base_closing : bool;                       (* IConnection::closing *)
  tc_next : nat;                                (* the next write request *)
  tc_lwip : UvLwipBase;
}.
Arguments tc_client {T P} _.
Arguments tc_ptcp {T P} _.
Arguments tc_closing {T P} _.
Arguments tc_base_closing {T P} _.
Arguments tc_next {T P} _.
Arguments tc_lwip {T P} _.

Definition set_tc_client {T P} (v : T) (c : TcpConnection T P) : TcpConnection T P :=
  {| tc_client := v; tc_ptcp := tc_ptcp c; tc_closing := tc_closing c; tc_base_closing := tc_base_closing c;
     tc_next := tc_next c; tc_lwip := tc_lwip c |}.
Definition set_tc_ptcp {T P} (v : P) (c : TcpConnection T P) : TcpConnection T P :=
  {| tc_client := tc_client c; tc_ptcp := v; tc_closing := tc_closing c; tc_base_closing := tc_base_closing c;
     tc_next := tc_next c; tc_lwip := tc_lwip c |}.
Definition set_tc_closing {T P} (v : bool) (c : TcpConnection T P) : TcpConnection T P :=
  {| tc_client := tc_client c; tc_ptcp := tc_ptcp c; tc_closing := v; tc_base_closing := tc_base_closing c;
     tc_next := tc_next c; tc_lwip := tc_lwip c |}.
Definition set_tc_base_closing {T P} (v : bool) (c : TcpConnection T P) : TcpConnection T P :=
  {| tc_client := tc_client c; tc_ptcp := tc_ptcp c; tc_closing := tc_closing c; tc_base_closing := v;
     tc_next := tc_next c; tc_lwip := tc_lwip c |}.
Definition set_tc_next {T P} (v : nat) (c : TcpConnection T P) : TcpConnection T P :=
  {| tc_client := tc_client c; tc_ptcp := tc_ptcp c; tc_closing := tc_closing c; tc_base_closing := tc_base_closing c;
     tc_next := v; tc_lwip := tc_lwip c |}.
Definition set_tc_lwip {T P} (v : UvLwipBase) (c : TcpConnection T P) : TcpConnection T P :=
  {| tc_client := tc_client c; tc_ptcp := tc_ptcp c; tc_closing := tc_closing c; tc_base_closing := tc_base_closing c;
     tc_next := tc_next c; tc_lwip := v |}.

(** [RT_ASSERT]: a failed one ends the process. *)
Definition RT_ASSERT {S} (b : bool) : M S unit := if b then ret tt else halt (Exited 1).

(** *** UvLwipBase *)

Definition onSelfClose : M UvLwipBase unit :=
  let* b := gets id in
  if negb (ub_lwipClosed b) then
    modify (fun b => {| ub_closing := ub_closing b; ub_lwipClosed := true; ub_closingCount := ub_closingCount b;
                        ub_in_set := ub_in_set b; ub_reset := ub_reset b |})
  else
    modify (fun b => {| ub_closing := ub_closing b; ub_lwipClosed := ub_lwipClosed b;
                        ub_closingCount := ub_closingCount b; ub_in_set := ub_in_set b; ub_reset := true |}).

Definition removeConnection : M UvLwipBase unit :=
  let* b := gets id in
  if ub_closing b then
    modify (fun b => {| ub_closing := ub_closing b; ub_lwipClosed := ub_lwipClosed b;
                        ub_closingCount := ub_closingCount b - 1; ub_in_set := ub_in_set b; ub_reset := ub_reset b |}) ;;;
    let* b := gets id in
    if ub_closingCount b =? 0 then onSelfClose else ret tt
  else
    modify (fun b => {| ub_closing := ub_closing b; ub_lwipClosed := ub_lwipClosed b;
                        ub_closingCount := ub_closingCount b; ub_in_set := false; ub_reset := ub_reset b |}).

(** [release] up to the loop over [connSet], which has [size] connections. *)
Definition release_begin (size : Z) : M UvLwipBase unit :=
  modify (fun b => {| ub_closing := true; ub_lwipClosed := ub_lwipClosed b; ub_closingCount := size;
                      ub_in_set := ub_in_set b; ub_reset := ub_reset b |}).

(** The packets lwIP sends, gathered on the stack ([onUvlOutput]) and given to the client. *)
Fixpoint output_gather (bufs : list bytes) (buffer : bytes) (len : Z) : M world (bytes * Z) :=
  match bufs with
  | [] => ret (buffer, len)
  | b :: bufs =>
      RT_ASSERT (u32 (len + zlen b) <? 8192) ;;;
      let* buffer := mem (mem_put buffer len b) in
      output_gather bufs buffer (u32 (len + zlen b))
  end.
Definition onUvlOutput `{Env} (bufs : list bytes) : M world Z :=
  let* r := output_gather bufs (uninit 8192) 0 in
  lan_play_gateway_send_packet r.1 r.2.

Section connection.
Context `{ConsoleTcp T} `{IProxyTcp P}.

Definition on_client {A} (m : M T A) : M (TcpConnection T P) A :=
  fun c => match m (tc_client c) with Ok a x => Ok a (set_tc_client x c) | Stop e => Stop e end.
Definition on_ptcp {A} (m : M P A) : M (TcpConnection T P) A :=
  fun c => match m (tc_ptcp c) with Ok a x => Ok a (set_tc_ptcp x c) | Stop e => Stop e end.
Definition on_lwip {A} (m : M UvLwipBase A) : M (TcpConnection T P) A :=
  fun c => match m (tc_lwip c) with Ok a x => Ok a (set_tc_lwip x c) | Stop e => Stop e end.

(** *** IConnection *)

Definition conn_stop : M (TcpConnection T P) unit :=
  let* r := on_client ct_read_stop in
  RT_ASSERT (r =? 0).

(** [IConnection::write] *)
Definition conn_write (data : bytes) : M (TcpConnection T P) bool :=
  let* i := gets tc_next in
  modify (set_tc_next (S i)) ;;;
  let* r := on_client (ct_write i data) in
  ret (r =? 0).

(** [close(false)], the owner being alive. *)
Definition conn_close : M (TcpConnection T P) unit :=
  on_lwip removeConnection ;;;
  let* closing := gets tc_base_closing in
  if negb closing then
    modify (set_tc_base_closing true) ;;;
    let* r := on_client ct_close in
    RT_ASSERT (r =? 0)
  else ret tt.

(** *** TcpConnection *)

Definition kill : M (TcpConnection T P) unit :=
  let* closing := gets tc_closing in
  if negb closing then
    modify (set_tc_closing true) ;;;
    on_ptcp pt_stop ;;;
    conn_stop ;;;
    on_ptcp pt_close ;;;
    conn_close
  else ret tt.

Definition onData (data : bytes) : M (TcpConnection T P) unit :=
  conn_stop ;;;
  on_ptcp (pt_write data).
Definition onWrite : M (TcpConnection T P) unit := on_ptcp pt_read.
Definition onClose : M (TcpConnection T P) unit := kill.
Definition onClosed : M (TcpConnection T P) unit := kill.

(** [IConnection::readCallback], [nread] is the length of [data] or an error. *)
Definition readCallback (nread : Z) (data : bytes) : M (TcpConnection T P) unit :=
  if 0 <? nread then onData data
  else
    let* closing := gets tc_base_closing in
    if negb closing then onClose else ret tt.

(** [IConnection::read]: the callback may run inside [uvl_read_start], with end-of-file. *)
Definition conn_read : M (TcpConnection T P) unit :=
  let* r := on_client ct_read_start in
  (if r.2 : bool then readCallback UV_EOF [] else ret tt) ;;;
  RT_ASSERT (r.1 =? 0).

Definition writeCallback (status : Z) : M (TcpConnection T P) unit :=
  if status =? 0 then onWrite else ret tt.
Definition closeCallback : M (TcpConnection T P) unit := onClosed.

(** The callbacks given to the proxy's connection. *)
Definition ptcp_onData (data : bytes) : M (TcpConnection T P) unit :=
  on_ptcp pt_stop ;;;
  let* _ := conn_write data in
  ret tt.
Definition ptcp_onWrite : M (TcpConnection T P) unit := conn_read.
Definition ptcp_onClose : M (TcpConnection T P) unit := kill.
Definition ptcp_onConnect : M (TcpConnection T P) unit :=
  on_ptcp pt_read ;;;
  conn_read.

Definition onConnection : M (TcpConnection T P) unit :=
  let* addr := gets (fun c => ct_local_addr (tc_client c)) in
  on_ptcp (pt_connect addr).
End connection.

(** *** The implementations *)

(** What is asked of a TCP handle of the proxy. *)
Inductive handle_call :=
| HcConnect (addr : sockaddr_in)
| HcRead
| HcStop
| HcWrite (data : bytes)
| HcClose.

Record DirectProxyTcp := { dt_calls : list handle_call }.

Definition dt_call (e : handle_call) : M DirectProxyTcp unit :=
  modify (fun d => {| dt_calls := dt_calls d ++ [e] |}).

#[export] Instance direct_tcp : IProxyTcp DirectProxyTcp :=
  {| pt_connect addr := dt_call (HcConnect addr); pt_stop := dt_call HcStop; pt_read := dt_call HcRead;
     pt_write data := dt_call (HcWrite data); pt_close := dt_call HcClose |}.

(** [sx_tcp]: the pointer [tcp], set when the protocol is ready; [sx_protocol] owns the
    handle from the start. *)
Record Socks5ProxyTcp := {
  sx_tcp : bool;
  sx_protocol : Socks5Protocol;
  sx_calls : list handle_call;
}.

Section socks5_tcp.
Context `{Env}.
Variable cfg : Socks5ServerConfig.

(** [tcp->...] *)
Definition sx_call (e : handle_call) : M Socks5ProxyTcp unit :=
  let* s := gets id in
  if sx_tcp s then
    modify (fun s => {| sx_tcp := sx_tcp s; sx_protocol := sx_protocol s; sx_calls := sx_calls s ++ [e] |})
  else halt NullDeref.

Definition sx_run (m : M Socks5Protocol unit) : M Socks5ProxyTcp unit :=
  fun s => match m (sx_protocol s) with
           | Ok _ q => Ok tt {| sx_tcp := sx_tcp s; sx_protocol := q; sx_calls := sx_calls s |}
           | Stop e => Stop e
           end.

(** [protocol.connect(addr)] *)
Definition sx_connect (addr : sockaddr_in) : M Socks5ProxyTcp unit :=
  modify (fun s => {| sx_tcp := sx_tcp s; sx_protocol := newSocks5Protocol 1 addr; sx_calls := sx_calls s |}) ;;;
  sx_run (auth cfg).

Definition socks5_tcp : IProxyTcp Socks5ProxyTcp :=
  {| pt_connect := sx_connect; pt_stop := sx_call HcStop; pt_read := sx_call HcRead;
     pt_write data := sx_call (HcWrite data); pt_close := sx_call HcClose |}.
End socks5_tcp.

(** The connection of [UvTcp]; every connection of the gateway is closed with the same
    callback. *)
Section uvl.
Context `{Host} `{UvEnv}.

#[export] Instance tcp_event_eq_dec : EqDecision tcp_event.
Proof. solve_decision. Defined.

#[export] Instance uvl_console : ConsoleTcp uvl_tcp_t :=
  {| ct_reading := t_read_cb; ct_ended := t_closed;
     ct_local_addr c := {| sin_addr := (t_local_addr c).1; sin_port := store 2 (t_local_addr c).2 |};
     ct_read_start c := match uvl_read_start c with
                        | Ok r c' => Ok (r, bool_decide (t_log c' = t_log c ++ [EvReadCb UV_EOF []])) c'
                        | Stop e => Stop e
                        end;
     ct_read_stop := uvl_read_stop;
     ct_write i data := uvl_write i [data];
     ct_close := uvl_tcp_close 0 |}.
End uvl.

(** ** What the console's side promises *)

Class ConsoleLaws (T : Type) `{!ConsoleTcp T} := {
  law_stop c : exists c', ct_read_stop c = Ok 0 c' /\ ct_reading c' = false /\ ct_ended c' = ct_ended c;
  law_start_open c : ct_reading c = false -> ct_ended c = false ->
    exists r c', ct_read_start c = Ok (r, false) c' /\ ct_ended c' = false /\ ct_reading c' = (r =? 0);
  law_start_ended c : ct_reading c = false -> ct_ended c = true ->
    exists c', ct_read_start c = Ok (0, true) c' /\ ct_reading c' = false /\ ct_ended c' = true;
  law_write i d c :
    wlp (ct_write i d) (fun _ c' => ct_reading c' = ct_reading c /\ ct_ended c' = ct_ended c) c;
}.

Section uvl_laws.
Context `{Host} `{UvEnv}.

#[export] Instance uvl_console_laws : ConsoleLaws uvl_tcp_t.
Proof.
  constructor; cbn.
  - intros c. by eexists.
  - intros c Hr Hc. unfold uvl_read_start, bind, gets, id. rewrite Hr, Hc.
    unfold uv_async_send, bind, gets, upd, log, upd, modify, ret. cbn.
    destruct (env_async_send (t_ticks c) =? 0) eqn:E; cbn;
      (rewrite bool_decide_false by (by intros Hl%app_inv_head)); do 2 eexists;
      (split; [reflexivity|]); cbn; by rewrite E, ?Hr, ?Hc.
  - intros c Hr Hc. unfold uvl_read_start, bind, gets, id. rewrite Hr, Hc. cbn.
    rewrite bool_decide_true by done. by eexists.
  - intros i d c. unfold uvl_write, wlp, bind, gets, id, put, upd, modify, ret, deref, halt. cbn.
    destruct (t_tail_write c) as [t|]; cbn.
    + destruct (<[i:=_]> (t_reqs c) !! t); [|done]. cbn. by case_bool_decide.
    + by case_bool_decide.
Qed.
End uvl_laws.

(** ** Two directions *)

(** What the proxy's handle is doing, from the calls made on it. *)
Definition p_reading_step (b : bool) (e : handle_call) : bool :=
  match e with HcRead => true | HcStop | HcClose => false | _ => b end.
Definition p_reading (calls : list handle_call) : bool := foldl p_reading_step false calls.
Definition server_bytes (calls : list handle_call) : bytes :=
  concat ((fun e => match e with HcWrite d => d | _ => [] end) <$> calls).

Lemma p_reading_snoc calls e : p_reading (calls ++ [e]) = p_reading_step (p_reading calls) e.
Proof. unfold p_reading. by rewrite foldl_app. Qed.
Lemma server_bytes_snoc calls e :
  server_bytes (calls ++ [e]) = server_bytes calls ++ (match e with HcWrite d => d | _ => [] end).
Proof. unfold server_bytes. rewrite fmap_app, concat_app. cbn. by rewrite app_nil_r. Qed.

Section flow.
Context `{!ConsoleTcp T} `{!ConsoleLaws T}.

(** A connection with what is under way: pieces written to the server and to the console
    and not yet reported, and what the console has sent so far. *)
Record session := {
  se_conn : TcpConnection T DirectProxyTcp;
  se_connected : bool;
  se_to_server : nat;
  se_to_console : nat;
  se_received : bytes;
}.

Definition calls (s : session) : list handle_call := dt_calls (tc_ptcp (se_conn s)).
Definition closing (s : session) : bool := tc_closing (se_conn s).
Definition se_console (s : session) : T := tc_client (se_conn s).

(** Reports: from the server's side while it is open, from the console's side as long as
    the object lives.  [x] is the console's side afterwards. *)
Inductive conn_step : session -> session -> Prop :=
| SConnect c c' r : tc_closing c = false -> ptcp_onConnect c = Ok tt c' ->
    conn_step {| se_conn := c; se_connected := false; se_to_server := 0; se_to_console := 0; se_received := r |}
              {| se_conn := c'; se_connected := true; se_to_server := 0; se_to_console := 0; se_received := r |}
| SServerData d c c' k m n r : tc_closing c = false -> p_reading (dt_calls (tc_ptcp c)) = true ->
    ptcp_onData d c = Ok tt c' ->
    conn_step {| se_conn := c; se_connected := k; se_to_server := m; se_to_console := n; se_received := r |}
              {| se_conn := c'; se_connected := k; se_to_server := m; se_to_console := S n; se_received := r |}
| SServerWritten c c' k m n r : tc_closing c = false -> ptcp_onWrite c = Ok tt c' ->
    conn_step {| se_conn := c; se_connected := k; se_to_server := S m; se_to_console := n; se_received := r |}
              {| se_conn := c'; se_connected := k; se_to_server := m; se_to_console := n; se_received := r |}
| SServerEnd c c' k m n r : tc_closing c = false -> ptcp_onClose c = Ok tt c' ->
    conn_step {| se_conn := c; se_connected := k; se_to_server := m; se_to_console := n; se_received := r |}
              {| se_conn := c'; se_connected := k; se_to_server := m; se_to_console := n; se_received := r |}
| SConsoleData d x c c' k m n r : 0 < zlen d -> ct_reading (tc_client c) = true -> ct_reading x = true ->
    ct_ended x = ct_ended (tc_client c) -> readCallback (zlen d) d (set_tc_client x c) = Ok tt c' ->
    conn_step {| se_conn := c; se_connected := k; se_to_server := m; se_to_console := n; se_received := r |}
              {| se_conn := c'; se_connected := k; se_to_server := S m; se_to_console := n; se_received := r ++ d |}
| SConsoleEnd x c c' k m n r : ct_reading x = false -> ct_ended x = true ->
    (if ct_reading (tc_client c) then readCallback UV_EOF [] (set_tc_client x c) else Ok tt (set_tc_client x c)) = Ok tt c' ->
    conn_step {| se_conn := c; se_connected := k; se_to_server := m; se_to_console := n; se_received := r |}
              {| se_conn := c'; se_connected := k; se_to_server := m; se_to_console := n; se_received := r |}
| SConsoleWritten x status c c' k m n r :
    ct_reading x = ct_reading (tc_client c) -> ct_ended x = ct_ended (tc_client c) ->
    (status <> 0 -> ct_ended x = true) -> tc_closing c = false ->
    writeCallback status (set_tc_client x c) = Ok tt c' ->
    conn_step {| se_conn := c; se_connected := k; se_to_server := m; se_to_console := S n; se_received := r |}
              {| se_conn := c'; se_connected := k; se_to_server := m; se_to_console := n; se_received := r |}
| SClosed c c' k m n r : closeCallback c = Ok tt c' ->
    conn_step {| se_conn := c; se_connected := k; se_to_server := m; se_to_console := n; se_received := r |}
              {| se_conn := c'; se_connected := k; se_to_server := m; se_to_console := n; se_received := r |}.

(** Before the connection to the server, and after it while nobody has closed. *)
Record flow_ok (s : session) : Prop := {
  fo_before : se_connected s = false -> closing s = false ->
    ct_reading (se_console s) = false /\ p_reading (calls s) = false /\ se_to_server s = 0%nat /\ se_to_console s = 0%nat;
  fo_up : se_connected s = true -> closing s = false ->
    (ct_reading (se_console s) = true /\ se_to_server s = 0%nat) \/
    (ct_reading (se_console s) = false /\ se_to_server s = 1%nat);
  fo_down : se_connected s = true -> closing s = false ->
    (p_reading (calls s) = true /\ se_to_console s = 0%nat) \/
    (p_reading (calls s) = false /\ se_to_console s = 1%nat) \/
    (p_reading (calls s) = false /\ se_to_console s = 0%nat /\ ct_ended (se_console s) = true);
  fo_base : closing s = false -> tc_base_closing (se_conn s) = false;
  fo_bytes : server_bytes (calls s) = se_received s;
}.

(** *** The operations *)

Lemma conn_stop_run (c : TcpConnection T DirectProxyTcp) :
  exists x, conn_stop c = Ok tt (set_tc_client x c) /\ ct_reading x = false /\ ct_ended x = ct_ended (tc_client c).
Proof.
  destruct (law_stop (tc_client c)) as (x & E & Hr & He). exists x. split; [|done].
  unfold conn_stop, bind, on_client. by rewrite E.
Qed.

(** [kill] closes both sides and sends nothing more. *)
Definition killed (c c' : TcpConnection T DirectProxyTcp) : Prop :=
  tc_closing c' = true /\ server_bytes (dt_calls (tc_ptcp c')) = server_bytes (dt_calls (tc_ptcp c)).

Lemma kill_wlp (c : TcpConnection T DirectProxyTcp) : wlp kill (fun _ => killed c) c.
Proof.
  unfold kill. do 2 wlp_step. destruct (tc_closing c) eqn:Hc; cbn [negb]; [by wlp_step|].
  do 2 wlp_step. wlp_step. unfold wlp at 1. cbn. wlp_step.
  match goal with |- wlp conn_stop _ ?q => destruct (conn_stop_run q) as (x & E & _) end. unfold wlp at 1. rewrite E.
  wlp_step. unfold wlp at 1. cbn. unfold conn_close. wlp_step. unfold wlp at 1, on_lwip.
  destruct (removeConnection _) as [[] b|]; [|done]. do 2 wlp_step.
  assert (Hk : forall q : TcpConnection T DirectProxyTcp, tc_closing q = true ->
    dt_calls (tc_ptcp q) = (dt_calls (tc_ptcp c) ++ [HcStop]) ++ [HcClose] -> killed c q).
  { intros q Hq Ed. split; [done|]. rewrite Ed, !server_bytes_snoc. by rewrite !app_nil_r. }
  cbn. destruct (negb _); [|by apply Hk]. do 2 wlp_step. wlp_step. unfold wlp at 1, on_client.
  destruct (ct_close _) as [r y|]; [|done]. unfold RT_ASSERT. destruct (r =? 0); [|done]. wlp_step. by apply Hk.
Qed.

Lemma readCallback_eof_wlp (c : TcpConnection T DirectProxyTcp) :
  wlp (readCallback UV_EOF []) (fun _ c' => killed c c' \/ (c' = c /\ tc_base_closing c = true)) c.
Proof.
  unfold readCallback. change (0 <? UV_EOF) with false. cbv iota. do 2 wlp_step.
  destruct (tc_base_closing c) eqn:Eb; cbn [negb]; [wlp_step; by right|].
  eapply wlp_mono; [apply kill_wlp|]. by left.
Qed.

(** Reading from the console resumes, or the console is gone and everything is closed. *)
Lemma conn_read_wlp (c : TcpConnection T DirectProxyTcp) :
  ct_reading (tc_client c) = false ->
  wlp conn_read (fun _ c' => (ct_ended (tc_client c) = false /\ ct_reading (tc_client c') = true /\ ct_ended (tc_client c') = false /\
      tc_ptcp c' = tc_ptcp c /\ tc_closing c' = tc_closing c /\ tc_base_closing c' = tc_base_closing c) \/
    killed c c' \/ (tc_base_closing c = true /\ tc_ptcp c' = tc_ptcp c /\ tc_closing c' = tc_closing c)) c.
Proof.
  intros Hr. unfold conn_read. wlp_step. unfold wlp at 1, on_client.
  destruct (ct_ended (tc_client c)) eqn:He.
  - destruct (law_start_ended _ Hr He) as (x & -> & Hx & Hex). cbn [snd fst]. wlp_step.
    eapply wlp_mono; [apply readCallback_eof_wlp|]. intros [] c' Hc'. unfold RT_ASSERT. cbn [Z.eqb]. wlp_step.
    destruct Hc' as [Hk|[Ec Hb]]; [by right; left|right; right; by rewrite Ec].
  - destruct (law_start_open _ Hr He) as (r & x & -> & Hex & Hx). cbn [snd fst]. do 2 wlp_step. unfold RT_ASSERT.
    destruct (r =? 0); [|done]. wlp_step. left. by cbn.
Qed.

Lemma flow_killed c c' k m n r :
  killed c c' -> server_bytes (dt_calls (tc_ptcp c)) = r ->
  flow_ok {| se_conn := c'; se_connected := k; se_to_server := m; se_to_console := n; se_received := r |}.
Proof.
  intros [Hk Eb] Er. assert (Hc : forall x, closing {| se_conn := c'; se_connected := k; se_to_server := m;
    se_to_console := n; se_received := x |} <> false) by (intros x; unfold closing; cbn; by rewrite Hk).
  constructor; try (intros _ Hf; by destruct (Hc _ Hf)); [intros Hf; by destruct (Hc _ Hf)|]. unfold calls. cbn. congruence.
Qed.

(** Closed: whatever is reported from the console's side changes nothing. *)
Lemma kill_again (c : TcpConnection T DirectProxyTcp) : tc_closing c = true -> kill c = Ok tt c.
Proof. intros Hc. unfold kill, bind, gets. by rewrite Hc. Qed.

Lemma step_read c c' k m n r :
  tc_closing c = false -> tc_base_closing c = false -> ct_reading (tc_client c) = false ->
  server_bytes (dt_calls (tc_ptcp c)) = r ->
  (p_reading (dt_calls (tc_ptcp c)) = true /\ n = 0%nat) \/
    (p_reading (dt_calls (tc_ptcp c)) = false /\ n = 1%nat) \/
    (p_reading (dt_calls (tc_ptcp c)) = false /\ n = 0%nat /\ ct_ended (tc_client c) = true) ->
  m = 0%nat -> k = true -> conn_read c = Ok tt c' ->
  flow_ok {| se_conn := c'; se_connected := k; se_to_server := m; se_to_console := n; se_received := r |}.
Proof.
  intros Hc Hb Hr Er Hd -> -> E. pose proof (wlp_ok _ _ _ _ _ (conn_read_wlp c Hr) E) as
    [(He & Hr' & He' & Ep & Ec & Eb)|[Hk|(Hb' & _)]]; [|by eapply flow_killed|congruence].
  constructor; unfold closing, calls, se_console; cbn; rewrite ?Ep, ?Ec, ?Eb; try done.
  - by left.
  - intros _ _. destruct Hd as [Hd|[Hd|(_ & _ & He2)]]; [by left|by right; left|congruence].
Qed.

Lemma onData_run (c : TcpConnection T DirectProxyTcp) d :
  exists x, onData d c = Ok tt (set_tc_ptcp {| dt_calls := dt_calls (tc_ptcp c) ++ [HcWrite d] |} (set_tc_client x c)) /\
    ct_reading x = false /\ ct_ended x = ct_ended (tc_client c).
Proof.
  destruct (conn_stop_run c) as (x & E & Hr & He). exists x. split; [|done]. unfold onData, bind. by rewrite E.
Qed.

Ltac conn_simpl := unfold closing, calls, se_console;
  cbn [se_conn se_connected se_to_server se_to_console se_received tc_client tc_ptcp tc_closing tc_base_closing
       set_tc_ptcp set_tc_client set_tc_next dt_calls].

Lemma conn_step_ok s s' : conn_step s s' -> flow_ok s -> flow_ok s'.
Proof.
  intros Hs [Fb Fu Fd Fc Fr]. destruct Hs as
    [c c' r Hc E|d c c' k m n r Hc Hp E|c c' k m n r Hc E|c c' k m n r Hc E|d x c c' k m n r Hl Hrd Hx He E
    |x c c' k m n r Hx He E|x status c c' k m n r Hx He Hst Hc E|c c' k m n r E];
    unfold closing, calls, se_console in *; cbn [se_conn se_connected se_to_server se_to_console se_received] in *.
  - destruct Fb as (Hrd & Hpr & _ & _); [done..|]. unfold ptcp_onConnect, bind at 1 in E. unfold on_ptcp at 1 in E. cbn in E.
    apply (step_read (set_tc_ptcp {| dt_calls := dt_calls (tc_ptcp c) ++ [HcRead] |} c));
      [exact Hc|by apply Fc|exact Hrd| | |done|done|exact E]; cbn [tc_ptcp set_tc_ptcp dt_calls].
    + by rewrite server_bytes_snoc, app_nil_r.
    + left. by rewrite p_reading_snoc.
  - unfold ptcp_onData, bind at 1 in E. unfold on_ptcp at 1 in E. cbn in E.
    unfold conn_write, bind, gets, modify, on_client in E. cbn in E.
    pose proof (law_write (tc_next c) d (tc_client c)) as Hw. unfold wlp in Hw.
    destruct (ct_write _ _ _) as [rr x|]; [|done]. injection E as <-. destruct Hw as [Hw1 Hw2].
    destruct k; [|by destruct Fb as (_ & Hpr & _); congruence].
    constructor; conn_simpl; rewrite ?p_reading_snoc, ?server_bytes_snoc, ?app_nil_r, ?Hw1, ?Hw2; [done|done| |done|done].
    intros _ _. right; left. split; [done|]. destruct Fd as [[_ ->]|[[Hpr _]|[Hpr _]]]; congruence.
  - destruct k; [|by destruct Fb as (_ & _ & ? & _)].
    destruct Fu as [[_ ?]|[Hr Em]]; [done..|]. eapply step_read; [exact Hc|by apply Fc|exact Hr|exact Fr|by apply Fd|lia|done|exact E].
  - eapply flow_killed; [exact (wlp_ok _ _ _ _ _ (kill_wlp c) E)|done].
  - unfold readCallback in E. rewrite (proj2 (Z.ltb_lt 0 (zlen d)) Hl) in E.
    destruct (onData_run (set_tc_client x c) d) as (y & E' & Hy & Hye). rewrite E in E'. injection E' as ->.
    cbn in Hye. constructor; conn_simpl; rewrite ?p_reading_snoc, ?server_bytes_snoc, ?Hy, ?Hye, ?He; cbn [p_reading_step].
    + intros -> Hc. destruct Fb as (Hr & _); [done..|congruence].
    + intros -> Hc. right. split; [done|]. destruct Fu as [[_ ->]|[Hr _]]; [done..|congruence].
    + exact Fd.
    + exact Fc.
    + by rewrite Fr.
  - destruct (ct_reading (tc_client c)) eqn:Hr.
    + pose proof (wlp_ok _ _ _ _ _ (readCallback_eof_wlp (set_tc_client x c)) E) as [Hk|[-> Hb]]; [by eapply flow_killed|].
      cbn in Hb. constructor; conn_simpl; [..|done]; intros; rewrite Fc in Hb by done; done.
    + injection E as <-. constructor; conn_simpl; rewrite ?Hx, ?He; [|done| |done|done].
      * intros Hk Hc. destruct Fb as (_ & ? & ? & ?); done.
      * intros Hk Hc. destruct Fd as [Fd'|[Fd'|(? & ? & _)]]; auto.
  - destruct k; [|by destruct Fb as (_ & _ & _ & ?)]. unfold writeCallback in E.
    destruct Fd as [[_ ?]|[[Hpr En]|(_ & ? & _)]]; [done..| |done]. assert (n = 0%nat) as -> by lia.
    destruct (Z.eqb_spec status 0) as [->|Hne].
    + unfold onWrite, on_ptcp in E. cbn in E. injection E as <-.
      constructor; conn_simpl; rewrite ?p_reading_snoc, ?server_bytes_snoc, ?app_nil_r, ?Hx, ?He; [done|done| |done|done].
      intros _ _. by left.
    + injection E as <-. constructor; conn_simpl; rewrite ?Hx; [done|done| |done|done]. intros _ _. right; right.
      split_and!; auto.
  - unfold closeCallback, onClosed in E. eapply flow_killed; [exact (wlp_ok _ _ _ _ _ (kill_wlp c) E)|done].
Qed.

(** A connection that lwIP has just accepted. *)
Definition accepted (c : TcpConnection T DirectProxyTcp) : Prop :=
  ct_reading (tc_client c) = false /\ tc_closing c = false /\ tc_base_closing c = false /\ dt_calls (tc_ptcp c) = [].

Definition session_init (c : TcpConnection T DirectProxyTcp) : session :=
  {| se_conn := c; se_connected := false; se_to_server := 0; se_to_console := 0; se_received := [] |}.

Lemma flow_reach c c' s :
  accepted c -> onConnection c = Ok tt c' -> rtc conn_step (session_init c') s -> flow_ok s.
Proof.
  intros (Hr & Hc & Hb & Hd) E Hs. unfold onConnection, bind, gets, on_ptcp in E. cbn in E. injection E as <-.
  remember (session_init _) as s0 eqn:Es. assert (H0 : flow_ok s0).
  { subst. constructor; conn_simpl; rewrite ?Hd; done. }
  clear Es. induction Hs as [|s1 s2 s3 H12 H23 IH]; [done|]. by apply IH, (conn_step_ok s1).
Qed.
End flow.

(** ** Packets from lwIP *)

Section output.
Context `{Env}.

Lemma output_gather_run bufs pre post w :
  zlen pre + zlen (concat bufs) < 8192 -> zlen pre + zlen post = 8192 ->
  output_gather bufs (pre ++ post) (zlen pre) w =
    Ok (pre ++ concat bufs ++ drop (length (concat bufs)) post, zlen pre + zlen (concat bufs)) w.
Proof.
  revert pre post. induction bufs as [|b bufs IH]; intros pre post Hl Hp.
  { cbn. rewrite drop_0, zlen_nil, Z.add_0_r. done. }
  cbn [concat output_gather] in *. rewrite zlen_app in Hl.
  rewrite (u32_id (zlen pre + zlen b)) by (unfold is_u32; zlia).
  rewrite (proj2 (Z.ltb_lt _ 8192)) by zlia. rewrite (bind_ok _ _ _ tt w) by done.
  rewrite mem_put_Some by zlia. rewrite to_nat_zlen, take_app_length, drop_app_ge by lia.
  replace (length pre + length b - length pre)%nat with (length b) by lia.
  cbn [mem]. rewrite (bind_ok _ _ _ _ w) by done.
  rewrite (app_assoc pre b), <- zlen_app. rewrite IH; rewrite ?zlen_app; unfold zlen in *; rewrite ?length_drop; [|lia..].
  rewrite drop_drop, !length_app, <- !app_assoc. do 2 f_equal. lia.
Qed.

Lemma output_run bufs w :
  let pkt := concat bufs in
  ctx_ok (pctx w) -> is_bytes pkt -> 20 <= zlen pkt -> 14 + zlen pkt < BUFFER_SIZE ->
  let dst := take 4 (drop 16 pkt) in
  onUvlOutput bufs w =
    match arp_find (pc_arp_list (pctx w)) dst (now_at w) with
    | Some i =>
        let frame := framed (ai_mac i) ETHER_TYPE_IPV4 pkt w in
        Ok (env_pcap_sendpacket (S (w_ticks w)) frame) (transmitted frame (tick w))
    | None => Ok 0 (transmitted (who_has dst w) (tick w))
    end.
Proof.
  intros pkt Hc Hb Hl Hm dst. change BUFFER_SIZE with 2048 in Hm. unfold onUvlOutput.
  pose proof (zlen_uninit 8192 ltac:(lia)) as Hu. pose proof (uninit_is_bytes 8192) as Bu. revert Hu Bu.
  generalize (uninit 8192). intros stack Hu Bu.
  rewrite (bind_ok _ _ _ _ w (output_gather_run bufs [] stack w ltac:(fold pkt; rewrite zlen_nil; lia)
    ltac:(rewrite zlen_nil; lia))). fold pkt. cbn [app fst snd]. rewrite zlen_nil, Z.add_0_l.
  set (rest := drop (length pkt) stack).
  assert (Br : is_bytes (pkt ++ rest)) by (apply Forall_app_2; [done|by apply Forall_drop]). clearbody rest.
  unfold lan_play_gateway_send_packet. change IPV4_OFF_DST with 16.
  rewrite mem_get_Some by (rewrite ?zlen_app; zlia).
  rewrite drop_app_le, take_app_le by (unfold zlen in *; rewrite ?length_drop; lia). change (Z.to_nat 4) with 4%nat.
  change (Z.to_nat 16) with 16%nat. fold dst. cbn [mem]. rewrite (bind_ok _ _ _ dst w) by done.
  assert (Hd : is_ip dst).
  { split; [|by apply Forall_take, Forall_drop]. unfold dst, zlen in *. rewrite length_take, length_drop. lia. }
  unfold bind. rewrite arp_get_mac_by_ip_run by done. unfold resolved.
  destruct (arp_find _ _ _) as [i|] eqn:Ef; [|done].
  apply arp_find_live in Ef as (Hin & _ & _). destruct (ctx_arp _ Hc) as [_ Hf]. rewrite Forall_forall in Hf.
  destruct (Hf i Hin) as [_ [Lm Bm]].
  assert (Ech : chain_data [{| p_ptr := pkt ++ rest; p_len := zlen pkt |}] = pkt).
  { unfold chain_data, part_data. cbn. rewrite app_nil_r, to_nat_zlen. apply take_app_length. }
  rewrite send_ether_ok; rewrite ?Ech; try done; try apply Hc.
  - constructor; [|constructor]. split; cbn [p_ptr p_len]; [rewrite zlen_app; zlia|done].
  - apply ctx_ok_buffer_ok, Hc.
  - change (pctx (tick w)) with (pctx w). rewrite (ctx_buffer_len _ Hc). change BUFFER_SIZE with 2048. lia.
Qed.
End output.

(** ** Results *)

(** C37: joining a console to a server directly, over any console side that keeps its
    promises.  In every state reachable from an accepted connection, up to the first close:
    before the server has answered, nothing is read on either side; afterwards, in the
    direction of the server, either the console is being read and nothing is under way, or
    it is not being read and exactly one piece is under way; in the direction of the
    console the same holds, except after the console has gone.  So a direction is never
    stuck and never holds more than one piece, and what was written to the server is what
    the console sent, in order. *)
Theorem tcp_flow `{!ConsoleTcp T} `{!ConsoleLaws T} (c c' : TcpConnection T DirectProxyTcp) s :
  accepted c -> onConnection c = Ok tt c' -> rtc conn_step (session_init c') s ->
  server_bytes (calls s) = se_received s /\
  (closing s = false ->
    if se_connected s then
      ((ct_reading (se_console s) = true /\ se_to_server s = 0%nat) \/
       (ct_reading (se_console s) = false /\ se_to_server s = 1%nat)) /\
      ((p_reading (calls s) = true /\ se_to_console s = 0%nat) \/
       (p_reading (calls s) = false /\ se_to_console s = 1%nat) \/
       (p_reading (calls s) = false /\ se_to_console s = 0%nat /\ ct_ended (se_console s) = true))
    else ct_reading (se_console s) = false /\ p_reading (calls s) = false).
Proof.
  intros Ha E Hs. destruct (flow_reach c c' s Ha E Hs) as [Fb Fu Fd _ Fr]. split; [done|]. intros Hc.
  destruct (se_connected s) eqn:Ek; [by auto|]. by destruct Fb as (? & ? & _).
Qed.

(** A packet from lwIP.  Its buffers, gathered, are sent as one frame to the hardware
    address of its destination if the ARP cache has one; otherwise the packet is dropped,
    one ARP request is broadcast, and the result is 0 as well. *)
Theorem gateway_output `{Env} bufs w :
  let pkt := concat bufs in
  ctx_ok (pctx w) -> is_bytes pkt -> 20 <= zlen pkt -> 14 + zlen pkt < BUFFER_SIZE ->
  let dst := take 4 (drop 16 pkt) in
  onUvlOutput bufs w =
    match arp_find (pc_arp_list (pctx w)) dst (now_at w) with
    | Some i =>
        let frame := framed (ai_mac i) ETHER_TYPE_IPV4 pkt w in
        Ok (env_pcap_sendpacket (S (w_ticks w)) frame) (transmitted frame (tick w))
    | None => Ok 0 (transmitted (who_has dst w) (tick w))
    end.
Proof. apply output_run. Qed.

(** A connection through a SOCKS5 server that is closed before the server has granted
    the request: the first call on the proxy's connection goes through a null pointer.
    This is what happens to a pending connection when the gateway is released. *)
Theorem socks5_tcp_early_close `{Env} `{!ConsoleTcp T} cfg (c : TcpConnection T Socks5ProxyTcp) :
  tc_closing c = false -> sx_tcp (tc_ptcp c) = false ->
  closeCallback (H0 := socks5_tcp cfg) c = Stop NullDeref.
Proof.
  intros Hc Hx. unfold closeCallback, onClosed, kill. unfold bind at 1. unfold gets at 1. rewrite Hc. cbn [negb].
  unfold bind at 1, modify at 1. unfold bind at 1, on_ptcp. cbn. unfold sx_call, bind, gets, id. cbn. by rewrite Hx.
Qed.

(** ** Concrete runs *)

#[local] Existing Instance demo_env.
#[local] Existing Instance sim_env.

Definition demo_base : UvLwipBase :=
  {| ub_closing := false; ub_lwipClosed := false; ub_closingCount := 0; ub_in_set := true; ub_reset := false |}.
Definition demo_client : @uvl_tcp_t (@uv_lwip sim_env) := set_t_read_cb false sim_c0.
Definition demo_accepted : TcpConnection uvl_tcp_t DirectProxyTcp :=
  {| tc_client := demo_client; tc_ptcp := {| dt_calls := [] |}; tc_closing := false;
     tc_base_closing := false; tc_next := 0; tc_lwip := demo_base |}.
Definition demo_after {A} (m : M (TcpConnection uvl_tcp_t DirectProxyTcp) A) (c : TcpConnection uvl_tcp_t DirectProxyTcp)
    : TcpConnection uvl_tcp_t DirectProxyTcp :=
  match m c with Ok _ c' => c' | Stop _ => c end.
Definition demo_started := demo_after onConnection demo_accepted.
Definition demo_joined := demo_after ptcp_onConnect demo_started.
Definition demo_fed := demo_after (readCallback 3 [1; 2; 3]) demo_joined.

Lemma tcp_flow_witness :
  server_bytes (dt_calls (tc_ptcp demo_fed)) = [1; 2; 3] /\ ct_reading (tc_client demo_fed) = false.
Proof.
  destruct (tcp_flow demo_accepted demo_started
    {| se_conn := demo_fed; se_connected := true; se_to_server := 1; se_to_console := 0; se_received := [1; 2; 3] |})
    as [Hb Hc].
  - by split_and!.
  - vm_compute. reflexivity.
  - eapply rtc_l; [apply (SConnect demo_started demo_joined); vm_compute; reflexivity|].
    eapply rtc_l; [|apply rtc_refl].
    apply (SConsoleData [1; 2; 3] (tc_client demo_joined) demo_joined demo_fed true 0 0 []); vm_compute; reflexivity.
  - split; [exact Hb|]. destruct Hc as [[[_ Hf]|[Hr _]] _]; [vm_compute; reflexivity|discriminate Hf|exact Hr].
Defined.

Lemma gateway_output_witness :
  exists r w', onUvlOutput [replicate 16 0 ++ demo_peer; [7; 7]] demo_known = Ok r w' /\
    w_out w' = [EvFrame ([2; 0; 0; 0; 0; 5] ++ demo_mac ++ [8; 0] ++ (replicate 16 0 ++ demo_peer) ++ [7; 7])].
Proof.
  do 2 eexists. split.
  - etransitivity; [apply (gateway_output [replicate 16 0 ++ demo_peer; [7; 7]] demo_known);
      [apply demo_known_ok|vm_compute; repeat (constructor; [split; [discriminate|reflexivity]|]); constructor
      |vm_compute; discriminate|vm_compute; reflexivity]|]. reflexivity.
  - vm_compute. reflexivity.
Defined.

Lemma socks5_tcp_early_close_witness :
  closeCallback (H0 := socks5_tcp demo_cfg)
    {| tc_client := demo_client;
       tc_ptcp := {| sx_tcp := false; sx_protocol := newSocks5Protocol 1 demo_server; sx_calls := [] |};
       tc_closing := false; tc_base_closing := true; tc_next := 0; tc_lwip := demo_base |} = Stop NullDeref.
Proof. apply (socks5_tcp_early_close demo_cfg); reflexivity. Defined.
