(* ===== verification/Gateway.v ===== *)
(** The gateway as a whole: the rest of [src/gateway.cpp], and [UvLwipBase] of
    [uv_lwip/uv_lwip.hpp] with all its connections.

    [gateway_init] chooses a proxy and the kind of connection: one that is joined to a server
    ([TcpConnection] of [TcpProxy]), or, for the fake internet, one that answers any request
    with the page consoles use to test their connection and closes.  The owner of the
    connections keeps them in a set; when it is released it closes each of them and waits for
    them and for lwIP before it gives itself up.

    A connection runs on the state of its owner: [on_connection] hands it the owner's variables and
    takes them back.  The answers of [uv_lwip.c] are arguments, and [CloseLaw] is what closing
    a connection promises.

    Shown here: a connection always has a proxy; the fake page is a response whose length is
    what it says, and it is sent once and then closed; and when the gateway is closed the
    owner is given up once lwIP has reported, exactly if there was a connection then: with
    none it is never freed. *)

From stdpp Require Import gmap strings.
From S2P Require Import Prelude Byteorder Structs Helper Proxy Socks5 UvTcp TcpProxy.

(** ** The code *)

(** *** SwitchFakeTcpConnection *)

Definition CRLF : bytes := [13; 10].
Definition fake_body : bytes :=
  cstr "HTTP/1.1 200 OK" ++ CRLF ++ cstr "Content-Length: 2" ++ CRLF ++ cstr "X-Organization: Nintendo" ++ CRLF ++ CRLF ++ cstr "ok".

(** It has no proxy. *)
Section fake.
Context `{ConsoleTcp T}.
Abbreviation SwitchFakeTcpConnection := (TcpConnection T unit).

Definition fake_onConnection : M SwitchFakeTcpConnection unit := let* _ := conn_write fake_body in ret tt.
Definition fake_onWrite : M SwitchFakeTcpConnection unit := conn_close.
Definition fake_onData (data : bytes) : M SwitchFakeTcpConnection unit := ret tt.
Definition fake_onClose : M SwitchFakeTcpConnection unit := ret tt.
Definition fake_onClosed : M SwitchFakeTcpConnection unit := ret tt.
End fake.

(** The virtual functions of [IConnection] that its owner and [uv_lwip.c] call. *)
Record IConnection (T P : Type) := {
  ic_onConnection : M (TcpConnection T P) unit;
  ic_onData : bytes -> M (TcpConnection T P) unit;
  ic_onWrite : M (TcpConnection T P) unit;
  ic_onClose : M (TcpConnection T P) unit;
  ic_onClosed : M (TcpConnection T P) unit;
}.
Arguments ic_onConnection {T P} _.
Arguments ic_onData {T P} _ _.
Arguments ic_onWrite {T P} _.
Arguments ic_onClose {T P} _.
Arguments ic_onClosed {T P} _.

Definition tcp_connection `{ConsoleTcp T} `{IProxyTcp P} : IConnection T P :=
  {| ic_onConnection := onConnection; ic_onData := onData; ic_onWrite := onWrite; ic_onClose := onClose; ic_onClosed := onClosed |}.
Definition fake_connection `{ConsoleTcp T} : IConnection T unit :=
  {| ic_onConnection := fake_onConnection; ic_onData := fake_onData; ic_onWrite := fake_onWrite; ic_onClose := fake_onClose;
     ic_onClosed := fake_onClosed |}.

(** *** UvLwipBase *)

(** [ow_base] is the state one connection sees; [ow_live]: the connections that hold a
    reference to themselves ([Leakable]). *)
Record owner (T P : Type) := {
  ow_base : UvLwipBase;
  ow_inited : bool;
  ow_connSet : gset nat;
  ow_conns : gmap nat (TcpConnection T P);
  ow_live : gset nat;
  ow_next : nat;
}.
Arguments ow_base {T P} _.
Arguments ow_inited {T P} _.
Arguments ow_connSet {T P} _.
Arguments ow_conns {T P} _.
Arguments ow_live {T P} _.
Arguments ow_next {T P} _.

Definition in_set (b : bool) (u : UvLwipBase) : UvLwipBase :=
  {| ub_closing := ub_closing u; ub_lwipClosed := ub_lwipClosed u; ub_closingCount := ub_closingCount u; ub_in_set := b;
     ub_reset := ub_reset u |}.
Definition new_base : UvLwipBase :=
  {| ub_closing := false; ub_lwipClosed := false; ub_closingCount := 0; ub_in_set := false; ub_reset := false |}.
Definition new_owner {T P} : owner T P :=
  {| ow_base := new_base; ow_inited := false; ow_connSet := ∅; ow_conns := ∅; ow_live := ∅; ow_next := 0 |}.

Section owner.
Context `{ConsoleTcp T} {P : Type} (ops : IConnection T P).

(** An operation of connection [i], on its owner. *)
Definition on_connection {A} (i : nat) (m : M (TcpConnection T P) A) : M (owner T P) A :=
  fun o =>
    match ow_conns o !! i with
    | None => Stop NullDeref
    | Some c =>
        match m (set_tc_lwip (in_set (bool_decide (i ∈ ow_connSet o)) (ow_base o)) c) with
        | Stop e => Stop e
        | Ok a c' =>
            Ok a {| ow_base := in_set false (tc_lwip c'); ow_inited := ow_inited o;
                    ow_connSet := if ub_in_set (tc_lwip c') then ow_connSet o else ow_connSet o ∖ {[i]};
                    ow_conns := <[i := c']> (ow_conns o); ow_live := ow_live o; ow_next := ow_next o |}
        end
    end.

(** [uvl_init], [uvl_bind] and [uvl_listen] returned [rcs]. *)
Definition ow_init (rcs : Z * Z * Z) : M (owner T P) unit :=
  let* o := gets id in
  if ow_inited o then ret tt
  else
    modify (fun o => {| ow_base := ow_base o; ow_inited := true; ow_connSet := ow_connSet o; ow_conns := ow_conns o;
                        ow_live := ow_live o; ow_next := ow_next o |}) ;;;
    RT_ASSERT (rcs.1.1 =? 0) ;;;
    RT_ASSERT (rcs.1.2 =? 0) ;;;
    RT_ASSERT (rcs.2 =? 0).

(** The constructor of a connection and [init]; [tcp_init] is what [uvl_tcp_init] returned. *)
Definition ow_new (tcp_init : Z) (client : T) (ptcp : P) : M (owner T P) nat :=
  RT_ASSERT (tcp_init =? 0) ;;;
  let* o := gets id in
  let i := ow_next o in
  let c := {| tc_client := client; tc_ptcp := ptcp; tc_closing := false; tc_base_closing := false; tc_next := 0; tc_lwip := ow_base o |} in
  modify (fun o => {| ow_base := ow_base o; ow_inited := ow_inited o; ow_connSet := ow_connSet o; ow_conns := <[i := c]> (ow_conns o);
                      ow_live := {[i]} ∪ ow_live o; ow_next := S i |}) ;;;
  ret i.

(** [onConnect]; [newConnection] gives the proxy's side of the new connection, or null;
    [accept] is what [uvl_accept] returned and [client] the connection it filled in. *)
Definition onConnect (status : Z) (newConnection : option P) (tcp_init accept : Z) (client : T) : M (owner T P) unit :=
  (if status =? 0 then ret tt else halt AssertFail) ;;;
  match newConnection with
  | None => halt NullDeref                    (* conn->init() *)
  | Some ptcp =>
      let* i := ow_new tcp_init client ptcp in
      if negb (accept =? 0) then ret tt
      else
        on_connection i (ic_onConnection ops) ;;;
        modify (fun o => {| ow_base := ow_base o; ow_inited := ow_inited o; ow_connSet := {[i]} ∪ ow_connSet o;
                            ow_conns := ow_conns o; ow_live := ow_live o; ow_next := ow_next o |})
  end.

(** The callbacks of connection [i]. *)
Definition ow_read (i : nat) (nread : Z) (data : bytes) : M (owner T P) unit :=
  on_connection i (if 0 <? nread then ic_onData ops data
             else let* closing := gets tc_base_closing in if negb closing then ic_onClose ops else ret tt).
Definition ow_wrote (i : nat) (status : Z) : M (owner T P) unit :=
  on_connection i (if status =? 0 then ic_onWrite ops else ret tt).
Definition ow_closed (i : nat) : M (owner T P) unit :=
  on_connection i (ic_onClosed ops) ;;;
  modify (fun o => {| ow_base := ow_base o; ow_inited := ow_inited o; ow_connSet := ow_connSet o; ow_conns := ow_conns o;
                      ow_live := ow_live o ∖ {[i]}; ow_next := ow_next o |}).

Definition on_owner (m : M UvLwipBase unit) : M (owner T P) unit :=
  fun o => match m (ow_base o) with
           | Ok _ b => Ok tt {| ow_base := b; ow_inited := ow_inited o; ow_connSet := ow_connSet o; ow_conns := ow_conns o;
                                ow_live := ow_live o; ow_next := ow_next o |}
           | Stop e => Stop e
           end.
(** [release] and the callback of its [uvl_close]. *)
Definition release : M (owner T P) unit :=
  let* o := gets id in
  on_owner (release_begin (Z.of_nat (size (ow_connSet o)))) ;;;
  for_each (elements (ow_connSet o)) (fun i => on_connection i conn_close).
Definition uvl_closed : M (owner T P) unit := on_owner onSelfClose.
End owner.

(** *** gateway *)

Inductive proxy_kind := Socks5Proxy (server : sockaddr_in) | DirectProxyKind.
Inductive lwip_kind := FakeInternetUvLwip | UvLwip (proxy : option proxy_kind).
Record gateway := {
  gw_proxy : option proxy_kind;
  gw_uvlwip : option lwip_kind;
}.
Definition setProxy (socks5_proxy_addr : option sockaddr_in) (g : gateway) : gateway :=
  {| gw_proxy := Some match socks5_proxy_addr with Some a => Socks5Proxy a | None => DirectProxyKind end; gw_uvlwip := gw_uvlwip g |}.
(** The new owner starts in its own state; [rcs]: what [init] of the owner got from lwIP. *)
Definition initLwip {T P} (fake_internet : bool) (rcs : Z * Z * Z) (g : gateway) : M (owner T P) gateway :=
  let g := {| gw_proxy := gw_proxy g; gw_uvlwip := Some (if fake_internet then FakeInternetUvLwip else UvLwip (gw_proxy g)) |} in
  (fun _ => Ok tt new_owner) ;;;
  ow_init rcs ;;;
  ret g.
Definition gateway_init {T P} (fake_internet : bool) (socks5_proxy_addr : option sockaddr_in) (rcs : Z * Z * Z) : M (owner T P) gateway :=
  initLwip fake_internet rcs (setProxy socks5_proxy_addr {| gw_proxy := None; gw_uvlwip := None |}).

(** [newConnection] of the two owners, [newTcp] being the proxy's; the fake connection needs
    none. *)
Definition newConnection {P} (newTcp : proxy_kind -> P) (l : lwip_kind) : option (option P) :=
  match l with
  | FakeInternetUvLwip => Some None
  | UvLwip (Some proxy) => Some (Some (newTcp proxy))
  | UvLwip None => None
  end.

(** [gateway_close]: the destructor. *)
Definition gateway_close `{ConsoleTcp T} {P} : M (owner T P) Z := release ;;; ret 0.

(** ** Connections and their owner *)

Definition removed (b b' : UvLwipBase) : Prop := removeConnection b = Ok tt b'.
(** What an operation does to its owner: it leaves the set, any number of times. *)
Definition leaves {T P} (c c' : TcpConnection T P) : Prop := rtc removed (tc_lwip c) (tc_lwip c').
#[export] Instance leaves_preorder {T P} : PreOrder (@leaves T P).
Proof. unfold leaves. split; [by intros ?|]. intros ? ? ?. by etransitivity. Qed.

Section connections.
Context `{ConsoleTcp T} {P : Type}.
Implicit Types c : TcpConnection T P.

Lemma wlp_leaves {A B} (m : M (TcpConnection T P) A) (k : A -> M (TcpConnection T P) B) c :
  wlp m (fun _ => leaves c) c -> (forall a c', wlp (k a) (fun _ => leaves c') c') -> wlp (bind m k) (fun _ => leaves c) c.
Proof.
  intros Hm Hk. apply wlp_bind. eapply wlp_mono; [exact Hm|]. intros a c' Hc. eapply wlp_mono; [apply Hk|]. intros ? c'' Hc'. cbv beta in Hc, Hc'. by etransitivity.
Qed.
Lemma client_leaves {A} (m : M T A) c : wlp (on_client m) (fun _ => leaves c) c.
Proof. unfold wlp, on_client. destruct (m _); [|done]. unfold leaves. by cbn. Qed.
Lemma ptcp_leaves {A} (m : M P A) c : wlp (on_ptcp m) (fun _ => leaves c) c.
Proof. unfold wlp, on_ptcp. destruct (m _); [|done]. unfold leaves. by cbn. Qed.
Lemma ret_leaves {A} (a : A) c : wlp (ret a) (fun _ => leaves c) c.
Proof. unfold wlp, ret. reflexivity. Qed.
Lemma assert_leaves b c : wlp (RT_ASSERT b) (fun _ => leaves c) c.
Proof. destruct b; [apply ret_leaves|done]. Qed.
Lemma stop_leaves c : wlp conn_stop (fun _ => leaves c) c.
Proof. apply wlp_leaves; [apply client_leaves|]. intros r c'. apply assert_leaves. Qed.
Lemma write_leaves data c : wlp (conn_write data) (fun _ => leaves c) c.
Proof.
  unfold conn_write. apply wlp_bind. unfold wlp at 1, gets. apply wlp_bind. unfold wlp at 1, modify. apply wlp_bind.
  eapply wlp_mono; [apply client_leaves|]. intros ? c' Hc. unfold wlp, ret. exact Hc.
Qed.
Lemma close_leaves c : wlp conn_close (fun _ => leaves c) c.
Proof.
  unfold conn_close. apply wlp_leaves.
  - unfold wlp, on_lwip. destruct (removeConnection (tc_lwip c)) as [[] b|] eqn:Er; [|done]. apply rtc_once. exact Er.
  - intros [] c1. apply wlp_bind. unfold wlp at 1, gets. destruct (negb _); [|apply ret_leaves]. apply wlp_bind. unfold wlp at 1, modify.
    apply wlp_bind. eapply wlp_mono; [apply client_leaves|]. intros r c2 Hc. eapply wlp_mono; [apply assert_leaves|]. intros ? c3 Hc3. cbv beta in *.
    etransitivity; [|exact Hc3]. exact Hc.
Qed.
End connections.

(** The callbacks of both kinds of connection treat their owner that way. *)
Record OwnerLaw `{ConsoleTcp T} {P} (ops : IConnection T P) : Prop := {
  ol_connection c : wlp (ic_onConnection ops) (fun _ => leaves c) c;
  ol_data d c : wlp (ic_onData ops d) (fun _ => leaves c) c;
  ol_write c : wlp (ic_onWrite ops) (fun _ => leaves c) c;
  ol_close c : wlp (ic_onClose ops) (fun _ => leaves c) c;
  ol_closed c : wlp (ic_onClosed ops) (fun _ => leaves c) c;
}.
Lemma kill_leaves `{ConsoleTcp T} `{IProxyTcp P} (c : TcpConnection T P) : wlp kill (fun _ => leaves c) c.
Proof.
  unfold kill. apply wlp_bind. unfold wlp at 1, gets. destruct (negb _); [|apply ret_leaves]. apply wlp_bind. unfold wlp at 1, modify.
  apply (wlp_mono _ (fun _ => leaves (set_tc_closing true c))); [|done].
  apply wlp_leaves; [apply ptcp_leaves|]. intros ? c1. apply wlp_leaves; [apply stop_leaves|]. intros ? c2.
  apply wlp_leaves; [apply ptcp_leaves|]. intros ? c3. apply close_leaves.
Qed.
Lemma tcp_owner_law `{ConsoleTcp T} `{IProxyTcp P} : OwnerLaw (tcp_connection (T := T) (P := P)).
Proof.
  split; cbn; intros.
  - unfold onConnection. apply wlp_bind. unfold wlp at 1, gets. apply ptcp_leaves.
  - unfold onData. apply wlp_leaves; [apply stop_leaves|]. intros. apply ptcp_leaves.
  - apply ptcp_leaves.
  - apply kill_leaves.
  - apply kill_leaves.
Qed.
Lemma fake_owner_law `{ConsoleTcp T} : OwnerLaw (fake_connection (T := T)).
Proof.
  split; cbn; intros; [|apply (ret_leaves tt)|apply close_leaves|apply (ret_leaves tt)|apply (ret_leaves tt)].
  unfold fake_onConnection. apply wlp_leaves; [apply write_leaves|]. intros. apply ret_leaves.
Qed.

(** The flags of an owner that is in use, and of one that was released. *)
Definition in_use (b : UvLwipBase) : Prop := ub_closing b = false /\ ub_lwipClosed b = false /\ ub_reset b = false.
Definition going (lwip reset : bool) (b : UvLwipBase) : Prop :=
  ub_closing b = true /\ ub_closingCount b <= 0 /\ ub_lwipClosed b = lwip /\ ub_reset b = reset.
Lemma removed_in_use b b' : rtc removed b b' -> in_use b -> in_use b'.
Proof.
  induction 1 as [|b b1 b2 Hr _ IH]; [done|]. intros (Hc & Hl & Hs). apply IH. unfold removed, removeConnection, bind, gets, id, modify in Hr.
  rewrite Hc in Hr. by injection Hr as [= <-].
Qed.
Lemma removed_going l r b b' : rtc removed b b' -> going l r b -> going l r b'.
Proof.
  induction 1 as [|b b1 b2 Hr _ IH]; [done|]. intros (Hc & Hn & Hl & Hs). apply IH. unfold removed, removeConnection, bind, gets, id, modify in Hr.
  rewrite Hc in Hr. cbn in Hr. rewrite (proj2 (Z.eqb_neq _ _)) in Hr by lia. injection Hr as [= <-]. split; [done|]. split; [cbn; lia|done].
Qed.

Section owners.
Context `{ConsoleTcp T} {P : Type}.
Implicit Types o : owner T P.

Lemma on_conn_wlp {A} i (m : M (TcpConnection T P) A) o :
  (forall c, wlp m (fun _ => leaves c) c) ->
  wlp (on_connection i m) (fun _ o' => (exists b b', rtc removed (in_set b (ow_base o)) b' /\ ow_base o' = in_set false b') /\
    dom (ow_conns o') = dom (ow_conns o) /\ ow_connSet o' ⊆ ow_connSet o) o.
Proof.
  intros Hm. unfold wlp, on_connection. destruct (ow_conns o !! i) as [c|] eqn:Ec; [|done]. set (c0 := set_tc_lwip _ c). specialize (Hm c0). unfold wlp in Hm.
  destruct (m c0) as [a c'|]; [|done]. split; [eexists _, _; split; [exact Hm|reflexivity]|]. cbn. split; [|destruct (ub_in_set _); set_solver].
  rewrite dom_insert_L. apply elem_of_dom_2 in Ec. set_solver.
Qed.

Context (ops : IConnection T P) (Hops : OwnerLaw ops).

(** What happens to an owner: connections come, report, and are closed. *)
Inductive ow_event :=
| OConnect (ptcp : P) (accept : Z) (client : T)
| ORead (i : nat) (nread : Z) (data : bytes)
| OWrote (i : nat) (status : Z)
| OClosed (i : nat).
Definition ow_do (e : ow_event) : M (owner T P) unit :=
  match e with
  | OConnect ptcp accept client => onConnect ops 0 (Some ptcp) 0 accept client
  | ORead i nread data => ow_read ops i nread data
  | OWrote i status => ow_wrote ops i status
  | OClosed i => ow_closed ops i
  end.
Fixpoint ow_run (es : list ow_event) : M (owner T P) unit :=
  match es with [] => ret tt | e :: es => ow_do e ;;; ow_run es end.

Record ow_ok o : Prop := {
  oo_base : in_use (ow_base o);
  oo_set : ow_connSet o ⊆ dom (ow_conns o);
}.
Lemma read_law nread data c :
  wlp (if 0 <? nread then ic_onData ops data else let* closing := gets tc_base_closing in if negb closing then ic_onClose ops else ret tt)
    (fun _ => leaves c) c.
Proof. destruct (0 <? nread); [apply Hops|]. apply wlp_bind. unfold wlp at 1, gets. destruct (negb _); [apply Hops|apply ret_leaves]. Qed.
Lemma wrote_law status c : wlp (if status =? 0 then ic_onWrite ops else ret tt) (fun _ => leaves c) c.
Proof. destruct (status =? 0); [apply Hops|apply ret_leaves]. Qed.
Lemma on_conn_ok {A} i (m : M (TcpConnection T P) A) o :
  (forall c, wlp m (fun _ => leaves c) c) -> ow_ok o -> wlp (on_connection i m) (fun _ => ow_ok) o.
Proof.
  intros Hm [Hb Hs]. eapply wlp_mono; [by apply on_conn_wlp|]. intros ? o' ((b & b' & Hr & Hb') & Hd & Hsub). constructor.
  - rewrite Hb'. apply removed_in_use in Hr; [|exact Hb]. exact Hr.
  - rewrite Hd. set_solver.
Qed.
Lemma ow_do_ok e o : ow_ok o -> wlp (ow_do e) (fun _ => ow_ok) o.
Proof.
  intros Ho. destruct e as [ptcp accept client|i nread data|i status|i]; cbn [ow_do].
  - unfold onConnect, ow_new. cbn [Z.eqb RT_ASSERT]. unfold wlp at 1, bind at 1 2 3 4, ret at 1 2, gets at 1, modify at 1, id. destruct (negb _).
    + destruct Ho as [Hb Hs]. constructor; [done|]. cbn. rewrite dom_insert_L. set_solver.
    + set (i := ow_next o). set (c := {| tc_client := client |}). cbn -[on_connection]. set (o1 := {| ow_base := ow_base o |}).
      assert (Ho1 : ow_ok o1 /\ i ∈ dom (ow_conns o1)).
      { destruct Ho as [Hb Hs]. split; [constructor; [done|]|]; cbn; rewrite dom_insert_L; set_solver. }
      destruct Ho1 as [Ho1 Hi]. unfold bind at 1. pose proof (on_conn_wlp i (ic_onConnection ops) o1 (ol_connection _ Hops)) as Hw.
      pose proof (on_conn_ok i (ic_onConnection ops) o1 (ol_connection _ Hops) Ho1) as Hok. unfold wlp in Hw, Hok.
      destruct (on_connection i (ic_onConnection ops) o1) as [[] o2|]; [|done]. destruct Hw as (_ & Hd & _). destruct Hok as [Hb2 Hs2].
      unfold modify. constructor; [done|]. cbn. rewrite Hd in *. set_solver.
  - apply on_conn_ok; [apply read_law|done].
  - apply on_conn_ok; [apply wrote_law|done].
  - unfold ow_closed. apply wlp_bind. eapply wlp_mono; [apply on_conn_ok; [apply Hops|done]|]. intros ? o' [Hb Hs]. unfold wlp, modify. by constructor.
Qed.
Lemma ow_run_ok es o : ow_ok o -> wlp (ow_run es) (fun _ => ow_ok) o.
Proof. revert o. induction es as [|e es IH]; intros o Ho; [done|]. cbn. apply wlp_bind. eapply wlp_mono; [by apply ow_do_ok|]. intros ? o'. apply IH. Qed.
End owners.

(** ** Releasing the owner *)

(** Closing a connection in order succeeds. *)
Class CloseLaw (T : Type) `{!ConsoleTcp T} := {
  closable : T -> Prop;
  law_close c : closable c -> exists c', ct_close c = Ok 0 c';
}.
(** That is what [uvl_tcp_close] does on a connection whose queue is in order. *)
#[export] Instance uvl_close_law `{Host} `{UvEnv} `{!LwipLaws} : CloseLaw uvl_tcp_t.
Proof.
  refine {| closable c := exists ids W A, inv c ids W A |}. intros c (ids & W & A & Hc).
  destruct (tcp_close_run 0 c ids W A Hc) as (c' & Er & _). by exists c'.
Defined.

Section release.
Context `{!ConsoleTcp T} `{!CloseLaw T} {P : Type}.
Implicit Types o : owner T P.

Lemma removeConnection_total b : exists b', removeConnection b = Ok tt b'.
Proof.
  unfold removeConnection, onSelfClose, bind, gets, id, modify. destruct (ub_closing b); [|by eexists]. cbn. destruct (_ =? 0); [|by eexists].
  destruct (negb _); by eexists.
Qed.
Lemma conn_close_run (c : TcpConnection T P) :
  (tc_base_closing c = false -> closable (tc_client c)) ->
  exists c', conn_close c = Ok tt c' /\ removed (tc_lwip c) (tc_lwip c') /\ tc_base_closing c' = true.
Proof.
  intros Hcl. destruct (removeConnection_total (tc_lwip c)) as [b Hb]. unfold conn_close, on_lwip, bind at 1. rewrite Hb. unfold bind at 1, gets. cbn [tc_base_closing set_tc_lwip].
  destruct (tc_base_closing c) eqn:Ec; cbn [negb].
  - eexists. split; [reflexivity|]. split; [exact Hb|done].
  - unfold bind, modify, on_client. cbn [tc_client set_tc_base_closing set_tc_lwip]. destruct (law_close (tc_client c) (Hcl eq_refl)) as [x Hx]. rewrite Hx.
    cbn [Z.eqb RT_ASSERT]. eexists. split; [reflexivity|]. split; [exact Hb|done].
Qed.

(** The owner with [n] connections still to close. *)
Definition waiting (n : Z) (b : UvLwipBase) : Prop :=
  ub_closing b = true /\ ub_closingCount b = n /\ ub_lwipClosed b = false /\ ub_reset b = false.
Lemma removed_waiting n b b' : waiting n b -> 0 < n -> removed b b' -> ub_in_set b' = ub_in_set b /\ if n =? 1 then going true false b' else waiting (n - 1) b'.
Proof.
  intros (Hc & Hn & Hl & Hr) H0 He. unfold removed, removeConnection, onSelfClose, bind, gets, id, modify in He. rewrite Hc in He. cbn in He. rewrite Hn in He.
  destruct (Z.eqb_spec n 1) as [->|Hne].
  - cbn in He. rewrite Hl in He. injection He as [= <-]. split; [done|]. split; [done|]. split; [cbn; lia|done].
  - rewrite (proj2 (Z.eqb_neq _ _)) in He by lia. injection He as [= <-]. by rewrite ?Hn.
Qed.

Definition all_closing (s : gset nat) o : Prop := forall i, i ∈ s -> exists c, ow_conns o !! i = Some c /\ tc_base_closing c = true.
(** The connections of the set can be closed. *)
Definition ready (l : list nat) o : Prop :=
  forall i c, i ∈ l -> ow_conns o !! i = Some c -> tc_base_closing c = false -> closable (tc_client c).
Lemma close_all_run l o :
  NoDup l -> ready l o -> (forall i, i ∈ l -> i ∈ ow_connSet o /\ i ∈ dom (ow_conns o)) -> l <> [] -> waiting (Z.of_nat (length l)) (ow_base o) ->
  post (for_each l (fun i => on_connection i conn_close)) (fun _ o' => going true false (ow_base o') /\ ow_connSet o' = ow_connSet o /\
    (forall i, i ∈ l -> exists c, ow_conns o' !! i = Some c /\ tc_base_closing c = true) /\
    forall i, i ∉ l -> ow_conns o' !! i = ow_conns o !! i) o.
Proof.
  revert o. induction l as [|i l IH]; intros o Hn Hrd Hin Hne Hw; [done|]. apply NoDup_cons in Hn as [Hi Hn]. cbn [for_each]. apply post_bind.
  destruct (Hin i) as [His [c Hc]%elem_of_dom]; [set_solver|]. unfold post at 1, on_connection. rewrite Hc, bool_decide_true by done.
  destruct (conn_close_run (set_tc_lwip (in_set true (ow_base o)) c)) as (c' & -> & Hr & Hcl); [apply (Hrd i c); [set_solver|done]|].
  destruct (removed_waiting (Z.of_nat (length (i :: l))) (in_set true (ow_base o)) (tc_lwip c')) as [Hset Hb]; [exact Hw|cbn; lia|exact Hr|].
  rewrite Hset. cbn [ub_in_set in_set]. set (o1 := {| ow_base := in_set false (tc_lwip c') |}).
  assert (Hconns : forall j, j ∉ [i] -> ow_conns o1 !! j = ow_conns o !! j) by (intros j Hj; cbn; rewrite lookup_insert_ne; set_solver).
  assert (Hci : ow_conns o1 !! i = Some c') by (cbn; by rewrite lookup_insert_eq).
  destruct l as [|j l].
  - cbn in Hb |- *. apply post_ret. split; [exact Hb|]. split; [done|]. split; [|done]. intros k ->%list_elem_of_singleton. by exists c'.
  - rewrite (proj2 (Z.eqb_neq _ _)) in Hb by (cbn; lia). eapply post_mono; [apply IH; [done| | |done|]|].
    + intros k ck Hk Hck. apply (Hrd k); [set_solver|]. rewrite <- Hconns; [done|]. set_solver.
    + intros k Hk. destruct (Hin k) as [Hk1 Hk2]; [set_solver|]. split; [done|]. cbn. rewrite dom_insert_L. set_solver.
    + replace (Z.of_nat (length (j :: l))) with (Z.of_nat (length (i :: j :: l)) - 1) by (cbn; lia). exact Hb.
    + intros ? o' (Hg & Hs & Hall & Hoth). split; [done|]. split; [done|]. split.
      * intros k [->|Hk]%elem_of_cons; [|by apply Hall]. rewrite Hoth by done. by exists c'.
      * intros k Hk. rewrite Hoth by set_solver. apply Hconns. set_solver.
Qed.

Lemma release_run o :
  ow_ok o -> ready (elements (ow_connSet o)) o ->
  post release (fun _ o' => going (bool_decide (ow_connSet o <> ∅)) false (ow_base o') /\ all_closing (ow_connSet o) o') o.
Proof.
  intros [(Hc & Hl & Hr) Hs] Hrd. unfold release. apply post_bind, post_gets. unfold id. apply post_bind. unfold post at 1, on_owner, release_begin, modify.
  set (o1 := {| ow_inited := ow_inited o |}). destruct (elements (ow_connSet o)) as [|i l] eqn:El.
  - apply elements_empty_inv in El. apply leibniz_equiv in El. rewrite El. cbn [for_each]. apply post_ret.
    split; [|intros i Hi; set_solver]. rewrite bool_decide_false by auto. split; [done|]. split; [cbn; by rewrite El, size_empty|done].
  - eapply post_mono; [apply close_all_run|].
    + rewrite <- El. apply NoDup_elements.
    + exact Hrd.
    + intros k Hk. rewrite <- El in Hk. apply elem_of_elements in Hk. split; [done|]. cbn. set_solver.
    + done.
    + split; [done|]. split; [cbn [ow_base o1 ub_closingCount]|done]. unfold size, set_size. cbn. by rewrite El.
    + intros ? o' (Hg & _ & Hall & _). split.
      * rewrite bool_decide_true; [done|]. intros He. rewrite He, elements_empty in El. done.
      * intros k Hk. apply Hall. rewrite <- El. by apply elem_of_elements.
Qed.

Context (ops : IConnection T P) (Hops : OwnerLaw ops).

(** Reports that arrive after the release: no connections come any more. *)
Definition late (e : ow_event (T := T) (P := P)) : Prop := match e with OConnect _ _ _ => False | _ => True end.
Lemma late_going l r es o : Forall late es -> going l r (ow_base o) -> wlp (ow_run ops es) (fun _ o' => going l r (ow_base o')) o.
Proof.
  intros Hl. revert o. induction Hl as [|e es He Hl IH]; intros o Hg; [done|]. cbn [ow_run]. apply wlp_bind.
  apply (wlp_mono _ (fun _ o' => going l r (ow_base o'))); [|intros ? o'; apply IH].
  assert (Hon : forall A i (m : M (TcpConnection T P) A), (forall c, wlp m (fun _ => leaves c) c) -> wlp (on_connection i m) (fun _ o' => going l r (ow_base o')) o).
  { intros A i m Hm. eapply wlp_mono; [by apply on_conn_wlp|]. intros ? o' ((b & b' & Hr & Hb') & _). rewrite Hb'. apply (removed_going l r) in Hr; [|exact Hg]. exact Hr. }
  destruct e as [|i nread data|i status|i]; [done|..]; cbn [ow_do].
  - apply Hon. by apply read_law.
  - apply Hon. by apply wrote_law.
  - unfold ow_closed. apply wlp_bind. eapply wlp_mono; [apply Hon, Hops|]. intros ? o' Hg'. exact Hg'.
Qed.
End release.

(** ** Results *)

(** The proxy is chosen before the owner of the connections, so a connection has one. *)
Lemma gateway_init_run {T P Q} (newTcp : proxy_kind -> Q) fake a rcs g (o o' : owner T P) :
  gateway_init fake a rcs o = Ok g o' ->
  ow_ok o' /\ rcs = (0, 0, 0) /\ exists l, gw_uvlwip g = Some l /\ is_Some (newConnection newTcp l).
Proof.
  unfold gateway_init, initLwip, ow_init, RT_ASSERT, bind, gets, modify, ret, id. cbn [ow_inited new_owner].
  destruct rcs as [[r1 r2] r3]. cbn [fst snd]. destruct (Z.eqb_spec r1 0) as [->|], (Z.eqb_spec r2 0) as [->|], (Z.eqb_spec r3 0) as [->|]; intros [= <- <-].
  split; [by split|]. split; [done|]. destruct fake; eexists; (split; [reflexivity|]); by eexists.
Qed.

Section results.
Context `{!ConsoleTcp T} `{!CloseLaw T}.

(** C38: From the start of the gateway to its end.  After any connections have come, reported
    and gone, closing the gateway asks every connection in its set to close.  Whatever the connections report
    before lwIP's callback, the owner is kept until then; after it, and whatever is reported
    later, the owner has given itself up exactly if there was a connection when the gateway
    was closed: with none it is never freed. *)
Theorem gateway_close_frees {P : Type} (ops : IConnection T P) fake a rcs g old o0 es o :
  OwnerLaw ops -> gateway_init fake a rcs old = Ok g o0 -> ow_run ops es o0 = Ok tt o ->
  (forall i c, i ∈ ow_connSet o -> ow_conns o !! i = Some c -> tc_base_closing c = false -> closable (tc_client c)) ->
  exists o1, gateway_close o = Ok 0 o1 /\
    (forall i, i ∈ ow_connSet o -> exists c, ow_conns o1 !! i = Some c /\ tc_base_closing c = true) /\
    forall es1 o2, Forall late es1 -> ow_run ops es1 o1 = Ok tt o2 -> ub_reset (ow_base o2) = false /\
    exists o3, uvl_closed o2 = Ok tt o3 /\
    forall es2 o4, Forall late es2 -> ow_run ops es2 o3 = Ok tt o4 ->
      ub_reset (ow_base o4) = bool_decide (ow_connSet o <> ∅).
Proof.
  intros Hops [H0 _]%(gateway_init_run (fun _ => tt)) Hrun Hrd.
  pose proof (wlp_ok _ _ _ _ _ (ow_run_ok ops Hops es o0 H0) Hrun) as Ho. cbv beta in Ho.
  assert (Hre : ready (elements (ow_connSet o)) o) by (intros i c Hi; apply Hrd; by apply elem_of_elements).
  pose proof (release_run o Ho Hre) as ([] & o1 & Er & Hg & Hall)%post_inv. exists o1. split; [unfold gateway_close, bind; by rewrite Er|]. split; [exact Hall|].
  intros es1 o2 Hl1 Hr1. pose proof (wlp_ok _ _ _ _ _ (late_going ops Hops _ _ es1 o1 Hl1 Hg) Hr1) as Hg2. cbv beta in Hg2.
  pose proof Hg2 as (Hc & Hn & Hlw & Hrs). split; [done|]. unfold uvl_closed, on_owner, onSelfClose, bind, gets, id, modify. rewrite Hlw.
  case_bool_decide; cbn [negb]; (eexists; split; [reflexivity|]); intros es2 o4 Hl2 Hr2.
  - eapply (wlp_ok _ (fun _ o' => going true true (ow_base o'))) in Hr2; [|apply late_going; [done|done|by split_and!]]. apply Hr2.
  - eapply (wlp_ok _ (fun _ o' => going true false (ow_base o'))) in Hr2; [|apply late_going; [done|done|by split_and!]]. apply Hr2.
Qed.

(** The body of a response: what follows the empty line. *)
Fixpoint after_headers (s : bytes) : option bytes :=
  match s with
  | [] => None
  | _ :: rest => if bool_decide (take 4 s = CRLF ++ CRLF) then Some (drop 4 s) else after_headers rest
  end.

(** The fake internet.  A console that connects is sent one response, whose body has the
    two bytes that its header announces, and nothing else; when it has been sent, the
    connection is closed and leaves the set of its owner. *)
Theorem fake_internet_answers o client x1 :
  ow_ok (T := T) (P := unit) o -> ct_write 0 fake_body client = Ok 0 x1 -> closable x1 ->
  after_headers fake_body = Some (cstr "ok") /\ zlen (cstr "ok") = 2 /\
  exists o1, onConnect fake_connection 0 (Some tt) 0 0 client o = Ok tt o1 /\
    ow_connSet o1 = {[ow_next o]} ∪ ow_connSet o /\
    (exists c, ow_conns o1 !! ow_next o = Some c /\ tc_client c = x1) /\
  exists o2 x2, ow_wrote fake_connection (ow_next o) 0 o1 = Ok tt o2 /\ ct_close x1 = Ok 0 x2 /\
    (exists c, ow_conns o2 !! ow_next o = Some c /\ tc_client c = x2 /\ tc_base_closing c = true) /\
    ow_connSet o2 = ow_connSet o1 ∖ {[ow_next o]}.
Proof.
  intros [(Hc & Hl & Hr) _] Hw Hcx. split; [vm_compute; reflexivity|]. split; [done|].
  unfold onConnect, ow_new. cbn [Z.eqb RT_ASSERT negb]. unfold bind at 1 2 3 4, ret at 1 2, gets at 1, modify at 1, id.
  cbn [Z.eqb negb ow_next]. set (i := ow_next o). set (c0 := {| tc_client := client |}).
  pose (o0 := {| ow_base := ow_base o; ow_inited := ow_inited o; ow_connSet := ow_connSet o; ow_conns := <[i := c0]> (ow_conns o);
                 ow_live := {[i]} ∪ ow_live o; ow_next := S i |}).
  assert (E1 : exists o1, on_connection i fake_onConnection o0 = Ok tt o1 /\ ow_connSet o1 ∪ {[i]} = {[i]} ∪ ow_connSet o /\ in_use (ow_base o1) /\
    exists c, ow_conns o1 !! i = Some c /\ tc_client c = x1 /\ tc_base_closing c = false).
  { unfold on_connection, fake_onConnection, conn_write. cbn [ow_conns o0]. rewrite lookup_insert_eq. unfold bind, gets, modify, on_client. cbn [tc_client tc_next c0 set_tc_lwip set_tc_next].
    rewrite Hw. eexists. split; [reflexivity|]. cbn [ow_connSet ow_base ow_conns tc_lwip set_tc_client ub_in_set in_set set_tc_next set_tc_lwip]. split; [|split; [done|]].
    - cbn [ow_connSet o0]. case_bool_decide; cbn [ub_in_set]; [set_solver|]. apply leibniz_equiv. intros k. destruct (decide (k = i)); set_solver.
    - eexists. split; [by rewrite lookup_insert_eq|]. done. }
  destruct E1 as (o1' & E1 & Hs1 & Hu1 & c & Hci & Hcl & Hbc). cbn [ic_onConnection fake_connection]. unfold bind, ret, modify. fold o0. rewrite E1.
  eexists. split; [reflexivity|]. cbn [ow_connSet ow_conns]. split; [by rewrite <- Hs1, union_comm_L|]. split; [by exists c|].
  destruct (law_close x1 Hcx) as [x2 Hx2]. unfold ow_wrote, on_connection. cbn [ow_conns ow_connSet ow_base Z.eqb ic_onWrite fake_connection]. rewrite Hci, bool_decide_true by set_solver.
  destruct Hu1 as (Hc1 & Hl1 & Hr1). unfold fake_onWrite, conn_close, on_lwip, removeConnection, bind at 1 2 3, gets at 1, id, modify at 1. cbn [tc_lwip set_tc_lwip ub_closing in_set].
  rewrite Hc1. unfold bind, gets, modify, on_client. cbn [tc_base_closing set_tc_lwip negb tc_client set_tc_base_closing].
  rewrite Hbc. cbn [negb tc_client set_tc_base_closing set_tc_lwip]. rewrite Hcl, Hx2. cbn [Z.eqb RT_ASSERT ret]. eexists _, x2. split; [reflexivity|]. split; [done|].
  cbn [ow_conns ow_connSet ub_in_set tc_lwip set_tc_client set_tc_base_closing set_tc_lwip]. split; [|done]. eexists. split; [by rewrite lookup_insert_eq|]. done.
Qed.
End results.

(** ** Witnesses *)

Module Demo.
(** A console that takes everything: the bytes written to it, and how often it was closed. *)
Record line := { ln_sent : bytes; ln_closes : nat }.
#[export] Instance line_console : ConsoleTcp line :=
  {| ct_reading _ := false; ct_ended _ := false; ct_local_addr _ := {| sin_addr := []; sin_port := [] |};
     ct_read_start := ret (0, false); ct_read_stop := ret 0;
     ct_write _ data c := Ok 0 {| ln_sent := ln_sent c ++ data; ln_closes := ln_closes c |};
     ct_close c := Ok 0 {| ln_sent := ln_sent c; ln_closes := S (ln_closes c) |} |}.
#[export] Instance line_closes : CloseLaw line.
Proof. refine {| closable _ := True |}. intros c _. by eexists. Defined.

Definition fresh : line := {| ln_sent := []; ln_closes := 0 |}.
(** Two consoles connect; the answer to the first has been sent. *)
Definition two_consoles : list (ow_event (T := line) (P := unit)) := [OConnect tt 0 fresh; OConnect tt 0 fresh; OWrote 0 0].
Definition after {A} (m : M (owner line unit) A) (o : owner line unit) : owner line unit := match m o with Ok _ o => o | Stop _ => o end.
Definition started : owner line unit := after (gateway_init true None (0, 0, 0)) new_owner.
Definition one_left : owner line unit := after (ow_run fake_connection two_consoles) started.
End Demo.
Import Demo.

Lemma gateway_close_frees_witness :
  ow_connSet one_left = {[1%nat]} /\
  exists o1, gateway_close one_left = Ok 0 o1 /\ ub_reset (ow_base o1) = false /\
  exists o3, uvl_closed o1 = Ok tt o3 /\ ub_reset (ow_base o3) = true.
Proof.
  split; [vm_compute; reflexivity|].
  destruct (gateway_close_frees fake_connection true None (0, 0, 0)
    {| gw_proxy := Some DirectProxyKind; gw_uvlwip := Some FakeInternetUvLwip |} new_owner started two_consoles one_left) as (o1 & Ec & _ & Hlate).
  - apply fake_owner_law.
  - reflexivity.
  - vm_compute. reflexivity.
  - intros ? ? ? ? ?. exact I.
  - exists o1. split; [exact Ec|]. destruct (Hlate [] o1) as (Hr & o3 & Eu & Hl); [constructor|reflexivity|].
    split; [exact Hr|]. exists o3. split; [exact Eu|]. rewrite (Hl [] o3 (Forall_nil_2 _) eq_refl). vm_compute. reflexivity.
Defined.

(** With nobody connected the owner stays. *)
Example idle_gateway_kept :
  match (gateway_close ;;; uvl_closed) started with
  | Ok _ o => ub_reset (ow_base o)
  | Stop _ => true
  end = false.
Proof. vm_compute. reflexivity. Qed.

Lemma fake_internet_answers_witness :
  exists o1 c, onConnect fake_connection 0 (Some tt) 0 0 fresh one_left = Ok tt o1 /\
    ow_conns o1 !! 2%nat = Some c /\ ln_sent (tc_client c) = fake_body.
Proof.
  destruct (fake_internet_answers one_left fresh {| ln_sent := fake_body; ln_closes := 0 |}) as (_ & _ & o1 & Ec & _ & (c & Hc & Hx) & _).
  - refine (wlp_ok _ _ _ tt _ (ow_run_ok fake_connection fake_owner_law two_consoles started ltac:(by split)) _). vm_compute. reflexivity.
  - reflexivity.
  - exact I.
  - exists o1, c. split; [exact Ec|]. split; [exact Hc|]. by rewrite Hx.
Defined.
